(* ===== verification/_CoqProject ===== *)
-Q . S2P
Prelude.v
Cmd.v
Fail.v
Types.v
Cast.v
Memory.v
Contents.v
IoQueue.v
UserThread.v
MemoryQueue.v
Queue.v
MemoryVtable.v
IoQueueApi.v
Wait.v
PosixOs.v
PosixQueue.v
PosixLaws.v
PosixWire.v
PosixConn.v
PosixIo.v
Libos.v
PosixApi.v
WaitMemory.v
PosixDial.v
PosixServe.v
Checksum.v
LwipOs.v
LwipArp.v
LwipPacket.v
LwipWire.v
LwipQueue.v
LwipDemux.v
LwipIo.v
LwipLaws.v
Router.v
RdmaOs.v
RdmaQueue.v
RdmaLaws.v
RdmaWire.v
RdmaIo.v
RdmaConn.v
RdmaAccept.v
Latency.v
LatencyDump.v
SpdkQueue.v
SpdkLaws.v
SpdkLog.v
Combined.v
CombinedLaws.v
SpdkDpdk.v
SpdkRdma.v
Echo.v
EchoPosix.v
EchoMain.v
EchoServe.v
RawEcho.v
DpdkEcho.v
DpdkEchoWire.v
