(* ===== verification/Prelude.v ===== *)
(** * A verification development for the Demikernel C++ library OSes

    Demikernel offers applications queues with asynchronous operations: a call
    returns a token, and [dmtr_poll]/[dmtr_wait] on the token carry the
    operation out and return its result.  A library OS ([src/src/c++/libos]) is
    the common part (queues, tokens, tasks, coroutines, waiting) with queue
    classes for its devices: memory, POSIX sockets and files, DPDK, RDMA and
    SPDK.  The echo programs of [apps/echo] are clients of it.  Paths below are
    relative to [src/src/c++/libos] unless they start with [include/] (in
    [src/]), [latency/] or [apps/] (in [src/src/c++]).

    ** Reading the model

    C++ functions are commands of [Cmd]: store to result and store, or a stop
    ([Panic]: [dmtr_panic]; [Undef]: undefined behaviour, such as a null or
    dangling pointer, an index outside its array, a division by zero;
    [NoFuel]: a loop of the model ran out of the iterations it was given, which
    the theorems exclude).  The macros of [include/dmtr/fail.h] and
    [include/dmtr/annot.h] are statements of this monad.  [wp] and [wlp] are the
    total and the partial specification of a command, [keeps] a relation
    between the stores before and after that every part of a command keeps.
    Integers have the width the code gives them ([wrap], [swrap]).  Calls of the
    C library, the kernel, librdmacm, libibverbs, SPDK and DPDK are operations of a type
    class per library, over a state of their own: nothing is assumed of them but
    what a theorem states as a hypothesis, and each such theorem has a witness
    in which a concrete device meets it.

    ** Files

    - [Prelude]: error numbers, machine integers, bounded iteration, lists,
      automation.  [Cmd]: commands and their rules.
    - [Fail]: [base/fail.c], [include/dmtr/fail.h], [common/raii_guard.cc]: the
      report of a failed check, which leaves the answers of the macros alone, and
      the guards.
    - [Types]: [include/dmtr/types.h].  [Cast]: [common/cast.c], exact ranges of
      all eighteen casts.  [Memory]: the heap, [base/mem.c], [common/sga.c],
      byte order.
    - [IoQueue]: [common/io_queue.cc], tasks and tokens.  The operations on
      tasks refine the life cycle free, pending, completed; tokens carry their
      descriptor, strictly increase and are never issued twice; the search for
      a free slot ends.
    - [UserThread]: [include/dmtr/libos/user_thread.hh].  A coroutine is a step
      function on its control points; [run] iterates it to the next suspension.
    - [MemoryQueue]: [common/memory_queue.cc].  The class refines an abstract
      queue of asynchronous pushes and pops; first in, first out along any
      interleaving; a waiting pop completes when an element is ready; closed is
      final.
    - [Queue]: the interface between queues and the API: the class [Queue] is the
      vtable of [io_queue] and [QueueLaws] what queues promise.  [MemoryVtable],
      [PosixLaws], [SpdkLaws], [LwipLaws], [RdmaLaws] and [CombinedLaws] discharge
      it.
    - [IoQueueApi]: [common/io_queue_api.cc] and [io_queue_factory.cc] against that
      interface: the state invariant over every call, descriptors and tokens
      never reused, creation all or nothing, closing, polling.
    - [Wait]: [common/wait.cc]: which token [dmtr_wait_any] looks at when (in turn,
      from the one after the last answer), what it returns and drops, that it
      returns when an operation is ready, and when it does not.  [WaitMemory]: the
      first of those on the memory queues of a library OS, over its own
      [dmtr_poll] and [dmtr_drop].
    - [PosixOs] (the system calls), [PosixQueue] ([posix/posix_queue.cc]),
      [PosixWire] (push and pop over a byte stream: the wire format is read back
      from a stream cut into pieces of any size), [PosixConn] (socket, accept,
      close, guards), [PosixIo] (whole operations, from the call to the polled
      result, and their errors).  [PosixApi], [PosixDial] and [PosixServe]: the same operations
      through the exported functions, which is what the programs call; the
      memory after them is the one before with the blocks they name.  [dials] and
      [serves] are what the kernel lets a client and a server do, and in which
      order: which address, which descriptors are open.
    - [Libos]: the exported functions [dmtr_*] of the six [*_libos.cc] files as
      instances of one definition, their state machine and its invariant.
    - [Router]: [rdmacm-common/rdmacm_router.cc]: every live identifier gets its own
      events, all of them and in order.
    - [Latency]: [latency/latency.cc]: what a distribution holds after any samples,
      merging, the printed unit.  [LatencyDump]: the report, line by line, equal to
      one specified by counting samples: the median as the least power of two
      half of them are below, the tail quantiles in floating point, one line per
      bucket from the largest used to the smallest, and a line for each gap.
    - [SpdkQueue] ([spdk/spdk_queue.cc]), [Contents] (what a heap holds) and
      [SpdkLog]: a file queue is a log on the device; pushes append to it, within
      the limits of a sector and of the namespace; initialisation.
    - [lwip/lwip_queue.cc], the DPDK queues.  [Checksum]: [ip_sum], the ones'
      complement sum of its input.  [LwipOs]: the calls of DPDK and the frames of
      the card, the library's static state.  [LwipArp]: the address tables, two
      views of one injective association.  [LwipPacket]: the frame [push] builds
      and the parser of received ones, which read each other back ([LwipWire]).
      [LwipQueue]: the sockets, the coroutines of [push] and [pop], the
      demultiplexer of received frames and [accept].  [LwipDemux]: the receive
      queues are one mailbox per source, in which the stale padding of the
      parser's local addresses counts; the first message of a new source goes to
      the mailbox of its destination too; what is not UDP, or not for a bound
      address, goes to none.  [LwipIo]: whole operations, from the call to the
      polled result.
    - [rdma/rdma_queue.cc], the RDMA queues, on the router.  [RdmaOs]: the libraries,
      the static members and the wrappers.  [RdmaQueue]: the queue pair, the
      receive buffers, completions, the four workers and the methods.
      [RdmaWire]: the messages, and a card that takes what it is given.
      [RdmaIo]: push and pop, from the call to the polled result: messages, the
      send window, refilled buffers, malformed messages.  [RdmaConn]: connecting,
      and what becomes of a connect whose answers are late.  [RdmaAccept]: accepting.
    - [Combined]: [spdk-dpdk/spdk_dpdk_queue.cc] over any two libraries that share a
      heap; [CombinedLaws]: a simulation with labels: every
      call of the combined library, on objects made by its constructors, is the
      same call, with the same answer, on the objects and the world of the library
      behind it, and nothing happens to those of the other; a file that is opened
      has its answer dropped, and [drop] is not forwarded.
      [SpdkDpdk] and [SpdkRdma] ([spdk-rdma/]): the two instances, with their
      initialisation.
    - [Echo]: [apps/echo], the five programs that use the library, over any
      library OS.  [EchoPosix]: the TCP programs on the POSIX library OS, from
      the bytes in the kernel's streams to the variables of the program: the
      server writes the message it received back to the connection it came from,
      and at the second message of a connection frees an array it never wrote;
      the rounds of the client.
      [EchoMain]: the whole client, from [main] to the report, and what it leaves:
      no queue, no descriptor, and one block of memory.
      [EchoServe]: the server from [main], with a peer that comes after any number of
      attempts to accept it, to the echo of its first message.
    - [RawEcho]: [apps/echo/posix_tcp_server.cc] and [posix_tcp_client.cc], which call
      the kernel themselves.  The whole client, when the echoes come back whole; a
      client whose peer has closed reads forever.  The server writes back what it
      read; when the write fails, it goes on with memory it has freed.
    - [DpdkEcho]: [apps/echo/dpdk_common.cpp] and [.h] and the two UDP programs on
      them, which call DPDK themselves.  [DpdkEchoWire]: a datagram that is sent and
      received: the frame byte by byte, and the length of a segment, of which one
      byte is written and eight are read.

    ** Bounds

    A coroutine is run with fuel: the number of control points it passes before
    it suspends.  [mq_fuel] is computed from the queue and enough for a memory
    queue; the theorems on POSIX queues say how much each service needs (5 for a
    push, the length of the stream and 22 for a pop, 5 for accept, 3 for the
    start); an SPDK push needs 3; a DPDK push 4 and pop 5; an RDMA push 5, pop 4,
    connect 4 and accept 5; [ip_sum] folds its carries twice; the wait for an RDMA event
    makes 1000002 polls, as in the source.  The token search may run 2^32 times and is
    bounded by just that.  [wait] loops have fuel; their theorems say when some
    fuel is enough and when none is.  The loops of the echo programs have fuel
    too: the client needs one unit per iteration, and one visit of each wait; on
    plain sockets a read or write loop needs one unit per byte.  The check of the
    link over DPDK visits the ports at most 91 times, as in the source.

    ** Not modelled

    - Debug prints, and the probes compiled under [DMTR_PROFILE]: neither macro is
      defined.  The clock [dmtr_now_ns] is a parameter where it is read.
    - Threads: a call is one step.  The methods of memory queues hold a mutex,
      except that [push] reads the good flag and the thread pointer before it takes
      it; the methods of the other classes are not thread safe in the source.
    - The move constructor of [user_thread], which nothing instantiates (it would
      not compile).
    - [spdk/spdk_queue.cc]'s [parseTransportId], and the static [getsockname],
      [pin] and [unpin] of RDMA queues, which nothing calls or which are empty.
    - The stub [catnip_libos], and the Rust crates behind it, which the C++
      sources do not call.
    - The signal handlers of the echo programs, and what they print.
    - [apps/echo/posix_echo_client.cc], which no build file names and whose timer
      functions do not exist, and the latency probes of [apps/echo/dpdk_common.cpp],
      whose header the repository does not have.
    - The build files.

    ** Plan

    Theorems on the UDP and file programs of [Echo]; memory queues through the
    exported functions. *)
From stdpp Require Export base gmap list fin_maps.
From Stdlib Require Export ZArith Lia Sorted.

Open Scope Z_scope.

(** ** Error numbers

    The values of [errno.h] on the platform the code is built for. *)
Abbreviation EPERM := 1%Z (only parsing).
Abbreviation ENOENT := 2%Z (only parsing).
Abbreviation EBADF := 9%Z (only parsing).
Abbreviation EAGAIN := 11%Z (only parsing).
Abbreviation EWOULDBLOCK := 11%Z (only parsing).
Abbreviation ENOMEM := 12%Z (only parsing).
Abbreviation EEXIST := 17%Z (only parsing).
Abbreviation EINVAL := 22%Z (only parsing).
Abbreviation ENOSPC := 28%Z (only parsing).
Abbreviation ERANGE := 34%Z (only parsing).
Abbreviation ENOMSG := 42%Z (only parsing).
Abbreviation EPROTO := 71%Z (only parsing).
Abbreviation EILSEQ := 84%Z (only parsing).
Abbreviation ENOTSUP := 95%Z (only parsing).
Abbreviation EADDRNOTAVAIL := 99%Z (only parsing).
Abbreviation ECONNABORTED := 103%Z (only parsing).
Abbreviation ECONNRESET := 104%Z (only parsing).
Abbreviation ETIMEDOUT := 110%Z (only parsing).
Abbreviation ECONNREFUSED := 111%Z (only parsing).

(** ** Machine integers

    A [w]-bit integer is a [Z]; [wrap w] is the unsigned representative and
    [swrap w] the two's complement one, so a conversion to an integer type of
    width [w] is written out where the code has it. *)
Definition wrap (w x : Z) : Z := x mod 2 ^ w.
Definition swrap (w x : Z) : Z := (x + 2 ^ (w - 1)) mod 2 ^ w - 2 ^ (w - 1).

Abbreviation u16 := (wrap 16).
Abbreviation u32 := (wrap 32).
Abbreviation u64 := (wrap 64).
Abbreviation i32 := (swrap 32).

Abbreviation UINT32_MAX := 4294967295%Z (only parsing).
Abbreviation SSIZE_MAX := 9223372036854775807%Z (only parsing).

Lemma wrap_range w x : 0 <= w -> 0 <= wrap w x < 2 ^ w.
Proof. intros. apply Z.mod_pos_bound. lia. Qed.

Lemma wrap_small w x : 0 <= x < 2 ^ w -> wrap w x = x.
Proof. apply Z.mod_small. Qed.

Lemma swrap_range w x : 0 < w -> - 2 ^ (w - 1) <= swrap w x < 2 ^ (w - 1).
Proof.
  intros. unfold swrap. pose proof (Z.mod_pos_bound (x + 2 ^ (w - 1)) (2 ^ w)).
  replace (2 ^ w) with (2 * 2 ^ (w - 1)) in *
    by (rewrite <- Z.pow_succ_r by lia; f_equal; lia).
  lia.
Qed.

Lemma swrap_small w x : 0 < w -> - 2 ^ (w - 1) <= x < 2 ^ (w - 1) -> swrap w x = x.
Proof.
  intros. unfold swrap. rewrite Z.mod_small; [lia|].
  replace (2 ^ w) with (2 * 2 ^ (w - 1))
    by (rewrite <- Z.pow_succ_r by lia; f_equal; lia).
  lia.
Qed.

(** ** Automation shared by the components *)
Create HintDb dmtr.

(** Case analysis on the scrutinee of a [match] or [if] of a hypothesis or of
    the goal, keeping the equation. *)
Ltac dcase :=
  match goal with
  | |- context [match ?x with _ => _ end] => destruct x eqn:?; simplify_eq/=
  | H : context [match ?x with _ => _ end] |- _ => destruct x eqn:?; simplify_eq/=
  end.

(** Boolean tests of the code as propositions. *)
Ltac zbool :=
  repeat match goal with
  | H : (_ =? _) = true |- _ => apply Z.eqb_eq in H
  | H : (_ =? _) = false |- _ => apply Z.eqb_neq in H
  | H : (_ <? _) = true |- _ => apply Z.ltb_lt in H
  | H : (_ <? _) = false |- _ => apply Z.ltb_ge in H
  | H : (_ <=? _) = true |- _ => apply Z.leb_le in H
  | H : (_ <=? _) = false |- _ => apply Z.leb_gt in H
  | H : negb _ = true |- _ => apply negb_true_iff in H
  | H : negb _ = false |- _ => apply negb_false_iff in H
  | H : _ && _ = true |- _ => apply andb_true_iff in H; destruct H
  end.

(** ** Bounded iteration

    [ploop p step s] runs [step] at most [p] times from [s] and stops at the
    first [inr].  The bound is binary, so a bound of [2 ^ 32] costs nothing
    until the iterations happen. *)
Fixpoint ploop {S R} (p : positive) (step : S -> S + R) (s : S) : S + R :=
  match p with
  | xH => step s
  | xO p' => match ploop p' step s with inl s' => ploop p' step s' | inr r => inr r end
  | xI p' => match step s with
             | inl s1 => match ploop p' step s1 with inl s' => ploop p' step s' | inr r => inr r end
             | inr r => inr r
             end
  end.

Fixpoint nloop {S R} (n : nat) (step : S -> S + R) (s : S) : S + R :=
  match n with
  | O => inl s
  | Datatypes.S n' => match step s with inl s' => nloop n' step s' | inr r => inr r end
  end.

Lemma nloop_add {S R} (step : S -> S + R) n m s :
  nloop (n + m) step s = match nloop n step s with inl s' => nloop m step s' | inr r => inr r end.
Proof.
  revert s. induction n as [|n IH]; intros s; cbn [nloop Nat.add]; [done|].
  destruct (step s); [apply IH|done].
Qed.

Lemma ploop_nloop {S R} (step : S -> S + R) p s : ploop p step s = nloop (Pos.to_nat p) step s.
Proof.
  revert s. induction p as [p IH|p IH|]; intros s; cbn [ploop].
  - rewrite Pos2Nat.inj_xI. cbn [nloop]. destruct (step s); [|done].
    rewrite IH. replace (2 * Pos.to_nat p)%nat with (Pos.to_nat p + Pos.to_nat p)%nat by lia.
    rewrite nloop_add. destruct (nloop _ _ _); [apply IH|done].
  - rewrite Pos2Nat.inj_xO, IH.
    replace (2 * Pos.to_nat p)%nat with (Pos.to_nat p + Pos.to_nat p)%nat by lia.
    rewrite nloop_add. destruct (nloop _ _ _); [apply IH|done].
  - rewrite Pos2Nat.inj_1. cbn. by destruct (step s).
Qed.

(** A loop with a measure that decreases stops within its bound, and an
    invariant holds where it stops. *)
Lemma ploop_stops {S R} (step : S -> S + R) (I : S -> Prop) (mu : S -> Z) (Q : R -> Prop) p s :
  I s -> mu s < Z.pos p ->
  (forall s, I s -> 0 <= mu s) ->
  (forall s, I s -> match step s with inl s' => I s' /\ mu s' < mu s | inr r => Q r end) ->
  exists r, ploop p step s = inr r /\ Q r.
Proof.
  intros HI Hp Hpos Hstep. rewrite ploop_nloop.
  assert (Hn : mu s < Z.of_nat (Pos.to_nat p)) by lia.
  clear Hp. revert s HI Hn. induction (Pos.to_nat p) as [|n IH]; intros s HI Hn.
  - specialize (Hpos _ HI). lia.
  - cbn [nloop]. specialize (Hstep _ HI). destruct (step s) as [s'|r].
    + destruct Hstep. apply IH; [done|lia].
    + eauto.
Qed.

(** ** Lists *)
Lemma elem_of_take_inv {A} (x : A) n l : x ∈ take n l -> x ∈ l.
Proof. intros H. rewrite <- (take_drop n l). apply elem_of_app. by left. Qed.
Lemma elem_of_drop_inv {A} (x : A) n l : x ∈ drop n l -> x ∈ l.
Proof. intros H. rewrite <- (take_drop n l). apply elem_of_app. by right. Qed.
Lemma list_filter_all {A} (P : A -> Prop) `{forall x, Decision (P x)} (l : list A) :
  (forall x, x ∈ l -> P x) -> filter P l = l.
Proof.
  induction l as [|x l IH]; intros HP; [done|]. rewrite filter_cons.
  rewrite decide_True by (apply HP; by left). f_equal. apply IH. intros y Hy. apply HP. by right.
Qed.
