(* ===== verification/Cmd.v ===== *)
(** * Commands: the effects of the C++ code

    A C++ function call is a [fn S A]: it takes the store [S] to a result and a
    new store, or the process stops.  [Panic] is [dmtr_panic] (a message and
    [abort()], [base/fail.c]); [Undef] is a behaviour the language leaves
    undefined (a null or dangling pointer is dereferenced, an index is outside
    its array); [NoFuel] is not a behaviour of the code: a loop of the model
    ran out of the iterations it was given, and the theorems on loops exclude
    it.

    A statement is a [stmt S A]: it ends normally with a value ([inl]) or
    executes [return e] ([inr e]).  The macros of [include/dmtr/fail.h] and
    [include/dmtr/annot.h] are statements.  [dmtr_fail] only reports the error
    to the registered handler (by default a line on [stderr]) and has no effect
    on the store. *)
From S2P Require Import Prelude.

Inductive result (S A : Type) : Type :=
| Ok (a : A) (s : S)
| Panic
| Undef
| NoFuel.
Arguments Ok {S A} a s.
Arguments Panic {S A}.
Arguments Undef {S A}.
Arguments NoFuel {S A}.

Definition fn (S A : Type) : Type := S -> result S A.
Definition stmt (S A : Type) : Type := fn S (A + Z).

Section commands.
Context {S : Type}.

Definition fret {A} (a : A) : fn S A := fun s => Ok a s.
Definition fbind {A B} (m : fn S A) (k : A -> fn S B) : fn S B := fun s =>
  match m s with
  | Ok a s' => k a s'
  | Panic => Panic
  | Undef => Undef
  | NoFuel => NoFuel
  end.

Definition panic {A} : fn S A := fun _ => Panic.
Definition undef {A} : fn S A := fun _ => Undef.

Definition normal {A} (a : A) : stmt S A := fret (inl a).
Definition return_ {A} (e : Z) : stmt S A := fret (inr e).
Definition sbind {A B} (m : stmt S A) (k : A -> stmt S B) : stmt S B :=
  fbind m (fun r => match r with inl a => k a | inr e => return_ e end).

(** A call inside a function body. *)
Definition call {A} (m : fn S A) : stmt S A := fbind m normal.
Definition get : stmt S S := fun s => Ok (inl s) s.
Definition gets {A} (f : S -> A) : stmt S A := fun s => Ok (inl (f s)) s.
Definition modify (f : S -> S) : stmt S unit := fun s => Ok (inl tt) (f s).
(** A value that does not exist is undefined behaviour. *)
Definition need {A} (o : option A) : stmt S A :=
  match o with Some a => normal a | None => undef end.

(** The body of a function returning [int]; [body_out] is the body of a
    function with an output parameter the code clears first and sets right
    before [return 0]. *)
Definition body (m : stmt S Z) : fn S Z :=
  fbind m (fun r => match r with inl e => fret e | inr e => fret e end).
Definition body_out {O} (dflt : O) (m : stmt S O) : fn S (Z * O) :=
  fbind m (fun r => match r with inl o => fret (0, o) | inr e => fret (e, dflt) end).

Definition DMTR_TRUE (error : Z) (condition : bool) : stmt S unit :=
  if condition then normal tt else return_ error.
Definition DMTR_OK (m : fn S Z) : stmt S unit :=
  fbind m (fun e => if e =? 0 then normal tt else return_ e).
(** [DMTR_OK(f(out, ...))] with an output parameter. *)
Definition DMTR_OK_out {A} (m : fn S (Z * A)) : stmt S A :=
  fbind m (fun r => if fst r =? 0 then normal (snd r) else return_ (fst r)).
Definition DMTR_UNREACHABLE {A} : stmt S A := panic.
Definition DMTR_FAIL {A} (error : Z) : stmt S A :=
  if error =? 0 then DMTR_UNREACHABLE else return_ error.
Definition DMTR_NONZERO (error value : Z) : stmt S unit :=
  DMTR_TRUE error (negb (value =? 0)).
(** Pointers that may be null are options or addresses. *)
Definition DMTR_NOTNULL {A} (error : Z) (p : option A) : stmt S unit :=
  DMTR_TRUE error (match p with Some _ => true | None => false end).
Definition DMTR_NULL {A} (error : Z) (p : option A) : stmt S unit :=
  DMTR_TRUE error (match p with Some _ => false | None => true end).
End commands.

Declare Scope cmd_scope.
Delimit Scope cmd_scope with cmd.
Notation "x <- m ; k" := (sbind m (fun x => k))
  (at level 20, m at level 100, k at level 200, only parsing) : cmd_scope.
Notation "' p <- m ; k" := (sbind m (fun x => match x with p => k end))
  (at level 20, p pattern, m at level 100, k at level 200, only parsing) : cmd_scope.
Notation "m ;; k" := (sbind m (fun _ => k))
  (at level 100, k at level 200, right associativity, only parsing) : cmd_scope.

(** Running a command on a part of a larger store. *)
Definition zoom {T S A} (get : T -> S) (set : S -> T -> T) (m : fn S A) : fn T A := fun t =>
  match m (get t) with
  | Ok a s => Ok a (set s t)
  | Panic => Panic
  | Undef => Undef
  | NoFuel => NoFuel
  end.

(** Running a command on an object that may not exist: a dereference. *)
Definition zoom_opt {T S A} (get : T -> option S) (set : S -> T -> T) (m : fn S A) : fn T A :=
  fun t => match get t with Some s => zoom (fun _ => s) set m t | None => Undef end.

(** ** Reasoning about commands

    [post bad m Q s]: from [s], if [m] returns then it returns a value and a
    store that satisfy [Q], and [bad] says whether the other outcomes are
    allowed.  [wp] excludes them and [wlp] allows them. *)
Definition post {S A} (bad : Prop) (m : fn S A) (Q : A -> S -> Prop) (s : S) : Prop :=
  match m s with Ok a s' => Q a s' | _ => bad end.
Abbreviation wp := (post False).
Abbreviation wlp := (post True).

Section post.
Context {S : Type} (bad : Prop).

Lemma post_mono {A} (m : fn S A) (Q Q' : A -> S -> Prop) s :
  post bad m Q s -> (forall a s', Q a s' -> Q' a s') -> post bad m Q' s.
Proof. unfold post. destruct (m s); auto. Qed.

Lemma post_fret {A} (a : A) Q (s : S) : post bad (fret a) Q s <-> Q a s.
Proof. done. Qed.
Lemma post_fbind {A B} (m : fn S A) (k : A -> fn S B) Q s :
  post bad (fbind m k) Q s <-> post bad m (fun a s' => post bad (k a) Q s') s.
Proof. unfold post, fbind. destruct (m s); done. Qed.
Lemma post_panic {A} Q (s : S) : post bad (panic (A:=A)) Q s <-> bad.
Proof. done. Qed.
Lemma post_undef {A} Q (s : S) : post bad (undef (A:=A)) Q s <-> bad.
Proof. done. Qed.
Lemma post_normal {A} (a : A) Q (s : S) : post bad (normal a) Q s <-> Q (inl a) s.
Proof. done. Qed.
Lemma post_return {A} (e : Z) (Q : A + Z -> S -> Prop) (s : S) :
  post bad (return_ e) Q s <-> Q (inr e) s.
Proof. done. Qed.
Lemma post_sbind {A B} (m : stmt S A) (k : A -> stmt S B) Q s :
  post bad (sbind m k) Q s <->
  post bad m (fun r s' => match r with
                          | inl a => post bad (k a) Q s'
                          | inr e => Q (inr e) s'
                          end) s.
Proof. unfold sbind. rewrite post_fbind. unfold post. destruct (m s) as [[]| | |]; done. Qed.
Lemma post_call {A} (m : fn S A) Q s :
  post bad (call m) Q s <-> post bad m (fun a s' => Q (inl a) s') s.
Proof. unfold call. by rewrite post_fbind. Qed.
Lemma post_get Q (s : S) : post bad get Q s <-> Q (inl s) s.
Proof. done. Qed.
Lemma post_gets {A} (f : S -> A) Q s : post bad (gets f) Q s <-> Q (inl (f s)) s.
Proof. done. Qed.
Lemma post_modify f Q (s : S) : post bad (modify f) Q s <-> Q (inl tt) (f s).
Proof. done. Qed.
Lemma post_need {A} (o : option A) Q (s : S) :
  post bad (need o) Q s <-> match o with Some a => Q (inl a) s | None => bad end.
Proof. by destruct o. Qed.
Lemma post_body (m : stmt S Z) Q s :
  post bad (body m) Q s <->
  post bad m (fun r s' => match r with inl e => Q e s' | inr e => Q e s' end) s.
Proof. unfold body. rewrite post_fbind. unfold post. destruct (m s) as [[]| | |]; done. Qed.
Lemma post_body_out {O} (dflt : O) (m : stmt S O) Q s :
  post bad (body_out dflt m) Q s <->
  post bad m (fun r s' => match r with inl o => Q (0, o) s' | inr e => Q (e, dflt) s' end) s.
Proof. unfold body_out. rewrite post_fbind. unfold post. destruct (m s) as [[]| | |]; done. Qed.
Lemma post_DMTR_TRUE e c Q (s : S) :
  post bad (DMTR_TRUE e c) Q s <-> if c then Q (inl tt) s else Q (inr e) s.
Proof. by destruct c. Qed.
Lemma post_DMTR_OK (m : fn S Z) Q s :
  post bad (DMTR_OK m) Q s <->
  post bad m (fun e s' => if e =? 0 then Q (inl tt) s' else Q (inr e) s') s.
Proof.
  unfold DMTR_OK. rewrite post_fbind. unfold post. destruct (m s); try done.
  by destruct (_ =? _).
Qed.
Lemma post_DMTR_OK_out {A} (m : fn S (Z * A)) Q s :
  post bad (DMTR_OK_out m) Q s <->
  post bad m (fun r s' => if fst r =? 0 then Q (inl (snd r)) s' else Q (inr (fst r)) s') s.
Proof.
  unfold DMTR_OK_out. rewrite post_fbind. unfold post. destruct (m s); try done.
  by destruct (_ =? _).
Qed.
Lemma post_DMTR_FAIL {A} e (Q : A + Z -> S -> Prop) s :
  post bad (DMTR_FAIL e) Q s <-> if e =? 0 then bad else Q (inr e) s.
Proof. unfold DMTR_FAIL. by destruct (_ =? _). Qed.
Lemma post_zoom {T A} (g : T -> S) (set : S -> T -> T) (m : fn S A) Q t :
  post bad (zoom g set m) Q t <-> post bad m (fun a s => Q a (set s t)) (g t).
Proof. unfold post, zoom. by destruct (m (g t)). Qed.
Lemma post_zoom_opt {T A} (g : T -> option S) (set : S -> T -> T) (m : fn S A) Q t :
  post bad (zoom_opt g set m) Q t <->
  match g t with Some s => post bad m (fun a s' => Q a (set s' t)) s | None => bad end.
Proof. unfold zoom_opt, post, zoom. destruct (g t) as [s|]; [|done]. by destruct (m s). Qed.
End post.

Create Rewrite HintDb post.
#[export] Hint Rewrite @post_fret @post_fbind @post_panic @post_undef @post_normal
  @post_return @post_sbind @post_call @post_get @post_gets @post_modify @post_need
  @post_body @post_body_out @post_DMTR_TRUE @post_DMTR_OK @post_DMTR_OK_out @post_DMTR_FAIL @post_zoom
  @post_zoom_opt : post.

(** [wp] and [wlp] of a straight-line piece of code, computed. *)
Ltac post_simp := autorewrite with post; cbn beta iota match.

Lemma wp_Ok {S A} (m : fn S A) Q s :
  post False m Q s <-> exists a s', m s = Ok a s' /\ Q a s'.
Proof.
  unfold post. split.
  - destruct (m s); naive_solver.
  - intros (a & s' & -> & HQ). done.
Qed.

(** The value and the store it returns, exactly. *)
Lemma wp_eq {S A} (m : fn S A) a (s s' : S) : post False m (fun a0 s0 => a0 = a /\ s0 = s') s -> m s = Ok a s'.
Proof. unfold post. destruct (m s); [by intros [-> ->]|done..]. Qed.

Lemma post_eq {S A} bad (m : fn S A) a s s' (Q : A -> S -> Prop) : m s = Ok a s' -> Q a s' -> post bad m Q s.
Proof. unfold post. by intros ->. Qed.

Lemma sbind_Ok {S A B} (m : stmt S A) (k : A -> stmt S B) a s s' : m s = Ok (inl a) s' -> sbind m k s = k a s'.
Proof. intros E. unfold sbind, fbind. by rewrite E. Qed.

Lemma wlp_Ok {S A} (m : fn S A) Q s :
  post True m Q s <-> forall a s', m s = Ok a s' -> Q a s'.
Proof.
  unfold post. split.
  - destruct (m s); naive_solver.
  - destruct (m s) eqn:E; naive_solver.
Qed.

(** ** Commands that keep a relation

    [keeps R m]: whatever [m] does relates the store before to the store after.
    For a preorder it is enough that the parts of [m] do. *)
Definition keeps {S A} (R : S -> S -> Prop) (m : fn S A) : Prop := forall s, wlp m (fun _ s' => R s s') s.

Section keeps.
Context {S : Type} (R : S -> S -> Prop) `{HR : !PreOrder R}.

Lemma keeps_fret {A} (a : A) : keeps R (fret a).
Proof. intros s. unfold post. cbn. reflexivity. Qed.
Lemma keeps_fbind {A B} (m : fn S A) (k : A -> fn S B) :
  keeps R m -> (forall a, keeps R (k a)) -> keeps R (fbind m k).
Proof.
  intros Hm Hk s. rewrite post_fbind. eapply post_mono; [apply Hm|]. cbn. intros a s' Hs.
  eapply post_mono; [apply Hk|]. cbn. intros b s'' Hs'. by transitivity s'.
Qed.
Lemma keeps_panic {A} : keeps R (panic (A:=A)).
Proof. done. Qed.
Lemma keeps_undef {A} : keeps R (undef (A:=A)).
Proof. done. Qed.
Lemma keeps_normal {A} (a : A) : keeps R (normal a).
Proof. apply keeps_fret. Qed.
Lemma keeps_return {A} e : keeps R (return_ (A:=A) e).
Proof. apply keeps_fret. Qed.
Lemma keeps_sbind {A B} (m : stmt S A) (k : A -> stmt S B) :
  keeps R m -> (forall a, keeps R (k a)) -> keeps R (sbind m k).
Proof. intros Hm Hk. apply keeps_fbind; [done|]. intros [a|e]; [apply Hk|apply keeps_fret]. Qed.
Lemma keeps_body (m : stmt S Z) : keeps R m -> keeps R (body m).
Proof. intros Hm. apply keeps_fbind; [done|]. intros [a|e]; apply keeps_fret. Qed.
Lemma keeps_body_out {O} (dflt : O) (m : stmt S O) : keeps R m -> keeps R (body_out dflt m).
Proof. intros Hm. apply keeps_fbind; [done|]. intros [a|e]; apply keeps_fret. Qed.
Lemma keeps_get : keeps R get.
Proof. intros s. unfold post. cbn. reflexivity. Qed.
Lemma keeps_gets {A} (f : S -> A) : keeps R (gets f).
Proof. intros s. unfold post. cbn. reflexivity. Qed.
Lemma keeps_modify f : (forall s, R s (f s)) -> keeps R (modify f).
Proof. intros Hf s. apply Hf. Qed.
Lemma keeps_TRUE e c : keeps R (DMTR_TRUE e c).
Proof. destruct c; apply keeps_fret. Qed.
Lemma keeps_OK (m : fn S Z) : keeps R m -> keeps R (DMTR_OK m).
Proof. intros Hm. apply keeps_fbind; [done|]. intros e. destruct (e =? 0); apply keeps_fret. Qed.
Lemma keeps_OK_out {A} (m : fn S (Z * A)) : keeps R m -> keeps R (DMTR_OK_out m).
Proof. intros Hm. apply keeps_fbind; [done|]. intros r. destruct (fst r =? 0); apply keeps_fret. Qed.
Lemma keeps_need {A} (o : option A) : keeps R (need o).
Proof. destruct o; [apply keeps_fret|done]. Qed.
Lemma keeps_FAIL {A} e : keeps R (DMTR_FAIL (A:=A) e).
Proof. unfold DMTR_FAIL. destruct (e =? 0); [done|apply keeps_fret]. Qed.
Lemma keeps_call {A} (m : fn S A) : keeps R m -> keeps R (call m).
Proof. intros Hm. apply keeps_fbind; [done|]. intros a. apply keeps_fret. Qed.
End keeps.

(** One step of a proof of [keeps]. *)
Ltac keeps_step :=
  lazymatch goal with
  | |- keeps _ (fret _) => apply keeps_fret; apply _
  | |- keeps _ (normal _) => apply keeps_normal; apply _
  | |- keeps _ (return_ _) => apply keeps_return; apply _
  | |- keeps _ panic => apply keeps_panic
  | |- keeps _ undef => apply keeps_undef
  | |- keeps _ (body _) => apply keeps_body; [apply _|]
  | |- keeps _ (body_out _ _) => apply keeps_body_out; [apply _|]
  | |- keeps _ (sbind _ _) => apply keeps_sbind; [apply _| |intros ?]
  | |- keeps _ (fbind _ _) => apply keeps_fbind; [apply _| |intros ?]
  | |- keeps _ get => apply keeps_get; apply _
  | |- keeps _ (gets _) => apply keeps_gets; apply _
  | |- keeps _ (DMTR_TRUE _ _) => apply keeps_TRUE; apply _
  | |- keeps _ (DMTR_NONZERO _ _) => apply keeps_TRUE; apply _
  | |- keeps _ (DMTR_NOTNULL _ _) => apply keeps_TRUE; apply _
  | |- keeps _ (DMTR_NULL _ _) => apply keeps_TRUE; apply _
  | |- keeps _ (need _) => apply keeps_need; apply _
  | |- keeps _ (DMTR_FAIL _) => apply keeps_FAIL; apply _
  | |- keeps _ DMTR_UNREACHABLE => apply keeps_panic
  | |- keeps _ (DMTR_OK _) => apply keeps_OK; [apply _|]
  | |- keeps _ (DMTR_OK_out _) => apply keeps_OK_out; [apply _|]
  | |- keeps _ (call _) => apply keeps_call; [apply _|]
  end.

(** ** What a statement can return

    [returns m P]: ending normally, [m] gives a value that satisfies [P]; the
    errors it returns are not 0. *)
Definition returns {S A} (m : stmt S A) (P : A -> Prop) : Prop :=
  forall s, wlp m (fun r _ => match r with inl a => P a | inr e => e <> 0 end) s.

Section returns.
Context {S : Type}.
Lemma returns_normal {A} (a : A) (P : A -> Prop) : P a -> returns (S:=S) (normal a) P.
Proof. by intros HP s. Qed.
Lemma returns_call {A} (m : fn S A) : returns (call m) (fun _ => True).
Proof. intros s. unfold post, call, fbind. by destruct (m s). Qed.
Lemma returns_TRUE e c : e <> 0 -> returns (S:=S) (DMTR_TRUE e c) (fun _ => True).
Proof. intros He s. by destruct c. Qed.
Lemma returns_OK (m : fn S Z) : returns (DMTR_OK m) (fun _ => True).
Proof.
  intros s. unfold post, DMTR_OK, fbind. destruct (m s) as [e s'| | |]; try done.
  destruct (e =? 0) eqn:E; zbool; done.
Qed.
Lemma returns_sbind {A B} (m : stmt S A) (k : A -> stmt S B) P :
  returns m (fun _ => True) -> (forall a, returns (k a) P) -> returns (sbind m k) P.
Proof.
  intros Hm Hk s. rewrite post_sbind. eapply post_mono; [apply Hm|]. cbn. intros [a|e] s' H; [apply Hk|done].
Qed.
Lemma returns_body_out {O} (dflt : O) (m : stmt S O) P s :
  returns m P -> wlp (body_out dflt m) (fun r _ => fst r = 0 -> P (snd r)) s.
Proof.
  intros Hm. rewrite post_body_out. eapply post_mono; [apply Hm|]. cbn. by intros [a|e] s' H ?.
Qed.
Lemma post_and {A} bad (m : fn S A) (P Q : A -> S -> Prop) s :
  post bad m P s -> wlp m Q s -> post bad m (fun a s' => P a s' /\ Q a s') s.
Proof. unfold post. by destruct (m s). Qed.
End returns.
