(* ===== verification/Fail.v ===== *)
(** * Reporting failures, and guards: [base/fail.c], [fail.h], [common/raii_guard.cc]

    The macros of [Cmd] return the error a check fails with; here they also
    report it, through the handler that [dmtr_onfail] registers, and the report
    is shown to leave their answer alone.  A report is a line on [stderr]:
    [fprintf] and [strerror] belong to the C library and are parameters, on the
    state [S] of the process. *)
From stdpp Require Import strings pretty.
From S2P Require Import Prelude Cmd.
Open Scope Z_scope.
Open Scope cmd_scope.

Section fail.
Context {S : Type} (fprintf : string -> fn S Z) (strerror : Z -> string).

(** The arguments of a handler: error, expression, function or null, file and
    line. *)
Definition dmtr_onfail_t : Type := Z -> string -> option string -> string -> Z -> fn S unit.

(** The static [current_onfail], and the rest of the process. *)
Record reporting := mk_reporting { current_onfail : dmtr_onfail_t; r_state : S }.
Definition set_r_state (s : S) (r : reporting) : reporting := mk_reporting (current_onfail r) s.

(** The process prints and stops; what is printed is out of reach. *)
Definition dmtr_panic (why_arg filen_arg : option string) (lineno_arg : Z) : fn S unit :=
  let why_arg := default "*unspecified*"%string why_arg in
  let filen_arg := default "*unspecified*"%string filen_arg in
  fbind (fprintf ("*** panic in line " +:+ pretty lineno_arg +:+ " of `" +:+ filen_arg +:+ "`: " +:+ why_arg)%string) (fun _ => panic).

Definition err_msg (error_arg : Z) : string :=
  if error_arg >? 0 then strerror error_arg else "error message is undefined"%string.
Definition fail_line (error_arg : Z) (expr_arg : string) (fnn_arg : option string) (filen_arg : string) (lineno_arg : Z) : string :=
  ("FAIL (" +:+ pretty error_arg +:+ " => " +:+ err_msg error_arg +:+ ")" +:+
   match fnn_arg with None => "" | Some fnn => " in " +:+ fnn +:+ "," end +:+
   " at " +:+ filen_arg +:+ ", line " +:+ pretty lineno_arg +:+ ": " +:+ expr_arg)%string.

(** [__FILE__] and [__LINE__] of a panic in [fail.c]. *)
Definition fail_panic (why : string) (line : Z) : fn S unit := dmtr_panic (Some why) (Some "fail.c"%string) line.
Definition default_onfail : dmtr_onfail_t := fun error_arg expr_arg fnn_arg filen_arg lineno_arg =>
  fbind (if 0 =? error_arg then fail_panic "attempt to fail with a success code." 53 else fret tt) (fun _ =>
  fbind (fprintf (fail_line error_arg expr_arg fnn_arg filen_arg lineno_arg)) (fun n =>
  if n <? 1 then fail_panic "fprintf() failed." (match fnn_arg with None => 69 | Some _ => 75 end) else fret tt)).

Definition dmtr_onfail (onfail_arg : option dmtr_onfail_t) : fn reporting unit := fun r =>
  Ok tt (mk_reporting (default default_onfail onfail_arg) (r_state r)).

Definition dmtr_fail (error_arg : Z) (expr_arg : string) (fnn_arg : option string) (filen_arg : string) (lineno_arg : Z) :
    fn reporting unit := fun r =>
  zoom r_state set_r_state (current_onfail r error_arg expr_arg fnn_arg filen_arg lineno_arg) r.

(** ** The macros of [fail.h], with their report

    [expr], [file] and [line] are what the macro stringifies. *)
Section macros.
Context (expr file : string) (line : Z).
Definition DMTR_TRUE_reporting (error : Z) (condition : bool) : stmt reporting unit :=
  if negb condition then call (dmtr_fail error expr None file line) ;; return_ error else normal tt.
Definition DMTR_OK_reporting (m : fn reporting Z) : stmt reporting unit :=
  fbind m (fun error =>
  if negb (0 =? error) then call (dmtr_fail error expr None file line) ;; return_ error else normal tt).
End macros.

(** ** Properties *)

(** A handler that returns: it neither stops the process nor fails. *)
Definition handler_returns (h : dmtr_onfail_t) : Prop :=
  forall e expr fnn file line s, e <> 0 -> exists s', h e expr fnn file line s = Ok tt s'.
(** Forgetting what reporting does to the process. *)
Definition silently {A} (r : result reporting A) : option A :=
  match r with Ok a _ => Some a | _ => None end.

Lemma default_returns : (forall text s, exists n s', fprintf text s = Ok n s' /\ 1 <= n) -> handler_returns default_onfail.
Proof.
  intros Hp e expr fnn file line s He. unfold default_onfail, fbind. rewrite (proj2 (Z.eqb_neq _ _)) by lia. cbn.
  destruct (Hp (fail_line e expr fnn file line) s) as (n & s' & -> & Hn). rewrite (proj2 (Z.ltb_ge _ _)) by lia. by eexists.
Qed.
Lemma dmtr_fail_returns e expr fnn file line r :
  handler_returns (current_onfail r) -> e <> 0 -> exists s', dmtr_fail e expr fnn file line r = Ok tt (set_r_state s' r).
Proof. intros Hh He. destruct (Hh e expr fnn file line (r_state r) He) as [s' E]. exists s'. unfold dmtr_fail, zoom. by rewrite E. Qed.

(** The macros answer what those of [Cmd] answer. *)
Lemma DMTR_TRUE_reporting_ok expr file line error condition r :
  handler_returns (current_onfail r) -> error <> 0 ->
  silently (DMTR_TRUE_reporting expr file line error condition r) = silently (DMTR_TRUE error condition r).
Proof.
  intros Hh He. unfold DMTR_TRUE_reporting, DMTR_TRUE. destruct condition; cbn [negb]; [done|].
  destruct (dmtr_fail_returns error expr None file line r Hh He) as [s' E].
  unfold sbind, call, fbind. by rewrite E.
Qed.
Lemma DMTR_OK_reporting_ok expr file line (m : fn reporting Z) r :
  (forall a r', m r = Ok a r' -> current_onfail r' = current_onfail r) -> handler_returns (current_onfail r) ->
  silently (DMTR_OK_reporting expr file line m r) = silently (DMTR_OK m r).
Proof.
  intros Hm Hh. unfold DMTR_OK_reporting, DMTR_OK, fbind. destruct (m r) as [e r'| | |] eqn:E; try done.
  rewrite (Z.eqb_sym 0 e). destruct (e =? 0) eqn:E0; zbool; cbn [negb]; [done|].
  destruct (dmtr_fail_returns e expr None file line r') as [s' E']; [by rewrite (Hm _ _ eq_refl)|done|].
  unfold sbind, call, fbind. by rewrite E'.
Qed.
End fail.

(** ** [raii_guard] *)
Module raii_guard.
Section guard.
Context {S : Type}.

(** [my_dtor] is a [std::function], never empty. *)
Record raii_guard := mk_raii_guard { my_dtor : fn S unit }.

Definition raii_guard_ctor (dtor : fn S unit) : raii_guard := mk_raii_guard dtor.
Definition cancel : fn raii_guard unit := fun _ => Ok tt (mk_raii_guard (fret tt)).
(** The new guard; [other] is cancelled. *)
Definition raii_guard_move : fn raii_guard raii_guard := fun other =>
  fbind cancel (fun _ => fret (mk_raii_guard (my_dtor other))) other.
(** The end of the scope. *)
Definition raii_guard_dtor (g : raii_guard) : fn S unit := my_dtor g.

(** Whatever the order in which a guard that was moved and the guard it was
    moved to leave their scopes, the function is called once. *)
Lemma moved_runs_once (f : fn S unit) s :
  exists g g', raii_guard_move (raii_guard_ctor f) = Ok g' g /\
    fbind (raii_guard_dtor g) (fun _ => raii_guard_dtor g') s = f s /\
    fbind (raii_guard_dtor g') (fun _ => raii_guard_dtor g) s = f s.
Proof.
  do 2 eexists. split; [done|]. split; [done|]. cbn. unfold fbind, raii_guard_dtor. cbn. destruct (f s) as [[] s'| | |]; done.
Qed.
End guard.
End raii_guard.
