(* ===== verification/Types.v ===== *)
(** * The data types of [include/dmtr/types.h]

    Pointers are addresses ([Z], 0 is [NULL]) into the heap of [Memory]; the
    fields of the structures keep their names. *)
From S2P Require Import Prelude Cmd.

Definition DMTR_SGARRAY_MAXSIZE : nat := 1.
Definition DMTR_HEADER_MAGIC : Z := 0x10102010.
Definition QD_OFFSET : Z := 32.

(** [QT2QD(qtoken)], on the 64-bit [dmtr_qtoken_t]. *)
Definition QT2QD (qtoken : Z) : Z := Z.shiftr qtoken QD_OFFSET.

Record dmtr_sgaseg := mk_sgaseg { sgaseg_buf : Z; sgaseg_len : Z }.

(** [struct sockaddr_in]; [sin_zero] is its eight bytes of padding. *)
Record sockaddr_in := mk_sockaddr_in { sin_family : Z; sin_port : Z; sin_addr : Z; sin_zero : Z }.
Definition AF_INET : Z := 2.
Definition INADDR_ANY : Z := 0.

(** [sga_segs] is an array of [DMTR_SGARRAY_MAXSIZE] segments. *)
Record dmtr_sgarray := mk_sgarray {
  sga_buf : Z;
  sga_numsegs : Z;
  sga_segs : list dmtr_sgaseg;
  sga_addr : sockaddr_in
}.

Inductive dmtr_opcode :=
| DMTR_OPC_INVALID | DMTR_OPC_PUSH | DMTR_OPC_POP | DMTR_OPC_ACCEPT | DMTR_OPC_CONNECT.

#[export] Instance dmtr_opcode_eq_dec : EqDecision dmtr_opcode.
Proof. solve_decision. Defined.
#[export] Instance sockaddr_in_eq_dec : EqDecision sockaddr_in.
Proof. solve_decision. Defined.
#[export] Instance sockaddr_in_countable : Countable sockaddr_in.
Proof.
  refine (inj_countable' (fun a => (sin_family a, sin_port a, sin_addr a, sin_zero a))
    (fun '(f, p, a, z) => mk_sockaddr_in f p a z) _).
  by intros [].
Defined.
#[export] Instance dmtr_sgaseg_eq_dec : EqDecision dmtr_sgaseg.
Proof. solve_decision. Defined.
#[export] Instance dmtr_sgarray_eq_dec : EqDecision dmtr_sgarray.
Proof. solve_decision. Defined.

Definition opcode_eqb (a b : dmtr_opcode) : bool := bool_decide (a = b).

(** The union [qr_value]: which member was written last. *)
Inductive qr_value_t :=
| qv_sga (sga : dmtr_sgarray)
| qv_ares (qd : Z) (addr : sockaddr_in).

Record dmtr_qresult := mk_qresult {
  qr_opcode : dmtr_opcode;
  qr_qd : Z;
  qr_qt : Z;
  qr_value : qr_value_t
}.

Record dmtr_header := mk_header { h_magic : Z; h_bytes : Z; h_sgasegs : Z }.
Definition sizeof_header : Z := 12.

(** Zero-initialised structures, the [= {}] of the code. *)
Definition sockaddr_zero : sockaddr_in := mk_sockaddr_in 0 0 0 0.
Definition sgaseg_zero : dmtr_sgaseg := mk_sgaseg 0 0.
Definition sgarray_zero : dmtr_sgarray :=
  mk_sgarray 0 0 (repeat sgaseg_zero DMTR_SGARRAY_MAXSIZE) sockaddr_zero.
Definition qresult_zero : dmtr_qresult := mk_qresult DMTR_OPC_INVALID 0 0 (qv_sga sgarray_zero).

(** [qr_value.ares.qd]: an [int] at offset 0 of the union.  When the member
    written last is [sga], those four bytes are the low half of the pointer
    [sga_buf] (the target is little endian). *)
Definition ares_qd (v : qr_value_t) : Z :=
  match v with
  | qv_ares qd _ => qd
  | qv_sga sga => i32 (sga_buf sga)
  end.

(** Assigning [qr_value.ares.qd] alone; the address stays when the union holds
    an accept result. *)
Definition set_ares_qd (qd : Z) (v : qr_value_t) : qr_value_t :=
  match v with
  | qv_ares _ addr => qv_ares qd addr
  | qv_sga sga => qv_sga (mk_sgarray (Z.lor (Z.shiftl (Z.shiftr (sga_buf sga) 32) 32) (u32 qd))
                            (sga_numsegs sga) (sga_segs sga) (sga_addr sga))
  end.

Definition set_qr_opcode (o : dmtr_opcode) (r : dmtr_qresult) : dmtr_qresult :=
  mk_qresult o (qr_qd r) (qr_qt r) (qr_value r).
Definition set_qr_value (v : qr_value_t) (r : dmtr_qresult) : dmtr_qresult :=
  mk_qresult (qr_opcode r) (qr_qd r) (qr_qt r) v.
