(* ===== verification/Cast.v ===== *)
(** * Checked integer conversions: [src/c++/libos/common/cast.c]

    A C integer type is its signedness and width; [conv t x] is the conversion
    of [x] to [t].  A cast function takes the output pointer ([None] for
    [NULL]) and returns its error code and what the pointer then points at. *)
From S2P Require Import Prelude.

Record ctype := mk_ctype { ct_signed : bool; ct_width : Z }.

Definition conv (t : ctype) (x : Z) : Z :=
  if ct_signed t then swrap (ct_width t) x else wrap (ct_width t) x.
Definition cmin (t : ctype) : Z := if ct_signed t then - 2 ^ (ct_width t - 1) else 0.
Definition cmax (t : ctype) : Z := if ct_signed t then 2 ^ (ct_width t - 1) - 1 else 2 ^ ct_width t - 1.
Definition in_ctype (t : ctype) (x : Z) : bool := (cmin t <=? x) && (x <=? cmax t).

(** The types of an LP64 target. *)
Definition c_char := mk_ctype true 8.
Definition c_uchar := mk_ctype false 8.
Definition c_short := mk_ctype true 16.
Definition c_ushort := mk_ctype false 16.
Definition c_int := mk_ctype true 32.
Definition c_uint := mk_ctype false 32.
Definition c_long := mk_ctype true 64.
Definition c_ulong := mk_ctype false 64.
Definition uintmax_t := c_ulong.

(** [DMTR_CAST_MATCHING]: the error code and the value written to [*(To)]. *)
Definition DMTR_CAST_MATCHING (ToType : ctype) (From : Z) (FromType : ctype) : Z * Z :=
  let Tmp := conv ToType From in
  if conv FromType Tmp =? From then (0, Tmp) else (ERANGE, 0).

Definition DMTR_CAST_UTOI (ToType : ctype) (ToMax From : Z) : Z * Z :=
  let Tmp := conv uintmax_t From in
  if Tmp <=? conv uintmax_t ToMax then (0, conv ToType From) else (ERANGE, 0).

Definition DMTR_CAST_ITOU (ToType : ctype) (ToMax From : Z) : Z * Z :=
  if From >=? 0 then
    let Tmp := conv uintmax_t From in
    if Tmp <=? conv uintmax_t ToMax then (0, conv ToType From) else (ERANGE, 0)
  else (ERANGE, 0).

(** [DMTR_NOTNULL(EINVAL, to_arg)] before the conversion. *)
Definition cast_body (conversion : Z * Z) (to_arg : option Z) : Z * option Z :=
  match to_arg with
  | None => (EINVAL, None)
  | Some _ => (fst conversion, Some (snd conversion))
  end.

Definition dmtr_ultoc to_arg from_arg := cast_body (DMTR_CAST_UTOI c_char (cmax c_char) from_arg) to_arg.
Definition dmtr_sztoi32 to_arg from_arg := cast_body (DMTR_CAST_UTOI c_int (cmax c_int) from_arg) to_arg.
Definition dmtr_ssztoi32 to_arg from_arg := cast_body (DMTR_CAST_MATCHING c_int from_arg c_long) to_arg.
Definition dmtr_sztou32 to_arg from_arg := cast_body (DMTR_CAST_MATCHING c_uint from_arg c_ulong) to_arg.
Definition dmtr_sztoi to_arg from_arg := cast_body (DMTR_CAST_UTOI c_int (cmax c_int) from_arg) to_arg.
Definition dmtr_sztoi16 to_arg from_arg := cast_body (DMTR_CAST_UTOI c_short (cmax c_short) from_arg) to_arg.
Definition dmtr_ltosz to_arg from_arg := cast_body (DMTR_CAST_ITOU c_ulong (cmax c_ulong) from_arg) to_arg.
Definition dmtr_itosz to_arg from_arg := cast_body (DMTR_CAST_ITOU c_ulong (cmax c_ulong) from_arg) to_arg.
Definition dmtr_ltouc to_arg from_arg := cast_body (DMTR_CAST_ITOU c_uchar (cmax c_uchar) from_arg) to_arg.
Definition dmtr_sztol to_arg from_arg := cast_body (DMTR_CAST_UTOI c_long (cmax c_long) from_arg) to_arg.
Definition dmtr_sztou to_arg from_arg := cast_body (DMTR_CAST_MATCHING c_uint from_arg c_ulong) to_arg.
Definition dmtr_ultouc to_arg from_arg := cast_body (DMTR_CAST_MATCHING c_uchar from_arg c_ulong) to_arg.
Definition dmtr_ultou to_arg from_arg := cast_body (DMTR_CAST_MATCHING c_uint from_arg c_ulong) to_arg.
Definition dmtr_ltoc to_arg from_arg := cast_body (DMTR_CAST_MATCHING c_char from_arg c_long) to_arg.
Definition dmtr_sztou16 to_arg from_arg := cast_body (DMTR_CAST_MATCHING c_ushort from_arg c_ulong) to_arg.
Definition dmtr_u32tou16 to_arg from_arg := cast_body (DMTR_CAST_MATCHING c_ushort from_arg c_uint) to_arg.
Definition dmtr_u32toi to_arg from_arg := cast_body (DMTR_CAST_UTOI c_int (cmax c_int) from_arg) to_arg.
Definition dmtr_utou8 to_arg from_arg := cast_body (DMTR_CAST_MATCHING c_uchar from_arg c_uint) to_arg.

(** What a conversion to [to_t] promises: the value itself when [to_t] can
    represent it, [ERANGE] and 0 when it cannot. *)
Definition cast_spec (to_t : ctype) (x : Z) : Z * Z :=
  if in_ctype to_t x then (0, x) else (ERANGE, 0).

Section conversions.
Implicit Types t : ctype.

Lemma conv_small t x : 0 < ct_width t -> in_ctype t x = true -> conv t x = x.
Proof.
  unfold in_ctype, conv, cmin, cmax. intros ? H. zbool.
  destruct (ct_signed t); zbool; [apply swrap_small|apply wrap_small]; lia.
Qed.

Lemma conv_range t x : 0 < ct_width t -> in_ctype t (conv t x) = true.
Proof.
  unfold in_ctype, conv, cmin, cmax. intros ?.
  destruct (ct_signed t).
  - pose proof (swrap_range (ct_width t) x). lia.
  - pose proof (wrap_range (ct_width t) x). lia.
Qed.

(** Converting to a narrower type of the same signedness and back is the
    identity exactly on the narrower type's values. *)
Lemma cast_matching_ok to_t from_t x :
  0 < ct_width to_t <= ct_width from_t -> ct_signed to_t = ct_signed from_t ->
  in_ctype from_t x = true ->
  DMTR_CAST_MATCHING to_t x from_t = cast_spec to_t x.
Proof.
  intros Hw Hs Hx. unfold DMTR_CAST_MATCHING, cast_spec. cbn zeta.
  pose proof (conv_range to_t x ltac:(lia)) as Hr.
  assert (Hin : in_ctype from_t (conv to_t x) = true).
  { revert Hr. unfold in_ctype, cmin, cmax. rewrite Hs. intros; zbool.
    assert (2 ^ (ct_width to_t - 1) <= 2 ^ (ct_width from_t - 1)) by (apply Z.pow_le_mono_r; lia).
    assert (2 ^ ct_width to_t <= 2 ^ ct_width from_t) by (apply Z.pow_le_mono_r; lia).
    destruct (ct_signed from_t); lia. }
  rewrite (conv_small from_t) by (lia || done).
  destruct (in_ctype to_t x) eqn:E.
  - rewrite (conv_small to_t) by (lia || done). by rewrite Z.eqb_refl.
  - destruct (_ =? _) eqn:Eq; [|done]. zbool. rewrite Eq in Hr. congruence.
Qed.

Lemma conv_uintmax x : 0 <= x < 2 ^ 64 -> conv uintmax_t x = x.
Proof. intros. by apply (wrap_small 64). Qed.

Lemma cast_utoi_ok to_t x :
  0 < ct_width to_t <= 64 -> ct_signed to_t = true -> 0 <= x < 2 ^ 64 ->
  DMTR_CAST_UTOI to_t (cmax to_t) x = cast_spec to_t x.
Proof.
  intros Hw Hs Hx. unfold DMTR_CAST_UTOI, cast_spec. cbn zeta.
  assert (2 ^ (ct_width to_t - 1) <= 2 ^ 63) by (apply Z.pow_le_mono_r; lia).
  change (2 ^ 63) with 9223372036854775808 in *. change (2 ^ 64) with 18446744073709551616 in *.
  assert (0 < 2 ^ (ct_width to_t - 1)) by (apply Z.pow_pos_nonneg; lia).
  rewrite !conv_uintmax by (unfold cmax; rewrite ?Hs; change (2 ^ 64) with 18446744073709551616; lia).
  destruct (in_ctype to_t x) eqn:E.
  - rewrite conv_small by (lia || done). unfold in_ctype in E. zbool.
    destruct (_ <=? _) eqn:?; [done|zbool; lia].
  - unfold in_ctype, cmin in E. rewrite Hs in E. cbv iota in E.
    destruct (x <=? cmax to_t) eqn:?; [lia|done].
Qed.

Lemma cast_itou_ok to_t x :
  0 < ct_width to_t <= 64 -> ct_signed to_t = false -> - 2 ^ 63 <= x < 2 ^ 63 ->
  DMTR_CAST_ITOU to_t (cmax to_t) x = cast_spec to_t x.
Proof.
  intros Hw Hs Hx. unfold DMTR_CAST_ITOU, cast_spec. cbn zeta.
  assert (2 ^ ct_width to_t <= 2 ^ 64) by (apply Z.pow_le_mono_r; lia).
  change (2 ^ 63) with 9223372036854775808 in *. change (2 ^ 64) with 18446744073709551616 in *.
  assert (0 < 2 ^ ct_width to_t) by (apply Z.pow_pos_nonneg; lia).
  rewrite Z.geb_leb. destruct (0 <=? x) eqn:Ex.
  - zbool. rewrite !conv_uintmax by (unfold cmax; rewrite ?Hs; change (2 ^ 64) with 18446744073709551616; lia).
    destruct (in_ctype to_t x) eqn:E.
    + rewrite conv_small by (lia || done). unfold in_ctype in E. zbool.
      destruct (_ <=? _) eqn:?; [done|lia].
    + unfold in_ctype, cmin in E. rewrite Hs in E. cbv iota in E.
      destruct (x <=? cmax to_t) eqn:?; [lia|done].
  - unfold in_ctype, cmin. rewrite Hs, Ex. done.
Qed.
End conversions.

(** The functions of the file with the types of their arguments. *)
Definition all_casts : list ((option Z -> Z -> Z * option Z) * ctype * ctype) := [
  (dmtr_ultoc, c_ulong, c_char); (dmtr_sztoi32, c_ulong, c_int); (dmtr_ssztoi32, c_long, c_int);
  (dmtr_sztou32, c_ulong, c_uint); (dmtr_sztoi, c_ulong, c_int); (dmtr_sztoi16, c_ulong, c_short);
  (dmtr_ltosz, c_long, c_ulong); (dmtr_itosz, c_int, c_ulong); (dmtr_ltouc, c_long, c_uchar);
  (dmtr_sztol, c_ulong, c_long); (dmtr_sztou, c_ulong, c_uint); (dmtr_ultouc, c_ulong, c_uchar);
  (dmtr_ultou, c_ulong, c_uint); (dmtr_ltoc, c_long, c_char); (dmtr_sztou16, c_ulong, c_ushort);
  (dmtr_u32tou16, c_uint, c_ushort); (dmtr_u32toi, c_uint, c_int); (dmtr_utou8, c_uint, c_uchar)].

(** Every checked conversion of [cast.c] refuses a null output pointer with
    [EINVAL], succeeds exactly on the values the target type can represent and
    then stores that value, and otherwise fails with [ERANGE] and stores 0. *)
Theorem casts_correct :
  Forall (fun '(f, from_t, to_t) =>
    (forall x, f None x = (EINVAL, None)) /\
    (forall out x, in_ctype from_t x = true ->
       f (Some out) x = (fst (cast_spec to_t x), Some (snd (cast_spec to_t x))))) all_casts.
Proof.
  repeat (apply Forall_cons; split; [split; [done|] | ]); [..|by apply Forall_nil];
    intros out x Hx; match goal with |- ?f _ _ = _ => unfold f end; unfold cast_body.
  all: first
    [ rewrite cast_matching_ok by (done || (cbn; lia))
    | rewrite cast_utoi_ok by first [done | cbn; lia | unfold in_ctype in Hx; zbool; cbn in *; lia]
    | rewrite cast_itou_ok by first [done | cbn; lia | unfold in_ctype in Hx; zbool; cbn in *; lia] ];
    done.
Qed.
