(* ===== verification/Memory.v ===== *)
(** * The heap, byte order and scatter/gather arrays

    [include/dmtr/libos/mem.h] and [base/mem.c], [common/sga.c].

    The heap is byte addressed: a cell exists when its address is allocated and
    holds [None] until it is written.  [malloc] may fail ([h_oom] says when) and
    otherwise returns a fresh block; [free] of anything but a block's address,
    and every access outside the allocated cells or to a byte never written, is
    undefined. *)
From S2P Require Import Prelude Cmd Types.

Record heap := mk_heap {
  h_cells : gmap Z (option Z);      (* allocated addresses and their bytes *)
  h_blocks : gmap Z Z;              (* base addresses and sizes *)
  h_brk : Z;                        (* where the next block goes *)
  h_oom : Z -> Z -> bool            (* [malloc(size)] fails with the break at [brk] *)
}.

(** [n] consecutive cells from [a]. *)
Fixpoint alloc_cells (n : nat) (a : Z) (m : gmap Z (option Z)) : gmap Z (option Z) :=
  match n with
  | O => m
  | S n' => <[a := None]> (alloc_cells n' (a + 1) m)
  end.
Fixpoint free_cells (n : nat) (a : Z) (m : gmap Z (option Z)) : gmap Z (option Z) :=
  match n with
  | O => m
  | S n' => delete a (free_cells n' (a + 1) m)
  end.
Fixpoint load_cells (n : nat) (a : Z) (m : gmap Z (option Z)) : option (list Z) :=
  match n with
  | O => Some []
  | S n' => match m !! a with
            | Some (Some b) => match load_cells n' (a + 1) m with
                               | Some bs => Some (b :: bs)
                               | None => None
                               end
            | _ => None
            end
  end.
Fixpoint store_cells (bs : list Z) (a : Z) (m : gmap Z (option Z)) : option (gmap Z (option Z)) :=
  match bs with
  | [] => Some m
  | b :: bs' => match m !! a with
                | Some _ => store_cells bs' (a + 1) (<[a := Some b]> m)
                | None => None
                end
  end.

Definition set_h_cells (m : gmap Z (option Z)) (h : heap) : heap :=
  mk_heap m (h_blocks h) (h_brk h) (h_oom h).

Definition malloc (bytes : Z) : fn heap Z := fun h =>
  if h_oom h (h_brk h) bytes then Ok 0 h
  else Ok (h_brk h)
    (mk_heap (alloc_cells (Z.to_nat bytes) (h_brk h) (h_cells h))
             (<[h_brk h := bytes]> (h_blocks h))
             (h_brk h + Z.max 1 bytes) (h_oom h)).

Definition free (p : Z) : fn heap unit := fun h =>
  if p =? 0 then Ok tt h
  else match h_blocks h !! p with
       | None => Undef
       | Some size =>
           Ok tt (mk_heap (free_cells (Z.to_nat size) p (h_cells h))
                    (delete p (h_blocks h)) (h_brk h) (h_oom h))
       end.

Definition load_bytes (p n : Z) : fn heap (list Z) := fun h =>
  match load_cells (Z.to_nat n) p (h_cells h) with
  | Some bs => Ok bs h
  | None => Undef
  end.
Definition store_bytes (p : Z) (bs : list Z) : fn heap unit := fun h =>
  match store_cells bs p (h_cells h) with
  | Some m => Ok tt (set_h_cells m h)
  | None => Undef
  end.

(** [dmtr_malloc]: an allocation that fails still returns 0, with a null
    pointer. *)
Definition dmtr_malloc (ptr_out : option Z) (bytes : Z) : fn heap (Z * option Z) :=
  match ptr_out with
  | None => fret (EINVAL, None)
  | Some _ => fbind (malloc bytes) (fun p => fret (0, Some p))
  end.

(** ** Byte order: the host is little endian *)
Definition byte_of (x i : Z) : Z := Z.land (Z.shiftr x (8 * i)) 255.
Definition u32_bytes (x : Z) : list Z := [byte_of x 0; byte_of x 1; byte_of x 2; byte_of x 3].
Definition u32_of_bytes (bs : list Z) : Z :=
  match bs with
  | [b0; b1; b2; b3] => b0 + 2 ^ 8 * b1 + 2 ^ 16 * b2 + 2 ^ 24 * b3
  | _ => 0
  end.
(** [htonl] and [ntohl] reverse the four bytes. *)
Definition htonl (x : Z) : Z := u32_of_bytes (rev (u32_bytes x)).
Definition ntohl (x : Z) : Z := htonl x.

Definition is_byte (b : Z) : Prop := 0 <= b < 256.

(** ** [common/sga.c] *)

(** The loop [for (i = 0; i < sga_numsegs; ++i) len += sga_segs[i].sgaseg_len]
    from segment [i] on, with [n] segments left to visit: an index outside
    [sga_segs] is undefined. *)
Fixpoint sgalen_loop (n : Z) (segs : list dmtr_sgaseg) (len : Z) : option Z :=
  if n <=? 0 then Some len
  else match segs with
       | [] => None
       | s :: segs' => sgalen_loop (n - 1) segs' (u64 (len + sgaseg_len s))
       end.

Definition dmtr_sgalen {S} (len_out : option Z) (sga : option dmtr_sgarray) : fn S (Z * option Z) :=
  match len_out with
  | None => fret (EINVAL, None)
  | Some _ =>
      body_out (Some 0)
        (DMTR_NOTNULL EINVAL sga ;;
         sga <- need sga ;
         len <- need (sgalen_loop (sga_numsegs sga) (sga_segs sga) 0) ;
         normal (Some len))%cmd
  end.

(** [free(sga_segs[i].sgaseg_buf)] for each segment in turn. *)
Fixpoint sgafree_loop (n : Z) (segs : list dmtr_sgaseg) : fn heap unit :=
  if n <=? 0 then fret tt
  else match segs with
       | [] => undef
       | s :: segs' => fbind (free (sgaseg_buf s)) (fun _ => sgafree_loop (n - 1) segs')
       end.

Definition dmtr_sgafree (sga : option dmtr_sgarray) : fn heap Z :=
  match sga with
  | None => fret 0
  | Some sga =>
      if sga_buf sga =? 0
      then fbind (sgafree_loop (sga_numsegs sga) (sga_segs sga)) (fun _ => fret 0)
      else fbind (free (sga_buf sga)) (fun _ => fret 0)
  end.

(** ** Lemmas on cells *)

Lemma load_cells_Some n a m bs :
  load_cells n a m = Some bs <->
  length bs = n /\ forall i b, bs !! i = Some b -> m !! (a + Z.of_nat i) = Some (Some b).
Proof.
  revert a bs. induction n as [|n IH]; intros a bs; cbn [load_cells].
  - split.
    + intros [= <-]. split; [done|]. intros i b Hb. by rewrite lookup_nil in Hb.
    + intros [Hl _]. by destruct bs.
  - split.
    + destruct (m !! a) as [[b0|]|] eqn:E0; try done.
      destruct (load_cells n (a + 1) m) as [bs0|] eqn:E1; [|done]. intros [= <-].
      apply IH in E1 as [Hl Hi]. split; [cbn; lia|].
      intros [|i] b Hb; cbn in Hb.
      * injection Hb as <-. by replace (a + Z.of_nat 0) with a by lia.
      * replace (a + Z.of_nat (Datatypes.S i)) with (a + 1 + Z.of_nat i) by lia. auto.
    + intros [Hl Hi]. destruct bs as [|b0 bs]; [done|]. cbn in Hl.
      pose proof (Hi 0%nat b0 eq_refl) as H0. replace (a + Z.of_nat 0) with a in H0 by lia.
      rewrite H0. rewrite (proj2 (IH (a + 1) bs)); [done|]. split; [lia|].
      intros i b Hb. replace (a + 1 + Z.of_nat i) with (a + Z.of_nat (Datatypes.S i)) by lia.
      by apply Hi.
Qed.

Lemma store_cells_lookup bs a m m' :
  store_cells bs a m = Some m' ->
  forall x, m' !! x = if decide (a <= x < a + Z.of_nat (length bs))
                      then Some (bs !! Z.to_nat (x - a)) else m !! x.
Proof.
  revert a m. induction bs as [|b bs IH]; intros a m; cbn [store_cells].
  - intros [= <-] x. case_decide; [cbn in *; lia|done].
  - destruct (m !! a) eqn:Ea; [|done]. intros H x. rewrite (IH _ _ H x). cbn [length].
    repeat case_decide; try lia.
    + replace (Z.to_nat (x - a)) with (Datatypes.S (Z.to_nat (x - (a + 1)))) by lia. done.
    + assert (x = a) as -> by lia. rewrite lookup_insert_eq.
      by replace (Z.to_nat (a - a)) with 0%nat by lia.
    + by rewrite lookup_insert_ne by lia.
Qed.

Lemma store_cells_Some bs a m :
  (forall i, 0 <= i < Z.of_nat (length bs) -> is_Some (m !! (a + i))) ->
  is_Some (store_cells bs a m).
Proof.
  revert a m. induction bs as [|b bs IH]; intros a m Hd; cbn [store_cells]; [done|].
  destruct (m !! a) eqn:Ea.
  - apply IH. intros i Hi. rewrite lookup_insert_ne by lia.
    replace (a + 1 + i) with (a + (i + 1)) by lia. apply Hd. cbn. lia.
  - destruct (Hd 0) as [? E]; [cbn; lia|]. rewrite Z.add_0_r in E. congruence.
Qed.

Lemma alloc_cells_lookup n a m x :
  alloc_cells n a m !! x = if decide (a <= x < a + Z.of_nat n) then Some None else m !! x.
Proof.
  revert a. induction n as [|n IH]; intros a; cbn [alloc_cells].
  - case_decide; [lia|done].
  - destruct (decide (x = a)) as [->|Hne].
    + rewrite lookup_insert_eq. case_decide; [done|lia].
    + rewrite lookup_insert_ne, IH by done. repeat case_decide; try done; lia.
Qed.

Lemma free_cells_lookup n a m x :
  free_cells n a m !! x = if decide (a <= x < a + Z.of_nat n) then None else m !! x.
Proof.
  revert a. induction n as [|n IH]; intros a; cbn [free_cells].
  - case_decide; [lia|done].
  - destruct (decide (x = a)) as [->|Hne].
    + rewrite lookup_delete_eq. case_decide; [done|lia].
    + rewrite lookup_delete_ne, IH by done. repeat case_decide; try done; lia.
Qed.

(** Reading back what was written. *)
Lemma load_store_cells bs a m m' :
  store_cells bs a m = Some m' -> load_cells (length bs) a m' = Some bs.
Proof.
  intros H. apply load_cells_Some. split; [done|]. intros i b Hb.
  rewrite (store_cells_lookup _ _ _ _ H).
  pose proof (lookup_lt_Some _ _ _ Hb). rewrite decide_True by lia.
  replace (Z.to_nat (a + Z.of_nat i - a)) with i by lia. by rewrite Hb.
Qed.

(** Loading a part of what can be loaded. *)
Lemma load_bytes_sub p n h bs k m :
  load_bytes p n h = Ok bs h -> 0 <= k -> 0 <= m -> k + m <= n ->
  load_bytes (p + k) m h = Ok (take (Z.to_nat m) (drop (Z.to_nat k) bs)) h.
Proof.
  unfold load_bytes. destruct (load_cells (Z.to_nat n) p _) as [bs'|] eqn:E; [|done]. intros [= ->] Hk Hm Hn.
  apply load_cells_Some in E as [Hl Hi].
  assert (E' : load_cells (Z.to_nat m) (p + k) (h_cells h) = Some (take (Z.to_nat m) (drop (Z.to_nat k) bs))).
  { apply load_cells_Some. split.
    - rewrite length_take, length_drop. lia.
    - intros i b Hb. apply lookup_take_Some in Hb as [Hb _]. rewrite lookup_drop in Hb. apply Hi in Hb.
      rewrite <- Hb. f_equal. lia. }
  by rewrite E'.
Qed.

(** Storing behind what can be loaded. *)
Lemma store_bytes_append p n h a bs :
  load_bytes p n h = Ok a h -> 0 <= n ->
  (forall i, 0 <= i < Z.of_nat (length bs) -> is_Some (h_cells h !! (p + n + i))) ->
  exists h', store_bytes (p + n) bs h = Ok tt h' /\
    load_bytes p (n + Z.of_nat (length bs)) h' = Ok (a ++ bs) h' /\
    (forall x, is_Some (h_cells h !! x) <-> is_Some (h_cells h' !! x)) /\
    (forall x, ~ (p + n <= x < p + n + Z.of_nat (length bs)) -> h_cells h' !! x = h_cells h !! x) /\
    h_blocks h' = h_blocks h /\ h_oom h' = h_oom h /\ h_brk h' = h_brk h.
Proof.
  unfold load_bytes, store_bytes. destruct (load_cells (Z.to_nat n) p _) as [a'|] eqn:E; [|done].
  intros [= ->] Hn Hcells. apply load_cells_Some in E as [Hl Hi].
  destruct (store_cells_Some bs (p + n) (h_cells h) Hcells) as [m Hm]. rewrite Hm. eexists; split; [done|].
  pose proof (store_cells_lookup _ _ _ _ Hm) as Hlk. cbn.
  assert (E' : load_cells (Z.to_nat (n + Z.of_nat (length bs))) p m = Some (a ++ bs)).
  { apply load_cells_Some. split; [rewrite length_app; lia|]. intros i b Hb. rewrite Hlk.
    apply lookup_app_Some in Hb as [Hb|[Hle Hb]].
    - pose proof (lookup_lt_Some _ _ _ Hb). rewrite decide_False by lia. by apply Hi.
    - pose proof (lookup_lt_Some _ _ _ Hb). rewrite decide_True by lia. f_equal. rewrite <- Hb. f_equal. lia. }
  rewrite E'. split; [done|]. split; [|split; [|done]]; [intros x|intros x Hx]; rewrite Hlk; case_decide as Hd; [|done|lia|done].
  split; [intros _|intros _; replace x with (p + n + (x - (p + n))) by lia; apply Hcells; lia].
  by eexists.
Qed.

Lemma store_bytes_nil p h : store_bytes p [] h = Ok tt h.
Proof. unfold store_bytes, set_h_cells. cbn. by destruct h. Qed.

Lemma malloc_eq bytes h :
  h_oom h (h_brk h) bytes = false ->
  malloc bytes h = Ok (h_brk h)
    (mk_heap (alloc_cells (Z.to_nat bytes) (h_brk h) (h_cells h)) (<[h_brk h := bytes]> (h_blocks h))
       (h_brk h + Z.max 1 bytes) (h_oom h)).
Proof. intros H. unfold malloc. by rewrite H. Qed.

(** ** Lemmas on byte order *)
Lemma byte_of_mod x i : 0 <= i -> byte_of x i = x / 2 ^ (8 * i) mod 256.
Proof.
  intros. unfold byte_of. rewrite Z.shiftr_div_pow2 by lia.
  change 255 with (Z.ones 8). by rewrite Z.land_ones by lia.
Qed.

Lemma u32_bytes_byte x : Forall is_byte (u32_bytes x).
Proof.
  unfold u32_bytes. repeat constructor; rewrite byte_of_mod by lia; apply Z.mod_pos_bound; lia.
Qed.

Lemma u32_bytes_of_bytes b0 b1 b2 b3 :
  is_byte b0 -> is_byte b1 -> is_byte b2 -> is_byte b3 ->
  u32_bytes (u32_of_bytes [b0; b1; b2; b3]) = [b0; b1; b2; b3].
Proof.
  unfold is_byte, u32_bytes, u32_of_bytes. intros. rewrite !byte_of_mod by lia.
  change (2 ^ (8 * 0)) with 1. change (2 ^ (8 * 1)) with 256.
  change (2 ^ (8 * 2)) with 65536. change (2 ^ (8 * 3)) with 16777216.
  change (2 ^ 8) with 256. change (2 ^ 16) with 65536. change (2 ^ 24) with 16777216.
  repeat f_equal; Z.div_mod_to_equations; lia.
Qed.

Lemma u32_of_bytes_bytes x : 0 <= x < 2 ^ 32 -> u32_of_bytes (u32_bytes x) = x.
Proof.
  intros Hx. unfold u32_bytes, u32_of_bytes. rewrite !byte_of_mod by lia.
  change (2 ^ (8 * 0)) with 1. change (2 ^ (8 * 1)) with 256.
  change (2 ^ (8 * 2)) with 65536. change (2 ^ (8 * 3)) with 16777216.
  change (2 ^ 8) with 256. change (2 ^ 16) with 65536. change (2 ^ 24) with 16777216.
  change (2 ^ 32) with 4294967296 in Hx.
  Z.div_mod_to_equations; lia.
Qed.

Lemma u32_of_bytes_range bs : Forall is_byte bs -> 0 <= u32_of_bytes bs < 2 ^ 32.
Proof.
  intros H. change (2 ^ 32) with 4294967296.
  do 5 (destruct bs as [|? bs]; [cbn; lia || idtac|]); try (cbn; lia).
  all: repeat match goal with H : Forall _ (_ :: _) |- _ => apply Forall_cons in H as [? H] end.
  all: unfold is_byte in *; cbn -[Z.mul Z.pow];
    change (2 ^ 8) with 256; change (2 ^ 16) with 65536; change (2 ^ 24) with 16777216; lia.
Qed.

Lemma htonl_range x : 0 <= htonl x < 2 ^ 32.
Proof. apply u32_of_bytes_range, Forall_rev, u32_bytes_byte. Qed.

(** The bytes of [htonl x] are those of [x] in the other order: the wire
    format is big endian. *)
Lemma u32_bytes_htonl x : u32_bytes (htonl x) = rev (u32_bytes x).
Proof.
  unfold htonl. pose proof (u32_bytes_byte x) as H.
  change (u32_bytes x) with [byte_of x 0; byte_of x 1; byte_of x 2; byte_of x 3] in *.
  repeat match goal with H : Forall _ (_ :: _) |- _ => apply Forall_cons in H as [? H] end.
  cbn [rev app]. by apply u32_bytes_of_bytes.
Qed.

Lemma ntohl_htonl x : 0 <= x < 2 ^ 32 -> ntohl (htonl x) = x.
Proof.
  intros Hx. unfold ntohl. unfold htonl at 1.
  rewrite u32_bytes_htonl, rev_involutive. by apply u32_of_bytes_bytes.
Qed.
