(* ===== verification/Contents.v ===== *)
(** * The contents of memory

    Blocks of the heap by what they hold, and the order of bytes on the wire. *)
From S2P Require Import Prelude Cmd Types Memory.

(** ** Big endian words *)
Definition be32 (x : Z) : list Z := rev (u32_bytes x).
#[global] Arguments be32 : simpl never.
#[global] Arguments u32_bytes : simpl never.
#[global] Arguments htonl : simpl never.
#[global] Arguments ntohl : simpl never.
Definition len32 (bs : list Z) : Z := Z.of_nat (length bs).
Lemma length_be32 x : length (be32 x) = 4%nat.
Proof. unfold be32. by rewrite length_rev. Qed.
Lemma be32_htonl x : be32 x = u32_bytes (htonl x).
Proof. unfold be32. by rewrite u32_bytes_htonl. Qed.
Lemma ntohl_be32 x : 0 <= x < 2 ^ 32 -> ntohl (u32_of_bytes (be32 x)) = x.
Proof. intros. rewrite be32_htonl, u32_of_bytes_bytes by apply htonl_range. by apply ntohl_htonl. Qed.

(** ** Memory by content *)
Lemma load_bytes_length p n h bs h' : load_bytes p n h = Ok bs h' -> len32 bs = Z.max 0 n /\ h' = h.
Proof.
  unfold load_bytes. destruct (load_cells _ _ _) as [bs'|] eqn:E; [|done]. intros [= <- <-].
  apply load_cells_Some in E as [E _]. unfold len32. split; [lia|done].
Qed.
Definition holds (h : heap) (p : Z) (bs : list Z) : Prop :=
  forall i b, bs !! i = Some b -> h_cells h !! (p + Z.of_nat i) = Some (Some b).
Definition mapped (h : heap) (p n : Z) : Prop := forall x, p <= x < p + n -> is_Some (h_cells h !! x).
(** [h'] differs from [h] at most on the [n] cells from [p]. *)
Definition same_outside (p n : Z) (h h' : heap) : Prop :=
  (forall x, x < p \/ p + n <= x -> h_cells h' !! x = h_cells h !! x) /\
  (forall x, is_Some (h_cells h !! x) -> is_Some (h_cells h' !! x)).

Lemma holds_load h p bs : holds h p bs -> load_bytes p (len32 bs) h = Ok bs h.
Proof.
  intros Hh. unfold load_bytes, len32. rewrite Nat2Z.id.
  by rewrite (proj2 (load_cells_Some (length bs) p (h_cells h) bs)) by done.
Qed.
Lemma load_holds h p n bs : load_bytes p n h = Ok bs h -> holds h p bs.
Proof.
  unfold load_bytes. destruct (load_cells _ _ _) as [bs'|] eqn:E; [|done]. intros [= ->].
  by apply load_cells_Some in E as [_ E].
Qed.
Lemma holds_nil h p : holds h p [].
Proof. intros i b Hb. by rewrite lookup_nil in Hb. Qed.
Lemma holds_app h p xs ys : holds h p xs -> holds h (p + len32 xs) ys -> holds h p (xs ++ ys).
Proof.
  intros Hx Hy i b Hb. apply lookup_app_Some in Hb as [Hb|[Hle Hb]]; [by apply Hx|].
  apply Hy in Hb. rewrite <- Hb. f_equal. unfold len32. lia.
Qed.
Lemma holds_frame h h' p bs q n :
  holds h p bs -> same_outside q n h h' -> p + len32 bs <= q \/ q + n <= p -> holds h' p bs.
Proof.
  intros Hh [Hs _] Hd i b Hb. rewrite Hs; [by apply Hh|].
  pose proof (lookup_lt_Some _ _ _ Hb). unfold len32 in Hd. lia.
Qed.
Lemma holds_sub h p bs n : holds h p bs -> holds h p (take n bs).
Proof. intros Hh i b Hb. apply lookup_take_Some in Hb as [Hb _]. by apply Hh. Qed.
Lemma mapped_frame h h' p n q m : mapped h p n -> same_outside q m h h' -> mapped h' p n.
Proof. intros Hm [_ Hs] x Hx. by apply Hs, Hm. Qed.

Lemma copy_bytes h src dst bs :
  holds h src bs -> mapped h dst (len32 bs) ->
  exists h', fbind (load_bytes src (len32 bs)) (store_bytes dst) h = Ok tt h' /\
    holds h' dst bs /\ same_outside dst (len32 bs) h h'.
Proof.
  intros Hh Hm. unfold fbind. rewrite holds_load by done. unfold store_bytes.
  destruct (store_cells_Some bs dst (h_cells h)) as [m E].
  { intros i Hi. apply Hm. unfold len32. lia. }
  rewrite E. eexists; split; [done|]. pose proof (store_cells_lookup _ _ _ _ E) as Hl. unfold len32. split.
  - intros i b Hb. cbn. rewrite Hl. pose proof (lookup_lt_Some _ _ _ Hb). rewrite decide_True by lia.
    f_equal. rewrite <- Hb. f_equal. lia.
  - split; intros x Hx; cbn; rewrite Hl.
    + by rewrite decide_False by lia.
    + case_decide; [by eexists|done].
Qed.
(** A copy beyond the memory allocated is undefined. *)
Lemma copy_bytes_undef h src dst n :
  0 < n -> h_cells h !! (dst + (n - 1)) = None -> fbind (load_bytes src n) (store_bytes dst) h = Undef.
Proof.
  intros Hn Hc. unfold fbind, load_bytes. destruct (load_cells _ _ _) as [bs|] eqn:E; [|done].
  apply load_cells_Some in E as [Hl _]. unfold store_bytes.
  assert (Hs : forall bs a m, bs <> [] -> m !! (a + (Z.of_nat (length bs) - 1)) = None -> store_cells bs a m = None).
  { clear. induction bs as [|b bs IH]; intros a m Hne Hm; [done|]. cbn [store_cells].
    destruct (m !! a) eqn:Ea; [|done]. destruct bs as [|b' bs'].
    - cbn in Hm. rewrite Z.add_0_r in Hm. congruence.
    - apply IH; [done|]. rewrite lookup_insert_ne by (cbn [length]; lia). rewrite <- Hm. f_equal. cbn [length]. lia. }
  rewrite Hs; [done|by intros ->; cbn in *; lia|]. rewrite Hl. rewrite <- Hc. f_equal. lia.
Qed.

Lemma len32_app (xs ys : list Z) : len32 (xs ++ ys) = len32 xs + len32 ys.
Proof. unfold len32. rewrite length_app. lia. Qed.
(** A fresh block of memory does not meet memory that was there. *)
Lemma fresh_disjoint h buf n p bs :
  (forall x, buf <= x < buf + n -> h_cells h !! x = None) -> holds h p bs ->
  forall x, p <= x < p + len32 bs -> x < buf \/ buf + n <= x.
Proof.
  intros Hf Hh x Hx. destruct (decide (buf <= x < buf + n)) as [Hin|]; [|lia].
  apply Hf in Hin. unfold len32 in Hx.
  destruct (lookup_lt_is_Some_2 bs (Z.to_nat (x - p)) ltac:(lia)) as [b Hb]. apply Hh in Hb.
  replace (p + Z.of_nat (Z.to_nat (x - p))) with x in Hb by lia. congruence.
Qed.
Lemma fresh_disjoint_range h buf n p m :
  0 < m -> 0 < n -> (forall x, buf <= x < buf + n -> h_cells h !! x = None) ->
  (forall x, p <= x < p + m -> is_Some (h_cells h !! x)) -> p + m <= buf \/ buf + n <= p.
Proof.
  intros Hm Hn Hf Hp. destruct (decide (p + m <= buf \/ buf + n <= p)) as [|Hno]; [done|].
  exfalso. destruct (Hp (Z.max p buf)) as [v Hv]; [lia|]. rewrite Hf in Hv by lia. done.
Qed.
Lemma holds_mapped h p bs x : holds h p bs -> p <= x < p + len32 bs -> is_Some (h_cells h !! x).
Proof.
  intros Hh Hx. unfold len32 in Hx.
  destruct (lookup_lt_is_Some_2 bs (Z.to_nat (x - p)) ltac:(lia)) as [b Hb]. apply Hh in Hb.
  replace (p + Z.of_nat (Z.to_nat (x - p))) with x in Hb by lia. by eexists.
Qed.


(** ** Reading and writing blocks *)
Lemma holds_load_n h p n bs : holds h p bs -> len32 bs = n -> load_bytes p n h = Ok bs h.
Proof. intros Hh <-. by apply holds_load. Qed.
Lemma store_mapped h p bs :
  mapped h p (len32 bs) -> exists h', store_bytes p bs h = Ok tt h' /\ holds h' p bs /\ same_outside p (len32 bs) h h'.
Proof.
  intros Hm. unfold store_bytes. destruct (store_cells_Some bs p (h_cells h)) as [m E].
  { intros i Hi. apply Hm. unfold len32. lia. }
  rewrite E. eexists; split; [done|]. pose proof (store_cells_lookup _ _ _ _ E) as Hl. unfold len32. split.
  - intros i b Hb. cbn. rewrite Hl. pose proof (lookup_lt_Some _ _ _ Hb). rewrite decide_True by lia.
    f_equal. rewrite <- Hb. f_equal. lia.
  - split; intros x Hx; cbn; rewrite Hl.
    + by rewrite decide_False by lia.
    + case_decide; [by eexists|done].
Qed.
(** A piece of a block. *)
Lemma holds_app_l h p xs ys : holds h p (xs ++ ys) -> holds h p xs.
Proof. intros Hh i b Hb. apply Hh. by apply lookup_app_l_Some. Qed.
Lemma holds_app_r h p xs ys : holds h p (xs ++ ys) -> holds h (p + len32 xs) ys.
Proof.
  intros Hh i b Hb. unfold len32. replace (p + Z.of_nat (length xs) + Z.of_nat i) with (p + Z.of_nat (length xs + i)) by lia.
  apply Hh. by rewrite lookup_app_r, Nat.add_comm, Nat.add_sub by lia.
Qed.
Lemma same_outside_refl p n h : same_outside p n h h.
Proof. by split. Qed.
Lemma same_outside_trans p n h1 h2 h3 : same_outside p n h1 h2 -> same_outside p n h2 h3 -> same_outside p n h1 h3.
Proof. intros [H1 H1'] [H2 H2']. split; [intros x Hx; by rewrite H2, H1|auto]. Qed.
Lemma same_outside_sub p n q m h h' : same_outside q m h h' -> p <= q -> q + m <= p + n -> same_outside p n h h'.
Proof. intros [H1 H1'] ? ?. split; [|done]. intros x Hx. apply H1. lia. Qed.

(** ** Allocation *)
(** [h'] is [h] after [malloc] of [n] bytes and writes to them. *)
Record grown (h : heap) (n : Z) (h' : heap) : Prop := {
  gr_keeps : forall x v, h_cells h !! x = Some v -> h_cells h' !! x = Some v;
  gr_brk : h_brk h' = h_brk h + Z.max 1 n;
  gr_oom : h_oom h' = h_oom h;
  gr_fresh : forall x, h_brk h' <= x -> h_cells h' !! x = None
}.

Lemma malloc_room n h :
  h_oom h (h_brk h) n = false -> (forall x, h_brk h <= x -> h_cells h !! x = None) ->
  exists h', malloc n h = Ok (h_brk h) h' /\ mapped h' (h_brk h) n /\ grown h n h'.
Proof.
  intros Ho Hf. rewrite malloc_eq by done. eexists; split; [done|]. split; [|split; cbn].
  - intros x Hx. cbn. rewrite alloc_cells_lookup, decide_True by lia. by eexists.
  - intros x v Hv. rewrite alloc_cells_lookup. rewrite decide_False; [done|].
    intros Hx. rewrite Hf in Hv by lia. done.
  - done.
  - done.
  - intros x Hx. rewrite alloc_cells_lookup, decide_False by lia. apply Hf. lia.
Qed.
Lemma store_bytes_rest p bs h h' : store_bytes p bs h = Ok tt h' -> h_brk h' = h_brk h /\ h_oom h' = h_oom h.
Proof. unfold store_bytes. destruct (store_cells _ _ _); [|done]. by intros [= <-]. Qed.

(** [h'] is [h] with more memory: what was there is unchanged. *)
Record extends (h h' : heap) : Prop := {
  ex_keeps : forall x v, h_cells h !! x = Some v -> h_cells h' !! x = Some v;
  ex_brk : h_brk h <= h_brk h';
  ex_oom : h_oom h' = h_oom h;
  ex_fresh : forall x, h_brk h' <= x -> h_cells h' !! x = None
}.
Lemma extends_refl h : (forall x, h_brk h <= x -> h_cells h !! x = None) -> extends h h.
Proof. by split. Qed.
Lemma extends_trans h1 h2 h3 : extends h1 h2 -> extends h2 h3 -> extends h1 h3.
Proof. intros [K1 B1 O1 _] [K2 B2 O2 F2]. split; [auto|lia|congruence|done]. Qed.
Lemma grown_extends h n h' : grown h n h' -> extends h h'.
Proof. intros [K B O F]. split; [done|lia|done|done]. Qed.
Lemma extends_holds h h' p bs : extends h h' -> holds h p bs -> holds h' p bs.
Proof. intros [K _ _ _] Hh i b Hb. by apply K, Hh. Qed.
Lemma extends_mapped h h' p n : extends h h' -> mapped h p n -> mapped h' p n.
Proof. intros [K _ _ _] Hm x Hx. destruct (Hm x Hx) as [v Hv]. exists v. by apply K. Qed.
(** Writing to memory beyond what [h] had. *)
Lemma extends_store h h1 h2 p n :
  extends h h1 -> same_outside p n h1 h2 -> h_brk h <= p -> (forall x, h_brk h <= x -> h_cells h !! x = None) ->
  h_brk h2 = h_brk h1 -> h_oom h2 = h_oom h1 -> p + n <= h_brk h1 -> extends h h2.
Proof.
  intros [K B O F] [S1 _] Hp Hf Eb Eo Hn. split; [|lia|congruence|].
  - intros x v Hv. rewrite S1; [by apply K|]. destruct (decide (x < p)); [by left|]. rewrite Hf in Hv by lia. done.
  - intros x Hx. rewrite S1 by lia. apply F. lia.
Qed.

(** Nothing is allocated beyond the break. *)
Definition fresh_above (h : heap) : Prop := forall x, h_brk h <= x -> h_cells h !! x = None /\ h_blocks h !! x = None.
(** [h] is [h0] with one more block, of [n] bytes at [p]. *)
Record allocated (p n : Z) (h0 h : heap) : Prop := {
  al_cells : forall x, ~ (p <= x < p + n) -> h_cells h !! x = h_cells h0 !! x;
  al_blocks : h_blocks h = <[p := n]> (h_blocks h0);
  al_oom : h_oom h = h_oom h0;
  al_brk : h_brk h0 <= p /\ p + n <= h_brk h
}.
Lemma allocated_malloc h0 n :
  let h := mk_heap (alloc_cells (Z.to_nat n) (h_brk h0) (h_cells h0)) (<[h_brk h0 := n]> (h_blocks h0)) (h_brk h0 + Z.max 1 n) (h_oom h0) in
  allocated (h_brk h0) n h0 h.
Proof. split; [|done..|cbn; lia]. intros x Hx. cbn. rewrite alloc_cells_lookup, decide_False; [done|]. lia. Qed.
(** Writing to the block. *)
Lemma allocated_store p n h0 h h' q m :
  allocated p n h0 h -> (forall x, ~ (q <= x < q + m) -> h_cells h' !! x = h_cells h !! x) -> p <= q -> q + m <= p + n ->
  h_blocks h' = h_blocks h -> h_oom h' = h_oom h -> h_brk h' = h_brk h -> allocated p n h0 h'.
Proof. intros [C B O K] Hc ? ? Hb Ho Hk. split; [|by rewrite Hb|congruence|lia]. intros x Hx. rewrite Hc by lia. by apply C. Qed.
Lemma allocated_fresh p n h0 h : 0 < n -> allocated p n h0 h -> fresh_above h0 -> fresh_above h.
Proof.
  intros Hn [C B _ [? ?]] Hf x Hx. rewrite C, B by lia. rewrite lookup_insert_ne by lia. apply Hf. lia.
Qed.
Lemma allocated_holds p n h0 h a bs : fresh_above h0 -> allocated p n h0 h -> holds h0 a bs -> holds h a bs.
Proof.
  intros Hf [C _ _ [? ?]] Hh i b Hb. pose proof (Hh i b Hb) as E. rewrite C; [done|].
  intros ?. destruct (Hf (a + Z.of_nat i)) as [E' _]; [lia|]. congruence.
Qed.
(** Freeing the block gives back the memory there was. *)
Lemma allocated_free p n h0 h :
  0 < p -> fresh_above h0 -> allocated p n h0 h -> 0 <= n ->
  free p h = Ok tt (mk_heap (h_cells h0) (h_blocks h0) (h_brk h) (h_oom h0)).
Proof.
  intros Hp Hf [C B O [? ?]] Hn. unfold free. rewrite (proj2 (Z.eqb_neq _ _)) by lia. rewrite B, lookup_insert_eq, O.
  do 2 f_equal.
  - apply map_eq. intros x. rewrite free_cells_lookup. case_decide; [|apply C; lia]. symmetry. apply Hf. lia.
  - rewrite delete_insert_id; [done|]. apply Hf. lia.
Qed.

(** ** Sixteen bits *)
Definition u16_bytes (x : Z) : list Z := [byte_of x 0; byte_of x 1].
Definition u16_of_bytes (bs : list Z) : Z := match bs with [b0; b1] => b0 + 2 ^ 8 * b1 | _ => 0 end.
(** [htons] and [ntohs] *)
Definition htons (x : Z) : Z := u16_of_bytes (rev (u16_bytes x)).
Definition ntohs (x : Z) : Z := htons x.

Lemma byte_of_byte x i : is_byte (byte_of x i).
Proof.
  unfold is_byte, byte_of. change 255 with (Z.ones 8). rewrite Z.land_ones by lia. apply Z.mod_pos_bound. done.
Qed.
Lemma u16_of_bytes_bytes x : 0 <= x < 65536 -> u16_of_bytes (u16_bytes x) = x.
Proof.
  intros Hx. unfold u16_of_bytes, u16_bytes. rewrite !byte_of_mod by lia.
  change (2 ^ (8 * 0)) with 1. change (2 ^ (8 * 1)) with 256. change (2 ^ 8) with 256. Z.div_mod_to_equations. lia.
Qed.
Lemma u16_bytes_of_bytes a b : is_byte a -> is_byte b -> u16_bytes (a + 2 ^ 8 * b) = [a; b].
Proof.
  unfold is_byte, u16_bytes. intros Ha Hb. rewrite !byte_of_mod by lia.
  change (2 ^ (8 * 0)) with 1. change (2 ^ (8 * 1)) with 256. change (2 ^ 8) with 256.
  f_equal; [|f_equal]; Z.div_mod_to_equations; lia.
Qed.
Lemma htons_range x : 0 <= htons x < 65536.
Proof.
  unfold htons. cbn. pose proof (byte_of_byte x 0) as H0. pose proof (byte_of_byte x 1) as H1. unfold is_byte in *. lia.
Qed.
Lemma u16_bytes_htons x : u16_bytes (htons x) = rev (u16_bytes x).
Proof. apply (u16_bytes_of_bytes (byte_of x 1) (byte_of x 0)); apply byte_of_byte. Qed.
Lemma ntohs_htons x : 0 <= x < 65536 -> ntohs (htons x) = x.
Proof.
  intros Hx. unfold ntohs. unfold htons at 1. rewrite u16_bytes_htons, rev_involutive. by apply u16_of_bytes_bytes.
Qed.
#[global] Arguments u16_bytes : simpl never.
#[global] Arguments htons : simpl never.
#[global] Arguments ntohs : simpl never.

(** The sixteen bytes of a [struct sockaddr_in]. *)
Definition saddr_bytes (a : sockaddr_in) : list Z :=
  u16_bytes (sin_family a) ++ u16_bytes (sin_port a) ++ u32_bytes (sin_addr a) ++
  u32_bytes (sin_zero a) ++ u32_bytes (Z.shiftr (sin_zero a) 32).

(** ** Arrays of one segment *)
Lemma sgalen_one {S} sga a bs (s : S) :
  sga_numsegs sga = 1 -> sga_segs sga = [mk_sgaseg a (len32 bs)] -> len32 bs < 2 ^ 32 ->
  dmtr_sgalen (Some 0) (Some sga) s = Ok (0, Some (len32 bs)) s.
Proof.
  intros Hn Hs Hl. change (2 ^ 32) with 4294967296 in Hl. assert (0 <= len32 bs) by (unfold len32; lia).
  unfold dmtr_sgalen, body_out, sbind, fbind, DMTR_NOTNULL, DMTR_TRUE, need, normal, fret. rewrite Hn, Hs.
  cbn [sgalen_loop sgaseg_len]. change (1 - 1 <=? 0) with true. change (1 <=? 0) with false. cbn iota.
  by rewrite (wrap_small 64) by (change (2 ^ 64) with 18446744073709551616; lia).
Qed.
