(* ===== verification/IoQueue.v ===== *)
(** * Tasks and the base class of queues

    [include/dmtr/libos/io_queue.hh] and [common/io_queue.cc].

    A queue has [MAX_TASKS] task slots.  An asynchronous operation gets a token
    [qt] (its queue's descriptor in the high half, a counter in the low half)
    and the task in slot [qt % MAX_TASKS]; the task is completed by the queue's
    worker and read by [poll].  A pointer to a task is its slot's index. *)
From S2P Require Import Prelude Cmd Types Memory.

Inductive category_id := MEMORY_Q | NETWORK_Q | FILE_Q.
#[export] Instance category_id_eq_dec : EqDecision category_id.
Proof. solve_decision. Defined.
#[export] Instance category_id_countable : Countable category_id.
Proof.
  refine (inj_countable' (fun c => match c with MEMORY_Q => 0 | NETWORK_Q => 1 | FILE_Q => 2 end)
    (fun z => match z with 0 => MEMORY_Q | 1 => NETWORK_Q | _ => FILE_Q end) _).
  by intros [].
Defined.

(** ** [io_queue::task] *)

(** [my_queue_arg] is the descriptor of the queue object pointed at, 0 for
    [nullptr]. *)
Record task := mk_task {
  t_valid : bool;
  my_qr : dmtr_qresult;
  my_error : Z;
  my_sga_arg : dmtr_sgarray;
  my_queue_arg : Z
}.

Definition task_ctor : task := mk_task false qresult_zero EAGAIN sgarray_zero 0.

Definition set_my_qr (r : dmtr_qresult) (t : task) : task :=
  mk_task (t_valid t) r (my_error t) (my_sga_arg t) (my_queue_arg t).
Definition set_my_error (e : Z) (t : task) : task :=
  mk_task (t_valid t) (my_qr t) e (my_sga_arg t) (my_queue_arg t).
Definition set_my_sga_arg (a : dmtr_sgarray) (t : task) : task :=
  mk_task (t_valid t) (my_qr t) (my_error t) a (my_queue_arg t).
Definition set_my_queue_arg (q : Z) (t : task) : task :=
  mk_task (t_valid t) (my_qr t) (my_error t) (my_sga_arg t) q.

Definition task_done (t : task) : bool := negb (my_error t =? EAGAIN).
Definition task_is_valid (t : task) : bool := t_valid t.
Definition task_clear (t : task) : task :=
  mk_task false (my_qr t) (my_error t) (my_sga_arg t) (my_queue_arg t).
Definition task_opcode (t : task) : dmtr_opcode := qr_opcode (my_qr t).

Open Scope cmd_scope.

Definition initialize_result (qd qt : Z) : fn dmtr_qresult Z := body (
  DMTR_TRUE EINVAL (qd >? 0) ;;
  DMTR_TRUE EINVAL (negb (qt =? 0)) ;;
  modify (fun r => mk_qresult DMTR_OPC_INVALID qd qt (qr_value r)) ;;
  normal 0).

Definition task_initialize (q_qd qt : Z) (opcode : dmtr_opcode) : fn task Z := body (
  DMTR_NONZERO EINVAL qt ;;
  DMTR_TRUE EINVAL (negb (opcode_eqb DMTR_OPC_INVALID opcode)) ;;
  t <- get ;
  DMTR_TRUE EINVAL (Bool.eqb (t_valid t) false) ;;
  DMTR_OK (zoom my_qr set_my_qr (initialize_result q_qd qt)) ;;
  modify (fun t => mk_task true (set_qr_opcode opcode (my_qr t)) EAGAIN (my_sga_arg t) (my_queue_arg t)) ;;
  normal 0).

Definition task_initialize_sga (q_qd qt : Z) (opcode : dmtr_opcode) (arg : dmtr_sgarray) : fn task Z := body (
  DMTR_NONZERO EINVAL (sga_numsegs arg) ;;
  DMTR_OK (task_initialize q_qd qt opcode) ;;
  modify (set_my_sga_arg arg) ;;
  normal 0).

Definition task_initialize_queue (q_qd qt : Z) (opcode : dmtr_opcode) (arg : Z) : fn task Z := body (
  DMTR_NONZERO EINVAL arg ;;
  DMTR_OK (task_initialize q_qd qt opcode) ;;
  modify (set_my_queue_arg arg) ;;
  normal 0).

Definition task_poll (qr_out : dmtr_qresult) (t : task) : Z * dmtr_qresult :=
  if negb (task_done t) then (EAGAIN, qr_out) else (my_error t, my_qr t).

Definition task_arg_sga (t : task) : option dmtr_sgarray :=
  if 0 =? sga_numsegs (my_sga_arg t) then None else Some (my_sga_arg t).
Definition task_arg_queue (t : task) : option Z :=
  if my_queue_arg t =? 0 then None else Some (my_queue_arg t).

Definition task_complete (error : Z) : fn task Z := body (
  DMTR_TRUE EINVAL (negb (error =? EAGAIN)) ;;
  modify (set_my_error error) ;;
  normal 0).
Definition task_complete_sga (error : Z) (sga : dmtr_sgarray) : fn task Z := body (
  DMTR_OK (task_complete error) ;;
  modify (fun t => set_my_qr (set_qr_value (qv_sga sga) (my_qr t)) t) ;;
  normal 0).
Definition task_complete_ares (error new_qd : Z) (addr : sockaddr_in) : fn task Z := body (
  DMTR_OK (task_complete error) ;;
  modify (fun t => set_my_qr (set_qr_value (qv_ares new_qd addr) (my_qr t)) t) ;;
  normal 0).

(** ** [io_queue] *)

Definition MAX_TASKS : Z := 1024.

(** [my_tasks] holds the slots that were ever written; the others are as
    constructed. *)
Record io_queue := mk_io_queue {
  my_tasks : gmap Z task;
  my_cid : category_id;
  my_qd : Z;
  my_qt_counter : Z
}.

Definition io_queue_ctor (cid : category_id) (qd : Z) : io_queue := mk_io_queue ∅ cid qd 0.

Definition set_my_tasks (m : gmap Z task) (q : io_queue) : io_queue :=
  mk_io_queue m (my_cid q) (my_qd q) (my_qt_counter q).
Definition set_my_qt_counter (c : Z) (q : io_queue) : io_queue :=
  mk_io_queue (my_tasks q) (my_cid q) (my_qd q) c.

Definition task_slot (qt : Z) : Z := qt mod MAX_TASKS.
Definition slot_task (slot : Z) (q : io_queue) : task := default task_ctor (my_tasks q !! slot).
Definition set_slot (slot : Z) (t : task) (q : io_queue) : io_queue :=
  set_my_tasks (<[slot := t]> (my_tasks q)) q.

(** [get_task(qt)]: the slot's task, whatever token it belongs to. *)
Definition get_task (qt : Z) (q : io_queue) : task := slot_task (task_slot qt) q.
Definition has_task (qt : Z) (q : io_queue) : bool := task_is_valid (get_task qt q).

(** A method call on the task in a slot. *)
Definition on_slot {A} (slot : Z) (m : fn task A) : fn io_queue A :=
  zoom (slot_task slot) (fun t q => set_slot slot t q) m.

(** [get_task(t_out, qt)]: the pointer, if the slot is in use. *)
Definition get_task_ptr (qt : Z) : fn io_queue (Z * Z) := body_out 0 (
  q <- get ;
  DMTR_TRUE ENOENT (has_task qt q) ;;
  normal (task_slot qt)).

Definition insert_task (qt : Z) (q : io_queue) : io_queue := q.

Definition new_task (qt : Z) (opcode : dmtr_opcode) : fn io_queue Z := body (
  q <- get ;
  DMTR_TRUE EEXIST (negb (has_task qt q)) ;;
  modify (insert_task qt) ;;
  DMTR_OK (on_slot (task_slot qt) (task_initialize (my_qd q) qt opcode)) ;;
  normal 0).
Definition new_task_sga (qt : Z) (opcode : dmtr_opcode) (arg : dmtr_sgarray) : fn io_queue Z := body (
  q <- get ;
  DMTR_TRUE EEXIST (negb (has_task qt q)) ;;
  modify (insert_task qt) ;;
  DMTR_OK (on_slot (task_slot qt) (task_initialize_sga (my_qd q) qt opcode arg)) ;;
  normal 0).
Definition new_task_queue (qt : Z) (opcode : dmtr_opcode) (arg : Z) : fn io_queue Z := body (
  q <- get ;
  DMTR_TRUE EEXIST (negb (has_task qt q)) ;;
  modify (insert_task qt) ;;
  DMTR_OK (on_slot (task_slot qt) (task_initialize_queue (my_qd q) qt opcode arg)) ;;
  normal 0).

Definition drop_task (qt : Z) : fn io_queue Z := body (
  modify (fun q => set_slot (task_slot qt) (task_clear (get_task qt q)) q) ;;
  normal 0).
Definition io_queue_drop (qt : Z) : fn io_queue Z := body (
  DMTR_OK (drop_task qt) ;;
  normal 0).

(** The token for counter value [u] of queue [qd]. *)
Definition mk_qtoken (qd u : Z) : Z := Z.lor (u64 u) (u64 (Z.shiftl (u64 qd) QD_OFFSET)).

(** One pass of the search: [u = ++my_qt_counter], the overflow check and the
    test of [while (has_task(u))].  [inl] is the counter to continue from. *)
Definition qtoken_step (q : io_queue) (counter : Z) : Z + option Z :=
  let u := u32 (counter + 1) in
  if u =? UINT32_MAX then inr None
  else if has_task u q then inl u else inr (Some u).

Definition qtoken_bound : positive := 4294967296.

Definition new_qtoken : fn io_queue (Z * Z) := body_out 0 (
  q <- get ;
  DMTR_TRUE EINVAL (negb (my_qd q =? 0)) ;;
  match ploop qtoken_bound (qtoken_step q) (my_qt_counter q) with
  | inl _ => fun _ => NoFuel
  | inr None => panic                              (* "Queue token overflow" *)
  | inr (Some u) =>
      modify (set_my_qt_counter u) ;;
      normal (mk_qtoken (my_qd q) u)
  end).

(** The base class's virtual functions. *)
Definition io_queue_unsupported {S} : fn S Z := fret ENOTSUP.
Definition io_queue_close {S} : fn S Z := fret 0.
(** In the destructor of the base class [close] is the base class's own. *)
Definition io_queue_destroy {S} : fn S unit :=
  fbind io_queue_close (fun ret => if negb (0 =? ret) then panic else fret tt).
Lemma io_queue_destroy_silent {S} (s : S) : io_queue_destroy s = Ok tt s.
Proof. done. Qed.

(** ** Slots *)
Section slots.
Implicit Types (q : io_queue) (t : task).

Lemma slot_task_set s s' t q :
  slot_task s (set_slot s' t q) = if decide (s = s') then t else slot_task s q.
Proof.
  unfold slot_task, set_slot. cbn. case_decide.
  - subst. by rewrite lookup_insert_eq.
  - by rewrite lookup_insert_ne by done.
Qed.
Lemma slot_task_set_eq s t q : slot_task s (set_slot s t q) = t.
Proof. rewrite slot_task_set. by rewrite decide_True. Qed.
Lemma slot_task_set_ne s s' t q : s <> s' -> slot_task s (set_slot s' t q) = slot_task s q.
Proof. intros. rewrite slot_task_set. by rewrite decide_False. Qed.
Lemma my_qd_set_slot s t q : my_qd (set_slot s t q) = my_qd q.
Proof. done. Qed.
Lemma my_cid_set_slot s t q : my_cid (set_slot s t q) = my_cid q.
Proof. done. Qed.
Lemma my_qt_counter_set_slot s t q : my_qt_counter (set_slot s t q) = my_qt_counter q.
Proof. done. Qed.
Lemma has_task_slot qt q : has_task qt q = t_valid (slot_task (task_slot qt) q).
Proof. done. Qed.
Lemma slot_task_counter s c q : slot_task s (set_my_qt_counter c q) = slot_task s q.
Proof. done. Qed.
Lemma task_slot_range qt : 0 <= task_slot qt < MAX_TASKS.
Proof. apply Z.mod_pos_bound. done. Qed.
Lemma task_slot_slot qt : task_slot (task_slot qt) = task_slot qt.
Proof. unfold task_slot. by rewrite Z.mod_mod. Qed.
End slots.
Create Rewrite HintDb slots.
#[export] Hint Rewrite slot_task_set_eq my_qd_set_slot my_cid_set_slot my_qt_counter_set_slot
  slot_task_counter : slots.

(** ** Tokens *)
Section tokens.
Implicit Types (q : io_queue).

Lemma land_shiftl_low u qd : 0 <= u < 2 ^ 32 -> Z.land u (Z.shiftl qd 32) = 0.
Proof.
  intros Hu. apply Z.bits_inj'. intros n Hn. rewrite Z.land_spec, Z.bits_0, Z.shiftl_spec by lia.
  destruct (Z.ltb_spec n 32).
  - rewrite (Z.testbit_neg_r qd) by lia. by rewrite andb_false_r.
  - rewrite <- (Z.mod_small u (2 ^ 32)) by done. by rewrite Z.mod_pow2_bits_high by lia.
Qed.

(** The two halves of a token. *)
Lemma mk_qtoken_val qd u : 0 <= qd < 2 ^ 31 -> 0 <= u < 2 ^ 32 -> mk_qtoken qd u = qd * 2 ^ 32 + u.
Proof.
  intros Hqd Hu. unfold mk_qtoken, QD_OFFSET.
  rewrite (wrap_small 64 u), (wrap_small 64 qd)
    by (change (2 ^ 31) with 2147483648 in *; change (2 ^ 32) with 4294967296 in *;
        change (2 ^ 64) with 18446744073709551616; lia).
  rewrite (wrap_small 64).
  - rewrite <- Z.lxor_lor, <- Z.add_nocarry_lxor by (by apply land_shiftl_low).
    rewrite Z.shiftl_mul_pow2 by lia. lia.
  - rewrite Z.shiftl_mul_pow2 by lia. change (2 ^ 31) with 2147483648 in *.
    change (2 ^ 32) with 4294967296 in *. change (2 ^ 64) with 18446744073709551616. lia.
Qed.

Lemma QT2QD_mk_qtoken qd u : 0 <= qd < 2 ^ 31 -> 0 <= u < 2 ^ 32 -> QT2QD (mk_qtoken qd u) = qd.
Proof.
  intros. rewrite mk_qtoken_val by done. unfold QT2QD, QD_OFFSET.
  rewrite Z.shiftr_div_pow2, Z.add_comm, Z.div_add, Z.div_small by lia. lia.
Qed.

(** Slots are chosen by the low half. *)
Lemma task_slot_mk_qtoken qd u :
  0 <= qd < 2 ^ 31 -> 0 <= u < 2 ^ 32 -> task_slot (mk_qtoken qd u) = task_slot u.
Proof.
  intros. rewrite mk_qtoken_val by done. unfold task_slot, MAX_TASKS.
  change (2 ^ 32) with (4194304 * 1024). rewrite Z.mul_assoc, Z.add_comm.
  by rewrite Z.mod_add by lia.
Qed.

Definition counter_ok q : Prop := 0 <= my_qt_counter q < UINT32_MAX.
Definition qd_ok q : Prop := 0 < my_qd q < 2 ^ 31.

(** What the search finds: the first counter value above [c] whose slot is
    free, or the overflow when there is none below [UINT32_MAX]. *)
Definition qtoken_found q (c : Z) (r : option Z) : Prop :=
  match r with
  | Some u => c < u < UINT32_MAX /\ has_task u q = false /\ forall v, c < v < u -> has_task v q = true
  | None => forall v, c < v < UINT32_MAX -> has_task v q = true
  end.

Lemma qtoken_search q c :
  0 <= c < UINT32_MAX ->
  exists r, ploop qtoken_bound (qtoken_step q) c = inr r /\ qtoken_found q c r.
Proof.
  intros Hc.
  apply (ploop_stops _ (fun c' => c <= c' < UINT32_MAX /\ forall v, c < v <= c' -> has_task v q = true)
                       (fun c' => UINT32_MAX - c')).
  - split; [lia|]. intros; lia.
  - unfold qtoken_bound. lia.
  - intros; lia.
  - intros c' [Hc' Hocc]. unfold qtoken_step.
    rewrite (wrap_small 32) by (change (2 ^ 32) with 4294967296; lia).
    destruct (c' + 1 =? UINT32_MAX) eqn:E; zbool.
    { intros v Hv. apply Hocc. lia. }
    destruct (has_task (c' + 1) q) eqn:Eh.
    + split; [|lia]. split; [lia|]. intros v Hv.
      destruct (decide (v = c' + 1)) as [->|]; [done|]. apply Hocc. lia.
    + split; [lia|]. split; [done|]. intros v Hv. apply Hocc. lia.
Qed.

Lemma new_qtoken_cases q :
  qd_ok q -> counter_ok q ->
  (new_qtoken q = Panic /\ forall v, my_qt_counter q < v < UINT32_MAX -> has_task v q = true) \/
  (exists u, qtoken_found q (my_qt_counter q) (Some u) /\ new_qtoken q = Ok (0, mk_qtoken (my_qd q) u) (set_my_qt_counter u q)).
Proof.
  intros Hqd Hc. unfold qd_ok in Hqd.
  destruct (qtoken_search q (my_qt_counter q) Hc) as (r & Hr & Hf).
  assert (E : new_qtoken q =
    match r with
    | None => Panic
    | Some u => Ok (0, mk_qtoken (my_qd q) u) (set_my_qt_counter u q)
    end).
  { unfold new_qtoken, body_out, sbind, fbind, get, DMTR_TRUE, normal, fret.
    destruct (my_qd q =? 0) eqn:E0; zbool; [lia|]. cbn [negb]. rewrite Hr. by destruct r. }
  destruct r as [u|]; [right; eauto|left; auto].
Qed.
End tokens.

(** ** Tasks *)
Section tasks.
Implicit Types (t : task).

Lemma task_initialize_eq q_qd qt opcode t :
  0 < q_qd ->
  task_initialize q_qd qt opcode t =
    if (qt =? 0) || opcode_eqb DMTR_OPC_INVALID opcode || t_valid t then Ok EINVAL t
    else Ok 0 (mk_task true (mk_qresult opcode q_qd qt (qr_value (my_qr t))) EAGAIN
                 (my_sga_arg t) (my_queue_arg t)).
Proof.
  intros Hqd. unfold task_initialize, body, sbind, fbind, DMTR_NONZERO, DMTR_TRUE, get.
  destruct (qt =? 0) eqn:Eqt; cbn; [done|].
  destruct (opcode_eqb _ _); cbn; [done|].
  destruct (t_valid t) eqn:Ev; cbn; [done|].
  unfold DMTR_OK, zoom, initialize_result, fbind, body, sbind, DMTR_TRUE, modify.
  rewrite (proj2 (Z.gtb_lt _ _)) by lia. rewrite Eqt. done.
Qed.

(** The two variants with an argument check it first and store it last. *)
Lemma task_initialize_sga_eq q_qd qt opcode arg t :
  0 < q_qd ->
  task_initialize_sga q_qd qt opcode arg t =
    if (sga_numsegs arg =? 0) || (qt =? 0) || opcode_eqb DMTR_OPC_INVALID opcode || t_valid t then Ok EINVAL t
    else Ok 0 (mk_task true (mk_qresult opcode q_qd qt (qr_value (my_qr t))) EAGAIN arg (my_queue_arg t)).
Proof.
  intros Hqd. unfold task_initialize_sga, body, sbind, DMTR_NONZERO, DMTR_TRUE, DMTR_OK, fbind.
  destruct (sga_numsegs arg =? 0); cbn; [done|]. rewrite task_initialize_eq by done.
  by destruct (_ || _).
Qed.
Lemma task_initialize_queue_eq q_qd qt opcode arg t :
  0 < q_qd ->
  task_initialize_queue q_qd qt opcode arg t =
    if (arg =? 0) || (qt =? 0) || opcode_eqb DMTR_OPC_INVALID opcode || t_valid t then Ok EINVAL t
    else Ok 0 (mk_task true (mk_qresult opcode q_qd qt (qr_value (my_qr t))) EAGAIN (my_sga_arg t) arg).
Proof.
  intros Hqd. unfold task_initialize_queue, body, sbind, DMTR_NONZERO, DMTR_TRUE, DMTR_OK, fbind.
  destruct (arg =? 0); cbn; [done|]. rewrite task_initialize_eq by done.
  by destruct (_ || _).
Qed.

Lemma task_complete_eq e t :
  task_complete e t = if e =? EAGAIN then Ok EINVAL t else Ok 0 (set_my_error e t).
Proof. unfold task_complete, body, sbind, fbind, DMTR_TRUE. by destruct (e =? EAGAIN). Qed.
Lemma task_complete_sga_eq e sga t :
  task_complete_sga e sga t =
    if e =? EAGAIN then Ok EINVAL t
    else Ok 0 (set_my_qr (set_qr_value (qv_sga sga) (my_qr t)) (set_my_error e t)).
Proof.
  unfold task_complete_sga, body, sbind, DMTR_OK, fbind. rewrite task_complete_eq.
  by destruct (e =? EAGAIN).
Qed.
Lemma task_complete_ares_eq e qd addr t :
  task_complete_ares e qd addr t =
    if e =? EAGAIN then Ok EINVAL t
    else Ok 0 (set_my_qr (set_qr_value (qv_ares qd addr) (my_qr t)) (set_my_error e t)).
Proof.
  unfold task_complete_ares, body, sbind, DMTR_OK, fbind. rewrite task_complete_eq.
  by destruct (e =? EAGAIN).
Qed.
End tasks.

(** Completing the task in a slot, without a value. *)
Lemma on_slot_complete e slot q :
  e <> EAGAIN -> on_slot slot (task_complete e) q = Ok 0 (set_slot slot (set_my_error e (slot_task slot q)) q).
Proof. intros He. unfold on_slot, zoom. rewrite task_complete_eq. by rewrite (proj2 (Z.eqb_neq _ _) He). Qed.

(** ** The life of a token: executions of the base class *)

(** The operations the derived queues and the API perform on the base object,
    as commands on the slot of a token. *)
Inductive task_cmd :=
| CNew (opcode : dmtr_opcode)
| CNewSga (opcode : dmtr_opcode) (arg : dmtr_sgarray)
| CNewQueue (opcode : dmtr_opcode) (arg : Z)
| CComplete (error : Z)
| CCompleteSga (error : Z) (sga : dmtr_sgarray)
| CCompleteAres (error new_qd : Z) (addr : sockaddr_in)
| CDrop.

Definition run_cmd (c : task_cmd) (qt : Z) : fn io_queue Z :=
  match c with
  | CNew op => new_task qt op
  | CNewSga op arg => new_task_sga qt op arg
  | CNewQueue op arg => new_task_queue qt op arg
  | CComplete e => on_slot (task_slot qt) (task_complete e)
  | CCompleteSga e sga => on_slot (task_slot qt) (task_complete_sga e sga)
  | CCompleteAres e qd addr => on_slot (task_slot qt) (task_complete_ares e qd addr)
  | CDrop => io_queue_drop qt
  end.

(** The abstract state of a slot: free (remembering the stale result value a
    new task will start from), pending, or completed. *)
Inductive slot_state :=
| Free (stale : qr_value_t)
| Pending (r : dmtr_qresult)
| Completed (r : dmtr_qresult) (error : Z).

Definition slot_abs (t : task) : slot_state :=
  if t_valid t
  then if task_done t then Completed (my_qr t) (my_error t) else Pending (my_qr t)
  else Free (qr_value (my_qr t)).

Definition spec_new (args_ok : bool) (op : dmtr_opcode) (qd qt : Z) (s : slot_state) : Z * slot_state :=
  match s with
  | Free v =>
      if negb args_ok || (qt =? 0) || opcode_eqb DMTR_OPC_INVALID op then (EINVAL, s)
      else (0, Pending (mk_qresult op qd qt v))
  | _ => (EEXIST, s)
  end.

Definition spec_complete (error : Z) (value : qr_value_t -> qr_value_t) (s : slot_state) : Z * slot_state :=
  if error =? EAGAIN then (EINVAL, s)
  else match s with
       | Free v => (0, Free (value v))
       | Pending r | Completed r _ => (0, Completed (set_qr_value (value (qr_value r)) r) error)
       end.

Definition spec_cmd (c : task_cmd) (qd qt : Z) (s : slot_state) : Z * slot_state :=
  match c with
  | CNew op => spec_new true op qd qt s
  | CNewSga op arg => spec_new (negb (sga_numsegs arg =? 0)) op qd qt s
  | CNewQueue op arg => spec_new (negb (arg =? 0)) op qd qt s
  | CComplete e => spec_complete e id s
  | CCompleteSga e sga => spec_complete e (fun _ => qv_sga sga) s
  | CCompleteAres e qd addr => spec_complete e (fun _ => qv_ares qd addr) s
  | CDrop => (0, match s with
                 | Free v => Free v
                 | Pending r | Completed r _ => Free (qr_value r)
                 end)
  end.

Section lifecycle.
Implicit Types (q : io_queue) (t : task) (c : task_cmd).

(** What a command does to the task in the slot. *)
Definition cmd_task (c : task_cmd) (qd qt : Z) : fn task Z :=
  match c with
  | CNew op => task_initialize qd qt op
  | CNewSga op arg => task_initialize_sga qd qt op arg
  | CNewQueue op arg => task_initialize_queue qd qt op arg
  | CComplete e => task_complete e
  | CCompleteSga e sga => task_complete_sga e sga
  | CCompleteAres e nqd addr => task_complete_ares e nqd addr
  | CDrop => fun t => Ok 0 (task_clear t)
  end.
Definition cmd_is_new c : bool :=
  match c with CNew _ | CNewSga _ _ | CNewQueue _ _ => true | _ => false end.

Lemma body_DMTR_OK_last {S} (m : fn S Z) (s : S) :
  body (DMTR_OK m ;; normal 0)%cmd s = m s.
Proof.
  unfold body, sbind, DMTR_OK, fbind. destruct (m s) as [e s'| | |]; try done.
  destruct (e =? 0) eqn:E; zbool; by subst.
Qed.

(** Every command is its task command on the slot, behind the [EEXIST] check
    for those that start a task. *)
Lemma run_cmd_on_slot c qt q :
  run_cmd c qt q =
    if cmd_is_new c && has_task qt q then Ok EEXIST q
    else on_slot (task_slot qt) (cmd_task c (my_qd q) qt) q.
Proof.
  destruct c; cbn [run_cmd cmd_is_new cmd_task]; try done;
    unfold new_task, new_task_sga, new_task_queue.
  1-3: unfold body at 1, sbind at 1 2, fbind at 1 2 3, get, DMTR_TRUE;
    destruct (has_task qt q); cbn [negb andb]; [done|];
    unfold normal at 1, fret at 1; cbn iota beta;
    unfold sbind at 1, fbind at 1, modify; cbn iota beta;
    unfold insert_task; rewrite <- (body_DMTR_OK_last (on_slot _ _)); done.
Qed.

Lemma cmd_task_spec c qd qt t :
  0 < qd ->
  (cmd_is_new c = true -> t_valid t = false) ->
  exists e t', cmd_task c qd qt t = Ok e t' /\ spec_cmd c qd qt (slot_abs t) = (e, slot_abs t').
Proof.
  intros Hqd Hv.
  assert (Hnew : forall op, t_valid t = false -> exists e t',
    task_initialize qd qt op t = Ok e t' /\
    spec_new true op qd qt (slot_abs t) = (e, slot_abs t') /\
    (e = 0 \/ t' = t /\ e = EINVAL)).
  { intros op Ht. rewrite task_initialize_eq by done. unfold slot_abs at 1. rewrite Ht. cbn.
    rewrite orb_false_r. destruct (_ || _) eqn:E; do 2 eexists; (split; [done|]);
      unfold slot_abs; rewrite ?Ht; cbn; auto. }
  destruct c; cbn [cmd_task spec_cmd cmd_is_new] in *.
  - destruct (Hnew opcode (Hv eq_refl)) as (e & t' & ? & ? & _). eauto.
  - destruct (Hnew opcode (Hv eq_refl)) as (e & t' & E & Hs & He).
    unfold task_initialize_sga, body, sbind, DMTR_NONZERO, DMTR_TRUE, DMTR_OK, fbind.
    destruct (sga_numsegs arg =? 0); cbn.
    { do 2 eexists; split; [done|]. unfold slot_abs. by rewrite (Hv eq_refl). }
    rewrite E. destruct He as [-> | [-> ->]]; cbn; do 2 eexists; (split; [done|]); by rewrite Hs.
  - destruct (Hnew opcode (Hv eq_refl)) as (e & t' & E & Hs & He).
    unfold task_initialize_queue, body, sbind, DMTR_NONZERO, DMTR_TRUE, DMTR_OK, fbind.
    destruct (arg =? 0); cbn.
    { do 2 eexists; split; [done|]. unfold slot_abs. by rewrite (Hv eq_refl). }
    rewrite E. destruct He as [-> | [-> ->]]; cbn; do 2 eexists; (split; [done|]); by rewrite Hs.
  - rewrite task_complete_eq. unfold spec_complete, slot_abs, task_done.
    destruct (error =? EAGAIN) eqn:E; [by eauto|]. do 2 eexists; split; [done|]. cbn.
    rewrite E. destruct (t_valid t), (my_error t =? EAGAIN); cbn; by destruct (my_qr t).
  - rewrite task_complete_sga_eq. unfold spec_complete, slot_abs, task_done.
    destruct (error =? EAGAIN) eqn:E; [by eauto|]. do 2 eexists; split; [done|]. cbn.
    rewrite E. destruct (t_valid t), (my_error t =? EAGAIN); cbn; by destruct (my_qr t).
  - rewrite task_complete_ares_eq. unfold spec_complete, slot_abs, task_done.
    destruct (error =? EAGAIN) eqn:E; [by eauto|]. do 2 eexists; split; [done|]. cbn.
    rewrite E. destruct (t_valid t), (my_error t =? EAGAIN); cbn; by destruct (my_qr t).
  - do 2 eexists; split; [done|]. unfold slot_abs, task_done. cbn.
    destruct (t_valid t), (my_error t =? EAGAIN); done.
Qed.
End lifecycle.

(** Starting a task, case by case: the slot is in use; an argument is invalid
    and nothing changes; the task starts. *)
Section new_tasks.
Implicit Types (q : io_queue).

(** The task a slot holds once an operation starts in it. *)
Definition started (opcode : dmtr_opcode) (qt : Z) (sga : option dmtr_sgarray) (queue : option Z) q : task :=
  let t := get_task qt q in
  mk_task true (mk_qresult opcode (my_qd q) qt (qr_value (my_qr t))) EAGAIN
    (default (my_sga_arg t) sga) (default (my_queue_arg t) queue).

Lemma set_slot_self q slot s : slot_task s (set_slot slot (slot_task slot q) q) = slot_task s q.
Proof. rewrite slot_task_set. by case_decide; subst. Qed.

Lemma new_task_cases qt opcode q :
  0 < my_qd q -> opcode <> DMTR_OPC_INVALID ->
  new_task qt opcode q =
    if has_task qt q then Ok EEXIST q
    else if qt =? 0 then Ok EINVAL (set_slot (task_slot qt) (get_task qt q) q)
    else Ok 0 (set_slot (task_slot qt) (started opcode qt None None q) q).
Proof.
  intros Hqd Hop. pose proof (run_cmd_on_slot (CNew opcode) qt q) as H. cbn [run_cmd cmd_is_new cmd_task] in H.
  rewrite H. cbn [andb]. destruct (has_task qt q) eqn:Ev; [done|]. unfold on_slot, zoom.
  rewrite task_initialize_eq by done. rewrite has_task_slot in Ev. rewrite Ev, orb_false_r.
  unfold opcode_eqb. rewrite bool_decide_eq_false_2 by congruence. rewrite orb_false_r. by destruct (qt =? 0).
Qed.
Lemma new_task_sga_cases qt opcode arg q :
  0 < my_qd q -> opcode <> DMTR_OPC_INVALID ->
  new_task_sga qt opcode arg q =
    if has_task qt q then Ok EEXIST q
    else if (sga_numsegs arg =? 0) || (qt =? 0) then Ok EINVAL (set_slot (task_slot qt) (get_task qt q) q)
    else Ok 0 (set_slot (task_slot qt) (started opcode qt (Some arg) None q) q).
Proof.
  intros Hqd Hop. pose proof (run_cmd_on_slot (CNewSga opcode arg) qt q) as H. cbn [run_cmd cmd_is_new cmd_task] in H.
  rewrite H. cbn [andb]. destruct (has_task qt q) eqn:Ev; [done|]. unfold on_slot, zoom.
  rewrite task_initialize_sga_eq by done. rewrite has_task_slot in Ev. rewrite Ev, orb_false_r.
  unfold opcode_eqb. rewrite bool_decide_eq_false_2 by congruence. rewrite orb_false_r. by destruct (_ || _).
Qed.
Lemma new_task_queue_cases qt opcode arg q :
  0 < my_qd q -> opcode <> DMTR_OPC_INVALID ->
  new_task_queue qt opcode arg q =
    if has_task qt q then Ok EEXIST q
    else if (arg =? 0) || (qt =? 0) then Ok EINVAL (set_slot (task_slot qt) (get_task qt q) q)
    else Ok 0 (set_slot (task_slot qt) (started opcode qt None (Some arg) q) q).
Proof.
  intros Hqd Hop. pose proof (run_cmd_on_slot (CNewQueue opcode arg) qt q) as H. cbn [run_cmd cmd_is_new cmd_task] in H.
  rewrite H. cbn [andb]. destruct (has_task qt q) eqn:Ev; [done|]. unfold on_slot, zoom.
  rewrite task_initialize_queue_eq by done. rewrite has_task_slot in Ev. rewrite Ev, orb_false_r.
  unfold opcode_eqb. rewrite bool_decide_eq_false_2 by congruence. rewrite orb_false_r. by destruct (_ || _).
Qed.
Lemma io_queue_drop_eq qt q :
  io_queue_drop qt q = Ok 0 (set_slot (task_slot qt) (task_clear (get_task qt q)) q).
Proof. done. Qed.
End new_tasks.

(** The commands other than the token counter, and the issue of a token, as
    steps; a run collects the tokens it issues. *)
Inductive base_step (q : io_queue) : list Z -> io_queue -> Prop :=
| step_token qt q' : new_qtoken q = Ok (0, qt) q' -> base_step q [qt] q'
| step_cmd c qt e q' : run_cmd c qt q = Ok e q' -> base_step q [] q'.

Inductive base_run (q : io_queue) : list Z -> io_queue -> Prop :=
| run_refl : base_run q [] q
| run_step toks q1 toks' q2 : base_step q toks q1 -> base_run q1 toks' q2 -> base_run q (toks ++ toks') q2.

Section lifecycle_facts.
Implicit Types (q : io_queue) (c : task_cmd).

Lemma on_slot_frame {A} slot (m : fn task A) q a q' :
  on_slot slot m q = Ok a q' ->
  my_qd q' = my_qd q /\ my_cid q' = my_cid q /\ my_qt_counter q' = my_qt_counter q /\
  forall s, s <> slot -> slot_task s q' = slot_task s q.
Proof.
  unfold on_slot, zoom. destruct (m _); [|done..]. intros [= <- <-].
  repeat split. intros s' Hs. by apply slot_task_set_ne.
Qed.

Lemma run_cmd_frame c qt q e q' :
  run_cmd c qt q = Ok e q' ->
  my_qd q' = my_qd q /\ my_cid q' = my_cid q /\ my_qt_counter q' = my_qt_counter q /\
  forall s, s <> task_slot qt -> slot_task s q' = slot_task s q.
Proof.
  rewrite run_cmd_on_slot. destruct (_ && _); [by intros [= <- <-]|]. apply on_slot_frame.
Qed.

Lemma base_step_ok q toks q' :
  base_step q toks q' -> qd_ok q -> counter_ok q ->
  my_qd q' = my_qd q /\ counter_ok q' /\ my_qt_counter q <= my_qt_counter q' /\
  (toks = [] \/ my_qt_counter q < my_qt_counter q' /\ toks = [mk_qtoken (my_qd q) (my_qt_counter q')]).
Proof.
  intros Hstep Hqd Hc. destruct Hstep as [qt q' H|c qt e q' H].
  - destruct (new_qtoken_cases q Hqd Hc) as [[Hp _]|(u & Hu & Ho)]; [congruence|].
    rewrite H in Ho. injection Ho as -> ->. destruct Hu as (? & _ & _).
    unfold counter_ok in *. cbn. split; [done|]. split; [lia|]. split; [lia|]. right. split; [lia|done].
  - apply run_cmd_frame in H as (-> & _ & Hcnt & _).
    unfold counter_ok in *. rewrite Hcnt. repeat split; try lia. by left.
Qed.
End lifecycle_facts.

(** ** Properties *)

(** C11: the commands on the slot of a token implement the abstract life cycle
    of an asynchronous operation.  A task starts only in a free slot and with
    valid arguments, it becomes pending and then completed, with the value
    given, and dropping it frees the slot; an operation that fails ([EINVAL],
    [EEXIST]) changes no slot, and no operation touches another slot, the
    queue's descriptor or its token counter.  A new task starts from the stale
    result value of the slot's previous task. *)
Theorem task_commands_refine c qt q :
  qd_ok q ->
  exists e q', run_cmd c qt q = Ok e q' /\
    spec_cmd c (my_qd q) qt (slot_abs (get_task qt q)) = (e, slot_abs (get_task qt q')) /\
    (forall s, s <> task_slot qt -> slot_task s q' = slot_task s q) /\
    my_qd q' = my_qd q /\ my_cid q' = my_cid q /\ my_qt_counter q' = my_qt_counter q.
Proof.
  intros Hqd. pose proof (run_cmd_on_slot c qt q) as Hr.
  destruct (cmd_is_new c && has_task qt q) eqn:E.
  - apply andb_true_iff in E as [Hn Hv]. exists EEXIST, q. split; [done|].
    split; [|done]. unfold slot_abs. rewrite has_task_slot in Hv. unfold get_task. rewrite Hv.
    destruct c; try done; cbn; by destruct (task_done _).
  - destruct (cmd_task_spec c (my_qd q) qt (get_task qt q)) as (e & t' & Ht & Hs).
    { unfold qd_ok in Hqd. lia. }
    { intros Hn. rewrite Hn in E. exact E. }
    assert (Hq : run_cmd c qt q = Ok e (set_slot (task_slot qt) t' q)).
    { rewrite Hr. unfold on_slot, zoom. unfold get_task in Ht. by rewrite Ht. }
    exists e, (set_slot (task_slot qt) t' q). split; [done|].
    destruct (run_cmd_frame _ _ _ _ _ Hq) as (? & ? & ? & ?).
    split; [|done]. unfold get_task. rewrite slot_task_set_eq. exact Hs.
Qed.

Definition example_queue : io_queue := io_queue_ctor MEMORY_Q 3.
Lemma example_queue_ok : qd_ok example_queue /\ counter_ok example_queue.
Proof. unfold qd_ok, counter_ok; cbn; lia. Qed.

Lemma task_commands_refine_witness :
  qd_ok example_queue /\
  exists e q', run_cmd (CNew DMTR_OPC_POP) 7 example_queue = Ok e q' /\
    spec_cmd (CNew DMTR_OPC_POP) 3 7 (slot_abs (get_task 7 example_queue)) = (e, slot_abs (get_task 7 q')).
Proof.
  split; [apply example_queue_ok|].
  destruct (task_commands_refine (CNew DMTR_OPC_POP) 7 example_queue (proj1 example_queue_ok))
    as (e & q' & H & Hs & _).
  exists e, q'. split; [exact H|exact Hs].
Defined.

(** A token is issued with the queue's descriptor in its high half, is not
    the null token, names a free slot, and its low half is the first value of
    the counter above the current one whose slot is free; the tasks are
    untouched. *)
Theorem new_qtoken_correct q qt q' :
  qd_ok q -> counter_ok q -> new_qtoken q = Ok (0, qt) q' ->
  qt <> 0 /\ QT2QD qt = my_qd q /\ u32 qt = my_qt_counter q' /\ has_task qt q' = false /\
  my_tasks q' = my_tasks q /\ my_qt_counter q < my_qt_counter q' < UINT32_MAX /\
  forall u, my_qt_counter q < u < my_qt_counter q' -> has_task u q = true.
Proof.
  intros Hqd Hc H. destruct (new_qtoken_cases q Hqd Hc) as [[Hp _]|(u & (Hu & Hf & Hocc) & Ho)]; [congruence|].
  rewrite H in Ho. injection Ho as -> ->. cbn [my_qt_counter set_my_qt_counter].
  unfold qd_ok, counter_ok in *.
  assert (Hu32 : 0 <= u < 2 ^ 32) by (change (2 ^ 32) with 4294967296; lia).
  assert (Hqd' : 0 <= my_qd q < 2 ^ 31) by lia.
  rewrite mk_qtoken_val by done. split; [change (2 ^ 32) with 4294967296; lia|].
  rewrite <- mk_qtoken_val by done. rewrite QT2QD_mk_qtoken by done. split; [done|].
  split.
  { rewrite mk_qtoken_val by done. unfold wrap. rewrite Z.add_comm, Z.mod_add by lia. by apply Z.mod_small. }
  split; [|done]. rewrite has_task_slot, slot_task_counter, task_slot_mk_qtoken by done. exact Hf.
Qed.

Lemma new_qtoken_correct_witness :
  new_qtoken example_queue = Ok (0, 12884901889) (set_my_qt_counter 1 example_queue) /\
  QT2QD 12884901889 = my_qd example_queue.
Proof.
  assert (H : new_qtoken example_queue = Ok (0, 12884901889) (set_my_qt_counter 1 example_queue))
    by (vm_compute; reflexivity).
  split; [exact H|].
  exact (proj1 (proj2 (new_qtoken_correct _ _ _ (proj1 example_queue_ok) (proj2 example_queue_ok) H))).
Defined.

(** C40: the search for a token always ends, either with a token or with the
    overflow panic, and it panics exactly when every slot named by the rest of
    the counter is in use; in particular a free slot within the next 1024
    counter values is always found. *)
Theorem new_qtoken_total q :
  qd_ok q -> counter_ok q ->
  (new_qtoken q = Panic \/ exists qt q', new_qtoken q = Ok (0, qt) q') /\
  (new_qtoken q = Panic <-> forall u, my_qt_counter q < u < UINT32_MAX -> has_task u q = true) /\
  (my_qt_counter q + MAX_TASKS < UINT32_MAX ->
   (exists s, 0 <= s < MAX_TASKS /\ t_valid (slot_task s q) = false) -> new_qtoken q <> Panic).
Proof.
  intros Hqd Hc. unfold MAX_TASKS.
  assert (Hiff : new_qtoken q = Panic <-> forall u, my_qt_counter q < u < UINT32_MAX -> has_task u q = true).
  { destruct (new_qtoken_cases q Hqd Hc) as [[Hp Hall]|(u & (Hu & Hf & _) & Ho)]; [done|].
    split; [congruence|]. intros Hall. rewrite (Hall u Hu) in Hf. done. }
  split; [|split; [exact Hiff|]].
  - destruct (new_qtoken_cases q Hqd Hc) as [[Hp _]|(u & _ & Ho)]; [by left|right; eauto].
  - intros Hroom (s & Hs & Hfree) Hp. unfold counter_ok in Hc.
    (* the next counter value congruent to [s] *)
    set (u := my_qt_counter q + 1 + (s - (my_qt_counter q + 1)) mod 1024).
    assert (Hb : 0 <= (s - (my_qt_counter q + 1)) mod 1024 < 1024) by (apply Z.mod_pos_bound; lia).
    specialize (proj1 Hiff Hp u ltac:(lia)) as Hh. rewrite has_task_slot in Hh.
    replace (task_slot u) with s in Hh; [congruence|].
    unfold task_slot, u, MAX_TASKS. rewrite Zplus_mod_idemp_r.
    replace (my_qt_counter q + 1 + (s - (my_qt_counter q + 1))) with s by lia. by rewrite Z.mod_small.
Qed.

Lemma new_qtoken_total_witness :
  qd_ok example_queue /\ counter_ok example_queue /\ new_qtoken example_queue <> Panic.
Proof.
  split; [apply example_queue_ok|]. split; [apply example_queue_ok|].
  apply (proj2 (proj2 (new_qtoken_total example_queue (proj1 example_queue_ok) (proj2 example_queue_ok)))).
  - reflexivity.
  - exists 0. split; [unfold MAX_TASKS; lia|reflexivity].
Defined.

(** Along any execution of a queue, whatever operations are interleaved,
    the tokens issued increase strictly, so none is issued twice, and each one
    routes to this queue. *)
Theorem tokens_never_reused q toks q' :
  base_run q toks q' -> qd_ok q -> counter_ok q ->
  StronglySorted Z.lt toks /\ Forall (fun qt => qt <> 0 /\ QT2QD qt = my_qd q) toks /\ NoDup toks.
Proof.
  intros Hrun Hqd Hc.
  assert (H : StronglySorted Z.lt toks /\
    Forall (fun qt => exists u, my_qt_counter q < u < UINT32_MAX /\ qt = mk_qtoken (my_qd q) u) toks).
  { induction Hrun as [q|q t1 q1 t2 q2 Hstep Hrun IH]; [by split; constructor|].
    destruct (base_step_ok _ _ _ Hstep Hqd Hc) as (Hqd1 & Hc1 & Hle & Ht).
    destruct IH as [Hs Hf]; [by unfold qd_ok in *; rewrite Hqd1|done|]. rewrite Hqd1 in Hf.
    assert (Hf' : Forall (fun qt => exists u, my_qt_counter q < u < UINT32_MAX /\ qt = mk_qtoken (my_qd q) u) t2).
    { eapply Forall_impl; [exact Hf|]. cbn. intros ? (u & ? & ->). exists u. split; [lia|done]. }
    destruct Ht as [->|[Hlt ->]]; [done|]. cbn [app]. unfold counter_ok, qd_ok in *. split.
    - constructor; [done|]. eapply Forall_impl; [exact Hf|]. cbn. intros ? (u & ? & ->).
      rewrite !mk_qtoken_val by (change (2 ^ 32) with 4294967296; lia). lia.
    - constructor; [|done]. exists (my_qt_counter q1). split; [lia|done]. }
  destruct H as [Hs Hf]. split; [done|]. split.
  - eapply Forall_impl; [exact Hf|]. cbn. intros ? (u & Hu & ->). unfold qd_ok, counter_ok in *.
    assert (0 <= u < 2 ^ 32) by (change (2 ^ 32) with 4294967296; lia).
    split; [|by apply QT2QD_mk_qtoken; lia].
    rewrite mk_qtoken_val by lia. change (2 ^ 32) with 4294967296. lia.
  - clear -Hs. induction Hs as [|x l Hs IH Hx]; constructor; [|done].
    intros Hin. rewrite Forall_forall in Hx. specialize (Hx _ Hin). lia.
Qed.

Lemma tokens_never_reused_witness :
  base_run example_queue [12884901889; 12884901890]
    (set_my_qt_counter 2 example_queue) /\ NoDup [12884901889; 12884901890].
Proof.
  assert (H : base_run example_queue ([12884901889] ++ [12884901890] ++ [])
    (set_my_qt_counter 2 example_queue)).
  { econstructor 2; [apply step_token; vm_compute; reflexivity|].
    econstructor 2; [apply step_token; vm_compute; reflexivity|]. constructor. }
  split; [exact H|].
  exact (proj2 (proj2 (tokens_never_reused _ _ _ H (proj1 example_queue_ok) (proj2 example_queue_ok)))).
Defined.
