(* ===== verification/UserThread.v ===== *)
(** * User threads: [include/dmtr/libos/user_thread.hh]

    A [user_thread] is a coroutine with a queue of values.  The coroutine is
    given by its suspended control points, a type [K], and by [step], which
    runs it from one control point to the next: [Continue] goes on at another
    control point, [Yield] is a call of [yield()], [Finish e] is the function's
    [return e].  [run] resumes it until it yields or returns; its fuel bounds
    the number of control points crossed. *)
From S2P Require Import Prelude Cmd.

Record user_thread (K : Type) := mk_user_thread {
  th_error : Z;                 (* [my_error] *)
  th_queue : list Z;            (* [*my_queue] *)
  th_coroutine : option K       (* [*my_coroutine]; [None] once it has returned *)
}.
Arguments mk_user_thread {K}.
Arguments th_error {K}.
Arguments th_queue {K}.
Arguments th_coroutine {K}.

Inductive next (K : Type) :=
| Continue (k : K)
| Yield (k : K)
| Finish (e : Z).
Arguments Continue {K}.
Arguments Yield {K}.
Arguments Finish {K}.

(** A statement of the coroutine's function: a [return e] in it is [Finish e]. *)
Definition in_thread {S K} (tq : list Z) (m : stmt S (next K)) : fn S (list Z * next K) :=
  fbind m (fun r => fret (tq, match r with inl n => n | inr e => Finish e end)).

Definition th_done {K} (th : user_thread K) : bool :=
  match th_coroutine th with Some _ => false | None => true end.
Definition th_enqueue {K} (value : Z) (th : user_thread K) : user_thread K :=
  mk_user_thread (th_error th) (th_queue th ++ [value]) (th_coroutine th).

Lemma post_in_thread {S K} (bad : Prop) tq (m : stmt S (next K)) Q s :
  post bad (in_thread tq m) Q s <->
  post bad m (fun r s' => Q (tq, match r with inl n => n | inr e => Finish e end) s') s.
Proof. unfold in_thread. by rewrite post_fbind. Qed.

(** A coroutine that waits for work. *)
Definition idle {K} (k : K) : option (user_thread K) := Some (mk_user_thread EAGAIN [] (Some k)).

Section user_thread.
Context {S K : Type} (step : K -> list Z -> fn S (list Z * next K)).

Fixpoint run (fuel : nat) (err : Z) (k : K) (tq : list Z) : fn S (user_thread K) :=
  match fuel with
  | O => fun _ => NoFuel
  | Datatypes.S fuel' => fbind (step k tq) (fun '(tq', n) =>
      match n with
      | Continue k' => run fuel' err k' tq'
      | Yield k' => fret (mk_user_thread err tq' (Some k'))
      | Finish e =>
          (* "User thread function may not return `EAGAIN`." *)
          if e =? EAGAIN then panic else fret (mk_user_thread e tq' None)
      end)
  end.

(** The constructor starts the coroutine, which runs to its first yield. *)
Definition user_thread_ctor (fuel : nat) (k0 : K) : fn S (user_thread K) := run fuel EAGAIN k0 [].

Definition service (fuel : nat) (th : user_thread K) : fn S (Z * user_thread K) :=
  fbind (match th_coroutine th with
         | Some k => run fuel (th_error th) k (th_queue th)
         | None => fret th
         end)
    (fun th' =>
       if negb (th_done th') then fret (EAGAIN, th')
       else if th_error th' =? EAGAIN then fret (ENOTSUP, th')
       else fret (th_error th', th')).

(** More fuel does not change what a run does. *)
Lemma run_mono fuel fuel' err k tq s :
  (fuel <= fuel')%nat -> run fuel err k tq s <> NoFuel -> run fuel' err k tq s = run fuel err k tq s.
Proof.
  revert fuel' k tq s. induction fuel as [|fuel IH]; intros fuel' k tq s Hle Hne; [done|].
  destruct fuel' as [|fuel']; [lia|]. cbn [run] in *. unfold fbind in *.
  destruct (step k tq s) as [[tq' n] s'| | |]; try done.
  destruct n as [k'|k'|e]; try done. apply IH; [lia|done].
Qed.

(** A property every step keeps holds when the run stops. *)
Lemma run_invariant (I : K -> list Z -> S -> Prop) (J : user_thread K -> S -> Prop) fuel err k tq s :
  (forall k tq s, I k tq s -> wlp (step k tq) (fun '(tq', n) s' =>
     match n with
     | Continue k' => I k' tq' s'
     | Yield k' => J (mk_user_thread err tq' (Some k')) s'
     | Finish e => e <> EAGAIN -> J (mk_user_thread e tq' None) s'
     end) s) ->
  I k tq s -> wlp (run fuel err k tq) J s.
Proof.
  intros Hstep. revert k tq s. induction fuel as [|fuel IH]; intros k tq s HI; [done|].
  cbn [run]. rewrite post_fbind. eapply post_mono; [apply Hstep, HI|]. cbn.
  intros [tq' n] s' Hn. destruct n as [k'|k'|e]; [by apply IH|done|].
  destruct (e =? EAGAIN) eqn:E; [done|]. zbool. by apply Hn.
Qed.

(** Total correctness: a step keeps the invariant and decreases the measure, or
      stops in [J]. *)
Lemma run_total (I : K -> list Z -> S -> Prop) (mu : K -> list Z -> S -> nat) (J : user_thread K -> S -> Prop)
      fuel err k tq s :
    (forall k tq s, I k tq s -> wp (step k tq) (fun '(tq', n) s' =>
       match n with
       | Continue k' => I k' tq' s' /\ (mu k' tq' s' < mu k tq s)%nat
       | Yield k' => J (mk_user_thread err tq' (Some k')) s'
       | Finish e => e <> EAGAIN /\ J (mk_user_thread e tq' None) s'
       end) s) ->
    I k tq s -> (mu k tq s < fuel)%nat -> wp (run fuel err k tq) J s.
Proof.
    intros Hstep. revert k tq s. induction fuel as [|fuel IH]; intros k tq s HI Hf; [lia|].
    cbn [run]. rewrite post_fbind. eapply post_mono; [apply Hstep, HI|]. cbn.
    intros [tq' n] s' Hn. destruct n as [k'|k'|e]; [|done|].
    - destruct Hn. apply IH; [done|lia].
    - destruct Hn as [Hne HJ]. rewrite (proj2 (Z.eqb_neq _ _)) by done. done.
Qed.

(** A relation every step keeps is kept by a run and by [service]. *)
Lemma keeps_run (R : S -> S -> Prop) `{!PreOrder R} fuel err k tq :
  (forall k tq, keeps R (step k tq)) -> keeps R (run fuel err k tq).
Proof.
  intros Hs. revert k tq. induction fuel as [|fuel IH]; intros k tq; cbn [run]; [done|].
  keeps_step; [apply Hs|]. destruct a as [tq' [k'|k'|e]]; [apply IH|by keeps_step|].
  destruct (_ =? _); by keeps_step.
Qed.
Lemma keeps_service (R : S -> S -> Prop) `{!PreOrder R} fuel th :
  (forall k tq, keeps R (step k tq)) -> keeps R (service fuel th).
Proof.
  intros Hs. unfold service. keeps_step; [destruct (th_coroutine th); [by apply keeps_run|by keeps_step]|].
  destruct (negb _); [by keeps_step|]. destruct (_ =? _); by keeps_step.
Qed.

(** One control point of a run, and a service of a suspended coroutine. *)
Lemma post_run_step bad fuel err k tq Q s :
    post bad (run (Datatypes.S fuel) err k tq) Q s <->
    post bad (step k tq) (fun r s' => match snd r with
      | Continue k' => post bad (run fuel err k' (fst r)) Q s'
      | Yield k' => Q (mk_user_thread err (fst r) (Some k')) s'
      | Finish e => if e =? EAGAIN then bad else Q (mk_user_thread e (fst r) None) s'
      end) s.
Proof.
    cbn [run]. rewrite post_fbind. unfold post at 1 3. destruct (step k tq s) as [[tq' [k'|k'|e]] s'| | |]; try done. cbn.
    by destruct (e =? EAGAIN).
Qed.
Lemma post_service bad fuel err tq k Q s :
    post bad (service fuel (mk_user_thread err tq (Some k))) Q s <->
    post bad (run fuel err k tq) (fun th s' => Q (if th_done th then if th_error th =? EAGAIN then ENOTSUP else th_error th else EAGAIN, th) s') s.
Proof.
    unfold service. rewrite post_fbind. cbn [th_coroutine th_error th_queue]. unfold post.
    destruct (run fuel err k tq s) as [th s'| | |]; try done. destruct (th_done th); [cbn [negb]|done]. by destruct (_ =? _).
Qed.

(** A measure that every [Continue] decreases bounds the fuel needed. *)
Lemma run_enough_fuel (I : K -> list Z -> S -> Prop) (mu : K -> list Z -> S -> nat) fuel err k tq s :
  (forall k tq s, I k tq s -> step k tq s <> NoFuel /\
     forall tq' k' s', step k tq s = Ok (tq', Continue k') s' ->
       I k' tq' s' /\ (mu k' tq' s' < mu k tq s)%nat) ->
  I k tq s -> (mu k tq s < fuel)%nat -> run fuel err k tq s <> NoFuel.
Proof.
  intros Hstep. revert k tq s. induction fuel as [|fuel IH]; intros k tq s HI Hf; [lia|].
  cbn [run]. unfold fbind. destruct (Hstep k tq s HI) as [Hne Hc].
  destruct (step k tq s) as [[tq' n] s'| | |]; try done.
  destruct n as [k'|k'|e]; try done.
  - destruct (Hc tq' k' s' eq_refl). apply IH; [done|lia].
  - by destruct (e =? EAGAIN).
Qed.

(** [my_error] is [EAGAIN] exactly while the coroutine is suspended. *)
Definition thread_ok (th : user_thread K) : Prop :=
  th_error th = EAGAIN <-> th_done th = false.

Lemma run_thread_ok fuel k tq s : wlp (run fuel EAGAIN k tq) (fun th _ => thread_ok th) s.
Proof.
  apply run_invariant with (I := fun _ _ _ => True); [|done].
  intros k' tq' s' _. unfold post. destruct (step k' tq' s') as [[? []]| | |]; try done.
Qed.
End user_thread.

(** Servicing a thread returns [EAGAIN] exactly when the thread is left
    suspended, and otherwise the value its function returned; a thread that
    has returned stays so, and servicing it again returns the same value
    without running anything or touching the store. *)
Theorem service_correct {S K} (step : K -> list Z -> fn S (list Z * next K)) fuel th s r th' s' :
  thread_ok th -> service step fuel th s = Ok (r, th') s' ->
  thread_ok th' /\ (r = EAGAIN <-> th_done th' = false) /\ (th_done th' = true -> r = th_error th') /\
  (th_done th = true -> r = th_error th /\ th' = th /\ s' = s) /\
  (forall fuel' s'', th_done th' = true -> service step fuel' th' s'' = Ok (r, th') s'').
Proof.
  intros Hok H. unfold service, fbind in H.
  assert (Hok' : thread_ok th' /\ (if negb (th_done th') then r = EAGAIN
                  else if th_error th' =? EAGAIN then r = ENOTSUP else r = th_error th') /\
                 (th_done th = true -> th' = th /\ s' = s)).
  { destruct th as [err tq [k|]]; unfold thread_ok, th_done in Hok; cbn in *.
    - assert (err = EAGAIN) as -> by naive_solver.
      pose proof (run_thread_ok step fuel k tq s) as Hr. unfold post in Hr.
      destruct (run step fuel EAGAIN k tq s) as [th1 s1| | |]; try done.
      destruct (negb (th_done th1)) eqn:E1; [injection H as <- <- <-; rewrite E1; done|].
      destruct (th_error th1 =? EAGAIN) eqn:E2; injection H as <- <- <-; rewrite E1, E2; done.
    - unfold fret in H. cbn in H. destruct (err =? EAGAIN) eqn:E; zbool; [naive_solver|].
      injection H as <- <- <-. cbn. rewrite (proj2 (Z.eqb_neq _ _) E). split; [|done].
      unfold thread_ok, th_done; cbn. split; [naive_solver|done]. }
  destruct Hok' as (Hok' & Hr & Hd). split; [done|]. unfold thread_ok in Hok'.
  destruct (th_done th') eqn:Ed; cbn in Hr.
  - destruct (th_error th' =? EAGAIN) eqn:E; zbool; [naive_solver|]. subst r.
    split; [split; [naive_solver|done]|]. split; [done|]. split.
    + intros Hdone. destruct (Hd Hdone) as [-> ->]. done.
    + intros fuel' s'' _. unfold service, fbind. unfold th_done in Ed.
      destruct th' as [err tq [k|]]; [done|]. cbn in *. by rewrite (proj2 (Z.eqb_neq _ _) E).
  - subst r. split; [done|]. split; [done|]. split; [|done].
    intros Hdone. destruct (Hd Hdone) as [-> ->]. congruence.
Qed.

(** A two-step coroutine: it yields once and then returns 5. *)
Definition demo_step (k : bool) (tq : list Z) : fn Z (list Z * next bool) := fun s =>
  if k then Ok (tq, Finish 5) (s + 1) else Ok (tq, Yield true) s.

Lemma service_correct_witness :
  service demo_step 3 (mk_user_thread EAGAIN [] (Some true)) 0 = Ok (5, mk_user_thread 5 [] None) 1 /\
  service demo_step 9 (mk_user_thread 5 [] None) 7 = Ok (5, mk_user_thread 5 [] None) 7.
Proof.
  assert (H : service demo_step 3 (mk_user_thread EAGAIN [] (Some true)) 0
              = Ok (5, mk_user_thread 5 [] None) 1) by reflexivity.
  split; [exact H|].
  refine (proj2 (proj2 (proj2 (proj2 (service_correct demo_step 3 _ 0 _ _ _ _ H)))) 9%nat 7 eq_refl).
  unfold thread_ok, th_done; cbn; naive_solver.
Defined.
