(* ===== verification/MemoryQueue.v ===== *)
(** * In-memory queues: [common/memory_queue.cc]

    A [memory_queue] has a push worker and a pop worker, two user threads.  The
    push worker moves the arguments of the pending pushes to [my_ready_queue];
    the pop worker hands the ready elements to the pending pops.  The
    recursive mutex [my_lock] is not modelled: a method is one step.  [pop],
    [poll], [drop] and [close] hold it throughout; [push] reads the good flag and
    the thread pointer before it takes it, which a [close] between the two would
    let pass: the model has the calls one after the other. *)
From S2P Require Import Prelude Cmd Types Memory IoQueue UserThread.
Open Scope cmd_scope.

(** Control points of [push_thread]: the test [while (good())] and the test
    [while (tq.empty())]. *)
Inductive mq_push_k := MqPushLoop | MqPushIdle.
(** Those of [pop_thread]; [MqPopReady t] is the test
    [while (my_ready_queue.empty())] with [t] in hand. *)
Inductive mq_pop_k := MqPopLoop | MqPopIdle | MqPopReady (t : Z).

Record memory_queue := mk_memory_queue {
  mq_base : io_queue;
  my_ready_queue : list dmtr_sgarray;
  my_push_thread : option (user_thread mq_push_k);
  my_pop_thread : option (user_thread mq_pop_k);
  my_good_flag : bool
}.

Definition memory_queue_ctor (qd : Z) : memory_queue :=
  mk_memory_queue (io_queue_ctor MEMORY_Q qd) [] None None true.

Definition set_mq_base (b : io_queue) (q : memory_queue) : memory_queue :=
  mk_memory_queue b (my_ready_queue q) (my_push_thread q) (my_pop_thread q) (my_good_flag q).
Definition set_my_ready_queue (r : list dmtr_sgarray) (q : memory_queue) : memory_queue :=
  mk_memory_queue (mq_base q) r (my_push_thread q) (my_pop_thread q) (my_good_flag q).
Definition set_my_push_thread (th : option (user_thread mq_push_k)) (q : memory_queue) : memory_queue :=
  mk_memory_queue (mq_base q) (my_ready_queue q) th (my_pop_thread q) (my_good_flag q).
Definition set_my_pop_thread (th : option (user_thread mq_pop_k)) (q : memory_queue) : memory_queue :=
  mk_memory_queue (mq_base q) (my_ready_queue q) (my_push_thread q) th (my_good_flag q).
Definition set_my_good_flag (b : bool) (q : memory_queue) : memory_queue :=
  mk_memory_queue (mq_base q) (my_ready_queue q) (my_push_thread q) (my_pop_thread q) b.

Definition mq_good (q : memory_queue) : bool := my_good_flag q.

Definition on_base {A} (m : fn io_queue A) : fn memory_queue A := zoom mq_base set_mq_base m.

(** [t->arg(sga)] on the task pointed at. *)
Definition mq_task (slot : Z) (q : memory_queue) : task := slot_task slot (mq_base q).

Definition mq_push_step (k : mq_push_k) (tq : list Z) : fn memory_queue (list Z * next mq_push_k) :=
  match k with
  | MqPushLoop => in_thread tq (
      q <- get ;
      if mq_good q then normal (Continue MqPushIdle) else return_ 0)
  | MqPushIdle =>
      match tq with
      | [] => in_thread tq (normal (Yield MqPushIdle))
      | qt :: tq => in_thread tq (
          t <- DMTR_OK_out (on_base (get_task_ptr qt)) ;
          q <- get ;
          let arg := task_arg_sga (mq_task t q) in
          DMTR_TRUE EINVAL (match arg with Some _ => true | None => false end) ;;
          sga <- need arg ;
          modify (fun q => set_my_ready_queue (my_ready_queue q ++ [sga]) q) ;;
          DMTR_OK (on_base (on_slot t (task_complete_sga 0 sga))) ;;
          normal (Continue MqPushLoop))
      end
  end.

Definition mq_pop_step (k : mq_pop_k) (tq : list Z) : fn memory_queue (list Z * next mq_pop_k) :=
  match k with
  | MqPopLoop => in_thread tq (
      q <- get ;
      if mq_good q then normal (Continue MqPopIdle) else return_ 0)
  | MqPopIdle =>
      match tq with
      | [] => in_thread tq (normal (Yield MqPopIdle))
      | qt :: tq => in_thread tq (
          t <- DMTR_OK_out (on_base (get_task_ptr qt)) ;
          normal (Continue (MqPopReady t)))
      end
  | MqPopReady t => in_thread tq (
      q <- get ;
      match my_ready_queue q with
      | [] => normal (Yield (MqPopReady t))
      | sga :: rest =>
          modify (set_my_ready_queue rest) ;;
          DMTR_OK (on_base (on_slot t (task_complete_sga 0 sga))) ;;
          normal (Continue MqPopLoop)
      end)
  end.

(** Each queued token takes a worker through at most three control points. *)
Definition mq_fuel (tq : list Z) : nat := 3 * length tq + 4.

Definition mq_start_threads : fn memory_queue unit :=
  fbind (user_thread_ctor mq_push_step (mq_fuel []) MqPushLoop) (fun push =>
  fbind (fun q => Ok tt (set_my_push_thread (Some push) q)) (fun _ =>
  fbind (user_thread_ctor mq_pop_step (mq_fuel []) MqPopLoop) (fun pop =>
  fun q => Ok tt (set_my_pop_thread (Some pop) q)))).

(** [new] throws rather than returning null, so the [ENOMEM] check passes. *)
Definition mq_new_object (qd : Z) : result memory_queue Z :=
  match mq_start_threads (memory_queue_ctor qd) with
  | Ok _ q => Ok 0 q
  | Panic => Panic
  | Undef => Undef
  | NoFuel => NoFuel
  end.

Definition mq_push (qt : Z) (sga : dmtr_sgarray) : fn memory_queue Z := body (
  q <- get ;
  DMTR_TRUE EINVAL (mq_good q) ;;
  DMTR_NOTNULL EINVAL (my_push_thread q) ;;
  DMTR_OK (on_base (new_task_sga qt DMTR_OPC_PUSH sga)) ;;
  modify (fun q => set_my_push_thread (th_enqueue qt <$> my_push_thread q) q) ;;
  normal 0).

Definition mq_pop (qt : Z) : fn memory_queue Z := body (
  q <- get ;
  DMTR_TRUE EINVAL (mq_good q) ;;
  DMTR_NOTNULL EINVAL (my_pop_thread q) ;;
  DMTR_OK (on_base (new_task qt DMTR_OPC_POP)) ;;
  modify (fun q => set_my_pop_thread (th_enqueue qt <$> my_pop_thread q) q) ;;
  normal 0).

(** [my_push_thread->service()]: the pointer is dereferenced unchecked. *)
Definition mq_service_push : fn memory_queue Z := fun q =>
  match my_push_thread q with
  | None => Undef
  | Some th =>
      fbind (service mq_push_step (mq_fuel (th_queue th)) th)
        (fun r q => Ok (fst r) (set_my_push_thread (Some (snd r)) q)) q
  end.
Definition mq_service_pop : fn memory_queue Z := fun q =>
  match my_pop_thread q with
  | None => Undef
  | Some th =>
      fbind (service mq_pop_step (mq_fuel (th_queue th)) th)
        (fun r q => Ok (fst r) (set_my_pop_thread (Some (snd r)) q)) q
  end.

Definition mq_poll (qr_out : dmtr_qresult) (qt : Z) : fn memory_queue (Z * dmtr_qresult) :=
  fbind (
    q <- get ;
    DMTR_TRUE EINVAL (mq_good q) ;;
    t <- DMTR_OK_out (on_base (get_task_ptr qt)) ;
    q <- get ;
    ret <- (match task_opcode (mq_task t q) with
            | DMTR_OPC_PUSH => call mq_service_push
            | DMTR_OPC_POP => call mq_service_pop
            | _ => return_ ENOTSUP
            end) ;
    (if ret =? EAGAIN then normal tt
     else if ret =? 0 then DMTR_UNREACHABLE
     else DMTR_FAIL ret) ;;
    q <- get ;
    normal (task_poll qr_out (mq_task t q)))
  (fun r => match r with inl a => fret a | inr e => fret (e, qr_out) end).

Definition mq_drop (qt : Z) : fn memory_queue Z := body (
  q <- get ;
  DMTR_TRUE EINVAL (mq_good q) ;;
  r <- call (on_base (io_queue_drop qt)) ;
  normal r).

Definition mq_close : fn memory_queue Z := body (
  modify (set_my_good_flag false) ;;
  normal 0).

(** ** The abstract queue *)

(** What [API.md] promises: a FIFO of elements, with the asynchronous pushes
    not yet moved to it and the pops still waiting, in the order issued, and
    the operations completed but not dropped, with the element each one got. *)
Record fifo := mk_fifo {
  f_pending : list (Z * dmtr_sgarray);
  f_ready : list dmtr_sgarray;
  f_waiting : list Z;
  f_done : list (Z * (dmtr_opcode * dmtr_sgarray))
}.
Definition fifo_empty : fifo := mk_fifo [] [] [] [].

Definition fifo_push (qt : Z) (sga : dmtr_sgarray) (a : fifo) : fifo :=
  mk_fifo (f_pending a ++ [(qt, sga)]) (f_ready a) (f_waiting a) (f_done a).
Definition fifo_pop (qt : Z) (a : fifo) : fifo :=
  mk_fifo (f_pending a) (f_ready a) (f_waiting a ++ [qt]) (f_done a).

(** Running the push worker completes every pending push; running the pop
    worker pairs waiting pops with ready elements. *)
Definition done_as (op : dmtr_opcode) (c : Z * dmtr_sgarray) : Z * (dmtr_opcode * dmtr_sgarray) :=
  (fst c, (op, snd c)).
Definition fifo_run_push (a : fifo) : fifo :=
  mk_fifo [] (f_ready a ++ (snd <$> f_pending a)) (f_waiting a)
    (f_done a ++ (done_as DMTR_OPC_PUSH <$> f_pending a)).
Definition fifo_matched (a : fifo) : list (Z * dmtr_sgarray) := zip (f_waiting a) (f_ready a).
Definition fifo_run_pop (a : fifo) : fifo :=
  let n := length (fifo_matched a) in
  mk_fifo (f_pending a) (drop n (f_ready a)) (drop n (f_waiting a))
    (f_done a ++ (done_as DMTR_OPC_POP <$> fifo_matched a)).

(** The outstanding operations: their token, opcode, and the element they got
    when they are complete. *)
Definition fifo_op : Type := Z * (dmtr_opcode * option dmtr_sgarray).
Definition fifo_ops (a : fifo) : list fifo_op :=
  ((fun p => (fst p, (DMTR_OPC_PUSH, None))) <$> f_pending a) ++
  ((fun qt => (qt, (DMTR_OPC_POP, None))) <$> f_waiting a) ++
  ((fun d => (fst d, (fst (snd d), Some (snd (snd d))))) <$> f_done a).

(** The operation a token's slot belongs to. *)
Definition op_slot (o : fifo_op) : Z := task_slot (fst o).
Definition fifo_lookup (slot : Z) (a : fifo) : option fifo_op :=
  snd <$> list_find (fun o => op_slot o = slot) (fifo_ops a).

(** Polling runs the worker of the operation's kind. *)
Definition fifo_run (op : dmtr_opcode) (a : fifo) : fifo :=
  match op with
  | DMTR_OPC_PUSH => fifo_run_push a
  | _ => fifo_run_pop a
  end.
Definition fifo_poll (slot : Z) (a : fifo) : (Z * option fifo_op) * fifo :=
  match fifo_lookup slot a with
  | None => ((ENOENT, None), a)
  | Some (_, (op, _)) =>
      let a' := fifo_run op a in
      match fifo_lookup slot a' with
      | Some (qt, (op, Some sga)) => ((0, Some (qt, (op, Some sga))), a')
      | _ => ((EAGAIN, None), a')
      end
  end.

(** Dropping a completed operation forgets it. *)
Definition fifo_drop (slot : Z) (a : fifo) : fifo :=
  mk_fifo (f_pending a) (f_ready a) (f_waiting a)
    (filter (fun d => task_slot (fst d) <> slot) (f_done a)).

(** ** Completing a list of tasks with their elements *)
Definition completed_task (sga : dmtr_sgarray) (t : task) : task :=
  set_my_qr (set_qr_value (qv_sga sga) (my_qr t)) (set_my_error 0 t).
Definition complete_one (b : io_queue) (c : Z * dmtr_sgarray) : io_queue :=
  set_slot (task_slot (fst c)) (completed_task (snd c) (slot_task (task_slot (fst c)) b)) b.
Definition complete_all (cs : list (Z * dmtr_sgarray)) (b : io_queue) : io_queue :=
  foldl complete_one b cs.

(** The task of an outstanding operation. *)
Definition op_task (o : fifo_op) (t : task) : Prop :=
  t_valid t = true /\ (qr_opcode (my_qr t) = DMTR_OPC_PUSH \/ qr_opcode (my_qr t) = DMTR_OPC_POP) /\
  qr_opcode (my_qr t) = fst (snd o) /\ qr_qt (my_qr t) = fst o /\
  match snd (snd o) with
  | None => my_error t = EAGAIN
  | Some sga => my_error t = 0 /\ qr_value (my_qr t) = qv_sga sga
  end.

(** The representation invariant: the queue is open, both workers are
    suspended where they yield, their token queues are the abstract queue's,
    and the slots in use are those of the outstanding operations, each with
    its own. *)
Record mq_rep (q : memory_queue) (a : fifo) : Prop := {
  rep_good : my_good_flag q = true;
  rep_qd : 0 < my_qd (mq_base q);
  rep_ready : my_ready_queue q = f_ready a;
  rep_push : my_push_thread q = Some (mk_user_thread EAGAIN (fst <$> f_pending a) (Some MqPushIdle));
  rep_pop :
    my_pop_thread q = Some (mk_user_thread EAGAIN (f_waiting a) (Some MqPopIdle)) \/
    exists qt rest, f_waiting a = qt :: rest /\
      my_pop_thread q = Some (mk_user_thread EAGAIN rest (Some (MqPopReady (task_slot qt))));
  rep_nodup : NoDup (op_slot <$> fifo_ops a);
  rep_ops : forall o, o ∈ fifo_ops a -> op_task o (mq_task (op_slot o) q);
  rep_args : forall qt sga, (qt, sga) ∈ f_pending a -> task_arg_sga (mq_task (task_slot qt) q) = Some sga;
  rep_free : forall s, t_valid (mq_task s q) = true -> s ∈ op_slot <$> fifo_ops a
}.

(** ** Lemmas on completions and workers *)
Section complete_all.
Implicit Types (b : io_queue) (cs : list (Z * dmtr_sgarray)).

Definition cslots cs : list Z := (fun c => task_slot (fst c)) <$> cs.

Lemma complete_all_cons c cs b : complete_all (c :: cs) b = complete_all cs (complete_one b c).
Proof. done. Qed.

Lemma complete_all_frame cs b :
  my_qd (complete_all cs b) = my_qd b /\ my_cid (complete_all cs b) = my_cid b /\
  my_qt_counter (complete_all cs b) = my_qt_counter b.
Proof.
  revert b. induction cs as [|c cs IH]; intros b; [done|]. apply (IH (complete_one b c)).
Qed.

Lemma complete_all_other cs b s :
  s ∉ cslots cs -> slot_task s (complete_all cs b) = slot_task s b.
Proof.
  revert b. induction cs as [|c cs IH]; intros b Hs; [done|]. rewrite complete_all_cons. cbn [cslots fmap list_fmap] in Hs.
  apply not_elem_of_cons in Hs as [Hne Hs]. rewrite IH by done.
  unfold complete_one. by rewrite slot_task_set_ne.
Qed.

Lemma complete_all_in cs b qt sga :
  NoDup (cslots cs) -> (qt, sga) ∈ cs ->
  slot_task (task_slot qt) (complete_all cs b) = completed_task sga (slot_task (task_slot qt) b).
Proof.
  revert b. induction cs as [|c cs IH]; intros b Hnd Hin; [set_solver|]. rewrite complete_all_cons.
  apply NoDup_cons in Hnd as [Hc Hnd]. apply elem_of_cons in Hin as [<-|Hin].
  - rewrite complete_all_other by done. unfold complete_one; cbn. by rewrite slot_task_set_eq.
  - rewrite IH by done. unfold complete_one. rewrite slot_task_set_ne; [done|].
    intros E. apply Hc. rewrite <- E. apply list_elem_of_fmap. by exists (qt, sga).
Qed.
End complete_all.

(** The queue after its workers completed [cs] and left [ready] ready. *)
Definition mq_after (cs : list (Z * dmtr_sgarray)) (ready : list dmtr_sgarray) (q : memory_queue) : memory_queue :=
  set_my_ready_queue ready (set_mq_base (complete_all cs (mq_base q)) q).

Section workers.
Implicit Types (q : memory_queue).

Lemma mq_task_after_other cs ready q s : s ∉ cslots cs -> mq_task s (mq_after cs ready q) = mq_task s q.
Proof. apply complete_all_other. Qed.
Lemma mq_task_after_in cs ready q qt sga :
  NoDup (cslots cs) -> (qt, sga) ∈ cs ->
  mq_task (task_slot qt) (mq_after cs ready q) = completed_task sga (mq_task (task_slot qt) q).
Proof. apply complete_all_in. Qed.
Lemma mq_task_after_one qt' sga ready q qt :
  task_slot qt <> task_slot qt' ->
  mq_task (task_slot qt) (mq_after [(qt', sga)] ready q) = mq_task (task_slot qt) q.
Proof. intros H. apply mq_task_after_other. cbn [cslots fmap list_fmap fst]. set_solver. Qed.

Lemma get_task_ptr_valid qt (b : io_queue) :
  t_valid (slot_task (task_slot qt) b) = true -> get_task_ptr qt b = Ok (0, task_slot qt) b.
Proof.
  intros H. unfold get_task_ptr, body_out, sbind, fbind, get, DMTR_TRUE.
  rewrite has_task_slot, H. done.
Qed.
Lemma get_task_ptr_free qt (b : io_queue) :
  t_valid (slot_task (task_slot qt) b) = false -> get_task_ptr qt b = Ok (ENOENT, 0) b.
Proof.
  intros H. unfold get_task_ptr, body_out, sbind, fbind, get, DMTR_TRUE.
  rewrite has_task_slot, H. done.
Qed.

Lemma on_slot_complete_sga slot sga (b : io_queue) :
  on_slot slot (task_complete_sga 0 sga) b =
    Ok 0 (set_slot slot (completed_task sga (slot_task slot b)) b).
Proof. unfold on_slot, zoom. by rewrite task_complete_sga_eq. Qed.

Lemma mq_push_loop_step tq q :
  my_good_flag q = true -> mq_push_step MqPushLoop tq q = Ok (tq, Continue MqPushIdle) q.
Proof. intros H. unfold mq_push_step, in_thread, sbind, fbind, get, mq_good. by rewrite H. Qed.
Lemma mq_pop_loop_step tq q :
  my_good_flag q = true -> mq_pop_step MqPopLoop tq q = Ok (tq, Continue MqPopIdle) q.
Proof. intros H. unfold mq_pop_step, in_thread, sbind, fbind, get, mq_good. by rewrite H. Qed.

Lemma mq_push_idle_step qt tq sga q :
  t_valid (mq_task (task_slot qt) q) = true -> task_arg_sga (mq_task (task_slot qt) q) = Some sga ->
  mq_push_step MqPushIdle (qt :: tq) q =
    Ok (tq, Continue MqPushLoop) (mq_after [(qt, sga)] (my_ready_queue q ++ [sga]) q).
Proof.
  intros Hv Ha. unfold mq_task in *.
  unfold mq_push_step, in_thread, sbind, DMTR_OK_out, on_base, fbind, zoom.
  rewrite get_task_ptr_valid by done. cbn -[task_slot]. unfold mq_task; cbn -[task_slot].
  rewrite Ha. cbn -[task_slot]. unfold modify; cbn -[task_slot].
  unfold DMTR_OK, fbind. cbn -[task_slot on_slot task_complete_sga].
  by destruct q.
Qed.

Lemma mq_pop_idle_step qt tq q :
  t_valid (mq_task (task_slot qt) q) = true ->
  mq_pop_step MqPopIdle (qt :: tq) q = Ok (tq, Continue (MqPopReady (task_slot qt))) q.
Proof.
  intros Hv. unfold mq_task in *.
  unfold mq_pop_step, in_thread, sbind, DMTR_OK_out, on_base, fbind, zoom.
  rewrite get_task_ptr_valid by done. cbn -[task_slot]. by destruct q.
Qed.
Lemma mq_pop_ready_step qt tq sga rest q :
  my_ready_queue q = sga :: rest ->
  mq_pop_step (MqPopReady (task_slot qt)) tq q =
    Ok (tq, Continue MqPopLoop) (mq_after [(qt, sga)] rest q).
Proof.
  intros Hr. unfold mq_pop_step, in_thread, sbind, fbind, get. rewrite Hr. unfold modify.
  unfold DMTR_OK, on_base, fbind, zoom. cbn -[task_slot on_slot task_complete_sga].
  by destruct q.
Qed.

(** The push worker completes every queued push. *)
Lemma run_push_worker P fuel q :
  my_good_flag q = true -> NoDup (cslots P) ->
  (forall qt sga, (qt, sga) ∈ P -> t_valid (mq_task (task_slot qt) q) = true /\
     task_arg_sga (mq_task (task_slot qt) q) = Some sga) ->
  (2 * length P < fuel)%nat ->
  run mq_push_step fuel EAGAIN MqPushIdle (fst <$> P) q =
    Ok (mk_user_thread EAGAIN [] (Some MqPushIdle)) (mq_after P (my_ready_queue q ++ (snd <$> P)) q).
Proof.
  revert fuel q. induction P as [|[qt sga] P IH]; intros fuel q Hg Hnd HP Hf.
  - destruct fuel as [|fuel]; [cbn in *; lia|]. cbn. rewrite app_nil_r. unfold fbind, fret. by destruct q.
  - cbn in Hnd. apply NoDup_cons in Hnd as [Hqt Hnd].
    destruct (HP qt sga) as [Hv Ha]; [set_solver|].
    destruct fuel as [|[|fuel]]; [cbn in *; lia..|]. cbn [fmap list_fmap fst run].
    unfold fbind. rewrite (mq_push_idle_step qt _ sga) by done.
    rewrite mq_push_loop_step by done.
    rewrite IH; [|done..| |cbn in *; lia].
    + unfold mq_after. cbn. by rewrite <- app_assoc.
    + intros qt' sga' Hin. rewrite mq_task_after_one.
      * apply HP. set_solver.
      * intros E. apply Hqt. rewrite <- E. apply list_elem_of_fmap. by exists (qt', sga').
Qed.

(** The pop worker pairs the waiting pops with the ready elements; it ends
    idle, or with the first unserved pop in hand. *)
Definition pop_thread_after (n : nat) (W : list Z) : user_thread mq_pop_k :=
  match drop n W with
  | [] => mk_user_thread EAGAIN [] (Some MqPopIdle)
  | qt :: rest => mk_user_thread EAGAIN rest (Some (MqPopReady (task_slot qt)))
  end.

Lemma run_pop_worker W fuel q :
  my_good_flag q = true ->
  (forall qt, qt ∈ W -> t_valid (mq_task (task_slot qt) q) = true) -> NoDup (task_slot <$> W) ->
  (3 * length W < fuel)%nat ->
  let cs := zip W (my_ready_queue q) in
  run mq_pop_step fuel EAGAIN MqPopIdle W q =
    Ok (pop_thread_after (length cs) W) (mq_after cs (drop (length cs) (my_ready_queue q)) q).
Proof.
  revert fuel q. induction W as [|qt W IH]; intros fuel q Hg HW Hnd Hf; cbn zeta.
  - destruct fuel as [|fuel]; [cbn in *; lia|]. cbn. unfold fbind, fret. by destruct q.
  - cbn in Hnd. apply NoDup_cons in Hnd as [Hqt Hnd].
    destruct fuel as [|[|[|fuel]]]; [cbn in *; lia..|].
    cbn [run]. unfold fbind. rewrite mq_pop_idle_step by (apply HW; set_solver).
    destruct (my_ready_queue q) as [|sga rest] eqn:Er.
    + unfold mq_pop_step at 1, in_thread, sbind, fbind, get. rewrite Er. cbn.
      destruct q; cbn in *. by rewrite Er.
    + rewrite (mq_pop_ready_step qt W sga rest) by done. rewrite mq_pop_loop_step by done.
      rewrite IH; [|done| |done|cbn in *; lia].
      * unfold mq_after. cbn. done.
      * intros qt' Hin. rewrite mq_task_after_one.
        -- apply HW. set_solver.
        -- intros E. apply Hqt. rewrite <- E. by apply list_elem_of_fmap_2.
Qed.
End workers.

(** ** The representation invariant is kept *)
Section rep.
Implicit Types (q : memory_queue) (a : fifo).

Definition dslots (ds : list (Z * (dmtr_opcode * dmtr_sgarray))) : list Z := (fun d => task_slot (fst d)) <$> ds.
Lemma op_slots a :
  op_slot <$> fifo_ops a = cslots (f_pending a) ++ (task_slot <$> f_waiting a) ++ dslots (f_done a).
Proof. unfold fifo_ops, cslots, dslots. rewrite !fmap_app, <- !list_fmap_compose. done. Qed.
Lemma dslots_done_as op cs : dslots (done_as op <$> cs) = cslots cs.
Proof. unfold dslots, cslots. by rewrite <- list_fmap_compose. Qed.
Lemma fst_matched a : fst <$> fifo_matched a = take (length (fifo_matched a)) (f_waiting a).
Proof.
  unfold fifo_matched. generalize (f_ready a). induction (f_waiting a) as [|qt W IH]; intros [|s R]; try done.
  cbn. f_equal. apply IH.
Qed.
Lemma cslots_matched a : cslots (fifo_matched a) = task_slot <$> take (length (fifo_matched a)) (f_waiting a).
Proof. rewrite <- fst_matched. unfold cslots. by rewrite <- list_fmap_compose. Qed.

Lemma run_push_slots a : op_slot <$> fifo_ops (fifo_run_push a) ≡ₚ op_slot <$> fifo_ops a.
Proof.
  rewrite !op_slots. cbn. unfold dslots at 1. rewrite fmap_app. fold (dslots (f_done a)).
  fold (dslots (done_as DMTR_OPC_PUSH <$> f_pending a)). rewrite dslots_done_as. solve_Permutation.
Qed.
Lemma run_pop_slots a : op_slot <$> fifo_ops (fifo_run_pop a) ≡ₚ op_slot <$> fifo_ops a.
Proof.
  rewrite !op_slots. cbn. unfold dslots at 1. rewrite fmap_app. fold (dslots (f_done a)).
  fold (dslots (done_as DMTR_OPC_POP <$> fifo_matched a)). rewrite dslots_done_as, cslots_matched.
  rewrite <- (take_drop (length (fifo_matched a)) (f_waiting a)) at 3.
  rewrite fmap_app. solve_Permutation.
Qed.

Lemma elem_of_ops o a :
  o ∈ fifo_ops a <->
  (exists qt sga, (qt, sga) ∈ f_pending a /\ o = (qt, (DMTR_OPC_PUSH, None))) \/
  (exists qt, qt ∈ f_waiting a /\ o = (qt, (DMTR_OPC_POP, None))) \/
  (exists qt op sga, (qt, (op, sga)) ∈ f_done a /\ o = (qt, (op, Some sga))).
Proof.
  unfold fifo_ops. rewrite !elem_of_app, !list_elem_of_fmap. split.
  - intros [([qt sga] & -> & H)|[(qt & -> & H)|([qt [op sga]] & -> & H)]]; [left|right; left|right; right]; eauto 10.
  - intros [(qt & sga & H & ->)|[(qt & H & ->)|(qt & op & sga & H & ->)]]; [left|right; left|right; right].
    + by exists (qt, sga).
    + by exists qt.
    + by exists (qt, (op, sga)).
Qed.

(** Completing operations [cs] of kind [op] that were pending. *)
Lemma ops_completed op cs ready q a a' :
  NoDup (op_slot <$> fifo_ops a) ->
  (forall o, o ∈ fifo_ops a -> op_task o (mq_task (op_slot o) q)) ->
  (forall qt sga, (qt, sga) ∈ cs -> (qt, (op, None)) ∈ fifo_ops a) -> NoDup (cslots cs) ->
  (forall o, o ∈ fifo_ops a' ->
     (exists qt sga, o = (qt, (op, Some sga)) /\ (qt, sga) ∈ cs) \/
     o ∈ fifo_ops a /\ op_slot o ∉ cslots cs) ->
  forall o, o ∈ fifo_ops a' -> op_task o (mq_task (op_slot o) (mq_after cs ready q)).
Proof.
  intros Hnd Hops Hcs Hndc Ha' o Ho. destruct (Ha' o Ho) as [(qt & sga & -> & Hin)|[Hin Hs]].
  - unfold op_slot; cbn [fst]. rewrite (mq_task_after_in cs ready q qt sga) by done.
    destruct (Hops _ (Hcs _ _ Hin)) as (Hv & Hk & Hop & Hqt & He). cbn in *.
    unfold op_task; cbn. done.
  - rewrite mq_task_after_other by done. by apply Hops.
Qed.

Lemma after_valid cs ready q s :
  (forall qt sga, (qt, sga) ∈ cs -> t_valid (mq_task (task_slot qt) q) = true) -> NoDup (cslots cs) ->
  t_valid (mq_task s (mq_after cs ready q)) = t_valid (mq_task s q).
Proof.
  intros Hv Hnd. destruct (decide (s ∈ cslots cs)) as [Hin|Hin].
  - apply list_elem_of_fmap in Hin as ([qt sga] & -> & Hin).
    cbn. rewrite (mq_task_after_in cs ready q qt sga) by done. done.
  - by rewrite mq_task_after_other.
Qed.

Lemma rep_op_valid q a o : mq_rep q a -> o ∈ fifo_ops a -> t_valid (mq_task (op_slot o) q) = true.
Proof. intros Hr Ho. exact (proj1 (rep_ops _ _ Hr _ Ho)). Qed.

Lemma rep_nodup_pending q a : mq_rep q a -> NoDup (cslots (f_pending a)).
Proof. intros Hr. pose proof (rep_nodup _ _ Hr) as H. rewrite op_slots in H. by apply NoDup_app in H as (? & _ & _). Qed.
Lemma rep_nodup_waiting q a : mq_rep q a -> NoDup (task_slot <$> f_waiting a).
Proof.
  intros Hr. pose proof (rep_nodup _ _ Hr) as H. rewrite op_slots in H.
  apply NoDup_app in H as (_ & _ & H). by apply NoDup_app in H as (? & _ & _).
Qed.
Lemma rep_nodup_matched q a : mq_rep q a -> NoDup (cslots (fifo_matched a)).
Proof.
  intros Hr. rewrite cslots_matched. pose proof (rep_nodup_waiting _ _ Hr) as H.
  rewrite <- (take_drop (length (fifo_matched a)) (f_waiting a)), fmap_app in H.
  by apply NoDup_app in H as (? & _ & _).
Qed.
Lemma pending_op qt sga a : (qt, sga) ∈ f_pending a -> (qt, (DMTR_OPC_PUSH, None)) ∈ fifo_ops a.
Proof. intros. apply elem_of_ops. left. eauto. Qed.
Lemma waiting_op qt a : qt ∈ f_waiting a -> (qt, (DMTR_OPC_POP, None)) ∈ fifo_ops a.
Proof. intros. apply elem_of_ops. right; left. eauto. Qed.
Lemma matched_op qt sga a : (qt, sga) ∈ fifo_matched a -> (qt, (DMTR_OPC_POP, None)) ∈ fifo_ops a.
Proof. intros H. apply waiting_op. by apply elem_of_zip_l in H. Qed.

(** Operations of different kinds have different slots. *)
Lemma slots_apart q a :
  mq_rep q a ->
  (forall qt, qt ∈ f_waiting a -> task_slot qt ∉ cslots (f_pending a)) /\
  (forall d, d ∈ f_done a -> task_slot (fst d) ∉ cslots (f_pending a) /\ task_slot (fst d) ∉ task_slot <$> f_waiting a).
Proof.
  intros Hr. pose proof (rep_nodup _ _ Hr) as H. rewrite op_slots in H.
  apply NoDup_app in H as (_ & H1 & H2). apply NoDup_app in H2 as (_ & H2 & _). split.
  - intros qt Hq Hin. apply (H1 _ Hin). apply elem_of_app. left. by apply list_elem_of_fmap_2.
  - intros d Hd. assert (Hin : task_slot (fst d) ∈ dslots (f_done a)) by (apply list_elem_of_fmap; eauto).
    split; [|by intros Hw; apply (H2 _ Hw)].
    intros Hp. apply (H1 _ Hp). apply elem_of_app. by right.
Qed.

Lemma waiting_unmatched q a qt :
  mq_rep q a -> qt ∈ drop (length (fifo_matched a)) (f_waiting a) -> task_slot qt ∉ cslots (fifo_matched a).
Proof.
  intros Hr Hq. rewrite cslots_matched. pose proof (rep_nodup_waiting _ _ Hr) as H.
  rewrite <- (take_drop (length (fifo_matched a)) (f_waiting a)), fmap_app in H.
  apply NoDup_app in H as (_ & H & _). intros Hin. apply (H _ Hin). by apply list_elem_of_fmap_2.
Qed.

Lemma service_push_rep q a :
  mq_rep q a -> exists q', mq_service_push q = Ok EAGAIN q' /\ mq_rep q' (fifo_run_push a).
Proof.
  intros Hr. unfold mq_service_push. rewrite (rep_push _ _ Hr). unfold service, fbind; cbn [th_coroutine th_error th_queue].
  rewrite (run_push_worker (f_pending a)); [|apply Hr|by eapply rep_nodup_pending| |].
  2:{ intros qt sga Hin. split; [|by eapply rep_args].
      exact (rep_op_valid _ _ _ Hr (pending_op _ _ _ Hin)). }
  2:{ unfold mq_fuel. rewrite length_fmap. lia. }
  cbn. eexists; split; [reflexivity|]. rewrite (rep_ready _ _ Hr).
  set (q1 := mq_after (f_pending a) (f_ready a ++ (snd <$> f_pending a)) q).
  destruct (slots_apart _ _ Hr) as [Hw Hd].
  assert (Hops : forall o, o ∈ fifo_ops (fifo_run_push a) -> op_task o (mq_task (op_slot o) q1)).
  { apply (ops_completed DMTR_OPC_PUSH _ _ q a); [apply Hr|apply Hr|intros; by eapply pending_op|by eapply rep_nodup_pending|].
    intros o Ho. apply elem_of_ops in Ho as [(qt & sga & H & ->)|[(qt & H & ->)|(qt & op & sga & H & ->)]]; cbn in H.
    - set_solver.
    - right. split; [by apply waiting_op|by apply Hw].
    - apply elem_of_app in H as [H|H].
      + right. split; [|by apply (Hd _ H)]. apply elem_of_ops. eauto 10.
      + left. apply list_elem_of_fmap in H as ([qt' sga'] & [= -> -> ->] & H). eauto. }
  constructor; [apply Hr| |done|done|apply Hr|rewrite run_push_slots; apply Hr|done|cbn; set_solver|].
  - pose proof (rep_qd _ _ Hr). cbn. by destruct (complete_all_frame (f_pending a) (mq_base q)) as (-> & _ & _).
  - intros s Hs. rewrite run_push_slots. apply Hr.
    rewrite <- (after_valid (f_pending a) (f_ready a ++ (snd <$> f_pending a)) q s); [done| |by eapply rep_nodup_pending].
    intros qt sga Hin. exact (rep_op_valid _ _ _ Hr (pending_op _ _ _ Hin)).
Qed.

(** Resuming the pop worker in either of its suspended states. *)
Lemma resume_pop q a th :
  mq_rep q a -> my_pop_thread q = Some th ->
  service mq_pop_step (mq_fuel (th_queue th)) th q =
    Ok (EAGAIN, pop_thread_after (length (fifo_matched a)) (f_waiting a))
       (mq_after (fifo_matched a) (drop (length (fifo_matched a)) (f_ready a)) q).
Proof.
  intros Hr Hth.
  assert (HW : forall qt, qt ∈ f_waiting a -> t_valid (mq_task (task_slot qt) q) = true)
    by (intros qt Hq; exact (rep_op_valid _ _ _ Hr (waiting_op _ _ Hq))).
  assert (Hrun : forall fuel, (3 * length (f_waiting a) < fuel)%nat ->
    run mq_pop_step fuel EAGAIN MqPopIdle (f_waiting a) q =
      Ok (pop_thread_after (length (fifo_matched a)) (f_waiting a))
         (mq_after (fifo_matched a) (drop (length (fifo_matched a)) (f_ready a)) q)).
  { intros fuel Hf. rewrite run_pop_worker; [|apply Hr|done|by eapply rep_nodup_waiting|done].
    rewrite (rep_ready _ _ Hr). done. }
  assert (Hk : forall e, th_error (pop_thread_after e (f_waiting a)) = EAGAIN /\
                         th_done (pop_thread_after e (f_waiting a)) = false)
    by (intros e; unfold pop_thread_after; by destruct (drop e _)).
  unfold service, fbind. destruct (rep_pop _ _ Hr) as [E|(qt & rest & Ew & E)]; rewrite E in Hth;
    injection Hth as <-; cbn [th_coroutine th_error th_queue].
  - rewrite Hrun by (unfold mq_fuel; lia). by destruct (Hk (length (fifo_matched a))) as [_ ->].
  - specialize (Hrun (Datatypes.S (mq_fuel rest))). rewrite Ew in Hrun at 2. cbn [run] in Hrun.
    unfold fbind in Hrun. rewrite mq_pop_idle_step in Hrun by (apply HW; rewrite Ew; set_solver).
    rewrite Hrun by (rewrite Ew; unfold mq_fuel; cbn; lia).
    by destruct (Hk (length (fifo_matched a))) as [_ ->].
Qed.

Lemma service_pop_rep q a :
  mq_rep q a -> exists q', mq_service_pop q = Ok EAGAIN q' /\ mq_rep q' (fifo_run_pop a).
Proof.
  intros Hr. unfold mq_service_pop.
  assert (exists th, my_pop_thread q = Some th) as [th Hth]
    by (destruct (rep_pop _ _ Hr) as [E|(? & ? & _ & E)]; eauto).
  rewrite Hth. unfold fbind. rewrite (resume_pop q a th Hr Hth). eexists; split; [reflexivity|]. cbn [fst snd].
  set (n := length (fifo_matched a)). set (q1 := mq_after (fifo_matched a) (drop n (f_ready a)) q).
  destruct (slots_apart _ _ Hr) as [Hw Hd].
  pose proof (rep_nodup_matched _ _ Hr) as Hnd.
  assert (Hdone : forall d, d ∈ f_done a -> task_slot (fst d) ∉ cslots (fifo_matched a)).
  { intros d H Hin. apply (proj2 (Hd d H)). rewrite cslots_matched in Hin.
    apply list_elem_of_fmap in Hin as (qt & -> & Hin). apply list_elem_of_fmap_2. by eapply elem_of_take_inv. }
  assert (Hpend : forall qt sga, (qt, sga) ∈ f_pending a -> task_slot qt ∉ cslots (fifo_matched a)).
  { intros qt sga H Hin. rewrite cslots_matched in Hin. apply list_elem_of_fmap in Hin as (w & Ew & Hin).
    apply (Hw w); [by eapply elem_of_take_inv|]. rewrite <- Ew. apply list_elem_of_fmap. by exists (qt, sga). }
  assert (Hops : forall o, o ∈ fifo_ops (fifo_run_pop a) -> op_task o (mq_task (op_slot o) q1)).
  { apply (ops_completed DMTR_OPC_POP _ _ q a); [apply Hr|apply Hr|intros; by eapply matched_op|done|].
    intros o Ho. apply elem_of_ops in Ho as [(qt & sga & H & ->)|[(qt & H & ->)|(qt & op & sga & H & ->)]]; cbn in H.
    - right. split; [by eapply pending_op|by eapply Hpend].
    - right. split; [|by eapply waiting_unmatched]. apply waiting_op. by eapply elem_of_drop_inv.
    - apply elem_of_app in H as [H|H].
      + right. split; [|by apply (Hdone _ H)]. apply elem_of_ops. eauto 10.
      + left. apply list_elem_of_fmap in H as ([qt' sga'] & [= -> -> ->] & H). eauto. }
  constructor; [apply Hr| |done|apply Hr| |rewrite run_pop_slots; apply Hr|done| |].
  - pose proof (rep_qd _ _ Hr). cbn. by destruct (complete_all_frame (fifo_matched a) (mq_base q)) as (-> & _ & _).
  - cbn. unfold pop_thread_after. fold n. destruct (drop n (f_waiting a)) as [|qt rest]; [by left|right; eauto].
  - intros qt sga Hin. cbn in Hin. rewrite <- (rep_args _ _ Hr qt sga Hin). f_equal.
    apply (mq_task_after_other (fifo_matched a)). by eapply Hpend.
  - intros s Hs. rewrite run_pop_slots. apply Hr.
    rewrite <- (after_valid (fifo_matched a) (drop n (f_ready a)) q s); [done| |done].
    intros qt sga Hin. exact (rep_op_valid _ _ _ Hr (matched_op _ _ _ Hin)).
Qed.
End rep.

(** ** The operations of a client *)
Inductive mq_cmd :=
| MqPush (qt : Z) (sga : dmtr_sgarray)
| MqPop (qt : Z)
| MqPoll (qt : Z)
| MqDrop (qt : Z).

(** [qr] is what the caller's result buffer holds. *)
Definition mq_exec (c : mq_cmd) (qr : dmtr_qresult) : fn memory_queue (Z * dmtr_qresult) :=
  match c with
  | MqPush qt sga => fbind (mq_push qt sga) (fun e => fret (e, qr))
  | MqPop qt => fbind (mq_pop qt) (fun e => fret (e, qr))
  | MqPoll qt => mq_poll qr qt
  | MqDrop qt => fbind (mq_drop qt) (fun e => fret (e, qr))
  end.

Definition fifo_exec (c : mq_cmd) (a : fifo) : (Z * option fifo_op) * fifo :=
  match c with
  | MqPush qt sga =>
      match fifo_lookup (task_slot qt) a with
      | Some _ => ((EEXIST, None), a)
      | None => if (sga_numsegs sga =? 0) || (qt =? 0) then ((EINVAL, None), a)
                else ((0, None), fifo_push qt sga a)
      end
  | MqPop qt =>
      match fifo_lookup (task_slot qt) a with
      | Some _ => ((EEXIST, None), a)
      | None => if qt =? 0 then ((EINVAL, None), a) else ((0, None), fifo_pop qt a)
      end
  | MqPoll qt => fifo_poll (task_slot qt) a
  | MqDrop qt => ((0, None), fifo_drop (task_slot qt) a)
  end.

(** A drop is proper when the slot's operation, if any, is complete. *)
Definition proper (c : mq_cmd) (a : fifo) : Prop :=
  match c with
  | MqDrop qt => forall o, o ∈ fifo_ops a -> op_slot o = task_slot qt -> snd (snd o) <> None
  | _ => True
  end.

(** The result a client reads, when it gets one. *)
Definition result_of (o : option fifo_op) (qr qr' : dmtr_qresult) : Prop :=
  match o with
  | Some (qt, (op, Some sga)) => qr_opcode qr' = op /\ qr_qt qr' = qt /\ qr_value qr' = qv_sga sga
  | _ => qr' = qr
  end.

Section exec.
Implicit Types (q : memory_queue) (a : fifo).

Lemma fifo_lookup_rep q a s :
  mq_rep q a ->
  match fifo_lookup s a with
  | Some o => o ∈ fifo_ops a /\ op_slot o = s
  | None => t_valid (mq_task s q) = false
  end.
Proof.
  intros Hr. unfold fifo_lookup. destruct (list_find _ _) as [[i o]|] eqn:E; cbn.
  - apply list_find_Some in E as (H & Hs & _). split; [by eapply list_elem_of_lookup_2|done].
  - apply list_find_None in E. destruct (t_valid (mq_task s q)) eqn:Ev; [|done].
    apply (rep_free _ _ Hr) in Ev. apply list_elem_of_fmap in Ev as (o & -> & Ho).
    rewrite Forall_forall in E. by destruct (E _ Ho).
Qed.

Lemma rep_op_unique q a o o' :
  mq_rep q a -> o ∈ fifo_ops a -> o' ∈ fifo_ops a -> op_slot o = op_slot o' -> o = o'.
Proof.
  intros Hr Ho Ho' Hs. pose proof (rep_nodup _ _ Hr) as Hnd.
  apply list_elem_of_lookup in Ho as [i Hi]. apply list_elem_of_lookup in Ho' as [j Hj].
  assert (i = j) as ->; [|congruence].
  eapply (NoDup_lookup _ _ _ (op_slot o) Hnd); rewrite list_lookup_fmap.
  - by rewrite Hi.
  - by rewrite Hj, Hs.
Qed.

(** The representation depends on the tasks, not on how the slots are stored. *)
Lemma rep_same_tasks q a b' :
  mq_rep q a -> my_qd b' = my_qd (mq_base q) -> (forall s, slot_task s b' = slot_task s (mq_base q)) ->
  mq_rep (set_mq_base b' q) a.
Proof.
  intros Hr Hqd Hs.
  assert (Ht : forall s, mq_task s (set_mq_base b' q) = mq_task s q) by (intros s; apply Hs).
  constructor; try apply Hr.
  - cbn. rewrite Hqd. apply Hr.
  - intros o Ho. rewrite Ht. by apply Hr.
  - intros qt sga Hin. rewrite Ht. by eapply Hr.
  - intros s. rewrite Ht. apply Hr.
Qed.

(** Storing a task in a slot. *)
Definition with_task (s : Z) (t : task) (q : memory_queue) : memory_queue :=
  set_mq_base (set_slot s t (mq_base q)) q.
Lemma mq_task_with s s' t q : mq_task s (with_task s' t q) = if decide (s = s') then t else mq_task s q.
Proof. apply slot_task_set. Qed.
Lemma rep_self q a s : mq_rep q a -> mq_rep (with_task s (mq_task s q) q) a.
Proof. intros Hr. apply rep_same_tasks; [done|done|]. intros s'. apply set_slot_self. Qed.

(** Starting an operation in a free slot. *)
Lemma rep_add q a o t a' :
  mq_rep q a -> t_valid (mq_task (op_slot o) q) = false -> op_task o t -> fifo_ops a' ≡ₚ o :: fifo_ops a ->
  let q' := with_task (op_slot o) t q in
  NoDup (op_slot <$> fifo_ops a') /\
  (forall o', o' ∈ fifo_ops a' -> op_task o' (mq_task (op_slot o') q')) /\
  (forall s, t_valid (mq_task s q') = true -> s ∈ op_slot <$> fifo_ops a') /\
  (forall o', o' ∈ fifo_ops a -> op_slot o' <> op_slot o).
Proof.
  intros Hr Hv Ht Hp q'.
  assert (Hne : forall o', o' ∈ fifo_ops a -> op_slot o' <> op_slot o).
  { intros o' Ho' E. rewrite <- E, (rep_op_valid _ _ _ Hr Ho') in Hv. done. }
  split; [|split; [|split; [|done]]].
  - rewrite Hp. cbn. apply NoDup_cons. split; [|apply Hr].
    intros Hin. apply list_elem_of_fmap in Hin as (o' & E & Ho'). by apply (Hne o').
  - intros o' Ho'. rewrite Hp in Ho'. apply elem_of_cons in Ho' as [->|Ho']; unfold q'; rewrite mq_task_with.
    + by rewrite decide_True.
    + rewrite decide_False by (by apply Hne). by apply Hr.
  - intros s Hs. rewrite Hp. unfold q' in Hs. rewrite mq_task_with in Hs. cbn. case_decide as E; [rewrite E; by left|].
    right. by apply Hr.
Qed.

Lemma push_ops qt sga a : fifo_ops (fifo_push qt sga a) ≡ₚ (qt, (DMTR_OPC_PUSH, None)) :: fifo_ops a.
Proof. unfold fifo_ops; cbn. rewrite fmap_app. cbn. solve_Permutation. Qed.
Lemma pop_ops qt a : fifo_ops (fifo_pop qt a) ≡ₚ (qt, (DMTR_OPC_POP, None)) :: fifo_ops a.
Proof. unfold fifo_ops; cbn. rewrite fmap_app. cbn. solve_Permutation. Qed.

Lemma rep_has_task q a qt :
  mq_rep q a -> has_task qt (mq_base q) = match fifo_lookup (task_slot qt) a with Some _ => true | None => false end.
Proof.
  intros Hr. pose proof (fifo_lookup_rep q a (task_slot qt) Hr) as H. rewrite has_task_slot.
  destruct (fifo_lookup _ _) as [o|]; [|done]. destruct H as [Ho <-]. by eapply rep_op_valid.
Qed.

Lemma push_rep q a qt sga :
  mq_rep q a -> exists r q', mq_push qt sga q = Ok r q' /\
    fst (fifo_exec (MqPush qt sga) a) = (r, None) /\ mq_rep q' (snd (fifo_exec (MqPush qt sga) a)).
Proof.
  intros Hr. unfold mq_push, body, sbind, fbind, get, mq_good. rewrite (rep_good _ _ Hr). cbn.
  rewrite (rep_push _ _ Hr). cbn. unfold DMTR_OK, fbind, on_base, zoom.
  rewrite new_task_sga_cases; [|apply Hr|done]. rewrite (rep_has_task q a qt Hr).
  pose proof (fifo_lookup_rep q a (task_slot qt) Hr) as Hl.
  destruct (fifo_lookup _ _) as [o|] eqn:El; cbn [negb fifo_exec].
  { do 2 eexists; split; [reflexivity|]. split; [done|]. cbn. by apply rep_same_tasks. }
  destruct (_ || _) eqn:Ei; cbn [fst snd].
  { do 2 eexists; split; [reflexivity|]. split; [done|]. by apply (rep_self q a (task_slot qt)). }
  apply orb_false_iff in Ei as [En Eq]. do 2 eexists; split; [reflexivity|]. split; [done|].
  set (t := started DMTR_OPC_PUSH qt (Some sga) None (mq_base q)).
  destruct (rep_add q a (qt, (DMTR_OPC_PUSH, None)) t (fifo_push qt sga a) Hr Hl) as (H1 & H2 & H3 & H4);
    [by unfold op_task; cbn; auto|apply push_ops|].
  constructor; [apply Hr|apply Hr|apply Hr| |apply Hr|exact H1|exact H2| |exact H3].
  - cbn. rewrite (rep_push _ _ Hr). cbn. unfold th_enqueue; cbn. by rewrite fmap_app.
  - intros qt' sga' Hin. cbn in Hin. change (task_arg_sga (mq_task (task_slot qt') (with_task (task_slot qt) t q)) = Some sga').
    rewrite mq_task_with. apply elem_of_app in Hin as [Hin|Hin].
    + rewrite decide_False; [by eapply rep_args|]. exact (H4 _ (pending_op _ _ _ Hin)).
    + apply list_elem_of_singleton in Hin as [= -> ->]. rewrite decide_True by done.
      unfold task_arg_sga. change (my_sga_arg t) with sga. by rewrite Z.eqb_sym, En.
Qed.

Lemma pop_rep q a qt :
  mq_rep q a -> exists r q', mq_pop qt q = Ok r q' /\
    fst (fifo_exec (MqPop qt) a) = (r, None) /\ mq_rep q' (snd (fifo_exec (MqPop qt) a)).
Proof.
  intros Hr. unfold mq_pop, body, sbind, fbind, get, mq_good. rewrite (rep_good _ _ Hr). cbn.
  assert (exists th, my_pop_thread q = Some th) as [th Hth]
    by (destruct (rep_pop _ _ Hr) as [E|(? & ? & _ & E)]; eauto).
  rewrite Hth. cbn. unfold DMTR_OK, fbind, on_base, zoom.
  rewrite new_task_cases; [|apply Hr|done]. rewrite (rep_has_task q a qt Hr).
  pose proof (fifo_lookup_rep q a (task_slot qt) Hr) as Hl.
  destruct (fifo_lookup _ _) as [o|] eqn:El; cbn [negb fifo_exec].
  { do 2 eexists; split; [reflexivity|]. split; [done|]. cbn. by apply rep_same_tasks. }
  destruct (qt =? 0) eqn:Ei; cbn [fst snd].
  { do 2 eexists; split; [reflexivity|]. split; [done|]. by apply (rep_self q a (task_slot qt)). }
  do 2 eexists; split; [reflexivity|]. split; [done|].
  set (t := started DMTR_OPC_POP qt None None (mq_base q)).
  destruct (rep_add q a (qt, (DMTR_OPC_POP, None)) t (fifo_pop qt a) Hr Hl) as (H1 & H2 & H3 & H4);
    [by unfold op_task; cbn; auto|apply pop_ops|].
  constructor; [apply Hr|apply Hr|apply Hr|apply Hr| |exact H1|exact H2| |exact H3].
  - cbn. destruct (rep_pop _ _ Hr) as [E|(qt' & rest & Ew & E)]; rewrite E; [by left|right].
    rewrite Ew. by exists qt', (rest ++ [qt]).
  - intros qt' sga' Hin. cbn in Hin. change (task_arg_sga (mq_task (task_slot qt') (with_task (task_slot qt) t q)) = Some sga').
    rewrite mq_task_with. rewrite decide_False; [by eapply rep_args|].
    exact (H4 _ (pending_op _ _ _ Hin)).
Qed.

Lemma dslots_filter s ds :
  dslots (filter (fun d => task_slot (fst d) <> s) ds) = filter (fun x => x <> s) (dslots ds).
Proof.
  induction ds as [|d ds IH]; [done|]. rewrite filter_cons. change (dslots (d :: ds)) with (task_slot (fst d) :: dslots ds).
  rewrite filter_cons. repeat case_decide; [|done..|]; [|done].
  change (dslots (d :: ?l)) with (task_slot (fst d) :: dslots l). by rewrite <- IH.
Qed.

Lemma elem_of_drop_ops o s a :
  (forall o, o ∈ fifo_ops a -> op_slot o = s -> snd (snd o) <> None) ->
  o ∈ fifo_ops (fifo_drop s a) <-> o ∈ fifo_ops a /\ op_slot o <> s.
Proof.
  intros Hp. rewrite !elem_of_ops. cbn. split.
  - intros [(qt & sga & H & ->)|[(qt & H & ->)|(qt & op & sga & H & ->)]].
    + split; [left; eauto|]. intros E. exact (Hp _ (pending_op _ _ _ H) E eq_refl).
    + split; [right; left; eauto|]. intros E. exact (Hp _ (waiting_op _ _ H) E eq_refl).
    + apply list_elem_of_filter in H as [Hs H]. split; [right; right; eauto 10|done].
  - intros [[(qt & sga & H & ->)|[(qt & H & ->)|(qt & op & sga & H & ->)]] Hs]; [left; eauto|right; left; eauto|].
    right; right. exists qt, op, sga. split; [|done]. apply list_elem_of_filter. done.
Qed.

Lemma drop_slots s a :
  (forall o, o ∈ fifo_ops a -> op_slot o = s -> snd (snd o) <> None) ->
  op_slot <$> fifo_ops (fifo_drop s a) = filter (fun x => x <> s) (op_slot <$> fifo_ops a).
Proof.
  intros Hp. rewrite !op_slots. cbn. rewrite dslots_filter, !filter_app. f_equal; [|f_equal].
  - symmetry. apply list_filter_all. intros x Hx E. subst.
    apply list_elem_of_fmap in Hx as ([qt sga] & Es & H).
    exact (Hp _ (pending_op _ _ _ H) (eq_sym Es) eq_refl).
  - symmetry. apply list_filter_all. intros x Hx E. subst.
    apply list_elem_of_fmap in Hx as (qt & Es & H). exact (Hp _ (waiting_op _ _ H) (eq_sym Es) eq_refl).
Qed.

Lemma drop_rep q a qt :
  mq_rep q a -> proper (MqDrop qt) a ->
  exists q', mq_drop qt q = Ok 0 q' /\ mq_rep q' (fifo_drop (task_slot qt) a).
Proof.
  intros Hr Hp. unfold proper in Hp.
  unfold mq_drop, body, sbind, fbind, get, mq_good. rewrite (rep_good _ _ Hr). cbn.
  unfold fret, fbind, call, on_base, zoom. eexists; split; [reflexivity|].
  change (mq_rep (with_task (task_slot qt) (task_clear (mq_task (task_slot qt) q)) q) (fifo_drop (task_slot qt) a)).
  constructor; try apply Hr.
  - rewrite drop_slots by done. apply NoDup_filter, Hr.
  - intros o Ho. apply elem_of_drop_ops in Ho as [Ho Hs]; [|done]. rewrite mq_task_with, decide_False by done.
    by apply Hr.
  - intros qt' sga Hin. cbn in Hin. rewrite mq_task_with, decide_False; [by eapply rep_args|].
    intros E. exact (Hp _ (pending_op _ _ _ Hin) E eq_refl).
  - intros s. rewrite mq_task_with, drop_slots by done. case_decide as E; [done|].
    intros Hs. apply list_elem_of_filter. split; [done|]. by apply Hr.
Qed.

Lemma fifo_lookup_Some q a o : mq_rep q a -> o ∈ fifo_ops a -> fifo_lookup (op_slot o) a = Some o.
Proof.
  intros Hr Ho. pose proof (fifo_lookup_rep q a (op_slot o) Hr) as H.
  destruct (fifo_lookup _ _) as [o'|].
  - destruct H as [Ho' Hs]. f_equal. by eapply rep_op_unique.
  - rewrite (rep_op_valid _ _ _ Hr Ho) in H. done.
Qed.

(** Polling after the workers ran reads the slot's operation. *)
Lemma poll_rep q a qt qr :
  mq_rep q a -> exists r qr' q', mq_poll qr qt q = Ok (r, qr') q' /\
    fst (fst (fifo_poll (task_slot qt) a)) = r /\ result_of (snd (fst (fifo_poll (task_slot qt) a))) qr qr' /\
    mq_rep q' (snd (fifo_poll (task_slot qt) a)).
Proof.
  intros Hr. unfold mq_poll, sbind, fbind, get, mq_good. rewrite (rep_good _ _ Hr). cbn [DMTR_TRUE normal fret].
  unfold DMTR_OK_out, fbind, on_base, zoom, fifo_poll.
  pose proof (fifo_lookup_rep q a (task_slot qt) Hr) as Hl.
  destruct (fifo_lookup _ _) as [[qt0 [op st]]|].
  2:{ rewrite get_task_ptr_free by exact Hl. cbn. do 3 eexists; split; [reflexivity|].
      split; [done|]. split; [done|]. by apply rep_same_tasks. }
  destruct Hl as [Ho Hs].
  pose proof (rep_op_valid _ _ _ Hr Ho) as Hv. rewrite Hs in Hv. rewrite get_task_ptr_valid by exact Hv.
  cbn [fst Z.eqb snd normal fret]. replace (set_mq_base (mq_base q) q) with q by by destruct q.
  pose proof (rep_ops _ _ Hr _ Ho) as (_ & Hk & Hop & _). rewrite Hs in Hk, Hop. cbn in Hop. unfold task_opcode.
  assert (Hserv : exists q', (match qr_opcode (my_qr (mq_task (task_slot qt) q)) with
            | DMTR_OPC_PUSH => call mq_service_push
            | DMTR_OPC_POP => call mq_service_pop
            | _ => return_ ENOTSUP
            end) q = Ok (inl EAGAIN) q' /\ mq_rep q' (fifo_run op a)).
  { unfold call, fbind. rewrite Hop in Hk |- *. destruct Hk as [-> | ->].
    - destruct (service_push_rep q a Hr) as (q' & -> & Hr'). by exists q'.
    - destruct (service_pop_rep q a Hr) as (q' & -> & Hr'). by exists q'. }
  destruct Hserv as (q' & -> & Hr'). cbn -[task_poll fifo_lookup task_slot].
  pose proof (fifo_lookup_rep q' (fifo_run op a) (task_slot qt) Hr') as Hl'.
  unfold task_poll, task_done. destruct (fifo_lookup _ _) as [[qt1 [op1 [sga|]]]|] eqn:El'; cbn [fst snd].
  - destruct Hl' as [Ho' Hs']. pose proof (rep_ops _ _ Hr' _ Ho') as (_ & _ & Hop' & Hqt' & He & Hval).
    rewrite Hs' in *. cbn in *. rewrite He. cbn. do 3 eexists; split; [reflexivity|]. done.
  - destruct Hl' as [Ho' Hs']. pose proof (rep_ops _ _ Hr' _ Ho') as (_ & _ & _ & _ & He).
    rewrite Hs' in *. cbn in He. rewrite He. cbn. do 3 eexists; split; [reflexivity|]. done.
  - exfalso. assert (Hin : task_slot qt ∈ op_slot <$> fifo_ops (fifo_run op a)).
    { rewrite <- Hs. assert (Hp : op_slot <$> fifo_ops (fifo_run op a) ≡ₚ op_slot <$> fifo_ops a)
        by (destruct op; try apply run_pop_slots; apply run_push_slots).
      rewrite Hp. by apply list_elem_of_fmap_2. }
    apply list_elem_of_fmap in Hin as (o' & E & Ho'). pose proof (rep_op_valid _ _ _ Hr' Ho') as Hv'.
    rewrite <- E, Hl' in Hv'. done.
Qed.
End exec.

(** ** Executions of a client *)
Inductive mq_event :=
| EvPush (qt : Z) (sga : dmtr_sgarray)
| EvPop (qt : Z)
| EvGot (qr : dmtr_qresult).

Definition mq_emit (c : mq_cmd) (r : Z) (qr : dmtr_qresult) : list mq_event :=
  if r =? 0 then
    match c with
    | MqPush qt sga => [EvPush qt sga]
    | MqPop qt => [EvPop qt]
    | MqPoll _ => [EvGot qr]
    | MqDrop _ => []
    end
  else [].

(** A client that drops a token only when its slot is free or its operation is
    complete, and otherwise calls what it likes with any token and buffer. *)
Definition drops_completed (c : mq_cmd) (q : memory_queue) : Prop :=
  match c with
  | MqDrop qt => t_valid (mq_task (task_slot qt) q) = true -> task_done (mq_task (task_slot qt) q) = true
  | _ => True
  end.

Inductive mq_trace (q : memory_queue) : list mq_event -> memory_queue -> Prop :=
| mq_trace_nil : mq_trace q [] q
| mq_trace_step tr q1 c qr r qr' q2 :
    mq_trace q tr q1 -> drops_completed c q1 -> mq_exec c qr q1 = Ok (r, qr') q2 ->
    mq_trace q (tr ++ mq_emit c r qr') q2.

Definition pushed (tr : list mq_event) : list dmtr_sgarray :=
  omap (fun e => match e with EvPush _ sga => Some sga | _ => None end) tr.
Definition popped (tr : list mq_event) : list Z :=
  omap (fun e => match e with EvPop qt => Some qt | _ => None end) tr.

Section traces.
Implicit Types (q : memory_queue) (a : fifo) (tr : list mq_event).

Lemma mq_exec_rep q a c qr :
  mq_rep q a -> proper c a ->
  exists r qr' q', mq_exec c qr q = Ok (r, qr') q' /\ fst (fst (fifo_exec c a)) = r /\
    result_of (snd (fst (fifo_exec c a))) qr qr' /\ mq_rep q' (snd (fifo_exec c a)).
Proof.
  intros Hr Hp. destruct c as [qt sga|qt|qt|qt]; cbn [mq_exec]; unfold fbind.
  - destruct (push_rep q a qt sga Hr) as (r & q' & -> & E & Hr'). do 3 eexists. rewrite E. done.
  - destruct (pop_rep q a qt Hr) as (r & q' & -> & E & Hr'). do 3 eexists. rewrite E. done.
  - by apply poll_rep.
  - destruct (drop_rep q a qt Hr Hp) as (q' & -> & Hr'). do 3 eexists. done.
Qed.

Lemma mq_new_object_eq qd :
  mq_new_object qd =
    Ok 0 (mk_memory_queue (io_queue_ctor MEMORY_Q qd) [] (Some (mk_user_thread EAGAIN [] (Some MqPushIdle)))
            (Some (mk_user_thread EAGAIN [] (Some MqPopIdle))) true).
Proof. done. Qed.

Lemma mq_new_object_rep qd : 0 < qd -> exists q, mq_new_object qd = Ok 0 q /\ mq_rep q fifo_empty.
Proof.
  intros Hqd. rewrite mq_new_object_eq. eexists; split; [done|].
  constructor; cbn; try done; try (by left); try (intros; set_solver).
Qed.

Lemma drops_proper q a c : mq_rep q a -> drops_completed c q -> proper c a.
Proof.
  intros Hr Hd. destruct c as [| | |qt]; try done. intros o Ho Hs E. cbn in Hd. rewrite <- Hs in Hd.
  pose proof (rep_ops _ _ Hr _ Ho) as (Hv & _ & _ & _ & He). rewrite E in He.
  specialize (Hd Hv). unfold task_done in Hd. by rewrite He in Hd.
Qed.

(** The history of an execution against the abstract state: [n] pops were
    served, in order, by the first [n] pushed elements. *)
Definition done_ok tr (d : Z * (dmtr_opcode * dmtr_sgarray)) : Prop :=
  match fst (snd d) with
  | DMTR_OPC_POP => (fst d, snd (snd d)) ∈ zip (popped tr) (pushed tr)
  | _ => EvPush (fst d) (snd (snd d)) ∈ tr
  end.
Definition got_ok tr (e : mq_event) : Prop :=
  match e with
  | EvGot qr => exists sga, qr_value qr = qv_sga sga /\ done_ok tr (qr_qt qr, (qr_opcode qr, sga))
  | _ => True
  end.
Record hist tr a : Prop := {
  hist_fifo : exists n, (n <= length (popped tr))%nat /\ (n <= length (pushed tr))%nat /\ f_waiting a = drop n (popped tr) /\
    f_ready a ++ (snd <$> f_pending a) = drop n (pushed tr);
  hist_pending : forall qt sga, (qt, sga) ∈ f_pending a -> EvPush qt sga ∈ tr;
  hist_done : forall d, d ∈ f_done a -> done_ok tr d;
  hist_got : forall e, e ∈ tr -> got_ok tr e
}.

Lemma zip_app_mono {A B} (l1 l2 : list A) (k1 k2 : list B) p : p ∈ zip l1 k1 -> p ∈ zip (l1 ++ l2) (k1 ++ k2).
Proof.
  revert k1. induction l1 as [|x l1 IH]; intros [|y k1]; cbn; set_solver.
Qed.
Lemma done_ok_mono tr tr' d : done_ok tr d -> done_ok (tr ++ tr') d.
Proof.
  unfold done_ok, popped, pushed. rewrite !omap_app.
  destruct (fst (snd d)); try (intros; apply elem_of_app; by left). apply zip_app_mono.
Qed.
Lemma got_ok_mono tr tr' e : got_ok tr e -> got_ok (tr ++ tr') e.
Proof. destruct e; try done. intros (sga & ? & ?). exists sga. split; [done|]. by apply done_ok_mono. Qed.

Lemma hist_extend tr a a' ev :
  hist tr a ->
  (exists n, (n <= length (popped (tr ++ ev)))%nat /\ (n <= length (pushed (tr ++ ev)))%nat /\ f_waiting a' = drop n (popped (tr ++ ev)) /\
    f_ready a' ++ (snd <$> f_pending a') = drop n (pushed (tr ++ ev))) ->
  (forall qt sga, (qt, sga) ∈ f_pending a' -> EvPush qt sga ∈ tr ++ ev) ->
  (forall d, d ∈ f_done a' -> d ∈ f_done a \/ done_ok (tr ++ ev) d) ->
  (forall e, e ∈ ev -> got_ok (tr ++ ev) e) ->
  hist (tr ++ ev) a'.
Proof.
  intros Hh H1 H2 H3 H4. constructor; [done|done| |].
  - intros d Hd. destruct (H3 d Hd) as [Hd'|?]; [|done]. apply done_ok_mono, (hist_done _ _ Hh _ Hd').
  - intros e [He|He]%elem_of_app; [|by apply H4]. apply got_ok_mono, (hist_got _ _ Hh _ He).
Qed.

Lemma hist_run op tr a : hist tr a -> hist tr (fifo_run op a).
Proof.
  intros Hh. rewrite <- (app_nil_r tr). destruct (hist_fifo _ _ Hh) as (n & Hn & Hm & Hw & Hr).
  assert (Hpush : hist (tr ++ []) (fifo_run_push a)).
  { apply (hist_extend tr a); [done| |set_solver| |set_solver]; rewrite app_nil_r.
    - exists n. cbn. by rewrite app_nil_r.
    - cbn. intros d [Hd|Hd]%elem_of_app; [by left|right].
      apply list_elem_of_fmap in Hd as ([qt sga] & -> & Hd). exact (hist_pending _ _ Hh _ _ Hd). }
  assert (Hpop : hist (tr ++ []) (fifo_run_pop a)).
  { set (k := length (fifo_matched a)).
    assert (Hk : (k <= length (f_ready a) /\ k <= length (f_waiting a))%nat)
      by (unfold k, fifo_matched; rewrite length_zip; lia).
    apply (hist_extend tr a); [done| | | |set_solver]; rewrite app_nil_r.
    - exists (n + k)%nat. cbn. fold k. rewrite <- !drop_drop, <- Hr, <- Hw. split; [|split; [|split; [done|]]].
      + rewrite Hw, length_drop in Hk. lia.
      + apply (f_equal length) in Hr. rewrite length_app, length_drop in Hr. lia.
      + rewrite drop_app. replace (k - length (f_ready a))%nat with 0%nat by lia. done.
    - apply (hist_pending _ _ Hh).
    - cbn. intros d [Hd|Hd]%elem_of_app; [by left|right].
      apply list_elem_of_fmap in Hd as ([qt sga] & -> & Hd). unfold done_ok; cbn.
      apply (elem_of_drop_inv _ n). rewrite zip_with_drop, <- Hw, <- Hr.
      rewrite <- (app_nil_r (f_waiting a)). by apply zip_app_mono. }
  rewrite app_nil_r in *. by destruct op.
Qed.

Lemma hist_exec tr q a c qr r qr' q' :
  mq_rep q a -> proper c a -> hist tr a -> mq_exec c qr q = Ok (r, qr') q' ->
  hist (tr ++ mq_emit c r qr') (snd (fifo_exec c a)) /\ mq_rep q' (snd (fifo_exec c a)).
Proof.
  intros Hr Hp Hh H. destruct (mq_exec_rep q a c qr Hr Hp) as (r1 & qr1 & q1 & E & Er & Hres & Hr').
  rewrite H in E. injection E as <- <- <-. split; [|done].
  destruct (hist_fifo _ _ Hh) as (n & Hn & Hm & Hw & Hf).
  destruct c as [qt sga|qt|qt|qt]; cbn [fifo_exec] in *; unfold mq_emit.
  - destruct (fifo_lookup _ _); [cbn in *; subst r; by rewrite app_nil_r|].
    destruct (_ || _); cbn in *; subst r; cbn; [by rewrite app_nil_r|].
    apply (hist_extend tr a); [done| | |intros; by left|set_solver].
    + exists n. unfold popped, pushed. rewrite !omap_app. cbn. rewrite app_nil_r, length_app.
      split; [done|]. split; [fold (pushed tr); lia|]. split; [done|].
      rewrite fmap_app, app_assoc, Hf. cbn. fold (pushed tr). by rewrite drop_app_le.
    + intros qt' sga' [Hin|Hin]%elem_of_app; apply elem_of_app; [left; by apply (hist_pending _ _ Hh)|right].
      apply list_elem_of_singleton in Hin as [= -> ->]. by left.
  - destruct (fifo_lookup _ _); [cbn in *; subst r; by rewrite app_nil_r|].
    destruct (qt =? 0); cbn in *; subst r; cbn; [by rewrite app_nil_r|].
    apply (hist_extend tr a); [done| | |intros; by left|set_solver].
    + exists n. unfold popped, pushed. rewrite !omap_app. cbn. rewrite app_nil_r, length_app. fold (popped tr).
      split; [lia|]. split; [done|]. split; [|done]. rewrite Hw. by rewrite drop_app_le.
    + intros qt' sga' Hin. apply elem_of_app; left. by apply (hist_pending _ _ Hh).
  - unfold fifo_poll in *. destruct (fifo_lookup (task_slot qt) a) as [[qt0 [op0 st0]]|]; cbn in *.
    2:{ subst r. by rewrite app_nil_r. }
    pose proof (hist_run op0 _ _ Hh) as Hh'.
    pose proof (fifo_lookup_rep q' (fifo_run op0 a) (task_slot qt)) as Hl.
    destruct (fifo_lookup (task_slot qt) (fifo_run op0 a)) as [[qt1 [op1 [sga|]]]|]; cbn in *;
      subst r; rewrite ?app_nil_r; cbn; try done.
    destruct (Hl Hr') as [Ho _]. destruct Hres as (E1 & E2 & E3).
    apply elem_of_ops in Ho as [(? & ? & _ & [=])|[(? & _ & [=])|(? & ? & ? & Hd & [= <- <- <-])]].
    constructor.
    + destruct (hist_fifo _ _ Hh') as (m & H1 & H2 & H3). exists m. unfold popped, pushed.
      rewrite !omap_app, !app_nil_r. done.
    + intros. apply elem_of_app; left. by apply (hist_pending _ _ Hh').
    + intros d Hin. by apply done_ok_mono, (hist_done _ _ Hh').
    + intros e [He|He]%elem_of_app; [by apply got_ok_mono, (hist_got _ _ Hh')|].
      apply list_elem_of_singleton in He as ->. cbn. exists sga. split; [done|]. rewrite E1, E2.
      apply done_ok_mono. exact (hist_done _ _ Hh' _ Hd).
  - cbn in *. subst r. cbn. rewrite app_nil_r. constructor; cbn; try apply Hh.
    intros d Hd. apply list_elem_of_filter in Hd as [_ Hd]. by apply (hist_done _ _ Hh).
Qed.

Lemma mq_trace_hist q tr q' a :
  mq_trace q tr q' -> mq_rep q a -> hist [] a -> exists a', mq_rep q' a' /\ hist tr a'.
Proof.
  intros Ht Hr Hh. induction Ht as [|tr q1 c qr r qr' q2 Ht IH Hd H]; [by exists a|].
  destruct IH as (a1 & Hr1 & Hh1). destruct (hist_exec _ _ _ _ _ _ _ _ Hr1 (drops_proper _ _ _ Hr1 Hd) Hh1 H).
  eauto.
Qed.
End traces.

(** ** Properties *)

(** C1: a memory queue implements the abstract FIFO of [API.md].  A new queue
    represents the empty one; every operation of a client, with whatever token
    and result buffer, returns the abstract operation's error or result, runs
    neither out of fuel nor into a panic or undefined behaviour, and keeps the
    representation (drops being of completed or unknown tokens). *)
Theorem mq_refines_fifo :
  (forall qd, 0 < qd -> exists q, mq_new_object qd = Ok 0 q /\ mq_rep q fifo_empty) /\
  forall q a c qr, mq_rep q a -> proper c a ->
    exists r qr' q', mq_exec c qr q = Ok (r, qr') q' /\ fst (fst (fifo_exec c a)) = r /\
      result_of (snd (fst (fifo_exec c a))) qr qr' /\ mq_rep q' (snd (fifo_exec c a)).
Proof. split; [apply mq_new_object_rep|]. intros. by apply mq_exec_rep. Qed.

(** C13: first in, first out.  Along any execution of a client of a new queue,
    pushes, pops, polls and drops interleaved in any way, whenever a poll
    returns the result of a pop with token [qt], [qt] is the token of the
    [i]-th pop and the result is the element of the [i]-th push; the result of
    a push is the element pushed under its token. *)
Theorem mq_fifo_order qd q tr q' qr :
  0 < qd -> mq_new_object qd = Ok 0 q -> mq_trace q tr q' -> EvGot qr ∈ tr ->
  exists sga, qr_value qr = qv_sga sga /\
    (qr_opcode qr = DMTR_OPC_POP -> exists i, popped tr !! i = Some (qr_qt qr) /\ pushed tr !! i = Some sga) /\
    (qr_opcode qr <> DMTR_OPC_POP -> EvPush (qr_qt qr) sga ∈ tr).
Proof.
  intros Hqd Hq Ht Hin. destruct (mq_new_object_rep qd Hqd) as (q0 & Hq0 & Hr).
  rewrite Hq in Hq0. injection Hq0 as <-.
  destruct (mq_trace_hist _ _ _ _ Ht Hr) as (a & _ & Hh).
  { constructor; cbn; intros; set_solver. }
  destruct (hist_got _ _ Hh _ Hin) as (sga & Hv & Hd). exists sga. split; [done|].
  unfold done_ok in Hd; cbn in Hd. split; intros Hop; [rewrite Hop in Hd|by destruct (qr_opcode qr)].
  apply list_elem_of_lookup in Hd as [i Hi]. exists i.
  apply lookup_zip_with_Some in Hi as (x & y & [= <- <-] & ? & ?). done.
Qed.

Definition demo_sga (p : Z) : dmtr_sgarray := mk_sgarray p 1 [mk_sgaseg p 8] sockaddr_zero.
Definition demo_mq : memory_queue :=
  mk_memory_queue (io_queue_ctor MEMORY_Q 1) [] (Some (mk_user_thread EAGAIN [] (Some MqPushIdle)))
    (Some (mk_user_thread EAGAIN [] (Some MqPopIdle))) true.
Definition demo_cmds : list mq_cmd :=
  [MqPush 1 (demo_sga 100); MqPop 2; MqPush 3 (demo_sga 200); MqPoll 1; MqDrop 1; MqPoll 2].
(** Running commands one after the other, with their events. *)
Definition drops_completedb (c : mq_cmd) (q : memory_queue) : bool :=
  match c with
  | MqDrop qt => implb (t_valid (mq_task (task_slot qt) q)) (task_done (mq_task (task_slot qt) q))
  | _ => true
  end.
Fixpoint mq_play (cs : list mq_cmd) (q : memory_queue) : option (list mq_event * memory_queue) :=
  match cs with
  | [] => Some ([], q)
  | c :: cs' =>
      if drops_completedb c q then
        match mq_exec c qresult_zero q with
        | Ok (r, qr') q' => match mq_play cs' q' with
                            | Some (tr, q'') => Some (mq_emit c r qr' ++ tr, q'')
                            | None => None
                            end
        | _ => None
        end
      else None
  end.
Lemma mq_play_trace q0 tr0 cs q tr q' :
  mq_trace q0 tr0 q -> mq_play cs q = Some (tr, q') -> mq_trace q0 (tr0 ++ tr) q'.
Proof.
  revert tr0 q tr. induction cs as [|c cs IH]; cbn [mq_play]; intros tr0 q tr Ht H.
  { injection H as <- <-. by rewrite app_nil_r. }
  destruct (drops_completedb c q) eqn:Ed; [|done].
  destruct (mq_exec c qresult_zero q) as [[r qr'] q1| | |] eqn:Ee; try done.
  destruct (mq_play cs q1) as [[tr1 q2]|] eqn:Ep; [|done]. injection H as <- <-.
  rewrite app_assoc. eapply IH; [|exact Ep]. eapply mq_trace_step; [done| |done].
  destruct c; try done. cbn in *. intros Hv. by rewrite Hv in Ed.
Qed.
Definition demo_pop_result : dmtr_qresult := mk_qresult DMTR_OPC_POP 1 2 (qv_sga (demo_sga 100)).

Lemma mq_refines_fifo_witness :
  mq_rep demo_mq fifo_empty /\
  exists r qr' q', mq_exec (MqPush 1 (demo_sga 100)) qresult_zero demo_mq = Ok (r, qr') q' /\
    mq_rep q' (fifo_push 1 (demo_sga 100) fifo_empty).
Proof.
  destruct (proj1 mq_refines_fifo 1 ltac:(lia)) as (q & Hq & Hr).
  assert (q = demo_mq) as -> by (rewrite mq_new_object_eq in Hq; by injection Hq as <-).
  split; [exact Hr|].
  destruct (proj2 mq_refines_fifo demo_mq fifo_empty (MqPush 1 (demo_sga 100)) qresult_zero Hr I) as (r & qr' & q' & H & _ & _ & Hr').
  exists r, qr', q'. split; [exact H|exact Hr'].
Defined.

Definition demo_trace : list mq_event :=
  [EvPush 1 (demo_sga 100); EvPop 2; EvPush 3 (demo_sga 200);
   EvGot (mk_qresult DMTR_OPC_PUSH 1 1 (qv_sga (demo_sga 100))); EvGot demo_pop_result].
Lemma mq_fifo_order_witness :
  (exists q', mq_trace demo_mq demo_trace q') /\ EvGot demo_pop_result ∈ demo_trace /\
  exists i, popped demo_trace !! i = Some 2 /\ pushed demo_trace !! i = Some (demo_sga 100).
Proof.
  assert (Hp : exists q', mq_play demo_cmds demo_mq = Some (demo_trace, q'))
    by (eexists; vm_compute; reflexivity).
  assert (Hin : EvGot demo_pop_result ∈ demo_trace) by (do 4 right; left).
  destruct Hp as [q' Hp]. pose proof (mq_play_trace _ _ _ _ _ _ (mq_trace_nil demo_mq) Hp) as Ht.
  split; [by exists q'|]. split; [exact Hin|].
  destruct (mq_fifo_order 1 demo_mq demo_trace q' demo_pop_result ltac:(lia) eq_refl Ht Hin) as (sga & Hv & Hpop & _).
  injection Hv as <-. exact (Hpop eq_refl).
Defined.

(** Progress.  Polling a waiting pop serves the pops before it: it completes
    exactly when enough elements are ready, with the element at its own
    position, and answers [EAGAIN] otherwise. *)
Theorem mq_pop_completes q a i qt qr :
  mq_rep q a -> f_waiting a !! i = Some qt ->
  match f_ready a !! i with
  | Some sga => exists qr' q', mq_poll qr qt q = Ok (0, qr') q' /\
      qr_opcode qr' = DMTR_OPC_POP /\ qr_qt qr' = qt /\ qr_value qr' = qv_sga sga /\
      my_ready_queue q' = drop (length (fifo_matched a)) (f_ready a)
  | None => exists q', mq_poll qr qt q = Ok (EAGAIN, qr) q' /\ my_ready_queue q' = []
  end.
Proof.
  intros Hr Hi. assert (Hin : qt ∈ f_waiting a) by (by eapply list_elem_of_lookup_2).
  pose proof (fifo_lookup_Some _ _ _ Hr (waiting_op _ _ Hin)) as Hl.
  destruct (service_pop_rep q a Hr) as (q1 & _ & Hr1).
  destruct (poll_rep q a qt qr Hr) as (r & qr' & q' & H & E & Hres & Hr').
  unfold fifo_poll in *. unfold op_slot in Hl; cbn in Hl. rewrite Hl in E, Hres, Hr'. cbn in E, Hres, Hr'.
  assert (Hlen : length (fifo_matched a) = Nat.min (length (f_waiting a)) (length (f_ready a)))
    by apply length_zip.
  destruct (f_ready a !! i) as [sga|] eqn:Ei.
  - assert (Ho : (qt, (DMTR_OPC_POP, Some sga)) ∈ fifo_ops (fifo_run_pop a)).
    { apply elem_of_ops. right; right. exists qt, DMTR_OPC_POP, sga. split; [|done]. cbn.
      apply elem_of_app; right. apply list_elem_of_fmap. exists (qt, sga). split; [done|].
      apply (list_elem_of_lookup_2 _ i). unfold fifo_matched. apply lookup_zip_with_Some. eauto. }
    pose proof (fifo_lookup_Some _ _ _ Hr1 Ho) as Hl1. unfold op_slot in Hl1; cbn in Hl1.
    rewrite Hl1 in E, Hres, Hr'. cbn in E, Hres, Hr'. subst r. exists qr', q'.
    split; [done|]. destruct Hres as (? & ? & ?). do 3 (split; [done|]). apply Hr'.
  - apply lookup_ge_None in Ei. apply lookup_lt_Some in Hi as Hlt.
    assert (Ho : (qt, (DMTR_OPC_POP, None)) ∈ fifo_ops (fifo_run_pop a)).
    { apply waiting_op. cbn. apply (list_elem_of_lookup_2 _ (i - length (fifo_matched a))).
      rewrite lookup_drop. by replace (_ + _)%nat with i by lia. }
    pose proof (fifo_lookup_Some _ _ _ Hr1 Ho) as Hl1. unfold op_slot in Hl1; cbn in Hl1.
    rewrite Hl1 in E, Hres, Hr'. cbn in E, Hres, Hr'. subst r qr'. exists q'. split; [done|].
    rewrite (rep_ready _ _ Hr'). cbn. apply drop_ge. lia.
Qed.

Definition demo_fifo : fifo := mk_fifo [] [demo_sga 100] [2] [].
Definition demo_mq_ready : memory_queue :=
  match mq_play [MqPush 1 (demo_sga 100); MqPop 2; MqPoll 1; MqDrop 1] demo_mq with
  | Some (_, q) => q
  | None => demo_mq
  end.
Lemma demo_mq_ready_rep : mq_rep demo_mq_ready demo_fifo.
Proof.
  assert (H : forall s, t_valid (mq_task s demo_mq_ready) = true -> s = 2).
  { intros s. unfold mq_task. replace (mq_base demo_mq_ready) with
      (mk_io_queue (my_tasks (mq_base demo_mq_ready)) MEMORY_Q 1 0) by reflexivity.
    unfold slot_task; cbn [my_tasks]. vm_compute (my_tasks (mq_base demo_mq_ready)).
    destruct s as [|[s|[s|s|]|]|s]; try done; destruct s; done. }
  constructor; try reflexivity.
  - by left.
  - repeat constructor; set_solver.
  - intros o Ho. apply list_elem_of_singleton in Ho as ->. vm_compute. auto.
  - intros; set_solver.
  - intros s Hs. rewrite (H s Hs). by left.
Qed.
Lemma mq_pop_completes_witness :
  f_waiting demo_fifo !! 0%nat = Some 2 /\
  exists qr' q', mq_poll qresult_zero 2 demo_mq_ready = Ok (0, qr') q' /\
    qr_opcode qr' = DMTR_OPC_POP /\ qr_qt qr' = 2 /\ qr_value qr' = qv_sga (demo_sga 100) /\ my_ready_queue q' = [].
Proof.
  split; [reflexivity|].
  exact (mq_pop_completes demo_mq_ready demo_fifo 0 2 qresult_zero demo_mq_ready_rep eq_refl).
Defined.

(** Closing.  After [close] every operation fails with [EINVAL], leaves the
    queue and the caller's buffer alone, and so no pending operation ever
    completes; closing again succeeds. *)
Theorem mq_close_final q c qr :
  exists q', mq_close q = Ok 0 q' /\ mq_exec c qr q' = Ok (EINVAL, qr) q' /\ mq_close q' = Ok 0 q'.
Proof.
  exists (set_my_good_flag false q). split; [done|]. split; [|done]. by destruct c.
Qed.
