(* ===== verification/Queue.v ===== *)
(** * The interface of queues

    A queue object is owned by the table [my_queues] of the API and found by
    its descriptor, which it never changes; a pointer to it is its descriptor,
    and dangles once the table has dropped the object (descriptors are not
    reused).  The class [Queue] is the vtable of [io_queue]: what the API calls
    through it.  A method runs on the whole environment, because an accept
    worker also writes to the object of the accepted connection.

    [QueueLaws] is what the queues promise in return; the theorems on the API
    are proved against it and each library OS discharges it for its queues. *)
From S2P Require Import Prelude Cmd Types IoQueue.
Open Scope cmd_scope.

Record qenv (Q W : Type) := mk_qenv {
  e_queues : gmap Z Q;
  e_world : W
}.
Arguments mk_qenv {Q W}.
Arguments e_queues {Q W}.
Arguments e_world {Q W}.

Definition set_e_queues {Q W} (m : gmap Z Q) (e : qenv Q W) : qenv Q W := mk_qenv m (e_world e).
Definition set_e_world {Q W} (w : W) (e : qenv Q W) : qenv Q W := mk_qenv (e_queues e) w.

(** The virtual functions that return only an error code. *)
Inductive vcall :=
| VSocket (domain type protocol : Z)
| VListen (backlog : Z)
| VBind (saddr : option (list Z)) (size : Z)
| VConnect (qt : Z) (saddr : option (list Z)) (size : Z)
| VOpen (pathname : list Z) (flags : Z)
| VOpen2 (pathname : list Z) (flags mode : Z)
| VCreat (pathname : list Z) (mode : Z)
| VClose
| VPush (qt : Z) (sga : dmtr_sgarray)
| VPop (qt : Z)
| VDrop (qt : Z).

Class Queue (Q W : Type) := {
  q_base : Q -> io_queue;
  set_q_base : io_queue -> Q -> Q;
  q_vcall : Z -> vcall -> fn (qenv Q W) Z;
  (** [getsockname]: the address written, when [saddr] and [size] are not null *)
  q_getsockname : Z -> bool -> option Z -> fn (qenv Q W) (Z * option (list Z));
  (** [accept]: the new queue object, owned by the caller *)
  q_accept : Z -> Z -> Z -> fn (qenv Q W) (Z * option Q);
  (** [poll]: the caller's result buffer before and after *)
  q_poll : Z -> dmtr_qresult -> Z -> fn (qenv Q W) (Z * dmtr_qresult);
  (** the destructor, of an object that is not in the table any more *)
  q_destroy : Q -> fn W unit
}.

Definition on_queue {Q W A} `{Queue Q W} (p : Z) (m : fn io_queue A) : fn (qenv Q W) A := fun e =>
  match e_queues e !! p with
  | None => Undef
  | Some q => match m (q_base q) with
              | Ok a b => Ok a (set_e_queues (<[p := set_q_base b q]> (e_queues e)) e)
              | Panic => Panic
              | Undef => Undef
              | NoFuel => NoFuel
              end
  end.

(** A method of a derived class on its object: the pointer must point at one. *)
Definition on_object {Q W O A} (as_object : Q -> option O) (of_object : O -> Q) (p : Z) (m : fn O A) :
    fn (qenv Q W) A := fun e =>
  match e_queues e !! p with
  | None => Undef
  | Some q => match as_object q with
              | None => Undef
              | Some o => match m o with
                          | Ok a o' => Ok a (set_e_queues (<[p := of_object o']> (e_queues e)) e)
                          | Panic => Panic
                          | Undef => Undef
                          | NoFuel => NoFuel
                          end
              end
  end.

(** The methods of a queue neither create nor destroy queue objects, nor touch
    descriptors and token counters. *)
Definition same_base (b b' : io_queue) : Prop :=
  my_qd b' = my_qd b /\ my_qt_counter b' = my_qt_counter b.
Definition same_shape {Q W} `{Queue Q W} (e e' : qenv Q W) : Prop :=
  forall qd, match e_queues e !! qd, e_queues e' !! qd with
             | Some q, Some q' => same_base (q_base q) (q_base q')
             | None, None => True
             | _, _ => False
             end.

Class QueueLaws (Q W : Type) `{Queue Q W} := {
  q_base_set : forall b (q : Q), q_base (set_q_base b q) = b;
  q_vcall_shape : forall p c (e : qenv Q W), wlp (q_vcall p c) (fun _ e' => same_shape e e') e;
  q_getsockname_shape : forall p a n (e : qenv Q W), wlp (q_getsockname p a n) (fun _ e' => same_shape e e') e;
  q_poll_shape : forall p qr qt (e : qenv Q W), wlp (q_poll p qr qt) (fun _ e' => same_shape e e') e;
  q_accept_shape : forall p qt qd (e : qenv Q W),
    wlp (q_accept p qt qd) (fun r e' => same_shape e e' /\
      (fst r = 0 -> exists q, snd r = Some q /\ my_qd (q_base q) = qd /\ my_qt_counter (q_base q) = 0)) e
}.

Section shape.
Context {Q W : Type} `{Queue Q W}.
Implicit Types (e : qenv Q W).

Lemma same_shape_refl e : same_shape e e.
Proof. intros qd. by destruct (e_queues e !! qd). Qed.
Lemma same_shape_trans e e' e'' : same_shape e e' -> same_shape e' e'' -> same_shape e e''.
Proof.
  intros H1 H2 qd. specialize (H1 qd). specialize (H2 qd). unfold same_base in *.
  destruct (e_queues e !! qd), (e_queues e' !! qd), (e_queues e'' !! qd); try done.
  destruct H1, H2. split; congruence.
Qed.
#[export] Instance same_shape_preorder : PreOrder same_shape.
Proof. split; [exact same_shape_refl|exact same_shape_trans]. Qed.

Lemma same_shape_lookup e e' qd q' :
  same_shape e e' -> e_queues e' !! qd = Some q' ->
  exists q, e_queues e !! qd = Some q /\ same_base (q_base q) (q_base q').
Proof. intros Hs Hq. specialize (Hs qd). rewrite Hq in Hs. destruct (e_queues e !! qd); [eauto|done]. Qed.
Lemma same_shape_lookup_l e e' qd q :
  same_shape e e' -> e_queues e !! qd = Some q ->
  exists q', e_queues e' !! qd = Some q' /\ same_base (q_base q) (q_base q').
Proof. intros Hs Hq. specialize (Hs qd). rewrite Hq in Hs. destruct (e_queues e' !! qd); [eauto|done]. Qed.
Lemma same_shape_None e e' qd :
  same_shape e e' -> e_queues e !! qd = None -> e_queues e' !! qd = None.
Proof. intros Hs Hq. specialize (Hs qd). rewrite Hq in Hs. by destruct (e_queues e' !! qd). Qed.
Lemma same_shape_world e w : same_shape e (set_e_world w e).
Proof. intros qd. cbn. by destruct (e_queues e !! qd). Qed.

(** Replacing one object by another with the same base data. *)
Lemma same_shape_insert e qd q q' :
  e_queues e !! qd = Some q -> same_base (q_base q) (q_base q') ->
  same_shape e (set_e_queues (<[qd := q']> (e_queues e)) e).
Proof.
  intros Hq Hb qd'. cbn. destruct (decide (qd = qd')) as [<-|Hne].
  - by rewrite Hq, lookup_insert_eq.
  - rewrite lookup_insert_ne by done. by destruct (e_queues e !! qd').
Qed.

Lemma on_object_shape {O A} (as_object : Q -> option O) (of_object : O -> Q) (base : O -> io_queue) p (m : fn O A) e :
  (forall q o, as_object q = Some o -> q_base q = base o) -> (forall o, q_base (of_object o) = base o) ->
  (forall o, wlp m (fun _ o' => same_base (base o) (base o')) o) ->
  wlp (on_object as_object of_object p m) (fun _ e' => same_shape e e') e.
Proof.
  intros Has Hof Hm. unfold post, on_object. destruct (e_queues e !! p) as [q|] eqn:Eq; [|done].
  destruct (as_object q) as [o|] eqn:Eo; [|done]. specialize (Hm o). unfold post in Hm.
  destruct (m o) as [a o'| | |]; try done. eapply same_shape_insert; [done|].
  by rewrite (Has _ _ Eo), Hof.
Qed.
End shape.
