(* ===== verification/MemoryVtable.v ===== *)
(** * Memory queues as queues of the API

    The virtual functions [memory_queue] overrides, the others being those of
    the base class ([io_queue.cc]: [ENOTSUP]), and the proof that they keep the
    object's descriptor and token counter, which the interface promises. *)
From S2P Require Import Prelude Cmd Types IoQueue UserThread MemoryQueue Queue.
Open Scope cmd_scope.

Definition mq_vcall (c : vcall) : fn memory_queue Z :=
  match c with
  | VClose => mq_close
  | VPush qt sga => mq_push qt sga
  | VPop qt => mq_pop qt
  | VDrop qt => mq_drop qt
  | _ => io_queue_unsupported
  end.

Section keeps_base.
Implicit Types (q : memory_queue).

(** The descriptor and the token counter are kept. *)
Definition same_mq_base q q' : Prop := same_base (mq_base q) (mq_base q').
#[export] Instance same_mq_base_preorder : PreOrder same_mq_base.
Proof. split; unfold same_mq_base, same_base; repeat intro; intuition congruence. Qed.

Lemma keeps_base {A} (m : fn io_queue A) :
  (forall b, wlp m (fun _ b' => same_base b b') b) -> keeps same_mq_base (on_base m).
Proof. intros Hm q. unfold on_base. rewrite post_zoom. eapply post_mono; [apply Hm|done]. Qed.

Lemma run_cmd_base c qt b : wlp (run_cmd c qt) (fun _ b' => same_base b b') b.
Proof.
  unfold post. destruct (run_cmd c qt b) as [e b'| | |] eqn:E; try done.
  apply run_cmd_frame in E as (? & _ & ? & _). done.
Qed.
Lemma get_task_ptr_base qt b : wlp (get_task_ptr qt) (fun _ b' => same_base b b') b.
Proof.
  unfold post. destruct (t_valid (slot_task (task_slot qt) b)) eqn:E.
  - by rewrite get_task_ptr_valid.
  - by rewrite get_task_ptr_free.
Qed.
Lemma on_slot_base {A} s (m : fn task A) b : wlp (on_slot s m) (fun _ b' => same_base b b') b.
Proof. unfold post. destruct (on_slot s m b) as [a b'| | |] eqn:E; try done. by apply on_slot_frame in E as (? & _ & ? & _). Qed.
End keeps_base.

Ltac mq_keeps_step :=
  first [ keeps_step
        | apply keeps_modify; intros ?; split; reflexivity
        | apply keeps_base; first [apply get_task_ptr_base | apply on_slot_base] ].

Lemma mq_push_step_keeps k tq : keeps same_mq_base (mq_push_step k tq).
Proof.
  destruct k; [|destruct tq as [|qt tq]]; unfold mq_push_step, in_thread; repeat mq_keeps_step.
  destruct (mq_good _); repeat mq_keeps_step.
Qed.
Lemma mq_pop_step_keeps k tq : keeps same_mq_base (mq_pop_step k tq).
Proof.
  destruct k; [|destruct tq as [|qt tq]|]; unfold mq_pop_step, in_thread; repeat mq_keeps_step.
  - destruct (mq_good _); repeat mq_keeps_step.
  - destruct (my_ready_queue _); repeat mq_keeps_step.
Qed.

Lemma mq_vcall_keeps c : keeps same_mq_base (mq_vcall c).
Proof.
  destruct c; unfold mq_vcall, io_queue_unsupported, mq_close; repeat mq_keeps_step.
  - unfold mq_push. repeat mq_keeps_step; apply keeps_base; exact (run_cmd_base (CNewSga _ _) _).
  - unfold mq_pop. repeat mq_keeps_step; apply keeps_base; exact (run_cmd_base (CNew _) _).
  - unfold mq_drop. repeat mq_keeps_step; apply keeps_base; exact (run_cmd_base CDrop _).
Qed.

Lemma mq_service_push_keeps : keeps same_mq_base mq_service_push.
Proof.
  intros q. unfold post, mq_service_push, fbind. destruct (my_push_thread q) as [th|]; [|done].
  pose proof (keeps_service mq_push_step same_mq_base (mq_fuel (th_queue th)) th mq_push_step_keeps q) as H.
  unfold post in H. by destruct (service _ _ th q).
Qed.
Lemma mq_service_pop_keeps : keeps same_mq_base mq_service_pop.
Proof.
  intros q. unfold post, mq_service_pop, fbind. destruct (my_pop_thread q) as [th|]; [|done].
  pose proof (keeps_service mq_pop_step same_mq_base (mq_fuel (th_queue th)) th mq_pop_step_keeps q) as H.
  unfold post in H. by destruct (service _ _ th q).
Qed.
Lemma mq_poll_keeps qr qt : keeps same_mq_base (mq_poll qr qt).
Proof.
  unfold mq_poll. repeat mq_keeps_step.
  - destruct (task_opcode _); repeat mq_keeps_step; [apply mq_service_push_keeps|apply mq_service_pop_keeps].
  - destruct (_ =? EAGAIN); [repeat mq_keeps_step|]. destruct (_ =? 0); [done|]. repeat mq_keeps_step.
  - destruct a; repeat mq_keeps_step.
Qed.

(** ** The instance: a table of memory queues only *)
Section vtable.
Context {W : Type}.
Definition mq_lift {A} (p : Z) (m : fn memory_queue A) : fn (qenv memory_queue W) A := on_object Some id p m.

#[export] Instance memory_queue_vtable : Queue memory_queue W := {|
  q_base := mq_base;
  set_q_base := set_mq_base;
  q_vcall p c := mq_lift p (mq_vcall c);
  q_getsockname p saddr size := mq_lift p (fret (ENOTSUP, None));
  q_accept p qt new_qd := mq_lift p (fret (ENOTSUP, None));
  q_poll p qr qt := mq_lift p (mq_poll qr qt);
  q_destroy _ := fret tt
  |}.

Lemma mq_lift_shape {A} p (m : fn memory_queue A) e :
  keeps same_mq_base m -> wlp (mq_lift p m) (fun _ e' => same_shape e e') e.
Proof. intros Hm. apply (on_object_shape _ _ mq_base); [by intros q o [= ->]|done|exact Hm]. Qed.

#[export] Instance memory_queue_laws : QueueLaws memory_queue W.
Proof.
  constructor.
  - done.
  - intros p c e. apply mq_lift_shape, mq_vcall_keeps.
  - intros p a n e. apply mq_lift_shape. by keeps_step.
  - intros p qr qt e. apply mq_lift_shape, mq_poll_keeps.
  - intros p qt qd e. unfold post, q_accept; cbn. unfold mq_lift, on_object.
    destruct (e_queues e !! p) as [q|] eqn:Eq; [|done]. cbn. split; [|done].
    by eapply same_shape_insert.
Qed.

(** The constructor a library OS registers for memory queues. *)
Definition mq_ctor (qd : Z) : fn W (Z * option memory_queue) := fun w =>
  match mq_new_object qd with
  | Ok e q => Ok (e, Some q) w
  | Panic => Panic
  | Undef => Undef
  | NoFuel => NoFuel
  end.
Lemma mq_ctor_eq qd w : exists q, mq_ctor qd w = Ok (0, Some q) w /\ mq_base q = io_queue_ctor MEMORY_Q qd.
Proof. unfold mq_ctor. rewrite mq_new_object_eq. eauto. Qed.
End vtable.
