(* ===== verification/IoQueueApi.v ===== *)
(** * The queue API: [common/io_queue_api.cc], [common/io_queue_factory.cc]

    The API hands out queue descriptors, owns the queue objects in the table
    [my_queues] and routes every call to the object of its descriptor (tokens
    carry their descriptor in the high half).  The queues are those of an
    instance of [Queue]. *)
From S2P Require Import Prelude Cmd Types IoQueue MemoryQueue Queue MemoryVtable.
Open Scope cmd_scope.

(** ** [io_queue_factory] *)

(** A constructor gets the descriptor and returns an error or the object; an
    empty [std::function] is [None]. *)
Definition ctor_type (Q W : Type) : Type := Z -> fn W (Z * option Q).
Abbreviation io_queue_factory Q W := (gmap category_id (option (ctor_type Q W))).

Definition register_ctor {Q W} (cid : category_id) (ctor : option (ctor_type Q W)) :
    fn (io_queue_factory Q W) Z := body (
  DMTR_NOTNULL EINVAL ctor ;;
  my_ctors <- get ;
  DMTR_TRUE EEXIST (match my_ctors !! cid with None => true | Some _ => false end) ;;
  modify (fun m => <[cid := ctor]> m) ;;
  normal 0).

(** [q_out] is set only by the constructor. *)
Definition construct {Q W} (my_ctors : io_queue_factory Q W) (cid : category_id) (qd : Z) :
    fn W (Z * option Q) := body_out None (
  DMTR_TRUE ENOENT (match my_ctors !! cid with None => false | Some _ => true end) ;;
  f <- need (my_ctors !! cid) ;
  DMTR_NOTNULL EINVAL f ;;
  f <- need f ;
  q <- DMTR_OK_out (f qd) ;
  normal q).

(** ** [io_queue_api] *)

Record io_queue_api (Q W : Type) := mk_io_queue_api {
  my_qd_counter : Z;
  my_env : qenv Q W;              (* [my_queues] and the rest of the world *)
  my_queue_factory : io_queue_factory Q W
}.
Arguments mk_io_queue_api {Q W}.
Arguments my_qd_counter {Q W}.
Arguments my_env {Q W}.
Arguments my_queue_factory {Q W}.

Section io_queue_api.
Context {Q W : Type} `{HQ : Queue Q W}.
Abbreviation api := (io_queue_api Q W).
Implicit Types (st : api).

Definition set_my_qd_counter (c : Z) st : api := mk_io_queue_api c (my_env st) (my_queue_factory st).
Definition set_my_env (e : qenv Q W) st : api := mk_io_queue_api (my_qd_counter st) e (my_queue_factory st).
Definition set_my_queue_factory (f : io_queue_factory Q W) st : api :=
  mk_io_queue_api (my_qd_counter st) (my_env st) f.
Definition my_queues st : gmap Z Q := e_queues (my_env st).
Definition set_my_queues (m : gmap Z Q) st : api := set_my_env (set_e_queues m (my_env st)) st.

Definition on_env {A} (m : fn (qenv Q W) A) : fn api A := zoom my_env set_my_env m.
Definition on_world {A} (m : fn W A) : fn api A :=
  zoom (fun st => e_world (my_env st)) (fun w st => set_my_env (set_e_world w (my_env st)) st) m.

Definition api_ctor (w : W) : api := mk_io_queue_api 0 (mk_qenv ∅ w) ∅.

(** [init(newobj_out, argc, argv)], the pointer being null before. *)
Definition api_init (newobj_out : option api) (w : W) : fn unit (Z * option api) := body_out newobj_out (
  DMTR_NULL EINVAL newobj_out ;;
  normal (Some (api_ctor w))).

Definition register_queue_ctor (cid : category_id) (ctor : option (ctor_type Q W)) : fn api Z := body (
  DMTR_OK (zoom my_queue_factory set_my_queue_factory (register_ctor cid ctor)) ;;
  normal 0).

(** [my_queues[qd]]: an array of 256 pointers, the index unchecked. *)
Definition my_queues_size : Z := 256.
Definition index_queues (qd : Z) : fn api unit := fun st =>
  if (0 <=? qd) && (qd <? my_queues_size) then Ok tt st else Undef.

(** The pointer is the descriptor when the entry is not null. *)
Definition get_queue (qd : Z) : fn api (Z * option Z) := body_out None (
  call (index_queues qd) ;;
  st <- get ;
  normal (match my_queues st !! qd with Some _ => Some qd | None => None end)).

Definition new_qd : fn api Z := fun st =>
  let c := u32 (my_qd_counter st + 1) in
  let qd := i32 c in
  if qd >? 256 then Panic else Ok qd (set_my_qd_counter c st).

Definition insert_queue (q : option Q) : fn api Z := body (
  DMTR_NOTNULL EINVAL q ;;
  q <- need q ;
  let qd := my_qd (q_base q) in
  call (index_queues qd) ;;
  modify (fun st => set_my_queues (<[qd := q]> (my_queues st)) st) ;;
  normal 0).

(** [my_queues[qd] = NULL]: the entry is cleared and the object destroyed. *)
Definition remove_queue (qd : Z) : fn api Z := body (
  DMTR_TRUE EINVAL (negb (qd =? 0)) ;;
  call (index_queues qd) ;;
  st <- get ;
  DMTR_NOTNULL ENOENT (my_queues st !! qd) ;;
  q <- need (my_queues st !! qd) ;
  modify (fun st => set_my_queues (delete qd (my_queues st)) st) ;;
  call (on_world (q_destroy q)) ;;
  normal 0).

(** [q_out] is the new object's pointer. *)
Definition new_queue (cid : category_id) : fn api (Z * option Z) := body_out None (
  qd <- call new_qd ;
  st <- get ;
  qq <- DMTR_OK_out (on_world (construct (my_queue_factory st) cid qd)) ;
  let q := match qq with Some q => Some (my_qd (q_base q)) | None => None end in
  DMTR_OK (insert_queue qq) ;;
  normal q).

(** [q->method(...)] through a pointer that may be null or dangling. *)
Definition q_call {A} (m : Z -> fn (qenv Q W) A) (q : option Z) : stmt api A :=
  p <- need q ;
  st <- get ;
  _ <- need (my_queues st !! p) ;
  call (on_env (m p)).

Definition queue : fn api (Z * Z) := body_out 0 (
  q <- DMTR_OK_out (new_queue MEMORY_Q) ;
  q <- need q ;
  normal q).

(** The queues made by a call that may fail are removed again. *)
Definition socket (domain type protocol : Z) : fn api (Z * Z) := body_out 0 (
  q <- DMTR_OK_out (new_queue NETWORK_Q) ;
  ret <- q_call (fun p => q_vcall p (VSocket domain type protocol)) q ;
  qd <- need q ;
  (if negb (ret =? 0) then
     DMTR_OK (remove_queue qd) ;;
     DMTR_FAIL ret
   else normal tt) ;;
  normal qd).

Definition getsockname (qd : Z) (saddr : bool) (size : option Z) : fn api (Z * option (list Z)) := body_out None (
  DMTR_TRUE EINVAL (negb (qd =? 0)) ;;
  q <- DMTR_OK_out (get_queue qd) ;
  r <- q_call (fun p => q_getsockname p saddr size) q ;
  DMTR_OK (fret (fst r)) ;;
  normal (snd r)).

Definition bind (qd : Z) (saddr : option (list Z)) (size : Z) : fn api Z := body (
  DMTR_TRUE EINVAL (negb (qd =? 0)) ;;
  q <- DMTR_OK_out (get_queue qd) ;
  ret <- q_call (fun p => q_vcall p (VBind saddr size)) q ;
  DMTR_OK (fret ret) ;;
  normal 0).

Definition accept (sockqd : Z) : fn api (Z * Z) := body_out 0 (
  DMTR_TRUE EINVAL (negb (sockqd =? 0)) ;;
  sockq <- DMTR_OK_out (get_queue sockqd) ;
  qd <- call new_qd ;
  r <- q_call (fun p => on_queue p new_qtoken) sockq ;
  qt <- DMTR_OK_out (fret r) ;
  r <- q_call (fun p => q_accept p qt qd) sockq ;
  q <- DMTR_OK_out (fret r) ;
  DMTR_OK (insert_queue q) ;;
  normal qt).

Definition listen (qd backlog : Z) : fn api Z := body (
  DMTR_TRUE EINVAL (negb (qd =? 0)) ;;
  q <- DMTR_OK_out (get_queue qd) ;
  ret <- q_call (fun p => q_vcall p (VListen backlog)) q ;
  DMTR_OK (fret ret) ;;
  normal 0).

(** [qtok_out] is set before the call that may fail, and is not cleared. *)
Definition connect (qtok_out : Z) (qd : Z) (saddr : option (list Z)) (size : Z) : fn api (Z * Z) :=
  fbind (
    DMTR_TRUE EINVAL (negb (qd =? 0)) ;;
    q <- DMTR_OK_out (get_queue qd) ;
    r <- q_call (fun p => on_queue p new_qtoken) q ;
    qt <- DMTR_OK_out (fret r) ;
    ret <- q_call (fun p => q_vcall p (VConnect qt saddr size)) q ;
    (* ECONNREFUSED returns as the default case does, but unreported *)
    (if ret =? ECONNREFUSED then normal (ret, qt)
     else if ret =? 0 then normal (0, qt)
     else r <- call (body (DMTR_FAIL ret)) ; normal (r, qt)))
  (fun r => match r with inl a => fret a | inr e => fret (e, qtok_out) end).

Definition open (pathname : list Z) (flags : Z) : fn api (Z * Z) := body_out 0 (
  q <- DMTR_OK_out (new_queue FILE_Q) ;
  ret <- q_call (fun p => q_vcall p (VOpen pathname flags)) q ;
  qd <- need q ;
  (if negb (ret =? 0) then
     DMTR_OK (remove_queue qd) ;;
     DMTR_FAIL ret
   else normal tt) ;;
  normal qd).

Definition open2 (pathname : list Z) (flags mode : Z) : fn api (Z * Z) := body_out 0 (
  q <- DMTR_OK_out (new_queue FILE_Q) ;
  ret <- q_call (fun p => q_vcall p (VOpen2 pathname flags mode)) q ;
  qd <- need q ;
  (if negb (ret =? 0) then
     DMTR_OK (remove_queue qd) ;;
     DMTR_FAIL ret
   else normal tt) ;;
  normal qd).

Definition creat (pathname : list Z) (mode : Z) : fn api (Z * Z) := body_out 0 (
  q <- DMTR_OK_out (new_queue FILE_Q) ;
  ret <- q_call (fun p => q_vcall p (VCreat pathname mode)) q ;
  qd <- need q ;
  (if negb (ret =? 0) then
     DMTR_OK (remove_queue qd) ;;
     DMTR_FAIL ret
   else normal tt) ;;
  normal qd).

Definition close (qd : Z) : fn api Z := body (
  DMTR_TRUE EINVAL (negb (qd =? 0)) ;;
  q <- DMTR_OK_out (get_queue qd) ;
  ret <- q_call (fun p => q_vcall p VClose) q ;
  DMTR_OK (remove_queue qd) ;;
  DMTR_OK (fret ret) ;;
  normal 0).

Definition is_qd_valid (qd : Z) : fn api (Z * bool) :=
  fbind (get_queue qd) (fun r =>
    let ret := fst r in
    if ret =? 0 then fret (0, true)
    else if ret =? ENOENT then fret (0, false)
    else fbind (body (DMTR_FAIL ret)) (fun e => fret (e, false))).

Definition push (qd : Z) (sga : dmtr_sgarray) : fn api (Z * Z) := body_out 0 (
  DMTR_TRUE EINVAL (negb (qd =? 0)) ;;
  q <- DMTR_OK_out (get_queue qd) ;
  r <- q_call (fun p => on_queue p new_qtoken) q ;
  qt <- DMTR_OK_out (fret r) ;
  ret <- q_call (fun p => q_vcall p (VPush qt sga)) q ;
  DMTR_OK (fret ret) ;;
  normal qt).

Definition pop (qd : Z) : fn api (Z * Z) := body_out 0 (
  DMTR_TRUE EINVAL (negb (qd =? 0)) ;;
  q <- DMTR_OK_out (get_queue qd) ;
  r <- q_call (fun p => on_queue p new_qtoken) q ;
  qt <- DMTR_OK_out (fret r) ;
  ret <- q_call (fun p => q_vcall p (VPop qt)) q ;
  DMTR_OK (fret ret) ;;
  normal qt).

(** [qttoqd]: the high half, as an [int]. *)
Definition qttoqd (qtok : Z) : Z := i32 (QT2QD qtok).

Definition on_poll_failure (qr_out : dmtr_qresult) : fn api dmtr_qresult :=
  if opcode_eqb DMTR_OPC_ACCEPT (qr_opcode qr_out)
  then fbind (remove_queue (ares_qd (qr_value qr_out)))
         (fun _ => fret (set_qr_value (set_ares_qd 0 (qr_value qr_out)) qr_out))
  else fret qr_out.

(** The errors that are returned without being reported. *)
Definition poll_quiet (ret : Z) : bool :=
  (ret =? EAGAIN) || (ret =? ECONNABORTED) || (ret =? ECONNRESET) || (ret =? ETIMEDOUT) || (ret =? EBADF).

(** [qr_out] may be null; the result buffer after the call is returned. *)
Definition poll (qr_out : option dmtr_qresult) (qt : Z) : fn api (Z * option dmtr_qresult) :=
  fbind (
    DMTR_TRUE EINVAL (negb (qt =? 0)) ;;
    let qd := qttoqd qt in
    q <- DMTR_OK_out (get_queue qd) ;
    let qr := match qr_out with Some qr => qr | None => qresult_zero end in
    r <- q_call (fun p => q_poll p qr qt) q ;
    let '(ret, qr) := r in
    let out qr := match qr_out with Some _ => Some qr | None => None end in
    if ret =? 0 then normal (0, out qr)
    else qr' <- call (on_poll_failure qr) ;
         if poll_quiet ret then normal (ret, out qr')
         else ret <- call (body (DMTR_FAIL ret)) ; normal (ret, out qr'))
  (fun r => match r with inl a => fret a | inr e => fret (e, qr_out) end).

Definition drop (qt : Z) : fn api Z := body (
  DMTR_TRUE EINVAL (negb (qt =? 0)) ;;
  let qd := qttoqd qt in
  q <- DMTR_OK_out (get_queue qd) ;
  r <- q_call (fun p => q_vcall p (VDrop qt)) q ;
  normal r).
End io_queue_api.

(** ** What every operation of the API keeps *)
Section frame.
Context {Q W : Type} `{HQ : Queue Q W}.
Abbreviation api := (io_queue_api Q W).
Implicit Types (st : api) (q : Q).

(** The constructors registered make objects with the descriptor they get and
    a fresh token counter. *)
Definition factory_ok (f : io_queue_factory Q W) : Prop :=
  forall cid c, f !! cid = Some (Some c) -> forall qd w,
    wlp (c qd) (fun r _ => fst r = 0 -> forall q, snd r = Some q ->
                  my_qd (q_base q) = qd /\ my_qt_counter (q_base q) = 0) w.

(** Each object sits at its own descriptor, which was issued. *)
Definition queue_ok (counter qd : Z) q : Prop :=
  my_qd (q_base q) = qd /\ 0 < qd <= counter /\ counter_ok (q_base q).
Record api_ok st : Prop := {
  ok_counter : 0 <= my_qd_counter st <= 256;
  ok_queues : forall qd q, my_queues st !! qd = Some q -> queue_ok (my_qd_counter st) qd q;
  ok_factory : factory_ok (my_queue_factory st)
}.

(** From one state to a later one: the descriptor counter grows, an object
    keeps its descriptor and its token counter grows, objects disappear, and
    new objects have new descriptors. *)
Record api_frame st st' : Prop := {
  frame_counter : my_qd_counter st <= my_qd_counter st' <= 256;
  frame_factory : my_queue_factory st' = my_queue_factory st;
  frame_queues : forall qd q', my_queues st' !! qd = Some q' ->
    match my_queues st !! qd with
    | Some q => my_qd (q_base q') = my_qd (q_base q) /\ my_qt_counter (q_base q) <= my_qt_counter (q_base q') < UINT32_MAX
    | None => my_qd_counter st < qd /\ queue_ok (my_qd_counter st') qd q'
    end
}.

Lemma api_frame_refl st : api_ok st -> api_frame st st.
Proof.
  intros Hok. constructor; [destruct (ok_counter _ Hok); lia|done|].
  intros qd q' Hq. rewrite Hq. destruct (ok_queues _ Hok _ _ Hq) as (_ & _ & Hc). unfold counter_ok in Hc. split; [done|lia].
Qed.
Lemma api_frame_trans st st1 st2 : api_ok st -> api_frame st st1 -> api_frame st1 st2 -> api_frame st st2.
Proof.
  intros Hok H1 H2. pose proof (frame_counter _ _ H1). pose proof (frame_counter _ _ H2).
  constructor; [lia|by rewrite (frame_factory _ _ H2), (frame_factory _ _ H1)|].
  intros qd q2 Hq2. pose proof (frame_queues _ _ H2 _ _ Hq2) as F2.
  destruct (my_queues st1 !! qd) as [q1|] eqn:Hq1.
  - pose proof (frame_queues _ _ H1 _ _ Hq1) as F1. destruct F2 as [Hqd Hqt].
    destruct (my_queues st !! qd) as [q|].
    + destruct F1. split; [congruence|lia].
    + destruct F1 as [? (? & ? & ?)]. split; [done|]. unfold queue_ok, counter_ok in *. split; [congruence|lia].
  - destruct F2 as [Hlt Hok2]. destruct (my_queues st !! qd) as [q|] eqn:Hq; [|split; [lia|done]].
    destruct (ok_queues _ Hok _ _ Hq) as (_ & ? & _). lia.
Qed.
Lemma api_frame_ok st st' : api_ok st -> api_frame st st' -> api_ok st'.
Proof.
  intros Hok Hf. pose proof (ok_counter _ Hok). pose proof (frame_counter _ _ Hf).
  constructor; [lia| |rewrite (frame_factory _ _ Hf); apply Hok].
  intros qd q' Hq'. pose proof (frame_queues _ _ Hf _ _ Hq') as F.
  destruct (my_queues st !! qd) as [q|] eqn:Hq; [|apply F].
  destruct F. destruct (ok_queues _ Hok _ _ Hq) as (? & ? & ?). unfold queue_ok, counter_ok in *.
  split; [congruence|lia].
Qed.

(** The same descriptors are live. *)
Definition same_live st st' : Prop := forall qd, is_Some (my_queues st !! qd) <-> is_Some (my_queues st' !! qd).
Lemma same_live_refl st : same_live st st.
Proof. done. Qed.
Lemma same_live_trans st st1 st2 : same_live st st1 -> same_live st1 st2 -> same_live st st2.
Proof. intros H1 H2 qd. by rewrite (H1 qd), (H2 qd). Qed.

(** ** Reasoning about an operation from the state [st0] it starts in

    [spost st0 m Θ E st1]: run in [st1], the statement [m] keeps the frame from
    [st0], establishes [Θ] when it ends normally, and returns only errors, in
    states that satisfy [E]. *)
Definition spost {A} st0 (m : stmt api A) (Θ : A -> api -> Prop) (E : api -> Prop) st1 : Prop :=
  wlp m (fun r st' => api_frame st0 st' /\
    match r with inl a => Θ a st' | inr e => e <> 0 /\ E st' end) st1.
(** A step from any state, with the change it makes.  A step that may return an
    error then leaves the live descriptors alone ([step_ok]); the other steps
    return none ([step_total]). *)
Definition step_gen {A} (m : stmt api A) (Φ : api -> A -> api -> Prop) (Er : api -> api -> Prop) : Prop :=
  forall st, api_ok st -> spost st m (Φ st) (Er st) st.
Abbreviation step_ok m Φ := (step_gen m Φ same_live).
Abbreviation step_total m Φ := (step_gen m Φ (fun _ _ => False)).

Lemma spost_bind_gen {A B} st0 (m : stmt api A) (k : A -> stmt api B) Φ Er Θ (E : api -> Prop) st1 :
  step_gen m Φ Er -> api_ok st0 -> api_frame st0 st1 ->
  (forall st2, Er st1 st2 -> E st2) ->
  (forall a st2, api_frame st0 st2 -> api_frame st1 st2 -> Φ st1 a st2 -> spost st0 (k a) Θ E st2) ->
  spost st0 (sbind m k) Θ E st1.
Proof.
  intros Hm Hok Hf HE Hk. unfold spost. rewrite post_sbind.
  eapply post_mono; [apply Hm; by eapply api_frame_ok|]. cbn. intros [a|e] st2 [Hf2 HΦ].
  - apply Hk; [by eapply api_frame_trans|done|done].
  - split; [by eapply api_frame_trans|]. destruct HΦ. split; [done|by apply HE].
Qed.
Lemma spost_bind {A B} st0 (m : stmt api A) (k : A -> stmt api B) Φ Θ (E : api -> Prop) st1 :
  step_ok m Φ -> api_ok st0 -> api_frame st0 st1 -> (forall st2, same_live st1 st2 -> E st2) ->
  (forall a st2, api_frame st0 st2 -> api_frame st1 st2 -> Φ st1 a st2 -> spost st0 (k a) Θ E st2) ->
  spost st0 (sbind m k) Θ E st1.
Proof. apply spost_bind_gen. Qed.
Lemma spost_bind_total {A B} st0 (m : stmt api A) (k : A -> stmt api B) Φ Θ (E : api -> Prop) st1 :
  step_total m Φ -> api_ok st0 -> api_frame st0 st1 ->
  (forall a st2, api_frame st0 st2 -> api_frame st1 st2 -> Φ st1 a st2 -> spost st0 (k a) Θ E st2) ->
  spost st0 (sbind m k) Θ E st1.
Proof. intros Hm Hok Hf Hk. by eapply spost_bind_gen. Qed.
Lemma spost_assoc {A B C} st0 (m : stmt api A) (k : A -> stmt api B) (f : B -> stmt api C) Θ E st1 :
  spost st0 (sbind m (fun x => sbind (k x) f)) Θ E st1 -> spost st0 (sbind (sbind m k) f) Θ E st1.
Proof.
  unfold spost. rewrite !post_sbind. intros H. eapply post_mono; [exact H|]. cbn.
  intros [a|e] st2; [|done]. by rewrite post_sbind.
Qed.
Lemma spost_normal {A} st0 (a : A) (Θ : A -> api -> Prop) E st1 :
  api_frame st0 st1 -> Θ a st1 -> spost st0 (normal a) Θ E st1.
Proof. done. Qed.

Lemma step_TRUE e c : e <> 0 -> step_ok (DMTR_TRUE e c) (fun st _ st' => st' = st /\ c = true).
Proof.
  intros He st Hok. unfold spost. post_simp. destruct c; (split; [by apply api_frame_refl|done]).
Qed.
Lemma step_fret {A} (r : Z * A) : step_ok (DMTR_OK_out (fret r)) (fun st a st' => st' = st /\ r = (0, a)).
Proof.
  intros st Hok. unfold spost. post_simp. destruct r as [e a]. cbn.
  destruct (e =? 0) eqn:E; zbool; (split; [by apply api_frame_refl|]); [by subst|done].
Qed.
Lemma step_fret_code e : step_ok (DMTR_OK (fret e)) (fun st _ st' => st' = st /\ e = 0).
Proof.
  intros st Hok. unfold spost. post_simp.
  destruct (e =? 0) eqn:E; zbool; (split; [by apply api_frame_refl|done]).
Qed.
Lemma step_FAIL {A} e : step_ok (DMTR_FAIL (A:=A) e) (fun _ _ _ => False).
Proof.
  intros st Hok. unfold spost. post_simp. destruct (e =? 0) eqn:E; zbool; [done|].
  split; [by apply api_frame_refl|]. split; [done|apply same_live_refl].
Qed.
Lemma step_need {A} (o : option A) : step_total (need o) (fun st a st' => st' = st /\ o = Some a).
Proof. intros st Hok. unfold spost. post_simp. destruct o; [|done]. split; [by apply api_frame_refl|done]. Qed.

Lemma step_get_queue qd :
  step_total (DMTR_OK_out (get_queue qd)) (fun st ptr st' => st' = st /\ 0 <= qd < 256 /\
    ptr = match my_queues st !! qd with Some _ => Some qd | None => None end).
Proof.
  intros st Hok. unfold spost, get_queue. post_simp. unfold index_queues, my_queues_size, post.
  destruct (_ && _) eqn:E; [|done]. zbool. cbn. split; [by apply api_frame_refl|]. split; [done|]. split; [lia|done].
Qed.

Lemma step_new_qd :
  step_total (call new_qd) (fun st qd st' => qd = my_qd_counter st + 1 /\ my_qd_counter st' = qd /\
    my_env st' = my_env st /\ my_queue_factory st' = my_queue_factory st).
Proof.
  intros st Hok. unfold spost. post_simp. unfold new_qd, post.
  pose proof (ok_counter _ Hok).
  rewrite (wrap_small 32) by (change (2 ^ 32) with 4294967296; lia).
  rewrite swrap_small by (cbn; lia).
  destruct (my_qd_counter st + 1 >? 256) eqn:E; [done|].
  assert (my_qd_counter st + 1 <= 256) by (rewrite Z.gtb_ltb in E; zbool; lia).
  split; [|done]. constructor; cbn; [lia|done|].
  intros qd q Hq. change (my_queues st !! qd = Some q) in Hq. rewrite Hq.
  destruct (ok_queues _ Hok _ _ Hq) as (_ & _ & Hc). unfold counter_ok in Hc. split; [done|lia].
Qed.

(** Inserting an object made with a fresh descriptor. *)
Definition fresh_object (qd : Z) (nq : option Q) : Prop :=
  forall q, nq = Some q -> my_qd (q_base q) = qd /\ my_qt_counter (q_base q) = 0.
Lemma spost_insert {B} st0 st1 qd nq (k : stmt api B) Θ (E : api -> Prop) :
  api_ok st0 -> api_frame st0 st1 -> my_queues st1 !! qd = None ->
  my_qd_counter st0 < qd <= my_qd_counter st1 -> fresh_object qd nq ->
  E st1 ->
  (forall q st2, nq = Some q -> api_frame st0 st2 -> my_qd_counter st2 = my_qd_counter st1 ->
     my_queues st2 = <[qd := q]> (my_queues st1) -> 0 <= qd < 256 -> spost st0 k Θ E st2) ->
  spost st0 (DMTR_OK (insert_queue nq) ;; k) Θ E st1.
Proof.
  intros Hok Hf Hnone Hqd Hnq HE Hk. unfold spost, insert_queue, DMTR_NOTNULL. post_simp.
  destruct nq as [q|]; cbn; [|done].
  destruct (Hnq q eq_refl) as [Eqd Eqt]. post_simp. rewrite Eqd. unfold post at 1, index_queues, my_queues_size.
  destruct (_ && _) eqn:Ei; [|done]. zbool. cbn. pose proof (ok_counter _ Hok). pose proof (frame_counter _ _ Hf).
  eapply (Hk q); [done| |done|done|lia]. constructor; [cbn; lia|apply Hf|].
  intros qd' q'. cbn. destruct (decide (qd = qd')) as [<-|Hne].
  - rewrite lookup_insert_eq. intros [= <-]. destruct (my_queues st0 !! qd) as [q0|] eqn:Eq0.
    + destruct (ok_queues _ Hok _ _ Eq0) as (_ & ? & _). lia.
    + split; [lia|]. unfold queue_ok, counter_ok. rewrite Eqt. split; [done|]. lia.
  - rewrite lookup_insert_ne by done. intros Hq'. exact (frame_queues _ _ Hf _ _ Hq').
Qed.

(** An operation that changes neither table nor counter. *)
Lemma frame_same_queues st0 st st' :
  api_frame st0 st -> my_qd_counter st' = my_qd_counter st -> my_queues st' = my_queues st ->
  my_queue_factory st' = my_queue_factory st -> api_frame st0 st'.
Proof.
  intros Hf Hc Hq Hfac. constructor; [rewrite Hc; apply Hf|rewrite Hfac; apply Hf|].
  intros qd q'. rewrite Hq, Hc. apply Hf.
Qed.
Lemma same_live_queues st st' : my_queues st' = my_queues st -> same_live st st'.
Proof. intros H qd. by rewrite H. Qed.

Lemma step_construct f cid qd :
  factory_ok f ->
  step_ok (DMTR_OK_out (on_world (construct f cid qd))) (fun st nq st' =>
    fresh_object qd nq /\ my_queues st' = my_queues st /\ my_qd_counter st' = my_qd_counter st).
Proof.
  intros Hf st Hok. unfold spost, on_world, construct, DMTR_NOTNULL. post_simp.
  set (upd := fun w => set_my_env (set_e_world w (my_env st)) st).
  assert (Hupd : forall w, api_frame st (upd w) /\ same_live st (upd w)).
  { intros w. split; [|by apply same_live_queues]. by apply (frame_same_queues st st); [apply api_frame_refl|..]. }
  destruct (f !! cid) as [[c|]|] eqn:Ef; cbn; repeat (post_simp; cbn).
  - pose proof (Hf cid c Ef qd (e_world (my_env st))) as Hc. eapply post_mono; [exact Hc|]. cbn.
    intros [e nq] w Hr. cbn in *. destruct (e =? 0) eqn:E; cbn.
    + split; [apply Hupd|]. split; [|done]. intros q Hq. zbool. by apply Hr.
    + split; [apply Hupd|]. zbool. split; [done|apply Hupd].
  - split; [apply Hupd|]. split; [done|apply Hupd].
  - split; [apply Hupd|]. split; [done|apply Hupd].
Qed.

Lemma step_get_state {A} (g : api -> A) : step_total (gets g) (fun st a st' => st' = st /\ a = g st).
Proof. intros st Hok. unfold spost. post_simp. split; [by apply api_frame_refl|done]. Qed.
Lemma step_get : step_total get (fun st a st' => st' = st /\ a = st).
Proof. intros st Hok. unfold spost. post_simp. split; [by apply api_frame_refl|done]. Qed.

(** Calling an operation written as a body with one output. *)
Lemma spost_call_out {O} st0 (dflt : O) (m : stmt api O) Φ st1 :
  spost st0 m (fun o st' => Φ st1 o st') (same_live st1) st1 ->
  spost st0 (DMTR_OK_out (body_out dflt m)) (Φ st1) (same_live st1) st1.
Proof.
  intros Hm. unfold spost in *. post_simp. eapply post_mono; [exact Hm|]. cbn.
  intros [o|e] st' [Hf H]; cbn; [done|]. destruct H. rewrite (proj2 (Z.eqb_neq _ _)) by done. done.
Qed.

Lemma new_qd_fresh st : api_ok st -> my_queues st !! (my_qd_counter st + 1) = None.
Proof.
  intros Hok. destruct (my_queues st !! _) as [q|] eqn:E; [|done].
  destruct (ok_queues _ Hok _ _ E) as (_ & ? & _). lia.
Qed.

Lemma step_new_queue cid :
  step_ok (DMTR_OK_out (new_queue cid)) (fun st ptr st' => exists q,
    let qd := my_qd_counter st + 1 in
    ptr = Some qd /\ my_qd_counter st' = qd /\ my_queues st' = <[qd := q]> (my_queues st) /\ 0 < qd < 256).
Proof.
  intros st Hok. apply (spost_call_out st None _ (fun st ptr st' => exists q, _)).
  pose proof (new_qd_fresh st Hok) as Hnone.
  eapply spost_bind_total; [apply step_new_qd|done|by apply api_frame_refl|].
  intros qd st1 Hf1 _ (-> & Hc1 & He1 & Hfac1).
  assert (Hq1 : my_queues st1 = my_queues st) by (unfold my_queues; by rewrite He1).
  eapply spost_bind_total; [apply step_get|done|done|].
  intros ? ? _ _ [-> ->].
  eapply spost_bind; [apply step_construct|done|done| |].
  { rewrite Hfac1. apply Hok. }
  { intros st2 H. eapply same_live_trans; [by apply same_live_queues|exact H]. }
  intros nq st2 Hf2 _ (Hnq & Hq2 & Hc2). cbn zeta.
  apply (spost_insert st st2 (my_qd_counter st + 1)); [done|done|by rewrite Hq2, Hq1|lia|exact Hnq| |].
  { apply same_live_queues. by rewrite Hq2. }
  intros q st3 -> Hf3 Hc3 Hq3 Hr. apply spost_normal; [done|]. exists q. cbn zeta.
  destruct (Hnq q eq_refl) as [-> _]. rewrite Hc3, Hc2, Hc1, Hq3, Hq2, Hq1.
  pose proof (ok_counter _ Hok). split; [done|]. split; [done|]. split; [done|lia].
Qed.

(** The state without the queue, whose destructor left the world [w]. *)
Definition removed (qd : Z) (w : W) st : api := set_my_env (mk_qenv (delete qd (my_queues st)) w) st.
Lemma remove_queue_eq qd st :
  remove_queue qd st =
    if qd =? 0 then Ok EINVAL st
    else if (0 <=? qd) && (qd <? 256) then
      match my_queues st !! qd with
      | None => Ok ENOENT st
      | Some q => match q_destroy q (e_world (my_env st)) with
                  | Ok _ w => Ok 0 (removed qd w st)
                  | Panic => Panic
                  | Undef => Undef
                  | NoFuel => NoFuel
                  end
      end
    else Undef.
Proof.
  unfold remove_queue, body, sbind, fbind, DMTR_TRUE, call, index_queues, my_queues_size.
  destruct (qd =? 0); [done|]. cbn [negb]. unfold normal at 1, fret at 1. cbn iota beta. unfold fbind.
  destruct (_ && _); [|done]. unfold DMTR_NOTNULL, DMTR_TRUE, get. cbn.
  destruct (my_queues st !! qd) as [q|]; [|done]. cbn. unfold on_world, zoom. cbn.
  by destruct (q_destroy q (e_world (my_env st))).
Qed.

(** Removing an object keeps the frame. *)
Lemma frame_remove st0 st qd w : api_frame st0 st -> api_frame st0 (removed qd w st).
Proof.
  intros Hf. constructor; [apply Hf|apply Hf|]. intros qd' q'. cbn. intros Hq'.
  apply lookup_delete_Some in Hq' as [_ Hq']. exact (frame_queues _ _ Hf _ _ Hq').
Qed.
Lemma step_remove qd :
  step_ok (DMTR_OK (remove_queue qd)) (fun st _ st' =>
    my_queues st' = delete qd (my_queues st) /\ is_Some (my_queues st !! qd) /\ my_qd_counter st' = my_qd_counter st).
Proof.
  intros st Hok. unfold spost. post_simp. unfold post. rewrite remove_queue_eq.
  pose proof (api_frame_refl st Hok) as Hf. destruct (qd =? 0); cbn; [done|].
  destruct (_ && _); [|done]. destruct (my_queues st !! qd) as [q|] eqn:Eq; cbn; [|done].
  destruct (q_destroy q _) as [? w| | |]; cbn; [|done..]. split; [by apply frame_remove|done].
Qed.

(** ** Calls of the queues' methods *)
Context `{HL : !QueueLaws Q W}.

Lemma shape_frame st0 st e :
  api_frame st0 st -> same_shape (my_env st) e -> api_frame st0 (set_my_env e st).
Proof.
  intros Hf Hs. constructor; [apply Hf|apply Hf|]. intros qd q' Hq'.
  destruct (same_shape_lookup _ _ _ _ Hs Hq') as (q & Hq & Hqd & Hqt).
  pose proof (frame_queues _ _ Hf _ _ Hq) as F. unfold queue_ok, counter_ok in *. cbn.
  destruct (my_queues st0 !! qd); rewrite Hqd, Hqt; done.
Qed.
Lemma shape_live st e : same_shape (my_env st) e -> same_live st (set_my_env e st).
Proof.
  intros Hs qd. specialize (Hs qd). unfold my_queues. cbn.
  destruct (e_queues (my_env st) !! qd), (e_queues e !! qd); unfold is_Some; naive_solver.
Qed.

Lemma q_call_eq {A} (m : Z -> fn (qenv Q W) A) ptr st :
  q_call m ptr st =
    match ptr with
    | None => Undef
    | Some p => match my_queues st !! p with
                | None => Undef
                | Some _ => call (on_env (m p)) st
                end
    end.
Proof. destruct ptr as [p|]; [|done]. cbn. unfold sbind, fbind, get. by destruct (my_queues st !! p). Qed.

Lemma spost_q_call {A} st0 (m : Z -> fn (qenv Q W) A) ptr (Θ : A -> api -> Prop) E st :
  (forall p q, ptr = Some p -> my_queues st !! p = Some q ->
     wlp (m p) (fun a e' => api_frame st0 (set_my_env e' st) /\ Θ a (set_my_env e' st)) (my_env st)) ->
  spost st0 (q_call m ptr) Θ E st.
Proof.
  intros Hm. unfold spost, post in *. rewrite q_call_eq. destruct ptr as [p|]; [|done].
  destruct (my_queues st !! p) as [q|] eqn:Eq; [|done]. specialize (Hm p q eq_refl Eq).
  unfold call, on_env, fbind, zoom. by destruct (m p (my_env st)).
Qed.

Lemma step_q_call {A} (m : Z -> fn (qenv Q W) A) ptr (R : Z -> qenv Q W -> A -> qenv Q W -> Prop) :
  (forall p e, wlp (m p) (fun a e' => same_shape e e' /\ R p e a e') e) ->
  step_total (q_call m ptr) (fun st a st' => exists p, ptr = Some p /\ is_Some (my_queues st !! p) /\
    same_live st st' /\ my_qd_counter st' = my_qd_counter st /\ R p (my_env st) a (my_env st')).
Proof.
  intros Hm st Hok. apply spost_q_call. intros p q -> Eq.
  eapply post_mono; [apply Hm|]. cbn. intros a e' [Hs HR].
  split; [by apply (shape_frame st st); [apply api_frame_refl|]|]. exists p. split; [done|]. split; [by eexists|].
  split; [by apply shape_live|done].
Qed.
Lemma step_vcall c ptr :
  step_total (q_call (fun p => q_vcall p c) ptr) (fun st _ st' => exists p, ptr = Some p /\
    is_Some (my_queues st !! p) /\ same_live st st' /\ my_qd_counter st' = my_qd_counter st /\ True).
Proof. apply (step_q_call _ _ (fun _ _ _ _ => True)). intros p e. eapply post_mono; [apply q_vcall_shape|done]. Qed.

(** ** Tokens *)

(** A token some queue issued by [st]; a token beyond its queue's counter. *)
Definition token_known st (t : Z) : Prop :=
  exists qd u, t = mk_qtoken qd u /\ 0 < qd <= my_qd_counter st /\ 0 <= u < UINT32_MAX /\
    forall q, my_queues st !! qd = Some q -> u <= my_qt_counter (q_base q).
Definition token_fresh st (qd t : Z) : Prop :=
  exists u q, t = mk_qtoken qd u /\ my_queues st !! qd = Some q /\ my_qt_counter (q_base q) < u < UINT32_MAX.

Lemma token_known_frame st st' t : api_ok st -> api_frame st st' -> token_known st t -> token_known st' t.
Proof.
  intros Hok Hf (qd & u & -> & Hqd & Hu & Hq). pose proof (frame_counter _ _ Hf). exists qd, u.
  split; [done|]. split; [lia|]. split; [done|]. intros q' Hq'.
  pose proof (frame_queues _ _ Hf _ _ Hq') as F. destruct (my_queues st !! qd) as [q|] eqn:E; [|lia].
  specialize (Hq q eq_refl). lia.
Qed.
Lemma token_fresh_frame st st' qd t :
  api_frame st st' -> is_Some (my_queues st !! qd) -> token_fresh st' qd t -> token_fresh st qd t.
Proof.
  intros Hf [q Hq] (u & q' & -> & Hq' & Hu). exists u, q. split; [done|]. split; [done|].
  pose proof (frame_queues _ _ Hf _ _ Hq') as F. rewrite Hq in F. lia.
Qed.

Lemma mk_qtoken_inj qd u qd' u' :
  0 < qd <= 256 -> 0 < qd' <= 256 -> 0 <= u < UINT32_MAX -> 0 <= u' < UINT32_MAX ->
  mk_qtoken qd u = mk_qtoken qd' u' -> qd = qd' /\ u = u'.
Proof.
  intros ? ? ? ?. rewrite !mk_qtoken_val by
    (change (2 ^ 31) with 2147483648; change (2 ^ 32) with 4294967296; lia).
  change (2 ^ 32) with 4294967296. lia.
Qed.
Lemma token_fresh_not_known st qd t : api_ok st -> token_fresh st qd t -> ~ token_known st t.
Proof.
  intros Hok (u & q & -> & Hq & Hu) (qd' & u' & E & Hqd' & Hu' & Hq').
  pose proof (ok_counter _ Hok). destruct (ok_queues _ Hok _ _ Hq) as (_ & ? & Hc). unfold counter_ok in Hc.
  apply mk_qtoken_inj in E as [<- <-]; [|lia..]. specialize (Hq' q Hq). lia.
Qed.
Lemma qttoqd_mk_qtoken qd u : 0 < qd <= 256 -> 0 <= u < UINT32_MAX -> qttoqd (mk_qtoken qd u) = qd.
Proof.
  intros. unfold qttoqd. rewrite QT2QD_mk_qtoken by
    (change (2 ^ 31) with 2147483648; change (2 ^ 32) with 4294967296; lia).
  rewrite swrap_small by (cbn; lia). done.
Qed.

Lemma on_queue_new_qtoken st p q :
  api_ok st -> my_queues st !! p = Some q ->
  wlp (on_queue p new_qtoken) (fun r e' => exists u, fst r = 0 /\ snd r = mk_qtoken p u /\
    my_qt_counter (q_base q) < u < UINT32_MAX /\
    e' = set_e_queues (<[p := set_q_base (set_my_qt_counter u (q_base q)) q]> (my_queues st)) (my_env st)) (my_env st).
Proof.
  intros Hok Hq. unfold post, on_queue. change (e_queues (my_env st)) with (my_queues st). rewrite Hq.
  destruct (ok_queues _ Hok _ _ Hq) as (Hqd & Hr & Hc). pose proof (ok_counter _ Hok).
  destruct (new_qtoken_cases (q_base q)) as [[-> _]|(u & (Hu & _) & ->)]; [|done|done|].
  - unfold qd_ok. rewrite Hqd. change (2 ^ 31) with 2147483648. lia.
  - exists u. by rewrite Hqd.
Qed.

Lemma step_new_qtoken ptr :
  step_total (q_call (fun p => on_queue p new_qtoken) ptr) (fun st r st' => exists p, ptr = Some p /\
    fst r = 0 /\ token_fresh st p (snd r) /\ token_known st' (snd r) /\ qttoqd (snd r) = p /\ same_live st st' /\
    my_qd_counter st' = my_qd_counter st).
Proof.
  intros st Hok. apply spost_q_call. intros p q -> Eq.
  eapply post_mono; [by apply on_queue_new_qtoken|]. cbn. intros [r t] e' (u & Er & Et & Hu & ->). cbn in *. subst.
  destruct (ok_queues _ Hok _ _ Eq) as (Hqd & Hr & Hc). unfold counter_ok in Hc. pose proof (ok_counter _ Hok).
  split.
  - constructor; [cbn; lia|done|]. intros qd q'. cbn. destruct (decide (p = qd)) as [<-|Hne].
    + rewrite lookup_insert_eq. intros [= <-]. rewrite Eq, q_base_set. cbn. split; [done|lia].
    + rewrite lookup_insert_ne by done. intros Hq'. rewrite Hq'.
      destruct (ok_queues _ Hok _ _ Hq') as (_ & _ & Hc'). unfold counter_ok in Hc'. split; [done|lia].
  - exists p. split; [done|]. split; [done|]. split; [by exists u, q|]. split; [|split; [|split; [|done]]].
    + exists p, u. split; [done|]. split; [cbn; lia|]. split; [lia|]. cbn. intros q'. rewrite lookup_insert_eq.
      intros [= <-]. rewrite q_base_set. cbn. lia.
    + apply qttoqd_mk_qtoken; lia.
    + intros qd. cbn. destruct (decide (p = qd)) as [<-|Hne].
      * rewrite lookup_insert_eq, Eq. split; eauto.
      * by rewrite lookup_insert_ne.
Qed.

(** ** The operations *)

Lemma spost_remove_live {B} st0 st1 qd (k : stmt api B) Θ E :
  api_ok st0 -> api_frame st0 st1 -> is_Some (my_queues st1 !! qd) ->
  (forall st2, api_frame st0 st2 -> my_queues st2 = delete qd (my_queues st1) ->
     my_qd_counter st2 = my_qd_counter st1 -> spost st0 k Θ E st2) ->
  spost st0 (DMTR_OK (remove_queue qd) ;; k) Θ E st1.
Proof.
  intros Hok Hf [q Hq] Hk. unfold spost. post_simp. unfold post at 1. rewrite remove_queue_eq.
  destruct (ok_queues _ (api_frame_ok _ _ Hok Hf) _ _ Hq) as (_ & Hr & _).
  rewrite (proj2 (Z.eqb_neq qd 0)) by lia. destruct (_ && _); [|done]. rewrite Hq. destruct (q_destroy q _) as [? w| | |]; cbn; [|done..].
  apply Hk; [by apply frame_remove|done|done].
Qed.

(** What holds after an operation with an output: [Φ] on success, and on an
    error the output is the default and [E] holds. *)
Definition op_ok {O} (dflt : O) (m : fn api (Z * O)) (Φ : api -> O -> api -> Prop) (E : api -> api -> Prop) : Prop :=
  forall st, api_ok st -> wlp m (fun r st' => api_frame st st' /\
    (fst r = 0 -> Φ st (snd r) st') /\ (fst r <> 0 -> snd r = dflt /\ E st st')) st.

Lemma op_body_out {O} (dflt : O) (m : stmt api O) Φ E :
  (forall st, api_ok st -> spost st m (Φ st) (E st) st) -> op_ok dflt (body_out dflt m) Φ E.
Proof.
  intros Hm st Hok. rewrite post_body_out. eapply post_mono; [by apply Hm|]. cbn.
  intros [o|e] st' [Hf H]; (split; [done|]); split; try done; by destruct H.
Qed.
Lemma op_body (m : stmt api Z) (Φ E : api -> api -> Prop) :
  (forall st, api_ok st -> spost st m (fun e st' => e = 0 /\ Φ st st') (E st) st) ->
  forall st, api_ok st -> wlp (body m) (fun e st' => api_frame st st' /\
    (e = 0 -> Φ st st') /\ (e <> 0 -> E st st')) st.
Proof.
  intros Hm st Hok. rewrite post_body. eapply post_mono; [by apply Hm|]. cbn.
  intros [o|e] st' [Hf H]; (split; [done|]); naive_solver.
Qed.

(** The calls that make a queue: on success its descriptor is new and nothing
    else changes; on an error the queue made meanwhile is gone again. *)
Definition create (cid : category_id) (c : vcall) : fn api (Z * Z) := body_out 0 (
  q <- DMTR_OK_out (new_queue cid) ;
  ret <- q_call (fun p => q_vcall p c) q ;
  qd <- need q ;
  (if negb (ret =? 0) then
     DMTR_OK (remove_queue qd) ;;
     DMTR_FAIL ret
   else normal tt) ;;
  normal qd).
Definition created st (qd : Z) st' : Prop :=
  my_qd_counter st < qd <= my_qd_counter st' /\ 0 < qd < 256 /\
  forall i, is_Some (my_queues st' !! i) <-> i = qd \/ is_Some (my_queues st !! i).

Lemma created_insert st st1 st2 q :
  api_ok st -> my_qd_counter st2 = my_qd_counter st + 1 -> 0 < my_qd_counter st + 1 < 256 ->
  my_queues st1 = <[my_qd_counter st + 1 := q]> (my_queues st) -> same_live st1 st2 ->
  created st (my_qd_counter st + 1) st2.
Proof.
  intros Hok Hc Hr Hq1 Hl. split; [lia|]. split; [done|]. intros i. rewrite <- (Hl i), Hq1.
  destruct (decide (i = my_qd_counter st + 1)) as [->|Hne].
  - rewrite lookup_insert_eq. split; [by left|done].
  - rewrite lookup_insert_ne by done. split; [by right|by intros [?|?]].
Qed.
Lemma removed_same_live st st1 st2 q qd :
  my_queues st !! qd = None -> my_queues st1 = <[qd := q]> (my_queues st) -> same_live st1 st2 ->
  forall st3, my_queues st3 = delete qd (my_queues st2) -> same_live st st3.
Proof.
  intros Hnone Hq1 Hl st3 Hq3 i. rewrite Hq3. destruct (decide (i = qd)) as [->|Hne].
  - rewrite lookup_delete_eq, Hnone. done.
  - rewrite lookup_delete_ne by done. rewrite <- (Hl i), Hq1. by rewrite lookup_insert_ne.
Qed.

Lemma create_ok cid c : op_ok 0 (create cid c) created same_live.
Proof.
  apply op_body_out. intros st Hok. pose proof (api_frame_refl st Hok) as Hf. pose proof (new_qd_fresh st Hok) as Hnone.
  eapply spost_bind; [apply step_new_queue|done|done|done|].
  intros ptr st1 Hf1 _ (q & -> & Hc1 & Hq1 & Hr). set (qd := my_qd_counter st + 1) in *.
  eapply spost_bind_total; [apply step_vcall|done|done|]. intros ret st2 Hf2 _ (? & [= <-] & _ & Hl & Hc2 & _).
  eapply spost_bind_total; [apply step_need|done|done|]. intros ? ? _ _ [-> [= <-]].
  destruct (ret =? 0) eqn:Er; cbn [negb].
  - unfold spost. post_simp. split; [done|]. eapply created_insert; [done|lia|done|exact Hq1|done].
  - assert (Hlive : is_Some (my_queues st2 !! qd)) by (apply Hl; rewrite Hq1, lookup_insert_eq; by eexists).
    apply spost_assoc, spost_remove_live; [done|done|done|].
    intros st3 Hf3 Hq3 _. eapply spost_bind_gen; [apply step_FAIL|done|done| |done].
    intros st4 Hl4. eapply same_live_trans; [|exact Hl4]. by eapply removed_same_live.
Qed.

Lemma queue_ok_op : op_ok 0 queue created same_live.
Proof.
  apply op_body_out. intros st Hok. pose proof (api_frame_refl st Hok) as Hf.
  eapply spost_bind; [apply step_new_queue|done|done|done|].
  intros ptr st1 Hf1 _ (q & -> & Hc1 & Hq1 & Hr).
  unfold spost. post_simp. split; [done|]. by eapply created_insert.
Qed.

(** The calls that issue a token. *)
Definition issued (p : Z) st (t : Z) st' : Prop :=
  token_fresh st p t /\ token_known st' t /\ qttoqd t = p /\ is_Some (my_queues st' !! p).

Lemma issued_later p st st1 st2 st3 t :
  api_ok st -> api_frame st st1 -> same_live st st1 -> is_Some (my_queues st !! p) ->
  token_fresh st1 p t -> token_known st2 t -> qttoqd t = p ->
  api_ok st2 -> api_frame st2 st3 -> is_Some (my_queues st3 !! p) -> issued p st t st3.
Proof.
  intros. split; [by eapply token_fresh_frame|]. split; [by eapply token_known_frame|done].
Qed.

(** [push] and [pop]. *)
Definition data_call (qd : Z) (c : Z -> vcall) : fn api (Z * Z) := body_out 0 (
  DMTR_TRUE EINVAL (negb (qd =? 0)) ;;
  q <- DMTR_OK_out (get_queue qd) ;
  r <- q_call (fun p => on_queue p new_qtoken) q ;
  qt <- DMTR_OK_out (fret r) ;
  ret <- q_call (fun p => q_vcall p (c qt)) q ;
  DMTR_OK (fret ret) ;;
  normal qt).
Lemma data_call_ok qd c :
  op_ok 0 (data_call qd c) (fun st t st' => issued qd st t st' /\ same_live st st') same_live.
Proof.
  apply op_body_out. intros st Hok. pose proof (api_frame_refl st Hok) as Hf.
  eapply spost_bind; [by apply step_TRUE|done|done|done|]. intros _ ? _ _ [-> _].
  eapply spost_bind_total; [apply step_get_queue|done|done|]. intros ptr ? _ _ (-> & _ & Hptr).
  eapply spost_bind_total; [apply step_new_qtoken|done|done|].
  intros [r t] st1 Hf1 _ (p & Ep & Er & Hfr & Hkn & Hqt & Hl1 & _). cbn in *. rewrite Ep in Hptr.
  destruct (my_queues st !! qd) as [q|] eqn:Eq; [|done]. injection Hptr as ->.
  eapply spost_bind; [apply step_fret|done|done|by intros; eapply same_live_trans|]. intros t' ? _ _ [-> [= -> <-]].
  eapply spost_bind_total; [apply step_vcall|done|done|]. intros ret st2 Hf2 Hf12 (? & _ & _ & Hl2 & _).
  eapply spost_bind; [apply step_fret_code|done|done| |].
  { intros. eapply same_live_trans; [|done]. by eapply same_live_trans. }
  intros _ ? _ _ [-> _]. apply spost_normal; [done|].
  assert (Hl : same_live st st2) by by eapply same_live_trans. split; [|done].
  eapply (issued_later qd st st st1 st2); try done; [by eapply api_frame_ok|apply Hl; by eexists].
Qed.

Lemma token_known_insert st st' qd q p t :
  api_ok st -> token_known st t -> qttoqd t = p -> p <> qd ->
  my_qd_counter st' = my_qd_counter st -> my_queues st' = <[qd := q]> (my_queues st) -> token_known st' t.
Proof.
  intros Hok (qd' & u & -> & Hqd & Hu & Hq) Hp Hne Hc Hqs. pose proof (ok_counter _ Hok).
  rewrite qttoqd_mk_qtoken in Hp by lia. subst p. exists qd', u. rewrite Hc, Hqs.
  split; [done|]. split; [done|]. split; [done|]. intros q'. rewrite lookup_insert_ne by done. apply Hq.
Qed.

(** [accept]: the connection's queue exists from the call on. *)
Definition accepted (sockqd : Z) st (t : Z) st' : Prop :=
  issued sockqd st t st' /\ exists qd, created st qd st'.
Lemma accept_ok sockqd : op_ok 0 (accept sockqd) (accepted sockqd) same_live.
Proof.
  apply op_body_out. intros st Hok. pose proof (api_frame_refl st Hok) as Hf. pose proof (new_qd_fresh st Hok) as Hnone.
  eapply spost_bind; [by apply step_TRUE|done|done|done|]. intros _ ? _ _ [-> _].
  eapply spost_bind_total; [apply step_get_queue|done|done|]. intros ptr ? _ _ (-> & _ & Hptr).
  eapply spost_bind_total; [apply step_new_qd|done|done|]. intros ? st1 Hf1 _ (-> & Hc1 & He1 & _).
  set (qd := my_qd_counter st + 1) in *.
  assert (Hl1 : same_live st st1) by (apply same_live_queues; unfold my_queues; by rewrite He1).
  eapply spost_bind_total; [apply step_new_qtoken|done|done|].
  intros [r t] st2 Hf2 _ (p & Ep & Er & Hfr & Hkn & Hqt & Hl2 & Hc2). cbn in *. rewrite Ep in Hptr.
  destruct (my_queues st !! sockqd) as [q|] eqn:Eq; [|done]. injection Hptr as ->.
  assert (Hl02 : same_live st st2) by by eapply same_live_trans.
  eapply spost_bind; [apply step_fret|done|done|intros ? H; exact (same_live_trans _ _ _ Hl02 H)|]. intros t' ? _ _ [-> [= -> <-]].
  eapply spost_bind_total; [apply (step_q_call _ _ (fun p e r e' => fst r = 0 ->
      exists q, snd r = Some q /\ my_qd (q_base q) = qd /\ my_qt_counter (q_base q) = 0))|done|done|].
  { intros p e. apply q_accept_shape. }
  intros [r nq] st3 Hf3 Hf23 (? & _ & _ & Hl3 & Hc3 & Hnq). cbn in Hnq.
  assert (Hl03 : same_live st st3) by (exact (same_live_trans _ _ _ Hl02 Hl3)).
  eapply spost_bind; [apply step_fret|done|done|intros ? H'; exact (same_live_trans _ _ _ Hl03 H')|]. intros nq' ? _ _ [-> [= -> <-]].
  destruct (Hnq eq_refl) as (nq1 & -> & Hnqd & Hnqt).
  assert (Hnone3 : my_queues st3 !! qd = None).
  { destruct (my_queues st3 !! qd) eqn:E; [|done]. assert (Hs : is_Some (my_queues st !! qd)) by (apply Hl03; by eexists).
    rewrite Hnone in Hs. by destruct Hs. }
  apply (spost_insert st st3 qd); [done|done|done|lia| |done|].
  { by intros ? [= <-]. }
  intros q4 st4 [= <-] Hf4 Hc4 Hq4 Hr. apply spost_normal; [done|].
  assert (Hlive4 : forall i, is_Some (my_queues st4 !! i) <-> i = qd \/ is_Some (my_queues st !! i)).
  { intros i. rewrite Hq4. destruct (decide (i = qd)) as [->|Hne].
    - rewrite lookup_insert_eq. split; [by left|by eexists].
    - rewrite lookup_insert_ne by done. rewrite <- (Hl03 i). split; [by right|by intros [?|?]]. }
  assert (Hne : sockqd <> qd) by (intros ->; congruence).
  split.
  - split; [|split; [|split; [done|apply Hlive4; right; by eexists]]].
    + apply (token_fresh_frame st st1); [done|by eexists|done].
    + apply (token_known_insert st3 st4 qd nq1 sockqd); try done; [by eapply api_frame_ok|].
      apply (token_known_frame st2); [by eapply api_frame_ok|done|done].
  - pose proof (ok_counter _ Hok). exists qd. split; [lia|]. split; [lia|exact Hlive4].
Qed.

(** The calls that only reach a queue's method. *)
Definition plain_call (qd : Z) (c : vcall) : fn api Z := body (
  DMTR_TRUE EINVAL (negb (qd =? 0)) ;;
  q <- DMTR_OK_out (get_queue qd) ;
  ret <- q_call (fun p => q_vcall p c) q ;
  DMTR_OK (fret ret) ;;
  normal 0).
Lemma plain_call_ok qd c st :
  api_ok st -> wlp (plain_call qd c) (fun _ st' => api_frame st st' /\ same_live st st') st.
Proof.
  intros Hok. eapply post_mono; [apply (op_body _ same_live same_live); [|done]|].
  2:{ cbn. intros e st' (? & H1 & H2). split; [done|]. destruct (decide (e = 0)); auto. }
  clear st Hok. intros st Hok. pose proof (api_frame_refl st Hok) as Hf.
  eapply spost_bind; [by apply step_TRUE|done|done|done|]. intros _ ? _ _ [-> _].
  eapply spost_bind_total; [apply step_get_queue|done|done|]. intros ptr ? _ _ (-> & _ & _).
  eapply spost_bind_total; [apply step_vcall|done|done|]. intros ret st2 Hf2 _ (? & _ & _ & Hl2 & _).
  eapply spost_bind; [apply step_fret_code|done|done|intros ? H; exact (same_live_trans _ _ _ Hl2 H)|].
  intros _ ? _ _ [-> _]. by apply spost_normal.
Qed.

Lemma getsockname_ok qd saddr size st :
  api_ok st -> wlp (getsockname qd saddr size) (fun _ st' => api_frame st st' /\ same_live st st') st.
Proof.
  intros Hok. eapply post_mono; [apply (op_body_out None _ (fun st _ st' => same_live st st') same_live); [|done]|].
  2:{ cbn. intros e st' (? & H1 & H2). split; [done|]. destruct (decide (fst e = 0)); [auto|]. by apply H2. }
  clear st Hok. intros st Hok. pose proof (api_frame_refl st Hok) as Hf.
  eapply spost_bind; [by apply step_TRUE|done|done|done|]. intros _ ? _ _ [-> _].
  eapply spost_bind_total; [apply step_get_queue|done|done|]. intros ptr ? _ _ (-> & _ & _).
  eapply spost_bind_total; [apply (step_q_call _ _ (fun _ _ _ _ => True))|done|done|].
  { intros p e. eapply post_mono; [apply q_getsockname_shape|done]. }
  intros r st2 Hf2 _ (? & _ & _ & Hl2 & _).
  eapply spost_bind; [apply step_fret_code|done|done|intros ? H; exact (same_live_trans _ _ _ Hl2 H)|].
  intros _ ? _ _ [-> _]. by apply spost_normal.
Qed.

Lemma drop_ok qt st :
  api_ok st -> wlp (drop qt) (fun _ st' => api_frame st st' /\ same_live st st') st.
Proof.
  intros Hok. pose proof (api_frame_refl st Hok) as Hf.
  assert (H : spost st (DMTR_TRUE EINVAL (negb (qt =? 0)) ;;
    q <- DMTR_OK_out (get_queue (qttoqd qt)) ; r <- q_call (fun p => q_vcall p (VDrop qt)) q ; normal r)
    (fun _ st' => same_live st st') (same_live st) st).
  { eapply spost_bind; [by apply step_TRUE|done|done|done|]. intros _ ? _ _ [-> _].
    eapply spost_bind_total; [apply step_get_queue|done|done|]. intros ptr ? _ _ (-> & _ & _).
    eapply spost_bind_total; [apply step_vcall|done|done|]. intros ret st2 Hf2 _ (? & _ & _ & Hl2 & _).
    by apply spost_normal. }
  unfold drop. rewrite post_body. eapply post_mono; [exact H|]. cbn. by intros [e|e] st' [? ?]; [|destruct H1].
Qed.

(** [close] removes the queue whatever its own [close] answers. *)
Lemma close_ok qd st :
  api_ok st -> wlp (close qd) (fun e st' => api_frame st st' /\ (e = 0 -> my_queues st' !! qd = None) /\
    forall i, i <> qd -> is_Some (my_queues st !! i) <-> is_Some (my_queues st' !! i)) st.
Proof.
  intros Hok. set (G := fun st st' => forall i, i <> qd -> is_Some (my_queues st !! i) <-> is_Some (my_queues st' !! i)).
  eapply post_mono; [apply (op_body _ (fun st st' => my_queues st' !! qd = None /\ G st st') G); [|done]|].
  2:{ cbn. intros e st' (? & H1 & H2). split; [done|]. destruct (decide (e = 0)) as [->|]; [|by split; [|apply H2]].
      destruct (H1 eq_refl). done. }
  clear st Hok. intros st Hok. pose proof (api_frame_refl st Hok) as Hf.
  assert (Hsl : forall s s', same_live s s' -> G s s') by (intros s s' H i _; apply H).
  eapply spost_bind; [by apply step_TRUE|done|done|by apply Hsl|]. intros _ ? _ _ [-> _].
  eapply spost_bind_total; [apply step_get_queue|done|done|]. intros ptr ? _ _ (-> & _ & Hptr).
  eapply spost_bind_total; [apply step_vcall|done|done|]. intros ret st2 Hf2 _ (p & Ep & _ & Hl2 & _).
  eapply spost_bind; [apply step_remove|done|done|intros ? H; apply Hsl; exact (same_live_trans _ _ _ Hl2 H)|].
  intros _ st3 Hf3 _ (Hq3 & _ & _).
  assert (HG : G st st3).
  { intros i Hi. rewrite Hq3, lookup_delete_ne by done. apply Hl2. }
  eapply spost_bind; [apply step_fret_code|done|done|intros ? H i Hi; rewrite (HG i Hi); apply H|].
  intros _ ? _ _ [-> _]. apply spost_normal; [done|]. split; [done|]. split; [|done].
  by rewrite Hq3, lookup_delete_eq.
Qed.

(** [connect]: every return after the token is issued hands it out. *)
Lemma connect_ok qtok0 qd saddr size st :
  api_ok st -> wlp (connect qtok0 qd saddr size) (fun r st' => api_frame st st' /\ same_live st st' /\
    (fst r = 0 -> issued qd st (snd r) st')) st.
Proof.
  intros Hok. pose proof (api_frame_refl st Hok) as Hf. unfold connect. rewrite post_fbind.
  eapply post_mono; [apply (fun H => H : spost st _ (fun r st' => same_live st st' /\ (fst r = 0 -> issued qd st (snd r) st')) (same_live st) st)|].
  2:{ cbn. intros [r|e] st' [? ?]; [done|]. cbn. naive_solver. }
  eapply spost_bind; [by apply step_TRUE|done|done|done|]. intros _ ? _ _ [-> _].
  eapply spost_bind_total; [apply step_get_queue|done|done|]. intros ptr ? _ _ (-> & _ & Hptr).
  eapply spost_bind_total; [apply step_new_qtoken|done|done|].
  intros [r t] st1 Hf1 _ (p & Ep & Er & Hfr & Hkn & Hqt & Hl1 & _). cbn in *. rewrite Ep in Hptr.
  destruct (my_queues st !! qd) as [q|] eqn:Eq; [|done]. injection Hptr as ->.
  eapply spost_bind; [apply step_fret|done|done|intros ? H; exact (same_live_trans _ _ _ Hl1 H)|]. intros t' ? _ _ [-> [= -> <-]].
  eapply spost_bind_total; [apply step_vcall|done|done|]. intros ret st2 Hf2 Hf12 (? & _ & _ & Hl2 & _).
  assert (Hl : same_live st st2) by (exact (same_live_trans _ _ _ Hl1 Hl2)).
  assert (Hiss : issued qd st t st2).
  { eapply (issued_later qd st st st1 st2); try done; [by eapply api_frame_ok|apply Hl; by eexists]. }
  destruct (ret =? ECONNREFUSED); [by apply spost_normal|].
  destruct (ret =? 0) eqn:E0; [by apply spost_normal|].
  unfold spost. post_simp. rewrite E0. done.
Qed.

(** ** [poll] *)

(** The queue's own [poll] and then, on an error whose result says [ACCEPT],
    the removal of the descriptor in the result. *)
Lemma poll_eq qr_out qt st :
  poll qr_out qt st =
    if qt =? 0 then Ok (EINVAL, qr_out) st
    else if (0 <=? qttoqd qt) && (qttoqd qt <? 256) then
      match my_queues st !! qttoqd qt with
      | None => Undef
      | Some _ =>
          match q_poll (qttoqd qt) (default qresult_zero qr_out) qt (my_env st) with
          | Ok (ret, qr) e =>
              if ret =? 0 then Ok (0, (fun _ => qr) <$> qr_out) (set_my_env e st)
              else fbind (on_poll_failure qr) (fun qr' => fret (ret, (fun _ => qr') <$> qr_out)) (set_my_env e st)
          | Panic => Panic
          | Undef => Undef
          | NoFuel => NoFuel
          end
      end
    else Undef.
Proof.
  unfold poll, fbind at 1. unfold sbind at 1, fbind at 1, DMTR_TRUE. destruct (qt =? 0) eqn:Eq0; [done|]. cbn [negb].
  unfold normal at 1, fret at 1. cbn iota beta zeta. unfold sbind at 1, fbind at 1, DMTR_OK_out at 1, fbind at 1.
  unfold get_queue, body_out, sbind at 1, fbind at 1, call at 1, fbind at 1, index_queues, my_queues_size.
  destruct (_ && _); [|done]. unfold normal at 1, fret at 1. cbn iota beta.
  unfold fbind at 1, sbind at 1, fbind at 1, get at 1. unfold normal at 1, fret at 1. cbn.
  unfold sbind at 1, fbind at 1. rewrite q_call_eq. destruct (my_queues st !! qttoqd qt) as [q|] eqn:Eq; [|done].
  rewrite Eq. unfold call at 1, fbind at 1, on_env, zoom.
  replace (match qr_out with Some qr => qr | None => qresult_zero end) with (default qresult_zero qr_out) by by destruct qr_out.
  destruct (q_poll _ _ _ _) as [[ret qr] e| | |]; try done. cbn.
  destruct (ret =? 0) eqn:E0; [by destruct qr_out|].
  unfold sbind, fbind, call, fbind. destruct (on_poll_failure qr _) as [qr' st'| | |]; try done. cbn.
  destruct (poll_quiet ret); [by destruct qr_out|]. unfold body, DMTR_FAIL. rewrite E0. cbn. by destruct qr_out.
Qed.

Lemma on_poll_failure_frame qr st0 st :
  api_frame st0 st ->
  wlp (on_poll_failure qr) (fun _ st' => api_frame st0 st' /\ my_qd_counter st' = my_qd_counter st /\
    forall i, is_Some (my_queues st' !! i) -> is_Some (my_queues st !! i)) st.
Proof.
  intros Hf. unfold on_poll_failure. destruct (opcode_eqb _ _); [|done].
  rewrite post_fbind. unfold post at 1. rewrite remove_queue_eq. destruct (_ =? 0); [done|].
  destruct (_ && _); [|done]. destruct (my_queues st !! _) as [q|]; [|done].
  destruct (q_destroy q _) as [? w| | |]; cbn; [|done..]. split; [by apply frame_remove|]. split; [done|]. intros i [x Hx]. apply lookup_delete_Some in Hx as [_ Hx]. by eexists.
Qed.
Lemma poll_frame qr qt st :
  api_ok st -> wlp (poll qr qt) (fun r st' => api_frame st st' /\
    (forall i, is_Some (my_queues st' !! i) -> is_Some (my_queues st !! i)) /\
    (fst r = 0 -> same_live st st')) st.
Proof.
  intros Hok. pose proof (api_frame_refl st Hok) as Hf. unfold post. rewrite poll_eq.
  destruct (qt =? 0); [done|]. destruct (_ && _); [|done]. destruct (my_queues st !! _); [|done].
  pose proof (q_poll_shape (qttoqd qt) (default qresult_zero qr) qt (my_env st)) as Hs. unfold post in Hs.
  destruct (q_poll _ _ _ _) as [[ret qr1] e| | |]; try done.
  pose proof (shape_frame _ _ _ Hf Hs) as Hf1. pose proof (shape_live _ _ Hs) as Hl.
  destruct (ret =? 0) eqn:E0; cbn.
  - split; [done|]. split; [|done]. intros i. by rewrite (Hl i).
  - pose proof (on_poll_failure_frame qr1 st _ Hf1) as H. unfold post in H. unfold fbind.
    destruct (on_poll_failure _ _) as [qr' st'| | |]; try done. cbn. destruct H as (H1 & _ & H3).
    split; [done|]. split; [|intros ->; done]. intros i Hi. apply (Hl i), H3, Hi.
Qed.
End frame.

(** ** Executions of the API *)
Inductive api_cmd :=
| CQueue
| CSocket (domain type protocol : Z)
| CGetsockname (qd : Z) (saddr : bool) (size : option Z)
| CBind (qd : Z) (saddr : option (list Z)) (size : Z)
| CAccept (qd : Z)
| CListen (qd backlog : Z)
| CConnect (qtok qd : Z) (saddr : option (list Z)) (size : Z)
| COpen (pathname : list Z) (flags : Z)
| COpen2 (pathname : list Z) (flags mode : Z)
| CCreat (pathname : list Z) (mode : Z)
| CClose (qd : Z)
| CIsQdValid (qd : Z)
| CPushQ (qd : Z) (sga : dmtr_sgarray)
| CPopQ (qd : Z)
| CPoll (qr : option dmtr_qresult) (qt : Z)
| CDropQ (qt : Z).

(** What a successful call hands to the caller: a descriptor, or a token for an
    operation on a descriptor. *)
Inductive api_event :=
| EvQd (qd : Z)
| EvToken (qd qt : Z).

Section executions.
Context {Q W : Type} `{HQ : Queue Q W}.
Abbreviation api := (io_queue_api Q W).
Implicit Types (st : api).

Definition emits {O} (f : O -> list api_event) (m : fn api (Z * O)) : fn api (Z * list api_event) :=
  fbind m (fun r => fret (fst r, if fst r =? 0 then f (snd r) else [])).
Definition silent (m : fn api Z) : fn api (Z * list api_event) := fbind m (fun e => fret (e, [])).

Definition api_exec (c : api_cmd) : fn api (Z * list api_event) :=
  match c with
  | CQueue => emits (fun qd => [EvQd qd]) queue
  | CSocket d t p => emits (fun qd => [EvQd qd]) (socket d t p)
  | CGetsockname qd a n => emits (fun _ => []) (getsockname qd a n)
  | CBind qd a n => silent (bind qd a n)
  | CAccept qd => emits (fun qt => [EvToken qd qt]) (accept qd)
  | CListen qd b => silent (listen qd b)
  | CConnect t qd a n => emits (fun qt => [EvToken qd qt]) (connect t qd a n)
  | COpen p f => emits (fun qd => [EvQd qd]) (open p f)
  | COpen2 p f m => emits (fun qd => [EvQd qd]) (open2 p f m)
  | CCreat p m => emits (fun qd => [EvQd qd]) (creat p m)
  | CClose qd => silent (close qd)
  | CIsQdValid qd => emits (fun _ => []) (is_qd_valid qd)
  | CPushQ qd sga => emits (fun qt => [EvToken qd qt]) (push qd sga)
  | CPopQ qd => emits (fun qt => [EvToken qd qt]) (pop qd)
  | CPoll qr qt => emits (fun _ => []) (poll qr qt)
  | CDropQ qt => silent (drop qt)
  end.

Inductive api_run st : list api_event -> api -> Prop :=
  | api_run_nil : api_run st [] st
  | api_run_step evs st1 c r ev st2 :
    api_run st evs st1 -> api_exec c st1 = Ok (r, ev) st2 -> api_run st (evs ++ ev) st2.

Definition event_qds (evs : list api_event) : list Z :=
  omap (fun e => match e with EvQd qd => Some qd | _ => None end) evs.
Definition event_tokens (evs : list api_event) : list Z :=
  omap (fun e => match e with EvToken _ qt => Some qt | _ => None end) evs.

Context `{HL : !QueueLaws Q W}.

(** What one call may emit. *)
Definition event_ok st st' (e : api_event) : Prop :=
  match e with
  | EvQd qd => my_qd_counter st < qd <= my_qd_counter st' /\ is_Some (my_queues st' !! qd)
  | EvToken qd qt => issued qd st qt st'
  end.

Lemma emits_ok {O} (f : O -> list api_event) dflt (m : fn api (Z * O)) Φ E st :
  op_ok dflt m Φ E -> api_ok st ->
  (forall o st', Φ st o st' -> exists e, f o = [e] /\ event_ok st st' e) ->
  wlp (emits f m) (fun r st' => api_frame st st' /\
    (snd r = [] \/ exists e, snd r = [e] /\ event_ok st st' e)) st.
Proof.
  intros Hm Hok Hf. unfold emits. rewrite post_fbind. eapply post_mono; [by apply Hm|].
  intros [e o] st' (Hfr & H0 & _). cbn in *. split; [done|].
  destruct (e =? 0) eqn:E0; zbool; [right; auto|by left].
Qed.
Lemma silent_ok (m : fn api Z) (P : Z -> api -> Prop) st :
  wlp m (fun e st' => api_frame st st' /\ P e st') st ->
  wlp (silent m) (fun r st' => api_frame st st' /\
    (snd r = [] \/ exists e, snd r = [e] /\ event_ok st st' e)) st.
Proof.
  intros Hm. unfold silent. rewrite post_fbind. eapply post_mono; [exact Hm|]. cbn. intros e st' [? _]. auto.
Qed.
Lemma mute_ok {O} (m : fn api (Z * O)) (P : Z * O -> api -> Prop) st :
  wlp m (fun r st' => api_frame st st' /\ P r st') st ->
  wlp (emits (fun _ => []) m) (fun r st' => api_frame st st' /\
    (snd r = [] \/ exists e, snd r = [e] /\ event_ok st st' e)) st.
Proof.
  intros Hm. unfold emits. rewrite post_fbind. eapply post_mono; [exact Hm|]. cbn.
  intros [e o] st' [? _]. cbn. split; [done|]. left. by destruct (e =? 0).
Qed.
Lemma emits_create cid c st :
  api_ok st -> wlp (emits (fun qd => [EvQd qd]) (create cid c)) (fun r st' => api_frame st st' /\
    (snd r = [] \/ exists e, snd r = [e] /\ event_ok st st' e)) st.
Proof.
  intros Hok. eapply emits_ok; [apply create_ok|done|]. intros qd st' (? & ? & H). eexists; split; [done|].
  split; [done|]. apply H. by left.
Qed.
Lemma emits_data qd c st :
  api_ok st -> wlp (emits (fun qt => [EvToken qd qt]) (data_call qd c)) (fun r st' => api_frame st st' /\
    (snd r = [] \/ exists e, snd r = [e] /\ event_ok st st' e)) st.
Proof.
  intros Hok. eapply emits_ok; [apply data_call_ok|done|]. intros qt st' [H _]. by eexists.
Qed.

Lemma is_qd_valid_ok qd st :
  api_ok st -> wlp (is_qd_valid qd) (fun r st' => st' = st /\ r = (0, true)) st.
Proof.
  intros Hok. unfold is_qd_valid. rewrite post_fbind. unfold post at 1, get_queue, body_out, sbind, fbind, call, fbind, index_queues.
  by destruct (_ && _).
Qed.

Lemma api_exec_ok c st :
  api_ok st -> wlp (api_exec c) (fun r st' => api_frame st st' /\
    (snd r = [] \/ exists e, snd r = [e] /\ event_ok st st' e)) st.
Proof.
  intros Hok. destruct c; cbn [api_exec].
  - eapply emits_ok; [apply queue_ok_op|done|]. intros qd st' (? & ? & H). eexists; split; [done|].
    split; [done|]. apply H. by left.
  - by apply emits_create.
  - eapply mute_ok. by apply getsockname_ok.
  - eapply silent_ok. by apply (plain_call_ok qd (VBind saddr size)).
  - eapply emits_ok; [apply accept_ok|done|]. intros qt st' [H _]. by eexists.
  - eapply silent_ok. by apply (plain_call_ok qd (VListen backlog)).
  - unfold emits. rewrite post_fbind. eapply post_mono; [by apply connect_ok|].
    intros [e qt] st' (Hf & _ & Hi). cbn in *. split; [done|].
    destruct (e =? 0) eqn:E0; zbool; [right; eexists; split; [done|]; by apply Hi|by left].
  - by apply emits_create.
  - by apply emits_create.
  - by apply emits_create.
  - eapply silent_ok. by apply close_ok.
  - eapply (mute_ok _ (fun _ _ => True)). eapply post_mono; [by apply is_qd_valid_ok|]. cbn. intros r st' [-> _].
    split; [by apply api_frame_refl|done].
  - apply (emits_data qd (fun qt => VPush qt sga) st Hok).
  - apply (emits_data qd VPop st Hok).
  - eapply mute_ok. by apply poll_frame.
  - eapply silent_ok. by apply drop_ok.
Qed.

(** The history of an execution. *)
Record api_hist st0 evs st : Prop := {
  hist_ok : api_ok st;
  hist_frame : api_frame st0 st;
  hist_qds : StronglySorted Z.lt (event_qds evs) /\
    Forall (fun qd => my_qd_counter st0 < qd <= my_qd_counter st) (event_qds evs);
  hist_tokens : NoDup (event_tokens evs) /\ Forall (token_known st) (event_tokens evs);
  hist_routes : forall qd qt, EvToken qd qt ∈ evs -> qttoqd qt = qd
}.

Lemma event_qds_app evs evs' : event_qds (evs ++ evs') = event_qds evs ++ event_qds evs'.
Proof. apply omap_app. Qed.
Lemma event_tokens_app evs evs' : event_tokens (evs ++ evs') = event_tokens evs ++ event_tokens evs'.
Proof. apply omap_app. Qed.
Lemma sorted_snoc lo hi l y :
  StronglySorted Z.lt l -> Forall (fun x => lo < x <= hi) l -> hi < y -> StronglySorted Z.lt (l ++ [y]).
Proof.
  intros Hs Hf Hy. induction l as [|x l IH]; cbn; [repeat constructor|].
  inversion Hs; subst. inversion Hf; subst. constructor; [by apply IH|]. apply Forall_app. split; [done|].
  constructor; [lia|done].
Qed.

Lemma api_run_hist st0 evs st : api_ok st0 -> api_run st0 evs st -> api_hist st0 evs st.
Proof.
  intros Hok0 Hrun. induction Hrun as [|evs st1 c r ev st2 Hrun IH H].
  { constructor; [done|by apply api_frame_refl|by split; constructor|by split; constructor|set_solver]. }
  destruct IH as [Hok Hf [Hs Hq] [Hn Hk] Hro].
  pose proof (api_exec_ok c st1 Hok) as He. unfold post in He. rewrite H in He. cbn in He. destruct He as [Hf2 Hev].
  pose proof (frame_counter _ _ Hf2) as Hc2.
  assert (Hk2 : Forall (token_known st2) (event_tokens evs)).
  { eapply Forall_impl; [exact Hk|]. cbn. intros t. by apply token_known_frame. }
  assert (Hq2 : Forall (fun qd => my_qd_counter st0 < qd <= my_qd_counter st2) (event_qds evs)).
  { eapply Forall_impl; [exact Hq|]. cbn. lia. }
  assert (Hok2 : api_ok st2) by by eapply api_frame_ok.
  assert (Hf02 : api_frame st0 st2) by by eapply api_frame_trans.
  destruct Hev as [->|(e & -> & He)].
  { rewrite app_nil_r. by constructor. }
  pose proof (frame_counter _ _ Hf). destruct e as [qd|qd qt]; cbn [event_ok] in He.
  - constructor; [done|done| | |].
    + rewrite event_qds_app. cbn. split; [apply (sorted_snoc (my_qd_counter st0) (my_qd_counter st1)); [done|done|lia]|].
      apply Forall_app; split; [done|]. constructor; [lia|done].
    + rewrite event_tokens_app. cbn. by rewrite app_nil_r.
    + intros qd' qt' [Hin|Hin]%elem_of_app; [by eapply Hro|]. by apply list_elem_of_singleton in Hin.
  - destruct He as (Hfr & Hkn & Hrt & _). constructor; [done|done| | |].
    + rewrite event_qds_app. cbn. by rewrite app_nil_r.
    + rewrite event_tokens_app. cbn. split; [|apply Forall_app; split; [done|by constructor]].
      apply NoDup_app. split; [done|]. split; [|apply NoDup_singleton].
      intros t Ht ->%list_elem_of_singleton. rewrite Forall_forall in Hk.
      by apply (token_fresh_not_known st1 qd qt Hok Hfr), Hk.
    + intros qd' qt' [Hin|Hin]%elem_of_app; [by eapply Hro|]. apply list_elem_of_singleton in Hin as [= -> ->]. done.
Qed.
End executions.

(** A library OS with memory queues only, for the examples: the API after the
    constructor has been registered. *)
Definition demo_api : io_queue_api memory_queue unit :=
  mk_io_queue_api 0 (mk_qenv ∅ tt) {[MEMORY_Q := Some mq_ctor]}.
Lemma demo_api_registered :
  register_queue_ctor MEMORY_Q (Some mq_ctor) (api_ctor tt) = Ok 0 demo_api.
Proof. reflexivity. Qed.
Lemma demo_api_ok : api_ok demo_api.
Proof.
  constructor.
  - cbn. lia.
  - intros qd q Hq. change ((∅ : gmap Z memory_queue) !! qd = Some q) in Hq. by rewrite lookup_empty in Hq.
  - intros cid c Hc qd w. cbn in Hc. apply lookup_singleton_Some in Hc as [_ [= <-]].
    destruct (mq_ctor_eq qd w) as (q & Hq & Hb). unfold post. rewrite Hq. cbn.
    intros _ q' [= <-]. by rewrite Hb.
Qed.
(** The state after some calls, and what they emitted. *)
Fixpoint api_play (cs : list api_cmd) (st : io_queue_api memory_queue unit) :
    option (list api_event * io_queue_api memory_queue unit) :=
  match cs with
  | [] => Some ([], st)
  | c :: cs' => match api_exec c st with
                | Ok (_, ev) st' => match api_play cs' st' with
                                    | Some (evs, st'') => Some (ev ++ evs, st'')
                                    | None => None
                                    end
                | _ => None
                end
  end.
Lemma api_play_run st0 evs0 cs st evs st' :
  api_run st0 evs0 st -> api_play cs st = Some (evs, st') -> api_run st0 (evs0 ++ evs) st'.
Proof.
  revert evs0 st evs. induction cs as [|c cs IH]; cbn [api_play]; intros evs0 st evs Hr H.
  { injection H as <- <-. by rewrite app_nil_r. }
  destruct (api_exec c st) as [[r ev] st1| | |] eqn:E; try done.
  destruct (api_play cs st1) as [[evs1 st2]|] eqn:Ep; [|done]. injection H as <- <-.
  rewrite app_assoc. eapply IH; [|exact Ep]. by eapply api_run_step.
Qed.

(** ** Properties *)

(** C2: the state invariant of the API.  From a well-formed state every call,
    whatever its arguments and result, leads to a well-formed state: each
    object is at its own descriptor and was given a descriptor already issued;
    the descriptor counter and every token counter only grow, and an object
    that appears has a descriptor never issued before. *)
Theorem api_invariant {Q W} `{HQ : Queue Q W} `{HL : !QueueLaws Q W} (c : api_cmd) (st : io_queue_api Q W) r st' :
  api_ok st -> api_exec c st = Ok r st' -> api_ok st' /\ api_frame st st'.
Proof.
  intros Hok H. pose proof (api_exec_ok c st Hok) as He. unfold post in He. rewrite H in He.
  destruct He as [Hf _]. split; [by eapply api_frame_ok|done].
Qed.

Lemma api_invariant_witness :
  exists r st', api_exec CQueue demo_api = Ok r st' /\ api_ok st' /\ my_qd_counter st' = 1.
Proof.
  destruct (api_exec CQueue demo_api) as [r st'| | |] eqn:E; try (vm_compute in E; discriminate).
  exists r, st'. split; [reflexivity|]. split.
  - exact (proj1 (api_invariant CQueue demo_api r st' demo_api_ok E)).
  - vm_compute in E. injection E as _ <-. reflexivity.
Defined.

(** C4: descriptors are never reused.  Along any execution of the API the
    descriptors handed out increase strictly and are all above those issued
    before, and a descriptor issued before that is no longer live (closed, or
    its creation failed) never becomes live again. *)
Theorem descriptors_never_reused {Q W} `{HQ : Queue Q W} `{HL : !QueueLaws Q W} (st : io_queue_api Q W) evs st' :
  api_ok st -> api_run st evs st' ->
  StronglySorted Z.lt (event_qds evs) /\
  Forall (fun qd => my_qd_counter st < qd <= 256) (event_qds evs) /\
  forall qd, qd <= my_qd_counter st -> my_queues st !! qd = None -> my_queues st' !! qd = None.
Proof.
  intros Hok Hrun. destruct (api_run_hist st evs st' Hok Hrun) as [Hok' Hf [Hs Hq] _ _].
  pose proof (frame_counter _ _ Hf). split; [done|]. split.
  - eapply Forall_impl; [exact Hq|]. cbn. lia.
  - intros qd Hqd Hnone. destruct (my_queues st' !! qd) as [q|] eqn:E; [|done].
    pose proof (frame_queues _ _ Hf _ _ E) as F. rewrite Hnone in F. lia.
Qed.

Definition demo_calls : list api_cmd :=
  [CQueue; CPushQ 1 (demo_sga 7); CPopQ 1; CQueue; CPushQ 2 (demo_sga 8); CClose 1; CQueue; CPopQ 2].
Definition demo_events : list api_event :=
  [EvQd 1; EvToken 1 (mk_qtoken 1 1); EvToken 1 (mk_qtoken 1 2); EvQd 2; EvToken 2 (mk_qtoken 2 1); EvQd 3;
   EvToken 2 (mk_qtoken 2 2)].
Lemma demo_run : exists st', api_run demo_api demo_events st'.
Proof.
  assert (H : exists st', api_play demo_calls demo_api = Some (demo_events, st')) by (eexists; vm_compute; reflexivity).
  destruct H as [st' H]. exists st'. exact (api_play_run _ _ _ _ _ _ (api_run_nil demo_api) H).
Qed.

Lemma descriptors_never_reused_witness :
  api_ok demo_api /\ (exists st', api_run demo_api demo_events st') /\ StronglySorted Z.lt (event_qds demo_events).
Proof.
  split; [exact demo_api_ok|]. destruct demo_run as [st' H]. split; [by exists st'|].
  exact (proj1 (descriptors_never_reused demo_api demo_events st' demo_api_ok H)).
Defined.

(** C3: tokens are unique over the whole API and route to their queue.  Along
    any execution no two operations, on the same queue or on different ones,
    get the same token, and the descriptor [poll], [drop] and [wait] compute
    from a token is that of the queue the operation was issued on. *)
Theorem tokens_unique {Q W} `{HQ : Queue Q W} `{HL : !QueueLaws Q W} (st : io_queue_api Q W) evs st' :
  api_ok st -> api_run st evs st' ->
  NoDup (event_tokens evs) /\ forall qd qt, EvToken qd qt ∈ evs -> qttoqd qt = qd.
Proof. intros Hok Hrun. by destruct (api_run_hist st evs st' Hok Hrun) as [_ _ _ [Hn _] Hr]. Qed.

Lemma tokens_unique_witness :
  api_ok demo_api /\ (exists st', api_run demo_api demo_events st') /\ NoDup (event_tokens demo_events).
Proof.
  split; [exact demo_api_ok|]. destruct demo_run as [st' H]. split; [by exists st'|].
  exact (proj1 (tokens_unique demo_api demo_events st' demo_api_ok H)).
Defined.

(** The calls that create a queue and return its descriptor. *)
Inductive creates {Q W} `{Queue Q W} : fn (io_queue_api Q W) (Z * Z) -> Prop :=
| creates_queue : creates queue
| creates_socket d t p : creates (socket d t p)
| creates_open p f : creates (open p f)
| creates_open2 p f m : creates (open2 p f m)
| creates_creat p m : creates (creat p m).

(** C38: creating a queue is all or nothing.  When [queue], [socket], [open],
    [open2] or [creat] succeeds, exactly one descriptor becomes live, it was
    never issued before and lies within the table; when it fails, the output
    is 0 and the live descriptors are as before, the queue made for a call that
    failed having been removed again. *)
Theorem create_all_or_nothing {Q W} `{HQ : Queue Q W} `{HL : !QueueLaws Q W} m (st : io_queue_api Q W) r qd st' :
  creates m -> api_ok st -> m st = Ok (r, qd) st' ->
  (r = 0 -> created st qd st') /\ (r <> 0 -> qd = 0 /\ same_live st st').
Proof.
  intros Hm Hok H.
  assert (He : op_ok 0 m created same_live).
  { destruct Hm; [apply queue_ok_op|apply (create_ok NETWORK_Q)|apply (create_ok FILE_Q)..]. }
  specialize (He st Hok). unfold post in He. rewrite H in He. apply He.
Qed.

Lemma create_all_or_nothing_witness :
  (exists st', queue demo_api = Ok (0, 1) st' /\ created demo_api 1 st') /\
  (exists st', socket 2 1 0 demo_api = Ok (ENOENT, 0) st' /\ same_live demo_api st').
Proof.
  split.
  - destruct (queue demo_api) as [[r qd] st'| | |] eqn:E; try (vm_compute in E; discriminate).
    assert (Hr : r = 0 /\ qd = 1) by (vm_compute in E; injection E as <- <- <-; done). destruct Hr as [-> ->].
    exists st'. split; [reflexivity|].
    exact (proj1 (create_all_or_nothing queue demo_api 0 1 st' creates_queue demo_api_ok E) eq_refl).
  - destruct (socket 2 1 0 demo_api) as [[r qd] st'| | |] eqn:E; try (vm_compute in E; discriminate).
    assert (Hr : r = ENOENT /\ qd = 0) by (vm_compute in E; injection E as <- <- <-; done). destruct Hr as [-> ->].
    exists st'. split; [reflexivity|].
    exact (proj2 (proj2 (create_all_or_nothing _ demo_api ENOENT 0 st' (creates_socket 2 1 0) demo_api_ok E) ltac:(done))).
Defined.

(** [close].  When it answers with success the descriptor is not live any
    more; in every case no other descriptor is affected.  Using the closed
    descriptor again dereferences a null pointer, because [get_queue] does not
    check the entry. *)
Theorem close_correct {Q W} `{HQ : Queue Q W} `{HL : !QueueLaws Q W} qd (st : io_queue_api Q W) r st' :
  api_ok st -> close qd st = Ok r st' ->
  (r = 0 -> my_queues st' !! qd = None /\ close qd st' = Undef /\ pop qd st' = Undef) /\
  (forall i, i <> qd -> is_Some (my_queues st !! i) <-> is_Some (my_queues st' !! i)).
Proof.
  intros Hok H. pose proof (close_ok qd st Hok) as Hc. unfold post in Hc. rewrite H in Hc.
  destruct Hc as (Hf & Hnone & Hother). split; [|done]. intros Hr. specialize (Hnone Hr). split; [done|].
  assert (Hqd : qd <> 0).
  { intros ->. unfold close, body, sbind, fbind, DMTR_TRUE in H. cbn in H. injection H as <- _. done. }
  assert (Hg : forall A (k : option Z -> stmt _ A), (k None st' = Undef) ->
    (sbind (DMTR_TRUE EINVAL (negb (qd =? 0))) (fun _ => sbind (DMTR_OK_out (get_queue qd)) k)) st' = Undef).
  { intros A k Hk. unfold sbind at 1, fbind at 1, DMTR_TRUE. rewrite (proj2 (Z.eqb_neq _ _) Hqd). cbn.
    unfold sbind, fbind, DMTR_OK_out, get_queue, body_out, fbind, sbind, fbind, call, fbind, index_queues.
    destruct (_ && _); [|done]. cbn. by rewrite Hnone. }
  split; [unfold close, body, fbind|unfold pop, body_out, fbind]; rewrite Hg; done.
Qed.

Lemma close_correct_witness :
  exists st st', api_play [CQueue] demo_api = Some ([EvQd 1], st) /\ close 1 st = Ok 0 st' /\
    my_queues st' !! 1 = None /\ pop 1 st' = Undef.
Proof.
  destruct (api_play [CQueue] demo_api) as [[evs st]|] eqn:E; [|vm_compute in E; discriminate].
  assert (Hev : evs = [EvQd 1]) by (vm_compute in E; injection E as <- <-; done). subst evs.
  assert (Hok : api_ok st).
  { exact (hist_ok _ _ _ (api_run_hist _ _ _ demo_api_ok (api_play_run _ _ _ _ _ _ (api_run_nil demo_api) E))). }
  destruct (close 1 st) as [r st'| | |] eqn:Ec; try (vm_compute in E; injection E as <-; vm_compute in Ec; discriminate).
  assert (Hr : r = 0) by (vm_compute in E; injection E as <-; vm_compute in Ec; injection Ec as <- _; done). subst r.
  exists st, st'. split; [reflexivity|]. split; [exact Ec|].
  destruct (proj1 (close_correct 1 st 0 st' Hok Ec) eq_refl) as (H1 & _ & H2). split; [exact H1|exact H2].
Defined.

(** [poll].  A null token is rejected; otherwise the answer is that of the
    queue of the token's descriptor, on the caller's buffer or on a private
    zeroed one when the pointer is null.  A success leaves the table alone; an
    error answered for a result that says [ACCEPT] also removes the queue of
    the descriptor in that result and clears it; any other error leaves the
    table alone.  A destructor of the queue removed runs, and what it does to
    the rest of the world is what [poll] does to it. *)
Theorem poll_correct {Q W} `{HQ : Queue Q W} `{HL : !QueueLaws Q W} qr_out qt (st : io_queue_api Q W) :
  (qt = 0 -> poll qr_out qt st = Ok (EINVAL, qr_out) st) /\
  (forall q ret qr e, qt <> 0 -> 0 <= qttoqd qt < 256 -> my_queues st !! qttoqd qt = Some q ->
     q_poll (qttoqd qt) (default qresult_zero qr_out) qt (my_env st) = Ok (ret, qr) e ->
     let st1 := set_my_env e st in
     let accept_qd := ares_qd (qr_value qr) in
     if (ret =? 0) || negb (opcode_eqb DMTR_OPC_ACCEPT (qr_opcode qr)) then
       poll qr_out qt st = Ok (ret, (fun _ => qr) <$> qr_out) st1
     else if (0 <=? accept_qd) && (accept_qd <? 256) then
       let cleared := (ret, (fun _ => set_qr_value (set_ares_qd 0 (qr_value qr)) qr) <$> qr_out) in
       poll qr_out qt st =
         match (if accept_qd =? 0 then None else my_queues st1 !! accept_qd) with
         | None => Ok cleared st1
         | Some dead => match q_destroy dead (e_world e) with
                        | Ok _ w => Ok cleared (set_my_env (mk_qenv (delete accept_qd (e_queues e)) w) st)
                        | Panic => Panic
                        | Undef => Undef
                        | NoFuel => NoFuel
                        end
         end
     else poll qr_out qt st = Undef).
Proof.
  split; [intros ->; by rewrite poll_eq|]. intros q ret qr e Hqt Hqd Hq Hp st1 aqd. rewrite poll_eq.
  rewrite (proj2 (Z.eqb_neq _ _) Hqt), Hq, Hp.
  replace ((0 <=? qttoqd qt) && (qttoqd qt <? 256)) with true
    by (symmetry; apply andb_true_iff; rewrite Z.leb_le, Z.ltb_lt; lia).
  destruct (ret =? 0) eqn:E0; cbn [orb].
  { zbool. subst ret. done. }
  unfold on_poll_failure, fbind. destruct (opcode_eqb _ _); cbn [negb]; [|done]. fold aqd. fold st1.
  rewrite remove_queue_eq. destruct (aqd =? 0) eqn:Ea; zbool; [rewrite Ea; cbn; by destruct qr_out|].
  destruct (_ && _); [|done]. destruct (my_queues st1 !! aqd) as [q'|] eqn:Eq'; [|by destruct qr_out].
  change (e_world (my_env st1)) with (e_world e). destruct (q_destroy q' (e_world e)); by destruct qr_out.
Qed.

Lemma poll_correct_witness :
  exists (st : io_queue_api memory_queue unit) q ret qr e, my_queues st !! 1 = Some q /\ qttoqd (mk_qtoken 1 1) = 1 /\
    q_poll 1 qresult_zero (mk_qtoken 1 1) (my_env st) = Ok (ret, qr) e /\ ret = 0 /\
    poll (Some qresult_zero) (mk_qtoken 1 1) st = Ok (0, Some qr) (set_my_env e st).
Proof.
  destruct (api_play [CQueue; CPushQ 1 (demo_sga 7)] demo_api) as [[evs st]|] eqn:E; [|vm_compute in E; discriminate].
  destruct (my_queues st !! 1) as [q|] eqn:Eq; [|vm_compute in E; injection E as <- <-; vm_compute in Eq; discriminate].
  destruct (q_poll 1 qresult_zero (mk_qtoken 1 1) (my_env st)) as [[ret qr] e| | |] eqn:Ep;
    try (vm_compute in E; injection E as <- <-; vm_compute in Ep; discriminate).
  assert (Hr : ret = 0) by (vm_compute in E; injection E as <- <-; vm_compute in Ep; injection Ep as <- _ _; done).
  subst ret. exists st, q, 0, qr, e. split; [exact Eq|]. split; [reflexivity|]. split; [exact Ep|]. split; [reflexivity|].
  exact (proj2 (poll_correct (Some qresult_zero) (mk_qtoken 1 1) st) q 0 qr e ltac:(vm_compute; done)
    ltac:(vm_compute; done) Eq Ep).
Defined.
