(* ===== verification/Wait.v ===== *)
(** * Waiting for completions: [common/wait.cc]

    Both functions loop over [dmtr_poll] and [dmtr_drop] of the library OS the
    program is linked with; here these are functions on its state.  A loop takes
    fuel, and the theorems say what every amount of fuel that is enough gives,
    and which amounts are. *)
From S2P Require Import Prelude Cmd Types.
Open Scope cmd_scope.

Section wait.
Context {S : Type}.
Context (dmtr_poll : option dmtr_qresult -> Z -> fn S (Z * option dmtr_qresult)) (dmtr_drop : Z -> fn S Z).

(** The loop [while (EAGAIN == ret) ret = dmtr_poll(qr_out, qt)]. *)
Fixpoint wait_loop (fuel : nat) (qr : option dmtr_qresult) (qt : Z) : fn S (Z * option dmtr_qresult) :=
  match fuel with
  | O => fun _ => NoFuel
  | Datatypes.S fuel' => fbind (dmtr_poll qr qt) (fun '(ret, qr') =>
      if ret =? EAGAIN then wait_loop fuel' qr' qt else fret (ret, qr'))
  end.

Definition dmtr_wait (fuel : nat) (qr_out : option dmtr_qresult) (qt : Z) : fn S (Z * option dmtr_qresult) :=
  fbind (wait_loop fuel qr_out qt) (fun '(ret, qr) =>
  fbind (body (DMTR_OK (dmtr_drop qt) ;; normal ret)) (fun e => fret (e, qr))).

(** One visit of [while (1)]: [inr] when the function returns, with the error,
    the buffer and [*ready_offset]; otherwise the buffer. *)
Definition any_visit (qr : option dmtr_qresult) (ready_offset : option Z) (qts : list Z) (i : Z) :
    fn S (option dmtr_qresult + (Z * option dmtr_qresult * option Z)) :=
  fbind (need (if i <? 0 then None else qts !! Z.to_nat i)) (fun q => match q with
  | inr _ => undef
  | inl qt =>
      if negb (qt =? 0) then
        fbind (dmtr_poll qr qt) (fun '(ret, qr') =>
          if negb (ret =? EAGAIN) then
            if ret =? 0 then
              fbind (dmtr_drop qt) (fun e =>
                if e =? 0
                then fret (inr (ret, qr', match ready_offset with Some _ => Some i | None => None end))
                else fret (inr (e, qr', ready_offset)))
            else fret (inl qr')
          else fret (inl qr'))
      else fret (inl qr)
  end).

Definition any_next (num_qts i : Z) : Z := if i + 1 =? num_qts then 0 else i + 1.
Definition any_start (ready_offset : option Z) (num_qts : Z) : Z :=
  match ready_offset with
  | Some o => if o + 1 <? num_qts then o + 1 else 0
  | None => 0
  end.

Fixpoint any_loop (fuel : nat) (qr : option dmtr_qresult) (ready_offset : option Z) (qts : list Z) (num_qts i : Z) :
    fn S (Z * option dmtr_qresult * option Z) :=
  match fuel with
  | O => fun _ => NoFuel
  | Datatypes.S fuel' => fbind (any_visit qr ready_offset qts i) (fun r =>
      match r with
      | inr out => fret out
      | inl qr' => any_loop fuel' qr' ready_offset qts num_qts (any_next num_qts i)
      end)
  end.

Definition dmtr_wait_any (fuel : nat) (qr_out : option dmtr_qresult) (ready_offset : option Z) (qts : list Z)
    (num_qts : Z) : fn S (Z * option dmtr_qresult * option Z) :=
  any_loop fuel qr_out ready_offset qts num_qts (any_start ready_offset num_qts).

(** ** What the loops do *)

(** [n] polls of [qt] that answer [EAGAIN]. *)
Inductive polls_again (qt : Z) : nat -> option dmtr_qresult -> S -> option dmtr_qresult -> S -> Prop :=
  | again_0 qr s : polls_again qt 0 qr s qr s
  | again_S n qr s qr1 s1 qr2 s2 :
    dmtr_poll qr qt s = Ok (EAGAIN, qr1) s1 -> polls_again qt n qr1 s1 qr2 s2 ->
    polls_again qt (Datatypes.S n) qr s qr2 s2.

Lemma wait_loop_ok fuel qr qt s ret qr' s' :
  wait_loop fuel qr qt s = Ok (ret, qr') s' <->
  exists n qr1 s1, (n < fuel)%nat /\ polls_again qt n qr s qr1 s1 /\ ret <> EAGAIN /\
    dmtr_poll qr1 qt s1 = Ok (ret, qr') s'.
Proof.
  revert qr s. induction fuel as [|fuel IH]; intros qr s; cbn [wait_loop].
  { split; [done|]. intros (n & ? & ? & ? & _). lia. }
  unfold fbind. destruct (dmtr_poll qr qt s) as [[r qr1] s1| | |] eqn:E; cbn.
  2-4: split; [done|]; intros (n & qr1 & s1 & _ & Hp & Hne & H); destruct Hp; congruence.
  destruct (r =? EAGAIN) eqn:Er; zbool.
  - subst r. rewrite IH. split.
    + intros (n & qr2 & s2 & Hn & Hp & Hne & H). exists (Datatypes.S n), qr2, s2.
      split; [lia|]. split; [by eapply again_S|done].
    + intros (n & qr2 & s2 & Hn & Hp & Hne & H). destruct Hp as [qr s|n qr s qr3 s3 qr2 s2 H1 Hp]; [congruence|].
      rewrite E in H1. injection H1 as <- <-. exists n, qr2, s2. split; [lia|done].
  - unfold fret. split.
    + intros [= <- <- <-]. exists 0%nat, qr, s. split; [lia|]. split; [by constructor|done].
    + intros (n & qr2 & s2 & Hn & Hp & Hne & H). destruct Hp as [qr s|n qr s qr3 s3 qr2 s2 H1 Hp]; congruence.
Qed.

(** [k] visits from index [i] that find nothing. *)
Inductive visits (ready_offset : option Z) (qts : list Z) (num_qts : Z) :
    nat -> option dmtr_qresult -> Z -> S -> option dmtr_qresult -> S -> Prop :=
  | visits_0 qr i s : visits ready_offset qts num_qts 0 qr i s qr s
  | visits_S k qr i s qr1 s1 qr2 s2 :
    any_visit qr ready_offset qts i s = Ok (inl qr1) s1 ->
    visits ready_offset qts num_qts k qr1 (any_next num_qts i) s1 qr2 s2 ->
    visits ready_offset qts num_qts (Datatypes.S k) qr i s qr2 s2.

Lemma any_next_mod num_qts i k :
  0 <= i < num_qts ->
  any_next num_qts ((i + Z.of_nat k) mod num_qts) = (i + Z.of_nat (Datatypes.S k)) mod num_qts.
Proof.
  intros Hi. unfold any_next. pose proof (Z.mod_pos_bound (i + Z.of_nat k) num_qts ltac:(lia)) as Hb.
  replace (i + Z.of_nat (Datatypes.S k)) with (i + Z.of_nat k + 1) by lia.
  rewrite <- (Zplus_mod_idemp_l (i + Z.of_nat k) 1 num_qts).
  destruct (_ =? num_qts) eqn:E; zbool.
  - by rewrite E, Z_mod_same_full.
  - generalize dependent ((i + Z.of_nat k) mod num_qts). intros m Hb E. rewrite Z.mod_small; lia.
Qed.

Lemma any_loop_ok fuel qr ready qts num_qts i s out s' :
  0 <= i < num_qts ->
  any_loop fuel qr ready qts num_qts i s = Ok out s' <->
  exists k qr1 s1, (k < fuel)%nat /\ visits ready qts num_qts k qr i s qr1 s1 /\
    any_visit qr1 ready qts ((i + Z.of_nat k) mod num_qts) s1 = Ok (inr out) s'.
Proof.
  revert qr i s. induction fuel as [|fuel IH]; intros qr i s Hi; cbn [any_loop].
  { split; [done|]. intros (k & ? & ? & ? & _). lia. }
  assert (Hi0 : (i + Z.of_nat 0) mod num_qts = i) by (rewrite Z.add_0_r; by apply Z.mod_small).
  assert (Hn : 0 <= any_next num_qts i < num_qts) by (unfold any_next; destruct (_ =? _) eqn:E; zbool; lia).
  assert (Hnext : forall k, (any_next num_qts i + Z.of_nat k) mod num_qts = (i + Z.of_nat (Datatypes.S k)) mod num_qts).
  { intros k. rewrite <- Hi0 at 1. rewrite any_next_mod by done. rewrite Zplus_mod_idemp_l. f_equal. lia. }
  unfold fbind. destruct (any_visit qr ready qts i s) as [[qr1|o] s1| | |] eqn:E.
  3-5: split; [done|]; intros (k & qr2 & s2 & _ & Hv & H); destruct Hv; [rewrite Hi0 in H|]; congruence.
  - rewrite IH by done. split.
    + intros (k & qr2 & s2 & Hk & Hv & H). exists (Datatypes.S k), qr2, s2.
      split; [lia|]. split; [by eapply visits_S|]. by rewrite <- Hnext.
    + intros (k & qr2 & s2 & Hk & Hv & H). destruct Hv as [qr i s|k qr i s qr3 s3 qr2 s2 H1 Hv].
      { rewrite Hi0 in H. congruence. }
      rewrite E in H1. injection H1 as <- <-. exists k, qr2, s2. split; [lia|]. split; [done|]. by rewrite Hnext.
  - unfold fret. split.
    + intros [= <- <-]. exists 0%nat, qr, s. split; [lia|]. split; [constructor|]. by rewrite Hi0.
    + intros (k & qr2 & s2 & Hk & Hv & H). destruct Hv as [qr i s|k qr i s qr3 s3 qr2 s2 H1 Hv]; [|congruence].
      rewrite Hi0, E in H. by injection H as <- <-.
Qed.

(** What a visit that returns did. *)
Lemma any_visit_returns qr ready qts i s e qr' o s' :
  any_visit qr ready qts i s = Ok (inr (e, qr', o)) s' <->
  exists qt s1, 0 <= i /\ qts !! Z.to_nat i = Some qt /\ qt <> 0 /\ dmtr_poll qr qt s = Ok (0, qr') s1 /\
    dmtr_drop qt s1 = Ok e s' /\
    o = (if e =? 0 then match ready with Some _ => Some i | None => None end else ready).
Proof.
  unfold any_visit, fbind, need. destruct (i <? 0) eqn:Ei; zbool.
  { split; [done|]. intros (? & ? & ? & _). lia. }
  destruct (qts !! Z.to_nat i) as [qt|] eqn:Eq.
  2:{ split; [done|]. intros (? & ? & ? & ? & _). congruence. }
  cbn. destruct (qt =? 0) eqn:E0; zbool; cbn.
  { split; [done|]. intros (? & ? & ? & ? & ? & _). congruence. }
  destruct (dmtr_poll qr qt s) as [[ret qr1] s1| | |] eqn:Ep.
  2-4: split; [done|]; intros (? & ? & ? & [= <-] & ? & ? & _); congruence.
  destruct (ret =? EAGAIN) eqn:Ea; zbool; cbn.
  { split; [done|]. intros (? & ? & ? & [= <-] & ? & ? & _). congruence. }
  destruct (ret =? 0) eqn:Er; zbool; cbn.
  2:{ split; [done|]. intros (? & ? & ? & [= <-] & ? & ? & _). congruence. }
  subst ret. destruct (dmtr_drop qt s1) as [e1 s2| | |] eqn:Ed; cbn.
  2-4: split; [done|]; intros (? & ? & ? & [= <-] & ? & H1 & H2 & _); rewrite Ep in H1; injection H1 as <- <-; congruence.
  split.
  - destruct (e1 =? 0) eqn:E1; zbool; cbn; intros [= <- <- <- <-]; exists qt, s1; rewrite ?(proj2 (Z.eqb_neq _ _) E1);
      repeat split; try done; subst; done.
  - intros (? & ? & ? & [= <-] & ? & H1 & H2 & ->). rewrite Ep in H1. injection H1 as <- <-.
    rewrite Ed in H2. injection H2 as <- <-. destruct (e1 =? 0) eqn:E1; zbool; cbn; [by subst|done].
Qed.
End wait.

(** ** The tokens in turn

    What a caller may rely on, without the loop: the tokens [ts] are looked at
    one after the other, a null token not being polled, and none of them is
    ready; nothing is dropped. *)
Section turns.
Context {S : Type}.
Context (dmtr_poll : option dmtr_qresult -> Z -> fn S (Z * option dmtr_qresult)) (dmtr_drop : Z -> fn S Z).

Inductive passed : list Z -> option dmtr_qresult -> S -> option dmtr_qresult -> S -> Prop :=
  | passed_nil qr s : passed [] qr s qr s
  | passed_null ts qr s qr' s' : passed ts qr s qr' s' -> passed (0 :: ts) qr s qr' s'
  | passed_poll qt ts e qr s qr1 s1 qr' s' :
    qt <> 0 -> dmtr_poll qr qt s = Ok (e, qr1) s1 -> e <> 0 -> passed ts qr1 s1 qr' s' -> passed (qt :: ts) qr s qr' s'.

(** The tokens [ts] are those of [qts] from index [first] on, round and round. *)
Definition in_turn (qts : list Z) (num_qts first : Z) (ts : list Z) : Prop :=
  forall j t, ts !! j = Some t -> qts !! Z.to_nat ((first + Z.of_nat j) mod num_qts) = Some t.

Lemma any_visit_goes_on qr ready qts i s qr' s' :
  any_visit dmtr_poll dmtr_drop qr ready qts i s = Ok (inl qr') s' <->
  0 <= i /\ exists qt, qts !! Z.to_nat i = Some qt /\
    (qt = 0 /\ qr' = qr /\ s' = s \/ qt <> 0 /\ exists e, dmtr_poll qr qt s = Ok (e, qr') s' /\ e <> 0).
Proof.
  unfold any_visit, fbind, need. destruct (i <? 0) eqn:Ei; zbool.
  { split; [done|]. intros [? _]. lia. }
  destruct (qts !! Z.to_nat i) as [qt|] eqn:Eq.
  2:{ split; [done|]. intros (_ & ? & ? & _). congruence. }
  cbn. destruct (qt =? 0) eqn:E0; zbool; cbn.
  { unfold fret. split; [intros [= <- <-]; eauto 10|]. intros (_ & ? & [= <-] & [(_ & -> & ->)|[? _]]); done. }
  destruct (dmtr_poll qr qt s) as [[ret qr1] s1| | |] eqn:Ep.
  2-4: split; [done|]; intros (_ & ? & [= <-] & [[? _]|(_ & ? & ? & _)]); congruence.
  destruct (decide (ret = 0)) as [->|Hr].
  - cbn. destruct (dmtr_drop qt s1) as [d s2| | |]; [destruct (d =? 0)|..]; (split; [done|]);
      intros (_ & ? & [= <-] & [[? _]|(_ & ? & H & ?)]); rewrite ?Ep in H; congruence.
  - rewrite (proj2 (Z.eqb_neq ret 0)) by done. destruct (ret =? EAGAIN); cbn; unfold fret; (split;
      [intros [= <- <-]; split; [done|]; exists qt; split; [done|]; right; eauto
      |intros (_ & ? & [= <-] & [[? _]|(_ & e & H & _)]); [done|]; rewrite Ep in H; by injection H as _ -> ->]).
Qed.

(** The visits that find nothing pass the tokens in turn. *)
Lemma visits_passed ready qts num_qts k qr i s qr' s' :
  0 <= i < num_qts ->
  visits dmtr_poll dmtr_drop ready qts num_qts k qr i s qr' s' <->
  exists ts, length ts = k /\ in_turn qts num_qts i ts /\ passed ts qr s qr' s'.
Proof.
  revert qr i s. induction k as [|k IH]; intros qr i s Hi.
  { split.
    - intros H. inversion H; subst. exists []. split; [done|]. split; [by intros j t Ht|constructor].
    - intros (ts & Hl & _ & Hp). destruct ts; [|done]. inversion Hp; subst. constructor. }
  assert (Hn : 0 <= any_next num_qts i < num_qts) by (unfold any_next; destruct (_ =? _) eqn:E; zbool; lia).
  assert (H0 : (i + Z.of_nat 0) mod num_qts = i) by (rewrite Z.add_0_r; by apply Z.mod_small).
  assert (Hnext : forall j, (any_next num_qts i + Z.of_nat j) mod num_qts = (i + Z.of_nat (Datatypes.S j)) mod num_qts).
  { intros j. rewrite <- H0 at 1. rewrite any_next_mod by done. rewrite Zplus_mod_idemp_l. f_equal. lia. }
  split.
  - intros H. inversion H as [|k' qr0 i0 s0 qr1 s1 qr2 s2 Hv Hr]; subst. apply any_visit_goes_on in Hv as (_ & qt & Hqt & Hv).
    apply IH in Hr as (ts & Hl & Ht & Hp); [|done]. exists (qt :: ts). split; [by rewrite <- Hl|]. split.
    + intros [|j] t Hj; [injection Hj as <-; by rewrite H0|]. rewrite <- Hnext. by apply Ht.
    + destruct Hv as [(-> & -> & ->)|(Hne & e & Hpoll & He)]; [by constructor|by eapply passed_poll].
  - intros (ts & Hl & Ht & Hp). destruct ts as [|t ts]; [done|]. injection Hl as Hl.
    pose proof (Ht 0%nat t eq_refl) as Ht0. rewrite H0 in Ht0.
    assert (Ht1 : in_turn qts num_qts (any_next num_qts i) ts) by (intros j t' Hj; rewrite Hnext; by apply (Ht (Datatypes.S j))).
    inversion Hp as [|ts' qr0 s0 qr1 s1 Hp1|qt ts' e qr0 s0 qr1 s1 qr2 s2 Hne Hpoll He Hp1]; subst.
    + eapply visits_S; [apply any_visit_goes_on; split; [lia|]; exists 0; split; [exact Ht0|]; by left|]. apply IH; eauto.
    + eapply visits_S; [apply any_visit_goes_on; split; [lia|]; exists t; split; [exact Ht0|]; right; eauto|]. apply IH; eauto.
Qed.
End turns.

(** ** When [dmtr_wait_any] ends

    [I] holds of the buffer and the state while the loop runs; [fin] are the
    tokens whose poll would answer 0 in such a state. *)
Section any_ends.
Context {S : Type}.
Context (dmtr_poll : option dmtr_qresult -> Z -> fn S (Z * option dmtr_qresult)) (dmtr_drop : Z -> fn S Z).
Context (qts : list Z) (num_qts : Z) (ready : option Z) (Hlen : num_qts = Z.of_nat (length qts)).
Context (I : option dmtr_qresult -> S -> Prop) (fin : Z -> Prop).
Context (Hpass : forall qr qt s, I qr s -> qt ∈ qts -> qt <> 0 -> ~ fin qt ->
  exists e qr' s', dmtr_poll qr qt s = Ok (e, qr') s' /\ e <> 0 /\ I qr' s').
Context (Hfin : forall qr qt s, I qr s -> qt ∈ qts -> qt <> 0 -> fin qt ->
  exists qr' s1 s', dmtr_poll qr qt s = Ok (0, qr') s1 /\ dmtr_drop qt s1 = Ok 0 s').

Lemma any_next_range i : 0 <= i < num_qts -> 0 <= any_next num_qts i < num_qts.
Proof. intros. unfold any_next. destruct (_ =? _) eqn:E; zbool; lia. Qed.
Lemma any_visit_unready qr i s qt :
  0 <= i -> qts !! Z.to_nat i = Some qt -> qt = 0 \/ ~ fin qt -> I qr s ->
  exists qr' s', any_visit dmtr_poll dmtr_drop qr ready qts i s = Ok (inl qr') s' /\ I qr' s'.
Proof.
  intros Hi Hqt Hf HI. destruct (decide (qt = 0)) as [->|Hne].
  - exists qr, s. split; [|done]. apply any_visit_goes_on. split; [done|]. exists 0. split; [done|]. by left.
  - destruct (Hpass qr qt s HI) as (e & qr' & s' & Hp & He & HI'); [by eapply list_elem_of_lookup_2|done|naive_solver|].
    exists qr', s'. split; [|done]. apply any_visit_goes_on. split; [done|]. exists qt. split; [done|]. right. eauto.
Qed.

(** The first token in turn that is ready is the one returned. *)
Lemma any_loop_first k fuel i qr s qt :
  0 <= i < num_qts -> I qr s -> (k < fuel)%nat ->
  (forall j t, (j < k)%nat -> qts !! Z.to_nat ((i + Z.of_nat j) mod num_qts) = Some t -> t = 0 \/ ~ fin t) ->
  qts !! Z.to_nat ((i + Z.of_nat k) mod num_qts) = Some qt -> qt <> 0 -> fin qt ->
  exists qr' s', any_loop dmtr_poll dmtr_drop fuel qr ready qts num_qts i s =
    Ok (0, qr', match ready with Some _ => Some ((i + Z.of_nat k) mod num_qts) | None => None end) s'.
Proof.
  revert fuel i qr s. induction k as [|k IH]; intros fuel i qr s Hi HI Hk Hbefore Hqt Hne Hf; (destruct fuel as [|fuel]; [lia|]);
    cbn [any_loop]; unfold fbind.
  - rewrite Z.add_0_r, Z.mod_small in * by done.
    destruct (Hfin qr qt s HI) as (qr' & s1 & s' & Hp & Hd); [by eapply list_elem_of_lookup_2|done..|].
    rewrite (proj2 (any_visit_returns dmtr_poll dmtr_drop qr ready qts i s 0 qr' (match ready with Some _ => Some i | None => None end) s')).
    + by do 2 eexists.
    + exists qt, s1. split; [lia|]. done.
  - destruct (lookup_lt_is_Some_2 qts (Z.to_nat i) ltac:(lia)) as [t Ht].
    assert (Hnext : forall j, (any_next num_qts i + Z.of_nat j) mod num_qts = (i + Z.of_nat (Datatypes.S j)) mod num_qts).
    { intros j. rewrite <- (Z.mod_small i num_qts) at 1 by done. replace (i mod num_qts) with ((i + Z.of_nat 0) mod num_qts) by (f_equal; lia).
      rewrite any_next_mod by done. rewrite Zplus_mod_idemp_l. f_equal. lia. }
    destruct (any_visit_unready qr i s t) as (qr1 & s1 & -> & HI1); [lia|done| |done|].
    { apply (Hbefore 0%nat); [lia|]. by rewrite Z.add_0_r, Z.mod_small. }
    destruct (IH fuel (any_next num_qts i) qr1 s1) as (qr' & s' & E); try done; [by apply any_next_range|lia| |by rewrite Hnext|].
    { intros j t' Hj Ht'. rewrite Hnext in Ht'. apply (Hbefore (Datatypes.S j)); [lia|done]. }
    exists qr', s'. by rewrite E, Hnext.
Qed.

Lemma any_loop_spins fuel i qr s :
  (forall qt, qt ∈ qts -> qt = 0 \/ ~ fin qt) -> 0 <= i < num_qts -> I qr s ->
  any_loop dmtr_poll dmtr_drop fuel qr ready qts num_qts i s = NoFuel.
Proof.
  intros Hfail. revert i qr s. induction fuel as [|fuel IH]; intros i qr s Hi HI; [done|]. cbn [any_loop]. unfold fbind.
  destruct (lookup_lt_is_Some_2 qts (Z.to_nat i) ltac:(lia)) as [t Ht].
  destruct (any_visit_unready qr i s t) as (qr1 & s1 & -> & HI1); [lia|done|by eapply Hfail, list_elem_of_lookup_2|done|].
  by apply IH; [apply any_next_range|].
Qed.
End any_ends.

Lemma any_start_range num_qts ready : 0 < num_qts -> (forall off, ready = Some off -> -1 <= off) -> 0 <= any_start ready num_qts < num_qts.
Proof.
  intros Hn Hoff. unfold any_start. destruct ready as [off|]; [|lia]. specialize (Hoff off eq_refl).
  destruct (_ <? _) eqn:E; zbool; lia.
Qed.
(** Where the turn begins: after the offset, or at the start when there is none
    or it is out of range. *)
Lemma any_start_turn ready num_qts :
  0 < num_qts -> (forall off, ready = Some off -> -1 <= off) ->
  any_start ready num_qts = match ready with Some off => Z.min (off + 1) num_qts mod num_qts | None => 0 end.
Proof.
  intros Hn Hoff. unfold any_start. destruct ready as [off|]; [|done]. specialize (Hoff off eq_refl).
  destruct (_ <? _) eqn:E; zbool; [rewrite Z.min_l, Z.mod_small by lia|rewrite Z.min_r, Z_mod_same_full by lia]; done.
Qed.

(** ** Properties *)

(** [dmtr_wait] returns exactly when some poll answers something else than
    [EAGAIN]: it polls that many times on the evolving buffer, drops the token
    once, also after an error, and returns the poll's answer, or the drop's
    error if it has one.  Fuel for one more poll than those answering [EAGAIN]
    is enough. *)
Theorem wait_correct {S} (dmtr_poll : option dmtr_qresult -> Z -> fn S (Z * option dmtr_qresult))
    (dmtr_drop : Z -> fn S Z) fuel qr qt s e qr' s' :
  dmtr_wait dmtr_poll dmtr_drop fuel qr qt s = Ok (e, qr') s' <->
  exists n qr1 s1 ret s2 d, (n < fuel)%nat /\ polls_again dmtr_poll qt n qr s qr1 s1 /\
    dmtr_poll qr1 qt s1 = Ok (ret, qr') s2 /\ ret <> EAGAIN /\ dmtr_drop qt s2 = Ok d s' /\
    e = (if d =? 0 then ret else d).
Proof.
  unfold dmtr_wait, fbind at 1. split.
  - destruct (wait_loop _ _ _ _ _) as [[ret qr2] s2| | |] eqn:E; try done.
    apply wait_loop_ok in E as (n & qr1 & s1 & Hn & Hp & Hne & H).
    unfold body, sbind, DMTR_OK, fbind. destruct (dmtr_drop qt s2) as [d s3| | |] eqn:Ed; try done.
    destruct (d =? 0) eqn:E0; cbn; intros [= <- <- <-]; exists n, qr1, s1, ret, s2, d; by rewrite E0.
  - intros (n & qr1 & s1 & ret & s2 & d & Hn & Hp & H & Hne & Hd & ->).
    rewrite (proj2 (wait_loop_ok dmtr_poll fuel qr qt s ret qr' s2)) by eauto 10.
    unfold body, sbind, DMTR_OK, fbind. rewrite Hd. by destruct (d =? 0).
Qed.

(** A library OS whose token [t] completes at time [t]: polling takes a unit of
    time, and a negative token fails. *)
Definition clock_poll (qr : option dmtr_qresult) (qt : Z) : fn Z (Z * option dmtr_qresult) := fun now =>
  Ok (if qt <? 0 then ECONNABORTED else if now <? qt then EAGAIN else 0, qr) (now + 1).
Definition clock_drop (qt : Z) : fn Z Z := fun now => Ok 0 now.

Lemma wait_correct_witness :
  dmtr_wait clock_poll clock_drop 3 None 2 0 = Ok (0, None) 3 /\
  exists n qr1 s1, (n < 3)%nat /\ polls_again clock_poll 2 n None 0 qr1 s1 /\ clock_poll qr1 2 s1 = Ok (0, None) 3.
Proof.
  assert (H : dmtr_wait clock_poll clock_drop 3 None 2 0 = Ok (0, None) 3) by reflexivity.
  split; [exact H|].
  destruct (proj1 (wait_correct clock_poll clock_drop 3 None 2 0 0 None 3) H)
    as (n & qr1 & s1 & ret & s2 & d & Hn & Hp & Hl & _ & Hd & He).
  injection Hd as <- <-. cbn in He. subst ret. exists n, qr1, s1. split; [exact Hn|]. split; [exact Hp|exact Hl].
Defined.

(** C30: [dmtr_wait_any] looks at the tokens round robin, starting after the
    offset it is given, or at the first one when there is none or it is the
    last, and returns at the first one whose poll answers 0: it drops that token
    only and stores its index.  On the way it skips null tokens, which are not
    polled, and every other answer of a poll, errors included, and drops
    nothing.  It returns like this with every fuel above the number of tokens
    passed, and only like this. *)
Theorem wait_any_correct {S} (dmtr_poll : option dmtr_qresult -> Z -> fn S (Z * option dmtr_qresult))
    (dmtr_drop : Z -> fn S Z) fuel qr ready qts num_qts s e qr' o s' :
  0 < num_qts -> (forall off, ready = Some off -> -1 <= off) ->
  let first := match ready with Some off => Z.min (off + 1) num_qts mod num_qts | None => 0 end in
  dmtr_wait_any dmtr_poll dmtr_drop fuel qr ready qts num_qts s = Ok (e, qr', o) s' <->
  exists ts qr1 s1 qt s2, (length ts < fuel)%nat /\ in_turn qts num_qts first (ts ++ [qt]) /\
    passed dmtr_poll ts qr s qr1 s1 /\ qt <> 0 /\ dmtr_poll qr1 qt s1 = Ok (0, qr') s2 /\ dmtr_drop qt s2 = Ok e s' /\
    o = (if e =? 0 then match ready with Some _ => Some ((first + Z.of_nat (length ts)) mod num_qts) | None => None end else ready).
Proof.
  intros Hnum Hoff first. unfold dmtr_wait_any. pose proof (any_start_range num_qts ready Hnum Hoff) as Hs.
  rewrite (any_start_turn ready num_qts Hnum Hoff) in *. fold first in Hs |- *. rewrite any_loop_ok by done.
  assert (Hturn : forall ts qt, in_turn qts num_qts first (ts ++ [qt]) <->
    in_turn qts num_qts first ts /\ qts !! Z.to_nat ((first + Z.of_nat (length ts)) mod num_qts) = Some qt).
  { intros ts qt. split.
    - intros H. split; [intros j t Hj; apply H; by apply lookup_app_l_Some|]. apply H. rewrite lookup_app_r, Nat.sub_diag by lia. done.
    - intros [H1 H2] j t Hj. destruct (decide (j < length ts)%nat); [rewrite lookup_app_l in Hj by done; by apply H1|].
      rewrite lookup_app_r in Hj by lia. destruct (j - length ts)%nat eqn:E; [|done]. injection Hj as <-.
      by replace j with (length ts) by lia. }
  split.
  - intros (k & qr1 & s1 & Hk & Hv & H). apply visits_passed in Hv as (ts & <- & Ht & Hp); [|done].
    apply any_visit_returns in H as (qt & s2 & _ & Hqt & H). exists ts, qr1, s1, qt, s2. rewrite Hturn. done.
  - intros (ts & qr1 & s1 & qt & s2 & Hk & Ht & Hp & H). apply Hturn in Ht as [Ht Hqt].
    exists (length ts), qr1, s1. split; [done|]. split; [apply visits_passed; eauto|].
    apply any_visit_returns. exists qt, s2. split; [|done]. apply Z.mod_pos_bound. lia.
Qed.

Lemma wait_any_correct_witness :
  dmtr_wait_any clock_poll clock_drop 9 None (Some 0) [0; 7; -1; 3] 4 0 = Ok (0, None, Some 3) 6 /\
  exists ts qt, (length ts < 9)%nat /\ in_turn [0; 7; -1; 3] 4 1 (ts ++ [qt]) /\ qt <> 0.
Proof.
  assert (H : dmtr_wait_any clock_poll clock_drop 9 None (Some 0) [0; 7; -1; 3] 4 0 = Ok (0, None, Some 3) 6)
    by reflexivity.
  split; [exact H|].
  destruct (proj1 (wait_any_correct clock_poll clock_drop 9 None (Some 0) [0; 7; -1; 3] 4 0 0 None (Some 3) 6
    ltac:(lia) ltac:(intros off [= <-]; lia)) H) as (ts & qr1 & s1 & qt & s2 & Hk & Ht & _ & Hne & _).
  exists ts, qt. split; [exact Hk|]. split; [exact Ht|exact Hne].
Defined.
