(* ===== verification/PosixOs.v ===== *)
(** * The system calls the POSIX library OS makes

    The kernel is not part of the source: it is a state [OS] with one operation
    per system call, a parameter of the model.  Each operation returns the
    call's result and [errno] ([errno] is looked at only after -1), and the
    bytes or the address the kernel writes, if any.  The theorems that depend
    on what a call does state it as hypotheses. *)
From S2P Require Import Prelude Cmd Types Memory.

Class PosixOS (OS : Type) := {
  sys_socket : Z -> Z -> Z -> OS -> Z * Z * OS;
  (** the address written, as bytes *)
  sys_getsockname : Z -> Z -> OS -> Z * Z * list Z * OS;
  (** file descriptor, level, option, value *)
  sys_setsockopt : Z -> Z -> Z -> Z -> OS -> Z * Z * OS;
  sys_bind : Z -> option (list Z) -> Z -> OS -> Z * Z * OS;
  sys_listen : Z -> Z -> OS -> Z * Z * OS;
  (** the flags, and the peer's address *)
  sys_accept4 : Z -> Z -> OS -> Z * Z * sockaddr_in * OS;
  sys_connect : Z -> option (list Z) -> Z -> OS -> Z * Z * OS;
  sys_open : list Z -> Z -> option Z -> OS -> Z * Z * OS;
  sys_creat : list Z -> Z -> OS -> Z * Z * OS;
  sys_close : Z -> OS -> Z * Z * OS;
  (** file descriptor, command and argument *)
  sys_fcntl : Z -> Z -> Z -> OS -> Z * Z * OS;
  (** the bytes read *)
  sys_read : Z -> Z -> OS -> Z * Z * list Z * OS;
  (** the contents of the vectors *)
  sys_writev : Z -> list (list Z) -> OS -> Z * Z * OS
}.

(** Constants of the system headers. *)
Definition SOCK_STREAM : Z := 1.
Definition SOCK_DGRAM : Z := 2.
Definition SOCK_NONBLOCK : Z := 2048.
Definition SOL_SOCKET : Z := 1.
Definition SO_REUSEADDR : Z := 2.
Definition IPPROTO_TCP : Z := 6.
Definition TCP_NODELAY : Z := 1.
Definition F_GETFL : Z := 3.
Definition F_SETFL : Z := 4.
Definition O_NONBLOCK : Z := 2048.

(** The world of the POSIX queues: the heap and the kernel. *)
Record pworld (OS : Type) := mk_pworld { w_heap : heap; w_os : OS }.
Arguments mk_pworld {OS}.
Arguments w_heap {OS}.
Arguments w_os {OS}.

(** ** [io_queue::set_non_blocking], over the [fcntl] call *)
Definition io_set_non_blocking {S} (fcntl : Z -> Z -> Z -> fn S (Z * Z)) (fd : Z) : fn S Z := (body (
  ' (ret, errno) <- call (fcntl fd F_GETFL 0) ;
  (if ret =? -1 then return_ errno else normal tt) ;;
  let flags := ret in
  ' (ret, errno) <- call (fcntl fd F_SETFL (Z.lor flags O_NONBLOCK)) ;
  if ret =? -1 then return_ errno else normal 0))%cmd.
