(* ===== verification/PosixQueue.v ===== *)
(** * POSIX queues: [posix/posix_queue.cc]

    A [posix_queue] is a socket or a file with up to three user threads: the
    accept worker of a listening socket, and the push and pop workers of the
    others.  The workers are coroutines; their control points are the tests of
    their loops and the places between two system calls, so that a worker may
    be suspended at every [yield()] of the code.

    A queue object of this library OS is a memory queue or a POSIX queue.  The
    table of objects and the world (heap and kernel) are the environment of
    every method, since the accept worker writes to the new connection's
    object.  [fuel] bounds the control points a worker crosses in one service. *)
From S2P Require Import Prelude Cmd Types Memory IoQueue UserThread MemoryQueue Queue MemoryVtable PosixOs.
Open Scope cmd_scope.

(** A vector of [writev]: bytes on the worker's stack, or memory. *)
Inductive iovec :=
| IovBytes (bs : list Z)
| IovMem (iov_base iov_len : Z).

(** ** Control points

    [t] is the task in hand (its slot).  Of the push worker: [while (good())];
    [while (tq.empty())]; the loop around [writev] in [net_push], with the
    vectors and [message_bytes]; the one in [file_push]. *)
Inductive px_push_k :=
| PxPushLoop
| PxPushIdle
| PxNetWritev (t : Z) (iov : list iovec) (message_bytes : Z)
| PxFileWritev (t : Z) (iov : list iovec).

(** Of the pop worker: the loop that reads the header, with the bytes read; the
    loop that reads the data, with the header decoded, the buffer, [data_bytes]
    and [ret]; the statements after it. *)
Inductive px_pop_k :=
| PxPopLoop
| PxPopIdle
| PxHeader (t : Z) (header : list Z)
| PxData (t : Z) (header : dmtr_header) (sga_buf data_bytes ret : Z).

(** Of the accept worker: its start; the loop around [accept], with the
    pointer to the new queue. *)
Inductive px_accept_k :=
| PxAcceptStart
| PxAcceptLoop
| PxAcceptIdle
| PxAcceptTry (t : Z) (new_pq : Z).

Record posix_queue := mk_posix_queue {
  px_base : io_queue;
  my_fd : Z;
  my_listening_flag : bool;
  my_tcp_flag : bool;
  px_accept_thread : option (user_thread px_accept_k);
  px_push_thread : option (user_thread px_push_k);
  px_pop_thread : option (user_thread px_pop_k);
  my_peer_saddr : Z
}.

Definition set_px_base (b : io_queue) (q : posix_queue) : posix_queue :=
  mk_posix_queue b (my_fd q) (my_listening_flag q) (my_tcp_flag q) (px_accept_thread q) (px_push_thread q) (px_pop_thread q) (my_peer_saddr q).
Definition set_my_fd (fd : Z) (q : posix_queue) : posix_queue :=
  mk_posix_queue (px_base q) fd (my_listening_flag q) (my_tcp_flag q) (px_accept_thread q) (px_push_thread q) (px_pop_thread q) (my_peer_saddr q).
Definition set_my_listening_flag (b : bool) (q : posix_queue) : posix_queue :=
  mk_posix_queue (px_base q) (my_fd q) b (my_tcp_flag q) (px_accept_thread q) (px_push_thread q) (px_pop_thread q) (my_peer_saddr q).
Definition set_my_tcp_flag (b : bool) (q : posix_queue) : posix_queue :=
  mk_posix_queue (px_base q) (my_fd q) (my_listening_flag q) b (px_accept_thread q) (px_push_thread q) (px_pop_thread q) (my_peer_saddr q).
Definition set_px_accept_thread (th : option (user_thread px_accept_k)) (q : posix_queue) : posix_queue :=
  mk_posix_queue (px_base q) (my_fd q) (my_listening_flag q) (my_tcp_flag q) th (px_push_thread q) (px_pop_thread q) (my_peer_saddr q).
Definition set_px_push_thread (th : option (user_thread px_push_k)) (q : posix_queue) : posix_queue :=
  mk_posix_queue (px_base q) (my_fd q) (my_listening_flag q) (my_tcp_flag q) (px_accept_thread q) th (px_pop_thread q) (my_peer_saddr q).
Definition set_px_pop_thread (th : option (user_thread px_pop_k)) (q : posix_queue) : posix_queue :=
  mk_posix_queue (px_base q) (my_fd q) (my_listening_flag q) (my_tcp_flag q) (px_accept_thread q) (px_push_thread q) th (my_peer_saddr q).
Definition set_my_peer_saddr (p : Z) (q : posix_queue) : posix_queue :=
  mk_posix_queue (px_base q) (my_fd q) (my_listening_flag q) (my_tcp_flag q) (px_accept_thread q) (px_push_thread q) (px_pop_thread q) p.

Definition posix_queue_ctor (qd : Z) (cid : category_id) : posix_queue :=
  mk_posix_queue (io_queue_ctor cid qd) (-1) false false None None None 0.

Definition px_good (q : posix_queue) : bool := my_fd q >? -1.

(** The objects of this library OS. *)
Inductive posix_object :=
| MemObj (q : memory_queue)
| PxObj (q : posix_queue).
Definition as_mem (o : posix_object) : option memory_queue := match o with MemObj q => Some q | _ => None end.
Definition as_px (o : posix_object) : option posix_queue := match o with PxObj q => Some q | _ => None end.

Section posix_queue.
Context {OS : Type} `{POS : PosixOS OS}.
Abbreviation env := (qenv posix_object (pworld OS)).

(** ** Access to the environment *)
Definition px_get (self : Z) : stmt env posix_queue := fun e =>
  match e_queues e !! self with
  | Some (PxObj q) => Ok (inl q) e
  | _ => Undef
  end.
Definition px_modify (self : Z) (f : posix_queue -> posix_queue) : stmt env unit :=
  call (on_object as_px PxObj self (fun q => Ok tt (f q))).
Definition px_on_base {A} (self : Z) (m : fn io_queue A) : fn env A :=
  on_object as_px PxObj self (zoom px_base set_px_base m).
Definition on_heap {A} (m : fn heap A) : fn env A :=
  zoom (fun e => w_heap (e_world e)) (fun h e => set_e_world (mk_pworld h (w_os (e_world e))) e) m.

(** A system call. *)
Definition syscall {A} (f : OS -> A * OS) : fn env A := fun e =>
  let '(a, os) := f (w_os (e_world e)) in Ok a (set_e_world (mk_pworld (w_heap (e_world e)) os) e).

(** [switch (ret) { default: DMTR_UNREACHABLE(); case 0: ...; case -1: return errno; }] *)
Definition check_call (ret errno : Z) : stmt env unit :=
  if ret =? 0 then normal tt
  else if ret =? -1 then return_ errno
  else DMTR_UNREACHABLE.

(** ** [io_queue::set_non_blocking] and [set_tcp_nodelay] *)
Definition set_non_blocking : Z -> fn env Z := io_set_non_blocking (fun fd cmd arg => syscall (sys_fcntl fd cmd arg)).

Definition set_tcp_nodelay (fd : Z) : fn env Z := body (
  ' (ret, errno) <- call (syscall (sys_setsockopt fd IPPROTO_TCP TCP_NODELAY 1)) ;
  if ret =? -1 then return_ errno else normal 0).

(** [accept(newfd_out, fd, saddr, addrlen)], with both pointers given. *)
Definition px_accept4 (fd : Z) : fn env (Z * (Z * sockaddr_in)) := body_out (-1, sockaddr_zero) (
  r <- call (syscall (sys_accept4 fd SOCK_NONBLOCK)) ;
  let '(ret, errno, addr) := r in
  if ret =? -1 then
    if errno =? EAGAIN then return_ EAGAIN
    else DMTR_FAIL errno
  else if ret <? -1 then DMTR_UNREACHABLE
  else normal (ret, addr)).

(** [read(count_out, fd, buf, len)]: the result is kept in an [int]; the bytes
    read are returned for the caller to store at [buf]. *)
Definition px_read (fd : Z) (buf_null : bool) (len : Z) : fn env (Z * list Z) := body_out [] (
  DMTR_TRUE EINVAL (negb buf_null) ;;
  DMTR_TRUE ERANGE (len <=? SSIZE_MAX) ;;
  r <- call (syscall (sys_read fd len)) ;
  let '(res, errno, bs) := r in
  let ret := i32 res in
  if ret <? -1 then DMTR_UNREACHABLE
  else if ret =? -1 then return_ errno
  else normal (take (Z.to_nat ret) bs)).

Definition iov_bytes (v : iovec) : fn env (list Z) :=
  match v with
  | IovBytes bs => fret bs
  | IovMem p n => on_heap (load_bytes p n)
  end.
Fixpoint iov_contents (iov : list iovec) : fn env (list (list Z)) :=
  match iov with
  | [] => fret []
  | v :: iov' => fbind (iov_bytes v) (fun bs => fbind (iov_contents iov') (fun bss => fret (bs :: bss)))
  end.

(** [writev(count_out, fd, iov, iovcnt)] *)
Definition px_writev (fd : Z) (iov : list iovec) : fn env (Z * Z) := body_out 0 (
  bss <- call (iov_contents iov) ;
  ' (ret, errno) <- call (syscall (sys_writev fd bss)) ;
  if ret =? -1 then
    if errno =? EAGAIN then return_ EAGAIN
    else return_ errno
  else if ret <? -1 then DMTR_UNREACHABLE
  else normal ret).

(** ** The push worker *)

(** The loop of [net_push] that fills [iov] and adds up [message_bytes], from
    the segments left to visit: an index outside [sga_segs] is undefined. *)
Fixpoint net_iov (n : Z) (segs : list dmtr_sgaseg) (message_bytes : Z) : option (list iovec * Z) :=
  if n <=? 0 then Some ([], message_bytes)
  else match segs with
       | [] => None
       | s :: segs' =>
           match net_iov (n - 1) segs' (u64 (u64 (message_bytes + sgaseg_len s) + 4)) with
           | None => None
           | Some (iov, bytes) =>
               Some (IovBytes (u32_bytes (htonl (sgaseg_len s))) :: IovMem (sgaseg_buf s) (sgaseg_len s) :: iov, bytes)
           end
       end.
Definition header_bytes (h : dmtr_header) : list Z :=
  u32_bytes (h_magic h) ++ u32_bytes (h_bytes h) ++ u32_bytes (h_sgasegs h).
(** [net_push] up to its first [writev]: the vectors and [message_bytes]. *)
Definition net_push_prepare (sga : dmtr_sgarray) : option (list iovec * Z) :=
  match net_iov (sga_numsegs sga) (sga_segs sga) 0 with
  | None => None
  | Some (iov, message_bytes) =>
      let header := mk_header (htonl DMTR_HEADER_MAGIC) (htonl (u32 message_bytes)) (htonl (sga_numsegs sga)) in
      Some (IovBytes (header_bytes header) :: iov, u64 (message_bytes + sizeof_header))
  end.
(** [file_push] up to its [writev]. *)
Fixpoint file_iov (n : Z) (segs : list dmtr_sgaseg) : option (list iovec) :=
  if n <=? 0 then Some []
  else match segs with
       | [] => None
       | s :: segs' => match file_iov (n - 1) segs' with
                       | None => None
                       | Some iov => Some (IovMem (sgaseg_buf s) (sgaseg_len s) :: iov)
                       end
       end.

(** [t->arg(sga)] and the task pointed at. *)
Definition px_task (t : Z) (q : posix_queue) : task := slot_task t (px_base q).

(** After [net_push] or [file_push]: complete the task with the error, or with
    the task's own argument. *)
Definition push_finish (self t ret : Z) : stmt env (next px_push_k) :=
  (if negb (ret =? 0) then DMTR_OK (px_on_base self (on_slot t (task_complete ret)))
   else q <- px_get self ;
        DMTR_OK (px_on_base self (on_slot t (task_complete_sga 0 (my_sga_arg (px_task t q)))))) ;;
  normal (Continue PxPushLoop).

Definition px_push_step (self : Z) (k : px_push_k) (tq : list Z) : fn env (list Z * next px_push_k) :=
  match k with
  | PxPushLoop => in_thread tq (
      q <- px_get self ;
      if px_good q then normal (Continue PxPushIdle) else return_ 0)
  | PxPushIdle =>
      match tq with
      | [] => in_thread tq (normal (Yield PxPushIdle))
      | qt :: tq => in_thread tq (
          t <- DMTR_OK_out (px_on_base self (get_task_ptr qt)) ;
          q <- px_get self ;
          let arg := task_arg_sga (px_task t q) in
          DMTR_TRUE EINVAL (match arg with Some _ => true | None => false end) ;;
          sga <- need arg ;
          len <- DMTR_OK_out (dmtr_sgalen (Some 0) (Some sga)) ;
          sgalen <- need len ;
          if sgalen =? 0 then
            DMTR_OK (px_on_base self (on_slot t (task_complete ENOMSG))) ;;
            normal (Continue PxPushLoop)
          else
            match my_cid (px_base q) with
            | NETWORK_Q =>
                r <- need (net_push_prepare sga) ;
                normal (Continue (PxNetWritev t (fst r) (snd r)))
            | FILE_Q =>
                iov <- need (file_iov (sga_numsegs sga) (sga_segs sga)) ;
                normal (Continue (PxFileWritev t iov))
            | _ => push_finish self t ENOTSUP
            end)
      end
  | PxNetWritev t iov message_bytes => in_thread tq (
      q <- px_get self ;
      ' (ret, bytes_written) <- call (px_writev (my_fd q) iov) ;
      if ret =? EAGAIN then normal (Yield (PxNetWritev t iov message_bytes))
      else push_finish self t (if bytes_written =? message_bytes then ret else ENOTSUP))
  | PxFileWritev t iov => in_thread tq (
      q <- px_get self ;
      ' (ret, bytes_written) <- call (px_writev (my_fd q) iov) ;
      if ret =? EAGAIN then normal (Yield (PxFileWritev t iov))
      else push_finish self t ret)
  end.

(** ** The pop worker *)

(** After [net_pop] or [file_pop]: an [EAGAIN] would be tried again later. *)
Definition pop_finish (self t ret : Z) (sga : dmtr_sgarray) : stmt env (next px_pop_k) :=
  if ret =? EAGAIN then normal (Yield PxPopLoop)
  else
    (if negb (ret =? 0) then DMTR_OK (px_on_base self (on_slot t (task_complete ret)))
     else DMTR_OK (px_on_base self (on_slot t (task_complete_sga 0 sga)))) ;;
    normal (Continue PxPopLoop).

Definition header_of_bytes (bs : list Z) : dmtr_header :=
  mk_header (u32_of_bytes (take 4 bs)) (u32_of_bytes (take 4 (drop 4 bs))) (u32_of_bytes (take 4 (drop 8 bs))).
Definition ntoh_header (h : dmtr_header) : dmtr_header :=
  mk_header (ntohl (h_magic h)) (ntohl (h_bytes h)) (ntohl (h_sgasegs h)).

(** The loop that fills [sga_segs], [n] segments being left and [p] being the
    place in the buffer: the lengths are read from the message. *)
Fixpoint fill_segs (fuel : nat) (n p : Z) (segs : list dmtr_sgaseg) : fn heap (list dmtr_sgaseg) :=
  if n <=? 0 then fret segs
  else match fuel, segs with
       | Datatypes.S fuel', s :: segs' =>
           fbind (load_bytes p 4) (fun bs =>
           let seglen := ntohl (u32_of_bytes bs) in
           fbind (fill_segs fuel' (n - 1) (p + 4 + seglen) segs') (fun segs' =>
           fret (mk_sgaseg (p + 4) seglen :: segs')))
       | _, _ => undef
       end.

Definition px_pop_step (self : Z) (k : px_pop_k) (tq : list Z) : fn env (list Z * next px_pop_k) :=
  match k with
  | PxPopLoop => in_thread tq (
      q <- px_get self ;
      if px_good q then normal (Continue PxPopIdle) else return_ 0)
  | PxPopIdle =>
      match tq with
      | [] => in_thread tq (normal (Yield PxPopIdle))
      | qt :: tq => in_thread tq (
          t <- DMTR_OK_out (px_on_base self (get_task_ptr qt)) ;
          q <- px_get self ;
          match my_cid (px_base q) with
          | NETWORK_Q => normal (Continue (PxHeader t []))
          | FILE_Q => pop_finish self t 0 sgarray_zero          (* [file_pop] reads nothing *)
          | _ => pop_finish self t ENOTSUP sgarray_zero
          end)
      end
  | PxHeader t header => in_thread tq (
      if Z.of_nat (length header) <? sizeof_header then
        q <- px_get self ;
        ' (ret, bs) <- call (px_read (my_fd q) false (sizeof_header - Z.of_nat (length header))) ;
        if ret =? EAGAIN then normal (Yield (PxHeader t header))
        else match bs with
             | [] => pop_finish self t ECONNABORTED sgarray_zero
             | _ => normal (Continue (PxHeader t (header ++ bs)))
             end
      else
        let h := ntoh_header (header_of_bytes header) in
        if negb (DMTR_HEADER_MAGIC =? h_magic h) then pop_finish self t EILSEQ sgarray_zero
        else
          r <- DMTR_OK_out (on_heap (dmtr_malloc (Some 0) (h_bytes h))) ;
          sga_buf <- need r ;
          normal (Continue (PxData t h sga_buf 0 (-1))))
  | PxData t h sga_buf data_bytes ret => in_thread tq (
      if data_bytes <? h_bytes h then
        q <- px_get self ;
        let p := sga_buf + data_bytes in
        ' (ret, bs) <- call (px_read (my_fd q) (p =? 0) (h_bytes h - data_bytes)) ;
        call (on_heap (store_bytes p bs)) ;;
        if ret =? EAGAIN then normal (Yield (PxData t h sga_buf data_bytes ret))
        else match bs with
             | [] =>
                 (* [buf] owns the memory and releases it on the way out *)
                 call (on_heap (free sga_buf)) ;;
                 pop_finish self t ECONNABORTED sgarray_zero
             | _ => normal (Continue (PxData t h sga_buf (data_bytes + Z.of_nat (length bs)) ret))
             end
      else if negb (ret =? 0) then
        call (on_heap (free sga_buf)) ;;
        pop_finish self t ret sgarray_zero
      else
        segs <- call (on_heap (fill_segs DMTR_SGARRAY_MAXSIZE (h_sgasegs h) sga_buf (sga_segs sgarray_zero))) ;
        pop_finish self t 0 (mk_sgarray sga_buf (h_sgasegs h) segs sockaddr_zero))
  end.

(** ** Starting the workers *)
Context (fuel : nat).

(** Destroying a suspended pop worker unwinds its stack: the [unique_ptr] of
    [net_pop] frees the buffer of the message it was reading. *)
Definition destroy_pop_thread (th : option (user_thread px_pop_k)) : fn heap unit :=
  match th with
  | Some (mk_user_thread _ _ (Some (PxData _ _ sga_buf _ _))) => free sga_buf
  | _ => fret tt
  end.
(** [my_pop_thread.reset(...)]: the new thread is made first, the old one destroyed. *)
Definition reset_pop_thread (self : Z) (th : user_thread px_pop_k) : fn env unit :=
  fbind (px_get self) (fun r => match r with
  | inr _ => undef
  | inl q =>
      fbind (px_modify self (set_px_pop_thread (Some th))) (fun _ => on_heap (destroy_pop_thread (px_pop_thread q)))
  end).

(** A push or pop worker of a queue that is not listening; [reset] stores the
    thread once its constructor has run it to its first yield. *)
Definition start_io_threads (self : Z) : fn env unit :=
  fbind (user_thread_ctor (px_push_step self) fuel PxPushLoop) (fun th =>
  fbind (px_modify self (set_px_push_thread (Some th))) (fun _ =>
  fbind (user_thread_ctor (px_pop_step self) fuel PxPopLoop) (fun th =>
  reset_pop_thread self th))).

(** ** The accept worker *)
Definition px_accept_step (self : Z) (k : px_accept_k) (tq : list Z) : fn env (list Z * next px_accept_k) :=
  match k with
  | PxAcceptStart => in_thread tq (
      q <- px_get self ;
      DMTR_TRUE EINVAL (px_good q) ;;
      DMTR_TRUE EINVAL (my_listening_flag q) ;;
      DMTR_TRUE EINVAL (my_tcp_flag q) ;;
      normal (Continue PxAcceptLoop))
  | PxAcceptLoop => in_thread tq (
      q <- px_get self ;
      if px_good q then normal (Continue PxAcceptIdle) else return_ 0)
  | PxAcceptIdle =>
      match tq with
      | [] => in_thread tq (normal (Yield PxAcceptIdle))
      | qt :: tq => in_thread tq (
          t <- DMTR_OK_out (px_on_base self (get_task_ptr qt)) ;
          q <- px_get self ;
          let arg := task_arg_queue (px_task t q) in
          DMTR_TRUE EINVAL (match arg with Some _ => true | None => false end) ;;
          new_q <- need arg ;
          (* [dynamic_cast]: the object must exist *)
          e <- get ;
          obj <- need (e_queues e !! new_q) ;
          DMTR_NOTNULL EINVAL (as_px obj) ;;
          normal (Continue (PxAcceptTry t new_q)))
      end
  | PxAcceptTry t new_pq => in_thread tq (
      q <- px_get self ;
      r <- call (px_accept4 (my_fd q)) ;
      let '(ret, (new_fd, addr)) := r in
      if ret =? EAGAIN then normal (Yield (PxAcceptTry t new_pq))
      else if negb (ret =? 0) then
        DMTR_OK (px_on_base self (on_slot t (task_complete ret))) ;;
        normal (Continue PxAcceptLoop)
      else
        DMTR_OK (set_tcp_nodelay new_fd) ;;
        DMTR_OK (set_non_blocking new_fd) ;;
        px_modify new_pq (set_my_fd new_fd) ;;
        px_modify new_pq (set_my_tcp_flag true) ;;
        px_modify new_pq (set_my_listening_flag false) ;;
        call (start_io_threads new_pq) ;;
        pq <- px_get new_pq ;
        DMTR_OK (px_on_base self (on_slot t (task_complete_ares 0 (my_qd (px_base pq)) addr))) ;;
        normal (Continue PxAcceptLoop))
  end.

Definition start_threads (self : Z) : fn env unit :=
  fbind (px_get self) (fun r => match r with
  | inr _ => undef
  | inl q =>
      if my_listening_flag q then
        fbind (user_thread_ctor (px_accept_step self) fuel PxAcceptStart) (fun th =>
        fbind (px_modify self (set_px_accept_thread (Some th))) (fun _ => fret tt))
      else start_io_threads self
  end).

(** ** The methods *)
Definition new_net_object (qd : Z) : fn (pworld OS) (Z * option posix_object) :=
  fret (0, Some (PxObj (posix_queue_ctor qd NETWORK_Q))).
Definition new_file_object (qd : Z) : fn (pworld OS) (Z * option posix_object) :=
  fret (0, Some (PxObj (posix_queue_ctor qd FILE_Q))).

Definition px_socket (self domain type protocol : Z) : fn env Z := body (
  ' (fd, errno) <- call (syscall (sys_socket domain type protocol)) ;
  (if fd =? -1 then return_ errno else normal tt) ;;
  (if type =? SOCK_STREAM then
     DMTR_OK (set_tcp_nodelay fd) ;;
     px_modify self (set_my_tcp_flag true)
   else if type =? SOCK_DGRAM then
     DMTR_OK (set_non_blocking fd) ;;
     px_modify self (set_my_tcp_flag false)
   else return_ ENOTSUP) ;;
  px_modify self (set_my_fd fd) ;;
  normal 0).

Definition px_getsockname (self : Z) (saddr : bool) (size : option Z) : fn env (Z * option (list Z)) := body_out None (
  DMTR_TRUE EINVAL saddr ;;
  DMTR_NOTNULL EINVAL size ;;
  n <- need size ;
  DMTR_TRUE ERANGE (n >? 0) ;;
  q <- px_get self ;
  r <- call (syscall (sys_getsockname (my_fd q) n)) ;
  let '(ret, errno, bs) := r in
  check_call ret errno ;;
  normal (Some bs)).

Definition px_bind (self : Z) (saddr : option (list Z)) (size : Z) : fn env Z := body (
  q <- px_get self ;
  DMTR_TRUE EINVAL (negb (my_fd q =? -1)) ;;
  ' (ret, errno) <- call (syscall (sys_setsockopt (my_fd q) SOL_SOCKET SO_REUSEADDR 1)) ;
  check_call ret errno ;;
  ' (ret, errno) <- call (syscall (sys_bind (my_fd q) saddr size)) ;
  check_call ret errno ;;
  normal 0).

Definition px_accept (self qt new_qd : Z) : fn env (Z * option posix_object) := body_out None (
  q <- px_get self ;
  DMTR_TRUE EINVAL (my_listening_flag q) ;;
  DMTR_TRUE EINVAL (my_tcp_flag q) ;;
  DMTR_NOTNULL EINVAL (px_accept_thread q) ;;
  let new_q := posix_queue_ctor new_qd NETWORK_Q in
  DMTR_OK (px_on_base self (new_task_queue qt DMTR_OPC_ACCEPT new_qd)) ;;
  px_modify self (fun q => set_px_accept_thread (th_enqueue qt <$> px_accept_thread q) q) ;;
  normal (Some (PxObj new_q))).

Definition px_listen (self backlog : Z) : fn env Z := body (
  q <- px_get self ;
  DMTR_TRUE EINVAL (negb (my_fd q =? -1)) ;;
  ' (res, errno) <- call (syscall (sys_listen (my_fd q) backlog)) ;
  check_call res errno ;;
  px_modify self (set_my_listening_flag true) ;;
  DMTR_OK (set_non_blocking (my_fd q)) ;;
  call (start_threads self) ;;
  normal 0).

(** [memcpy] of the first [size] bytes at [saddr]. *)
Definition saddr_prefix (saddr : option (list Z)) (size : Z) : option (list Z) :=
  match saddr with
  | Some bs => if Z.of_nat (length bs) <? size then None else Some (take (Z.to_nat size) bs)
  | None => if size =? 0 then Some [] else None
  end.

Definition px_connect (self qt : Z) (saddr : option (list Z)) (size : Z) : fn env Z := body (
  q <- px_get self ;
  DMTR_TRUE EINVAL (negb (my_fd q =? -1)) ;;
  DMTR_TRUE EPERM (my_peer_saddr q =? 0) ;;
  DMTR_OK (px_on_base self (new_task qt DMTR_OPC_CONNECT)) ;;
  t <- DMTR_OK_out (px_on_base self (get_task_ptr qt)) ;
  ' (res, errno) <- call (syscall (sys_connect (my_fd q) saddr size)) ;
  if res =? -1 then
    DMTR_OK (px_on_base self (on_slot t (task_complete errno))) ;;
    normal 0
  else if res =? 0 then
    DMTR_OK (set_non_blocking (my_fd q)) ;;
    p <- call (on_heap (malloc size)) ;
    DMTR_TRUE ENOMEM (negb (p =? 0)) ;;
    bs <- need (saddr_prefix saddr size) ;
    call (on_heap (store_bytes p bs)) ;;
    px_modify self (set_my_peer_saddr p) ;;
    call (start_threads self) ;;
    DMTR_OK (px_on_base self (on_slot t (task_complete 0))) ;;
    normal 0
  else DMTR_UNREACHABLE).

Definition px_open (self : Z) (pathname : list Z) (flags : Z) : fn env Z := body (
  ' (fd, errno) <- call (syscall (sys_open pathname flags None)) ;
  (if fd =? -1 then return_ errno else normal tt) ;;
  px_modify self (set_my_fd fd) ;;
  call (start_threads self) ;;
  normal 0).
Definition px_open2 (self : Z) (pathname : list Z) (flags mode : Z) : fn env Z := body (
  ' (fd, errno) <- call (syscall (sys_open pathname flags (Some mode))) ;
  (if fd =? -1 then return_ errno else normal tt) ;;
  px_modify self (set_my_fd fd) ;;
  call (start_threads self) ;;
  normal 0).
Definition px_creat (self : Z) (pathname : list Z) (mode : Z) : fn env Z := body (
  ' (fd, errno) <- call (syscall (sys_creat pathname mode)) ;
  (if fd =? -1 then return_ errno else normal tt) ;;
  px_modify self (set_my_fd fd) ;;
  call (start_threads self) ;;
  normal 0).

Definition px_close (self : Z) : fn env Z := body (
  q <- px_get self ;
  if my_fd q =? -1 then normal 0
  else
    let fd := my_fd q in
    px_modify self (set_my_fd (-1)) ;;
    ' (ret, errno) <- call (syscall (sys_close fd)) ;
    check_call ret errno ;;
    r <- call io_queue_close ;
    normal r).

(** Servicing a worker: the thread pointer must not be null. *)
Definition px_service_push (self : Z) : fn env Z := body (
  q <- px_get self ;
  th <- need (px_push_thread q) ;
  ' (ret, th) <- call (service (px_push_step self) fuel th) ;
  px_modify self (set_px_push_thread (Some th)) ;;
  normal ret).
Definition px_service_pop (self : Z) : fn env Z := body (
  q <- px_get self ;
  th <- need (px_pop_thread q) ;
  ' (ret, th) <- call (service (px_pop_step self) fuel th) ;
  px_modify self (set_px_pop_thread (Some th)) ;;
  normal ret).
Definition px_service_accept (self : Z) : fn env Z := body (
  q <- px_get self ;
  th <- need (px_accept_thread q) ;
  ' (ret, th) <- call (service (px_accept_step self) fuel th) ;
  px_modify self (set_px_accept_thread (Some th)) ;;
  normal ret).

Definition px_push (self qt : Z) (sga : dmtr_sgarray) : fn env Z := body (
  q <- px_get self ;
  DMTR_TRUE EINVAL (negb (my_fd q =? -1)) ;;
  DMTR_TRUE ENOTSUP (negb (my_listening_flag q)) ;;
  DMTR_NOTNULL EINVAL (px_push_thread q) ;;
  DMTR_OK (px_on_base self (new_task_sga qt DMTR_OPC_PUSH sga)) ;;
  px_modify self (fun q => set_px_push_thread (th_enqueue qt <$> px_push_thread q) q) ;;
  _ <- call (px_service_push self) ;
  normal 0).

Definition px_pop (self qt : Z) : fn env Z := body (
  q <- px_get self ;
  DMTR_TRUE EINVAL (negb (my_fd q =? -1)) ;;
  DMTR_TRUE ENOTSUP (negb (my_listening_flag q)) ;;
  DMTR_NOTNULL EINVAL (px_pop_thread q) ;;
  DMTR_OK (px_on_base self (new_task qt DMTR_OPC_POP)) ;;
  px_modify self (fun q => set_px_pop_thread (th_enqueue qt <$> px_pop_thread q) q) ;;
  normal 0).

(** The switch on the opcode in [poll]: which workers run. *)
Definition px_poll_service (self : Z) (op : dmtr_opcode) : stmt env Z :=
  match op with
  | DMTR_OPC_ACCEPT => call (px_service_accept self)
  | DMTR_OPC_POP | DMTR_OPC_PUSH =>
      ret <- call (px_service_pop self) ;
      if negb (ret =? EAGAIN) then normal ret else call (px_service_push self)
  | DMTR_OPC_CONNECT => normal 0
  | DMTR_OPC_INVALID => return_ ENOTSUP
  end.

Definition px_poll (self : Z) (qr_out : dmtr_qresult) (qt : Z) : fn env (Z * dmtr_qresult) :=
  fbind (px_get self) (fun r => match r with
  | inr _ => undef
  | inl q =>
      match initialize_result (my_qd (px_base q)) qt qr_out with
      | Ok err qr =>
          fbind (
            DMTR_OK (fret err) ;;
            DMTR_TRUE EINVAL (px_good q) ;;
            t <- DMTR_OK_out (px_on_base self (get_task_ptr qt)) ;
            q <- px_get self ;
            ret <- px_poll_service self (task_opcode (px_task t q)) ;
            (if ret =? EAGAIN then normal tt
             else if ret =? 0 then
               q <- px_get self ;
               if negb (opcode_eqb DMTR_OPC_CONNECT (task_opcode (px_task t q))) then DMTR_UNREACHABLE
               else normal tt
             else DMTR_FAIL ret) ;;
            q <- px_get self ;
            normal (task_poll qr (px_task t q)))
          (fun r => match r with inl a => fret a | inr e => fret (e, qr) end)
      | _ => undef
      end
  end).

Definition px_drop (self qt : Z) : fn env Z := px_on_base self (io_queue_drop qt).

(** ** The vtable *)
Definition px_vcall (self : Z) (c : vcall) : fn env Z :=
  match c with
  | VSocket d t p => px_socket self d t p
  | VListen b => px_listen self b
  | VBind a n => px_bind self a n
  | VConnect qt a n => px_connect self qt a n
  | VOpen p f => px_open self p f
  | VOpen2 p f m => px_open2 self p f m
  | VCreat p m => px_creat self p m
  | VClose => px_close self
  | VPush qt sga => px_push self qt sga
  | VPop qt => px_pop self qt
  | VDrop qt => px_drop self qt
  end.

(** Virtual dispatch on the object pointed at. *)
Definition dispatch {A} (self : Z) (mem : fn memory_queue A) (px : fn env A) : fn env A := fun e =>
  match e_queues e !! self with
  | None => Undef
  | Some (MemObj _) => on_object as_mem MemObj self mem e
  | Some (PxObj _) => px e
  end.

Definition posix_base (o : posix_object) : io_queue := match o with MemObj q => mq_base q | PxObj q => px_base q end.
Definition set_posix_base (b : io_queue) (o : posix_object) : posix_object :=
  match o with MemObj q => MemObj (set_mq_base b q) | PxObj q => PxObj (set_px_base b q) end.

(** The destructor; a queue owns no memory but what its pop worker holds. *)
Definition posix_destroy (o : posix_object) : fn (pworld OS) unit :=
  match o with
  | MemObj _ => fret tt
  | PxObj q => zoom w_heap (fun h w => mk_pworld h (w_os w)) (destroy_pop_thread (px_pop_thread q))
  end.

#[export] Instance posix_vtable : Queue posix_object (pworld OS) := {|
  q_base := posix_base;
  set_q_base := set_posix_base;
  q_vcall p c := dispatch p (mq_vcall c) (px_vcall p c);
  q_getsockname p saddr size := dispatch p (fret (ENOTSUP, None)) (px_getsockname p saddr size);
  q_accept p qt new_qd := dispatch p (fret (ENOTSUP, None)) (px_accept p qt new_qd);
  q_poll p qr qt := dispatch p (mq_poll qr qt) (px_poll p qr qt);
  q_destroy := posix_destroy
|}.
End posix_queue.
