(* ===== verification/PosixLaws.v ===== *)
(** * POSIX queues keep the promises of the queue interface

    No method of a queue, and no worker in any of its steps, creates or removes
    an object or touches a descriptor or a token counter; [accept] makes an
    object with the descriptor it is given. *)
From S2P Require Import Prelude Cmd Types Memory IoQueue UserThread MemoryQueue Queue MemoryVtable PosixOs PosixQueue.

Section laws.
Context {OS : Type} `{POS : PosixOS OS} (fuel : nat).
Abbreviation env := (qenv posix_object (pworld OS)).
Abbreviation vtable := (posix_vtable fuel).
Abbreviation shape := (same_shape (H := vtable)).

Lemma as_px_base (o : posix_object) q : as_px o = Some q -> posix_base o = px_base q.
Proof. by destruct o as [|q']; [|intros [= ->]]. Qed.
Lemma as_mem_base (o : posix_object) q : as_mem o = Some q -> posix_base o = mq_base q.
Proof. by destruct o as [q'|]; [intros [= ->]|]. Qed.

Lemma keeps_px_get self : keeps shape (px_get self).
Proof.
  intros e. unfold post, px_get. destruct (e_queues e !! self) as [[|q]|]; first [done|apply (same_shape_refl (H := vtable))].
Qed.
Lemma keeps_px_modify self f : (forall q, px_base (f q) = px_base q) -> keeps shape (px_modify self f).
Proof.
  intros Hf. apply keeps_call; [apply _|]. intros e.
  apply (on_object_shape (H := vtable) _ _ px_base); [apply as_px_base|done|].
  intros q. unfold post, same_base. by rewrite Hf.
Qed.
Lemma keeps_px_on_base {A} self (m : fn io_queue A) :
  (forall b, wlp m (fun _ b' => same_base b b') b) -> keeps shape (px_on_base self m).
Proof.
  intros Hm e. apply (on_object_shape (H := vtable) _ _ px_base); [apply as_px_base|done|].
  intros q. rewrite post_zoom. eapply post_mono; [apply Hm|done].
Qed.
Lemma keeps_on_heap {A} (m : fn heap A) : keeps shape (on_heap m).
Proof. intros e. unfold post, on_heap, zoom. destruct (m _); first [done|apply (same_shape_world (H := vtable))]. Qed.
Lemma keeps_syscall {A} (f : OS -> A * OS) : keeps shape (syscall f).
Proof. intros e. unfold post, syscall. destruct (f _). apply (same_shape_world (H := vtable)). Qed.
Lemma keeps_check_call ret errno : keeps shape (check_call ret errno).
Proof. unfold check_call. destruct (ret =? 0); [by keeps_step|]. destruct (ret =? -1); by keeps_step. Qed.
End laws.

(** One step of these proofs; conditionals and matches are split. *)
Ltac px_keeps :=
  repeat first
  [ keeps_step
  | apply keeps_px_get | apply keeps_px_modify; done | apply keeps_on_heap | apply keeps_syscall | apply keeps_check_call
  | apply keeps_px_on_base; first [apply get_task_ptr_base | apply on_slot_base]
  | lazymatch goal with |- keeps _ (match ?x with _ => _ end) => destruct x end
  | lazymatch goal with |- keeps _ (let '(_, _) := ?x in _) => destruct x end ].

Section methods.
Context {OS : Type} `{POS : PosixOS OS} (fuel : nat).
Abbreviation env := (qenv posix_object (pworld OS)).
Abbreviation shape := (same_shape (H := posix_vtable fuel)).

Lemma keeps_set_non_blocking fd : keeps shape (set_non_blocking fd).
Proof. unfold set_non_blocking, io_set_non_blocking. px_keeps. Qed.
Lemma keeps_set_tcp_nodelay fd : keeps shape (set_tcp_nodelay fd).
Proof. unfold set_tcp_nodelay. px_keeps. Qed.
Lemma keeps_px_accept4 fd : keeps shape (px_accept4 fd).
Proof. unfold px_accept4. px_keeps. Qed.
Lemma keeps_px_read fd b n : keeps shape (px_read fd b n).
Proof. unfold px_read. px_keeps. Qed.
Lemma keeps_iov_contents iov : keeps shape (iov_contents iov).
Proof.
  induction iov as [|v iov IH]; cbn [iov_contents]; [px_keeps|].
  keeps_step; [unfold iov_bytes; px_keeps|]. keeps_step; [exact IH|px_keeps].
Qed.
Lemma keeps_px_writev fd iov : keeps shape (px_writev fd iov).
Proof. unfold px_writev. px_keeps. apply keeps_iov_contents. Qed.
Lemma keeps_sgalen len sga : keeps shape (dmtr_sgalen len sga).
Proof. unfold dmtr_sgalen. px_keeps. Qed.

Lemma keeps_push_finish self t ret : keeps shape (push_finish self t ret).
Proof. unfold push_finish. px_keeps. Qed.
Lemma keeps_px_push_step self k tq : keeps shape (px_push_step self k tq).
Proof.
  destruct k; [|destruct tq| |]; unfold px_push_step, in_thread; px_keeps;
    try apply keeps_push_finish; try apply keeps_px_writev; try apply keeps_sgalen.
Qed.
Lemma keeps_pop_finish self t ret sga : keeps shape (pop_finish self t ret sga).
Proof. unfold pop_finish. px_keeps. Qed.
Lemma keeps_px_pop_step self k tq : keeps shape (px_pop_step self k tq).
Proof.
  destruct k; [|destruct tq| |]; unfold px_pop_step, in_thread; px_keeps;
    try apply keeps_pop_finish; try apply keeps_px_read.
Qed.
Lemma keeps_start_io_threads self : keeps shape (start_io_threads fuel self).
Proof.
  unfold start_io_threads, reset_pop_thread, user_thread_ctor. px_keeps; apply keeps_run; try apply _.
  - apply keeps_px_push_step.
  - apply keeps_px_pop_step.
Qed.
Lemma keeps_px_accept_step self k tq : keeps shape (px_accept_step fuel self k tq).
Proof.
  destruct k; [| |destruct tq|]; unfold px_accept_step, in_thread; px_keeps;
    try apply keeps_px_accept4; try apply keeps_set_tcp_nodelay; try apply keeps_set_non_blocking;
    try apply keeps_start_io_threads.
Qed.
Lemma keeps_start_threads self : keeps shape (start_threads fuel self).
Proof.
  unfold start_threads, user_thread_ctor. px_keeps; [|apply keeps_start_io_threads].
  apply keeps_run; [apply _|apply keeps_px_accept_step].
Qed.

Lemma keeps_px_socket self d t p : keeps shape (px_socket self d t p).
Proof. unfold px_socket. px_keeps; try apply keeps_set_tcp_nodelay; apply keeps_set_non_blocking. Qed.
Lemma keeps_px_getsockname self a n : keeps shape (px_getsockname self a n).
Proof. unfold px_getsockname. px_keeps. Qed.
Lemma keeps_px_bind self a n : keeps shape (px_bind self a n).
Proof. unfold px_bind. px_keeps. Qed.
Lemma keeps_px_listen self b : keeps shape (px_listen fuel self b).
Proof. unfold px_listen. px_keeps; [apply keeps_set_non_blocking|apply keeps_start_threads]. Qed.
Lemma keeps_px_connect self qt a n : keeps shape (px_connect fuel self qt a n).
Proof.
  unfold px_connect. px_keeps; try apply keeps_set_non_blocking; try apply keeps_start_threads.
  apply keeps_px_on_base. exact (run_cmd_base (CNew DMTR_OPC_CONNECT) qt).
Qed.
Lemma keeps_px_open self p f : keeps shape (px_open fuel self p f).
Proof. unfold px_open. px_keeps. apply keeps_start_threads. Qed.
Lemma keeps_px_open2 self p f m : keeps shape (px_open2 fuel self p f m).
Proof. unfold px_open2. px_keeps. apply keeps_start_threads. Qed.
Lemma keeps_px_creat self p m : keeps shape (px_creat fuel self p m).
Proof. unfold px_creat. px_keeps. apply keeps_start_threads. Qed.
Lemma keeps_px_close self : keeps shape (px_close self).
Proof. unfold px_close, io_queue_close. px_keeps. Qed.

Lemma keeps_px_service_push self : keeps shape (px_service_push fuel self).
Proof. unfold px_service_push. px_keeps. apply keeps_service; [apply _|apply keeps_px_push_step]. Qed.
Lemma keeps_px_service_pop self : keeps shape (px_service_pop fuel self).
Proof. unfold px_service_pop. px_keeps. apply keeps_service; [apply _|apply keeps_px_pop_step]. Qed.
Lemma keeps_px_service_accept self : keeps shape (px_service_accept fuel self).
Proof. unfold px_service_accept. px_keeps. apply keeps_service; [apply _|apply keeps_px_accept_step]. Qed.

Lemma keeps_px_push self qt sga : keeps shape (px_push fuel self qt sga).
Proof.
  unfold px_push. px_keeps; [|apply keeps_px_service_push].
  apply keeps_px_on_base. exact (run_cmd_base (CNewSga DMTR_OPC_PUSH sga) qt).
Qed.
Lemma keeps_px_pop self qt : keeps shape (px_pop self qt).
Proof. unfold px_pop. px_keeps. apply keeps_px_on_base. exact (run_cmd_base (CNew DMTR_OPC_POP) qt). Qed.
Lemma keeps_px_poll self qr qt : keeps shape (px_poll fuel self qr qt).
Proof.
  unfold px_poll. px_keeps. unfold px_poll_service.
  px_keeps; first [apply keeps_px_service_accept|apply keeps_px_service_pop|apply keeps_px_service_push].
Qed.
Lemma keeps_px_drop self qt : keeps shape (px_drop self qt).
Proof. apply keeps_px_on_base. exact (run_cmd_base CDrop qt). Qed.

Lemma keeps_px_vcall self c : keeps shape (px_vcall fuel self c).
Proof.
  destruct c; cbn [px_vcall].
  - apply keeps_px_socket.
  - apply keeps_px_listen.
  - apply keeps_px_bind.
  - apply keeps_px_connect.
  - apply keeps_px_open.
  - apply keeps_px_open2.
  - apply keeps_px_creat.
  - apply keeps_px_close.
  - apply keeps_px_push.
  - apply keeps_px_pop.
  - apply keeps_px_drop.
Qed.

Lemma keeps_dispatch {A} self (mem : fn memory_queue A) (px : fn env A) :
  keeps same_mq_base mem -> keeps shape px -> keeps shape (dispatch self mem px).
Proof.
  intros Hm Hp e. unfold post, dispatch. destruct (e_queues e !! self) as [[q|q]|] eqn:Eq; [|apply Hp|done].
  apply (on_object_shape (H := posix_vtable fuel) as_mem MemObj mq_base); [apply as_mem_base|done|exact Hm].
Qed.

Lemma keeps_px_accept self qt qd : keeps shape (px_accept self qt qd).
Proof.
  unfold PosixQueue.px_accept. px_keeps. apply keeps_px_on_base. exact (run_cmd_base (CNewQueue DMTR_OPC_ACCEPT qd) qt).
Qed.
Lemma px_accept_object self qt qd e :
  wlp (px_accept (OS := OS) self qt qd) (fun r _ => fst r = 0 -> snd r = Some (PxObj (posix_queue_ctor qd NETWORK_Q))) e.
Proof.
  unfold px_accept. apply (returns_body_out None _ (fun o => o = Some (PxObj (posix_queue_ctor qd NETWORK_Q)))).
  apply returns_sbind.
  { intros s. unfold post, px_get. destruct (e_queues s !! self) as [[|]|]; done. }
  intros q. apply returns_sbind; [by apply returns_TRUE|intros _].
  apply returns_sbind; [by apply returns_TRUE|intros _].
  apply returns_sbind; [by apply returns_TRUE|intros _].
  apply returns_sbind; [apply returns_OK|intros _].
  apply returns_sbind; [apply returns_call|intros _]. by apply returns_normal.
Qed.

#[export] Instance posix_laws : QueueLaws posix_object (pworld OS) (H := posix_vtable fuel).
Proof.
  constructor.
  - by intros b [q|q].
  - intros p c e. apply keeps_dispatch; [apply mq_vcall_keeps|apply keeps_px_vcall].
  - intros p a n e. apply keeps_dispatch; [by keeps_step|apply keeps_px_getsockname].
  - intros p qr qt e. apply keeps_dispatch; [apply mq_poll_keeps|apply keeps_px_poll].
  - intros p qt qd e. apply post_and.
    + apply keeps_dispatch; [by keeps_step|apply keeps_px_accept].
    + unfold post, q_accept; cbn. unfold dispatch. destruct (e_queues e !! p) as [[q|q]|] eqn:Eq; [| |done].
      * unfold on_object. rewrite Eq. cbn. done.
      * pose proof (px_accept_object p qt qd e) as H. unfold post in H. destruct (px_accept _ _ _ _) as [r e'| | |]; try done.
        intros Hr. exists (PxObj (posix_queue_ctor qd NETWORK_Q)). by rewrite (H Hr).
Qed.
End methods.
