(* ===== verification/PosixWire.v ===== *)
(** * The wire format of POSIX queues

    What [net_push] writes for a scatter/gather array and what [net_pop] reads
    back from a stream, whatever the sizes of the pieces in which the kernel
    delivers it. *)
From S2P Require Import Prelude Cmd Types Memory IoQueue Contents UserThread MemoryQueue Queue MemoryVtable PosixOs PosixQueue.

(** The format: three big endian words, the magic number, the length of what
    follows and the number of segments, and then each segment after its
    length. *)
Definition wire_payload (segs : list (list Z)) : list Z := concat ((fun s => be32 (len32 s) ++ s) <$> segs).
Definition wire_header (segs : list (list Z)) : list Z :=
  be32 DMTR_HEADER_MAGIC ++ be32 (len32 (wire_payload segs)) ++ be32 (Z.of_nat (length segs)).
#[global] Arguments wire_payload : simpl never.
Definition wire_message (segs : list (list Z)) : list Z := wire_header segs ++ wire_payload segs.

Lemma length_wire_header segs : length (wire_header segs) = 12%nat.
Proof. unfold wire_header. by rewrite !length_app, !length_be32. Qed.
Lemma length_payload1 data : length (wire_payload [data]) = (4 + length data)%nat.
Proof. unfold wire_payload. cbn. by rewrite app_nil_r, length_app, length_be32. Qed.
(** ** Sending *)
Section sending.
Context {OS : Type} `{POS : PosixOS OS}.
Abbreviation env := (qenv posix_object (pworld OS)).

(** The vectors [net_push] gives to [writev], for a one-segment array whose
    memory holds [data]. *)
Definition wire_iov (p : Z) (data : list Z) : list iovec :=
  [IovBytes (wire_header [data]); IovBytes (be32 (len32 data)); IovMem p (len32 data)].
Definition wire_vectors (data : list Z) : list (list Z) := [wire_header [data]; be32 (len32 data); data].

Lemma wire_vectors_concat data : concat (wire_vectors data) = wire_message [data].
Proof. unfold wire_vectors, wire_message, wire_payload. cbn. by rewrite !app_nil_r. Qed.
Lemma len32_message data : len32 (wire_message [data]) = 16 + len32 data.
Proof. unfold wire_message, len32. rewrite length_app, length_wire_header, length_payload1. lia. Qed.

Lemma net_push_prepare_eq sga p data :
  sga_numsegs sga = 1 -> sga_segs sga = [mk_sgaseg p (len32 data)] -> len32 data < 2 ^ 32 - 4 ->
  net_push_prepare sga = Some (wire_iov p data, len32 (wire_message [data])).
Proof.
  intros Hn Hs Hlen. change (2 ^ 32) with 4294967296 in Hlen. unfold net_push_prepare. rewrite Hn, Hs. cbn [net_iov sgaseg_len sgaseg_buf].
  change (1 - 1 <=? 0) with true. change (1 <=? 0) with false. cbn iota.
  assert (Hb : 0 <= len32 data) by (unfold len32; lia).
  replace (u64 (u64 (0 + len32 data) + 4)) with (len32 data + 4)
    by (rewrite (wrap_small 64 (0 + len32 data)), (wrap_small 64);
        change (2 ^ 64) with 18446744073709551616; lia).
  rewrite (wrap_small 32) by (change (2 ^ 32) with 4294967296; lia).
  rewrite (wrap_small 64) by (unfold sizeof_header; change (2 ^ 64) with 18446744073709551616; lia).
  assert (Hp : len32 data + 4 = len32 (wire_payload [data])) by (unfold len32; rewrite length_payload1; lia).
  rewrite len32_message. unfold sizeof_header, wire_iov, wire_header, header_bytes. cbn [h_magic h_bytes h_sgasegs length].
  rewrite !be32_htonl, <- Hp. do 2 f_equal. lia.
Qed.

Lemma wire_iov_contents p data (e : env) :
  load_bytes p (len32 data) (w_heap (e_world e)) = Ok data (w_heap (e_world e)) ->
  iov_contents (wire_iov p data) e = Ok (wire_vectors data) e.
Proof.
  intros Hload. cbn [wire_iov iov_contents iov_bytes]. unfold fbind, fret, on_heap, zoom. rewrite Hload. cbn.
  by destruct e as [? []].
Qed.

End sending.

(** ** Access to the environment, computed *)
Section access.
Context {OS : Type} `{POS : PosixOS OS}.
Abbreviation env := (qenv posix_object (pworld OS)).
Implicit Types (e : env).

Definition with_world (e : env) (h : heap) (os : OS) : env := set_e_world (mk_pworld h os) e.

Lemma post_px_get bad self q e (Q : posix_queue + Z -> env -> Prop) :
  e_queues e !! self = Some (PxObj q) -> Q (inl q) e -> post bad (px_get self) Q e.
Proof. intros Hq HQ. unfold post, px_get. by rewrite Hq. Qed.
Lemma px_on_base_eq {A} self (m : fn io_queue A) q a b e :
  e_queues e !! self = Some (PxObj q) -> m (px_base q) = Ok a b ->
  px_on_base self m e = Ok a (set_e_queues (<[self := PxObj (set_px_base b q)]> (e_queues e)) e).
Proof. intros Hq Hm. unfold px_on_base, on_object, zoom. rewrite Hq. cbn. by rewrite Hm. Qed.
Lemma post_px_on_base {A} bad self (m : fn io_queue A) q a b e (Q : A -> env -> Prop) :
  e_queues e !! self = Some (PxObj q) -> m (px_base q) = Ok a b ->
  Q a (set_e_queues (<[self := PxObj (set_px_base b q)]> (e_queues e)) e) -> post bad (px_on_base self m) Q e.
Proof. intros Hq Hm HQ. unfold post. by rewrite (px_on_base_eq _ _ _ _ _ _ Hq Hm). Qed.
Lemma post_syscall {A} bad (f : OS -> A * OS) e (Q : A -> env -> Prop) :
  post bad (syscall f) Q e <-> Q (fst (f (w_os (e_world e)))) (with_world e (w_heap (e_world e)) (snd (f (w_os (e_world e))))).
Proof. unfold post, syscall. by destruct (f _). Qed.
Lemma post_on_heap {A} bad (m : fn heap A) e (Q : A -> env -> Prop) :
  post bad (on_heap m) Q e <-> post bad m (fun a h => Q a (with_world e h (w_os (e_world e)))) (w_heap (e_world e)).
Proof. unfold on_heap. by rewrite post_zoom. Qed.
End access.

#[export] Hint Rewrite @post_syscall @post_on_heap @post_in_thread : post.

(** Total correctness of a sequence. *)
Lemma wp_sbind {S A B} (m : stmt S A) (k : A -> stmt S B) (P : A + Z -> S -> Prop) Q s :
  wp m P s ->
  (forall r s', P r s' -> match r with inl a => wp (k a) Q s' | inr e => Q (inr e) s' end) ->
  wp (sbind m k) Q s.
Proof. intros Hm Hk. rewrite post_sbind. eapply post_mono; [exact Hm|]. cbn. intros r s' H. specialize (Hk r s' H). by destruct r. Qed.

(** ** The push worker *)
Section pushing.
Context {OS : Type} `{POS : PosixOS OS}.
Abbreviation env := (qenv posix_object (pworld OS)).
Context (self qt p : Z) (data : list Z) (qs : gmap Z posix_object) (q : posix_queue) (h : heap).
Abbreviation t := (task_slot qt).
Context (Hq : qs !! self = Some (PxObj q)) (Hopen : 0 <= my_fd q) (Hcid : my_cid (px_base q) = NETWORK_Q).
Context (Ht : has_task qt (px_base q) = true).
Context (Hn : sga_numsegs (my_sga_arg (px_task t q)) = 1)
        (Hs : sga_segs (my_sga_arg (px_task t q)) = [mk_sgaseg p (len32 data)]).
Context (Hdata : 0 < len32 data < 2 ^ 32 - 4).
Context (Hload : load_bytes p (len32 data) h = Ok data h).
Abbreviation message_bytes := (len32 (wire_message [data])).

Definition push_env (os : OS) : env := mk_qenv qs (mk_pworld h os).
Definition pushed (tk : task) (os : OS) : env :=
  mk_qenv (<[self := PxObj (set_px_base (set_slot t tk (px_base q)) q)]> qs) (mk_pworld h os).

Lemma push_start_step os :
  px_push_step self PxPushIdle [qt] (push_env os) =
  Ok ([], Continue (PxNetWritev t (wire_iov p data) message_bytes)) (push_env os).
Proof.
  apply wp_eq. unfold px_push_step. rewrite post_in_thread. post_simp.
  eapply post_px_on_base; [done|by apply get_task_ptr_valid|]. cbn [fst snd]. change (0 =? 0) with true. cbn iota.
  assert (Hsame : set_e_queues (<[self := PxObj (set_px_base (px_base q) q)]> (e_queues (push_env os))) (push_env os) = push_env os).
  { unfold push_env, set_e_queues. cbn. rewrite insert_id; [done|]. rewrite Hq. by destruct q. }
  rewrite Hsame, post_sbind. eapply post_px_get; [done|]. unfold task_arg_sga. rewrite Hn. change (0 =? 1) with false. post_simp.
  rewrite Hcid. eapply post_eq; [apply (sgalen_one _ p data); [done|done|lia]|]. cbn [fst snd]. change (0 =? 0) with true. cbn iota. rewrite post_sbind, post_need.
  rewrite (proj2 (Z.eqb_neq (len32 data) 0)) by lia. post_simp.
  rewrite (net_push_prepare_eq _ p data) by (done || change (2 ^ 32) with 4294967296; lia). post_simp. done.
Qed.
Lemma push_writev_step ret errno os os' :
  sys_writev (my_fd q) (wire_vectors data) os = (ret, errno, os') -> -1 <= ret ->
  px_push_step self (PxNetWritev t (wire_iov p data) message_bytes) [] (push_env os) =
  Ok (if (ret =? -1) && (errno =? EAGAIN) then ([], Yield (PxNetWritev t (wire_iov p data) message_bytes))
      else ([], Continue PxPushLoop))
     (if (ret =? -1) && (errno =? EAGAIN) then push_env os'
      else if ret =? message_bytes then pushed (completed_task (my_sga_arg (px_task t q)) (px_task t q)) os'
      else pushed (set_my_error ENOTSUP (px_task t q)) os').
Proof.
  intros Hw Hr. apply wp_eq. unfold px_push_step. rewrite post_in_thread, post_sbind. eapply post_px_get; [done|].
  assert (Hm : 16 < message_bytes) by (rewrite len32_message; lia).
  unfold px_writev. rewrite post_sbind, post_call, post_body_out, post_sbind, post_call.
  eapply post_eq; [by apply wire_iov_contents|]. cbn iota beta. rewrite post_sbind, post_call, post_syscall.
  cbn [w_os e_world push_env]. rewrite Hw. cbn [fst snd]. destruct (ret =? -1) eqn:E; zbool.
  - subst ret. destruct (errno =? EAGAIN) eqn:Ea; zbool; cbn [andb].
    + subst errno. post_simp. change (EAGAIN =? EAGAIN) with true. post_simp. done.
    + post_simp. rewrite (proj2 (Z.eqb_neq _ _) Ea). post_simp.
      rewrite (proj2 (Z.eqb_neq 0 message_bytes)), (proj2 (Z.eqb_neq (-1) message_bytes)) by lia.
      unfold push_finish. change (negb (ENOTSUP =? 0)) with true. post_simp.
      eapply post_px_on_base; [done|by apply on_slot_complete|]. done.
  - rewrite (proj2 (Z.ltb_ge ret (-1))) by lia. post_simp. change (0 =? EAGAIN) with false. cbn [andb]. cbn iota.
    unfold push_finish. destruct (ret =? message_bytes) eqn:Em; zbool.
    + change (negb (0 =? 0)) with false. post_simp. eapply post_px_get; [done|].
      post_simp. eapply post_px_on_base; [done|apply on_slot_complete_sga|]. done.
    + change (negb (ENOTSUP =? 0)) with true. post_simp. 
      eapply post_px_on_base; [done|by apply on_slot_complete|]. done.
Qed.

Lemma push_loop_step tk os :
  px_push_step self PxPushLoop [] (pushed tk os) = Ok ([], Continue PxPushIdle) (pushed tk os).
Proof.
  apply wp_eq. unfold px_push_step. rewrite post_in_thread, post_sbind. eapply post_px_get; [apply lookup_insert_eq|].
  unfold px_good. cbn. rewrite (proj2 (Z.gtb_lt (my_fd q) (-1))) by lia. post_simp. done.
Qed.

(** One service of the worker from an attempt of [writev]. *)
Definition pushing_result (ret errno : Z) (os' : OS) : Z * user_thread px_push_k * env :=
  let retry := (ret =? -1) && (errno =? EAGAIN) in
  (EAGAIN,
   mk_user_thread EAGAIN [] (Some (if retry then PxNetWritev t (wire_iov p data) message_bytes else PxPushIdle)),
   if retry then push_env os'
   else pushed (if ret =? message_bytes then completed_task (my_sga_arg (px_task t q)) (px_task t q)
                else set_my_error ENOTSUP (px_task t q)) os').

Lemma service_writev fuel ret errno os os' :
  sys_writev (my_fd q) (wire_vectors data) os = (ret, errno, os') -> -1 <= ret -> (2 < fuel)%nat ->
  run (px_push_step self) fuel EAGAIN (PxNetWritev t (wire_iov p data) message_bytes) [] (push_env os) =
  Ok (pushing_result ret errno os').1.2 (pushing_result ret errno os').2.
Proof.
  intros Hw Hr Hf. destruct fuel as [|[|[|fuel]]]; [lia..|]. cbn [run]. unfold fbind at 1.
  rewrite (push_writev_step _ _ _ _ Hw Hr). unfold pushing_result. cbn [fst snd].
  destruct ((ret =? -1) && (errno =? EAGAIN)); [done|]. cbn [run].
  assert (H : forall tk, run (px_push_step self) (S (S fuel)) EAGAIN PxPushLoop [] (pushed tk os') =
    Ok (mk_user_thread EAGAIN [] (Some PxPushIdle)) (pushed tk os')).
  { intros tk. cbn [run]. unfold fbind at 1. rewrite push_loop_step. done. }
  destruct (ret =? message_bytes); apply H.
Qed.
End pushing.


Section push_service.
Context {OS : Type} `{POS : PosixOS OS}.
Abbreviation env := (qenv posix_object (pworld OS)).

(** A network queue whose task [qt] is to send the bytes [data], at [p]. *)
Record push_ready (self qt p : Z) (data : list Z) (qs : gmap Z posix_object) (q : posix_queue) (h : heap) : Prop := {
  pr_queue : qs !! self = Some (PxObj q);
  pr_open : 0 <= my_fd q;
  pr_network : my_cid (px_base q) = NETWORK_Q;
  pr_task : has_task qt (px_base q) = true;
  pr_numsegs : sga_numsegs (my_sga_arg (px_task (task_slot qt) q)) = 1;
  pr_segs : sga_segs (my_sga_arg (px_task (task_slot qt) q)) = [mk_sgaseg p (len32 data)];
  pr_length : 0 < len32 data < 2 ^ 32 - 4;
  pr_memory : load_bytes p (len32 data) h = Ok data h
}.

(** Where the push worker is: it has not taken the task, or the kernel was not
    ready before. *)
Definition push_point (qt p : Z) (data : list Z) (fresh : bool) : user_thread px_push_k :=
  if fresh then mk_user_thread EAGAIN [qt] (Some PxPushIdle)
  else mk_user_thread EAGAIN [] (Some (PxNetWritev (task_slot qt) (wire_iov p data) (len32 (wire_message [data])))).

Lemma service_push self qt p data qs q h fuel fresh ret errno os os' :
  push_ready self qt p data qs q h ->
  sys_writev (my_fd q) (wire_vectors data) os = (ret, errno, os') -> -1 <= ret -> (4 < fuel)%nat ->
  service (px_push_step self) fuel (push_point qt p data fresh) (push_env qs h os) =
    if (ret =? -1) && (errno =? EAGAIN) then Ok (EAGAIN, push_point qt p data false) (push_env qs h os')
    else Ok (EAGAIN, mk_user_thread EAGAIN [] (Some PxPushIdle))
      (pushed self qt qs q h
         (if ret =? len32 (wire_message [data])
          then completed_task (my_sga_arg (px_task (task_slot qt) q)) (px_task (task_slot qt) q)
          else set_my_error ENOTSUP (px_task (task_slot qt) q)) os').
Proof.
  intros [] Hw Hr Hf.
  assert (Hrun : run (px_push_step self) fuel EAGAIN (if fresh then PxPushIdle
       else PxNetWritev (task_slot qt) (wire_iov p data) (len32 (wire_message [data]))) (if fresh then [qt] else [])
       (push_env qs h os) =
     Ok (pushing_result self qt p data qs q h ret errno os').1.2 (pushing_result self qt p data qs q h ret errno os').2).
  { destruct fresh.
    - destruct fuel as [|fuel]; [lia|]. cbn [run]. unfold fbind.
      rewrite (push_start_step self qt p data qs q h) by done.
      apply (service_writev self qt p data qs q h) with (os := os); done || lia.
    - apply (service_writev self qt p data qs q h) with (os := os); done || lia. }
  unfold service, push_point. destruct fresh; cbn [th_coroutine th_error th_queue]; unfold fbind; rewrite Hrun;
    unfold pushing_result; cbn [fst snd]; destruct ((ret =? -1) && (errno =? EAGAIN)); done.
Qed.
End push_service.

(** ** Receiving *)
Section receiving.
Context {OS : Type} `{POS : PosixOS OS}.
Abbreviation env := (qenv posix_object (pworld OS)).

(** What [read] does on a non-blocking stream socket that has not failed: the
    bytes it delivers are the next ones of the stream, at least one and at most
    as many as asked for; or, if [blocks], it delivers nothing yet. *)
Definition reads_stream (fd : Z) (stream : OS -> list Z) (blocks : Prop) : Prop :=
  forall len os, 0 < len -> stream os <> [] ->
    match sys_read fd len os with
    | (ret, errno, bs, os') =>
        (blocks /\ ret = -1 /\ errno = EAGAIN /\ bs = [] /\ stream os' = stream os) \/
        (ret = len32 bs /\ 0 < ret <= len /\ stream os = bs ++ stream os')
    end.

Context (fd self qt : Z) (stream : OS -> list Z) (blocks : Prop) (data rest : list Z).
Context (qs : gmap Z posix_object) (q : posix_queue).
Context (Hread : reads_stream fd stream blocks).
Context (Hq : qs !! self = Some (PxObj q)) (Hfd : my_fd q = fd) (Hopen : 0 <= fd) (Hcid : my_cid (px_base q) = NETWORK_Q).
Context (Hdata : 0 < len32 data < 2 ^ 31 - 4).
Abbreviation t := (task_slot qt).
Abbreviation message := (wire_message [data]).
Abbreviation payload := (wire_payload [data]).

(** Memory is available, and neither the null address nor those beyond the
    break are part of it. *)
Definition heap_ok (h : heap) : Prop := (forall brk n, h_oom h brk n = false) /\ 0 < h_brk h /\ fresh_above h.

(** The memory before the message, and what [read] does not change of the
    kernel. *)
Context (h0 : heap) (Hh0 : heap_ok h0) (I : OS -> Prop).
Context (HI : forall len os, I os -> I (snd (sys_read fd len os))).
Definition frame (e : env) : Prop := I (w_os (e_world e)).

Lemma px_read_stream len (e : env) (Q : Z * list Z -> env -> Prop) :
  0 < len < 2 ^ 31 -> stream (w_os (e_world e)) <> [] -> I (w_os (e_world e)) ->
  (forall os', blocks -> stream os' = stream (w_os (e_world e)) -> I os' -> Q (EAGAIN, []) (with_world e (w_heap (e_world e)) os')) ->
  (forall bs os', 0 < len32 bs <= len -> stream (w_os (e_world e)) = bs ++ stream os' -> I os' ->
     Q (0, bs) (with_world e (w_heap (e_world e)) os')) ->
  wp (px_read fd false len) Q e.
Proof.
  intros Hlen Hs HIe HA HB. change (2 ^ 31) with 2147483648 in Hlen. unfold px_read. post_simp. cbn [negb].
  rewrite (proj2 (Z.leb_le len SSIZE_MAX)) by lia. post_simp.
  pose proof (Hread len (w_os (e_world e)) ltac:(lia) Hs) as Hr.
  pose proof (HI len _ HIe) as HI'.
  destruct (sys_read fd len (w_os (e_world e))) as [[[ret errno] bs] os']. cbn [fst snd] in *.
  destruct Hr as [(Hbl & -> & -> & -> & Hst)|(-> & Hl & Hst)].
  - post_simp. by apply HA.
  - assert (Hi : i32 (len32 bs) = len32 bs) by (apply swrap_small; [lia|change (2 ^ (32 - 1)) with 2147483648; lia]).
    rewrite Hi. rewrite (proj2 (Z.ltb_ge _ _)), (proj2 (Z.eqb_neq _ _)) by lia. post_simp.
    replace (take (Z.to_nat (len32 bs)) bs) with bs.
    + by apply HB.
    + unfold len32. rewrite Nat2Z.id. by rewrite take_ge.
Qed.

(** The message read so far, at each control point of the pop worker. *)
Definition px_header : dmtr_header := mk_header DMTR_HEADER_MAGIC (len32 payload) 1.
Definition received_sga (sga : dmtr_sgarray) (h : heap) : Prop :=
  0 < sga_buf sga /\ sga_numsegs sga = 1 /\ sga_segs sga = [mk_sgaseg (sga_buf sga + 4) (len32 data)] /\
  load_bytes (sga_buf sga + 4) (len32 data) h = Ok data h.
Definition received (e : env) : Prop := exists sga,
  e_queues e = <[self := PxObj (set_px_base (set_slot t (completed_task sga (px_task t q)) (px_base q)) q)]> qs /\
  received_sga sga (w_heap (e_world e)) /\ stream (w_os (e_world e)) = rest /\
  frame e /\ allocated (sga_buf sga) (len32 payload) h0 (w_heap (e_world e)).

Definition receiving (k : px_pop_k) (tq : list Z) (e : env) : Prop :=
  let h := w_heap (e_world e) in
  let s := stream (w_os (e_world e)) in
  tq = [] /\
  match k with
  | PxHeader t' hdr => t' = t /\ e_queues e = qs /\ h = h0 /\ frame e /\ (length hdr <= 12)%nat /\ hdr ++ s = message ++ rest
  | PxData t' hd buf n ret => t' = t /\ e_queues e = qs /\ hd = px_header /\ 0 < buf /\
      frame e /\ allocated buf (len32 payload) h0 h /\
      0 <= n <= len32 payload /\ (n = len32 payload -> ret = 0) /\
      (forall i, 0 <= i < len32 payload -> is_Some (h_cells h !! (buf + i))) /\
      load_bytes buf n h = Ok (take (Z.to_nat n) payload) h /\ s = drop (Z.to_nat n) payload ++ rest
  | PxPopLoop | PxPopIdle => received e
  end.

(** Each control point crossed reads at least a byte of the message. *)
Definition to_read (k : px_pop_k) (tq : list Z) (e : env) : nat :=
  match k with
  | PxHeader _ hdr => (12 - length hdr) + length payload + 5
  | PxData _ _ _ n _ => (length payload - Z.to_nat n) + 4
  | PxPopLoop => 3
  | PxPopIdle => match tq with [] => 2 | _ => length payload + 18 end
  end.

Definition step_post (k : px_pop_k) (tq : list Z) (e : env) (r : list Z * next px_pop_k) (e' : env) : Prop :=
  match snd r with
  | Continue k' => receiving k' (fst r) e' /\ (to_read k' (fst r) e' < to_read k tq e)%nat
  | Yield k' => receiving k' (fst r) e' /\ (blocks \/ k' = PxPopIdle)
  | Finish _ => False
  end.

Lemma message_nonempty hdr s : (length hdr < 12)%nat -> hdr ++ s = message ++ rest -> s <> [].
Proof.
  intros Hl E ->. apply (f_equal length) in E. unfold wire_message in E.
  rewrite !length_app, length_wire_header in E. cbn in E. lia.
Qed.

(** A complete header. *)
Lemma header_complete hdr s :
  (length hdr = 12)%nat -> hdr ++ s = message ++ rest ->
  ntoh_header (header_of_bytes hdr) = px_header /\ s = payload ++ rest.
Proof.
  intros Hl E. unfold wire_message in E. rewrite <- app_assoc in E.
  apply app_inj_1 in E as [-> ->]; [|by rewrite length_wire_header]. split; [|done].
  unfold wire_header, header_of_bytes, ntoh_header, px_header. cbn [h_magic h_bytes h_sgasegs].
  rewrite !take_app_length' by (by rewrite length_be32). rewrite (drop_app_length' (be32 _)) by (by rewrite length_be32).
  rewrite !take_app_length' by (by rewrite length_be32).
  rewrite (app_assoc (be32 DMTR_HEADER_MAGIC)), (drop_app_length' (be32 _ ++ be32 _)) by (by rewrite length_app, !length_be32).
  rewrite take_ge by (by rewrite length_be32).
  assert (Hp : 0 <= len32 payload < 2 ^ 32).
  { unfold len32 in *. rewrite length_payload1. change (2 ^ 31) with 2147483648 in *. change (2 ^ 32) with 4294967296. lia. }
  rewrite !ntohl_be32; [done|by change (Z.of_nat (length [data])) with 1|done|by vm_compute].
Qed.

Lemma header_step t' hdr e :
  receiving (PxHeader t' hdr) [] e ->
  wp (px_pop_step self (PxHeader t' hdr) []) (step_post (PxHeader t' hdr) [] e) e.
Proof.
  intros (_ & -> & Hqs & Hh0e & HIe & Hl & Hs). unfold px_pop_step.
  destruct (Z.of_nat (length hdr) <? sizeof_header) eqn:E; zbool; unfold sizeof_header in *.
  - rewrite post_in_thread, post_sbind. eapply post_px_get; [by rewrite Hqs|]. rewrite Hfd. post_simp.
    apply px_read_stream; [change (2 ^ 31) with 2147483648; lia|eapply (message_nonempty hdr); [lia|exact Hs]|done| |].
    + intros os' Hbl Hst HIo. post_simp. split; [|by left]. split; [done|]. cbn. rewrite Hst. done.
    + intros bs os' Hb Hst HIo. destruct bs as [|b bs]; [unfold len32 in Hb; cbn in Hb; lia|]. post_simp.
      rewrite Hst in Hs. unfold len32 in Hb. split.
      * split; [done|]. cbn [w_heap w_os with_world set_e_world e_world]. split; [done|]. split; [done|].
        split; [done|]. split; [done|]. split; [rewrite length_app; lia|]. by rewrite <- app_assoc.
      * cbn [to_read fst]. rewrite length_app. cbn [length] in *. lia.
  - assert (Hlen : len32 payload = 4 + len32 data) by (unfold len32; rewrite length_payload1; lia).
    destruct (header_complete hdr (stream (w_os (e_world e)))) as [Hh Hst]; [lia|exact Hs|]. rewrite Hh.
    cbn [h_magic h_bytes px_header]. rewrite Z.eqb_refl. cbn [negb]. rewrite post_in_thread. post_simp.
    unfold dmtr_malloc. post_simp. rewrite Hh0e. destruct Hh0 as (Hoom & Hbrk & Hfresh). unfold post. rewrite malloc_eq by apply Hoom. cbn.
    split.
    + split; [done|]. cbn. split; [done|]. split; [done|]. split; [done|]. split; [done|].
      split; [done|]. split; [apply allocated_malloc|].
      split; [unfold len32; lia|]. split; [intros E0; rewrite Hlen in E0; lia|]. split; [|split; [done|exact Hst]].
      intros i Hi. rewrite alloc_cells_lookup, decide_True; [by eexists|]. lia.
    + cbn [to_read]. lia.
Qed.

(** Completing the pop with the array received. *)
Lemma pop_finish_received sga k tq e :
  e_queues e = qs -> received_sga sga (w_heap (e_world e)) -> stream (w_os (e_world e)) = rest ->
  frame e -> allocated (sga_buf sga) (len32 payload) h0 (w_heap (e_world e)) ->
  (3 < to_read k tq e)%nat ->
  wp (pop_finish self t 0 sga) (fun r e' => match r with inl n => step_post k tq e ([], n) e' | inr _ => False end) e.
Proof.
  intros Hqs Hsga Hst Hfr Hal Hm. unfold pop_finish. change (0 =? EAGAIN) with false. cbn iota. change (negb (0 =? 0)) with false. cbn iota.
  post_simp. eapply post_px_on_base; [by rewrite Hqs|apply on_slot_complete_sga|]. cbn.
  split; [|cbn; lia]. split; [done|]. exists sga. rewrite Hqs. done.
Qed.

Lemma fill_received h buf :
  load_bytes buf (len32 payload) h = Ok payload h ->
  fill_segs DMTR_SGARRAY_MAXSIZE 1 buf (sga_segs sgarray_zero) h = Ok [mk_sgaseg (buf + 4) (len32 data)] h /\
  load_bytes (buf + 4) (len32 data) h = Ok data h.
Proof.
  intros Hl. assert (Hp : payload = be32 (len32 data) ++ data) by (unfold wire_payload; cbn; by rewrite app_nil_r).
  assert (Hlen : len32 payload = 4 + len32 data) by (unfold len32; rewrite length_payload1; lia).
  assert (Hb : 0 <= len32 data) by (unfold len32; lia).
  split.
  - unfold DMTR_SGARRAY_MAXSIZE. cbn [sga_segs sgarray_zero repeat fill_segs DMTR_SGARRAY_MAXSIZE].
    change (1 <=? 0) with false. change (1 - 1 <=? 0) with true. cbn iota. unfold fbind, fret. pose proof (load_bytes_sub _ _ _ _ 0 4 Hl ltac:(lia) ltac:(lia) ltac:(lia)) as H4.
    rewrite Z.add_0_r in H4. rewrite H4. rewrite Hp. change (Z.to_nat 4) with 4%nat. change (Z.to_nat 0) with 0%nat. rewrite drop_0. rewrite take_app_length' by (by rewrite length_be32).
    change (2 ^ 31) with 2147483648 in *. rewrite ntohl_be32 by (change (2 ^ 32) with 4294967296; lia). done.
  - pose proof (load_bytes_sub _ _ _ _ 4 (len32 data) Hl ltac:(lia) Hb ltac:(lia)) as H4. rewrite H4, Hp. change (Z.to_nat 4) with 4%nat.
    rewrite (drop_app_length' (be32 _)) by (by rewrite length_be32). f_equal. apply take_ge. unfold len32. lia.
Qed.

Lemma data_done_step t' hd buf n ret e :
  receiving (PxData t' hd buf n ret) [] e -> len32 payload <= n ->
  wp (px_pop_step self (PxData t' hd buf n ret) []) (step_post (PxData t' hd buf n ret) [] e) e.
Proof.
  intros (_ & -> & Hqs & -> & Hbuf & HIe & Hal & Hn & Hret & Hcells & Hload & Hst) Hge. unfold px_pop_step.
  assert (Hlen : len32 payload = 4 + len32 data) by (unfold len32; rewrite length_payload1; lia).
  assert (Hlp : Z.of_nat (length payload) = len32 payload) by done.
  cbn [h_bytes px_header]. rewrite (proj2 (Z.ltb_ge n (len32 payload))) by lia.
  rewrite (Hret ltac:(lia)). change (negb (0 =? 0)) with false. cbn iota. rewrite post_in_thread. post_simp.
  assert (n = len32 payload) as -> by lia.
  assert (Hl : load_bytes buf (len32 payload) (w_heap (e_world e)) = Ok payload (w_heap (e_world e))).
  { rewrite Hload. f_equal. apply take_ge. lia. }
  destruct (fill_received _ _ Hl) as [Hf Hd]. unfold post at 1. cbn [h_sgasegs px_header]. rewrite Hf.
  rewrite drop_ge in Hst by lia.
  eapply post_mono; [apply (pop_finish_received _ (PxData t px_header buf (len32 payload) ret) [])|].
  + done.
  + by split_and!.
  + done.
  + done.
  + done.
  + cbn [to_read]. lia.
  + intros [a|a] s' Ha; [exact Ha|done].
Qed.
Lemma data_step t' hd buf n ret e :
  receiving (PxData t' hd buf n ret) [] e ->
  wp (px_pop_step self (PxData t' hd buf n ret) []) (step_post (PxData t' hd buf n ret) [] e) e.
Proof.
  intros Hrec. pose proof Hrec as (_ & -> & Hqs & -> & Hbuf & HIe & Hal & Hn & Hret & Hcells & Hload & Hst). unfold px_pop_step.
  assert (Hlen : len32 payload = 4 + len32 data) by (unfold len32; rewrite length_payload1; lia).
  assert (Hlp : Z.of_nat (length payload) = len32 payload) by done.
  destruct (decide (n < len32 payload)) as [E|E]; [|apply data_done_step; [exact Hrec|lia]].
  cbn [h_bytes px_header]. rewrite (proj2 (Z.ltb_lt _ _)) by lia.
  - rewrite post_in_thread, post_sbind. eapply post_px_get; [by rewrite Hqs|]. cbn beta zeta.
    rewrite (proj2 (Z.eqb_neq (buf + n) 0)) by lia. rewrite Hfd. post_simp.
    apply px_read_stream; [change (2 ^ 31) with 2147483648 in *; lia| |done| |].
    + rewrite Hst. intros Hnil. apply (f_equal length) in Hnil. rewrite length_app, length_drop in Hnil. cbn [length] in Hnil. lia.
    + intros os' Hbl Hs' HIo. post_simp. cbn [w_heap w_os with_world set_e_world e_world].
      unfold post at 1. rewrite store_bytes_nil. change (EAGAIN =? EAGAIN) with true. cbn iota. post_simp.
      split; [|by left]. split; [done|]. cbn [w_heap w_os with_world set_e_world e_world]. rewrite Hs'. do 7 (split; [done|]). split; [intros; lia|]. done.
    + intros bs os' Hb Hs' HIo. post_simp. cbn [w_heap w_os with_world set_e_world e_world]. unfold len32 in Hb.
      rewrite Hst in Hs'.
      destruct (store_bytes_append _ _ _ _ bs Hload) as (h' & Hstore & Hload' & Hkeep & Hlow & Hbl' & Ho' & Hk'); [lia| |].
      { intros i Hi. rewrite <- Z.add_assoc. apply Hcells. lia. }
      unfold post at 1. rewrite Hstore. change (0 =? EAGAIN) with false. cbn iota.
      destruct bs as [|b bs]; [cbn in Hb; lia|]. post_simp. set (bs' := b :: bs) in *.
      assert (Hbs : bs' = take (length bs') (drop (Z.to_nat n) payload)).
      { apply (f_equal (take (length bs'))) in Hs'. rewrite take_app_length in Hs'. etransitivity; [exact (eq_sym Hs')|].
        apply take_app_le. rewrite length_drop. lia. }
      split.
      * split; [done|]. cbn [w_heap w_os with_world set_e_world e_world]. do 4 (split; [done|]).
        split; [done|]. split; [eapply allocated_store; [exact Hal|exact Hlow|lia..|done|done|done]|]. split; [lia|].
        split; [done|]. split; [intros i Hi; by apply Hkeep, Hcells|]. split.
        -- rewrite Hload'. f_equal. rewrite Hbs at 1. rewrite Z2Nat.inj_add, Nat2Z.id by lia.
           by rewrite take_take_drop.
        -- apply (f_equal (drop (length bs'))) in Hs'. rewrite drop_app_length in Hs'. rewrite <- Hs'.
           rewrite drop_app_le by (rewrite length_drop; lia). rewrite drop_drop. do 2 f_equal. lia.
      * cbn [to_read fst]. assert (0 < length bs')%nat by (unfold bs'; cbn; lia). lia.
Qed.

(** Once the message is received the worker waits for the next task. *)
Lemma received_step k e :
  k = PxPopLoop \/ k = PxPopIdle -> receiving k [] e -> wp (px_pop_step self k []) (step_post k [] e) e.
Proof.
  intros [-> | ->] [_ Hr]; unfold px_pop_step; rewrite post_in_thread.
  - destruct (Hr) as (sga & Hqs & _). rewrite post_sbind. eapply post_px_get; [by rewrite Hqs, lookup_insert_eq|].
    unfold px_good. cbn. rewrite Hfd. rewrite (proj2 (Z.gtb_lt fd (-1))) by lia. post_simp.
    split; [by split|]. cbn. lia.
  - post_simp. split; [by split|by right].
Qed.

(** Taking the task from the worker's queue. *)
Definition to_receive (e : env) : Prop :=
  e_queues e = qs /\ w_heap (e_world e) = h0 /\ frame e /\ stream (w_os (e_world e)) = message ++ rest /\
  has_task qt (px_base q) = true.
Definition pop_invariant (k : px_pop_k) (tq : list Z) (e : env) : Prop :=
  k = PxPopIdle /\ tq = [qt] /\ to_receive e \/ receiving k tq e.

Lemma start_step e :
  to_receive e -> wp (px_pop_step self PxPopIdle [qt]) (step_post PxPopIdle [qt] e) e.
Proof.
  intros (Hqs & Hh0e & HIe & Hst & Ht). unfold px_pop_step. rewrite post_in_thread. post_simp.
  eapply post_px_on_base; [by rewrite Hqs|by apply get_task_ptr_valid|]. cbn [fst snd]. change (0 =? 0) with true. cbn iota.
  assert (Hsame : <[self := PxObj (set_px_base (px_base q) q)]> (e_queues e) = qs).
  { rewrite Hqs. apply insert_id. rewrite Hq. by destruct q. }
  rewrite Hsame, post_sbind. eapply post_px_get; [done|]. rewrite Hcid. post_simp.
  split; [|cbn; lia]. split; [done|]. cbn. split_and!; solve [done|lia].
Qed.

Lemma pop_step k tq e : pop_invariant k tq e -> wp (px_pop_step self k tq) (step_post k tq e) e.
Proof.
  intros [(-> & -> & Hs)|Hr]; [by apply start_step|]. assert (tq = []) as -> by apply Hr.
  destruct k; [by apply received_step; [left|]|by apply received_step; [right|]|by apply header_step|by apply data_step].
Qed.

(** A service of the worker, from its taking the task or from where an earlier
    service left it. *)
Lemma service_receives fuel k tq e :
  pop_invariant k tq e -> (to_read k tq e < fuel)%nat ->
  wp (service (px_pop_step self) fuel (mk_user_thread EAGAIN tq (Some k)))
    (fun '(ret, th) e' => ret = EAGAIN /\
       exists k', th = mk_user_thread EAGAIN [] (Some k') /\ receiving k' [] e' /\ (blocks \/ k' = PxPopIdle)) e.
Proof.
  intros HP Hfuel. unfold service. cbn [th_coroutine th_error th_queue]. rewrite post_fbind.
  eapply post_mono; [apply (run_total _ pop_invariant to_read
    (fun th e' => exists k', th = mk_user_thread EAGAIN [] (Some k') /\ receiving k' [] e' /\ (blocks \/ k' = PxPopIdle)))|].
  - intros k1 tq1 e1 H1. eapply post_mono; [by apply pop_step|]. intros [tq2 [k2|k2|err]] e2; unfold step_post; cbn [fst snd].
    + intros [H2 Hm]. split; [by right|done].
    + intros [H2 Hb]. exists k2. assert (tq2 = []) as -> by apply H2. done.
    + done.
  - done.
  - done.
  - cbn. intros th e' (k' & -> & Hr & Hb). cbn. split; [done|]. by exists k'.
Qed.
End receiving.

(** ** Properties *)
Section properties.
Context {OS : Type} `{POS : PosixOS OS}.
Abbreviation env := (qenv posix_object (pworld OS)).

(** A service of the push worker with a task to send writes, in one
    [writev], exactly the wire message of the task's array.  If the kernel
    would block, nothing changes and the worker is left to try the same
    message again; if it takes the whole message the task is completed with
    the array; whatever else happens, an error of the kernel or a part of the
    message taken, the task is completed with [ENOTSUP].  No other task, queue
    or memory changes, and 5 units of fuel suffice. *)
Theorem net_push_correct self qt p data qs q h fuel fresh ret errno os os' :
  push_ready self qt p data qs q h ->
  sys_writev (my_fd q) (wire_vectors data) os = (ret, errno, os') -> -1 <= ret -> (4 < fuel)%nat ->
  concat (wire_vectors data) = wire_message [data] /\
  service (px_push_step self) fuel (push_point qt p data fresh) (push_env qs h os) =
    if (ret =? -1) && (errno =? EAGAIN) then Ok (EAGAIN, push_point qt p data false) (push_env qs h os')
    else Ok (EAGAIN, mk_user_thread EAGAIN [] (Some PxPushIdle))
      (pushed self qt qs q h
         (if ret =? len32 (wire_message [data])
          then completed_task (my_sga_arg (px_task (task_slot qt) q)) (px_task (task_slot qt) q)
          else set_my_error ENOTSUP (px_task (task_slot qt) q)) os').
Proof.
  intros Hp Hw Hr Hf. split; [apply wire_vectors_concat|by apply service_push].
Qed.

(** A network queue whose task [qt] is to receive, of a connection on which
    the peer has sent [data] and then [rest]. *)
Record pop_ready (self qt : Z) (data : list Z) (qs : gmap Z posix_object) (q : posix_queue) : Prop := {
  or_queue : qs !! self = Some (PxObj q);
  or_open : 0 <= my_fd q;
  or_network : my_cid (px_base q) = NETWORK_Q;
  or_length : 0 < len32 data < 2 ^ 31 - 4
}.

(** C10: the pop worker reads back the message [net_push] writes, however the
    kernel cuts the stream.  Each service of the worker, from its taking the
    task or from any point where an earlier service left it, ends; it leaves
    the worker suspended at a point where a prefix of the message is read and
    kept, and only if the kernel would block does the message stay incomplete.
    Otherwise the task is completed with an array of one segment, in freshly
    allocated memory, that holds exactly the bytes sent, and what follows the
    message is left in the stream.  Nothing else changes: the memory is that
    before the message, [h0], with this one block more, and any property [I] of
    the kernel that reading does not change holds. *)
Theorem net_pop_correct self qt (stream : OS -> list Z) blocks h0 (I : OS -> Prop) data rest qs q fuel k tq (e : env) :
  pop_ready self qt data qs q -> reads_stream (my_fd q) stream blocks -> heap_ok h0 ->
  (forall len os, I os -> I (snd (sys_read (my_fd q) len os))) ->
  pop_invariant self qt stream data rest qs q h0 I k tq e -> (length data + 22 < fuel)%nat ->
  wp (service (px_pop_step self) fuel (mk_user_thread EAGAIN tq (Some k)))
    (fun '(ret, th) e' => ret = EAGAIN /\
       exists k', th = mk_user_thread EAGAIN [] (Some k') /\
         receiving self qt stream data rest qs q h0 I k' [] e' /\
         (blocks \/ k' = PxPopIdle /\ received self qt stream data rest qs q h0 I e')) e.
Proof.
  intros [] Hread Hh0 HI HP Hf. eapply post_mono.
  - apply (service_receives (my_fd q) self qt stream blocks data rest qs q Hread); try done.
    pose proof (length_payload1 data) as Hp. destruct k; cbn [to_read]; try lia.
    destruct tq; lia.
  - intros [ret th] e' (-> & k' & -> & Hr & Hb). split; [done|]. exists k'. split; [done|]. split; [done|].
    destruct Hb as [Hb| ->]; [by left|right]. split; [done|]. by destruct Hr.
Qed.
End properties.

(** ** A concrete kernel

    One connection: the bytes the peer sent and those sent to it.  A read
    delivers at most 5 bytes; a write takes everything. *)
Record demo_kernel := mk_demo_kernel { dk_in : list Z; dk_out : list Z }.
#[export] Instance demo_os : PosixOS demo_kernel := {|
  sys_socket _ _ _ k := (5, 0, k);
  sys_getsockname _ _ k := (0, 0, [], k);
  sys_setsockopt _ _ _ _ k := (0, 0, k);
  sys_bind _ _ _ k := (0, 0, k);
  sys_listen _ _ k := (0, 0, k);
  sys_accept4 _ _ k := (6, 0, mk_sockaddr_in 2 7 1 0, k);
  sys_connect _ _ _ k := (0, 0, k);
  sys_open _ _ _ k := (5, 0, k);
  sys_creat _ _ k := (5, 0, k);
  sys_close _ k := (0, 0, k);
  sys_fcntl _ _ _ k := (0, 0, k);
  sys_read _ len k :=
    let n := Z.to_nat (Z.min len 5) in
    (len32 (take n (dk_in k)), 0, take n (dk_in k), mk_demo_kernel (drop n (dk_in k)) (dk_out k));
  sys_writev _ bss k := (len32 (concat bss), 0, mk_demo_kernel (dk_in k) (dk_out k ++ concat bss))
|}.

Lemma demo_reads fd blocks : reads_stream fd dk_in blocks.
Proof.
  intros len k Hlen Hs. right. cbn [sys_read demo_os dk_in]. split; [done|]. split; [|by rewrite take_drop].
  unfold len32. pose proof (length_take (dk_in k) (Z.to_nat (len `min` 5))). assert (length (dk_in k) <> 0%nat) by (by destruct (dk_in k)). lia.
Qed.

Definition demo_data : list Z := [104; 101; 108; 108; 111; 33; 10].
Definition demo_sga : dmtr_sgarray := mk_sgarray 0 1 [mk_sgaseg 100 7] sockaddr_zero.
Definition demo_heap : heap :=
  match store_bytes 100 demo_data (mk_heap (alloc_cells 7 100 ∅) {[100 := 7]} 200 (fun _ _ => false)) with
  | Ok _ h => h
  | _ => mk_heap ∅ ∅ 0 (fun _ _ => false)
  end.
Lemma demo_heap_eq : exists m, demo_heap = mk_heap m {[100 := 7]} 200 (fun _ _ => false) /\
  store_cells demo_data 100 (alloc_cells 7 100 ∅) = Some m.
Proof. eexists. split; [|vm_compute; reflexivity]. vm_compute. reflexivity. Qed.
Lemma demo_heap_ok : heap_ok demo_heap.
Proof.
  destruct demo_heap_eq as (m & -> & E). split; [done|]. split; [done|]. intros x Hx. cbn [h_brk h_cells h_blocks] in *.
  rewrite (store_cells_lookup _ _ _ _ E), alloc_cells_lookup. cbn [demo_data length]. rewrite !decide_False by lia.
  by rewrite lookup_singleton_ne by lia.
Qed.
Definition demo_qt : Z := mk_qtoken 3 1.
(** Queue 3, connected, with a task to send or to receive. *)
Definition demo_queue (op : dmtr_opcode) : posix_queue :=
  set_px_base (set_slot (task_slot demo_qt) (mk_task true (mk_qresult op 3 demo_qt (qv_sga sgarray_zero)) EAGAIN demo_sga 0)
    (io_queue_ctor NETWORK_Q 3)) (set_my_fd 5 (posix_queue_ctor 3 NETWORK_Q)).
Definition demo_queues (op : dmtr_opcode) : gmap Z posix_object := {[3 := PxObj (demo_queue op)]}.

Lemma net_push_correct_witness :
  push_ready 3 demo_qt 100 demo_data (demo_queues DMTR_OPC_PUSH) (demo_queue DMTR_OPC_PUSH) demo_heap /\
  service (px_push_step 3) 5 (push_point demo_qt 100 demo_data true)
      (push_env (demo_queues DMTR_OPC_PUSH) demo_heap (mk_demo_kernel [] [])) =
    Ok (EAGAIN, mk_user_thread EAGAIN [] (Some PxPushIdle))
      (pushed 3 demo_qt (demo_queues DMTR_OPC_PUSH) (demo_queue DMTR_OPC_PUSH) demo_heap
        (completed_task demo_sga (px_task (task_slot demo_qt) (demo_queue DMTR_OPC_PUSH)))
        (mk_demo_kernel [] (wire_message [demo_data]))).
Proof.
  assert (H : push_ready 3 demo_qt 100 demo_data (demo_queues DMTR_OPC_PUSH) (demo_queue DMTR_OPC_PUSH) demo_heap)
    by (split; vm_compute; first [reflexivity | discriminate | split; first [reflexivity | discriminate]]).
  split; [exact H|].
  exact (proj2 (net_push_correct 3 demo_qt 100 demo_data (demo_queues DMTR_OPC_PUSH) (demo_queue DMTR_OPC_PUSH) demo_heap
    5 true 23 0 (mk_demo_kernel [] []) (mk_demo_kernel [] (wire_message [demo_data])) H eq_refl ltac:(lia) ltac:(lia))).
Defined.

Lemma net_pop_correct_witness :
  wp (service (px_pop_step 3) 100 (mk_user_thread EAGAIN [demo_qt] (Some PxPopIdle)))
    (fun '(ret, th) e' => ret = EAGAIN /\
       received 3 demo_qt dk_in demo_data [1; 2] (demo_queues DMTR_OPC_POP) (demo_queue DMTR_OPC_POP) demo_heap
         (fun k => dk_out k = []) e')
    (mk_qenv (demo_queues DMTR_OPC_POP) (mk_pworld demo_heap (mk_demo_kernel (wire_message [demo_data] ++ [1; 2]) []))).
Proof.
  eapply post_mono.
  - apply (net_pop_correct 3 demo_qt dk_in False demo_heap (fun k => dk_out k = []) demo_data [1; 2]
      (demo_queues DMTR_OPC_POP) (demo_queue DMTR_OPC_POP)).
    + split; vm_compute; first [reflexivity | discriminate | split; first [reflexivity | discriminate]].
    + apply demo_reads.
    + apply demo_heap_ok.
    + intros len k H. exact H.
    + left. split; [reflexivity|]. split; [reflexivity|]. repeat (split; [reflexivity|]). reflexivity.
    + vm_compute. lia.
  - intros [ret th] e' (Hr & k' & _ & _ & [[]|[_ H]]). split; [exact Hr|exact H].
Defined.
