(* ===== verification/PosixConn.v ===== *)
(** * Connections of POSIX queues

    The methods of [posix_queue.cc] that open, connect and close a queue, and
    what each of them refuses. *)
From S2P Require Import Prelude Cmd Types Memory IoQueue UserThread MemoryQueue Queue MemoryVtable Contents PosixOs PosixQueue PosixWire.

Section connections.
Context {OS : Type} `{POS : PosixOS OS}.
Abbreviation env := (qenv posix_object (pworld OS)).
Implicit Types (e : env) (q : posix_queue).

Definition with_queue (self : Z) (q : posix_queue) e : env := set_e_queues (<[self := PxObj q]> (e_queues e)) e.

Lemma post_px_modify bad self (f : posix_queue -> posix_queue) q e (Q : unit + Z -> env -> Prop) :
  e_queues e !! self = Some (PxObj q) -> Q (inl tt) (with_queue self (f q) e) -> post bad (px_modify self f) Q e.
Proof.
  intros Hq HQ. unfold px_modify. rewrite post_call. unfold on_object, post, zoom. rewrite Hq. cbn. exact HQ.
Qed.

(** ** What a queue refuses *)

Lemma px_get_eq self q e : e_queues e !! self = Some (PxObj q) -> px_get self e = Ok (inl q) e.
Proof. intros Hq. unfold px_get. by rewrite Hq. Qed.
Lemma px_get_bind {A} self q e (k : posix_queue -> stmt env A) :
  e_queues e !! self = Some (PxObj q) -> sbind (px_get self) k e = k q e.
Proof. intros Hq. unfold sbind, fbind, px_get. by rewrite Hq. Qed.

(** The methods a closed queue refuses. *)
Definition refuses_all self q fuel e : Prop :=
  (forall saddr size, px_bind self saddr size e = Ok EINVAL e) /\
  (forall backlog, px_listen fuel self backlog e = Ok EINVAL e) /\
  (forall qt saddr size, px_connect fuel self qt saddr size e = Ok EINVAL e) /\
  (forall qt sga, px_push fuel self qt sga e = Ok EINVAL e) /\
  (forall qt, px_pop self qt e = Ok EINVAL e) /\
  (forall qr qt, 0 < my_qd (px_base q) -> qt <> 0 ->
     px_poll fuel self qr qt e = Ok (EINVAL, mk_qresult DMTR_OPC_INVALID (my_qd (px_base q)) qt (qr_value qr)) e) /\
  px_close self e = Ok 0 e.

Lemma closed_refuses self q fuel e :
  e_queues e !! self = Some (PxObj q) -> my_fd q = -1 -> refuses_all self q fuel e.
Proof.
  intros Hq Hfd. split_and!.
  1-5: intros; unfold px_bind, px_listen, px_connect, px_push, px_pop, body, fbind at 1;
    rewrite (px_get_bind _ _ _ _ Hq), Hfd; done.
  - intros qr qt Hqd Hqt. unfold px_poll, fbind at 1. unfold px_get at 1. rewrite Hq.
    unfold initialize_result, body, sbind, fbind, DMTR_TRUE, DMTR_OK, modify.
    rewrite (proj2 (Z.gtb_lt _ _)) by lia. rewrite (proj2 (Z.eqb_neq _ _) Hqt). cbn. unfold px_good. by rewrite Hfd.
  - unfold px_close, body, fbind at 1. rewrite (px_get_bind _ _ _ _ Hq), Hfd. done.
Qed.

(** A queue that is not open ([my_fd] is -1) refuses [bind], [listen],
    [connect], [push], [pop] and [poll] with [EINVAL], and closing it again
    succeeds, all without any effect; a listening queue refuses [push] and
    [pop] with [ENOTSUP], and one that is not listening refuses [accept] with
    [EINVAL], without any effect either. *)
Theorem posix_guards self q e fuel :
  e_queues e !! self = Some (PxObj q) ->
  (my_fd q = -1 -> refuses_all self q fuel e) /\
  (my_fd q <> -1 -> my_listening_flag q = true ->
     (forall qt sga, px_push fuel self qt sga e = Ok ENOTSUP e) /\ (forall qt, px_pop self qt e = Ok ENOTSUP e)) /\
  (my_listening_flag q = false -> forall qt new_qd, px_accept self qt new_qd e = Ok (EINVAL, None) e).
Proof.
  intros Hq. split_and!.
  - by apply closed_refuses.
  - intros Hfd Hl. split; intros; unfold px_push, px_pop, body, fbind at 1;
      rewrite (px_get_bind _ _ _ _ Hq), Hl, (proj2 (Z.eqb_neq _ _) Hfd); done.
  - intros Hl qt new_qd. unfold px_accept, body_out, fbind at 1. rewrite (px_get_bind _ _ _ _ Hq), Hl. done.
Qed.

(** ** Opening and closing *)

(** A system call that fails says why. *)
Record kernel_reports : Prop := {
  kr_socket d ty p os : (sys_socket d ty p os).1.1 = -1 -> (sys_socket d ty p os).1.2 <> 0;
  kr_setsockopt fd l o v os : (sys_setsockopt fd l o v os).1.1 = -1 -> (sys_setsockopt fd l o v os).1.2 <> 0;
  kr_fcntl fd c a os : (sys_fcntl fd c a os).1.1 = -1 -> (sys_fcntl fd c a os).1.2 <> 0
}.

Lemma set_tcp_nodelay_post e fd (Hk : kernel_reports) :
  wp (set_tcp_nodelay fd) (fun _ e' => exists os, e' = with_world e (w_heap (e_world e)) os) e.
Proof.
  unfold set_tcp_nodelay. post_simp. pose proof (kr_setsockopt Hk fd IPPROTO_TCP TCP_NODELAY 1 (w_os (e_world e))) as H.
  destruct (sys_setsockopt _ _ _ _ _) as [[r er] os]. cbn [fst snd] in *. destruct (r =? -1); post_simp; by exists os.
Qed.
Lemma set_non_blocking_post e fd (Hk : kernel_reports) :
  wp (set_non_blocking fd) (fun _ e' => exists os, e' = with_world e (w_heap (e_world e)) os) e.
Proof.
  unfold set_non_blocking, io_set_non_blocking. post_simp. destruct (sys_fcntl _ _ _ _) as [[r er] os]. cbn [fst snd].
  destruct (r =? -1); post_simp; [by exists os|]. cbn [w_os with_world set_e_world e_world].
  destruct (sys_fcntl _ _ _ _) as [[r' er'] os']. cbn [fst snd]. destruct (r' =? -1); post_simp; by exists os'.
Qed.

(** [socket] opens the queue, setting its descriptor to the kernel's and its
    protocol flag to whether the type is [SOCK_STREAM], exactly when it
    returns 0, and then the type is one of the two supported; otherwise it
    leaves the queue as it was.  Other queues and the heap never change. *)
Theorem px_socket_correct self q e domain type protocol :
  kernel_reports -> e_queues e !! self = Some (PxObj q) ->
  wp (px_socket self domain type protocol) (fun ret e' =>
    w_heap (e_world e') = w_heap (e_world e) /\
    (ret <> 0 /\ e_queues e' = e_queues e \/
     ret = 0 /\ (type = SOCK_STREAM \/ type = SOCK_DGRAM) /\
       let fd := (sys_socket domain type protocol (w_os (e_world e))).1.1 in
       fd <> -1 /\ e_queues e' = <[self := PxObj (set_my_fd fd (set_my_tcp_flag (type =? SOCK_STREAM) q))]> (e_queues e))) e.
Proof.
  intros Hk Hq. unfold px_socket. post_simp. pose proof (kr_socket Hk domain type protocol (w_os (e_world e))) as He.
  destruct (sys_socket _ _ _ _) as [[fd errno] os1]. cbn [fst snd] in *. destruct (fd =? -1) eqn:E; zbool.
  { post_simp. split; [done|left]. by split; [apply He|]. }
  post_simp.
  eapply post_mono with (Q := fun r e2 => match r with
      | inl _ => exists e1, e2 = with_queue self (set_my_tcp_flag (type =? SOCK_STREAM) q) e1 /\
                 (type = SOCK_STREAM \/ type = SOCK_DGRAM) /\ e_queues e1 = e_queues e /\ w_heap (e_world e1) = w_heap (e_world e)
      | inr er => er <> 0 /\ e_queues e2 = e_queues e /\ w_heap (e_world e2) = w_heap (e_world e)
      end).
  - destruct (type =? SOCK_STREAM) eqn:Es; [|destruct (type =? SOCK_DGRAM) eqn:Ed]; zbool.
    + post_simp. eapply post_mono; [by apply set_tcp_nodelay_post|]. intros r e1 [os2 ->].
      destruct (r =? 0) eqn:E0; zbool; [|done]. eapply post_px_modify; [exact Hq|]. eexists. split_and!; (done || by left).
    + post_simp. eapply post_mono; [by apply set_non_blocking_post|]. intros r e1 [os2 ->].
      destruct (r =? 0) eqn:E0; zbool; [|done]. eapply post_px_modify; [exact Hq|]. eexists. split_and!; (done || by right).
    + by post_simp.
  - intros [[]|er] e2.
    + intros (e1 & -> & Hty & Hqs & Hh). rewrite post_sbind. eapply post_px_modify; [apply lookup_insert_eq|]. post_simp.
      split; [done|right]. split; [done|]. split; [done|]. split; [done|]. cbn. by rewrite insert_insert_eq, Hqs.
    + intros (Her & Hqs & Hh). split; [done|by left].
Qed.

(** [close] of an open queue gives its descriptor back to the kernel and
    forgets it whatever the kernel answers, so that every later operation but
    another [socket] or [open] finds the queue closed; it returns the kernel's
    error, and touches nothing else. *)
Theorem px_close_correct self q e ret errno os :
  e_queues e !! self = Some (PxObj q) -> my_fd q <> -1 ->
  sys_close (my_fd q) (w_os (e_world e)) = (ret, errno, os) -> ret = 0 \/ ret = -1 ->
  let e' := with_world (with_queue self (set_my_fd (-1) q) e) (w_heap (e_world e)) os in
  px_close self e = Ok (if ret =? 0 then 0 else errno) e' /\ forall fuel, refuses_all self (set_my_fd (-1) q) fuel e'.
Proof.
  intros Hq Hfd Hc Hret e'.
  assert (Hq' : e_queues e' !! self = Some (PxObj (set_my_fd (-1) q))) by apply lookup_insert_eq.
  split; [|intros fuel; by apply closed_refuses].
  apply wp_eq. unfold px_close. post_simp. eapply post_px_get; [done|]. rewrite (proj2 (Z.eqb_neq _ _) Hfd). post_simp.
  eapply post_px_modify; [done|]. post_simp. cbn [e_world with_queue set_e_queues w_os]. rewrite Hc. cbn [fst snd].
  unfold check_call. destruct Hret as [-> | ->]; by post_simp.
Qed.

(** ** Accepting *)

(** A connected queue: both workers wait for tasks. *)
Definition with_workers q : posix_queue := set_px_pop_thread (idle PxPopIdle) (set_px_push_thread (idle PxPushIdle) q).

Lemma px_modify_eq self (f : posix_queue -> posix_queue) q e :
  e_queues e !! self = Some (PxObj q) -> px_modify self f e = Ok (inl tt) (with_queue self (f q) e).
Proof. intros Hq. unfold px_modify, call, fbind, on_object, zoom. by rewrite Hq. Qed.

Lemma worker_ctor_eq self q e fuel :
  e_queues e !! self = Some (PxObj q) -> -1 < my_fd q -> (1 < fuel)%nat ->
  user_thread_ctor (px_push_step self) fuel PxPushLoop e = Ok (mk_user_thread EAGAIN [] (Some PxPushIdle)) e /\
  user_thread_ctor (px_pop_step self) fuel PxPopLoop e = Ok (mk_user_thread EAGAIN [] (Some PxPopIdle)) e.
Proof.
  intros Hq Hfd Hf. destruct fuel as [|[|fuel]]; [lia..|].
  assert (Hgood : px_good q = true) by (apply Z.gtb_lt; lia).
  split; unfold user_thread_ctor; cbn [run px_push_step px_pop_step]; unfold fbind at 1; unfold in_thread at 1;
    unfold fbind at 1; by rewrite (px_get_bind _ _ _ _ Hq), Hgood.
Qed.

Lemma start_io_threads_eq self q e fuel :
  e_queues e !! self = Some (PxObj q) -> px_pop_thread q = None -> -1 < my_fd q -> (1 < fuel)%nat ->
  start_io_threads fuel self e = Ok tt (with_queue self (with_workers q) e).
Proof.
  intros Hq Hth Hfd Hf. unfold start_io_threads, fbind.
  rewrite (proj1 (worker_ctor_eq self q e fuel Hq Hfd Hf)), (px_modify_eq _ _ q e Hq).
  set (e1 := with_queue _ _ e). assert (Hq1 : e_queues e1 !! self = Some (PxObj (set_px_push_thread (idle PxPushIdle) q)))
    by apply lookup_insert_eq.
  rewrite (proj2 (worker_ctor_eq self _ e1 fuel Hq1 Hfd Hf)).
  unfold reset_pop_thread, fbind. rewrite (px_get_eq _ _ _ Hq1), (px_modify_eq _ _ _ e1 Hq1). cbn [px_pop_thread set_px_push_thread]. rewrite Hth.
  unfold on_heap, zoom, destroy_pop_thread, fret, with_queue, e1, with_queue, set_e_world. cbn. rewrite insert_insert_eq. unfold set_e_queues. by destruct (e_world e).
Qed.

(** Giving a new connection its modes. *)
Definition modes_set (fd : Z) (os os' : OS) : Prop := exists r1 er1 os1 flags er2 os2 r3 er3,
  sys_setsockopt fd IPPROTO_TCP TCP_NODELAY 1 os = (r1, er1, os1) /\ r1 <> -1 /\
  sys_fcntl fd F_GETFL 0 os1 = (flags, er2, os2) /\ flags <> -1 /\
  sys_fcntl fd F_SETFL (Z.lor flags O_NONBLOCK) os2 = (r3, er3, os') /\ r3 <> -1.

Lemma modes_set_eq fd os' e :
  modes_set fd (w_os (e_world e)) os' ->
  exists os1, set_tcp_nodelay fd e = Ok 0 (with_world e (w_heap (e_world e)) os1) /\
    set_non_blocking fd (with_world e (w_heap (e_world e)) os1) = Ok 0 (with_world e (w_heap (e_world e)) os').
Proof.
  intros (r1 & er1 & os1 & flags & er2 & os2 & r3 & er3 & H1 & N1 & H2 & N2 & H3 & N3). exists os1.
  split; apply wp_eq; unfold set_tcp_nodelay, set_non_blocking, io_set_non_blocking; post_simp.
  - rewrite H1. cbn [fst snd]. rewrite (proj2 (Z.eqb_neq _ _) N1). by post_simp.
  - cbn [w_os with_world set_e_world e_world]. rewrite H2. cbn [fst snd]. rewrite (proj2 (Z.eqb_neq _ _) N2). post_simp.
    cbn [w_os with_world set_e_world e_world]. rewrite H3. cbn [fst snd]. rewrite (proj2 (Z.eqb_neq _ _) N3). by post_simp.
Qed.

(** The new connection's queue once it is accepted. *)
Definition accepted_queue (fd : Z) nq : posix_queue :=
  with_workers (set_my_listening_flag false (set_my_tcp_flag true (set_my_fd fd nq))).
Definition set_px_slot (t : Z) (tk : task) q : posix_queue := set_px_base (set_slot t tk (px_base q)) q.
Definition accepted_task (qd : Z) (addr : sockaddr_in) (tk : task) : task :=
  set_my_qr (set_qr_value (qv_ares qd addr) (my_qr tk)) (set_my_error 0 tk).

Lemma px_accept4_eq fd e ret errno addr os1 :
  sys_accept4 fd SOCK_NONBLOCK (w_os (e_world e)) = (ret, errno, addr, os1) -> -1 <= ret -> (ret = -1 -> errno <> 0) ->
  px_accept4 fd e = Ok (if ret =? -1 then (errno, (-1, sockaddr_zero)) else (0, (ret, addr)))
    (with_world e (w_heap (e_world e)) os1).
Proof.
  intros Hacc Hr He. apply wp_eq. unfold px_accept4. post_simp. rewrite Hacc. cbn [fst snd].
  destruct (ret =? -1) eqn:E; zbool.
  - destruct (errno =? EAGAIN) eqn:Ea; zbool; [subst; by post_simp|]. post_simp. rewrite (proj2 (Z.eqb_neq _ _) (He E)). done.
  - rewrite (proj2 (Z.ltb_ge _ _)) by lia. by post_simp.
Qed.

(** The two ways an attempt ends that a client sees: nobody is there yet, and
    the connection is made. *)
Lemma accept_step_again self t new_pq q e fuel errno addr os1 tq :
  e_queues e !! self = Some (PxObj q) -> sys_accept4 (my_fd q) SOCK_NONBLOCK (w_os (e_world e)) = (-1, errno, addr, os1) ->
  errno = EAGAIN ->
  px_accept_step fuel self (PxAcceptTry t new_pq) tq e =
    Ok (tq, Yield (PxAcceptTry t new_pq)) (with_world e (w_heap (e_world e)) os1).
Proof.
  intros Hq Hacc He. apply wp_eq. unfold px_accept_step. rewrite post_in_thread, post_sbind. eapply post_px_get; [done|].
  rewrite post_sbind, post_call. eapply post_eq; [apply (px_accept4_eq _ _ _ _ _ _ Hacc); lia|].
  rewrite He. by post_simp.
Qed.
Lemma accept_step_ok self t new_pq q nq e fuel fd errno addr os1 os2 tq :
  e_queues e !! self = Some (PxObj q) -> e_queues e !! new_pq = Some (PxObj nq) -> px_pop_thread nq = None -> self <> new_pq -> (1 < fuel)%nat ->
  sys_accept4 (my_fd q) SOCK_NONBLOCK (w_os (e_world e)) = (fd, errno, addr, os1) -> 0 <= fd -> modes_set fd os1 os2 ->
  px_accept_step fuel self (PxAcceptTry t new_pq) tq e = Ok (tq, Continue PxAcceptLoop)
    (with_world (with_queue self (set_px_slot t (accepted_task (my_qd (px_base nq)) addr (px_task t q)) q)
       (with_queue new_pq (accepted_queue fd nq) e)) (w_heap (e_world e)) os2).
Proof.
  intros Hq Hnq Hth Hne Hf Hacc Hr Hm. apply wp_eq. unfold px_accept_step. rewrite post_in_thread, post_sbind. eapply post_px_get; [done|].
  rewrite post_sbind, post_call. eapply post_eq; [apply (px_accept4_eq _ _ _ _ _ _ Hacc); lia|].
  rewrite (proj2 (Z.eqb_neq fd (-1))) by lia. cbn iota beta. change (0 =? EAGAIN) with false. change (negb (0 =? 0)) with false. cbn iota.
  destruct (modes_set_eq fd os2 (with_world e (w_heap (e_world e)) os1) Hm) as (osm & Hm1 & Hm2).
  rewrite post_sbind, post_DMTR_OK. eapply post_eq; [exact Hm1|]. change (0 =? 0) with true. cbn iota.
  rewrite post_sbind, post_DMTR_OK. eapply post_eq; [exact Hm2|]. change (0 =? 0) with true. cbn iota.
  rewrite post_sbind. eapply post_px_modify; [exact Hnq|]. rewrite post_sbind. eapply post_px_modify; [apply lookup_insert_eq|].
  rewrite post_sbind. eapply post_px_modify; [apply lookup_insert_eq|].
  rewrite post_sbind, post_call. eapply post_eq.
  { apply start_io_threads_eq; [apply lookup_insert_eq|exact Hth|cbn; lia|done]. }
  cbn iota beta. rewrite post_sbind. eapply post_px_get; [apply lookup_insert_eq|]. post_simp.
  eapply post_px_on_base.
  { cbn. rewrite !lookup_insert_ne by done. exact Hq. }
  { unfold on_slot, zoom. rewrite task_complete_ares_eq. change (0 =? EAGAIN) with false. done. }
  change (0 =? 0) with true. cbn iota. post_simp. split; [done|].
  unfold with_queue, with_world, set_e_queues, set_e_world. cbn. by rewrite !insert_insert_eq.
Qed.

(** What one attempt to accept does, for a listening queue [q] whose task in
    slot [t] is to accept into the queue object [new_pq].  If no connection is
    waiting the worker yields, to try again.  If the kernel fails, the task is
    completed with its error, and nothing else changes: the task's value still
    is what the slot's previous task left there.  Otherwise, the kernel letting
    it set the connection's modes, the new queue gets the connection's
    descriptor and both its workers, idle (it had none), and the task is completed with the
    new queue's descriptor and the peer's address; the worker goes on with its
    next task. *)
Theorem net_accept_correct self t new_pq q nq e fuel ret errno addr os1 :
  e_queues e !! self = Some (PxObj q) -> e_queues e !! new_pq = Some (PxObj nq) -> px_pop_thread nq = None -> self <> new_pq -> (1 < fuel)%nat ->
  sys_accept4 (my_fd q) SOCK_NONBLOCK (w_os (e_world e)) = (ret, errno, addr, os1) ->
  let h := w_heap (e_world e) in
  let step := px_accept_step fuel self (PxAcceptTry t new_pq) in
  (ret = -1 -> errno = EAGAIN -> forall tq, step tq e = Ok (tq, Yield (PxAcceptTry t new_pq)) (with_world e h os1)) /\
  (ret = -1 -> errno <> EAGAIN -> errno <> 0 -> forall tq,
     step tq e = Ok (tq, Continue PxAcceptLoop)
       (with_world (with_queue self (set_px_slot t (set_my_error errno (px_task t q)) q) e) h os1)) /\
  (0 <= ret -> forall os2 tq, modes_set ret os1 os2 ->
     step tq e = Ok (tq, Continue PxAcceptLoop)
       (with_world (with_queue self (set_px_slot t (accepted_task (my_qd (px_base nq)) addr (px_task t q)) q)
          (with_queue new_pq (accepted_queue ret nq) e)) h os2)).
Proof.
  intros Hq Hnq Hth Hne Hf Hacc h step. split_and!.
  - intros -> He tq. by eapply accept_step_again.
  - intros -> Ha He tq. apply wp_eq. unfold step, px_accept_step. rewrite post_in_thread, post_sbind. eapply post_px_get; [done|].
    rewrite post_sbind, post_call. eapply post_eq; [apply (px_accept4_eq _ _ _ _ _ _ Hacc); lia|].
    change (-1 =? -1) with true. cbn iota. rewrite (proj2 (Z.eqb_neq _ _) Ha), (proj2 (Z.eqb_neq _ _) He). cbn [negb]. cbn iota. post_simp.
    eapply post_px_on_base; [done|by apply on_slot_complete|]. post_simp. done.
  - intros Hr os2 tq Hm. by eapply accept_step_ok.
Qed.
End connections.

(** ** Witnesses, on the concrete kernel of [PosixWire] *)
Definition demo_env (q : posix_queue) : qenv posix_object (pworld demo_kernel) :=
  mk_qenv {[3 := PxObj q]} (mk_pworld demo_heap (mk_demo_kernel [] [])).
Definition demo_closed : posix_queue := posix_queue_ctor 3 NETWORK_Q.
Definition demo_listening : posix_queue := set_my_listening_flag true (set_my_tcp_flag true (set_my_fd 5 demo_closed)).
Definition demo_accepting : qenv posix_object (pworld demo_kernel) :=
  mk_qenv {[3 := PxObj demo_listening; 4 := PxObj (posix_queue_ctor 4 NETWORK_Q)]} (mk_pworld demo_heap (mk_demo_kernel [] [])).

Lemma posix_guards_witness :
  px_pop 3 demo_qt (demo_env demo_closed) = Ok EINVAL (demo_env demo_closed) /\
  px_pop 3 demo_qt (demo_env demo_listening) = Ok ENOTSUP (demo_env demo_listening) /\
  px_accept 3 demo_qt 4 (demo_env demo_closed) = Ok (EINVAL, None) (demo_env demo_closed).
Proof.
  pose proof (posix_guards 3 demo_closed (demo_env demo_closed) 9 eq_refl) as [H1 [_ H3]].
  pose proof (posix_guards 3 demo_listening (demo_env demo_listening) 9 eq_refl) as [_ [H2 _]].
  split; [exact (proj1 (proj2 (proj2 (proj2 (proj2 (H1 eq_refl))))) demo_qt)|]. split; [|exact (H3 eq_refl demo_qt 4)].
  refine (proj2 (H2 _ eq_refl) demo_qt). discriminate.
Defined.

Lemma demo_reports : kernel_reports (OS := demo_kernel).
Proof. split; cbn; discriminate. Qed.

Lemma px_socket_correct_witness :
  wp (px_socket 3 2 SOCK_DGRAM 0) (fun ret e' =>
    ret <> 0 \/ e_queues e' = {[3 := PxObj (set_my_fd 5 (set_my_tcp_flag false demo_closed))]}) (demo_env demo_closed).
Proof.
  eapply post_mono; [exact (px_socket_correct 3 demo_closed (demo_env demo_closed) 2 SOCK_DGRAM 0 demo_reports eq_refl)|].
  intros ret e' [_ [[H _]|[_ [_ [_ H]]]]]; [left; exact H|right]. rewrite H. reflexivity.
Defined.

Lemma px_close_correct_witness :
  px_close 3 (demo_env demo_listening) = Ok 0 (demo_env (set_my_fd (-1) demo_listening)).
Proof.
  assert (H : demo_env (set_my_fd (-1) demo_listening) =
    with_world (with_queue 3 (set_my_fd (-1) demo_listening) (demo_env demo_listening)) demo_heap (mk_demo_kernel [] []))
    by reflexivity.
  rewrite H.
  refine (proj1 (px_close_correct 3 demo_listening (demo_env demo_listening) 0 0 (mk_demo_kernel [] []) eq_refl _ eq_refl _));
    [discriminate|left; reflexivity].
Defined.

Lemma net_accept_correct_witness :
  px_accept_step 9 3 (PxAcceptTry 1 4) [] demo_accepting =
  Ok ([], Continue PxAcceptLoop)
    (with_world (with_queue 3 (set_px_slot 1 (accepted_task 4 (mk_sockaddr_in 2 7 1 0) (px_task 1 demo_listening)) demo_listening)
       (with_queue 4 (accepted_queue 6 (posix_queue_ctor 4 NETWORK_Q)) demo_accepting)) demo_heap (mk_demo_kernel [] [])).
Proof.
  refine (proj2 (proj2 (net_accept_correct 3 1 4 demo_listening (posix_queue_ctor 4 NETWORK_Q) demo_accepting 9 6 0
    (mk_sockaddr_in 2 7 1 0) (mk_demo_kernel [] []) eq_refl eq_refl eq_refl _ _ eq_refl)) _ (mk_demo_kernel [] []) [] _).
  - discriminate.
  - lia.
  - lia.
  - exists 0, 0, (mk_demo_kernel [] []), 0, 0, (mk_demo_kernel [] []), 0, 0. split_and!; (reflexivity || discriminate).
Defined.
