(* ===== verification/PosixIo.v ===== *)
(** * Sending and receiving through [push], [pop] and [poll]

    The operations of an open connection from the call that starts them to the
    [poll] that reports them, and the errors of the pop worker. *)
From S2P Require Import Prelude Cmd Types Memory IoQueue UserThread MemoryQueue Queue MemoryVtable Contents PosixOs PosixQueue PosixWire PosixConn.

Section io.
Context {OS : Type} `{POS : PosixOS OS}.
Abbreviation env := (qenv posix_object (pworld OS)).
Implicit Types (e : env) (q : posix_queue).

Lemma px_service_push_eq fuel self q th th' ret e e' q' :
  e_queues e !! self = Some (PxObj q) -> px_push_thread q = Some th ->
  service (px_push_step self) fuel th e = Ok (ret, th') e' -> e_queues e' !! self = Some (PxObj q') ->
  px_service_push fuel self e = Ok ret (with_queue self (set_px_push_thread (Some th') q') e').
Proof.
  intros Hq Hth Hs Hq'. apply wp_eq. unfold px_service_push. post_simp. eapply post_px_get; [done|]. rewrite Hth. post_simp.
  eapply post_eq; [exact Hs|]. cbn iota beta. rewrite post_sbind. eapply post_px_modify; [done|]. by post_simp.
Qed.

(** An idle push worker does nothing. *)
Lemma service_push_idle fuel self e :
  (0 < fuel)%nat -> service (px_push_step self) fuel (mk_user_thread EAGAIN [] (Some PxPushIdle)) e =
    Ok (EAGAIN, mk_user_thread EAGAIN [] (Some PxPushIdle)) e.
Proof. intros Hf. by destruct fuel as [|fuel]; [lia|]. Qed.
Lemma service_pop_idle fuel self e :
  (0 < fuel)%nat -> service (px_pop_step self) fuel (mk_user_thread EAGAIN [] (Some PxPopIdle)) e =
    Ok (EAGAIN, mk_user_thread EAGAIN [] (Some PxPopIdle)) e.
Proof. intros Hf. by destruct fuel as [|fuel]; [lia|]. Qed.

(** A connected queue with idle workers on which token [qt] is free. *)
Record connected (self qt : Z) q (qs : gmap Z posix_object) : Prop := {
  cn_queue : qs !! self = Some (PxObj q);
  cn_open : 0 <= my_fd q;
  cn_network : my_cid (px_base q) = NETWORK_Q;
  cn_listening : my_listening_flag q = false;
  cn_qd : 0 < my_qd (px_base q);
  cn_token : qt <> 0;
  cn_free : has_task qt (px_base q) = false;
  cn_push : px_push_thread q = idle PxPushIdle;
  cn_pop : px_pop_thread q = idle PxPopIdle
}.

(** The task of a push of [sga], completed. *)
Definition push_task qt sga q : task := started DMTR_OPC_PUSH qt (Some sga) None (px_base q).

Lemma px_push_eq self qt p data sga qs q h fuel errno os os' :
  connected self qt q qs -> sga_numsegs sga = 1 -> sga_segs sga = [mk_sgaseg p (len32 data)] ->
  0 < len32 data < 2 ^ 32 - 4 -> load_bytes p (len32 data) h = Ok data h -> (4 < fuel)%nat ->
  sys_writev (my_fd q) (wire_vectors data) os = (len32 (wire_message [data]), errno, os') ->
  px_push fuel self qt sga (mk_qenv qs (mk_pworld h os)) =
  Ok 0 (mk_qenv (<[self := PxObj (set_px_slot (task_slot qt) (completed_task sga (push_task qt sga q)) q)]> qs) (mk_pworld h os')).
Proof.
  intros [] Hn Hs Hlen Hload Hf Hw. apply wp_eq. unfold px_push. post_simp. eapply post_px_get; [done|].
  rewrite (proj2 (Z.eqb_neq (my_fd q) (-1))) by lia. cbn [negb]. post_simp. rewrite cn_listening0. cbn [negb]. post_simp.
  unfold DMTR_NOTNULL. post_simp. rewrite cn_push0. cbn iota. unfold idle at 1. post_simp.
  eapply post_px_on_base; [done| |].
  { rewrite new_task_sga_cases by done. rewrite cn_free0, Hn, (proj2 (Z.eqb_neq _ _) cn_token0). done. }
  change (0 =? 0) with true. cbn iota. rewrite post_sbind. eapply post_px_modify; [apply lookup_insert_eq|].
  set (q1 := set_px_push_thread (Some (push_point qt p data true)) (set_px_slot (task_slot qt) (push_task qt sga q) q)).
  match goal with |- post _ _ _ ?x => replace x with (push_env (<[self := PxObj q1]> qs) h os) end.
  2: { unfold push_env, with_queue, set_e_queues, q1. cbn. rewrite insert_insert_eq, cn_push0. done. }
  rewrite post_sbind, post_call. eapply post_eq.
  { eapply (px_service_push_eq fuel self q1 (push_point qt p data true) _ EAGAIN (push_env (<[self := PxObj q1]> qs) h os)).
    - apply lookup_insert_eq.
    - done.
    - assert (Hr : push_ready self qt p data (<[self := PxObj q1]> qs) q1 h).
      { split; try done.
        - apply lookup_insert_eq.
        - cbn. rewrite has_task_slot, slot_task_set_eq. done.
        - unfold px_task. cbn. by rewrite slot_task_set_eq.
        - unfold px_task. cbn. by rewrite slot_task_set_eq. }
      rewrite (service_push _ _ _ _ _ _ _ fuel true _ _ os os' Hr Hw) by (try lia; unfold len32; lia).
      rewrite (proj2 (Z.eqb_neq _ _)) by (rewrite len32_message; lia). cbn [andb]. rewrite Z.eqb_refl. done.
    - apply lookup_insert_eq. }
  cbn iota. post_simp. split; [done|]. unfold with_queue, set_e_queues, pushed, q1. cbn. rewrite !insert_insert_eq.
  do 4 f_equal. unfold set_px_slot, set_px_base, set_px_push_thread, px_task. cbn. rewrite cn_push0.
  rewrite slot_task_set_eq. unfold set_slot, set_my_tasks. cbn. by rewrite insert_insert_eq.
Qed.

Lemma with_queue_same self q e : e_queues e !! self = Some (PxObj q) -> with_queue self q e = e.
Proof. intros Hq. unfold with_queue, set_e_queues. rewrite insert_id by done. by destruct e. Qed.

(** [poll], from what the services of the workers do. *)
Lemma px_poll_ok fuel self q qt qr e (Q : Z * dmtr_qresult -> env -> Prop) :
  e_queues e !! self = Some (PxObj q) -> 0 < my_qd (px_base q) -> qt <> 0 -> 0 <= my_fd q ->
  has_task qt (px_base q) = true ->
  wp (px_poll_service fuel self (task_opcode (px_task (task_slot qt) q))) (fun r e1 => r = inl EAGAIN /\
    exists q1, e_queues e1 !! self = Some (PxObj q1) /\
      Q (task_poll (mk_qresult DMTR_OPC_INVALID (my_qd (px_base q)) qt (qr_value qr)) (px_task (task_slot qt) q1)) e1) e ->
  wp (px_poll fuel self qr qt) Q e.
Proof.
  intros Hq Hqd Hqt Hfd Ht Hs. unfold px_poll. rewrite post_fbind. eapply post_px_get; [done|].
  assert (Hi : forall r, initialize_result (my_qd (px_base q)) qt r = Ok 0 (mk_qresult DMTR_OPC_INVALID (my_qd (px_base q)) qt (qr_value r))).
  { intros r. unfold initialize_result, body, sbind, fbind, DMTR_TRUE. rewrite (proj2 (Z.gtb_lt _ _)) by lia.
    by rewrite (proj2 (Z.eqb_neq _ _) Hqt). }
  rewrite Hi. post_simp. change (0 =? 0) with true. cbn iota. unfold px_good. rewrite (proj2 (Z.gtb_lt _ _)) by lia. post_simp.
  eapply post_px_on_base; [done|by apply get_task_ptr_valid|].
  change (fst (0, task_slot qt) =? 0) with true. cbn iota. cbn [snd].
  match goal with |- post _ _ _ ?x => replace x with e end.
  2: { rewrite <- (with_queue_same self q e Hq) at 1. unfold with_queue, set_e_queues. by destruct q. }
  rewrite post_sbind. eapply post_px_get; [done|]. rewrite post_sbind. eapply post_mono; [exact Hs|].
  intros r e1 [-> (q1 & Hq1 & HQ)]. cbn beta iota. change (EAGAIN =? EAGAIN) with true. post_simp.
  eapply post_px_get; [done|]. by post_simp.
Qed.

(** Of a push or a pop. *)
Lemma px_poll_io fuel self q qt qr e (Q : Z * dmtr_qresult -> env -> Prop) :
  e_queues e !! self = Some (PxObj q) -> 0 < my_qd (px_base q) -> qt <> 0 -> 0 <= my_fd q ->
  has_task qt (px_base q) = true ->
  task_opcode (px_task (task_slot qt) q) = DMTR_OPC_PUSH \/ task_opcode (px_task (task_slot qt) q) = DMTR_OPC_POP ->
  wp (px_service_pop fuel self) (fun r e1 => r = EAGAIN /\
    wp (px_service_push fuel self) (fun r e2 => r = EAGAIN /\ exists q2, e_queues e2 !! self = Some (PxObj q2) /\
      Q (task_poll (mk_qresult DMTR_OPC_INVALID (my_qd (px_base q)) qt (qr_value qr)) (px_task (task_slot qt) q2)) e2) e1) e ->
  wp (px_poll fuel self qr qt) Q e.
Proof.
  intros Hq Hqd Hqt Hfd Ht Hop Hs. eapply px_poll_ok; try done.
  assert (Hsv : px_poll_service fuel self (task_opcode (px_task (task_slot qt) q)) =
     (ret <- call (px_service_pop fuel self) ; if negb (ret =? EAGAIN) then normal ret else call (px_service_push fuel self))%cmd).
  { by destruct Hop as [-> | ->]. }
  rewrite Hsv, post_sbind, post_call. eapply post_mono; [exact Hs|]. cbn beta. intros r e1 [-> Hs1].
  change (negb (EAGAIN =? EAGAIN)) with false. cbn iota. rewrite post_call. eapply post_mono; [exact Hs1|].
  cbn beta. intros r e2 [-> H]. done.
Qed.

Lemma px_service_push_idle fuel self q e :
  e_queues e !! self = Some (PxObj q) -> px_push_thread q = idle PxPushIdle -> (0 < fuel)%nat ->
  px_service_push fuel self e = Ok EAGAIN e.
Proof.
  intros Hq Hth Hf. erewrite px_service_push_eq by (done || by apply service_push_idle).
  f_equal. rewrite <- (with_queue_same self q e Hq) at 2. f_equal. unfold set_px_push_thread. destruct q; cbn in *. by subst.
Qed.
Lemma px_service_pop_idle fuel self q e :
  e_queues e !! self = Some (PxObj q) -> px_pop_thread q = idle PxPopIdle -> (0 < fuel)%nat ->
  px_service_pop fuel self e = Ok EAGAIN e.
Proof.
  intros Hq Hth Hf. apply wp_eq. unfold px_service_pop. post_simp. eapply post_px_get; [done|]. rewrite Hth. unfold idle. post_simp.
  eapply post_eq; [by apply service_pop_idle|]. cbn iota beta. rewrite post_sbind. eapply post_px_modify; [done|]. post_simp.
  split; [done|]. rewrite <- (with_queue_same self q e Hq) at 2. f_equal. unfold set_px_pop_thread. destruct q; cbn in *. by subst.
Qed.

(** C9: sending, from the call to its completion.  On a connected queue, with
    the kernel taking the whole message, [push] of a one-segment array starts
    the token's task, writes the wire message of the array's bytes and
    completes the task at once, and a [poll] of the token then returns the
    array; nothing else changes. *)
Theorem push_sends self qt p data sga qs q h fuel errno os os' qr :
  connected self qt q qs -> sga_numsegs sga = 1 -> sga_segs sga = [mk_sgaseg p (len32 data)] ->
  0 < len32 data < 2 ^ 32 - 4 -> load_bytes p (len32 data) h = Ok data h -> (4 < fuel)%nat ->
  sys_writev (my_fd q) (wire_vectors data) os = (len32 (wire_message [data]), errno, os') ->
  let e' := mk_qenv (<[self := PxObj (set_px_slot (task_slot qt) (completed_task sga (push_task qt sga q)) q)]> qs)
              (mk_pworld h os') in
  px_push fuel self qt sga (mk_qenv qs (mk_pworld h os)) = Ok 0 e' /\
  px_poll fuel self qr qt e' = Ok (0, mk_qresult DMTR_OPC_PUSH (my_qd (px_base q)) qt (qv_sga sga)) e'.
Proof.
  intros Hc Hn Hs Hlen Hload Hf Hw e'. split; [by eapply px_push_eq|]. destruct Hc.
  set (q' := set_px_slot (task_slot qt) (completed_task sga (push_task qt sga q)) q).
  assert (Hq' : e_queues e' !! self = Some (PxObj q')) by apply lookup_insert_eq.
  assert (Ht : px_task (task_slot qt) q' = completed_task sga (push_task qt sga q)).
  { unfold px_task, q', set_px_slot. cbn. by rewrite slot_task_set_eq. }
  apply wp_eq. apply (px_poll_io fuel self q'); try done.
  - unfold q', set_px_slot. cbn. rewrite has_task_slot. by rewrite slot_task_set_eq.
  - rewrite Ht. by left.
  - eapply post_eq; [apply (px_service_pop_idle fuel self q'); done || lia|]. split; [done|].
    eapply post_eq; [apply (px_service_push_idle fuel self q'); done || lia|]. split; [done|].
    exists q'. split; [done|]. by rewrite Ht.
Qed.

(** The queue once the pop of [qt] has received [sga]. *)
Definition popped_queue qt sga q : posix_queue :=
  set_px_pop_thread (idle PxPopIdle) (set_px_slot (task_slot qt) (completed_task sga (px_task (task_slot qt) q)) q).

Lemma poll_pop_received self qt (stream : OS -> list Z) (I : OS -> Prop) data rest q fuel qr e :
  pop_ready self qt data (e_queues e) q -> 0 < my_qd (px_base q) -> qt <> 0 ->
  px_pop_thread q = Some (mk_user_thread EAGAIN [qt] (Some PxPopIdle)) -> px_push_thread q = idle PxPushIdle ->
  has_task qt (px_base q) = true -> task_opcode (px_task (task_slot qt) q) = DMTR_OPC_POP ->
  heap_ok (w_heap (e_world e)) -> reads_stream (my_fd q) stream False ->
  (forall len os, I os -> I (snd (sys_read (my_fd q) len os))) -> I (w_os (e_world e)) ->
  stream (w_os (e_world e)) = wire_message [data] ++ rest -> (length data + 22 < fuel)%nat ->
  wp (px_poll fuel self qr qt) (fun '(ret, r) e' => ret = 0 /\ exists sga,
    r = set_qr_value (qv_sga sga) (my_qr (px_task (task_slot qt) q)) /\
    e_queues e' = <[self := PxObj (popped_queue qt sga q)]> (e_queues e) /\
    received_sga data sga (w_heap (e_world e')) /\ stream (w_os (e_world e')) = rest /\
    I (w_os (e_world e')) /\
    allocated (sga_buf sga) (len32 (wire_payload [data])) (w_heap (e_world e)) (w_heap (e_world e'))) e.
Proof.
  intros Hr Hqd Hqt Hpop Hpush Ht Hop Hheap Hread HI HIe Hst Hf. destruct Hr.
  apply (px_poll_io fuel self q); try done; [by right|].
  unfold px_service_pop. post_simp. eapply post_px_get; [done|]. rewrite Hpop. post_simp.
  eapply post_mono.
  { eapply (service_receives (my_fd q) self qt stream False data rest (e_queues e) q Hread); try done.
    - left. by split_and!.
    - cbn [to_read]. rewrite length_payload1. lia. }
  intros [ret th] e' (-> & k' & -> & Hrec & [[]| ->]). cbn iota. destruct Hrec as [_ (sga & Hqs & Hsga & Hs' & Hfr & Hal)].
  post_simp. eapply post_px_modify; [by rewrite Hqs, lookup_insert_eq|]. post_simp. split; [done|].
  eapply post_eq.
  { eapply px_service_push_idle; [apply lookup_insert_eq|done|lia]. }
  split; [done|]. eexists. split; [apply lookup_insert_eq|]. unfold px_task at 1. cbn. rewrite slot_task_set_eq.
  split; [done|]. exists sga. split; [done|]. split; [|done].
  unfold with_queue. cbn [e_queues set_e_queues]. by rewrite Hqs, insert_insert_eq.
Qed.

(** C5: receiving, from the token's task to its result.  On a connected queue
    whose pop worker has been given the token [qt], on a connection on which
    the peer sent the message of [data] and then [rest], with a kernel that
    delivers what has arrived, in pieces of any size, one [poll] of the token
    returns 0 and an array of one segment that holds exactly [data]; the memory
    is that before with one block more, the array's, and [rest] stays in the
    stream. *)
Theorem poll_pop_delivers self qt (stream : OS -> list Z) data rest q fuel qr e :
  pop_ready self qt data (e_queues e) q -> 0 < my_qd (px_base q) -> qt <> 0 ->
  px_pop_thread q = Some (mk_user_thread EAGAIN [qt] (Some PxPopIdle)) -> px_push_thread q = idle PxPushIdle ->
  has_task qt (px_base q) = true -> task_opcode (px_task (task_slot qt) q) = DMTR_OPC_POP ->
  heap_ok (w_heap (e_world e)) -> reads_stream (my_fd q) stream False ->
  stream (w_os (e_world e)) = wire_message [data] ++ rest -> (length data + 22 < fuel)%nat ->
  wp (px_poll fuel self qr qt) (fun '(ret, r) e' => ret = 0 /\
    stream (w_os (e_world e')) = rest /\
    exists sga, r = set_qr_value (qv_sga sga) (my_qr (px_task (task_slot qt) q)) /\ received_sga data sga (w_heap (e_world e')) /\
      allocated (sga_buf sga) (len32 (wire_payload [data])) (w_heap (e_world e)) (w_heap (e_world e'))) e.
Proof.
  intros Hr Hqd Hqt Hpop Hpush Ht Hop Hheap Hread Hst Hf.
  eapply post_mono; [by apply (poll_pop_received self qt stream (fun _ => True) data rest q)|].
  intros [ret r] e' (-> & sga & -> & _ & Hsga & Hs' & _ & Hal). split; [done|]. split; [done|]. by exists sga.
Qed.

(** ** Errors of the pop worker *)

Lemma px_read_none fd len e ret errno os :
  len <= SSIZE_MAX -> sys_read fd len (w_os (e_world e)) = (ret, errno, [], os) -> ret = 0 \/ ret = -1 ->
  px_read fd false len e = Ok (if ret =? 0 then 0 else errno, []) (with_world e (w_heap (e_world e)) os).
Proof.
  intros Hl Hr Hret. apply wp_eq. unfold px_read. post_simp. cbn [negb]. rewrite (proj2 (Z.leb_le _ _)) by lia. post_simp.
  rewrite Hr. cbn [fst snd]. destruct Hret as [-> | ->]; post_simp; done.
Qed.
Lemma pop_finish_error self t q err sga e :
  e_queues e !! self = Some (PxObj q) -> err <> EAGAIN -> err <> 0 ->
  pop_finish self t err sga e =
    Ok (inl (Continue PxPopLoop)) (with_queue self (set_px_slot t (set_my_error err (px_task t q)) q) e).
Proof.
  intros Hq Ha He. apply wp_eq. unfold pop_finish. rewrite (proj2 (Z.eqb_neq _ _) Ha), (proj2 (Z.eqb_neq _ _) He). cbn [negb]. post_simp.
  eapply post_px_on_base; [done|by apply on_slot_complete|]. post_simp. done.
Qed.

(** C39: a connection that ends, or fails, before a whole message has arrived
    aborts the task: whatever the kernel's error, unless it would block, the
    task is completed with [ECONNABORTED], and a buffer already allocated for
    the data is released; a header that does not start with the magic number
    completes the task with [EILSEQ], before anything is allocated.  The
    worker goes on with its next task. *)
Theorem net_pop_errors self t q e tq ret errno os :
  e_queues e !! self = Some (PxObj q) ->
  let aborted err := with_queue self (set_px_slot t (set_my_error err (px_task t q)) q) in
  let h := w_heap (e_world e) in
  (forall header, (length header < 12)%nat ->
     sys_read (my_fd q) (12 - Z.of_nat (length header)) (w_os (e_world e)) = (ret, errno, [], os) ->
     ret = 0 \/ ret = -1 /\ errno <> EAGAIN ->
     px_pop_step self (PxHeader t header) tq e = Ok (tq, Continue PxPopLoop) (with_world (aborted ECONNABORTED e) h os)) /\
  (forall header, length header = 12%nat -> h_magic (ntoh_header (header_of_bytes header)) <> DMTR_HEADER_MAGIC ->
     px_pop_step self (PxHeader t header) tq e = Ok (tq, Continue PxPopLoop) (aborted EILSEQ e)) /\
  (forall hd buf n r, n < h_bytes hd <= SSIZE_MAX -> 0 <= n -> buf + n <> 0 -> is_Some (h_blocks h !! buf) -> buf <> 0 ->
     sys_read (my_fd q) (h_bytes hd - n) (w_os (e_world e)) = (ret, errno, [], os) ->
     ret = 0 \/ ret = -1 /\ errno <> EAGAIN ->
     exists h', free buf h = Ok tt h' /\
       px_pop_step self (PxData t hd buf n r) tq e = Ok (tq, Continue PxPopLoop) (with_world (aborted ECONNABORTED e) h' os)).
Proof.
  intros Hq aborted h.
  assert (Hfin : forall (e1 : env) err h' os', e_queues e1 = e_queues e -> e_world e1 = mk_pworld h' os' -> err <> EAGAIN -> err <> 0 ->
    wp (pop_finish self t err sgarray_zero) (fun (r : next px_pop_k + Z) s' =>
      (tq, match r with inl n => n | inr e => Finish e end) = (tq, Continue PxPopLoop) /\ s' = with_world (aborted err e) h' os') e1).
  { intros e1 err h' os' Hqs Hw Ha He. eapply post_eq; [apply pop_finish_error; [by rewrite Hqs|done|done]|]. split; [done|].
    unfold aborted, with_queue, with_world, set_e_queues, set_e_world. cbn. by rewrite Hqs, Hw. }
  split_and!.
  - intros header Hl Hr Hret. apply wp_eq. unfold px_pop_step. rewrite post_in_thread. unfold sizeof_header.
    rewrite (proj2 (Z.ltb_lt _ _)) by lia. rewrite post_sbind. eapply post_px_get; [done|]. rewrite post_sbind, post_call.
    eapply post_eq; [eapply px_read_none; [|exact Hr|]; lia|]. cbn iota beta.
    rewrite (proj2 (Z.eqb_neq (if ret =? 0 then 0 else errno) EAGAIN)).
    2: { destruct Hret as [-> |[-> Hn]]; done. }
    by apply Hfin.
  - intros header Hl Hm. apply wp_eq. unfold px_pop_step. rewrite post_in_thread. unfold sizeof_header.
    rewrite (proj2 (Z.ltb_ge _ _)) by lia. rewrite (proj2 (Z.eqb_neq _ _)) by congruence. cbn [negb]. cbn iota.
    eapply post_mono; [by apply (Hfin e _ (w_heap (e_world e)) (w_os (e_world e)) eq_refl); [by destruct (e_world e)|..]|].
    intros a s' [Ha ->]. split; [done|]. unfold with_world, aborted, with_queue, set_e_queues, set_e_world. cbn. by destruct (e_world e).
  - intros hd buf n r Hn Hn0 Hp [sz Hb] Hbuf Hr Hret. eexists. split.
    { unfold free. rewrite (proj2 (Z.eqb_neq _ _) Hbuf), Hb. done. }
    apply wp_eq. unfold px_pop_step. rewrite (proj2 (Z.ltb_lt _ _)) by lia. rewrite post_in_thread, post_sbind.
    eapply post_px_get; [done|]. cbn zeta. rewrite (proj2 (Z.eqb_neq _ _) Hp). rewrite post_sbind, post_call.
    eapply post_eq; [eapply px_read_none; [|exact Hr|]; lia|]. cbn iota beta. post_simp.
    cbn [w_heap w_os with_world set_e_world e_world]. unfold post at 1. rewrite store_bytes_nil.
    rewrite (proj2 (Z.eqb_neq (if ret =? 0 then 0 else errno) EAGAIN)).
    2: { destruct Hret as [-> |[-> Hne]]; done. }
    post_simp. cbn [w_heap w_os with_world set_e_world e_world]. unfold post at 1. unfold free.
    rewrite (proj2 (Z.eqb_neq _ _) Hbuf). unfold h in Hb. rewrite Hb. by apply Hfin.
Qed.
End io.

(** ** Witnesses *)
Definition demo_connected : posix_queue := with_workers (set_my_fd 5 demo_closed).

Lemma push_sends_witness :
  px_push 9 3 demo_qt demo_sga (demo_env demo_connected) =
    Ok 0 (mk_qenv {[3 := PxObj (set_px_slot (task_slot demo_qt)
            (completed_task demo_sga (push_task demo_qt demo_sga demo_connected)) demo_connected)]}
            (mk_pworld demo_heap (mk_demo_kernel [] (wire_message [demo_data])))).
Proof.
  refine (proj1 (push_sends 3 demo_qt 100 demo_data demo_sga {[3 := PxObj demo_connected]} demo_connected demo_heap 9 0
    (mk_demo_kernel [] []) (mk_demo_kernel [] (wire_message [demo_data])) qresult_zero _ eq_refl eq_refl _ _ _ _)).
  - split; vm_compute; first [reflexivity | discriminate].
  - vm_compute. split; reflexivity.
  - vm_compute. reflexivity.
  - lia.
  - vm_compute. reflexivity.
Defined.

Definition demo_popping : posix_queue :=
  set_px_pop_thread (Some (mk_user_thread EAGAIN [demo_qt] (Some PxPopIdle)))
    (set_px_push_thread (idle PxPushIdle) (demo_queue DMTR_OPC_POP)).

Lemma poll_pop_delivers_witness :
  wp (px_poll 100 3 qresult_zero demo_qt) (fun '(ret, r) e' => ret = 0 /\ dk_in (w_os (e_world e')) = [1; 2] /\
    exists sga, qr_value r = qv_sga sga /\ received_sga demo_data sga (w_heap (e_world e')))
    (mk_qenv {[3 := PxObj demo_popping]} (mk_pworld demo_heap (mk_demo_kernel (wire_message [demo_data] ++ [1; 2]) []))).
Proof.
  eapply post_mono.
  - apply (poll_pop_delivers 3 demo_qt dk_in demo_data [1; 2] demo_popping).
    + split; vm_compute; first [reflexivity | discriminate | split; first [reflexivity | discriminate]].
    + reflexivity.
    + discriminate.
    + reflexivity.
    + reflexivity.
    + reflexivity.
    + reflexivity.
    + apply demo_heap_ok.
    + apply demo_reads.
    + reflexivity.
    + vm_compute. lia.
  - intros [ret r] e' (Hr & Hs & sga & -> & H & _). split; [exact Hr|]. split; [exact Hs|]. exists sga. split; [reflexivity|exact H].
Defined.

(** A connection that has ended while a buffer at 100 was being filled. *)
Lemma net_pop_errors_witness :
  px_pop_step 3 (PxHeader 1 [16]) [] (demo_env demo_connected) =
    Ok ([], Continue PxPopLoop) (demo_env (set_px_slot 1 (set_my_error ECONNABORTED (px_task 1 demo_connected)) demo_connected)) /\
  exists h', px_pop_step 3 (PxData 1 (mk_header DMTR_HEADER_MAGIC 7 1) 100 4 0) [] (demo_env demo_connected) =
    Ok ([], Continue PxPopLoop)
      (with_world (demo_env (set_px_slot 1 (set_my_error ECONNABORTED (px_task 1 demo_connected)) demo_connected)) h' (mk_demo_kernel [] [])).
Proof.
  destruct (net_pop_errors 3 1 demo_connected (demo_env demo_connected) [] 0 0 (mk_demo_kernel [] []) eq_refl) as (H1 & _ & H3).
  split.
  - refine (H1 [16] _ eq_refl (or_introl eq_refl)). cbn. lia.
  - destruct (H3 (mk_header DMTR_HEADER_MAGIC 7 1) 100 4 0) as (h' & _ & H).
    + cbn. lia.
    + lia.
    + discriminate.
    + vm_compute. eexists. reflexivity.
    + discriminate.
    + reflexivity.
    + left. reflexivity.
    + exists h'. exact H.
Defined.
