(* ===== verification/Libos.v ===== *)
(** * The entry points of the library OSes: [posix_libos.cc] and its siblings

    Each library OS is a shared library that exports the same C functions.
    They differ in the queue classes they register, in what they initialise
    before, and in the error an uninitialised library answers with: these are
    the fields of [libos].  The process keeps the API object in the global
    [ioq_api]. *)
From S2P Require Import Prelude Cmd Types IoQueue MemoryQueue Queue MemoryVtable IoQueueApi PosixOs PosixQueue PosixLaws PosixWire.
Open Scope cmd_scope.

(** [ioq_api] is null before [dmtr_init]. *)
Inductive process (Q W : Type) :=
| NoApi (w : W)
| WithApi (st : io_queue_api Q W).
Arguments NoApi {Q W}.
Arguments WithApi {Q W}.

Record libos (Q W : Type) := mk_libos {
  lb_init_error : Z;            (* [dmtr_init], when called again *)
  lb_call_error : Z;            (* most functions, before [dmtr_init] *)
  lb_getsockname_nonzero : bool;   (* [dmtr_getsockname] checks [qd] itself *)
  lb_prepare : fn W Z;          (* the initialisation of the devices *)
  lb_ctors : list (category_id * ctor_type Q W)
}.
Arguments mk_libos {Q W}.
Arguments lb_init_error {Q W}.
Arguments lb_call_error {Q W}.
Arguments lb_getsockname_nonzero {Q W}.
Arguments lb_prepare {Q W}.
Arguments lb_ctors {Q W}.

(** The calls, with their output pointers: a pointer is what it points at, or
    [None] when it is null. *)
Inductive libos_call :=
| LQueue (qd_out : option Z)
| LSocket (qd_out : option Z) (domain type protocol : Z)
| LGetsockname (qd : Z) (saddr : bool) (size : option Z)
| LListen (qd backlog : Z)
| LBind (qd : Z) (saddr : option (list Z)) (size : Z)
| LAccept (qtok_out : option Z) (sockqd : Z)
| LConnect (qt_out : option Z) (qd : Z) (saddr : option (list Z)) (size : Z)
| LOpen (qd_out : option Z) (pathname : list Z) (flags : Z)
| LOpen2 (qd_out : option Z) (pathname : list Z) (flags mode : Z)
| LCreat (qd_out : option Z) (pathname : list Z) (mode : Z)
| LClose (qd : Z)
| LIsQdValid (flag_out : option Z) (qd : Z)
| LPush (qtok_out : option Z) (qd : Z) (sga : option dmtr_sgarray)
| LPop (qtok_out : option Z) (qd : Z)
| LPoll (qr_out : option dmtr_qresult) (qt : Z)
| LDrop (qt : Z).

(** What a call leaves in the output parameter. *)
Inductive libos_out :=
| OutNone
| OutInt (v : option Z)
| OutAddr (bs : option (list Z))
| OutResult (qr : option dmtr_qresult).

Section libos.
Context {Q W : Type} `{HQ : Queue Q W} (lib : libos Q W).
Abbreviation proc := (process Q W).
Abbreviation api := (io_queue_api Q W).

(** [DMTR_NOTNULL(error, ioq_api.get())] and calls through [ioq_api]. *)
Definition need_api (error : Z) : stmt proc unit :=
  p <- get ;
  DMTR_TRUE error (match p with WithApi _ => true | NoApi _ => false end).
Definition api_call {A} (m : fn api A) : stmt proc A := fun p =>
  match p with
  | NoApi _ => Undef
  | WithApi st => match m st with
                  | Ok a st' => Ok (inl a) (WithApi st')
                  | Panic => Panic
                  | Undef => Undef
                  | NoFuel => NoFuel
                  end
  end.
(** A function with an output pointer: left alone when the function returns
    before the API is called. *)
Definition with_out {O} (out : option O) (m : stmt proc (Z * O)) : fn proc (Z * option O) :=
  fbind m (fun r => match r with inl (e, v) => fret (e, Some v) | inr e => fret (e, out) end).

(** ** [dmtr_init] *)
Definition prepare : fn proc Z := fun p =>
  match p with
  | NoApi w => match lb_prepare lib w with
               | Ok e w' => Ok e (NoApi w')
               | Panic => Panic
               | Undef => Undef
               | NoFuel => NoFuel
               end
  | WithApi _ => Undef
  end.
(** [DMTR_OK(io_queue_api::init(p, argc, argv)); ioq_api = p] *)
Definition make_api : stmt proc unit := fun p =>
  match p with
  | NoApi w => match api_init None w tt with
               | Ok (0, Some st) _ => Ok (inl tt) (WithApi st)
               | Ok (e, _) _ => Ok (inr e) p
               | _ => Undef
               end
  | WithApi _ => Undef
  end.
(** The results of [register_queue_ctor] are not looked at. *)
Fixpoint register_all (ctors : list (category_id * ctor_type Q W)) : stmt proc unit :=
  match ctors with
  | [] => normal tt
  | (cid, c) :: ctors' => _ <- api_call (register_queue_ctor cid (Some c)) ; register_all ctors'
  end.
Definition dmtr_init : fn proc Z := body (
  p <- get ;
  DMTR_TRUE (lb_init_error lib) (match p with NoApi _ => true | WithApi _ => false end) ;;
  DMTR_OK prepare ;;
  make_api ;;
  register_all (lb_ctors lib) ;;
  normal 0).

(** ** The other functions *)
Definition dmtr_queue (qd_out : option Z) : fn proc (Z * option Z) := with_out qd_out (
  DMTR_NOTNULL EINVAL qd_out ;;
  need_api (lb_call_error lib) ;;
  api_call queue).
Definition dmtr_socket (qd_out : option Z) (domain type protocol : Z) : fn proc (Z * option Z) := with_out qd_out (
  DMTR_NOTNULL EINVAL qd_out ;;
  need_api (lb_call_error lib) ;;
  api_call (socket domain type protocol)).
Definition dmtr_getsockname (qd : Z) (saddr : bool) (size : option Z) : fn proc (Z * option (list Z)) := fbind (
  (if lb_getsockname_nonzero lib then DMTR_NONZERO EINVAL qd else normal tt) ;;
  need_api EPERM ;;
  api_call (getsockname qd saddr size))
  (fun r => match r with inl a => fret a | inr e => fret (e, None) end).
Definition dmtr_listen (qd backlog : Z) : fn proc Z := body (
  need_api (lb_call_error lib) ;;
  api_call (listen qd backlog)).
Definition dmtr_bind (qd : Z) (saddr : option (list Z)) (size : Z) : fn proc Z := body (
  need_api (lb_call_error lib) ;;
  api_call (bind qd saddr size)).
Definition dmtr_accept (qtok_out : option Z) (sockqd : Z) : fn proc (Z * option Z) := with_out qtok_out (
  DMTR_NOTNULL EINVAL qtok_out ;;
  need_api EPERM ;;
  api_call (accept sockqd)).
Definition dmtr_connect (qt_out : option Z) (qd : Z) (saddr : option (list Z)) (size : Z) : fn proc (Z * option Z) :=
  with_out qt_out (
    need_api EPERM ;;
    DMTR_NOTNULL EINVAL qt_out ;;
    qt <- need qt_out ;
    api_call (connect qt qd saddr size)).
Definition dmtr_open (qd_out : option Z) (pathname : list Z) (flags : Z) : fn proc (Z * option Z) := with_out qd_out (
  DMTR_NOTNULL EINVAL qd_out ;;
  need_api EPERM ;;
  api_call (open pathname flags)).
Definition dmtr_open2 (qd_out : option Z) (pathname : list Z) (flags mode : Z) : fn proc (Z * option Z) := with_out qd_out (
  DMTR_NOTNULL EINVAL qd_out ;;
  need_api EPERM ;;
  api_call (open2 pathname flags mode)).
Definition dmtr_creat (qd_out : option Z) (pathname : list Z) (mode : Z) : fn proc (Z * option Z) := with_out qd_out (
  DMTR_NOTNULL EINVAL qd_out ;;
  need_api EPERM ;;
  api_call (creat pathname mode)).
Definition dmtr_close (qd : Z) : fn proc Z := body (
  need_api (lb_call_error lib) ;;
  api_call (close qd)).
(** The flag is cleared before the library is looked at. *)
Definition dmtr_is_qd_valid (flag_out : option Z) (qd : Z) : fn proc (Z * option Z) :=
  match flag_out with
  | None => fret (EINVAL, None)
  | Some _ => with_out (Some 0) (
      need_api EPERM ;;
      r <- api_call (is_qd_valid qd) ;
      DMTR_OK (fret (fst r)) ;;
      normal (0, if snd r then 1 else 0))
  end.
Definition dmtr_push (qtok_out : option Z) (qd : Z) (sga : option dmtr_sgarray) : fn proc (Z * option Z) :=
  with_out qtok_out (
    DMTR_NOTNULL EINVAL qtok_out ;;
    DMTR_NOTNULL EINVAL sga ;;
    need_api (lb_call_error lib) ;;
    sga <- need sga ;
    api_call (push qd sga)).
Definition dmtr_pop (qtok_out : option Z) (qd : Z) : fn proc (Z * option Z) := with_out qtok_out (
  DMTR_NOTNULL EINVAL qtok_out ;;
  need_api (lb_call_error lib) ;;
  api_call (pop qd)).
Definition dmtr_poll (qr_out : option dmtr_qresult) (qt : Z) : fn proc (Z * option dmtr_qresult) := fbind (
  need_api (lb_call_error lib) ;;
  api_call (poll qr_out qt))
  (fun r => match r with inl a => fret a | inr e => fret (e, qr_out) end).
Definition dmtr_drop (qt : Z) : fn proc Z := body (
  need_api (lb_call_error lib) ;;
  api_call (drop qt)).

(** The exported functions but [dmtr_init]. *)
Definition out_int (m : fn proc (Z * option Z)) : fn proc (Z * libos_out) :=
  fbind m (fun r => fret (fst r, OutInt (snd r))).
Definition no_out (m : fn proc Z) : fn proc (Z * libos_out) := fbind m (fun e => fret (e, OutNone)).
Definition dmtr_call (c : libos_call) : fn proc (Z * libos_out) :=
  match c with
  | LQueue o => out_int (dmtr_queue o)
  | LSocket o d t p => out_int (dmtr_socket o d t p)
  | LGetsockname qd a n => fbind (dmtr_getsockname qd a n) (fun r => fret (fst r, OutAddr (snd r)))
  | LListen qd b => no_out (dmtr_listen qd b)
  | LBind qd a n => no_out (dmtr_bind qd a n)
  | LAccept o qd => out_int (dmtr_accept o qd)
  | LConnect o qd a n => out_int (dmtr_connect o qd a n)
  | LOpen o p f => out_int (dmtr_open o p f)
  | LOpen2 o p f m => out_int (dmtr_open2 o p f m)
  | LCreat o p m => out_int (dmtr_creat o p m)
  | LClose qd => no_out (dmtr_close qd)
  | LIsQdValid o qd => out_int (dmtr_is_qd_valid o qd)
  | LPush o qd sga => out_int (dmtr_push o qd sga)
  | LPop o qd => out_int (dmtr_pop o qd)
  | LPoll qr qt => fbind (dmtr_poll qr qt) (fun r => fret (fst r, OutResult (snd r)))
  | LDrop qt => no_out (dmtr_drop qt)
  end.
End libos.

(** ** The library OSes *)
Section instances.
Context {OS : Type} `{POS : PosixOS OS} (fuel : nat).

(** A constructor of the POSIX library OS for memory queues. *)
Definition px_mem_ctor (qd : Z) : fn (pworld OS) (Z * option posix_object) :=
  fbind (mq_ctor qd) (fun r => fret (fst r, MemObj <$> snd r)).

(** [posix_libos.cc] *)
Definition posix_libos : libos posix_object (pworld OS) :=
  mk_libos EPERM EPERM false (fret 0)
    [(MEMORY_Q, px_mem_ctor); (NETWORK_Q, new_net_object); (FILE_Q, new_file_object)].
End instances.

(** The other library OSes, for any queue classes and device initialisations. *)
Section siblings.
Context {Q W : Type} `{HQ : Queue Q W} (mem_ctor net_ctor file_ctor : ctor_type Q W) (init : fn W Z).

(** [rdma_libos.cc] *)
Definition rdma_libos : libos Q W := mk_libos EPERM EPERM true (fret 0) [(MEMORY_Q, mem_ctor); (NETWORK_Q, net_ctor)].
Definition rdma_init : fn (process Q W) Z := dmtr_init rdma_libos.
Definition rdma_call : libos_call -> fn (process Q W) (Z * libos_out) := dmtr_call rdma_libos.

(** [lwip_libos.cc]: [init] is [lwip_queue::init_dpdk]. *)
Definition lwip_libos : libos Q W := mk_libos EINVAL EINVAL false init [(MEMORY_Q, mem_ctor); (NETWORK_Q, net_ctor)].
Definition lwip_init : fn (process Q W) Z := dmtr_init lwip_libos.
Definition lwip_call : libos_call -> fn (process Q W) (Z * libos_out) := dmtr_call lwip_libos.

(** [spdk_libos.cc]: [init] is [spdk_queue::init_spdk]. *)
Definition spdk_libos : libos Q W := mk_libos EINVAL EINVAL false init [(MEMORY_Q, mem_ctor); (FILE_Q, file_ctor)].
Definition spdk_init : fn (process Q W) Z := dmtr_init spdk_libos.
Definition spdk_call : libos_call -> fn (process Q W) (Z * libos_out) := dmtr_call spdk_libos.

(** [spdk_dpdk_libos.cc]: [init] is [spdk_dpdk_queue::init_spdk_dpdk]. *)
Definition spdk_dpdk_libos : libos Q W :=
  mk_libos EINVAL EINVAL false init [(MEMORY_Q, mem_ctor); (NETWORK_Q, net_ctor); (FILE_Q, file_ctor)].
Definition spdk_dpdk_init : fn (process Q W) Z := dmtr_init spdk_dpdk_libos.
Definition spdk_dpdk_call : libos_call -> fn (process Q W) (Z * libos_out) := dmtr_call spdk_dpdk_libos.

(** [spdk_rdma_libos.cc]: [init] is [spdk_rdma_queue::init_spdk_rdma]. *)
Definition spdk_rdma_libos : libos Q W :=
  mk_libos EINVAL EINVAL false init [(MEMORY_Q, mem_ctor); (NETWORK_Q, net_ctor); (FILE_Q, file_ctor)].
Definition spdk_rdma_init : fn (process Q W) Z := dmtr_init spdk_rdma_libos.
Definition spdk_rdma_call : libos_call -> fn (process Q W) (Z * libos_out) := dmtr_call spdk_rdma_libos.
End siblings.

(** ** What a call does *)
Section calls.
Context {Q W : Type} `{HQ : Queue Q W} (lib : libos Q W).
Abbreviation proc := (process Q W).
Abbreviation api := (io_queue_api Q W).
Implicit Types (st : api) (p : proc).

(** Before [dmtr_init]: which error a call returns, and what it leaves in its
    output parameter. *)
Definition uninit_error (c : libos_call) : Z :=
  match c with
  | LQueue None | LSocket None _ _ _ | LPush None _ _ | LPush _ _ None | LPop None _ => EINVAL
  | LQueue _ | LSocket _ _ _ _ | LPush _ _ _ | LPop _ _ | LListen _ _ | LBind _ _ _ | LClose _ | LPoll _ _ | LDrop _ =>
      lb_call_error lib
  | LGetsockname qd _ _ => if lb_getsockname_nonzero lib && (qd =? 0) then EINVAL else EPERM
  | LConnect _ _ _ _ => EPERM
  | LAccept None _ | LOpen None _ _ | LOpen2 None _ _ _ | LCreat None _ _ | LIsQdValid None _ => EINVAL
  | LAccept _ _ | LOpen _ _ _ | LOpen2 _ _ _ _ | LCreat _ _ _ | LIsQdValid _ _ => EPERM
  end.
Definition out_before (c : libos_call) : libos_out :=
  match c with
  | LQueue o | LSocket o _ _ _ | LAccept o _ | LConnect o _ _ _ | LOpen o _ _ | LOpen2 o _ _ _ | LCreat o _ _
  | LPush o _ _ | LPop o _ => OutInt o
  | LIsQdValid o _ => OutInt (const 0 <$> o)
  | LGetsockname _ _ _ => OutAddr None
  | LPoll qr _ => OutResult qr
  | LListen _ _ | LBind _ _ _ | LClose _ | LDrop _ => OutNone
  end.

Lemma call_uninit c w : dmtr_call lib c (NoApi w) = Ok (uninit_error c, out_before c) (NoApi w).
Proof.
  destruct c; cbn [uninit_error out_before dmtr_call]; try reflexivity;
    repeat match goal with o : option _ |- _ => destruct o; try reflexivity end.
  all: unfold dmtr_getsockname; destruct (lb_getsockname_nonzero lib); cbn; try reflexivity;
    unfold DMTR_NONZERO; destruct (qd =? 0); reflexivity.
Qed.

(** After it: a call is the call of the API, unless a pointer it needs is null. *)
Definition null_args (c : libos_call) : bool :=
  match c with
  | LQueue None | LSocket None _ _ _ | LPush None _ _ | LPush _ _ None | LPop None _ | LAccept None _ | LConnect None _ _ _
  | LOpen None _ _ | LOpen2 None _ _ _ | LCreat None _ _ | LIsQdValid None _ => true
  | LGetsockname qd _ _ => lb_getsockname_nonzero lib && (qd =? 0)
  | _ => false
  end.
Definition api_of (c : libos_call) : api_cmd :=
  match c with
  | LQueue _ => CQueue
  | LSocket _ d t p => CSocket d t p
  | LGetsockname qd a n => CGetsockname qd a n
  | LListen qd b => CListen qd b
  | LBind qd a n => CBind qd a n
  | LAccept _ qd => CAccept qd
  | LConnect o qd a n => CConnect (default 0 o) qd a n
  | LOpen _ p f => COpen p f
  | LOpen2 _ p f m => COpen2 p f m
  | LCreat _ p m => CCreat p m
  | LClose qd => CClose qd
  | LIsQdValid _ qd => CIsQdValid qd
  | LPush _ qd sga => CPushQ qd (default sgarray_zero sga)
  | LPop _ qd => CPopQ qd
  | LPoll qr qt => CPoll qr qt
  | LDrop qt => CDropQ qt
  end.

Lemma call_null c st :
  null_args c = true -> dmtr_call lib c (WithApi st) = Ok (EINVAL, out_before c) (WithApi st).
Proof.
  destruct c; cbn [null_args out_before dmtr_call]; try done;
    repeat match goal with o : option _ |- _ => destruct o; try done end.
  all: intros H; apply andb_true_iff in H as [H1 H2]; unfold dmtr_getsockname, DMTR_NONZERO; rewrite H1, H2; reflexivity.
Qed.

(** The error a call returns and the store it leaves are those of the call of
    the API. *)
Definition code_of {A S} (r : result S (Z * A)) : result S Z :=
  match r with Ok a s => Ok (fst a) s | Panic => Panic | Undef => Undef | NoFuel => NoFuel end.
Definition with_api {A} (r : result api A) : result proc A :=
  match r with Ok a st => Ok a (WithApi st) | Panic => Panic | Undef => Undef | NoFuel => NoFuel end.

Lemma call_exec c st :
  null_args c = false -> code_of (dmtr_call lib c (WithApi st)) = with_api (code_of (api_exec (api_of c) st)).
Proof.
  destruct c; cbn [null_args dmtr_call api_of api_exec]; intros Hn;
    repeat match goal with o : option _ |- _ => destruct o; try done end.
  all: cbv [out_int no_out emits silent dmtr_queue dmtr_socket dmtr_getsockname dmtr_listen dmtr_bind dmtr_accept dmtr_connect
    dmtr_open dmtr_open2 dmtr_creat dmtr_close dmtr_is_qd_valid dmtr_push dmtr_pop dmtr_poll dmtr_drop with_out body need_api
    api_call sbind fbind DMTR_NOTNULL DMTR_NONZERO DMTR_TRUE DMTR_OK need get normal return_ fret default from_option id] in *.
  all: try (destruct (lb_getsockname_nonzero lib); cbn [andb negb] in *; [rewrite Hn|]).
  all: cbv beta iota delta [negb].
  all: match goal with |- _ = with_api (code_of match ?m with _ => _ end) => destruct m as [r st'| | |]; try reflexivity end.
  all: try reflexivity; try (destruct r; reflexivity).
  destruct r as [e b]. cbn. destruct (e =? 0) eqn:E; zbool; [by subst|done].
Qed.

(** ** Initialisation *)
Lemma register_eq cid (c : ctor_type Q W) st :
  my_queue_factory st !! cid = None ->
  register_queue_ctor cid (Some c) st = Ok 0 (set_my_queue_factory (<[cid := Some c]> (my_queue_factory st)) st).
Proof.
  intros H. unfold register_queue_ctor, register_ctor, body, sbind, fbind, DMTR_OK, zoom, DMTR_NOTNULL, DMTR_TRUE, get, modify.
  cbn. unfold fbind, normal, fret, return_. cbn. by rewrite H.
Qed.
Lemma register_all_eq (ctors : list (category_id * ctor_type Q W)) st :
  NoDup ctors.*1 -> (forall cid, cid ∈ ctors.*1 -> my_queue_factory st !! cid = None) ->
  exists f, register_all ctors (WithApi st) = Ok (inl tt) (WithApi (set_my_queue_factory f st)) /\
    forall cid, f !! cid = match (list_to_map ctors : gmap _ _) !! cid with
                           | Some c => Some (Some c)
                           | None => my_queue_factory st !! cid
                           end.
Proof.
  revert st. induction ctors as [|[cid c] ctors IH]; intros st Hnd Hfree; cbn [register_all].
  - exists (my_queue_factory st). split; [by destruct st|]. intros cid. by rewrite list_to_map_nil, lookup_empty.
  - cbn in Hnd. apply NoDup_cons in Hnd as [Hni Hnd].
    destruct (IH (set_my_queue_factory (<[cid := Some c]> (my_queue_factory st)) st) Hnd) as (f & Hf & Hl).
    { intros cid' Hin. cbn. rewrite lookup_insert_ne by (by intros <-). apply Hfree. by right. }
    exists f. split.
    + unfold sbind, fbind, api_call. rewrite register_eq by (apply Hfree; by left). exact Hf.
    + intros cid'. rewrite Hl. cbn. destruct (decide (cid = cid')) as [<-|Hne].
      * rewrite lookup_insert_eq, lookup_insert_eq. by rewrite (not_elem_of_list_to_map_1 _ _ Hni).
      * by rewrite !lookup_insert_ne by done.
Qed.

Definition initialised (w' : W) st : Prop :=
  my_qd_counter st = 0 /\ my_env st = mk_qenv ∅ w' /\
  forall cid c, my_queue_factory st !! cid = Some (Some c) <-> (cid, c) ∈ lb_ctors lib.
Lemma dmtr_init_failed w e w' : lb_prepare lib w = Ok e w' -> e <> 0 -> dmtr_init lib (NoApi w) = Ok e (NoApi w').
Proof.
  intros Hp He. unfold dmtr_init, body, sbind, fbind, get, DMTR_TRUE, DMTR_OK, prepare, fbind, normal, fret. rewrite Hp.
  by rewrite (proj2 (Z.eqb_neq _ _) He).
Qed.
Lemma dmtr_init_eq w w' :
  NoDup (lb_ctors lib).*1 -> lb_prepare lib w = Ok 0 w' ->
  exists st, dmtr_init lib (NoApi w) = Ok 0 (WithApi st) /\ initialised w' st.
Proof.
  intros Hnd Hp. destruct (register_all_eq (lb_ctors lib) (api_ctor w') Hnd) as (f & Hf & Hl); [done|].
  exists (set_my_queue_factory f (api_ctor w')). split; [|split; [done|split; [done|]]].
  - unfold dmtr_init, body, sbind, fbind, get, DMTR_TRUE, DMTR_OK, prepare, fbind, normal, fret. rewrite Hp.
    unfold make_api, api_init, body_out, sbind, fbind, DMTR_NULL, DMTR_TRUE, normal, fret, return_. cbn [fst Z.eqb].
    by rewrite Hf.
  - intros cid c. cbn [my_queue_factory set_my_queue_factory]. rewrite Hl.
    destruct (list_to_map (lb_ctors lib) !! cid) as [c'|] eqn:E.
    + apply (elem_of_list_to_map_2) in E as Hin. split; [by intros [= ->]|].
      intros Hin'. apply (elem_of_list_to_map_1 _ _ _ Hnd) in Hin'. congruence.
    + change (my_queue_factory (api_ctor w') !! cid) with (None (A := option (ctor_type Q W))). split; [done|].
      intros Hin. apply (elem_of_list_to_map_1 _ _ _ Hnd) in Hin. congruence.
Qed.

(** [dmtr_init] makes an API with no queues whose factory holds exactly the
    constructors of the library OS; called again it answers with an error and
    changes nothing; and if the devices cannot be initialised it returns that
    error and the library stays uninitialised. *)
Theorem libos_init_correct w e w' :
  NoDup (lb_ctors lib).*1 -> lb_prepare lib w = Ok e w' ->
  (e <> 0 -> dmtr_init lib (NoApi w) = Ok e (NoApi w')) /\
  (e = 0 -> exists st, dmtr_init lib (NoApi w) = Ok 0 (WithApi st) /\ initialised w' st /\
     dmtr_init lib (WithApi st) = Ok (lb_init_error lib) (WithApi st)).
Proof.
  intros Hnd Hp. split; [by apply dmtr_init_failed|]. intros ->.
  destruct (dmtr_init_eq w w' Hnd Hp) as (st & Hi & Hst). by exists st.
Qed.

(** Every exported function but [dmtr_init], called before [dmtr_init],
    returns the error of a null pointer it checks first, or else the error of
    an uninitialised library, and has no effect, on the output parameters
    either but for the flag of [dmtr_is_qd_valid]; called after it with a null
    pointer it needs, it returns [EINVAL] and has no effect; and called with
    valid pointers it is the call of the API. *)
Theorem libos_calls_correct c :
  (forall w, dmtr_call lib c (NoApi w) = Ok (uninit_error c, out_before c) (NoApi w)) /\
  (forall st, if null_args c
              then dmtr_call lib c (WithApi st) = Ok (EINVAL, out_before c) (WithApi st)
              else code_of (dmtr_call lib c (WithApi st)) = with_api (code_of (api_exec (api_of c) st))).
Proof.
  split; [apply call_uninit|]. intros st. destruct (null_args c) eqn:E; [by apply call_null|by apply call_exec].
Qed.

(** ** Executions of a process *)
Inductive libos_step : proc -> proc -> Prop :=
| libos_step_init p r p' : dmtr_init lib p = Ok r p' -> libos_step p p'
| libos_step_call p c r p' : dmtr_call lib c p = Ok r p' -> libos_step p p'.

(** Every constructor makes an object with the descriptor it is given. *)
Definition ctors_ok : Prop :=
  NoDup (lb_ctors lib).*1 /\
  forall cid c, (cid, c) ∈ lb_ctors lib -> forall qd w,
    wlp (c qd) (fun r _ => fst r = 0 -> forall q, snd r = Some q ->
                  my_qd (q_base q) = qd /\ my_qt_counter (q_base q) = 0) w.
Definition proc_ok p : Prop := match p with NoApi _ => True | WithApi st => api_ok st end.

Context `{HL : !QueueLaws Q W}.

Lemma libos_step_ok p p' : ctors_ok -> proc_ok p -> libos_step p p' -> proc_ok p'.
Proof.
  intros [Hnd Hc] Hok Hstep. destruct Hstep as [[w|st] r p' H|[w|st] c r p' H].
  - destruct (lb_prepare lib w) as [e w'| | |] eqn:Ep.
    2-4: unfold dmtr_init, body, sbind, fbind, get, DMTR_TRUE, DMTR_OK, prepare, fbind, normal, fret in H; by rewrite Ep in H.
    destruct (decide (e = 0)) as [->|He].
    + destruct (dmtr_init_eq w w' Hnd Ep) as (st & Hi & Hcnt & Henv & Hfac). rewrite Hi in H. injection H as _ <-.
      constructor; [lia| |].
      * intros qd q Hq. unfold my_queues in Hq. rewrite Henv in Hq. cbn in Hq. by rewrite lookup_empty in Hq.
      * intros cid c Hl. apply Hc with cid. by apply Hfac.
    + rewrite (dmtr_init_failed w e w' Ep He) in H. by injection H as _ <-.
  - unfold dmtr_init, body, sbind, fbind, get, DMTR_TRUE, return_, fret in H. by injection H as _ <-.
  - rewrite call_uninit in H. by injection H as _ <-.
  - destruct (null_args c) eqn:En.
    + rewrite call_null in H by done. by injection H as _ <-.
    + pose proof (call_exec c st En) as He. rewrite H in He. cbn in He.
      pose proof (api_exec_ok (api_of c) st Hok) as Hx. unfold post in Hx.
      destruct (api_exec (api_of c) st) as [r1 st1| | |]; try done. injection He as _ ->.
      destruct Hx as [Hf _]. by eapply api_frame_ok.
Qed.

Lemma libos_run_ok w p : ctors_ok -> rtc libos_step (NoApi w) p -> proc_ok p.
Proof.
  intros Hc Hrun. assert (H : proc_ok (NoApi w)) by done. revert H.
  induction Hrun as [p|p p1 p2 Hstep Hrun IH]; [done|]. intros Hok. apply IH. by eapply libos_step_ok.
Qed.

(** C12: a process that uses a library OS keeps the API well formed, whatever
    functions it calls, in whatever order, [dmtr_init] included, and whatever
    they return: each queue object is at its own descriptor, with descriptors
    and token counters in range. *)
Theorem libos_invariant w p : ctors_ok -> rtc libos_step (NoApi w) p -> proc_ok p.
Proof. apply libos_run_ok. Qed.
End calls.

(** ** The POSIX library OS *)
Section posix.
Context {OS : Type} `{POS : PosixOS OS} (fuel : nat).
#[local] Existing Instance posix_vtable.

Lemma posix_ctors_ok : ctors_ok (HQ := posix_vtable fuel) (posix_libos (OS := OS)).
Proof.
  split; [by vm_compute; repeat constructor; set_solver|].
  intros cid c Hin qd w. cbn in Hin. rewrite !elem_of_cons, elem_of_nil in Hin.
  destruct Hin as [[= _ ->]|[[= _ ->]|[[= _ ->]|[]]]]; unfold post.
  - unfold px_mem_ctor, fbind. destruct (mq_ctor_eq qd w) as (q & -> & Hb). cbn. intros _ q' [= <-]. cbn. by rewrite Hb.
  - cbn. by intros _ q [= <-].
  - cbn. by intros _ q [= <-].
Qed.
End posix.

(** ** Witnesses: the POSIX library OS on the concrete kernel *)
#[local] Existing Instance posix_vtable.
Definition demo_libos : libos posix_object (pworld demo_kernel) := posix_libos.
Definition demo_world : pworld demo_kernel := mk_pworld demo_heap (mk_demo_kernel [] []).

Lemma libos_init_correct_witness :
  exists st, dmtr_init demo_libos (NoApi demo_world) = Ok 0 (WithApi st) /\
    dmtr_init demo_libos (WithApi st) = Ok EPERM (WithApi st).
Proof.
  destruct (proj2 (libos_init_correct demo_libos demo_world 0 demo_world
    (proj1 (posix_ctors_ok 9)) eq_refl) eq_refl) as (st & H1 & _ & H2).
  exists st. split; [exact H1|exact H2].
Defined.

(** A process that initialises the library, opens a socket and a memory queue
    and listens on the socket. *)
Lemma demo_process : exists p,
  rtc (libos_step (HQ := posix_vtable 9) demo_libos) (NoApi demo_world) p /\
  match p with WithApi st => my_qd_counter st = 2 | NoApi _ => False end.
Proof.
  eexists. split.
  - eapply rtc_l; [eapply (libos_step_init (HQ := posix_vtable 9)); vm_compute; reflexivity|].
    eapply rtc_l; [eapply (libos_step_call (HQ := posix_vtable 9) _ _ (LSocket (Some 0) 2 SOCK_STREAM 0)); vm_compute; reflexivity|].
    eapply rtc_l; [eapply (libos_step_call (HQ := posix_vtable 9) _ _ (LQueue (Some 0))); vm_compute; reflexivity|].
    eapply rtc_l; [eapply (libos_step_call (HQ := posix_vtable 9) _ _ (LListen 1 5)); vm_compute; reflexivity|].
    apply rtc_refl.
  - reflexivity.
Defined.

Lemma libos_invariant_witness : exists st,
  rtc (libos_step (HQ := posix_vtable 9) demo_libos) (NoApi demo_world) (WithApi st) /\
  my_qd_counter st = 2 /\ api_ok (HQ := posix_vtable 9) st.
Proof.
  destruct demo_process as ([w|st] & Hrun & H); [destruct H|].
  exists st. split; [exact Hrun|]. split; [exact H|].
  exact (libos_invariant (HQ := posix_vtable 9) (HL := posix_laws 9) demo_libos demo_world (WithApi st) (posix_ctors_ok 9) Hrun).
Defined.
