(* ===== verification/PosixApi.v ===== *)
(** * A POSIX connection through the exported functions

    [dmtr_push], [dmtr_pop], [dmtr_poll], [dmtr_wait] and [dmtr_drop] on a
    connected POSIX queue: the tokens they issue are those that follow in the
    queue's counter, and the tasks live in their slots.  These are the steps
    the applications are built of. *)
From S2P Require Import Prelude Cmd Types Memory Contents IoQueue UserThread MemoryQueue Queue MemoryVtable IoQueueApi Wait PosixOs PosixQueue PosixLaws PosixWire PosixConn PosixIo Libos.
Open Scope cmd_scope.

(** ** Tokens *)
Lemma new_qtoken_next b c :
  0 < my_qd b < 2 ^ 31 -> my_qt_counter b = c -> 0 <= c -> c + 1 < UINT32_MAX ->
  t_valid (slot_task ((c + 1) mod MAX_TASKS) b) = false ->
  new_qtoken b = Ok (0, mk_qtoken (my_qd b) (c + 1)) (set_my_qt_counter (c + 1) b).
Proof.
  intros Hqd Hc H0 H1 Hfree. assert (Hno : has_task (c + 1) b = false) by exact Hfree.
  destruct (new_qtoken_cases b) as [[_ Hall]|(u & (Hu & _ & Hall) & ->)]; [done|unfold counter_ok; lia|..].
  - rewrite Hall in Hno by lia. done.
  - destruct (decide (u = c + 1)) as [->|]; [done|]. rewrite Hall in Hno by lia. done.
Qed.

(** ** [push], [pop], [poll] and [drop] of the API, from the queue's methods *)
Section api.
Context {Q W : Type} `{HQ : Queue Q W}.
Abbreviation api := (io_queue_api Q W).
Implicit Types (st : api).

Lemma get_queue_eq qd st q :
  0 <= qd < 256 -> my_queues st !! qd = Some q -> get_queue qd st = Ok (0, Some qd) st.
Proof.
  intros Hqd Hq. apply wp_eq. unfold get_queue. post_simp. unfold post, index_queues, my_queues_size.
  rewrite (proj2 (Z.leb_le _ _)), (proj2 (Z.ltb_lt _ _)) by lia. cbn. by rewrite Hq.
Qed.
Lemma q_call_ok {A} (m : Z -> fn (qenv Q W) A) qd st q a e' :
  my_queues st !! qd = Some q -> m qd (my_env st) = Ok a e' -> q_call m (Some qd) st = Ok (inl a) (set_my_env e' st).
Proof. intros Hq Hm. rewrite q_call_eq, Hq. unfold call, on_env, fbind, zoom. by rewrite Hm. Qed.

Lemma insert_queue_ok o st :
  0 <= my_qd (q_base o) < 256 ->
  insert_queue (Some o) st = Ok 0 (set_my_queues (<[my_qd (q_base o) := o]> (my_queues st)) st).
Proof.
  intros Hqd. apply wp_eq. unfold insert_queue, DMTR_NOTNULL. post_simp. unfold post, index_queues, my_queues_size.
  by rewrite (proj2 (Z.leb_le _ _)), (proj2 (Z.ltb_lt _ _)) by lia.
Qed.

Lemma data_call_eq st qd q t b' (c : Z -> vcall) e' :
  0 < qd < 256 -> my_queues st !! qd = Some q -> new_qtoken (q_base q) = Ok (0, t) b' ->
  q_vcall qd (c t) (set_e_queues (<[qd := set_q_base b' q]> (my_queues st)) (my_env st)) = Ok 0 e' ->
  data_call qd c st = Ok (0, t) (set_my_env e' st).
Proof.
  intros Hqd Hq Ht Hc. apply wp_eq. unfold data_call. rewrite (proj2 (Z.eqb_neq qd 0)) by lia. cbn [negb]. post_simp.
  eapply post_eq; [eapply get_queue_eq; [lia|exact Hq]|]. cbn. rewrite post_sbind.
  eapply post_eq.
  { eapply q_call_ok; [exact Hq|]. unfold on_queue. change (e_queues (my_env st)) with (my_queues st). rewrite Hq, Ht. done. }
  cbn iota. post_simp. change (fst (0, t) =? 0) with true. cbn iota. rewrite post_sbind.
  eapply post_eq; [eapply q_call_ok; [apply lookup_insert_eq|exact Hc]|]. post_simp. done.
Qed.

(** Through the exported functions. *)
Context (lib : libos Q W).
Lemma dmtr_push_eq st st' qd sga o t :
  data_call qd (fun qt => VPush qt sga) st = Ok (0, t) st' ->
  dmtr_push lib (Some o) qd (Some sga) (WithApi st) = Ok (0, Some t) (WithApi st').
Proof.
  intros H. change (push qd sga st = Ok (0, t) st') in H. unfold dmtr_push, with_out, need_api, api_call, sbind, fbind. cbn. by rewrite H.
Qed.
Lemma dmtr_pop_eq st st' qd o t :
  data_call qd VPop st = Ok (0, t) st' -> dmtr_pop lib (Some o) qd (WithApi st) = Ok (0, Some t) (WithApi st').
Proof.
  intros H. change (pop qd st = Ok (0, t) st') in H. unfold dmtr_pop, with_out, need_api, api_call, sbind, fbind. cbn. by rewrite H.
Qed.
Lemma dmtr_drop_eq st qd u q e' :
  0 < qd < 256 -> 0 <= u < UINT32_MAX -> my_queues st !! qd = Some q -> mk_qtoken qd u <> 0 ->
  q_vcall qd (VDrop (mk_qtoken qd u)) (my_env st) = Ok 0 e' ->
  dmtr_drop lib (mk_qtoken qd u) (WithApi st) = Ok 0 (WithApi (set_my_env e' st)).
Proof.
  intros Hqd Hu Hq Hne Hd.
  assert (Hdrop : drop (mk_qtoken qd u) st = Ok 0 (set_my_env e' st)).
  { apply wp_eq. unfold drop. rewrite (proj2 (Z.eqb_neq _ 0)) by done. cbn [negb]. post_simp.
    rewrite qttoqd_mk_qtoken by lia. eapply post_eq; [eapply get_queue_eq; [lia|exact Hq]|]. cbn. rewrite post_sbind.
    eapply post_eq; [eapply q_call_ok; [exact Hq|exact Hd]|]. by post_simp. }
  unfold dmtr_drop, body, need_api, api_call, sbind, fbind. cbn. by rewrite Hdrop.
Qed.
Lemma dmtr_poll_eq st qd u q qr r e' :
  0 < qd < 256 -> 0 <= u < UINT32_MAX -> my_queues st !! qd = Some q -> mk_qtoken qd u <> 0 ->
  q_poll qd qr (mk_qtoken qd u) (my_env st) = Ok (0, r) e' ->
  dmtr_poll lib (Some qr) (mk_qtoken qd u) (WithApi st) = Ok (0, Some r) (WithApi (set_my_env e' st)).
Proof.
  intros Hqd Hu Hq Hne Hp.
  assert (Hpoll : poll (Some qr) (mk_qtoken qd u) st = Ok (0, Some r) (set_my_env e' st)).
  { rewrite poll_eq. rewrite (proj2 (Z.eqb_neq _ 0)) by done. rewrite qttoqd_mk_qtoken by lia.
    rewrite (proj2 (Z.leb_le _ _)), (proj2 (Z.ltb_lt _ _)) by lia. cbn. rewrite Hq, Hp. done. }
  unfold dmtr_poll, need_api, api_call, sbind, fbind. cbn. by rewrite Hpoll.
Qed.
End api.

(** ** A connection *)
Section connection.
Context {OS : Type} `{POS : PosixOS OS} (fuel : nat).
#[local] Existing Instance posix_vtable.
Abbreviation env := (qenv posix_object (pworld OS)).
Abbreviation api := (io_queue_api posix_object (pworld OS)).
Abbreviation vt := (posix_vtable fuel).
Implicit Types (q : posix_queue) (st : api).

Abbreviation slot u := (u mod MAX_TASKS).
Abbreviation tok := mk_qtoken.

(** The object at descriptor [qd], connected, that has issued [c] tokens and
    has tasks in the slots [busy] at most; its push worker is idle. *)
Record conn (qd c : Z) (busy : list Z) q : Prop := {
  co_qd : my_qd (px_base q) = qd;
  co_range : 0 < qd < 256;
  co_count : my_qt_counter (px_base q) = c;
  co_pos : 0 <= c < UINT32_MAX;
  co_open : 0 <= my_fd q;
  co_network : my_cid (px_base q) = NETWORK_Q;
  co_listening : my_listening_flag q = false;
  co_push : px_push_thread q = idle PxPushIdle;
  co_tasks : forall s, t_valid (slot_task s (px_base q)) = true -> s ∈ busy
}.

(** The environment with another object at [qd], another heap and another
    kernel. *)
Definition moved (qd : Z) q (h : heap) (os : OS) st : api :=
  set_my_env (mk_qenv (<[qd := PxObj q]> (my_queues st)) (mk_pworld h os)) st.
Definition st_heap st : heap := w_heap (e_world (my_env st)).
Definition st_os st : OS := w_os (e_world (my_env st)).
Lemma moved_moved qd q h os q' h' os' st : moved qd q' h' os' (moved qd q h os st) = moved qd q' h' os' st.
Proof. unfold moved, my_queues, set_my_env. cbn. by rewrite insert_insert_eq. Qed.
Lemma moved_queue qd q h os st : my_queues (moved qd q h os st) !! qd = Some (PxObj q).
Proof. apply lookup_insert_eq. Qed.

Lemma tok_slot qd u : 0 < qd < 256 -> 0 <= u < UINT32_MAX -> task_slot (tok qd u) = slot u.
Proof. intros. apply task_slot_mk_qtoken; [change (2 ^ 31) with 2147483648|change (2 ^ 32) with 4294967296]; lia. Qed.
Lemma tok_nonzero qd u : 0 < qd < 256 -> 0 <= u < UINT32_MAX -> tok qd u <> 0.
Proof.
  intros. rewrite mk_qtoken_val by (change (2 ^ 31) with 2147483648; change (2 ^ 32) with 4294967296; lia).
  change (2 ^ 32) with 4294967296. lia.
Qed.

Lemma conn_free qd c busy q u :
  conn qd c busy q -> 0 <= u < UINT32_MAX -> slot u ∉ busy -> has_task (tok qd u) (px_base q) = false.
Proof.
  intros [] Hu Hs. rewrite has_task_slot, tok_slot by done. apply not_true_iff_false. intros H. by apply Hs, co_tasks0.
Qed.

(** Putting a task in a slot, and taking a token. *)
Lemma conn_slot qd c busy q s tk :
  conn qd c busy q -> conn qd c (if t_valid tk then s :: busy else filter (.≠ s) busy) (set_px_slot s tk q).
Proof.
  intros []. split; try done. intros s'. cbn. rewrite slot_task_set. case_decide as E.
  - subst s'. destruct (t_valid tk); [by left|done].
  - intros Hv%co_tasks0. destruct (t_valid tk); [by right|]. apply list_elem_of_filter. done.
Qed.
Lemma conn_count qd c busy q :
  conn qd c busy q -> c + 1 < UINT32_MAX -> conn qd (c + 1) busy (set_px_base (set_my_qt_counter (c + 1) (px_base q)) q).
Proof. intros [] ?. split; try done. lia. Qed.
Lemma conn_pop_thread qd c busy q th : conn qd c busy q -> conn qd c busy (set_px_pop_thread th q).
Proof. by intros []. Qed.
Lemma conn_weaken qd c busy busy' q : conn qd c busy q -> busy ⊆ busy' -> conn qd c busy' q.
Proof. intros [] Hs. split; try done. intros s Hv. by apply Hs, co_tasks0. Qed.

Lemma conn_token qd c busy q :
  conn qd c busy q -> c + 1 < UINT32_MAX -> slot (c + 1) ∉ busy ->
  new_qtoken (posix_base (PxObj q)) = Ok (0, tok qd (c + 1)) (set_my_qt_counter (c + 1) (px_base q)).
Proof.
  intros [] Hc Hs. cbn [posix_base]. rewrite <- co_qd0 at 1. apply new_qtoken_next; try done.
  - rewrite co_qd0. change (2 ^ 31) with 2147483648. lia.
  - lia.
  - apply not_true_iff_false. intros H. by apply Hs, co_tasks0.
Qed.

(** A push: the message goes to the kernel at once, and the task is completed. *)
Definition pushed_queue qd c sga q : posix_queue :=
  let q1 := set_px_base (set_my_qt_counter (c + 1) (px_base q)) q in
  set_px_slot (slot (c + 1)) (completed_task sga (push_task (tok qd (c + 1)) sga q1)) q1.
Lemma conn_push lib st qd c busy q p data sga o errno os' :
  conn qd c busy q -> px_pop_thread q = idle PxPopIdle -> my_queues st !! qd = Some (PxObj q) ->
  c + 1 < UINT32_MAX -> slot (c + 1) ∉ busy ->
  sga_numsegs sga = 1 -> sga_segs sga = [mk_sgaseg p (len32 data)] ->
  0 < len32 data < 2 ^ 32 - 4 -> load_bytes p (len32 data) (st_heap st) = Ok data (st_heap st) -> (4 < fuel)%nat ->
  sys_writev (my_fd q) (wire_vectors data) (st_os st) = (len32 (wire_message [data]), errno, os') ->
  dmtr_push (HQ := vt) lib (Some o) qd (Some sga) (WithApi st) =
    Ok (0, Some (tok qd (c + 1))) (WithApi (moved qd (pushed_queue qd c sga q) (st_heap st) os' st)) /\
  conn qd (c + 1) (slot (c + 1) :: busy) (pushed_queue qd c sga q).
Proof.
  intros Hc Hpop Hq Hcnt Hs Hn Hsegs Hlen Hload Hf Hw. pose proof (conn_count _ _ _ _ Hc Hcnt) as Hc1.
  pose proof (co_range _ _ _ _ Hc). pose proof (co_pos _ _ _ _ Hc).
  split; [|by apply (conn_slot qd (c + 1) busy _ (slot (c + 1)) (completed_task sga (push_task (tok qd (c + 1)) sga _)))].
  apply (dmtr_push_eq (HQ := vt)). eapply (data_call_eq (HQ := vt)); [done|exact Hq|by eapply conn_token|].
  cbn [q_vcall posix_vtable]. unfold dispatch. cbn [set_e_queues e_queues]. rewrite lookup_insert_eq.
  cbn [px_vcall]. unfold pushed_queue. set (q1 := set_px_base (set_my_qt_counter (c + 1) (px_base q)) q) in *.
  change (set_q_base (set_my_qt_counter (c + 1) (px_base q)) (PxObj q)) with (PxObj q1).
  assert (Hk : connected qd (tok qd (c + 1)) q1 (<[qd := PxObj q1]> (my_queues st))).
  { split; try apply Hc1; try done.
    - apply lookup_insert_eq.
    - rewrite (co_qd _ _ _ _ Hc1). lia.
    - apply tok_nonzero; lia.
    - eapply conn_free; [exact Hc1|lia|done]. }
  pose proof (px_push_eq qd (tok qd (c + 1)) p data sga _ q1 (st_heap st) fuel errno (st_os st) os' Hk Hn Hsegs Hlen Hload Hf Hw) as E.
  unfold set_e_queues. replace (e_world (my_env st)) with (mk_pworld (st_heap st) (st_os st)) by (unfold st_heap, st_os; by destruct (e_world (my_env st))).
  etransitivity; [exact E|]. rewrite insert_insert_eq, tok_slot by lia. done.
Qed.

(** A pop: the worker is given the token. *)
Definition popping_queue qd c q : posix_queue :=
  let q1 := set_px_base (set_my_qt_counter (c + 1) (px_base q)) q in
  set_px_pop_thread (Some (mk_user_thread EAGAIN [tok qd (c + 1)] (Some PxPopIdle)))
    (set_px_slot (slot (c + 1)) (started DMTR_OPC_POP (tok qd (c + 1)) None None (px_base q1)) q1).
(** The pop [u] waits for its message. *)
Record awaiting (qd u : Z) q : Prop := {
  aw_thread : px_pop_thread q = Some (mk_user_thread EAGAIN [tok qd u] (Some PxPopIdle));
  aw_task : has_task (tok qd u) (px_base q) = true;
  aw_result : exists v, my_qr (px_task (slot u) q) = mk_qresult DMTR_OPC_POP qd (tok qd u) v
}.

Lemma conn_pop lib st qd c busy q o :
  conn qd c busy q -> px_pop_thread q = idle PxPopIdle -> my_queues st !! qd = Some (PxObj q) ->
  c + 1 < UINT32_MAX -> slot (c + 1) ∉ busy ->
  dmtr_pop (HQ := vt) lib (Some o) qd (WithApi st) =
    Ok (0, Some (tok qd (c + 1))) (WithApi (moved qd (popping_queue qd c q) (st_heap st) (st_os st) st)) /\
  conn qd (c + 1) (slot (c + 1) :: busy) (popping_queue qd c q) /\ awaiting qd (c + 1) (popping_queue qd c q).
Proof.
  intros Hc Hpop Hq Hcnt Hs. pose proof (conn_count _ _ _ _ Hc Hcnt) as Hc1.
  pose proof (co_range _ _ _ _ Hc). pose proof (co_pos _ _ _ _ Hc).
  unfold popping_queue. set (q1 := set_px_base (set_my_qt_counter (c + 1) (px_base q)) q) in *.
  split; [|split].
  - apply (dmtr_pop_eq (HQ := vt)). eapply (data_call_eq (HQ := vt)); [done|exact Hq|by eapply conn_token|].
    cbn [q_vcall posix_vtable]. unfold dispatch. cbn [set_e_queues e_queues]. rewrite lookup_insert_eq. cbn [px_vcall].
    change (set_q_base (set_my_qt_counter (c + 1) (px_base q)) (PxObj q)) with (PxObj q1).
    apply wp_eq. unfold px_pop. post_simp. eapply post_px_get; [apply lookup_insert_eq|]. destruct Hc1.
    rewrite (proj2 (Z.eqb_neq _ _)) by lia. cbn [negb]. post_simp. rewrite co_listening0. cbn [negb]. post_simp.
    unfold DMTR_NOTNULL. post_simp. change (px_pop_thread q1) with (px_pop_thread q). rewrite Hpop. unfold idle. cbn iota. post_simp.
    eapply post_px_on_base; [apply lookup_insert_eq| |].
    { rewrite new_task_cases by (rewrite ?co_qd0; done || lia).
      rewrite (conn_free qd (c + 1) busy q1 (c + 1)) by (done || lia || by split).
      rewrite (proj2 (Z.eqb_neq _ 0)) by (apply tok_nonzero; lia). done. }
    change (0 =? 0) with true. cbn iota. rewrite post_sbind. eapply post_px_modify; [apply lookup_insert_eq|]. post_simp.
    split; [done|]. unfold with_queue, moved, set_e_queues, st_heap, st_os. cbn. rewrite !insert_insert_eq, Hpop, tok_slot by lia.
    cbn. by destruct (e_world (my_env st)).
  - apply conn_pop_thread. exact (conn_slot _ _ _ _ (slot (c + 1)) (started DMTR_OPC_POP (tok qd (c + 1)) None None (px_base q1)) Hc1).
  - split; [done|..].
    + cbn. rewrite has_task_slot, tok_slot, slot_task_set_eq by lia. done.
    + unfold px_task. cbn. rewrite slot_task_set_eq. cbn. rewrite (co_qd _ _ _ _ Hc). by eexists.
Qed.

(** Polling it, when the message is there. *)
Lemma conn_poll lib st qd c busy q u (stream : OS -> list Z) (I : OS -> Prop) data rest qr :
  conn qd c busy q -> awaiting qd u q -> my_queues st !! qd = Some (PxObj q) -> 0 <= u < UINT32_MAX -> slot u ∈ busy ->
  heap_ok (st_heap st) -> reads_stream (my_fd q) stream False ->
  (forall len os, I os -> I (snd (sys_read (my_fd q) len os))) -> I (st_os st) ->
  0 < len32 data < 2 ^ 31 - 4 -> stream (st_os st) = wire_message [data] ++ rest -> (length data + 22 < fuel)%nat ->
  exists sga h' os',
    dmtr_poll (HQ := vt) lib (Some qr) (tok qd u) (WithApi st) =
      Ok (0, Some (mk_qresult DMTR_OPC_POP qd (tok qd u) (qv_sga sga))) (WithApi (moved qd (popped_queue (tok qd u) sga q) h' os' st)) /\
    conn qd c busy (popped_queue (tok qd u) sga q) /\
    received_sga data sga h' /\ stream os' = rest /\ I os' /\
    allocated (sga_buf sga) (len32 (wire_payload [data])) (st_heap st) h'.
Proof.
  intros Hc [] Hq Hu Hbusy Hheap Hread HI HIe Hdata Hst Hf. pose proof (co_range _ _ _ _ Hc) as Hr. destruct aw_result0 as [v Hv].
  assert (Ht : task_slot (tok qd u) = slot u) by (apply tok_slot; done).
  assert (Hw : wp (px_poll fuel qd qr (tok qd u)) (fun '(ret, r) e' => ret = 0 /\ exists sga,
      r = set_qr_value (qv_sga sga) (my_qr (px_task (task_slot (tok qd u)) q)) /\
      e_queues e' = <[qd := PxObj (popped_queue (tok qd u) sga q)]> (e_queues (my_env st)) /\
      received_sga data sga (w_heap (e_world e')) /\ stream (w_os (e_world e')) = rest /\
      I (w_os (e_world e')) /\
      allocated (sga_buf sga) (len32 (wire_payload [data])) (w_heap (e_world (my_env st))) (w_heap (e_world e'))) (my_env st)).
  { apply poll_pop_received; try done.
    - split; try done; apply Hc.
    - rewrite (co_qd _ _ _ _ Hc). lia.
    - by apply tok_nonzero.
    - apply Hc.
    - unfold task_opcode. by rewrite Ht, Hv. }
  apply wp_Ok in Hw as ([ret r] & [qs' [h' os']] & Hp & -> & sga & -> & Hqs & Hrec & Hrest & HI' & Hal).
  cbn in Hqs, Hrec, Hrest, HI', Hal. subst qs'. exists sga, h', os'.
  split; [|split; [|done]].
  - eapply (dmtr_poll_eq (HQ := vt)); [done|done|exact Hq|by apply tok_nonzero|].
    cbn [q_poll posix_vtable]. unfold dispatch. change (e_queues (my_env st)) with (my_queues st). rewrite Hq.
    rewrite Hp, Ht, Hv. done.
  - unfold popped_queue. apply conn_pop_thread. rewrite Ht.
    pose proof (conn_slot _ _ _ _ (slot u) (completed_task sga (px_task (slot u) q)) Hc) as H.
    eapply conn_weaken; [exact H|]. intros s. cbn. destruct (t_valid _).
    + rewrite elem_of_cons. intros [->|]; done.
    + by intros [_ ?]%list_elem_of_filter.
Qed.

(** Dropping a completed operation frees its slot. *)
Definition dropped_queue u q : posix_queue := set_px_slot (slot u) (task_clear (slot_task (slot u) (px_base q))) q.
Lemma px_drop_ok lib st qd q u :
  0 < qd < 256 -> my_queues st !! qd = Some (PxObj q) -> 0 <= u < UINT32_MAX ->
  dmtr_drop (HQ := vt) lib (tok qd u) (WithApi st) = Ok 0 (WithApi (moved qd (dropped_queue u q) (st_heap st) (st_os st) st)).
Proof.
  intros Hr Hq Hu. eapply (dmtr_drop_eq (HQ := vt)); [done|done|exact Hq|by apply tok_nonzero|].
  cbn [q_vcall posix_vtable]. unfold dispatch. change (e_queues (my_env st)) with (my_queues st). rewrite Hq.
  cbn [px_vcall]. unfold px_drop. erewrite px_on_base_eq; [|exact Hq|apply io_queue_drop_eq].
  rewrite tok_slot by done. unfold set_e_queues, st_heap, st_os, get_task. rewrite tok_slot by done. by destruct (e_world (my_env st)).
Qed.
Lemma conn_drop lib st qd c busy q u :
  conn qd c busy q -> my_queues st !! qd = Some (PxObj q) -> 0 <= u < UINT32_MAX ->
  dmtr_drop (HQ := vt) lib (tok qd u) (WithApi st) = Ok 0 (WithApi (moved qd (dropped_queue u q) (st_heap st) (st_os st) st)) /\
  conn qd c (filter (.≠ slot u) busy) (dropped_queue u q).
Proof.
  intros Hc Hq Hu. split; [apply px_drop_ok; [apply Hc|done..]|].
  exact (conn_slot _ _ _ _ (slot u) (task_clear (slot_task (slot u) (px_base q))) Hc).
Qed.
Lemma moved_heap qd q h os st : st_heap (moved qd q h os st) = h.
Proof. done. Qed.
Lemma moved_os qd q h os st : st_os (moved qd q h os st) = os.
Proof. done. Qed.

(** Waiting for the pop [u] when it is the first token looked at: its message
    is received, and its slot is free again. *)
Definition replied_queue qd u sga q : posix_queue := dropped_queue u (popped_queue (tok qd u) sga q).
Lemma conn_wait_any lib st qd c busy q u (stream : OS -> list Z) (I : OS -> Prop) data rest qr n off qts :
  conn qd c busy q -> awaiting qd u q -> my_queues st !! qd = Some (PxObj q) -> 0 <= u < UINT32_MAX -> slot u ∈ busy ->
  heap_ok (st_heap st) -> reads_stream (my_fd q) stream False ->
  (forall len os, I os -> I (snd (sys_read (my_fd q) len os))) -> I (st_os st) ->
  0 < len32 data < 2 ^ 31 - 4 -> stream (st_os st) = wire_message [data] ++ rest -> (length data + 22 < fuel)%nat ->
  let i := any_start (Some off) (Z.of_nat (length qts)) in
  -1 <= off -> qts !! Z.to_nat i = Some (tok qd u) -> (0 < n)%nat ->
  exists sga h' os',
    dmtr_wait_any (dmtr_poll (HQ := vt) lib) (dmtr_drop (HQ := vt) lib) n (Some qr) (Some off) qts (Z.of_nat (length qts)) (WithApi st) =
      Ok (0, Some (mk_qresult DMTR_OPC_POP qd (tok qd u) (qv_sga sga)), Some i)
        (WithApi (moved qd (replied_queue qd u sga q) h' os' st)) /\
    conn qd c (filter (.≠ slot u) busy) (replied_queue qd u sga q) /\
    received_sga data sga h' /\ stream os' = rest /\ I os' /\
    allocated (sga_buf sga) (len32 (wire_payload [data])) (st_heap st) h'.
Proof.
  intros Hc Haw Hq Hu Hbusy Hheap Hread HI HIe Hdata Hst Hf i Hoff Hi Hn.
  destruct (conn_poll lib st qd c busy q u stream I data rest qr) as (sga & h' & os' & Hp & Hc1 & Hrest); try done.
  destruct (conn_drop lib (moved qd (popped_queue (tok qd u) sga q) h' os' st) qd c busy (popped_queue (tok qd u) sga q) u) as [Hd Hc2];
    [done|apply lookup_insert_eq|done|].
  exists sga, h', os'. rewrite moved_heap, moved_os, moved_moved in Hd. split; [|done].
  unfold dmtr_wait_any. fold i. destruct n as [|n]; [lia|]. cbn [any_loop]. unfold fbind.
  assert (Hb : 0 <= i) by (unfold i, any_start; destruct (_ <? _); lia).
  erewrite (proj2 (any_visit_returns _ _ _ _ _ _ _ _ _ _ _)); [done|].
  pose proof (co_range _ _ _ _ Hc). pose proof (tok_nonzero qd u ltac:(done) Hu).
  do 2 eexists. split; [done|]. split; [exact Hi|]. split; [done|]. split; [exact Hp|]. split; [exact Hd|]. done.
Qed.
End connection.
