(* ===== verification/WaitMemory.v ===== *)
(** * Waiting for memory queues

    [dmtr_wait_any] of [common/wait.cc] with [dmtr_poll] and [dmtr_drop] of the
    POSIX library OS, on tokens of memory queues: it returns exactly when one
    of the operations can finish, and then with the first of them in turn. *)
From S2P Require Import Prelude Cmd Types Memory IoQueue UserThread MemoryQueue Queue MemoryVtable IoQueueApi Wait PosixOs PosixQueue PosixLaws PosixWire PosixIo Libos PosixApi.
Open Scope cmd_scope.

(** ** Operations that can finish

    A push that was not run yet, a pop with an element at its own position, an
    operation that is complete. *)
Definition can_finish (slot : Z) (a : fifo) : Prop := exists qt, task_slot qt = slot /\
  ((exists sga, (qt, sga) ∈ f_pending a) \/
   (exists i sga, f_waiting a !! i = Some qt /\ f_ready a !! i = Some sga) \/
   (exists op sga, (qt, (op, sga)) ∈ f_done a)).

Section finishing.
Implicit Types (a : fifo) (q : memory_queue).

Lemma matched_lookup a i qt sga : f_waiting a !! i = Some qt -> f_ready a !! i = Some sga -> fifo_matched a !! i = Some (qt, sga).
Proof. intros H1 H2. unfold fifo_matched. apply lookup_zip_with_Some. eauto. Qed.

(** Polling it answers 0 exactly then. *)
Lemma poll_finishes q a s : mq_rep q a -> fst (fst (fifo_poll s a)) = 0 <-> can_finish s a.
Proof.
  intros Hr. unfold fifo_poll. pose proof (fifo_lookup_rep q a s Hr) as Hl. split.
  - destruct (fifo_lookup s a) as [[qt0 [op st]]|] eqn:El; [|done].
    assert (Hr' : exists q', mq_rep q' (fifo_run op a)).
    { destruct (service_push_rep q a Hr) as (q1 & _ & H1). destruct (service_pop_rep q a Hr) as (q2 & _ & H2). destruct op; eauto. }
    destruct Hr' as [q' Hr']. pose proof (fifo_lookup_rep q' (fifo_run op a) s Hr') as Hl'.
    destruct (fifo_lookup s (fifo_run op a)) as [[qt [op' [sga|]]]|]; try done. intros _. destruct Hl' as [Ho Hs].
    unfold op_slot in Hs. cbn in Hs. exists qt. split; [done|].
    apply elem_of_ops in Ho as [(? & ? & _ & [=])|[(? & _ & [=])|(qt1 & op1 & sga1 & Hd & [= <- <- <-])]].
    assert (Hcase : (qt, (op', sga)) ∈ f_done a \/ (exists sga, (qt, sga) ∈ f_pending a) \/ (qt, sga) ∈ fifo_matched a).
    { destruct op; cbn in Hd; apply elem_of_app in Hd as [Hd|Hd]; auto; apply list_elem_of_fmap in Hd as ([t g] & [= -> _ ->] & Hin); eauto. }
    destruct Hcase as [Hd'|[Hp|Hm]]; [eauto|eauto|].
    apply list_elem_of_lookup in Hm as [i Hm]. apply lookup_zip_with_Some in Hm as (t & g & [= <- <-] & ? & ?). right; left. eauto.
  - intros (qt & Hs & Hcase).
    assert (Hop : exists op, (exists st, (qt, (op, st)) ∈ fifo_ops a) /\
      (exists q', mq_rep q' (fifo_run op a)) /\ exists op' sga, (qt, (op', Some sga)) ∈ fifo_ops (fifo_run op a)).
    { destruct (service_push_rep q a Hr) as (q1 & _ & H1). destruct (service_pop_rep q a Hr) as (q2 & _ & H2).
      destruct Hcase as [[sga Hp]|[(i & sga & Hw & Hrd)|(op & sga & Hd)]].
      - exists DMTR_OPC_PUSH. split; [eexists; by eapply pending_op|]. split; [eauto|]. exists DMTR_OPC_PUSH, sga.
        apply elem_of_ops. right; right. exists qt, DMTR_OPC_PUSH, sga. split; [|done]. cbn. apply elem_of_app; right.
        apply list_elem_of_fmap. by exists (qt, sga).
      - exists DMTR_OPC_POP. split; [eexists; eapply waiting_op, list_elem_of_lookup_2; exact Hw|]. split; [eauto|]. exists DMTR_OPC_POP, sga.
        apply elem_of_ops. right; right. exists qt, DMTR_OPC_POP, sga. split; [|done]. cbn. apply elem_of_app; right.
        apply list_elem_of_fmap. exists (qt, sga). split; [done|]. eapply list_elem_of_lookup_2, matched_lookup; eauto.
      - exists op. split; [exists (Some sga); apply elem_of_ops; right; right; by exists qt, op, sga|].
        split; [destruct op; eauto|]. exists op, sga. apply elem_of_ops. right; right. exists qt, op, sga. split; [|done].
        destruct op; cbn; apply elem_of_app; by left. }
    destruct Hop as (op & [st Ho] & [q' Hr'] & op' & sga & Ho').
    pose proof (fifo_lookup_Some _ _ _ Hr Ho) as E. pose proof (fifo_lookup_Some _ _ _ Hr' Ho') as E'.
    unfold op_slot in E, E'. cbn in E, E'. rewrite Hs in E, E'. by rewrite E, E'.
Qed.

(** Serving the pops changes nothing in this. *)
Lemma can_finish_run_pop s a : can_finish s (fifo_run_pop a) <-> can_finish s a.
Proof.
  split; intros (qt & Hs & Hcase); exists qt; (split; [done|]); cbn in *.
  - destruct Hcase as [Hp|[(i & sga & Hw & Hr)|(op & sga & Hd)]]; [by left|right; left|].
    + rewrite lookup_drop in Hw. rewrite lookup_drop in Hr. eauto.
    + apply elem_of_app in Hd as [Hd|Hd]; [right; right; eauto|]. apply list_elem_of_fmap in Hd as ([t g] & [= -> -> ->] & Hin).
      apply list_elem_of_lookup in Hin as [i Hin]. apply lookup_zip_with_Some in Hin as (t' & g' & [= <- <-] & ? & ?). right; left. eauto.
  - destruct Hcase as [Hp|[(i & sga & Hw & Hr)|(op & sga & Hd)]]; [by left|right; right..].
    + exists DMTR_OPC_POP, sga. apply elem_of_app; right. apply list_elem_of_fmap. exists (qt, sga). split; [done|].
      eapply list_elem_of_lookup_2, matched_lookup; eauto.
    + exists op, sga. apply elem_of_app. by left.
Qed.

(** A poll that does not finish its own operation runs no push. *)
Lemma can_finish_kept q a s s' : mq_rep q a -> ~ can_finish s a -> can_finish s' (snd (fifo_poll s a)) <-> can_finish s' a.
Proof.
  intros Hr Hno. unfold fifo_poll. pose proof (fifo_lookup_rep q a s Hr) as Hl.
  destruct (fifo_lookup s a) as [[qt [op st]]|]; [|done]. destruct Hl as [Ho Hs]. unfold op_slot in Hs. cbn in Hs.
  assert (Hrun : fifo_run op a = fifo_run_pop a \/ fifo_run op a = a).
  { apply elem_of_ops in Ho as [(t & g & Hp & [= -> -> ->])|[(t & Hp & [= -> -> ->])|(t & o & g & Hd & [= -> -> ->])]]; [|by left|].
    - destruct Hno. exists t. split; [done|]. left. eauto.
    - destruct Hno. exists t. split; [done|]. right; right. eauto. }
  assert (E : can_finish s' (fifo_run op a) <-> can_finish s' a) by (destruct Hrun as [-> | ->]; [apply can_finish_run_pop|done]).
  by destruct (fifo_lookup s (fifo_run op a)) as [[? [? []]]|].
Qed.
Lemma mq_drop_ok qt q : my_good_flag q = true -> exists q', mq_drop qt q = Ok 0 q'.
Proof. intros Hg. unfold mq_drop, body, sbind, fbind, get, mq_good. rewrite Hg. cbn. unfold fret, fbind, call, on_base, zoom. by eexists. Qed.
End finishing.

(** ** Processes with memory queues *)
Section memory.
Context {OS : Type} `{POS : PosixOS OS} (fuel : nat).
#[local] Existing Instance posix_vtable.
Abbreviation vt := (posix_vtable fuel).
Abbreviation lib := (posix_libos (OS := OS)).
Abbreviation api := (io_queue_api posix_object (pworld OS)).
Abbreviation proc := (process posix_object (pworld OS)).
Implicit Types (st : api) (B : gmap Z fifo).

(** The memory queues at the descriptors of [B] represent its FIFOs. *)
Definition memory_process B st : Prop := forall qd a, B !! qd = Some a ->
  0 <= qd < 256 /\ exists q, my_queues st !! qd = Some (MemObj q) /\ mq_rep q a.
(** A token's operation can finish. *)
Definition token_finishes B (qt : Z) : Prop := exists a, B !! qttoqd qt = Some a /\ can_finish (task_slot qt) a.
(** A failed poll removes a queue when the caller's buffer says [ACCEPT]. *)
Definition not_accept (qr : option dmtr_qresult) : Prop := match qr with Some r => qr_opcode r <> DMTR_OPC_ACCEPT | None => True end.

Lemma memory_poll B st qt a qr :
  memory_process B st -> qt <> 0 -> B !! qttoqd qt = Some a -> not_accept qr ->
  let r := fifo_poll (task_slot qt) a in
  exists qr' st', dmtr_poll (HQ := vt) lib qr qt (WithApi st) = Ok (fst (fst r), qr') (WithApi st') /\
    memory_process (<[qttoqd qt := snd r]> B) st' /\ (fst (fst r) <> 0 -> not_accept qr').
Proof.
  intros HB Hqt Ha Hqr r. destruct (HB _ _ Ha) as (Hqd & q & Hq & Hr).
  destruct (poll_rep q a qt (default qresult_zero qr) Hr) as (e & r1 & q1 & Hp & He & Hres & Hr1). fold r in He, Hres, Hr1.
  set (st1 := set_my_env (set_e_queues (<[qttoqd qt := MemObj q1]> (my_queues st)) (my_env st)) st).
  assert (Hq1 : q_poll (Queue := vt) (qttoqd qt) (default qresult_zero qr) qt (my_env st) = Ok (e, r1) (my_env st1)).
  { cbn [q_poll posix_vtable]. unfold dispatch, on_object. change (e_queues (my_env st)) with (my_queues st). rewrite Hq. cbn [as_mem]. by rewrite Hp. }
  assert (Hm : memory_process (<[qttoqd qt := snd r]> B) st1).
  { intros qd b Hb. change (my_queues st1) with (<[qttoqd qt := MemObj q1]> (my_queues st)). destruct (decide (qttoqd qt = qd)) as [<-|Hne].
    - rewrite lookup_insert_eq in Hb. rewrite lookup_insert_eq. injection Hb as <-. eauto.
    - rewrite lookup_insert_ne in Hb by done. rewrite lookup_insert_ne by done. by apply HB. }
  assert (Hr0 : e <> 0 -> r1 = default qresult_zero qr).
  { intros Hne. unfold r, fifo_poll in He, Hres. destruct (fifo_lookup _ a) as [[? [? ?]]|]; [|done].
    destruct (fifo_lookup _ _) as [[? [? [|]]]|]; cbn in He, Hres; done. }
  assert (Hpoll : poll (HQ := vt) qr qt st = Ok (e, (fun _ => r1) <$> qr) st1).
  { rewrite (poll_eq (HQ := vt)). rewrite (proj2 (Z.eqb_neq qt 0)) by done. rewrite (proj2 (Z.leb_le _ _)), (proj2 (Z.ltb_lt _ _)) by lia.
    cbn [andb]. rewrite Hq, Hq1. destruct (e =? 0) eqn:E; zbool; [by rewrite E|]. unfold fbind, on_poll_failure.
    replace (opcode_eqb DMTR_OPC_ACCEPT (qr_opcode r1)) with false; [done|]. symmetry. apply bool_decide_eq_false. rewrite Hr0 by done.
    destruct qr; [cbn in *; congruence|done]. }
  exists ((fun _ => r1) <$> qr), st1. rewrite He. split; [|split; [done|]].
  - unfold dmtr_poll, need_api, api_call, sbind, fbind. cbn. by rewrite Hpoll.
  - intros Hne. rewrite (Hr0 Hne). by destruct qr.
Qed.
Lemma memory_drop B st qt a :
  memory_process B st -> qt <> 0 -> B !! qttoqd qt = Some a -> exists p', dmtr_drop (HQ := vt) lib qt (WithApi st) = Ok 0 p'.
Proof.
  intros HB Hqt Ha. destruct (HB _ _ Ha) as (Hqd & q & Hq & Hr). destruct (mq_drop_ok qt q (rep_good _ _ Hr)) as [q1 Hd].
  set (e1 := set_e_queues (<[qttoqd qt := MemObj q1]> (my_queues st)) (my_env st)).
  assert (Hdrop : drop (HQ := vt) qt st = Ok 0 (set_my_env e1 st)).
  { apply wp_eq. unfold drop. rewrite (proj2 (Z.eqb_neq _ 0)) by done. cbn [negb]. post_simp.
    eapply post_eq; [eapply get_queue_eq; [lia|exact Hq]|]. cbn. rewrite post_sbind.
    eapply post_eq; [eapply q_call_ok; [exact Hq|]|by post_simp]. cbn [q_vcall posix_vtable]. unfold dispatch, on_object.
    change (e_queues (my_env st)) with (my_queues st). rewrite Hq. cbn [as_mem mq_vcall]. by rewrite Hd. }
  exists (WithApi (set_my_env e1 st)). unfold dmtr_drop, body, need_api, api_call, sbind, fbind. cbn. by rewrite Hdrop.
Qed.

(** The processes that the loop goes through. *)
Definition waiting B (qr : option dmtr_qresult) (p : proc) : Prop := not_accept qr /\ exists st B', p = WithApi st /\ memory_process B' st /\
  forall qd, match B !! qd, B' !! qd with
             | Some a, Some a' => forall s, can_finish s a' <-> can_finish s a
             | None, None => True
             | _, _ => False
             end.
Lemma waiting_token B qr p qt :
  waiting B qr p -> is_Some (B !! qttoqd qt) ->
  exists st B' a q, p = WithApi st /\ memory_process B' st /\ B' !! qttoqd qt = Some a /\ mq_rep q a /\
    (can_finish (task_slot qt) a <-> token_finishes B qt) /\
    (forall qr' st' a', not_accept qr' -> memory_process (<[qttoqd qt := a']> B') st' ->
       (forall s, can_finish s a' <-> can_finish s a) -> waiting B qr' (WithApi st')).
Proof.
  intros (_ & st & B' & -> & HB & Hsame) [a Ha]. pose proof (Hsame (qttoqd qt)) as Hs. rewrite Ha in Hs.
  destruct (B' !! qttoqd qt) as [a'|] eqn:Ea; [|done]. destruct (HB _ _ Ea) as (_ & q & _ & Hr).
  exists st, B', a', q. do 4 (split; [done|]). split.
  - rewrite Hs. unfold token_finishes. rewrite Ha. split; [by exists a|by intros (a2 & [= <-] & H)].
  - intros qr' st' a2 Hqr Hm Hsame2. split; [done|]. exists st', (<[qttoqd qt := a2]> B'). split; [done|]. split; [done|].
    intros qd. destruct (decide (qttoqd qt = qd)) as [<-|Hne].
    + rewrite lookup_insert_eq, Ha. intros s. by rewrite Hsame2.
    + rewrite lookup_insert_ne by done. apply Hsame.
Qed.
Lemma waiting_pass B qr p qt :
  waiting B qr p -> is_Some (B !! qttoqd qt) -> qt <> 0 -> ~ token_finishes B qt ->
  exists e qr' p', dmtr_poll (HQ := vt) lib qr qt p = Ok (e, qr') p' /\ e <> 0 /\ waiting B qr' p'.
Proof.
  intros Hw Hin Hqt Hno. destruct (waiting_token _ _ _ _ Hw Hin) as (st & B' & a & q & -> & HB & Ha & Hr & Hf & Hback).
  destruct (memory_poll B' st qt a qr HB Hqt Ha (proj1 Hw)) as (qr' & st' & Hp & Hm & Hqr).
  assert (Hne : fst (fst (fifo_poll (task_slot qt) a)) <> 0) by (rewrite (poll_finishes q a _ Hr); tauto).
  do 3 eexists. split; [exact Hp|]. split; [done|]. eapply Hback; [by apply Hqr|exact Hm|].
  intros s. apply (can_finish_kept q); [done|tauto].
Qed.
Lemma waiting_finish B qr p qt :
  waiting B qr p -> is_Some (B !! qttoqd qt) -> qt <> 0 -> token_finishes B qt ->
  exists qr' p1 p', dmtr_poll (HQ := vt) lib qr qt p = Ok (0, qr') p1 /\ dmtr_drop (HQ := vt) lib qt p1 = Ok 0 p'.
Proof.
  intros Hw Hin Hqt Hyes. destruct (waiting_token _ _ _ _ Hw Hin) as (st & B' & a & q & -> & HB & Ha & Hr & Hf & _).
  destruct (memory_poll B' st qt a qr HB Hqt Ha (proj1 Hw)) as (qr' & st' & Hp & Hm & _).
  destruct (memory_drop _ _ qt _ Hm Hqt (lookup_insert_eq _ _ _)) as [p' Hd].
  rewrite (proj2 (poll_finishes q a _ Hr)) in Hp by tauto. eauto.
Qed.
End memory.

(** ** The property *)
Section properties.
Context {OS : Type} `{POS : PosixOS OS} (fuel : nat).
Abbreviation lib := (posix_libos (OS := OS)).

(** The tokens are null or of live memory queues; [k] is the first turn, from
    index [first], of one whose operation can finish. *)
Definition memory_tokens (B : gmap Z fifo) (qts : list Z) : Prop := forall qt, qt ∈ qts -> qt = 0 \/ is_Some (B !! qttoqd qt).
Definition first_ready (B : gmap Z fifo) (qts : list Z) (num_qts first : Z) (k : nat) : Prop :=
  (exists qt, qts !! Z.to_nat ((first + Z.of_nat k) mod num_qts) = Some qt /\ qt <> 0 /\ token_finishes B qt) /\
  forall j qt, (j < k)%nat -> qts !! Z.to_nat ((first + Z.of_nat j) mod num_qts) = Some qt -> qt = 0 \/ ~ token_finishes B qt.

(** C31: when [dmtr_wait_any] ends, on tokens of memory queues in a process of
    the POSIX library OS, whatever other queues there are.  If one of the
    operations can finish, it returns 0 within one round with the index of the
    first such token in turn; otherwise it never returns, whatever the fuel: a
    pop whose element was pushed does not finish while the push is not polled.
    The caller's result buffer must not claim to hold a result of an accept. *)
Theorem wait_any_live B (st : io_queue_api posix_object (pworld OS)) qr ready qts num_qts :
  memory_process B st -> memory_tokens B qts -> not_accept qr ->
  0 < num_qts -> num_qts = Z.of_nat (length qts) -> (forall off, ready = Some off -> -1 <= off) ->
  let first := match ready with Some off => Z.min (off + 1) num_qts mod num_qts | None => 0 end in
  let wait_any n := dmtr_wait_any (dmtr_poll (HQ := posix_vtable fuel) lib) (dmtr_drop (HQ := posix_vtable fuel) lib) n
    qr ready qts num_qts (WithApi st) in
  (forall k, first_ready B qts num_qts first k -> exists qr' p',
     wait_any (length qts) = Ok (0, qr', match ready with Some _ => Some ((first + Z.of_nat k) mod num_qts) | None => None end) p') /\
  ((forall qt, qt ∈ qts -> qt = 0 \/ ~ token_finishes B qt) -> forall n, wait_any n = NoFuel).
Proof.
  intros HB Htok Hqr Hnum Hlen Hoff first wait_any.
  assert (HI : waiting B qr (WithApi st)).
  { split; [done|]. exists st, B. split; [done|]. split; [done|]. intros qd. by destruct (B !! qd). }
  pose proof (any_start_range num_qts ready Hnum Hoff) as Hs. unfold wait_any, dmtr_wait_any.
  rewrite (any_start_turn ready num_qts Hnum Hoff) in *. fold first in Hs |- *.
  assert (Hp : forall qr qt p, waiting B qr p -> qt ∈ qts -> qt <> 0 -> ~ token_finishes B qt ->
    exists e qr' p', dmtr_poll (HQ := posix_vtable fuel) lib qr qt p = Ok (e, qr') p' /\ e <> 0 /\ waiting B qr' p').
  { intros qr1 qt p Hw Hin Hne Hno. apply waiting_pass; try done. destruct (Htok qt Hin); done. }
  assert (Hf : forall qr qt p, waiting B qr p -> qt ∈ qts -> qt <> 0 -> token_finishes B qt ->
    exists qr' p1 p', dmtr_poll (HQ := posix_vtable fuel) lib qr qt p = Ok (0, qr') p1 /\ dmtr_drop (HQ := posix_vtable fuel) lib qt p1 = Ok 0 p').
  { intros qr1 qt p Hw Hin Hne Hyes. apply (waiting_finish fuel B qr1 p qt); try done. destruct (Htok qt Hin); done. }
  split.
  - intros k [(qt & Hqt & Hne & Hfin) Hbefore]. pose proof Hqt as Hqt'.
    apply lookup_lt_Some in Hqt'. assert (Hk : (k < length qts)%nat).
    { destruct (decide (k < length qts)%nat) as [|Hge]; [done|]. exfalso.
      destruct (Hbefore (k mod length qts)%nat qt) as [?|?]; [|  |done|done].
      - pose proof (Nat.mod_upper_bound k (length qts)). lia.
      - rewrite <- Hqt. do 2 f_equal. rewrite Nat2Z.inj_mod, <- Hlen. by rewrite Zplus_mod_idemp_r. }
    by apply (any_loop_first _ _ qts num_qts ready Hlen (waiting B) (token_finishes B) Hp Hf k (length qts) first qr (WithApi st) qt).
  - intros Hno n. by eapply (any_loop_spins _ _ qts num_qts ready Hlen (waiting B) (token_finishes B) Hp).
Qed.
End properties.

(** ** Witness

    Two queues: a pop waits for an element that is there, and another one for
    an element that is not. *)
Definition demo_mq_waiting : memory_queue := match mq_play [MqPop 5] demo_mq with Some (_, q) => q | None => demo_mq end.
Definition demo_fifos : gmap Z fifo := <[1 := demo_fifo]> {[2 := fifo_pop 5 fifo_empty]}.
Definition demo_memory : io_queue_api posix_object (pworld demo_kernel) :=
  mk_io_queue_api 2 (mk_qenv (<[1 := MemObj demo_mq_ready]> {[2 := MemObj demo_mq_waiting]}) (mk_pworld demo_heap (mk_demo_kernel [] []))) ∅.
Lemma demo_waiting_rep : mq_rep demo_mq_waiting (fifo_pop 5 fifo_empty).
Proof.
  destruct (mq_new_object_rep 1 ltac:(lia)) as (q & Hq & Hr). rewrite mq_new_object_eq in Hq. injection Hq as <-.
  destruct (mq_exec_rep demo_mq fifo_empty (MqPop 5) qresult_zero Hr Logic.I) as (r & qr & q' & H & _ & _ & Hr').
  assert (E : mq_exec (MqPop 5) qresult_zero demo_mq = Ok (0, qresult_zero) demo_mq_waiting) by (vm_compute; reflexivity).
  rewrite E in H. injection H as <- <- <-. exact Hr'.
Qed.
Lemma demo_memory_process : memory_process demo_fifos demo_memory.
Proof.
  intros qd a. unfold demo_fifos. destruct (decide (qd = 1)) as [->|H1].
  - rewrite lookup_insert_eq. intros [= <-]. split; [lia|]. exists demo_mq_ready. split; [reflexivity|exact demo_mq_ready_rep].
  - rewrite lookup_insert_ne by done. intros [<- <-]%lookup_singleton_Some. split; [lia|]. exists demo_mq_waiting.
    split; [reflexivity|exact demo_waiting_rep].
Qed.
Lemma demo_not_ready : ~ token_finishes demo_fifos (mk_qtoken 2 5).
Proof.
  intros (a & Ha & qt & _ & Hc). injection Ha as <-. destruct Hc as [[sga H]|[(i & sga & _ & H)|(op & sga & H)]].
  - by apply not_elem_of_nil in H.
  - done.
  - by apply not_elem_of_nil in H.
Qed.
Lemma demo_ready : token_finishes demo_fifos (mk_qtoken 1 2).
Proof. exists demo_fifo. split; [reflexivity|]. exists 2. split; [reflexivity|]. right; left. by exists 0%nat, (MemoryQueue.demo_sga 100). Qed.

Lemma wait_any_live_witness :
  let poll := dmtr_poll (HQ := posix_vtable 9) (posix_libos (OS := demo_kernel)) in
  let drop := dmtr_drop (HQ := posix_vtable 9) (posix_libos (OS := demo_kernel)) in
  (exists qr p, dmtr_wait_any poll drop 2 None (Some 1) [mk_qtoken 2 5; mk_qtoken 1 2] 2 (WithApi demo_memory) = Ok (0, qr, Some 1) p) /\
  forall n, dmtr_wait_any poll drop n None (Some 0) [mk_qtoken 2 5] 1 (WithApi demo_memory) = NoFuel.
Proof.
  assert (Ht : forall qts, qts ⊆ [mk_qtoken 2 5; mk_qtoken 1 2] -> memory_tokens demo_fifos qts).
  { intros qts Hs qt Hin. right. specialize (Hs _ Hin). apply elem_of_cons in Hs as [->|Hs]; [by eexists|].
    apply list_elem_of_singleton in Hs as ->. by eexists. }
  assert (Ht1 : memory_tokens demo_fifos [mk_qtoken 2 5]) by (apply Ht; intros x Hx; apply list_elem_of_singleton in Hx as ->; left).
  split.
  - refine (proj1 (wait_any_live 9 demo_fifos demo_memory None (Some 1) [mk_qtoken 2 5; mk_qtoken 1 2] 2 demo_memory_process
      (Ht _ (reflexivity _)) Logic.I ltac:(lia) eq_refl ltac:(intros off [= <-]; lia)) 1%nat _).
    split; [exists (mk_qtoken 1 2); split; [reflexivity|]; split; [discriminate|exact demo_ready]|].
    intros [|j] qt Hj Hqt; [|lia]. injection Hqt as <-. right. exact demo_not_ready.
  - apply (proj2 (wait_any_live 9 demo_fifos demo_memory None (Some 0) [mk_qtoken 2 5] 1 demo_memory_process
      Ht1 Logic.I ltac:(lia) eq_refl ltac:(intros off [= <-]; lia))).
    intros qt Hin. apply list_elem_of_singleton in Hin as ->. right. exact demo_not_ready.
Defined.
