(* ===== verification/PosixDial.v ===== *)
(** * Opening a TCP connection through the exported functions

    [dmtr_init], [dmtr_socket], [dmtr_connect], [dmtr_wait] and [dmtr_close] of
    the POSIX library OS, from a process without a library to a connection
    with nothing outstanding, and back. *)
From S2P Require Import Prelude Cmd Types Memory Contents IoQueue UserThread MemoryQueue Queue MemoryVtable IoQueueApi Wait PosixOs PosixQueue PosixLaws PosixWire PosixConn PosixIo Libos PosixApi.
Open Scope cmd_scope.

(** The kernel makes the calls that open a connection to [server] and close it;
    what has arrived and what was sent is none of their business.  [fds] are the
    descriptors that are open: [fd] is the one a socket gets, and the calls on
    it succeed while it is open. *)
Record dials {OS} `{PosixOS OS} (fd : Z) (server : list Z) (seen : OS -> OS -> Prop) (fds : OS -> gset Z) : Prop := {
  dl_socket : forall os, fd ∉ fds os ->
    exists errno os', sys_socket AF_INET SOCK_STREAM 0 os = (fd, errno, os') /\ seen os os' /\ fds os' = {[fd]} ∪ fds os;
  dl_setsockopt : forall os, fd ∈ fds os ->
    exists errno os', sys_setsockopt fd IPPROTO_TCP TCP_NODELAY 1 os = (0, errno, os') /\ seen os os' /\ fds os' = fds os;
  dl_connect : forall os, fd ∈ fds os ->
    exists errno os', sys_connect fd (Some server) 16 os = (0, errno, os') /\ seen os os' /\ fds os' = fds os;
  dl_fcntl : forall cmd arg os, fd ∈ fds os ->
    exists ret errno os', sys_fcntl fd cmd arg os = (ret, errno, os') /\ ret <> -1 /\ seen os os' /\ fds os' = fds os;
  dl_close : forall os, fd ∈ fds os ->
    exists errno os', sys_close fd os = (0, errno, os') /\ seen os os' /\ fds os' = fds os ∖ {[fd]}
}.

Section dial.
Context {OS : Type} `{POS : PosixOS OS} (fuel : nat) (Hfuel : (1 < fuel)%nat).
#[local] Existing Instance posix_vtable.
Abbreviation env := (qenv posix_object (pworld OS)).
Abbreviation api := (io_queue_api posix_object (pworld OS)).
Abbreviation vt := (posix_vtable fuel).
Abbreviation lib := (posix_libos (OS := OS)).
Implicit Types (q : posix_queue) (st : api) (w : pworld OS).
Context (fd : Z) (server : list Z) (seen : OS -> OS -> Prop) (fds : OS -> gset Z) (Hdial : dials fd server seen fds) (Hfd : 0 <= fd).
Context `{!PreOrder seen}.

Lemma fbind_Ok {S A B} (m : fn S A) (k : A -> fn S B) a s s' : m s = Ok a s' -> fbind m k s = k a s'.
Proof. unfold fbind. by intros ->. Qed.
Lemma api_call_Ok {A} (m : fn api A) a st st' : m st = Ok a st' -> api_call m (WithApi st) = Ok (inl a) (WithApi st').
Proof. cbn. by intros ->. Qed.

(** The constructors the library registers. *)
Definition posix_factory : io_queue_factory posix_object (pworld OS) :=
  <[FILE_Q := Some new_file_object]> (<[NETWORK_Q := Some new_net_object]> (<[MEMORY_Q := Some px_mem_ctor]> ∅)).
Lemma posix_init_eq w :
  dmtr_init lib (NoApi w) = Ok 0 (WithApi (mk_io_queue_api 0 (mk_qenv ∅ w) posix_factory)).
Proof. reflexivity. Qed.

(** The process with one queue. *)
Definition one_queue (qd : Z) (q : posix_queue) (h : heap) (os : OS) : api :=
  mk_io_queue_api qd (mk_qenv {[qd := PxObj q]} (mk_pworld h os)) posix_factory.
Definition socket_queue : posix_queue := set_my_fd fd (set_my_tcp_flag true (posix_queue_ctor 1 NETWORK_Q)).

Lemma dmtr_socket_calls h os e1 os1 e2 os2 :
  sys_socket AF_INET SOCK_STREAM 0 os = (fd, e1, os1) -> sys_setsockopt fd IPPROTO_TCP TCP_NODELAY 1 os1 = (0, e2, os2) ->
  dmtr_socket (HQ := vt) lib (Some 0) AF_INET SOCK_STREAM 0
      (WithApi (mk_io_queue_api 0 (mk_qenv ∅ (mk_pworld h os)) posix_factory)) =
    Ok (0, Some 1) (WithApi (one_queue 1 socket_queue h os2)).
Proof.
  intros H1 H2.
  assert (Hnew : new_queue (HQ := vt) NETWORK_Q (mk_io_queue_api 0 (mk_qenv ∅ (mk_pworld h os)) posix_factory) =
    Ok (0, Some 1) (one_queue 1 (posix_queue_ctor 1 NETWORK_Q) h os)) by reflexivity.
  assert (Hsock : px_socket 1 AF_INET SOCK_STREAM 0 (my_env (one_queue 1 (posix_queue_ctor 1 NETWORK_Q) h os)) =
    Ok 0 (my_env (one_queue 1 socket_queue h os2))).
  { apply wp_eq. unfold px_socket. post_simp. cbn [w_os e_world my_env one_queue]. rewrite H1. cbn [fst snd].
    rewrite (proj2 (Z.eqb_neq _ _)) by lia. post_simp. change (SOCK_STREAM =? SOCK_STREAM) with true. cbn iota. post_simp.
    unfold set_tcp_nodelay. post_simp. cbn [w_os e_world with_world set_e_world]. rewrite H2. cbn [fst snd].
    change (0 =? -1) with false. cbn iota. post_simp. change (0 =? 0) with true. cbn iota.
    eapply post_px_modify; [reflexivity|]. rewrite post_sbind. eapply post_px_modify; [apply lookup_insert_eq|]. post_simp.
    split; [done|]. reflexivity. }
  unfold dmtr_socket, with_out. erewrite (fbind_Ok _ _ (inl (0, 1))); [reflexivity|].
  do 2 erewrite sbind_Ok by reflexivity. apply api_call_Ok. apply wp_eq. unfold socket. post_simp.
  eapply post_eq; [exact Hnew|]. change (fst (0, Some 1) =? 0) with true. cbn [snd]. rewrite post_sbind.
  eapply post_eq; [eapply q_call_ok; [reflexivity|exact Hsock]|]. post_simp. change (negb (0 =? 0)) with false. cbn iota. by post_simp.
Qed.

Lemma dmtr_socket_eq h os :
  fd ∉ fds os ->
  exists os', dmtr_socket (HQ := vt) lib (Some 0) AF_INET SOCK_STREAM 0
      (WithApi (mk_io_queue_api 0 (mk_qenv ∅ (mk_pworld h os)) posix_factory)) =
    Ok (0, Some 1) (WithApi (one_queue 1 socket_queue h os')) /\ seen os os' /\ fds os' = {[fd]} ∪ fds os.
Proof.
  intros Hnew. destruct (dl_socket _ _ _ _ Hdial os Hnew) as (e1 & os1 & H1 & S1 & F1).
  destruct (dl_setsockopt _ _ _ _ Hdial os1) as (e2 & os2 & H2 & S2 & F2); [set_solver|].
  exists os2. split; [by eapply dmtr_socket_calls|]. split; [by etransitivity|congruence].
Qed.

(** The rules of the methods, in the environment of one queue. *)
Definition alone q h os : env := mk_qenv {[1 := PxObj q]} (mk_pworld h os).
Lemma alone_get q h os (Q : posix_queue + Z -> env -> Prop) : Q (inl q) (alone q h os) -> wp (px_get 1) Q (alone q h os).
Proof. intros HQ. by eapply post_px_get. Qed.
Lemma alone_modify f q h os (Q : unit + Z -> env -> Prop) : Q (inl tt) (alone (f q) h os) -> wp (px_modify 1 f) Q (alone q h os).
Proof. intros HQ. eapply post_px_modify; [done|]. unfold with_queue, set_e_queues. cbn. by rewrite insert_singleton_eq. Qed.
Lemma alone_base {A} (m : fn io_queue A) a b q h os (Q : A -> env -> Prop) :
  m (px_base q) = Ok a b -> Q a (alone (set_px_base b q) h os) -> wp (px_on_base 1 m) Q (alone q h os).
Proof. intros Hm HQ. eapply post_px_on_base; [done|exact Hm|]. unfold set_e_queues. cbn. by rewrite insert_singleton_eq. Qed.
Lemma alone_syscall {A} (f : OS -> A * OS) a os' q h os (Q : A -> env -> Prop) :
  f os = (a, os') -> Q a (alone q h os') -> wp (syscall f) Q (alone q h os).
Proof. intros Hf HQ. rewrite post_syscall. cbn. by rewrite Hf. Qed.
Lemma alone_heap {A} (m : fn heap A) a h' q h os (Q : A -> env -> Prop) :
  m h = Ok a h' -> Q a (alone q h' os) -> wp (on_heap m) Q (alone q h os).
Proof. intros Hm HQ. rewrite post_on_heap. cbn. by eapply post_eq. Qed.

Ltac one_step := do 3 (rewrite ?post_sbind, ?post_call, ?post_DMTR_OK, ?post_DMTR_OK_out, ?post_DMTR_TRUE, ?post_normal, ?post_body, ?post_need;
  change (0 =? 0) with true; change (0 =? -1) with false; cbn [negb fst snd]; cbn iota beta).

(** The queue [connect] leaves, connected through a descriptor kept as the
    peer's address at [p], with the completed task of its token. *)
Definition dialed_queue (p : Z) : posix_queue :=
  let q := set_px_base (set_my_qt_counter 1 (px_base socket_queue)) socket_queue in
  let tk := set_my_error 0 (started DMTR_OPC_CONNECT (mk_qtoken 1 1) None None (px_base q)) in
  set_px_slot 1 tk (with_workers (set_my_peer_saddr p q)).

Lemma px_connect_eq h os :
  heap_ok h -> length server = 16%nat -> fd ∈ fds os ->
  let q := set_px_base (set_my_qt_counter 1 (px_base socket_queue)) socket_queue in
  exists h' os', px_connect fuel 1 (mk_qtoken 1 1) (Some server) 16 (mk_qenv {[1 := PxObj q]} (mk_pworld h os)) =
    Ok 0 (mk_qenv {[1 := PxObj (dialed_queue (h_brk h))]} (mk_pworld h' os')) /\
    allocated (h_brk h) 16 h h' /\ seen os os' /\ fds os' = fds os.
Proof.
  intros (Hoom & Hbrk & Hfr) Hbs Hopen q. destruct (dl_connect _ _ _ _ Hdial os Hopen) as (e1 & os1 & H1 & S1 & F1).
  destruct (dl_fcntl _ _ _ _ Hdial F_GETFL 0 os1 ltac:(congruence)) as (fl & e2 & os2 & H2 & N2 & S2 & F2).
  destruct (dl_fcntl _ _ _ _ Hdial F_SETFL (Z.lor fl O_NONBLOCK) os2 ltac:(congruence)) as (r3 & e3 & os3 & H3 & N3 & S3 & F3).
  pose proof (allocated_malloc h 16) as Hal. cbv zeta in Hal. set (h1 := mk_heap _ _ _ _) in Hal.
  destruct (store_mapped h1 (h_brk h) server) as (h2 & Hst & _ & Hout).
  { intros x Hx. unfold len32 in Hx. cbn. rewrite alloc_cells_lookup, decide_True by lia. by eexists. }
  destruct (store_bytes_rest _ _ _ _ Hst) as [Hb2 Ho2]. exists h2, os3. split.
  - apply wp_eq. fold (alone q h os). fold (alone (dialed_queue (h_brk h)) h2 os3). unfold px_connect. one_step. apply alone_get. one_step.
    change (my_fd q) with fd. rewrite (proj2 (Z.eqb_neq fd (-1))) by lia. one_step. change (my_peer_saddr q =? 0) with true. one_step.
    eapply alone_base; [rewrite new_task_cases by done; reflexivity|]. one_step.
    eapply alone_base; [by apply get_task_ptr_valid|]. one_step. eapply alone_syscall; [exact H1|]. one_step.
    unfold set_non_blocking, io_set_non_blocking. one_step. eapply alone_syscall; [exact H2|]. one_step.
    rewrite (proj2 (Z.eqb_neq _ _) N2). one_step. eapply alone_syscall; [exact H3|]. one_step.
    rewrite (proj2 (Z.eqb_neq _ _) N3). one_step. eapply alone_heap; [apply malloc_eq, Hoom|]. one_step.
    rewrite (proj2 (Z.eqb_neq _ _)) by lia. one_step. cbn [saddr_prefix]. rewrite Hbs. change (Z.of_nat 16 <? 16) with false. one_step.
    rewrite take_ge by (rewrite Hbs; vm_compute; lia). eapply alone_heap; [exact Hst|]. one_step. apply alone_modify. one_step.
    unfold start_threads. rewrite post_fbind. apply alone_get. one_step. eapply post_eq.
    { apply start_io_threads_eq; [reflexivity|reflexivity|cbn; lia|done]. }
    one_step. unfold with_queue, set_e_queues. cbn [alone e_queues]. rewrite insert_singleton_eq. 
    eapply alone_base; [by apply on_slot_complete|]. one_step. split; [done|].
    change (task_slot (mk_qtoken 1 1)) with 1. cbn [px_base set_px_base with_workers set_my_peer_saddr set_px_push_thread set_px_pop_thread].
    rewrite slot_task_set_eq. unfold set_slot, set_my_tasks. cbn [my_tasks my_cid my_qd my_qt_counter]. rewrite insert_insert_eq. reflexivity.
  - split; [|split; [by repeat (etransitivity; [eassumption|])|congruence]]. destruct Hout as [Hc _].
    eapply allocated_store; [exact Hal| |reflexivity|reflexivity|..].
    + intros x Hx. rewrite Hc; [done|]. unfold len32. rewrite Hbs. lia.
    + unfold store_bytes in Hst. destruct (store_cells _ _ _); [|done]. by injection Hst as <-.
    + done.
    + done.
Qed.

Lemma dmtr_connect_eq h os :
  heap_ok h -> length server = 16%nat -> fd ∈ fds os ->
  exists h' os', dmtr_connect (HQ := vt) (Some 0) 1 (Some server) 16 (WithApi (one_queue 1 socket_queue h os)) =
    Ok (0, Some (mk_qtoken 1 1)) (WithApi (one_queue 1 (dialed_queue (h_brk h)) h' os')) /\
    allocated (h_brk h) 16 h h' /\ seen os os' /\ fds os' = fds os.
Proof.
  intros Hh Hbs Hopen. destruct (px_connect_eq h os Hh Hbs Hopen) as (h' & os' & Hc & Hal & Hs). exists h', os'. split; [|done].
  set (q := set_px_base (set_my_qt_counter 1 (px_base socket_queue)) socket_queue) in *.
  unfold dmtr_connect, with_out. erewrite (fbind_Ok _ _ (inl (0, mk_qtoken 1 1))); [reflexivity|].
  do 3 erewrite sbind_Ok by reflexivity. apply api_call_Ok. apply wp_eq. unfold connect. post_simp. change (negb (1 =? 0)) with true. do 2 post_simp.
  eapply post_eq; [eapply get_queue_eq; [done|reflexivity]|]. change (fst (0, Some 1) =? 0) with true. cbn [snd]. post_simp.
  eapply post_eq.
  { eapply q_call_ok; [reflexivity|]. unfold on_queue. cbn [e_queues my_env one_queue]. rewrite lookup_singleton_eq.
    rewrite (new_qtoken_next _ 0) by (done || vm_compute; reflexivity). reflexivity. }
  cbn iota. post_simp. change (fst (0, mk_qtoken 1 1) =? 0) with true. cbn iota. cbn [snd]. post_simp.
  match goal with |- context [set_my_env ?e _] => replace e with (alone q h os) end.
  2: { unfold set_e_queues, alone. cbn. by rewrite insert_singleton_eq. }
  change (mk_qtoken (my_qd (q_base (PxObj socket_queue))) (0 + 1)) with (mk_qtoken 1 1).
  apply post_sbind. eapply post_eq; [eapply q_call_ok; [reflexivity|]|].
  { cbn [q_vcall posix_vtable]. unfold dispatch. cbn [alone set_my_env my_env e_queues]. rewrite lookup_singleton_eq. exact Hc. }
  cbn iota. change (0 =? ECONNREFUSED) with false. change (0 =? 0) with true. cbn iota. by post_simp.
Qed.

Lemma dialed_poll p h os qr :
  px_poll fuel 1 qr (mk_qtoken 1 1) (alone (dialed_queue p) h os) =
    Ok (0, mk_qresult DMTR_OPC_CONNECT 1 (mk_qtoken 1 1) (qv_sga sgarray_zero)) (alone (dialed_queue p) h os).
Proof.
  apply wp_eq. unfold px_poll. rewrite post_fbind. apply alone_get.
  assert (Hi : initialize_result 1 (mk_qtoken 1 1) qr = Ok 0 (mk_qresult DMTR_OPC_INVALID 1 (mk_qtoken 1 1) (qr_value qr))) by reflexivity.
  change (my_qd (px_base (dialed_queue p))) with 1. rewrite Hi. rewrite post_fbind. unfold px_good. change (my_fd (dialed_queue p)) with fd.
  rewrite (proj2 (Z.gtb_lt fd (-1))) by lia. one_step. change (0 =? 0) with true. cbn iota. one_step.
  split; reflexivity.
Qed.

(** The connection once its token is dropped. *)
Definition ready_queue (p : Z) : posix_queue := dropped_queue 1 (dialed_queue p).
Lemma dialed_conn p : conn 1 1 [1] (dialed_queue p).
Proof. split; try done. intros s. cbn. rewrite slot_task_set. case_decide as E; [subst s; intros _; left|done]. Qed.
Lemma ready_conn p : conn 1 1 [] (ready_queue p) /\ my_fd (ready_queue p) = fd /\ px_pop_thread (ready_queue p) = idle PxPopIdle.
Proof.
  pose proof (dialed_conn p) as H.
  split; [|done]. pose proof (conn_slot 1 1 [1] _ 1 (task_clear (slot_task 1 (px_base (dialed_queue p)))) H) as Hc.
  exact Hc.
Qed.

Lemma dmtr_wait_eq n p h os qr :
  (0 < n)%nat ->
  dmtr_wait (dmtr_poll (HQ := vt) lib) (dmtr_drop (HQ := vt) lib) n (Some qr) (mk_qtoken 1 1) (WithApi (one_queue 1 (dialed_queue p) h os)) =
    Ok (0, Some (mk_qresult DMTR_OPC_CONNECT 1 (mk_qtoken 1 1) (qv_sga sgarray_zero)))
      (WithApi (one_queue 1 (ready_queue p) h os)).
Proof.
  intros Hn. assert (Hp : dmtr_poll (HQ := vt) lib (Some qr) (mk_qtoken 1 1) (WithApi (one_queue 1 (dialed_queue p) h os)) =
    Ok (0, Some (mk_qresult DMTR_OPC_CONNECT 1 (mk_qtoken 1 1) (qv_sga sgarray_zero))) (WithApi (one_queue 1 (dialed_queue p) h os))).
  { etransitivity; [eapply (dmtr_poll_eq (HQ := vt)); [done|done|reflexivity|done|]|].
    - cbn [q_poll posix_vtable]. unfold dispatch. cbn [my_env one_queue e_queues]. rewrite lookup_singleton_eq.
      exact (dialed_poll p h os qr).
    - reflexivity. }
  pose proof (proj1 (conn_drop fuel lib (one_queue 1 (dialed_queue p) h os) 1 1 [1] (dialed_queue p) 1 (dialed_conn p) eq_refl ltac:(done))) as Hd.
  destruct n as [|n]; [lia|]. unfold dmtr_wait. erewrite (fbind_Ok _ _ (0, Some (mk_qresult DMTR_OPC_CONNECT 1 (mk_qtoken 1 1) (qv_sga sgarray_zero)))).
  - unfold body, sbind, DMTR_OK, fbind. by rewrite Hd.
  - cbn [wait_loop]. erewrite fbind_Ok by exact Hp. reflexivity.
Qed.

Lemma dmtr_close_eq q st :
  my_queues st !! 1 = Some (PxObj q) -> my_fd q = fd -> px_pop_thread q = idle PxPopIdle -> fd ∈ fds (st_os st) ->
  exists st', dmtr_close (HQ := vt) lib 1 (WithApi st) = Ok 0 (WithApi st') /\ st_heap st' = st_heap st /\ seen (st_os st) (st_os st') /\
    my_queues st' = delete 1 (my_queues st) /\ fds (st_os st') = fds (st_os st) ∖ {[fd]}.
Proof.
  intros Hq Hqfd Hpop Hopen. destruct (dl_close _ _ _ _ Hdial (st_os st) Hopen) as (e1 & os1 & H1 & S1 & F1).
  assert (Hclose : px_close 1 (my_env st) =
    Ok 0 (mk_qenv (<[1 := PxObj (set_my_fd (-1) q)]> (my_queues st)) (mk_pworld (st_heap st) os1))).
  { apply wp_eq. unfold px_close. post_simp. eapply post_px_get; [exact Hq|]. rewrite Hqfd, (proj2 (Z.eqb_neq _ _)) by lia. post_simp.
    eapply post_px_modify; [exact Hq|]. post_simp. cbn [e_world with_queue set_e_queues w_os]. change (w_os (e_world (my_env st))) with (st_os st).
    rewrite H1. cbn [fst snd]. unfold check_call. change (0 =? 0) with true. cbn iota. post_simp. done. }
  set (w := mk_pworld (st_heap st) os1) in *.
  exists (removed 1 w (set_my_env (mk_qenv (<[1 := PxObj (set_my_fd (-1) q)]> (my_queues st)) w) st)).
  split; [|split; [done|split; [exact S1|split; [apply delete_insert_eq|exact F1]]]].
  unfold dmtr_close, body. erewrite (fbind_Ok _ _ (inl 0)); [reflexivity|]. erewrite sbind_Ok by reflexivity. apply api_call_Ok. apply wp_eq.
  unfold close. post_simp. change (negb (1 =? 0)) with true. do 2 post_simp.
  eapply post_eq; [eapply get_queue_eq; [done|exact Hq]|]. change (fst (0, Some 1) =? 0) with true. cbn [snd]. post_simp.
  eapply post_eq; [eapply q_call_ok; [exact Hq|]|].
  { cbn [q_vcall posix_vtable]. unfold dispatch. change (e_queues (my_env st)) with (my_queues st). rewrite Hq. exact Hclose. }
  cbn iota. post_simp. eapply post_eq.
  { rewrite remove_queue_eq. change (1 =? 0) with false. change ((0 <=? 1) && (1 <? 256)) with true. cbn iota.
    unfold my_queues. cbn [my_env set_my_env e_queues]. rewrite lookup_insert_eq. cbn [q_destroy posix_vtable posix_destroy].
    cbn [px_pop_thread set_my_fd]. rewrite Hpop. cbn [destroy_pop_thread idle]. reflexivity. }
  change (0 =? 0) with true. cbn iota. by post_simp.
Qed.
End dial.
