(* ===== verification/PosixServe.v ===== *)
(** * Serving TCP connections through the exported functions

    [dmtr_bind], [dmtr_listen], [dmtr_accept] and [dmtr_wait_any] of the POSIX
    library OS, from a socket to a connection with nothing outstanding. *)
From S2P Require Import Prelude Cmd Types Memory Contents IoQueue UserThread MemoryQueue Queue MemoryVtable IoQueueApi Wait PosixOs PosixQueue PosixLaws PosixWire PosixConn PosixIo Libos PosixApi PosixDial.
Open Scope cmd_scope.

(** The kernel makes the calls of a server that binds the address [addr], in the
    order in which they are allowed: a socket is [fresh], then [bound] to the
    address, then listens.  [before n]: it listens, nobody has been accepted,
    and the next [n] attempts will find nobody; [after]: the peer has been
    accepted. *)
Record serves {OS} `{PosixOS OS} (lfd fd : Z) (addr : list Z) (peer : sockaddr_in) (fresh bound before : nat -> OS -> Prop) (after : OS -> Prop) : Prop := {
  se_socket : forall n os, fresh n os -> exists errno os', sys_socket AF_INET SOCK_STREAM 0 os = (lfd, errno, os') /\ fresh n os';
  se_setsockopt : forall level name n os, fresh n os ->
    exists errno os', sys_setsockopt lfd level name 1 os = (0, errno, os') /\ fresh n os';
  se_bind : forall n os, fresh n os -> exists errno os', sys_bind lfd (Some addr) 16 os = (0, errno, os') /\ bound n os';
  se_listen : forall backlog n os, bound n os -> exists errno os', sys_listen lfd backlog os = (0, errno, os') /\ before n os';
  se_fcntl : forall cmd arg n os, before n os ->
    exists ret errno os', sys_fcntl lfd cmd arg os = (ret, errno, os') /\ ret <> -1 /\ before n os';
  se_nobody : forall n os, before (S n) os ->
    exists addr os', sys_accept4 lfd SOCK_NONBLOCK os = (-1, EAGAIN, addr, os') /\ before n os';
  se_accept : forall os, before 0%nat os ->
    exists errno os1 os', sys_accept4 lfd SOCK_NONBLOCK os = (fd, errno, peer, os1) /\ modes_set fd os1 os' /\ after os'
}.

Section serve.
Context {OS : Type} `{POS : PosixOS OS} (fuel : nat).
#[local] Existing Instance posix_vtable.
Abbreviation env := (qenv posix_object (pworld OS)).
Abbreviation api := (io_queue_api posix_object (pworld OS)).
Abbreviation vt := (posix_vtable fuel).
Abbreviation tok := mk_qtoken.
Abbreviation slot u := (u mod MAX_TASKS).
Context (lib : libos posix_object (pworld OS)).
Implicit Types (e : env) (q : posix_queue) (st : api).

(** ** Listening queues *)

(** The object at [qd] listens on [lfd], has issued [c] tokens, and has tasks
    in the slots [busy] at most. *)
Record listener (qd lfd c : Z) (busy : list Z) q : Prop := {
  li_qd : my_qd (px_base q) = qd;
  li_range : 0 < qd < 256;
  li_fd : my_fd q = lfd /\ 0 <= lfd;
  li_count : my_qt_counter (px_base q) = c;
  li_pos : 0 <= c < UINT32_MAX;
  li_listening : my_listening_flag q = true;
  li_tcp : my_tcp_flag q = true;
  li_tasks : forall s, t_valid (slot_task s (px_base q)) = true -> s ∈ busy
}.

(** The accept [u] waits for a peer, whose queue will be the one at [nqd]. *)
Record accepting (qd u nqd : Z) q : Prop := {
  ac_thread : px_accept_thread q = Some (mk_user_thread EAGAIN [tok qd u] (Some PxAcceptIdle)) \/
    px_accept_thread q = Some (mk_user_thread EAGAIN [] (Some (PxAcceptTry (slot u) nqd)));
  ac_valid : has_task (tok qd u) (px_base q) = true;
  ac_arg : my_queue_arg (px_task (slot u) q) = nqd /\ 0 < nqd;
  ac_error : my_error (px_task (slot u) q) = EAGAIN;
  ac_result : exists v, my_qr (px_task (slot u) q) = mk_qresult DMTR_OPC_ACCEPT qd (tok qd u) v
}.

Lemma listener_slot qd lfd c busy q s tk :
  listener qd lfd c busy q -> listener qd lfd c (if t_valid tk then s :: busy else filter (.≠ s) busy) (set_px_slot s tk q).
Proof.
  intros []. split; try done. intros s'. cbn. rewrite slot_task_set. case_decide as E.
  - subst s'. destruct (t_valid tk); [by left|done].
  - intros Hv%li_tasks0. destruct (t_valid tk); [by right|]. apply list_elem_of_filter. done.
Qed.
Lemma listener_thread qd lfd c busy q th : listener qd lfd c busy q -> listener qd lfd c busy (set_px_accept_thread th q).
Proof. by intros []. Qed.

Lemma listener_weaken qd lfd c busy busy' q : listener qd lfd c busy q -> busy ⊆ busy' -> listener qd lfd c busy' q.
Proof. intros [] Hs. split; try done. intros s Hv. by apply Hs, li_tasks0. Qed.

(** The worker with the accept it waits for. *)
Definition trying_queue (u nqd : Z) q : posix_queue :=
  set_px_accept_thread (Some (mk_user_thread EAGAIN [] (Some (PxAcceptTry (slot u) nqd)))) q.
Lemma trying_listener qd lfd c busy u nqd q : listener qd lfd c busy q -> listener qd lfd c busy (trying_queue u nqd q).
Proof. apply listener_thread. Qed.
Lemma trying_accepting qd u nqd q : accepting qd u nqd q -> accepting qd u nqd (trying_queue u nqd q).
Proof. intros []. split; try done. by right. Qed.

(** The queue once the peer of the accept [u] has got the queue at [nqd]. *)
Definition served_queue (u nqd : Z) (peer : sockaddr_in) q : posix_queue :=
  set_px_accept_thread (idle PxAcceptIdle) (set_px_slot (slot u) (accepted_task nqd peer (px_task (slot u) q)) q).

(** ** Issuing an accept *)

(** A listening queue with no accept outstanding gets the token [c + 1]; the
    object of the connection to come takes the next descriptor. *)
Definition accepting_queue (qd c nqd : Z) q : posix_queue :=
  let q1 := set_px_base (set_my_qt_counter (c + 1) (px_base q)) q in
  set_px_accept_thread (Some (mk_user_thread EAGAIN [tok qd (c + 1)] (Some PxAcceptIdle)))
    (set_px_slot (slot (c + 1)) (started DMTR_OPC_ACCEPT (tok qd (c + 1)) None (Some nqd) (px_base q1)) q1).
Definition accept_issued (qd c : Z) q st : api :=
  let nqd := my_qd_counter st + 1 in
  mk_io_queue_api nqd (mk_qenv (<[nqd := PxObj (posix_queue_ctor nqd NETWORK_Q)]> (<[qd := PxObj (accepting_queue qd c nqd q)]> (my_queues st)))
    (e_world (my_env st))) (my_queue_factory st).

Lemma accepting_listener qd lfd c busy nqd q :
  listener qd lfd c busy q -> c + 1 < UINT32_MAX -> 0 < nqd ->
  listener qd lfd (c + 1) (slot (c + 1) :: busy) (accepting_queue qd c nqd q) /\ accepting qd (c + 1) nqd (accepting_queue qd c nqd q).
Proof.
  intros [] Hc Hn. set (q1 := set_px_base (set_my_qt_counter (c + 1) (px_base q)) q). split.
  - apply listener_thread.
    refine (listener_slot qd lfd (c + 1) busy q1 (slot (c + 1)) (started DMTR_OPC_ACCEPT (tok qd (c + 1)) None (Some nqd) (px_base q1)) _).
    split; try done. lia.
  - split.
    + by left.
    + cbn. rewrite has_task_slot, tok_slot, slot_task_set_eq by lia. done.
    + unfold px_task. cbn. by rewrite slot_task_set_eq.
    + unfold px_task. cbn. by rewrite slot_task_set_eq.
    + unfold px_task. cbn. rewrite slot_task_set_eq. cbn. rewrite li_qd0. by eexists.
Qed.

Lemma listener_accept st qd lfd c busy q o :
  listener qd lfd c busy q -> px_accept_thread q = idle PxAcceptIdle -> my_queues st !! qd = Some (PxObj q) ->
  c + 1 < UINT32_MAX -> slot (c + 1) ∉ busy -> 0 <= my_qd_counter st < 255 ->
  dmtr_accept (HQ := vt) (Some o) qd (WithApi st) = Ok (0, Some (tok qd (c + 1))) (WithApi (accept_issued qd c q st)).
Proof.
  intros Hl Hth Hq Hc Hs Hn. pose proof Hl as []. set (nqd := my_qd_counter st + 1).
  set (q1 := set_px_base (set_my_qt_counter (c + 1) (px_base q)) q).
  assert (Htok : new_qtoken (posix_base (PxObj q)) = Ok (0, tok qd (c + 1)) (set_my_qt_counter (c + 1) (px_base q))).
  { cbn [posix_base]. rewrite <- li_qd0 at 1. apply new_qtoken_next; try done.
    - rewrite li_qd0. change (2 ^ 31) with 2147483648. lia.
    - lia.
    - apply not_true_iff_false. intros H. by apply Hs, li_tasks0. }
  assert (Hacc : px_accept qd (tok qd (c + 1)) nqd (mk_qenv (<[qd := PxObj q1]> (my_queues st)) (e_world (my_env st))) =
    Ok (0, Some (PxObj (posix_queue_ctor nqd NETWORK_Q)))
      (mk_qenv (<[qd := PxObj (accepting_queue qd c nqd q)]> (my_queues st)) (e_world (my_env st)))).
  { apply wp_eq. unfold px_accept. post_simp. eapply post_px_get; [apply lookup_insert_eq|].
    change (my_listening_flag q1) with (my_listening_flag q). change (my_tcp_flag q1) with (my_tcp_flag q).
    change (px_accept_thread q1) with (px_accept_thread q). rewrite li_listening0, li_tcp0, Hth. unfold DMTR_NOTNULL, idle. post_simp.
    eapply post_px_on_base; [apply lookup_insert_eq| |].
    { rewrite new_task_queue_cases by (cbn; rewrite ?li_qd0; done || lia).
      rewrite has_task_slot, tok_slot by lia. cbn [px_base q1 set_px_base]. rewrite slot_task_counter.
      rewrite (not_true_is_false (t_valid _)) by (intros H; by apply Hs, li_tasks0).
      rewrite (proj2 (Z.eqb_neq nqd 0)), (proj2 (Z.eqb_neq _ 0)) by (apply tok_nonzero; lia) || lia. done. }
    change (0 =? 0) with true. cbn iota. rewrite post_sbind. eapply post_px_modify; [apply lookup_insert_eq|]. post_simp.
    split; [done|]. unfold with_queue, set_e_queues. cbn. rewrite !insert_insert_eq, Hth. done. }
  unfold dmtr_accept, with_out. erewrite (fbind_Ok _ _ (inl (0, tok qd (c + 1)))); [reflexivity|].
  do 2 erewrite sbind_Ok by reflexivity. apply api_call_Ok. apply wp_eq. unfold accept. post_simp.
  rewrite (proj2 (Z.eqb_neq qd 0)) by lia. cbn [negb]. do 2 post_simp.
  eapply post_eq; [eapply get_queue_eq; [lia|exact Hq]|]. change (fst (0, Some qd) =? 0) with true. cbn [snd]. post_simp.
  assert (Hqd : new_qd st = Ok nqd (set_my_qd_counter nqd st)).
  { unfold new_qd. fold nqd. rewrite (wrap_small 32), (swrap_small 32) by (cbn; lia). by replace (nqd >? 256) with false by lia. }
  eapply post_eq; [exact Hqd|]. cbn iota. rewrite post_sbind. eapply post_eq.
  { eapply q_call_ok; [exact Hq|]. unfold on_queue. cbn [my_env set_my_qd_counter]. change (e_queues (my_env st)) with (my_queues st).
    rewrite Hq. cbn [q_base posix_vtable]. rewrite Htok. reflexivity. }
  cbn iota. post_simp. change (fst (0, tok qd (c + 1)) =? 0) with true. cbn iota. cbn [snd]. rewrite post_sbind.
  eapply post_eq; [eapply q_call_ok; [apply lookup_insert_eq|]|].
  { cbn [q_accept posix_vtable]. unfold dispatch. cbn [my_env set_my_env e_queues set_e_queues]. rewrite lookup_insert_eq.
    exact Hacc. }
  cbn iota. post_simp. change (fst (0, Some (PxObj (posix_queue_ctor nqd NETWORK_Q))) =? 0) with true. cbn iota. cbn [snd].
  post_simp. eapply post_eq; [apply insert_queue_ok; cbn; lia|]. change (0 =? 0) with true. cbn iota. by post_simp.
Qed.

(** ** The accept worker *)
Context (Hfuel : (4 < fuel)%nat).
Section worker.
Context (qd lfd c : Z) (busy : list Z) (u nqd : Z) (q nq : posix_queue) (e : env).
Context (Hl : listener qd lfd c busy q) (Hacc : accepting qd u nqd q) (Hu : 0 <= u < UINT32_MAX).
Context (Hq : e_queues e !! qd = Some (PxObj q)) (Hnq : e_queues e !! nqd = Some (PxObj nq)) (Hne : qd <> nqd).

Lemma accept_take : px_accept_step fuel qd PxAcceptIdle [tok qd u] e = Ok ([], Continue (PxAcceptTry (slot u) nqd)) e.
Proof.
  destruct Hl, Hacc. apply wp_eq. unfold px_accept_step. rewrite post_in_thread. post_simp.
  eapply post_px_on_base; [exact Hq|by apply get_task_ptr_valid|]. rewrite tok_slot by done.
  change (fst (0, slot u) =? 0) with true. cbn iota. cbn [snd].
  match goal with |- post _ _ _ ?x => replace x with e end.
  2: { rewrite <- (with_queue_same qd q e Hq) at 1. unfold with_queue, set_e_queues. by destruct q. }
  rewrite post_sbind. eapply post_px_get; [exact Hq|]. unfold task_arg_queue. destruct ac_arg0 as [-> Hn].
  rewrite (proj2 (Z.eqb_neq nqd 0)) by lia. unfold DMTR_NOTNULL. post_simp. rewrite Hnq. by post_simp.
Qed.

(** Servicing it: it comes to the attempt in both cases. *)
Lemma accept_comes_to Q :
  (forall m, (2 < m)%nat -> post False (run (px_accept_step fuel qd) m EAGAIN (PxAcceptTry (slot u) nqd) []) Q e) ->
  exists th, px_accept_thread q = Some th /\ wp (service (px_accept_step fuel qd) fuel th)
    (fun r e' => exists th', r = (if th_done th' then if th_error th' =? EAGAIN then ENOTSUP else th_error th' else EAGAIN, th') /\ Q th' e') e.
Proof.
  intros HQ. assert (Hrun : forall n, (3 < n)%nat -> wp (run (px_accept_step fuel qd) n EAGAIN PxAcceptIdle [tok qd u]) Q e).
  { intros [|m] Hm; [lia|]. apply post_run_step. eapply post_eq; [exact accept_take|]. apply HQ. lia. }
  destruct (ac_thread _ _ _ _ Hacc) as [Ht|Ht]; eexists; (split; [exact Ht|]); apply post_service;
    (eapply post_mono; [first [apply Hrun|apply HQ]; lia|]); intros th e' H; by eexists.
Qed.

Lemma accept_service_again errno addr os' :
  sys_accept4 lfd SOCK_NONBLOCK (w_os (e_world e)) = (-1, errno, addr, os') -> errno = EAGAIN ->
  px_service_accept fuel qd e = Ok EAGAIN (with_queue qd (trying_queue u nqd q) (with_world e (w_heap (e_world e)) os')).
Proof.
  intros Hc He. apply wp_eq. unfold px_service_accept. post_simp. eapply post_px_get; [exact Hq|].
  edestruct (accept_comes_to (fun th e' => th = mk_user_thread EAGAIN [] (Some (PxAcceptTry (slot u) nqd)) /\
    e' = with_world e (w_heap (e_world e)) os')) as (th & Hth & Hs).
  - intros [|m] Hm; [lia|]. apply post_run_step. eapply post_eq.
    { eapply accept_step_again; [exact Hq|by rewrite (proj1 (li_fd _ _ _ _ _ Hl))|exact He]. }
    done.
  - rewrite Hth. post_simp. eapply post_mono; [exact Hs|]. intros r e' (th' & -> & -> & ->). cbn iota beta. post_simp.
    eapply post_px_modify; [exact Hq|]. by post_simp.
Qed.

Lemma accept_service_ok fd errno peer os1 os' :
  sys_accept4 lfd SOCK_NONBLOCK (w_os (e_world e)) = (fd, errno, peer, os1) -> 0 <= fd -> modes_set fd os1 os' ->
  my_qd (px_base nq) = nqd -> px_pop_thread nq = None ->
  px_service_accept fuel qd e = Ok EAGAIN
    (with_queue qd (served_queue u nqd peer q) (with_queue nqd (accepted_queue fd nq) (with_world e (w_heap (e_world e)) os'))).
Proof.
  intros Hc Hfd Hm Hnqd Hth0. apply wp_eq. unfold px_service_accept. post_simp. eapply post_px_get; [exact Hq|].
  set (q1 := set_px_slot (slot u) (accepted_task nqd peer (px_task (slot u) q)) q).
  set (e1 := with_world (with_queue qd q1 (with_queue nqd (accepted_queue fd nq) e)) (w_heap (e_world e)) os').
  assert (Hq1 : e_queues e1 !! qd = Some (PxObj q1)) by apply lookup_insert_eq.
  edestruct (accept_comes_to (fun th e' => th = mk_user_thread EAGAIN [] (Some PxAcceptIdle) /\ e' = e1)) as (th & Hth & Hs).
  - intros [|[|[|m]]] Hm'; [lia..|]. apply post_run_step. eapply post_eq.
    { eapply accept_step_ok; try done; [lia|by rewrite (proj1 (li_fd _ _ _ _ _ Hl))]. }
    rewrite Hnqd. fold q1 e1. cbn [fst snd]. apply post_run_step. eapply (post_eq _ _ ([], Continue PxAcceptIdle)).
    { unfold px_accept_step, in_thread, fbind at 1. rewrite (px_get_bind _ _ _ _ Hq1). unfold px_good. cbn [my_fd q1 set_px_slot set_px_base].
      destruct (li_fd _ _ _ _ _ Hl) as [-> ?]. by rewrite (proj2 (Z.gtb_lt _ _)) by lia. }
    cbn [fst snd]. apply post_run_step. done.
  - rewrite Hth. post_simp. eapply post_mono; [exact Hs|]. intros r e' (th' & -> & -> & ->). cbn iota beta. post_simp.
    eapply post_px_modify; [exact Hq1|]. post_simp. split; [done|].
    unfold with_queue, e1, with_world, set_e_queues, set_e_world. cbn. by rewrite insert_insert_eq.
Qed.

(** Polling it. *)
Lemma accept_polls (f : posix_queue -> posix_queue) e' r qr :
  px_service_accept fuel qd e = Ok EAGAIN e' -> e_queues e' !! qd = Some (PxObj (f q)) ->
  task_poll (mk_qresult DMTR_OPC_INVALID qd (tok qd u) (qr_value qr)) (px_task (slot u) (f q)) = r ->
  px_poll fuel qd qr (tok qd u) e = Ok r e'.
Proof.
  intros Hs Hq' Hr. destruct Hl, Hacc. apply wp_eq. eapply px_poll_ok; try done.
  - rewrite li_qd0. lia.
  - by apply tok_nonzero.
  - lia.
  - rewrite tok_slot by done. destruct ac_result0 as [v Hv]. unfold task_opcode. rewrite Hv. cbn [qr_opcode px_poll_service].
    rewrite post_call. eapply post_eq; [exact Hs|]. split; [done|]. exists (f q). split; [done|]. by rewrite li_qd0, Hr.
Qed.
Lemma poll_again errno addr os' qr :
  sys_accept4 lfd SOCK_NONBLOCK (w_os (e_world e)) = (-1, errno, addr, os') -> errno = EAGAIN ->
  px_poll fuel qd qr (tok qd u) e =
    Ok (EAGAIN, mk_qresult DMTR_OPC_INVALID qd (tok qd u) (qr_value qr))
      (with_queue qd (trying_queue u nqd q) (with_world e (w_heap (e_world e)) os')).
Proof.
  intros Hc He. apply (accept_polls (trying_queue u nqd)); [by eapply accept_service_again|apply lookup_insert_eq|].
  unfold task_poll, task_done. change (px_task (slot u) (trying_queue u nqd q)) with (px_task (slot u) q). by rewrite (ac_error _ _ _ _ Hacc).
Qed.
Lemma poll_accepted fd errno peer os1 os' qr :
  sys_accept4 lfd SOCK_NONBLOCK (w_os (e_world e)) = (fd, errno, peer, os1) -> 0 <= fd -> modes_set fd os1 os' ->
  my_qd (px_base nq) = nqd -> px_pop_thread nq = None ->
  px_poll fuel qd qr (tok qd u) e = Ok (0, mk_qresult DMTR_OPC_ACCEPT qd (tok qd u) (qv_ares nqd peer))
    (with_queue qd (served_queue u nqd peer q) (with_queue nqd (accepted_queue fd nq) (with_world e (w_heap (e_world e)) os'))).
Proof.
  intros Hc Hfd Hm Hnqd Hth0. apply (accept_polls (served_queue u nqd peer)); [by eapply accept_service_ok|apply lookup_insert_eq|].
  unfold task_poll, px_task. cbn. rewrite slot_task_set_eq. destruct (ac_result _ _ _ _ Hacc) as [v Hv]. cbn. by rewrite Hv.
Qed.
End worker.

(** ** Waiting for it *)
Lemma dmtr_poll_again st qd u (o : posix_object) qr r e' :
  0 < qd < 256 -> 0 <= u < UINT32_MAX -> my_queues st !! qd = Some o -> qr_opcode r = DMTR_OPC_INVALID ->
  q_poll (Queue := vt) qd qr (tok qd u) (my_env st) = Ok (EAGAIN, r) e' ->
  dmtr_poll (HQ := vt) lib (Some qr) (tok qd u) (WithApi st) = Ok (EAGAIN, Some r) (WithApi (set_my_env e' st)).
Proof.
  intros Hqd Hu Hq Hr Hp.
  assert (Hpoll : poll (HQ := vt) (Some qr) (tok qd u) st = Ok (EAGAIN, Some r) (set_my_env e' st)).
  { rewrite (poll_eq (HQ := vt)). rewrite (proj2 (Z.eqb_neq _ 0)) by (by apply tok_nonzero). rewrite qttoqd_mk_qtoken by lia.
    rewrite (proj2 (Z.leb_le _ _)), (proj2 (Z.ltb_lt _ _)) by lia. cbn [andb default from_option id]. rewrite Hq, Hp.
    change (EAGAIN =? 0) with false. cbn iota. unfold on_poll_failure. by rewrite Hr. }
  unfold dmtr_poll, need_api, api_call, sbind, fbind. cbn. by rewrite Hpoll.
Qed.

Lemma any_visit_again qr ready qts i qt qr' (s s' : process posix_object (pworld OS)) :
  (if i <? 0 then None else qts !! Z.to_nat i) = Some qt -> qt <> 0 -> dmtr_poll (HQ := vt) lib qr qt s = Ok (EAGAIN, qr') s' ->
  any_visit (dmtr_poll (HQ := vt) lib) (dmtr_drop (HQ := vt) lib) qr ready qts i s = Ok (inl qr') s'.
Proof.
  intros Hi Hqt Hp. unfold any_visit, fbind, need. rewrite Hi. unfold normal, fret. rewrite (proj2 (Z.eqb_neq _ _) Hqt).
  cbn [negb]. by rewrite Hp.
Qed.

(** The library once the accept [u] has got its peer and is dropped. *)
Definition served (qd u nqd fd : Z) (peer : sockaddr_in) q (os : OS) st : api :=
  moved qd (dropped_queue u (served_queue u nqd peer q)) (st_heap st) os
    (moved nqd (accepted_queue fd (posix_queue_ctor nqd NETWORK_Q)) (st_heap st) os st).

Lemma served_moved qd u nqd fd peer q os os' st :
  qd <> nqd -> served qd u nqd fd peer (trying_queue u nqd q) os' (moved qd (trying_queue u nqd q) (st_heap st) os st) =
    served qd u nqd fd peer q os' st.
Proof.
  intros Hne. unfold served. rewrite moved_heap.
  unfold moved, my_queues, set_my_env. cbn. rewrite (insert_insert_ne _ nqd qd) by done. by rewrite insert_insert_eq.
Qed.
Lemma served_listener qd lfd c busy u nqd peer q :
  listener qd lfd c busy q -> listener qd lfd c (filter (.≠ slot u) busy) (dropped_queue u (served_queue u nqd peer q)) /\
  px_accept_thread (dropped_queue u (served_queue u nqd peer q)) = idle PxAcceptIdle.
Proof.
  intros Hl. split; [|done]. set (tk := accepted_task nqd peer (px_task (slot u) q)).
  pose proof (listener_thread _ _ _ _ _ (idle PxAcceptIdle) (listener_slot _ _ _ _ _ (slot u) tk Hl)) as H1.
  pose proof (listener_slot _ _ _ _ _ (slot u) (task_clear (slot_task (slot u) (px_base (served_queue u nqd peer q)))) H1) as H2.
  eapply listener_weaken; [exact H2|]. intros s. cbn [task_clear t_valid]. cbn iota. rewrite !list_elem_of_filter. destruct (t_valid tk).
  - rewrite elem_of_cons. intros [? [?|?]]; [done|by split].
  - by intros [? [_ ?]%list_elem_of_filter].
Qed.

Lemma listener_wait k n st qd lfd c busy u nqd fd addr peer q (fresh bound before : nat -> OS -> Prop) (after : OS -> Prop) qr off :
  serves lfd fd addr peer fresh bound before after -> listener qd lfd c busy q -> accepting qd u nqd q -> 0 <= u < UINT32_MAX ->
  my_queues st !! qd = Some (PxObj q) -> my_queues st !! nqd = Some (PxObj (posix_queue_ctor nqd NETWORK_Q)) -> qd <> nqd ->
  0 <= fd -> before k (st_os st) -> (k < n)%nat ->
  exists os', any_loop (dmtr_poll (HQ := vt) lib) (dmtr_drop (HQ := vt) lib) n (Some qr) (Some off) [tok qd u] 1 0 (WithApi st) =
      Ok (0, Some (mk_qresult DMTR_OPC_ACCEPT qd (tok qd u) (qv_ares nqd peer)), Some 0)
        (WithApi (served qd u nqd fd peer q os' st)) /\ after os'.
Proof.
  intros Hs. revert n q st qr. induction k as [|k IH]; intros n q st qr Hl Ha Hu Hq Hnq Hne Hfd Hb Hn; (destruct n as [|n]; [lia|]).
  - destruct (se_accept _ _ _ _ _ _ _ _ Hs (st_os st) Hb) as (errno & os1 & os' & H1 & Hm & Haft).
    pose proof (poll_accepted qd lfd c busy u nqd q _ (my_env st) Hl Ha Hu Hq Hnq Hne fd errno peer os1 os' qr H1 Hfd Hm eq_refl eq_refl) as Hp.
    set (st1 := moved qd (served_queue u nqd peer q) (st_heap st) os'
      (moved nqd (accepted_queue fd (posix_queue_ctor nqd NETWORK_Q)) (st_heap st) os' st)).
    assert (Hp1 : dmtr_poll (HQ := vt) lib (Some qr) (tok qd u) (WithApi st) =
      Ok (0, Some (mk_qresult DMTR_OPC_ACCEPT qd (tok qd u) (qv_ares nqd peer))) (WithApi st1)).
    { etransitivity; [eapply (dmtr_poll_eq (HQ := vt)); [apply Hl|done|exact Hq|apply tok_nonzero; [apply Hl|done]|]|reflexivity].
      cbn [q_poll posix_vtable]. unfold dispatch. change (e_queues (my_env st)) with (my_queues st). rewrite Hq. exact Hp. }
    pose proof (px_drop_ok fuel lib st1 qd (served_queue u nqd peer q) u (li_range _ _ _ _ _ Hl) (moved_queue _ _ _ _ _) Hu) as Hd.
    replace (moved qd _ _ _ st1) with (served qd u nqd fd peer q os' st) in Hd by (unfold st1, served; by rewrite moved_moved).
    exists os'. split; [|done]. cbn [any_loop]. unfold fbind. erewrite (proj2 (any_visit_returns _ _ _ _ _ _ _ _ _ _ _)); [done|].
    do 2 eexists. split; [lia|]. split; [done|]. split; [apply tok_nonzero; [apply Hl|done]|]. split; [exact Hp1|].
    split; [exact Hd|]. done.
  - destruct (se_nobody _ _ _ _ _ _ _ _ Hs k (st_os st) Hb) as (naddr & os1 & H1 & Hb1).
    pose proof (poll_again qd lfd c busy u nqd q _ (my_env st) Hl Ha Hu Hq Hnq EAGAIN naddr os1 qr H1 eq_refl) as Hp.
    set (q1 := trying_queue u nqd q) in *. set (qr1 := mk_qresult DMTR_OPC_INVALID qd (tok qd u) (qr_value qr)) in *.
    destruct (IH n q1 (moved qd q1 (st_heap st) os1 st) qr1) as (os' & Hloop & Haft); try done.
    + by apply trying_listener.
    + by apply trying_accepting.
    + apply lookup_insert_eq.
    + unfold my_queues. cbn. by rewrite lookup_insert_ne.
    + lia.
    + exists os'. split; [|done]. cbn [any_loop]. unfold fbind. erewrite any_visit_again; [|reflexivity|apply tok_nonzero; [apply Hl|done]|].
      2: { eapply (dmtr_poll_again _ _ _ _ _ qr1); [apply Hl|exact Hu|exact Hq|reflexivity|]. cbn [q_poll posix_vtable]. unfold dispatch.
           change (e_queues (my_env st)) with (my_queues st). rewrite Hq. exact Hp. }
      etransitivity; [exact Hloop|]. do 2 f_equal. by apply served_moved.
Qed.

(** ** [bind] and [listen] *)
Section opening.
Context (lfd fd : Z) (addr : list Z) (peer : sockaddr_in) (fresh bound before : nat -> OS -> Prop) (after : OS -> Prop).
Context (Hs : serves lfd fd addr peer fresh bound before after) (Hlfd : 0 <= lfd).

(** A call of a method that returns 0, through the exported functions. *)
Lemma method_ok (c : vcall) st qd q e' :
  0 < qd < 256 -> my_queues st !! qd = Some (PxObj q) -> px_vcall fuel qd c (my_env st) = Ok 0 e' ->
  q_call (fun p => q_vcall (Queue := vt) p c) (Some qd) st = Ok (inl 0) (set_my_env e' st).
Proof.
  intros Hqd Hq Hc. eapply q_call_ok; [exact Hq|]. cbn [q_vcall posix_vtable]. unfold dispatch.
  change (e_queues (my_env st)) with (my_queues st). by rewrite Hq.
Qed.

Lemma serve_bind st qd q n :
  0 < qd < 256 -> my_queues st !! qd = Some (PxObj q) -> my_fd q = lfd -> fresh n (st_os st) ->
  exists os', dmtr_bind (HQ := vt) lib qd (Some addr) 16 (WithApi st) = Ok 0 (WithApi (moved qd q (st_heap st) os' st)) /\ bound n os'.
Proof.
  intros Hqd Hq Hfd Hb. destruct (se_setsockopt _ _ _ _ _ _ _ _ Hs SOL_SOCKET SO_REUSEADDR n _ Hb) as (e1 & os1 & H1 & B1).
  destruct (se_bind _ _ _ _ _ _ _ _ Hs n _ B1) as (e2 & os2 & H2 & B2). exists os2. split; [|done].
  assert (Hm : px_bind qd (Some addr) 16 (my_env st) = Ok 0 (with_queue qd q (with_world (my_env st) (st_heap st) os2))).
  { apply wp_eq. unfold px_bind. post_simp. eapply post_px_get; [exact Hq|]. rewrite Hfd, (proj2 (Z.eqb_neq _ _)) by lia. cbn [negb]. post_simp.
    change (w_os (e_world (my_env st))) with (st_os st). rewrite H1. cbn [fst snd]. unfold check_call. change (0 =? 0) with true. cbn iota. post_simp. cbn [w_os e_world with_world set_e_world].
    rewrite H2. cbn [fst snd]. change (0 =? 0) with true. cbn iota. post_simp. split; [done|]. symmetry. by apply with_queue_same. }
  unfold dmtr_bind, body. erewrite (fbind_Ok _ _ (inl 0)); [reflexivity|]. erewrite sbind_Ok by reflexivity. apply api_call_Ok.
  apply wp_eq. unfold bind. post_simp. rewrite (proj2 (Z.eqb_neq qd 0)) by lia. cbn [negb]. do 2 post_simp.
  eapply post_eq; [eapply get_queue_eq; [lia|exact Hq]|]. change (fst (0, Some qd) =? 0) with true. cbn [snd]. post_simp.
  eapply post_eq; [eapply method_ok; [exact Hqd|exact Hq|exact Hm]|]. cbn iota. post_simp. change (0 =? 0) with true. cbn iota. by post_simp.
Qed.

Definition listening_queue q : posix_queue := set_px_accept_thread (idle PxAcceptIdle) (set_my_listening_flag true q).
Lemma accept_ctor qd q e :
  e_queues e !! qd = Some (PxObj q) -> 0 <= my_fd q -> my_listening_flag q = true -> my_tcp_flag q = true ->
  user_thread_ctor (px_accept_step fuel qd) fuel PxAcceptStart e = Ok (mk_user_thread EAGAIN [] (Some PxAcceptIdle)) e.
Proof.
  intros Hq Hfd Hli Ht.
  assert (Hgood : px_good q = true) by (apply Z.gtb_lt; lia).
  assert (H1 : px_accept_step fuel qd PxAcceptStart [] e = Ok ([], Continue PxAcceptLoop) e).
  { unfold px_accept_step, in_thread, fbind at 1. rewrite (px_get_bind _ _ _ _ Hq). by rewrite Hgood, Hli, Ht. }
  assert (H2 : px_accept_step fuel qd PxAcceptLoop [] e = Ok ([], Continue PxAcceptIdle) e).
  { unfold px_accept_step, in_thread, fbind at 1. rewrite (px_get_bind _ _ _ _ Hq). by rewrite Hgood. }
  assert (Hrun : forall m, run (px_accept_step fuel qd) (S (S (S m))) EAGAIN PxAcceptStart [] e = Ok (mk_user_thread EAGAIN [] (Some PxAcceptIdle)) e).
  { intros m. cbn [run]. unfold fbind. rewrite H1. cbn iota beta. by rewrite H2. }
  unfold user_thread_ctor. rewrite <- (Hrun (fuel - 3)%nat). by replace (S (S (S (fuel - 3)))) with fuel by lia.
Qed.

Lemma serve_listen st qd q n backlog :
  0 < qd < 256 -> my_queues st !! qd = Some (PxObj q) -> my_fd q = lfd -> my_tcp_flag q = true -> bound n (st_os st) ->
  exists os', dmtr_listen (HQ := vt) lib qd backlog (WithApi st) = Ok 0 (WithApi (moved qd (listening_queue q) (st_heap st) os' st)) /\
    before n os'.
Proof.
  intros Hqd Hq Hfd Ht Hb. destruct (se_listen _ _ _ _ _ _ _ _ Hs backlog n _ Hb) as (e1 & os1 & H1 & B1).
  destruct (se_fcntl _ _ _ _ _ _ _ _ Hs F_GETFL 0 n _ B1) as (fl & e2 & os2 & H2 & N2 & B2).
  destruct (se_fcntl _ _ _ _ _ _ _ _ Hs F_SETFL (Z.lor fl O_NONBLOCK) n _ B2) as (r3 & e3 & os3 & H3 & N3 & B3). exists os3. split; [|done].
  set (q1 := set_my_listening_flag true q).
  assert (Hm : px_listen fuel qd backlog (my_env st) = Ok 0 (with_queue qd (listening_queue q) (with_world (my_env st) (st_heap st) os3))).
  { apply wp_eq. unfold px_listen. post_simp. eapply post_px_get; [exact Hq|]. rewrite Hfd, (proj2 (Z.eqb_neq _ _)) by lia. cbn [negb]. post_simp.
    change (w_os (e_world (my_env st))) with (st_os st). rewrite H1. cbn [fst snd]. unfold check_call. change (0 =? 0) with true. cbn iota. post_simp.
    eapply post_px_modify; [exact Hq|]. unfold set_non_blocking, io_set_non_blocking. post_simp.
    cbn [w_os e_world with_world with_queue set_e_queues set_e_world]. rewrite H2. cbn [fst snd]. rewrite (proj2 (Z.eqb_neq _ _) N2). post_simp.
    cbn [w_os e_world with_world with_queue set_e_queues set_e_world]. rewrite H3. cbn [fst snd]. rewrite (proj2 (Z.eqb_neq _ _) N3). post_simp.
    change (0 =? 0) with true. cbn iota. unfold start_threads. post_simp.
    eapply (post_px_get _ _ q1); [apply lookup_insert_eq|]. change (my_listening_flag q1) with true. cbn iota. post_simp.
    eapply post_eq; [apply (accept_ctor qd q1); [apply lookup_insert_eq|cbn; lia|done|done]|]. cbn beta. rewrite post_fbind.
    eapply post_px_modify; [apply lookup_insert_eq|]. post_simp. split; [done|].
    unfold with_queue, with_world, set_e_queues, set_e_world, st_heap. cbn. by rewrite !insert_insert_eq. }
  unfold dmtr_listen, body. erewrite (fbind_Ok _ _ (inl 0)); [reflexivity|]. erewrite sbind_Ok by reflexivity. apply api_call_Ok.
  apply wp_eq. unfold listen. post_simp. rewrite (proj2 (Z.eqb_neq qd 0)) by lia. cbn [negb]. do 2 post_simp.
  eapply post_eq; [eapply get_queue_eq; [lia|exact Hq]|]. change (fst (0, Some qd) =? 0) with true. cbn [snd]. post_simp.
  eapply post_eq; [eapply method_ok; [exact Hqd|exact Hq|exact Hm]|]. cbn iota. post_simp. change (0 =? 0) with true. cbn iota. by post_simp.
Qed.
End opening.
End serve.
