(* ===== verification/Checksum.v ===== *)
(** * The checksum of IPv4 headers: [ip_sum] of [lwip/lwip_queue.cc]

    [ip_sum] adds 16-bit words in a 32-bit accumulator, folding it when its top
    bit is set, and folds the rest at the end.  It is compared with the
    definition of the Internet checksum (RFC 1071): the complement of the
    one's-complement sum of the words. *)
From S2P Require Import Prelude Cmd.
Open Scope cmd_scope.

(** [(sum & 0xFFFF) + (sum >> 16)] *)
Definition ip_fold (sum : Z) : Z := u32 (Z.land sum 0xFFFF + Z.shiftr sum 16).

(** [while (hdr_len > 1)]: the words are those that [hdr] points at; one more
    than there are is a read outside the header. *)
Fixpoint ip_sum_loop (hdr : list Z) (hdr_len sum : Z) : option Z :=
  if negb (hdr_len >? 1) then Some sum
  else match hdr with
       | [] => None
       | w :: hdr' =>
           let sum := u32 (sum + w) in
           let sum := if negb (Z.land sum 0x80000000 =? 0) then ip_fold sum else sum in
           ip_sum_loop hdr' (hdr_len - 2) sum
       end.

(** [while (sum >> 16)], with the number of iterations allowed. *)
Fixpoint ip_fold_loop (fuel : nat) (sum : Z) : option Z :=
  if Z.shiftr sum 16 =? 0 then Some sum
  else match fuel with
       | O => None
       | Datatypes.S fuel' => ip_fold_loop fuel' (ip_fold sum)
       end.
Definition ip_fold_fuel : nat := 2.

(** [hdr] is [None] for a null pointer; the sum is a [uint16_t]. *)
Definition ip_sum {S} (hdr : option (list Z)) (hdr_len : Z) : fn S (Z * option Z) := body_out None (
  DMTR_NOTNULL EINVAL hdr ;;
  words <- need hdr ;
  sum <- need (ip_sum_loop words hdr_len 0) ;
  match ip_fold_loop ip_fold_fuel sum with
  | None => fun _ => NoFuel
  | Some sum => normal (Some (u16 (Z.lnot sum)))
  end).

(** ** The Internet checksum *)

(** One's-complement addition of 16-bit words: the carry is added back. *)
Definition ones_add (a b : Z) : Z := (a + b) mod 65536 + (a + b) / 65536.
Definition ones_sum (words : list Z) : Z := fold_left ones_add words 0.
Definition internet_checksum (words : list Z) : Z := 65535 - ones_sum words.

Definition is_u16 (w : Z) : Prop := 0 <= w < 65536.

(** The representative of [n] that one's-complement sums compute: 0 only for 0,
    else between 1 and 65535. *)
Definition ones_rep (n : Z) : Z := if n =? 0 then 0 else (n - 1) mod 65535 + 1.

Lemma ones_rep_range n : is_u16 (ones_rep n).
Proof.
  unfold is_u16, ones_rep. destruct (n =? 0); [lia|]. pose proof (Z.mod_pos_bound (n - 1) 65535). lia.
Qed.
Lemma ones_rep_id n : is_u16 n -> ones_rep n = n.
Proof.
  unfold is_u16, ones_rep. intros Hn. destruct (n =? 0) eqn:E; zbool; [done|].
  rewrite Z.mod_small by lia. lia.
Qed.
(** It does not change when 65535s move. *)
Lemma ones_rep_shift n k : 0 < n -> 0 < n + k * 65535 -> ones_rep (n + k * 65535) = ones_rep n.
Proof.
  intros Hn Hk. unfold ones_rep.
  rewrite (proj2 (Z.eqb_neq n 0)), (proj2 (Z.eqb_neq _ 0)) by lia.
  replace (n + k * 65535 - 1) with (n - 1 + k * 65535) by lia. by rewrite Z.mod_add by lia.
Qed.
(** Folding is a shift by 65535s. *)
Lemma fold_val s : Z.land s 0xFFFF + Z.shiftr s 16 = s + (- (s / 65536)) * 65535.
Proof.
  change (Z.land s 0xFFFF) with (Z.land s (Z.ones 16)). rewrite Z.land_ones, Z.shiftr_div_pow2 by lia.
  change (2 ^ 16) with 65536. pose proof (Z.div_mod s 65536). lia.
Qed.
Lemma ip_fold_val s : 0 <= s < 2 ^ 32 -> ip_fold s = s + (- (s / 65536)) * 65535.
Proof.
  intros Hs. unfold ip_fold. rewrite fold_val. apply wrap_small. change (2 ^ 32) with 4294967296 in *.
  pose proof (Z.div_mod s 65536). pose proof (Z.mod_pos_bound s 65536).
  pose proof (Z.div_pos s 65536). lia.
Qed.
Lemma ip_fold_rep s : 0 <= s < 2 ^ 32 -> ones_rep (ip_fold s) = ones_rep s.
Proof.
  intros Hs. rewrite ip_fold_val by done. destruct (decide (s = 0)) as [->|]; [done|].
  pose proof (Z.div_mod s 65536). pose proof (Z.mod_pos_bound s 65536). pose proof (Z.div_pos s 65536).
  apply ones_rep_shift; lia.
Qed.
Lemma ones_add_rep a b : 0 <= a -> is_u16 b -> ones_add (ones_rep a) b = ones_rep (a + b).
Proof.
  intros Ha Hb. pose proof (ones_rep_range a) as Hr. unfold is_u16 in *.
  assert (Ho : forall x y, 0 <= x < 65536 -> 0 <= y < 65536 -> ones_add x y = ones_rep (x + y)).
  { clear. intros x y Hx Hy. unfold ones_add.
    rewrite <- (ones_rep_id ((x + y) mod 65536 + (x + y) / 65536)).
    - replace ((x + y) mod 65536 + (x + y) / 65536) with (x + y + (- ((x + y) / 65536)) * 65535)
        by (pose proof (Z.div_mod (x + y) 65536); lia).
      destruct (decide (x + y = 0)) as [->|]; [done|].
      pose proof (Z.div_mod (x + y) 65536). pose proof (Z.mod_pos_bound (x + y) 65536).
      pose proof (Z.div_pos (x + y) 65536). apply ones_rep_shift; lia.
    - unfold is_u16. Z.div_mod_to_equations. lia. }
  rewrite Ho by done. unfold ones_rep at 2. destruct (a =? 0) eqn:E; zbool; [by subst|].
  pose proof (Z.div_mod (a - 1) 65535). pose proof (Z.mod_pos_bound (a - 1) 65535).
  replace ((a - 1) mod 65535 + 1 + b) with (a + b + (- ((a - 1) / 65535)) * 65535) by lia.
  apply ones_rep_shift; lia.
Qed.

(** The sum so far, exactly, represents the one's-complement sum. *)
Lemma ones_sum_rep words a :
  Forall is_u16 words -> 0 <= a -> fold_left ones_add words (ones_rep a) = ones_rep (a + foldr Z.add 0 words).
Proof.
  intros Hw. revert a. induction Hw as [|w words Hw Hws IH]; intros a Ha; cbn; [by rewrite Z.add_0_r|].
  rewrite ones_add_rep by done. unfold is_u16 in Hw. rewrite IH by lia. f_equal. lia.
Qed.

Lemma top_bit s : 0 <= s < 2 ^ 32 -> (Z.land s 0x80000000 =? 0) = (s <? 2 ^ 31).
Proof.
  intros Hs. assert (E : Z.land s 0x80000000 = if s <? 2 ^ 31 then 0 else 2 ^ 31).
  { change 0x80000000 with (2 ^ 31). apply Z.bits_inj'. intros n Hn. rewrite Z.land_spec, Z.pow2_bits_eqb by lia.
    destruct (Z.eqb_spec 31 n) as [<-|Hne].
    - rewrite andb_true_r, Z.testbit_eqb by lia. destruct (Z.ltb_spec s (2 ^ 31)).
      + rewrite Z.div_small by lia. by rewrite Z.bits_0.
      + rewrite Z.pow2_bits_eqb by lia. rewrite Z.eqb_refl.
        assert (s / 2 ^ 31 = 1) as ->; [|done].
        symmetry. apply (Z.div_unique s (2 ^ 31) 1 (s - 2 ^ 31)); [|lia]. left. change (2 ^ 31) with 2147483648 in *.
        change (2 ^ 32) with 4294967296 in *. lia.
    - rewrite andb_false_r. destruct (s <? 2 ^ 31); [by rewrite Z.bits_0|].
      rewrite Z.pow2_bits_eqb by lia. by rewrite (proj2 (Z.eqb_neq 31 n)). }
  rewrite E. by destruct (s <? 2 ^ 31).
Qed.

(** The accumulator stays below [2 ^ 31] and represents the sum. *)
Lemma ip_sum_loop_rep words s a :
  Forall is_u16 words -> 0 <= s < 2 ^ 31 -> 0 <= a -> ones_rep s = ones_rep a ->
  exists s', ip_sum_loop words (2 * Z.of_nat (length words)) s = Some s' /\ 0 <= s' < 2 ^ 31 /\
    ones_rep s' = ones_rep (a + foldr Z.add 0 words).
Proof.
  intros Hw. revert s a. induction Hw as [|w words Hw Hws IH]; intros s a Hs Ha Hr.
  { exists s. cbn [length foldr]. by rewrite Z.add_0_r. }
  cbn [ip_sum_loop length foldr].
  destruct (_ >? 1) eqn:E; rewrite Z.gtb_ltb in E; zbool; [|lia]. cbn [negb].
  replace (2 * Z.of_nat (Datatypes.S (length words)) - 2) with (2 * Z.of_nat (length words)) by lia.
  unfold is_u16 in Hw. change (2 ^ 31) with 2147483648 in *.
  rewrite (wrap_small 32) by (change (2 ^ 32) with 4294967296; lia).
  assert (Hsum : ones_rep (s + w) = ones_rep (a + w)) by (rewrite <- (ones_add_rep s), <- (ones_add_rep a) by (done || lia); by rewrite Hr).
  rewrite top_bit by (change (2 ^ 32) with 4294967296; lia). change (2 ^ 31) with 2147483648.
  destruct (s + w <? 2147483648) eqn:Et; zbool; cbn [negb].
  - rewrite Z.add_assoc. apply IH; [lia|lia|done].
  - rewrite Z.add_assoc. apply IH; [|lia|].
    + rewrite ip_fold_val by (change (2 ^ 32) with 4294967296; lia).
      pose proof (Z.div_mod (s + w) 65536). pose proof (Z.mod_pos_bound (s + w) 65536). lia.
    + rewrite ip_fold_rep by (change (2 ^ 32) with 4294967296; lia). done.
Qed.

(** Two folds bring any accumulator into 16 bits. *)
Lemma ip_fold_loop_rep s : 0 <= s < 2 ^ 32 -> ip_fold_loop ip_fold_fuel s = Some (ones_rep s).
Proof.
  assert (Hd : forall x, 0 <= x -> (Z.shiftr x 16 =? 0) = (x <? 65536)).
  { intros x Hx. rewrite Z.shiftr_div_pow2 by lia. change (2 ^ 16) with 65536.
    destruct (Z.ltb_spec x 65536); [by rewrite Z.div_small by lia|].
    apply Z.eqb_neq. assert (1 <= x / 65536) by (apply Z.div_le_lower_bound; lia). lia. }
  intros Hs. change (2 ^ 32) with 4294967296 in Hs.
  assert (Hf : forall x, 65536 <= x < 4294967296 -> 0 <= ip_fold x /\ ip_fold x < 65536 + x / 65536 /\ ones_rep (ip_fold x) = ones_rep x).
  { intros x Hx. split; [|split]; [| |apply ip_fold_rep; change (2 ^ 32) with 4294967296; lia].
    all: rewrite ip_fold_val by (change (2 ^ 32) with 4294967296; lia).
    all: pose proof (Z.div_mod x 65536); pose proof (Z.mod_pos_bound x 65536); lia. }
  unfold ip_fold_fuel. cbn [ip_fold_loop]. rewrite Hd by lia. destruct (s <? 65536) eqn:E1; zbool.
  { rewrite ones_rep_id; [done|]. unfold is_u16. lia. }
  destruct (Hf s) as (H1 & H2 & H3); [lia|].
  assert (Hq : s / 65536 < 65536) by (apply Z.div_lt_upper_bound; lia).
  rewrite Hd by lia. destruct (ip_fold s <? 65536) eqn:E2; zbool.
  { rewrite <- H3, ones_rep_id; [done|]. unfold is_u16. lia. }
  destruct (Hf (ip_fold s)) as (H4 & H5 & H6); [lia|].
  assert (Hq2 : ip_fold s / 65536 < 2) by (apply Z.div_lt_upper_bound; lia).
  assert (H7 : ip_fold (ip_fold s) < 65536).
  { rewrite ip_fold_val by (change (2 ^ 32) with 4294967296; lia).
    pose proof (Z.div_mod (ip_fold s) 65536). pose proof (Z.mod_pos_bound (ip_fold s) 65536).
    assert (ip_fold s / 65536 = 1) by (assert (1 <= ip_fold s / 65536) by (apply Z.div_le_lower_bound; lia); lia). lia. }
  rewrite Hd, (proj2 (Z.ltb_lt _ _)) by lia.
  rewrite <- H3, <- H6, ones_rep_id; [done|]. unfold is_u16. lia.
Qed.

Lemma ones_sum_val words : Forall is_u16 words -> ones_sum words = ones_rep (foldr Z.add 0 words).
Proof. intros Hw. unfold ones_sum. change 0 with (ones_rep 0) at 1. by rewrite ones_sum_rep by done. Qed.
Lemma sum_nonneg words : Forall is_u16 words -> 0 <= foldr Z.add 0 words.
Proof. induction 1 as [|w words Hw Hws IH]; cbn; unfold is_u16 in *; lia. Qed.
Lemma sum_middle xs w ys : foldr Z.add 0 (xs ++ [w] ++ ys) = w + foldr Z.add 0 (xs ++ ys).
Proof. induction xs as [|x xs IH]; cbn in *; lia. Qed.
Lemma middle_u16 xs w ys : Forall is_u16 xs -> is_u16 w -> Forall is_u16 ys -> Forall is_u16 (xs ++ [w] ++ ys).
Proof. intros. repeat (apply Forall_app; split); eauto. Qed.

Lemma ip_sum_eq {S} words (s : S) :
  Forall is_u16 words ->
  ip_sum (Some words) (2 * Z.of_nat (length words)) s = Ok (0, Some (internet_checksum words)) s.
Proof.
  intros Hw. destruct (ip_sum_loop_rep words 0 0 Hw) as (s' & Hl & Hs' & Hr); [done|done|done|].
  unfold ip_sum, body_out, sbind, fbind, DMTR_NOTNULL, DMTR_TRUE, need, normal, fret. rewrite Hl.
  rewrite ip_fold_loop_rep by (change (2 ^ 31) with 2147483648 in *; change (2 ^ 32) with 4294967296; lia).
  unfold internet_checksum. rewrite ones_sum_val by done. rewrite Hr, Z.add_0_l.
  do 4 f_equal. pose proof (ones_rep_range (foldr Z.add 0 words)) as Hrange. unfold is_u16 in Hrange.
  unfold Z.lnot, wrap. change (2 ^ 16) with 65536.
  symmetry. apply (Z.mod_unique _ 65536 (-1)); lia.
Qed.
Lemma internet_checksum_range words : Forall is_u16 words -> is_u16 (internet_checksum words).
Proof.
  intros Hw. unfold internet_checksum, ones_sum. change 0 with (ones_rep 0) at 1.
  rewrite ones_sum_rep by done. pose proof (ones_rep_range (0 + foldr Z.add 0 words)). unfold is_u16 in *. lia.
Qed.

(** A header checks when its words add up to a multiple of 65535 other than 0. *)
Lemma ip_sum_checks {S} words (s : S) :
  Forall is_u16 words ->
  (ip_sum (Some words) (2 * Z.of_nat (length words)) s = Ok (0, Some 0) s <->
   foldr Z.add 0 words <> 0 /\ foldr Z.add 0 words mod 65535 = 0).
Proof.
  intros Hw. rewrite ip_sum_eq by done. unfold internet_checksum. rewrite ones_sum_val by done.
  pose proof (sum_nonneg _ Hw). set (n := foldr Z.add 0 words) in *.
  assert (E : (65535 - ones_rep n = 0) <-> n <> 0 /\ n mod 65535 = 0).
  { unfold ones_rep. destruct (n =? 0) eqn:E; zbool; [lia|].
    pose proof (Z.div_mod (n - 1) 65535). pose proof (Z.mod_pos_bound (n - 1) 65535). split.
    - intros Hz. split; [done|]. replace n with ((n - 1) / 65535 * 65535 + 65535) by lia.
      replace ((n - 1) / 65535 * 65535 + 65535) with (((n - 1) / 65535 + 1) * 65535) by lia. by apply Z_mod_mult.
    - intros [_ Hm]. apply Z.mod_divide in Hm as [k Hk]; [|lia].
      rewrite Hk in *. assert ((k * 65535 - 1) mod 65535 = 65534); [|lia].
      symmetry. apply (Z.mod_unique _ _ (k - 1)); lia. }
  split; [intros [= Hz]; by apply E|]. intros Hz. by rewrite (proj2 E).
Qed.

(** The checksum in its field makes a header check. *)
Lemma checksum_checks {S} xs ys (s : S) :
  Forall is_u16 xs -> Forall is_u16 ys ->
  let hdr := xs ++ [internet_checksum (xs ++ [0] ++ ys)] ++ ys in
  ip_sum (Some hdr) (2 * Z.of_nat (length hdr)) s = Ok (0, Some 0) s.
Proof.
  intros Hx Hy. cbn zeta.
  assert (H0 : Forall is_u16 (xs ++ [0] ++ ys)) by (apply middle_u16; [done|by unfold is_u16; lia|done]).
  pose proof (internet_checksum_range _ H0) as Hc. apply ip_sum_checks; [by apply middle_u16|].
  rewrite sum_middle. unfold internet_checksum in *. rewrite ones_sum_val, sum_middle, Z.add_0_l in * by done.
  pose proof (sum_nonneg (xs ++ ys) (proj2 (Forall_app _ _ _) (conj Hx Hy))) as Hn.
  set (n := foldr Z.add 0 (xs ++ ys)) in *. unfold ones_rep, is_u16 in *. destruct (n =? 0) eqn:E; zbool.
  - rewrite E. split; [lia|done].
  - pose proof (Z.div_mod (n - 1) 65535). pose proof (Z.mod_pos_bound (n - 1) 65535).
    split; [lia|]. replace (65535 - ((n - 1) mod 65535 + 1) + n) with ((1 + (n - 1) / 65535) * 65535) by lia.
    by apply Z_mod_mult.
Qed.

(** C28: [ip_sum] computes the Internet checksum of a header of any length, in
    two final folds at most; a null header is refused.  The checksum put in a
    field that was 0 makes the header check: its own sum is 0, which is the
    receiver's test.  Of two headers that check and differ in one word, that
    word is 0 in one and 0xFFFF in the other: any other change is detected. *)
Theorem ip_sum_correct {S} (words xs ys : list Z) v w (s : S) :
  Forall is_u16 words -> Forall is_u16 xs -> Forall is_u16 ys -> is_u16 v -> is_u16 w ->
  let checks hdr := ip_sum (Some hdr) (2 * Z.of_nat (length hdr)) s = Ok (0, Some 0) s in
  ip_sum None (2 * Z.of_nat (length words)) s = Ok (EINVAL, None) s /\
  ip_sum (Some words) (2 * Z.of_nat (length words)) s = Ok (0, Some (internet_checksum words)) s /\
  checks (xs ++ [internet_checksum (xs ++ [0] ++ ys)] ++ ys) /\
  (checks (xs ++ [w] ++ ys) -> checks (xs ++ [v] ++ ys) -> v = w \/ (v, w) = (0, 65535) \/ (v, w) = (65535, 0)).
Proof.
  intros Hw Hx Hy Hv Hw'. cbn zeta. split; [done|]. split; [by apply ip_sum_eq|]. split.
  - by apply checksum_checks.
  - rewrite !ip_sum_checks by (by apply middle_u16). rewrite !sum_middle. intros [_ H1] [_ H2].
    apply Z.mod_divide in H1 as [k1 H1]; [|lia]. apply Z.mod_divide in H2 as [k2 H2]; [|lia].
    unfold is_u16 in *. assert (v - w = (k2 - k1) * 65535) by lia.
    destruct (decide (k1 = k2)); [left; lia|]. right. destruct (decide (k1 < k2)); [right|left]; f_equal; nia.
Qed.

(** A header of an IPv4 packet, with a carry in the last fold. *)
Lemma ip_sum_correct_witness :
  ip_sum (Some [0x45; 0xFFFF; 0; 0x4011; 0; 0xA8C0; 0x100]) 14 tt = Ok (0, Some 0x15E9) tt /\
  ip_sum (Some ([0x45; 0xFFFF; 0] ++ [internet_checksum ([0x45; 0xFFFF; 0] ++ [0] ++ [0xA8C0])] ++ [0xA8C0])) 10 tt = Ok (0, Some 0) tt.
Proof.
  assert (Hu : forall l, forallb (fun w => (0 <=? w) && (w <? 65536)) l = true -> Forall is_u16 l).
  { intros l Hl. apply Forall_forall. intros x Hx. apply list_elem_of_In in Hx. rewrite forallb_forall in Hl. apply Hl in Hx.
    unfold is_u16. zbool. lia. }
  split; [reflexivity|].
  refine (proj1 (proj2 (proj2 (ip_sum_correct [] [0x45; 0xFFFF; 0] [0xA8C0] 0 0 tt _ _ _ _ _))));
    first [apply Hu; reflexivity|unfold is_u16; lia].
Defined.
