(* ===== verification/LwipOs.v ===== *)
(** * DPDK, the static members of [lwip_queue] and their initialisation

    [lwip/lwip_queue.cc], the part that no queue object owns: the address
    tables, the wrappers around DPDK and the initialisation of the device.

    DPDK is not part of the source: it is a state [D] with one operation per
    library function, and so are the command line, the configuration file and
    the file system that initialisation looks at, [inet_pton], and what a
    variable that is not initialised contains. *)
From Stdlib Require Import String Ascii.
From S2P Require Import Prelude Cmd Types Cast Memory IoQueue.
Open Scope cmd_scope.

Record rte_eth_link := mk_link { link_speed : Z; link_duplex : Z; link_status : Z }.
Record rte_eth_conf := mk_eth_conf { max_rx_pkt_len : Z; tx_mq_mode : Z }.
Record rte_eth_rxconf := mk_rxconf { rx_pthresh : Z; rx_hthresh : Z; rx_wthresh : Z; rx_free_thresh : Z }.
Record rte_eth_txconf := mk_txconf { tx_pthresh : Z; tx_hthresh : Z; tx_wthresh : Z }.
Record rte_eth_fc_conf := mk_fc_conf { fc_mode : Z }.

(** The nodes of the configuration file that are used: [dpdk.eal_init] if it is
    a sequence, [lwip.known_hosts] if it is a map, in its order, and
    [catnip.my_ipv4_addr] if it is a scalar. *)
Record lwip_config := mk_lwip_config {
  cf_eal_init : option (list string);
  cf_known_hosts : option (list (string * string));
  cf_my_ipv4_addr : option string
}.

(** Packets are named by the address of their [rte_mbuf], hardware addresses
    are six bytes, errors negative as DPDK has them. *)
Class Dpdk (D : Type) := {
  (** the path given by [--config-path] or its default; [None]: [--help] *)
  dpdk_config_path : list string -> D -> option string;
  dpdk_access_R_OK : string -> D -> Z;
  dpdk_yaml_load : string -> D -> lwip_config;
  inet_pton : string -> option Z;
  (** result and [rte_errno] *)
  d_eal_init : list string -> D -> Z * Z * D;
  d_eth_dev_count_avail : D -> Z;
  (** [RTE_ETH_FOREACH_DEV] *)
  d_eth_devs : D -> list Z;
  d_socket_id : D -> Z;
  (** name, number, cache size, private size, data room size and socket; the
      pool and [rte_errno] *)
  d_pktmbuf_pool_create : string -> Z -> Z -> Z -> Z -> Z -> D -> Z * Z * D;
  d_eth_dev_is_valid_port : Z -> D -> bool;
  d_eth_dev_set_mtu : Z -> Z -> D -> Z * D;
  d_eth_dev_get_mtu : Z -> D -> Z * D;
  d_eth_dev_info_get : Z -> D -> D;
  d_eth_dev_configure : Z -> Z -> Z -> rte_eth_conf -> D -> Z * D;
  d_eth_dev_socket_id : Z -> D -> Z;
  (** port, queue, descriptors, socket, configuration and pool *)
  d_eth_rx_queue_setup : Z -> Z -> Z -> Z -> rte_eth_rxconf -> Z -> D -> Z * D;
  d_eth_tx_queue_setup : Z -> Z -> Z -> Z -> rte_eth_txconf -> D -> Z * D;
  d_eth_dev_start : Z -> D -> Z * D;
  d_eth_promiscuous_enable : Z -> D -> D;
  d_eth_dev_flow_ctrl_get : Z -> D -> Z * rte_eth_fc_conf * D;
  d_eth_dev_flow_ctrl_set : Z -> rte_eth_fc_conf -> D -> Z * D;
  d_eth_link_get_nowait : Z -> D -> rte_eth_link * D;
  d_delay_ms : Z -> D -> D;
  d_eth_macaddr_get : Z -> D -> list Z;
  (** port, queue and the number of packets at most; the packets received *)
  d_eth_rx_burst : Z -> Z -> Z -> heap -> D -> list Z * heap * D;
  (** port, queue and packets; the number of packets taken *)
  d_eth_tx_burst : Z -> Z -> list Z -> heap -> D -> Z * heap * D;
  d_pktmbuf_alloc : Z -> heap -> D -> Z * heap * D;
  d_pktmbuf_free : Z -> heap -> D -> heap * D;
  (** [rte_pktmbuf_mtod]: where the data of a packet starts *)
  d_pktmbuf_mtod : Z -> D -> Z;
  (** assigning [data_len], [pkt_len] and [nb_segs] of a packet *)
  d_mbuf_set_len : Z -> Z -> Z -> Z -> D -> D;
  (** the values that [src], [dst] and [sga] of [service_incoming_packets]
      happen to have *)
  uninitialised : D -> (sockaddr_in * sockaddr_in * dmtr_sgarray) * D
}.

(** Constants of the headers. *)
Definition ETH_LINK_UP : Z := 1.
Definition ETH_MQ_TX_NONE : Z := 0.
Definition RTE_ETHER_MAX_LEN : Z := 1518.
Definition RTE_MBUF_DEFAULT_BUF_SIZE : Z := 2176.
Definition RTE_PKTMBUF_HEADROOM : Z := 128.
Definition NUM_MBUFS : Z := 8191.
Definition MBUF_CACHE_SIZE : Z := 250.
Definition RX_RING_SIZE : Z := 2048.
Definition TX_RING_SIZE : Z := 2048.
Definition RX_PACKET_LEN : Z := RTE_ETHER_MAX_LEN.
Definition MBUF_BUF_SIZE : Z := RTE_MBUF_DEFAULT_BUF_SIZE + RTE_PKTMBUF_HEADROOM.
Definition our_max_queue_depth : Z := 1024.
Definition ether_broadcast : list Z := [0xff; 0xff; 0xff; 0xff; 0xff; 0xff].
Definition rte_is_same_ether_addr (a b : list Z) : bool := bool_decide (a = b).

(** ** The static members

    A [std::queue<dmtr_sgarray_t>] is an object of its own, named by its
    address; besides its elements it has the number of elements popped, since
    a deque releases the storage of its elements node by node: a node holds
    512 bytes and an array takes 48. *)
Record std_queue := mk_std_queue { dq_elems : list dmtr_sgarray; dq_popped : Z }.
Definition DEQUE_NODE : Z := 10.
Definition std_queue_new : std_queue := mk_std_queue [] 0.
Definition std_queue_push (a : dmtr_sgarray) (q : std_queue) : std_queue := mk_std_queue (dq_elems q ++ [a]) (dq_popped q).
Definition std_queue_pop (q : std_queue) : std_queue := mk_std_queue (tail (dq_elems q)) (dq_popped q + 1).
(** Popping the front element also releases its storage. *)
Definition pop_releases (q : std_queue) : bool := (dq_popped q + 1) mod DEQUE_NODE =? 0.

(** A pointer to a [sockaddr_in] that only [my_bound_src] reaches: the block's
    address and the structure in it.  A pointer that was freed dangles. *)
Inductive saddr_ptr :=
| SaddrNull
| SaddrAt (p : Z) (a : sockaddr_in)
| SaddrFreed.

Record lworld (D : Type) := mk_lworld {
  lw_heap : heap;
  lw_dev : D;
  lw_recv_store : gmap Z std_queue;
  lw_next_queue : Z;
  our_mbuf_pool : Z;
  our_dpdk_init_flag : bool;
  our_dpdk_port_id : option Z;
  our_recv_queues : gmap sockaddr_in Z;
  our_mac_to_ip_table : gmap (list Z) Z;
  our_ip_to_mac_table : gmap Z (list Z);
  my_bound_src : saddr_ptr;
  default_src : option sockaddr_in;
  in_packets : Z;
  out_packets : Z;
  invalid_packets : Z;
  poll_count : Z
}.
Arguments mk_lworld {D}.
Arguments lw_heap {D}.
Arguments lw_dev {D}.
Arguments lw_recv_store {D}.
Arguments lw_next_queue {D}.
Arguments our_mbuf_pool {D}.
Arguments our_dpdk_init_flag {D}.
Arguments our_dpdk_port_id {D}.
Arguments our_recv_queues {D}.
Arguments our_mac_to_ip_table {D}.
Arguments our_ip_to_mac_table {D}.
Arguments my_bound_src {D}.
Arguments default_src {D}.
Arguments in_packets {D}.
Arguments out_packets {D}.
Arguments invalid_packets {D}.
Arguments poll_count {D}.

Section lworld.
Context {D : Type}.
Implicit Types (w : lworld D).
Definition set_lw_mem (h : heap) (d : D) w : lworld D := mk_lworld h d (lw_recv_store w) (lw_next_queue w) (our_mbuf_pool w) (our_dpdk_init_flag w) (our_dpdk_port_id w) (our_recv_queues w) (our_mac_to_ip_table w) (our_ip_to_mac_table w) (my_bound_src w) (default_src w) (in_packets w) (out_packets w) (invalid_packets w) (poll_count w).
Definition set_recv_store (m : gmap Z std_queue) (n : Z) w : lworld D := mk_lworld (lw_heap w) (lw_dev w) m n (our_mbuf_pool w) (our_dpdk_init_flag w) (our_dpdk_port_id w) (our_recv_queues w) (our_mac_to_ip_table w) (our_ip_to_mac_table w) (my_bound_src w) (default_src w) (in_packets w) (out_packets w) (invalid_packets w) (poll_count w).
Definition set_dpdk_ready (port pool : Z) w : lworld D := mk_lworld (lw_heap w) (lw_dev w) (lw_recv_store w) (lw_next_queue w) pool true (Some port) (our_recv_queues w) (our_mac_to_ip_table w) (our_ip_to_mac_table w) (my_bound_src w) (default_src w) (in_packets w) (out_packets w) (invalid_packets w) (poll_count w).
Definition set_our_recv_queues (m : gmap sockaddr_in Z) w : lworld D := mk_lworld (lw_heap w) (lw_dev w) (lw_recv_store w) (lw_next_queue w) (our_mbuf_pool w) (our_dpdk_init_flag w) (our_dpdk_port_id w) m (our_mac_to_ip_table w) (our_ip_to_mac_table w) (my_bound_src w) (default_src w) (in_packets w) (out_packets w) (invalid_packets w) (poll_count w).
Definition set_tables (m : gmap (list Z) Z) (i : gmap Z (list Z)) w : lworld D := mk_lworld (lw_heap w) (lw_dev w) (lw_recv_store w) (lw_next_queue w) (our_mbuf_pool w) (our_dpdk_init_flag w) (our_dpdk_port_id w) (our_recv_queues w) m i (my_bound_src w) (default_src w) (in_packets w) (out_packets w) (invalid_packets w) (poll_count w).
Definition set_my_bound_src (p : saddr_ptr) w : lworld D := mk_lworld (lw_heap w) (lw_dev w) (lw_recv_store w) (lw_next_queue w) (our_mbuf_pool w) (our_dpdk_init_flag w) (our_dpdk_port_id w) (our_recv_queues w) (our_mac_to_ip_table w) (our_ip_to_mac_table w) p (default_src w) (in_packets w) (out_packets w) (invalid_packets w) (poll_count w).
Definition set_default_src (a : sockaddr_in) w : lworld D := mk_lworld (lw_heap w) (lw_dev w) (lw_recv_store w) (lw_next_queue w) (our_mbuf_pool w) (our_dpdk_init_flag w) (our_dpdk_port_id w) (our_recv_queues w) (our_mac_to_ip_table w) (our_ip_to_mac_table w) (my_bound_src w) (Some a) (in_packets w) (out_packets w) (invalid_packets w) (poll_count w).
Definition set_counters (i o v : Z) w : lworld D := mk_lworld (lw_heap w) (lw_dev w) (lw_recv_store w) (lw_next_queue w) (our_mbuf_pool w) (our_dpdk_init_flag w) (our_dpdk_port_id w) (our_recv_queues w) (our_mac_to_ip_table w) (our_ip_to_mac_table w) (my_bound_src w) (default_src w) i o v (poll_count w).
Definition set_poll_count (n : Z) w : lworld D := mk_lworld (lw_heap w) (lw_dev w) (lw_recv_store w) (lw_next_queue w) (our_mbuf_pool w) (our_dpdk_init_flag w) (our_dpdk_port_id w) (our_recv_queues w) (our_mac_to_ip_table w) (our_ip_to_mac_table w) (my_bound_src w) (default_src w) (in_packets w) (out_packets w) (invalid_packets w) n.

(** The statics as the program starts. *)
Definition lworld_start (h : heap) (d : D) : lworld D :=
  mk_lworld h d ∅ 1 0 false None ∅ ∅ ∅ SaddrNull None 0 0 0 0.
End lworld.

(** ** Addresses *)
Section lwip_statics.
Context {D : Type} `{DP : Dpdk D}.
Abbreviation W := (lworld D).

(** A library call that does not look at memory, and one that does. *)
Definition dev {A} (f : D -> A * D) : fn W A := fun w =>
  let '(a, d) := f (lw_dev w) in Ok a (set_lw_mem (lw_heap w) d w).
Definition dev_mem {A} (f : heap -> D -> A * heap * D) : fn W A := fun w =>
  let '(a, h, d) := f (lw_heap w) (lw_dev w) in Ok a (set_lw_mem h d w).
Definition dev_do (f : D -> D) : fn W unit := dev (fun d => (tt, f d)).
Definition lw_on_heap {A} (m : fn heap A) : fn W A := zoom lw_heap (fun h w => set_lw_mem h (lw_dev w) w) m.
Definition valid_port (port_id : Z) : stmt W unit :=
  w <- get ;
  DMTR_TRUE ERANGE (d_eth_dev_is_valid_port port_id (lw_dev w)).

Definition ip_to_mac (ip : Z) : fn W (Z * list Z) := body_out [] (
  w <- get ;
  let it := our_ip_to_mac_table w !! ip in
  DMTR_TRUE ENOENT (bool_decide (is_Some it)) ;;
  need it).

Definition mac_to_ip (mac : list Z) : fn W (Z * Z) := body_out 0 (
  w <- get ;
  let it := our_mac_to_ip_table w !! mac in
  DMTR_TRUE ENOENT (bool_decide (is_Some it)) ;;
  need it).

Definition learn_addrs (mac : list Z) (ip : Z) : fn W Z := body (
  DMTR_TRUE EINVAL (negb (rte_is_same_ether_addr mac ether_broadcast)) ;;
  w <- get ;
  DMTR_TRUE EEXIST (bool_decide (our_mac_to_ip_table w !! mac = None)) ;;
  DMTR_TRUE EEXIST (bool_decide (our_ip_to_mac_table w !! ip = None)) ;;
  modify (fun w => set_tables (<[mac := ip]> (our_mac_to_ip_table w)) (our_ip_to_mac_table w) w) ;;
  modify (fun w => set_tables (our_mac_to_ip_table w) (<[ip := mac]> (our_ip_to_mac_table w)) w) ;;
  normal 0).

(** *** [sscanf(s, "%2x:%2x:%2x:%2x:%2x:%2x%*c", ...)] *)
Definition is_space (c : ascii) : bool :=
  let n := Z.of_nat (nat_of_ascii c) in (n =? 32) || (9 <=? n) && (n <=? 13).
Definition hex_digit (c : ascii) : option Z :=
  let n := Z.of_nat (nat_of_ascii c) in
  if (48 <=? n) && (n <=? 57) then Some (n - 48)
  else if (97 <=? n) && (n <=? 102) then Some (n - 87)
  else if (65 <=? n) && (n <=? 70) then Some (n - 55)
  else None.
Fixpoint skip_space (s : string) : string :=
  match s with
  | String c s' => if is_space c then skip_space s' else s
  | EmptyString => EmptyString
  end.
(** [%2x]: white space is skipped; the item is a number of [strtoul] in base 16,
    sign and [0x] included, in two characters at most.  The value is converted
    to [unsigned int]. *)
Definition scan_2x (s : string) : option (Z * string) :=
  match skip_space s with
  | EmptyString => None
  | String c s' =>
      let second := match s' with String c' s'' => Some (c', s'') | EmptyString => None end in
      if Ascii.eqb c "+" || Ascii.eqb c "-" then
        match second with
        | Some (c', s'') =>
            match hex_digit c' with
            | Some v => Some (u32 (if Ascii.eqb c "-" then - v else v), s'')
            | None => None
            end
        | None => None
        end
      else match hex_digit c with
           | None => None
           | Some v =>
               match second with
               | None => Some (v, EmptyString)
               | Some (c', s'') =>
                   if (v =? 0) && (Ascii.eqb c' "x" || Ascii.eqb c' "X") then None
                   else match hex_digit c' with
                        | Some v' => Some (16 * v + v', s'')
                        | None => Some (v, s')
                        end
               end
           end
  end.
(** [n] conversions with colons between them; the values converted before the
    first that fails. *)
Fixpoint scan_hexes (n : nat) (s : string) : list Z :=
  match n with
  | O => []
  | Datatypes.S n' =>
      match scan_2x s with
      | None => []
      | Some (v, s') =>
          v :: match s' with
               | String c s'' => if Ascii.eqb c ":" then scan_hexes n' s'' else []
               | EmptyString => []
               end
      end
  end.

(** The loop that converts the values to bytes. *)
Fixpoint mac_bytes (values : list Z) : stmt W (list Z) :=
  match values with
  | [] => normal []
  | v :: values' =>
      b <- DMTR_OK_out (fret (dmtr_utou8 (Some 0) v)) ;
      b <- need b ;
      bs <- mac_bytes values' ;
      normal (b :: bs)
  end.
Definition parse_ether_addr (s : option string) : fn W (Z * list Z) := body_out [] (
  DMTR_NOTNULL EINVAL s ;;
  s <- need s ;
  let values := scan_hexes 6 s in
  if negb (Z.of_nat (List.length values) =? 6) then return_ EINVAL
  else mac_bytes values).

(** The overload of [learn_addrs] on strings. *)
Definition learn_addrs_str (mac_s ip_s : option string) : fn W Z := body (
  DMTR_NOTNULL EINVAL mac_s ;;
  DMTR_NOTNULL EINVAL ip_s ;;
  mac <- DMTR_OK_out (parse_ether_addr mac_s) ;
  ip_s <- need ip_s ;
  match inet_pton ip_s with
  | None => DMTR_FAIL EINVAL
  | Some ip =>
      DMTR_OK (learn_addrs mac ip) ;;
      normal 0
  end).

(** ** The wrappers around DPDK

    Those with an output parameter set it to [dflt] first. *)
Definition rte_eth_macaddr_get (port_id : Z) : fn W (Z * list Z) := body_out [] (
  valid_port port_id ;;
  w <- get ;
  normal (d_eth_macaddr_get port_id (lw_dev w))).

(** [rx_pkts] says that the array is not null; the packets put in it. *)
Definition rte_eth_rx_burst (port_id queue_id : Z) (rx_pkts : option unit) (nb_pkts : Z) : fn W (Z * list Z) := body_out [] (
  w <- get ;
  DMTR_TRUE EPERM (our_dpdk_init_flag w) ;;
  valid_port port_id ;;
  DMTR_NOTNULL EINVAL rx_pkts ;;
  pkts <- call (dev_mem (d_eth_rx_burst port_id queue_id nb_pkts)) ;
  if Z.of_nat (List.length pkts) =? 0 then return_ EAGAIN
  else normal pkts).

Definition rte_eth_tx_burst (port_id queue_id : Z) (tx_pkts : option (list Z)) : fn W (Z * Z) := body_out 0 (
  w <- get ;
  DMTR_TRUE EPERM (our_dpdk_init_flag w) ;;
  valid_port port_id ;;
  DMTR_NOTNULL EINVAL tx_pkts ;;
  pkts <- need tx_pkts ;
  count <- call (dev_mem (d_eth_tx_burst port_id queue_id pkts)) ;
  if count =? 0 then return_ EAGAIN
  else
    modify (fun w => set_counters (in_packets w) (u64 (out_packets w + count)) (invalid_packets w) w) ;;
    normal count).

Definition rte_pktmbuf_alloc (mp : Z) : fn W (Z * Z) := body_out 0 (
  DMTR_TRUE EINVAL (negb (mp =? 0)) ;;
  w <- get ;
  DMTR_TRUE EPERM (our_dpdk_init_flag w) ;;
  pkt <- call (dev_mem (d_pktmbuf_alloc mp)) ;
  DMTR_TRUE ENOMEM (negb (pkt =? 0)) ;;
  normal pkt).

(** [argv]: [None] for a null pointer; its entries are not null. *)
Definition rte_eal_init (argc : Z) (argv : option (list string)) : fn W (Z * Z) := body_out (-1) (
  DMTR_NOTNULL EINVAL argv ;;
  argv <- need argv ;
  DMTR_TRUE ERANGE (argc >=? 0) ;;
  ' (ret, rte_errno) <- call (dev (d_eal_init argv)) ;
  if ret =? -1 then return_ rte_errno
  else if ret <? -1 then DMTR_UNREACHABLE
  else normal ret).

Definition rte_pktmbuf_pool_create (name : string) (n cache_size priv_size data_room_size socket_id : Z) : fn W (Z * Z) := body_out 0 (
  ' (ret, rte_errno) <- call (dev (d_pktmbuf_pool_create name n cache_size priv_size data_room_size socket_id)) ;
  if ret =? 0 then return_ rte_errno else normal ret).

Definition rte_eth_dev_info_get (port_id : Z) : fn W Z := body (
  valid_port port_id ;;
  call (dev_do (d_eth_dev_info_get port_id)) ;;
  normal 0).

(** The answer of a call that is 0 or negative: as it is, or negated. *)
Definition not_positive (ret : Z) : stmt W Z := if 0 >=? ret then normal ret else DMTR_UNREACHABLE.
Definition negated (ret : Z) : stmt W Z :=
  if ret =? 0 then normal 0 else if ret <? 0 then normal (0 - ret) else DMTR_UNREACHABLE.

Definition rte_eth_dev_configure (port_id nb_rx_queue nb_tx_queue : Z) (eth_conf : rte_eth_conf) : fn W Z := body (
  valid_port port_id ;;
  ret <- call (dev (d_eth_dev_configure port_id nb_rx_queue nb_tx_queue eth_conf)) ;
  not_positive ret).

Definition rte_eth_rx_queue_setup (port_id rx_queue_id nb_rx_desc socket_id : Z) (rx_conf : rte_eth_rxconf) (mb_pool : Z) : fn W Z := body (
  valid_port port_id ;;
  ret <- call (dev (d_eth_rx_queue_setup port_id rx_queue_id nb_rx_desc socket_id rx_conf mb_pool)) ;
  negated ret).

Definition rte_eth_tx_queue_setup (port_id tx_queue_id nb_tx_desc socket_id : Z) (tx_conf : rte_eth_txconf) : fn W Z := body (
  valid_port port_id ;;
  ret <- call (dev (d_eth_tx_queue_setup port_id tx_queue_id nb_tx_desc socket_id tx_conf)) ;
  negated ret).

Definition rte_eth_dev_socket_id (port_id : Z) : fn W (Z * Z) := body_out 0 (
  w <- get ;
  let ret := d_eth_dev_socket_id port_id (lw_dev w) in
  if ret =? -1 then return_ ERANGE
  else if 0 <=? ret then normal ret
  else DMTR_UNREACHABLE).

Definition rte_eth_dev_start (port_id : Z) : fn W Z := body (
  valid_port port_id ;;
  ret <- call (dev (d_eth_dev_start port_id)) ;
  not_positive ret).

Definition rte_eth_promiscuous_enable (port_id : Z) : fn W Z := body (
  valid_port port_id ;;
  call (dev_do (d_eth_promiscuous_enable port_id)) ;;
  normal 0).

Definition rte_eth_dev_flow_ctrl_get (port_id : Z) : fn W (Z * rte_eth_fc_conf) := fun w =>
  match (valid_port port_id ;; call (dev (fun d => let '(ret, fc, d) := d_eth_dev_flow_ctrl_get port_id d in ((ret, fc), d)))) w with
  | Ok (inr e) w => Ok (e, mk_fc_conf 0) w
  | Ok (inl (ret, fc)) w => fbind (body (negated ret)) (fun e => fret (e, fc)) w
  | Panic => Panic
  | Undef => Undef
  | NoFuel => NoFuel
  end.

Definition rte_eth_dev_flow_ctrl_set (port_id : Z) (fc_conf : rte_eth_fc_conf) : fn W Z := body (
  valid_port port_id ;;
  ret <- call (dev (d_eth_dev_flow_ctrl_set port_id fc_conf)) ;
  negated ret).

Definition rte_eth_link_get_nowait (port_id : Z) : fn W (Z * rte_eth_link) := body_out (mk_link 0 0 0) (
  valid_port port_id ;;
  call (dev (d_eth_link_get_nowait port_id))).

(** ** The link

    [f] says that the stream is not null; what is printed is not modelled. *)
Definition print_link_status (f : option unit) (port_id : Z) (link : option rte_eth_link) : fn W Z := body (
  DMTR_NOTNULL EINVAL f ;;
  valid_port port_id ;;
  _ <- match link with
       | None => DMTR_OK_out (rte_eth_link_get_nowait port_id)
       | Some link => normal link
       end ;
  normal 0).

Definition sleep_duration_ms : Z := 100.
Definition retry_count : nat := 90.
(** The loop, with [n] tries left; [link] is the last status read. *)
Fixpoint link_loop (n : nat) (port_id : Z) (link : rte_eth_link) : stmt W Z :=
  match n with
  | O =>
      DMTR_OK (print_link_status (Some tt) port_id (Some link)) ;;
      normal ECONNREFUSED
  | Datatypes.S n' =>
      link <- DMTR_OK_out (rte_eth_link_get_nowait port_id) ;
      if link_status link =? ETH_LINK_UP then
        DMTR_OK (print_link_status (Some tt) port_id (Some link)) ;;
        return_ 0
      else
        call (dev_do (d_delay_ms sleep_duration_ms)) ;;
        link_loop n' port_id link
  end.
Definition wait_for_link_status_up (port_id : Z) : fn W Z := body (
  valid_port port_id ;;
  link_loop retry_count port_id (mk_link 0 0 0)).

(** ** Initialisation *)
Fixpoint for_each (xs : list Z) (f : Z -> stmt W unit) : stmt W unit :=
  match xs with
  | [] => normal tt
  | x :: xs' => f x ;; for_each xs' f
  end.

Definition init_dpdk_port (port_id mbuf_pool : Z) : fn W Z := body (
  valid_port port_id ;;
  DMTR_OK (rte_eth_dev_info_get port_id) ;;
  DMTR_OK (dev (d_eth_dev_set_mtu port_id RX_PACKET_LEN)) ;;
  DMTR_OK (dev (d_eth_dev_get_mtu port_id)) ;;
  let port_conf := mk_eth_conf RX_PACKET_LEN ETH_MQ_TX_NONE in
  let rx_conf := mk_rxconf 8 8 0 32 in
  let tx_conf := mk_txconf 0 0 0 in
  DMTR_OK (rte_eth_dev_configure port_id 1 1 port_conf) ;;
  ' (ret, socket_id) <- call (rte_eth_dev_socket_id port_id) ;
  let socket_id := if negb (ret =? 0) then 0 else socket_id in
  for_each [0] (fun i => DMTR_OK (rte_eth_rx_queue_setup port_id i RX_RING_SIZE socket_id rx_conf mbuf_pool)) ;;
  for_each [0] (fun i => DMTR_OK (rte_eth_tx_queue_setup port_id i TX_RING_SIZE socket_id tx_conf)) ;;
  DMTR_OK (rte_eth_dev_start port_id) ;;
  DMTR_OK (wait_for_link_status_up port_id) ;;
  normal 0).

Fixpoint learn_hosts (hosts : list (string * string)) : stmt W unit :=
  match hosts with
  | [] => normal tt
  | (mac, ip) :: hosts' =>
      DMTR_OK (learn_addrs_str (Some mac) (Some ip)) ;;
      learn_hosts hosts'
  end.

Definition finish_dpdk_init (config : lwip_config) : fn W Z := body (
  match cf_known_hosts config with Some hosts => learn_hosts hosts | None => normal tt end ;;
  w <- get ;
  let nb_ports := u16 (d_eth_dev_count_avail (lw_dev w)) in
  DMTR_TRUE ENOENT (nb_ports >? 0) ;;
  mbuf_pool <- DMTR_OK_out (rte_pktmbuf_pool_create "default_mbuf_pool" (NUM_MBUFS * nb_ports) MBUF_CACHE_SIZE 0 MBUF_BUF_SIZE (d_socket_id (lw_dev w))) ;
  w <- get ;
  let ports := d_eth_devs (lw_dev w) in
  for_each ports (fun i => DMTR_OK (init_dpdk_port i mbuf_pool)) ;;
  modify (set_dpdk_ready (List.last ports 0) mbuf_pool) ;;
  match cf_my_ipv4_addr config with
  | None => normal 0
  | Some ipv4_addr =>
      match inet_pton ipv4_addr with
      | None => return_ EINVAL
      | Some in_addr => modify (set_default_src (mk_sockaddr_in 0 0 in_addr 0)) ;; normal 0
      end
  end).

(** [argv] is [None] for a null pointer.  The data pointer of an empty vector
    is null. *)
Definition init_dpdk (argc : Z) (argv : option (list string)) : fn W Z := body (
  DMTR_TRUE ERANGE (argc >=? 0) ;;
  (if argc >? 0 then DMTR_NOTNULL EINVAL argv else normal tt) ;;
  w <- get ;
  DMTR_TRUE EPERM (negb (our_dpdk_init_flag w)) ;;
  match dpdk_config_path (default [] argv) (lw_dev w) with
  | None => return_ 0
  | Some config_path =>
      if dpdk_access_R_OK config_path (lw_dev w) =? -1 then return_ ENOENT
      else
        let config := dpdk_yaml_load config_path (lw_dev w) in
        let init_args := default [] (cf_eal_init config) in
        _ <- DMTR_OK_out (rte_eal_init (Z.of_nat (List.length init_args)) (if bool_decide (init_args = []) then None else Some init_args)) ;
        r <- call (finish_dpdk_init config) ;
        normal r
  end).
End lwip_statics.
