(* ===== verification/LwipArp.v ===== *)
(** * The address tables of DPDK queues

    [our_mac_to_ip_table] and [our_ip_to_mac_table] of [lwip/lwip_queue.cc] are
    two views of one injective association of hardware addresses with IP
    addresses, whatever is learnt and through the whole initialisation. *)
From Stdlib Require Import String Ascii.
From S2P Require Import Prelude Cmd Types Cast Memory Contents IoQueue LwipOs.

Definition is_mac (mac : list Z) : Prop := List.length mac = 6%nat /\ Forall is_byte mac.

(** How a hardware address is written, as [rte_ether_format_addr] does. *)
Definition hex_char (v : Z) : ascii := ascii_of_nat (Z.to_nat (if v <? 10 then 48 + v else 55 + v)).
Fixpoint ether_format (mac : list Z) : string :=
  match mac with
  | [] => EmptyString
  | [b] => String (hex_char (b / 16)) (String (hex_char (b mod 16)) EmptyString)
  | b :: mac' => String (hex_char (b / 16)) (String (hex_char (b mod 16)) (String ":" (ether_format mac')))
  end.

Lemma hex_char_ok v : 0 <= v < 16 ->
  is_space (hex_char v) = false /\ hex_digit (hex_char v) = Some v /\
  Ascii.eqb (hex_char v) "+" = false /\ Ascii.eqb (hex_char v) "-" = false /\
  Ascii.eqb (hex_char v) "x" = false /\ Ascii.eqb (hex_char v) "X" = false.
Proof.
  intros Hv. assert (Hin : v ∈ [0;1;2;3;4;5;6;7;8;9;10;11;12;13;14;15]).
  { rewrite !elem_of_cons. lia. }
  rewrite !elem_of_cons, elem_of_nil in Hin.
  repeat destruct Hin as [->|Hin]; try (by vm_compute); done.
Qed.
Lemma scan_byte b s : is_byte b -> scan_2x (String (hex_char (b / 16)) (String (hex_char (b mod 16)) s)) = Some (b, s).
Proof.
  unfold is_byte. intros Hb.
  destruct (hex_char_ok (b / 16)) as (Hs & Hd & Hp & Hm & _); [split; [apply Z.div_pos|apply Z.div_lt_upper_bound]; lia|].
  destruct (hex_char_ok (b mod 16)) as (_ & Hd' & _ & _ & Hx & HX); [by apply Z.mod_pos_bound|].
  unfold scan_2x. cbn [skip_space]. rewrite Hs. cbn iota. rewrite Hp, Hm, Hd, Hx, HX. cbn [orb]. rewrite andb_false_r, Hd'.
  f_equal. f_equal. rewrite (Z.div_mod b 16) at 3 by lia. lia.
Qed.
Lemma scan_format mac : Forall is_byte mac -> scan_hexes (List.length mac) (ether_format mac) = mac.
Proof.
  induction 1 as [|b mac Hb Hmac IH]; [done|]. destruct mac as [|b' mac'].
  - cbn [ether_format List.length scan_hexes]. by rewrite scan_byte.
  - cbn [ether_format List.length scan_hexes] in *. rewrite scan_byte by done. cbn iota.
    change (Ascii.eqb ":" ":") with true. cbn iota. f_equal. exact IH.
Qed.

Section arp.
Context {D : Type} `{DP : Dpdk D}.
Abbreviation W := (lworld D).
Implicit Types (w : W).

Lemma utou8_ok v : 0 <= v < 2 ^ 32 ->
  dmtr_utou8 (Some 0) v = if v <? 256 then (0, Some v) else (ERANGE, Some 0).
Proof.
  intros Hv. unfold dmtr_utou8. rewrite cast_matching_ok; [|done|done|unfold in_ctype, cmin, cmax; cbn; lia].
  unfold cast_spec, cast_body. assert (E : in_ctype c_uchar v = (v <? 256)); [|rewrite E; by destruct (v <? 256)].
  unfold in_ctype, cmin, cmax, c_uchar, ct_signed, ct_width. change (2 ^ 8 - 1) with 255.
  rewrite (proj2 (Z.leb_le 0 v)) by lia. destruct (v <? 256) eqn:E; zbool; cbn [andb]; [by rewrite (proj2 (Z.leb_le v 255)) by lia|].
  by rewrite (proj2 (Z.leb_gt v 255)) by lia.
Qed.
Lemma mac_bytes_id mac w : Forall is_byte mac -> mac_bytes mac w = Ok (inl mac) w.
Proof.
  induction 1 as [|b mac Hb Hmac IH]; [done|]. cbn [mac_bytes]. unfold is_byte in Hb.
  rewrite utou8_ok by (change (2 ^ 32) with 4294967296; lia). rewrite (proj2 (Z.ltb_lt b 256)) by lia.
  unfold sbind at 1, DMTR_OK_out, fbind, fret. cbn. unfold sbind, fbind. by rewrite IH.
Qed.
Lemma mac_bytes_byte vs w : wlp (mac_bytes vs) (fun r w' => w' = w /\
  match r with inl mac => List.length mac = List.length vs /\ Forall is_byte mac | inr e => e <> 0 end) w.
Proof.
  revert w. induction vs as [|v vs IH]; intros w; cbn [mac_bytes]; [by rewrite post_normal|].
  rewrite post_sbind, post_DMTR_OK_out, post_fret. unfold dmtr_utou8, cast_body, DMTR_CAST_MATCHING. cbn [fst snd].
  destruct (_ =? v); cbn [fst snd]; [|done]. change (0 =? 0) with true. cbn iota.
  rewrite post_sbind, post_need, post_sbind. eapply post_mono; [apply IH|]. cbn.
  intros [mac|e] w' [-> Hm]; [|done]. split; [done|]. cbn. destruct Hm as [-> Hm]. split; [done|].
  constructor; [|done]. unfold is_byte. pose proof (wrap_range 8 v). change (2 ^ 8) with 256 in *. unfold conv; cbn. lia.
Qed.
(** Parsing gives a hardware address or an error, and leaves the world alone. *)
Lemma parse_ether_addr_mac s w : wlp (parse_ether_addr s) (fun r w' => w' = w /\ (fst r = 0 -> is_mac (snd r))) w.
Proof.
  unfold parse_ether_addr. rewrite post_body_out, post_sbind. unfold DMTR_NOTNULL. rewrite post_DMTR_TRUE.
  destruct s as [s|]; [|done]. rewrite post_sbind, post_need. cbn zeta. destruct (_ =? 6) eqn:E; cbn [negb]; [|done].
  zbool.
  eapply post_mono; [apply mac_bytes_byte|]. cbv beta. intros [mac|e] w' [-> Hm]; cbn [fst snd]; [|done].
  split; [done|]. intros _. split; [|apply Hm]. destruct Hm as [-> _]. lia.
Qed.
Lemma parse_format mac w : is_mac mac -> parse_ether_addr (Some (ether_format mac)) w = Ok (0, mac) w.
Proof.
  intros [Hl Hb]. pose proof (scan_format mac Hb) as Hs. rewrite Hl in Hs.
  unfold parse_ether_addr, body_out, sbind, fbind, DMTR_NOTNULL, DMTR_TRUE, need, normal, fret. rewrite Hs, Hl.
  change (Z.of_nat 6 =? 6) with true. cbn [negb]. by rewrite mac_bytes_id.
Qed.

(** ** The invariant *)
Record tables_ok (w : W) : Prop := {
  tb_inverse : forall mac ip, our_mac_to_ip_table w !! mac = Some ip <-> our_ip_to_mac_table w !! ip = Some mac;
  tb_typed : forall mac ip, our_mac_to_ip_table w !! mac = Some ip -> is_mac mac /\ mac <> ether_broadcast /\ 0 <= ip < 2 ^ 32
}.
Definition keeps_tables (w w' : W) : Prop := tables_ok w -> tables_ok w'.
#[export] Instance keeps_tables_preorder : PreOrder keeps_tables.
Proof. split; [by intros w Hw|]. intros w1 w2 w3 H1 H2 H. by apply H2, H1. Qed.

Definition learnt (mac : list Z) (ip : Z) (w : W) : W :=
  set_tables (<[mac := ip]> (our_mac_to_ip_table w)) (<[ip := mac]> (our_ip_to_mac_table w)) w.
Lemma learnt_ok mac ip w :
  tables_ok w -> is_mac mac -> mac <> ether_broadcast -> 0 <= ip < 2 ^ 32 ->
  our_mac_to_ip_table w !! mac = None -> our_ip_to_mac_table w !! ip = None -> tables_ok (learnt mac ip w).
Proof.
  intros [Hi Ht] Hm Hb Hip' H1 H2. split; intros mac' ip'; cbn [learnt set_tables our_mac_to_ip_table our_ip_to_mac_table];
    destruct (decide (mac = mac')) as [<-|Hmac]; destruct (decide (ip = ip')) as [<-|Hip];
    rewrite ?lookup_insert_eq, ?(lookup_insert_ne (our_mac_to_ip_table w)), ?(lookup_insert_ne (our_ip_to_mac_table w)) by done; try done.
  - split; [congruence|]. intros E. apply Hi in E. congruence.
  - split; [|congruence]. intros E. apply Hi in E. congruence.
  - by intros [= ->].
  - apply Ht.
  - apply Ht.
Qed.
Lemma learn_addrs_eq mac ip w :
  learn_addrs mac ip w =
    if decide (mac = ether_broadcast) then Ok EINVAL w
    else match our_mac_to_ip_table w !! mac, our_ip_to_mac_table w !! ip with
         | None, None => Ok 0 (learnt mac ip w)
         | _, _ => Ok EEXIST w
         end.
Proof.
  unfold learn_addrs, rte_is_same_ether_addr, body, sbind, fbind, get, modify, DMTR_TRUE.
  destruct (decide (mac = ether_broadcast)) as [->|Hne]; [by rewrite bool_decide_eq_true_2|].
  rewrite (bool_decide_eq_false_2 (mac = _)) by done. cbn.
  destruct (our_mac_to_ip_table w !! mac); cbn; [done|]. by destruct (our_ip_to_mac_table w !! ip).
Qed.

(** What learning an association from its two strings does. *)
Lemma learn_addrs_str_spec mac_s ip_s w :
  wlp (learn_addrs_str mac_s ip_s) (fun r w' =>
    (r <> 0 -> w' = w) /\
    (r = 0 -> exists mac s ip, parse_ether_addr mac_s w = Ok (0, mac) w /\ is_mac mac /\ mac <> ether_broadcast /\
       ip_s = Some s /\ inet_pton s = Some ip /\
       our_mac_to_ip_table w !! mac = None /\ our_ip_to_mac_table w !! ip = None /\ w' = learnt mac ip w)) w.
Proof.
  unfold learn_addrs_str. rewrite post_body, post_sbind. destruct mac_s as [ms|]; [|done]. cbn.
  rewrite post_sbind. destruct ip_s as [s|]; [|done]. cbn. rewrite post_sbind, post_DMTR_OK_out.
  pose proof (parse_ether_addr_mac (Some ms) w) as Hp. unfold post in *.
  destruct (parse_ether_addr (Some ms) w) as [[e mac] w1| | |] eqn:Ep; try done. destruct Hp as [-> Hmac]. cbn [fst snd] in *.
  destruct (e =? 0) eqn:E; zbool; [subst e|done]. specialize (Hmac eq_refl). unfold sbind at 1, need, normal, fbind, fret.
  destruct (inet_pton s) as [ip|] eqn:Eip; [|done]. unfold sbind, DMTR_OK, fbind. rewrite learn_addrs_eq.
  destruct (decide (mac = ether_broadcast)); [done|].
  destruct (our_mac_to_ip_table w !! mac) eqn:E1; [done|]. destruct (our_ip_to_mac_table w !! ip) eqn:E2; [done|].
  cbn. split; [done|]. intros _. eauto 12.
Qed.
(** [inet_pton] writes an [in_addr], of 32 bits. *)
Definition inet_pton_typed : Prop := forall s ip, inet_pton s = Some ip -> 0 <= ip < 2 ^ 32.
Lemma keeps_learn_str mac_s ip_s : inet_pton_typed -> keeps keeps_tables (learn_addrs_str mac_s ip_s).
Proof.
  intros Hinet w. eapply post_mono; [apply learn_addrs_str_spec|]. cbn. intros r w' [Hne He] Hok.
  destruct (decide (r = 0)) as [->|Hr]; [|by rewrite Hne].
  destruct (He eq_refl) as (mac & s & ip & _ & Hm & Hb & _ & Hip & H1 & H2 & ->). apply learnt_ok; [done..|by apply (Hinet s)|done|done].
Qed.

(** The rest of the initialisation does not touch the tables. *)
Definition same_tables (w w' : W) : Prop :=
  our_mac_to_ip_table w' = our_mac_to_ip_table w /\ our_ip_to_mac_table w' = our_ip_to_mac_table w.
Lemma same_tables_keeps {A} (m : fn W A) : keeps same_tables m -> keeps keeps_tables m.
Proof.
  intros Hm w. eapply post_mono; [apply Hm|]. cbn. intros _ w' [E1 E2] [Hi Ht].
  split; rewrite E1; [by rewrite E2|done].
Qed.
Lemma keeps_modify_tables f : (forall w, same_tables w (f w)) -> keeps keeps_tables (modify f).
Proof. intros Hf. apply same_tables_keeps. intros w. apply Hf. Qed.
Lemma keeps_dev {A} (f : D -> A * D) : keeps keeps_tables (dev f).
Proof. apply same_tables_keeps. intros w. unfold post, dev. by destruct (f _). Qed.
End arp.

Ltac tables_step :=
  repeat first
  [ keeps_step | apply keeps_dev | apply keeps_learn_str; assumption | apply keeps_modify_tables; done
  | lazymatch goal with |- keeps _ (dev_do _) => unfold dev_do end
  | lazymatch goal with |- keeps _ (valid_port _) => unfold valid_port end
  | lazymatch goal with |- keeps _ (not_positive _) => unfold not_positive end
  | lazymatch goal with |- keeps _ (negated _) => unfold negated end
  | lazymatch goal with |- keeps _ (if ?x then _ else _) => destruct x end
  | lazymatch goal with |- keeps _ (match ?x with _ => _ end) => destruct x end ].

Section init.
Context {D : Type} `{DP : Dpdk D}.
Abbreviation W := (lworld D).

Lemma keeps_for_each (R : W -> W -> Prop) `{!PreOrder R} xs f : (forall x, keeps R (f x)) -> keeps R (for_each xs f).
Proof. intros Hf. induction xs as [|x xs IH]; cbn [for_each]; [by keeps_step|]. keeps_step; [apply Hf|apply IH]. Qed.
Lemma keeps_link n port link : keeps keeps_tables (link_loop n port link).
Proof.
  revert link. induction n as [|n IH]; intros link; cbn [link_loop]; unfold print_link_status, rte_eth_link_get_nowait; tables_step.
  apply IH.
Qed.
Lemma keeps_init_port port pool : keeps keeps_tables (init_dpdk_port port pool).
Proof.
  unfold init_dpdk_port, rte_eth_dev_info_get, rte_eth_dev_configure, rte_eth_dev_socket_id, rte_eth_dev_start,
    rte_eth_rx_queue_setup, rte_eth_tx_queue_setup, wait_for_link_status_up.
  tables_step; try (apply keeps_for_each; [apply _|intros ?]; tables_step). apply keeps_link.
Qed.
Lemma keeps_learn_hosts hosts : inet_pton_typed -> keeps keeps_tables (learn_hosts hosts).
Proof. intros Hinet. induction hosts as [|[mac ip] hosts IH]; cbn [learn_hosts]; tables_step. apply IH. Qed.
Lemma keeps_init_dpdk argc argv : inet_pton_typed -> keeps keeps_tables (init_dpdk argc argv).
Proof.
  intros Hinet. unfold init_dpdk, finish_dpdk_init, rte_eal_init, rte_pktmbuf_pool_create. tables_step; [by apply keeps_learn_hosts|..];
    apply keeps_for_each; try apply _; intros; tables_step; apply keeps_init_port.
Qed.
End init.

(** C29: the address tables.  They are inverse to each other at the start and
    stay so, with hardware addresses of six bytes other than the broadcast address
    and IP addresses of 32 bits (which is what [inet_pton] gives), through the
    initialisation of the library and whatever is learnt; a lookup one way then
    finds exactly what the other way goes back from.  Learning an association
    succeeds exactly when both strings are addresses and neither address is known,
    adds it and nothing else, and otherwise changes nothing; an address in the
    format DPDK prints is read back as it was. *)
Theorem lwip_tables_typed {D} `{DP : Dpdk D} (w : lworld D) (h : heap) (d : D) :
  inet_pton_typed -> tables_ok w ->
  tables_ok (lworld_start h d) /\
  (forall argc argv, wlp (init_dpdk argc argv) (fun _ w' => tables_ok w') w) /\
  (forall mac ip, our_mac_to_ip_table w !! mac = Some ip <-> our_ip_to_mac_table w !! ip = Some mac) /\
  (forall mac ip, our_mac_to_ip_table w !! mac = Some ip -> is_mac mac /\ mac <> ether_broadcast /\ 0 <= ip < 2 ^ 32) /\
  (forall mac ip, ip_to_mac ip w = Ok (0, mac) w <-> mac_to_ip mac w = Ok (0, ip) w) /\
  (forall mac_s ip_s, wlp (learn_addrs_str mac_s ip_s) (fun r w' => tables_ok w' /\
     (r <> 0 -> w' = w) /\
     (r = 0 -> exists mac s ip, parse_ether_addr mac_s w = Ok (0, mac) w /\ ip_s = Some s /\ inet_pton s = Some ip /\
        our_mac_to_ip_table w !! mac = None /\ our_ip_to_mac_table w !! ip = None /\
        our_mac_to_ip_table w' = <[mac := ip]> (our_mac_to_ip_table w) /\
        our_ip_to_mac_table w' = <[ip := mac]> (our_ip_to_mac_table w))) w) /\
  (forall mac s ip, is_mac mac -> mac <> ether_broadcast -> inet_pton s = Some ip ->
     our_mac_to_ip_table w !! mac = None -> our_ip_to_mac_table w !! ip = None ->
     learn_addrs_str (Some (ether_format mac)) (Some s) w = Ok 0 (learnt mac ip w)).
Proof.
  intros Hinet Hok. split; [by split|]. split; [intros argc argv; eapply post_mono; [by apply keeps_init_dpdk|]; auto|].
  split; [apply Hok|]. split; [apply Hok|]. split.
  { intros mac ip. destruct Hok as [Hi _]. specialize (Hi mac ip).
    unfold ip_to_mac, mac_to_ip, body_out, sbind, fbind, get, DMTR_TRUE, need.
    destruct (our_ip_to_mac_table w !! ip) as [m|]; destruct (our_mac_to_ip_table w !! mac) as [i|]; cbn.
    - split; intros [= ->]; [destruct Hi as [_ Hi]|destruct Hi as [Hi _]]; specialize (Hi eq_refl); by injection Hi as ->.
    - split; intros [= ->]. destruct Hi as [_ Hi]. by specialize (Hi eq_refl).
    - split; intros [= ->]. destruct Hi as [Hi _]. by specialize (Hi eq_refl).
    - done. }
  split.
  - intros mac_s ip_s. eapply post_mono; [apply post_and; [apply (keeps_learn_str mac_s ip_s Hinet w)|apply learn_addrs_str_spec]|].
    cbv beta. intros r w' [Hk [Hne He]]. split; [by apply Hk|]. split; [done|]. intros Hr.
    destruct (He Hr) as (mac & s & ip & Hp & _ & _ & Hs & Hip & H1 & H2 & ->). exists mac, s, ip. eauto 10.
  - intros mac s ip Hm Hb Hip H1 H2. unfold learn_addrs_str, body, sbind, fbind, DMTR_NOTNULL, DMTR_TRUE, DMTR_OK_out, DMTR_OK, fbind, need.
    cbn -[ether_format]. rewrite parse_format by done. cbn. rewrite Hip, learn_addrs_eq. rewrite decide_False by done.
    by rewrite H1, H2.
Qed.

(** ** A network card for the witnesses

    One port; a packet is at the address of its [rte_mbuf].  The packets that
    have arrived are in memory already; those sent are kept. *)
Record nic := mk_nic { nic_rx : list Z; nic_tx : list (list Z); nic_len : Z }.
Definition nic_mac : list Z := [2; 0; 0; 0; 0; 1].
#[export] Instance nic_dpdk : Dpdk nic := {|
  dpdk_config_path _ _ := Some "config.yaml"%string;
  dpdk_access_R_OK _ _ := 0;
  dpdk_yaml_load _ _ := mk_lwip_config (Some ["-c"%string]) (Some [("02:00:00:00:00:01", "10.0.0.1"); ("02:00:00:00:00:02", "10.0.0.2")]%string) None;
  inet_pton s := if String.eqb s "10.0.0.1" then Some 0x0100000A else if String.eqb s "10.0.0.2" then Some 0x0200000A else None;
  d_eal_init _ d := (0, 0, d);
  d_eth_dev_count_avail _ := 1;
  d_eth_devs _ := [0];
  d_socket_id _ := 0;
  d_pktmbuf_pool_create _ _ _ _ _ _ d := (4096, 0, d);
  d_eth_dev_is_valid_port p _ := p =? 0;
  d_eth_dev_set_mtu _ _ d := (0, d);
  d_eth_dev_get_mtu _ d := (0, d);
  d_eth_dev_info_get _ d := d;
  d_eth_dev_configure _ _ _ _ d := (0, d);
  d_eth_dev_socket_id _ _ := 0;
  d_eth_rx_queue_setup _ _ _ _ _ _ d := (0, d);
  d_eth_tx_queue_setup _ _ _ _ _ d := (0, d);
  d_eth_dev_start _ d := (0, d);
  d_eth_promiscuous_enable _ d := d;
  d_eth_dev_flow_ctrl_get _ d := (0, mk_fc_conf 0, d);
  d_eth_dev_flow_ctrl_set _ _ d := (0, d);
  d_eth_link_get_nowait _ d := (mk_link 10000 1 1, d);
  d_delay_ms _ d := d;
  d_eth_macaddr_get _ _ := nic_mac;
  d_eth_rx_burst _ _ n h d := (take (Z.to_nat n) (nic_rx d), h, mk_nic (drop (Z.to_nat n) (nic_rx d)) (nic_tx d) (nic_len d));
  d_eth_tx_burst _ _ pkts h d :=
    match pkts with
    | [p] => match load_bytes p (nic_len d) h with
             | Ok bs _ => (1, h, mk_nic (nic_rx d) (nic_tx d ++ [bs]) (nic_len d))
             | _ => (0, h, d)
             end
    | _ => (0, h, d)
    end;
  d_pktmbuf_alloc _ h d := (h_brk h, mk_heap (alloc_cells 256 (h_brk h) (h_cells h)) (h_blocks h) (h_brk h + 256) (h_oom h), d);
  d_pktmbuf_free _ h d := (h, d);
  d_pktmbuf_mtod p _ := p;
  d_mbuf_set_len _ n _ _ d := mk_nic (nic_rx d) (nic_tx d) n;
  uninitialised d := ((sockaddr_zero, sockaddr_zero, sgarray_zero), d)
|}.
Definition demo_lheap : heap := mk_heap ∅ ∅ 4096 (fun _ _ => false).
Definition demo_lworld : lworld nic := lworld_start demo_lheap (mk_nic [] [] 0).

(** Initialisation learns both hosts of the configuration. *)
Definition demo_ready : lworld nic :=
  match init_dpdk 0 None demo_lworld with Ok _ w => w | _ => demo_lworld end.
Example demo_init : init_dpdk 0 None demo_lworld = Ok 0 demo_ready /\ our_dpdk_init_flag demo_ready = true /\
  our_dpdk_port_id demo_ready = Some 0 /\ our_mbuf_pool demo_ready = 4096 /\
  our_mac_to_ip_table demo_ready !! nic_mac = Some 0x0100000A /\
  our_ip_to_mac_table demo_ready !! 0x0200000A = Some [2; 0; 0; 0; 0; 2].
Proof. vm_compute. repeat split. Qed.

Lemma lwip_tables_typed_witness :
  tables_ok demo_lworld /\
  learn_addrs_str (Some "02:00:00:00:00:01"%string) (Some "10.0.0.1"%string) demo_lworld = Ok 0 (learnt nic_mac 0x0100000A demo_lworld).
Proof.
  assert (Hok : tables_ok demo_lworld) by (by split).
  assert (Hinet : inet_pton_typed (D := nic)).
  { intros s ip. cbn [inet_pton nic_dpdk]. destruct (String.eqb s _); [|destruct (String.eqb s _)]; intros [= <-]; done. }
  pose proof (lwip_tables_typed demo_lworld demo_lheap (mk_nic [] [] 0) Hinet Hok) as H.
  split; [exact (proj1 H)|].
  refine (proj2 (proj2 (proj2 (proj2 (proj2 (proj2 H))))) nic_mac "10.0.0.1"%string 0x0100000A _ _ eq_refl eq_refl eq_refl).
  - split; [done|]. unfold nic_mac, is_byte. repeat constructor; lia.
  - done.
Defined.
