(* ===== verification/LwipPacket.v ===== *)
(** * Packets: how [lwip/lwip_queue.cc] builds and parses them

    An array travels as the payload of a UDP datagram: the number of segments
    and each segment after its length, big endian.  The first part of
    [push_thread]'s body builds the packet in the memory of an [rte_mbuf],
    [parse_packet] takes one apart.  Headers are read and written as bytes at
    the offsets of DPDK's structures. *)
From S2P Require Import Prelude Cmd Types Cast Memory Contents IoQueue Checksum LwipOs.
Open Scope cmd_scope.

Definition sizeof_ether_hdr : Z := 14.
Definition sizeof_ipv4_hdr : Z := 20.
Definition sizeof_udp_hdr : Z := 8.
Definition sizeof_sockaddr_in : Z := 16.
Definition RTE_ETHER_TYPE_IPV4 : Z := 0x0800.
Definition IPPROTO_UDP : Z := 17.
Definition IP_DEFTTL : Z := 64.
Definition IP_VHL_DEF : Z := 0x45.

(** [*reinterpret_cast<const struct sockaddr_in *>(saddr)] *)
Definition saddr_of_bytes (bs : list Z) : option sockaddr_in :=
  if Z.of_nat (length bs) <? sizeof_sockaddr_in then None
  else Some (mk_sockaddr_in (u16_of_bytes (take 2 bs)) (u16_of_bytes (take 2 (drop 2 bs)))
               (u32_of_bytes (take 4 (drop 4 bs)))
               (u32_of_bytes (take 4 (drop 8 bs)) + 2 ^ 32 * u32_of_bytes (take 4 (drop 12 bs)))).

(** ** [lwip_addr]: the keys of [our_recv_queues]

    The map orders them by [memcmp] on the whole structure, so that a key is
    the structure; the operators [==] and [!=] are something else. *)
Definition lwip_addr_eq (a b : sockaddr_in) : bool :=
  if (sin_addr a =? INADDR_ANY) || (sin_addr b =? INADDR_ANY) then true
  else (sin_addr a =? sin_addr b) && (sin_port a =? sin_port b).
Definition lwip_addr_ne (a b : sockaddr_in) : bool := negb (lwip_addr_eq a b).

Section lwip_packet.
Context {D : Type} `{DP : Dpdk D}.
Abbreviation W := (lworld D).

(** ** The static helpers *)
Definition is_bound (w : W) : bool := match my_bound_src w with SaddrNull => false | _ => true end.
(** [*my_bound_src] *)
Definition bound_src (w : W) : option sockaddr_in := match my_bound_src w with SaddrAt _ a => Some a | _ => None end.

Definition put (p : Z) (bs : list Z) : stmt W unit := call (lw_on_heap (store_bytes p bs)).
Definition fetch (p n : Z) : stmt W (list Z) := call (lw_on_heap (load_bytes p n)).

(** ** Building a packet *)

(** The loop over the segments, [n] of them being left: where the data ends and
    [total_len], which is 32 bits wide. *)
Fixpoint put_segs (n : Z) (segs : list dmtr_sgaseg) (p total_len : Z) : stmt W (Z * Z) :=
  if n <=? 0 then normal (p, total_len)
  else match segs with
       | [] => undef
       | s :: segs' =>
           let len := sgaseg_len s in
           put p (u32_bytes (htonl len)) ;;
           bs <- fetch (sgaseg_buf s) len ;
           put (p + 4) bs ;;
           put_segs (n - 1) segs' (p + 4 + len) (u32 (u32 (total_len + 4) + len))
       end.

(** The UDP header: ports are in network order. *)
Definition put_udp_hdr (udp_hdr : Z) (saddr : sockaddr_in) (total_len : Z) : stmt W unit :=
  put udp_hdr (repeat 0 8) ;;
  let dst_port := sin_port saddr in
  w <- get ;
  src_port <- (if is_bound w then src <- need (bound_src w) ; normal (sin_port src) else normal dst_port) ;
  udp_len <- DMTR_OK_out (fret (dmtr_u32tou16 (Some 0) (u32 (total_len + sizeof_udp_hdr)))) ;
  udp_len <- need udp_len ;
  put udp_hdr (u16_bytes src_port ++ u16_bytes dst_port ++ u16_bytes (htons udp_len) ++ u16_bytes 0).

(** The bytes of an IPv4 header with a checksum of 0, and the 16-bit words of a
    header. *)
Definition ip_hdr_bytes (ip_len src_ip dst_ip : Z) : list Z :=
  [IP_VHL_DEF; 0] ++ u16_bytes (htons ip_len) ++ u16_bytes 0 ++ u16_bytes 0 ++ [IP_DEFTTL; IPPROTO_UDP] ++
  u16_bytes 0 ++ u32_bytes src_ip ++ u32_bytes dst_ip.
Fixpoint words_of_bytes (bs : list Z) : list Z :=
  match bs with
  | b0 :: b1 :: bs' => u16_of_bytes [b0; b1] :: words_of_bytes bs'
  | _ => []
  end.
Definition put_ip_hdr (eth_hdr ip_hdr : Z) (saddr : sockaddr_in) (total_len : Z) : stmt W unit :=
  put ip_hdr (repeat 0 20) ;;
  ip_len <- DMTR_OK_out (fret (dmtr_u32tou16 (Some 0) (u32 (total_len + sizeof_ipv4_hdr)))) ;
  ip_len <- need ip_len ;
  w <- get ;
  src_ip <- (if is_bound w then src <- need (bound_src w) ; normal (sin_addr src)
             else s_addr <- fetch (eth_hdr + 6) 6 ; DMTR_OK_out (mac_to_ip s_addr)) ;
  put ip_hdr (ip_hdr_bytes ip_len src_ip (sin_addr saddr)) ;;
  hdr <- fetch ip_hdr sizeof_ipv4_hdr ;
  checksum <- DMTR_OK_out (ip_sum (Some (words_of_bytes hdr)) sizeof_ipv4_hdr) ;
  checksum <- need checksum ;
  put (ip_hdr + 10) (u16_bytes checksum).

(** The Ethernet header.  The answer of [rte_eth_macaddr_get] is not checked:
    when it fails the source address stays cleared. *)
Definition put_eth_hdr (eth_hdr port_id : Z) (saddr : sockaddr_in) : stmt W unit :=
  put eth_hdr (repeat 0 14) ;;
  d_addr <- DMTR_OK_out (ip_to_mac (sin_addr saddr)) ;
  ' (ret, s_addr) <- call (rte_eth_macaddr_get port_id) ;
  put eth_hdr (d_addr ++ (if ret =? 0 then s_addr else repeat 0 6) ++ u16_bytes (htons RTE_ETHER_TYPE_IPV4)).

(** The body of [push_thread] from the allocation of the packet to the
    assignment of its lengths. *)
Definition build_packet (port_id : Z) (sga : dmtr_sgarray) (saddr : sockaddr_in) : stmt W Z :=
  w <- get ;
  pkt <- DMTR_OK_out (rte_pktmbuf_alloc (our_mbuf_pool w)) ;
  w <- get ;
  let eth_hdr := d_pktmbuf_mtod pkt (lw_dev w) in
  let ip_hdr := eth_hdr + sizeof_ether_hdr in
  let udp_hdr := ip_hdr + sizeof_ipv4_hdr in
  let p := udp_hdr + sizeof_udp_hdr in
  put p (u32_bytes (htonl (sga_numsegs sga))) ;;
  ' (_, total_len) <- put_segs (sga_numsegs sga) (sga_segs sga) (p + 4) 4 ;
  put_udp_hdr udp_hdr saddr total_len ;;
  let total_len := u32 (total_len + sizeof_udp_hdr) in
  put_ip_hdr eth_hdr ip_hdr saddr total_len ;;
  let total_len := u32 (total_len + sizeof_ipv4_hdr) in
  put_eth_hdr eth_hdr port_id saddr ;;
  let total_len := u32 (total_len + sizeof_ether_hdr) in
  call (dev_do (d_mbuf_set_len pkt (u16 total_len) total_len 1)) ;;
  normal pkt.

(** ** [parse_packet] *)

(** The output parameters. *)
Record parsed := mk_parsed { pk_src : sockaddr_in; pk_dst : sockaddr_in; pk_sga : dmtr_sgarray }.

Definition set_saddr_ip (ip : Z) (a : sockaddr_in) : sockaddr_in := mk_sockaddr_in (sin_family a) (sin_port a) ip (sin_zero a).
Definition set_saddr_udp (port : Z) (a : sockaddr_in) : sockaddr_in := mk_sockaddr_in AF_INET port (sin_addr a) (sin_zero a).

(** The loop over the segments: lengths come from the packet, [sga_segs] is
    filled from its first entry on and [sga_buf] cleared.  An index outside
    [sga_segs] is undefined.  When there is no memory for a segment the function
    is left with that error; what was stored until then is stored. *)
Fixpoint parse_segs (n p sga_buf : Z) (segs : list dmtr_sgaseg) : stmt W (Z * Z * list dmtr_sgaseg) :=
  if n <=? 0 then normal (0, sga_buf, segs)
  else match segs with
       | [] => undef
       | s :: segs' =>
           bs <- fetch p 4 ;
           let seg_len := ntohl (u32_of_bytes bs) in
           ' (ret, buf) <- call (lw_on_heap (dmtr_malloc (Some 0) seg_len)) ;
           if negb (ret =? 0) then normal (ret, sga_buf, mk_sgaseg (sgaseg_buf s) seg_len :: segs')
           else
             buf <- need buf ;
             data <- fetch (p + 4) seg_len ;
             put buf data ;;
             ' (ret, sga_buf, segs') <- parse_segs (n - 1) (p + 4 + seg_len) 0 segs' ;
             normal (ret, sga_buf, mk_sgaseg buf seg_len :: segs')
       end.

(** The payload, once the headers are accepted.  An error is returned as
    [true], before [sga_addr] is assigned. *)
Definition parse_payload (p udp_src_port ipv4_src_addr : Z) (src dst : sockaddr_in) (sga : dmtr_sgarray) : stmt W (bool * parsed) :=
  bs <- fetch p 4 ;
  let numsegs := ntohl (u32_of_bytes bs) in
  ' (ret, buf, segs) <- parse_segs numsegs (p + 4) (sga_buf sga) (sga_segs sga) ;
  let sga_addr :=
    if ret =? 0 then mk_sockaddr_in AF_INET udp_src_port ipv4_src_addr (sin_zero (sga_addr sga)) else sga_addr sga in
  normal (true, mk_parsed src dst (mk_sgarray buf numsegs segs sga_addr)).

(** From the UDP header on. *)
Definition parse_udp (out : parsed) (udp_hdr ipv4_src_addr ipv4_dst_addr : Z) : stmt W (bool * parsed) :=
  let src := set_saddr_ip ipv4_src_addr (pk_src out) in
  let dst := set_saddr_ip ipv4_dst_addr (pk_dst out) in
  let p := udp_hdr + sizeof_udp_hdr in
  bs <- fetch udp_hdr 2 ;
  let udp_src_port := u16_of_bytes bs in
  bs <- fetch (udp_hdr + 2) 2 ;
  let udp_dst_port := u16_of_bytes bs in
  let src := set_saddr_udp udp_src_port src in
  let dst := set_saddr_udp udp_dst_port dst in
  w <- get ;
  if is_bound w then
    bound <- need (bound_src w) ;
    if negb (ipv4_dst_addr =? sin_addr bound) || negb (udp_dst_port =? sin_port bound)
    then normal (false, mk_parsed src dst (pk_sga out))
    else parse_payload p udp_src_port ipv4_src_addr src dst (pk_sga out)
  else parse_payload p udp_src_port ipv4_src_addr src dst (pk_sga out).
(** From the IP header on. *)
Definition parse_ip (out : parsed) (ip_hdr : Z) : stmt W (bool * parsed) :=
  let udp_hdr := ip_hdr + sizeof_ipv4_hdr in
  bs <- fetch (ip_hdr + 12) 4 ;
  let ipv4_src_addr := u32_of_bytes bs in
  bs <- fetch (ip_hdr + 16) 4 ;
  let ipv4_dst_addr := u32_of_bytes bs in
  proto <- fetch (ip_hdr + 9) 1 ;
  if bool_decide (proto <> [IPPROTO_UDP]) then normal (false, out)
  else parse_udp out udp_hdr ipv4_src_addr ipv4_dst_addr.

(** An error of [DMTR_OK] before anything was stored becomes [true]: the
    function returns [bool]. *)
Definition as_bool {A} (out : A) (m : stmt W (bool * A)) : fn W (bool * A) :=
  fbind m (fun r => match r with inl a => fret a | inr e => fret (negb (e =? 0), out) end).

Definition parse_packet (out : parsed) (pkt : Z) : fn W (bool * parsed) := as_bool out (
  w <- get ;
  let eth_hdr := d_pktmbuf_mtod pkt (lw_dev w) in
  let ip_hdr := eth_hdr + sizeof_ether_hdr in
  bs <- fetch (eth_hdr + 12) 2 ;
  let eth_type := ntohs (u16_of_bytes bs) in
  port <- need (our_dpdk_port_id w) ;
  mac_addr <- DMTR_OK_out (rte_eth_macaddr_get port) ;
  d_addr <- fetch eth_hdr 6 ;
  if negb (rte_is_same_ether_addr mac_addr d_addr) && negb (rte_is_same_ether_addr ether_broadcast d_addr) then normal (false, out)
  else if negb (RTE_ETHER_TYPE_IPV4 =? eth_type) then normal (false, out)
  else parse_ip out ip_hdr).
End lwip_packet.
