(* ===== verification/LwipWire.v ===== *)
(** * The frames of DPDK queues

    What [push_thread] puts in a packet for a one-segment array, byte by byte,
    and what [parse_packet] makes of it at the other end. *)
From S2P Require Import Prelude Cmd Types Cast Memory Contents IoQueue Checksum LwipOs LwipPacket LwipArp.

(** ** The format *)
Definition udp_payload (data : list Z) : list Z := be32 1 ++ be32 (len32 data) ++ data.
Definition udp_hdr_bytes (src_port dst_port n : Z) : list Z :=
  u16_bytes src_port ++ u16_bytes dst_port ++ u16_bytes (htons n) ++ u16_bytes 0.
Definition ip_prefix (n : Z) : list Z :=
  [IP_VHL_DEF; 0] ++ u16_bytes (htons n) ++ u16_bytes 0 ++ u16_bytes 0 ++ [IP_DEFTTL; IPPROTO_UDP].
Definition ip_addrs (src_ip dst_ip : Z) : list Z := u32_bytes src_ip ++ u32_bytes dst_ip.
Definition ip_checksum (n src_ip dst_ip : Z) : Z := internet_checksum (words_of_bytes (ip_hdr_bytes n src_ip dst_ip)).
Definition ip_header (n src_ip dst_ip : Z) : list Z :=
  ip_prefix n ++ u16_bytes (ip_checksum n src_ip dst_ip) ++ ip_addrs src_ip dst_ip.
Definition eth_header (d_mac s_mac : list Z) : list Z := d_mac ++ s_mac ++ u16_bytes (htons RTE_ETHER_TYPE_IPV4).
Definition frame (d_mac s_mac : list Z) (src dst : sockaddr_in) (data : list Z) : list Z :=
  eth_header d_mac s_mac ++ ip_header (len32 data + 36) (sin_addr src) (sin_addr dst) ++
  udp_hdr_bytes (sin_port src) (sin_port dst) (len32 data + 16) ++ udp_payload data.

(** An address with a port, in range. *)
Definition saddr_ok (a : sockaddr_in) : Prop := 0 <= sin_port a < 65536 /\ 0 <= sin_addr a < 2 ^ 32.

Lemma len32_be32 x : len32 (be32 x) = 4.
Proof. unfold len32. by rewrite length_be32. Qed.
Lemma len32_u16 x : len32 (u16_bytes x) = 2.
Proof. done. Qed.
Lemma len32_udp s d n : len32 (udp_hdr_bytes s d n) = 8.
Proof. done. Qed.
Lemma len32_prefix n : len32 (ip_prefix n) = 10.
Proof. done. Qed.
Lemma len32_ip n s d : len32 (ip_header n s d) = 20.
Proof. done. Qed.
Lemma len32_eth d s : length d = 6%nat -> length s = 6%nat -> len32 (eth_header d s) = 14.
Proof. intros Hd Hs. unfold len32, eth_header. rewrite !length_app, Hd, Hs. done. Qed.
Lemma len32_payload data : len32 (udp_payload data) = 8 + len32 data.
Proof. unfold udp_payload. rewrite !len32_app, !len32_be32. lia. Qed.

(** ** The checksum of the header *)
Lemma u16_of_bytes_range b0 b1 : is_byte b0 -> is_byte b1 -> is_u16 (u16_of_bytes [b0; b1]).
Proof. unfold is_byte, is_u16, u16_of_bytes. intros. change (2 ^ 8) with 256. lia. Qed.
Lemma words_u16 bs : Forall is_byte bs -> Forall is_u16 (words_of_bytes bs).
Proof.
  revert bs. fix IH 1. intros [|b0 [|b1 bs]] Hb; cbn [words_of_bytes]; try constructor.
  - inversion Hb as [|? ? H0 Hb']; subst. inversion Hb'; subst. by apply u16_of_bytes_range.
  - apply IH. inversion Hb as [|? ? H0 Hb']; subst. by inversion Hb'.
Qed.
Lemma words_app xs ys : Nat.Even (length xs) -> words_of_bytes (xs ++ ys) = words_of_bytes xs ++ words_of_bytes ys.
Proof.
  revert xs. fix IH 1. intros [|b0 [|b1 xs]] He; [done|destruct He; cbn in *; lia|].
  cbn [words_of_bytes app]. f_equal. apply IH. destruct He as [n Hn]. exists (n - 1)%nat. cbn in *. lia.
Qed.
Lemma words_u16_bytes x : 0 <= x < 65536 -> words_of_bytes (u16_bytes x) = [x].
Proof. intros Hx. change (words_of_bytes (u16_bytes x)) with [u16_of_bytes (u16_bytes x)]. by rewrite u16_of_bytes_bytes. Qed.
Lemma u16_bytes_byte x : Forall is_byte (u16_bytes x).
Proof. unfold u16_bytes. repeat constructor; apply byte_of_byte. Qed.
Lemma prefix_byte n : Forall is_byte (ip_prefix n).
Proof.
  unfold ip_prefix. repeat (apply Forall_app; split); try apply u16_bytes_byte; repeat constructor;
    unfold is_byte, IP_VHL_DEF, IP_DEFTTL, IPPROTO_UDP; lia.
Qed.
Lemma addrs_byte s d : Forall is_byte (ip_addrs s d).
Proof. unfold ip_addrs. apply Forall_app. split; apply u32_bytes_byte. Qed.
Lemma ip_hdr_split n s d : ip_hdr_bytes n s d = ip_prefix n ++ u16_bytes 0 ++ ip_addrs s d.
Proof. done. Qed.
Lemma header_words n s d c : 0 <= c < 65536 ->
  words_of_bytes (ip_prefix n ++ u16_bytes c ++ ip_addrs s d) =
    words_of_bytes (ip_prefix n) ++ [c] ++ words_of_bytes (ip_addrs s d).
Proof. intros Hc. rewrite words_app by (by exists 5%nat). by rewrite words_app, words_u16_bytes by (done || by exists 1%nat). Qed.
Lemma ip_hdr_words n s d :
  words_of_bytes (ip_hdr_bytes n s d) = words_of_bytes (ip_prefix n) ++ [0] ++ words_of_bytes (ip_addrs s d).
Proof. rewrite ip_hdr_split. by apply header_words. Qed.
Lemma ip_hdr_u16 n s d : Forall is_u16 (words_of_bytes (ip_hdr_bytes n s d)).
Proof.
  apply words_u16. rewrite ip_hdr_split. apply Forall_app; split; [apply prefix_byte|].
  apply Forall_app; split; [apply u16_bytes_byte|apply addrs_byte].
Qed.
Lemma ip_checksum_range n s d : 0 <= ip_checksum n s d < 65536.
Proof. apply internet_checksum_range, ip_hdr_u16. Qed.
Lemma ip_sum_hdr {S} n s d (st : S) :
  ip_sum (Some (words_of_bytes (ip_hdr_bytes n s d))) sizeof_ipv4_hdr st = Ok (0, Some (ip_checksum n s d)) st.
Proof. exact (ip_sum_eq _ st (ip_hdr_u16 n s d)). Qed.
(** The header as it is sent checks at the receiver. *)
Lemma ip_header_checks {S} n s d (st : S) :
  ip_sum (Some (words_of_bytes (ip_header n s d))) sizeof_ipv4_hdr st = Ok (0, Some 0) st.
Proof.
  unfold ip_header. rewrite header_words by apply ip_checksum_range. unfold ip_checksum. rewrite ip_hdr_words.
  pose proof (checksum_checks (words_of_bytes (ip_prefix n)) (words_of_bytes (ip_addrs s d)) st
    (words_u16 _ (prefix_byte n)) (words_u16 _ (addrs_byte s d))) as H. cbn zeta in H.
  rewrite !length_app in H. exact H.
Qed.

Section wire.
Context {D : Type} `{DP : Dpdk D}.
Abbreviation W := (lworld D).
Abbreviation at_mem h d w := (set_lw_mem h d w).

(** ** Reading and writing the memory of a world *)
Lemma post_put bad p bs h d (w : W) (Q : unit + Z -> W -> Prop) :
  mapped h p (len32 bs) ->
  (forall h', holds h' p bs -> same_outside p (len32 bs) h h' -> Q (inl tt) (at_mem h' d w)) ->
  post bad (put p bs) Q (at_mem h d w).
Proof.
  intros Hm HQ. destruct (store_mapped _ _ _ Hm) as (h' & E & Hh & Hs).
  unfold put. rewrite post_call. unfold post, lw_on_heap, zoom. cbn [lw_heap set_lw_mem]. rewrite E. by apply HQ.
Qed.
Lemma post_fetch bad p n bs h d (w : W) (Q : list Z + Z -> W -> Prop) :
  holds h p bs -> len32 bs = n -> Q (inl bs) (at_mem h d w) -> post bad (fetch p n) Q (at_mem h d w).
Proof.
  intros Hh Hn HQ. unfold fetch. rewrite post_call. unfold post, lw_on_heap, zoom. cbn [lw_heap set_lw_mem].
  by rewrite (holds_load_n _ _ _ _ Hh Hn).
Qed.
Lemma u32tou16_ok x : 0 <= x < 65536 -> dmtr_u32tou16 (Some 0) (u32 x) = (0, Some x).
Proof.
  intros Hx. rewrite (wrap_small 32) by (change (2 ^ 32) with 4294967296; lia).
  unfold dmtr_u32tou16. rewrite cast_matching_ok.
  - unfold cast_spec, cast_body. assert (E : in_ctype c_ushort x = true); [|by rewrite E].
    unfold in_ctype, cmin, cmax, c_ushort, ct_signed, ct_width. change (2 ^ 16 - 1) with 65535.
    by rewrite (proj2 (Z.leb_le 0 x)), (proj2 (Z.leb_le x 65535)) by lia.
  - done.
  - done.
  - unfold in_ctype, cmin, cmax, c_uint, ct_signed, ct_width. change (2 ^ 32 - 1) with 4294967295.
    by rewrite (proj2 (Z.leb_le 0 x)), (proj2 (Z.leb_le x 4294967295)) by lia.
Qed.
Lemma same_outside_shrink p n m h h' : same_outside p m h h' -> m <= n -> same_outside p n h h'.
Proof. intros Hs Hm. eapply same_outside_sub; [done|lia|lia]. Qed.

(** ** The headers *)
Section headers.
Context (w : W) (src : sockaddr_in) (Hsrc : bound_src w = Some src).
Implicit Types (h : heap) (d : D).

Lemma bound_is_bound : is_bound w = true.
Proof using Hsrc. clear -Hsrc. unfold bound_src, is_bound in *. by destruct (my_bound_src w). Qed.

Lemma post_put_udp bad udp_hdr saddr n h d (Q : unit + Z -> W -> Prop) :
  0 <= n -> n + 8 < 65536 -> mapped h udp_hdr 8 ->
  (forall h', holds h' udp_hdr (udp_hdr_bytes (sin_port src) (sin_port saddr) (n + 8)) -> same_outside udp_hdr 8 h h' ->
     Q (inl tt) (at_mem h' d w)) ->
  post bad (put_udp_hdr udp_hdr saddr n) Q (at_mem h d w).
Proof using Hsrc.
  intros Hn Hn' Hm HQ. unfold put_udp_hdr. rewrite post_sbind. apply post_put; [done|]. intros h1 _ Hs1.
  cbn zeta. rewrite post_sbind, post_get.
  change (is_bound (at_mem h1 d w)) with (is_bound w). change (bound_src (at_mem h1 d w)) with (bound_src w).
  rewrite bound_is_bound, Hsrc. cbn iota. rewrite 2!post_sbind, post_need. cbn iota beta. rewrite post_normal. cbn iota beta.
  rewrite post_sbind, post_DMTR_OK_out, post_fret.
  unfold sizeof_udp_hdr. rewrite u32tou16_ok by lia. cbn [fst snd]. change (0 =? 0) with true. cbv beta iota.
  rewrite post_sbind, post_need. cbv beta iota. apply post_put; [eapply mapped_frame; [exact Hm|exact Hs1]|].
  intros h2 Hh2 Hs2. apply HQ; [exact Hh2|]. eapply same_outside_trans; [exact Hs1|exact Hs2].
Qed.

Lemma post_put_ip bad eth_hdr ip_hdr saddr n h d (Q : unit + Z -> W -> Prop) :
  0 <= n -> n + 20 < 65536 -> mapped h ip_hdr 20 ->
  (forall h', holds h' ip_hdr (ip_header (n + 20) (sin_addr src) (sin_addr saddr)) -> same_outside ip_hdr 20 h h' ->
     Q (inl tt) (at_mem h' d w)) ->
  post bad (put_ip_hdr eth_hdr ip_hdr saddr n) Q (at_mem h d w).
Proof using Hsrc.
  intros Hn Hn' Hm HQ. unfold put_ip_hdr. rewrite post_sbind. apply post_put; [done|]. intros h1 _ Hs1.
  change (len32 (repeat 0 20)) with 20 in Hs1.
  rewrite post_sbind, post_DMTR_OK_out, post_fret. change (n + sizeof_ipv4_hdr) with (n + 20). rewrite u32tou16_ok by lia.
  cbn [fst snd]. change (0 =? 0) with true. cbv beta iota. rewrite post_sbind, post_need. cbv beta iota. rewrite post_sbind, post_get.
  change (is_bound (at_mem h1 d w)) with (is_bound w). change (bound_src (at_mem h1 d w)) with (bound_src w).
  rewrite bound_is_bound, Hsrc. cbn iota. rewrite 2!post_sbind, post_need. cbn iota beta. rewrite post_normal. cbn iota beta.
  rewrite post_sbind.
  apply post_put; [eapply mapped_frame; [exact Hm|exact Hs1]|]. intros h2 Hh2 Hs2.
  change (len32 (ip_hdr_bytes (n + 20) (sin_addr src) (sin_addr saddr))) with 20 in Hs2.
  rewrite post_sbind. eapply post_fetch; [exact Hh2|done|]. rewrite post_sbind, post_DMTR_OK_out.
  unfold post at 1. rewrite ip_sum_hdr. cbn [fst snd]. change (0 =? 0) with true. cbv beta iota. rewrite post_sbind, post_need. cbv beta iota.
  assert (Hm2 : mapped h2 ip_hdr 20) by (eapply mapped_frame; [eapply mapped_frame; [exact Hm|exact Hs1]|exact Hs2]).
  apply post_put; [intros x Hx; apply Hm2; change (len32 (u16_bytes _)) with 2 in Hx; lia|].
  intros h3 Hh3 Hs3. change (len32 (u16_bytes _)) with 2 in Hs3. apply HQ.
  - unfold ip_header. apply holds_app; [|rewrite len32_prefix; apply holds_app].
    + eapply holds_frame; [|exact Hs3|rewrite len32_prefix; lia]. rewrite ip_hdr_split in Hh2. by apply holds_app_l in Hh2.
    + exact Hh3.
    + change (len32 (u16_bytes _)) with 2. eapply holds_frame; [|exact Hs3|lia].
      rewrite ip_hdr_split in Hh2. apply holds_app_r in Hh2. apply holds_app_r in Hh2.
      change (len32 (u16_bytes 0)) with 2 in Hh2. rewrite len32_prefix in Hh2. exact Hh2.
  - eapply same_outside_trans; [eapply same_outside_trans; [exact Hs1|exact Hs2]|].
    eapply same_outside_sub; [exact Hs3|lia|lia].
Qed.
End headers.

Lemma post_put_eth bad eth_hdr port saddr d_mac s_mac h d (w : W) (Q : unit + Z -> W -> Prop) :
  our_ip_to_mac_table w !! sin_addr saddr = Some d_mac -> d_eth_dev_is_valid_port port d = true ->
  d_eth_macaddr_get port d = s_mac -> length d_mac = 6%nat -> length s_mac = 6%nat -> mapped h eth_hdr 14 ->
  (forall h', holds h' eth_hdr (eth_header d_mac s_mac) -> same_outside eth_hdr 14 h h' -> Q (inl tt) (at_mem h' d w)) ->
  post bad (put_eth_hdr eth_hdr port saddr) Q (at_mem h d w).
Proof.
  intros Hd Hp Hs Hld Hls Hm HQ. unfold put_eth_hdr. rewrite post_sbind. apply post_put; [done|]. intros h1 _ Hs1.
  change (len32 (repeat 0 14)) with 14 in Hs1. rewrite post_sbind, post_DMTR_OK_out.
  assert (E1 : ip_to_mac (sin_addr saddr) (at_mem h1 d w) = Ok (0, d_mac) (at_mem h1 d w)).
  { unfold ip_to_mac, body_out, sbind, fbind, get, DMTR_TRUE, need. cbn [our_ip_to_mac_table set_lw_mem]. by rewrite Hd. }
  unfold post at 1. rewrite E1. cbn [fst snd]. change (0 =? 0) with true. cbv beta iota. rewrite post_sbind, post_call.
  assert (E2 : rte_eth_macaddr_get port (at_mem h1 d w) = Ok (0, s_mac) (at_mem h1 d w)).
  { unfold rte_eth_macaddr_get, valid_port, body_out, sbind, fbind, get, DMTR_TRUE. cbn [lw_dev set_lw_mem]. rewrite Hp. cbn. by rewrite Hs. }
  unfold post at 1. rewrite E2. change (0 =? 0) with true. cbn iota.
  pose proof (len32_eth d_mac s_mac Hld Hls) as Hlen. unfold eth_header in Hlen.
  apply post_put; [rewrite Hlen; eapply mapped_frame; [exact Hm|exact Hs1]|]. intros h2 Hh2 Hs2. rewrite Hlen in Hs2.
  apply HQ; [exact Hh2|]. eapply same_outside_trans; [exact Hs1|exact Hs2].
Qed.

(** ** The whole packet *)

(** The device gives out a packet [pkt] with [room] bytes of memory that nobody
    else has; [h] and [d] become [h1] and [d1]. *)
Record mbuf_given (port pool room : Z) (s_mac : list Z) (h : heap) (d : D) (pkt : Z) (h1 : heap) (d1 : D) : Prop := {
  mb_alloc : d_pktmbuf_alloc pool h d = (pkt, h1, d1);
  mb_pkt : pkt <> 0;
  mb_room : mapped h1 (d_pktmbuf_mtod pkt d1) room;
  mb_fresh : forall x, d_pktmbuf_mtod pkt d1 <= x < d_pktmbuf_mtod pkt d1 + room -> h_cells h !! x = None;
  mb_keeps : forall x v, h_cells h !! x = Some v -> h_cells h1 !! x = Some v;
  mb_port : d_eth_dev_is_valid_port port d1 = true;
  mb_mac : d_eth_macaddr_get port d1 = s_mac;
  mb_mac_len : length s_mac = 6%nat
}.
(** What the sender must know: its own address and the receiver's hardware
    address. *)
Record sender_ok (w : W) (src dst : sockaddr_in) (d_mac : list Z) : Prop := {
  sd_init : our_dpdk_init_flag w = true;
  sd_pool : our_mbuf_pool w <> 0;
  sd_src : bound_src w = Some src;
  sd_dst : our_ip_to_mac_table w !! sin_addr dst = Some d_mac;
  sd_mac : length d_mac = 6%nat
}.

Lemma post_put_seg bad p buf data n h d (w : W) (Q : Z * Z + Z -> W -> Prop) :
  holds h buf data -> mapped h p (4 + len32 data) -> buf + len32 data <= p \/ p + 4 + len32 data <= buf ->
  0 <= n -> n + 4 + len32 data < 2 ^ 32 ->
  (forall h', holds h' p (be32 (len32 data) ++ data) -> same_outside p (4 + len32 data) h h' ->
     Q (inl (p + 4 + len32 data, n + 4 + len32 data)) (at_mem h' d w)) ->
  post bad (put_segs 1 [mk_sgaseg buf (len32 data)] p n) Q (at_mem h d w).
Proof.
  intros Hd Hm Hdis Hn Hlt HQ. assert (Hl : 0 <= len32 data) by (unfold len32; lia).
  cbn [put_segs sgaseg_len sgaseg_buf]. change (1 <=? 0) with false. cbn iota.
  rewrite post_sbind, <- be32_htonl. apply post_put; rewrite len32_be32; [intros x Hx; apply Hm; lia|]. intros h1 Hh1 Hs1.
  rewrite post_sbind. eapply post_fetch; [eapply holds_frame; [exact Hd|exact Hs1|lia]|done|].
  rewrite post_sbind. apply post_put; [eapply mapped_frame; [|exact Hs1]; intros x Hx; apply Hm; lia|].
  intros h2 Hh2 Hs2. change (1 - 1 <=? 0) with true. cbn iota. rewrite post_normal.
  rewrite (wrap_small 32 (n + 4)), (wrap_small 32) by lia. apply HQ.
  - apply holds_app; [eapply holds_frame; [exact Hh1|exact Hs2|rewrite len32_be32; lia]|by rewrite len32_be32].
  - eapply same_outside_trans; [eapply same_outside_sub; [exact Hs1|lia|lia]|eapply same_outside_sub; [exact Hs2|lia|lia]].
Qed.

Lemma post_rte_alloc bad pool pkt h1 d1 h d (w : W) (Q : Z * Z -> W -> Prop) :
  pool <> 0 -> our_dpdk_init_flag w = true -> d_pktmbuf_alloc pool h d = (pkt, h1, d1) -> pkt <> 0 ->
  Q (0, pkt) (at_mem h1 d1 w) -> post bad (rte_pktmbuf_alloc pool) Q (at_mem h d w).
Proof.
  intros Hp Hi Ha Hne HQ. unfold rte_pktmbuf_alloc. rewrite post_body_out, post_sbind, post_DMTR_TRUE.
  rewrite (proj2 (Z.eqb_neq pool 0)) by done. cbn [negb]. rewrite post_sbind, post_get, post_sbind, post_DMTR_TRUE.
  change (our_dpdk_init_flag (at_mem h d w)) with (our_dpdk_init_flag w). rewrite Hi. rewrite post_sbind, post_call.
  unfold post at 1, dev_mem. cbn [lw_heap lw_dev set_lw_mem]. rewrite Ha. rewrite post_sbind, post_DMTR_TRUE.
  by rewrite (proj2 (Z.eqb_neq pkt 0)) by done.
Qed.

Lemma build_packet_spec bad port sga src dst d_mac s_mac p data room pkt h1 d1 (w : W) (Q : Z + Z -> W -> Prop) :
  sender_ok w src dst d_mac -> mbuf_given port (our_mbuf_pool w) room s_mac (lw_heap w) (lw_dev w) pkt h1 d1 ->
  sga_numsegs sga = 1 -> sga_segs sga = [mk_sgaseg p (len32 data)] -> holds (lw_heap w) p data -> 0 < len32 data ->
  50 + len32 data <= room -> len32 data + 36 < 65536 ->
  (forall h', holds h' (d_pktmbuf_mtod pkt d1) (frame d_mac s_mac src dst data) ->
     same_outside (d_pktmbuf_mtod pkt d1) (50 + len32 data) h1 h' ->
     Q (inl pkt) (at_mem h' (d_mbuf_set_len pkt (u16 (50 + len32 data)) (50 + len32 data) 1 d1) w)) ->
  post bad (build_packet port sga dst) Q w.
Proof.
  intros [Hi Hpool Hsrc Hdst Hdm] [Ha Hpkt Hroom Hfresh Hkeeps Hport Hmac Hsm] Hn Hsegs Hd Hpos Hfit Hlt HQ.
  assert (Ew : w = at_mem (lw_heap w) (lw_dev w) w) by (by destruct w). rewrite Ew at 1.
  unfold build_packet. rewrite post_sbind, post_get, post_sbind, post_DMTR_OK_out.
  eapply post_rte_alloc; [exact Hpool|exact Hi|exact Ha|exact Hpkt|]. cbn [fst snd]. change (0 =? 0) with true. cbv beta iota.
  rewrite post_sbind, post_get. cbn [lw_dev set_lw_mem]. cbv zeta. rewrite Hn, Hsegs.
  set (e := d_pktmbuf_mtod pkt d1) in *. unfold sizeof_ether_hdr, sizeof_ipv4_hdr, sizeof_udp_hdr.
  assert (Hdata1 : holds h1 p data) by (intros i b Hb; by apply Hkeeps, Hd).
  assert (Hdis : p + len32 data <= e \/ e + room <= p).
  { eapply fresh_disjoint_range; [lia|lia|exact Hfresh|]. intros x Hx. exact (holds_mapped _ _ _ _ Hd Hx). }
  rewrite post_sbind, <- be32_htonl. apply post_put; rewrite len32_be32; [intros x Hx; apply Hroom; lia|]. intros h2 Hh2 Hs2.
  rewrite post_sbind. apply post_put_seg;
    [eapply holds_frame; [exact Hdata1|exact Hs2|lia]|eapply mapped_frame; [|exact Hs2]; intros x Hx; apply Hroom; lia|lia|lia|
     change (2 ^ 32) with 4294967296; lia|].
  intros h3 Hh3 Hs3. rewrite post_sbind.
  apply (post_put_udp w src Hsrc); [lia|lia|eapply mapped_frame; [eapply mapped_frame; [|exact Hs2]|exact Hs3]; intros x Hx; apply Hroom; lia|].
  intros h4 Hh4 Hs4. rewrite (wrap_small 32 (4 + 4 + len32 data + 8)) by (change (2 ^ 32) with 4294967296; lia). rewrite post_sbind.
  apply (post_put_ip w src Hsrc); [lia|lia|repeat (eapply mapped_frame; [|eassumption]); intros x Hx; apply Hroom; lia|].
  intros h5 Hh5 Hs5. rewrite (wrap_small 32 (4 + 4 + len32 data + 8 + 20)) by (change (2 ^ 32) with 4294967296; lia). rewrite post_sbind.
  apply (post_put_eth _ _ _ _ d_mac s_mac);
    [exact Hdst|exact Hport|exact Hmac|exact Hdm|exact Hsm|repeat (eapply mapped_frame; [|eassumption]); intros x Hx; apply Hroom; lia|].
  intros h6 Hh6 Hs6. rewrite (wrap_small 32 (4 + 4 + len32 data + 8 + 20 + 14)) by (change (2 ^ 32) with 4294967296; lia).
  rewrite post_sbind, post_call. replace (4 + 4 + len32 data + 8 + 20 + 14) with (50 + len32 data) by lia.
  unfold post, dev_do, dev. cbn [lw_dev set_lw_mem]. apply HQ.
  - unfold frame. replace (len32 data + 36) with (4 + 4 + len32 data + 8 + 20) by lia.
    replace (len32 data + 16) with (4 + 4 + len32 data + 8) by lia.
    apply holds_app; [done|]. rewrite len32_eth by done. apply holds_app; [|rewrite len32_ip; apply holds_app; [|rewrite len32_udp]].
    + eapply holds_frame; [exact Hh5|exact Hs6|lia].
    + repeat (eapply holds_frame; [|eassumption|rewrite len32_udp; lia]). exact Hh4.
    + unfold udp_payload. apply holds_app.
      * repeat (eapply holds_frame; [|eassumption|rewrite len32_be32; lia]). exact Hh2.
      * rewrite len32_be32. repeat (eapply holds_frame; [|eassumption|rewrite len32_app, len32_be32; lia]). exact Hh3.
  - repeat (eapply same_outside_trans; [eapply same_outside_sub; [eassumption|lia|lia]|]).
    apply same_outside_refl.
Qed.

(** ** Parsing *)

(** The fields of the headers in memory. *)
Lemma header_parts h e d_mac s_mac sip dip sport dport n m rest :
  holds h e (eth_header d_mac s_mac ++ ip_header n sip dip ++ udp_hdr_bytes sport dport m ++ rest) ->
  length d_mac = 6%nat -> length s_mac = 6%nat ->
  holds h e d_mac /\ holds h (e + 12) (u16_bytes (htons RTE_ETHER_TYPE_IPV4)) /\
  holds h (e + 14 + 9) [IPPROTO_UDP] /\ holds h (e + 14 + 12) (u32_bytes sip) /\
  holds h (e + 14 + 16) (u32_bytes dip) /\ holds h (e + 14 + 20) (u16_bytes sport) /\
  holds h (e + 14 + 20 + 2) (u16_bytes dport) /\ holds h (e + 14 + 20 + 8) rest.
Proof.
  intros Hf Hd Hs. pose proof (holds_app_l _ _ _ _ Hf) as He. apply holds_app_r in Hf.
  rewrite len32_eth in Hf by done. pose proof (holds_app_l _ _ _ _ Hf) as Hip. apply holds_app_r in Hf. rewrite len32_ip in Hf.
  pose proof (holds_app_l _ _ _ _ Hf) as Hu. apply holds_app_r in Hf. rewrite len32_udp in Hf.
  unfold eth_header in He. pose proof (holds_app_l _ _ _ _ He) as H1. apply holds_app_r, holds_app_r in He.
  unfold len32 in He. rewrite Hd, Hs in He.
  unfold ip_header in Hip. pose proof (holds_app_l _ _ _ _ Hip) as Hp. apply holds_app_r, holds_app_r in Hip.
  rewrite len32_prefix in Hip. change (len32 (u16_bytes _)) with 2 in Hip.
  unfold ip_addrs in Hip. pose proof (holds_app_l _ _ _ _ Hip) as H4. apply holds_app_r in Hip. change (len32 (u32_bytes _)) with 4 in Hip.
  unfold udp_hdr_bytes in Hu. pose proof (holds_app_l _ _ _ _ Hu) as H6. apply holds_app_r, holds_app_l in Hu. change (len32 (u16_bytes _)) with 2 in Hu.
  split; [done|]. split; [by replace (e + 12) with (e + Z.of_nat 6 + Z.of_nat 6) by lia|].
  split.
  { unfold ip_prefix in Hp. apply holds_app_r, holds_app_r, holds_app_r, holds_app_r in Hp. rewrite !len32_u16 in Hp. change (len32 [IP_VHL_DEF; 0]) with 2 in Hp.
    intros [|i] b Hb; [|done]. injection Hb as <-. rewrite <- (Hp 1%nat IPPROTO_UDP eq_refl). f_equal. lia. }
  split; [by replace (e + 14 + 12) with (e + 14 + 10 + 2) by lia|].
  split; [by replace (e + 14 + 16) with (e + 14 + 10 + 2 + 4) by lia|].
  done.
Qed.
(** The fields of a frame. *)
Lemma frame_parts h e d_mac s_mac src dst data :
  holds h e (frame d_mac s_mac src dst data) -> length d_mac = 6%nat -> length s_mac = 6%nat ->
  holds h e d_mac /\ holds h (e + 12) (u16_bytes (htons RTE_ETHER_TYPE_IPV4)) /\
  holds h (e + 14 + 9) [IPPROTO_UDP] /\ holds h (e + 14 + 12) (u32_bytes (sin_addr src)) /\
  holds h (e + 14 + 16) (u32_bytes (sin_addr dst)) /\ holds h (e + 14 + 20) (u16_bytes (sin_port src)) /\
  holds h (e + 14 + 20 + 2) (u16_bytes (sin_port dst)) /\ holds h (e + 14 + 20 + 8) (be32 1) /\
  holds h (e + 14 + 20 + 8 + 4) (be32 (len32 data)) /\ holds h (e + 14 + 20 + 8 + 4 + 4) data.
Proof.
  intros Hf Hd Hs. apply header_parts in Hf as (H1 & H2 & H3 & H4 & H5 & H6 & H7 & Hf); [|done..].
  unfold udp_payload in Hf. pose proof (holds_app_l _ _ _ _ Hf) as H8. apply holds_app_r in Hf. rewrite len32_be32 in Hf.
  pose proof (holds_app_l _ _ _ _ Hf) as H9. apply holds_app_r in Hf. rewrite len32_be32 in Hf. done.
Qed.

(** What a receiver must find: its port, its address, and memory for the data,
    which [malloc] takes from beyond all the memory in use. *)
Record receiver_ok (w : W) (dst : sockaddr_in) (d_mac : list Z) (n : Z) : Prop := {
  rv_port : exists port, our_dpdk_port_id w = Some port /\ d_eth_dev_is_valid_port port (lw_dev w) = true /\
    (d_mac = d_eth_macaddr_get port (lw_dev w) \/ d_mac = ether_broadcast);
  rv_bound : is_bound w = false \/
    exists b, bound_src w = Some b /\ sin_addr b = sin_addr dst /\ sin_port b = sin_port dst;
  rv_memory : h_oom (lw_heap w) (h_brk (lw_heap w)) n = false;
  rv_fresh : forall x, h_brk (lw_heap w) <= x -> h_cells (lw_heap w) !! x = None
}.

Lemma post_parse_segs bad p b data segs s h d (w : W) (Q : Z * Z * list dmtr_sgaseg + Z -> W -> Prop) :
  holds h p (be32 (len32 data)) -> holds h (p + 4) data -> len32 data < 2 ^ 32 ->
  h_oom h (h_brk h) (len32 data) = false -> (forall x, h_brk h <= x -> h_cells h !! x = None) ->
  (forall h', holds h' (h_brk h) data -> grown h (len32 data) h' ->
     Q (inl (0, 0, mk_sgaseg (h_brk h) (len32 data) :: segs)) (at_mem h' d w)) ->
  post bad (parse_segs 1 p b (s :: segs)) Q (at_mem h d w).
Proof.
  intros Hl Hd Hlt Ho Hf HQ. cbn [parse_segs]. change (1 <=? 0) with false. cbn iota.
  rewrite post_sbind. eapply post_fetch; [exact Hl|apply len32_be32|]. cbv beta iota zeta.
  rewrite ntohl_be32 by (unfold len32 in *; lia).
  destruct (malloc_room (len32 data) h Ho Hf) as (h1 & Em & Hm & [Hk Hb1 Ho1 Hf1]).
  rewrite post_sbind, post_call. unfold post at 1, lw_on_heap, zoom, dmtr_malloc. cbn [lw_heap set_lw_mem].
  unfold fbind. rewrite Em. cbn [fret]. change (negb (0 =? 0)) with false. cbv beta iota.
  rewrite post_sbind, post_need. cbv beta iota. rewrite post_sbind.
  eapply post_fetch; [intros i c Hc; by apply Hk, Hd|done|]. cbv beta iota. rewrite post_sbind.
  destruct (store_mapped h1 (h_brk h) data Hm) as (h2 & Es & Hh2 & Hs2).
  unfold put at 1. rewrite post_call. unfold post at 1, lw_on_heap, zoom. cbn [lw_heap set_lw_mem]. rewrite Es.
  cbv beta iota. rewrite post_sbind. destruct (store_bytes_rest _ _ _ _ Es) as [Eb Eo].
  assert (E : parse_segs (D := D) (1 - 1) (p + 4 + len32 data) 0 segs = normal (0, 0, segs)) by (by destruct segs).
  rewrite E, post_normal. cbv beta iota. rewrite post_normal. apply HQ; [exact Hh2|].
  split; [|by rewrite Eb, Hb1|by rewrite Eo|].
  - intros x v Hv. rewrite <- (Hk x v Hv). apply (proj1 Hs2).
    destruct (decide (x < h_brk h)); [lia|]. rewrite Hf in Hv by lia. done.
  - rewrite Eb, Hb1. intros x Hx. rewrite (proj1 Hs2); [apply Hf1; lia|]. right. lia.
Qed.

Lemma post_macaddr bad port mac h d (w : W) (Q : Z * list Z -> W -> Prop) :
  d_eth_dev_is_valid_port port d = true -> d_eth_macaddr_get port d = mac -> Q (0, mac) (at_mem h d w) ->
  post bad (rte_eth_macaddr_get port) Q (at_mem h d w).
Proof.
  intros Hv Hm HQ. unfold rte_eth_macaddr_get, valid_port. rewrite post_body_out, 2!post_sbind, post_get, post_DMTR_TRUE.
  cbn [lw_dev set_lw_mem]. rewrite Hv, post_sbind, post_get, post_normal. cbn [lw_dev set_lw_mem]. by rewrite Hm.
Qed.

Definition seen (a : sockaddr_in) (junk : sockaddr_in) : sockaddr_in := mk_sockaddr_in AF_INET (sin_port a) (sin_addr a) (sin_zero junk).

(** [parse_packet] on a packet for this host, up to the IP header. *)
Lemma parse_ethernet bad out pkt d_mac port (w : W) (Q : bool * parsed -> W -> Prop) :
  let e := d_pktmbuf_mtod pkt (lw_dev w) in
  our_dpdk_port_id w = Some port -> d_eth_dev_is_valid_port port (lw_dev w) = true ->
  d_mac = d_eth_macaddr_get port (lw_dev w) \/ d_mac = ether_broadcast -> length d_mac = 6%nat ->
  holds (lw_heap w) e d_mac -> holds (lw_heap w) (e + 12) (u16_bytes (htons RTE_ETHER_TYPE_IPV4)) ->
  post bad (parse_ip out (e + 14)) (fun r s' => post bad match r with inl a => fret a | inr err => fret (negb (err =? 0), out) end Q s') w ->
  post bad (parse_packet out pkt) Q w.
Proof.
  intros e Hport Hvalid Hmac Hdm F1 F2 HQ.
  assert (Ew : w = at_mem (lw_heap w) (lw_dev w) w) by (by destruct w). rewrite Ew in HQ |- *.
  unfold parse_packet, as_bool. rewrite post_fbind, post_sbind, post_get. cbn [lw_dev set_lw_mem]. cbv zeta.
  fold e. unfold sizeof_ether_hdr.
  rewrite post_sbind. eapply post_fetch; [exact F2|done|]. cbv beta iota.
  rewrite u16_of_bytes_bytes by apply htons_range. rewrite ntohs_htons by (unfold RTE_ETHER_TYPE_IPV4; lia).
  change (our_dpdk_port_id (at_mem (lw_heap w) (lw_dev w) w)) with (our_dpdk_port_id w). rewrite Hport.
  rewrite post_sbind, post_need. cbv beta iota. rewrite post_sbind, post_DMTR_OK_out.
  eapply post_macaddr; [exact Hvalid|done|]. cbn [fst snd]. change (0 =? 0) with true. cbv beta iota.
  rewrite post_sbind. eapply post_fetch; [exact F1|unfold len32; by rewrite Hdm|]. cbv beta iota.
  assert (E1 : negb (rte_is_same_ether_addr (d_eth_macaddr_get port (lw_dev w)) d_mac) && negb (rte_is_same_ether_addr ether_broadcast d_mac) = false).
  { unfold rte_is_same_ether_addr. destruct Hmac as [<-| ->].
    - by rewrite bool_decide_eq_true_2.
    - rewrite (bool_decide_eq_true_2 (ether_broadcast = _)) by done. apply andb_false_r. }
  rewrite E1. change (RTE_ETHER_TYPE_IPV4 =? RTE_ETHER_TYPE_IPV4) with true. cbn [negb]. exact HQ.
Qed.
(** The IP header: the addresses of a UDP packet, or the end of it. *)
Lemma parse_ip_spec bad out ip proto src_ip dst_ip (w : W) (Q : bool * parsed + Z -> W -> Prop) :
  holds (lw_heap w) (ip + 9) [proto] -> holds (lw_heap w) (ip + 12) (u32_bytes src_ip) -> holds (lw_heap w) (ip + 16) (u32_bytes dst_ip) ->
  0 <= src_ip < 2 ^ 32 -> 0 <= dst_ip < 2 ^ 32 ->
  post bad (if decide (proto = IPPROTO_UDP) then parse_udp out (ip + 20) src_ip dst_ip else normal (false, out)) Q w ->
  post bad (parse_ip out ip) Q w.
Proof.
  intros F3 F4 F5 Hs Hd HQ. assert (Ew : w = at_mem (lw_heap w) (lw_dev w) w) by (by destruct w). rewrite Ew in HQ |- *.
  unfold parse_ip, sizeof_ipv4_hdr.
  rewrite post_sbind. eapply post_fetch; [exact F4|done|]. cbv beta iota zeta. rewrite u32_of_bytes_bytes by done.
  rewrite post_sbind. eapply post_fetch; [exact F5|done|]. cbv beta iota. rewrite u32_of_bytes_bytes by done.
  rewrite post_sbind. eapply post_fetch; [exact F3|done|]. cbv beta iota. destruct (decide (proto = _)) as [->|Hne].
  - rewrite bool_decide_eq_false_2 by naive_solver. exact HQ.
  - rewrite bool_decide_eq_true_2 by congruence. exact HQ.
Qed.
(** The UDP header: a bound host takes what is sent to its address. *)
Definition for_bound (w : W) (dst : sockaddr_in) : bool :=
  match bound_src w with Some b => (sin_addr dst =? sin_addr b) && (sin_port dst =? sin_port b) | None => true end.
Lemma parse_udp_spec bad out udp src dst (w : W) (Q : bool * parsed + Z -> W -> Prop) :
  is_bound w = bool_decide (is_Some (bound_src w)) ->
  holds (lw_heap w) udp (u16_bytes (sin_port src)) -> holds (lw_heap w) (udp + 2) (u16_bytes (sin_port dst)) -> saddr_ok src -> saddr_ok dst ->
  post bad (if for_bound w dst then parse_payload (udp + 8) (sin_port src) (sin_addr src) (seen src (pk_src out)) (seen dst (pk_dst out)) (pk_sga out)
            else normal (false, mk_parsed (seen src (pk_src out)) (seen dst (pk_dst out)) (pk_sga out))) Q w ->
  post bad (parse_udp out udp (sin_addr src) (sin_addr dst)) Q w.
Proof.
  intros Hb F6 F7 [Hsp _] [Hdp _] HQ. assert (Ew : w = at_mem (lw_heap w) (lw_dev w) w) by (by destruct w). rewrite Ew in HQ |- *.
  unfold parse_udp, sizeof_udp_hdr. cbv zeta.
  rewrite post_sbind. eapply post_fetch; [exact F6|done|]. cbv beta iota. rewrite u16_of_bytes_bytes by done.
  rewrite post_sbind. eapply post_fetch; [exact F7|done|]. cbv beta iota. rewrite u16_of_bytes_bytes by done.
  rewrite post_sbind, post_get. change (is_bound (at_mem (lw_heap w) (lw_dev w) w)) with (is_bound w).
  change (bound_src (at_mem (lw_heap w) (lw_dev w) w)) with (bound_src w). rewrite Hb. unfold for_bound in HQ.
  change (bound_src (at_mem (lw_heap w) (lw_dev w) w)) with (bound_src w) in HQ.
  destruct (bound_src w) as [b|]; [|exact HQ]. rewrite bool_decide_eq_true_2 by eauto. rewrite post_sbind, post_need. cbv beta iota.
  rewrite <- negb_andb. destruct (_ && _); exact HQ.
Qed.

(** A whole frame, as far as the payload. *)
Lemma parse_headers bad out pkt port d_mac s_mac src dst data (w : W) (Q : bool * parsed -> W -> Prop) :
  let e := d_pktmbuf_mtod pkt (lw_dev w) in
  our_dpdk_port_id w = Some port -> d_eth_dev_is_valid_port port (lw_dev w) = true ->
  d_mac = d_eth_macaddr_get port (lw_dev w) \/ d_mac = ether_broadcast ->
  is_bound w = bool_decide (is_Some (bound_src w)) ->
  holds (lw_heap w) e (frame d_mac s_mac src dst data) -> saddr_ok src -> saddr_ok dst -> length d_mac = 6%nat -> length s_mac = 6%nat ->
  post bad (if for_bound w dst then parse_payload (e + 14 + 20 + 8) (sin_port src) (sin_addr src) (seen src (pk_src out)) (seen dst (pk_dst out)) (pk_sga out)
            else normal (false, mk_parsed (seen src (pk_src out)) (seen dst (pk_dst out)) (pk_sga out)))
    (fun r s' => post bad match r with inl a => fret a | inr err => fret (negb (err =? 0), out) end Q s') w ->
  post bad (parse_packet out pkt) Q w.
Proof.
  intros e Hport Hvalid Hmac Hb Hfr Hs Hd Hdm Hsm HQ. apply frame_parts in Hfr as (F1 & F2 & F3 & F4 & F5 & F6 & F7 & _); [|done|done].
  apply (parse_ethernet bad out pkt d_mac port); try done. eapply parse_ip_spec; [exact F3|exact F4|exact F5|apply Hs|apply Hd|].
  rewrite decide_True by done. by apply parse_udp_spec.
Qed.

Lemma parse_frame bad out s pkt d_mac s_mac src dst data (w : W) (Q : bool * parsed -> W -> Prop) :
  receiver_ok w dst d_mac (len32 data) -> holds (lw_heap w) (d_pktmbuf_mtod pkt (lw_dev w)) (frame d_mac s_mac src dst data) ->
  saddr_ok src -> saddr_ok dst -> length d_mac = 6%nat -> length s_mac = 6%nat -> len32 data < 2 ^ 32 ->
  sga_segs (pk_sga out) = [s] ->
  (forall h', holds h' (h_brk (lw_heap w)) data -> grown (lw_heap w) (len32 data) h' ->
     Q (true, mk_parsed (seen src (pk_src out)) (seen dst (pk_dst out))
          (mk_sgarray 0 1 [mk_sgaseg (h_brk (lw_heap w)) (len32 data)] (seen src (sga_addr (pk_sga out)))))
       (at_mem h' (lw_dev w) w)) ->
  post bad (parse_packet out pkt) Q w.
Proof.
  intros [(port & Hport & Hvalid & Hmac) Hbound Ho Hf] Hfr Hsrc Hdst Hdm Hsm Hlt Hsegs HQ.
  pose proof Hfr as Hfr'. apply frame_parts in Hfr' as (_ & _ & _ & _ & _ & _ & _ & F8 & F9 & F10); [|done|done].
  assert (Hb : is_bound w = bool_decide (is_Some (bound_src w)) /\ for_bound w dst = true).
  { unfold for_bound. destruct Hbound as [Hb|(b & Hb & E1 & E2)].
    - unfold is_bound, bound_src in *. by destruct (my_bound_src w).
    - rewrite Hb, <- E1, <- E2, !Z.eqb_refl. split; [|done]. rewrite bool_decide_eq_true_2 by eauto. by eapply bound_is_bound. }
  eapply (parse_headers bad out pkt port d_mac s_mac src dst data); try done; [apply Hb|]. rewrite (proj2 Hb).
  assert (Ew : w = at_mem (lw_heap w) (lw_dev w) w) by (by destruct w). rewrite Ew.
  change (lw_dev (at_mem (lw_heap w) (lw_dev w) w)) with (lw_dev w).
  unfold parse_payload. rewrite post_sbind. eapply post_fetch; [exact F8|apply len32_be32|]. cbv beta iota zeta.
  rewrite ntohl_be32 by lia. rewrite Hsegs, post_sbind.
  apply (post_parse_segs _ _ _ data [] s); [exact F9|exact F10|exact Hlt|exact Ho|exact Hf|]. intros h' Hh' Hk.
  rewrite post_normal. cbv beta iota. change (0 =? 0) with true. by apply HQ.
Qed.

(** C20: packets make the round trip.  For an array of one segment whose memory
    holds [data], the sender's packet holds exactly the frame of [data] between
    the two addresses, in the first [50 + len] bytes of the packet's memory,
    and nothing else in memory changes; its IP header checks.  Any receiver
    whose packet holds those bytes, with the destination as its own address,
    accepts it: it sees the sender's and its own address, and the array it
    makes is one fresh segment that holds [data]. *)
Theorem packet_roundtrip port sga src dst d_mac s_mac p data room pkt h1 d1 (w : W) :
  sender_ok w src dst d_mac -> mbuf_given port (our_mbuf_pool w) room s_mac (lw_heap w) (lw_dev w) pkt h1 d1 ->
  sga_numsegs sga = 1 -> sga_segs sga = [mk_sgaseg p (len32 data)] -> holds (lw_heap w) p data -> 0 < len32 data ->
  50 + len32 data <= room -> len32 data + 36 < 65536 -> saddr_ok src -> saddr_ok dst ->
  let e := d_pktmbuf_mtod pkt d1 in
  let n := 50 + len32 data in
  wp (build_packet port sga dst) (fun r w' =>
    r = inl pkt /\ holds (lw_heap w') e (frame d_mac s_mac src dst data) /\
    w' = set_lw_mem (lw_heap w') (d_mbuf_set_len pkt (u16 n) n 1 d1) w /\ same_outside e n h1 (lw_heap w') /\
    (exists hdr, fetch (e + 14) 20 w' = Ok (inl hdr) w' /\ ip_sum (Some (words_of_bytes hdr)) 20 w' = Ok (0, Some 0) w') /\
    forall (w2 : W) pkt2 out s bs,
      load_bytes e n (lw_heap w') = Ok bs (lw_heap w') -> holds (lw_heap w2) (d_pktmbuf_mtod pkt2 (lw_dev w2)) bs ->
      receiver_ok w2 dst d_mac (len32 data) -> sga_segs (pk_sga out) = [s] ->
      wp (parse_packet out pkt2) (fun r2 w2' =>
        r2 = (true, mk_parsed (seen src (pk_src out)) (seen dst (pk_dst out))
               (mk_sgarray 0 1 [mk_sgaseg (h_brk (lw_heap w2)) (len32 data)] (seen src (sga_addr (pk_sga out))))) /\
        w2' = set_lw_mem (lw_heap w2') (lw_dev w2) w2 /\ holds (lw_heap w2') (h_brk (lw_heap w2)) data /\
        grown (lw_heap w2) (len32 data) (lw_heap w2')) w2) w.
Proof.
  intros Hs Hm Hn Hsegs Hd Hpos Hfit Hlt Hsrc Hdst. cbn zeta.
  assert (Hlen : len32 (frame d_mac s_mac src dst data) = 50 + len32 data).
  { unfold frame. rewrite !len32_app, len32_eth, len32_ip, len32_udp, len32_payload; [lia|by destruct Hs|by destruct Hm]. }
  apply (build_packet_spec False port sga src dst d_mac s_mac p data room pkt h1 d1); try done.
  intros h' Hh' Hs'. cbn [lw_heap set_lw_mem]. repeat (split; [done|]). split.
  - exists (ip_header (len32 data + 36) (sin_addr src) (sin_addr dst)). split; [|apply ip_header_checks].
    unfold frame in Hh'. apply holds_app_r, holds_app_l in Hh'. rewrite len32_eth in Hh'; [|by destruct Hs|by destruct Hm].
    unfold fetch, call, fbind, lw_on_heap, zoom. cbn [lw_heap set_lw_mem]. by rewrite (holds_load_n _ _ 20 _ Hh' eq_refl).
  - intros w2 pkt2 out s bs Hbs Hw2 Hr Hout.
    rewrite <- Hlen, (holds_load _ _ _ Hh') in Hbs. injection Hbs as <-.
    apply (parse_frame False out s pkt2 d_mac s_mac src dst data); try done; try (by destruct Hs); try (by destruct Hm).
    change (2 ^ 32) with 4294967296. lia.
Qed.
End wire.

(** A sender with the demonstration card. *)
Definition demo_src : sockaddr_in := mk_sockaddr_in 2 (htons 7000) 0x0100000A 0.
Definition demo_dst : sockaddr_in := mk_sockaddr_in 2 (htons 7001) 0x0200000A 0.
Definition demo_data : list Z := [104; 105].
Definition demo_sga : dmtr_sgarray := mk_sgarray 0 1 [mk_sgaseg 16 2] sockaddr_zero.
Definition demo_sender_heap : heap := mk_heap (<[16 := Some 104]> (<[17 := Some 105]> ∅)) ∅ 4096 (fun _ _ => false).
Definition demo_sender : lworld nic := set_my_bound_src (SaddrAt 0 demo_src) (set_lw_mem demo_sender_heap (mk_nic [] [] 0) demo_ready).
Definition demo_peer_mac : list Z := [2; 0; 0; 0; 0; 2].

Lemma demo_sender_ok : sender_ok demo_sender demo_src demo_dst demo_peer_mac.
Proof. by split; vm_compute. Qed.
Lemma demo_mbuf : mbuf_given 0 (our_mbuf_pool demo_sender) 256 nic_mac (lw_heap demo_sender) (lw_dev demo_sender) 4096
  (mk_heap (alloc_cells 256 4096 (h_cells demo_sender_heap)) ∅ 4352 (fun _ _ => false)) (mk_nic [] [] 0).
Proof.
  assert (Hout : forall x, 4096 <= x -> h_cells (lw_heap demo_sender) !! x = None).
  { intros x Hx. change (h_cells (lw_heap demo_sender)) with (<[16 := Some 104]> (<[17 := Some 105]> (∅ : gmap Z (option Z)))).
    rewrite !lookup_insert_ne by lia. done. }
  split; try done; change (d_pktmbuf_mtod 4096 (mk_nic [] [] 0)) with 4096.
  - intros x Hx. cbn [h_cells]. rewrite alloc_cells_lookup, decide_True by lia. by eexists.
  - intros x Hx. apply Hout. lia.
  - intros x v Hv. cbn [h_cells]. rewrite alloc_cells_lookup. case_decide as Hx; [|done]. rewrite Hout in Hv by lia. done.
Qed.
Lemma demo_holds : holds (lw_heap demo_sender) 16 demo_data.
Proof. by intros [|[|i]] b [= <-]. Qed.

Lemma packet_roundtrip_witness :
  wp (build_packet 0 demo_sga demo_dst) (fun r w' => r = inl 4096 /\
    holds (lw_heap w') 4096 (frame demo_peer_mac nic_mac demo_src demo_dst demo_data)) demo_sender.
Proof.
  eapply post_mono.
  - apply (packet_roundtrip 0 demo_sga demo_src demo_dst demo_peer_mac nic_mac 16 demo_data 256 4096
      (mk_heap (alloc_cells 256 4096 (h_cells demo_sender_heap)) ∅ 4352 (fun _ _ => false)) (mk_nic [] [] 0) demo_sender
      demo_sender_ok demo_mbuf eq_refl eq_refl demo_holds); unfold saddr_ok; vm_compute; done || (split; split; done).
  - intros r w' H. exact (conj (proj1 H) (proj1 (proj2 H))).
Defined.
