(* ===== verification/LwipQueue.v ===== *)
(** * DPDK queues: [lwip/lwip_queue.cc]

    A [lwip_queue] is a UDP endpoint, or a faux TCP one.  Packets arrive at the
    port for all queues together: whichever worker polls the port sorts them
    into receive queues, one per source address, that the static
    [our_recv_queues] finds; a queue object points at the one of its peer, a
    listening one at the one of its own address, in which the first packet of
    each new source is put as a connection request.

    The workers are coroutines as in [PosixQueue]; [t] in a control point is
    the slot of the task in hand. *)
From Stdlib Require Import String.
From S2P Require Import Prelude Cmd Types Cast Memory Contents IoQueue UserThread MemoryQueue Queue MemoryVtable PosixOs LwipOs LwipPacket.
Open Scope cmd_scope.

(** ** Control points

    Of the push worker: its start; [while (good())]; [while (tq.empty())]; the
    loop around [rte_eth_tx_burst], with the packet.  The port is read once, at
    the start. *)
Inductive lw_push_k :=
| LwPushStart
| LwPushLoop (port_id : Z)
| LwPushIdle (port_id : Z)
| LwTx (port_id t pkt : Z).
(** Of the pop worker: the loop while the receive queue is empty. *)
Inductive lw_pop_k :=
| LwPopStart
| LwPopLoop
| LwPopIdle
| LwPopRecv (t : Z).
(** Of the accept worker: the same, with the pointer to the new queue. *)
Inductive lw_accept_k :=
| LwAcceptStart
| LwAcceptLoop
| LwAcceptIdle
| LwAcceptRecv (t new_lq : Z).

(** [my_recv_queue] is [None] until it is assigned: the constructor leaves it
    uninitialised. *)
Record lwip_queue := mk_lwip_queue {
  lw_base : io_queue;
  lw_listening_flag : bool;
  my_default_dst : option sockaddr_in;
  my_recv_queue : option Z;
  lw_accept_thread : option (user_thread lw_accept_k);
  lw_push_thread : option (user_thread lw_push_k);
  lw_pop_thread : option (user_thread lw_pop_k);
  q_in_packets : Z;
  q_out_packets : Z
}.
Definition set_lw_base (b : io_queue) (q : lwip_queue) := mk_lwip_queue b (lw_listening_flag q) (my_default_dst q) (my_recv_queue q) (lw_accept_thread q) (lw_push_thread q) (lw_pop_thread q) (q_in_packets q) (q_out_packets q).
Definition set_lw_listening_flag (b : bool) (q : lwip_queue) := mk_lwip_queue (lw_base q) b (my_default_dst q) (my_recv_queue q) (lw_accept_thread q) (lw_push_thread q) (lw_pop_thread q) (q_in_packets q) (q_out_packets q).
Definition set_my_default_dst (a : option sockaddr_in) (q : lwip_queue) := mk_lwip_queue (lw_base q) (lw_listening_flag q) a (my_recv_queue q) (lw_accept_thread q) (lw_push_thread q) (lw_pop_thread q) (q_in_packets q) (q_out_packets q).
Definition set_my_recv_queue (p : Z) (q : lwip_queue) := mk_lwip_queue (lw_base q) (lw_listening_flag q) (my_default_dst q) (Some p) (lw_accept_thread q) (lw_push_thread q) (lw_pop_thread q) (q_in_packets q) (q_out_packets q).
Definition set_lw_accept_thread (th : option (user_thread lw_accept_k)) (q : lwip_queue) := mk_lwip_queue (lw_base q) (lw_listening_flag q) (my_default_dst q) (my_recv_queue q) th (lw_push_thread q) (lw_pop_thread q) (q_in_packets q) (q_out_packets q).
Definition set_lw_push_thread (th : option (user_thread lw_push_k)) (q : lwip_queue) := mk_lwip_queue (lw_base q) (lw_listening_flag q) (my_default_dst q) (my_recv_queue q) (lw_accept_thread q) th (lw_pop_thread q) (q_in_packets q) (q_out_packets q).
Definition set_lw_pop_thread (th : option (user_thread lw_pop_k)) (q : lwip_queue) := mk_lwip_queue (lw_base q) (lw_listening_flag q) (my_default_dst q) (my_recv_queue q) (lw_accept_thread q) (lw_push_thread q) th (q_in_packets q) (q_out_packets q).
Definition set_q_packets (i o : Z) (q : lwip_queue) := mk_lwip_queue (lw_base q) (lw_listening_flag q) (my_default_dst q) (my_recv_queue q) (lw_accept_thread q) (lw_push_thread q) (lw_pop_thread q) i o.

Definition lwip_queue_ctor (qd : Z) : lwip_queue := mk_lwip_queue (io_queue_ctor NETWORK_Q qd) false None None None None None 0 0.
Definition is_connected (q : lwip_queue) : bool := match my_default_dst q with Some _ => true | None => false end.

(** The objects of this library OS. *)
Inductive lwip_object :=
| LMemObj (q : memory_queue)
| LwObj (q : lwip_queue).
Definition as_lmem (o : lwip_object) : option memory_queue := match o with LMemObj q => Some q | _ => None end.
Definition as_lw (o : lwip_object) : option lwip_queue := match o with LwObj q => Some q | _ => None end.

Section lwip_queue.
Context {D : Type} `{DP : Dpdk D}.
Abbreviation W := (lworld D).
Abbreviation env := (qenv lwip_object W).

Definition lw_get (self : Z) : stmt env lwip_queue := fun e =>
  match e_queues e !! self with
  | Some (LwObj q) => Ok (inl q) e
  | _ => Undef
  end.
Definition lw_modify (self : Z) (f : lwip_queue -> lwip_queue) : stmt env unit :=
  call (on_object as_lw LwObj self (fun q => Ok tt (f q))).
Definition lw_on_base {A} (self : Z) (m : fn io_queue A) : fn env A :=
  on_object as_lw LwObj self (zoom lw_base set_lw_base m).
Definition lw_world {A} (m : fn W A) : fn env A := zoom e_world set_e_world m.
Definition lw_task (t : Z) (q : lwip_queue) : task := slot_task t (lw_base q).

Definition lw_good (w : W) (q : lwip_queue) : bool := is_bound w || is_connected q.
Definition need_dpdk : stmt env unit :=
  e <- get ;
  DMTR_TRUE EPERM (our_dpdk_init_flag (e_world e)).
Definition need_port : stmt env unit :=
  e <- get ;
  DMTR_TRUE EPERM (bool_decide (is_Some (our_dpdk_port_id (e_world e)))).

(** ** Receive queues *)
Definition new_recv_queue : stmt W Z := fun w =>
  Ok (inl (lw_next_queue w)) (set_recv_store (<[lw_next_queue w := std_queue_new]> (lw_recv_store w)) (lw_next_queue w + 1) w).
(** [delete] of a null pointer does nothing. *)
Definition delete_recv_queue (p : Z) : fn W unit := fun w =>
  if p =? 0 then Ok tt w
  else match lw_recv_store w !! p with
       | None => Undef
       | Some _ => Ok tt (set_recv_store (delete p (lw_recv_store w)) (lw_next_queue w) w)
       end.
Definition recv_queue_at (p : Z) : stmt W std_queue := w <- get ; need (lw_recv_store w !! p).
Definition update_recv_queue (p : Z) (f : std_queue -> std_queue) : stmt W unit :=
  q <- recv_queue_at p ;
  modify (fun w => set_recv_store (<[p := f q]> (lw_recv_store w)) (lw_next_queue w) w).
(** [our_recv_queues[addr] = p] *)
Definition set_recv_entry (addr : sockaddr_in) (p : Z) : stmt W unit :=
  modify (fun w => set_our_recv_queues (<[addr := p]> (our_recv_queues w)) w).

Definition insert_recv_queue (saddr : sockaddr_in) (sga : dmtr_sgarray) : stmt W bool :=
  w <- get ;
  match our_recv_queues w !! saddr with
  | None => normal false
  | Some it =>
      update_recv_queue it (std_queue_push sga) ;;
      normal true
  end.

(** What is done with a valid packet: the queue of its source, or a new one
    and the queue of its destination. *)
Definition place_packet (out : parsed) : stmt W unit :=
  placed <- insert_recv_queue (pk_src out) (pk_sga out) ;
  if placed then normal tt
  else
    p <- new_recv_queue ;
    set_recv_entry (pk_src out) p ;;
    _ <- insert_recv_queue (pk_src out) (pk_sga out) ;
    _ <- insert_recv_queue (pk_dst out) (pk_sga out) ;
    modify (fun w => set_counters (u64 (in_packets w + 1)) (out_packets w) (invalid_packets w) w).
(** One packet of the burst. *)
Definition service_packet (pkt : Z) : stmt W unit :=
  out <- call (dev uninitialised) ;
  let '(src, dst, sga) := out in
  ' (valid_packet, out) <- call (parse_packet (mk_parsed src dst sga) pkt) ;
  call (dev_mem (fun h d => let '(h', d') := d_pktmbuf_free pkt h d in (tt, h', d'))) ;;
  if valid_packet then place_packet out
  else modify (fun w => set_counters (in_packets w) (out_packets w) (u64 (invalid_packets w + 1)) w).
Definition service_packets : list Z -> stmt W unit := fix go pkts :=
  match pkts with
  | [] => normal tt
  | pkt :: pkts' => service_packet pkt ;; go pkts'
  end.

Definition service_incoming_packets : fn W Z := body (
  w <- get ;
  DMTR_TRUE EPERM (our_dpdk_init_flag w) ;;
  DMTR_TRUE EPERM (bool_decide (is_Some (our_dpdk_port_id w))) ;;
  dpdk_port_id <- need (our_dpdk_port_id w) ;
  depth <- DMTR_OK_out (fret (dmtr_sztou16 (Some 0) our_max_queue_depth)) ;
  depth <- need depth ;
  ' (ret, pkts) <- call (rte_eth_rx_burst dpdk_port_id 0 (Some tt) depth) ;
  if ret =? 0 then
    service_packets pkts ;;
    normal 0
  else if ret =? EAGAIN then return_ ret
  else DMTR_FAIL ret).

(** ** The push worker *)
Definition lw_push_step (self : Z) (k : lw_push_k) (tq : list Z) : fn env (list Z * next lw_push_k) :=
  match k with
  | LwPushStart => in_thread tq (
      need_dpdk ;;
      need_port ;;
      e <- get ;
      dpdk_port_id <- need (our_dpdk_port_id (e_world e)) ;
      normal (Continue (LwPushLoop dpdk_port_id)))
  | LwPushLoop port => in_thread tq (
      e <- get ;
      q <- lw_get self ;
      if lw_good (e_world e) q then normal (Continue (LwPushIdle port)) else return_ 0)
  | LwPushIdle port =>
      match tq with
      | [] => in_thread tq (normal (Yield (LwPushIdle port)))
      | qt :: tq => in_thread tq (
          t <- DMTR_OK_out (lw_on_base self (get_task_ptr qt)) ;
          q <- lw_get self ;
          let arg := task_arg_sga (lw_task t q) in
          DMTR_TRUE EINVAL (match arg with Some _ => true | None => false end) ;;
          sga <- need arg ;
          len <- DMTR_OK_out (dmtr_sgalen (Some 0) (Some sga)) ;
          sgalen <- need len ;
          if sgalen =? 0 then
            DMTR_OK (lw_on_base self (on_slot t (task_complete ENOMSG))) ;;
            normal (Continue (LwPushLoop port))
          else
            let saddr := match my_default_dst q with Some a => a | None => sga_addr sga end in
            r <- call (lw_world (build_packet port sga saddr)) ;
            match r with
            | inl pkt => normal (Continue (LwTx port t pkt))
            | inr err => return_ err
            end)
      end
  | LwTx port t pkt => in_thread tq (
      ' (ret, pkts_sent) <- call (lw_world (rte_eth_tx_burst port 0 (Some [pkt]))) ;
      if ret =? 0 then
        DMTR_TRUE ENOTSUP (1 =? pkts_sent) ;;
        lw_modify self (fun q => set_q_packets (q_in_packets q) (u64 (q_out_packets q + 1)) q) ;;
        q <- lw_get self ;
        DMTR_OK (lw_on_base self (on_slot t (task_complete_sga 0 (my_sga_arg (lw_task t q))))) ;;
        normal (Continue (LwPushLoop port))
      else if ret =? EAGAIN then normal (Yield (LwTx port t pkt))
      else DMTR_FAIL ret)
  end.

(** ** The pop worker

    [my_recv_queue->empty()], [service_incoming_packets() == EAGAIN ||
    my_recv_queue->empty()] *)
Definition recv_empty (self : Z) : stmt env bool :=
  q <- lw_get self ;
  p <- need (my_recv_queue q) ;
  e <- get ;
  rq <- need (lw_recv_store (e_world e) !! p) ;
  normal (match dq_elems rq with [] => true | _ => false end).
Definition poll_port (self : Z) : stmt env bool :=
  ret <- call (lw_world service_incoming_packets) ;
  if ret =? EAGAIN then normal true else recv_empty self.
(** The front element, its queue and its address. *)
Definition recv_front (self : Z) : stmt env (dmtr_sgarray * std_queue * Z) :=
  q <- lw_get self ;
  p <- need (my_recv_queue q) ;
  e <- get ;
  rq <- need (lw_recv_store (e_world e) !! p) ;
  sga <- need (head (dq_elems rq)) ;
  normal (sga, rq, p).
Definition recv_pop (p : Z) : stmt env unit :=
  r <- call (lw_world (update_recv_queue p std_queue_pop)) ;
  match r with inl _ => normal tt | inr _ => undef end.

Definition lw_pop_step (self : Z) (k : lw_pop_k) (tq : list Z) : fn env (list Z * next lw_pop_k) :=
  match k with
  | LwPopStart => in_thread tq (
      need_dpdk ;;
      need_port ;;
      normal (Continue LwPopLoop))
  | LwPopLoop => in_thread tq (
      e <- get ;
      q <- lw_get self ;
      if lw_good (e_world e) q then normal (Continue LwPopIdle) else return_ 0)
  | LwPopIdle =>
      match tq with
      | [] => in_thread tq (normal (Yield LwPopIdle))
      | qt :: tq => in_thread tq (
          t <- DMTR_OK_out (lw_on_base self (get_task_ptr qt)) ;
          normal (Continue (LwPopRecv t)))
      end
  | LwPopRecv t => in_thread tq (
      empty <- recv_empty self ;
      if empty then
        again <- poll_port self ;
        normal (if again then Yield (LwPopRecv t) else Continue (LwPopRecv t))
      else
        r <- recv_front self ;
        let '(sga, _, p) := r in
        DMTR_OK (lw_on_base self (on_slot t (task_complete_sga 0 sga))) ;;
        recv_pop p ;;
        lw_modify self (fun q => set_q_packets (u64 (q_in_packets q + 1)) (q_out_packets q) q) ;;
        normal (Continue LwPopLoop))
  end.

(** ** Starting the workers *)
Context (fuel : nat).

(** The workers of a queue that is not listening. *)
Definition lw_start_io (self : Z) : fn env unit :=
  fbind (user_thread_ctor (lw_push_step self) fuel LwPushStart) (fun th =>
  fbind (lw_modify self (set_lw_push_thread (Some th))) (fun _ =>
  fbind (user_thread_ctor (lw_pop_step self) fuel LwPopStart) (fun th =>
  fbind (lw_modify self (set_lw_pop_thread (Some th))) (fun _ => fret tt)))).

(** ** The accept worker *)
Definition lw_accept_step (self : Z) (k : lw_accept_k) (tq : list Z) : fn env (list Z * next lw_accept_k) :=
  match k with
  | LwAcceptStart => in_thread tq (
      e <- get ;
      q <- lw_get self ;
      DMTR_TRUE EINVAL (lw_good (e_world e) q) ;;
      DMTR_TRUE EINVAL (lw_listening_flag q) ;;
      normal (Continue LwAcceptLoop))
  | LwAcceptLoop => in_thread tq (
      e <- get ;
      q <- lw_get self ;
      if lw_good (e_world e) q then normal (Continue LwAcceptIdle) else return_ 0)
  | LwAcceptIdle =>
      match tq with
      | [] => in_thread tq (normal (Yield LwAcceptIdle))
      | qt :: tq => in_thread tq (
          t <- DMTR_OK_out (lw_on_base self (get_task_ptr qt)) ;
          q <- lw_get self ;
          let arg := task_arg_queue (lw_task t q) in
          DMTR_TRUE EINVAL (match arg with Some _ => true | None => false end) ;;
          new_q <- need arg ;
          (* [dynamic_cast]: the object must exist *)
          e <- get ;
          obj <- need (e_queues e !! new_q) ;
          DMTR_NOTNULL EINVAL (as_lw obj) ;;
          normal (Continue (LwAcceptRecv t new_q)))
      end
  | LwAcceptRecv t new_lq => in_thread tq (
      empty <- recv_empty self ;
      if empty then
        again <- poll_port self ;
        normal (if again then Yield (LwAcceptRecv t new_lq) else Continue (LwAcceptRecv t new_lq))
      else
        r <- recv_front self ;
        let '(sga, rq, p) := r in
        let src := sga_addr sga in
        lw_modify new_lq (set_my_default_dst (Some src)) ;;
        (* [our_recv_queues[addr]]: a null pointer is entered when there is none *)
        e <- get ;
        (match our_recv_queues (e_world e) !! src with
         | Some it => lw_modify new_lq (set_my_recv_queue it)
         | None => call (lw_world (set_recv_entry src 0)) ;; lw_modify new_lq (set_my_recv_queue 0)
         end) ;;
        call (lw_start_io new_lq) ;;
        recv_pop p ;;
        (* [src] refers to the element that was just popped *)
        (if pop_releases rq then undef else normal tt) ;;
        nq <- lw_get new_lq ;
        DMTR_OK (lw_on_base self (on_slot t (task_complete_ares 0 (my_qd (lw_base nq)) src))) ;;
        normal (Continue LwAcceptLoop))
  end.

Definition lw_start_threads (self : Z) : stmt env unit :=
  q <- lw_get self ;
  if lw_listening_flag q then
    th <- call (user_thread_ctor (lw_accept_step self) fuel LwAcceptStart) ;
    lw_modify self (set_lw_accept_thread (Some th))
  else call (lw_start_io self).

(** ** The methods *)
Definition lw_new_object (qd : Z) : fn W (Z * option lwip_object) := body_out None (
  w <- get ;
  DMTR_TRUE EPERM (our_dpdk_init_flag w) ;;
  normal (Some (LwObj (lwip_queue_ctor qd)))).

(** [close] of an object that is in hand: what it does to the object and to
    the world. *)
Definition lw_close_obj (q : lwip_queue) : fn W (Z * lwip_queue) := fun w =>
  if negb (our_dpdk_init_flag w) then Ok (EPERM, q) w
  else if negb (is_connected q) then Ok (0, q) w
  else match my_recv_queue q with
       | None => Undef
       | Some p => fbind (delete_recv_queue p) (fun _ => fret (0, set_my_default_dst None q)) w
       end.
Definition lw_close (self : Z) : fn env Z := body (
  q <- lw_get self ;
  ' (ret, q) <- call (lw_world (lw_close_obj q)) ;
  lw_modify self (fun _ => q) ;;
  normal ret).

(** The destructor: [close()], and [free(my_bound_src)] after printing what it
    points at. *)
Definition lw_destroy (q : lwip_queue) : fn W unit :=
  fbind (lw_close_obj q) (fun r =>
  if negb (fst r =? 0) then panic
  else
    fbind (fun w =>
      match my_bound_src w with
      | SaddrNull => Ok tt w
      | SaddrAt p _ => fbind (lw_on_heap (free p)) (fun _ w => Ok tt (set_my_bound_src SaddrFreed w)) w
      | SaddrFreed => Undef
      end) (fun _ w =>
    match our_dpdk_port_id w with Some _ => Ok tt w | None => Undef end)).

Definition lw_socket (self domain type protocol : Z) : fn env Z := body (
  need_dpdk ;;
  if negb (type =? SOCK_DGRAM) && negb (type =? SOCK_STREAM) then return_ ENOTSUP
  else normal 0).

(** The address is returned as a structure; the interface wants bytes. *)
Definition lw_getsockname (self : Z) (saddr : bool) (size : option Z) : fn env (Z * option (list Z)) := body_out None (
  DMTR_NOTNULL EINVAL size ;;
  size <- need size ;
  DMTR_TRUE ENOMEM (size >=? sizeof_sockaddr_in) ;;
  e <- get ;
  DMTR_TRUE EINVAL (negb (is_bound (e_world e))) ;;
  src <- need (bound_src (e_world e)) ;
  _ <- need (if saddr then Some tt else None) ;
  normal (Some (saddr_bytes src))).

Definition lw_accept (self qt new_qd : Z) : fn env (Z * option lwip_object) := body_out None (
  q <- lw_get self ;
  DMTR_TRUE EPERM (lw_listening_flag q) ;;
  DMTR_NOTNULL EINVAL (lw_accept_thread q) ;;
  let new_q := lwip_queue_ctor new_qd in
  ret <- call (lw_on_base self (new_task_queue qt DMTR_OPC_ACCEPT new_qd)) ;
  if negb (ret =? 0) then
    (* [qq] owns the new object and destroys it *)
    call (lw_world (lw_destroy new_q)) ;;
    return_ ret
  else
    lw_modify self (fun q => set_lw_accept_thread (th_enqueue qt <$> lw_accept_thread q) q) ;;
    normal (Some (LwObj new_q))).

Definition lw_listen (self backlog : Z) : fn env Z := body (
  q <- lw_get self ;
  DMTR_TRUE EPERM (negb (lw_listening_flag q)) ;;
  e <- get ;
  DMTR_TRUE EINVAL (is_bound (e_world e)) ;;
  lw_modify self (set_lw_listening_flag true) ;;
  lw_start_threads self ;;
  normal 0).

(** [my_bound_src = malloc(size); *my_bound_src = a;] *)
Definition assign_bound_src (a : sockaddr_in) (size : Z) : stmt env unit :=
  p <- call (lw_world (lw_on_heap (malloc size))) ;
  if p =? 0 then undef
  else call (lw_world (modify (set_my_bound_src (SaddrAt p a)))) ;; normal tt.
(** [our_recv_queues[a] = q; my_recv_queue = q;] for a new queue *)
Definition assign_recv_queue (self : Z) (a : sockaddr_in) : stmt env unit :=
  r <- call (lw_world (p <- new_recv_queue ; set_recv_entry a p ;; normal p)) ;
  match r with
  | inl p => lw_modify self (set_my_recv_queue p)
  | inr _ => undef
  end.

Definition lw_bind (self : Z) (saddr : option (list Z)) (size : Z) : fn env Z := body (
  need_dpdk ;;
  e <- get ;
  DMTR_TRUE EINVAL (negb (is_bound (e_world e))) ;;
  DMTR_NOTNULL EINVAL saddr ;;
  DMTR_TRUE EINVAL (sizeof_sockaddr_in =? size) ;;
  need_port ;;
  dpdk_port_id <- need (our_dpdk_port_id (e_world e)) ;
  mac <- DMTR_OK_out (lw_world (rte_eth_macaddr_get dpdk_port_id)) ;
  ip <- DMTR_OK_out (lw_world (mac_to_ip mac)) ;
  bs <- need saddr ;
  saddr_copy <- need (saddr_of_bytes bs) ;
  DMTR_NONZERO EINVAL (sin_port saddr_copy) ;;
  saddr_copy <- (if INADDR_ANY =? sin_addr saddr_copy then normal (set_saddr_ip ip saddr_copy)
                 else DMTR_TRUE EPERM (sin_addr saddr_copy =? ip) ;; normal saddr_copy) ;
  DMTR_TRUE EINVAL (bool_decide (our_recv_queues (e_world e) !! saddr_copy = None)) ;;
  assign_bound_src saddr_copy size ;;
  assign_recv_queue self saddr_copy ;;
  normal 0).

Definition lw_connect (self qt : Z) (saddr : option (list Z)) (size : Z) : fn env Z := body (
  need_dpdk ;;
  DMTR_TRUE EINVAL (sizeof_sockaddr_in =? size) ;;
  e <- get ;
  DMTR_TRUE EPERM (negb (is_bound (e_world e))) ;;
  q <- lw_get self ;
  DMTR_TRUE EPERM (negb (is_connected q)) ;;
  need_port ;;
  dpdk_port_id <- need (our_dpdk_port_id (e_world e)) ;
  bs <- need saddr ;
  saddr_copy <- need (saddr_of_bytes bs) ;
  lw_modify self (set_my_default_dst (Some saddr_copy)) ;;
  DMTR_NONZERO EINVAL (sin_port saddr_copy) ;;
  DMTR_NONZERO EINVAL (sin_addr saddr_copy) ;;
  DMTR_TRUE EINVAL (sin_family saddr_copy =? AF_INET) ;;
  assign_recv_queue self saddr_copy ;;
  mac <- DMTR_OK_out (lw_world (rte_eth_macaddr_get dpdk_port_id)) ;
  ip <- DMTR_OK_out (lw_world (mac_to_ip mac)) ;
  ip <- (if ip =? 0 then d <- need (default_src (e_world e)) ; normal (sin_addr d) else normal ip) ;
  assign_bound_src (mk_sockaddr_in AF_INET (htons 12345) ip 0) size ;;
  lw_start_threads self ;;
  DMTR_OK (lw_on_base self (new_task qt DMTR_OPC_CONNECT)) ;;
  t <- DMTR_OK_out (lw_on_base self (get_task_ptr qt)) ;
  DMTR_OK (lw_on_base self (on_slot t (task_complete 0))) ;;
  normal 0).

Definition lw_service_accept (self : Z) : stmt env Z :=
  q <- lw_get self ;
  th <- need (lw_accept_thread q) ;
  ' (ret, th) <- call (service (lw_accept_step self) fuel th) ;
  lw_modify self (set_lw_accept_thread (Some th)) ;;
  normal ret.
Definition lw_service_push (self : Z) : stmt env Z :=
  q <- lw_get self ;
  th <- need (lw_push_thread q) ;
  ' (ret, th) <- call (service (lw_push_step self) fuel th) ;
  lw_modify self (set_lw_push_thread (Some th)) ;;
  normal ret.
Definition lw_service_pop (self : Z) : stmt env Z :=
  q <- lw_get self ;
  th <- need (lw_pop_thread q) ;
  ' (ret, th) <- call (service (lw_pop_step self) fuel th) ;
  lw_modify self (set_lw_pop_thread (Some th)) ;;
  normal ret.

Definition lw_push (self qt : Z) (sga : dmtr_sgarray) : fn env Z := body (
  need_dpdk ;;
  need_port ;;
  q <- lw_get self ;
  DMTR_NOTNULL EINVAL (lw_push_thread q) ;;
  DMTR_OK (lw_on_base self (new_task_sga qt DMTR_OPC_PUSH sga)) ;;
  lw_modify self (fun q => set_lw_push_thread (th_enqueue qt <$> lw_push_thread q) q) ;;
  _ <- lw_service_push self ;
  normal 0).
Definition lw_pop (self qt : Z) : fn env Z := body (
  need_dpdk ;;
  need_port ;;
  q <- lw_get self ;
  DMTR_NOTNULL EINVAL (lw_pop_thread q) ;;
  DMTR_OK (lw_on_base self (new_task qt DMTR_OPC_POP)) ;;
  lw_modify self (fun q => set_lw_pop_thread (th_enqueue qt <$> lw_pop_thread q) q) ;;
  normal 0).

(** The accept worker runs at every 100001st poll of an accept token, over all
    queues. *)
Definition lw_poll_service (self : Z) (op : dmtr_opcode) : stmt env Z :=
  match op with
  | DMTR_OPC_ACCEPT =>
      e <- get ;
      let n := poll_count (e_world e) + 1 in
      if n >? 100000 then
        call (lw_world (modify (set_poll_count 0))) ;;
        lw_service_accept self
      else
        call (lw_world (modify (set_poll_count n))) ;;
        normal EAGAIN
  | DMTR_OPC_PUSH | DMTR_OPC_POP =>
      ret <- lw_service_pop self ;
      if negb (ret =? EAGAIN) && negb (ret =? 0) then normal ret
      else if ret =? EAGAIN then lw_service_push self
      else normal ret
  | DMTR_OPC_CONNECT => normal 0
  | _ => return_ ENOTSUP
  end.
Definition lw_poll (self : Z) (qr_out : dmtr_qresult) (qt : Z) : fn env (Z * dmtr_qresult) :=
  fbind (lw_get self) (fun r => match r with
  | inr _ => undef
  | inl q =>
      match initialize_result (my_qd (lw_base q)) qt qr_out with
      | Ok err qr =>
          fbind (
            DMTR_OK (fret err) ;;
            need_dpdk ;;
            e <- get ;
            DMTR_TRUE EINVAL (lw_good (e_world e) q) ;;
            t <- DMTR_OK_out (lw_on_base self (get_task_ptr qt)) ;
            q <- lw_get self ;
            let op := task_opcode (lw_task t q) in
            ret <- lw_poll_service self op ;
            (if ret =? EAGAIN then normal tt
             else if ret =? 0 then
               q <- lw_get self ;
               if opcode_eqb DMTR_OPC_CONNECT (task_opcode (lw_task t q)) then normal tt else DMTR_UNREACHABLE
             else DMTR_FAIL ret) ;;
            q <- lw_get self ;
            normal (task_poll qr (lw_task t q)))
          (fun r => match r with inl a => fret a | inr e => fret (e, qr) end)
      | _ => undef
      end
  end).

Definition lw_drop (self qt : Z) : fn env Z := lw_on_base self (io_queue_drop qt).

(** ** The vtable *)
Definition lw_vcall (self : Z) (c : vcall) : fn env Z :=
  match c with
  | VSocket d t p => lw_socket self d t p
  | VListen n => lw_listen self n
  | VBind a n => lw_bind self a n
  | VConnect qt a n => lw_connect self qt a n
  | VClose => lw_close self
  | VPush qt sga => lw_push self qt sga
  | VPop qt => lw_pop self qt
  | VDrop qt => lw_drop self qt
  | _ => io_queue_unsupported
  end.

Definition ldispatch {A} (self : Z) (mem : fn memory_queue A) (lw : fn env A) : fn env A := fun e =>
  match e_queues e !! self with
  | None => Undef
  | Some (LMemObj _) => on_object as_lmem LMemObj self mem e
  | Some (LwObj _) => lw e
  end.

Definition lwip_base (o : lwip_object) : io_queue := match o with LMemObj q => mq_base q | LwObj q => lw_base q end.
Definition set_lwip_base (b : io_queue) (o : lwip_object) : lwip_object :=
  match o with LMemObj q => LMemObj (set_mq_base b q) | LwObj q => LwObj (set_lw_base b q) end.

#[export] Instance lwip_vtable : Queue lwip_object W := {|
  q_base := lwip_base;
  set_q_base := set_lwip_base;
  q_vcall p c := ldispatch p (mq_vcall c) (lw_vcall p c);
  q_getsockname p saddr size := ldispatch p (fret (ENOTSUP, None)) (lw_getsockname p saddr size);
  q_accept p qt new_qd := ldispatch p (fret (ENOTSUP, None)) (lw_accept p qt new_qd);
  q_poll p qr qt := ldispatch p (mq_poll qr qt) (lw_poll p qr qt);
  q_destroy o := match o with LMemObj _ => fret tt | LwObj q => lw_destroy q end
|}.
End lwip_queue.
