(* ===== verification/LwipDemux.v ===== *)
(** * Sorting incoming packets

    [service_incoming_packets] of [lwip/lwip_queue.cc] against its contract:
    one mailbox per source address, each message put at the end of its
    source's mailbox, and the first message of a new source also at the end of
    the mailbox of the address it was sent to, which is where a listening
    queue finds connection requests.

    The code never assigns [sin_zero] of its locals [src], [dst] and
    [sga.sga_addr], and mailboxes are found by all sixteen bytes of an address:
    the contract takes what these bytes happen to be, packet by packet. *)
From S2P Require Import Prelude Cmd Types Cast Memory Contents IoQueue UserThread Queue Checksum LwipOs LwipPacket LwipArp LwipWire LwipQueue.

(** ** The contract *)
Definition message : Type := sockaddr_in * list Z.
Abbreviation boxes := (gmap sockaddr_in (list message)).

(** A message for the mailbox of [a], sent to [me]. *)
Definition deliver (a me : sockaddr_in) (m : message) (B : boxes) : boxes :=
  match B !! a with
  | Some ms => <[a := ms ++ [m]]> B
  | None =>
      let B' := <[a := [m]]> B in
      match B' !! me with
      | Some ms => <[me := ms ++ [m]]> B'
      | None => B'
      end
  end.

(** What arrives at the port: a frame with a message, as [LwipWire] describes
    them; an IP packet whose protocol, in its header of 20 bytes, is not UDP; or a
    packet that is not for this host or not IP. *)
Inductive arrival :=
| Frame (d_mac s_mac : list Z) (src dst : sockaddr_in) (data : list Z)
| NotUdp (d_mac s_mac hdr : list Z)
| Noise (d_mac s_mac : list Z) (type : Z).

(** [sin_zero] of the three locals. *)
Record stale := mk_stale { st_src : Z; st_dst : Z; st_sga : Z }.
(** The address as the receiver writes it down over such a local. *)
Definition key (a : sockaddr_in) (z : Z) : sockaddr_in := mk_sockaddr_in AF_INET (sin_port a) (sin_addr a) z.
Definition same_host (a b : sockaddr_in) : bool := (sin_addr a =? sin_addr b) && (sin_port a =? sin_port b).
(** A bound host takes only what is sent to its address. *)
Definition accepts (bnd : option sockaddr_in) (dst : sockaddr_in) : bool :=
  match bnd with Some b => same_host dst b | None => true end.
Definition arrive (bnd : option sockaddr_in) (B : boxes) (x : arrival * stale) : boxes :=
  match x with
  | (Frame _ _ src dst data, z) =>
      if accepts bnd dst then deliver (key src (st_src z)) (key dst (st_dst z)) (key src (st_sga z), data) B else B
  | _ => B
  end.

(** The messages for the mailbox of [a] among those that arrived. *)
Definition from (bnd : option sockaddr_in) (a : sockaddr_in) (xs : list (arrival * stale)) : list message :=
  omap (fun x => match x with
                 | (Frame _ _ src dst data, z) =>
                     if accepts bnd dst && bool_decide (key src (st_src z) = a) then Some (key src (st_sga z), data) else None
                 | _ => None
                 end) xs.
(** What the peer [a] sent to this host. *)
Definition sent_by (bnd : option sockaddr_in) (a : sockaddr_in) (xs : list arrival) : list (list Z) :=
  omap (fun x => match x with
                 | Frame _ _ src dst data => if accepts bnd dst && same_host src a then Some data else None
                 | _ => None
                 end) xs.
(** Nothing was sent to the address [a] and taken. *)
Definition not_sent_to (bnd : option sockaddr_in) (a : sockaddr_in) (xs : list arrival) : Prop :=
  Forall (fun x => match x with Frame _ _ _ dst _ => accepts bnd dst = true -> same_host dst a = false | _ => True end) xs.

(** A source that is no destination finds its messages in its mailbox, in the
    order in which they arrived. *)
Lemma deliver_source me a m B : a <> me -> deliver a me m B !! a = Some (default [] (B !! a) ++ [m]).
Proof.
  intros Hne. unfold deliver. destruct (B !! a) as [ms|] eqn:E; [by rewrite lookup_insert_eq|].
  cbn zeta. destruct (_ !! me); [rewrite lookup_insert_ne by done|]; by rewrite lookup_insert_eq.
Qed.
Lemma deliver_other me b a m B : a <> me -> b <> a -> deliver b me m B !! a = B !! a.
Proof.
  intros Hne Hm. unfold deliver. destruct (B !! b) as [ms|]; [by rewrite lookup_insert_ne|].
  cbn zeta. destruct (_ !! me); [rewrite lookup_insert_ne by done|]; by rewrite lookup_insert_ne.
Qed.
Lemma key_same_host a b z : a = key b z -> same_host b a = true.
Proof. intros ->. unfold same_host. cbn. by rewrite !Z.eqb_refl. Qed.
Lemma arrive_order bnd a xs zs B :
  not_sent_to bnd a xs -> is_Some (B !! a) \/ from bnd a (zip xs zs) <> [] ->
  foldl (arrive bnd) B (zip xs zs) !! a = Some (default [] (B !! a) ++ from bnd a (zip xs zs)).
Proof.
  intros Hne. revert zs B. induction Hne as [|x xs Hx _ IH]; intros zs B Hs; [cbn [zip_with foldl from omap list_omap] in *|].
  { destruct Hs as [[ms E]|]; [|done]. rewrite E. cbn. by rewrite app_nil_r. }
  destruct zs as [|z zs]; cbn [zip_with foldl] in *.
  { destruct Hs as [[ms E]|]; [|done]. rewrite E. cbn. by rewrite app_nil_r. }
  destruct x as [dm sm src dst data|dm sm hdr|dm sm ty]; cbn [arrive from omap list_omap] in *; [|by apply IH|by apply IH].
  destruct (accepts bnd dst); cbn [andb] in *; [|by apply IH].
  assert (Hd : a <> key dst (st_dst z)) by (intros E; apply key_same_host in E; rewrite Hx in E; done).
  destruct (decide (key src (st_src z) = a)) as [Hk|Hk].
  - rewrite bool_decide_eq_true_2 in Hs |- * by done. rewrite Hk, IH; rewrite deliver_source by done; [cbn; by rewrite <- app_assoc|by left; eexists].
  - rewrite bool_decide_eq_false_2 in Hs |- * by done. rewrite IH; rewrite deliver_other by done; done.
Qed.
(** If the stale bytes of [src] are always those of [a], the messages of the
    peer [a] are all in its mailbox. *)
Lemma from_sent_by bnd a xs zs :
  length zs = length xs -> Forall (fun z => st_src z = sin_zero a) zs -> sin_family a = AF_INET ->
  snd <$> from bnd a (zip xs zs) = sent_by bnd a xs.
Proof.
  intros Hl Hz Hf. revert zs Hl Hz. induction xs as [|x xs IH]; intros [|z zs] Hl Hz; try done. injection Hl as Hl.
  apply Forall_cons in Hz as [Hz Hzs]. specialize (IH zs Hl Hzs). cbn [zip_with from sent_by omap list_omap] in *.
  destruct x as [dm sm src dst data|dm sm hdr|dm sm ty]; [|exact IH|exact IH]. destruct (accepts bnd dst); cbn [andb]; [|exact IH].
  assert (E : bool_decide (key src (st_src z) = a) = same_host src a).
  { unfold same_host, key. rewrite Hz. destruct a as [fa pa aa za]. cbn in *. subst fa.
    destruct (sin_addr src =? aa) eqn:E1; destruct (sin_port src =? pa) eqn:E2; zbool; cbn [andb].
    all: first [apply bool_decide_eq_true_2; congruence|apply bool_decide_eq_false_2; congruence]. }
  rewrite E. destruct (same_host src a); cbn [fmap list_fmap snd]; [by f_equal|exact IH].
Qed.

(** ** The representation *)
Section demux.
(** [junk]: what the uninitialised [sin_zero]s may be. *)
Context {D : Type} `{DP : Dpdk D} (room : Z) (pool : Z -> Prop) (junk : stale -> Prop).
Abbreviation W := (lworld D).
Abbreviation at_mem h d w := (set_lw_mem h d w).

(** An array as [parse_packet] makes it; its data is not in the memory of the
    packets, [pool]. *)
Definition array_ok (h : heap) (a : dmtr_sgarray) (m : message) : Prop :=
  exists p, a = mk_sgarray 0 1 [mk_sgaseg p (len32 (snd m))] (fst m) /\ holds h p (snd m) /\
    forall x, p <= x < p + len32 (snd m) -> ~ pool x.
Definition box_ok (h : heap) (q : std_queue) (ms : list message) : Prop := Forall2 (array_ok h) (dq_elems q) ms.

Record demux_rel (w : W) (B : boxes) : Prop := {
  dr_box : forall a, match our_recv_queues w !! a, B !! a with
                     | Some p, Some ms => exists q, lw_recv_store w !! p = Some q /\ box_ok (lw_heap w) q ms
                     | None, None => True
                     | _, _ => False
                     end;
  dr_inj : forall a b p, our_recv_queues w !! a = Some p -> our_recv_queues w !! b = Some p -> a = b;
  dr_next : forall p, lw_next_queue w <= p -> lw_recv_store w !! p = None
}.

(** Two states of the card that agree on what a receiver looks at. *)
Definition same_card (d d' : D) : Prop :=
  (forall pkt, d_pktmbuf_mtod pkt d' = d_pktmbuf_mtod pkt d) /\
  (forall port, d_eth_dev_is_valid_port port d' = d_eth_dev_is_valid_port port d) /\
  (forall port, d_eth_macaddr_get port d' = d_eth_macaddr_get port d).
#[local] Instance same_card_preorder : PreOrder same_card.
Proof.
  split; [by intros d|]. intros d1 d2 d3 (H1 & H2 & H3) (G1 & G2 & G3). split; [|split]; intros; by rewrite ?G1, ?G2, ?G3, ?H1, ?H2, ?H3.
Qed.

(** The card, as documented: freeing a packet gives back its [room] bytes and
    touches no other memory.  Of the locals that the code does not initialise only
    their types are known ([sga_segs] has one entry), and that what they happen to
    be is in [junk]. *)
Record card_spec : Prop := {
  cd_room : 0 < room < 2 ^ 32;
  cd_free : forall pkt h d, exists h' d', d_pktmbuf_free pkt h d = (h', d') /\ same_card d d' /\
    h_brk h' = h_brk h /\ h_oom h' = h_oom h /\
    forall x, x < d_pktmbuf_mtod pkt d \/ d_pktmbuf_mtod pkt d + room <= x -> h_cells h' !! x = h_cells h !! x;
  cd_junk : forall d, exists a b g s d', uninitialised d = ((a, b, g), d') /\ same_card d d' /\
    sga_segs g = [s] /\ junk (mk_stale (sin_zero a) (sin_zero b) (sin_zero (sga_addr g)))
}.

(** Packets of the burst in memory, apart from each other. *)
Definition arrived (mac : list Z) (h : heap) (d : D) (pkt : Z) (x : arrival) : Prop :=
  (forall y, d_pktmbuf_mtod pkt d <= y < d_pktmbuf_mtod pkt d + room -> pool y) /\
  match x with
  | Frame d_mac s_mac src dst data =>
      holds h (d_pktmbuf_mtod pkt d) (frame d_mac s_mac src dst data) /\ 50 + len32 data <= room /\
      saddr_ok src /\ saddr_ok dst /\ length d_mac = 6%nat /\ length s_mac = 6%nat /\ (d_mac = mac \/ d_mac = ether_broadcast)
  | NotUdp d_mac s_mac hdr =>
      holds h (d_pktmbuf_mtod pkt d) (d_mac ++ s_mac ++ u16_bytes (htons RTE_ETHER_TYPE_IPV4) ++ hdr) /\ 34 <= room /\
      length hdr = 20%nat /\ hdr !! 9%nat <> Some IPPROTO_UDP /\
      length d_mac = 6%nat /\ length s_mac = 6%nat /\ (d_mac = mac \/ d_mac = ether_broadcast)
  | Noise d_mac s_mac type =>
      holds h (d_pktmbuf_mtod pkt d) (d_mac ++ s_mac ++ u16_bytes (htons type)) /\ 14 <= room /\
      0 <= type < 65536 /\ length d_mac = 6%nat /\ length s_mac = 6%nat /\
      ((d_mac <> mac /\ d_mac <> ether_broadcast) \/ type <> RTE_ETHER_TYPE_IPV4)
  end.
Fixpoint apart (d : D) (pkts : list Z) : Prop :=
  match pkts with
  | [] => True
  | p :: pkts' =>
      (forall p', p' ∈ pkts' -> d_pktmbuf_mtod p d + room <= d_pktmbuf_mtod p' d \/ d_pktmbuf_mtod p' d + room <= d_pktmbuf_mtod p d) /\
      apart d pkts'
  end.

(** What does not change while packets are sorted. *)
Record host_ok (w : W) (mac : list Z) (port : Z) : Prop := {
  ho_port : our_dpdk_port_id w = Some port;
  ho_valid : d_eth_dev_is_valid_port port (lw_dev w) = true;
  ho_mac : d_eth_macaddr_get port (lw_dev w) = mac;
  ho_bound : is_bound w = bool_decide (is_Some (bound_src w));
  ho_memory : forall b n, h_oom (lw_heap w) b n = false;
  ho_fresh : forall x, h_brk (lw_heap w) <= x -> h_cells (lw_heap w) !! x = None;
  ho_pool : forall x, pool x -> x < h_brk (lw_heap w)
}.

(** Memory after a packet was handled: what was outside it is still there. *)
Definition handled (pkt : Z) (d : D) (h h' : heap) : Prop :=
  h_brk h <= h_brk h' /\ h_oom h' = h_oom h /\ (forall x, h_brk h' <= x -> h_cells h' !! x = None) /\
  forall x v, (x < d_pktmbuf_mtod pkt d \/ d_pktmbuf_mtod pkt d + room <= x) -> h_cells h !! x = Some v -> h_cells h' !! x = Some v.

Lemma handled_holds pkt d h h' p bs :
  handled pkt d h h' -> holds h p bs -> p + len32 bs <= d_pktmbuf_mtod pkt d \/ d_pktmbuf_mtod pkt d + room <= p -> holds h' p bs.
Proof.
  intros (_ & _ & _ & Hk) Hh Hd i b Hb. apply Hk; [|by apply Hh].
  pose proof (lookup_lt_Some _ _ _ Hb). unfold len32 in Hd. lia.
Qed.

(** [parse_packet] on a packet for another host or of another type. *)
Lemma parse_noise out pkt d_mac s_mac type mac port (w : W) :
  our_dpdk_port_id w = Some port -> d_eth_dev_is_valid_port port (lw_dev w) = true -> d_eth_macaddr_get port (lw_dev w) = mac ->
  holds (lw_heap w) (d_pktmbuf_mtod pkt (lw_dev w)) (d_mac ++ s_mac ++ u16_bytes (htons type)) ->
  0 <= type < 65536 -> length d_mac = 6%nat -> length s_mac = 6%nat ->
  ((d_mac <> mac /\ d_mac <> ether_broadcast) \/ type <> RTE_ETHER_TYPE_IPV4) ->
  parse_packet out pkt w = Ok (false, out) w.
Proof.
  intros Hp Hv Hm Hh Hty Hd Hs Hno. apply wp_eq.
  assert (Ew : w = at_mem (lw_heap w) (lw_dev w) w) by (by destruct w). rewrite Ew.
  pose proof (holds_app_l _ _ _ _ Hh) as H1. apply holds_app_r, holds_app_r in Hh. unfold len32 in Hh. rewrite Hd, Hs in Hh.
  unfold parse_packet, as_bool. rewrite post_fbind, post_sbind, post_get. cbn [lw_dev set_lw_mem]. cbv zeta.
  set (e := d_pktmbuf_mtod pkt (lw_dev w)) in *.
  rewrite post_sbind. eapply post_fetch; [replace (e + 12) with (e + Z.of_nat 6 + Z.of_nat 6) by lia; exact Hh|done|]. cbv beta iota.
  rewrite u16_of_bytes_bytes by apply htons_range. rewrite ntohs_htons by done.
  change (our_dpdk_port_id (at_mem (lw_heap w) (lw_dev w) w)) with (our_dpdk_port_id w). rewrite Hp.
  rewrite post_sbind, post_need. cbv beta iota. rewrite post_sbind, post_DMTR_OK_out.
  eapply post_macaddr; [exact Hv|exact Hm|]. cbn [fst snd]. change (0 =? 0) with true. cbv beta iota.
  rewrite post_sbind. eapply post_fetch; [exact H1|unfold len32; by rewrite Hd|]. cbv beta iota.
  unfold rte_is_same_ether_addr. destruct (decide (d_mac = mac \/ d_mac = ether_broadcast)) as [Hme|Hme].
  - assert (Ht : type <> RTE_ETHER_TYPE_IPV4) by (destruct Hno; naive_solver).
    assert (E1 : negb (bool_decide (mac = d_mac)) && negb (bool_decide (ether_broadcast = d_mac)) = false).
    { destruct Hme as [->| ->]; [by rewrite bool_decide_eq_true_2|].
      rewrite (bool_decide_eq_true_2 (ether_broadcast = _)) by done. apply andb_false_r. }
    rewrite E1. rewrite (proj2 (Z.eqb_neq _ _)) by done. done.
  - rewrite !bool_decide_eq_false_2 by naive_solver. done.
Qed.

(** [parse_packet] on an IP packet that is not UDP. *)
Lemma parse_not_udp out pkt d_mac s_mac hdr mac port (w : W) :
  our_dpdk_port_id w = Some port -> d_eth_dev_is_valid_port port (lw_dev w) = true -> d_eth_macaddr_get port (lw_dev w) = mac ->
  holds (lw_heap w) (d_pktmbuf_mtod pkt (lw_dev w)) (d_mac ++ s_mac ++ u16_bytes (htons RTE_ETHER_TYPE_IPV4) ++ hdr) ->
  length hdr = 20%nat -> hdr !! 9%nat <> Some IPPROTO_UDP -> length d_mac = 6%nat -> length s_mac = 6%nat ->
  (d_mac = mac \/ d_mac = ether_broadcast) -> parse_packet out pkt w = Ok (false, out) w.
Proof.
  intros Hp Hv Hm Hh Hl Hno Hd Hs Hmac. apply wp_eq. set (e := d_pktmbuf_mtod pkt (lw_dev w)) in *.
  pose proof (holds_app_l _ _ _ _ Hh) as F1. apply holds_app_r, holds_app_r in Hh. unfold len32 in Hh. rewrite Hd, Hs in Hh.
  pose proof (holds_app_l _ _ _ _ Hh) as F2. apply holds_app_r in Hh. change (len32 (u16_bytes _)) with 2 in Hh.
  replace (e + Z.of_nat 6 + Z.of_nat 6 + 2) with (e + 14) in Hh by lia. replace (e + Z.of_nat 6 + Z.of_nat 6) with (e + 12) in F2 by lia.
  apply (parse_ethernet False out pkt d_mac port); try done; [by rewrite Hm|].
  assert (Ew : w = at_mem (lw_heap w) (lw_dev w) w) by (by destruct w). rewrite Ew.
  assert (Hslice : forall n m, holds (lw_heap w) (e + 14 + Z.of_nat n) (take m (drop n hdr))).
  { intros n m. apply holds_sub. intros i c Hc. rewrite lookup_drop in Hc. apply Hh in Hc. rewrite <- Hc. f_equal. lia. }
  unfold parse_ip, sizeof_ipv4_hdr. cbv zeta. change (lw_dev (at_mem (lw_heap w) (lw_dev w) w)) with (lw_dev w). fold e.
  rewrite post_sbind. eapply post_fetch; [exact (Hslice 12%nat 4%nat)|unfold len32; rewrite length_take, length_drop, Hl; done|]. cbv beta iota.
  rewrite post_sbind. eapply post_fetch; [exact (Hslice 16%nat 4%nat)|unfold len32; rewrite length_take, length_drop, Hl; done|]. cbv beta iota.
  rewrite post_sbind. eapply post_fetch; [exact (Hslice 9%nat 1%nat)|unfold len32; rewrite length_take, length_drop, Hl; done|]. cbv beta iota.
  rewrite bool_decide_eq_true_2; [done|]. intros E. apply Hno. apply (f_equal (fun l => l !! 0%nat)) in E.
  rewrite lookup_take_lt, lookup_drop in E by lia. exact E.
Qed.

(** ** Placing a packet *)
Definition unchanged (w w' : W) : Prop :=
  our_mbuf_pool w' = our_mbuf_pool w /\ our_dpdk_init_flag w' = our_dpdk_init_flag w /\ our_dpdk_port_id w' = our_dpdk_port_id w /\
  our_mac_to_ip_table w' = our_mac_to_ip_table w /\ our_ip_to_mac_table w' = our_ip_to_mac_table w /\
  my_bound_src w' = my_bound_src w /\ default_src w' = default_src w /\ poll_count w' = poll_count w.
#[local] Instance unchanged_preorder : PreOrder unchanged.
Proof. split; [by intros w|]. unfold unchanged. intros w1 w2 w3 H1 H2. destruct_and!. repeat split; congruence. Qed.
Definition same_mem (w w' : W) : Prop := lw_heap w' = lw_heap w /\ lw_dev w' = lw_dev w /\ unchanged w w'.
#[local] Instance same_mem_preorder : PreOrder same_mem.
Proof.
  split; [by intros w|]. intros w1 w2 w3 (H1 & H2 & H3) (G1 & G2 & G3). split; [congruence|]. split; [congruence|]. by transitivity w2.
Qed.

Lemma insert_unknown a sga (w : W) : our_recv_queues w !! a = None -> insert_recv_queue a sga w = Ok (inl false) w.
Proof. intros E. unfold insert_recv_queue, sbind, fbind, get. by rewrite E. Qed.
Definition pushed (p : Z) (sga : dmtr_sgarray) (q : std_queue) (w : W) : W :=
  set_recv_store (<[p := std_queue_push sga q]> (lw_recv_store w)) (lw_next_queue w) w.
Lemma insert_known a sga p q (w : W) :
  our_recv_queues w !! a = Some p -> lw_recv_store w !! p = Some q ->
  insert_recv_queue a sga w = Ok (inl true) (pushed p sga q w).
Proof.
  intros E1 E2. unfold insert_recv_queue, update_recv_queue, recv_queue_at, sbind, fbind, get. rewrite E1.
  unfold fbind. by rewrite E2.
Qed.

Lemma rel_push w B a p q ms sga m :
  demux_rel w B -> our_recv_queues w !! a = Some p -> lw_recv_store w !! p = Some q -> B !! a = Some ms ->
  array_ok (lw_heap w) sga m -> demux_rel (pushed p sga q w) (<[a := ms ++ [m]]> B).
Proof.
  intros [Hbox Hinj Hnext] Ea Ep EB Hm. split.
  - intros b. cbn [our_recv_queues lw_recv_store lw_heap pushed set_recv_store]. pose proof (Hbox b) as Hb.
    destruct (decide (a = b)) as [<-|Hne].
    + rewrite Ea, lookup_insert_eq. exists (std_queue_push sga q). rewrite lookup_insert_eq. split; [done|].
      rewrite Ea, EB in Hb. destruct Hb as (q' & Eq & Hq). rewrite Ep in Eq. injection Eq as <-.
      unfold box_ok. cbn. apply Forall2_app; [exact Hq|]. by constructor.
    + rewrite lookup_insert_ne by done. destruct (our_recv_queues w !! b) as [p'|] eqn:Eb; [|done].
      destruct (B !! b) as [ms'|]; [|done]. destruct Hb as (q' & Eq & Hq). exists q'. split; [|done].
      rewrite lookup_insert_ne; [done|]. intros <-. apply Hne. by eapply Hinj.
  - exact Hinj.
  - intros p' Hp'. cbn in *. rewrite lookup_insert_ne; [by apply Hnext|]. intros <-. by rewrite Hnext in Ep.
Qed.

(** A new queue for an address that has none. *)
Definition opened (a : sockaddr_in) (w : W) : W :=
  set_our_recv_queues (<[a := lw_next_queue w]> (our_recv_queues w))
    (set_recv_store (<[lw_next_queue w := std_queue_new]> (lw_recv_store w)) (lw_next_queue w + 1) w).
Lemma rel_open w B a : demux_rel w B -> our_recv_queues w !! a = None -> demux_rel (opened a w) (<[a := []]> B).
Proof.
  intros [Hbox Hinj Hnext] Ea.
  assert (Hold : forall b p, our_recv_queues w !! b = Some p -> p <> lw_next_queue w).
  { intros b p Eb ->. pose proof (Hbox b) as Hb. rewrite Eb in Hb. destruct (B !! b); [|done]. destruct Hb as (q & Eq & _).
    by rewrite Hnext in Eq. }
  split.
  - intros b. cbn [our_recv_queues lw_recv_store lw_heap opened set_recv_store set_our_recv_queues].
    destruct (decide (a = b)) as [<-|Hne].
    + rewrite !lookup_insert_eq. exists std_queue_new. split; [done|constructor].
    + rewrite !(lookup_insert_ne _ a b) by done. pose proof (Hbox b) as Hb.
      destruct (our_recv_queues w !! b) as [p|] eqn:Eb; [|done]. destruct (B !! b); [|done].
      destruct Hb as (q & Eq & Hq). exists q. split; [|done]. rewrite lookup_insert_ne; [done|]. apply not_eq_sym. by eapply Hold.
  - intros b c p. cbn [our_recv_queues opened set_our_recv_queues]. rewrite !lookup_insert_Some.
    intros [[<- <-]|[Hb Eb]] [[<- Ep]|[Hc Ec]]; try done.
    + by apply Hold in Ec.
    + subst p. by apply Hold in Eb.
    + by eapply Hinj.
  - intros p Hp. cbn in *. rewrite lookup_insert_ne by lia. apply Hnext. lia.
Qed.

Lemma place_packet_spec w B src me sga m :
  demux_rel w B -> array_ok (lw_heap w) sga m ->
  wp (place_packet (mk_parsed src me sga)) (fun r w' => r = inl tt /\ same_mem w w' /\ demux_rel w' (deliver src me m B)) w.
Proof.
  intros HR Hm. unfold place_packet, deliver. rewrite post_sbind. cbn [pk_src pk_dst pk_sga].
  pose proof (dr_box _ _ HR src) as Hb. destruct (our_recv_queues w !! src) as [p|] eqn:Es.
  - destruct (B !! src) as [ms|] eqn:EB; [|done]. destruct Hb as (q & Eq & Hq).
    eapply post_eq; [by eapply insert_known|]. cbv beta iota. rewrite post_normal. split; [done|]. split; [done|]. by apply rel_push.
  - destruct (B !! src) as [ms|] eqn:EB; [done|]. eapply post_eq; [by apply insert_unknown|]. cbv beta iota.
    rewrite post_sbind. unfold new_recv_queue, post at 1. rewrite post_sbind. unfold set_recv_entry. rewrite post_modify.
    change (set_our_recv_queues _ _) with (opened src w).
    pose proof (rel_open w B src HR Es) as HR1. set (w1 := opened src w) in *.
    assert (E1 : our_recv_queues w1 !! src = Some (lw_next_queue w)) by apply lookup_insert_eq.
    assert (E2 : lw_recv_store w1 !! lw_next_queue w = Some std_queue_new) by apply lookup_insert_eq.
    rewrite post_sbind. eapply post_eq; [by eapply insert_known|]. cbv beta iota.
    assert (HR2 : demux_rel (pushed (lw_next_queue w) sga std_queue_new w1) (<[src := [m]]> B)).
    { rewrite <- (insert_insert_eq B src [m] []). by apply (rel_push w1 _ src _ _ []); [..|apply lookup_insert_eq|]. }
    set (w2 := pushed (lw_next_queue w) sga std_queue_new w1) in *. cbn zeta.
    rewrite post_sbind. pose proof (dr_box _ _ HR2 me) as Hme. destruct (our_recv_queues w2 !! me) as [p'|] eqn:Ep'.
    + destruct (<[src := [m]]> B !! me) as [ms|] eqn:EB'; [|done]. destruct Hme as (q' & Eq' & Hq').
      eapply post_eq; [by eapply insert_known|]. cbv beta iota. rewrite post_modify. split; [done|]. split; [done|].
      destruct (rel_push w2 _ me p' q' ms sga m HR2 Ep' Eq' EB' Hm) as [R1 R2 R3]. by split.
    + destruct (<[src := [m]]> B !! me) as [ms|] eqn:EB'; [done|].
      eapply post_eq; [by apply insert_unknown|]. cbv beta iota. rewrite post_modify. split; [done|]. split; [done|].
      destruct HR2 as [R1 R2 R3]. by split.
Qed.

(** ** One packet *)
Lemma array_mono h h' a m :
  (forall x v, ~ pool x -> h_cells h !! x = Some v -> h_cells h' !! x = Some v) -> array_ok h a m -> array_ok h' a m.
Proof.
  intros Hk (p & -> & Hh & Hp). exists p. split; [done|]. split; [|done]. intros i b Hb. apply Hk; [|by apply Hh].
  apply Hp. pose proof (lookup_lt_Some _ _ _ Hb). unfold len32. lia.
Qed.
Lemma rel_mem w B h d :
  demux_rel w B -> (forall x v, ~ pool x -> h_cells (lw_heap w) !! x = Some v -> h_cells h !! x = Some v) ->
  demux_rel (at_mem h d w) B.
Proof.
  intros [Hbox Hinj Hnext] Hk. split; [|done|done]. intros a. specialize (Hbox a). cbn.
  destruct (our_recv_queues w !! a) as [p|]; [|done]. destruct (B !! a) as [ms|]; [|done].
  destruct Hbox as (q & Eq & Hq). exists q. split; [done|]. eapply Forall2_impl; [exact Hq|]. intros sga m. by apply array_mono.
Qed.

Lemma host_kept w w' mac port pkt :
  host_ok w mac port -> unchanged w w' -> same_card (lw_dev w) (lw_dev w') ->
  handled pkt (lw_dev w) (lw_heap w) (lw_heap w') -> host_ok w' mac port.
Proof.
  intros [H1 H2 H3 H5 H6 H7 H8] Hu (C1 & C2 & C3) (M1 & M2 & M3 & M4). unfold unchanged in Hu. destruct_and!.
  split; try done.
  - congruence.
  - by rewrite C2.
  - by rewrite C3.
  - unfold is_bound, bound_src in *. by match goal with H : my_bound_src w' = _ |- _ => rewrite H end.
  - intros b n. by rewrite M2.
  - intros x Hx. specialize (H8 x Hx). lia.
Qed.
Lemma bound_kept w w' : unchanged w w' -> bound_src w' = bound_src w.
Proof. unfold unchanged, bound_src. intros Hu. destruct_and!. by match goal with H : my_bound_src w' = _ |- _ => rewrite H end. Qed.
Lemma arrived_kept mac h h' d d' pkt pkt' x :
  arrived mac h d pkt' x -> same_card d d' -> handled pkt d h h' ->
  d_pktmbuf_mtod pkt d + room <= d_pktmbuf_mtod pkt' d \/ d_pktmbuf_mtod pkt' d + room <= d_pktmbuf_mtod pkt d ->
  arrived mac h' d' pkt' x.
Proof.
  intros [Hp Hx] (C1 & _ & _) Hh Hd. unfold arrived. rewrite C1. split; [done|].
  destruct x as [dm sm src dst data|dm sm hdr|dm sm ty]; destruct Hx as (Hf & Hr & Hx); (split; [|by split]);
    (eapply handled_holds; [exact Hh|exact Hf|]); destruct_and!.
  - unfold frame. rewrite !len32_app, len32_eth, len32_ip, len32_udp, len32_payload by done. lia.
  - rewrite !len32_app, len32_u16. unfold len32. repeat match goal with H : length _ = _ |- _ => rewrite H end. lia.
  - rewrite !len32_app, len32_u16. unfold len32. repeat match goal with H : length _ = _ |- _ => rewrite H end. lia.
Qed.

(** What a packet does, when it is parsed, freed, and placed or counted. *)
Definition packet_served w B x pkt (r : unit + Z) w' : Prop :=
  r = inl tt /\ demux_rel w' (arrive (bound_src w) B x) /\ unchanged w w' /\ same_card (lw_dev w) (lw_dev w') /\ handled pkt (lw_dev w) (lw_heap w) (lw_heap w').

(** The memory after parsing. *)
Definition parsed_memory (h h2 : heap) : Prop :=
  h_brk h <= h_brk h2 /\ h_oom h2 = h_oom h /\ (forall x, h_brk h2 <= x -> h_cells h2 !! x = None) /\
  forall x v, h_cells h !! x = Some v -> h_cells h2 !! x = Some v.
Lemma grown_parsed h n h2 : 0 <= n -> grown h n h2 -> parsed_memory h h2.
Proof. intros Hn [G1 G2 G3 G4]. split; [lia|done]. Qed.

Lemma packet_freed w mac port pkt h2 d1 :
  card_spec -> host_ok w mac port -> (forall y, d_pktmbuf_mtod pkt (lw_dev w) <= y < d_pktmbuf_mtod pkt (lw_dev w) + room -> pool y) ->
  same_card (lw_dev w) d1 -> parsed_memory (lw_heap w) h2 ->
  exists h3 d3, d_pktmbuf_free pkt h2 d1 = (h3, d3) /\ same_card (lw_dev w) d3 /\ handled pkt (lw_dev w) (lw_heap w) h3 /\
    forall y v, ~ pool y -> h_cells h2 !! y = Some v -> h_cells h3 !! y = Some v.
Proof.
  intros [Croom Cfree Cjunk] [H1 H2 H3 H5 H6 H7 H8] Hpool (C1 & C2 & C3) (G1 & G2 & G3 & G4).
  destruct (Cfree pkt h2 d1) as (h3 & d3 & Ef & (F1 & F2 & F3) & Fb & Fo & Fk). rewrite C1 in Fk. exists h3, d3. split; [exact Ef|].
  split; [split; [|split]; intros; by rewrite ?F1, ?F2, ?F3|]. split.
  - split; [lia|]. split; [congruence|]. split.
    + intros y Hy. rewrite Fk; [apply G3; lia|]. right. rewrite Fb in Hy.
      destruct (decide (y < d_pktmbuf_mtod pkt (lw_dev w) + room)); [|lia].
      destruct (decide (d_pktmbuf_mtod pkt (lw_dev w) <= y)); [assert (Hpy : pool y) by (apply Hpool; lia)
        |assert (Hpy : pool (d_pktmbuf_mtod pkt (lw_dev w))) by (apply Hpool; lia)]; apply H8 in Hpy; lia.
    + intros y v Hy Hv. rewrite Fk by done. by apply G4.
  - intros y v Hy Hv. rewrite Fk; [done|]. destruct (decide (d_pktmbuf_mtod pkt (lw_dev w) <= y < d_pktmbuf_mtod pkt (lw_dev w) + room)); [|lia].
    by exfalso; apply Hy, Hpool.
Qed.

(** The rest of [service_incoming_packets], once the packet is parsed. *)
Lemma parsed_served w B mac port pkt x h2 d1 (valid : bool) out :
  card_spec -> demux_rel w B -> host_ok w mac port ->
  (forall y, d_pktmbuf_mtod pkt (lw_dev w) <= y < d_pktmbuf_mtod pkt (lw_dev w) + room -> pool y) ->
  same_card (lw_dev w) d1 -> parsed_memory (lw_heap w) h2 ->
  (if valid then exists m, array_ok h2 (pk_sga out) m /\ arrive (bound_src w) B x = deliver (pk_src out) (pk_dst out) m B
   else arrive (bound_src w) B x = B) ->
  wp (call (dev_mem (fun h d => let '(h', d') := d_pktmbuf_free pkt h d in (tt, h', d'))) ;;
      if valid then place_packet out
      else modify (fun w => set_counters (in_packets w) (out_packets w) (u64 (invalid_packets w + 1)) w))%cmd
    (packet_served w B x pkt) (at_mem h2 d1 w).
Proof.
  intros Hcard HR Hho Hpool HC Hh2 Hout. destruct (packet_freed w mac port pkt h2 d1 Hcard Hho Hpool HC Hh2) as (h3 & d3 & Ef & HC3 & Hhd & Hkeep).
  destruct Hh2 as (_ & _ & _ & G4). rewrite post_sbind, post_call. unfold post at 1, dev_mem. cbn [lw_heap lw_dev set_lw_mem]. rewrite Ef. cbv beta iota.
  assert (HR3 : demux_rel (at_mem h3 d3 w) B) by (apply rel_mem; [done|]; intros y v Hy Hv; by apply Hkeep, G4).
  change (set_lw_mem h3 d3 (at_mem h2 d1 w)) with (at_mem h3 d3 w). destruct valid.
  - destruct Hout as (m & Ha & E). destruct out as [src dst sga]. cbn [pk_dst pk_src pk_sga] in *.
    eapply post_mono; [apply (place_packet_spec _ B _ _ _ m HR3); by eapply array_mono|].
    cbv beta. intros r w' (-> & (S1 & S2 & S3) & HR'). unfold packet_served. rewrite S1, S2, E. done.
  - rewrite post_modify. unfold packet_served. rewrite Hout. split; [done|]. split; [|done]. destruct HR3 as [R1 R2 R3]. by split.
Qed.

Lemma service_packet_spec w B mac port pkt x :
  card_spec -> demux_rel w B -> host_ok w mac port -> arrived mac (lw_heap w) (lw_dev w) pkt x ->
  wp (service_packet pkt) (fun r w' => exists z, junk z /\ packet_served w B (x, z) pkt r w') w.
Proof.
  intros Hcard HR Hho [Hpool Hx]. pose proof Hho as [H1 H2 H3 H5 H6 H7 H8]. pose proof Hcard as [Croom _ Cjunk].
  unfold service_packet. rewrite post_sbind, post_call. unfold post at 1, dev.
  destruct (Cjunk (lw_dev w)) as (a & b & g & s & d1 & Ej & HC & Jn & Jz). pose proof HC as (C1 & C2 & C3). rewrite Ej. cbv beta iota.
  set (z := mk_stale _ _ _) in Jz. set (w1 := at_mem (lw_heap w) d1 w). rewrite post_sbind, post_call.
  assert (Hrest : forall h2 valid out, parsed_memory (lw_heap w) h2 ->
    (if valid : bool then exists m, array_ok h2 (pk_sga out) m /\ arrive (bound_src w) B (x, z) = deliver (pk_src out) (pk_dst out) m B
     else arrive (bound_src w) B (x, z) = B) ->
    wp (call (dev_mem (fun h d => let '(h', d') := d_pktmbuf_free pkt h d in (tt, h', d'))) ;;
        if valid then place_packet out
        else modify (fun w => set_counters (in_packets w) (out_packets w) (u64 (invalid_packets w + 1)) w))%cmd
      (fun r w' => exists z, junk z /\ packet_served w B (x, z) pkt r w') (at_mem h2 d1 w)).
  { intros h2 valid out Hh2 Ho. eapply post_mono; [by eapply parsed_served|]. cbv beta. intros r w' Hs. by exists z. }
  destruct x as [dm sm src dst data|dm sm hdr|dm sm ty]; destruct Hx as (Hf & Hr & Hx).
  - destruct Hx as (X1 & X1' & X2 & X3 & X4).
    assert (Hf1 : holds (lw_heap w1) (d_pktmbuf_mtod pkt (lw_dev w1)) (frame dm sm src dst data)) by (change (lw_dev w1) with d1; by rewrite C1).
    destruct (accepts (bound_src w) dst) eqn:Eacc.
    + apply (parse_frame False _ s pkt dm sm src dst data); try done.
      * split; [exists port; cbn [lw_dev set_lw_mem]; rewrite C2, C3, H3; split; [exact H1|split; [exact H2|exact X4]]| |apply H6|exact H7].
        change (is_bound w1) with (is_bound w). change (bound_src w1) with (bound_src w). rewrite H5. unfold accepts, same_host in Eacc.
        destruct (bound_src w) as [bd|]; [right|left; by apply bool_decide_eq_false_2; intros []]. exists bd. apply andb_true_iff in Eacc as [E1 E2]. zbool. done.
      * lia.
      * intros h' Hh' Hg. cbv beta iota. cbn [pk_src pk_dst pk_sga].
        apply (Hrest h' true (mk_parsed _ _ _)); [eapply grown_parsed; [|exact Hg]; unfold len32; lia|]. cbn [arrive pk_src pk_dst pk_sga]. rewrite Eacc.
        exists (key src (st_sga z), data). split; [|done]. exists (h_brk (lw_heap w)). split; [done|]. split; [done|]. intros y Hy Hpy. apply H8 in Hpy. lia.
    + apply (parse_headers False _ pkt port dm sm src dst data); try done; [by cbn; rewrite C2|cbn; by rewrite C3, H3|].
      change (for_bound w1 dst) with (accepts (bound_src w) dst). rewrite Eacc, post_normal. cbv iota. rewrite post_fret.
      apply (Hrest (lw_heap w) false (mk_parsed (seen src a) (seen dst b) g)); [split; [lia|done]|]. cbn [arrive]. by rewrite Eacc.
  - destruct Hx as (X1 & X2 & X3 & X4 & X5). eapply post_eq.
    { apply (parse_not_udp _ pkt dm sm hdr mac port w1); try done; [by cbn; rewrite C2|by cbn; rewrite C3|change (lw_dev w1) with d1; by rewrite C1]. }
    cbv beta iota. apply (Hrest (lw_heap w) false (mk_parsed a b g)); [|done]. split; [lia|done].
  - destruct Hx as (X1 & X2 & X3 & X4). eapply post_eq.
    { apply (parse_noise _ pkt dm sm ty mac port w1); try done; [by cbn; rewrite C2|by cbn; rewrite C3|change (lw_dev w1) with d1; by rewrite C1]. }
    cbv beta iota. apply (Hrest (lw_heap w) false (mk_parsed a b g)); [|done]. split; [lia|done].
Qed.

(** ** The burst *)
Lemma apart_kept d d' pkts : same_card d d' -> apart d pkts -> apart d' pkts.
Proof.
  intros (C1 & C2 & C3). induction pkts as [|p pkts IH]; [done|]. intros [Ha Hp]. split; [|by apply IH].
  intros p' Hp'. rewrite !C1. by apply Ha.
Qed.
Lemma service_packets_spec mac port pkts xs w B :
  card_spec -> demux_rel w B -> host_ok w mac port ->
  Forall2 (arrived mac (lw_heap w) (lw_dev w)) pkts xs -> apart (lw_dev w) pkts ->
  wp (service_packets pkts) (fun r w' => exists zs, length zs = length xs /\ Forall junk zs /\
    r = inl tt /\ demux_rel w' (foldl (arrive (bound_src w)) B (zip xs zs)) /\ unchanged w w' /\
    same_card (lw_dev w) (lw_dev w') /\ host_ok w' mac port) w.
Proof.
  intros Hcard HR Hho Hp. revert w B HR Hho Hp. revert xs. induction pkts as [|pkt pkts IH]; intros xs w B HR Hho Hp Ha.
  { inversion Hp; subst. by exists []. }
  inversion Hp as [|? x ? xs' Hx Hxs]; subst. destruct Ha as [Hap Ha]. cbn [service_packets]. rewrite post_sbind.
  eapply post_mono; [eapply service_packet_spec; [exact Hcard|exact HR|exact Hho|exact Hx]|].
  cbv beta. intros r w1 (z & Hz & -> & HR1 & Hu1 & Hc1 & Hh1). pose proof (host_kept _ _ _ _ _ Hho Hu1 Hc1 Hh1) as Hho1.
  eapply post_mono; [apply (IH xs' w1 _ HR1 Hho1)|].
  - apply Forall2_same_length_lookup_2; [by eapply Forall2_length|]. intros i p' x' Ep Ex.
    eapply arrived_kept; [by eapply Forall2_lookup_lr|exact Hc1|exact Hh1|]. apply Hap. by eapply list_elem_of_lookup_2.
  - by eapply apart_kept.
  - cbv beta. intros r w2 (zs & Hl & Hzs & -> & HR2 & Hu2 & Hc2 & Hh2). exists (z :: zs). cbn [length zip_with foldl].
    rewrite (bound_kept _ _ Hu1) in HR2. split; [lia|]. split; [by constructor|]. split; [done|]. split; [done|].
    split; [by transitivity w1|]. split; [by transitivity (lw_dev w1)|done].
Qed.

(** The card hands over the packets [pkts] that carry [xs]; it writes nowhere
    else than to the memory of packets. *)
Record burst (mac : list Z) (port : Z) (h : heap) (d : D) (pkts : list Z) (xs : list arrival) (h1 : heap) (d1 : D) : Prop := {
  bu_rx : d_eth_rx_burst port 0 our_max_queue_depth h d = (pkts, h1, d1);
  bu_card : same_card d d1;
  bu_rest : h_brk h1 = h_brk h /\ h_oom h1 = h_oom h;
  bu_cells : forall x, ~ pool x -> h_cells h1 !! x = h_cells h !! x;
  bu_pkts : Forall2 (arrived mac h1 d1) pkts xs;
  bu_apart : apart d1 pkts
}.

Lemma service_incoming_spec mac port pkts xs h1 d1 w B :
  card_spec -> our_dpdk_init_flag w = true -> demux_rel w B -> host_ok w mac port ->
  burst mac port (lw_heap w) (lw_dev w) pkts xs h1 d1 ->
  wp service_incoming_packets (fun r w' => exists zs, length zs = length xs /\ Forall junk zs /\
    r = (if decide (xs = []) then EAGAIN else 0) /\
    demux_rel w' (foldl (arrive (bound_src w)) B (zip xs zs)) /\ unchanged w w' /\ same_card (lw_dev w) (lw_dev w') /\ host_ok w' mac port) w.
Proof.
  intros Hcard Hinit HR Hho [Brx Bcard [Bb Bo] Bcells Bpkts Bapart]. pose proof Hho as [H1 H2 H3 H5 H6 H7 H8].
  set (w1 := at_mem h1 d1 w).
  assert (Hho1 : host_ok w1 mac port).
  { destruct Bcard as (C1 & C2 & C3). split; try done; cbn.
    - by rewrite C2.
    - by rewrite C3.
    - intros b n. by rewrite Bo.
    - rewrite Bb. intros x Hx. rewrite Bcells; [by apply H7|]. intros Hp. apply H8 in Hp. lia.
    - intros x Hx. rewrite Bb. by apply H8. }
  assert (HR1 : demux_rel w1 B) by (apply rel_mem; [done|]; intros x v Hx Hv; by rewrite Bcells).
  assert (Hrx : rte_eth_rx_burst port 0 (Some tt) 1024 w = Ok (if decide (pkts = []) then (EAGAIN, []) else (0, pkts)) w1).
  { unfold rte_eth_rx_burst, valid_port. apply wp_eq. rewrite post_body_out, post_sbind, post_get, post_sbind, post_DMTR_TRUE, Hinit.
    rewrite 2!post_sbind, post_get, post_DMTR_TRUE, H2. rewrite post_sbind. unfold DMTR_NOTNULL. rewrite post_DMTR_TRUE.
    rewrite post_sbind, post_call. unfold post at 1, dev_mem. unfold our_max_queue_depth in Brx. rewrite Brx. by destruct pkts. }
  unfold service_incoming_packets. rewrite post_body, post_sbind, post_get, post_sbind, post_DMTR_TRUE, Hinit.
  rewrite post_sbind, post_DMTR_TRUE, H1. change (bool_decide (is_Some (Some port))) with true. cbv beta iota.
  rewrite post_sbind, post_need. cbv beta iota. rewrite post_sbind, post_DMTR_OK_out, post_fret.
  change (dmtr_sztou16 (Some 0) our_max_queue_depth) with (0, Some 1024). cbn [fst snd]. change (0 =? 0) with true. cbv beta iota.
  rewrite post_sbind, post_need. cbv beta iota. rewrite post_sbind, post_call. eapply post_eq; [exact Hrx|]. cbv beta.
  destruct (decide (pkts = [])) as [->|Hne].
  - inversion Bpkts; subst. rewrite decide_True by done. change (EAGAIN =? 0) with false. change (EAGAIN =? EAGAIN) with true. cbv iota.
    rewrite post_return. by exists [].
  - rewrite decide_False by (intros ->; inversion Bpkts; subst; done). change (0 =? 0) with true. cbv iota.
    rewrite post_sbind. eapply post_mono; [apply (service_packets_spec mac port pkts xs w1 B); done|].
    cbv beta. intros r w2 (zs & Hl & Hzs & -> & HR2 & Hu2 & Hc2 & Hh2). rewrite post_normal. exists zs. split; [done|]. split; [done|].
    split; [done|]. split; [done|]. split; [exact Hu2|]. split; [|done]. transitivity d1; [exact Bcard|exact Hc2].
Qed.

(** C17: the receive queues are mailboxes.  When the card hands over a burst
    [xs], [service_incoming_packets] sorts it: the queues then hold what the
    mailboxes of the contract hold after the packets arrived one by one, and
    nothing else of the process has changed; without packets it answers [EAGAIN].
    A packet for another host, of another type, of another protocol than UDP, or,
    if the host is bound, for another address or port, is dropped ([arrive]).  The
    mailbox of a packet is named by the address of its source and by [zs], what
    [sin_zero] of the locals that the code does not initialise happens to be: any
    bytes.  A mailbox that is no destination gets the messages from its source in
    the order in which they arrived, behind those that were there; all of them
    are in one mailbox when [sin_zero] of [src] always is the same. *)
Theorem lwip_demux mac port pkts xs h1 d1 w B :
  card_spec -> our_dpdk_init_flag w = true -> demux_rel w B -> host_ok w mac port ->
  burst mac port (lw_heap w) (lw_dev w) pkts xs h1 d1 ->
  wp service_incoming_packets (fun r w' =>
    r = (if decide (xs = []) then EAGAIN else 0) /\ unchanged w w' /\
    exists zs, length zs = length xs /\ Forall junk zs /\
      let B' := foldl (arrive (bound_src w)) B (zip xs zs) in demux_rel w' B' /\
      forall a, not_sent_to (bound_src w) a xs ->
        let ms := from (bound_src w) a (zip xs zs) in
        (is_Some (B !! a) \/ ms <> [] ->
          exists p q, our_recv_queues w' !! a = Some p /\ lw_recv_store w' !! p = Some q /\
            box_ok (lw_heap w') q (default [] (B !! a) ++ ms)) /\
        (sin_family a = AF_INET -> (forall z, junk z -> st_src z = sin_zero a) -> snd <$> ms = sent_by (bound_src w) a xs)) w.
Proof.
  intros Hcard Hi HR Hho Hb. eapply post_mono; [by eapply service_incoming_spec|]. cbv beta.
  intros r w' (zs & Hl & Hzs & -> & HR' & Hu & _ & _). split; [done|]. split; [done|]. exists zs. split; [done|]. split; [done|]. split; [done|].
  intros a Ha. split.
  - intros Hs. pose proof (arrive_order _ a xs zs B Ha Hs) as E. pose proof (dr_box _ _ HR' a) as Hbox. rewrite E in Hbox.
    destruct (our_recv_queues w' !! a) as [p|]; [|done]. destruct Hbox as (q & Eq & Hq). eauto.
  - intros Hf Hj. apply from_sent_by; [done| |done]. by eapply Forall_impl.
Qed.
End demux.

(** ** An example: the host of [LwipWire] listens; its peer sends twice, with a
    frame for somebody else, a packet of another protocol and a message for
    another port in between. *)
Definition demo_store (p : Z) (bs : list Z) (m : gmap Z (option Z)) : gmap Z (option Z) :=
  default m (store_cells bs p (alloc_cells (length bs) p m)).
Definition demo_frame (dst : sockaddr_in) (data : list Z) : list Z := frame nic_mac demo_peer_mac demo_dst dst data.
Definition demo_noise : list Z := demo_peer_mac ++ nic_mac ++ u16_bytes (htons 0x806).
Definition demo_hdr : list Z := replicate 9 0 ++ [1] ++ replicate 10 0.
Definition demo_icmp : list Z := nic_mac ++ demo_peer_mac ++ u16_bytes (htons RTE_ETHER_TYPE_IPV4) ++ demo_hdr.
Definition demo_elsewhere : sockaddr_in := mk_sockaddr_in 2 (htons 7009) 0x0100000A 0.
Definition demo_rx_cells : gmap Z (option Z) :=
  demo_store 4096 (demo_frame demo_src [1; 2]) (demo_store 4352 demo_noise (demo_store 4608 (demo_frame demo_src [3])
    (demo_store 4864 demo_icmp (demo_store 5120 (demo_frame demo_elsewhere [4]) ∅)))).
Definition demo_rx_heap : heap := mk_heap demo_rx_cells ∅ 8192 (fun _ _ => false).
(** Bound to its address, with one mailbox, here for connection requests. *)
Definition demo_host_with (a : sockaddr_in) : lworld nic :=
  set_our_recv_queues {[ a := 1 ]} (set_recv_store {[ 1 := std_queue_new ]} 2
    (set_my_bound_src (SaddrAt 0 demo_src) (set_lw_mem demo_rx_heap (mk_nic [4096; 4352; 4864; 5120; 4608] [] 0) demo_ready))).
Definition demo_host : lworld nic := demo_host_with (key demo_src 0).
Definition demo_pool (x : Z) : Prop := 4096 <= x < 5376.
(** This card's process finds zeros on its stack. *)
Definition demo_junk (z : stale) : Prop := z = mk_stale 0 0 0.
Definition demo_arrivals : list arrival :=
  [Frame nic_mac demo_peer_mac demo_dst demo_src [1; 2]; Noise demo_peer_mac nic_mac 0x806; NotUdp nic_mac demo_peer_mac demo_hdr;
   Frame nic_mac demo_peer_mac demo_dst demo_elsewhere [4]; Frame nic_mac demo_peer_mac demo_dst demo_src [3]].
Definition demo_boxes : boxes := {[ key demo_src 0 := [] ]}.

Lemma cells_below (m : gmap Z (option Z)) b : bool_decide (map_Forall (fun k _ => k < b) m) = true -> forall x, b <= x -> m !! x = None.
Proof.
  intros Hm x Hx. apply bool_decide_eq_true in Hm. destruct (m !! x) as [v|] eqn:E; [|done]. apply Hm in E. lia.
Qed.
Lemma demo_card : card_spec 256 demo_junk (D := nic).
Proof.
  split; [lia| |].
  - intros pkt h d. exists h, d. done.
  - intros d. exists sockaddr_zero, sockaddr_zero, sgarray_zero, sgaseg_zero, d. done.
Qed.
Lemma one_box_rel k : demux_rel demo_pool (demo_host_with k) {[ k := [] ]}.
Proof.
  split.
  - intros a. change (our_recv_queues _) with ({[ k := 1 ]} : gmap sockaddr_in Z).
    destruct (decide (k = a)) as [<-|Hne]; [|by rewrite !lookup_singleton_ne by done].
    rewrite !lookup_singleton_eq. exists std_queue_new. split; [done|constructor].
  - intros a b p. change (our_recv_queues _) with ({[ k := 1 ]} : gmap sockaddr_in Z).
    rewrite !lookup_singleton_Some. intros [<- _] [<- _]. done.
  - intros p Hp. change (lw_recv_store _) with ({[ 1 := std_queue_new ]} : gmap Z std_queue).
    change (lw_next_queue _) with 2 in Hp. by rewrite lookup_singleton_ne by lia.
Qed.
Lemma demo_rel : demux_rel demo_pool demo_host demo_boxes.
Proof. apply one_box_rel. Qed.
Lemma demo_host_ok k : host_ok demo_pool (demo_host_with k) nic_mac 0.
Proof.
  split; try done.
  - apply cells_below. by vm_compute.
  - unfold demo_pool. change (h_brk (lw_heap (demo_host_with k))) with 8192. lia.
Qed.
Lemma demo_loads p bs : load_cells (length bs) p demo_rx_cells = Some bs -> holds demo_rx_heap p bs.
Proof. intros E. apply (load_holds _ _ (len32 bs)). unfold load_bytes, len32. rewrite Nat2Z.id. cbn [h_cells demo_rx_heap]. by rewrite E. Qed.
Lemma demo_arrived_frame p dst data :
  load_cells (length (demo_frame dst data)) p demo_rx_cells = Some (demo_frame dst data) -> 50 + len32 data <= 256 -> 4096 <= p -> p + 256 <= 5376 ->
  saddr_ok dst -> arrived 256 demo_pool nic_mac demo_rx_heap (mk_nic [] [] 0) p (Frame nic_mac demo_peer_mac demo_dst dst data).
Proof.
  intros Hl Hd Hp Hq Hdst. split; [unfold demo_pool; cbn; lia|]. split; [by apply demo_loads|]. split; [done|].
  split; [split; split; by vm_compute|]. split; [done|]. split; [done|]. split; [done|]. by left.
Qed.
Lemma demo_burst k : burst 256 demo_pool nic_mac 0 (lw_heap (demo_host_with k)) (lw_dev (demo_host_with k)) [4096; 4352; 4864; 5120; 4608] demo_arrivals
  demo_rx_heap (mk_nic [] [] 0).
Proof.
  assert (Hs : saddr_ok demo_src /\ saddr_ok demo_elsewhere) by (split; split; split; by vm_compute).
  split; [done|done|done|done| |].
  - constructor; [apply demo_arrived_frame; [by vm_compute|done|lia|lia|apply Hs]|].
    constructor.
    { split; [unfold demo_pool; cbn; lia|]. split; [apply demo_loads; by vm_compute|]. split; [lia|]. split; [lia|].
      split; [done|]. split; [done|]. by right. }
    constructor.
    { split; [unfold demo_pool; cbn; lia|]. split; [apply demo_loads; by vm_compute|]. split; [lia|]. split; [done|]. split; [done|].
      split; [done|]. split; [done|]. by left. }
    constructor; [apply demo_arrived_frame; [by vm_compute|done|lia|lia|apply Hs]|].
    constructor; [apply demo_arrived_frame; [by vm_compute|done|lia|lia|apply Hs]|constructor].
  - cbn. repeat split; intros p'; rewrite ?elem_of_cons, ?elem_of_nil; lia.
Qed.

Lemma lwip_demux_witness :
  wp service_incoming_packets (fun r w' => r = 0 /\ exists p q ms, our_recv_queues w' !! key demo_dst 0 = Some p /\
    lw_recv_store w' !! p = Some q /\ box_ok demo_pool (lw_heap w') q ms /\ snd <$> ms = [[1; 2]; [3]]) demo_host.
Proof.
  eapply post_mono.
  - exact (lwip_demux 256 demo_pool demo_junk nic_mac 0 _ _ _ _ demo_host demo_boxes demo_card eq_refl demo_rel (demo_host_ok _) (demo_burst _)).
  - cbv beta. intros r w' (Hr & _ & zs & _ & _ & H). split; [exact Hr|]. destruct H as [_ H].
    destruct (H (key demo_dst 0)) as [Hbox Hall].
    { repeat constructor; discriminate. }
    specialize (Hall eq_refl ltac:(intros z ->; reflexivity)).
    destruct Hbox as (p & q & Hp & Hq & Hok); [right; intros E; rewrite E in Hall; discriminate Hall|].
    eexists p, q, _. split; [exact Hp|]. split; [exact Hq|]. split; [exact Hok|exact Hall].
Defined.
