(* ===== verification/LwipIo.v ===== *)
(** * Sending and receiving on DPDK queues

    [push], [pop] and [poll] of [lwip/lwip_queue.cc] from the call that starts
    an operation to the [poll] that reports it: what the push worker hands to
    the card, and what the pop worker takes out of the mailboxes of
    [LwipDemux]. *)
From S2P Require Import Prelude Cmd Types Memory Contents IoQueue UserThread MemoryQueue Queue LwipOs LwipArp LwipPacket LwipWire LwipQueue LwipDemux.

Definition set_lw_slot (t : Z) (tk : task) (q : lwip_queue) : lwip_queue := set_lw_base (set_slot t tk (lw_base q)) q.

Section io.
Context {D : Type} `{DP : Dpdk D} (fuel : nat).
Abbreviation W := (lworld D).
Abbreviation env := (qenv lwip_object W).
Implicit Types (e : env) (q : lwip_queue) (w : W) (qs : gmap Z lwip_object).

Definition with_lw (self : Z) q e : env := set_e_queues (<[self := LwObj q]> (e_queues e)) e.

Lemma post_lw_get bad self q e (Q : lwip_queue + Z -> env -> Prop) :
  e_queues e !! self = Some (LwObj q) -> Q (inl q) e -> post bad (lw_get self) Q e.
Proof. intros Hq HQ. unfold post, lw_get. by rewrite Hq. Qed.
Lemma post_lw_modify bad self (f : lwip_queue -> lwip_queue) q e (Q : unit + Z -> env -> Prop) :
  e_queues e !! self = Some (LwObj q) -> Q (inl tt) (with_lw self (f q) e) -> post bad (lw_modify self f) Q e.
Proof. intros Hq HQ. unfold lw_modify. rewrite post_call. unfold on_object, post. by rewrite Hq. Qed.
Lemma post_lw_on_base {A} bad self (m : fn io_queue A) q a b e (Q : A -> env -> Prop) :
  e_queues e !! self = Some (LwObj q) -> m (lw_base q) = Ok a b -> Q a (with_lw self (set_lw_base b q) e) ->
  post bad (lw_on_base self m) Q e.
Proof. intros Hq Hm HQ. unfold lw_on_base, on_object, zoom, post. rewrite Hq. cbn. by rewrite Hm. Qed.
Lemma post_lw_world {A} bad (m : fn W A) e (Q : A -> env -> Prop) :
  post bad (lw_world m) Q e <-> post bad m (fun a w => Q a (set_e_world w e)) (e_world e).
Proof. unfold lw_world. by rewrite post_zoom. Qed.
Lemma with_lw_same self q e : e_queues e !! self = Some (LwObj q) -> with_lw self q e = e.
Proof. intros Hq. unfold with_lw, set_e_queues. rewrite insert_id by done. by destruct e. Qed.
Lemma set_lw_base_same q : set_lw_base (lw_base q) q = q.
Proof. by destruct q. Qed.

(** [get_task] of a task in use changes nothing. *)
Lemma post_lw_task bad self qt q e (Q : Z + Z -> env -> Prop) :
  e_queues e !! self = Some (LwObj q) -> has_task qt (lw_base q) = true -> Q (inl (task_slot qt)) e ->
  post bad (DMTR_OK_out (lw_on_base self (get_task_ptr qt))) Q e.
Proof.
  intros Hq Ht HQ. rewrite post_DMTR_OK_out. eapply post_lw_on_base; [done|by apply get_task_ptr_valid|].
  cbn [fst snd]. change (0 =? 0) with true. cbv iota. by rewrite set_lw_base_same, with_lw_same.
Qed.

Lemma post_need_dpdk bad e (Q : unit + Z -> env -> Prop) :
  our_dpdk_init_flag (e_world e) = true -> Q (inl tt) e -> post bad need_dpdk Q e.
Proof. intros Hi HQ. unfold need_dpdk. rewrite post_sbind, post_get, post_DMTR_TRUE. by rewrite Hi. Qed.
Lemma post_need_port bad port e (Q : unit + Z -> env -> Prop) :
  our_dpdk_port_id (e_world e) = Some port -> Q (inl tt) e -> post bad need_port Q e.
Proof.
  intros Hi HQ. unfold need_port. rewrite post_sbind, post_get, post_DMTR_TRUE, Hi. by rewrite bool_decide_eq_true_2 by eauto.
Qed.

(** ** Transmitting *)

(** The card is given the packet of task [qt]: it has no room and the worker
    keeps waiting, or it takes it and the task is completed. *)
Section tx.
Context (self port qt pkt : Z) (sga : dmtr_sgarray) (qs : gmap Z lwip_object) (q : lwip_queue) (w : W).
Abbreviation answer := (d_eth_tx_burst port 0 [pkt] (lw_heap w) (lw_dev w)).
Abbreviation taken := answer.1.1.
Abbreviation w1 := (set_lw_mem answer.1.2 answer.2 w).

Definition tx_thread : user_thread lw_push_k :=
  mk_user_thread EAGAIN [] (Some (if taken =? 0 then LwTx port (task_slot qt) pkt else LwPushIdle port)).
Definition tx_queue : lwip_queue :=
  if taken =? 0 then q
  else set_lw_slot (task_slot qt) (completed_task sga (lw_task (task_slot qt) q)) (set_q_packets (q_in_packets q) (u64 (q_out_packets q + 1)) q).
Definition tx_world : W :=
  if taken =? 0 then w1 else set_counters (in_packets w) (u64 (out_packets w + 1)) (invalid_packets w) w1.
(** Afterwards, with the worker where it stopped. *)
Definition after_tx : env := mk_qenv (<[self := LwObj (set_lw_push_thread (Some tx_thread) tx_queue)]> qs) tx_world.

Context (Hq : qs !! self = Some (LwObj q)) (Hsga : my_sga_arg (lw_task (task_slot qt) q) = sga).
Context (Hinit : our_dpdk_init_flag w = true) (Hport : d_eth_dev_is_valid_port port (lw_dev w) = true).
Context (Hbound : is_bound w = true) (Htx : taken = 0 \/ taken = 1).

Lemma rte_tx_eq : rte_eth_tx_burst port 0 (Some [pkt]) w = Ok (if taken =? 0 then (EAGAIN, 0) else (0, taken)) tx_world.
Proof.
  unfold rte_eth_tx_burst, valid_port. apply wp_eq. rewrite post_body_out, post_sbind, post_get, post_sbind, post_DMTR_TRUE, Hinit.
  rewrite 2!post_sbind, post_get, post_DMTR_TRUE, Hport. rewrite post_sbind. unfold DMTR_NOTNULL. rewrite post_DMTR_TRUE.
  rewrite post_sbind, post_need. cbv beta iota. rewrite post_sbind, post_call. unfold post at 1, dev_mem, tx_world.
  destruct Htx as [E|E]; destruct answer as [[n h] d] eqn:Ea; cbn [fst snd] in *; subst n.
  - done.
  - change (1 =? 0) with false. cbv iota. rewrite post_sbind, post_modify, post_normal. done.
Qed.

Lemma run_tx f : (3 <= f)%nat ->
  run (lw_push_step self) f EAGAIN (LwTx port (task_slot qt) pkt) [] (mk_qenv qs w) =
  Ok tx_thread (mk_qenv (<[self := LwObj tx_queue]> qs) tx_world).
Proof.
  intros Hf. destruct f as [|[|[|f]]]; try lia. apply wp_eq. rewrite post_run_step. cbn [lw_push_step].
  rewrite post_in_thread, post_sbind, post_call, post_lw_world. eapply post_eq; [apply rte_tx_eq|]. unfold tx_thread, tx_queue.
  destruct Htx as [-> | ->].
  - change (0 =? 0) with true. cbv iota. change (EAGAIN =? 0) with false. change (EAGAIN =? EAGAIN) with true. cbv iota.
    rewrite post_normal. cbn [snd fst]. split; [done|]. unfold set_e_world. cbn. by rewrite insert_id.
  - change (1 =? 0) with false. cbv iota. change (0 =? 0) with true. cbv iota. rewrite post_sbind, post_DMTR_TRUE. change (1 =? 1) with true. cbv iota.
    rewrite post_sbind. eapply post_lw_modify; [exact Hq|]. rewrite post_sbind. eapply post_lw_get; [apply lookup_insert_eq|].
    change (lw_task (task_slot qt) (set_q_packets _ _ q)) with (lw_task (task_slot qt) q). rewrite Hsga.
    rewrite post_sbind, post_DMTR_OK. eapply post_lw_on_base; [apply lookup_insert_eq|apply on_slot_complete_sga|].
    change (0 =? 0) with true. cbv iota. rewrite post_normal. cbn [snd fst].
    rewrite post_run_step. cbn [lw_push_step]. rewrite post_in_thread, post_sbind, post_get, post_sbind.
    eapply post_lw_get; [apply lookup_insert_eq|]. unfold lw_good. cbn [with_lw set_e_queues set_e_world e_world].
    assert (Hb : is_bound tx_world = true) by (unfold tx_world; by destruct (_ =? 0)). rewrite Hb. cbn [orb]. rewrite post_normal. cbn [snd fst].
    rewrite post_run_step. cbn [lw_push_step]. rewrite post_in_thread, post_normal. cbn [snd fst]. split; [done|].
    unfold with_lw, set_e_queues, set_e_world. cbn [e_queues e_world]. by rewrite insert_insert_eq.
Qed.
End tx.

(** ** The services of the workers *)
Abbreviation answer_of th := (if th_done th then if th_error th =? EAGAIN then ENOTSUP else th_error th else EAGAIN).
Lemma post_service_push bad self q k tq e (Q : Z + Z -> env -> Prop) :
  e_queues e !! self = Some (LwObj q) -> lw_push_thread q = Some (mk_user_thread EAGAIN tq (Some k)) ->
  post bad (run (lw_push_step self) fuel EAGAIN k tq) (fun th e' => exists q', e_queues e' !! self = Some (LwObj q') /\
    Q (inl (answer_of th)) (with_lw self (set_lw_push_thread (Some th) q') e')) e ->
  post bad (lw_service_push fuel self) Q e.
Proof.
  intros Hq Hth HQ. unfold lw_service_push. rewrite post_sbind. eapply post_lw_get; [done|]. rewrite Hth, post_sbind, post_need.
  rewrite post_sbind, post_call, post_service. eapply post_mono; [exact HQ|]. cbv beta. intros th e' (q' & Hq' & HQ').
  rewrite post_sbind. by eapply post_lw_modify.
Qed.
Lemma post_service_pop bad self q k tq e (Q : Z + Z -> env -> Prop) :
  e_queues e !! self = Some (LwObj q) -> lw_pop_thread q = Some (mk_user_thread EAGAIN tq (Some k)) ->
  post bad (run (lw_pop_step self) fuel EAGAIN k tq) (fun th e' => exists q', e_queues e' !! self = Some (LwObj q') /\
    Q (inl (answer_of th)) (with_lw self (set_lw_pop_thread (Some th) q') e')) e ->
  post bad (lw_service_pop fuel self) Q e.
Proof.
  intros Hq Hth HQ. unfold lw_service_pop. rewrite post_sbind. eapply post_lw_get; [done|]. rewrite Hth, post_sbind, post_need.
  rewrite post_sbind, post_call, post_service. eapply post_mono; [exact HQ|]. cbv beta. intros th e' (q' & Hq' & HQ').
  rewrite post_sbind. by eapply post_lw_modify.
Qed.
Lemma post_push_idle bad self q port e (Q : Z + Z -> env -> Prop) :
  (1 <= fuel)%nat -> e_queues e !! self = Some (LwObj q) -> lw_push_thread q = idle (LwPushIdle port) -> Q (inl EAGAIN) e ->
  post bad (lw_service_push fuel self) Q e.
Proof.
  intros Hf Hq Hth HQ. eapply post_service_push; [done|done|]. destruct fuel as [|f]; [lia|]. rewrite post_run_step.
  cbn [lw_push_step]. rewrite post_in_thread, post_normal. cbn [snd fst th_done th_coroutine]. exists q. split; [done|].
  replace (set_lw_push_thread _ q) with q by (destruct q; cbn in *; by subst). by rewrite with_lw_same.
Qed.
Lemma post_pop_idle bad self q e (Q : Z + Z -> env -> Prop) :
  (1 <= fuel)%nat -> e_queues e !! self = Some (LwObj q) -> lw_pop_thread q = idle LwPopIdle -> Q (inl EAGAIN) e ->
  post bad (lw_service_pop fuel self) Q e.
Proof.
  intros Hf Hq Hth HQ. eapply post_service_pop; [done|done|]. destruct fuel as [|f]; [lia|]. rewrite post_run_step.
  cbn [lw_pop_step]. rewrite post_in_thread, post_normal. cbn [snd fst th_done th_coroutine]. exists q. split; [done|].
  replace (set_lw_pop_thread _ q) with q by (destruct q; cbn in *; by subst). by rewrite with_lw_same.
Qed.

(** A [poll] of a push or of a pop services the pop worker and, when that
    waits, the push worker. *)
Lemma post_lw_poll bad self q qt qr e (Q : Z * dmtr_qresult -> env -> Prop) :
  e_queues e !! self = Some (LwObj q) -> 0 < my_qd (lw_base q) -> qt <> 0 -> our_dpdk_init_flag (e_world e) = true ->
  lw_good (e_world e) q = true -> has_task qt (lw_base q) = true ->
  task_opcode (lw_task (task_slot qt) q) = DMTR_OPC_PUSH \/ task_opcode (lw_task (task_slot qt) q) = DMTR_OPC_POP ->
  post bad (lw_service_pop fuel self) (fun r e1 => r = inl EAGAIN /\
    post bad (lw_service_push fuel self) (fun r e2 => r = inl EAGAIN /\ exists q2, e_queues e2 !! self = Some (LwObj q2) /\
      Q (task_poll (mk_qresult DMTR_OPC_INVALID (my_qd (lw_base q)) qt (qr_value qr)) (lw_task (task_slot qt) q2)) e2) e1) e ->
  post bad (lw_poll fuel self qr qt) Q e.
Proof.
  intros Hq Hqd Hqt Hi Hg Ht Hop HQ. unfold lw_poll. rewrite post_fbind. eapply post_lw_get; [done|].
  assert (Hir : initialize_result (my_qd (lw_base q)) qt qr = Ok 0 (mk_qresult DMTR_OPC_INVALID (my_qd (lw_base q)) qt (qr_value qr))).
  { unfold initialize_result, body, sbind, fbind, DMTR_TRUE. rewrite (proj2 (Z.gtb_lt _ _)) by lia.
    by rewrite (proj2 (Z.eqb_neq _ _) Hqt). }
  rewrite Hir, post_fbind, post_sbind, post_DMTR_OK, post_fret. change (0 =? 0) with true. cbv iota.
  rewrite post_sbind. eapply post_need_dpdk; [done|]. rewrite post_sbind, post_get, post_sbind, post_DMTR_TRUE, Hg.
  rewrite post_sbind. eapply post_lw_task; [done|done|]. rewrite post_sbind. eapply post_lw_get; [done|].
  assert (Hsv : lw_poll_service fuel self (task_opcode (lw_task (task_slot qt) q)) =
     (ret <- lw_service_pop fuel self ;
      if negb (ret =? EAGAIN) && negb (ret =? 0) then normal ret
      else if ret =? EAGAIN then lw_service_push fuel self else normal ret)%cmd) by (by destruct Hop as [-> | ->]).
  cbv zeta. rewrite Hsv, 2!post_sbind. eapply post_mono; [exact HQ|]. cbv beta. intros r e1 [-> Hp].
  change (EAGAIN =? EAGAIN) with true. change (EAGAIN =? 0) with false. cbn [negb andb]. cbv iota.
  eapply post_mono; [exact Hp|]. cbv beta. intros r e2 [-> (q2 & Hq2 & H2)]. change (EAGAIN =? EAGAIN) with true. cbv iota.
  rewrite post_sbind, post_normal, post_sbind. eapply post_lw_get; [done|]. rewrite post_normal. cbv iota. by rewrite post_fret.
Qed.

(** ** [push] *)

(** A queue with idle workers on which the token [qt] is free. *)
Record lw_open (self qt port : Z) (q : lwip_queue) (qs : gmap Z lwip_object) (w : W) : Prop := {
  lo_queue : qs !! self = Some (LwObj q);
  lo_init : our_dpdk_init_flag w = true;
  lo_port : our_dpdk_port_id w = Some port;
  lo_qd : 0 < my_qd (lw_base q);
  lo_token : qt <> 0;
  lo_free : has_task qt (lw_base q) = false;
  lo_push : lw_push_thread q = idle (LwPushIdle port);
  lo_pop : lw_pop_thread q = idle LwPopIdle
}.
(** Where it sends [sga]. *)
Definition destination (sga : dmtr_sgarray) q : sockaddr_in := default (sga_addr sga) (my_default_dst q).
(** The queue with the task of a push of [sga]. *)
Definition pushing (qt : Z) (sga : dmtr_sgarray) q : lwip_queue :=
  set_lw_slot (task_slot qt) (started DMTR_OPC_PUSH qt (Some sga) None (lw_base q)) q.
(** One packet is taken or not. *)
Definition takes_one (port pkt : Z) : Prop :=
  forall h d, (d_eth_tx_burst port 0 [pkt] h d).1.1 = 0 \/ (d_eth_tx_burst port 0 [pkt] h d).1.1 = 1.

Lemma pushing_task qt sga q : lw_task (task_slot qt) (pushing qt sga q) = started DMTR_OPC_PUSH qt (Some sga) None (lw_base q).
Proof. unfold lw_task, pushing, set_lw_slot. cbn. by rewrite slot_task_set_eq. Qed.

Lemma run_push bad self qt port sga src d_mac s_mac p data room pkt h1 d1 q q1 qs w
    (Q : user_thread lw_push_k -> env -> Prop) :
  qs !! self = Some (LwObj q1) -> lw_base q1 = lw_base (pushing qt sga q) -> my_default_dst q1 = my_default_dst q ->
  sender_ok w src (destination sga q) d_mac ->
  mbuf_given port (our_mbuf_pool w) room s_mac (lw_heap w) (lw_dev w) pkt h1 d1 ->
  sga_numsegs sga = 1 -> sga_segs sga = [mk_sgaseg p (len32 data)] -> holds (lw_heap w) p data -> 0 < len32 data ->
  50 + len32 data <= room -> len32 data + 36 < 65536 -> takes_one port pkt ->
  d_eth_dev_is_valid_port port (d_mbuf_set_len pkt (u16 (50 + len32 data)) (50 + len32 data) 1 d1) = true ->
  (4 <= fuel)%nat ->
  (forall h2, holds h2 (d_pktmbuf_mtod pkt d1) (frame d_mac s_mac src (destination sga q) data) ->
     same_outside (d_pktmbuf_mtod pkt d1) (50 + len32 data) h1 h2 ->
     let w2 := set_lw_mem h2 (d_mbuf_set_len pkt (u16 (50 + len32 data)) (50 + len32 data) 1 d1) w in
     Q (tx_thread port qt pkt w2) (mk_qenv (<[self := LwObj (tx_queue port qt pkt sga q1 w2)]> qs) (tx_world port pkt w2))) ->
  post bad (run (lw_push_step self) fuel EAGAIN (LwPushIdle port) [qt]) Q (mk_qenv qs w).
Proof.
  intros Hq Hb Hd Hs Hm Hn Hsegs Hh Hpos Hroom Hlt Htx Hport Hf HQ. pose proof Hf as Hf'. destruct fuel as [|f] eqn:Ef; [lia|].
  assert (Htask : lw_task (task_slot qt) q1 = started DMTR_OPC_PUSH qt (Some sga) None (lw_base q)).
  { unfold lw_task. rewrite Hb. apply pushing_task. }
  rewrite post_run_step. cbn [lw_push_step]. rewrite post_in_thread, post_sbind.
  eapply post_lw_task; [exact Hq| |].
  { rewrite has_task_slot. change (slot_task _ (lw_base q1)) with (lw_task (task_slot qt) q1). by rewrite Htask. }
  rewrite post_sbind. eapply post_lw_get; [exact Hq|]. cbv zeta. rewrite Htask. unfold task_arg_sga.
  change (my_sga_arg (started _ qt (Some sga) _ _)) with sga.
  rewrite Hn. change (0 =? 1) with false. cbv iota. rewrite post_sbind, post_DMTR_TRUE, post_sbind, post_need.
  rewrite post_sbind, post_DMTR_OK_out.
  eapply post_eq; [apply (sgalen_one _ p data); [done|done|change (2 ^ 32) with 4294967296; lia]|].
  cbn [fst snd]. change (0 =? 0) with true. cbv iota. rewrite post_sbind, post_need.
  rewrite (proj2 (Z.eqb_neq (len32 data) 0)) by lia. rewrite Hd, post_sbind, post_call, post_lw_world.
  change (match my_default_dst q with Some a => a | None => sga_addr sga end) with (destination sga q). cbn [e_world].
  eapply build_packet_spec; [exact Hs|exact Hm|exact Hn|exact Hsegs|exact Hh|exact Hpos|exact Hroom|exact Hlt|].
  intros h2 Hh2 Hs2. cbv beta iota. rewrite post_normal. cbn [snd fst].
  set (w2 := set_lw_mem h2 _ w) in *. destruct Hs as [S1 _ S3 _ _].
  eapply post_eq; [|by apply HQ]. change (set_e_world w2 (mk_qenv qs w)) with (mk_qenv qs w2).
  apply run_tx; try done; [by rewrite Htask|by eapply bound_is_bound|lia].
Qed.

Lemma tx_queue_thread port qt pkt sga q w th th' :
  set_lw_push_thread th (tx_queue port qt pkt sga (set_lw_push_thread th' q) w) = set_lw_push_thread th (tx_queue port qt pkt sga q w).
Proof. unfold tx_queue. by destruct (_ =? 0). Qed.

Lemma lw_push_eq self qt port sga src d_mac s_mac p data room pkt h1 d1 q qs w :
  lw_open self qt port q qs w -> sender_ok w src (destination sga q) d_mac ->
  mbuf_given port (our_mbuf_pool w) room s_mac (lw_heap w) (lw_dev w) pkt h1 d1 ->
  sga_numsegs sga = 1 -> sga_segs sga = [mk_sgaseg p (len32 data)] -> holds (lw_heap w) p data -> 0 < len32 data ->
  50 + len32 data <= room -> len32 data + 36 < 65536 -> takes_one port pkt ->
  d_eth_dev_is_valid_port port (d_mbuf_set_len pkt (u16 (50 + len32 data)) (50 + len32 data) 1 d1) = true ->
  (4 <= fuel)%nat ->
  wp (lw_push fuel self qt sga) (fun r e' => r = 0 /\ exists h2,
     holds h2 (d_pktmbuf_mtod pkt d1) (frame d_mac s_mac src (destination sga q) data) /\
     same_outside (d_pktmbuf_mtod pkt d1) (50 + len32 data) h1 h2 /\
     e' = after_tx self port qt pkt sga qs (pushing qt sga q)
            (set_lw_mem h2 (d_mbuf_set_len pkt (u16 (50 + len32 data)) (50 + len32 data) 1 d1) w)) (mk_qenv qs w).
Proof.
  intros [] Hs Hm Hn Hsegs Hh Hpos Hroom Hlt Htx Hport Hf. unfold lw_push. rewrite post_body, post_sbind.
  eapply post_need_dpdk; [done|]. rewrite post_sbind. eapply post_need_port; [done|]. rewrite post_sbind.
  eapply post_lw_get; [done|]. rewrite post_sbind. unfold DMTR_NOTNULL. rewrite post_DMTR_TRUE, lo_push0. unfold idle at 1.
  rewrite post_sbind, post_DMTR_OK. eapply post_lw_on_base; [done| |].
  { rewrite new_task_sga_cases by done. rewrite lo_free0, Hn, (proj2 (Z.eqb_neq _ _) lo_token0). done. }
  change (0 =? 0) with true. cbv iota. rewrite post_sbind. eapply post_lw_modify; [apply lookup_insert_eq|].
  change (set_lw_base _ q) with (pushing qt sga q). rewrite post_sbind.
  set (q1 := set_lw_push_thread _ (pushing qt sga q)).
  change (with_lw self q1 (with_lw self (pushing qt sga q) (mk_qenv qs w))) with (mk_qenv (<[self := LwObj q1]> (<[self := LwObj (pushing qt sga q)]> qs)) w).
  rewrite insert_insert_eq.
  eapply (post_service_push False self q1 (LwPushIdle port) [qt]); [apply lookup_insert_eq| |].
  { unfold q1, pushing, set_lw_slot. cbn. by rewrite lo_push0. }
  eapply (run_push False self qt port sga src d_mac s_mac p data room pkt h1 d1 q q1); try done; [apply lookup_insert_eq|].
  intros h2 Hh2 Hs2. cbv zeta. set (w2 := set_lw_mem h2 _ w). eexists. split; [apply lookup_insert_eq|].
  unfold tx_thread at 1. cbn [th_done th_coroutine]. rewrite post_normal. split; [done|]. exists h2. split; [done|]. split; [done|].
  unfold after_tx, with_lw, set_e_queues. cbn [e_queues e_world]. rewrite !insert_insert_eq. unfold q1. by rewrite tx_queue_thread.
Qed.

(** [poll] while the packet waits for the card. *)
Lemma lw_poll_waiting self qt port pkt sga qr q qs w :
  0 < my_qd (lw_base q) -> qt <> 0 -> lw_pop_thread q = idle LwPopIdle ->
  our_dpdk_init_flag w = true -> is_bound w = true -> d_eth_dev_is_valid_port port (lw_dev w) = true ->
  takes_one port pkt -> (3 <= fuel)%nat ->
  let q1 := set_lw_push_thread (Some (mk_user_thread EAGAIN [] (Some (LwTx port (task_slot qt) pkt)))) (pushing qt sga q) in
  lw_poll fuel self qr qt (mk_qenv (<[self := LwObj q1]> qs) w) =
  Ok (if (d_eth_tx_burst port 0 [pkt] (lw_heap w) (lw_dev w)).1.1 =? 0
      then (EAGAIN, mk_qresult DMTR_OPC_INVALID (my_qd (lw_base q)) qt (qr_value qr))
      else (0, mk_qresult DMTR_OPC_PUSH (my_qd (lw_base q)) qt (qv_sga sga)))
    (after_tx self port qt pkt sga qs (pushing qt sga q) w).
Proof.
  intros Hqd Hqt Hpop Hi Hb Hp Htx Hf q1. apply wp_eq.
  assert (Ht : lw_task (task_slot qt) q1 = started DMTR_OPC_PUSH qt (Some sga) None (lw_base q)) by apply pushing_task.
  apply (post_lw_poll False self q1); try done; [apply lookup_insert_eq|by unfold lw_good; cbn; rewrite Hb|..].
  { rewrite has_task_slot. change (slot_task _ (lw_base q1)) with (lw_task (task_slot qt) q1). by rewrite Ht. }
  { rewrite Ht. by left. }
  eapply post_pop_idle; [lia|apply lookup_insert_eq|done|]. split; [done|].
  eapply post_service_push; [apply lookup_insert_eq|done|].
  eapply post_eq; [apply (run_tx self port qt pkt sga); try done; [apply lookup_insert_eq|by rewrite Ht]|].
  eexists. split; [apply lookup_insert_eq|]. unfold tx_thread at 1. cbn [th_done th_coroutine]. split; [done|].
  eexists. split; [apply lookup_insert_eq|].
  assert (Hans : task_poll (mk_qresult DMTR_OPC_INVALID (my_qd (lw_base q1)) qt (qr_value qr))
      (lw_task (task_slot qt) (set_lw_push_thread (Some (tx_thread port qt pkt w)) (tx_queue port qt pkt sga q1 w))) =
    if (d_eth_tx_burst port 0 [pkt] (lw_heap w) (lw_dev w)).1.1 =? 0
    then (EAGAIN, mk_qresult DMTR_OPC_INVALID (my_qd (lw_base q)) qt (qr_value qr))
    else (0, mk_qresult DMTR_OPC_PUSH (my_qd (lw_base q)) qt (qv_sga sga))).
  { unfold tx_queue. destruct (_ =? 0).
    - change (lw_task _ (set_lw_push_thread _ q1)) with (lw_task (task_slot qt) q1). rewrite Ht. done.
    - unfold lw_task at 1. cbn. rewrite slot_task_set_eq. by rewrite Ht. }
  rewrite Hans. split; [done|]. unfold after_tx, with_lw, set_e_queues, q1. cbn [e_queues e_world].
  by rewrite !insert_insert_eq, tx_queue_thread.
Qed.

(** [poll] of an operation that is completed, with idle workers. *)
Lemma lw_poll_done self qt port qr q qs w op v :
  qs !! self = Some (LwObj q) -> 0 < my_qd (lw_base q) -> qt <> 0 -> our_dpdk_init_flag w = true -> lw_good w q = true ->
  lw_pop_thread q = idle LwPopIdle -> lw_push_thread q = idle (LwPushIdle port) -> (1 <= fuel)%nat ->
  t_valid (lw_task (task_slot qt) q) = true -> my_error (lw_task (task_slot qt) q) = 0 ->
  my_qr (lw_task (task_slot qt) q) = mk_qresult op (my_qd (lw_base q)) qt v -> op = DMTR_OPC_PUSH \/ op = DMTR_OPC_POP ->
  lw_poll fuel self qr qt (mk_qenv qs w) = Ok (0, mk_qresult op (my_qd (lw_base q)) qt v) (mk_qenv qs w).
Proof.
  intros Hq Hqd Hqt Hi Hg Hpop Hpush Hf Hv He Hr Hop. apply wp_eq. apply (post_lw_poll False self q); try done.
  { unfold task_opcode. by rewrite Hr. }
  eapply post_pop_idle; [done|done|done|]. split; [done|]. eapply post_push_idle; [done|done|done|]. split; [done|].
  exists q. split; [done|]. unfold task_poll, task_done. by rewrite He, Hr.
Qed.

(** C19: sending, from the call to its completion.  On a queue with idle
    workers, [push] of a one-segment array answers 0 and hands the card one
    packet whose memory holds the frame of the array's bytes, from the bound
    address to the destination; building it writes nowhere else.  If the card
    takes the packet the task is completed and [poll] returns the array.  If it
    has no room the task stays pending, and every later [poll] offers the card
    the same packet again, answering [EAGAIN] until it is taken. *)
Theorem lwip_push_sends self qt port sga src d_mac s_mac p data room pkt h1 d1 q qs w qr :
  lw_open self qt port q qs w -> sender_ok w src (destination sga q) d_mac ->
  mbuf_given port (our_mbuf_pool w) room s_mac (lw_heap w) (lw_dev w) pkt h1 d1 ->
  sga_numsegs sga = 1 -> sga_segs sga = [mk_sgaseg p (len32 data)] -> holds (lw_heap w) p data -> 0 < len32 data ->
  50 + len32 data <= room -> len32 data + 36 < 65536 -> takes_one port pkt ->
  d_eth_dev_is_valid_port port (d_mbuf_set_len pkt (u16 (50 + len32 data)) (50 + len32 data) 1 d1) = true ->
  (4 <= fuel)%nat ->
  let result := mk_qresult DMTR_OPC_PUSH (my_qd (lw_base q)) qt (qv_sga sga) in
  let taken (w : W) := (d_eth_tx_burst port 0 [pkt] (lw_heap w) (lw_dev w)).1.1 in
  exists h2, let w2 := set_lw_mem h2 (d_mbuf_set_len pkt (u16 (50 + len32 data)) (50 + len32 data) 1 d1) w in
    let sent w := after_tx self port qt pkt sga qs (pushing qt sga q) w in
    holds h2 (d_pktmbuf_mtod pkt d1) (frame d_mac s_mac src (destination sga q) data) /\
    same_outside (d_pktmbuf_mtod pkt d1) (50 + len32 data) h1 h2 /\
    lw_push fuel self qt sga (mk_qenv qs w) = Ok 0 (sent w2) /\
    (taken w2 = 1 -> lw_poll fuel self qr qt (sent w2) = Ok (0, result) (sent w2)) /\
    (taken w2 = 0 -> forall w3, our_dpdk_init_flag w3 = true -> is_bound w3 = true ->
       d_eth_dev_is_valid_port port (lw_dev w3) = true ->
       lw_poll fuel self qr qt (set_e_world w3 (sent w2)) =
         Ok (if taken w3 =? 0 then (EAGAIN, mk_qresult DMTR_OPC_INVALID (my_qd (lw_base q)) qt (qr_value qr)) else (0, result)) (sent w3)).
Proof.
  intros Ho Hs Hm Hn Hsegs Hh Hpos Hroom Hlt Htx Hport Hf result taken.
  pose proof (lw_push_eq self qt port sga src d_mac s_mac p data room pkt h1 d1 q qs w Ho Hs Hm Hn Hsegs Hh Hpos Hroom Hlt Htx Hport Hf) as Hp.
  apply wp_Ok in Hp as (r & e' & Hp & -> & h2 & Hh2 & Hs2 & ->). exists h2. intros w2 sent.
  split; [done|]. split; [done|]. split; [done|]. destruct Ho, Hs. split.
  - intros Ht. unfold sent, after_tx.
    set (q2 := set_lw_push_thread _ _).
    assert (Htask : lw_task (task_slot qt) q2 = completed_task sga (started DMTR_OPC_PUSH qt (Some sga) None (lw_base q))).
    { unfold q2, tx_queue, taken in *. rewrite Ht. change (1 =? 0) with false. cbv iota. unfold lw_task at 1. cbn.
      rewrite slot_task_set_eq. by rewrite pushing_task. }
    change (my_qd (lw_base q)) with (my_qd (lw_base (pushing qt sga q))) in result.
    assert (Hqd2 : my_qd (lw_base q2) = my_qd (lw_base q)).
    { unfold q2, tx_queue. by destruct (_ =? 0). }
    unfold result. change (my_qd (lw_base (pushing qt sga q))) with (my_qd (lw_base q)). rewrite <- Hqd2.
    apply (lw_poll_done self qt port); rewrite ?Htask, ?Hqd2; try done.
    + apply lookup_insert_eq.
    + unfold tx_world. by destruct (_ =? 0).
    + unfold lw_good. assert (is_bound (tx_world port pkt w2) = true) as ->; [|done].
      transitivity (is_bound w2); [unfold tx_world; by destruct (_ =? 0)|by eapply bound_is_bound].
    + unfold q2, tx_queue. by destruct (_ =? 0).
    + unfold q2, tx_thread, taken in *. by rewrite Ht.
    + lia.
    + by left.
  - intros Ht w3 Hi3 Hb3 Hp3. unfold sent at 1, after_tx, set_e_world. cbn [e_queues].
    unfold tx_thread, tx_queue, taken in *. rewrite Ht. change (0 =? 0) with true. cbv iota.
    apply (lw_poll_waiting self qt port pkt sga qr q qs w3); try done. lia.
Qed.
End io.

(** ** [pop] *)

(** Sorting packets keeps the queues that sources have. *)
Section entries.
Context {D : Type} `{DP : Dpdk D}.
Abbreviation W := (lworld D).
Definition entries_kept (w w' : W) : Prop := forall a p, our_recv_queues w !! a = Some p -> our_recv_queues w' !! a = Some p.
#[local] Instance entries_preorder : PreOrder entries_kept.
Proof. split; [by intros w a p|]. intros w1 w2 w3 H1 H2 a p Hp. by apply H2, H1. Qed.
Lemma keeps_insert_recv a sga : keeps entries_kept (insert_recv_queue (D := D) a sga).
Proof.
  unfold insert_recv_queue, update_recv_queue, recv_queue_at. keeps_step; [by keeps_step|].
  destruct (_ !! a); [|by keeps_step]. repeat keeps_step. apply keeps_modify. by intros s b p.
Qed.
Lemma keeps_place out : keeps entries_kept (place_packet (D := D) out).
Proof.
  intros w. unfold place_packet. rewrite post_sbind. unfold insert_recv_queue at 1. rewrite post_sbind, post_get.
  destruct (our_recv_queues w !! pk_src out) as [it|] eqn:E.
  - rewrite post_sbind. unfold update_recv_queue, recv_queue_at. rewrite 2!post_sbind, post_get, post_need.
    destruct (lw_recv_store w !! it); [|done]. rewrite post_modify, post_normal. cbv iota. rewrite post_normal. by intros b p.
  - rewrite post_normal. cbv iota. rewrite post_sbind. unfold new_recv_queue, post at 1. rewrite post_sbind.
    unfold set_recv_entry. rewrite post_modify. set (w1 := set_our_recv_queues _ _).
    assert (H1 : entries_kept w w1).
    { intros a p Hp. cbn. rewrite lookup_insert_ne; [done|]. intros <-. by rewrite E in Hp. }
    assert (H2 : keeps entries_kept (
      _ <- insert_recv_queue (D := D) (pk_src out) (pk_sga out) ; _ <- insert_recv_queue (pk_dst out) (pk_sga out) ;
      modify (fun w => set_counters (u64 (in_packets w + 1)) (out_packets w) (invalid_packets w) w))%cmd).
    { keeps_step; [apply keeps_insert_recv|]. keeps_step; [apply keeps_insert_recv|]. apply keeps_modify. by intros s b p. }
    eapply post_mono; [apply (H2 w1)|]. cbv beta. intros _ w2 H. by transitivity w1.
Qed.
Lemma keeps_dev_entries {A} (f : D -> A * D) : keeps entries_kept (dev f).
Proof. intros w. unfold post, dev. destruct (f (lw_dev w)). by intros b p. Qed.
Lemma keeps_mem_entries {A} (f : heap -> D -> A * heap * D) : keeps entries_kept (dev_mem f).
Proof. intros w. unfold post, dev_mem. destruct (f (lw_heap w) (lw_dev w)) as [[a h] d]. by intros b p. Qed.
Lemma keeps_heap_entries {A} (m : fn heap A) : keeps entries_kept (lw_on_heap (D := D) m).
Proof. intros w. unfold post, lw_on_heap, zoom. destruct (m (lw_heap w)); [by intros b p|done..]. Qed.

(** The steps of a proof that the entries are kept. *)
Ltac entries_step :=
  first
  [ keeps_step
  | apply keeps_modify; by intros ? ? ?
  | apply keeps_dev_entries | apply keeps_mem_entries | apply keeps_heap_entries
  | lazymatch goal with |- keeps _ (if ?x then _ else _) => destruct x end
  | lazymatch goal with |- keeps _ (match ?x with _ => _ end) => destruct x end ].
Lemma keeps_parse_segs n p b segs : keeps entries_kept (parse_segs (D := D) n p b segs).
Proof.
  revert n p b. induction segs as [|s segs IH]; intros n p b; cbn [parse_segs]; unfold fetch, put; repeat entries_step. apply IH.
Qed.
Lemma keeps_parse out pkt : keeps entries_kept (parse_packet (D := D) out pkt).
Proof.
  unfold parse_packet, as_bool, parse_ip, parse_udp, parse_payload, rte_eth_macaddr_get, valid_port, fetch. repeat entries_step; apply keeps_parse_segs.
Qed.
Lemma keeps_service_incoming : keeps entries_kept (service_incoming_packets (D := D)).
Proof.
  assert (Hp : forall pkts, keeps entries_kept (service_packets (D := D) pkts)).
  { intros pkts. induction pkts as [|pkt pkts IH]; cbn [service_packets]; [by keeps_step|]. keeps_step; [|apply IH].
    unfold service_packet. repeat entries_step; [apply keeps_parse|apply keeps_place]. }
  unfold service_incoming_packets, rte_eth_rx_burst, valid_port. repeat entries_step. apply Hp.
Qed.
End entries.

Section pop.
Context {D : Type} `{DP : Dpdk D} (fuel : nat) (room : Z) (pool : Z -> Prop) (junk : stale -> Prop).
Abbreviation W := (lworld D).
Abbreviation env := (qenv lwip_object W).
Abbreviation idle_pop := (mk_user_thread EAGAIN [] (Some LwPopIdle)).
Implicit Types (q : lwip_queue) (w : W) (qs : gmap Z lwip_object) (B : boxes).

(** The front message is taken out of a mailbox. *)
Definition popped (p : Z) (rq : std_queue) w : W := set_recv_store (<[p := std_queue_pop rq]> (lw_recv_store w)) (lw_next_queue w) w.
Lemma rel_pop w B a p rq m ms :
  demux_rel pool w B -> our_recv_queues w !! a = Some p -> lw_recv_store w !! p = Some rq -> B !! a = Some (m :: ms) ->
  demux_rel pool (popped p rq w) (<[a := ms]> B).
Proof.
  intros [Hbox Hinj Hnext] Ea Ep EB. split.
  - intros b. cbn [our_recv_queues lw_recv_store lw_heap popped set_recv_store]. pose proof (Hbox b) as Hb.
    destruct (decide (a = b)) as [<-|Hne].
    + rewrite Ea, lookup_insert_eq. exists (std_queue_pop rq). rewrite lookup_insert_eq. split; [done|].
      rewrite Ea, EB in Hb. destruct Hb as (rq' & Eq & Hq). rewrite Ep in Eq. injection Eq as <-.
      unfold box_ok in *. cbn. by inversion Hq.
    + rewrite lookup_insert_ne by done. destruct (our_recv_queues w !! b) as [p'|] eqn:Eb; [|done].
      destruct (B !! b) as [ms'|]; [|done]. destruct Hb as (rq' & Eq & Hq). exists rq'. split; [|done].
      rewrite lookup_insert_ne; [done|]. intros <-. apply Hne. by eapply Hinj.
  - exact Hinj.
  - intros p' Hp'. cbn in *. rewrite lookup_insert_ne; [by apply Hnext|]. intros <-. by rewrite Hnext in Ep.
Qed.

(** The mailbox of [a] is the queue at [p]. *)
Record mailbox (a : sockaddr_in) (p : Z) w B (ms : list message) (rq : std_queue) : Prop := {
  mx_rel : demux_rel pool w B;
  mx_entry : our_recv_queues w !! a = Some p;
  mx_box : B !! a = Some ms;
  mx_queue : lw_recv_store w !! p = Some rq;
  mx_elems : box_ok pool (lw_heap w) rq ms
}.
Lemma mailbox_intro a p w B : demux_rel pool w B -> our_recv_queues w !! a = Some p ->
  exists ms rq, mailbox a p w B ms rq.
Proof.
  intros HR Ha. pose proof (dr_box _ _ _ HR a) as Hb. rewrite Ha in Hb. destruct (B !! a) as [ms|] eqn:EB; [|done].
  destruct Hb as (rq & Eq & Hq). by exists ms, rq.
Qed.

(** The queue after its task [t] received [sga]. *)
Definition received (t : Z) (sga : dmtr_sgarray) q : lwip_queue :=
  set_q_packets (u64 (q_in_packets q + 1)) (q_out_packets q) (set_lw_slot t (completed_task sga (lw_task t q)) q).

Section worker.
Context (self t p : Z) (a : sockaddr_in) (q : lwip_queue) (qs : gmap Z lwip_object).
Context (Hq : qs !! self = Some (LwObj q)) (Hp : my_recv_queue q = Some p).

Lemma post_recv_empty bad w B ms rq (Q : bool + Z -> env -> Prop) :
  mailbox a p w B ms rq -> Q (inl (match ms with [] => true | _ => false end)) (mk_qenv qs w) ->
  post bad (recv_empty self) Q (mk_qenv qs w).
Proof.
  intros [_ _ _ Mq Me] HQ. unfold recv_empty. rewrite post_sbind. eapply post_lw_get; [exact Hq|].
  rewrite post_sbind, Hp, post_need, post_sbind, post_get, post_sbind. cbn [e_world]. rewrite Mq, post_need, post_normal.
  unfold box_ok in Me. by inversion Me; subst.
Qed.

(** With a message in the box the worker takes it and goes idle. *)
Lemma run_recv_ready f w B m ms rq :
  mailbox a p w B (m :: ms) rq -> is_bound w || is_connected q = true -> (3 <= f)%nat ->
  wp (run (lw_pop_step self) f EAGAIN (LwPopRecv t) []) (fun th e' => th = idle_pop /\ exists sga,
     array_ok pool (lw_heap w) sga m /\
     e' = mk_qenv (<[self := LwObj (received t sga q)]> qs) (popped p rq w)) (mk_qenv qs w).
Proof.
  intros Hm Hg Hf. destruct f as [|[|[|f]]]; try lia. rewrite post_run_step. cbn [lw_pop_step].
  rewrite post_in_thread, post_sbind. eapply post_recv_empty; [exact Hm|]. cbv iota. destruct Hm as [_ _ _ Mq Me].
  unfold box_ok in Me. destruct (dq_elems rq) as [|sga rest] eqn:Eel; inversion Me as [|? ? ? ? Ha _]; subst.
  unfold recv_front. rewrite 2!post_sbind. eapply post_lw_get; [exact Hq|]. rewrite post_sbind, Hp, post_need, post_sbind, post_get, post_sbind.
  cbn [e_world]. rewrite Mq, post_need, post_sbind, Eel. cbn [head]. rewrite post_need, post_normal. cbv beta iota zeta.
  rewrite post_sbind, post_DMTR_OK. eapply post_lw_on_base; [exact Hq|apply on_slot_complete_sga|].
  change (0 =? 0) with true. cbv iota. rewrite post_sbind. unfold recv_pop. rewrite post_sbind, post_call, post_lw_world.
  unfold update_recv_queue, recv_queue_at. rewrite 2!post_sbind, post_get, post_need. cbn [e_world with_lw set_e_queues]. rewrite Mq.
  rewrite post_modify, post_normal. cbv iota.
  rewrite post_sbind. eapply post_lw_modify; [apply lookup_insert_eq|]. rewrite post_normal. cbn [snd fst].
  rewrite post_run_step. cbn [lw_pop_step]. rewrite post_in_thread, post_sbind, post_get, post_sbind.
  eapply post_lw_get; [apply lookup_insert_eq|].
  match goal with |- post _ (if ?c then _ else _) _ _ => change c with (is_bound w || is_connected q) end. rewrite Hg, post_normal. cbn [snd fst].
  rewrite post_run_step. cbn [lw_pop_step]. rewrite post_in_thread, post_normal. cbn [snd fst]. split; [done|].
  exists sga. split; [done|]. unfold with_lw, set_e_queues, set_e_world. cbn [e_queues e_world]. by rewrite insert_insert_eq.
Qed.

(** What arrives when the worker looks at the card. *)
Record arriving (mac : list Z) (port : Z) (xs : list arrival) w : Prop := {
  ar_card : card_spec room junk;
  ar_init : our_dpdk_init_flag w = true;
  ar_host : host_ok pool w mac port;
  ar_burst : exists pkts h1 d1, burst room pool mac port (lw_heap w) (lw_dev w) pkts xs h1 d1
}.
(** The mailboxes the worker finds: it looks at the card only when its own box
    is empty. *)
Definition looked (bnd : option sockaddr_in) (xs : list (arrival * stale)) (ms : list message) B : boxes :=
  match ms with [] => foldl (arrive bnd) B xs | _ => B end.
(** [sin_zero] of the locals, packet by packet. *)
Definition stales (xs : list arrival) (zs : list stale) : Prop := length zs = length xs /\ Forall junk zs.

Lemma card_stales {mac port xs w} : arriving mac port xs w -> exists z, junk z.
Proof. intros [[_ _ Hj] _ _ _]. destruct (Hj (lw_dev w)) as (? & ? & ? & ? & ? & _ & _ & _ & Hz). eauto. Qed.

Definition recv_result (xs : list arrival) (ms : list message) w B (th : user_thread lw_pop_k) (e' : env) : Prop :=
  exists zs w1 ms1 rq1, stales xs zs /\ unchanged w w1 /\ mailbox a p w1 (looked (bound_src w) (zip xs zs) ms B) ms1 rq1 /\
    match ms1 with
    | m :: _ => th = idle_pop /\ exists sga, array_ok pool (lw_heap w1) sga m /\
                  e' = mk_qenv (<[self := LwObj (received t sga q)]> qs) (popped p rq1 w1)
    | [] => th = mk_user_thread EAGAIN [] (Some (LwPopRecv t)) /\ e' = mk_qenv qs w1
    end.

Lemma run_recv f mac port xs w B ms rq :
  mailbox a p w B ms rq -> is_bound w || is_connected q = true -> arriving mac port xs w -> (4 <= f)%nat ->
  wp (run (lw_pop_step self) f EAGAIN (LwPopRecv t) []) (recv_result xs ms w B) (mk_qenv qs w).
Proof.
  intros Hm Hg Har Hf. destruct ms as [|m ms].
  - destruct f as [|f]; [lia|]. rewrite post_run_step. cbn [lw_pop_step]. rewrite post_in_thread, post_sbind.
    eapply post_recv_empty; [exact Hm|]. cbv iota. unfold poll_port. rewrite 2!post_sbind, post_call, post_lw_world.
    destruct Har as [Hcard Hi Hho (pkts & h1 & d1 & Hb)]. pose proof Hm as [HR He _ _ _]. cbn [e_world].
    eapply post_mono; [apply post_and; [by eapply (service_incoming_spec room pool junk mac port pkts xs)|apply keeps_service_incoming]|].
    cbv beta. intros r w1 [(zs & Hl & Hzs & -> & HR1 & Hu & _ & _) Hk].
    destruct (mailbox_intro a p w1 (looked (bound_src w) (zip xs zs) [] B) HR1 (Hk _ _ He)) as (ms1 & rq1 & Hm1).
    assert (Hwait : ms1 = [] -> recv_result xs [] w B (mk_user_thread EAGAIN [] (Some (LwPopRecv t))) (mk_qenv qs w1)).
    { intros ->. exists zs, w1, [], rq1. done. }
    change (set_e_world w1 (mk_qenv qs w)) with (mk_qenv qs w1). destruct (decide (xs = [])) as [->|Hxs].
    + change (EAGAIN =? EAGAIN) with true. cbv iota. rewrite !post_normal. cbn [snd fst]. apply Hwait.
      pose proof (mx_box _ _ _ _ _ _ Hm1) as E1. cbn in E1. rewrite (mx_box _ _ _ _ _ _ Hm) in E1. by injection E1.
    + change (0 =? EAGAIN) with false. cbv iota. eapply post_recv_empty; [exact Hm1|]. cbv iota. rewrite post_normal. cbn [snd fst].
      destruct ms1 as [|m ms1]; [by apply Hwait|]. eapply post_mono; [eapply run_recv_ready; [exact Hm1| |lia]|].
      { rewrite <- Hg. unfold unchanged in Hu. destruct_and!. unfold is_bound. by match goal with H : my_bound_src w1 = _ |- _ => rewrite H end. }
      cbv beta. intros th e' Hth. by exists zs, w1, (m :: ms1), rq1.
  - destruct (card_stales Har) as [z Hz]. eapply post_mono; [eapply run_recv_ready; [exact Hm|exact Hg|lia]|]. cbv beta. intros th e' Hth.
    exists (replicate (length xs) z), w, (m :: ms), rq. split; [|done]. split; [apply length_replicate|by apply Forall_replicate].
Qed.
End worker.

(** A queue whose pop worker has the task [qt], new or already waiting, and
    whose box is that of the address [a]. *)
Record popping (self qt : Z) (a : sockaddr_in) (p : Z) q qs w : Prop := {
  pp_queue : qs !! self = Some (LwObj q);
  pp_recv : my_recv_queue q = Some p;
  pp_entry : our_recv_queues w !! a = Some p;
  pp_good : lw_good w q = true;
  pp_qd : 0 < my_qd (lw_base q);
  pp_token : qt <> 0;
  pp_valid : has_task qt (lw_base q) = true;
  pp_pending : my_error (lw_task (task_slot qt) q) = EAGAIN;
  pp_result : exists v, my_qr (lw_task (task_slot qt) q) = mk_qresult DMTR_OPC_POP (my_qd (lw_base q)) qt v;
  pp_push : exists port, lw_push_thread q = idle (LwPushIdle port);
  pp_pop : lw_pop_thread q = Some (mk_user_thread EAGAIN [qt] (Some LwPopIdle)) \/
           lw_pop_thread q = Some (mk_user_thread EAGAIN [] (Some (LwPopRecv (task_slot qt))))
}.

Lemma popping_run self qt a p q qs w k tq mac port xs B ms rq :
  popping self qt a p q qs w -> lw_pop_thread q = Some (mk_user_thread EAGAIN tq (Some k)) ->
  mailbox a p w B ms rq -> arriving mac port xs w -> (5 <= fuel)%nat ->
  wp (run (lw_pop_step self) fuel EAGAIN k tq) (recv_result self (task_slot qt) p a q qs xs ms w B) (mk_qenv qs w).
Proof.
  intros [] Hth Hm Har Hf. assert (Hg : is_bound w || is_connected q = true) by exact pp_good0. destruct pp_pop0 as [E|E]; rewrite E in Hth; injection Hth as <- <-.
  - destruct fuel as [|f]; [lia|]. rewrite post_run_step. cbn [lw_pop_step]. rewrite post_in_thread, post_sbind.
    eapply post_lw_task; [done|done|]. rewrite post_normal. cbn [snd fst].
    by apply (run_recv self (task_slot qt) p a q qs pp_queue0 pp_recv0 f mac port xs w B ms rq); [..|lia].
  - by apply (run_recv self (task_slot qt) p a q qs pp_queue0 pp_recv0 fuel mac port xs w B ms rq); [..|lia].
Qed.

(** With an empty mailbox and [sin_zero] of [src] always that of [a], what is
    found is what the peer [a] sent. *)
Lemma looked_sent bnd a xs zs B :
  B !! a = Some [] -> stales xs zs -> not_sent_to bnd a xs -> sin_family a = AF_INET -> (forall z, junk z -> st_src z = sin_zero a) ->
  exists ms : list message, looked bnd (zip xs zs) [] B !! a = Some ms /\ snd <$> ms = sent_by bnd a xs.
Proof.
  intros HB [Hl Hzs] Hn Hf Hj. eexists. split; [apply arrive_order; [done|left; by eexists]|]. rewrite HB. cbn [default from_option id app].
  apply from_sent_by; [done| |done]. by eapply Forall_impl.
Qed.

Lemma lw_pop_eq self qt a p q qs w B mac port xs qr :
  popping self qt a p q qs w -> demux_rel pool w B -> arriving mac port xs w -> (5 <= fuel)%nat ->
  wp (lw_poll fuel self qr qt) (fun '(ret, r) e' => exists zs B', stales xs zs /\ demux_rel pool (e_world e') B' /\
      let B1 := looked (bound_src w) (zip xs zs) (default [] (B !! a)) B in
      match B1 !! a with
      | Some (m :: ms) => ret = 0 /\ B' = <[a := ms]> B1 /\
          exists sga, r = mk_qresult DMTR_OPC_POP (my_qd (lw_base q)) qt (qv_sga sga) /\ array_ok pool (lw_heap (e_world e')) sga m
      | _ => ret = EAGAIN /\ B' = B1 /\ exists q', popping self qt a p q' (e_queues e') (e_world e')
      end) (mk_qenv qs w).
Proof.
  intros Hp HR Har Hf. pose proof Hp as []. destruct pp_result0 as [v Hv]. destruct pp_push0 as [port' Hpush].
  destruct (mailbox_intro a p w B HR pp_entry0) as (ms & rq & Hm).
  assert (Hth : exists k tq, lw_pop_thread q = Some (mk_user_thread EAGAIN tq (Some k))) by (destruct pp_pop0 as [E|E]; eauto).
  destruct Hth as (k & tq & Hth).
  apply (post_lw_poll fuel False self q); try done; [apply Har|unfold task_opcode; rewrite Hv; by right|].
  eapply post_service_pop; [done|exact Hth|].
  eapply post_mono; [by eapply (popping_run self qt a p q qs w k tq mac port xs B ms rq)|].
  cbv beta. intros th e' (zs & w1 & ms1 & rq1 & Hzs & Hu & Hm1 & Hres). rewrite (mx_box _ _ _ _ _ _ Hm). cbn [default from_option id].
  destruct ms1 as [|m ms1].
  - destruct Hres as [-> ->]. exists q. split; [done|]. split; [done|].
    eapply post_push_idle; [lia|apply lookup_insert_eq|done|]. split; [done|]. eexists. split; [apply lookup_insert_eq|].
    unfold task_poll, task_done. match goal with |- context [lw_task ?s (set_lw_pop_thread ?th q)] => change (lw_task s (set_lw_pop_thread th q)) with (lw_task s q) end.
    rewrite pp_pending0. change (negb (EAGAIN =? EAGAIN)) with false. cbn [negb]. exists zs, (looked (bound_src w) (zip xs zs) ms B).
    split; [done|]. split; [apply Hm1|]. cbv zeta. rewrite (mx_box _ _ _ _ _ _ Hm1). split; [done|]. split; [done|]. eexists. cbn [e_queues e_world with_lw set_e_queues].
    split; [apply lookup_insert_eq|done|apply Hm1| |done|done|done|done|by exists v|by exists port'|by right].
    unfold lw_good in *. unfold unchanged in Hu. destruct_and!. unfold is_bound in *. match goal with H : my_bound_src w1 = _ |- _ => by rewrite H end.
  - destruct Hres as (-> & sga & Ha & ->). eexists. split; [apply lookup_insert_eq|]. split; [done|].
    eapply post_push_idle; [lia|apply lookup_insert_eq|done|]. split; [done|]. eexists. split; [apply lookup_insert_eq|].
    assert (Ht : lw_task (task_slot qt) (set_lw_pop_thread (Some idle_pop) (received (task_slot qt) sga q)) = completed_task sga (lw_task (task_slot qt) q)).
    { unfold lw_task at 1. cbn. by rewrite slot_task_set_eq. }
    rewrite Ht. unfold task_poll, task_done. cbn [my_error my_qr completed_task set_my_qr set_my_error]. change (negb (0 =? EAGAIN)) with true.
    cbn [negb]. exists zs, (<[a := ms1]> (looked (bound_src w) (zip xs zs) ms B)). split; [done|].
    split; [destruct Hm1; by apply (rel_pop w1 _ a p rq1 m ms1)|]. cbv zeta. rewrite (mx_box _ _ _ _ _ _ Hm1). split; [done|]. split; [done|].
    exists sga. rewrite Hv. by split.
Qed.

(** C18: receiving.  One [poll] of a pop that has not been served: if the
    queue's mailbox holds messages the first one is taken out of it; if it is
    empty the worker lets the card's packets be sorted once ([arrive], with
    whatever [sin_zero] of the uninitialised locals is), and takes the first
    message if there is one now.  The result is an array that holds that message;
    the messages behind it and all other mailboxes stay.  Without a message the
    answer is [EAGAIN] and the operation goes on waiting.  So a queue whose
    mailbox is empty gets the first message its peer sent, if any, and [EAGAIN]
    otherwise, provided that [sin_zero] of the local [src] always is that of the
    address the mailbox is kept under. *)
Theorem lwip_pop_receives self qt a p q qs w B mac port xs qr :
  popping self qt a p q qs w -> demux_rel pool w B -> arriving mac port xs w -> (5 <= fuel)%nat ->
  wp (lw_poll fuel self qr qt) (fun '(ret, r) e' =>
    (exists zs B', stales xs zs /\ demux_rel pool (e_world e') B' /\
      let B1 := looked (bound_src w) (zip xs zs) (default [] (B !! a)) B in
      match B1 !! a with
      | Some (m :: ms) => ret = 0 /\ B' = <[a := ms]> B1 /\
          exists sga, r = mk_qresult DMTR_OPC_POP (my_qd (lw_base q)) qt (qv_sga sga) /\ array_ok pool (lw_heap (e_world e')) sga m
      | _ => ret = EAGAIN /\ B' = B1 /\ exists q', popping self qt a p q' (e_queues e') (e_world e')
      end) /\
    (B !! a = Some [] -> not_sent_to (bound_src w) a xs -> sin_family a = AF_INET -> (forall z, junk z -> st_src z = sin_zero a) ->
      match sent_by (bound_src w) a xs with
      | data :: _ => ret = 0 /\ exists sga from,
          r = mk_qresult DMTR_OPC_POP (my_qd (lw_base q)) qt (qv_sga sga) /\ array_ok pool (lw_heap (e_world e')) sga (from, data)
      | [] => ret = EAGAIN
      end)) (mk_qenv qs w).
Proof.
  intros Hp HR Har Hf. eapply post_mono; [by eapply lw_pop_eq|]. cbv beta. intros [ret r] e' (zs & B' & Hzs & HR' & H). split; [eauto 10|].
  intros HB Hn Hfam Hj. cbv zeta in H. rewrite HB in H.
  change (default [] (Some [])) with (@nil message) in H. destruct (looked_sent (bound_src w) a xs zs B HB Hzs Hn Hfam Hj) as (ms & E & <-). assert (E1 : (looked (bound_src w) (zip xs zs) [] B !! a : option (list message)) = Some ms) by exact E. unfold message in *. rewrite E1 in H. destruct ms as [|[from data] ms]; [apply H|].
  destruct H as (-> & _ & sga & -> & Ha). cbn. split; [done|]. by exists sga, from.
Qed.
End pop.

(** ** Examples: the hosts of [LwipWire] and [LwipDemux] *)
Definition demo_token : Z := mk_qtoken 3 1.
Definition demo_lwip : lwip_queue :=
  mk_lwip_queue (io_queue_ctor NETWORK_Q 3) false (Some demo_dst) (Some 1) None (idle (LwPushIdle 0)) (idle LwPopIdle) 0 0.

Lemma nic_takes_one pkt : takes_one (D := nic) 0 pkt.
Proof. intros h d. cbn. destruct (load_bytes _ _ _); cbn; lia. Qed.

Lemma lwip_push_sends_witness : exists e' h2,
  lw_push 4 3 demo_token demo_sga (mk_qenv {[3 := LwObj demo_lwip]} demo_sender) = Ok 0 e' /\
  holds h2 4096 (frame demo_peer_mac nic_mac demo_src demo_dst demo_data) /\
  lw_poll 4 3 qresult_zero demo_token e' = Ok (0, mk_qresult DMTR_OPC_PUSH 3 demo_token (qv_sga demo_sga)) e'.
Proof.
  assert (Ho : lw_open 3 demo_token 0 demo_lwip {[3 := LwObj demo_lwip]} demo_sender) by (by split; vm_compute).
  destruct (lwip_push_sends 4 3 demo_token 0 demo_sga demo_src demo_peer_mac nic_mac 16 demo_data 256 4096
    (mk_heap (alloc_cells 256 4096 (h_cells demo_sender_heap)) ∅ 4352 (fun _ _ => false)) (mk_nic [] [] 0) demo_lwip
    {[3 := LwObj demo_lwip]} demo_sender qresult_zero Ho demo_sender_ok demo_mbuf eq_refl eq_refl demo_holds eq_refl
    ltac:(by vm_compute) eq_refl (nic_takes_one 4096) eq_refl ltac:(lia)) as (h2 & Hh & _ & Hp & Hpoll & _).
  eexists _, h2. split; [exact Hp|]. split; [exact Hh|]. apply Hpoll. cbn [lw_heap lw_dev set_lw_mem].
  cbn [d_eth_tx_burst nic_dpdk]. cbn [d_mbuf_set_len nic_dpdk nic_len].
  rewrite (holds_load_n _ _ _ _ Hh); [done|]. by vm_compute.
Defined.

Definition demo_popping : lwip_queue :=
  set_my_recv_queue 1 (set_my_default_dst None (set_lw_pop_thread (Some (mk_user_thread EAGAIN [demo_token] (Some LwPopIdle)))
    (set_lw_slot (task_slot demo_token) (started DMTR_OPC_POP demo_token None None (lw_base demo_lwip)) demo_lwip))).

(** The peer is known, and its mailbox empty. *)
Definition demo_peer_host : lworld nic := demo_host_with (key demo_dst 0).
Lemma lwip_pop_receives_witness :
  wp (lw_poll 5 3 qresult_zero demo_token) (fun '(ret, r) e' => ret = 0 /\
    exists sga from, r = mk_qresult DMTR_OPC_POP 3 demo_token (qv_sga sga) /\
      array_ok demo_pool (lw_heap (e_world e')) sga (from, [1; 2]))
    (mk_qenv {[3 := LwObj demo_popping]} demo_peer_host).
Proof.
  eapply post_mono.
  - apply (lwip_pop_receives 5 256 demo_pool demo_junk 3 demo_token (key demo_dst 0) 1 demo_popping {[3 := LwObj demo_popping]} demo_peer_host
      {[ key demo_dst 0 := [] ]} nic_mac 0 demo_arrivals).
    + split; try (by vm_compute); [by exists (qv_sga sgarray_zero)|by exists 0|by left].
    + apply one_box_rel.
    + split; [apply demo_card|done|apply demo_host_ok|]. do 3 eexists. apply demo_burst.
    + lia.
  - intros [ret r] e' [_ H]. apply H; [reflexivity|repeat constructor; discriminate|reflexivity|intros z ->; reflexivity].
Defined.
