(* ===== verification/LwipLaws.v ===== *)
(** * DPDK queues keep the promises of the queue interface

    With these laws the theorems on the API and on the entry points
    ([IoQueueApi], [Wait], [Libos]) hold of the DPDK library OS. *)
From Stdlib Require Import String.
From S2P Require Import Prelude Cmd Types Memory Contents IoQueue UserThread MemoryQueue Queue MemoryVtable IoQueueApi Libos PosixOs LwipOs LwipPacket LwipQueue.

Section laws.
Context {D : Type} `{DP : Dpdk D} (fuel : nat).
Abbreviation env := (qenv lwip_object (lworld D)).
Abbreviation shape := (same_shape (H := lwip_vtable fuel)).

Lemma as_lw_base (o : lwip_object) q : as_lw o = Some q -> lwip_base o = lw_base q.
Proof. by destruct o as [|q']; [|intros [= ->]]. Qed.
Lemma as_lmem_base (o : lwip_object) q : as_lmem o = Some q -> lwip_base o = mq_base q.
Proof. by destruct o as [q'|]; [intros [= ->]|]. Qed.

Lemma keeps_lw_get self : keeps shape (lw_get self).
Proof.
  intros e. unfold post, lw_get. destruct (e_queues e !! self) as [[|q]|]; first [done|apply (same_shape_refl (H := lwip_vtable fuel))].
Qed.
Lemma keeps_lw_modify self f : (forall q, lw_base (f q) = lw_base q) -> keeps shape (lw_modify self f).
Proof.
  intros Hf. apply keeps_call; [apply _|]. intros e.
  apply (on_object_shape (H := lwip_vtable fuel) _ _ lw_base); [apply as_lw_base|done|].
  intros q. unfold post, same_base. by rewrite Hf.
Qed.
Lemma keeps_lw_on_base {A} self (m : fn io_queue A) :
  (forall b, wlp m (fun _ b' => same_base b b') b) -> keeps shape (lw_on_base self m).
Proof.
  intros Hm e. apply (on_object_shape (H := lwip_vtable fuel) _ _ lw_base); [apply as_lw_base|done|].
  intros q. rewrite post_zoom. eapply post_mono; [apply Hm|done].
Qed.
Lemma keeps_lw_world {A} (m : fn (lworld D) A) : keeps shape (lw_world m).
Proof. intros e. unfold post, lw_world, zoom. destruct (m _); first [done|apply (same_shape_world (H := lwip_vtable fuel))]. Qed.
End laws.

Ltac lw_keeps :=
  repeat first
  [ keeps_step
  | apply keeps_lw_get | apply keeps_lw_modify; done | apply keeps_lw_world
  | apply keeps_lw_on_base; first [apply get_task_ptr_base | apply on_slot_base]
  | lazymatch goal with |- keeps _ (if ?x then _ else _) => destruct x end
  | lazymatch goal with |- keeps _ (match ?x with _ => _ end) => destruct x end ].

Section methods.
Context {D : Type} `{DP : Dpdk D} (fuel : nat).
Abbreviation env := (qenv lwip_object (lworld D)).
Abbreviation shape := (same_shape (H := lwip_vtable fuel)).

Lemma keeps_recv_empty self : keeps shape (recv_empty self).
Proof. unfold recv_empty. lw_keeps. Qed.
Lemma keeps_poll_port self : keeps shape (poll_port self).
Proof. unfold poll_port. lw_keeps. apply keeps_recv_empty. Qed.
Lemma keeps_recv_front self : keeps shape (recv_front self).
Proof. unfold recv_front. lw_keeps. Qed.
Lemma keeps_recv_pop p : keeps shape (recv_pop p).
Proof. unfold recv_pop. lw_keeps. Qed.
Lemma keeps_lw_push_step self k tq : keeps shape (lw_push_step self k tq).
Proof.
  destruct k as [| |port|]; [| |destruct tq|]; unfold lw_push_step, need_dpdk, need_port, in_thread, dmtr_sgalen; lw_keeps.
Qed.
Lemma keeps_lw_pop_step self k tq : keeps shape (lw_pop_step self k tq).
Proof.
  destruct k; [| |destruct tq|]; unfold lw_pop_step, need_dpdk, need_port, in_thread; lw_keeps;
    first [apply keeps_recv_empty|apply keeps_poll_port|apply keeps_recv_front|apply keeps_recv_pop].
Qed.
Lemma keeps_lw_start_io self : keeps shape (lw_start_io fuel self).
Proof.
  unfold lw_start_io, user_thread_ctor. lw_keeps; apply keeps_run; try apply _;
    [apply keeps_lw_push_step|apply keeps_lw_pop_step].
Qed.
Lemma keeps_lw_accept_step self k tq : keeps shape (lw_accept_step fuel self k tq).
Proof.
  destruct k; [| |destruct tq|]; unfold lw_accept_step, in_thread; lw_keeps;
    first [apply keeps_recv_empty|apply keeps_poll_port|apply keeps_recv_front|apply keeps_recv_pop|apply keeps_lw_start_io].
Qed.
Lemma keeps_lw_start_threads self : keeps shape (lw_start_threads fuel self).
Proof.
  unfold lw_start_threads, user_thread_ctor. lw_keeps; [|apply keeps_lw_start_io].
  apply keeps_run; [apply _|apply keeps_lw_accept_step].
Qed.
Lemma keeps_lw_service_accept self : keeps shape (lw_service_accept fuel self).
Proof. unfold lw_service_accept. lw_keeps. apply keeps_service; [apply _|apply keeps_lw_accept_step]. Qed.
Lemma keeps_lw_service_push self : keeps shape (lw_service_push fuel self).
Proof. unfold lw_service_push. lw_keeps. apply keeps_service; [apply _|apply keeps_lw_push_step]. Qed.
Lemma keeps_lw_service_pop self : keeps shape (lw_service_pop fuel self).
Proof. unfold lw_service_pop. lw_keeps. apply keeps_service; [apply _|apply keeps_lw_pop_step]. Qed.
Lemma keeps_lw_cmd self c qt : keeps shape (lw_on_base self (run_cmd c qt)).
Proof. apply keeps_lw_on_base, run_cmd_base. Qed.

(** [close] gives back the object it was given, with the same base. *)
Lemma lw_close_obj_base q (w : lworld D) : wlp (lw_close_obj q) (fun r _ => lw_base (snd r) = lw_base q) w.
Proof.
  unfold post, lw_close_obj, delete_recv_queue, fbind, fret. destruct (negb _); [done|]. destruct (negb _); [done|].
  destruct (my_recv_queue q) as [p|]; [|done]. destruct (p =? 0); [done|]. by destruct (_ !! p).
Qed.
Lemma keeps_lw_close self : keeps shape (lw_close self).
Proof.
  unfold lw_close. keeps_step. intros e. rewrite post_sbind. unfold post at 1, lw_get.
  destruct (e_queues e !! self) as [[|q]|] eqn:Eq; try done. rewrite post_sbind, post_call. unfold post at 1, lw_world, zoom.
  pose proof (lw_close_obj_base q (e_world e)) as Hb. unfold post in Hb.
  destruct (lw_close_obj q (e_world e)) as [[ret q'] w'| | |]; try done. cbn [snd] in Hb.
  rewrite post_sbind. unfold lw_modify. rewrite post_call. unfold post, on_object. cbn. rewrite Eq. cbn.
  intros qd. cbn. destruct (decide (self = qd)) as [<-|Hne].
  - rewrite Eq, lookup_insert_eq. cbn. by rewrite Hb.
  - rewrite lookup_insert_ne by done. by destruct (e_queues e !! qd).
Qed.

Lemma keeps_assign_bound_src a n : keeps shape (assign_bound_src a n).
Proof. unfold assign_bound_src. lw_keeps. Qed.
Lemma keeps_assign_recv_queue self a : keeps shape (assign_recv_queue self a).
Proof. unfold assign_recv_queue. lw_keeps. Qed.
Lemma keeps_lw_bind self a n : keeps shape (lw_bind self a n).
Proof.
  unfold lw_bind, need_dpdk, need_port. lw_keeps; first [apply keeps_assign_bound_src|apply keeps_assign_recv_queue].
Qed.
Lemma keeps_lw_connect self qt a n : keeps shape (lw_connect fuel self qt a n).
Proof.
  unfold lw_connect, need_dpdk, need_port. lw_keeps;
    first [apply keeps_assign_bound_src|apply keeps_assign_recv_queue|apply keeps_lw_start_threads
          |exact (keeps_lw_cmd self (CNew DMTR_OPC_CONNECT) qt)].
Qed.
Lemma keeps_lw_listen self n : keeps shape (lw_listen fuel self n).
Proof. unfold lw_listen. lw_keeps. apply keeps_lw_start_threads. Qed.
Lemma keeps_lw_push self qt sga : keeps shape (lw_push fuel self qt sga).
Proof.
  unfold lw_push, need_dpdk, need_port. lw_keeps; [|apply keeps_lw_service_push].
  exact (keeps_lw_cmd self (CNewSga DMTR_OPC_PUSH sga) qt).
Qed.
Lemma keeps_lw_pop self qt : keeps shape (lw_pop self qt).
Proof. unfold lw_pop, need_dpdk, need_port. lw_keeps. exact (keeps_lw_cmd self (CNew DMTR_OPC_POP) qt). Qed.
Lemma keeps_lw_poll self qr qt : keeps shape (lw_poll fuel self qr qt).
Proof.
  unfold lw_poll, need_dpdk, lw_poll_service. lw_keeps;
    first [apply keeps_lw_service_push|apply keeps_lw_service_pop|apply keeps_lw_service_accept].
Qed.
Lemma keeps_lw_getsockname self a n : keeps shape (lw_getsockname self a n).
Proof. unfold lw_getsockname. lw_keeps. Qed.
Lemma keeps_lw_accept self qt qd : keeps shape (lw_accept self qt qd).
Proof. unfold lw_accept. lw_keeps. exact (keeps_lw_cmd self (CNewQueue DMTR_OPC_ACCEPT qd) qt). Qed.
Lemma keeps_lw_vcall self c : keeps shape (lw_vcall fuel self c).
Proof.
  destruct c; cbn [lw_vcall]; unfold io_queue_unsupported; try (by keeps_step).
  - unfold lw_socket, need_dpdk. lw_keeps.
  - apply keeps_lw_listen.
  - apply keeps_lw_bind.
  - apply keeps_lw_connect.
  - apply keeps_lw_close.
  - apply keeps_lw_push.
  - apply keeps_lw_pop.
  - exact (keeps_lw_cmd self CDrop qt).
Qed.

Lemma keeps_ldispatch {A} self (mem : fn memory_queue A) (lw : fn env A) :
  keeps same_mq_base mem -> keeps shape lw -> keeps shape (ldispatch self mem lw).
Proof.
  intros Hm Hl e. unfold post, ldispatch. destruct (e_queues e !! self) as [[q|q]|] eqn:Eq; [|apply Hl|done].
  apply (on_object_shape (H := lwip_vtable fuel) as_lmem LMemObj mq_base); [apply as_lmem_base|done|exact Hm].
Qed.

(** What [accept] hands out. *)
Lemma lw_accept_new self qt qd (e : env) :
  wlp (lw_accept self qt qd) (fun r _ => fst r = 0 -> snd r = Some (LwObj (lwip_queue_ctor qd))) e.
Proof.
  assert (He : returns (
    q <- lw_get (D := D) self ; DMTR_TRUE EPERM (lw_listening_flag q) ;; DMTR_NOTNULL EINVAL (lw_accept_thread q) ;;
    let new_q := lwip_queue_ctor qd in
    ret <- call (lw_on_base self (new_task_queue qt DMTR_OPC_ACCEPT qd)) ;
    if negb (ret =? 0) then call (lw_world (lw_destroy new_q)) ;; return_ ret
    else lw_modify self (fun q => set_lw_accept_thread (th_enqueue qt <$> lw_accept_thread q) q) ;;
         normal (Some (LwObj new_q)))%cmd (fun o => o = Some (LwObj (lwip_queue_ctor qd)))).
  { intros s. rewrite post_sbind. unfold post at 1, lw_get. destruct (e_queues s !! self) as [[|q]|]; try done.
    rewrite post_sbind, post_DMTR_TRUE. destruct (lw_listening_flag q); [|done].
    rewrite post_sbind. unfold DMTR_NOTNULL. rewrite post_DMTR_TRUE. destruct (lw_accept_thread q); [|done].
    cbn zeta. rewrite post_sbind, post_call. unfold post at 1. destruct (lw_on_base _ _ s) as [ret s1| | |]; try done.
    destruct (ret =? 0) eqn:E; zbool; cbn [negb].
    - rewrite post_sbind. unfold lw_modify. rewrite post_call. unfold post at 1.
      by destruct (on_object _ _ _ _ s1) as [[] s2| | |].
    - rewrite post_sbind, post_call. unfold post at 1. by destruct (lw_world _ s1). }
  unfold lw_accept. rewrite post_body_out. eapply post_mono; [apply He|]. cbn. intros [o|err] s'; naive_solver.
Qed.

#[export] Instance lwip_laws : QueueLaws lwip_object (lworld D) (H := lwip_vtable fuel).
Proof.
  constructor.
  - by intros b [q|q].
  - intros p c e. apply keeps_ldispatch; [apply mq_vcall_keeps|apply keeps_lw_vcall].
  - intros p a n e. apply keeps_ldispatch; [by keeps_step|apply keeps_lw_getsockname].
  - intros p qr qt e. apply keeps_ldispatch; [apply mq_poll_keeps|apply keeps_lw_poll].
  - intros p qt qd e. apply post_and; [apply keeps_ldispatch; [by keeps_step|apply keeps_lw_accept]|].
    unfold q_accept; cbn. unfold ldispatch. unfold post. destruct (e_queues e !! p) as [[q|q]|] eqn:Eq; [| |done].
    + unfold on_object. by rewrite Eq.
    + pose proof (lw_accept_new p qt qd e) as Ha. unfold post in Ha.
      destruct (lw_accept p qt qd e) as [r e'| | |]; try done. intros Hr. eexists. by split; [apply Ha|].
Qed.

(** ** The library OS *)
Definition lw_mem_ctor (qd : Z) : fn (lworld D) (Z * option lwip_object) :=
  fbind (mq_ctor qd) (fun r => fret (fst r, LMemObj <$> snd r)).
Definition lwip_library (argc : Z) (argv : option (list string)) : libos lwip_object (lworld D) :=
  lwip_libos lw_mem_ctor lw_new_object (init_dpdk argc argv).

Lemma lwip_ctors_ok argc argv : ctors_ok (HQ := lwip_vtable fuel) (lwip_library argc argv).
Proof.
  split; [by vm_compute; repeat constructor; set_solver|].
  intros cid c Hin qd w. cbn in Hin. rewrite !elem_of_cons, elem_of_nil in Hin.
  destruct Hin as [[= _ ->]|[[= _ ->]|[]]]; unfold post.
  - unfold lw_mem_ctor, fbind. destruct (mq_ctor_eq qd w) as (q & -> & Hb). cbn. intros _ q' [= <-]. cbn. by rewrite Hb.
  - unfold lw_new_object, body_out, sbind, fbind, get, DMTR_TRUE. destruct (our_dpdk_init_flag w); cbn; [|done].
    by intros _ q [= <-].
Qed.

(** Whatever a process does with the DPDK library OS, the API stays well
    formed. *)
Lemma lwip_process_ok argc argv w p :
  rtc (libos_step (HQ := lwip_vtable fuel) (lwip_library argc argv)) (NoApi w) p -> proc_ok (HQ := lwip_vtable fuel) p.
Proof. apply (libos_run_ok (HQ := lwip_vtable fuel)); [apply lwip_laws|apply lwip_ctors_ok]. Qed.
End methods.
