(* ===== verification/Router.v ===== *)
(** * The router of RDMA connection events: [rdmacm-common/rdmacm_router.cc]

    One event channel of [librdmacm] carries the events of all the connection
    identifiers; the router keeps a queue of events for each live identifier
    and hands out its own events to each. *)
From S2P Require Import Prelude Cmd Types PosixOs.
Open Scope cmd_scope.

(** An event pointer, with the fields of the event the code reads; they do not
    change until the event is acknowledged. *)
Record cm_event := mk_cm_event { ev_ptr : Z; ev_type : Z; ev_id : Z; ev_listen_id : Z }.

Definition RDMA_CM_EVENT_CONNECT_REQUEST : Z := 4.
Definition RDMA_PS_TCP : Z := 262.
Definition RDMA_PS_UDP : Z := 273.

(** The calls of [librdmacm], on its state [R]: results and [errno]. *)
Class RdmaCm (R : Type) := {
  cm_create_event_channel : R -> Z * Z * R;
  cm_channel_fd : R -> Z -> Z;
  cm_destroy_event_channel : Z -> R -> R;
  (** channel and port space; the identifier made *)
  cm_create_id : Z -> Z -> R -> Z * Z * Z * R;
  cm_id_channel : R -> Z -> Z;
  cm_destroy_id : Z -> R -> Z * Z * R;
  cm_get_event : Z -> R -> Z * Z * cm_event * R;
  cm_ack_event : Z -> R -> Z * Z * R;
  (** [fcntl] on the channel's descriptor *)
  cm_fcntl : Z -> Z -> Z -> R -> Z * Z * R
}.

Record rdmacm_router := mk_router {
  my_event_queues : gmap Z (list cm_event);
  my_channel : Z
}.
(** The router and the library. *)
Record renv (R : Type) := mk_renv { re_router : rdmacm_router; re_lib : R }.
Arguments mk_renv {R}.
Arguments re_router {R}.
Arguments re_lib {R}.

Section router.
Context {R : Type} `{CM : RdmaCm R}.
Abbreviation env := (renv R).

Definition lib_call {A} (f : R -> A * R) : fn R A := fun r => let '(a, r') := f r in Ok a r'.
Definition on_lib {A} (m : fn R A) : fn env A := zoom re_lib (fun r e => mk_renv (re_router e) r) m.
Definition set_my_event_queues (m : gmap Z (list cm_event)) (e : env) : env :=
  mk_renv (mk_router m (my_channel (re_router e))) (re_lib e).
Definition event_queues (e : env) : gmap Z (list cm_event) := my_event_queues (re_router e).
Definition channel (e : env) : Z := my_channel (re_router e).

(** ** The wrappers of the library's calls *)
Definition rdma_get_cm_event (chan : Z) : fn R (Z * cm_event) := fbind
    (lib_call (cm_get_event chan)) (fun r => let '(ret, errno, ev) := r in
    if ret =? 0 then fret (0, ev)
    else if ret =? -1 then
      if (EAGAIN =? ret) || (EWOULDBLOCK =? ret) then fret (EAGAIN, ev) else fret (errno, ev)
    else panic).

Definition rdma_ack_cm_event (event : Z) : fn R Z := body (
  DMTR_NONZERO EINVAL event ;;
  ' (ret, errno) <- call (lib_call (cm_ack_event event)) ;
  if ret =? 0 then normal 0
  else if ret =? -1 then return_ errno
  else DMTR_UNREACHABLE).

(** [channel_out] is set in any case. *)
Definition rdma_create_event_channel : fn R (Z * Z) := fbind
    (lib_call cm_create_event_channel) (fun r => let '(chan, errno) := r in
    if chan =? 0 then fret (errno, chan) else fret (0, chan)).

Definition rdma_destroy_event_channel (chan : Z) : fn R Z := body (
  DMTR_NONZERO EINVAL chan ;;
  call (fun r => Ok tt (cm_destroy_event_channel chan r)) ;;
  normal 0).

(** [id_out], cleared first, is what the library sets. *)
Definition rdma_create_id (chan ps : Z) : fn R (Z * Z) := fbind
    (lib_call (cm_create_id chan ps)) (fun r => let '(ret, errno, id) := r in
    if ret =? 0 then fret (0, id)
    else if ret =? -1 then fret (errno, id)
    else panic).

(** [id] is cleared when the library destroys it. *)
Definition rdma_destroy_id (id : Z) : fn R (Z * Z) := fbind (
    DMTR_NONZERO EINVAL id ;;
    ' (ret, errno) <- call (lib_call (cm_destroy_id id)) ;
    if ret =? -1 then return_ errno
    else if ret =? 0 then normal tt
    else DMTR_UNREACHABLE)
  (fun r => match r with inl _ => fret (0, 0) | inr e => fret (e, id) end).

(** ** The router *)
Definition router_dtor (rt : rdmacm_router) : fn R unit :=
  if negb (my_channel rt =? 0) then fbind (rdma_destroy_event_channel (my_channel rt)) (fun _ => fret tt) else fret tt.

(** The object made is destroyed when the descriptor cannot be made
    non-blocking. *)
Definition router_new_object : fn R (Z * option rdmacm_router) := body_out None (
  chan <- DMTR_OK_out rdma_create_event_channel ;
  DMTR_NONZERO ENOTSUP chan ;;
  let o := mk_router ∅ chan in
  lib <- get ;
  ret <- call (io_set_non_blocking (fun fd cmd arg => lib_call (cm_fcntl fd cmd arg)) (cm_channel_fd lib chan)) ;
  if ret =? 0 then normal (Some o)
  else call (router_dtor o) ;; return_ ret).

Definition bind_id (id : Z) : fn env Z := body (
  DMTR_NONZERO EINVAL id ;;
  e <- get ;
  DMTR_NONZERO EINVAL (channel e) ;;
  DMTR_TRUE EEXIST (match event_queues e !! id with None => true | Some _ => false end) ;;
  DMTR_TRUE EINVAL (channel e =? cm_id_channel (re_lib e) id) ;;
  modify (fun e => set_my_event_queues (<[id := []]> (event_queues e)) e) ;;
  normal 0).

(** [id] is an input and an output: what it is after the call is returned. *)
Definition create_id (id type : Z) : fn env (Z * Z) := fbind (
    DMTR_TRUE EINVAL (id =? 0) ;;
    e <- get ;
    DMTR_NONZERO EINVAL (channel e) ;;
    DMTR_TRUE EEXIST (match event_queues e !! id with None => true | Some _ => false end) ;;
    ps <- (if type =? SOCK_STREAM then normal RDMA_PS_TCP
           else if type =? SOCK_DGRAM then normal RDMA_PS_UDP
           else return_ ENOTSUP) ;
    ' (ret, id) <- call (on_lib (rdma_create_id (channel e) ps)) ;
    if negb (ret =? 0) then normal (ret, id)
    else
      ret <- call (body (
        e <- get ;
        DMTR_TRUE ENOTSUP (channel e =? cm_id_channel (re_lib e) id) ;;
        DMTR_OK (bind_id id) ;;
        normal 0)) ;
      normal (ret, id))
  (fun r => match r with inl a => fret a | inr e => fret (e, id) end).

Definition destroy_id (id : Z) : fn env (Z * Z) := fbind (
    DMTR_NONZERO EINVAL id ;;
    e <- get ;
    DMTR_TRUE ENOENT (match event_queues e !! id with Some _ => true | None => false end) ;;
    modify (fun e => set_my_event_queues (delete id (event_queues e)) e) ;;
    r <- call (on_lib (rdma_destroy_id id)) ;
    normal (snd r))
  (fun r => match r with inl id' => fret (0, id') | inr e => fret (e, id) end).

(** Connection requests are for the listening identifier. *)
Definition important_id (ev : cm_event) : Z :=
  if ev_type ev =? RDMA_CM_EVENT_CONNECT_REQUEST then ev_listen_id ev else ev_id ev.

Definition service_event_channel : fn env Z := body (
  e <- get ;
  DMTR_NONZERO EINVAL (channel e) ;;
  ' (ret, ev) <- call (on_lib (rdma_get_cm_event (channel e))) ;
  (if ret =? EAGAIN then return_ ret
   else if ret =? 0 then normal tt
   else DMTR_FAIL ret) ;;
  e <- get ;
  match event_queues e !! important_id ev with
  | None =>
      DMTR_OK (on_lib (rdma_ack_cm_event (ev_ptr ev))) ;;
      return_ EAGAIN
  | Some q =>
      modify (fun e => set_my_event_queues (<[important_id ev := q ++ [ev]]> (event_queues e)) e) ;;
      normal 0
  end).

(** The event at the front of the queue of [id], if any. *)
Definition pop_event (id : Z) : stmt env (option cm_event) :=
  e <- get ;
  q <- need (event_queues e !! id) ;
  match q with
  | [] => normal None
  | ev :: q' => modify (fun e => set_my_event_queues (<[id := q']> (event_queues e)) e) ;; normal (Some ev)
  end.

(** The event given to the caller, when the result is 0. *)
Definition router_poll (id : Z) : fn env (Z * option cm_event) := body_out None (
  e <- get ;
  DMTR_TRUE ENOENT (match event_queues e !! id with Some _ => true | None => false end) ;;
  ev <- pop_event id ;
  match ev with
  | Some ev => normal (Some ev)
  | None =>
      ret <- call service_event_channel ;
      (if ret =? EAGAIN then return_ ret
       else if ret =? 0 then normal tt
       else DMTR_FAIL ret) ;;
      ev <- pop_event id ;
      match ev with
      | Some ev => normal (Some ev)
      | None => return_ EAGAIN
      end
  end).
End router.

(** ** Properties *)
Section routing.
Context {R : Type} `{CM : RdmaCm R}.
Abbreviation env := (renv R).
Implicit Types (e : env) (r : R) (ev : cm_event).

Lemma post_on_lib {A} bad (m : fn R A) e (Q : A -> env -> Prop) :
  post bad (on_lib m) Q e <-> post bad m (fun a r => Q a (mk_renv (re_router e) r)) (re_lib e).
Proof. unfold on_lib. by rewrite post_zoom. Qed.
Lemma post_lib_call {A} bad (f : R -> A * R) r (Q : A -> R -> Prop) :
  post bad (lib_call f) Q r <-> Q (fst (f r)) (snd (f r)).
Proof. unfold post, lib_call. by destruct (f r). Qed.
#[local] Hint Rewrite @post_on_lib @post_lib_call : post.

(** The library delivers the events of a list in order, and says [EAGAIN] when
    there is none; acknowledging an event succeeds and brings none. *)
Record event_stream (events : R -> list cm_event) : Prop := {
  es_next chan r ev evs : events r = ev :: evs ->
    exists errno r', cm_get_event chan r = (0, errno, ev, r') /\ events r' = evs;
  es_none chan r : events r = [] -> exists ev r', cm_get_event chan r = (-1, EAGAIN, ev, r') /\ events r' = [];
  es_ack p r : p <> 0 -> exists errno r', cm_ack_event p r = (0, errno, r') /\ events r' = events r;
  es_ptr r ev : ev ∈ events r -> ev_ptr ev <> 0
}.

Context (events : R -> list cm_event) (Hev : event_stream events).

(** One poll of a live identifier: an event waiting in its queue; else the next
    event of the stream, for it, for another live identifier or for none; else
    nothing. *)
Inductive poll_outcome (id : Z) e : option cm_event -> list cm_event -> env -> Prop :=
| poll_waiting ev q : event_queues e !! id = Some (ev :: q) ->
    poll_outcome id e (Some ev) [] (set_my_event_queues (<[id := q]> (event_queues e)) e)
| poll_mine ev r' : event_queues e !! id = Some [] -> important_id ev = id -> events (re_lib e) = ev :: events r' ->
    poll_outcome id e (Some ev) [ev] (mk_renv (re_router e) r')
| poll_other ev q r' : event_queues e !! id = Some [] -> important_id ev <> id ->
    event_queues e !! important_id ev = Some q -> events (re_lib e) = ev :: events r' ->
    poll_outcome id e None [ev] (set_my_event_queues (<[important_id ev := q ++ [ev]]> (event_queues e)) (mk_renv (re_router e) r'))
| poll_dead ev r' : event_queues e !! id = Some [] -> event_queues e !! important_id ev = None ->
    events (re_lib e) = ev :: events r' -> poll_outcome id e None [ev] (mk_renv (re_router e) r')
| poll_none r' : event_queues e !! id = Some [] -> events (re_lib e) = [] -> events r' = [] ->
    poll_outcome id e None [] (mk_renv (re_router e) r').

Lemma rdma_get_cm_event_eq chan r :
  exists ev r', rdma_get_cm_event chan r = Ok (if decide (events r = []) then EAGAIN else 0, ev) r' /\
    match events r with [] => events r' = [] | ev' :: evs => ev' = ev /\ events r' = evs end.
Proof.
  unfold rdma_get_cm_event, fbind, lib_call. destruct (events r) as [|ev evs] eqn:E.
  - destruct (es_none _ Hev chan r E) as (ev & r' & -> & Hr). exists ev, r'. done.
  - destruct (es_next _ Hev chan r ev evs E) as (errno & r' & -> & Hr). exists ev, r'. done.
Qed.

Lemma post_pop_event bad id q e (Q : option cm_event + Z -> env -> Prop) :
  event_queues e !! id = Some q ->
  match q with
  | [] => Q (inl None) e
  | ev :: q' => Q (inl (Some ev)) (set_my_event_queues (<[id := q']> (event_queues e)) e)
  end -> post bad (pop_event id) Q e.
Proof. intros Hq HQ. unfold pop_event. post_simp. rewrite Hq. by destruct q; post_simp. Qed.

Lemma set_event_queues_same id q e : event_queues e !! id = Some q -> set_my_event_queues (<[id := q]> (event_queues e)) e = e.
Proof. intros Hq. unfold set_my_event_queues. rewrite insert_id by done. by destruct e as [[]]. Qed.

Lemma router_poll_outcome id e :
  channel e <> 0 -> is_Some (event_queues e !! id) ->
  wp (router_poll id) (fun a e' => exists taken, poll_outcome id e (snd a) taken e' /\
    fst a = match snd a with Some _ => 0 | None => EAGAIN end) e.
Proof.
  intros Hc [q Hq]. unfold router_poll. post_simp. rewrite Hq. post_simp. eapply post_pop_event; [done|].
  destruct q as [|ev q].
  2: { post_simp. exists []. split; [by apply poll_waiting|done]. }
  post_simp. unfold service_event_channel, DMTR_NONZERO. post_simp. rewrite (proj2 (Z.eqb_neq _ _) Hc). cbn [negb]. post_simp.
  destruct (rdma_get_cm_event_eq (channel e) (re_lib e)) as (ev & r' & Hg & Hs).
  eapply post_eq; [exact Hg|]. destruct (events (re_lib e)) as [|ev' evs] eqn:Ee; [rewrite decide_True by done|rewrite decide_False by done].
  - change (EAGAIN =? EAGAIN) with true. post_simp. exists []. split; [by apply poll_none|done].
  - destruct Hs as [-> Hs]. change (0 =? EAGAIN) with false. change (0 =? 0) with true. post_simp.
    change (event_queues (mk_renv (re_router e) r')) with (event_queues e).
    destruct (event_queues e !! important_id ev) as [q|] eqn:Ei; post_simp.
    + change (0 =? EAGAIN) with false. change (0 =? 0) with true. post_simp.
      destruct (decide (important_id ev = id)) as [<-|Hne].
      * rewrite Hq in Ei. injection Ei as <-. eapply post_pop_event; [apply lookup_insert_eq|]. post_simp.
        exists [ev]. split; [|done]. cbn [snd].
        match goal with |- poll_outcome _ _ _ _ ?x => replace x with (mk_renv (re_router e) r') end.
        { apply poll_mine; [done|done|by rewrite Hs]. }
        unfold set_my_event_queues, event_queues. cbn. rewrite insert_insert_eq, insert_id by exact Hq. by destruct e as [[]].
      * eapply post_pop_event; [cbn; rewrite lookup_insert_ne by done; exact Hq|]. post_simp.
        exists [ev]. split; [|done]. apply (poll_other id e ev q r'); [done|done|exact Ei|by rewrite Hs].
    + destruct (es_ack _ Hev (ev_ptr ev) r') as (errno & r'' & Ha & Hs'').
      { apply (es_ptr _ Hev (re_lib e)). rewrite Ee. by left. }
      unfold rdma_ack_cm_event, DMTR_NONZERO. post_simp.
      rewrite (proj2 (Z.eqb_neq (ev_ptr ev) 0)) by (apply (es_ptr _ Hev (re_lib e)); rewrite Ee; by left). cbn [negb]. post_simp.
      cbn [re_lib]. rewrite Ha. cbn [fst snd]. change (0 =? 0) with true. post_simp. change (0 =? 0) with true. post_simp.
      change (EAGAIN =? EAGAIN) with true. post_simp. exists [ev]. split; [|done].
      apply (poll_dead id e ev r''); [done|done|by rewrite Hs'', Hs].
Qed.

Lemma poll_outcome_stream id e res taken e' :
  poll_outcome id e res taken e' -> events (re_lib e) = taken ++ events (re_lib e').
Proof. intros []; cbn; congruence. Qed.
Lemma poll_outcome_channel id e res taken e' : poll_outcome id e res taken e' -> channel e' = channel e.
Proof. by intros []. Qed.

Lemma filter_dest_eq id ev : important_id ev = id -> filter (fun ev => important_id ev = id) [ev] = [ev].
Proof. intros H. rewrite filter_cons. by rewrite decide_True. Qed.
Lemma filter_dest_ne id ev : important_id ev <> id -> filter (fun ev => important_id ev = id) [ev] = [].
Proof. intros H. rewrite filter_cons. by rewrite decide_False. Qed.

(** The queue of every identifier gets its own events, at the end, and gives
    from the front. *)
Lemma poll_outcome_queues id e res taken e' :
  poll_outcome id e res taken e' -> forall i q, event_queues e !! i = Some q ->
  exists q', event_queues e' !! i = Some q' /\
    (if decide (i = id) then option_list res else []) ++ q' = q ++ filter (fun ev => important_id ev = i) taken.
Proof.
  intros H i q Hi. destruct H as [ev q0 H0|ev r' H0 Hd _|ev q0 r' H0 Hd Ho _|ev r' H0 Ho _|r' H0 _ _];
    unfold set_my_event_queues, event_queues; cbn [my_event_queues re_router]; case_decide as Ei; subst.
  - rewrite H0 in Hi. injection Hi as <-. exists q0. rewrite lookup_insert_eq. split; [done|]. by rewrite app_nil_r.
  - exists q. rewrite lookup_insert_ne by done. split; [done|]. by rewrite app_nil_r.
  - rewrite H0 in Hi. injection Hi as <-. exists []. split; [done|]. by rewrite filter_dest_eq.
  - exists q. split; [done|]. rewrite filter_dest_ne by congruence. by rewrite app_nil_r.
  - exists q. rewrite lookup_insert_ne by done. split; [done|]. rewrite filter_dest_ne by done. by rewrite app_nil_r.
  - destruct (decide (important_id ev = i)) as [<-|Hne].
    + rewrite Ho in Hi. injection Hi as <-. exists (q0 ++ [ev]). rewrite lookup_insert_eq. split; [done|]. by rewrite filter_dest_eq.
    + exists q. rewrite lookup_insert_ne by done. split; [done|]. rewrite filter_dest_ne by done. by rewrite app_nil_r.
  - exists q. split; [done|]. rewrite filter_dest_ne by congruence. by rewrite app_nil_r.
  - exists q. split; [done|]. rewrite filter_dest_ne by congruence. by rewrite app_nil_r.
  - exists q. split; [done|]. by rewrite app_nil_r.
  - exists q. split; [done|]. by rewrite app_nil_r.
Qed.

(** A sequence of polls, with what each gave. *)
Fixpoint polls (ids : list Z) : fn env (list (Z * option cm_event)) :=
  match ids with
  | [] => fret []
  | id :: ids' => fbind (router_poll id) (fun a => fbind (polls ids') (fun l => fret ((id, snd a) :: l)))
  end.
Definition delivered (id : Z) (l : list (Z * option cm_event)) : list cm_event :=
  concat ((fun a => if decide (id = fst a) then option_list (snd a) else []) <$> l).

Lemma polls_deliver ids e :
  channel e <> 0 -> (forall id, id ∈ ids -> is_Some (event_queues e !! id)) ->
  wp (polls ids) (fun l e' => exists taken, events (re_lib e) = taken ++ events (re_lib e') /\
    forall id q, event_queues e !! id = Some q -> exists q', event_queues e' !! id = Some q' /\
      delivered id l ++ q' = q ++ filter (fun ev => important_id ev = id) taken) e.
Proof.
  revert e. induction ids as [|id0 ids IH]; intros e Hc Hlive; cbn [polls].
  - rewrite post_fret. exists []. split; [done|]. intros id q Hq. exists q. by rewrite app_nil_r.
  - rewrite post_fbind. eapply post_mono; [apply router_poll_outcome; [done|apply Hlive; by left]|].
    cbn beta. intros [err res] e1 (t1 & Ho & _). cbn [snd] in *. rewrite post_fbind.
    pose proof (poll_outcome_queues _ _ _ _ _ Ho) as Hq1.
    eapply post_mono; [apply IH|].
    + by rewrite (poll_outcome_channel _ _ _ _ _ Ho).
    + intros id Hin. destruct (Hlive id) as [q Hq]; [by right|]. destruct (Hq1 id q Hq) as (q' & Hq' & _). by exists q'.
    + cbn beta. intros l e2 (t2 & Hs2 & Hq2). rewrite post_fret. exists (t1 ++ t2).
      rewrite (poll_outcome_stream _ _ _ _ _ Ho), Hs2, app_assoc. split; [done|].
      intros id q Hq. destruct (Hq1 id q Hq) as (q1 & Hq1' & E1). destruct (Hq2 id q1 Hq1') as (q2 & Hq2' & E2).
      exists q2. split; [done|]. unfold delivered. cbn [fmap list_fmap concat fst snd]. unfold delivered in E2.
      rewrite <- app_assoc, E2, app_assoc, E1, filter_app, app_assoc. done.
Qed.
End routing.

(** C37: each identifier gets its own events, all of them and in order.  Over any
    sequence of polls of live identifiers, whatever the order in which the
    events arrive, what is delivered to an identifier and what waits in its
    queue are together what waited before and the events taken from the
    channel that are for it (a connection request being for the listening
    identifier); none is lost, duplicated, reordered or given to another. *)
Theorem router_delivers {R} `{CM : RdmaCm R} (events : R -> list cm_event) ids (e : renv R) :
  event_stream events -> channel e <> 0 -> (forall id, id ∈ ids -> is_Some (event_queues e !! id)) ->
  wp (polls ids) (fun l e' => exists taken, events (re_lib e) = taken ++ events (re_lib e') /\
    forall id q, event_queues e !! id = Some q -> exists q', event_queues e' !! id = Some q' /\
      delivered id l ++ q' = q ++ filter (fun ev => important_id ev = id) taken) e.
Proof. intros Hev Hc Hl. by apply polls_deliver. Qed.

(** One poll.  An identifier that is not live is refused with [ENOENT]; an
    event waiting in its queue is delivered without looking at the channel;
    otherwise one event is taken from the channel: it is delivered if it is
    for this identifier, queued if it is for another live one, acknowledged
    and dropped if it is for none, and in all cases but the first the answer is
    [EAGAIN], as it is when there is no event. *)
Theorem router_poll_correct {R} `{CM : RdmaCm R} (events : R -> list cm_event) id (e : renv R) :
  event_stream events -> channel e <> 0 ->
  (event_queues e !! id = None -> router_poll id e = Ok (ENOENT, None) e) /\
  (is_Some (event_queues e !! id) -> wp (router_poll id) (fun a e' =>
     exists taken, poll_outcome events id e (snd a) taken e' /\ fst a = match snd a with Some _ => 0 | None => EAGAIN end) e).
Proof.
  intros Hev Hc. split; [|intros Hq; by apply router_poll_outcome].
  intros Hn. unfold router_poll, body_out, sbind, fbind, get, DMTR_TRUE. by rewrite Hn.
Qed.


(** ** Identifiers *)
Section ids.
Context {R : Type} `{CM : RdmaCm R}.
Abbreviation env := (renv R).
Implicit Types (e : env).

(** What [bind_id], [create_id] and [destroy_id] do to the table. *)
Definition bound (id : Z) e (ret : Z) (e' : env) : Prop :=
  if decide (ret = 0)
  then id <> 0 /\ event_queues e !! id = None /\ channel e = cm_id_channel (re_lib e') id /\
       event_queues e' = <[id := []]> (event_queues e)
  else event_queues e' = event_queues e.
Definition id_created (type : Z) e (a : Z * Z) (e' : env) : Prop :=
  bound (snd a) e (fst a) e' /\ (fst a = 0 -> type = SOCK_STREAM \/ type = SOCK_DGRAM).
Definition id_destroyed (id : Z) e (ret : Z) (e' : env) : Prop :=
  if decide (ret = 0) then is_Some (event_queues e !! id) /\ event_queues e' = delete id (event_queues e)
  else (id = 0 \/ event_queues e !! id = None) /\ e' = e.

Lemma bind_id_spec id e : channel e <> 0 -> wp (bind_id id) (bound id e) e.
Proof.
  intros Hc. unfold bind_id, DMTR_NONZERO. post_simp. destruct (id =? 0) eqn:E0; zbool; cbn [negb]; post_simp; [done|].
  rewrite (proj2 (Z.eqb_neq _ _) Hc). cbn [negb]. post_simp. destruct (event_queues e !! id) eqn:Eq; post_simp; [done|].
  destruct (channel e =? cm_id_channel (re_lib e) id) eqn:Ec; zbool; post_simp; done.
Qed.

Lemma bound_same id e e1 ret e2 :
  channel e1 = channel e -> event_queues e1 = event_queues e -> bound id e1 ret e2 -> bound id e ret e2.
Proof. intros Hc Hq. unfold bound. by rewrite Hc, Hq. Qed.
Lemma bound_failed id e ret e' : ret <> 0 -> event_queues e' = event_queues e -> bound id e ret e'.
Proof. intros Hr Hq. unfold bound. by rewrite decide_False. Qed.

Lemma create_id_spec type e :
  channel e <> 0 -> event_queues e !! 0 = None -> wlp (create_id 0 type) (id_created type e) e.
Proof.
  intros Hc H0. unfold create_id, DMTR_NONZERO. rewrite post_fbind, post_sbind, post_DMTR_TRUE. change (0 =? 0) with true. cbn iota.
  rewrite post_sbind, post_get, post_sbind, post_DMTR_TRUE, (proj2 (Z.eqb_neq _ _) Hc). cbn [negb].
  rewrite post_sbind, post_DMTR_TRUE, H0, post_sbind.
  eapply post_mono with (Q := fun r e1 => e1 = e /\ match r with inl _ => type = SOCK_STREAM \/ type = SOCK_DGRAM | inr er => er <> 0 end).
  { destruct (type =? SOCK_STREAM) eqn:Es; [|destruct (type =? SOCK_DGRAM) eqn:Ed]; zbool; post_simp; auto. }
  intros [ps|er] e1 [-> Hty]; rewrite ?post_fret; [|split; [by apply bound_failed|done]].
  rewrite post_sbind, post_call. unfold on_lib. rewrite post_zoom. unfold post at 1.
  destruct (rdma_create_id _ _ _) as [[ret id1] r1| | |]; try done. set (e1 := mk_renv (re_router e) r1).
  assert (Hce : channel e1 = channel e) by done. assert (Hqe : event_queues e1 = event_queues e) by done.
  destruct (ret =? 0) eqn:Er; zbool; cbn [negb].
  2: { post_simp. split; [by apply bound_failed|done]. }
  rewrite post_sbind, post_call, post_body, post_sbind, post_get, post_sbind, post_DMTR_TRUE.
  destruct (channel e1 =? cm_id_channel (re_lib e1) id1) eqn:Ec; zbool.
  2: { post_simp. split; [by apply bound_failed|done]. }
  rewrite post_sbind, post_DMTR_OK. pose proof (bind_id_spec id1 e1 ltac:(by rewrite Hce)) as Hb. unfold post in Hb |- * at 1.
  destruct (bind_id id1 e1) as [ret2 e2| | |]; try done. apply (bound_same _ _ _ _ _ Hce Hqe) in Hb.
  destruct (ret2 =? 0) eqn:E2; zbool; post_simp; split; try done. by subst.
Qed.

Lemma destroy_id_spec id e : wlp (destroy_id id) (fun a => id_destroyed id e (fst a)) e.
Proof.
  unfold destroy_id, DMTR_NONZERO. post_simp. destruct (id =? 0) eqn:E0; zbool; cbn [negb]; post_simp; [split; [by left|done]|].
  destruct (event_queues e !! id) as [q|] eqn:Eq; post_simp; [|split; [by right|done]].
  unfold on_lib. rewrite post_zoom. unfold post. by destruct (rdma_destroy_id id _).
Qed.
End ids.

(** The life of an identifier.  [create_id] refuses a pointer that already
    holds one and a type other than stream or datagram, and makes an
    identifier live, with an empty queue, exactly when it returns 0, having
    been given it by the library on this router's channel; [bind_id] makes
    live exactly one not live before; [destroy_id] makes a live one dead, with
    the events still waiting in its queue.  No other identifier's queue ever
    changes. *)
Theorem router_ids_correct {R} `{CM : RdmaCm R} id type (e : renv R) :
  channel e <> 0 -> event_queues e !! 0 = None ->
  (id <> 0 -> create_id id type e = Ok (EINVAL, id) e) /\
  wlp (create_id 0 type) (id_created type e) e /\ wp (bind_id id) (bound id e) e /\
  wlp (destroy_id id) (fun a => id_destroyed id e (fst a)) e.
Proof.
  intros Hc H0. split_and!; [|by apply create_id_spec|by apply bind_id_spec|apply destroy_id_spec].
  intros Hid. unfold create_id, fbind, sbind, DMTR_TRUE. by rewrite (proj2 (Z.eqb_neq _ _) Hid).
Qed.

(** ** A concrete library

    The events to come, the identifiers made so far, all on channel 1. *)
Record demo_cm := mk_demo_cm { dc_events : list (positive * Z * Z * Z); dc_next : Z }.
Definition demo_event (x : positive * Z * Z * Z) : cm_event :=
  let '(p, ty, id, lid) := x in mk_cm_event (Z.pos p) ty id lid.
Definition demo_events (r : demo_cm) : list cm_event := demo_event <$> dc_events r.
#[export] Instance demo_rdma_cm : RdmaCm demo_cm := {|
  cm_create_event_channel r := (1, 0, r);
  cm_channel_fd _ _ := 7;
  cm_destroy_event_channel _ r := r;
  cm_create_id _ _ r := (0, 0, dc_next r, mk_demo_cm (dc_events r) (dc_next r + 1));
  cm_id_channel _ _ := 1;
  cm_destroy_id _ r := (0, 0, r);
  cm_get_event _ r := match dc_events r with
                      | [] => (-1, EAGAIN, mk_cm_event 0 0 0 0, r)
                      | x :: evs => (0, 0, demo_event x, mk_demo_cm evs (dc_next r))
                      end;
  cm_ack_event _ r := (0, 0, r);
  cm_fcntl _ _ _ r := (0, 0, r)
|}.

Lemma demo_event_stream : event_stream demo_events.
Proof.
  constructor.
  - intros chan [[|x evs] n] ev evs'; [done|]. intros [= <- <-]. exists 0, (mk_demo_cm evs n). split; [reflexivity|reflexivity].
  - intros chan [[|x evs] n]; [|done]. intros _. eexists _, _. split; [reflexivity|reflexivity].
  - intros p r _. exists 0, r. split; [reflexivity|reflexivity].
  - intros r ev Hin. unfold demo_events in Hin. apply list_elem_of_fmap in Hin as ([[[p ty] id] lid] & -> & _). done.
Qed.

(** Identifiers 10, listening, and 11; a connection request for 10 and two
    other events. *)
Definition demo_router : renv demo_cm :=
  mk_renv (mk_router {[10 := []; 11 := []]} 1)
    (mk_demo_cm [(100%positive, 9, 11, 0); (101%positive, 4, 12, 10); (102%positive, 9, 11, 0)] 12).

Lemma router_delivers_witness :
  wp (polls [10; 10; 11]) (fun l e' => exists taken, demo_events (re_lib demo_router) = taken ++ demo_events (re_lib e') /\
    forall id q, event_queues demo_router !! id = Some q -> exists q', event_queues e' !! id = Some q' /\
      delivered id l ++ q' = q ++ filter (fun ev => important_id ev = id) taken) demo_router /\
  match polls [10; 10; 11] demo_router with
  | Ok l _ => delivered 10 l = [mk_cm_event 101 4 12 10] /\ delivered 11 l = [mk_cm_event 100 9 11 0]
  | _ => False
  end.
Proof.
  split; [|vm_compute; split; reflexivity].
  apply (router_delivers demo_events); [exact demo_event_stream|discriminate|].
  intros id Hin. rewrite !elem_of_cons, elem_of_nil in Hin. destruct Hin as [->|[->|[->|[]]]]; eexists; reflexivity.
Defined.

Lemma router_poll_correct_witness : router_poll 5 demo_router = Ok (ENOENT, None) demo_router.
Proof. apply (proj1 (router_poll_correct demo_events 5 demo_router demo_event_stream ltac:(discriminate))). reflexivity. Defined.

Lemma router_ids_correct_witness : wlp (create_id 0 SOCK_STREAM) (id_created SOCK_STREAM demo_router) demo_router.
Proof. exact (proj1 (proj2 (router_ids_correct 5 SOCK_STREAM demo_router ltac:(discriminate) eq_refl))). Defined.
