(* ===== verification/RdmaOs.v ===== *)
(** * RDMA: the libraries, the static members of [rdma_queue] and its wrappers

    [rdma/rdma_queue.cc], the part that needs no queue object: the calls of
    [libibverbs], [librdmacm] and the Hoard allocator, the protection domain,
    the router and the events waited for.

    The libraries are not part of the source: they are a state [R] with one
    operation per call, [RdmaCm] of [Router] for what the router calls and
    [RdmaVerbs] for the rest.  The fields of the libraries' structures that the
    code reads are read from [R].  [my_send_window] is a member of a queue that
    the card of the other side writes, at any time: it is part of [R] too, at
    the descriptor of the queue, and every access to it is an operation. *)
From S2P Require Import Prelude Cmd Types Cast Memory PosixOs Router.
Open Scope cmd_scope.

(** What a work request sends: memory, or the value of [my_recv_window], a
    member of the queue, which an inline request copies when it is posted. *)
Inductive ibv_sge :=
| SgeMem (addr length lkey : Z)
| SgeRecvWindow (my_recv_window : Z).
Record ibv_send_wr := mk_send_wr {
  swr_id : Z;
  swr_opcode : Z;
  swr_flags : Z;
  swr_sg_list : list ibv_sge;
  swr_remote_addr : Z;
  swr_rkey : Z
}.
(** A receive request has one entry of memory. *)
Record ibv_recv_wr := mk_recv_wr { rwr_id : Z; rwr_addr : Z; rwr_length : Z; rwr_lkey : Z }.
Record ibv_wc := mk_wc { wc_id : Z; wc_status : Z; wc_opcode : Z; wc_byte_len : Z }.
Record ibv_qp_init_attr := mk_qp_attr {
  qa_send_cq : Z; qa_recv_cq : Z; qa_max_send_wr : Z; qa_max_recv_wr : Z;
  qa_max_send_sge : Z; qa_max_recv_sge : Z; qa_max_inline_data : Z; qa_qp_type : Z; qa_sq_sig_all : Z
}.
(** [struct connection_data] *)
Record connection_data := mk_connection_data { send_window_addr : Z; send_window_rkey : Z }.
Record rdma_conn_param := mk_conn_param {
  cp_private_data : connection_data; cp_responder_resources : Z; cp_initiator_depth : Z; cp_rnr_retry_count : Z
}.

(** Pointers are addresses, 0 when null; results come with [errno] where the
    code looks at it. *)
Class RdmaVerbs (R : Type) := {
  (** the fields [verbs], [qp] and [pd] of an identifier *)
  id_verbs : R -> Z -> Z;
  id_qp : R -> Z -> Z;
  v_set_id_qp : Z -> Z -> R -> R;
  v_set_id_pd : Z -> Z -> R -> R;
  (** the bytes of the local address, the address of the peer *)
  v_get_local_addr : R -> Z -> list Z;
  v_get_peer_addr : R -> Z -> option sockaddr_in;
  (** [param.conn.private_data] of an event: [None] when null *)
  ev_private_data : R -> Z -> option connection_data;
  pd_context : R -> Z -> Z;
  mr_lkey : R -> Z -> Z;
  mr_rkey : R -> Z -> Z;
  mr_context : R -> Z -> Z;
  mr_pd : R -> Z -> Z;
  v_bind_addr : Z -> option (list Z) -> R -> Z * Z * R;
  v_listen : Z -> Z -> R -> Z * Z * R;
  v_disconnect : Z -> R -> Z * Z * R;
  v_destroy_qp : Z -> R -> R;
  v_resolve_addr : Z -> option (list Z) -> Z -> R -> Z * Z * R;
  v_resolve_route : Z -> Z -> R -> Z * Z * R;
  v_connect : Z -> rdma_conn_param -> R -> Z * Z * R;
  v_accept : Z -> rdma_conn_param -> R -> Z * Z * R;
  v_create_qp : Z -> Z -> ibv_qp_init_attr -> R -> Z * Z * R;
  v_alloc_pd : Z -> R -> Z * R;
  v_dealloc_pd : Z -> R -> Z * Z * R;
  v_create_cq : Z -> Z -> R -> Z * R;
  v_destroy_cq : Z -> R -> R;
  v_post_send : Z -> ibv_send_wr -> heap -> R -> Z * R;
  v_post_recv : Z -> list ibv_recv_wr -> R -> Z * R;
  (** completion queue and the number of entries; what was received is in
      memory *)
  v_poll_cq : Z -> Z -> heap -> R -> Z * list ibv_wc * heap * R;
  (** [Zeus::RDMA::Hoard::getRdmaMr] *)
  v_get_rdma_mr : Z -> Z -> R -> Z * R;
  (** [my_send_window] of the queue with a descriptor: its address, [ibv_reg_mr]
      of it in a protection domain, reading and writing it *)
  window_addr : Z -> R -> Z;
  v_reg_window : Z -> Z -> R -> Z * R;
  window_read : Z -> R -> Z * R;
  window_write : Z -> Z -> R -> R
}.

(** Constants of the headers. *)
Definition RDMA_CM_EVENT_ADDR_RESOLVED : Z := 0.
Definition RDMA_CM_EVENT_ROUTE_RESOLVED : Z := 2.
Definition RDMA_CM_EVENT_ESTABLISHED : Z := 9.
Definition RDMA_CM_EVENT_DISCONNECTED : Z := 10.
Definition RDMA_CM_EVENT_TIMEWAIT_EXIT : Z := 15.
Definition IBV_WC_SUCCESS : Z := 0.
Definition IBV_WC_SEND : Z := 0.
Definition IBV_WC_RDMA_WRITE : Z := 1.
Definition IBV_WC_RECV : Z := 128.
Definition IBV_WR_RDMA_WRITE : Z := 0.
Definition IBV_WR_SEND : Z := 2.
Definition IBV_SEND_SIGNALED : Z := 2.
Definition IBV_SEND_INLINE : Z := 8.
Definition IBV_QPT_RC : Z := 2.
Definition RECV_BUF_SIZE : Z := 524288.
Definition RECV_WINDOW : Z := 1024.
Definition RECV_WINDOW_BATCHES : Z := 2.
Definition CQ_BATCH : Z := 5.
Definition SEND_SIGNAL_FREQ : Z := 4096.
Definition max_num_sge : Z := Z.of_nat DMTR_SGARRAY_MAXSIZE + 1.

(** The heap, [our_pd], [our_rdmacm_router], the [poll_count] of [poll] and the
    libraries. *)
Record rdworld (R : Type) := mk_rdworld {
  rw_heap : heap;
  our_pd : Z;
  our_rdmacm_router : option rdmacm_router;
  rw_poll_count : Z;
  rw_lib : R
}.
Arguments mk_rdworld {R}.
Arguments rw_heap {R}.
Arguments our_pd {R}.
Arguments our_rdmacm_router {R}.
Arguments rw_poll_count {R}.
Arguments rw_lib {R}.

Section rdma_os.
Context {R : Type} `{CM : RdmaCm R} `{RV : RdmaVerbs R}.
Abbreviation W := (rdworld R).

Definition set_rw_mem (h : heap) (r : R) (w : W) : W := mk_rdworld h (our_pd w) (our_rdmacm_router w) (rw_poll_count w) r.
Definition set_our_pd (pd : Z) (w : W) : W := mk_rdworld (rw_heap w) pd (our_rdmacm_router w) (rw_poll_count w) (rw_lib w).
Definition set_rw_poll_count (n : Z) (w : W) : W := mk_rdworld (rw_heap w) (our_pd w) (our_rdmacm_router w) n (rw_lib w).
Definition set_rw_router (rt : option rdmacm_router) (r : R) (w : W) : W := mk_rdworld (rw_heap w) (our_pd w) rt (rw_poll_count w) r.

(** A call of a library, one that only acts, one with the memory. *)
Definition rd_call {A} (f : R -> A * R) : fn W A := fun w =>
  let '(a, r) := f (rw_lib w) in Ok a (set_rw_mem (rw_heap w) r w).
Definition rd_do (f : R -> R) : fn W unit := rd_call (fun r => (tt, f r)).
Definition rd_mem {A} (f : heap -> R -> A * heap * R) : fn W A := fun w =>
  let '(a, h, r) := f (rw_heap w) (rw_lib w) in Ok a (set_rw_mem h r w).
Definition rd_heap {A} (m : fn heap A) : fn W A := zoom rw_heap (fun h w => set_rw_mem h (rw_lib w) w) m.
(** A method of the router. *)
Definition need_router : stmt W unit := w <- get ; DMTR_NOTNULL EINVAL (our_rdmacm_router w).
Definition rd_router {A} (m : fn (renv R) A) : fn W A :=
  zoom_opt (fun w => rt ← our_rdmacm_router w; Some (mk_renv rt (rw_lib w)))
    (fun e w => set_rw_router (Some (re_router e)) (re_lib e) w) m.
(** A failing [assert] aborts. *)
Definition rd_assert (b : bool) : stmt W unit := if b then normal tt else panic.
(** A pointer that is dereferenced. *)
Definition rd_deref (p : Z) : stmt W unit := if p =? 0 then undef else normal tt.

(** ** The wrappers *)

(** [switch (ret) { default: DMTR_UNREACHABLE(); case -1: return errno; case 0: return 0; }] *)
Definition cm_result (f : R -> Z * Z * R) : fn W Z := body (
  ' (ret, errno) <- call (rd_call f) ;
  if ret =? -1 then return_ errno
  else if ret =? 0 then normal 0
  else DMTR_UNREACHABLE).
(** The same after [DMTR_NOTNULL(EINVAL, id)]. *)
Definition cm_result_of (id : Z) (f : R -> Z * Z * R) : fn W Z := body (
  DMTR_NONZERO EINVAL id ;;
  ret <- call (cm_result f) ;
  normal ret).

Definition rdma_bind_addr (id : Z) (addr : option (list Z)) : fn W Z := cm_result (v_bind_addr id addr).
Definition rdma_listen (id backlog : Z) : fn W Z := cm_result (v_listen id backlog).
Definition rdma_disconnect (id : Z) : fn W Z := cm_result_of id (v_disconnect id).
Definition rdma_destroy_qp (id : Z) : fn W Z := body (
  DMTR_NONZERO EINVAL id ;;
  w <- get ;
  if id_qp (rw_lib w) id =? 0 then return_ 0
  else
    call (rd_do (v_destroy_qp id)) ;;
    normal 0).
Definition rdma_resolve_addr (id : Z) (dst_addr : option (list Z)) (timeout_ms : Z) : fn W Z :=
  cm_result_of id (v_resolve_addr id dst_addr timeout_ms).
Definition rdma_resolve_route (id timeout_ms : Z) : fn W Z := cm_result_of id (v_resolve_route id timeout_ms).
Definition rdma_connect (id : Z) (params : rdma_conn_param) : fn W Z := cm_result_of id (v_connect id params).
Definition rdma_accept (id : Z) (params : rdma_conn_param) : fn W Z := cm_result_of id (v_accept id params).
Definition rdma_create_qp (id pd : Z) (attr : ibv_qp_init_attr) : fn W Z := cm_result_of id (v_create_qp id pd attr).
Definition rdma_get_peer_addr (id : Z) : fn W (Z * sockaddr_in) := body_out sockaddr_zero (
  DMTR_NONZERO EINVAL id ;;
  w <- get ;
  let saddr := v_get_peer_addr (rw_lib w) id in
  DMTR_NOTNULL ENOTSUP saddr ;;
  need saddr).

(** [pd_out] is [our_pd], which is set in any case. *)
Definition ibv_alloc_pd (context : Z) : fn W Z := body (
  DMTR_NONZERO EINVAL context ;;
  pd <- call (rd_call (v_alloc_pd context)) ;
  modify (set_our_pd pd) ;;
  if pd =? 0 then return_ EPERM else normal 0).
Definition ibv_dealloc_pd : fn W Z := body (
  w <- get ;
  if our_pd w =? 0 then return_ 0
  else
    ' (ret, errno) <- call (rd_call (v_dealloc_pd (our_pd w))) ;
    if ret =? -1 then return_ errno
    else if ret =? 0 then modify (set_our_pd 0) ;; normal 0
    else DMTR_FAIL ret).
(** [my_rdma_id] is the queue's. *)
Definition get_pd (my_rdma_id : Z) : fn W (Z * Z) := body_out 0 (
  w <- get ;
  (if our_pd w =? 0 then
     rd_deref my_rdma_id ;;
     DMTR_OK (ibv_alloc_pd (id_verbs (rw_lib w) my_rdma_id))
   else normal tt) ;;
  w <- get ;
  normal (our_pd w)).
Definition close_pd : fn W unit := fbind (
  w <- get ;
  rd_assert (negb (our_pd w =? 0)) ;;
  call ibv_dealloc_pd) (fun _ => fret tt).

Definition get_rdma_mr (my_rdma_id p : Z) : fn W (Z * Z) := body_out 0 (
  DMTR_NONZERO EINVAL p ;;
  DMTR_NONZERO EPERM my_rdma_id ;;
  pd <- DMTR_OK_out (get_pd my_rdma_id) ;
  mr <- call (rd_call (v_get_rdma_mr p pd)) ;
  DMTR_NONZERO ENOTSUP mr ;;
  w <- get ;
  let r := rw_lib w in
  rd_assert (mr_context r mr =? id_verbs r my_rdma_id) ;;
  rd_assert (mr_pd r mr =? pd) ;;
  normal mr).

Definition ibv_poll_cq (cq num_entries : Z) : fn W (Z * (Z * list ibv_wc)) := body_out (0, []) (
  DMTR_NONZERO EINVAL cq ;;
  ' (ret, wc) <- call (rd_mem (v_poll_cq cq num_entries)) ;
  if ret <? 0 then return_ EPERM
  else
    count <- DMTR_OK_out (fret (dmtr_itosz (Some 0) ret)) ;
    count <- need count ;
    normal (count, wc)).
(** [sge] arrays larger than the queue pair allows are refused. *)
Definition ibv_post_send (qp : Z) (wr : ibv_send_wr) : fn W Z := body (
  DMTR_NONZERO EINVAL qp ;;
  DMTR_TRUE ERANGE (Z.of_nat (length (swr_sg_list wr)) <=? max_num_sge) ;;
  w <- get ;
  ret <- call (rd_call (v_post_send qp wr (rw_heap w))) ;
  normal ret).
Definition ibv_post_recv (qp : Z) (wr : list ibv_recv_wr) : fn W Z := body (
  DMTR_NONZERO EINVAL qp ;;
  ret <- call (rd_call (v_post_recv qp wr)) ;
  normal ret).

(** ** Events *)
Definition rd_ack (event : Z) : fn W unit := fbind (rd_call (cm_ack_event event)) (fun _ => fret tt).

(** The loop around [poll] in [expect_rdma_cm_event], from [retry_times]. *)
Definition expect_step (id : Z) (st : Z * renv R) : (Z * renv R) + result (renv R) (Z * option cm_event) :=
  let '(retry_times, e) := st in
  match router_poll id e with
  | Ok (ret, ev) e' =>
      if ret =? EAGAIN then
        if retry_times <=? 1000000 then inl (retry_times + 1, e') else inr (Ok (EAGAIN, None) e')
      else inr (Ok (ret, ev) e')
  | Panic => inr Panic
  | Undef => inr Undef
  | NoFuel => inr NoFuel
  end.
Definition expect_bound : positive := 1000002.
Definition expect_poll (id : Z) : fn (renv R) (Z * option cm_event) := fun e =>
  match ploop expect_bound (expect_step id) (0, e) with inr r => r | inl _ => NoFuel end.

(** [want]: the caller passes a pointer for the event and acknowledges it. *)
Definition expect_rdma_cm_event (err expected id : Z) (want : bool) : fn W (Z * option cm_event) := body_out None (
  DMTR_NONZERO EINVAL id ;;
  need_router ;;
  ' (ret, e2) <- call (rd_router (expect_poll id)) ;
  (if ret =? EAGAIN then return_ EAGAIN
   else if ret =? 0 then normal tt
   else DMTR_FAIL ret) ;;
  e2 <- need e2 ;
  if negb (expected =? ev_type e2) then
    call (rd_ack (ev_ptr e2)) ;;
    return_ err
  else if want then normal (Some e2)
  else
    call (rd_ack (ev_ptr e2)) ;;
    normal None).

(** ** Initialisation *)
Definition init_rdma : fn W Z := body (
  w <- get ;
  (match our_rdmacm_router w with
   | Some _ => normal tt
   | None =>
       rt <- DMTR_OK_out (zoom rw_lib (fun r w => set_rw_mem (rw_heap w) r w) router_new_object) ;
       modify (fun w => set_rw_router rt (rw_lib w) w)
   end) ;;
  normal 0).
End rdma_os.
