(* ===== verification/RdmaQueue.v ===== *)
(** * RDMA queues: [rdma/rdma_queue.cc]

    An [rdma_queue] is a connection, or a listening identifier, of
    [librdmacm].  Messages are work requests posted to the card; what arrives
    is written to buffers the queue has posted in advance.  A side may only
    send what the other has buffers for: [my_send_window_unused] counts what it
    may send, and the other side writes how many buffers it has to
    [my_send_window] (see [RdmaOs]).

    The workers are coroutines as in [PosixQueue]; [t] in a control point is
    the slot of the task in hand. *)
From S2P Require Import Prelude Cmd Types Cast Memory IoQueue UserThread MemoryQueue Queue MemoryVtable PosixOs PosixQueue Router RdmaOs.
Open Scope cmd_scope.

(** ** Control points

    Of the push worker: [while (good())]; [while (tq.empty())]; the loop while
    there is no send window; what follows. *)
Inductive rd_push_k :=
| RdPushLoop
| RdPushIdle
| RdPushWindow
| RdPushSend.
(** Of the pop worker: the loop while nothing was received. *)
Inductive rd_pop_k :=
| RdPopLoop
| RdPopIdle
| RdPopRecv (t : Z).
(** Of the accept worker: the loop until the connection is established, with
    the pointer to the new queue and its identifier. *)
Inductive rd_accept_k :=
| RdAcceptStart
| RdAcceptLoop
| RdAcceptIdle
| RdAcceptWait (t new_rq new_rdma_id : Z).
(** Of the connect worker: the three events it waits for. *)
Inductive rd_connect_k :=
| RdConnectStart (qt : Z)
| RdConnectAddr (t : Z)
| RdConnectRoute (t : Z)
| RdConnectWait (t : Z).

(** The window of the other side is not initialised before the connection is
    established. *)
Record rdma_queue := mk_rdma_queue {
  rq_base : io_queue;
  my_recv_window : Z;
  my_send_window_unused : Z;
  their_send_window : option connection_data;
  rq_in_packets : Z;
  rq_out_packets : Z;
  my_pending_accepts : list cm_event;
  my_pending_recvs : list (Z * Z);
  my_rdma_id : Z;
  rq_listening_flag : bool;
  my_cq : Z;
  rq_accept_thread : option (user_thread rd_accept_k);
  rq_push_thread : option (user_thread rd_push_k);
  rq_pop_thread : option (user_thread rd_pop_k);
  my_connect_thread : option (user_thread rd_connect_k)
}.
Definition set_rq_base (x : io_queue) (q : rdma_queue) := mk_rdma_queue x (my_recv_window q) (my_send_window_unused q) (their_send_window q) (rq_in_packets q) (rq_out_packets q) (my_pending_accepts q) (my_pending_recvs q) (my_rdma_id q) (rq_listening_flag q) (my_cq q) (rq_accept_thread q) (rq_push_thread q) (rq_pop_thread q) (my_connect_thread q).
Definition set_my_recv_window (x : Z) (q : rdma_queue) := mk_rdma_queue (rq_base q) x (my_send_window_unused q) (their_send_window q) (rq_in_packets q) (rq_out_packets q) (my_pending_accepts q) (my_pending_recvs q) (my_rdma_id q) (rq_listening_flag q) (my_cq q) (rq_accept_thread q) (rq_push_thread q) (rq_pop_thread q) (my_connect_thread q).
Definition set_my_send_window_unused (x : Z) (q : rdma_queue) := mk_rdma_queue (rq_base q) (my_recv_window q) x (their_send_window q) (rq_in_packets q) (rq_out_packets q) (my_pending_accepts q) (my_pending_recvs q) (my_rdma_id q) (rq_listening_flag q) (my_cq q) (rq_accept_thread q) (rq_push_thread q) (rq_pop_thread q) (my_connect_thread q).
Definition set_their_send_window (x : option connection_data) (q : rdma_queue) := mk_rdma_queue (rq_base q) (my_recv_window q) (my_send_window_unused q) x (rq_in_packets q) (rq_out_packets q) (my_pending_accepts q) (my_pending_recvs q) (my_rdma_id q) (rq_listening_flag q) (my_cq q) (rq_accept_thread q) (rq_push_thread q) (rq_pop_thread q) (my_connect_thread q).
Definition set_rq_in_packets (x : Z) (q : rdma_queue) := mk_rdma_queue (rq_base q) (my_recv_window q) (my_send_window_unused q) (their_send_window q) x (rq_out_packets q) (my_pending_accepts q) (my_pending_recvs q) (my_rdma_id q) (rq_listening_flag q) (my_cq q) (rq_accept_thread q) (rq_push_thread q) (rq_pop_thread q) (my_connect_thread q).
Definition set_rq_out_packets (x : Z) (q : rdma_queue) := mk_rdma_queue (rq_base q) (my_recv_window q) (my_send_window_unused q) (their_send_window q) (rq_in_packets q) x (my_pending_accepts q) (my_pending_recvs q) (my_rdma_id q) (rq_listening_flag q) (my_cq q) (rq_accept_thread q) (rq_push_thread q) (rq_pop_thread q) (my_connect_thread q).
Definition set_my_pending_accepts (x : list cm_event) (q : rdma_queue) := mk_rdma_queue (rq_base q) (my_recv_window q) (my_send_window_unused q) (their_send_window q) (rq_in_packets q) (rq_out_packets q) x (my_pending_recvs q) (my_rdma_id q) (rq_listening_flag q) (my_cq q) (rq_accept_thread q) (rq_push_thread q) (rq_pop_thread q) (my_connect_thread q).
Definition set_my_pending_recvs (x : list (Z * Z)) (q : rdma_queue) := mk_rdma_queue (rq_base q) (my_recv_window q) (my_send_window_unused q) (their_send_window q) (rq_in_packets q) (rq_out_packets q) (my_pending_accepts q) x (my_rdma_id q) (rq_listening_flag q) (my_cq q) (rq_accept_thread q) (rq_push_thread q) (rq_pop_thread q) (my_connect_thread q).
Definition set_my_rdma_id (x : Z) (q : rdma_queue) := mk_rdma_queue (rq_base q) (my_recv_window q) (my_send_window_unused q) (their_send_window q) (rq_in_packets q) (rq_out_packets q) (my_pending_accepts q) (my_pending_recvs q) x (rq_listening_flag q) (my_cq q) (rq_accept_thread q) (rq_push_thread q) (rq_pop_thread q) (my_connect_thread q).
Definition set_rq_listening_flag (x : bool) (q : rdma_queue) := mk_rdma_queue (rq_base q) (my_recv_window q) (my_send_window_unused q) (their_send_window q) (rq_in_packets q) (rq_out_packets q) (my_pending_accepts q) (my_pending_recvs q) (my_rdma_id q) x (my_cq q) (rq_accept_thread q) (rq_push_thread q) (rq_pop_thread q) (my_connect_thread q).
Definition set_my_cq (x : Z) (q : rdma_queue) := mk_rdma_queue (rq_base q) (my_recv_window q) (my_send_window_unused q) (their_send_window q) (rq_in_packets q) (rq_out_packets q) (my_pending_accepts q) (my_pending_recvs q) (my_rdma_id q) (rq_listening_flag q) x (rq_accept_thread q) (rq_push_thread q) (rq_pop_thread q) (my_connect_thread q).
Definition set_rq_accept_thread (x : option (user_thread rd_accept_k)) (q : rdma_queue) := mk_rdma_queue (rq_base q) (my_recv_window q) (my_send_window_unused q) (their_send_window q) (rq_in_packets q) (rq_out_packets q) (my_pending_accepts q) (my_pending_recvs q) (my_rdma_id q) (rq_listening_flag q) (my_cq q) x (rq_push_thread q) (rq_pop_thread q) (my_connect_thread q).
Definition set_rq_push_thread (x : option (user_thread rd_push_k)) (q : rdma_queue) := mk_rdma_queue (rq_base q) (my_recv_window q) (my_send_window_unused q) (their_send_window q) (rq_in_packets q) (rq_out_packets q) (my_pending_accepts q) (my_pending_recvs q) (my_rdma_id q) (rq_listening_flag q) (my_cq q) (rq_accept_thread q) x (rq_pop_thread q) (my_connect_thread q).
Definition set_rq_pop_thread (x : option (user_thread rd_pop_k)) (q : rdma_queue) := mk_rdma_queue (rq_base q) (my_recv_window q) (my_send_window_unused q) (their_send_window q) (rq_in_packets q) (rq_out_packets q) (my_pending_accepts q) (my_pending_recvs q) (my_rdma_id q) (rq_listening_flag q) (my_cq q) (rq_accept_thread q) (rq_push_thread q) x (my_connect_thread q).
Definition set_my_connect_thread (x : option (user_thread rd_connect_k)) (q : rdma_queue) := mk_rdma_queue (rq_base q) (my_recv_window q) (my_send_window_unused q) (their_send_window q) (rq_in_packets q) (rq_out_packets q) (my_pending_accepts q) (my_pending_recvs q) (my_rdma_id q) (rq_listening_flag q) (my_cq q) (rq_accept_thread q) (rq_push_thread q) (rq_pop_thread q) x.

Definition rdma_queue_ctor (qd : Z) : rdma_queue :=
  mk_rdma_queue (io_queue_ctor NETWORK_Q qd) 0 0 None 0 0 [] [] 0 false 0 None None None None.
Definition rd_good (q : rdma_queue) : bool := negb (my_rdma_id q =? 0).

(** The objects of this library OS. *)
Inductive rdma_object :=
| RMemObj (q : memory_queue)
| RdObj (q : rdma_queue).
Definition as_rmem (o : rdma_object) : option memory_queue := match o with RMemObj q => Some q | _ => None end.
Definition as_rd (o : rdma_object) : option rdma_queue := match o with RdObj q => Some q | _ => None end.

Section rdma_queue.
Context {R : Type} `{CM : RdmaCm R} `{RV : RdmaVerbs R}.
Abbreviation W := (rdworld R).
Abbreviation env := (qenv rdma_object W).

Definition rd_get (self : Z) : stmt env rdma_queue := fun e =>
  match e_queues e !! self with
  | Some (RdObj q) => Ok (inl q) e
  | _ => Undef
  end.
Definition rd_modify (self : Z) (f : rdma_queue -> rdma_queue) : stmt env unit :=
  call (on_object as_rd RdObj self (fun q => Ok tt (f q))).
Definition rd_on_base {A} (self : Z) (m : fn io_queue A) : fn env A :=
  on_object as_rd RdObj self (zoom rq_base set_rq_base m).
Definition rd_world {A} (m : fn W A) : fn env A := zoom e_world set_e_world m.
(** A statement about the world alone. *)
Definition rd_wstmt {A} (m : stmt W A) : stmt env A := rd_world m.
Definition rd_task (t : Z) (q : rdma_queue) : task := slot_task t (rq_base q).
Definition lib_of (e : env) : R := rw_lib (e_world e).

(** ** The queue pair and the receive buffers *)
Definition setup_rdma_qp (self : Z) : fn env Z := body (
  q <- rd_get self ;
  DMTR_TRUE EPERM (negb (rq_listening_flag q)) ;;
  let id := my_rdma_id q in
  pd <- DMTR_OK_out (rd_world (get_pd id)) ;
  rd_wstmt (rd_deref id) ;;
  call (rd_world (rd_do (v_set_id_pd id pd))) ;;
  e <- get ;
  cq <- call (rd_world (rd_call (v_create_cq (pd_context (lib_of e) pd) (RECV_WINDOW * RECV_WINDOW_BATCHES + 1000)))) ;
  rd_modify self (set_my_cq cq) ;;
  let attr := mk_qp_attr cq cq (SEND_SIGNAL_FREQ + 10) (RECV_WINDOW * RECV_WINDOW_BATCHES + 10) max_num_sge 1 128 IBV_QPT_RC 0 in
  DMTR_OK (rd_world (rdma_create_qp id pd attr)) ;;
  normal 0).

Definition setup_recv_window (self : Z) : fn env (Z * connection_data) := body_out (mk_connection_data 0 0) (
  q <- rd_get self ;
  pd <- DMTR_OK_out (rd_world (get_pd (my_rdma_id q))) ;
  e <- get ;
  let addr := window_addr self (lib_of e) in
  mr <- call (rd_world (rd_call (v_reg_window pd self))) ;
  rd_wstmt (rd_deref mr) ;;
  e <- get ;
  normal (mk_connection_data addr (mr_rkey (lib_of e) mr))).

(** The loop of [new_recv_bufs], with [n] buffers left. *)
Fixpoint recv_wrs (n : nat) (id : Z) : stmt W (list ibv_recv_wr) :=
  match n with
  | O => normal []
  | Datatypes.S n' =>
      buf <- DMTR_OK_out (rd_heap (dmtr_malloc (Some 0) RECV_BUF_SIZE)) ;
      buf <- need buf ;
      mr <- DMTR_OK_out (get_rdma_mr id buf) ;
      w <- get ;
      wrs <- recv_wrs n' id ;
      normal (mk_recv_wr buf buf RECV_BUF_SIZE (mr_lkey (rw_lib w) mr) :: wrs)
  end.
Definition new_recv_bufs (self n : Z) : fn env Z := body (
  q <- rd_get self ;
  let id := my_rdma_id q in
  _ <- DMTR_OK_out (rd_world (get_pd id)) ;
  wrs <- rd_wstmt (recv_wrs (Z.to_nat n) id) ;
  rd_wstmt (rd_deref id) ;;
  e <- get ;
  DMTR_OK (rd_world (ibv_post_recv (id_qp (lib_of e) id) wrs)) ;;
  rd_modify self (fun q => set_my_recv_window (u64 (my_recv_window q + n)) q) ;;
  normal 0).
Definition setup_recv_queue (self : Z) : fn env Z := body (
  DMTR_OK (new_recv_bufs self RECV_WINDOW) ;;
  normal 0).

(** The argument [n] is not used. *)
Definition update_remote_window (self : Z) : fn env Z := body (
  q <- rd_get self ;
  their <- need (their_send_window q) ;
  let id := my_rdma_id q in
  rd_wstmt (rd_deref id) ;;
  e <- get ;
  DMTR_OK (rd_world (ibv_post_send (id_qp (lib_of e) id)
    (mk_send_wr 0 IBV_WR_RDMA_WRITE IBV_SEND_INLINE [SgeRecvWindow (my_recv_window q)]
       (send_window_addr their) (send_window_rkey their)))) ;;
  normal 0).

(** ** Completions *)
Definition on_work_completed (self : Z) (wc : ibv_wc) : fn env Z := body (
  if wc_opcode wc =? IBV_WC_RDMA_WRITE then return_ 0
  else if wc_opcode wc =? IBV_WC_RECV then
    rd_modify self (fun q => set_my_pending_recvs (my_pending_recvs q ++ [(wc_id wc, wc_byte_len wc)]) q) ;;
    rd_modify self (fun q => set_my_recv_window (u64 (my_recv_window q - 1)) q) ;;
    rd_modify self (fun q => set_rq_in_packets (u64 (rq_in_packets q + 1)) q) ;;
    return_ 0
  else if wc_opcode wc =? IBV_WC_SEND then return_ 0
  else return_ ENOTSUP).
(** Entries [wc[i]] with [i < count]: only those that were returned exist.
    What [on_work_completed] answers is dropped. *)
Fixpoint work_completed (self : Z) (count : nat) (wc : list ibv_wc) : stmt env unit :=
  match count with
  | O => normal tt
  | Datatypes.S count' =>
      match wc with
      | [] => undef
      | c :: wc' => call (on_work_completed self c) ;; work_completed self count' wc'
      end
  end.
Definition service_completion_queue (self cq quantity : Z) : fn env Z := body (
  DMTR_NONZERO EINVAL cq ;;
  DMTR_TRUE EINVAL (quantity >? 0) ;;
  ' (count, wc) <- DMTR_OK_out (rd_world (ibv_poll_cq cq quantity)) ;
  work_completed self (Z.to_nat count) wc ;;
  normal 0).

(** ** The event channel *)
Definition rd_service_event_channel (self : Z) : fn env Z := body (
  q <- rd_get self ;
  DMTR_NONZERO EPERM (my_rdma_id q) ;;
  rd_wstmt need_router ;;
  ' (ret, event) <- call (rd_world (rd_router (router_poll (my_rdma_id q)))) ;
  (if ret =? 0 then normal tt
   else if ret =? EAGAIN then return_ EAGAIN
   else DMTR_OK (fret ret)) ;;
  event <- need event ;
  if ev_type event =? RDMA_CM_EVENT_TIMEWAIT_EXIT then
    call (rd_world (rd_ack (ev_ptr event))) ;;
    return_ EAGAIN
  else if ev_type event =? RDMA_CM_EVENT_CONNECT_REQUEST then
    rd_modify self (fun q => set_my_pending_accepts (my_pending_accepts q ++ [event]) q) ;;
    normal 0
  else if ev_type event =? RDMA_CM_EVENT_DISCONNECTED then
    call (rd_world (rd_ack (ev_ptr event))) ;;
    return_ ECONNABORTED
  else if ev_type event =? RDMA_CM_EVENT_ESTABLISHED then normal 0
  else
    call (rd_world (rd_ack (ev_ptr event))) ;;
    return_ EAGAIN).

(** ** The push worker *)
Definition sizeof_metadata : Z := sizeof_header.
Definition get_mr (self p : Z) : fn env (Z * Z) := body_out 0 (
  q <- rd_get self ;
  DMTR_OK_out (rd_world (get_rdma_mr (my_rdma_id q) p))).

(** The loop of [submit_io] over the segments left: [lengths] is where the next
    length goes.  An index outside [sga_segs] is undefined. *)
Fixpoint submit_segs (self n : Z) (segs : list dmtr_sgaseg) (lengths total_len : Z) : stmt env (list ibv_sge * Z) :=
  if n <=? 0 then normal ([], total_len)
  else match segs with
       | [] => undef
       | s :: segs' =>
           call (rd_world (rd_heap (store_bytes lengths (u32_bytes (htonl (sgaseg_len s)))))) ;;
           mr <- DMTR_OK_out (get_mr self (sgaseg_buf s)) ;
           e <- get ;
           let sge := SgeMem (sgaseg_buf s) (sgaseg_len s) (mr_lkey (lib_of e) mr) in
           ' (sges, total_len) <- submit_segs self (n - 1) segs' (lengths + 4) (u64 (total_len + sgaseg_len s)) ;
           normal (sge :: sges, total_len)
       end.
Definition send_flags (out_packets length : Z) : Z :=
  Z.lor (if out_packets mod SEND_SIGNAL_FREQ =? 0 then IBV_SEND_SIGNALED else 0)
        (if length <? 128 then IBV_SEND_INLINE else 0).
(** From the registration of the header on. *)
Definition submit_message (self qt : Z) (sga : dmtr_sgarray) (buf header_len : Z) : fn env Z := body (
  md_mr <- DMTR_OK_out (get_mr self buf) ;
  ' (sges, total_len) <- submit_segs self (sga_numsegs sga) (sga_segs sga) (buf + sizeof_metadata) 0 ;
  call (rd_world (rd_heap (store_bytes buf
    (header_bytes (mk_header (htonl DMTR_HEADER_MAGIC) (htonl (u32 total_len)) (htonl (sga_numsegs sga))))))) ;;
  q <- rd_get self ;
  rd_wstmt (rd_deref (my_rdma_id q)) ;;
  e <- get ;
  DMTR_OK (rd_world (ibv_post_send (id_qp (lib_of e) (my_rdma_id q))
    (mk_send_wr qt IBV_WR_SEND (send_flags (rq_out_packets q) (u64 (header_len + total_len)))
       (SgeMem buf (u32 header_len) (mr_lkey (lib_of e) md_mr) :: sges) 0 0))) ;;
  rd_modify self (fun q => set_rq_out_packets (u64 (rq_out_packets q + 1)) q) ;;
  rd_modify self (fun q => set_my_send_window_unused (u64 (my_send_window_unused q - 1)) q) ;;
  normal 0).
(** [md] owns the header's memory until [md.release()], and releases it on the
    way out of an error. *)
Definition submit_io (self qt : Z) (sga : dmtr_sgarray) : fn env Z := body (
  len <- DMTR_OK_out (dmtr_sgalen (Some 0) (Some sga)) ;
  sgalen <- need len ;
  if 0 =? sgalen then return_ ENOMSG
  else
    let header_len := u64 (sizeof_metadata + u64 (sga_numsegs sga * 4)) in
    buf <- DMTR_OK_out (rd_world (rd_heap (dmtr_malloc (Some 0) header_len))) ;
    buf <- need buf ;
    ret <- call (submit_message self qt sga buf header_len) ;
    (if ret =? 0 then normal tt
     else call (rd_world (rd_heap (free buf))) ;; return_ ret) ;;
    normal 0).

(** The batches of receive buffers posted when less than one is left. *)
Fixpoint refill (self : Z) (n : nat) : stmt env unit :=
  match n with
  | O => normal tt
  | Datatypes.S n' => DMTR_OK (new_recv_bufs self RECV_WINDOW) ;; refill self n'
  end.

Definition rd_push_step (self : Z) (k : rd_push_k) (tq : list Z) : fn env (list Z * next rd_push_k) :=
  match k with
  | RdPushLoop => in_thread tq (
      q <- rd_get self ;
      if rd_good q then normal (Continue RdPushIdle) else return_ 0)
  | RdPushIdle =>
      match tq with
      | [] => in_thread tq (normal (Yield RdPushIdle))
      | _ => in_thread tq (normal (Continue RdPushWindow))
      end
  | RdPushWindow => in_thread tq (
      q <- rd_get self ;
      if my_send_window_unused q =? 0 then
        my_send_window <- call (rd_world (rd_call (window_read self))) ;
        if my_send_window >? 0 then
          my_send_window <- call (rd_world (rd_call (window_read self))) ;
          rd_modify self (set_my_send_window_unused my_send_window) ;;
          call (rd_world (rd_do (window_write self 0))) ;;
          normal (Continue RdPushSend)
        else normal (Yield RdPushWindow)
      else normal (Continue RdPushSend))
  | RdPushSend =>
      match tq with
      | [] => undef
      | qt :: tq => in_thread tq (
          t <- DMTR_OK_out (rd_on_base self (get_task_ptr qt)) ;
          q <- rd_get self ;
          let arg := task_arg_sga (rd_task t q) in
          DMTR_TRUE EINVAL (match arg with Some _ => true | None => false end) ;;
          sga <- need arg ;
          ret <- call (submit_io self qt sga) ;
          q <- rd_get self ;
          let sga := my_sga_arg (rd_task t q) in
          if negb (0 =? ret) then
            DMTR_OK (rd_on_base self (on_slot t (task_complete_sga ret sga))) ;;
            return_ ret
          else
            (if my_recv_window q <? RECV_WINDOW then
               refill self (Z.to_nat (RECV_WINDOW_BATCHES - 1)) ;;
               DMTR_OK (update_remote_window self)
             else normal tt) ;;
            q <- rd_get self ;
            DMTR_OK (rd_on_base self (on_slot t (task_complete_sga 0 (my_sga_arg (rd_task t q))))) ;;
            normal (Continue RdPushLoop))
      end
  end.

(** ** The pop worker *)
Definition service_recv_queue (self : Z) : fn env (Z * option (Z * Z)) := body_out None (
  q <- rd_get self ;
  match my_pending_recvs q with
  | [] => return_ EAGAIN
  | r :: rest =>
      rd_modify self (set_my_pending_recvs rest) ;;
      normal (Some r)
  end).

(** The loop that fills [sga_segs] with [n] segments left: lengths are read
    from [lengths] on, the data starts at [p]. *)
Fixpoint recv_segs (n lengths p : Z) (segs : list dmtr_sgaseg) : fn heap (list dmtr_sgaseg) :=
  if n <=? 0 then fret segs
  else match segs with
       | [] => undef
       | _ :: segs' =>
           fbind (load_bytes lengths 4) (fun bs =>
           let seglen := ntohl (u32_of_bytes bs) in
           fbind (recv_segs (n - 1) (lengths + 4) (p + seglen) segs') (fun segs' =>
           fret (mk_sgaseg p seglen :: segs')))
       end.
(** What follows [service_recv_queue] in [pop_thread]: the array in a buffer
    with [sz_buf] bytes received. *)
Definition parse_message (buf sz_buf : Z) : stmt heap dmtr_sgarray :=
  if sz_buf <? sizeof_header then return_ EPROTO
  else
    bs <- call (load_bytes buf sizeof_header) ;
    let header := ntoh_header (header_of_bytes bs) in
    call (store_bytes buf (header_bytes header)) ;;
    if negb (DMTR_HEADER_MAGIC =? h_magic header) then DMTR_FAIL EILSEQ
    else
      let p := buf + sizeof_metadata + h_sgasegs header * 4 in
      segs <- call (recv_segs (h_sgasegs header) (buf + sizeof_metadata) p (sga_segs sgarray_zero)) ;
      normal (mk_sgarray buf (h_sgasegs header) segs sockaddr_zero).

Definition rd_pop_step (self : Z) (k : rd_pop_k) (tq : list Z) : fn env (list Z * next rd_pop_k) :=
  match k with
  | RdPopLoop => in_thread tq (
      q <- rd_get self ;
      if rd_good q then normal (Continue RdPopIdle) else return_ 0)
  | RdPopIdle =>
      match tq with
      | [] => in_thread tq (normal (Yield RdPopIdle))
      | qt :: tq => in_thread tq (
          t <- DMTR_OK_out (rd_on_base self (get_task_ptr qt)) ;
          normal (Continue (RdPopRecv t)))
      end
  | RdPopRecv t => in_thread tq (
      ' (ret, r) <- call (service_recv_queue self) ;
      if ret =? EAGAIN then normal (Yield (RdPopRecv t))
      else
        (if ret =? 0 then normal tt else DMTR_FAIL ret) ;;
        ' (buf, sz_buf) <- need r ;
        DMTR_NONZERO ENOTSUP buf ;;
        sga <- rd_world (rd_heap (parse_message buf sz_buf)) ;
        DMTR_OK (rd_on_base self (on_slot t (task_complete_sga 0 sga))) ;;
        normal (Continue RdPopLoop))
  end.

(** ** Starting the workers *)
Context (fuel : nat).

(** The workers of a queue that is not listening. *)
Definition rd_start_io (self : Z) : fn env unit :=
  fbind (user_thread_ctor (rd_push_step self) fuel RdPushLoop) (fun th =>
  fbind (rd_modify self (set_rq_push_thread (Some th))) (fun _ =>
  fbind (user_thread_ctor (rd_pop_step self) fuel RdPopLoop) (fun th =>
  fbind (rd_modify self (set_rq_pop_thread (Some th))) (fun _ => fret tt)))).

(** ** The accept worker

    The worker has acknowledged the connection request when it waits, so that
    the [event] it acknowledges again after a refusal is gone. *)
Definition rd_conn_param (cd : connection_data) : rdma_conn_param := mk_conn_param cd 1 1 1.

Definition rd_accept_step (self : Z) (k : rd_accept_k) (tq : list Z) : fn env (list Z * next rd_accept_k) :=
  match k with
  | RdAcceptStart => in_thread tq (
      rd_wstmt need_router ;;
      normal (Continue RdAcceptLoop))
  | RdAcceptLoop => in_thread tq (
      q <- rd_get self ;
      if rd_good q then normal (Continue RdAcceptIdle) else return_ 0)
  | RdAcceptIdle => fbind (rd_get self) (fun r =>
      match r with
      | inr _ => undef
      | inl q =>
          match tq, my_pending_accepts q with
          | qt :: tq, event :: rest => in_thread tq (
              t <- DMTR_OK_out (rd_on_base self (get_task_ptr qt)) ;
              q <- rd_get self ;
              let arg := task_arg_queue (rd_task t q) in
              DMTR_TRUE EINVAL (match arg with Some _ => true | None => false end) ;;
              new_q <- need arg ;
              (* [dynamic_cast]: the object must exist *)
              e <- get ;
              obj <- need (e_queues e !! new_q) ;
              DMTR_NOTNULL EINVAL (as_rd obj) ;;
              let new_rdma_id := ev_id event in
              rd_modify new_q (set_my_rdma_id new_rdma_id) ;;
              DMTR_OK (rd_world (rd_router (bind_id new_rdma_id))) ;;
              DMTR_OK (setup_rdma_qp new_q) ;;
              e <- get ;
              incoming_cd <- need (ev_private_data (lib_of e) (ev_ptr event)) ;
              rd_modify new_q (set_their_send_window (Some incoming_cd)) ;;
              cd <- DMTR_OK_out (setup_recv_window new_q) ;
              DMTR_OK (setup_recv_queue new_q) ;;
              rd_modify new_q (set_my_send_window_unused RECV_WINDOW) ;;
              call (rd_world (rd_ack (ev_ptr event))) ;;
              rd_modify self (fun q => set_my_pending_accepts (tail (my_pending_accepts q)) q) ;;
              DMTR_OK (rd_world (rdma_accept new_rdma_id (rd_conn_param cd))) ;;
              normal (Continue (RdAcceptWait t new_q new_rdma_id)))
          | _, _ => in_thread tq (normal (Yield RdAcceptIdle))
          end
      end)
  | RdAcceptWait t new_rq new_rdma_id => in_thread tq (
      ' (ret, event) <- call (rd_world (expect_rdma_cm_event ECONNREFUSED RDMA_CM_EVENT_ESTABLISHED new_rdma_id true)) ;
      if ret =? ECONNREFUSED then undef
      else if ret =? EINVAL then normal (Yield (RdAcceptWait t new_rq new_rdma_id))
      else if ret =? 0 then
        event <- need event ;
        call (rd_world (rd_ack (ev_ptr event))) ;;
        call (rd_start_io new_rq) ;;
        saddr <- DMTR_OK_out (rd_world (rdma_get_peer_addr new_rdma_id)) ;
        nq <- rd_get new_rq ;
        DMTR_OK (rd_on_base self (on_slot t (task_complete_ares 0 (my_qd (rq_base nq)) saddr))) ;;
        normal (Continue RdAcceptLoop)
      else DMTR_FAIL ret)
  end.

Definition rd_start_threads (self : Z) : stmt env unit :=
  q <- rd_get self ;
  if rq_listening_flag q then
    th <- call (user_thread_ctor (rd_accept_step self) fuel RdAcceptStart) ;
    rd_modify self (set_rq_accept_thread (Some th))
  else call (rd_start_io self).

(** ** The connect worker

    [connect_thread] completes the task with what [connect(yield, qt, timeout)]
    returns, 0 at its end. *)
Definition connect_timeout : Z := 10000.
Definition connect_returns (self t : Z) (m : stmt env (next rd_connect_k)) : stmt env (next rd_connect_k) :=
  fbind m (fun r => match r with
  | inl n => normal n
  | inr ret => DMTR_OK (rd_on_base self (on_slot t (task_complete ret))) ;; return_ 0
  end).
(** [dmtr_u32toi(&timeout_int, timeout.count())] *)
Definition timeout_int : stmt env Z :=
  n <- DMTR_OK_out (fret (dmtr_u32toi (Some 0) (u32 connect_timeout))) ;
  need n.

Definition rd_connect_step (self : Z) (k : rd_connect_k) (tq : list Z) : fn env (list Z * next rd_connect_k) :=
  match k with
  | RdConnectStart qt => in_thread tq (
      t <- DMTR_OK_out (rd_on_base self (get_task_ptr qt)) ;
      normal (Continue (RdConnectAddr t)))
  | RdConnectAddr t => in_thread tq (connect_returns self t (
      q <- rd_get self ;
      ' (ret, _) <- call (rd_world (expect_rdma_cm_event EADDRNOTAVAIL RDMA_CM_EVENT_ADDR_RESOLVED (my_rdma_id q) false)) ;
      if ret =? EADDRNOTAVAIL then return_ ret
      else if ret =? EAGAIN then normal (Yield (RdConnectAddr t))
      else if ret =? 0 then
        n <- timeout_int ;
        DMTR_OK (rd_world (rdma_resolve_route (my_rdma_id q) n)) ;;
        normal (Continue (RdConnectRoute t))
      else DMTR_FAIL ret))
  | RdConnectRoute t => in_thread tq (connect_returns self t (
      q <- rd_get self ;
      ' (ret, _) <- call (rd_world (expect_rdma_cm_event EPERM RDMA_CM_EVENT_ROUTE_RESOLVED (my_rdma_id q) false)) ;
      if ret =? EPERM then return_ ret
      else if ret =? EAGAIN then normal (Yield (RdConnectRoute t))
      else if ret =? 0 then
        DMTR_OK (setup_rdma_qp self) ;;
        cd <- DMTR_OK_out (setup_recv_window self) ;
        q <- rd_get self ;
        DMTR_OK (rd_world (rdma_connect (my_rdma_id q) (rd_conn_param cd))) ;;
        normal (Continue (RdConnectWait t))
      else DMTR_FAIL ret))
  (* after a refusal the code acknowledges [event], which is not initialised *)
  | RdConnectWait t => in_thread tq (connect_returns self t (
      q <- rd_get self ;
      ' (ret, event) <- call (rd_world (expect_rdma_cm_event ECONNREFUSED RDMA_CM_EVENT_ESTABLISHED (my_rdma_id q) true)) ;
      if ret =? ECONNREFUSED then undef
      else if ret =? EINVAL then normal (Yield (RdConnectWait t))
      else if ret =? 0 then
        event <- need event ;
        e <- get ;
        let incoming_cd := ev_private_data (lib_of e) (ev_ptr event) in
        rd_modify self (set_my_send_window_unused RECV_WINDOW) ;;
        incoming_cd <- need incoming_cd ;
        rd_modify self (set_their_send_window (Some incoming_cd)) ;;
        call (rd_world (rd_ack (ev_ptr event))) ;;
        DMTR_OK (setup_recv_queue self) ;;
        rd_start_threads self ;;
        return_ 0
      else DMTR_FAIL ret))
  end.

(** ** The methods *)
Definition rd_new_object (qd : Z) : fn W (Z * option rdma_object) := body_out None (
  DMTR_OK init_rdma ;;
  call (rd_do (window_write qd 0)) ;;
  normal (Some (RdObj (rdma_queue_ctor qd)))).

Definition disconnect_qp (id : Z) : stmt W unit :=
  w <- get ;
  if id_qp (rw_lib w) id =? 0 then normal tt
  else
    DMTR_OK (rdma_disconnect id) ;;
    DMTR_OK (rdma_destroy_qp id) ;;
    call (rd_do (v_set_id_qp id 0)).
(** [close] of an object that is in hand: what it does to the object and to
    the world. *)
Definition rd_close_obj (q : rdma_queue) : fn W (Z * rdma_queue) :=
  let id := my_rdma_id q in
  fbind (
    need_router ;;
    if id =? 0 then normal tt
    else
      (if my_cq q =? 0 then normal tt else call (rd_do (v_destroy_cq (my_cq q)))) ;;
      disconnect_qp id)
  (fun r => match r with
   | inr err => fret (err, q)
   | inl _ =>
       if id =? 0 then fret (0, q)
       else fbind (rd_router (destroy_id id)) (fun r => fret (fst r, set_my_rdma_id 0 q))
   end).
Definition rd_close (self : Z) : fn env Z := body (
  q <- rd_get self ;
  ' (ret, q) <- call (rd_world (rd_close_obj q)) ;
  rd_modify self (fun _ => q) ;;
  normal ret).
(** The destructor. *)
Definition rd_destroy (q : rdma_queue) : fn W unit :=
  fbind (rd_close_obj q) (fun r => if fst r =? 0 then fret tt else panic).

Definition rd_socket (self domain type protocol : Z) : fn env Z := body (
  q <- rd_get self ;
  DMTR_TRUE EPERM (my_rdma_id q =? 0) ;;
  rd_wstmt need_router ;;
  ' (ret, id) <- call (rd_world (rd_router (create_id (my_rdma_id q) type))) ;
  rd_modify self (set_my_rdma_id id) ;;
  DMTR_OK (fret ret) ;;
  normal 0).

(** The address of [route.addr.src_addr] is never null. *)
Definition rd_getsockname (self : Z) (saddr : bool) (size : option Z) : fn env (Z * option (list Z)) := body_out None (
  q <- rd_get self ;
  rd_wstmt (rd_deref (my_rdma_id q)) ;;
  _ <- need (if saddr then Some tt else None) ;
  _ <- need size ;
  e <- get ;
  normal (Some (v_get_local_addr (lib_of e) (my_rdma_id q)))).

Definition rd_bind (self : Z) (saddr : option (list Z)) (size : Z) : fn env Z := body (
  q <- rd_get self ;
  DMTR_NONZERO EPERM (my_rdma_id q) ;;
  DMTR_OK (rd_world (rdma_bind_addr (my_rdma_id q) saddr)) ;;
  normal 0).

Definition rd_accept (self qt new_qd : Z) : fn env (Z * option rdma_object) := body_out None (
  q <- rd_get self ;
  DMTR_TRUE EPERM (rq_listening_flag q) ;;
  rd_wstmt need_router ;;
  DMTR_NOTNULL EINVAL (rq_accept_thread q) ;;
  call (rd_world (rd_do (window_write new_qd 0))) ;;
  let new_q := rdma_queue_ctor new_qd in
  ret <- call (rd_on_base self (new_task_queue qt DMTR_OPC_ACCEPT new_qd)) ;
  if negb (ret =? 0) then
    (* [qq] owns the new object and destroys it *)
    call (rd_world (rd_destroy new_q)) ;;
    return_ ret
  else
    rd_modify self (fun q => set_rq_accept_thread (th_enqueue qt <$> rq_accept_thread q) q) ;;
    normal (Some (RdObj new_q))).

(** What [set_non_blocking] answers is dropped. *)
Definition rd_listen (self backlog : Z) : fn env Z := body (
  q <- rd_get self ;
  DMTR_TRUE EPERM (negb (rq_listening_flag q)) ;;
  let id := my_rdma_id q in
  DMTR_NONZERO EPERM id ;;
  e <- get ;
  let r := lib_of e in
  rd_wstmt (rd_deref (cm_id_channel r id)) ;;
  _ <- call (rd_world (io_set_non_blocking (fun fd cmd arg => rd_call (cm_fcntl fd cmd arg)) (cm_channel_fd r (cm_id_channel r id)))) ;
  DMTR_OK (rd_world (rdma_listen id backlog)) ;;
  rd_modify self (set_rq_listening_flag true) ;;
  rd_start_threads self ;;
  normal 0).

(** The thread's constructor runs it before the token is put in its queue. *)
Definition rd_connect (self qt : Z) (saddr : option (list Z)) (size : Z) : fn env Z := body (
  q <- rd_get self ;
  DMTR_NONZERO EPERM (my_rdma_id q) ;;
  n <- timeout_int ;
  DMTR_OK (rd_world (rdma_resolve_addr (my_rdma_id q) saddr n)) ;;
  DMTR_OK (rd_on_base self (new_task qt DMTR_OPC_CONNECT)) ;;
  th <- call (user_thread_ctor (rd_connect_step self) fuel (RdConnectStart qt)) ;
  rd_modify self (set_my_connect_thread (Some (th_enqueue qt th))) ;;
  normal 0).

Definition rd_service_accept (self : Z) : stmt env Z :=
  q <- rd_get self ;
  th <- need (rq_accept_thread q) ;
  ' (ret, th) <- call (service (rd_accept_step self) fuel th) ;
  rd_modify self (set_rq_accept_thread (Some th)) ;;
  normal ret.
Definition rd_service_push (self : Z) : stmt env Z :=
  q <- rd_get self ;
  th <- need (rq_push_thread q) ;
  ' (ret, th) <- call (service (rd_push_step self) fuel th) ;
  rd_modify self (set_rq_push_thread (Some th)) ;;
  normal ret.
Definition rd_service_pop (self : Z) : stmt env Z :=
  q <- rd_get self ;
  th <- need (rq_pop_thread q) ;
  ' (ret, th) <- call (service (rd_pop_step self) fuel th) ;
  rd_modify self (set_rq_pop_thread (Some th)) ;;
  normal ret.

Definition rd_push (self qt : Z) (sga : dmtr_sgarray) : fn env Z := body (
  q <- rd_get self ;
  DMTR_NONZERO EPERM (my_rdma_id q) ;;
  DMTR_TRUE ENOTSUP (negb (rq_listening_flag q)) ;;
  DMTR_NOTNULL EINVAL (rq_push_thread q) ;;
  DMTR_OK (rd_on_base self (new_task_sga qt DMTR_OPC_PUSH sga)) ;;
  rd_modify self (fun q => set_rq_push_thread (th_enqueue qt <$> rq_push_thread q) q) ;;
  _ <- rd_service_push self ;
  normal 0).
Definition rd_pop (self qt : Z) : fn env Z := body (
  q <- rd_get self ;
  DMTR_NONZERO EPERM (my_rdma_id q) ;;
  DMTR_TRUE ENOTSUP (negb (rq_listening_flag q)) ;;
  e <- get ;
  rd_wstmt (rd_assert (negb (id_verbs (lib_of e) (my_rdma_id q) =? 0))) ;;
  DMTR_OK (rd_on_base self (new_task qt DMTR_OPC_POP)) ;;
  q <- rd_get self ;
  th <- need (rq_pop_thread q) ;
  rd_modify self (set_rq_pop_thread (Some (th_enqueue qt th))) ;;
  normal 0).

(** The event channel is looked at in every 10001st poll, over all queues. *)
Definition rd_poll_events (self : Z) : stmt env unit :=
  e <- get ;
  let n := rw_poll_count (e_world e) + 1 in
  if n >? 10000 then
    ret <- call (rd_service_event_channel self) ;
    call (rd_world (fun w => Ok tt (set_rw_poll_count 0 w))) ;;
    if (ret =? 0) || (ret =? EAGAIN) then normal tt
    else if ret =? ECONNABORTED then return_ ret
    else DMTR_FAIL ret
  else call (rd_world (fun w => Ok tt (set_rw_poll_count n w))).
(** The connect worker is not resumed. *)
Definition rd_poll_service (self : Z) (op : dmtr_opcode) : stmt env Z :=
  match op with
  | DMTR_OPC_ACCEPT =>
      q <- rd_get self ;
      match my_pending_accepts q with
      | [] => normal EAGAIN
      | _ => rd_service_accept self
      end
  | DMTR_OPC_PUSH | DMTR_OPC_POP =>
      q <- rd_get self ;
      DMTR_OK (service_completion_queue self (my_cq q) CQ_BATCH) ;;
      ret <- rd_service_pop self ;
      if negb (EAGAIN =? ret) then normal ret
      else rd_service_push self
  | DMTR_OPC_CONNECT => normal 0
  | _ => return_ ENOTSUP
  end.
Definition rd_poll (self : Z) (qr_out : dmtr_qresult) (qt : Z) : fn env (Z * dmtr_qresult) :=
  fbind (rd_get self) (fun r => match r with
  | inr _ => undef
  | inl q =>
      match initialize_result (my_qd (rq_base q)) qt qr_out with
      | Ok err qr =>
          fbind (
            DMTR_OK (fret err) ;;
            DMTR_TRUE EINVAL (rd_good q) ;;
            rd_poll_events self ;;
            t <- DMTR_OK_out (rd_on_base self (get_task_ptr qt)) ;
            q <- rd_get self ;
            ret <- rd_poll_service self (task_opcode (rd_task t q)) ;
            (if ret =? EAGAIN then normal tt
             else if ret =? 0 then
               q <- rd_get self ;
               if opcode_eqb DMTR_OPC_CONNECT (task_opcode (rd_task t q)) then normal tt else DMTR_UNREACHABLE
             else DMTR_FAIL ret) ;;
            q <- rd_get self ;
            normal (task_poll qr (rd_task t q)))
          (fun r => match r with inl a => fret a | inr e => fret (e, qr) end)
      | _ => undef
      end
  end).

Definition rd_drop (self qt : Z) : fn env Z := rd_on_base self (io_queue_drop qt).

(** ** The vtable *)
Definition rd_vcall (self : Z) (c : vcall) : fn env Z :=
  match c with
  | VSocket d t p => rd_socket self d t p
  | VListen n => rd_listen self n
  | VBind a n => rd_bind self a n
  | VConnect qt a n => rd_connect self qt a n
  | VClose => rd_close self
  | VPush qt sga => rd_push self qt sga
  | VPop qt => rd_pop self qt
  | VDrop qt => rd_drop self qt
  | _ => io_queue_unsupported
  end.

Definition rdispatch {A} (self : Z) (mem : fn memory_queue A) (rd : fn env A) : fn env A := fun e =>
  match e_queues e !! self with
  | None => Undef
  | Some (RMemObj _) => on_object as_rmem RMemObj self mem e
  | Some (RdObj _) => rd e
  end.

Definition rdma_base (o : rdma_object) : io_queue := match o with RMemObj q => mq_base q | RdObj q => rq_base q end.
Definition set_rdma_base (b : io_queue) (o : rdma_object) : rdma_object :=
  match o with RMemObj q => RMemObj (set_mq_base b q) | RdObj q => RdObj (set_rq_base b q) end.

#[export] Instance rdma_vtable : Queue rdma_object W := {|
  q_base := rdma_base;
  set_q_base := set_rdma_base;
  q_vcall p c := rdispatch p (mq_vcall c) (rd_vcall p c);
  q_getsockname p saddr size := rdispatch p (fret (ENOTSUP, None)) (rd_getsockname p saddr size);
  q_accept p qt new_qd := rdispatch p (fret (ENOTSUP, None)) (rd_accept p qt new_qd);
  q_poll p qr qt := rdispatch p (mq_poll qr qt) (rd_poll p qr qt);
  q_destroy o := match o with RMemObj _ => fret tt | RdObj q => rd_destroy q end
|}.
End rdma_queue.
