(* ===== verification/RdmaLaws.v ===== *)
(** * RDMA queues keep the promises of the queue interface

    With these laws the theorems on the API and on the entry points
    ([IoQueueApi], [Wait], [Libos]) hold of the RDMA library OS. *)
From S2P Require Import Prelude Cmd Types Memory IoQueue UserThread MemoryQueue Queue MemoryVtable IoQueueApi Libos PosixOs Router RdmaOs RdmaQueue.

Section laws.
Context {R : Type} `{CM : RdmaCm R} `{RV : RdmaVerbs R} (fuel : nat).
Abbreviation env := (qenv rdma_object (rdworld R)).
Abbreviation shape := (same_shape (H := rdma_vtable fuel)).

Lemma as_rd_base (o : rdma_object) q : as_rd o = Some q -> rdma_base o = rq_base q.
Proof. by destruct o as [|q']; [|intros [= ->]]. Qed.
Lemma as_rmem_base (o : rdma_object) q : as_rmem o = Some q -> rdma_base o = mq_base q.
Proof. by destruct o as [q'|]; [intros [= ->]|]. Qed.

Lemma keeps_rd_get self : keeps shape (rd_get self).
Proof.
  intros e. unfold post, rd_get. destruct (e_queues e !! self) as [[|q]|]; first [done|apply (same_shape_refl (H := rdma_vtable fuel))].
Qed.
Lemma keeps_rd_modify self f : (forall q, rq_base (f q) = rq_base q) -> keeps shape (rd_modify self f).
Proof.
  intros Hf. apply keeps_call; [apply _|]. intros e.
  apply (on_object_shape (H := rdma_vtable fuel) _ _ rq_base); [apply as_rd_base|done|].
  intros q. unfold post, same_base. by rewrite Hf.
Qed.
Lemma keeps_rd_on_base {A} self (m : fn io_queue A) :
  (forall b, wlp m (fun _ b' => same_base b b') b) -> keeps shape (rd_on_base self m).
Proof.
  intros Hm e. apply (on_object_shape (H := rdma_vtable fuel) _ _ rq_base); [apply as_rd_base|done|].
  intros q. rewrite post_zoom. eapply post_mono; [apply Hm|done].
Qed.
Lemma keeps_rd_world {A} (m : fn (rdworld R) A) : keeps shape (rd_world m).
Proof. intros e. unfold post, rd_world, zoom. destruct (m _); first [done|apply (same_shape_world (H := rdma_vtable fuel))]. Qed.
Lemma keeps_rd_wstmt {A} (m : stmt (rdworld R) A) : keeps shape (rd_wstmt m).
Proof. apply keeps_rd_world. Qed.
End laws.

Ltac rd_keeps :=
  repeat first
  [ keeps_step
  | apply keeps_rd_get | apply keeps_rd_modify; done | apply keeps_rd_world | apply keeps_rd_wstmt
  | apply keeps_rd_on_base; first [apply get_task_ptr_base | apply on_slot_base]
  | lazymatch goal with |- keeps _ (if ?x then _ else _) => destruct x end
  | lazymatch goal with |- keeps _ (match ?x with _ => _ end) => destruct x end ].

Section methods.
Context {R : Type} `{CM : RdmaCm R} `{RV : RdmaVerbs R} (fuel : nat).
Abbreviation env := (qenv rdma_object (rdworld R)).
Abbreviation shape := (same_shape (H := rdma_vtable fuel)).

(** ** The parts of the workers *)
Lemma keeps_setup_rdma_qp self : keeps shape (setup_rdma_qp self).
Proof. unfold setup_rdma_qp. rd_keeps. Qed.
Lemma keeps_setup_recv_window self : keeps shape (setup_recv_window self).
Proof. unfold setup_recv_window. rd_keeps. Qed.
Lemma keeps_new_recv_bufs self n : keeps shape (new_recv_bufs self n).
Proof. unfold new_recv_bufs. rd_keeps. Qed.
Lemma keeps_setup_recv_queue self : keeps shape (setup_recv_queue self).
Proof. unfold setup_recv_queue. rd_keeps. apply keeps_new_recv_bufs. Qed.
Lemma keeps_update_remote_window self : keeps shape (update_remote_window self).
Proof. unfold update_remote_window. rd_keeps. Qed.
Lemma keeps_on_work_completed self wc : keeps shape (on_work_completed self wc).
Proof. unfold on_work_completed. rd_keeps. Qed.
Lemma keeps_work_completed self n wc : keeps shape (work_completed self n wc).
Proof. revert wc. induction n as [|n IH]; intros [|c wc]; cbn [work_completed]; rd_keeps; [apply keeps_on_work_completed|apply IH]. Qed.
Lemma keeps_service_completion_queue self cq n : keeps shape (service_completion_queue self cq n).
Proof. unfold service_completion_queue. rd_keeps. apply keeps_work_completed. Qed.
Lemma keeps_rd_service_event_channel self : keeps shape (rd_service_event_channel self).
Proof. unfold rd_service_event_channel. rd_keeps. Qed.
Lemma keeps_get_mr self p : keeps shape (get_mr self p).
Proof. unfold get_mr. rd_keeps. Qed.
Lemma keeps_submit_segs self n segs p len : keeps shape (submit_segs self n segs p len).
Proof. revert n p len. induction segs as [|s segs IH]; intros n p len; cbn [submit_segs]; rd_keeps; [apply keeps_get_mr|apply IH]. Qed.
Lemma keeps_submit_io self qt sga : keeps shape (submit_io self qt sga).
Proof.
  unfold submit_io, submit_message, dmtr_sgalen. rd_keeps; first [apply keeps_get_mr|apply keeps_submit_segs].
Qed.
Lemma keeps_refill self n : keeps shape (refill self n).
Proof. induction n as [|n IH]; cbn [refill]; rd_keeps; [apply keeps_new_recv_bufs|apply IH]. Qed.
Lemma keeps_service_recv_queue self : keeps shape (service_recv_queue self).
Proof. unfold service_recv_queue. rd_keeps. Qed.

(** ** The workers *)
Lemma keeps_rd_push_step self k tq : keeps shape (rd_push_step self k tq).
Proof.
  destruct k; [|destruct tq| |destruct tq]; unfold rd_push_step, in_thread; rd_keeps;
    first [apply keeps_submit_io|apply keeps_refill|apply keeps_update_remote_window].
Qed.
Lemma keeps_rd_pop_step self k tq : keeps shape (rd_pop_step self k tq).
Proof. destruct k; [|destruct tq|]; unfold rd_pop_step, in_thread; rd_keeps. apply keeps_service_recv_queue. Qed.
Lemma keeps_rd_start_io self : keeps shape (rd_start_io fuel self).
Proof.
  unfold rd_start_io, user_thread_ctor. rd_keeps; apply keeps_run; try apply _;
    [apply keeps_rd_push_step|apply keeps_rd_pop_step].
Qed.
Lemma keeps_rd_accept_step self k tq : keeps shape (rd_accept_step fuel self k tq).
Proof.
  destruct k; unfold rd_accept_step, in_thread; rd_keeps;
    first [apply keeps_setup_rdma_qp|apply keeps_setup_recv_window|apply keeps_setup_recv_queue|apply keeps_rd_start_io].
Qed.
Lemma keeps_rd_start_threads self : keeps shape (rd_start_threads fuel self).
Proof.
  unfold rd_start_threads, user_thread_ctor. rd_keeps; [|apply keeps_rd_start_io].
  apply keeps_run; [apply _|apply keeps_rd_accept_step].
Qed.
Lemma keeps_rd_connect_step self k tq : keeps shape (rd_connect_step fuel self k tq).
Proof.
  destruct k; unfold rd_connect_step, connect_returns, timeout_int, in_thread; rd_keeps;
    first [apply keeps_setup_rdma_qp|apply keeps_setup_recv_window|apply keeps_setup_recv_queue|apply keeps_rd_start_threads].
Qed.
Lemma keeps_rd_service_accept self : keeps shape (rd_service_accept fuel self).
Proof. unfold rd_service_accept. rd_keeps. apply keeps_service; [apply _|apply keeps_rd_accept_step]. Qed.
Lemma keeps_rd_service_push self : keeps shape (rd_service_push fuel self).
Proof. unfold rd_service_push. rd_keeps. apply keeps_service; [apply _|apply keeps_rd_push_step]. Qed.
Lemma keeps_rd_service_pop self : keeps shape (rd_service_pop fuel self).
Proof. unfold rd_service_pop. rd_keeps. apply keeps_service; [apply _|apply keeps_rd_pop_step]. Qed.
Lemma keeps_rd_cmd self c qt : keeps shape (rd_on_base self (run_cmd c qt)).
Proof. apply keeps_rd_on_base, run_cmd_base. Qed.

(** ** The methods *)

(** [close] gives back the object it was given, with the same base. *)
Lemma rd_close_obj_base q (w : rdworld R) : wlp (rd_close_obj q) (fun r _ => rq_base (snd r) = rq_base q) w.
Proof.
  unfold rd_close_obj. rewrite post_fbind. unfold post at 1.
  match goal with |- match ?m w with _ => _ end => destruct (m w) as [[[]|err] w'| | |]; try done end.
  destruct (my_rdma_id q =? 0); [done|]. rewrite post_fbind. unfold post. by destruct (rd_router _ w').
Qed.
Lemma keeps_rd_close self : keeps shape (rd_close self).
Proof.
  unfold rd_close. keeps_step. intros e. rewrite post_sbind. unfold post at 1, rd_get.
  destruct (e_queues e !! self) as [[|q]|] eqn:Eq; try done. rewrite post_sbind, post_call. unfold post at 1, rd_world, zoom.
  pose proof (rd_close_obj_base q (e_world e)) as Hb. unfold post in Hb.
  destruct (rd_close_obj q (e_world e)) as [[ret q'] w'| | |]; try done. cbn [snd] in Hb.
  rewrite post_sbind. unfold rd_modify. rewrite post_call. unfold post, on_object. cbn. rewrite Eq. cbn.
  eapply (same_shape_insert (H := rdma_vtable fuel) (set_e_world w' e)); [exact Eq|]. cbn. by rewrite Hb.
Qed.
Lemma keeps_rd_connect self qt a n : keeps shape (rd_connect fuel self qt a n).
Proof.
  unfold rd_connect, timeout_int, user_thread_ctor. rd_keeps; [exact (keeps_rd_cmd self (CNew DMTR_OPC_CONNECT) qt)|].
  apply keeps_run; [apply _|apply keeps_rd_connect_step].
Qed.
Lemma keeps_rd_listen self n : keeps shape (rd_listen fuel self n).
Proof. unfold rd_listen. rd_keeps. apply keeps_rd_start_threads. Qed.
Lemma keeps_rd_push self qt sga : keeps shape (rd_push fuel self qt sga).
Proof. unfold rd_push. rd_keeps; [exact (keeps_rd_cmd self (CNewSga DMTR_OPC_PUSH sga) qt)|apply keeps_rd_service_push]. Qed.
Lemma keeps_rd_pop self qt : keeps shape (rd_pop self qt).
Proof. unfold rd_pop. rd_keeps. exact (keeps_rd_cmd self (CNew DMTR_OPC_POP) qt). Qed.
Lemma keeps_rd_poll self qr qt : keeps shape (rd_poll fuel self qr qt).
Proof.
  unfold rd_poll, rd_poll_events, rd_poll_service. rd_keeps;
    first [apply keeps_rd_service_event_channel|apply keeps_service_completion_queue
          |apply keeps_rd_service_push|apply keeps_rd_service_pop|apply keeps_rd_service_accept].
Qed.
Lemma keeps_rd_getsockname self a n : keeps shape (rd_getsockname self a n).
Proof. unfold rd_getsockname. rd_keeps. Qed.
Lemma keeps_rd_accept self qt qd : keeps shape (rd_accept self qt qd).
Proof. unfold rd_accept. rd_keeps. exact (keeps_rd_cmd self (CNewQueue DMTR_OPC_ACCEPT qd) qt). Qed.
Lemma keeps_rd_vcall self c : keeps shape (rd_vcall fuel self c).
Proof.
  destruct c; cbn [rd_vcall]; unfold io_queue_unsupported; try (by keeps_step).
  - unfold rd_socket. rd_keeps.
  - apply keeps_rd_listen.
  - unfold rd_bind. rd_keeps.
  - apply keeps_rd_connect.
  - apply keeps_rd_close.
  - apply keeps_rd_push.
  - apply keeps_rd_pop.
  - exact (keeps_rd_cmd self CDrop qt).
Qed.

Lemma keeps_rdispatch {A} self (mem : fn memory_queue A) (rd : fn env A) :
  keeps same_mq_base mem -> keeps shape rd -> keeps shape (rdispatch self mem rd).
Proof.
  intros Hm Hl e. unfold post, rdispatch. destruct (e_queues e !! self) as [[q|q]|] eqn:Eq; [|apply Hl|done].
  apply (on_object_shape (H := rdma_vtable fuel) as_rmem RMemObj mq_base); [apply as_rmem_base|done|exact Hm].
Qed.

(** What [accept] hands out. *)
Lemma rd_accept_new self qt qd (e : env) :
  wlp (rd_accept self qt qd) (fun r _ => fst r = 0 -> snd r = Some (RdObj (rdma_queue_ctor qd))) e.
Proof.
  apply (returns_body_out _ _ (fun o => o = Some (RdObj (rdma_queue_ctor qd)))).
  apply returns_sbind; [intros s; unfold post, rd_get; by destruct (e_queues s !! self) as [[|q]|]|intros q].
  apply returns_sbind; [by apply returns_TRUE|intros _].
  apply returns_sbind; [|intros _].
  { intros s. unfold post, rd_wstmt, rd_world, zoom, need_router. cbn. by destruct (our_rdmacm_router _). }
  apply returns_sbind; [by apply returns_TRUE|intros _]. apply returns_sbind; [apply returns_call|intros []]. cbn zeta.
  apply returns_sbind; [apply returns_call|intros ret]. destruct (ret =? 0) eqn:E; zbool; cbn [negb].
  - apply returns_sbind; [apply returns_call|]. intros []. by apply returns_normal.
  - apply returns_sbind; [apply returns_call|]. by intros [] s.
Qed.

#[export] Instance rdma_laws : QueueLaws rdma_object (rdworld R) (H := rdma_vtable fuel).
Proof.
  constructor.
  - by intros b [q|q].
  - intros p c e. apply keeps_rdispatch; [apply mq_vcall_keeps|apply keeps_rd_vcall].
  - intros p a n e. apply keeps_rdispatch; [by keeps_step|apply keeps_rd_getsockname].
  - intros p qr qt e. apply keeps_rdispatch; [apply mq_poll_keeps|apply keeps_rd_poll].
  - intros p qt qd e. apply post_and; [apply keeps_rdispatch; [by keeps_step|apply keeps_rd_accept]|].
    unfold q_accept; cbn. unfold rdispatch. unfold post. destruct (e_queues e !! p) as [[q|q]|] eqn:Eq; [| |done].
    + unfold on_object. by rewrite Eq.
    + pose proof (rd_accept_new p qt qd e) as Ha. unfold post in Ha.
      destruct (rd_accept p qt qd e) as [r e'| | |]; try done. intros Hr. eexists. by split; [apply Ha|].
Qed.

(** ** The library OS *)
Definition rd_mem_ctor (qd : Z) : fn (rdworld R) (Z * option rdma_object) :=
  fbind (mq_ctor qd) (fun r => fret (fst r, RMemObj <$> snd r)).
Definition rdma_library : libos rdma_object (rdworld R) := rdma_libos rd_mem_ctor rd_new_object.

Lemma rd_new_object_new qd w :
  wlp (rd_new_object qd) (fun r _ => fst r = 0 -> snd r = Some (RdObj (rdma_queue_ctor qd))) w.
Proof.
  apply (returns_body_out _ _ (fun o => o = Some (RdObj (rdma_queue_ctor qd)))). apply returns_sbind; [apply returns_OK|intros _].
  apply returns_sbind; [apply returns_call|intros []]. by apply returns_normal.
Qed.
Lemma rdma_ctors_ok : ctors_ok (HQ := rdma_vtable fuel) rdma_library.
Proof.
  split; [by vm_compute; repeat constructor; set_solver|].
  intros cid c Hin qd w. cbn in Hin. rewrite !elem_of_cons, elem_of_nil in Hin.
  destruct Hin as [[= _ ->]|[[= _ ->]|[]]]; unfold post.
  - unfold rd_mem_ctor, fbind. destruct (mq_ctor_eq qd w) as (q & -> & Hb). cbn. intros _ q' [= <-]. cbn. by rewrite Hb.
  - pose proof (rd_new_object_new qd w) as Hn. unfold post in Hn. destruct (rd_new_object qd w) as [r w'| | |]; [|done..].
    intros Hr q Hq. specialize (Hn Hr). rewrite Hn in Hq. by injection Hq as <-.
Qed.

(** Whatever a process does with the RDMA library OS, the API stays well
    formed. *)
Lemma rdma_process_ok w p :
  rtc (libos_step (HQ := rdma_vtable fuel) rdma_library) (NoApi w) p -> proc_ok (HQ := rdma_vtable fuel) p.
Proof. apply (libos_run_ok (HQ := rdma_vtable fuel)); [apply rdma_laws|apply rdma_ctors_ok]. Qed.
End methods.
