(* ===== verification/RdmaWire.v ===== *)
(** * The messages of RDMA queues

    What [submit_io] posts for an array, what [pop_thread] makes of a buffer
    with a message, and the receive buffers: [rdma/rdma_queue.cc] against a
    card that takes what it is given. *)
From S2P Require Import Prelude Cmd Types Memory Contents IoQueue UserThread MemoryQueue Queue PosixOs PosixQueue Router RdmaOs RdmaQueue.

(** A message with the bytes [data] (an array has one segment): magic number,
    length, number of segments, the length of each, and the bytes. *)
Definition rdma_header (n : Z) : list Z := be32 DMTR_HEADER_MAGIC ++ be32 n ++ be32 1.
Definition rdma_message (data : list Z) : list Z := rdma_header (len32 data) ++ be32 (len32 data) ++ data.

Lemma length_rdma_header n : length (rdma_header n) = 12%nat.
Proof. unfold rdma_header. by rewrite !length_app, !length_be32. Qed.
Lemma header_bytes_be n : header_bytes (mk_header (htonl DMTR_HEADER_MAGIC) (htonl n) (htonl 1)) = rdma_header n.
Proof. unfold header_bytes, rdma_header. by rewrite !be32_htonl. Qed.
Lemma header_of_be n : 0 <= n < 2 ^ 32 -> ntoh_header (header_of_bytes (rdma_header n)) = mk_header DMTR_HEADER_MAGIC n 1.
Proof.
  intros Hn. unfold ntoh_header, header_of_bytes, rdma_header. cbn [h_magic h_bytes h_sgasegs].
  assert (H4 : forall x, 4%nat = length (be32 x)) by (intros x; by rewrite length_be32).
  rewrite (take_app_length' (be32 DMTR_HEADER_MAGIC)), (drop_app_length' (be32 DMTR_HEADER_MAGIC)), (take_app_length' (be32 n)) by apply H4.
  rewrite (app_assoc (be32 DMTR_HEADER_MAGIC)), drop_app_length' by (by rewrite length_app, !length_be32).
  rewrite take_ge by (by rewrite length_be32). by rewrite !ntohl_be32 by done.
Qed.

(** ** Reading *)
Lemma parse_message_spec buf sz data h :
  holds h buf (rdma_message data) -> len32 data < 2 ^ 32 -> 12 <= sz ->
  wp (parse_message buf sz) (fun r h' =>
    r = inl (mk_sgarray buf 1 [mk_sgaseg (buf + 16) (len32 data)] sockaddr_zero) /\
    holds h' (buf + 16) data /\ same_outside buf 12 h h') h.
Proof.
  intros Hh Hlt Hsz. assert (Hn : 0 <= len32 data < 2 ^ 32) by (unfold len32 in *; lia).
  assert (L12 : len32 (rdma_header (len32 data)) = 12) by (unfold len32 at 1; by rewrite length_rdma_header).
  pose proof (holds_app_r _ _ _ _ Hh) as Hr. rewrite L12 in Hr. pose proof (holds_app_r _ _ _ _ Hr) as Hd.
  apply holds_app_l in Hr. unfold len32 at 1 in Hd. rewrite length_be32 in Hd.
  replace (buf + 12 + Z.of_nat 4) with (buf + 16) in Hd by lia. apply holds_app_l in Hh.
  unfold parse_message. rewrite (proj2 (Z.ltb_ge sz sizeof_header) Hsz). rewrite post_sbind, post_call.
  eapply post_eq; [by apply (holds_load_n _ _ sizeof_header (rdma_header (len32 data)))|]. cbv beta iota zeta.
  rewrite header_of_be by done. rewrite post_sbind, post_call.
  destruct (store_mapped h buf (header_bytes (mk_header DMTR_HEADER_MAGIC (len32 data) 1))) as (h1 & E & _ & Hs).
  { intros x Hx. apply (holds_mapped h buf (rdma_header (len32 data))); [done|]. rewrite L12. exact Hx. }
  change (len32 (header_bytes _)) with 12 in Hs.
  eapply post_eq; [exact E|]. cbv beta iota. cbn [h_magic h_sgasegs].
  change (DMTR_HEADER_MAGIC =? DMTR_HEADER_MAGIC) with true. cbn [negb]. cbv iota.
  assert (Hr1 : holds h1 (buf + 12) (be32 (len32 data))) by (eapply holds_frame; [exact Hr|exact Hs|lia]).
  rewrite post_sbind, post_call. cbn [recv_segs sga_segs sgarray_zero repeat DMTR_SGARRAY_MAXSIZE].
  change (1 <=? 0) with false. change (1 - 1 <=? 0) with true. cbv iota. rewrite post_fbind.
  eapply post_eq; [apply (holds_load_n h1 (buf + 12) 4 (be32 (len32 data))); [exact Hr1|by unfold len32; rewrite length_be32]|].
  rewrite post_fbind, 2!post_fret, post_normal, ntohl_be32 by done.
  split; [|split; [|exact Hs]].
  - unfold sizeof_metadata, sizeof_header. do 3 f_equal. by replace (buf + 12 + 1 * 4) with (buf + 16) by lia.
  - eapply holds_frame; [exact Hd|exact Hs|lia].
Qed.

(** ** The card *)

(** What a request sends. *)
Definition sge_data (h : heap) (g : ibv_sge) : option (list Z) :=
  match g with
  | SgeMem p n _ => match load_bytes p n h with Ok bs _ => Some bs | _ => None end
  | SgeRecvWindow v => Some (u32_bytes v ++ u32_bytes (Z.shiftr v 32))
  end.
Definition wr_data (h : heap) (wr : ibv_send_wr) : option (list Z) := concat (A := Z) <$> mapM (sge_data h) (swr_sg_list wr).

(** The requests a queue has posted so far, sends with their data, and its
    [my_send_window]. *)
Record card_view := mk_view { vw_sent : list (ibv_send_wr * option (list Z)); vw_recv : list (list ibv_recv_wr); vw_window : Z }.
Definition view_send x v := mk_view (vw_sent v ++ [x]) (vw_recv v) (vw_window v).
Definition view_recv x v := mk_view (vw_sent v) (vw_recv v ++ [x]) (vw_window v).
Definition view_window n v := mk_view (vw_sent v) (vw_recv v) n.

(** The card takes every request of the queue pair [qp] of the queue [self],
    all memory is registered in [pd], and the other side writes to the window
    only between calls. *)
Record card_ok {R} `{RdmaVerbs R} (self id qp pd : Z) (ok : R -> Prop) (view : R -> card_view) : Prop := {
  co_id : id <> 0 /\ qp <> 0 /\ pd <> 0;
  co_qp : forall r, ok r -> id_qp r id = qp;
  co_mr : forall p r, ok r -> let '(mr, r') := v_get_rdma_mr p pd r in
    ok r' /\ view r' = view r /\ mr <> 0 /\ mr_context r' mr = id_verbs r' id /\ mr_pd r' mr = pd;
  co_send : forall wr h r, ok r -> let '(ret, r') := v_post_send qp wr h r in
    ret = 0 /\ ok r' /\ view r' = view_send (wr, wr_data h wr) (view r);
  co_recv : forall wrs r, ok r -> let '(ret, r') := v_post_recv qp wrs r in
    ret = 0 /\ ok r' /\ view r' = view_recv wrs (view r);
  co_read : forall r, ok r -> window_read self r = (vw_window (view r), r);
  co_write : forall n r, ok r -> ok (window_write self n r) /\ view (window_write self n r) = view_window n (view r)
}.

Section card.
Context {R : Type} `{CM : RdmaCm R} `{RV : RdmaVerbs R}.
Abbreviation W := (rdworld R).
Abbreviation env := (qenv rdma_object W).
Context (self id qp pd : Z) (ok : R -> Prop) (view : R -> card_view) (Hcard : card_ok self id qp pd ok view).
Implicit Types (e : env) (q : rdma_queue) (w : W) (qs : gmap Z rdma_object) (h : heap) (r : R).

(** The queue [q] at [self] over a heap and the state of the libraries. *)
Definition rd_env qs w q h r : env := mk_qenv (<[self := RdObj q]> qs) (set_rw_mem h r w).

Lemma rd_env_same qs w q : qs !! self = Some (RdObj q) -> mk_qenv qs w = rd_env qs w q (rw_heap w) (rw_lib w).
Proof. intros Hq. unfold rd_env. rewrite insert_id by done. by destruct w. Qed.
Lemma post_rd_get bad qs w q h r (Q : rdma_queue + Z -> env -> Prop) :
  Q (inl q) (rd_env qs w q h r) -> post bad (rd_get self) Q (rd_env qs w q h r).
Proof. intros HQ. unfold post, rd_get, rd_env. cbn [e_queues]. by rewrite lookup_insert_eq. Qed.
Lemma post_rd_modify bad qs w q h r f (Q : unit + Z -> env -> Prop) :
  Q (inl tt) (rd_env qs w (f q) h r) -> post bad (rd_modify self f) Q (rd_env qs w q h r).
Proof.
  intros HQ. unfold rd_modify. rewrite post_call. unfold on_object, post, rd_env. cbn [e_queues]. rewrite lookup_insert_eq.
  cbn. unfold set_e_queues. cbn [e_queues e_world]. by rewrite insert_insert_eq.
Qed.
Lemma post_rd_on_base {A} bad qs w q h r (m : fn io_queue A) a b (Q : A -> env -> Prop) :
  m (rq_base q) = Ok a b -> Q a (rd_env qs w (set_rq_base b q) h r) -> post bad (rd_on_base self m) Q (rd_env qs w q h r).
Proof.
  intros Hm HQ. unfold rd_on_base, on_object, zoom, post, rd_env. cbn [e_queues]. rewrite lookup_insert_eq. cbn. rewrite Hm.
  unfold set_e_queues. cbn [e_queues e_world]. by rewrite insert_insert_eq.
Qed.
Lemma post_rd_world {A} bad (m : fn W A) e (Q : A -> env -> Prop) :
  post bad (rd_world m) Q e <-> post bad m (fun a w => Q a (set_e_world w e)) (e_world e).
Proof. unfold rd_world. by rewrite post_zoom. Qed.
Lemma post_rd_heap {A} bad qs w q h r (m : fn heap A) (Q : A -> env -> Prop) :
  post bad m (fun a h' => Q a (rd_env qs w q h' r)) h -> post bad (rd_world (rd_heap m)) Q (rd_env qs w q h r).
Proof. intros HQ. rewrite post_rd_world. unfold rd_heap. rewrite post_zoom. exact HQ. Qed.
Lemma post_rd_deref bad qs w q h r (Q : unit + Z -> env -> Prop) :
  Q (inl tt) (rd_env qs w q h r) -> post bad (rd_wstmt (rd_deref id)) Q (rd_env qs w q h r).
Proof.
  intros HQ. unfold rd_wstmt. rewrite post_rd_world. unfold rd_deref. rewrite (proj2 (Z.eqb_neq _ _)) by apply Hcard.
  rewrite post_normal. exact HQ.
Qed.

Context (w : W) (Hpd : our_pd w = pd).

Lemma post_get_pd bad h r (Q : Z * Z -> W -> Prop) :
  Q (0, pd) (set_rw_mem h r w) -> post bad (get_pd id) Q (set_rw_mem h r w).
Proof.
  intros HQ. unfold get_pd. rewrite post_body_out, post_sbind, post_get, post_sbind. cbn [our_pd set_rw_mem]. rewrite Hpd.
  rewrite (proj2 (Z.eqb_neq _ _)) by apply Hcard. rewrite post_normal, post_sbind, post_get, post_normal. cbn [our_pd set_rw_mem].
  by rewrite Hpd.
Qed.
Lemma post_get_rdma_mr bad p h r (Q : Z * Z -> W -> Prop) :
  ok r -> p <> 0 -> (forall mr r', ok r' -> view r' = view r -> Q (0, mr) (set_rw_mem h r' w)) ->
  post bad (get_rdma_mr id p) Q (set_rw_mem h r w).
Proof.
  intros Hok Hp HQ. unfold get_rdma_mr, DMTR_NONZERO. pose proof (co_id _ _ _ _ _ _ Hcard) as (Hid & _ & _).
  rewrite post_body_out, post_sbind, post_DMTR_TRUE, (proj2 (Z.eqb_neq _ _) Hp). cbn [negb].
  rewrite post_sbind, post_DMTR_TRUE, (proj2 (Z.eqb_neq _ _) Hid). cbn [negb]. rewrite post_sbind, post_DMTR_OK_out.
  eapply post_get_pd. cbn [fst snd]. change (0 =? 0) with true. cbv iota. rewrite post_sbind, post_call. unfold post at 1, rd_call.
  cbn [rw_lib set_rw_mem]. pose proof (co_mr _ _ _ _ _ _ Hcard p r Hok) as Hmr.
  destruct (v_get_rdma_mr p pd r) as [mr r'] eqn:E. destruct Hmr as (Hok' & Hv & Hmr & Hc & Hd).
  rewrite post_sbind, post_DMTR_TRUE, (proj2 (Z.eqb_neq _ _) Hmr). cbn [negb]. rewrite post_sbind, post_get, post_sbind.
  cbn [rw_lib set_rw_mem]. rewrite Hc, Z.eqb_refl. unfold rd_assert. rewrite post_normal, post_sbind, Hd, Z.eqb_refl, 2!post_normal.
  by apply HQ.
Qed.
Lemma post_get_mr bad qs q p h r (Q : Z * Z -> env -> Prop) :
  ok r -> p <> 0 -> my_rdma_id q = id ->
  (forall mr r', ok r' -> view r' = view r -> Q (0, mr) (rd_env qs w q h r')) ->
  post bad (get_mr self p) Q (rd_env qs w q h r).
Proof.
  intros Hok Hp Hid HQ. unfold get_mr. rewrite post_body_out, post_sbind. eapply post_rd_get.
  rewrite post_DMTR_OK_out, post_rd_world, Hid. eapply post_get_rdma_mr; [done|done|].
  intros mr r' Hok' Hv. cbn [fst snd]. change (0 =? 0) with true. cbv iota. by apply HQ.
Qed.

(** Posting a send. *)
Lemma post_send bad qs q wr h r (Q : Z -> env -> Prop) :
  ok r -> Z.of_nat (length (swr_sg_list wr)) <= max_num_sge ->
  (forall r', ok r' -> view r' = view_send (wr, wr_data h wr) (view r) -> Q 0 (rd_env qs w q h r')) ->
  post bad (rd_world (ibv_post_send qp wr)) Q (rd_env qs w q h r).
Proof.
  intros Hok Hn HQ. rewrite post_rd_world. unfold ibv_post_send, DMTR_NONZERO. pose proof (co_id _ _ _ _ _ _ Hcard) as (_ & Hqp & _).
  rewrite post_body, post_sbind, post_DMTR_TRUE, (proj2 (Z.eqb_neq _ _) Hqp). cbn [negb].
  rewrite post_sbind, post_DMTR_TRUE, (proj2 (Z.leb_le _ _) Hn), post_sbind, post_get, post_sbind, post_call.
  unfold post at 1, rd_call. cbn [rw_lib rw_heap set_rw_mem rd_env e_world].
  pose proof (co_send _ _ _ _ _ _ Hcard wr h r Hok) as Hs. destruct (v_post_send qp wr h r) as [ret r'].
  destruct Hs as (-> & Hok' & Hv). rewrite post_normal. by apply HQ.
Qed.

(** ** Sending *)

(** Memory that [malloc] always finds more of. *)
Record heap_ok (h : heap) : Prop := {
  hk_fresh : forall x, h_brk h <= x -> h_cells h !! x = None;
  hk_oom : forall b n, h_oom h b n = false;
  hk_brk : 0 < h_brk h
}.
Lemma heap_ok_extends h h' : heap_ok h -> extends h h' -> heap_ok h'.
Proof. intros [F O B] [K B' O' F']. split; [done|intros b n; by rewrite O'|lia]. Qed.
Lemma post_malloc bad h n (Q : Z * option Z -> heap -> Prop) :
  heap_ok h -> (forall h', mapped h' (h_brk h) n -> grown h n h' -> Q (0, Some (h_brk h)) h') ->
  post bad (dmtr_malloc (Some 0) n) Q h.
Proof.
  intros [F O B] HQ. destruct (malloc_room n h (O _ _) F) as (h' & E & Hm & Hg). unfold dmtr_malloc. rewrite post_fbind.
  eapply post_eq; [exact E|]. rewrite post_fret. by apply HQ.
Qed.

(** An array of one segment, in memory. *)
Record array_at h (sga : dmtr_sgarray) (data : list Z) : Prop := {
  aa_num : sga_numsegs sga = 1;
  aa_seg : exists p, sga_segs sga = [mk_sgaseg p (len32 data)] /\ p <> 0 /\ holds h p data;
  aa_len : 0 < len32 data < 2 ^ 32
}.
Lemma array_extends h h' sga data : array_at h sga data -> extends h h' -> array_at h' sga data.
Proof. intros [N (p & S & P & H) L] E. split; [done| |done]. exists p. split; [done|]. split; [done|]. by eapply extends_holds. Qed.

Lemma post_store bad qs q p bs h r (Q : unit -> env -> Prop) :
  mapped h p (len32 bs) ->
  (forall h', holds h' p bs -> same_outside p (len32 bs) h h' -> h_brk h' = h_brk h -> h_oom h' = h_oom h ->
     Q tt (rd_env qs w q h' r)) ->
  post bad (rd_world (rd_heap (store_bytes p bs))) Q (rd_env qs w q h r).
Proof.
  intros Hm HQ. apply post_rd_heap. destruct (store_mapped h p bs Hm) as (h' & E & Hh & Hs).
  destruct (store_bytes_rest _ _ _ _ E). eapply post_eq; [exact E|]. by apply HQ.
Qed.

Definition message_sges (buf p n : Z) (sges : list ibv_sge) : Prop :=
  exists k1 k2, sges = [SgeMem buf 16 k1; SgeMem p n k2].
Lemma message_data h buf p data sges wr :
  holds h buf (rdma_header (len32 data)) -> holds h (buf + 12) (be32 (len32 data)) -> holds h p data ->
  message_sges buf p (len32 data) sges -> swr_sg_list wr = sges -> wr_data h wr = Some (rdma_message data).
Proof.
  intros Hh Hl Hd (k1 & k2 & ->) E. unfold wr_data. rewrite E.
  assert (Hb : load_bytes buf 16 h = Ok (rdma_header (len32 data) ++ be32 (len32 data)) h).
  { apply holds_load_n; [|by unfold len32 at 1; rewrite length_app, length_rdma_header, length_be32].
    apply holds_app; [done|]. unfold len32 at 1. by rewrite length_rdma_header. }
  cbn [mapM sge_data]. rewrite Hb, (holds_load _ _ _ Hd). cbn. unfold rdma_message. by rewrite app_nil_r, <- app_assoc.
Qed.

Definition sent_queue q : rdma_queue :=
  set_my_send_window_unused (u64 (my_send_window_unused q - 1)) (set_rq_out_packets (u64 (rq_out_packets q + 1)) q).

Lemma post_submit_segs bad qs q sga data lengths h r (Q : list ibv_sge * Z + Z -> env -> Prop) :
  array_at h sga data -> ok r -> my_rdma_id q = id -> mapped h lengths 4 ->
  (forall h' r' p k, ok r' -> view r' = view r -> holds h' lengths (be32 (len32 data)) -> same_outside lengths 4 h h' ->
     h_brk h' = h_brk h -> h_oom h' = h_oom h -> sga_segs sga = [mk_sgaseg p (len32 data)] ->
     Q (inl ([SgeMem p (len32 data) k], len32 data)) (rd_env qs w q h' r')) ->
  post bad (submit_segs self (sga_numsegs sga) (sga_segs sga) lengths 0) Q (rd_env qs w q h r).
Proof.
  intros [-> (p & S & Hp & Hd) Hl] Hok Hid Hm HQ. rewrite S. cbn [submit_segs sgaseg_len sgaseg_buf].
  change (1 <=? 0) with false. change (1 - 1 <=? 0) with true. cbv iota. rewrite post_sbind, post_call.
  rewrite <- be32_htonl. assert (L4 : len32 (be32 (len32 data)) = 4) by (unfold len32 at 1; by rewrite length_be32).
  eapply post_store; [by rewrite L4|]. rewrite L4. intros h' Hh Hs Hb Ho. rewrite post_sbind, post_DMTR_OK_out.
  eapply post_get_mr; [done|done|done|]. intros mr r' Hok' Hv. cbn [fst snd]. change (0 =? 0) with true. cbv iota.
  rewrite post_sbind, post_get, post_sbind, post_normal. cbv beta iota zeta. rewrite post_normal.
  rewrite Z.add_0_l, wrap_small by (change (2 ^ 64) with 18446744073709551616; change (2 ^ 32) with 4294967296 in Hl; lia).
  by apply HQ.
Qed.

Lemma post_submit_message bad qs q qt sga data buf h0 h r (Q : Z -> env -> Prop) :
  array_at h0 sga data -> heap_ok h0 -> ok r -> my_rdma_id q = id -> buf = h_brk h0 -> mapped h buf 16 -> grown h0 16 h ->
  (forall h' r' wr, extends h0 h' -> ok r' -> swr_id wr = qt -> swr_opcode wr = IBV_WR_SEND ->
     view r' = view_send (wr, Some (rdma_message data)) (view r) -> Q 0 (rd_env qs w (sent_queue q) h' r')) ->
  post bad (submit_message self qt sga buf 16) Q (rd_env qs w q h r).
Proof.
  intros Ha [F O B] Hok Hid -> Hm Hg HQ. pose proof (array_extends _ _ _ _ Ha (grown_extends _ _ _ Hg)) as Ha1.
  pose proof Ha as [Hn (p & S & Hp & Hd) Hl]. set (buf := h_brk h0) in *. unfold submit_message.
  rewrite post_body, post_sbind, post_DMTR_OK_out. eapply post_get_mr; [done|lia|done|]. intros md r1 Hok1 Hv1.
  cbn [fst snd]. change (0 =? 0) with true. cbv iota. rewrite post_sbind.
  eapply (post_submit_segs bad qs q sga data (buf + sizeof_metadata) h); [done..| |].
  { intros x Hx. apply Hm. unfold sizeof_metadata, sizeof_header in Hx. lia. }
  change (buf + sizeof_metadata) with (buf + 12). intros h2 r2 p' k Hok2 Hv2 Hl2 Hs2 Hb2 Ho2 S'. rewrite S in S'. injection S' as <-.
  cbv beta iota. rewrite post_sbind, post_call. rewrite (wrap_small 32) by lia. rewrite Hn, header_bytes_be.
  assert (L12 : len32 (rdma_header (len32 data)) = 12) by (unfold len32 at 1; by rewrite length_rdma_header).
  eapply post_store; [rewrite L12; eapply mapped_frame; [|exact Hs2]; intros x Hx; apply Hm; lia|]. rewrite L12.
  intros h3 Hh3 Hs3 Hb3 Ho3. rewrite post_sbind. eapply post_rd_get. rewrite post_sbind, Hid. eapply post_rd_deref.
  rewrite post_sbind, post_get, post_sbind, post_DMTR_OK. unfold lib_of. cbn [e_world rw_lib rd_env set_rw_mem].
  rewrite (co_qp _ _ _ _ _ _ Hcard) by done. pose proof Hg as [_ Hgb Hgo _].
  assert (Hex : extends h0 h3).
  { eapply extends_store; [|exact Hs3|lia|exact F|done|done|lia].
    eapply extends_store; [by eapply grown_extends|exact Hs2|lia|exact F|done|done|lia]. }
  eapply post_send; [done|by change (2 <= 2)|]. intros r3 Hok3 Hv3. change (0 =? 0) with true. cbv iota. rewrite post_sbind.
  eapply post_rd_modify. rewrite post_sbind. eapply post_rd_modify. rewrite post_normal. eapply HQ; [done|done| | |].
  3: { rewrite Hv3, Hv2, Hv1. do 2 f_equal. eapply message_data; [exact Hh3| | |by eexists _, _|done].
       - eapply holds_frame; [exact Hl2|exact Hs3|lia].
       - by eapply extends_holds. }
  - done.
  - done.
Qed.

Lemma post_submit_io bad qs q qt sga data h r (Q : Z -> env -> Prop) :
  array_at h sga data -> heap_ok h -> ok r -> my_rdma_id q = id ->
  (forall h' r' wr, extends h h' -> ok r' -> swr_id wr = qt -> swr_opcode wr = IBV_WR_SEND ->
     view r' = view_send (wr, Some (rdma_message data)) (view r) -> Q 0 (rd_env qs w (sent_queue q) h' r')) ->
  post bad (submit_io self qt sga) Q (rd_env qs w q h r).
Proof.
  intros Ha Hk Hok Hid HQ. pose proof Ha as [Hn (p & S & Hp & Hd) Hl]. unfold submit_io.
  rewrite post_body, post_sbind, post_DMTR_OK_out. eapply post_eq; [apply (sgalen_one _ p data); [done|done|lia]|].
  cbn [fst snd]. change (0 =? 0) with true. cbv iota. rewrite post_sbind, post_need.
  rewrite (proj2 (Z.eqb_neq 0 (len32 data))) by lia. rewrite Hn. change (u64 (sizeof_metadata + u64 (1 * 4))) with 16.
  rewrite post_sbind, post_DMTR_OK_out. apply post_rd_heap. eapply post_malloc; [exact Hk|]. intros h1 Hm Hg.
  cbn [fst snd]. change (0 =? 0) with true. cbv iota. rewrite post_sbind, post_need, post_sbind, post_call.
  eapply post_submit_message; [exact Ha|exact Hk|done|done|done|exact Hm|exact Hg|]. intros h' r' wr He Hok' H1 H2 H3.
  change (0 =? 0) with true. cbv iota. rewrite post_sbind, 2!post_normal. by eapply HQ.
Qed.

(** ** Receive buffers *)
#[local] Opaque RECV_BUF_SIZE RECV_WINDOW.

(** Buffers for receiving, one after the other, in memory. *)
Record buffers h (n : nat) (wrs : list ibv_recv_wr) : Prop := {
  bf_length : length wrs = n;
  bf_mapped : Forall (fun b => rwr_id b = rwr_addr b /\ rwr_length b = RECV_BUF_SIZE /\ mapped h (rwr_addr b) RECV_BUF_SIZE) wrs;
  bf_apart : StronglySorted (fun b b' => rwr_addr b + RECV_BUF_SIZE <= rwr_addr b') wrs
}.
Lemma buffers_extends h h' n wrs : buffers h n wrs -> extends h h' -> buffers h' n wrs.
Proof.
  intros [L M A] E. split; [done| |done]. eapply Forall_impl; [exact M|]. cbv beta. intros b (H1 & H2 & H3).
  split; [done|]. split; [done|]. by eapply extends_mapped.
Qed.

Lemma post_recv_wrs bad n h r (Q : list ibv_recv_wr + Z -> W -> Prop) :
  heap_ok h -> ok r ->
  (forall h' r' wrs, extends h h' -> ok r' -> view r' = view r -> buffers h' n wrs ->
     Forall (fun b => h_brk h <= rwr_addr b) wrs -> Q (inl wrs) (set_rw_mem h' r' w)) ->
  post bad (recv_wrs n id) Q (set_rw_mem h r w).
Proof.
  revert h r Q. induction n as [|n IH]; intros h r Q Hk Hok HQ; cbn [recv_wrs].
  - rewrite post_normal. apply HQ; try done; [by apply extends_refl, hk_fresh|]. split; [done|constructor..].
  - rewrite post_sbind, post_DMTR_OK_out. unfold rd_heap at 1. rewrite post_zoom. cbn [rw_heap set_rw_mem].
    eapply post_malloc; [done|]. intros h1 Hm Hg. pose proof (grown_extends _ _ _ Hg) as He1.
    cbn [fst snd]. change (0 =? 0) with true. cbv iota. rewrite post_sbind, post_need, post_sbind, post_DMTR_OK_out.
    pose proof (hk_brk _ Hk) as Hb. cbn [rw_lib set_rw_mem].
    change (set_rw_mem h1 r (set_rw_mem h r w)) with (set_rw_mem h1 r w).
    eapply post_get_rdma_mr; [done|lia|]. intros mr r1 Hok1 Hv1. cbn [fst snd]. change (0 =? 0) with true. cbv iota.
    rewrite post_sbind, post_get, post_sbind. eapply IH; [by eapply heap_ok_extends|done|].
    intros h2 r2 wrs He2 Hok2 Hv2 [L M A] Hlow. rewrite post_normal. destruct Hg as [_ Hgb _ _]. apply HQ.
    + by eapply extends_trans.
    + done.
    + congruence.
    + split; cbn; [by rewrite L| |].
      * constructor; [|done]. split; [done|]. split; [done|]. by eapply extends_mapped.
      * constructor; [done|]. eapply Forall_impl; [exact Hlow|]. cbv beta. intros b Hlb. cbn. lia.
    + constructor; [cbn; lia|]. eapply Forall_impl; [exact Hlow|]. cbv beta. intros b Hlb. pose proof (ex_brk _ _ He1). lia.
Qed.

Definition more_buffers (n : Z) q : rdma_queue := set_my_recv_window (u64 (my_recv_window q + n)) q.
Lemma post_new_recv_bufs bad n qs q h r (Q : Z -> env -> Prop) :
  heap_ok h -> ok r -> my_rdma_id q = id ->
  (forall h' r' wrs, extends h h' -> ok r' -> buffers h' (Z.to_nat n) wrs -> view r' = view_recv wrs (view r) ->
     Q 0 (rd_env qs w (more_buffers n q) h' r')) ->
  post bad (new_recv_bufs self n) Q (rd_env qs w q h r).
Proof.
  intros Hk Hok Hid HQ. unfold new_recv_bufs. rewrite post_body, post_sbind. eapply post_rd_get. cbv zeta. rewrite Hid.
  rewrite post_sbind, post_DMTR_OK_out, post_rd_world. eapply post_get_pd. cbn [fst snd]. change (0 =? 0) with true. cbv iota.
  rewrite post_sbind. unfold rd_wstmt at 1. rewrite post_rd_world. eapply post_recv_wrs; [exact Hk|exact Hok|].
  intros h1 r1 wrs He Hok1 Hv1 Hb _. rewrite post_sbind.
  change (set_e_world _ _) with (rd_env qs w q h1 r1). eapply post_rd_deref. rewrite post_sbind, post_get, post_sbind, post_DMTR_OK, post_rd_world.
  unfold lib_of. cbn [e_world rw_lib rd_env set_rw_mem]. rewrite (co_qp _ _ _ _ _ _ Hcard) by done.
  unfold ibv_post_recv, DMTR_NONZERO. pose proof (co_id _ _ _ _ _ _ Hcard) as (_ & Hqp & _).
  rewrite post_body, post_sbind, post_DMTR_TRUE, (proj2 (Z.eqb_neq _ _) Hqp). cbn [negb]. rewrite post_sbind, post_call.
  unfold post at 1, rd_call. cbn [rw_lib rw_heap set_rw_mem].
  pose proof (co_recv _ _ _ _ _ _ Hcard wrs r1 Hok1) as Hs. destruct (v_post_recv qp wrs r1) as [ret r2].
  destruct Hs as (-> & Hok2 & Hv2). rewrite post_normal. change (0 =? 0) with true. cbv iota. rewrite post_sbind.
  change (set_e_world (set_rw_mem h1 r2 (set_rw_mem h1 r1 w)) (mk_qenv (<[self:=RdObj q]> qs) (set_rw_mem h1 r1 w))) with (rd_env qs w q h1 r2).
  eapply post_rd_modify. rewrite post_normal. eapply HQ; [exact He|done|exact Hb|]. by rewrite Hv2, Hv1.
Qed.

(** [update_remote_window] writes the number of buffers. *)
Definition window_update (their : connection_data) (n : Z) : ibv_send_wr :=
  mk_send_wr 0 IBV_WR_RDMA_WRITE IBV_SEND_INLINE [SgeRecvWindow n] (send_window_addr their) (send_window_rkey their).
Definition window_bytes (n : Z) : list Z := u32_bytes n ++ u32_bytes (Z.shiftr n 32).
Definition window_sent (their : connection_data) (n : Z) : ibv_send_wr * option (list Z) :=
  (window_update their n, Some (window_bytes n)).
Lemma post_update_window bad qs q their h r (Q : Z -> env -> Prop) :
  ok r -> my_rdma_id q = id -> their_send_window q = Some their ->
  (forall r', ok r' -> view r' = view_send (window_sent their (my_recv_window q)) (view r) -> Q 0 (rd_env qs w q h r')) ->
  post bad (update_remote_window self) Q (rd_env qs w q h r).
Proof.
  intros Hok Hid Ht HQ. unfold update_remote_window. rewrite post_body, post_sbind. eapply post_rd_get.
  rewrite post_sbind, Ht, post_need. cbv zeta. rewrite Hid, post_sbind. eapply post_rd_deref. rewrite post_sbind, post_get, post_sbind, post_DMTR_OK.
  unfold lib_of. cbn [e_world rw_lib rd_env set_rw_mem]. rewrite (co_qp _ _ _ _ _ _ Hcard) by done.
  eapply post_send; [done|by change (1 <= 2)|]. intros r' Hok' Hv. change (0 =? 0) with true. cbv iota. rewrite post_normal.
  apply HQ; [done|]. rewrite Hv. unfold window_sent, window_update, wr_data, window_bytes. cbn. by rewrite app_nil_r.
Qed.
End card.

(** ** A concrete card

    Identifier 1 with queue pair 7 in domain 5: the card keeps what it is given
    and reports the completions it is told to. *)
Record demo_card := mk_demo_card { dk_view : card_view; dk_done : list ibv_wc; dk_id_pd : Z }.
Definition demo_window (n : Z) (r : demo_card) : demo_card := mk_demo_card (view_window n (dk_view r)) (dk_done r) (dk_id_pd r).
#[export] Instance demo_card_cm : RdmaCm demo_card := {|
  cm_create_event_channel r := (1, 0, r);
  cm_channel_fd _ _ := 7;
  cm_destroy_event_channel _ r := r;
  cm_create_id _ _ r := (0, 0, 1, r);
  cm_id_channel _ _ := 1;
  cm_destroy_id _ r := (0, 0, r);
  cm_get_event _ r := (-1, EAGAIN, mk_cm_event 0 0 0 0, r);
  cm_ack_event _ r := (0, 0, r);
  cm_fcntl _ _ _ r := (0, 0, r)
|}.
#[export] Instance demo_card_verbs : RdmaVerbs demo_card := {|
  id_verbs _ _ := 2;
  id_qp _ _ := 7;
  v_set_id_qp _ _ r := r;
  v_set_id_pd _ pd r := mk_demo_card (dk_view r) (dk_done r) pd;
  v_get_local_addr _ _ := [];
  v_get_peer_addr _ _ := None;
  ev_private_data _ _ := None;
  pd_context _ _ := 2;
  mr_lkey _ mr := mr;
  mr_rkey _ mr := mr;
  mr_context _ _ := 2;
  mr_pd _ _ := 5;
  v_bind_addr _ _ r := (0, 0, r);
  v_listen _ _ r := (0, 0, r);
  v_disconnect _ r := (0, 0, r);
  v_destroy_qp _ r := r;
  v_resolve_addr _ _ _ r := (0, 0, r);
  v_resolve_route _ _ r := (0, 0, r);
  v_connect _ _ r := (0, 0, r);
  v_accept _ _ r := (0, 0, r);
  v_create_qp _ _ _ r := (0, 0, r);
  v_alloc_pd _ r := (5, r);
  v_dealloc_pd _ r := (0, 0, r);
  v_create_cq _ _ r := (6, r);
  v_destroy_cq _ r := r;
  v_post_send _ wr h r := (0, mk_demo_card (view_send (wr, wr_data h wr) (dk_view r)) (dk_done r) (dk_id_pd r));
  v_post_recv _ wrs r := (0, mk_demo_card (view_recv wrs (dk_view r)) (dk_done r) (dk_id_pd r));
  v_poll_cq _ _ h r := (Z.of_nat (length (dk_done r)), dk_done r, h, mk_demo_card (dk_view r) [] (dk_id_pd r));
  v_get_rdma_mr _ _ r := (8, r);
  window_addr _ _ := 64;
  v_reg_window _ _ r := (64, r);
  window_read _ r := (vw_window (dk_view r), r);
  window_write _ n r := demo_window n r
|}.
Lemma demo_card_ok self : card_ok self 1 7 5 (fun _ => True) dk_view.
Proof. by split. Qed.

(** Memory with the bytes [bs] at 256 and room from 4096 on. *)
Definition demo_memory (bs : list Z) : heap :=
  mk_heap (list_to_map (zip (seqZ 256 (Z.of_nat (length bs))) (Some <$> bs))) ∅ 4096 (fun _ _ => false).
Lemma demo_memory_ok bs : (length bs < 3840)%nat -> heap_ok (demo_memory bs).
Proof.
  intros Hl. split; [|done|done]. intros x Hx. apply not_elem_of_list_to_map_1. rewrite fst_zip.
  - rewrite elem_of_seqZ. cbn in Hx. lia.
  - rewrite length_seqZ, length_fmap. lia.
Qed.
Definition demo_ping : list Z := [112; 105; 110; 103].
Definition demo_ping_sga : dmtr_sgarray := mk_sgarray 0 1 [mk_sgaseg 256 4] sockaddr_zero.
Lemma demo_ping_at : array_at (demo_memory demo_ping) demo_ping_sga demo_ping.
Proof. split; [done| |done]. exists 256. split; [done|]. split; [done|]. by apply (load_holds (demo_memory demo_ping) 256 4). Qed.
Lemma demo_message_at : holds (demo_memory (rdma_message demo_ping)) 256 (rdma_message demo_ping).
Proof. by apply (load_holds (demo_memory (rdma_message demo_ping)) 256 20). Qed.
