(* ===== verification/RdmaIo.v ===== *)
(** * Sending and receiving on RDMA queues

    [push], [pop] and [poll] of [rdma/rdma_queue.cc] from the call that starts
    an operation to the [poll] that reports it, over the card of [RdmaWire]. *)
From S2P Require Import Prelude Cmd Types Cast Memory Contents IoQueue UserThread MemoryQueue Queue PosixOs PosixQueue Router RdmaOs RdmaQueue RdmaWire.
#[local] Opaque RECV_BUF_SIZE RECV_WINDOW.

Definition set_rd_slot (t : Z) (tk : task) (q : rdma_queue) : rdma_queue := set_rq_base (set_slot t tk (rq_base q)) q.

Section io.
Context {R : Type} `{CM : RdmaCm R} `{RV : RdmaVerbs R} (fuel : nat).
Abbreviation W := (rdworld R).
Abbreviation env := (qenv rdma_object W).
Context (self id qp pd : Z) (ok : R -> Prop) (view : R -> card_view) (Hcard : card_ok self id qp pd ok view).
Implicit Types (e : env) (q : rdma_queue) (w : W) (qs : gmap Z rdma_object) (h : heap) (r : R).
Abbreviation rd_env := (rd_env self).

Lemma set_rq_base_same q : set_rq_base (rq_base q) q = q.
Proof. by destruct q. Qed.
(** [get_task] of a task in use changes nothing. *)
Lemma post_rd_task bad qs w q h r qt (Q : Z + Z -> env -> Prop) :
  has_task qt (rq_base q) = true -> Q (inl (task_slot qt)) (rd_env qs w q h r) ->
  post bad (DMTR_OK_out (rd_on_base self (get_task_ptr qt))) Q (rd_env qs w q h r).
Proof.
  intros Ht HQ. rewrite post_DMTR_OK_out. eapply post_rd_on_base; [by apply get_task_ptr_valid|].
  cbn [fst snd]. change (0 =? 0) with true. cbv iota. by rewrite set_rq_base_same.
Qed.

(** ** The push worker *)

(** What may be sent: the window in use and [my_send_window] after [n] and
    [window], when the next message is allowed. *)
Definition window_grant (unused window : Z) : option (Z * Z) :=
  if unused =? 0 then if window >? 0 then Some (window, 0) else None else Some (unused, window).

(** After the message, new receive buffers if there is less than one batch. *)
Definition refilled q : rdma_queue := if my_recv_window q <? RECV_WINDOW then more_buffers RECV_WINDOW q else q.
Definition pushed (qt : Z) (sga : dmtr_sgarray) (u : Z) q : rdma_queue :=
  let q := refilled (sent_queue (set_my_send_window_unused u q)) in
  set_rd_slot (task_slot qt) (completed_task sga (rd_task (task_slot qt) q)) q.
(** What the card was given: the message, and if there were less than a batch of
    [n] receive buffers, another batch and the update of the other side's
    window. *)
Definition posted (qt : Z) (data : list Z) (wn : Z) (their : connection_data) (n : Z) h' (v v' : card_view) : Prop :=
  exists wr, swr_id wr = qt /\ swr_opcode wr = IBV_WR_SEND /\
    let v1 := view_send (wr, Some (rdma_message data)) (view_window wn v) in
    if n <? RECV_WINDOW then
      exists wrs, buffers h' (Z.to_nat RECV_WINDOW) wrs /\
        v' = view_send (window_sent their (u64 (n + RECV_WINDOW))) (view_recv wrs v1)
    else v' = v1.

Definition idle_push : user_thread rd_push_k := mk_user_thread EAGAIN [] (Some RdPushIdle).
Definition idle_pop : user_thread rd_pop_k := mk_user_thread EAGAIN [] (Some RdPopIdle).
Definition waiting_push (qt : Z) : user_thread rd_push_k := mk_user_thread EAGAIN [qt] (Some RdPushWindow).

(** The push worker with the task [qt] stops in [th]: without a window it
    waits, else it sends. *)
Definition push_outcome (qt : Z) (sga : dmtr_sgarray) (data : list Z) (their : connection_data) q h r
    (th : user_thread rd_push_k) q' h' r' : Prop :=
  match window_grant (my_send_window_unused q) (vw_window (view r)) with
  | None => th = waiting_push qt /\ q' = q /\ h' = h /\ r' = r
  | Some (u, wn) => th = idle_push /\ q' = pushed qt sga u q /\ extends h h' /\ ok r' /\
      posted qt data wn their (my_recv_window q) h' (view r) (view r')
  end.

(** A connection with the task of a push. *)
Record rd_pushing (qt : Z) (sga : dmtr_sgarray) (their : connection_data) q : Prop := {
  pg_id : my_rdma_id q = id;
  pg_their : their_send_window q = Some their;
  pg_task : has_task qt (rq_base q) = true;
  pg_sga : my_sga_arg (rd_task (task_slot qt) q) = sga
}.

Section worker.
Context (qt : Z) (sga : dmtr_sgarray) (data : list Z) (their : connection_data) (w : W) (Hpd : our_pd w = pd).

Lemma run_push_rest bad qs q h r f (Q : user_thread rd_push_k -> env -> Prop) :
  my_rdma_id q = id -> (2 <= f)%nat -> Q idle_push (rd_env qs w q h r) ->
  post bad (run (rd_push_step self) f EAGAIN RdPushLoop []) Q (rd_env qs w q h r).
Proof.
  intros Hid Hf HQ. destruct f as [|[|f]]; try lia. rewrite post_run_step. cbn [rd_push_step]. rewrite post_in_thread, post_sbind.
  eapply post_rd_get. unfold rd_good. rewrite Hid, (proj2 (Z.eqb_neq _ _)) by apply Hcard. cbn [negb]. rewrite post_normal. cbn [snd fst].
  rewrite post_run_step. cbn [rd_push_step]. by rewrite post_in_thread, post_normal.
Qed.

(** What follows the message: the window of receive buffers. *)
Lemma post_refill bad qs q h r (Q : unit + Z -> env -> Prop) :
  heap_ok h -> ok r -> my_rdma_id q = id -> their_send_window q = Some their ->
  (forall h' r', extends h h' -> ok r' ->
     (if my_recv_window q <? RECV_WINDOW then
        exists wrs, buffers h' (Z.to_nat RECV_WINDOW) wrs /\
          view r' = view_send (window_sent their (u64 (my_recv_window q + RECV_WINDOW))) (view_recv wrs (view r))
      else view r' = view r) -> Q (inl tt) (rd_env qs w (refilled q) h' r')) ->
  post bad (if my_recv_window q <? RECV_WINDOW then
              refill self (Z.to_nat (RECV_WINDOW_BATCHES - 1)) ;; DMTR_OK (update_remote_window self)
            else normal tt)%cmd Q (rd_env qs w q h r).
Proof.
  intros Hk Hok Hid Ht HQ. unfold refilled in *. destruct (my_recv_window q <? RECV_WINDOW).
  - rewrite post_sbind. change (Z.to_nat (RECV_WINDOW_BATCHES - 1)) with 1%nat. cbn [refill]. rewrite post_sbind, post_DMTR_OK.
    eapply post_new_recv_bufs; [exact Hcard|exact Hpd|exact Hk|exact Hok|exact Hid|]. intros h1 r1 wrs He Hok1 Hb Hv1.
    change (0 =? 0) with true. cbv iota. rewrite post_normal, post_DMTR_OK.
    eapply post_update_window; [exact Hcard|exact Hok1|done|done|]. intros r2 Hok2 Hv2.
    change (0 =? 0) with true. cbv iota. apply HQ; [done|done|]. exists wrs. split; [done|]. by rewrite Hv2, Hv1.
  - rewrite post_normal. apply HQ; [|done|done]. apply extends_refl, Hk.
Qed.

Lemma view_window_same v : view_window (vw_window v) v = v.
Proof. by destruct v. Qed.

(** The message itself, with the window [u] in use. *)
Lemma run_push_send qs q h r f u wn v :
  rd_pushing qt sga their q -> array_at h sga data -> heap_ok h -> ok r ->
  my_send_window_unused q = u -> view r = view_window wn v -> (3 <= f)%nat ->
  wp (run (rd_push_step self) f EAGAIN RdPushSend [qt]) (fun th e' => th = idle_push /\ exists h' r', extends h h' /\ ok r' /\
     posted qt data wn their (my_recv_window q) h' v (view r') /\ e' = rd_env qs w (pushed qt sga u q) h' r') (rd_env qs w q h r).
Proof.
  intros [Hid Ht Htask Hsga] Ha Hk Hok Hu Hv Hf. destruct f as [|f]; [lia|]. rewrite post_run_step. cbn [rd_push_step].
  rewrite post_in_thread, post_sbind. eapply post_rd_task; [done|]. rewrite post_sbind. eapply post_rd_get. cbv zeta.
  unfold task_arg_sga. rewrite Hsga, (aa_num _ _ _ Ha). change (0 =? 1) with false. cbv iota.
  rewrite post_sbind, post_DMTR_TRUE, post_sbind, post_need, post_sbind, post_call.
  eapply post_submit_io; [exact Hcard|exact Hpd|exact Ha|exact Hk|exact Hok|exact Hid|]. intros h1 r1 wr He1 Hok1 Hw1 Hw2 Hv1.
  rewrite post_sbind. eapply post_rd_get. change (rd_task (task_slot qt) (sent_queue q)) with (rd_task (task_slot qt) q).
  rewrite Hsga. change (negb (0 =? 0)) with false. cbv iota. rewrite post_sbind.
  eapply (post_refill _ qs (sent_queue q)); [by eapply heap_ok_extends|exact Hok1|done|done|]. intros h2 r2 He2 Hok2 Hv2.
  rewrite post_sbind. eapply post_rd_get.
  assert (Hs : my_sga_arg (rd_task (task_slot qt) (refilled (sent_queue q))) = sga).
  { unfold refilled. by destruct (_ <? _). }
  rewrite Hs, post_sbind, post_DMTR_OK. eapply post_rd_on_base; [apply on_slot_complete_sga|].
  change (0 =? 0) with true. cbv iota. rewrite post_normal. cbn [snd fst].
  assert (Eq : set_my_send_window_unused u q = q) by (rewrite <- Hu; by destruct q).
  eapply run_push_rest; [unfold refilled; by destruct (_ <? _)|lia|]. split; [done|]. exists h2, r2.
  split; [by eapply extends_trans|]. split; [done|]. split.
  - exists wr. split; [done|]. split; [done|]. cbv zeta. rewrite <- Hv, <- Hv1.
    change (my_recv_window (sent_queue q)) with (my_recv_window q) in Hv2. by destruct (my_recv_window q <? RECV_WINDOW).
  - unfold pushed. by rewrite Eq.
Qed.

Lemma run_push_window qs q h r f :
  rd_pushing qt sga their q -> array_at h sga data -> heap_ok h -> ok r -> (4 <= f)%nat ->
  wp (run (rd_push_step self) f EAGAIN RdPushWindow [qt]) (fun th e' => exists q' h' r',
    push_outcome qt sga data their q h r th q' h' r' /\ e' = rd_env qs w q' h' r') (rd_env qs w q h r).
Proof.
  intros Hp Ha Hk Hok Hf. destruct f as [|f]; [lia|]. rewrite post_run_step. cbn [rd_push_step].
  rewrite post_in_thread, post_sbind. eapply post_rd_get. unfold push_outcome, window_grant.
  assert (Hsend : forall q1 r1 u wn, rd_pushing qt sga their q1 -> ok r1 -> my_send_window_unused q1 = u ->
    view r1 = view_window wn (view r) -> my_recv_window q1 = my_recv_window q -> pushed qt sga u q1 = pushed qt sga u q ->
    wp (run (rd_push_step self) f EAGAIN RdPushSend [qt]) (fun th e' => exists q' h' r', (th = idle_push /\
      q' = pushed qt sga u q /\ extends h h' /\ ok r' /\
      posted qt data wn their (my_recv_window q) h' (view r) (view r')) /\ e' = rd_env qs w q' h' r') (rd_env qs w q1 h r1)).
  { intros q1 r1 u wn Hp1 Hok1 Hu1 Hv1 Hr1 He1.
    eapply post_mono; [by eapply (run_push_send qs q1 h r1 f u wn (view r)); [..|lia]|]. cbv beta. intros th e' (H1 & h' & r' & H2 & H3 & H4 & H5).
    exists (pushed qt sga u q), h', r'. rewrite He1 in H5. rewrite Hr1 in H4. done. }
  destruct (my_send_window_unused q =? 0) eqn:Eu.
  - rewrite post_sbind, post_call, post_rd_world. unfold post at 1, rd_call. cbn [e_world rw_lib rw_heap set_rw_mem RdmaWire.rd_env].
    rewrite (co_read _ _ _ _ _ _ Hcard) by done. change (set_e_world _ _) with (rd_env qs w q h r).
    destruct (vw_window (view r) >? 0).
    + rewrite post_sbind, post_call, post_rd_world. unfold post at 1, rd_call. cbn [e_world rw_lib rw_heap set_rw_mem RdmaWire.rd_env].
      rewrite (co_read _ _ _ _ _ _ Hcard) by done. change (set_e_world _ _) with (rd_env qs w q h r).
      rewrite post_sbind. eapply post_rd_modify. rewrite post_sbind, post_call, post_rd_world.
      unfold post at 1, rd_do, rd_call. cbn [e_world rw_lib rw_heap set_rw_mem RdmaWire.rd_env].
      destruct (co_write _ _ _ _ _ _ Hcard 0 r Hok) as [Hok1 Hv1].
      rewrite post_normal. cbn [snd fst]. destruct Hp. apply Hsend; try done; by split.
    + rewrite post_normal. cbn [snd fst]. by exists q, h, r.
  - rewrite post_normal. cbn [snd fst]. apply Hsend; try done. by rewrite view_window_same.
Qed.
End worker.

(** ** The services of the workers *)
Abbreviation answer_of th := (if th_done th then if th_error th =? EAGAIN then ENOTSUP else th_error th else EAGAIN).
Lemma post_rd_service_push bad qs w q h r k tq (Q : Z + Z -> env -> Prop) :
  rq_push_thread q = Some (mk_user_thread EAGAIN tq (Some k)) ->
  post bad (run (rd_push_step self) fuel EAGAIN k tq) (fun th e' => exists q' h' r', e' = rd_env qs w q' h' r' /\
    Q (inl (answer_of th)) (rd_env qs w (set_rq_push_thread (Some th) q') h' r')) (rd_env qs w q h r) ->
  post bad (rd_service_push fuel self) Q (rd_env qs w q h r).
Proof.
  intros Hth HQ. unfold rd_service_push. rewrite post_sbind. eapply post_rd_get. rewrite Hth, post_sbind, post_need.
  rewrite post_sbind, post_call, post_service. eapply post_mono; [exact HQ|]. cbv beta. intros th e' (q' & h' & r' & -> & HQ').
  rewrite post_sbind. by eapply post_rd_modify.
Qed.
Lemma post_rd_service_pop bad qs w q h r k tq (Q : Z + Z -> env -> Prop) :
  rq_pop_thread q = Some (mk_user_thread EAGAIN tq (Some k)) ->
  post bad (run (rd_pop_step self) fuel EAGAIN k tq) (fun th e' => exists q' h' r', e' = rd_env qs w q' h' r' /\
    Q (inl (answer_of th)) (rd_env qs w (set_rq_pop_thread (Some th) q') h' r')) (rd_env qs w q h r) ->
  post bad (rd_service_pop fuel self) Q (rd_env qs w q h r).
Proof.
  intros Hth HQ. unfold rd_service_pop. rewrite post_sbind. eapply post_rd_get. rewrite Hth, post_sbind, post_need.
  rewrite post_sbind, post_call, post_service. eapply post_mono; [exact HQ|]. cbv beta. intros th e' (q' & h' & r' & -> & HQ').
  rewrite post_sbind. by eapply post_rd_modify.
Qed.
Lemma post_rd_push_idle bad qs w q h r (Q : Z + Z -> env -> Prop) :
  (1 <= fuel)%nat -> rq_push_thread q = Some idle_push -> Q (inl EAGAIN) (rd_env qs w q h r) ->
  post bad (rd_service_push fuel self) Q (rd_env qs w q h r).
Proof.
  intros Hf Hth HQ. eapply post_rd_service_push; [exact Hth|]. destruct fuel as [|f]; [lia|]. rewrite post_run_step.
  cbn [rd_push_step]. rewrite post_in_thread, post_normal. cbn [snd fst th_done th_coroutine]. exists q, h, r. split; [done|].
  by replace (set_rq_push_thread _ q) with q by (destruct q; cbn in *; by subst).
Qed.
Lemma post_rd_pop_idle bad qs w q h r (Q : Z + Z -> env -> Prop) :
  (1 <= fuel)%nat -> rq_pop_thread q = Some idle_pop -> Q (inl EAGAIN) (rd_env qs w q h r) ->
  post bad (rd_service_pop fuel self) Q (rd_env qs w q h r).
Proof.
  intros Hf Hth HQ. eapply post_rd_service_pop; [exact Hth|]. destruct fuel as [|f]; [lia|]. rewrite post_run_step.
  cbn [rd_pop_step]. rewrite post_in_thread, post_normal. cbn [snd fst th_done th_coroutine]. exists q, h, r. split; [done|].
  by replace (set_rq_pop_thread _ q) with q by (destruct q; cbn in *; by subst).
Qed.

(** ** Completions *)

(** The card reports [wcs]; received messages are now in memory. *)
Record completes (cq : Z) h r (wcs : list ibv_wc) h' r' : Prop := {
  cp_cq : cq <> 0;
  cp_poll : v_poll_cq cq CQ_BATCH h r = (Z.of_nat (length wcs), wcs, h', r');
  cp_few : Z.of_nat (length wcs) <= CQ_BATCH;
  cp_ok : ok r' /\ view r' = view r
}.
(** A message that was received waits in [my_pending_recvs]. *)
Definition complete_wc q (wc : ibv_wc) : rdma_queue :=
  if wc_opcode wc =? IBV_WC_RECV then
    set_rq_in_packets (u64 (rq_in_packets q + 1)) (set_my_recv_window (u64 (my_recv_window q - 1))
      (set_my_pending_recvs (my_pending_recvs q ++ [(wc_id wc, wc_byte_len wc)]) q))
  else q.
Definition completed (wcs : list ibv_wc) q : rdma_queue := foldl complete_wc q wcs.
Lemma completed_keeps {A} (f : rdma_queue -> A) wcs q : (forall q wc, f (complete_wc q wc) = f q) -> f (completed wcs q) = f q.
Proof. intros Hf. revert q. induction wcs as [|wc wcs IH]; intros q; [done|]. change (f (completed wcs (complete_wc q wc)) = f q). by rewrite IH, Hf. Qed.

Lemma post_work_completed bad qs w wcs q h r (Q : unit + Z -> env -> Prop) :
  Q (inl tt) (rd_env qs w (completed wcs q) h r) -> post bad (work_completed self (length wcs) wcs) Q (rd_env qs w q h r).
Proof.
  revert q. induction wcs as [|wc wcs IH]; intros q HQ; cbn [work_completed length]; [by rewrite post_normal|].
  assert (Hw : forall (Q : Z -> env -> Prop), (forall ret, Q ret (rd_env qs w (complete_wc q wc) h r)) ->
    post bad (on_work_completed self wc) Q (rd_env qs w q h r)).
  { intros Q' HQ'. unfold on_work_completed, complete_wc in *. rewrite post_body.
    destruct (wc_opcode wc =? IBV_WC_RDMA_WRITE) eqn:E1; zbool.
    - rewrite post_return. rewrite E1 in HQ'. apply HQ'.
    - destruct (wc_opcode wc =? IBV_WC_RECV).
      + rewrite post_sbind. eapply post_rd_modify. rewrite post_sbind. eapply post_rd_modify. rewrite post_sbind. eapply post_rd_modify.
        rewrite post_return. apply HQ'.
      + destruct (wc_opcode wc =? IBV_WC_SEND); rewrite post_return; apply HQ'. }
  rewrite post_sbind, post_call. apply Hw. intros _. by apply IH.
Qed.
Lemma post_completions bad qs w q h r cq wcs h' r' (Q : Z -> env -> Prop) :
  completes cq h r wcs h' r' -> Q 0 (rd_env qs w (completed wcs q) h' r') ->
  post bad (service_completion_queue self cq CQ_BATCH) Q (rd_env qs w q h r).
Proof.
  intros [Hcq Hp Hfew _] HQ. unfold service_completion_queue, DMTR_NONZERO. rewrite post_body, post_sbind, post_DMTR_TRUE, (proj2 (Z.eqb_neq _ _) Hcq).
  cbn [negb]. rewrite post_sbind, post_DMTR_TRUE. change (CQ_BATCH >? 0) with true. cbv iota. rewrite post_sbind, post_DMTR_OK_out, post_rd_world.
  unfold ibv_poll_cq, DMTR_NONZERO. rewrite post_body_out, post_sbind, post_DMTR_TRUE, (proj2 (Z.eqb_neq _ _) Hcq). cbn [negb].
  rewrite post_sbind, post_call. unfold post at 1, rd_mem. cbn [e_world rw_lib rw_heap set_rw_mem RdmaWire.rd_env]. rewrite Hp.
  rewrite (proj2 (Z.ltb_ge _ _)) by lia. rewrite post_sbind, post_DMTR_OK_out, post_fret.
  assert (E : dmtr_itosz (Some 0) (Z.of_nat (length wcs)) = (0, Some (Z.of_nat (length wcs)))).
  { unfold CQ_BATCH in Hfew. unfold dmtr_itosz, cast_body. rewrite cast_itou_ok; [|by cbn|done|change (2 ^ 63) with 9223372036854775808; lia].
    cbn. unfold cast_spec, in_ctype. change (cmin c_ulong) with 0. change (cmax c_ulong) with 18446744073709551615.
    by rewrite !(proj2 (Z.leb_le _ _)) by lia. }
  rewrite E. cbn [fst snd]. change (0 =? 0) with true. cbv iota. rewrite post_sbind, post_need, post_normal. cbn [fst snd].
  change (0 =? 0) with true. cbv beta iota. rewrite Nat2Z.id, post_sbind. change (set_e_world _ _) with (rd_env qs w q h' r').
  eapply post_work_completed. by rewrite post_normal.
Qed.

(** ** [poll] *)
Definition polled w : W := set_rw_poll_count (rw_poll_count w + 1) w.

(** A [poll] of a push or of a pop that does not look at the event channel:
    completions, the pop worker and, when that waits, the push worker. *)
Definition unanswered q qt qr : dmtr_qresult := mk_qresult DMTR_OPC_INVALID (my_qd (rq_base q)) qt (qr_value qr).
Definition is_io (op : dmtr_opcode) : Prop := op = DMTR_OPC_PUSH \/ op = DMTR_OPC_POP.
Lemma post_rd_poll bad qs w q h r wcs h1 r1 qt qr (Q : Z * dmtr_qresult -> env -> Prop) :
  my_rdma_id q = id -> 0 < my_qd (rq_base q) -> qt <> 0 -> rw_poll_count w < 10000 ->
  completes (my_cq q) h r wcs h1 r1 -> has_task qt (rq_base q) = true -> is_io (task_opcode (rd_task (task_slot qt) q)) ->
  post bad (ret <- rd_service_pop fuel self ; if negb (EAGAIN =? ret) then normal ret else rd_service_push fuel self)%cmd
    (fun x e2 => (x = inl EAGAIN /\ exists q2 h2 r2, e2 = rd_env qs (polled w) q2 h2 r2 /\
                    Q (task_poll (unanswered q qt qr) (rd_task (task_slot qt) q2)) e2) \/
                 (exists err, x = inl err /\ err <> 0 /\ err <> EAGAIN /\ Q (err, unanswered q qt qr) e2))
    (rd_env qs (polled w) (completed wcs q) h1 r1) ->
  post bad (rd_poll fuel self qr qt) Q (rd_env qs w q h r).
Proof.
  intros Hid Hqd Hqt Hn Hc Ht Hop HQ. unfold rd_poll. rewrite post_fbind. eapply post_rd_get.
  assert (Hir : initialize_result (my_qd (rq_base q)) qt qr = Ok 0 (unanswered q qt qr)).
  { unfold initialize_result, body, sbind, fbind, DMTR_TRUE. rewrite (proj2 (Z.gtb_lt _ _)) by lia.
    by rewrite (proj2 (Z.eqb_neq _ _) Hqt). }
  rewrite Hir, post_fbind, post_sbind, post_DMTR_OK, post_fret. change (0 =? 0) with true. cbv iota.
  rewrite post_sbind, post_DMTR_TRUE. unfold rd_good. rewrite Hid, (proj2 (Z.eqb_neq _ _)) by apply Hcard. cbn [negb].
  rewrite post_sbind. unfold rd_poll_events at 1. rewrite post_sbind, post_get. cbn [e_world RdmaWire.rd_env rw_poll_count set_rw_mem].
  rewrite Z.gtb_ltb, (proj2 (Z.ltb_ge _ _)) by lia. rewrite post_call, post_rd_world. unfold post at 1.
  change (set_e_world _ _) with (rd_env qs (polled w) q h r). rewrite post_sbind. eapply post_rd_task; [done|].
  rewrite post_sbind. eapply post_rd_get.
  assert (Hsv : rd_poll_service fuel self (task_opcode (rd_task (task_slot qt) q)) =
     (q <- rd_get self ; DMTR_OK (service_completion_queue self (my_cq q) CQ_BATCH) ;;
      ret <- rd_service_pop fuel self ; if negb (EAGAIN =? ret) then normal ret else rd_service_push fuel self)%cmd)
    by (by destruct Hop as [-> | ->]).
  rewrite Hsv, 2!post_sbind. eapply post_rd_get. rewrite post_sbind, post_DMTR_OK. eapply post_completions; [exact Hc|].
  change (0 =? 0) with true. cbv iota. eapply post_mono; [exact HQ|]. cbv beta. intros x e2 [(-> & q2 & h2 & r2 & -> & H2)|(err & -> & He0 & Hea & H2)].
  - change (EAGAIN =? EAGAIN) with true. cbv iota. rewrite post_sbind, post_normal, post_sbind. eapply post_rd_get.
    rewrite post_normal. cbv iota. by rewrite post_fret.
  - rewrite (proj2 (Z.eqb_neq _ _) Hea), (proj2 (Z.eqb_neq _ _) He0), post_sbind, post_DMTR_FAIL, (proj2 (Z.eqb_neq _ _) He0). by rewrite post_fret.
Qed.
(** Both workers wait in the end. *)
Lemma post_rd_poll_waits bad qs w q h r wcs h1 r1 qt qr (Q : Z * dmtr_qresult -> env -> Prop) :
  my_rdma_id q = id -> 0 < my_qd (rq_base q) -> qt <> 0 -> rw_poll_count w < 10000 ->
  completes (my_cq q) h r wcs h1 r1 -> has_task qt (rq_base q) = true -> is_io (task_opcode (rd_task (task_slot qt) q)) ->
  post bad (rd_service_pop fuel self) (fun x e1 => x = inl EAGAIN /\
    post bad (rd_service_push fuel self) (fun x e2 => x = inl EAGAIN /\ exists q2 h2 r2, e2 = rd_env qs (polled w) q2 h2 r2 /\
      Q (task_poll (unanswered q qt qr) (rd_task (task_slot qt) q2)) e2) e1)
    (rd_env qs (polled w) (completed wcs q) h1 r1) ->
  post bad (rd_poll fuel self qr qt) Q (rd_env qs w q h r).
Proof.
  intros Hid Hqd Hqt Hn Hc Ht Hop HQ. eapply post_rd_poll; [done|done|done|done|exact Hc|done|done|]. rewrite post_sbind.
  eapply post_mono; [exact HQ|]. cbv beta. intros x e1 [-> Hp]. change (negb (EAGAIN =? EAGAIN)) with false. cbv iota.
  eapply post_mono; [exact Hp|]. cbv beta. intros x e2 [-> H2]. by left.
Qed.

(** ** Pushing *)

(** A connection on which the token [qt] is free. *)
Record rd_open (qt : Z) (their : connection_data) q : Prop := {
  ro_id : my_rdma_id q = id;
  ro_listening : rq_listening_flag q = false;
  ro_their : their_send_window q = Some their;
  ro_qd : 0 < my_qd (rq_base q);
  ro_token : qt <> 0;
  ro_free : has_task qt (rq_base q) = false;
  ro_push : rq_push_thread q = Some idle_push;
  ro_pop : rq_pop_thread q = Some idle_pop
}.
(** The queue with the task of a push. *)
Definition pushing (qt : Z) (sga : dmtr_sgarray) q : rdma_queue :=
  set_rd_slot (task_slot qt) (started DMTR_OPC_PUSH qt (Some sga) None (rq_base q)) q.
Lemma rd_pushing_task qt sga q : rd_task (task_slot qt) (pushing qt sga q) = started DMTR_OPC_PUSH qt (Some sga) None (rq_base q).
Proof. unfold rd_task, pushing, set_rd_slot. cbn. by rewrite slot_task_set_eq. Qed.
(** A connection whose push waits for the window. *)
Record rd_blocked (qt : Z) (sga : dmtr_sgarray) (their : connection_data) q : Prop := {
  rb_pushing : rd_pushing qt sga their q;
  rb_qd : 0 < my_qd (rq_base q);
  rb_token : qt <> 0;
  rb_pending : my_error (rd_task (task_slot qt) q) = EAGAIN;
  rb_result : exists v, my_qr (rd_task (task_slot qt) q) = mk_qresult DMTR_OPC_PUSH (my_qd (rq_base q)) qt v;
  rb_push : rq_push_thread q = Some (waiting_push qt);
  rb_pop : rq_pop_thread q = Some idle_pop
}.
(** The queue with its push worker in [th]. *)
Definition with_push (th : user_thread rd_push_k) q : rdma_queue := set_rq_push_thread (Some th) q.

Section push.
Context (qt : Z) (sga : dmtr_sgarray) (data : list Z) (their : connection_data).

Lemma pushed_thread th th0 u q : with_push th (pushed qt sga u (with_push th0 q)) = with_push th (pushed qt sga u q).
Proof. unfold pushed, refilled. cbn [my_recv_window with_push sent_queue set_rq_push_thread set_my_send_window_unused set_rq_out_packets]. by destruct (_ <? _). Qed.
Lemma outcome_thread q th0 h r th q' h' r' :
  push_outcome qt sga data their (with_push th0 q) h r th q' h' r' ->
  exists q'', push_outcome qt sga data their q h r th q'' h' r' /\ with_push th q' = with_push th q''.
Proof.
  unfold push_outcome. change (my_send_window_unused (with_push th0 q)) with (my_send_window_unused q).
  destruct (window_grant _ _) as [[u wn]|]; intros (-> & -> & H).
  - eexists. split; [split; [done|]; split; [done|exact H]|]. apply pushed_thread.
  - eexists. split; [split; [done|]; split; [done|exact H]|]. done.
Qed.

Lemma rd_push_outcome qs w q h r :
  our_pd w = pd -> rd_open qt their q -> array_at h sga data -> heap_ok h -> ok r -> (5 <= fuel)%nat ->
  wp (rd_push fuel self qt sga) (fun ret e' => ret = 0 /\ exists th q' h' r',
    push_outcome qt sga data their (pushing qt sga q) h r th q' h' r' /\ e' = rd_env qs w (with_push th q') h' r') (rd_env qs w q h r).
Proof.
  intros Hpd [] Ha Hk Hok Hf. unfold rd_push, DMTR_NONZERO. rewrite post_body, post_sbind. eapply post_rd_get.
  rewrite post_sbind, post_DMTR_TRUE, ro_id0, (proj2 (Z.eqb_neq _ _)) by apply Hcard. cbn [negb].
  rewrite post_sbind, post_DMTR_TRUE, ro_listening0. cbn [negb]. rewrite post_sbind. unfold DMTR_NOTNULL. rewrite post_DMTR_TRUE, ro_push0.
  rewrite post_sbind, post_DMTR_OK. eapply post_rd_on_base.
  { rewrite new_task_sga_cases by done. rewrite ro_free0, (aa_num _ _ _ Ha), (proj2 (Z.eqb_neq _ _) ro_token0). done. }
  change (0 =? 0) with true. cbv iota. change (set_rq_base _ q) with (pushing qt sga q). rewrite post_sbind. eapply post_rd_modify.
  change (rq_push_thread (pushing qt sga q)) with (rq_push_thread q). rewrite ro_push0, post_sbind.
  set (th0 := mk_user_thread EAGAIN [qt] (Some RdPushIdle)). change (set_rq_push_thread _ (pushing qt sga q)) with (with_push th0 (pushing qt sga q)).
  eapply post_rd_service_push; [done|]. destruct fuel as [|f]; [lia|]. rewrite post_run_step. cbn [rd_push_step].
  rewrite post_in_thread, post_normal. cbn [snd fst]. eapply post_mono.
  - apply (run_push_window qt sga data their w Hpd qs (with_push th0 (pushing qt sga q)) h r f); [|done|done|done|lia].
    split; [done|done| |].
    + rewrite has_task_slot. change (slot_task _ _) with (rd_task (task_slot qt) (pushing qt sga q)). by rewrite rd_pushing_task.
    + change (rd_task _ _) with (rd_task (task_slot qt) (pushing qt sga q)). by rewrite rd_pushing_task.
  - cbv beta. intros th e' (q' & h' & r' & Ho & ->). exists q', h', r'. split; [done|]. rewrite post_normal. split; [done|].
    destruct (outcome_thread _ _ _ _ _ _ _ _ Ho) as (q'' & Ho' & E). exists th, q'', h', r'. split; [exact Ho'|].
    unfold with_push in E. by rewrite E.
Qed.

(** What completions do not change. *)
Lemma completed_fields wcs q :
  rq_base (completed wcs q) = rq_base q /\ my_rdma_id (completed wcs q) = my_rdma_id q /\
  their_send_window (completed wcs q) = their_send_window q /\ my_send_window_unused (completed wcs q) = my_send_window_unused q /\
  rq_push_thread (completed wcs q) = rq_push_thread q /\ rq_pop_thread (completed wcs q) = rq_pop_thread q /\ my_cq (completed wcs q) = my_cq q.
Proof. repeat split; apply completed_keeps; intros q' wc; unfold complete_wc; by destruct (_ =? _). Qed.
Lemma completed_blocked wcs q : rd_blocked qt sga their q -> rd_blocked qt sga their (completed wcs q).
Proof.
  intros [[] Hqd Hqt He Hr Hpush Hpop]. destruct (completed_fields wcs q) as (E1 & E2 & E3 & E4 & E5 & E6 & E7).
  unfold rd_task in *. split; [split|..]; unfold rd_task; rewrite ?E1, ?E2, ?E3, ?E5, ?E6; done.
Qed.

Lemma pushed_task u q : rd_task (task_slot qt) (pushed qt sga u q) = completed_task sga (rd_task (task_slot qt) q).
Proof.
  unfold pushed, rd_task at 1, set_rd_slot. cbn [rq_base set_rq_base]. rewrite slot_task_set_eq. unfold refilled. by destruct (_ <? _).
Qed.
Definition push_result (q : rdma_queue) : dmtr_qresult := mk_qresult DMTR_OPC_PUSH (my_qd (rq_base q)) qt (qv_sga sga).

(** [poll] while the push waits. *)
Lemma rd_poll_blocked qs w q h r wcs h1 r1 qr :
  our_pd w = pd -> rd_blocked qt sga their q -> rw_poll_count w < 10000 -> completes (my_cq q) h r wcs h1 r1 ->
  array_at h1 sga data -> heap_ok h1 -> (4 <= fuel)%nat ->
  wp (rd_poll fuel self qr qt) (fun '(ret, res) e' => exists th q' h' r',
    push_outcome qt sga data their (completed wcs q) h1 r1 th q' h' r' /\ e' = rd_env qs (polled w) (with_push th q') h' r' /\
    match window_grant (my_send_window_unused q) (vw_window (view r)) with
    | None => ret = EAGAIN
    | Some _ => ret = 0 /\ res = push_result q
    end) (rd_env qs w q h r).
Proof.
  intros Hpd Hb Hn Hc Ha Hk Hf. pose proof (completed_blocked wcs q Hb) as Hb1. destruct Hb as [[Hid Ht Htask Hsga] Hqd Hqt He [v Hr] Hpush Hpop].
  destruct (completed_fields wcs q) as (E1 & _ & _ & E4 & _ & _ & _). pose proof (cp_ok _ _ _ _ _ _ Hc) as [Hok1 Hv1].
  eapply post_rd_poll_waits; [done|done|done|done|exact Hc|done|left; unfold task_opcode; by rewrite Hr|].
  eapply post_rd_pop_idle; [lia|apply Hb1|]. split; [done|]. eapply post_rd_service_push; [apply Hb1|]. eapply post_mono.
  - apply (run_push_window qt sga data their (polled w) Hpd qs (completed wcs q) h1 r1 fuel); [apply Hb1|done|done|done|done].
  - cbv beta. intros th e' (q' & h' & r' & Ho & ->). exists q', h', r'. split; [done|]. unfold push_outcome in *.
    rewrite E4, Hv1 in *. destruct (window_grant _ _) as [[u wn]|] eqn:Eg.
    + destruct Ho as (-> & -> & Ho). cbn [th_done th_coroutine idle_push]. split; [done|]. eexists _, _, _. split; [done|].
      assert (Htp : rd_task (task_slot qt) (set_rq_push_thread (Some idle_push) (pushed qt sga u (completed wcs q))) =
        completed_task sga (rd_task (task_slot qt) q)).
      { change (rd_task _ (set_rq_push_thread _ ?x)) with (rd_task (task_slot qt) x). rewrite pushed_task. unfold rd_task. by rewrite E1. }
      rewrite Htp. unfold task_poll, task_done, completed_task, push_result. cbn [my_error set_my_qr set_my_error my_qr set_qr_value].
      rewrite Hr. change (negb (0 =? EAGAIN)) with true. cbn [negb]. eexists _, _, _, _. split; [done|]. done.
    + destruct Ho as (-> & -> & -> & ->). cbn [th_done th_coroutine waiting_push]. split; [done|]. eexists _, _, _. split; [done|].
      assert (Htp : rd_task (task_slot qt) (set_rq_push_thread (Some (waiting_push qt)) (completed wcs q)) = rd_task (task_slot qt) q).
      { change (rd_task _ (set_rq_push_thread _ ?x)) with (rd_task (task_slot qt) x). unfold rd_task. by rewrite E1. }
      rewrite Htp. unfold task_poll, task_done. rewrite He. change (negb (EAGAIN =? EAGAIN)) with false. cbn [negb].
      eexists _, _, _, _. split; [done|]. done.
Qed.

(** [poll] of an operation that is completed, with idle workers. *)
Lemma rd_poll_done qs w q h r wcs h1 r1 qr op v :
  my_rdma_id q = id -> 0 < my_qd (rq_base q) -> qt <> 0 -> rw_poll_count w < 10000 -> completes (my_cq q) h r wcs h1 r1 ->
  rq_push_thread q = Some idle_push -> rq_pop_thread q = Some idle_pop -> (1 <= fuel)%nat ->
  has_task qt (rq_base q) = true -> my_error (rd_task (task_slot qt) q) = 0 ->
  my_qr (rd_task (task_slot qt) q) = mk_qresult op (my_qd (rq_base q)) qt v -> op = DMTR_OPC_PUSH \/ op = DMTR_OPC_POP ->
  rd_poll fuel self qr qt (rd_env qs w q h r) = Ok (0, mk_qresult op (my_qd (rq_base q)) qt v) (rd_env qs (polled w) (completed wcs q) h1 r1).
Proof.
  intros Hid Hqd Hqt Hn Hc Hpush Hpop Hf Ht He Hr Hop. apply wp_eq. destruct (completed_fields wcs q) as (E1 & _ & _ & _ & E5 & E6 & _).
  eapply post_rd_poll_waits; [done|done|done|done|exact Hc|done|unfold task_opcode; by rewrite Hr|].
  eapply post_rd_pop_idle; [done|by rewrite E6|]. split; [done|]. eapply post_rd_push_idle; [done|by rewrite E5|]. split; [done|].
  eexists _, _, _. split; [done|]. unfold rd_task in *. rewrite E1. unfold task_poll, task_done. by rewrite He, Hr.
Qed.

(** C22: sending, from the call to its completion.  [push] of a one-segment
    array on a connection answers 0.  When the window in use, or a new one that
    the other side has written, allows it, the card is given one message that
    holds the header and the array's bytes, and, when the queue is down to less
    than a batch of receive buffers, another batch of buffers and the update of
    the other side's window; the task is completed and [poll] returns the
    array.  Without a window nothing is sent: the task stays pending, and every
    later [poll] answers [EAGAIN] until the other side writes a window, and
    then sends.  The window in use goes down by one with each message. *)
Theorem rdma_push_sends qs w q h r :
  our_pd w = pd -> rd_open qt their q -> array_at h sga data -> heap_ok h -> ok r -> (5 <= fuel)%nat ->
  wp (rd_push fuel self qt sga) (fun ret e' => ret = 0 /\ exists th q' h' r',
    push_outcome qt sga data their (pushing qt sga q) h r th q' h' r' /\ e' = rd_env qs w (with_push th q') h' r' /\
    forall w1 h1 r1 wcs h2 r2 qr,
      our_pd w1 = pd -> rw_poll_count w1 < 10000 -> completes (my_cq q) h1 r1 wcs h2 r2 -> array_at h2 sga data -> heap_ok h2 ->
      wp (rd_poll fuel self qr qt) (fun '(ret, res) e2 =>
        match window_grant (my_send_window_unused q) (vw_window (view r)) with
        | Some _ => ret = 0 /\ res = push_result q /\ e2 = rd_env qs (polled w1) (completed wcs (with_push th q')) h2 r2
        | None => exists th2 q2 h3 r3,
            push_outcome qt sga data their (completed wcs (with_push th q')) h2 r2 th2 q2 h3 r3 /\
            e2 = rd_env qs (polled w1) (with_push th2 q2) h3 r3 /\
            match window_grant (my_send_window_unused q) (vw_window (view r1)) with
            | None => ret = EAGAIN
            | Some _ => ret = 0 /\ res = push_result q
            end
        end) (rd_env qs w1 (with_push th q') h1 r1)) (rd_env qs w q h r).
Proof.
  intros Hpd Hopen Ha Hk Hok Hf. eapply post_mono; [by apply rd_push_outcome|]. cbv beta. intros ret e' (-> & th & q' & h' & r' & Ho & ->).
  split; [done|]. exists th, q', h', r'. split; [exact Ho|]. split; [done|]. intros w1 h1 r1 wcs h2 r2 qr Hpd1 Hn1 Hc1 Ha2 Hk2.
  destruct Hopen. unfold push_outcome in Ho. change (my_send_window_unused (pushing qt sga q)) with (my_send_window_unused q) in Ho.
  destruct (window_grant (my_send_window_unused q) (vw_window (view r))) as [[u wn]|].
  - destruct Ho as (-> & -> & _). set (q' := with_push idle_push (pushed qt sga u (pushing qt sga q))).
    assert (Htp : rd_task (task_slot qt) q' = completed_task sga (started DMTR_OPC_PUSH qt (Some sga) None (rq_base q))).
    { unfold q'. change (rd_task _ (with_push _ ?x)) with (rd_task (task_slot qt) x). by rewrite pushed_task, rd_pushing_task. }
    assert (Hq' : my_rdma_id q' = id /\ my_qd (rq_base q') = my_qd (rq_base q) /\ my_cq q' = my_cq q /\ rq_pop_thread q' = Some idle_pop).
    { unfold q', pushed, refilled. by destruct (_ <? _). }
    destruct Hq' as (Q1 & Q2 & Q3 & Q4). eapply post_eq.
    + apply (rd_poll_done qs w1 q' h1 r1 wcs h2 r2 qr DMTR_OPC_PUSH (qv_sga sga)); rewrite ?Q2, ?Q3, ?Htp; try done; [lia| |by left].
      rewrite has_task_slot. change (slot_task _ _) with (rd_task (task_slot qt) q'). by rewrite Htp.
    + cbv beta iota. split; [done|]. split; [|done]. unfold push_result. by rewrite Q2.
  - destruct Ho as (-> & -> & -> & ->). set (q' := with_push (waiting_push qt) (pushing qt sga q)).
    assert (Htp : rd_task (task_slot qt) q' = started DMTR_OPC_PUSH qt (Some sga) None (rq_base q)) by apply rd_pushing_task.
    change (push_result q) with (push_result q'). change (my_send_window_unused q) with (my_send_window_unused q').
    change (my_cq q) with (my_cq q') in Hc1. apply rd_poll_blocked; [done| |done|exact Hc1|done|done|lia].
    split; [split|..]; rewrite ?Htp; try done; [|by eexists].
    rewrite has_task_slot. change (slot_task _ _) with (rd_task (task_slot qt) q'). by rewrite Htp.
Qed.
End push.

(** ** Popping *)

(** A connection whose pop worker has the task [qt], new or already waiting. *)
Record rd_popping (qt : Z) q : Prop := {
  rp_id : my_rdma_id q = id;
  rp_qd : 0 < my_qd (rq_base q);
  rp_token : qt <> 0;
  rp_valid : has_task qt (rq_base q) = true;
  rp_pending : my_error (rd_task (task_slot qt) q) = EAGAIN;
  rp_result : exists v, my_qr (rd_task (task_slot qt) q) = mk_qresult DMTR_OPC_POP (my_qd (rq_base q)) qt v;
  rp_push : rq_push_thread q = Some idle_push;
  rp_pop : rq_pop_thread q = Some (mk_user_thread EAGAIN [qt] (Some RdPopIdle)) \/
           rq_pop_thread q = Some (mk_user_thread EAGAIN [] (Some (RdPopRecv (task_slot qt))))
}.
Lemma completed_popping qt wcs q : rd_popping qt q -> rd_popping qt (completed wcs q).
Proof.
  intros []. destruct (completed_fields wcs q) as (E1 & E2 & E3 & E4 & E5 & E6 & E7).
  unfold rd_task in *. split; unfold rd_task; rewrite ?E1, ?E2, ?E5, ?E6; done.
Qed.

(** The array in a buffer with a message. *)
Definition received_array (buf : Z) (data : list Z) : dmtr_sgarray :=
  mk_sgarray buf 1 [mk_sgaseg (buf + 16) (len32 data)] sockaddr_zero.
(** A buffer without one, and the error that [pop_thread] returns. *)
Definition malformed h (buf sz err : Z) : Prop :=
  (sz < 12 /\ err = EPROTO) \/
  (12 <= sz /\ err = EILSEQ /\ exists bs, load_bytes buf 12 h = Ok bs h /\ h_magic (ntoh_header (header_of_bytes bs)) <> DMTR_HEADER_MAGIC).

(** What is at the front of the messages received: nothing, a message with
    the bytes [data], or a buffer that makes the worker return an error. *)
Inductive received :=
| Nothing
| Message (data : list Z)
| Malformed (err : Z).
Definition front_is q h (f : received) : Prop :=
  match f, my_pending_recvs q with
  | Nothing, [] => True
  | Message data, (buf, sz) :: _ => buf <> 0 /\ holds h buf (rdma_message data) /\ len32 data < 2 ^ 32 /\ 12 <= sz
  | Malformed err, (buf, sz) :: _ => buf <> 0 /\ malformed h buf sz err
  | _, _ => False
  end.
(** What the pop worker does with it. *)
Definition dead_pop (err : Z) : user_thread rd_pop_k := mk_user_thread err [] None.
Definition pop_outcome (qt : Z) q h (f : received) (th : user_thread rd_pop_k) q' h' : Prop :=
  match f, my_pending_recvs q with
  | Nothing, [] => th = mk_user_thread EAGAIN [] (Some (RdPopRecv (task_slot qt))) /\ q' = q /\ h' = h
  | Message data, (buf, sz) :: rest => th = idle_pop /\ holds h' (buf + 16) data /\ same_outside buf 12 h h' /\
      q' = set_rd_slot (task_slot qt) (completed_task (received_array buf data) (rd_task (task_slot qt) q)) (set_my_pending_recvs rest q)
  | Malformed err, (buf, sz) :: rest => th = dead_pop err /\ same_outside buf 12 h h' /\ q' = set_my_pending_recvs rest q
  | _, _ => False
  end.

Lemma parse_malformed buf sz err h :
  malformed h buf sz err -> wp (parse_message buf sz) (fun x h' => x = inr err /\ same_outside buf 12 h h') h.
Proof.
  unfold parse_message. intros [[Hsz ->]|(Hsz & -> & bs & Hb & Hm)].
  - rewrite (proj2 (Z.ltb_lt sz sizeof_header) Hsz), post_return. split; [done|apply same_outside_refl].
  - rewrite (proj2 (Z.ltb_ge sz sizeof_header) Hsz), post_sbind, post_call. eapply post_eq; [exact Hb|]. cbv beta iota zeta.
    rewrite post_sbind, post_call. set (hd := ntoh_header (header_of_bytes bs)) in *.
    pose proof (load_holds _ _ _ _ Hb) as Hh. apply load_bytes_length in Hb as [Hl _]. change (Z.max 0 12) with 12 in Hl.
    destruct (store_mapped h buf (header_bytes hd)) as (h1 & E & _ & Hs).
    { intros x Hx. eapply holds_mapped; [exact Hh|]. rewrite Hl. exact Hx. }
    eapply post_eq; [exact E|]. cbv beta iota. rewrite (proj2 (Z.eqb_neq DMTR_HEADER_MAGIC (h_magic hd))) by done. cbn [negb].
    rewrite post_DMTR_FAIL. by change (EILSEQ =? 0) with false.
Qed.

Section pop.
Context (qt : Z).

Lemma run_pop_rest bad w qs q h r f (Q : user_thread rd_pop_k -> env -> Prop) :
  my_rdma_id q = id -> (2 <= f)%nat -> Q idle_pop (rd_env qs w q h r) ->
  post bad (run (rd_pop_step self) f EAGAIN RdPopLoop []) Q (rd_env qs w q h r).
Proof.
  intros Hid Hf HQ. destruct f as [|[|f]]; try lia. rewrite post_run_step. cbn [rd_pop_step]. rewrite post_in_thread, post_sbind.
  eapply post_rd_get. unfold rd_good. rewrite Hid, (proj2 (Z.eqb_neq _ _)) by apply Hcard. cbn [negb]. rewrite post_normal. cbn [snd fst].
  rewrite post_run_step. cbn [rd_pop_step]. by rewrite post_in_thread, post_normal.
Qed.
Lemma run_pop_recv w qs q h r front f :
  my_rdma_id q = id -> front_is q h front -> (3 <= f)%nat ->
  wp (run (rd_pop_step self) f EAGAIN (RdPopRecv (task_slot qt)) []) (fun th e' => exists q' h',
    pop_outcome qt q h front th q' h' /\ e' = rd_env qs w q' h' r) (rd_env qs w q h r).
Proof.
  intros Hid Hfront Hf. destruct f as [|f]; [lia|]. rewrite post_run_step. cbn [rd_pop_step].
  rewrite post_in_thread, post_sbind, post_call. unfold service_recv_queue. rewrite post_body_out, post_sbind. eapply post_rd_get.
  unfold front_is, pop_outcome in *. destruct (my_pending_recvs q) as [|[buf sz] rest] eqn:Ep.
  - rewrite post_return. change (EAGAIN =? EAGAIN) with true. cbv iota. rewrite post_normal. cbn [snd fst].
    destruct front; try done. by exists q, h.
  - rewrite post_sbind. eapply post_rd_modify. rewrite post_normal. change (0 =? EAGAIN) with false. cbv iota.
    rewrite post_sbind. change (0 =? 0) with true. cbv iota. rewrite post_normal, post_sbind, post_need. cbv beta iota.
    assert (Hbuf : buf <> 0) by (by destruct front as [|data|err]; [done|destruct Hfront..]).
    unfold DMTR_NONZERO. rewrite post_sbind, post_DMTR_TRUE, (proj2 (Z.eqb_neq _ _) Hbuf). cbn [negb].
    rewrite post_sbind. apply post_rd_heap. destruct front as [|data|err]; [done| |].
    + destruct Hfront as (_ & Hh & Hl & Hsz). eapply post_mono; [by apply (parse_message_spec buf sz data h)|].
      cbv beta. intros x h' (-> & Hd & Hs). rewrite post_sbind, post_DMTR_OK. eapply post_rd_on_base; [apply on_slot_complete_sga|].
      change (0 =? 0) with true. cbv iota. rewrite post_normal. cbn [snd fst]. eapply run_pop_rest; [done|lia|].
      by eexists _, h'.
    + destruct Hfront as (_ & Hm). eapply post_mono; [by apply parse_malformed|]. cbv beta. intros x h' (-> & Hs). cbn [snd fst].
      assert (He : err =? EAGAIN = false) by (by destruct Hm as [[_ ->]|(_ & -> & _)]). rewrite He. by eexists _, h'.
Qed.

Lemma rd_popping_run w qs q h r k tq front :
  rd_popping qt q -> rq_pop_thread q = Some (mk_user_thread EAGAIN tq (Some k)) -> front_is q h front -> (4 <= fuel)%nat ->
  wp (run (rd_pop_step self) fuel EAGAIN k tq) (fun th e' => exists q' h',
    pop_outcome qt q h front th q' h' /\ e' = rd_env qs w q' h' r) (rd_env qs w q h r).
Proof.
  intros [] Hth Hfront Hf. destruct rp_pop0 as [E|E]; rewrite E in Hth; injection Hth as <- <-.
  - destruct fuel as [|f]; [lia|]. rewrite post_run_step. cbn [rd_pop_step]. rewrite post_in_thread, post_sbind.
    eapply post_rd_task; [done|]. rewrite post_normal. cbn [snd fst]. apply run_pop_recv; [done|done|lia].
  - apply run_pop_recv; [done|done|lia].
Qed.

(** One poll of a pop, to the end of the service of the pop worker. *)
Lemma rd_poll_pop w qs q h r wcs h1 r1 qr front (Q : Z * dmtr_qresult -> env -> Prop) :
  rd_popping qt q -> rw_poll_count w < 10000 -> completes (my_cq q) h r wcs h1 r1 -> (4 <= fuel)%nat ->
  front_is (completed wcs q) h1 front ->
  (forall th q' h', pop_outcome qt (completed wcs q) h1 front th q' h' ->
     let e' := rd_env qs (polled w) (set_rq_pop_thread (Some th) q') h' r1 in
     match front with
     | Malformed err => Q (err, unanswered q qt qr) e'
     | _ => Q (task_poll (unanswered q qt qr) (rd_task (task_slot qt) q')) e'
     end) ->
  wp (rd_poll fuel self qr qt) Q (rd_env qs w q h r).
Proof.
  intros Hp Hn Hc Hf Hfront HQ. pose proof (completed_popping qt wcs q Hp) as Hp1. pose proof Hp1 as [Hid1 _ _ _ _ _ Hpush1 Hpop1].
  destruct Hp as [Hid Hqd Hqt Hv He [v Hr] _ _]. set (q1 := completed wcs q) in *.
  assert (Hth : exists k tq, rq_pop_thread q1 = Some (mk_user_thread EAGAIN tq (Some k))) by (destruct Hpop1 as [E|E]; eauto).
  destruct Hth as (k & tq & Hth).
  eapply post_rd_poll; [done|done|done|done|exact Hc|done|right; unfold task_opcode; by rewrite Hr|]. rewrite post_sbind.
  eapply post_rd_service_pop; [exact Hth|]. eapply post_mono; [by apply (rd_popping_run (polled w) qs q1 h1 r1 k tq front)|].
  cbv beta. intros th e' (q' & h' & Ho & ->). eexists _, _, _. split; [done|]. specialize (HQ th q' h' Ho). cbv zeta in HQ.
  assert (Hidle : th_done th = false -> rq_push_thread q' = Some idle_push ->
    Q (task_poll (unanswered q qt qr) (rd_task (task_slot qt) q')) (rd_env qs (polled w) (set_rq_pop_thread (Some th) q') h' r1) ->
    post False (if negb (EAGAIN =? answer_of th) then normal (answer_of th) else rd_service_push fuel self)
      (fun x e2 => (x = inl EAGAIN /\ exists q2 h2 r2, e2 = rd_env qs (polled w) q2 h2 r2 /\
                    Q (task_poll (unanswered q qt qr) (rd_task (task_slot qt) q2)) e2) \/
                 (exists err, x = inl err /\ err <> 0 /\ err <> EAGAIN /\ Q (err, unanswered q qt qr) e2))
      (rd_env qs (polled w) (set_rq_pop_thread (Some th) q') h' r1)).
  { intros Hd Hpush HQ'. rewrite Hd. change (negb (EAGAIN =? EAGAIN)) with false. cbv iota.
    eapply post_rd_push_idle; [lia|exact Hpush|]. left. split; [done|]. eexists _, _, _. by split. }
  unfold front_is, pop_outcome in *. destruct (my_pending_recvs q1) as [|[buf sz] rest], front as [|data|err]; try done.
  - destruct Ho as (-> & -> & ->). by apply Hidle.
  - destruct Ho as (-> & _ & _ & ->). by apply Hidle.
  - destruct Ho as (-> & _ & ->). cbn [th_done th_coroutine dead_pop th_error]. destruct Hfront as [_ Hm].
    assert (Herr : err <> 0 /\ err <> EAGAIN) by (by destruct Hm as [[_ ->]|(_ & -> & _)]). destruct Herr as [H0 Hea].
    rewrite (proj2 (Z.eqb_neq _ _) Hea), (proj2 (Z.eqb_neq _ _) (not_eq_sym Hea)). cbn [negb]. rewrite post_normal. right. by exists err.
Qed.
End pop.

(** C23: receiving.  One [poll] of a pop that has not been served takes the
    card's completions and then the first message received, if there is one:
    the task is completed with the array that the sender pushed, whose bytes
    are in the buffer behind the header, and the messages behind it stay.
    Without a message the answer is [EAGAIN] and the operation goes on
    waiting. *)
Theorem rdma_pop_receives qt qs w q h r wcs h1 r1 qr :
  rd_popping qt q -> rw_poll_count w < 10000 -> completes (my_cq q) h r wcs h1 r1 -> (4 <= fuel)%nat ->
  match my_pending_recvs (completed wcs q) with
  | [] => wp (rd_poll fuel self qr qt) (fun '(ret, res) e' => ret = EAGAIN /\ exists q',
      rd_popping qt q' /\ my_pending_recvs q' = [] /\ e' = rd_env qs (polled w) q' h1 r1) (rd_env qs w q h r)
  | (buf, sz) :: rest => forall data, buf <> 0 -> holds h1 buf (rdma_message data) -> len32 data < 2 ^ 32 -> 12 <= sz ->
      wp (rd_poll fuel self qr qt) (fun '(ret, res) e' => ret = 0 /\
        res = mk_qresult DMTR_OPC_POP (my_qd (rq_base q)) qt (qv_sga (received_array buf data)) /\
        exists q' h', e' = rd_env qs (polled w) q' h' r1 /\ my_pending_recvs q' = rest /\ rq_pop_thread q' = Some idle_pop /\
          holds h' (buf + 16) data /\ same_outside buf 12 h1 h') (rd_env qs w q h r)
  end.
Proof.
  intros Hp Hn Hc Hf. pose proof (completed_popping qt wcs q Hp) as Hp1. destruct (completed_fields wcs q) as (E1 & _).
  pose proof Hp as [Hid Hqd _ Hv He [v Hr] _ _]. set (q1 := completed wcs q) in *.
  destruct (my_pending_recvs q1) as [|[buf sz] rest] eqn:Ep.
  - eapply (rd_poll_pop qt w qs q h r wcs h1 r1 qr Nothing); [done|done|exact Hc|done|unfold front_is; fold q1; by rewrite Ep|].
    intros th q' h' Ho. unfold pop_outcome in Ho. fold q1 in Ho. rewrite Ep in Ho. destruct Ho as (-> & -> & ->). cbv zeta iota.
    unfold task_poll, task_done, rd_task in *. rewrite E1, He. split; [done|]. eexists. split; [|split; [|done]]; [|done].
    destruct Hp1. split; try done. by right.
  - intros data Hbuf Hh Hl Hsz.
    eapply (rd_poll_pop qt w qs q h r wcs h1 r1 qr (Message data)); [done|done|exact Hc|done|unfold front_is; fold q1; by rewrite Ep|].
    intros th q' h' Ho. unfold pop_outcome in Ho. fold q1 in Ho. rewrite Ep in Ho. destruct Ho as (-> & Hd & Hs & ->). cbv zeta iota.
    assert (Ht : rd_task (task_slot qt) (set_rd_slot (task_slot qt) (completed_task (received_array buf data) (rd_task (task_slot qt) q1))
      (set_my_pending_recvs rest q1)) = completed_task (received_array buf data) (rd_task (task_slot qt) q)).
    { unfold rd_task at 1, set_rd_slot. cbn [rq_base set_rq_base]. rewrite slot_task_set_eq. unfold rd_task. by rewrite E1. }
    rewrite Ht. unfold task_poll, task_done, completed_task. cbn [my_error set_my_qr set_my_error my_qr set_qr_value].
    rewrite Hr. change (negb (0 =? EAGAIN)) with true. cbn [negb]. split; [done|]. split; [done|]. by eexists _, h'.
Qed.

(** C26: a malformed message.  When the first buffer received is shorter than a
    header, or does not start with the magic number, the pop worker returns
    [EPROTO] or [EILSEQ]: the buffer is lost, the [poll] of the pop answers the
    error, and the worker does not run again: every later [poll] of any push or
    pop on the queue answers that error too, whatever has been received. *)
Theorem rdma_pop_errors qt qs w q h r wcs h1 r1 qr buf sz rest err :
  rd_popping qt q -> rw_poll_count w < 10000 -> completes (my_cq q) h r wcs h1 r1 -> (4 <= fuel)%nat ->
  my_pending_recvs (completed wcs q) = (buf, sz) :: rest -> buf <> 0 -> malformed h1 buf sz err ->
  wp (rd_poll fuel self qr qt) (fun '(ret, res) e' => ret = err /\ exists q' h',
    e' = rd_env qs (polled w) q' h' r1 /\ my_pending_recvs q' = rest /\
    forall qt2 w2 q2 h2 r2 wcs2 h3 r3 qr2, 
      (* the queue later on, with any other operation *)
      rq_pop_thread q2 = rq_pop_thread q' -> my_rdma_id q2 = id -> 0 < my_qd (rq_base q2) -> qt2 <> 0 ->
      has_task qt2 (rq_base q2) = true -> is_io (task_opcode (rd_task (task_slot qt2) q2)) ->
      rw_poll_count w2 < 10000 -> completes (my_cq q2) h2 r2 wcs2 h3 r3 ->
      rd_poll fuel self qr2 qt2 (rd_env qs w2 q2 h2 r2) =
        Ok (err, unanswered q2 qt2 qr2) (rd_env qs (polled w2) (completed wcs2 q2) h3 r3)) (rd_env qs w q h r).
Proof.
  intros Hp Hn Hc Hf Ep Hbuf Hm. set (q1 := completed wcs q) in *.
  assert (Herr : err <> 0 /\ err <> EAGAIN) by (by destruct Hm as [[_ ->]|(_ & -> & _)]). destruct Herr as [H0 Hea].
  eapply (rd_poll_pop qt w qs q h r wcs h1 r1 qr (Malformed err)); [done|done|exact Hc|done|unfold front_is; fold q1; by rewrite Ep|].
  intros th q' h' Ho. unfold pop_outcome in Ho. fold q1 in Ho. rewrite Ep in Ho. destruct Ho as (-> & Hs & ->). cbv zeta iota.
  split; [done|]. eexists _, h'. split; [done|]. split; [done|]. intros qt2 w2 q2 h2 r2 wcs2 h3 r3 qr2 Ht Hid2 Hqd2 Hqt2 Hv2 Hop2 Hn2 Hc2.
  change (rq_pop_thread q2 = Some (dead_pop err)) in Ht. apply wp_eq.
  destruct (completed_fields wcs2 q2) as (_ & _ & _ & _ & _ & E6 & _).
  eapply post_rd_poll; [done|done|done|done|exact Hc2|done|done|]. rewrite post_sbind. unfold rd_service_pop. rewrite post_sbind.
  eapply post_rd_get. rewrite E6, Ht, post_sbind, post_need, post_sbind, post_call. unfold service. cbn [th_coroutine dead_pop].
  rewrite post_fbind, post_fret. unfold dead_pop in *. cbn [th_done th_coroutine negb th_error]. rewrite (proj2 (Z.eqb_neq _ _) Hea), post_fret, post_sbind.
  eapply post_rd_modify. rewrite post_normal. cbv iota. rewrite (proj2 (Z.eqb_neq _ _) (not_eq_sym Hea)). cbn [negb]. rewrite post_normal.
  right. exists err. split; [done|]. split; [done|]. split; [done|]. split; [done|].
  replace (set_rq_pop_thread (Some _) (completed wcs2 q2)) with (completed wcs2 q2); [done|].
  rewrite <- Ht, <- E6. by destruct (completed wcs2 q2).
Qed.
End io.

(** ** Examples: a connection on the card of [RdmaWire] *)
Definition demo_rtoken : Z := mk_qtoken 3 1.
Definition demo_peer : connection_data := mk_connection_data 900 9.
Definition demo_rdma (recvs : list (Z * Z)) : rdma_queue :=
  mk_rdma_queue (io_queue_ctor NETWORK_Q 3) 2048 0 (Some demo_peer) 0 0 [] recvs 1 false 6 None (Some idle_push) (Some idle_pop) None.
Definition demo_rworld (n : Z) : rdworld demo_card := mk_rdworld (demo_memory []) 5 None n (mk_demo_card (mk_view [] [] 0) [] 5).
Definition demo_idle_card (window : Z) (wcs : list ibv_wc) : demo_card := mk_demo_card (mk_view [] [] window) wcs 5.
Lemma demo_completes h window wcs :
  Z.of_nat (length wcs) <= CQ_BATCH ->
  completes (fun _ : demo_card => True) dk_view 6 h (demo_idle_card window wcs) wcs h (demo_idle_card window []).
Proof. by split. Qed.
Lemma demo_open : rd_open 1 demo_rtoken demo_peer (demo_rdma []).
Proof. by split. Qed.

(** The other side has written a window of 2. *)
Lemma rdma_push_sends_witness :
  wp (rd_push 5 3 demo_rtoken demo_ping_sga) (fun ret e' => ret = 0 /\ exists q' h' r',
    e' = rd_env 3 ∅ (demo_rworld 0) q' h' r' /\ my_send_window_unused q' = 1 /\ vw_window (dk_view r') = 0 /\
    (exists wr, vw_sent (dk_view r') = [(wr, Some (rdma_message demo_ping))]) /\
    wp (rd_poll 5 3 qresult_zero demo_rtoken) (fun '(ret, res) _ => ret = 0 /\
      res = mk_qresult DMTR_OPC_PUSH 3 demo_rtoken (qv_sga demo_ping_sga))
      (rd_env 3 ∅ (demo_rworld 0) q' (demo_memory demo_ping) (demo_idle_card 0 [])))
    (rd_env 3 ∅ (demo_rworld 0) (demo_rdma []) (demo_memory demo_ping) (demo_idle_card 2 [])).
Proof.
  assert (Hk : heap_ok (demo_memory demo_ping)) by (apply demo_memory_ok; vm_compute; lia).
  eapply post_mono.
  - apply (rdma_push_sends 5 3 1 7 5 (fun _ => True) dk_view (demo_card_ok 3) demo_rtoken demo_ping_sga demo_ping demo_peer
      ∅ (demo_rworld 0) (demo_rdma []) (demo_memory demo_ping) (demo_idle_card 2 [])); [done|apply demo_open|apply demo_ping_at|exact Hk|done|lia].
  - cbv beta. intros ret e' (-> & th & q' & h' & r' & Ho & -> & Hpoll). split; [done|].
    destruct Ho as (-> & -> & _ & _ & wr & _ & _ & Hv). change (_ <? RECV_WINDOW) with false in Hv. cbv zeta iota in Hv.
    eexists _, h', r'. split; [done|]. split; [by vm_compute|]. rewrite Hv. split; [done|]. split; [by exists wr|].
    eapply post_mono; [apply (Hpoll (demo_rworld 0) (demo_memory demo_ping) (demo_idle_card 0 []) [] (demo_memory demo_ping) (demo_idle_card 0 []) qresult_zero)|].
    + done.
    + done.
    + by apply demo_completes.
    + apply demo_ping_at.
    + exact Hk.
    + intros [ret res] e2 (-> & -> & _). done.
Defined.

Definition demo_popping : rdma_queue :=
  set_rq_pop_thread (Some (mk_user_thread EAGAIN [demo_rtoken] (Some RdPopIdle)))
    (set_rd_slot (task_slot demo_rtoken) (started DMTR_OPC_POP demo_rtoken None None (rq_base (demo_rdma []))) (demo_rdma [])).
Lemma demo_popping_ok : rd_popping 1 demo_rtoken demo_popping.
Proof. split; try (by vm_compute); [by eexists|by left]. Qed.
(** The card reports a message of 20 bytes in the buffer at 256. *)
Definition demo_received (n : Z) : list ibv_wc := [mk_wc 256 IBV_WC_SUCCESS IBV_WC_RECV n].

Lemma rdma_pop_receives_witness :
  wp (rd_poll 5 3 qresult_zero demo_rtoken) (fun '(ret, res) e' => ret = 0 /\
    res = mk_qresult DMTR_OPC_POP 3 demo_rtoken (qv_sga (received_array 256 demo_ping)) /\
    holds (rw_heap (e_world e')) 272 demo_ping)
    (rd_env 3 ∅ (demo_rworld 0) demo_popping (demo_memory (rdma_message demo_ping)) (demo_idle_card 0 (demo_received 20))).
Proof.
  pose proof (rdma_pop_receives 5 3 1 7 5 (fun _ => True) dk_view (demo_card_ok 3) demo_rtoken ∅ (demo_rworld 0) demo_popping
    (demo_memory (rdma_message demo_ping)) (demo_idle_card 0 (demo_received 20)) (demo_received 20)
    (demo_memory (rdma_message demo_ping)) (demo_idle_card 0 []) qresult_zero demo_popping_ok eq_refl
    (demo_completes _ 0 (demo_received 20) ltac:(by vm_compute)) ltac:(lia)) as H.
  cbv beta in H. change (my_pending_recvs (completed (demo_received 20) demo_popping)) with [(256, 20)] in H. cbv iota in H. eapply post_mono; [apply (H demo_ping)|].
  - done.
  - apply demo_message_at.
  - by vm_compute.
  - done.
  - intros [ret res] e' (-> & -> & q' & h' & -> & _ & _ & Hh & _). done.
Defined.

(** 8 bytes are no message. *)
Lemma rdma_pop_errors_witness :
  wp (rd_poll 5 3 qresult_zero demo_rtoken) (fun '(ret, _) _ => ret = EPROTO)
    (rd_env 3 ∅ (demo_rworld 0) demo_popping (demo_memory []) (demo_idle_card 0 (demo_received 8))).
Proof.
  eapply post_mono.
  - apply (rdma_pop_errors 5 3 1 7 5 (fun _ => True) dk_view (demo_card_ok 3) demo_rtoken ∅ (demo_rworld 0) demo_popping
      (demo_memory []) (demo_idle_card 0 (demo_received 8)) (demo_received 8) (demo_memory []) (demo_idle_card 0 []) qresult_zero
      256 8 [] EPROTO demo_popping_ok); try done; [lia|by left].
  - intros [ret res] e' (-> & _). done.
Defined.
