(* ===== verification/RdmaConn.v ===== *)
(** * Connecting RDMA queues

    [connect] of [rdma/rdma_queue.cc] against a connection manager that answers:
    the events of the router, the queue pair, the receive buffers, the workers;
    and what becomes of a [connect] whose answers come late. *)
From S2P Require Import Prelude Cmd Types Cast Memory Contents IoQueue UserThread MemoryQueue Queue PosixOs PosixQueue Router RdmaOs RdmaQueue RdmaWire RdmaIo.
#[local] Opaque RECV_BUF_SIZE RECV_WINDOW.
Open Scope cmd_scope.

(** ** Waiting for an event *)
Section events.
Context {R : Type} `{CM : RdmaCm R}.
Implicit Types (r : R) (ev : cm_event) (rt : rdmacm_router).

(** The channel says [EAGAIN] or has events of others, [n] times in all, and
    then has [ev]. *)
Inductive answers (chan : Z) : list cm_event -> nat -> R -> cm_event -> R -> Prop :=
| an_now r errno ev r' : cm_get_event chan r = (0, errno, ev, r') -> answers chan [] 0 r ev r'
| an_none os n r ev0 r1 ev r' : cm_get_event chan r = (-1, EAGAIN, ev0, r1) -> answers chan os n r1 ev r' ->
    answers chan os (S n) r ev r'
| an_other o os n r errno r1 ev r' : cm_get_event chan r = (0, errno, o, r1) -> answers chan os n r1 ev r' ->
    answers chan (o :: os) (S n) r ev r'.
(** An event of another identifier waits in the router. *)
Definition route rt (o : cm_event) : rdmacm_router :=
  match my_event_queues rt !! important_id o with
  | Some q => mk_router (<[important_id o := q ++ [o]]> (my_event_queues rt)) (my_channel rt)
  | None => rt
  end.
(** A router on the channel [chan] without an event for [id], and other
    identifiers. *)
Record routes (chan : Z) (id : Z) (live : gset Z) rt : Prop := {
  ro_channel : my_channel rt = chan /\ chan <> 0;
  ro_mine : my_event_queues rt !! id = Some [];
  ro_live : forall x, x ∈ live -> is_Some (my_event_queues rt !! x)
}.
Definition for_others (id : Z) (live : gset Z) : cm_event -> Prop := fun o => important_id o <> id /\ important_id o ∈ live.

Lemma route_routes chan id live rt o : routes chan id live rt -> for_others id live o -> routes chan id live (route rt o).
Proof.
  intros [Hc Hm Hl] [Hne Ho]. unfold route. destruct (Hl _ Ho) as [q Hq]. rewrite Hq. split; [done| |]; cbn [my_event_queues].
  - by rewrite lookup_insert_ne.
  - intros x Hx. destruct (decide (important_id o = x)) as [<-|Hne']; [by rewrite lookup_insert_eq|].
    rewrite lookup_insert_ne by done. by apply Hl.
Qed.
Lemma poll_answer chan id live rt r errno ev r' :
  routes chan id live rt -> cm_get_event chan r = (0, errno, ev, r') -> important_id ev = id ->
  router_poll id (mk_renv rt r) = Ok (0, Some ev) (mk_renv rt r').
Proof.
  intros [[Hc Hc0] Hm _] Hg Hi. apply wp_eq. unfold router_poll. rewrite post_body_out, post_sbind, post_get, post_sbind.
  change (event_queues (mk_renv rt r)) with (my_event_queues rt). rewrite Hm, post_DMTR_TRUE. unfold pop_event at 1.
  rewrite !post_sbind, post_get, post_sbind. change (event_queues (mk_renv rt r)) with (my_event_queues rt). rewrite Hm, post_need, post_normal.
  rewrite post_sbind, post_call. unfold service_event_channel. rewrite post_body, post_sbind, post_get, post_sbind.
  unfold DMTR_NONZERO. rewrite post_DMTR_TRUE. change (channel (mk_renv rt r)) with (my_channel rt). rewrite Hc, (proj2 (Z.eqb_neq _ _) Hc0). cbn [negb].
  rewrite post_sbind, post_call. unfold on_lib at 1. rewrite post_zoom. unfold rdma_get_cm_event. rewrite post_fbind.
  unfold lib_call, post at 1. cbn [re_lib]. rewrite Hg. change (0 =? 0) with true. cbv iota. rewrite post_fret, post_sbind.
  change (0 =? EAGAIN) with false. cbv iota. change (0 =? 0) with true. cbv iota. rewrite post_normal, post_sbind, post_get.
  change (event_queues (mk_renv _ r')) with (my_event_queues rt). rewrite Hi, Hm, post_sbind, post_modify, post_normal.
  cbn [app]. change (0 =? EAGAIN) with false. change (0 =? 0) with true. cbv iota. rewrite post_sbind, post_normal, post_sbind.
  unfold pop_event. rewrite post_sbind, post_get, post_sbind. unfold event_queues, set_my_event_queues. cbn [re_router my_event_queues re_lib my_channel].
  rewrite lookup_insert_eq, post_need, post_sbind, post_modify, 2!post_normal. cbn [re_router my_event_queues re_lib my_channel].
  rewrite insert_insert_eq, insert_id by done. split; [done|]. by destruct rt.
Qed.

(** The part of [router_poll] before the channel answers. *)
Lemma post_poll_channel chan id live rt r (Q : Z * option cm_event -> renv R -> Prop) :
  routes chan id live rt ->
  wp (on_lib (rdma_get_cm_event chan)) (fun '(ret, ev) e' =>
    if ret =? EAGAIN then Q (EAGAIN, None) e'
    else ret = 0 /\ match event_queues e' !! important_id ev with
         | Some q => event_queues e' !! id = Some [] /\ important_id ev <> id /\
             Q (EAGAIN, None) (set_my_event_queues (<[important_id ev := q ++ [ev]]> (event_queues e')) e')
         | None => False
         end) (mk_renv rt r) ->
  wp (router_poll id) Q (mk_renv rt r).
Proof.
  intros [[Hc Hc0] Hm _] HQ. unfold router_poll. rewrite post_body_out, post_sbind, post_get, post_sbind.
  change (event_queues (mk_renv rt r)) with (my_event_queues rt). rewrite Hm, post_DMTR_TRUE. unfold pop_event at 1.
  rewrite !post_sbind, post_get, post_sbind. change (event_queues (mk_renv rt r)) with (my_event_queues rt). rewrite Hm, post_need, post_normal.
  rewrite post_sbind, post_call. unfold service_event_channel. rewrite post_body, post_sbind, post_get, post_sbind.
  unfold DMTR_NONZERO. rewrite post_DMTR_TRUE. change (channel (mk_renv rt r)) with (my_channel rt). rewrite Hc, (proj2 (Z.eqb_neq _ _) Hc0). cbn [negb].
  rewrite post_sbind, post_call. eapply post_mono; [exact HQ|]. cbv beta. intros [ret ev] e'. rewrite post_sbind.
  destruct (ret =? EAGAIN) eqn:Er; zbool.
  - intros HQ'. rewrite post_return, Er. change (EAGAIN =? EAGAIN) with true. cbv iota. by rewrite post_sbind, post_return.
  - intros [-> HQ']. change (0 =? 0) with true. cbv iota. rewrite post_normal, post_sbind, post_get.
    destruct (event_queues e' !! important_id ev) as [q|]; [|done]. destruct HQ' as (Hq & Hne & HQ').
    rewrite post_sbind, post_modify, post_normal. change (0 =? EAGAIN) with false. change (0 =? 0) with true. cbv iota.
    rewrite post_sbind, post_normal, post_sbind. unfold pop_event. rewrite post_sbind, post_get, post_sbind.
    unfold event_queues at 1, set_my_event_queues at 1. cbn [re_router my_event_queues].
    rewrite lookup_insert_ne by done. by rewrite Hq, post_need, post_normal, post_return.
Qed.
Lemma poll_wait chan id live rt r ev0 r1 :
  routes chan id live rt -> cm_get_event chan r = (-1, EAGAIN, ev0, r1) ->
  router_poll id (mk_renv rt r) = Ok (EAGAIN, None) (mk_renv rt r1).
Proof.
  intros Hr Hg. apply wp_eq. eapply post_poll_channel; [done|]. unfold on_lib. rewrite post_zoom. unfold rdma_get_cm_event. rewrite post_fbind.
  unfold lib_call, post at 1. cbn [re_lib]. rewrite Hg. done.
Qed.
Lemma poll_other chan id live rt r errno o r1 :
  routes chan id live rt -> cm_get_event chan r = (0, errno, o, r1) -> for_others id live o ->
  router_poll id (mk_renv rt r) = Ok (EAGAIN, None) (mk_renv (route rt o) r1).
Proof.
  intros Hr Hg [Hne Ho]. apply wp_eq. eapply post_poll_channel; [done|]. unfold on_lib. rewrite post_zoom. unfold rdma_get_cm_event. rewrite post_fbind.
  unfold lib_call, post at 1. cbn [re_lib]. rewrite Hg. change (0 =? 0) with true. cbv iota. rewrite post_fret. split; [done|].
  change (event_queues (mk_renv (re_router (mk_renv rt r)) r1)) with (my_event_queues rt). destruct (ro_live _ _ _ _ Hr _ Ho) as [q Hq]. rewrite Hq.
  split; [apply Hr|]. split; [done|]. split; [done|]. unfold route. by rewrite Hq.
Qed.

(** [expect_rdma_cm_event] waits for a million polls. *)
Lemma expect_poll_answer chan id live os n r ev r' rt :
  answers chan os n r ev r' -> routes chan id live rt -> Forall (for_others id live) os -> important_id ev = id -> Z.of_nat n <= 1000001 ->
  expect_poll id (mk_renv rt r) = Ok (0, Some ev) (mk_renv (foldl route rt os) r').
Proof.
  intros Ha Hr Ho Hi Hn. unfold expect_poll. rewrite ploop_nloop.
  assert (H : forall m k, (n < m)%nat -> k + Z.of_nat n <= 1000001 ->
    nloop m (expect_step id) (k, mk_renv rt r) = inr (Ok (0, Some ev) (mk_renv (foldl route rt os) r'))).
  { clear Hn. revert rt Hr Ho. induction Ha as [r errno ev r' Hg|os n r ev0 r1 ev r' Hg _ IH|o os n r errno r1 ev r' Hg _ IH];
      intros rt Hr Ho [|m] k Hm Hk; try lia; cbn [nloop]; unfold expect_step at 1.
    - by rewrite (poll_answer chan id live rt r errno ev r').
    - rewrite (poll_wait chan id live rt r ev0 r1) by done. change (EAGAIN =? EAGAIN) with true. cbv iota.
      rewrite (proj2 (Z.leb_le _ _)) by lia. by apply IH; [..|lia|lia].
    - apply Forall_cons in Ho as [Ho1 Ho]. rewrite (poll_other chan id live rt r errno o r1) by done.
      change (EAGAIN =? EAGAIN) with true. cbv iota. rewrite (proj2 (Z.leb_le _ _)) by lia.
      apply IH; [done|by eapply route_routes|done|lia|lia]. }
  rewrite H; [done| |lia]. unfold expect_bound. lia.
Qed.
Lemma routes_others chan id live os rt :
  routes chan id live rt -> Forall (for_others id live) os -> routes chan id live (foldl route rt os).
Proof.
  intros Hr Ho. revert rt Hr. induction Ho as [|o os Ho _ IH]; intros rt Hr; [done|]. apply IH. by eapply route_routes.
Qed.
End events.

(** ** What the connection manager does for a [connect] *)
Section connect.
Context {R : Type} `{CM : RdmaCm R} `{RV : RdmaVerbs R} (fuel : nat).
Abbreviation W := (rdworld R).
Abbreviation env := (qenv rdma_object W).
Context (self id qp pd cq chan : Z) (live : gset Z) (ok0 ok : R -> Prop) (view : R -> card_view).
Implicit Types (e : env) (q : rdma_queue) (w : W) (qs : gmap Z rdma_object) (h : heap) (r : R) (rt : rdmacm_router).
Abbreviation rd_env := (rd_env self).

(** An event of a type that is [due] comes, within the polls that the code
    makes, and leaves a state in [P]. *)
Definition answered (due : Z -> R -> Prop) (P : R -> Prop) (ty : Z) (T : R -> cm_event -> Prop) : Prop :=
  forall r, due ty r -> exists os n ev r', answers chan os n r ev r' /\ Forall (for_others id live) os /\ Z.of_nat n <= 1000001 /\
    ev_type ev = ty /\ important_id ev = id /\ P r' /\ view r' = view r /\ T r' ev.
(** [f] answers 0. *)
Definition does (P P' : R -> Prop) (f : R -> Z * Z * R) : Prop :=
  forall r, P r -> exists errno r', f r = (0, errno, r') /\ P' r' /\ view r' = view r.

(** The queue pair and the windows; [ok0]: before the queue pair is there. *)
Record manages : Prop := {
  cc_card : card_ok self id qp pd ok view;
  cc_set_pd : forall r, ok0 r -> ok0 (v_set_id_pd id pd r) /\ view (v_set_id_pd id pd r) = view r;
  cc_cq : cq <> 0 /\ forall c n r, ok0 r -> exists r', v_create_cq c n r = (cq, r') /\ ok0 r' /\ view r' = view r;
  cc_qp : forall attr, does ok0 ok (v_create_qp id pd attr);
  cc_reg : forall r, ok r -> exists mr r', v_reg_window pd self r = (mr, r') /\ mr <> 0 /\ ok r' /\ view r' = view r;
  cc_ack : forall (P : R -> Prop) p r, P = ok0 \/ P = ok -> P r -> let r' := snd (cm_ack_event p r) in P r' /\ view r' = view r
}.
(** The answers to a [connect]. *)
Record connects (their : connection_data) (due : Z -> R -> Prop) : Prop := {
  cc_addr : forall a n, does ok0 (due RDMA_CM_EVENT_ADDR_RESOLVED) (v_resolve_addr id a n);
  cc_addr_event : answered due ok0 RDMA_CM_EVENT_ADDR_RESOLVED (fun _ _ => True);
  cc_route : forall n, does ok0 (due RDMA_CM_EVENT_ROUTE_RESOLVED) (v_resolve_route id n);
  cc_route_event : answered due ok0 RDMA_CM_EVENT_ROUTE_RESOLVED (fun _ _ => True);
  cc_connect : forall p, does ok (due RDMA_CM_EVENT_ESTABLISHED) (v_connect id p);
  cc_established : answered due ok RDMA_CM_EVENT_ESTABLISHED (fun r ev => ev_private_data r (ev_ptr ev) = Some their)
}.

Context (Hm : manages) (due : Z -> R -> Prop).

Definition at_router rt w : W := set_rw_router (Some rt) (rw_lib w) w.

Lemma post_rd_ack bad (P : R -> Prop) p h r w (Q : unit -> W -> Prop) :
  P = ok0 \/ P = ok -> P r -> (forall r', P r' -> view r' = view r -> Q tt (set_rw_mem h r' w)) ->
  post bad (rd_ack p) Q (set_rw_mem h r w).
Proof.
  intros Hor HP HQ. unfold rd_ack. rewrite post_fbind. unfold post at 1, rd_call. cbn [rw_lib set_rw_mem].
  pose proof (cc_ack Hm P p r Hor HP) as Ha. destruct (cm_ack_event p r) as [x r']. rewrite post_fret. destruct Ha. by apply HQ.
Qed.

Lemma post_expect (P : R -> Prop) ty T err want h r rt w (Q : Z * option cm_event -> W -> Prop) :
  P = ok0 \/ P = ok -> answered due P ty T -> due ty r -> routes chan id live rt ->
  (forall rt' r' ev, routes chan id live rt' -> P r' -> view r' = view r -> (want = true -> T r' ev) ->
     Q (0, if want then Some ev else None) (set_rw_mem h r' (at_router rt' w))) ->
  wp (expect_rdma_cm_event err ty id want) Q (set_rw_mem h r (at_router rt w)).
Proof.
  intros Hor Hans Hdue Hr HQ. destruct (Hans r Hdue) as (os & n & ev & r1 & Ha & Ho & Hn & Hty & Hi & HP1 & Hv1 & HT).
  pose proof (expect_poll_answer chan id live os n r ev r1 rt Ha Hr Ho Hi Hn) as He.
  pose proof (routes_others chan id live os rt Hr Ho) as Hr1.
  unfold expect_rdma_cm_event, DMTR_NONZERO. rewrite post_body_out, post_sbind, post_DMTR_TRUE, (proj2 (Z.eqb_neq _ _)) by apply (co_id _ _ _ _ _ _ (cc_card Hm)).
  cbn [negb]. rewrite post_sbind. unfold need_router, DMTR_NOTNULL. rewrite post_sbind, post_get, post_DMTR_TRUE.
  cbn [our_rdmacm_router set_rw_mem at_router set_rw_router]. rewrite post_sbind, post_call. unfold rd_router. rewrite post_zoom_opt.
  cbn [our_rdmacm_router set_rw_mem at_router set_rw_router mbind option_bind rw_lib]. eapply post_eq; [exact He|]. rewrite post_sbind. change (0 =? EAGAIN) with false. change (0 =? 0) with true.
  cbv iota. rewrite post_normal, post_sbind, post_need, Hty, Z.eqb_refl. cbn [negb]. cbv iota.
  destruct want.
  - rewrite post_normal. by apply (HQ (foldl route rt os) r1 ev Hr1).
  - rewrite post_sbind, post_call. eapply (post_rd_ack False P (ev_ptr ev) h r1 (at_router (foldl route rt os) w)); [done|done|].
    intros r2 HP2 Hv2. rewrite post_normal. apply (HQ (foldl route rt os) r2 ev Hr1); [done|congruence|done].
Qed.

Section steps.
Context (w : W) (Hpd : our_pd w = pd).
Abbreviation Hcard := (cc_card Hm).

Lemma cc_id : id <> 0.
Proof. apply (co_id _ _ _ _ _ _ Hcard). Qed.

(** A call of the manager that answers 0. *)
Lemma post_cm_result bad P P' f qs q h r (Q : Z -> env -> Prop) :
  does P P' f -> P r -> (forall r', P' r' -> view r' = view r -> Q 0 (rd_env qs w q h r')) ->
  post bad (rd_world (cm_result_of id f)) Q (rd_env qs w q h r).
Proof.
  intros Hd HP HQ. destruct (Hd r HP) as (errno & r' & E & HP' & Hv). rewrite post_rd_world. unfold cm_result_of, cm_result, DMTR_NONZERO.
  rewrite post_body, post_sbind, post_DMTR_TRUE, (proj2 (Z.eqb_neq _ _) cc_id). cbn [negb]. rewrite post_sbind, post_call, post_body, post_sbind, post_call.
  unfold post at 1, rd_call. cbn [rw_lib rw_heap set_rw_mem e_world RdmaWire.rd_env]. rewrite E. change (0 =? -1) with false. change (0 =? 0) with true.
  cbv iota. rewrite 2!post_normal. by apply HQ.
Qed.

Lemma post_setup_rdma_qp bad qs q h r (Q : Z -> env -> Prop) :
  rq_listening_flag q = false -> my_rdma_id q = id -> ok0 r ->
  (forall r', ok r' -> view r' = view r -> Q 0 (rd_env qs w (set_my_cq cq q) h r')) ->
  post bad (setup_rdma_qp self) Q (rd_env qs w q h r).
Proof.
  intros Hl Hid Hok HQ. unfold setup_rdma_qp. rewrite post_body, post_sbind. eapply post_rd_get. rewrite post_sbind, post_DMTR_TRUE, Hl.
  cbn [negb]. cbv zeta. rewrite Hid, post_sbind, post_DMTR_OK_out, post_rd_world. eapply post_get_pd; [exact Hcard|exact Hpd|].
  cbn [fst snd]. change (0 =? 0) with true. cbv iota. rewrite post_sbind. change (set_e_world _ _) with (rd_env qs w q h r).
  eapply post_rd_deref; [exact Hcard|]. rewrite post_sbind, post_call, post_rd_world. unfold post at 1, rd_do, rd_call.
  cbn [rw_lib rw_heap set_rw_mem e_world RdmaWire.rd_env]. destruct (cc_set_pd Hm r Hok) as [Hok1 Hv1].
  change (set_e_world _ _) with (rd_env qs w q h (v_set_id_pd id pd r)). rewrite post_sbind, post_get, post_sbind, post_call, post_rd_world.
  destruct (cc_cq Hm) as [_ Hcq].
  destruct (Hcq (pd_context (lib_of (rd_env qs w q h (v_set_id_pd id pd r))) pd) (RECV_WINDOW * RECV_WINDOW_BATCHES + 1000) _ Hok1) as (r2 & E2 & Hok2 & Hv2).
  unfold post at 1, rd_call. cbn [rw_lib rw_heap set_rw_mem e_world RdmaWire.rd_env] in *. rewrite E2, post_sbind.
  change (set_e_world _ _) with (rd_env qs w q h r2). eapply post_rd_modify. rewrite post_sbind, post_DMTR_OK.
  eapply post_cm_result; [apply (cc_qp Hm)|done|]. intros r3 Hok3 Hv3. change (0 =? 0) with true. cbv iota. rewrite post_normal.
  apply HQ; [done|congruence].
Qed.
Lemma post_setup_recv_window bad qs q h r (Q : Z * connection_data -> env -> Prop) :
  my_rdma_id q = id -> ok r -> (forall cd r', ok r' -> view r' = view r -> Q (0, cd) (rd_env qs w q h r')) ->
  post bad (setup_recv_window self) Q (rd_env qs w q h r).
Proof.
  intros Hid Hok HQ. unfold setup_recv_window. rewrite post_body_out, post_sbind. eapply post_rd_get.
  rewrite Hid, post_sbind, post_DMTR_OK_out, post_rd_world. eapply post_get_pd; [exact Hcard|exact Hpd|].
  cbn [fst snd]. change (0 =? 0) with true. cbv iota. rewrite post_sbind, post_get. change (set_e_world _ _) with (rd_env qs w q h r).
  cbv zeta. rewrite post_sbind, post_call, post_rd_world. destruct (cc_reg Hm r Hok) as (mr & r1 & E & Hmr & Hok1 & Hv1).
  unfold post at 1, rd_call. cbn [rw_lib rw_heap set_rw_mem e_world RdmaWire.rd_env]. rewrite E. unfold rd_wstmt, rd_deref.
  rewrite (proj2 (Z.eqb_neq _ _) Hmr), post_sbind, post_rd_world, post_normal, post_sbind, post_get, post_normal. by apply HQ.
Qed.
Lemma post_setup_recv_queue bad qs q h r (Q : Z -> env -> Prop) :
  heap_ok h -> ok r -> my_rdma_id q = id ->
  (forall h' r' wrs, extends h h' -> ok r' -> buffers h' (Z.to_nat RECV_WINDOW) wrs -> view r' = view_recv wrs (view r) ->
     Q 0 (rd_env qs w (more_buffers RECV_WINDOW q) h' r')) ->
  post bad (setup_recv_queue self) Q (rd_env qs w q h r).
Proof.
  intros Hk Hok Hid HQ. unfold setup_recv_queue. rewrite post_body, post_sbind, post_DMTR_OK.
  eapply post_new_recv_bufs; [exact Hcard|exact Hpd|exact Hk|exact Hok|exact Hid|]. intros h1 r1 wrs He Hok1 Hb Hv.
  change (0 =? 0) with true. cbv iota. rewrite post_normal. by eapply HQ.
Qed.
Lemma post_start_io bad qs q h r (Q : unit -> env -> Prop) :
  my_rdma_id q = id -> (2 <= fuel)%nat ->
  Q tt (rd_env qs w (set_rq_pop_thread (Some idle_pop) (set_rq_push_thread (Some idle_push) q)) h r) ->
  post bad (rd_start_io fuel self) Q (rd_env qs w q h r).
Proof.
  intros Hid Hf HQ. unfold rd_start_io, user_thread_ctor. rewrite post_fbind.
  eapply run_push_rest; [exact Hcard|exact Hid|exact Hf|]. rewrite post_fbind. eapply post_rd_modify. rewrite post_fbind.
  eapply run_pop_rest; [exact Hcard|exact Hid|exact Hf|]. rewrite post_fbind. eapply post_rd_modify. by rewrite post_fret.
Qed.
End steps.

Lemma post_timeout bad e (Q : Z + Z -> env -> Prop) : Q (inl connect_timeout) e -> post bad timeout_int Q e.
Proof. apply post_eq. vm_compute. reflexivity. Qed.

Context (their : connection_data) (Hc : connects their due).

(** The connection that the worker leaves. *)
Definition connecting (qt : Z) q : rdma_queue :=
  set_rd_slot (task_slot qt) (started DMTR_OPC_CONNECT qt None None (rq_base q)) q.
Definition with_io q : rdma_queue := set_rq_pop_thread (Some idle_pop) (set_rq_push_thread (Some idle_push) q).
Definition with_windows q : rdma_queue :=
  more_buffers RECV_WINDOW (set_their_send_window (Some their) (set_my_send_window_unused RECV_WINDOW (set_my_cq cq q))).
Definition established (qt : Z) q : rdma_queue :=
  let q := with_io (with_windows q) in set_rd_slot (task_slot qt) (set_my_error 0 (rd_task (task_slot qt) q)) q.

Section worker.
Context (qt : Z) (w : W) (Hpd : our_pd w = pd) (qs : gmap Z rdma_object).

(** The queue that the worker finds. *)
Record rd_setup (q : rdma_queue) : Prop := {
  rs_id : my_rdma_id q = id;
  rs_listening : rq_listening_flag q = false
}.

Definition worker_ends q h r (th : user_thread rd_connect_k) (e' : env) : Prop :=
  th = mk_user_thread 0 [] None /\ exists rt' h' r' wrs, e' = rd_env qs (at_router rt' w) (established qt q) h' r' /\
    routes chan id live rt' /\ ok r' /\ extends h h' /\ buffers h' (Z.to_nat RECV_WINDOW) wrs /\ view r' = view_recv wrs (view r).

Lemma run_connect_wait q h r rt f r0 :
  my_rdma_id q = id -> my_cq q = cq -> rq_listening_flag q = false -> heap_ok h -> due RDMA_CM_EVENT_ESTABLISHED r -> view r = view r0 ->
  routes chan id live rt -> (2 <= fuel)%nat -> (1 <= f)%nat ->
  wp (run (rd_connect_step fuel self) f EAGAIN (RdConnectWait (task_slot qt)) []) (worker_ends q h r0) (rd_env qs (at_router rt w) q h r).
Proof.
  intros Hid Hcq Hl Hk Hdue Hv0 Hr Hf Hf1. destruct f as [|f]; [lia|]. rewrite post_run_step. cbn [rd_connect_step].
  rewrite post_in_thread. unfold connect_returns. rewrite post_fbind, post_sbind. eapply post_rd_get. rewrite Hid, post_sbind, post_call, post_rd_world.
  eapply (post_expect ok); [by right|apply (cc_established _ _ Hc)|exact Hdue|exact Hr|].
  intros rt1 r1 ev Hr1 Hok1 Hv1 HT. change (0 =? ECONNREFUSED) with false. change (0 =? EINVAL) with false. change (0 =? 0) with true. cbv iota.
  rewrite post_sbind, post_need, post_sbind, post_get. cbv zeta. rewrite post_sbind.
  change (set_e_world _ _) with (rd_env qs (at_router rt1 w) q h r1). eapply post_rd_modify.
  unfold lib_of. cbn [e_world rw_lib RdmaWire.rd_env set_rw_mem]. rewrite HT by done. rewrite post_sbind, post_need, post_sbind. eapply post_rd_modify.
  rewrite post_sbind, post_call, post_rd_world. eapply (post_rd_ack _ ok); [by right|exact Hok1|]. intros r2 Hok2 Hv2.
  rewrite post_sbind, post_DMTR_OK. change (set_e_world _ _) with
    (rd_env qs (at_router rt1 w) (set_their_send_window (Some their) (set_my_send_window_unused RECV_WINDOW q)) h r2).
  eapply post_setup_recv_queue; [done|exact Hk|exact Hok2|exact Hid|]. intros h3 r3 wrs He Hok3 Hb Hv3.
  change (0 =? 0) with true. cbv iota. rewrite post_sbind. unfold rd_start_threads. rewrite post_sbind. eapply post_rd_get.
  change (rq_listening_flag (more_buffers _ _)) with (rq_listening_flag q). rewrite Hl, post_call.
  eapply post_start_io; [exact Hid|exact Hf|]. rewrite post_return, post_sbind, post_DMTR_OK.
  eapply post_rd_on_base; [by apply on_slot_complete|]. change (0 =? 0) with true. cbv iota. rewrite post_return. cbn [snd fst].
  change (0 =? EAGAIN) with false. cbv iota. split; [done|]. exists rt1, h3, r3, wrs. split; [|split; [exact Hr1|]; split; [exact Hok3|]; split; [exact He|]; split; [exact Hb|]; congruence].
  unfold established, with_io, with_windows. by replace (set_my_cq cq q) with q by (rewrite <- Hcq; by destruct q).
Qed.

Lemma run_connect_route q h r rt f r0 :
  my_rdma_id q = id -> rq_listening_flag q = false -> heap_ok h -> due RDMA_CM_EVENT_ROUTE_RESOLVED r -> view r = view r0 ->
  routes chan id live rt -> (2 <= fuel)%nat -> (2 <= f)%nat ->
  wp (run (rd_connect_step fuel self) f EAGAIN (RdConnectRoute (task_slot qt)) []) (worker_ends q h r0) (rd_env qs (at_router rt w) q h r).
Proof.
  intros Hid Hl Hk Hdue Hv0 Hr Hf Hf1. destruct f as [|f]; [lia|]. rewrite post_run_step. cbn [rd_connect_step].
  rewrite post_in_thread. unfold connect_returns. rewrite post_fbind, post_sbind. eapply post_rd_get. rewrite Hid, post_sbind, post_call, post_rd_world.
  eapply (post_expect ok0); [by left|apply (cc_route_event _ _ Hc)|exact Hdue|exact Hr|].
  intros rt1 r1 ev Hr1 Hok1 Hv1 _. change (0 =? EPERM) with false. change (0 =? EAGAIN) with false. change (0 =? 0) with true. cbv iota.
  rewrite post_sbind, post_DMTR_OK. change (set_e_world _ _) with (rd_env qs (at_router rt1 w) q h r1).
  eapply post_setup_rdma_qp; [exact Hpd|exact Hl|exact Hid|exact Hok1|]. intros r2 Hok2 Hv2. change (0 =? 0) with true. cbv iota.
  rewrite post_sbind, post_DMTR_OK_out. eapply post_setup_recv_window; [exact Hpd|exact Hid|exact Hok2|]. intros cd r3 Hok3 Hv3.
  cbn [fst snd]. change (0 =? 0) with true. cbv iota. rewrite post_sbind. eapply post_rd_get. change (my_rdma_id (set_my_cq cq q)) with (my_rdma_id q).
  rewrite Hid, post_sbind, post_DMTR_OK. eapply post_cm_result; [apply (cc_connect _ _ Hc)|exact Hok3|].
  intros r4 Hdue4 Hv4. change (0 =? 0) with true. cbv iota. rewrite 2!post_normal. cbn [snd fst].
  change (worker_ends q h r0) with (worker_ends (set_my_cq cq q) h r0).
  apply run_connect_wait; try done; [congruence|lia].
Qed.
Lemma run_connect_addr q h r rt f r0 :
  my_rdma_id q = id -> rq_listening_flag q = false -> heap_ok h -> due RDMA_CM_EVENT_ADDR_RESOLVED r -> view r = view r0 ->
  routes chan id live rt -> (2 <= fuel)%nat -> (3 <= f)%nat ->
  wp (run (rd_connect_step fuel self) f EAGAIN (RdConnectAddr (task_slot qt)) []) (worker_ends q h r0) (rd_env qs (at_router rt w) q h r).
Proof.
  intros Hid Hl Hk Hdue Hv0 Hr Hf Hf1. destruct f as [|f]; [lia|]. rewrite post_run_step. cbn [rd_connect_step].
  rewrite post_in_thread. unfold connect_returns. rewrite post_fbind, post_sbind. eapply post_rd_get. rewrite Hid, post_sbind, post_call, post_rd_world.
  eapply (post_expect ok0); [by left|apply (cc_addr_event _ _ Hc)|exact Hdue|exact Hr|].
  intros rt1 r1 ev Hr1 Hok1 Hv1 _. change (0 =? EADDRNOTAVAIL) with false. change (0 =? EAGAIN) with false. change (0 =? 0) with true. cbv iota.
  rewrite post_sbind. apply post_timeout. change (set_e_world _ _) with (rd_env qs (at_router rt1 w) q h r1).
  rewrite post_sbind, post_DMTR_OK. eapply post_cm_result; [apply (cc_route _ _ Hc)|exact Hok1|]. intros r2 Hdue2 Hv2.
  change (0 =? 0) with true. cbv iota. rewrite 2!post_normal. cbn [snd fst]. apply run_connect_route; try done; [congruence|lia].
Qed.
End worker.

(** [poll] of a [connect]. *)
Lemma rd_poll_connect qs w q h r qt qr v tk :
  my_rdma_id q <> 0 -> 0 < my_qd (rq_base q) -> qt <> 0 -> rw_poll_count w < 10000 -> has_task qt (rq_base q) = true ->
  rd_task (task_slot qt) q = tk -> my_qr tk = mk_qresult DMTR_OPC_CONNECT (my_qd (rq_base q)) qt v ->
  rd_poll fuel self qr qt (rd_env qs w q h r) = Ok (task_poll (unanswered q qt qr) tk) (rd_env qs (polled w) q h r).
Proof.
  intros Hid Hqd Hqt Hn Ht <- Hv. apply wp_eq. unfold rd_poll. rewrite post_fbind. eapply post_rd_get.
  assert (Hir : initialize_result (my_qd (rq_base q)) qt qr = Ok 0 (unanswered q qt qr)).
  { unfold initialize_result, body, sbind, fbind, DMTR_TRUE. rewrite (proj2 (Z.gtb_lt _ _)) by lia.
    by rewrite (proj2 (Z.eqb_neq _ _) Hqt). }
  rewrite Hir, post_fbind, post_sbind, post_DMTR_OK, post_fret. change (0 =? 0) with true. cbv iota.
  rewrite post_sbind, post_DMTR_TRUE. unfold rd_good. rewrite (proj2 (Z.eqb_neq _ _) Hid). cbn [negb].
  rewrite post_sbind. unfold rd_poll_events at 1. rewrite post_sbind, post_get. cbn [e_world RdmaWire.rd_env rw_poll_count set_rw_mem].
  rewrite Z.gtb_ltb, (proj2 (Z.ltb_ge _ _)) by lia. rewrite post_call, post_rd_world. unfold post at 1.
  change (set_e_world _ _) with (rd_env qs (polled w) q h r). rewrite post_sbind. eapply post_rd_task; [done|].
  rewrite post_sbind. eapply post_rd_get. rewrite post_sbind. unfold task_opcode. rewrite Hv. cbn [qr_opcode rd_poll_service].
  rewrite post_normal, post_sbind. change (0 =? EAGAIN) with false. change (0 =? 0) with true. cbv iota. rewrite post_sbind.
  eapply post_rd_get. unfold task_opcode. rewrite Hv. cbn [qr_opcode]. change (opcode_eqb DMTR_OPC_CONNECT DMTR_OPC_CONNECT) with true. cbv iota. rewrite post_normal, post_sbind. eapply post_rd_get.
  by rewrite post_normal, post_fret.
Qed.

(** A queue after [socket]. *)
Record rd_fresh (qt : Z) q : Prop := {
  rf_id : my_rdma_id q = id;
  rf_listening : rq_listening_flag q = false;
  rf_qd : 0 < my_qd (rq_base q);
  rf_token : qt <> 0;
  rf_free : has_task qt (rq_base q) = false
}.

Lemma established_fields qt q :
  my_rdma_id (established qt q) = my_rdma_id q /\ my_qd (rq_base (established qt q)) = my_qd (rq_base q) /\ my_cq (established qt q) = cq /\
  rq_listening_flag (established qt q) = rq_listening_flag q /\ their_send_window (established qt q) = Some their /\
  my_send_window_unused (established qt q) = RECV_WINDOW /\ my_recv_window (established qt q) = u64 (my_recv_window q + RECV_WINDOW) /\
  rq_push_thread (established qt q) = Some idle_push /\ rq_pop_thread (established qt q) = Some idle_pop.
Proof. done. Qed.
Lemma established_task qt q : rd_task (task_slot qt) (established qt q) = set_my_error 0 (rd_task (task_slot qt) q).
Proof. unfold established, set_rd_slot, rd_task at 1. cbn [rq_base set_rq_base]. by rewrite slot_task_set_eq. Qed.
Lemma connecting_task qt q : rd_task (task_slot qt) (connecting qt q) = started DMTR_OPC_CONNECT qt None None (rq_base q).
Proof. unfold connecting, set_rd_slot, rd_task at 1. cbn [rq_base set_rq_base]. by rewrite slot_task_set_eq. Qed.
Lemma established_others qt qt2 q :
  task_slot qt2 <> task_slot qt -> has_task qt2 (rq_base (established qt (connecting qt q))) = has_task qt2 (rq_base q).
Proof.
  intros Hne. rewrite !has_task_slot. unfold established, set_rd_slot. cbn [rq_base set_rq_base]. rewrite slot_task_set_ne by done.
  unfold with_io, with_windows, more_buffers, connecting, set_rd_slot. cbn [rq_base set_rq_base set_rq_pop_thread set_rq_push_thread set_my_recv_window set_their_send_window set_my_send_window_unused set_my_cq].
  by rewrite slot_task_set_ne.
Qed.

Lemma established_open qt qt2 q :
  rd_fresh qt q -> qt2 <> 0 -> task_slot qt2 <> task_slot qt -> has_task qt2 (rq_base q) = false ->
  rd_open id qt2 their (established qt (connecting qt q)).
Proof.
  intros [Hid Hl Hqd _ _] H0 Hne Hfree. rewrite <- (established_others qt qt2 q Hne) in Hfree.
  destruct (established_fields qt (connecting qt q)) as (F1 & F2 & F3 & F4 & F5 & F6 & F7 & F8 & F9).
  split; [exact (eq_trans F1 Hid)|exact (eq_trans F4 Hl)|exact F5|rewrite F2; exact Hqd|exact H0|exact Hfree|exact F8|exact F9].
Qed.
Lemma open_thread th qt2 q : rd_open id qt2 their q -> rd_open id qt2 their (set_my_connect_thread th q).
Proof. intros []. by split. Qed.
(** [poll] of the [connect] that is done. *)
Lemma poll_connected th qs w q h r qt qr (b : io_queue) :
  my_rdma_id q = id -> my_qd (rq_base q) = my_qd b -> 0 < my_qd b -> qt <> 0 -> rw_poll_count w < 10000 ->
  rd_task (task_slot qt) q = set_my_error 0 (started DMTR_OPC_CONNECT qt None None b) ->
  rd_poll fuel self qr qt (rd_env qs w (set_my_connect_thread th q) h r) =
    Ok (0, mk_qresult DMTR_OPC_CONNECT (my_qd b) qt (qr_value (my_qr (get_task qt b)))) (rd_env qs (polled w) (set_my_connect_thread th q) h r).
Proof.
  intros Hid Eqd Hqd Hqt Hn Ht.
  rewrite (rd_poll_connect qs w _ h r qt qr (qr_value (my_qr (get_task qt b))) (set_my_error 0 (started DMTR_OPC_CONNECT qt None None b)));
    try done; change (rq_base (set_my_connect_thread th q)) with (rq_base q); [|by rewrite Eqd| |by rewrite Eqd].
  { change (my_rdma_id q <> 0). rewrite Hid. apply cc_id. }
  rewrite has_task_slot. unfold rd_task in Ht. by rewrite Ht.
Qed.

(** C24: connecting.  When the connection manager answers each request of a
    [connect] within the polls the code makes, whatever other events come in
    between, [connect] answers 0 with the connection established: the other
    side's window is known, a batch of receive buffers is posted, the window in
    use is the batch that the other side posts, the workers are idle, so that
    operations can start; [poll] reports the [connect] as done. *)
Theorem rdma_connect_establishes qt saddr size q qs w h r rt :
  rd_fresh qt q -> our_pd w = pd -> routes chan id live rt -> heap_ok h -> ok0 r -> (4 <= fuel)%nat ->
  wp (rd_connect fuel self qt saddr size) (fun ret e' => ret = 0 /\ exists q' rt' h' r' wrs,
    e' = rd_env qs (at_router rt' w) q' h' r' /\ routes chan id live rt' /\ ok r' /\ extends h h' /\
    buffers h' (Z.to_nat RECV_WINDOW) wrs /\ view r' = view_recv wrs (view r) /\
    my_cq q' = cq /\ my_recv_window q' = u64 (my_recv_window q + RECV_WINDOW) /\ my_send_window_unused q' = RECV_WINDOW /\
    (forall qt2, qt2 <> 0 -> task_slot qt2 <> task_slot qt -> has_task qt2 (rq_base q) = false -> rd_open id qt2 their q') /\
    forall w2 h2 r2 qr, rw_poll_count w2 < 10000 ->
      rd_poll fuel self qr qt (rd_env qs w2 q' h2 r2) =
        Ok (0, mk_qresult DMTR_OPC_CONNECT (my_qd (rq_base q)) qt (qr_value (my_qr (get_task qt (rq_base q))))) (rd_env qs (polled w2) q' h2 r2))
    (rd_env qs (at_router rt w) q h r).
Proof.
  intros Hfresh Hpd Hr Hk Hok Hf. pose proof Hfresh as [Hid Hl Hqd Hqt Hfree]. unfold rd_connect, DMTR_NONZERO. rewrite post_body, post_sbind. eapply post_rd_get.
  rewrite post_sbind, post_DMTR_TRUE, Hid, (proj2 (Z.eqb_neq _ _) cc_id). cbn [negb]. rewrite post_sbind. apply post_timeout.
  rewrite post_sbind, post_DMTR_OK. eapply post_cm_result; [apply (cc_addr _ _ Hc)|exact Hok|]. intros r1 Hdue1 Hv1.
  change (0 =? 0) with true. cbv iota. rewrite post_sbind, post_DMTR_OK. eapply post_rd_on_base.
  { rewrite new_task_cases by done. by rewrite Hfree, (proj2 (Z.eqb_neq _ _) Hqt). }
  change (0 =? 0) with true. cbv iota. change (set_rq_base _ q) with (connecting qt q). rewrite post_sbind, post_call. unfold user_thread_ctor.
  assert (Ht : has_task qt (rq_base (connecting qt q)) = true).
  { rewrite has_task_slot. change (slot_task _ _) with (rd_task (task_slot qt) (connecting qt q)). by rewrite connecting_task. }
  eapply post_mono with (Q := worker_ends qt w qs (connecting qt q) h r).
  - destruct fuel as [|f] eqn:Ef; [lia|]. rewrite post_run_step, <- Ef. cbn [rd_connect_step]. rewrite post_in_thread, post_sbind.
    eapply post_rd_task; [exact Ht|]. rewrite post_normal. cbn [snd fst]. apply run_connect_addr; try done; lia.
  - cbv beta. intros th e' (-> & rt' & h' & r' & wrs & -> & Hr' & Hok' & He & Hb & Hv). rewrite post_sbind. eapply post_rd_modify. rewrite post_normal.
    split; [done|]. eexists _, rt', h', r', wrs. split; [reflexivity|]. split; [exact Hr'|]. split; [exact Hok'|]. split; [exact He|].
    split; [exact Hb|]. split; [exact Hv|]. destruct (established_fields qt (connecting qt q)) as (F1 & F2 & F3 & _ & _ & F6 & F7 & _ & _).
    pose proof (established_task qt (connecting qt q)) as Ht1. rewrite connecting_task in Ht1.
    pose proof (fun qt2 => established_open qt qt2 q Hfresh) as Hopen.
    change (my_recv_window (connecting qt q)) with (my_recv_window q) in F7. change (my_rdma_id (connecting qt q)) with (my_rdma_id q) in F1.
    change (my_qd (rq_base (connecting qt q))) with (my_qd (rq_base q)) in F2.
    generalize dependent (established qt (connecting qt q)). intros q1 F1 F2 F3 F6 F7 Ht1 Hopen.
    split; [exact F3|]. split; [exact F7|]. split; [exact F6|]. split.
    + intros qt2 H0 Hne Hfree2. apply open_thread. by apply Hopen.
    + intros w2 h2 r2 qr Hn2. apply poll_connected; try done. congruence.
Qed.
End connect.

(** ** A [connect] whose answers come late

    No [poll] resumes the worker, so that it is lost when it suspends. *)
Section late.
Context {R : Type} `{CM : RdmaCm R} `{RV : RdmaVerbs R} (fuel : nat).
Abbreviation W := (rdworld R).
Abbreviation env := (qenv rdma_object W).
Context (self : Z).
Implicit Types (e : env) (q : rdma_queue) (w : W).

(** The queue at [self] stays, with its tasks and its identifier. *)
Definition same_tasks (e e' : env) : Prop :=
  forall q, e_queues e !! self = Some (RdObj q) -> exists q', e_queues e' !! self = Some (RdObj q') /\ rq_base q' = rq_base q /\ my_rdma_id q' = my_rdma_id q.
#[local] Instance same_tasks_preorder : PreOrder same_tasks.
Proof.
  split; [by intros e q Hq; exists q|]. intros e1 e2 e3 H12 H23 q Hq. destruct (H12 q Hq) as (q2 & Hq2 & E2 & I2).
  destruct (H23 q2 Hq2) as (q3 & Hq3 & E3 & I3). exists q3. split; [done|split; congruence].
Qed.
Lemma tasks_rd_get : keeps same_tasks (rd_get self).
Proof. intros e. unfold post, rd_get. by destruct (e_queues e !! self) as [[|q]|]. Qed.
Lemma tasks_rd_world {A} (m : fn W A) : keeps same_tasks (rd_world m).
Proof. intros e. unfold post, rd_world, zoom. destruct (m _); try done. intros q Hq. by exists q. Qed.
Lemma tasks_rd_modify f : (forall q, rq_base (f q) = rq_base q /\ my_rdma_id (f q) = my_rdma_id q) -> keeps same_tasks (rd_modify self f).
Proof.
  intros Hf. apply keeps_call; [apply _|]. intros e. unfold post, on_object. destruct (e_queues e !! self) as [[|q]|] eqn:Eq; try done.
  cbn. intros q0 Hq0. rewrite Hq0 in Eq. injection Eq as ->. exists (f q). split; [apply lookup_insert_eq|done].
Qed.
Lemma tasks_poll_events : keeps same_tasks (rd_poll_events self).
Proof.
  unfold rd_poll_events, rd_service_event_channel, rd_wstmt.
  repeat first [keeps_step | apply tasks_rd_get | apply tasks_rd_world | apply tasks_rd_modify; done
    | lazymatch goal with |- keeps _ (if ?x then _ else _) => destruct x end
    | lazymatch goal with |- keeps _ (match ?x with _ => _ end) => destruct x end].
Qed.
Lemma returns_poll_events : returns (rd_poll_events self) (fun _ => True).
Proof.
  unfold rd_poll_events. intros e. rewrite post_sbind, post_get. destruct (_ >? _).
  - rewrite post_sbind, post_call. unfold post at 1. destruct (rd_service_event_channel self e) as [ret e1| | |]; try done.
    rewrite post_sbind, post_call. unfold post at 1. destruct (rd_world _ e1) as [[] e2| | |]; try done.
    destruct (ret =? 0) eqn:E0; [done|]. destruct (ret =? EAGAIN); [done|]. cbn [orb].
    destruct (ret =? ECONNABORTED) eqn:E; zbool; [by rewrite post_return, E|]. by rewrite post_DMTR_FAIL, (proj2 (Z.eqb_neq _ _) E0).
  - rewrite post_call. unfold post. by destruct (rd_world _ e) as [[] e2| | |].
Qed.

(** The task of a [connect] that waits. *)
Definition connect_waits (qt : Z) (tk : task) e : Prop :=
  exists q, e_queues e !! self = Some (RdObj q) /\ rd_task (task_slot qt) q = tk /\ my_rdma_id q <> 0 /\ my_qd (rq_base q) = qr_qd (my_qr tk).
Definition waiting_connect (tk : task) : Prop :=
  t_valid tk = true /\ task_opcode tk = DMTR_OPC_CONNECT /\ my_error tk = EAGAIN.

Lemma rd_poll_waits qr qt tk e :
  waiting_connect tk -> connect_waits qt tk e ->
  wlp (rd_poll fuel self qr qt) (fun '(ret, _) e' => ret <> 0 /\ connect_waits qt tk e') e.
Proof.
  intros (Hv & Hop & He) (q & Hq & Ht & Hid & Hqd). unfold rd_poll. rewrite post_fbind. unfold post at 1, rd_get. rewrite Hq.
  destruct (initialize_result (my_qd (rq_base q)) qt qr) as [err qr'| | |] eqn:Ei; try done. rewrite post_fbind.
  assert (H : forall (r : (Z * dmtr_qresult) + Z) e', (match r with inl (ret, _) => ret | inr ret => ret end <> 0 /\ connect_waits qt tk e') ->
    wlp (match r with inl a => fret a | inr e => fret (e, qr') end) (fun '(ret, _) e' => ret <> 0 /\ connect_waits qt tk e') e').
  { intros [[ret res]|ret] e' Hr; by rewrite post_fret. }
  rewrite post_sbind, post_DMTR_OK, post_fret. destruct (err =? 0) eqn:E0; zbool; [|by apply (H (inr err)); split; [|exists q]].
  rewrite post_sbind, post_DMTR_TRUE. destruct (rd_good q); [|by apply (H (inr EINVAL)); split; [|exists q]]. rewrite post_sbind.
  eapply post_mono; [apply post_and; [apply tasks_poll_events|apply returns_poll_events]|]. cbv beta. intros r e1 [Hs Hr].
  destruct (Hs q Hq) as (q1 & Hq1 & Eb & Ei1). rewrite <- Ei1 in Hid. rewrite <- Eb in Hqd. assert (Ht1 : rd_task (task_slot qt) q1 = tk) by (unfold rd_task; by rewrite Eb).
  destruct r as [u|err1]; [|by apply (H (inr err1)); split; [|exists q1]].
  rewrite post_sbind, post_DMTR_OK_out. unfold post at 1, rd_on_base, on_object. rewrite Hq1. cbn [as_rd]. unfold zoom.
  rewrite get_task_ptr_valid by (unfold rd_task in Ht1; by rewrite Ht1). change (fst (0, task_slot qt) =? 0) with true. cbv iota. cbn [snd].
  rewrite set_rq_base_same. rewrite insert_id by done.
  assert (Hg : forall A (k : rdma_queue -> stmt env A) Q, wlp (k q1) Q e1 -> wlp (sbind (rd_get self) k) Q e1).
  { intros A k Q Hk. rewrite post_sbind. unfold post at 1, rd_get. by rewrite Hq1. }
  replace (set_e_queues (e_queues e1) e1) with e1 by (by destruct e1).
  apply Hg. rewrite post_sbind, Ht1, Hop. cbn [rd_poll_service]. rewrite post_normal, post_sbind.
  change (0 =? EAGAIN) with false. change (0 =? 0) with true. cbv iota. apply Hg. rewrite Ht1, Hop.
  change (opcode_eqb DMTR_OPC_CONNECT DMTR_OPC_CONNECT) with true. cbv iota. rewrite post_normal. apply Hg. rewrite post_normal.
  rewrite Ht1. apply (H (inl _)). unfold task_poll, task_done. rewrite He. change (negb (EAGAIN =? EAGAIN)) with false. cbn [negb].
  split; [done|by exists q1].
Qed.

(** [n] times in a row the channel has nothing. *)
Inductive quiet (chan : Z) : nat -> R -> R -> Prop :=
| qu_done r : quiet chan 0 r r
| qu_none n r ev r1 r' : cm_get_event chan r = (-1, EAGAIN, ev, r1) -> quiet chan n r1 r' -> quiet chan (S n) r r'.

Lemma expect_poll_quiet id chan live n r r' rt :
  quiet chan n r r' -> routes chan id live rt -> Z.of_nat n = 1000002 -> expect_poll id (mk_renv rt r) = Ok (EAGAIN, None) (mk_renv rt r').
Proof.
  intros Hq Hr Hn. unfold expect_poll. rewrite ploop_nloop.
  assert (H : forall m k, (n <= m)%nat -> k + Z.of_nat n = 1000002 -> k < 1000002 ->
    nloop m (expect_step id) (k, mk_renv rt r) = inr (Ok (EAGAIN, None) (mk_renv rt r'))).
  { clear Hn. induction Hq as [r|n r ev r1 r' Hg Hq IH]; intros m k Hm Hk Hlt; [lia|]. destruct m as [|m]; [lia|]. cbn [nloop]. unfold expect_step at 1.
    rewrite (poll_wait chan id live rt r ev r1) by done. change (EAGAIN =? EAGAIN) with true. cbv iota.
    destruct (k <=? 1000000) eqn:E; zbool; [apply IH; lia|]. assert (n = 0%nat) as -> by lia. by inversion Hq. }
  rewrite H; [done| |lia|lia]. unfold expect_bound. lia.
Qed.

(** One [poll] of the token, whatever it answers. *)
Definition polls (qt : Z) (e e' : env) : Prop := exists qr a, rd_poll fuel self qr qt e = Ok a e'.
Lemma polls_wait qt tk e e' : waiting_connect tk -> connect_waits qt tk e -> rtc (polls qt) e e' -> connect_waits qt tk e'.
Proof.
  intros Htk He Hp. induction Hp as [|e1 e2 e3 (qr & [ret res] & Hp) _ IH]; [done|]. apply IH.
  pose proof (rd_poll_waits qr qt tk e1 Htk He) as H. unfold post in H. rewrite Hp in H. apply H.
Qed.

(** C27: a [connect] that is not answered at once is lost.  When the address is
    not resolved within the million polls that the worker makes while
    [connect] runs, [connect] answers 0 all the same and its worker is
    suspended for good: no [poll] of the token, however many there are and
    whatever the connection manager does in the meantime, answers 0 again;
    as long as nothing fails they answer [EAGAIN]. *)
Theorem rdma_connect_late id chan live qt saddr size q qs w h rt r errno r1 n r2 :
  id <> 0 -> rd_fresh id qt q -> our_rdmacm_router w = Some rt -> routes chan id live rt ->
  v_resolve_addr id saddr connect_timeout r = (0, errno, r1) -> quiet chan n r1 r2 -> Z.of_nat n = 1000002 -> (2 <= fuel)%nat ->
  wp (rd_connect fuel self qt saddr size) (fun ret e' => ret = 0 /\ forall e2, rtc (polls qt) e' e2 ->
      (forall qr, wlp (rd_poll fuel self qr qt) (fun '(ret, _) _ => ret <> 0) e2) /\
      (forall qr, rw_poll_count (e_world e2) < 10000 -> exists res e3, rd_poll fuel self qr qt e2 = Ok (EAGAIN, res) e3))
    (rd_env self qs w q h r).
Proof.
  intros Hid0 [Hid Hl Hqd Hqt Hfree] Hrt Hr Hres Hq Hn Hf. set (tk := started DMTR_OPC_CONNECT qt None None (rq_base q)).
  assert (Hw : waiting_connect tk) by (by split).
  assert (Hend : forall e', connect_waits qt tk e' -> forall e2, rtc (polls qt) e' e2 ->
      (forall qr, wlp (rd_poll fuel self qr qt) (fun '(ret, _) _ => ret <> 0) e2) /\
      (forall qr, rw_poll_count (e_world e2) < 10000 -> exists res e3, rd_poll fuel self qr qt e2 = Ok (EAGAIN, res) e3)).
  { intros e' He e2 Hp. pose proof (polls_wait qt tk e' e2 Hw He Hp) as H2. split; intros qr.
    - eapply post_mono; [by apply (rd_poll_waits qr qt tk)|]. cbv beta. by intros [ret res] e3 [Hret _].
    - intros Hc. destruct H2 as (q2 & Hq2 & Ht2 & Hi2 & Hd2). destruct e2 as [qs2 w2]. cbn [e_queues e_world] in *.
      rewrite (rd_env_same self qs2 w2 q2 Hq2). eexists _, _.
      rewrite (rd_poll_connect fuel self qs2 w2 q2 _ _ qt qr (qr_value (my_qr (get_task qt (rq_base q)))) tk); try done; [by rewrite Hd2| |by rewrite Hd2].
      rewrite has_task_slot. unfold rd_task in Ht2. by rewrite Ht2. }
  unfold rd_connect, DMTR_NONZERO. rewrite post_body, post_sbind. eapply post_rd_get.
  rewrite post_sbind, post_DMTR_TRUE, Hid, (proj2 (Z.eqb_neq _ _) Hid0). cbn [negb]. rewrite post_sbind. apply post_timeout.
  rewrite post_sbind, post_DMTR_OK, post_rd_world. unfold rdma_resolve_addr, cm_result_of, cm_result, DMTR_NONZERO.
  rewrite post_body, post_sbind, post_DMTR_TRUE, (proj2 (Z.eqb_neq _ _) Hid0). cbn [negb]. rewrite post_sbind, post_call, post_body, post_sbind, post_call.
  unfold post at 1, rd_call. cbn [rw_lib rw_heap set_rw_mem e_world rd_env]. rewrite Hres. change (0 =? -1) with false. change (0 =? 0) with true.
  cbv iota. rewrite 2!post_normal. change (0 =? 0) with true. cbv iota. rewrite post_sbind, post_DMTR_OK. change (set_e_world _ _) with (rd_env self qs w q h r1). eapply post_rd_on_base.
  { rewrite new_task_cases by done. by rewrite Hfree, (proj2 (Z.eqb_neq _ _) Hqt). }
  change (0 =? 0) with true. cbv iota. change (set_rq_base _ q) with (connecting qt q). rewrite post_sbind, post_call. unfold user_thread_ctor.
  pose proof (connecting_task qt q) as Ht. assert (exists f, fuel = S (S f)) as [f Ef] by (exists (fuel - 2)%nat; lia).
  replace (run (rd_connect_step fuel self) fuel) with (run (rd_connect_step fuel self) (S (S f))) by (by rewrite <- Ef). rewrite post_run_step. cbn [rd_connect_step].
  rewrite post_in_thread, post_sbind. eapply post_rd_task; [rewrite has_task_slot; unfold rd_task in Ht; by rewrite Ht|].
  rewrite post_normal. cbn [snd fst]. rewrite post_run_step. cbn [rd_connect_step]. rewrite post_in_thread. unfold connect_returns.
  rewrite post_fbind, post_sbind. eapply post_rd_get. change (my_rdma_id (connecting qt q)) with (my_rdma_id q). rewrite Hid, post_sbind, post_call, post_rd_world.
  unfold expect_rdma_cm_event, DMTR_NONZERO. rewrite post_body_out, post_sbind, post_DMTR_TRUE, (proj2 (Z.eqb_neq _ _) Hid0). cbn [negb].
  rewrite post_sbind. unfold need_router, DMTR_NOTNULL. rewrite post_sbind, post_get, post_DMTR_TRUE.
  cbn [our_rdmacm_router set_rw_mem e_world rd_env]. rewrite Hrt, post_sbind, post_call. unfold rd_router. rewrite post_zoom_opt.
  cbn [our_rdmacm_router set_rw_mem rw_lib]. rewrite Hrt. cbn [mbind option_bind].
  eapply post_eq; [by eapply expect_poll_quiet|]. rewrite post_sbind. change (EAGAIN =? EAGAIN) with true. cbv iota. rewrite post_return.
  change (EAGAIN =? EADDRNOTAVAIL) with false. change (EAGAIN =? EAGAIN) with true. cbv iota. rewrite 2!post_normal. cbn [snd fst]. rewrite post_sbind.
  change (set_e_world _ _) with (rd_env self qs (at_router rt w) (connecting qt q) h r2). eapply post_rd_modify. rewrite post_normal.
  split; [done|]. apply Hend. eexists. split; [apply lookup_insert_eq|]. split; [exact Ht|]. split; [by rewrite <- Hid in Hid0|done].
Qed.
End late.

(** ** A concrete connection manager

    Identifier 1 on channel 1, with identifier 9 of another queue; the manager
    answers at once, or not at all. *)
Record demo_manager := mk_demo_manager { dm_view : card_view; dm_events : list cm_event; dm_answers : bool }.
Definition dm_with (v : card_view) (r : demo_manager) : demo_manager := mk_demo_manager v (dm_events r) (dm_answers r).
Definition dm_event (ty : Z) : cm_event := mk_cm_event 100 ty 1 0.
Definition dm_answer (ty : Z) (r : demo_manager) : demo_manager :=
  if dm_answers r then mk_demo_manager (dm_view r) (dm_events r ++ [dm_event ty]) true else r.
Definition demo_addr : sockaddr_in := mk_sockaddr_in AF_INET 7 1 0.
#[export] Instance demo_manager_cm : RdmaCm demo_manager := {|
  cm_create_event_channel r := (1, 0, r);
  cm_channel_fd _ _ := 7;
  cm_destroy_event_channel _ r := r;
  cm_create_id _ _ r := (0, 0, 1, r);
  cm_id_channel _ _ := 1;
  cm_destroy_id _ r := (0, 0, r);
  cm_get_event _ r := match dm_events r with
                      | [] => (-1, EAGAIN, mk_cm_event 0 0 0 0, r)
                      | ev :: evs => (0, 0, ev, mk_demo_manager (dm_view r) evs (dm_answers r))
                      end;
  cm_ack_event _ r := (0, 0, r);
  cm_fcntl _ _ _ r := (0, 0, r)
|}.
#[export] Instance demo_manager_verbs : RdmaVerbs demo_manager := {|
  id_verbs _ _ := 2;
  id_qp _ _ := 7;
  v_set_id_qp _ _ r := r;
  v_set_id_pd _ _ r := r;
  v_get_local_addr _ _ := [];
  v_get_peer_addr _ _ := Some demo_addr;
  ev_private_data _ _ := Some demo_peer;
  pd_context _ _ := 2;
  mr_lkey _ mr := mr;
  mr_rkey _ mr := mr;
  mr_context _ _ := 2;
  mr_pd _ _ := 5;
  v_bind_addr _ _ r := (0, 0, r);
  v_listen _ _ r := (0, 0, r);
  v_disconnect _ r := (0, 0, r);
  v_destroy_qp _ r := r;
  v_resolve_addr _ _ _ r := (0, 0, dm_answer RDMA_CM_EVENT_ADDR_RESOLVED r);
  v_resolve_route _ _ r := (0, 0, dm_answer RDMA_CM_EVENT_ROUTE_RESOLVED r);
  v_connect _ _ r := (0, 0, dm_answer RDMA_CM_EVENT_ESTABLISHED r);
  v_accept _ _ r := (0, 0, dm_answer RDMA_CM_EVENT_ESTABLISHED r);
  v_create_qp _ _ _ r := (0, 0, r);
  v_alloc_pd _ r := (5, r);
  v_dealloc_pd _ r := (0, 0, r);
  v_create_cq _ _ r := (6, r);
  v_destroy_cq _ r := r;
  v_post_send _ wr h r := (0, dm_with (view_send (wr, wr_data h wr) (dm_view r)) r);
  v_post_recv _ wrs r := (0, dm_with (view_recv wrs (dm_view r)) r);
  v_poll_cq _ _ h r := (0, [], h, r);
  v_get_rdma_mr _ _ r := (8, r);
  window_addr _ _ := 64;
  v_reg_window _ _ r := (64, r);
  window_read _ r := (vw_window (dm_view r), r);
  window_write _ n r := dm_with (view_window n (dm_view r)) r
|}.

(** Between requests: at most one event, for identifier 9. *)
Definition dm_ok (r : demo_manager) : Prop :=
  dm_answers r = true /\ Forall (for_others 1 {[9]}) (dm_events r) /\ (length (dm_events r) <= 1)%nat.
Definition dm_due (ty : Z) (r : demo_manager) : Prop :=
  exists r0, dm_ok r0 /\ r = dm_answer ty r0.

Lemma dm_event_comes (T : demo_manager -> cm_event -> Prop) ty :
  ty <> RDMA_CM_EVENT_CONNECT_REQUEST -> (forall r, T r (dm_event ty)) -> answered 1 1 {[9]} dm_view dm_due dm_ok ty T.
Proof.
  intros Hty HT r (r0 & (Ha & Ho & Hl) & ->). unfold dm_answer. rewrite Ha.
  exists (dm_events r0), (length (dm_events r0)), (dm_event ty), (mk_demo_manager (dm_view r0) [] true).
  assert (Hi : important_id (dm_event ty) = 1) by (unfold important_id; cbn [dm_event ev_type]; by rewrite (proj2 (Z.eqb_neq _ _) Hty)).
  split; [|split; [exact Ho|]; split; [lia|]; split; [done|]; split; [exact Hi|]; split; [by repeat split; constructor|by split]].
  generalize (dm_events r0). intros os. induction os as [|o os IH]; [by eapply an_now|]. by eapply an_other.
Qed.
Lemma demo_manages : manages 3 1 7 5 6 dm_ok dm_ok dm_view.
Proof.
  split; try (intros ? r Hr; eexists _, _; split; [reflexivity|by split]).
  - by split.
  - done.
  - split; [done|]. intros c n r Hr. by exists r.
  - intros r Hr. by eexists _, r.
  - by intros P p r [-> | ->].
Qed.
Lemma dm_answer_due ty r : dm_ok r -> dm_due ty (dm_answer ty r) /\ dm_view (dm_answer ty r) = dm_view r.
Proof. intros Hr. split; [by exists r|]. unfold dm_answer. by destruct (dm_answers r). Qed.
Lemma demo_connects : connects 1 1 {[9]} dm_ok dm_ok dm_view demo_peer dm_due.
Proof.
  split; try (by apply dm_event_comes); intros; intros r Hr; eexists _, _; (split; [reflexivity|by apply dm_answer_due]).
Qed.

Definition demo_new : rdma_queue := set_my_rdma_id 1 (rdma_queue_ctor 3).
Definition demo_rt : rdmacm_router := mk_router {[1 := []; 9 := []]} 1.
Definition demo_manager_start (b : bool) : demo_manager :=
  mk_demo_manager (mk_view [] [] 0) (if b then [mk_cm_event 101 RDMA_CM_EVENT_DISCONNECTED 9 0] else []) b.
Definition demo_mworld (b : bool) : rdworld demo_manager := mk_rdworld (demo_memory []) 5 (Some demo_rt) 0 (demo_manager_start b).
Lemma demo_routes : routes 1 1 {[9]} demo_rt.
Proof. split; [done|by vm_compute|]. intros x ->%elem_of_singleton. by eexists. Qed.
Lemma demo_fresh : rd_fresh 1 demo_rtoken demo_new.
Proof. by split. Qed.

(** The event of identifier 9 comes first. *)
Lemma rdma_connect_establishes_witness :
  wp (rd_connect 4 3 demo_rtoken None 16) (fun ret e' => ret = 0 /\ exists q' w' h' r' wrs, e' = rd_env 3 ∅ w' q' h' r' /\
    vw_recv (dm_view r') = [wrs] /\ length wrs = Z.to_nat RECV_WINDOW /\ my_send_window_unused q' = RECV_WINDOW /\ my_recv_window q' = RECV_WINDOW /\
    forall qr, exists res, rd_poll 4 3 qr demo_rtoken (rd_env 3 ∅ (demo_mworld true) q' h' r') = Ok (0, res) (rd_env 3 ∅ (polled (demo_mworld true)) q' h' r'))
    (rd_env 3 ∅ (demo_mworld true) demo_new (demo_memory []) (demo_manager_start true)).
Proof.
  eapply post_mono.
  - apply (rdma_connect_establishes 4 3 1 7 5 6 1 {[9]} dm_ok dm_ok dm_view demo_manages dm_due demo_peer demo_connects demo_rtoken None 16 demo_new ∅
      (demo_mworld true) (demo_memory []) (demo_manager_start true) demo_rt demo_fresh eq_refl demo_routes).
    + apply demo_memory_ok. cbn. lia.
    + split; [done|]. split; [|cbn; lia]. constructor; [|done]. split; [done|by apply elem_of_singleton].
    + lia.
  - cbv beta. intros ret e' (-> & q' & rt' & h' & r' & wrs & -> & _ & _ & _ & Hb & Hv & _ & Hrw & Hsw & _ & Hpoll).
    split; [done|]. exists q', (at_router rt' (demo_mworld true)), h', r', wrs. split; [done|]. rewrite Hv. split; [done|]. split; [apply Hb|].
    split; [exact Hsw|]. split; [rewrite Hrw; by vm_compute|]. intros qr. eexists. by apply Hpoll.
Defined.

Lemma demo_quiet n r : dm_events r = [] -> quiet 1 n r r.
Proof. intros E. induction n as [|n IH]; [constructor|]. econstructor; [|exact IH]. cbn. by rewrite E. Qed.
(** A manager that does not answer. *)
Lemma rdma_connect_late_witness :
  wp (rd_connect 4 3 demo_rtoken None 16) (fun ret e' => ret = 0 /\ forall e2, rtc (polls 4 3 demo_rtoken) e' e2 ->
      forall qr, wlp (rd_poll 4 3 qr demo_rtoken) (fun '(ret, _) _ => ret <> 0) e2)
    (rd_env 3 ∅ (demo_mworld false) demo_new (demo_memory []) (demo_manager_start false)).
Proof.
  eapply post_mono.
  - apply (rdma_connect_late 4 3 1 1 {[9]} demo_rtoken None 16 demo_new ∅ (demo_mworld false) (demo_memory []) demo_rt (demo_manager_start false)
      0 (demo_manager_start false) (Z.to_nat 1000002) (demo_manager_start false));
      [done|apply demo_fresh|done|apply demo_routes|done|by apply demo_quiet|by rewrite Z2Nat.id|lia].
  - cbv beta. intros ret e' [-> H]. split; [done|]. intros e2 Hp. by apply H.
Defined.
