(* ===== verification/RdmaAccept.v ===== *)
(** * Accepting RDMA connections

    [accept] of [rdma/rdma_queue.cc]: from a connection request that waits at a
    listening queue to a connection that can send and receive. *)
From S2P Require Import Prelude Cmd Types Cast Memory Contents IoQueue UserThread MemoryQueue Queue PosixOs PosixQueue PosixConn Router RdmaOs RdmaQueue RdmaWire RdmaIo RdmaConn.
#[local] Opaque RECV_BUF_SIZE RECV_WINDOW.
Open Scope cmd_scope.

Section accept.
Context {R : Type} `{CM : RdmaCm R} `{RV : RdmaVerbs R} (fuel : nat).
Abbreviation W := (rdworld R).
Abbreviation env := (qenv rdma_object W).
Context (lst self id qp pd cq chan : Z) (live : gset Z) (ok0 ok : R -> Prop) (view : R -> card_view).
Context (Hm : manages self id qp pd cq ok0 ok view) (due : Z -> R -> Prop).
Implicit Types (e : env) (q nq : rdma_queue) (w : W) (qs : gmap Z rdma_object) (h : heap) (r : R) (rt : rdmacm_router).

(** The request of a peer with the window [their], and what the connection
    manager does when it is accepted. *)
Record rd_accepts (request : cm_event) (their : connection_data) (peer : sockaddr_in) : Prop := {
  rc_request : ev_id request = id;
  rc_channel : forall r, ok0 r -> cm_id_channel r id = chan;
  rc_window : forall r, ok0 r -> ok0 (window_write self 0 r) /\ view (window_write self 0 r) = view_window 0 (view r);
  rc_data : forall r, ok r -> ev_private_data r (ev_ptr request) = Some their;
  rc_accept : forall p, does view ok (due RDMA_CM_EVENT_ESTABLISHED) (v_accept id p);
  rc_established : answered id chan live view due ok RDMA_CM_EVENT_ESTABLISHED (fun _ _ => True);
  rc_peer : forall r, ok r -> v_get_peer_addr r id = Some peer
}.
Context (request : cm_event) (their : connection_data) (peer : sockaddr_in) (Ha : rd_accepts request their peer).
Context (Hne : lst <> self).

(** The listener [q] and the new queue [nq]. *)
Abbreviation both qs w q nq h r := (rd_env self (<[lst := RdObj q]> qs) w nq h r).

Lemma post_lst_get bad qs w q nq h r (Q : rdma_queue + Z -> env -> Prop) :
  Q (inl q) (both qs w q nq h r) -> post bad (rd_get lst) Q (both qs w q nq h r).
Proof. intros HQ. unfold post, rd_get. cbn [e_queues rd_env]. by rewrite lookup_insert_ne, lookup_insert_eq. Qed.
Lemma post_lst_object {A} bad qs w q nq h r (m : fn rdma_queue A) a q' (Q : A -> env -> Prop) :
  m q = Ok a q' -> Q a (both qs w q' nq h r) -> post bad (on_object as_rd RdObj lst m) Q (both qs w q nq h r).
Proof.
  intros Hq HQ. unfold on_object, zoom, post, rd_env. cbn [e_queues]. rewrite lookup_insert_ne, lookup_insert_eq by done. cbn. rewrite Hq.
  unfold set_e_queues. cbn [e_queues e_world]. by rewrite (insert_insert_ne _ lst self), insert_insert_eq.
Qed.
Lemma post_lst_modify bad qs w q nq h r f (Q : unit + Z -> env -> Prop) :
  Q (inl tt) (both qs w (f q) nq h r) -> post bad (rd_modify lst f) Q (both qs w q nq h r).
Proof. intros HQ. unfold rd_modify. rewrite post_call. by eapply post_lst_object. Qed.
Lemma post_lst_base {A} bad qs w q nq h r (m : fn io_queue A) a b (Q : A -> env -> Prop) :
  m (rq_base q) = Ok a b -> Q a (both qs w (set_rq_base b q) nq h r) -> post bad (rd_on_base lst m) Q (both qs w q nq h r).
Proof. intros Hb HQ. unfold rd_on_base. eapply post_lst_object; [unfold zoom; by rewrite Hb|done]. Qed.

(** Registering the new identifier. *)
Definition with_id rt : rdmacm_router := mk_router (<[id := []]> (my_event_queues rt)) (my_channel rt).
Lemma post_bind_id bad qs w nq h r rt (Q : Z -> env -> Prop) :
  my_channel rt = chan -> chan <> 0 -> my_event_queues rt !! id = None -> ok0 r ->
  Q 0 (rd_env self qs (at_router (with_id rt) w) nq h r) ->
  post bad (rd_world (rd_router (bind_id id))) Q (rd_env self qs (at_router rt w) nq h r).
Proof.
  intros Hc Hc0 Hid Hok HQ. rewrite post_rd_world. unfold rd_router. rewrite post_zoom_opt.
  cbn [our_rdmacm_router set_rw_mem at_router set_rw_router mbind option_bind rw_lib e_world rd_env].
  unfold bind_id, DMTR_NONZERO. rewrite post_body, post_sbind, post_DMTR_TRUE, (proj2 (Z.eqb_neq _ _) (cc_id _ _ _ _ _ _ _ _ Hm)). cbn [negb].
  rewrite post_sbind, post_get, post_sbind, post_DMTR_TRUE. change (channel (mk_renv rt r)) with (my_channel rt).
  rewrite Hc, (proj2 (Z.eqb_neq _ _) Hc0). cbn [negb]. rewrite post_sbind, post_DMTR_TRUE.
  change (event_queues (mk_renv rt r)) with (my_event_queues rt). rewrite Hid, post_sbind, post_DMTR_TRUE. cbn [re_lib].
  rewrite (rc_channel _ _ _ Ha r Hok), Z.eqb_refl, post_sbind, post_modify, post_normal. exact HQ.
Qed.

(** ** The worker *)
Definition set_up_queue nq : rdma_queue :=
  set_my_send_window_unused RECV_WINDOW (more_buffers RECV_WINDOW (set_their_send_window (Some their) (set_my_cq cq (set_my_rdma_id id nq)))).
(** What is in memory and at the card after the set-up. *)
Definition receives h r h' r' wrs : Prop :=
  extends h h' /\ buffers h' (Z.to_nat RECV_WINDOW) wrs /\ view r' = view_recv wrs (view r).

Section worker.
Context (w : W) (Hpd : our_pd w = pd) (qs : gmap Z rdma_object) (qt : Z) (rest : list cm_event) (q nq : rdma_queue).
Context (Hself : self <> 0) (Hchan : chan <> 0) (Hlisten : rq_listening_flag nq = false).
Context (Hpend : my_pending_accepts q = request :: rest) (Htask : has_task qt (rq_base q) = true).
Context (Harg : my_queue_arg (rd_task (task_slot qt) q) = self).

(** It takes the request and accepts it. *)
Lemma accept_takes tq h r rt :
  heap_ok h -> ok0 r -> my_channel rt = chan -> my_event_queues rt !! id = None ->
  wp (rd_accept_step fuel lst RdAcceptIdle (qt :: tq)) (fun a e' => a = (tq, Continue (RdAcceptWait (task_slot qt) self id)) /\
    exists h' r' wrs, e' = both qs (at_router (with_id rt) w) (set_my_pending_accepts rest q) (set_up_queue nq) h' r' /\
      due RDMA_CM_EVENT_ESTABLISHED r' /\ receives h r h' r' wrs) (both qs (at_router rt w) q nq h r).
Proof.
  intros Hk Hok Hc Hid. pose proof (cc_id _ _ _ _ _ _ _ _ Hm) as Hid0. cbn [rd_accept_step]. rewrite post_fbind. eapply post_lst_get. rewrite Hpend, post_in_thread.
  rewrite post_sbind, post_DMTR_OK_out. eapply post_lst_base; [by apply get_task_ptr_valid|]. cbn [fst snd].
  change (0 =? 0) with true. cbv iota. rewrite set_rq_base_same, post_sbind. eapply post_lst_get. cbv zeta.
  unfold task_arg_queue. rewrite Harg, (proj2 (Z.eqb_neq self 0)) by done. rewrite post_sbind, post_DMTR_TRUE, post_sbind, post_need, post_sbind, post_get, post_sbind, post_need.
  cbn [e_queues rd_env]. rewrite lookup_insert_eq, post_sbind. unfold DMTR_NOTNULL. rewrite post_DMTR_TRUE. cbn [as_rd]. rewrite (rc_request _ _ _ Ha), post_sbind.
  eapply post_rd_modify. rewrite post_sbind, post_DMTR_OK. eapply post_bind_id; [done|done|done|done|]. change (0 =? 0) with true. cbv iota.
  rewrite post_sbind, post_DMTR_OK. eapply post_setup_rdma_qp; [exact Hm|done|done|done|exact Hok|]. intros r1 Hok1 Hv1.
  change (0 =? 0) with true. cbv iota. rewrite post_sbind, post_get, post_sbind, post_need. unfold lib_of. cbn [e_world rw_lib rd_env set_rw_mem].
  rewrite (rc_data _ _ _ Ha r1 Hok1), post_sbind. eapply post_rd_modify. rewrite post_sbind, post_DMTR_OK_out.
  eapply post_setup_recv_window; [exact Hm|done|done|exact Hok1|]. intros cd r2 Hok2 Hv2. cbn [fst snd]. change (0 =? 0) with true. cbv iota.
  rewrite post_sbind, post_DMTR_OK. eapply post_setup_recv_queue; [exact Hm|done|exact Hk|exact Hok2|done|]. intros h3 r3 wrs He Hok3 Hb Hv3.
  change (0 =? 0) with true. cbv iota. rewrite post_sbind. eapply post_rd_modify. rewrite post_sbind, post_call, post_rd_world.
  eapply (post_rd_ack _ _ _ _ _ _ _ _ Hm _ ok); [by right|exact Hok3|]. intros r4 Hok4 Hv4. rewrite post_sbind.
  match goal with |- context [set_e_world (set_rw_mem h3 r4 ?w1) ?e] =>
    change (set_e_world (set_rw_mem h3 r4 w1) e) with (both qs (at_router (with_id rt) w) q (set_up_queue nq) h3 r4) end.
  eapply post_lst_modify. rewrite post_sbind, post_DMTR_OK. eapply post_cm_result; [exact Hm|apply (rc_accept _ _ _ Ha)|exact Hok4|].
  intros r5 Hdue Hv5. change (0 =? 0) with true. cbv iota. rewrite post_normal. cbn [snd fst]. split; [done|].
  exists h3, r5, wrs. rewrite Hpend. split; [done|]. split; [done|]. split; [done|]. split; [done|]. congruence.
Qed.

(** The connection is established. *)
Definition accepted_by (q1 nq1 : rdma_queue) : rdma_queue :=
  set_rd_slot (task_slot qt) (accepted_task (my_qd (rq_base nq1)) peer (rd_task (task_slot qt) q1)) q1.
Lemma accept_completes q1 nq1 tq h r rt :
  my_rdma_id nq1 = id -> due RDMA_CM_EVENT_ESTABLISHED r -> routes chan id live rt -> (2 <= fuel)%nat ->
  wp (rd_accept_step fuel lst (RdAcceptWait (task_slot qt) self id) tq) (fun a e' => a = (tq, Continue RdAcceptLoop) /\
    exists rt' r', e' = both qs (at_router rt' w) (accepted_by q1 nq1) (with_io nq1) h r' /\ routes chan id live rt' /\ ok r' /\ view r' = view r)
    (both qs (at_router rt w) q1 nq1 h r).
Proof.
  intros Hid Hdue Hr Hf. cbn [rd_accept_step]. rewrite post_in_thread, post_sbind, post_call, post_rd_world.
  eapply (post_expect _ _ _ _ _ _ _ _ _ _ Hm _ ok); [by right|apply (rc_established _ _ _ Ha)|exact Hdue|exact Hr|].
  intros rt1 r1 ev Hr1 Hok1 Hv1 _. change (0 =? ECONNREFUSED) with false. change (0 =? EINVAL) with false. change (0 =? 0) with true. cbv iota.
  rewrite post_sbind, post_need, post_sbind, post_call, post_rd_world.
  eapply (post_rd_ack _ _ _ _ _ _ _ _ Hm _ ok); [by right|exact Hok1|]. intros r2 Hok2 Hv2. rewrite post_sbind, post_call.
  match goal with |- context [set_e_world (set_rw_mem h r2 ?w1) ?e] =>
    change (set_e_world (set_rw_mem h r2 w1) e) with (both qs (at_router rt1 w) q1 nq1 h r2) end.
  eapply post_start_io; [exact Hm|exact Hid|exact Hf|]. rewrite post_sbind, post_DMTR_OK_out, post_rd_world.
  unfold rdma_get_peer_addr, DMTR_NONZERO, DMTR_NOTNULL. rewrite post_body_out, post_sbind, post_DMTR_TRUE, (proj2 (Z.eqb_neq _ _) (cc_id _ _ _ _ _ _ _ _ Hm)).
  cbn [negb]. rewrite post_sbind, post_get. cbv zeta. cbn [e_world rd_env rw_lib set_rw_mem]. rewrite (rc_peer _ _ _ Ha r2 Hok2), post_sbind, post_DMTR_TRUE, post_need.
  cbn [fst snd]. change (0 =? 0) with true. cbv iota. rewrite post_sbind.
  match goal with |- context [set_e_world (set_rw_mem h r2 ?w1) ?e] =>
    change (set_e_world (set_rw_mem h r2 w1) e) with (both qs (at_router rt1 w) q1 (with_io nq1) h r2) end.
  eapply post_rd_get. rewrite post_sbind, post_DMTR_OK. eapply post_lst_base.
  { unfold on_slot, zoom. rewrite task_complete_ares_eq. change (0 =? EAGAIN) with false. reflexivity. }
  change (0 =? 0) with true. cbv iota. rewrite post_normal. cbn [snd fst]. split; [done|]. exists rt1, r2. split; [done|]. split; [done|]. split; [done|congruence].
Qed.

(** A service of the worker that has the token [qt] and a request. *)
Definition idle_accept : user_thread rd_accept_k := mk_user_thread EAGAIN [] (Some RdAcceptIdle).
Definition connected_by nq : rdma_queue := with_io (set_up_queue nq).
Lemma accept_serviced h r rt :
  heap_ok h -> ok0 r -> my_channel rt = chan -> my_event_queues rt !! id = None -> (forall x, x ∈ live -> is_Some (my_event_queues rt !! x)) ->
  id ∉ live -> my_rdma_id q <> 0 -> (5 <= fuel)%nat ->
  wp (service (rd_accept_step fuel lst) fuel (mk_user_thread EAGAIN [qt] (Some RdAcceptIdle))) (fun a e' => a = (EAGAIN, idle_accept) /\
    exists rt' h' r' wrs, e' = both qs (at_router rt' w) (accepted_by (set_my_pending_accepts rest q) (set_up_queue nq)) (connected_by nq) h' r' /\
      routes chan id live rt' /\ ok r' /\ receives h r h' r' wrs) (both qs (at_router rt w) q nq h r).
Proof.
  intros Hk Hok Hc Hid Hlive Hni Hg Hf. apply post_service.
  assert (Hr1 : routes chan id live (with_id rt)).
  { split; [done|apply lookup_insert_eq|]. intros x Hx. cbn. rewrite lookup_insert_ne by (intros <-; done). by apply Hlive. }
  assert (Hrun : forall n, (4 <= n)%nat -> wp (run (rd_accept_step fuel lst) n EAGAIN RdAcceptIdle [qt]) (fun th e' => th = idle_accept /\
    exists rt' h' r' wrs, e' = both qs (at_router rt' w) (accepted_by (set_my_pending_accepts rest q) (set_up_queue nq)) (connected_by nq) h' r' /\
      routes chan id live rt' /\ ok r' /\ receives h r h' r' wrs) (both qs (at_router rt w) q nq h r)).
  2: { eapply post_mono; [apply Hrun; lia|]. cbv beta. intros th e' [-> H]. done. }
  intros [|[|[|[|n]]]] Hn; try lia. rewrite post_run_step. eapply post_mono; [by apply accept_takes|]. cbv beta.
  intros a e' (-> & h1 & r1 & wrs & -> & Hdue & Hrec). cbn [fst snd]. rewrite post_run_step. eapply post_mono; [by apply accept_completes; [| | |lia]|]. cbv beta.
  intros a e' (-> & rt2 & r2 & -> & Hr2 & Hok2 & Hv2). cbn [fst snd]. rewrite post_run_step. cbn [rd_accept_step]. rewrite post_in_thread, post_sbind.
  eapply post_lst_get. unfold rd_good. change (my_rdma_id (accepted_by _ _)) with (my_rdma_id q). rewrite (proj2 (Z.eqb_neq _ _) Hg). cbn [negb]. rewrite post_normal.
  cbn [fst snd]. rewrite post_run_step. cbn [rd_accept_step]. rewrite post_fbind. eapply post_lst_get. rewrite post_in_thread, post_normal. cbn [fst snd].
  split; [done|]. exists rt2, h1, r2, wrs. split; [done|]. split; [done|]. split; [done|]. destruct Hrec as (H1 & H2 & H3). split; [done|]. split; [done|]. congruence.
Qed.
End worker.

(** ** [accept] and [poll] *)

(** A queue that listens, with no accept outstanding. *)
Record rd_listens (qt : Z) q : Prop := {
  rl_id : my_rdma_id q <> 0;
  rl_listening : rq_listening_flag q = true;
  rl_thread : rq_accept_thread q = Some idle_accept;
  rl_qd : 0 < my_qd (rq_base q);
  rl_token : qt <> 0;
  rl_free : has_task qt (rq_base q) = false
}.
(** The router does not know the new identifier yet. *)
Record unbound rt : Prop := {
  ub_channel : my_channel rt = chan /\ chan <> 0;
  ub_id : my_event_queues rt !! id = None /\ id ∉ live;
  ub_live : forall x, x ∈ live -> is_Some (my_event_queues rt !! x)
}.
Definition rd_accepting (qt : Z) q : rdma_queue :=
  set_rq_accept_thread (Some (mk_user_thread EAGAIN [qt] (Some RdAcceptIdle)))
    (set_rd_slot (task_slot qt) (started DMTR_OPC_ACCEPT qt None (Some self) (rq_base q)) q).
Lemma rd_accepting_task qt q : rd_task (task_slot qt) (rd_accepting qt q) = started DMTR_OPC_ACCEPT qt None (Some self) (rq_base q).
Proof. unfold rd_task, rd_accepting, set_rd_slot. cbn. by rewrite slot_task_set_eq. Qed.

Lemma rd_accept_eq qt q qs w h r rt :
  rd_listens qt q -> self <> 0 ->
  rd_accept lst qt self (mk_qenv (<[lst := RdObj q]> qs) (set_rw_mem h r (at_router rt w))) =
    Ok (0, Some (RdObj (rdma_queue_ctor self)))
      (mk_qenv (<[lst := RdObj (rd_accepting qt q)]> qs) (set_rw_mem h (window_write self 0 r) (at_router rt w))).
Proof.
  intros [] Hself. apply wp_eq. unfold rd_accept. change (mk_qenv (<[lst := RdObj q]> qs) (set_rw_mem h r (at_router rt w))) with (rd_env lst qs (at_router rt w) q h r).
  rewrite post_body_out, post_sbind. eapply post_rd_get. rewrite rl_listening0, post_sbind, post_DMTR_TRUE, post_sbind.
  unfold rd_wstmt, need_router, DMTR_NOTNULL. rewrite post_rd_world, post_sbind, post_get, post_DMTR_TRUE.
  cbn [our_rdmacm_router set_rw_mem at_router set_rw_router e_world rd_env]. rewrite post_sbind, post_DMTR_TRUE, rl_thread0, post_sbind, post_call, post_rd_world.
  unfold post at 1, rd_do, rd_call. cbn [rw_lib rw_heap set_rw_mem e_world rd_env].
  match goal with |- context [set_e_world (set_rw_mem h ?r1 ?w1) ?e] =>
    change (set_e_world (set_rw_mem h r1 w1) e) with (rd_env lst qs (at_router rt w) q h r1) end.
  cbv zeta. rewrite post_sbind, post_call. eapply post_rd_on_base.
  { rewrite new_task_queue_cases by done. by rewrite rl_free0, (proj2 (Z.eqb_neq self 0)), (proj2 (Z.eqb_neq qt 0)). }
  change (negb (0 =? 0)) with false. cbv iota. rewrite post_sbind. eapply post_rd_modify. rewrite post_normal.
  split; [done|]. cbn [set_rq_base rq_accept_thread]. by rewrite rl_thread0.
Qed.

Lemma rd_poll_accept qt q qs w h r rt rest qr :
  rd_listens qt q -> my_pending_accepts q = request :: rest -> our_pd w = pd -> unbound rt -> heap_ok h -> ok0 r ->
  0 < self -> (5 <= fuel)%nat -> rw_poll_count w < 10000 ->
  wp (rd_poll fuel lst qr qt) (fun a e' => a = (0, mk_qresult DMTR_OPC_ACCEPT (my_qd (rq_base q)) qt (qv_ares self peer)) /\
    exists q' rt' h' r' wrs, e' = both qs (at_router rt' (polled w)) q' (connected_by (rdma_queue_ctor self)) h' r' /\
      my_pending_accepts q' = rest /\ rq_accept_thread q' = Some idle_accept /\ routes chan id live rt' /\ ok r' /\ receives h r h' r' wrs)
    (both qs (at_router rt w) (rd_accepting qt q) (rdma_queue_ctor self) h r).
Proof.
  intros [] Hpend Hpd [[Hc Hc0] [Hid Hni] Hlive] Hk Hok Hself Hf Hn. unfold rd_poll. rewrite post_fbind. eapply post_lst_get.
  change (my_qd (rq_base (rd_accepting qt q))) with (my_qd (rq_base q)).
  assert (Hir : initialize_result (my_qd (rq_base q)) qt qr = Ok 0 (unanswered q qt qr)).
  { unfold initialize_result, body, sbind, fbind, DMTR_TRUE. rewrite (proj2 (Z.gtb_lt _ _)) by lia. by rewrite (proj2 (Z.eqb_neq _ _) rl_token0). }
  rewrite Hir, post_fbind, post_sbind, post_DMTR_OK, post_fret. change (0 =? 0) with true. cbv iota.
  rewrite post_sbind, post_DMTR_TRUE. unfold rd_good. change (my_rdma_id (rd_accepting qt q)) with (my_rdma_id q). rewrite (proj2 (Z.eqb_neq _ _) rl_id0). cbn [negb].
  rewrite post_sbind. unfold rd_poll_events at 1. rewrite post_sbind, post_get. cbn [e_world rd_env rw_poll_count set_rw_mem at_router set_rw_router].
  rewrite Z.gtb_ltb, (proj2 (Z.ltb_ge _ _)) by lia. rewrite post_call, post_rd_world. unfold post at 1.
  match goal with |- context [set_e_world ?w1 ?e] => change (set_e_world w1 e) with (both qs (at_router rt (polled w)) (rd_accepting qt q) (rdma_queue_ctor self) h r) end.
  assert (Ht : has_task qt (rq_base (rd_accepting qt q)) = true).
  { rewrite has_task_slot. change (slot_task _ _) with (rd_task (task_slot qt) (rd_accepting qt q)). by rewrite rd_accepting_task. }
  rewrite post_sbind, post_DMTR_OK_out. eapply post_lst_base; [by apply get_task_ptr_valid|]. cbn [fst snd]. change (0 =? 0) with true. cbv iota.
  rewrite set_rq_base_same, post_sbind. eapply post_lst_get. rewrite post_sbind. unfold task_opcode. rewrite rd_accepting_task.
  cbn [started my_qr qr_opcode rd_poll_service]. rewrite post_sbind. eapply post_lst_get.
  change (my_pending_accepts (rd_accepting qt q)) with (my_pending_accepts q). rewrite Hpend. unfold rd_service_accept. rewrite post_sbind.
  eapply post_lst_get. cbn [rq_accept_thread rd_accepting set_rq_accept_thread]. rewrite post_sbind, post_need, post_sbind, post_call.
  eapply post_mono; [apply (accept_serviced (polled w) Hpd qs qt rest (rd_accepting qt q) (rdma_queue_ctor self)); try done; [lia|by rewrite rd_accepting_task]|].
  cbv beta. intros a e' (-> & rt' & h' & r' & wrs & -> & Hr' & Hok' & Hrec). rewrite post_sbind. eapply post_lst_modify. rewrite post_normal.
  rewrite post_sbind. change (EAGAIN =? EAGAIN) with true. cbv iota. rewrite post_normal, post_sbind. eapply post_lst_get. rewrite post_normal, post_fret.
  set (q' := set_rq_accept_thread (Some idle_accept) (accepted_by qt (set_my_pending_accepts rest (rd_accepting qt q)) (set_up_queue (rdma_queue_ctor self)))).
  split.
  - assert (E : rd_task (task_slot qt) q' = accepted_task self peer (rd_task (task_slot qt) (rd_accepting qt q))).
    { unfold rd_task at 1, q', accepted_by, set_rd_slot. cbn [rq_base set_rq_base set_rq_accept_thread]. by rewrite slot_task_set_eq. }
    rewrite E, rd_accepting_task. done.
  - exists q', rt', h', r', wrs. by split_and!.
Qed.
End accept.

(** ** The property *)
Section properties.
Context {R : Type} `{CM : RdmaCm R} `{RV : RdmaVerbs R} (fuel : nat).

(** C25: accepting.  At a queue that listens and at which a request waits,
    [accept] answers 0 with a new queue object and starts the task of its
    token; one [poll] of the token then takes the request and, when the
    connection manager answers within the polls the code makes, whatever other
    events come in between, reports the new queue's descriptor and the
    peer's address.  The new queue is connected: the peer's window is known, a
    batch of receive buffers is posted, the window in use is the batch that the
    peer posts, and pushes and pops can start.  The other requests still wait. *)
Theorem rdma_accept_connects lst self id qp pd cq chan live (ok0 ok : R -> Prop) view due request their peer qt
    (q : rdma_queue) qs (w : rdworld R) h r rt rest :
  manages self id qp pd cq ok0 ok view -> rd_accepts self id chan live ok0 ok view due request their peer ->
  lst <> self -> 0 < self -> rd_listens qt q -> my_pending_accepts q = request :: rest ->
  our_pd w = pd -> unbound id chan live rt -> heap_ok h -> ok0 r -> (5 <= fuel)%nat -> rw_poll_count w < 10000 ->
  exists q1 r1,
    rd_accept lst qt self (mk_qenv (<[lst := RdObj q]> qs) (set_rw_mem h r (at_router rt w))) =
      Ok (0, Some (RdObj (rdma_queue_ctor self))) (mk_qenv (<[lst := RdObj q1]> qs) (set_rw_mem h r1 (at_router rt w))) /\
    forall qr, wp (rd_poll fuel lst qr qt) (fun a e' =>
      a = (0, mk_qresult DMTR_OPC_ACCEPT (my_qd (rq_base q)) qt (qv_ares self peer)) /\ exists q' nq rt' h' r' wrs,
        e' = rd_env self (<[lst := RdObj q']> qs) (at_router rt' (polled w)) nq h' r' /\
        my_pending_accepts q' = rest /\ rq_accept_thread q' = Some idle_accept /\ routes chan id live rt' /\ ok r' /\
        extends h h' /\ buffers h' (Z.to_nat RECV_WINDOW) wrs /\ view r' = view_recv wrs (view_window 0 (view r)) /\
        my_cq nq = cq /\ my_recv_window nq = RECV_WINDOW /\ my_send_window_unused nq = RECV_WINDOW /\
        forall qt2, qt2 <> 0 -> rd_open id qt2 their nq)
      (rd_env self (<[lst := RdObj q1]> qs) (at_router rt w) (rdma_queue_ctor self) h r1).
Proof.
  intros Hm Ha Hne Hself Hl Hpend Hpd Hub Hk Hok Hf Hn. destruct (rc_window _ _ _ _ _ _ _ _ _ _ _ Ha r Hok) as [Hok1 Hv1].
  exists (rd_accepting self qt q), (window_write self 0 r). split; [apply rd_accept_eq; [done|lia]|]. intros qr.
  eapply post_mono; [by eapply rd_poll_accept|]. cbv beta. intros a e' (-> & q' & rt' & h' & r' & wrs & -> & Hrest & Hth & Hr' & Hok' & He & Hb & Hv).
  split; [done|]. exists q', (connected_by id cq their (rdma_queue_ctor self)), rt', h', r', wrs. rewrite Hv, Hv1.
  by split_and!.
Qed.
End properties.

(** ** Witness

    A listening queue 2 with the request of identifier 1; the new queue is 3. *)
Definition demo_request : cm_event := mk_cm_event 101 RDMA_CM_EVENT_CONNECT_REQUEST 1 4.
Lemma demo_accepts : rd_accepts 3 1 1 {[9]} dm_ok dm_ok dm_view dm_due demo_request demo_peer demo_addr.
Proof.
  split; try done; [|by apply dm_event_comes].
  intros p r Hr. eexists _, _. split; [reflexivity|by apply dm_answer_due].
Qed.
Definition demo_listener : rdma_queue :=
  set_rq_accept_thread (Some idle_accept) (set_my_pending_accepts [demo_request] (set_rq_listening_flag true (set_my_rdma_id 4 (rdma_queue_ctor 2)))).
Definition demo_accept_rt : rdmacm_router := mk_router {[9 := []]} 1.
Definition demo_aworld : rdworld demo_manager := mk_rdworld (demo_memory []) 5 (Some demo_accept_rt) 0 (demo_manager_start true).

(** The event of identifier 9 comes first. *)
Lemma rdma_accept_connects_witness :
  exists q1 r1, rd_accept 2 (mk_qtoken 2 1) 3 (mk_qenv {[2 := RdObj demo_listener]} demo_aworld) =
      Ok (0, Some (RdObj (rdma_queue_ctor 3))) (mk_qenv {[2 := RdObj q1]} (set_rw_mem (demo_memory []) r1 demo_aworld)) /\
    forall qr, wp (rd_poll 5 2 qr (mk_qtoken 2 1)) (fun a e' =>
      a = (0, mk_qresult DMTR_OPC_ACCEPT 2 (mk_qtoken 2 1) (qv_ares 3 demo_addr)) /\
      exists wrs, vw_recv (dm_view (lib_of e')) = [wrs] /\ length wrs = Z.to_nat RECV_WINDOW)
      (rd_env 3 {[2 := RdObj q1]} demo_aworld (rdma_queue_ctor 3) (demo_memory []) r1).
Proof.
  destruct (rdma_accept_connects 5 2 3 1 7 5 6 1 {[9]} dm_ok dm_ok dm_view dm_due demo_request demo_peer demo_addr (mk_qtoken 2 1)
    demo_listener ∅ demo_aworld (demo_memory []) (demo_manager_start true) demo_accept_rt [] demo_manages demo_accepts) as (q1 & r1 & Hacc & Hpoll).
  - done.
  - lia.
  - by split.
  - reflexivity.
  - reflexivity.
  - split; [done|split; [by vm_compute|]|].
    + by intros ?%elem_of_singleton.
    + intros x ->%elem_of_singleton. by eexists.
  - apply demo_memory_ok. cbn. lia.
  - split; [done|]. split; [|cbn; lia]. constructor; [|done]. split; [done|by apply elem_of_singleton].
  - lia.
  - cbn. lia.
  - exists q1, r1. split; [exact Hacc|]. intros qr. eapply post_mono; [exact (Hpoll qr)|]. cbv beta.
    intros a e' (-> & q' & nq & rt' & h' & r' & wrs & -> & _ & _ & _ & _ & _ & Hb & Hv & _). split; [reflexivity|]. exists wrs.
    change (lib_of _) with r'. rewrite Hv. split; [reflexivity|apply Hb].
Defined.
