(* ===== verification/Latency.v ===== *)
(** * Latency distributions: [src/c++/latency/latency.cc]

    Samples in nanoseconds, counted in a histogram of powers of two with their
    minimum, maximum, sum and number, and kept in a bounded list. *)
From S2P Require Import Prelude Cmd Types.
Open Scope cmd_scope.

Definition LATENCY_MAX_DIST : Z := 127.
Definition LATENCY_DIST_POOL_SIZE : nat := 5.
Definition LATENCY_NUM_BUCKETS : nat := 65.
Definition MAX_ITERATIONS : nat := Z.to_nat 1000000.
Definition EQUALS : Z := 61.                     (* ['='], the type of the samples recorded *)

Record Latency_Dist_t := mk_dist {
  d_min : Z; d_max : Z; d_total : Z; d_count : Z;
  d_buckets : list Z;
  d_type : Z
}.
(** [dists] holds indices of [distPool] for the pointers that are not null. *)
Record dmtr_latency_t := mk_latency {
  l_name : list Z;
  l_dists : gmap Z nat;
  l_distPool : list Latency_Dist_t;
  l_distPoolNext : nat;
  l_latencies : list Z
}.

Definition set_l_pool (pool : list Latency_Dist_t) (l : dmtr_latency_t) : dmtr_latency_t :=
  mk_latency (l_name l) (l_dists l) pool (l_distPoolNext l) (l_latencies l).
Definition set_l_latencies (ls : list Z) (l : dmtr_latency_t) : dmtr_latency_t :=
  mk_latency (l_name l) (l_dists l) (l_distPool l) (l_distPoolNext l) ls.

Definition LatencyAddStat (val : Z) : fn dmtr_latency_t unit := fun l =>
  Ok tt (if decide (length (l_latencies l) < MAX_ITERATIONS)%nat then set_l_latencies (l_latencies l ++ [val]) l else l).

(** The loop [while (val) { val >>= 1; ++bucket; }]: a 64-bit value is zero
    after 64 shifts. *)
Fixpoint bucket_loop (fuel : nat) (val bucket : Z) : Z :=
  match fuel with
  | O => bucket
  | Datatypes.S fuel' => if val =? 0 then bucket else bucket_loop fuel' (Z.shiftr val 1) (bucket + 1)
  end.
Definition latency_bucket (val : Z) : Z := bucket_loop 64 (Z.shiftr val 1) 0.

(** The distribution of a type, made when it is first used: the index in the
    pool.  [dists] has [LATENCY_MAX_DIST] entries. *)
Definition latency_dist (type : Z) : fn dmtr_latency_t nat := fun l =>
  if (0 <=? type) && (type <? LATENCY_MAX_DIST) then
    match l_dists l !! type with
    | Some i => Ok i l
    | None =>
        if decide (l_distPoolNext l = LATENCY_DIST_POOL_SIZE) then Panic
        else
          let i := l_distPoolNext l in
          Ok i (mk_latency (l_name l) (<[type := i]> (l_dists l))
                  (alter (fun d => mk_dist (d_min d) (d_max d) (d_total d) (d_count d) (d_buckets d) type) i (l_distPool l))
                  (i + 1) (l_latencies l))
    end
  else Undef.

Definition add_bucket (bucket count : Z) (d : Latency_Dist_t) : Latency_Dist_t :=
  mk_dist (d_min d) (d_max d) (d_total d) (d_count d)
    (alter (fun c => u32 (c + count)) (Z.to_nat bucket) (d_buckets d)) (d_type d).

(** The pointer returned is the index of the distribution. *)
Definition LatencyAddHist (type val count : Z) : fn dmtr_latency_t nat :=
  fbind (latency_dist type) (fun i => fun l =>
  let bucket := latency_bucket val in
  if bucket <? Z.of_nat LATENCY_NUM_BUCKETS then Ok i (set_l_pool (alter (add_bucket bucket count) i (l_distPool l)) l)
  else Panic).

Definition add_sample (val : Z) (d : Latency_Dist_t) : Latency_Dist_t :=
  mk_dist (if val <? d_min d then val else d_min d) (if val >? d_max d then val else d_max d)
    (u64 (d_total d + val)) (u64 (d_count d + 1)) (d_buckets d) (d_type d).

Definition LatencyAdd (type val : Z) : fn dmtr_latency_t unit :=
  fbind (LatencyAddHist type val 1) (fun i =>
  fbind (LatencyAddStat val) (fun _ => fun l =>
  Ok tt (set_l_pool (alter (add_sample val) i (l_distPool l)) l))).

(** ** [Latency_Sum] *)
Fixpoint sum_buckets (d_type : Z) (buckets : list Z) (b : Z) : fn dmtr_latency_t unit :=
  match buckets with
  | [] => fret tt
  | c :: buckets' =>
      if c =? 0 then sum_buckets d_type buckets' (b + 1)
      else fbind (LatencyAddHist d_type (Z.shiftl 1 b) c) (fun _ => sum_buckets d_type buckets' (b + 1))
  end.
Fixpoint sum_hists (dists : list Latency_Dist_t) : fn dmtr_latency_t unit :=
  match dists with
  | [] => fret tt
  | d :: dists' => fbind (sum_buckets (d_type d) (d_buckets d) 0) (fun _ => sum_hists dists')
  end.
Definition merge_stats (ds dd : Latency_Dist_t) : Latency_Dist_t :=
  mk_dist (if d_min ds <? d_min dd then d_min ds else d_min dd) (if d_max ds >? d_max dd then d_max ds else d_max dd)
    (u64 (d_total dd + d_total ds)) (u64 (d_count dd + d_count ds)) (d_buckets dd) (d_type dd).
(** The loop over the types, [n] being left: a null [dd] is dereferenced. *)
Fixpoint sum_stats (n : nat) (type : Z) (summand : dmtr_latency_t) : fn dmtr_latency_t unit :=
  match n with
  | O => fret tt
  | Datatypes.S n' =>
      match l_dists summand !! type with
      | None => sum_stats n' (type + 1) summand
      | Some si => fun dest =>
          match l_distPool summand !! si, l_dists dest !! type with
          | Some ds, Some di => sum_stats n' (type + 1) summand (set_l_pool (alter (merge_stats ds) di (l_distPool dest)) dest)
          | _, _ => Undef
          end
      end
  end.
Definition Latency_Sum (summand : dmtr_latency_t) : fn dmtr_latency_t unit :=
  fbind (sum_hists (take (l_distPoolNext summand) (l_distPool summand)))
    (fun _ => sum_stats (Z.to_nat LATENCY_MAX_DIST) 0 summand).

(** ** Printing: the number [LatencyFmtNS] prints and the index of its unit *)
Fixpoint fmt_loop (units_left : nat) (ns : Z) (unit : nat) : Z * nat :=
  match units_left with
  | O => (ns, unit)
  | Datatypes.S n' => if 10000 <=? ns then fmt_loop n' (ns / 1000) (unit + 1) else (ns, unit)
  end.
Definition LatencyFmtNS (ns : Z) : Z * nat := fmt_loop 3 ns 0.

(** ** The exported functions *)
Definition new_dist : Latency_Dist_t :=
  mk_dist (2 ^ 64 - 1) 0 0 0 (repeat 0 LATENCY_NUM_BUCKETS) 0.
(** [latency_out] may be null, and so may [name]; the new contents of
    [*latency_out] are returned. *)
Definition dmtr_new_latency {S} (latency_out : option (option dmtr_latency_t)) (name : option (list Z)) :
    fn S (Z * option (option dmtr_latency_t)) :=
  match latency_out with
  | None => fret (EINVAL, None)
  | Some _ => fbind (
      DMTR_NOTNULL EINVAL name ;;
      name <- need name ;
      normal (mk_latency name ∅ (repeat new_dist LATENCY_DIST_POOL_SIZE) 0 []))
      (fun r => match r with inl l => fret (0, Some (Some l)) | inr e => fret (e, Some None) end)
  end.

(** On a latency object, which may be null. *)
Definition dmtr_record_latency (null : bool) (ns : Z) : fn dmtr_latency_t Z := body (
  DMTR_TRUE EINVAL (negb null) ;;
  (if negb (ns =? 0) then call (LatencyAdd EQUALS ns) else normal tt) ;;
  normal 0).

(** [*latency] may be null too. *)
Definition dmtr_delete_latency {S} (latency : option (option dmtr_latency_t)) : fn S (Z * option (option dmtr_latency_t)) :=
  match latency with
  | None => fret (EINVAL, None)
  | Some _ => fret (0, Some None)
  end.

(** ** Properties *)
Lemma bucket_loop_log2 fuel v b :
  0 <= v < 2 ^ Z.of_nat fuel -> bucket_loop fuel v b = b + (if v =? 0 then 0 else Z.log2 v + 1).
Proof.
  revert v b. induction fuel as [|fuel IH]; intros v b Hv; cbn [bucket_loop].
  - assert (v = 0) as -> by (change (2 ^ Z.of_nat 0) with 1 in Hv; lia). cbn. lia.
  - destruct (v =? 0) eqn:E; zbool; [lia|]. rewrite Nat2Z.inj_succ, Z.pow_succ_r in Hv by lia.
    assert (Hs : Z.shiftr v 1 = v / 2) by (rewrite Z.shiftr_div_pow2 by lia; done).
    rewrite IH by (rewrite Hs; split; [apply Z.div_pos; lia|apply Z.div_lt_upper_bound; lia]).
    rewrite Hs. destruct (v / 2 =? 0) eqn:E2; zbool.
    + assert (v = 1) as -> by (apply Z.div_small_iff in E2; lia). cbn. lia.
    + assert (Hl : Z.log2 v = Z.log2 (v / 2) + 1); [|lia].
      assert (Hsh : Z.log2 (Z.shiftr v 1) = Z.max 0 (Z.log2 v - 1)) by (apply Z.log2_shiftr; lia).
      rewrite Hs in Hsh. assert (0 < v / 2) by (assert (0 <= v / 2) by (apply Z.div_pos; lia); lia).
      pose proof (Z.log2_nonneg v). assert (Z.log2 v <> 0); [|lia]. intros Hz. apply Z.log2_null in Hz. assert (v = 1) as -> by lia. done.
Qed.

Lemma latency_bucket_log2 v : 0 <= v < 2 ^ 64 -> latency_bucket v = Z.log2 v /\ 0 <= Z.log2 v < 64.
Proof.
  intros Hv. assert (Hl : 0 <= Z.log2 v < 64).
  { split; [apply Z.log2_nonneg|]. destruct (decide (v = 0)) as [->|]; [done|]. apply Z.log2_lt_pow2; lia. }
  split; [|done]. unfold latency_bucket. assert (Hs : Z.shiftr v 1 = v / 2) by (rewrite Z.shiftr_div_pow2 by lia; done).
  change (2 ^ 64) with (2 * 2 ^ 63) in Hv.
  rewrite bucket_loop_log2.
  2: { rewrite Hs. split; [apply Z.div_pos; lia|]. apply Z.div_lt_upper_bound; [lia|]. change (2 ^ Z.of_nat 64) with (2 * 2 ^ 63). lia. }
  assert (Hsh : Z.log2 (Z.shiftr v 1) = Z.max 0 (Z.log2 v - 1)).
  { destruct (decide (v = 0)) as [->|]; [done|]. apply Z.log2_shiftr; lia. }
  destruct (Z.shiftr v 1 =? 0) eqn:E; zbool.
  - rewrite Hs in E. assert (v < 2) by (apply Z.div_small_iff in E; lia). assert (v = 0 \/ v = 1) as [-> | ->] by lia; done.
  - rewrite Hsh. assert (Z.log2 v <> 0); [|lia]. intros H0. apply Z.log2_null in H0.
    rewrite Hs in E. apply E. apply Z.div_small. lia.
Qed.

(** The distribution of a list of samples. *)
Definition bucket_count (xs : list Z) (b : nat) : Z := Z.of_nat (length (filter (fun x => Z.log2 x = Z.of_nat b) xs)).
Definition dist_of (xs : list Z) : Latency_Dist_t :=
  mk_dist (foldl Z.min (2 ^ 64 - 1) xs) (foldl Z.max 0 xs) (u64 (foldl Z.add 0 xs)) (u64 (Z.of_nat (length xs)))
    ((fun b => u32 (bucket_count xs b)) <$> seq 0 LATENCY_NUM_BUCKETS) (match xs with [] => 0 | _ => EQUALS end).
(** The object that has recorded [xs]. *)
Definition latency_of (name : list Z) (xs : list Z) : dmtr_latency_t :=
  mk_latency name (match xs with [] => ∅ | _ => {[EQUALS := 0%nat]} end)
    (dist_of xs :: repeat new_dist 4) (match xs with [] => 0 | _ => 1 end) (take MAX_ITERATIONS xs).

Lemma u_add w a b : wrap w (wrap w a + b) = wrap w (a + b).
Proof. unfold wrap. by rewrite Zplus_mod_idemp_l. Qed.

Lemma bucket_count_snoc xs x b :
  bucket_count (xs ++ [x]) b = bucket_count xs b + (if decide (Z.log2 x = Z.of_nat b) then 1 else 0).
Proof.
  unfold bucket_count. rewrite filter_app, length_app, filter_cons, filter_nil. case_decide; cbn [length]; lia.
Qed.

Lemma buckets_snoc xs x :
  0 <= x < 2 ^ 64 ->
  alter (fun c => u32 (c + 1)) (Z.to_nat (Z.log2 x)) ((fun b => u32 (bucket_count xs b)) <$> seq 0 LATENCY_NUM_BUCKETS) =
  (fun b => u32 (bucket_count (xs ++ [x]) b)) <$> seq 0 LATENCY_NUM_BUCKETS.
Proof.
  intros Hx. destruct (latency_bucket_log2 x Hx) as [_ Hb]. apply list_eq. intros b.
  destruct (decide (b = Z.to_nat (Z.log2 x))) as [->|Hne].
  - rewrite list_lookup_alter_eq, !list_lookup_fmap. rewrite lookup_seq_lt by (unfold LATENCY_NUM_BUCKETS; lia). cbn [fmap option_fmap option_map Nat.add].
    rewrite u_add, bucket_count_snoc, decide_True by lia. done.
  - rewrite list_lookup_alter_ne by done. rewrite !list_lookup_fmap. destruct (seq 0 LATENCY_NUM_BUCKETS !! b) as [i|] eqn:E; [|done].
    apply lookup_seq in E as [-> Hlt]. cbn [fmap option_fmap option_map Nat.add]. rewrite bucket_count_snoc, decide_False by lia. by rewrite Z.add_0_r.
Qed.

Lemma add_dist_of xs x :
  0 <= x < 2 ^ 64 ->
  let d := dist_of xs in
  add_sample x (add_bucket (Z.log2 x) 1 (mk_dist (d_min d) (d_max d) (d_total d) (d_count d) (d_buckets d) EQUALS)) = dist_of (xs ++ [x]).
Proof.
  intros Hx d. unfold add_sample, add_bucket, d, dist_of. cbn [d_min d_max d_total d_count d_buckets d_type].
  rewrite buckets_snoc by done. rewrite !foldl_app. cbn [foldl]. rewrite !u_add, length_app. cbn [length].
  rewrite Nat2Z.inj_add. change (Z.of_nat 1) with 1.
  assert (match xs ++ [x] with [] => 0 | _ => EQUALS end = EQUALS) as -> by (by destruct xs).
  f_equal.
  - destruct (x <? _) eqn:E; zbool; lia.
  - destruct (x >? _) eqn:E; [apply Z.gtb_lt in E|rewrite Z.gtb_ltb in E; zbool]; lia.
Qed.

Lemma take_snoc_bounded {A} n (xs : list A) x :
  (if decide (length (take n xs) < n)%nat then take n xs ++ [x] else take n xs) = take n (xs ++ [x]).
Proof.
  case_decide as H; rewrite length_take in H.
  - rewrite !take_ge; [done|rewrite length_app; cbn [length]; lia|lia].
  - rewrite take_app_le by lia. done.
Qed.
#[local] Arguments MAX_ITERATIONS : simpl never.

Lemma record_latency_eq name xs n :
  0 < n < 2 ^ 64 -> LatencyAdd EQUALS n (latency_of name xs) = Ok tt (latency_of name (xs ++ [n])).
Proof.
  intros Hn. destruct (latency_bucket_log2 n) as [Hb Hlt]; [lia|].
  assert (Hd : latency_dist EQUALS (latency_of name xs) =
    Ok 0%nat (mk_latency name {[EQUALS := 0%nat]}
      (mk_dist (d_min (dist_of xs)) (d_max (dist_of xs)) (d_total (dist_of xs)) (d_count (dist_of xs)) (d_buckets (dist_of xs)) EQUALS
         :: repeat new_dist 4) 1 (take MAX_ITERATIONS xs))).
  { by destruct xs. }
  unfold LatencyAdd, LatencyAddHist, fbind. rewrite Hd, Hb.
  rewrite (proj2 (Z.ltb_lt _ _)) by (unfold LATENCY_NUM_BUCKETS; lia). unfold LatencyAddStat.
  cbn [l_latencies set_l_pool l_distPool l_name l_dists l_distPoolNext]. f_equal.
  unfold latency_of. rewrite <- (take_snoc_bounded MAX_ITERATIONS xs n), <- add_dist_of by lia.
  assert (Hne : forall (A : Type) (a b : A), match xs ++ [n] with [] => a | _ => b end = b) by (intros; by destruct xs).
  rewrite !Hne. case_decide; reflexivity.
Qed.

Lemma dmtr_record_latency_eq name xs n :
  0 <= n < 2 ^ 64 ->
  dmtr_record_latency false n (latency_of name xs) = Ok 0 (latency_of name (if n =? 0 then xs else xs ++ [n])).
Proof.
  intros Hn. apply wp_eq. unfold dmtr_record_latency. cbn [negb]. post_simp. destruct (n =? 0) eqn:E; zbool; cbn [negb]; post_simp; [done|].
  eapply post_eq; [apply record_latency_eq; lia|]. by post_simp.
Qed.

(** Recording a list of samples. *)
Fixpoint record_all (ns : list Z) : fn dmtr_latency_t unit :=
  match ns with
  | [] => fret tt
  | n :: ns' => fbind (dmtr_record_latency false n) (fun _ => record_all ns')
  end.

Lemma record_all_eq name xs ns :
  Forall (fun n => 0 <= n < 2 ^ 64) ns ->
  record_all ns (latency_of name xs) = Ok tt (latency_of name (xs ++ filter (fun n => n <> 0) ns)).
Proof.
  intros Hns. revert xs. induction Hns as [|n ns Hn _ IH]; intros xs; cbn [record_all].
  - by rewrite app_nil_r.
  - unfold fbind. rewrite dmtr_record_latency_eq by done. rewrite IH, filter_cons. destruct (n =? 0) eqn:E; zbool.
    + rewrite decide_False by (by intros []). done.
    + rewrite decide_True by done. by rewrite <- app_assoc.
Qed.

(** What a latency object holds after recording any sequence of samples in
    a new object: the samples other than 0 are counted, each in the bucket of
    the largest power of two not above it, with their exact minimum and
    maximum, their number and sum modulo 2^64, and the first 1000000 of them in
    order; no sample makes it panic or leave its buckets. *)
Theorem latency_records {S} (s : S) name old ns :
  Forall (fun n => 0 <= n < 2 ^ 64) ns ->
  exists l, dmtr_new_latency (Some old) (Some name) s = Ok (0, Some (Some l)) s /\
    record_all ns l = Ok tt (latency_of name (filter (fun n => n <> 0) ns)).
Proof.
  intros Hns. exists (latency_of name []). split; [done|]. by rewrite record_all_eq.
Qed.

Lemma latency_records_witness :
  Forall (fun n => 0 <= n < 2 ^ 64) [5; 0; 1000; 6] /\
  exists l, record_all [5; 0; 1000; 6] l = Ok tt (latency_of [108] [5; 1000; 6]) /\
    d_min (dist_of [5; 1000; 6]) = 5 /\ d_buckets (dist_of [5; 1000; 6]) !! 2%nat = Some 2.
Proof.
  assert (H : Forall (fun n => 0 <= n < 2 ^ 64) [5; 0; 1000; 6]) by (repeat constructor; lia).
  split; [exact H|]. destruct (latency_records tt [108] None [5; 0; 1000; 6] H) as (l & _ & Hl).
  exists l. split; [exact Hl|]. split; reflexivity.
Defined.

(** ** Formatting *)
Lemma fmt_loop_spec n ns u v u' :
  0 <= ns -> fmt_loop n ns u = (v, u') ->
  (u <= u' <= u + n)%nat /\ v = ns / 1000 ^ Z.of_nat (u' - u) /\ (v < 10000 \/ u' = (u + n)%nat) /\ ((u < u')%nat -> 10 <= v).
Proof.
  revert ns u. induction n as [|n IH]; intros ns u Hns; cbn [fmt_loop].
  - intros [= <- <-]. rewrite Nat.sub_diag. cbn [Z.of_nat]. rewrite Z.pow_0_r, Z.div_1_r. lia.
  - destruct (10000 <=? ns) eqn:E; zbool.
    + intros H. apply IH in H as (Hu & Hv & Hd & Hl); [|apply Z.div_pos; lia].
      assert (Hge : 10 <= ns / 1000) by (apply Z.div_le_lower_bound; lia).
      split; [lia|]. split; [|split; [lia|]].
      * rewrite Hv, Z.div_div by lia. replace (u' - u)%nat with (S (u' - (u + 1))) by lia.
        by rewrite Nat2Z.inj_succ, Z.pow_succ_r by lia.
      * intros _. destruct (decide (u + 1 < u')%nat); [by apply Hl|].
        assert (u' = u + 1)%nat as -> by lia. rewrite Nat.sub_diag in Hv. cbn [Z.of_nat] in Hv. rewrite Z.pow_0_r, Z.div_1_r in Hv. lia.
    + intros [= <- <-]. rewrite Nat.sub_diag. cbn [Z.of_nat]. rewrite Z.pow_0_r, Z.div_1_r. lia.
Qed.

(** The number printed for a time is the time divided by the unit's size,
    rounded down, in nanoseconds, microseconds, milliseconds or seconds: it
    has at most four digits unless it is in seconds, and at least two unless it
    is in nanoseconds. *)
Theorem latency_fmt_correct ns :
  0 <= ns -> let '(v, unit) := LatencyFmtNS ns in
    (unit <= 3)%nat /\ v = ns / 1000 ^ Z.of_nat unit /\ (v < 10000 \/ unit = 3%nat) /\ ((0 < unit)%nat -> 10 <= v).
Proof.
  intros Hns. destruct (LatencyFmtNS ns) as [v unit] eqn:E. apply fmt_loop_spec in E as (Hu & Hv & Hd & Hl); [|done].
  rewrite Nat.sub_0_r in Hv. split_and!; [lia|done|lia|done].
Qed.
Lemma latency_fmt_correct_witness : LatencyFmtNS 12345678 = (12, 2%nat) /\ 12 = 12345678 / 1000 ^ 2.
Proof.
  split; [reflexivity|]. exact (proj1 (proj2 (latency_fmt_correct 12345678 ltac:(lia)))).
Defined.

(** ** Merging *)
Definition hist (F : nat -> Z) : list Z := (fun b => u32 (F b)) <$> seq 0 LATENCY_NUM_BUCKETS.
#[local] Arguments hist : simpl never.
Lemma hist_alter F b k :
  (b < LATENCY_NUM_BUCKETS)%nat ->
  alter (fun c => u32 (c + k)) b (hist F) = hist (fun i => F i + if decide (i = b) then k else 0).
Proof.
  intros Hb. unfold hist. apply list_eq. intros i. destruct (decide (i = b)) as [->|Hne].
  - rewrite list_lookup_alter_eq, !list_lookup_fmap, lookup_seq_lt by done. cbn [fmap option_fmap option_map Nat.add].
    by rewrite u_add, decide_True.
  - rewrite list_lookup_alter_ne by done. rewrite !list_lookup_fmap. destruct (seq 0 LATENCY_NUM_BUCKETS !! i) as [j|] eqn:E; [|done].
    apply lookup_seq in E as [-> _]. cbn [fmap option_fmap option_map Nat.add]. rewrite decide_False by done. by rewrite Z.add_0_r.
Qed.
Lemma hist_ext F G : (forall b, (b < LATENCY_NUM_BUCKETS)%nat -> u32 (F b) = u32 (G b)) -> hist F = hist G.
Proof.
  intros H. unfold hist. apply list_fmap_ext. intros i b E. apply lookup_seq in E as [-> Hlt]. by apply H.
Qed.

(** An object with one distribution. *)
Definition one_dist (name : list Z) (d : Latency_Dist_t) (F : nat -> Z) (ls : list Z) : dmtr_latency_t :=
  mk_latency name {[EQUALS := 0%nat]}
    (mk_dist (d_min d) (d_max d) (d_total d) (d_count d) (hist F) (d_type d) :: repeat new_dist 4) 1 ls.

Lemma add_hist_one name d F ls b k :
  (b < 64)%nat ->
  LatencyAddHist EQUALS (Z.shiftl 1 (Z.of_nat b)) k (one_dist name d F ls) =
  Ok 0%nat (one_dist name d (fun i => F i + if decide (i = b) then k else 0) ls).
Proof.
  intros Hb. assert (Hlog : latency_bucket (Z.shiftl 1 (Z.of_nat b)) = Z.of_nat b).
  { rewrite Z.shiftl_1_l. destruct (latency_bucket_log2 (2 ^ Z.of_nat b)) as [-> _]; [|apply Z.log2_pow2; lia].
    split; [lia|]. apply Z.pow_lt_mono_r; lia. }
  unfold LatencyAddHist, fbind, latency_dist, one_dist. cbn [l_dists]. rewrite lookup_singleton_eq. cbn iota.
  change ((0 <=? EQUALS) && (EQUALS <? LATENCY_MAX_DIST)) with true. cbn iota.
  rewrite Hlog, (proj2 (Z.ltb_lt _ _)) by (unfold LATENCY_NUM_BUCKETS; lia). f_equal. unfold set_l_pool. cbn [l_name l_dists l_distPool l_distPoolNext l_latencies alter list_alter].
  unfold add_bucket at 1. cbn [d_min d_max d_total d_count d_buckets d_type]. rewrite Nat2Z.id, hist_alter by (unfold LATENCY_NUM_BUCKETS; lia). done.
Qed.

Lemma sum_buckets_one name d F G ls n b :
  (b + n = LATENCY_NUM_BUCKETS)%nat -> u32 (G 64%nat) = 0 ->
  sum_buckets EQUALS ((fun i => u32 (G i)) <$> seq b n) (Z.of_nat b) (one_dist name d F ls) =
  Ok tt (one_dist name d (fun i => F i + if decide (b <= i)%nat then G i else 0) ls).
Proof.
  intros Hbn H64. revert b F Hbn. induction n as [|n IH]; intros b F Hbn; cbn [seq fmap list_fmap sum_buckets].
  - unfold fret. f_equal. unfold one_dist. do 3 f_equal. apply hist_ext. intros i Hi. rewrite decide_False by lia. by rewrite Z.add_0_r.
  - replace (Z.of_nat b + 1) with (Z.of_nat (S b)) by lia. destruct (u32 (G b) =? 0) eqn:E; zbool.
    + rewrite IH by lia. unfold one_dist. do 4 f_equal. apply hist_ext. intros i Hi.
      destruct (decide (i = b)) as [->|].
      * rewrite decide_False, decide_True by lia. rewrite Z.add_0_r. rewrite (Z.add_comm (F b)), <- u_add, E. done.
      * repeat case_decide; lia || done.
    + assert (b < 64)%nat. { destruct (decide (b = 64%nat)) as [->|]; [done|]. unfold LATENCY_NUM_BUCKETS in Hbn. lia. }
      unfold fbind. rewrite add_hist_one by done. rewrite IH by lia. unfold one_dist. do 4 f_equal. apply hist_ext. intros i Hi.
      destruct (decide (i = b)) as [->|].
      * rewrite decide_False, decide_True by lia. rewrite Z.add_0_r. rewrite !(Z.add_comm (F b)). apply u_add.
      * rewrite Z.add_0_r. repeat case_decide; lia || done.
Qed.

Lemma dist_of_hist xs : d_buckets (dist_of xs) = hist (bucket_count xs).
Proof. done. Qed.

Lemma sum_stats_skip n type summand dest :
  l_dists summand = {[EQUALS := 0%nat]} -> (type + Z.of_nat n <= EQUALS \/ EQUALS < type) -> sum_stats n type summand dest = Ok tt dest.
Proof.
  intros Hd. revert type. induction n as [|n IH]; intros type Hn; cbn [sum_stats]; [done|].
  rewrite Hd, lookup_singleton_ne by lia. apply IH. lia.
Qed.
Lemma sum_stats_app n m type summand dest :
  l_dists summand = {[EQUALS := 0%nat]} -> type + Z.of_nat n <= EQUALS ->
  sum_stats (n + m) type summand dest = sum_stats m (type + Z.of_nat n) summand dest.
Proof.
  intros Hd. revert type. induction n as [|n IH]; intros type Hn; cbn [sum_stats Nat.add]; [by rewrite Z.add_0_r|].
  rewrite Hd, lookup_singleton_ne by lia. rewrite IH by lia. f_equal. lia.
Qed.

Lemma sum_stats_hit n summand ds dest :
  l_dists summand = {[EQUALS := 0%nat]} -> l_distPool summand !! 0%nat = Some ds -> l_dists dest !! EQUALS = Some 0%nat ->
  sum_stats (S n) EQUALS summand dest =
    sum_stats n (EQUALS + 1) summand (set_l_pool (alter (merge_stats ds) 0%nat (l_distPool dest)) dest).
Proof. intros Hd Hp Hdd. cbn [sum_stats]. by rewrite Hd, lookup_singleton_eq, Hp, Hdd. Qed.

Lemma foldl_min m a ys : a <= m -> foldl Z.min a ys = Z.min a (foldl Z.min m ys).
Proof.
  revert a m. induction ys as [|y ys IH]; intros a m Ha; cbn [foldl]; [lia|].
  rewrite (IH (Z.min a y) (Z.min m y)) by lia. pose proof (IH (Z.min m y) (Z.min m y)) as Hm. lia.
Qed.
Lemma foldl_max m a ys : m <= a -> foldl Z.max a ys = Z.max a (foldl Z.max m ys).
Proof.
  revert a m. induction ys as [|y ys IH]; intros a m Ha; cbn [foldl]; [lia|].
  rewrite (IH (Z.max a y) (Z.max m y)) by lia. pose proof (IH (Z.max m y) (Z.max m y)) as Hm. lia.
Qed.
Lemma foldl_add a ys : foldl Z.add a ys = a + foldl Z.add 0 ys.
Proof. revert a. induction ys as [|y ys IH]; intros a; cbn [foldl]; [lia|]. rewrite (IH (a + y)), (IH (0 + y)). lia. Qed.
Lemma foldl_min_le a xs : foldl Z.min a xs <= a.
Proof. revert a. induction xs as [|x xs IH]; intros a; cbn [foldl]; [lia|]. specialize (IH (Z.min a x)). lia. Qed.
Lemma foldl_max_ge a xs : a <= foldl Z.max a xs.
Proof. revert a. induction xs as [|x xs IH]; intros a; cbn [foldl]; [lia|]. specialize (IH (Z.max a x)). lia. Qed.

Lemma merge_dist_of xs ys F :
  xs <> [] -> hist F = hist (bucket_count (xs ++ ys)) ->
  merge_stats (dist_of ys) (mk_dist (d_min (dist_of xs)) (d_max (dist_of xs)) (d_total (dist_of xs)) (d_count (dist_of xs)) (hist F)
     (d_type (dist_of xs))) = dist_of (xs ++ ys).
Proof.
  intros Hx HF. unfold merge_stats. cbn [d_min d_max d_total d_count d_buckets d_type dist_of]. rewrite HF. unfold dist_of. fold (hist (bucket_count (xs ++ ys))).
  assert (match xs with [] => 0 | _ => EQUALS end = match xs ++ ys with [] => 0 | _ => EQUALS end) as -> by (by destruct xs).
  rewrite !foldl_app. pose proof (foldl_min_le (2 ^ 64 - 1) xs). pose proof (foldl_max_ge 0 xs).
  rewrite (foldl_min (2 ^ 64 - 1) (foldl Z.min _ xs)), (foldl_max 0 (foldl Z.max _ xs)), (foldl_add (foldl Z.add 0 xs)) by done.
  f_equal.
  - destruct (_ <? _) eqn:E; zbool; lia.
  - destruct (_ >? _) eqn:E; [apply Z.gtb_lt in E|rewrite Z.gtb_ltb in E; zbool]; lia.
  - rewrite u_add, Z.add_comm, u_add. f_equal. lia.
  - rewrite u_add, Z.add_comm, u_add, length_app. f_equal. lia.
Qed.

(** [Latency_Sum] of two objects that have each recorded samples makes of the
    first the distribution of the samples of both: the histogram, minimum,
    maximum, number and sum are those of all the samples together.  Its list of
    samples stays its own. *)
Theorem latency_sum_correct name xs name' ys :
  xs <> [] -> ys <> [] -> Forall (fun n => 0 < n < 2 ^ 64) (xs ++ ys) ->
  Latency_Sum (latency_of name' ys) (latency_of name xs) =
    Ok tt (mk_latency name {[EQUALS := 0%nat]} (dist_of (xs ++ ys) :: repeat new_dist 4) 1 (take MAX_ITERATIONS xs)).
Proof.
  intros Hx Hy Hall. assert (Hmatch : forall (l : list Z) (A : Type) (a b : A), l <> [] -> match l with [] => a | _ => b end = b) by (by intros []).
  assert (H64 : u32 (bucket_count ys 64%nat) = 0).
  { unfold bucket_count. destruct (filter _ ys) as [|x l] eqn:E; [done|exfalso].
    assert (Hin : x ∈ filter (fun x => Z.log2 x = Z.of_nat 64) ys) by (rewrite E; by left).
    apply list_elem_of_filter in Hin as [Hl Hin]. rewrite Forall_forall in Hall. specialize (Hall x).
    rewrite elem_of_app in Hall. specialize (Hall (or_intror Hin)). destruct (latency_bucket_log2 x) as [_ Hlt]; lia. }
  unfold Latency_Sum, fbind. unfold latency_of at 1 2. rewrite !(Hmatch ys) by done. cbn [l_distPoolNext l_distPool take sum_hists].
  assert (Hdest : latency_of name xs = one_dist name (dist_of xs) (bucket_count xs) (take MAX_ITERATIONS xs)).
  { unfold latency_of. by rewrite !Hmatch. }
  assert (Hty : d_type (dist_of ys) = EQUALS) by (by destruct ys). rewrite Hty, dist_of_hist, Hdest. unfold fbind. unfold hist at 1.
  rewrite (sum_buckets_one _ _ _ _ _ LATENCY_NUM_BUCKETS 0) by done. rewrite take_0. cbn [sum_hists]. unfold fret. cbn iota. change (Z.to_nat LATENCY_MAX_DIST) with (61 + 66)%nat.
  assert (Hds : l_dists (latency_of name' ys) = {[EQUALS := 0%nat]}) by (by destruct ys).
  rewrite (sum_stats_app 61 66 0 _ _ Hds) by (unfold EQUALS; lia). change (0 + Z.of_nat 61) with EQUALS.
  rewrite (sum_stats_hit 65 _ (dist_of ys) _ Hds) by (by destruct ys).
  rewrite sum_stats_skip by (exact Hds || unfold EQUALS; lia). f_equal. unfold set_l_pool. cbn [l_name l_dists l_distPool l_distPoolNext l_latencies one_dist].
  f_equal. cbn [alter list_alter]. f_equal. apply merge_dist_of; [done|]. apply hist_ext. intros b Hb. rewrite decide_True by lia.
  unfold bucket_count. by rewrite filter_app, length_app, Nat2Z.inj_add.
Qed.

Lemma latency_sum_correct_witness :
  Latency_Sum (latency_of [] [9; 3]) (latency_of [108] [5]) =
    Ok tt (mk_latency [108] {[EQUALS := 0%nat]} (dist_of [5; 9; 3] :: repeat new_dist 4) 1 [5]).
Proof. apply (latency_sum_correct [108] [5] [] [9; 3]); [discriminate|discriminate|]. repeat constructor; lia. Defined.
