(* ===== verification/LatencyDump.v ===== *)
(** * Printing a latency distribution: [Latency_Dump] of [src/c++/latency/latency.cc]

    The lines printed, as strings, and what printing does to the object: it
    sorts the samples kept.  The tail quantiles are indices computed in floating
    point: the size as a [float], times a [double], cut to an [int]; the
    arithmetic is the specification of IEEE 754 in the Standard Library. *)
From stdpp Require Import strings pretty sorting.
From Stdlib Require SpecFloat.
From S2P Require Import Prelude Cmd Types Latency.
Open Scope Z_scope.
Open Scope cmd_scope.

Definition LATENCY_HISTOGRAM_WIDTH : Z := 50.

(** ** [printf] *)
Definition chars (bs : list Z) : string :=
  String.string_of_list_ascii ((fun b => Ascii.ascii_of_N (Z.to_N b)) <$> bs).
(** [%10s] and [%10ld] *)
Definition pad10 (s : string) : string :=
  String.append (chars (replicate (10 - String.length s) 32)) s.
Definition lu (n : Z) : string := pretty n.
Definition ld (n : Z) : string := pretty (swrap 64 n).

Definition unit_name (unit : nat) : string :=
  match unit with 0%nat => "ns" | 1%nat => "us" | 2%nat => "ms" | _ => "s" end.
(** What [LatencyFmtNS] leaves in its buffer. *)
Definition fmt_ns (ns : Z) : string :=
  let '(v, unit) := LatencyFmtNS ns in (lu v +:+ " " +:+ unit_name unit)%string.

(** [(uint64_t)1 << b]: undefined from 64 on. *)
Definition shl1 (b : Z) : option Z := if b <? 64 then Some (Z.shiftl 1 b) else None.

(** ** The summary of a distribution *)

(** The loop that looks for the median, from the buckets left. *)
Fixpoint median_loop (buckets : list Z) (accum half i : Z) : Z :=
  match buckets with
  | [] => i
  | c :: buckets' =>
      let accum := u64 (accum + c) in
      if half <=? accum then i else median_loop buckets' accum half (i + 1)
  end.
Definition median_bucket (d : Latency_Dist_t) : Z := median_loop (d_buckets d) 0 (d_count d / 2) 0.

(** [extra]: a slash and the type, unless the type is ['=']. *)
Definition extra_text (type : Z) : string := if type =? EQUALS then "" else chars [47; type].
Definition summary_line (name : list Z) (type : Z) (d : Latency_Dist_t) (median : Z) : string :=
  ("LATENCY " +:+ chars name +:+ extra_text type +:+ ": " +:+ fmt_ns (d_min d) +:+ " " +:+ fmt_ns (d_total d / d_count d) +:+ "/"
   +:+ fmt_ns median +:+ " " +:+ fmt_ns (d_max d) +:+ " (" +:+ lu (d_count d) +:+ " samples, " +:+ fmt_ns (d_total d) +:+ " total)")%string.

(** The loop over the types, [n] being left: the types in use, which
    [firstType] and [nextTypes] chain, and the lines printed. *)
Fixpoint dump_summaries (n : nat) (type : Z) : stmt dmtr_latency_t (list Z * list string) :=
  match n with
  | O => normal ([], [])
  | Datatypes.S n' =>
      l <- get ;
      match l_dists l !! type with
      | None => dump_summaries n' (type + 1)
      | Some i =>
          d <- need (l_distPool l !! i) ;
          median <- need (shl1 (median_bucket d)) ;
          (* a division by zero is undefined *)
          _ <- need (if d_count d =? 0 then None else Some tt) ;
          ' (types, lines) <- dump_summaries n' (type + 1) ;
          normal (type :: types, summary_line (l_name l) type d median :: lines)
      end
  end.

(** ** The tail quantiles *)

(** The constants of the code, as binary64 numbers. *)
Definition c99 : SpecFloat.spec_float := SpecFloat.S754_finite false 8917127262193582 (-53).
Definition c999 : SpecFloat.spec_float := SpecFloat.S754_finite false 8998192055486251 (-53).
Definition c9999 : SpecFloat.spec_float := SpecFloat.S754_finite false 9006298534815518 (-53).

(** [(float)n]: a [float] is a [double] as it is. *)
Definition float_of (n : Z) : SpecFloat.spec_float := SpecFloat.binary_normalize 24 128 n 0 false.
(** [(int)x], for the numbers that are not negative. *)
Definition int_of (x : SpecFloat.spec_float) : option Z :=
  match x with
  | SpecFloat.S754_zero _ => Some 0
  | SpecFloat.S754_finite false m e =>
      let v := Z.shiftl (Z.pos m) e in
      if v <? 2 ^ 31 then Some v else None
  | _ => None
  end.
Definition tail_index (n : Z) (c : SpecFloat.spec_float) : option Z :=
  int_of (SpecFloat.SFmul 53 1024 (float_of n) c).

(** [latencies.at((int)((float)latencies.size() * c))]: an index out of range
    throws, and nothing catches the exception. *)
Definition tail_latency (c : SpecFloat.spec_float) : stmt dmtr_latency_t Z :=
  l <- get ;
  i <- need (tail_index (Z.of_nat (length (l_latencies l))) c) ;
  match l_latencies l !! Z.to_nat i with
  | Some v => normal v
  | None => panic
  end.

(** ** The histogram *)
Definition bucket_total (i : nat) (dists : list Latency_Dist_t) : Z :=
  foldl (fun t d => u64 (t + default 0 (d_buckets d !! i))) 0 dists.
Definition largest_count (dists : list Latency_Dist_t) : Z :=
  foldl (fun m i => let t := bucket_total i dists in if t >? m then t else m) LATENCY_HISTOGRAM_WIDTH (seq 0 LATENCY_NUM_BUCKETS).

(** [for (; pos < goal; ++pos) bar[pos] = type;] with [pos] the length of [bar],
    an array of 51 characters. *)
Definition fill_bar (bar : list Z) (goal type : Z) : option (list Z) :=
  let bar := bar ++ replicate (Z.to_nat (goal - Z.of_nat (length bar))) type in
  if Z.of_nat (length bar) <=? LATENCY_HISTOGRAM_WIDTH + 1 then Some bar else None.
(** The loop over the distributions of a bucket: the bar and the total. *)
Fixpoint bar_loop (types : list Z) (i : nat) (largestCount : Z) (bar : list Z) (total : Z) :
    stmt dmtr_latency_t (list Z * Z) :=
  match types with
  | [] => normal (bar, total)
  | type :: types' =>
      l <- get ;
      j <- need (l_dists l !! type) ;
      d <- need (l_distPool l !! j) ;
      let total := u64 (total + default 0 (d_buckets d !! i)) in
      let goal := i32 (u64 (total * LATENCY_HISTOGRAM_WIDTH) / largestCount) in
      bar <- need (fill_bar bar goal type) ;
      bar_loop types' i largestCount bar total
  end.

Definition bar_line (b count : Z) (bar : string) : option string :=
  match shl1 b with
  | None => None
  | Some ns => Some (pad10 (fmt_ns ns) +:+ " | " +:+ pad10 (ld count) +:+ " |" +:+ bar)%string
  end.
(** The empty buckets printed between two others: [n] of them from [b]. *)
Fixpoint gap_lines (n : nat) (b : Z) : option (list string) :=
  match n with
  | O => Some []
  | Datatypes.S n' =>
      match bar_line b 0 "", gap_lines n' (b + 1) with
      | Some line, Some lines => Some (line :: lines)
      | _, _ => None
      end
  end.
Definition dots_line : string := (pad10 "..." +:+ " |")%string.

(** The loop over the buckets, [n] being left. *)
Fixpoint dump_hist (n : nat) (i : nat) (types : list Z) (largestCount lastPrinted : Z) : stmt dmtr_latency_t (list string) :=
  match n with
  | O => normal []
  | Datatypes.S n' =>
      ' (bar, total) <- bar_loop types i largestCount [] 0 ;
      if total >? 0 then
        (* [bar[pos] = '\0'] *)
        _ <- need (if Z.of_nat (length bar) <=? LATENCY_HISTOGRAM_WIDTH then Some tt else None) ;
        gap <- (if lastPrinted <? Z.of_nat i - 3 then normal [dots_line]
                else need (gap_lines (Z.to_nat (Z.of_nat i - (lastPrinted + 1))) (lastPrinted + 1))) ;
        line <- need (bar_line (Z.of_nat i) total (" " +:+ chars bar)%string) ;
        lines <- dump_hist n' (i + 1) types largestCount (Z.of_nat i) ;
        normal (gap ++ line :: lines)
      else dump_hist n' (i + 1) types largestCount lastPrinted
  end.

(** ** [Latency_Dump] and [dmtr_dump_latency]

    [f_null] and [l_null] say which pointer is null. *)
Definition Latency_Dump (f_null l_null : bool) : fn dmtr_latency_t (Z * list string) := body_out [] (
  DMTR_TRUE EINVAL (negb f_null) ;;
  DMTR_TRUE EINVAL (negb l_null) ;;
  l <- get ;
  if decide (l_distPoolNext l = 0%nat) then normal []
  else
    ' (types, lines) <- dump_summaries (Z.to_nat LATENCY_MAX_DIST) 0 ;
    modify (fun l => set_l_latencies (merge_sort Z.le (l_latencies l)) l) ;;
    t99 <- tail_latency c99 ;
    t999 <- tail_latency c999 ;
    t9999 <- tail_latency c9999 ;
    let tail := ("TAIL LATENCY 99=" +:+ fmt_ns t99 +:+ " 99.9=" +:+ fmt_ns t999 +:+ " 99.99=" +:+ fmt_ns t9999)%string in
    let largestCount := largest_count (take (l_distPoolNext l) (l_distPool l)) in
    bars <- dump_hist LATENCY_NUM_BUCKETS 0 types largestCount (Z.of_nat LATENCY_NUM_BUCKETS) ;
    normal (lines ++ tail :: bars)).

Definition dmtr_dump_latency (f_null l_null : bool) : fn dmtr_latency_t (Z * list string) := body_out [] (
  DMTR_OK_out (Latency_Dump f_null l_null)).

(** ** Rounding *)
Lemma digits2_pos_bound p : 2 ^ (Z.pos (SpecFloat.digits2_pos p) - 1) <= Z.pos p < 2 ^ Z.pos (SpecFloat.digits2_pos p).
Proof.
  induction p as [p IH|p IH|]; cbn [SpecFloat.digits2_pos]; [..|by split].
  all: rewrite Pos2Z.inj_succ; set (d := Z.pos (SpecFloat.digits2_pos p)) in *.
  all: replace (Z.succ d - 1) with (Z.succ (d - 1)) by lia; rewrite !Z.pow_succ_r by lia; lia.
Qed.
Lemma digits2_pos_unique p d : 0 < d -> 2 ^ (d - 1) <= Z.pos p < 2 ^ d -> Z.pos (SpecFloat.digits2_pos p) = d.
Proof.
  intros Hd Hp. pose proof (digits2_pos_bound p) as Hb. set (x := Z.pos (SpecFloat.digits2_pos p)) in *.
  assert (2 ^ (x - 1) < 2 ^ d) as H1 by lia. apply Z.pow_lt_mono_r_iff in H1; [|lia..].
  assert (2 ^ (d - 1) < 2 ^ x) as H2 by lia. apply Z.pow_lt_mono_r_iff in H2; lia.
Qed.

Lemma iter_shr_m p r :
  0 <= SpecFloat.shr_m r -> SpecFloat.shr_m (SpecFloat.iter_pos SpecFloat.shr_1 p r) = SpecFloat.shr_m r / 2 ^ Z.pos p.
Proof.
  assert (H1 : forall r, 0 <= SpecFloat.shr_m r -> SpecFloat.shr_m (SpecFloat.shr_1 r) = SpecFloat.shr_m r / 2).
  { clear. intros [[|[q|q|]|q] a b] Hr; cbn in *; try done.
    - by rewrite Pos2Z.inj_xI, Z.mul_comm, Z.div_add_l, Z.add_0_r.
    - by rewrite Pos2Z.inj_xO, Z.mul_comm, Z.div_mul. }
  revert r. induction p as [p IH|p IH|]; intros r Hr; cbn [SpecFloat.iter_pos]; [| |by apply H1].
  - assert (0 <= SpecFloat.shr_m r / 2) by (apply Z.div_pos; lia).
    rewrite IH; rewrite IH; rewrite H1; try done; [|apply Z.div_pos; lia].
    rewrite !Z.div_div by lia. f_equal. replace (Z.pos p~1) with (1 + Z.pos p + Z.pos p) by lia. rewrite !Z.pow_add_r by lia. ring.
  - rewrite IH; rewrite IH; try done; [|apply Z.div_pos; lia].
    rewrite Z.div_div by lia. f_equal. replace (Z.pos p~0) with (Z.pos p + Z.pos p) by lia. by rewrite Z.pow_add_r by lia.
Qed.
Lemma shr_eq r e k :
  0 <= k -> 0 <= SpecFloat.shr_m r -> exists r', SpecFloat.shr r e k = (r', e + k) /\ SpecFloat.shr_m r' = SpecFloat.shr_m r / 2 ^ k.
Proof.
  intros Hk Hr. destruct k as [|p|p]; [| |lia]; cbn [SpecFloat.shr].
  - exists r. by rewrite Z.add_0_r, Z.div_1_r.
  - eexists. split; [done|]. by apply iter_shr_m.
Qed.



(** Cutting a number of at least 53 digits to 53. *)
Lemma shr_fexp_eq m e l :
  let k := Z.pos (SpecFloat.digits2_pos m) - 53 in
  0 <= k -> -1000 <= e ->
  exists r, SpecFloat.shr_fexp 53 1024 (Z.pos m) e l = (r, e + k) /\ SpecFloat.shr_m r = Z.pos m / 2 ^ k.
Proof.
  intros k Hk He. unfold SpecFloat.shr_fexp. cbn [SpecFloat.Zdigits2].
  replace (SpecFloat.fexp 53 1024 (Z.pos (SpecFloat.digits2_pos m) + e) - e) with k by (unfold SpecFloat.fexp, SpecFloat.emin, k; lia).
  assert (Hm : SpecFloat.shr_m (SpecFloat.shr_record_of_loc (Z.pos m) l) = Z.pos m) by (by destruct l as [|[]]).
  destruct (shr_eq (SpecFloat.shr_record_of_loc (Z.pos m) l) e k) as (r & -> & Hr); [done|by rewrite Hm|].
  exists r. by rewrite Hr, Hm.
Qed.

(** Rounding it: the number cut, or the next one. *)
Lemma round_aux_eq m e :
  let k := Z.pos (SpecFloat.digits2_pos m) - 53 in
  0 <= k <= 900 -> -1000 <= e <= 0 ->
  exists r m2 e2, SpecFloat.binary_round_aux 53 1024 false (Z.pos m) e SpecFloat.loc_Exact = SpecFloat.S754_finite false m2 e2 /\
    Z.pos m / 2 ^ k <= r <= Z.pos m / 2 ^ k + 1 /\
    (Z.pos m2 = r /\ e2 = e + k \/ Z.pos m2 * 2 = r /\ e2 = e + k + 1).
Proof.
  intros k Hk He. unfold SpecFloat.binary_round_aux.
  destruct (shr_fexp_eq m e SpecFloat.loc_Exact) as (r1 & -> & Hr1); [lia..|]. fold k in Hr1 |- *.
  pose proof (digits2_pos_bound m) as Hm. replace (Z.pos (SpecFloat.digits2_pos m)) with (53 + k) in Hm by lia.
  assert (Hlow : 2 ^ 52 <= SpecFloat.shr_m r1 < 2 ^ 53).
  { rewrite Hr1. split.
    - apply Z.div_le_lower_bound; [lia|]. rewrite <- Z.pow_add_r by lia. replace (k + 52) with (53 + k - 1) by lia. lia.
    - apply Z.div_lt_upper_bound; [lia|]. rewrite <- Z.pow_add_r by lia. rewrite Z.add_comm. lia. }
  set (r := SpecFloat.round_nearest_even (SpecFloat.shr_m r1) (SpecFloat.loc_of_shr_record r1)).
  assert (Hr : r = SpecFloat.shr_m r1 \/ r = SpecFloat.shr_m r1 + 1).
  { unfold r, SpecFloat.round_nearest_even. destruct (SpecFloat.loc_of_shr_record r1) as [|[]]; auto. destruct (Z.even _); auto. }
  clearbody r. destruct r as [|p|p]; [lia| |lia].
  assert (Hdp : Z.pos (SpecFloat.digits2_pos p) = 53 \/ Z.pos (SpecFloat.digits2_pos p) = 54 /\ Z.pos p = 2 ^ 53).
  { destruct (decide (Z.pos p = 2 ^ 53)) as [E|]; [right; split; [|done]|left]; apply digits2_pos_unique; try done.
    - rewrite E. split; [lia|]. apply Z.pow_lt_mono_r; lia.
    - change (53 - 1) with 52. lia. }
  destruct (shr_fexp_eq p (e + k) SpecFloat.loc_Exact) as (r2 & -> & Hr2); [lia..|].
  exists (Z.pos p). destruct Hdp as [E|[E Ep]]; rewrite E in *; cbn in Hr2.
  - change (53 - 53) with 0 in *. rewrite Z.div_1_r in Hr2. rewrite Hr2, Z.add_0_r. rewrite (proj2 (Z.leb_le _ _)) by lia.
    do 2 eexists. split; [done|]. split; [lia|]. by left.
  - change (54 - 53) with 1 in *. rewrite Ep in Hr2. change (2 ^ 53 / 2 ^ 1) with (2 ^ 52) in Hr2. rewrite Hr2.
    change (2 ^ 52) with 4503599627370496. cbn iota. rewrite (proj2 (Z.leb_le _ _)) by lia.
    do 2 eexists. split; [done|]. split; [lia|]. right. by rewrite Ep.
Qed.

(** An integer of less than 24 digits is exact as a [float]. *)
Lemma iter_xO p k : Z.pos (Pos.iter xO p k) = Z.pos p * 2 ^ Z.pos k.
Proof.
  induction k as [|k IH] using Pos.peano_ind; [cbn; lia|].
  rewrite Pos.iter_succ, Pos2Z.inj_xO, IH, Pos2Z.inj_succ, Z.pow_succ_r by lia. lia.
Qed.
Lemma float_of_eq p :
  let d := Z.pos (SpecFloat.digits2_pos p) in
  d < 24 -> exists m, float_of (Z.pos p) = SpecFloat.S754_finite false m (d - 24) /\ Z.pos m = Z.pos p * 2 ^ (24 - d).
Proof.
  intros d Hd. unfold float_of, SpecFloat.binary_normalize, SpecFloat.binary_round.
  pose proof (digits2_pos_bound p) as Hp. fold d in Hp |- *.
  replace (SpecFloat.fexp 24 128 (d + 0)) with (d - 24) by (unfold SpecFloat.fexp, SpecFloat.emin; lia).
  unfold SpecFloat.shl_align. rewrite Z.sub_0_r. destruct (d - 24) as [|k|k] eqn:Ek; [lia..|].
  rewrite <- Ek. set (m := Pos.iter xO p k).
  assert (Hm : Z.pos m = Z.pos p * 2 ^ (24 - d)) by (unfold m; rewrite iter_xO; do 2 f_equal; lia).
  assert (Hdm : Z.pos (SpecFloat.digits2_pos m) = 24).
  { apply digits2_pos_unique; [done|]. rewrite Hm. assert (0 < 2 ^ (24 - d)) by lia. split.
    - transitivity (2 ^ (d - 1) * 2 ^ (24 - d)); [rewrite <- Z.pow_add_r by lia; apply Z.pow_le_mono_r; lia|].
      apply Z.mul_le_mono_nonneg_r; lia.
    - replace (2 ^ 24) with (2 ^ d * 2 ^ (24 - d)) by (rewrite <- Z.pow_add_r by lia; f_equal; lia).
      apply Z.mul_lt_mono_pos_r; lia. }
  assert (Hs : SpecFloat.shr_fexp 24 128 (Z.pos m) (d - 24) SpecFloat.loc_Exact = (SpecFloat.Build_shr_record (Z.pos m) false false, d - 24)).
  { unfold SpecFloat.shr_fexp. cbn [SpecFloat.Zdigits2]. rewrite Hdm.
    replace (SpecFloat.fexp 24 128 (24 + (d - 24)) - (d - 24)) with 0 by (unfold SpecFloat.fexp, SpecFloat.emin; lia). done. }
  exists m. split; [|done]. unfold SpecFloat.binary_round_aux. rewrite Hs.
  cbn [SpecFloat.shr_m SpecFloat.loc_of_shr_record SpecFloat.round_nearest_even]. rewrite Hs. cbn [SpecFloat.shr_m].
  by rewrite (proj2 (Z.leb_le _ _)) by lia.
Qed.

(** The index of a quantile stays below the number of samples. *)
Lemma tail_index_bound n mc :
  0 < n < 2 ^ 23 -> 2 ^ 52 <= Z.pos mc <= 2 ^ 53 - 2 ^ 20 ->
  exists i, tail_index n (SpecFloat.S754_finite false mc (-53)) = Some i /\ 0 <= i < n.
Proof.
  intros Hn Hc. destruct n as [|p|p]; [lia| |lia]. unfold tail_index.
  set (d := Z.pos (SpecFloat.digits2_pos p)). pose proof (digits2_pos_bound p) as Hp. fold d in Hp.
  assert (Hd : 0 < d < 24).
  { split; [lia|]. assert (H : 2 ^ (d - 1) < 2 ^ 23) by lia. apply Z.pow_lt_mono_r_iff in H; lia. }
  destruct (float_of_eq p) as (m & Hf & Hm); [fold d; lia|]. fold d in Hf, Hm. rewrite Hf. cbn [SpecFloat.SFmul xorb].
  assert (Hmr : 2 ^ 23 <= Z.pos m < 2 ^ 24).
  { rewrite Hm. split.
    - replace (2 ^ 23) with (2 ^ (d - 1) * 2 ^ (24 - d)) by (rewrite <- Z.pow_add_r by lia; f_equal; lia). nia.
    - replace (2 ^ 24) with (2 ^ d * 2 ^ (24 - d)) by (rewrite <- Z.pow_add_r by lia; f_equal; lia). nia. }
  pose proof (digits2_pos_bound (m * mc)) as HM. rewrite Pos2Z.inj_mul in HM.
  set (D := Z.pos (SpecFloat.digits2_pos (m * mc))) in *.
  assert (HD : 76 <= D <= 77).
  { assert (H1 : 2 ^ 75 < 2 ^ D) by (change (2 ^ 75) with (2 ^ 23 * 2 ^ 52) in *; nia).
    assert (H2 : 2 ^ (D - 1) < 2 ^ 77) by (change (2 ^ 77) with (2 ^ 24 * 2 ^ 53) in *; nia).
    apply Z.pow_lt_mono_r_iff in H1, H2; lia. }
  destruct (round_aux_eq (m * mc) (d - 24 + -53)) as (r & m2 & e2 & -> & Hr & Hv); [fold D; lia..|]. fold D in Hr, Hv.
  cbn [int_of]. set (s := - (d - 24 + -53 + (D - 53))) in *. assert (Hs : 30 <= s <= 55) by lia.
  assert (Hi : Z.shiftl (Z.pos m2) e2 = r / 2 ^ s).
  { rewrite <- (Z.opp_involutive e2), Z.shiftl_opp_r, Z.shiftr_div_pow2 by (destruct Hv as [[_ ->]|[_ ->]]; lia).
    destruct Hv as [[-> ->]|[<- ->]]; [done|].
    replace s with (- (d - 24 + -53 + (D - 53) + 1) + 1) by lia. rewrite Z.pow_add_r by lia.
    rewrite Z.div_mul_cancel_r by lia. done. }
  rewrite Hi. set (k := D - 53) in *.
  assert (Hlt : r < Z.pos p * 2 ^ s).
  { assert (Hk : 2 ^ k <= 2 ^ 24) by (apply Z.pow_le_mono_r; lia).
    pose proof (Z.mul_div_le (Z.pos (m * mc)) (2 ^ k) ltac:(lia)) as Hdiv. rewrite Pos2Z.inj_mul in Hdiv, Hr.
    apply (Z.mul_lt_mono_pos_r (2 ^ k)); [lia|].
    replace (Z.pos p * 2 ^ s * 2 ^ k) with (Z.pos m * 2 ^ 53).
    2: { rewrite Hm, <- !Z.mul_assoc, <- !Z.pow_add_r by lia. do 2 f_equal. lia. }
    change (2 ^ 53) with 9007199254740992 in *. change (2 ^ 20) with 1048576 in *. change (2 ^ 24) with 16777216 in *. change (2 ^ 23) with 8388608 in *. nia. }
  assert (0 <= r) by (assert (0 <= Z.pos (m * mc) / 2 ^ k) by (apply Z.div_pos; lia); lia).
  assert (0 <= r / 2 ^ s < Z.pos p) by (split; [apply Z.div_pos; lia|apply Z.div_lt_upper_bound; lia]).
  rewrite (proj2 (Z.ltb_lt _ _)) by (change (2 ^ 31) with 2147483648; change (2 ^ 23) with 8388608 in *; lia).
  by exists (r / 2 ^ s).
Qed.

(** ** The histogram of samples *)
Definition sumz (l : list Z) : Z := foldr Z.add 0 l.

Lemma sum_indicator (F : nat -> Z) b n s :
  (s <= b < s + n)%nat ->
  sumz ((fun i => F i + (if decide (b = i) then 1 else 0)) <$> seq s n) = sumz (F <$> seq s n) + 1.
Proof.
  revert s. induction n as [|n IH]; intros s Hb; [lia|]. cbn [seq fmap list_fmap sumz foldr].
  destruct (decide (b = s)) as [->|Hne].
  - assert (Hrest : forall m t, (s < t)%nat ->
      sumz ((fun i => F i + (if decide (s = i) then 1 else 0)) <$> seq t m) = sumz (F <$> seq t m)).
    { clear. induction m as [|m IH]; intros t Ht; cbn; [done|]. rewrite decide_False by lia. fold (sumz (F <$> seq (S t) m)).
      rewrite <- IH by lia. unfold sumz. lia. }
    specialize (Hrest n (S s) ltac:(lia)). unfold sumz in *. lia.
  - specialize (IH (S s) ltac:(lia)). unfold sumz in *. lia.
Qed.
Lemma bucket_counts_sum xs :
  Forall (fun x => 0 < x < 2 ^ 64) xs -> sumz (bucket_count xs <$> seq 0 64) = Z.of_nat (length xs).
Proof.
  induction xs as [|x xs IH] using rev_ind; intros Hall.
  - assert (H : forall l, sumz (bucket_count [] <$> l) = 0) by (induction l as [|i l IHl]; [done|exact IHl]). apply H.
  - apply Forall_app in Hall as [Hall Hx]. apply Forall_cons in Hx as [Hx _]. destruct (latency_bucket_log2 x) as [_ Hb]; [lia|].
    rewrite length_app, Nat2Z.inj_add. cbn [length]. change (Z.of_nat 1) with 1. rewrite <- IH by done.
    rewrite <- (sum_indicator (bucket_count xs) (Z.to_nat (Z.log2 x)) 64 0) by lia. f_equal. apply list_fmap_ext. intros _ i _.
    rewrite bucket_count_snoc. do 2 f_equal. apply decide_ext. lia.
Qed.
Lemma bucket_count_range xs b : 0 <= bucket_count xs b <= Z.of_nat (length xs).
Proof. unfold bucket_count. pose proof (length_filter (fun x => Z.log2 x = Z.of_nat b) xs). lia. Qed.
Lemma bucket_count_64 xs : Forall (fun x => 0 < x < 2 ^ 64) xs -> bucket_count xs 64 = 0.
Proof.
  intros Hall. unfold bucket_count. destruct (filter _ xs) as [|x l] eqn:E; [done|exfalso].
  assert (Hin : x ∈ filter (fun x => Z.log2 x = Z.of_nat 64) xs) by (rewrite E; by left).
  apply list_elem_of_filter in Hin as [Hl Hin]. rewrite Forall_forall in Hall. specialize (Hall x Hin).
  destruct (latency_bucket_log2 x) as [_ Hlt]; lia.
Qed.

(** ** What is printed

    The text for the samples [xs], from the samples themselves. *)

(** A time: less than ten thousand of its unit, unless the unit is the second. *)
Definition time_text (ns : Z) : string :=
  if decide (ns < 10 ^ 4) then (lu ns +:+ " ns")%string
  else if decide (ns < 10 ^ 7) then (lu (ns / 10 ^ 3) +:+ " us")%string
  else if decide (ns < 10 ^ 10) then (lu (ns / 10 ^ 6) +:+ " ms")%string
  else (lu (ns / 10 ^ 9) +:+ " s")%string.
Definition samples_below (xs : list Z) (i : nat) : Z := Z.of_nat (length (filter (fun x => x < 2 ^ Z.of_nat i) xs)).
(** The median printed is the least power of two [2 ^ m] such that half of the
    samples, rounded down, are below [2 ^ (m + 1)]. *)
Definition is_median (xs : list Z) (m : nat) : Prop :=
  Z.of_nat (length xs) / 2 <= samples_below xs (m + 1) /\
  forall j, (j < m)%nat -> samples_below xs (j + 1) < Z.of_nat (length xs) / 2.
Definition summary_text (name xs : list Z) (m : nat) : string :=
  ("LATENCY " +:+ chars name +:+ ": " +:+ time_text (foldl Z.min (2 ^ 64 - 1) xs) +:+ " "
   +:+ time_text (u64 (sumz xs) / Z.of_nat (length xs)) +:+ "/" +:+ time_text (2 ^ Z.of_nat m) +:+ " " +:+ time_text (foldl Z.max 0 xs)
   +:+ " (" +:+ lu (Z.of_nat (length xs)) +:+ " samples, " +:+ time_text (u64 (sumz xs)) +:+ " total)")%string.
Definition tail_text (t99 t999 t9999 : Z) : string :=
  ("TAIL LATENCY 99=" +:+ time_text t99 +:+ " 99.9=" +:+ time_text t999 +:+ " 99.99=" +:+ time_text t9999)%string.

(** The histogram: a line for each bucket in use, in order; between two of them
    the empty buckets, or dots when there are more than two. *)
Definition hist_line (b : nat) (count : Z) (bar : string) : string :=
  (pad10 (time_text (2 ^ Z.of_nat b)) +:+ " | " +:+ pad10 (lu count) +:+ " |" +:+ bar)%string.
Definition tallest (xs : list Z) : Z := foldr Z.max LATENCY_HISTOGRAM_WIDTH (bucket_count xs <$> seq 0 LATENCY_NUM_BUCKETS).
Definition bar_text (xs : list Z) (b : nat) : string :=
  chars (replicate (Z.to_nat (bucket_count xs b * LATENCY_HISTOGRAM_WIDTH / tallest xs)) EQUALS).
Definition gap_text (prev : option nat) (b : nat) : list string :=
  match prev with
  | None => []
  | Some p => if decide (p + 3 < b)%nat then [dots_line] else (fun j => hist_line j 0 "") <$> seq (p + 1) (b - p - 1)
  end.
Fixpoint hist_text (xs : list Z) (prev : option nat) (bs : list nat) : list string :=
  match bs with
  | [] => []
  | b :: bs' => gap_text prev b ++ hist_line b (bucket_count xs b) (" " +:+ bar_text xs b)%string :: hist_text xs (Some b) bs'
  end.
Definition used (xs : list Z) (b : nat) : Prop := 0 < bucket_count xs b.
#[export] Instance used_dec xs b : Decision (used xs b).
Proof. unfold used. apply _. Defined.
Definition used_buckets (xs : list Z) : list nat := filter (used xs) (seq 0 LATENCY_NUM_BUCKETS).

Lemma fmt_ns_eq ns : 0 <= ns -> fmt_ns ns = time_text ns.
Proof.
  intros Hns. unfold fmt_ns, LatencyFmtNS, time_text. cbn [fmt_loop].
  assert (H : forall k n, 0 <= n -> 0 < k -> (k <=? n / 1000) = (k * 1000 <=? n)).
  { intros k n Hn Hk. destruct (k * 1000 <=? n) eqn:E; zbool; [apply Z.leb_le, Z.div_le_lower_bound; lia|].
    apply Z.leb_gt, Z.div_lt_upper_bound; lia. }
  rewrite (H 10000 (ns / 1000)), !(H _ ns) by (lia || apply Z.div_pos; lia). rewrite !Z.div_div by lia.
  change (10 ^ 4) with 10000. change (10 ^ 7) with (10000 * 1000). change (10 ^ 10) with (10000 * 1000 * 1000).
  destruct (10000 <=? ns) eqn:E1; zbool; [rewrite decide_False by lia|by rewrite decide_True by lia].
  destruct (10000 * 1000 <=? ns) eqn:E2; zbool; [rewrite decide_False by lia|by rewrite decide_True by lia].
  destruct (10000 * 1000 * 1000 <=? ns) eqn:E3; zbool; [by rewrite decide_False by lia|by rewrite decide_True by lia].
Qed.
Lemma foldl_nonneg xs a b :
  Forall (fun x => 0 < x < 2 ^ 64) xs -> 0 <= a -> 0 <= b -> 0 <= foldl Z.min a xs /\ 0 <= foldl Z.max b xs.
Proof. intros Hall. revert a b. induction Hall as [|x xs Hx _ IH]; intros a b Ha Hb; [done|]. cbn [foldl]. apply IH; lia. Qed.
Lemma sum_foldl A xs : foldl Z.add A xs = A + sumz xs.
Proof. revert A. induction xs as [|x xs IH]; intros A; cbn; [lia|]. rewrite IH. unfold sumz. lia. Qed.
Lemma samples_below_step xs i :
  Forall (fun x => 0 < x < 2 ^ 64) xs -> samples_below xs (i + 1) = samples_below xs i + bucket_count xs i.
Proof.
  unfold samples_below, bucket_count. induction xs as [|x xs IH]; intros Hall; [done|]. apply Forall_cons in Hall as [Hx Hall].
  specialize (IH Hall). rewrite !filter_cons.
  assert (Hl : Z.log2 x = Z.of_nat i <-> 2 ^ Z.of_nat i <= x < 2 ^ Z.of_nat (i + 1)).
  { rewrite Nat2Z.inj_add. change (Z.of_nat 1) with 1. rewrite Z.add_1_r. split; [intros <-; apply Z.log2_spec; lia|].
    intros H. apply Z.log2_unique; lia. }
  assert (2 ^ Z.of_nat i <= 2 ^ Z.of_nat (i + 1)) by (apply Z.pow_le_mono_r; lia).
  repeat case_decide; cbn [length]; lia.
Qed.
Lemma samples_below_0 xs : Forall (fun x => 0 < x < 2 ^ 64) xs -> samples_below xs 0 = 0.
Proof.
  intros Hall. unfold samples_below. induction Hall as [|x xs Hx _ IH]; [done|]. rewrite filter_cons, decide_False; [done|].
  change (2 ^ Z.of_nat 0) with 1. lia.
Qed.
Lemma samples_below_64 xs : Forall (fun x => 0 < x < 2 ^ 64) xs -> samples_below xs (0 + 64) = Z.of_nat (length xs).
Proof.
  intros Hall. unfold samples_below. f_equal. induction Hall as [|x xs Hx _ IH]; [done|]. rewrite filter_cons, decide_True by exact (proj2 Hx).
  cbn [length]. f_equal. exact IH.
Qed.
(** The loop finds the first bucket where the samples below reach [half]. *)
Lemma median_loop_below xs n rest half i :
  Forall (fun x => 0 < x < 2 ^ 64) xs -> Z.of_nat (length xs) < 2 ^ 64 -> half <= samples_below xs (i + n) -> (0 < n)%nat ->
  exists m, (i <= m < i + n)%nat /\
    median_loop ((bucket_count xs <$> seq i n) ++ rest) (samples_below xs i) half (Z.of_nat i) = Z.of_nat m /\
    half <= samples_below xs (m + 1) /\ forall j, (i <= j < m)%nat -> samples_below xs (j + 1) < half.
Proof.
  intros Hall Hlen. revert i. induction n as [|n IH]; intros i Hhalf Hn; [lia|]. cbn [seq fmap list_fmap app median_loop].
  rewrite <- samples_below_step by done.
  assert (Hb : 0 <= samples_below xs (i + 1) < 2 ^ 64).
  { unfold samples_below. pose proof (length_filter (fun x => x < 2 ^ Z.of_nat (i + 1)) xs). lia. }
  rewrite wrap_small by done. destruct (half <=? samples_below xs (i + 1)) eqn:E; zbool.
  - exists i. split; [lia|]. split; [done|]. split; [done|]. intros j Hj. lia.
  - destruct n as [|n]; [lia|]. destruct (IH (i + 1)%nat) as (m & Hm & Hl & H1 & H2); [|lia|].
    { by replace (i + 1 + S n)%nat with (i + S (S n))%nat by lia. }
    exists m. split; [lia|]. split; [|split; [done|]].
    + rewrite <- Hl. replace (S i) with (i + 1)%nat by lia. f_equal. lia.
    + intros j Hj. destruct (decide (j = i)) as [->|]; [done|]. apply H2. lia.
Qed.

Lemma max_iterations : Z.of_nat MAX_ITERATIONS = 1000000.
Proof. apply Z2Nat.id. lia. Qed.
#[local] Opaque MAX_ITERATIONS.
Section dump.
Context (name xs : list Z) (Hxs : xs <> []) (Hall : Forall (fun x => 0 < x < 2 ^ 64) xs) (Hlen : Z.of_nat (length xs) < 2 ^ 32).
Abbreviation l := (latency_of name xs).

Lemma nonempty_length : (0 < length xs)%nat.
Proof. destruct xs; [by destruct Hxs|cbn; lia]. Qed.
Lemma dump_buckets : d_buckets (dist_of xs) = bucket_count xs <$> seq 0 LATENCY_NUM_BUCKETS.
Proof.
  cbn [d_buckets dist_of]. apply list_fmap_ext. intros _ b _. pose proof (bucket_count_range xs b). rewrite wrap_small by lia. done.
Qed.
Lemma dump_count : d_count (dist_of xs) = Z.of_nat (length xs).
Proof. cbn [d_count dist_of]. apply wrap_small. change (2 ^ 32) with 4294967296 in Hlen. change (2 ^ 64) with 18446744073709551616. lia. Qed.
Lemma dump_median : exists m, (m < 64)%nat /\ median_bucket (dist_of xs) = Z.of_nat m /\ is_median xs m.
Proof.
  unfold median_bucket. rewrite dump_buckets, dump_count. change LATENCY_NUM_BUCKETS with (64 + 1)%nat. rewrite seq_app, fmap_app.
  destruct (median_loop_below xs 64 (bucket_count xs <$> seq (0 + 64) 1) (Z.of_nat (length xs) / 2) 0) as (m & Hm & Hl & H1 & H2); [done| | |lia|].
  - assert (2 ^ 32 < 2 ^ 64) by done. lia.
  - rewrite samples_below_64 by done. apply Z.div_le_upper_bound; lia.
  - exists m. split; [lia|]. rewrite samples_below_0 in Hl by done. split; [exact Hl|]. split; [done|]. intros j Hj. apply H2. lia.
Qed.

(** *** The summary *)
Lemma summary_line_eq m : summary_line name EQUALS (dist_of xs) (2 ^ Z.of_nat m) = summary_text name xs m.
Proof.
  unfold summary_line, summary_text. rewrite dump_count. cbn [d_min d_max d_total dist_of]. rewrite sum_foldl, Z.add_0_l.
  pose proof nonempty_length. pose proof (wrap_range 64 (sumz xs)).
  destruct (foldl_nonneg xs (2 ^ 64 - 1) 0 Hall) as [H1 H2]; [lia..|]. rewrite !fmt_ns_eq; [done|try lia..]. apply Z.div_pos; lia.
Qed.

Lemma latency_of_dists : l_dists l = {[EQUALS := 0%nat]} /\ l_distPool l = dist_of xs :: repeat new_dist 4 /\ l_distPoolNext l = 1%nat.
Proof. by destruct xs. Qed.

Lemma dump_summaries_skip n type (st : dmtr_latency_t) :
  l_dists st = {[EQUALS := 0%nat]} -> EQUALS < type -> dump_summaries n type st = Ok (inl ([], [])) st.
Proof.
  intros Hd. revert type. induction n as [|n IH]; intros type Ht; [done|]. cbn [dump_summaries]. unfold sbind, fbind, get.
  rewrite Hd, lookup_singleton_ne by lia. apply IH. lia.
Qed.
Lemma dump_summaries_from n m type (st : dmtr_latency_t) :
  l_dists st = {[EQUALS := 0%nat]} -> type + Z.of_nat n <= EQUALS ->
  dump_summaries (n + m) type st = dump_summaries m (type + Z.of_nat n) st.
Proof.
  intros Hd. revert type. induction n as [|n IH]; intros type Ht; [by rewrite Z.add_0_r|]. cbn [dump_summaries Nat.add]. unfold sbind, fbind, get.
  rewrite Hd, lookup_singleton_ne by lia. rewrite IH by lia. f_equal. lia.
Qed.
Lemma dump_summaries_hit n m (st : dmtr_latency_t) :
  l_dists st = {[EQUALS := 0%nat]} -> l_distPool st !! 0%nat = Some (dist_of xs) -> l_name st = name ->
  (m < 64)%nat -> median_bucket (dist_of xs) = Z.of_nat m ->
  dump_summaries (S n) EQUALS st = Ok (inl ([EQUALS], [summary_text name xs m])) st.
Proof.
  intros Hd Hp Hn Hm Hmed. apply wp_eq. cbn [dump_summaries]. post_simp. rewrite Hd, lookup_singleton_eq. post_simp. rewrite Hp.
  rewrite Hmed. unfold shl1. rewrite (proj2 (Z.ltb_lt _ _)) by lia. rewrite dump_count.
  rewrite (proj2 (Z.eqb_neq _ 0)) by (pose proof nonempty_length; lia). post_simp.
  eapply post_eq; [apply dump_summaries_skip; [done|lia]|]. post_simp. split; [|done].
  by rewrite Z.shiftl_1_l, Hn, summary_line_eq.
Qed.
Lemma dump_summaries_eq m :
  (m < 64)%nat -> median_bucket (dist_of xs) = Z.of_nat m ->
  dump_summaries (Z.to_nat LATENCY_MAX_DIST) 0 l = Ok (inl ([EQUALS], [summary_text name xs m])) l.
Proof.
  intros Hm Hmed. destruct latency_of_dists as (Hd & Hp & _). change (Z.to_nat LATENCY_MAX_DIST) with (61 + 66)%nat.
  rewrite dump_summaries_from by (done || unfold EQUALS; lia). change (0 + Z.of_nat 61) with EQUALS.
  apply dump_summaries_hit; [done|by rewrite Hp|done..].
Qed.

(** *** The tail *)
Definition sorted_samples : list Z := merge_sort Z.le (take MAX_ITERATIONS xs).
Abbreviation l' := (set_l_latencies sorted_samples l).
Lemma sorted_length : length sorted_samples = length (take MAX_ITERATIONS xs).
Proof. apply Permutation_length, merge_sort_Permutation. Qed.

Lemma sort_latencies : merge_sort Z.le (l_latencies l) = sorted_samples.
Proof. reflexivity. Qed.

Lemma tail_latency_eq mc :
  2 ^ 52 <= Z.pos mc <= 2 ^ 53 - 2 ^ 20 ->
  exists i v, 0 <= v /\ tail_index (Z.of_nat (length sorted_samples)) (SpecFloat.S754_finite false mc (-53)) = Some i /\
    sorted_samples !! Z.to_nat i = Some v /\
    tail_latency (SpecFloat.S754_finite false mc (-53)) l' = Ok (inl v) l'.
Proof.
  intros Hc. set (n := Z.of_nat (length sorted_samples)).
  assert (Hn : 0 < n < 2 ^ 23).
  { unfold n. rewrite sorted_length, length_take. pose proof max_iterations. change (2 ^ 23) with 8388608. pose proof nonempty_length. lia. }
  destruct (tail_index_bound n mc Hn Hc) as (i & Hi & Hr).
  destruct (lookup_lt_is_Some_2 sorted_samples (Z.to_nat i)) as [v Hv]; [unfold n in Hr; lia|].
  exists i, v. split.
  { rewrite Forall_forall in Hall. apply list_elem_of_lookup_2 in Hv. unfold sorted_samples in Hv. rewrite merge_sort_Permutation in Hv.
    apply elem_of_take in Hv as (j & Hv%list_elem_of_lookup_2 & _). specialize (Hall v Hv). lia. }
  split; [done|]. split; [done|]. apply wp_eq. unfold tail_latency. post_simp. cbn [l_latencies set_l_latencies].
  fold n. rewrite Hi, Hv. done.
Qed.

(** *** The histogram *)
Lemma dump_bucket b : (b < LATENCY_NUM_BUCKETS)%nat -> default 0 (d_buckets (dist_of xs) !! b) = bucket_count xs b.
Proof. intros Hb. by rewrite dump_buckets, list_lookup_fmap, lookup_seq_lt. Qed.
Lemma count_bounds b : 0 <= bucket_count xs b < 2 ^ 32.
Proof. pose proof (bucket_count_range xs b). lia. Qed.
Lemma foldl_tallest bs m :
  Forall (fun b => b < LATENCY_NUM_BUCKETS)%nat bs ->
  foldl (fun m i => let t := bucket_total i [dist_of xs] in if t >? m then t else m) m bs = foldr Z.max m (bucket_count xs <$> bs).
Proof.
  intros Hbs. revert m. induction Hbs as [|b bs Hb _ IH]; intros m; [done|]. cbn [foldl fmap list_fmap foldr]. rewrite IH.
  unfold bucket_total. cbn [foldl]. rewrite dump_bucket by done. pose proof (count_bounds b). rewrite Z.add_0_l, wrap_small by lia.
  rewrite Z.gtb_ltb. clear. induction bs as [|c bs IH]; cbn [fmap list_fmap foldr].
  - destruct (m <? bucket_count xs b) eqn:E; zbool; lia.
  - rewrite IH. lia.
Qed.
Abbreviation scale := (tallest xs).
Abbreviation bar_of b := (replicate (Z.to_nat (bucket_count xs b * LATENCY_HISTOGRAM_WIDTH / tallest xs)) EQUALS).
Lemma scale_eq : largest_count [dist_of xs] = scale.
Proof. apply foldl_tallest. apply Forall_forall. intros b Hb%elem_of_seq. lia. Qed.
Lemma scale_bounds : 50 <= scale /\ forall b, (b < LATENCY_NUM_BUCKETS)%nat -> bucket_count xs b <= scale.
Proof.
  assert (H : forall m zs, m <= foldr Z.max m zs /\ forall z, z ∈ zs -> z <= foldr Z.max m zs).
  { intros m zs. induction zs as [|z zs [IH1 IH2]]; cbn [foldr]; [split; [lia|set_solver]|]. split; [lia|].
    intros z' [->|Hz]%elem_of_cons; [lia|]. specialize (IH2 z' Hz). lia. }
  unfold tallest. split; [apply (proj1 (H LATENCY_HISTOGRAM_WIDTH _))|]. intros b Hb. apply (proj2 (H _ _)). apply list_elem_of_fmap. exists b. split; [done|]. apply elem_of_seq. lia.
Qed.
Lemma bar_goal b :
  (b < LATENCY_NUM_BUCKETS)%nat -> 0 <= bucket_count xs b * LATENCY_HISTOGRAM_WIDTH / scale <= LATENCY_HISTOGRAM_WIDTH.
Proof.
  intros Hb. destruct scale_bounds as [Hs Hc]. specialize (Hc b Hb). pose proof (count_bounds b). unfold LATENCY_HISTOGRAM_WIDTH in *.
  split; [apply Z.div_pos; lia|]. apply Z.div_le_upper_bound; lia.
Qed.

(** The object while it prints: its distributions are those of [l]. *)
Definition printing (st : dmtr_latency_t) : Prop := l_dists st = {[EQUALS := 0%nat]} /\ l_distPool st !! 0%nat = Some (dist_of xs).

Lemma printing_sorted ys st : printing st -> printing (set_l_latencies ys st).
Proof. by intros []. Qed.
Lemma latency_of_printing : printing l.
Proof. destruct latency_of_dists as (Hd & Hp & _). split; [exact Hd|by rewrite Hp]. Qed.

Lemma bar_loop_eq b st :
  (b < LATENCY_NUM_BUCKETS)%nat -> printing st -> bar_loop [EQUALS] b scale [] 0 st = Ok (inl (bar_of b, bucket_count xs b)) st.
Proof.
  intros Hb [Hd Hp]. apply wp_eq. cbn [bar_loop]. post_simp. rewrite Hd, lookup_singleton_eq. post_simp. rewrite Hp. post_simp.
  rewrite dump_bucket, Z.add_0_l by done. pose proof (count_bounds b) as Hc. pose proof (bar_goal b Hb) as Hg.
  unfold LATENCY_HISTOGRAM_WIDTH in *.
  assert (Hw : forall x, 0 <= x < 2 ^ 38 -> u64 x = x) by (intros x Hx; apply wrap_small; assert (2 ^ 38 < 2 ^ 64) by done; lia).
  change (2 ^ 38) with 274877906944 in Hw. change (2 ^ 32) with 4294967296 in Hc.
  rewrite (Hw (bucket_count xs b)), Hw by lia. rewrite swrap_small by (change (2 ^ (32 - 1)) with 2147483648; lia).
  unfold fill_bar, LATENCY_HISTOGRAM_WIDTH. cbn [length app Z.of_nat]. rewrite length_replicate, Z.sub_0_r.
  rewrite (proj2 (Z.leb_le _ _)) by lia. done.
Qed.

Lemma bar_line_eq b count bar : (b < 64)%nat -> 0 <= count < 2 ^ 32 -> bar_line (Z.of_nat b) count bar = Some (hist_line b count bar).
Proof.
  intros Hb Hc. unfold bar_line, shl1. rewrite (proj2 (Z.ltb_lt _ _)) by lia. unfold hist_line, ld, lu.
  rewrite Z.shiftl_1_l, fmt_ns_eq by (apply Z.pow_nonneg; lia). rewrite swrap_small; [done|lia|]. change (2 ^ 32) with 4294967296 in Hc. change (2 ^ (64 - 1)) with 9223372036854775808. lia.
Qed.
Lemma gap_lines_eq n b : (n = 0 \/ b + n <= 64)%nat -> gap_lines n (Z.of_nat b) = Some ((fun j => hist_line j 0 "") <$> seq b n).
Proof.
  revert b. induction n as [|n IH]; intros b Hb; [done|]. cbn [gap_lines seq fmap list_fmap]. rewrite bar_line_eq by lia.
  replace (Z.of_nat b + 1) with (Z.of_nat (S b)) by lia. by rewrite IH by lia.
Qed.

(** [lastPrinted], for the bucket printed last. *)
Definition last_of (prev : option nat) : Z := match prev with None => Z.of_nat LATENCY_NUM_BUCKETS | Some p => Z.of_nat p end.
Lemma gap_eq prev i st :
  (i < 64)%nat -> (forall p, prev = Some p -> (p < i)%nat) ->
  ((if last_of prev <? Z.of_nat i - 3 then normal [dots_line]
   else need (gap_lines (Z.to_nat (Z.of_nat i - (last_of prev + 1))) (last_of prev + 1))) : stmt dmtr_latency_t (list string)) st = Ok (inl (gap_text prev i)) st.
Proof.
  intros Hi Hp. destruct prev as [p|]; cbn [last_of gap_text].
  - specialize (Hp p eq_refl). destruct (_ <? _) eqn:E; zbool; [by rewrite decide_True by lia|]. rewrite decide_False by lia.
    replace (Z.of_nat p + 1) with (Z.of_nat (p + 1)) by lia. rewrite gap_lines_eq by lia. cbn.
    by replace (Z.to_nat (Z.of_nat i - Z.of_nat (p + 1))) with (i - p - 1)%nat by lia.
  - unfold LATENCY_NUM_BUCKETS. rewrite (proj2 (Z.ltb_ge _ _)) by lia.
    by replace (Z.to_nat (Z.of_nat i - (Z.of_nat 65 + 1))) with 0%nat by lia.
Qed.

Lemma dump_hist_eq n i prev st :
  printing st -> (i + n = LATENCY_NUM_BUCKETS)%nat -> (forall p, prev = Some p -> (p < i)%nat) ->
  dump_hist n i [EQUALS] scale (last_of prev) st = Ok (inl (hist_text xs prev (filter (used xs) (seq i n)))) st.
Proof.
  intros Hst. revert i prev. induction n as [|n IH]; intros i prev Hi Hp; [done|]. cbn [dump_hist seq].
  assert (Hib : (i < LATENCY_NUM_BUCKETS)%nat) by lia. pose proof (count_bounds i) as Hc.
  apply wp_eq. rewrite post_sbind. eapply post_eq; [by apply bar_loop_eq|]. cbn iota beta. rewrite filter_cons, Z.gtb_ltb. unfold used at 1.
  destruct (0 <? bucket_count xs i) eqn:E; zbool.
  - rewrite decide_True by done. assert (Hi64 : (i < 64)%nat).
    { destruct (decide (i = 64%nat)) as [->|]; [|unfold LATENCY_NUM_BUCKETS in *; lia]. rewrite bucket_count_64 in E by done. lia. }
    rewrite length_replicate, (proj2 (Z.leb_le _ _)) by (pose proof (bar_goal i Hib); lia). post_simp.
    eapply post_eq; [by apply gap_eq|]. post_simp. rewrite bar_line_eq by done. post_simp. replace (i + 1)%nat with (S i) by lia.
    eapply post_eq; [apply (IH (S i) (Some i)); [lia|intros p [= <-]; lia]|]. by post_simp.
  - rewrite decide_False by (unfold used; lia). replace (i + 1)%nat with (S i) by lia.
    eapply post_eq; [apply IH; [lia|]|done]. intros p ->. specialize (Hp p eq_refl). lia.
Qed.
End dump.

(** A run of [Latency_Dump], from what its parts do. *)
Lemma dump_run st st' types lines t99 t999 t9999 bars :
  l_distPoolNext st <> 0%nat ->
  dump_summaries (Z.to_nat LATENCY_MAX_DIST) 0 st = Ok (inl (types, lines)) st ->
  st' = set_l_latencies (merge_sort Z.le (l_latencies st)) st ->
  0 <= t99 -> 0 <= t999 -> 0 <= t9999 ->
  tail_latency c99 st' = Ok (inl t99) st' -> tail_latency c999 st' = Ok (inl t999) st' -> tail_latency c9999 st' = Ok (inl t9999) st' ->
  dump_hist LATENCY_NUM_BUCKETS 0 types (largest_count (take (l_distPoolNext st) (l_distPool st))) (Z.of_nat LATENCY_NUM_BUCKETS) st' =
    Ok (inl bars) st' ->
  dmtr_dump_latency false false st =
    Ok (0, lines ++ tail_text t99 t999 t9999 :: bars) st'.
Proof.
  intros Hn Hs Hst ??? H1 H2 H3 Hb. unfold tail_text. rewrite <- !fmt_ns_eq by done. apply wp_eq. unfold dmtr_dump_latency, Latency_Dump. cbn [negb]. post_simp. rewrite decide_False by done.
  rewrite post_sbind. eapply post_eq; [exact Hs|]. cbn iota beta. post_simp. rewrite <- Hst.
  eapply post_eq; [exact H1|]. cbn iota. rewrite post_sbind. eapply post_eq; [exact H2|]. cbn iota. rewrite post_sbind.
  eapply post_eq; [exact H3|]. cbn iota. rewrite post_sbind. eapply post_eq; [exact Hb|]. cbn iota. by post_simp.
Qed.

Lemma latency_dump_eq name xs :
  xs <> [] -> Forall (fun x => 0 < x < 2 ^ 64) xs -> Z.of_nat (length xs) < 2 ^ 32 ->
  exists m t99 t999 t9999,
    dmtr_dump_latency false false (latency_of name xs) =
      Ok (0, summary_text name xs m :: tail_text t99 t999 t9999 :: hist_text xs None (used_buckets xs))
        (set_l_latencies (sorted_samples xs) (latency_of name xs)) /\
    (m < 64)%nat /\ is_median xs m /\
    Sorted Z.le (sorted_samples xs) /\ sorted_samples xs ≡ₚ take MAX_ITERATIONS xs /\
    (forall c t, (c, t) ∈ [(c99, t99); (c999, t999); (c9999, t9999)] ->
       exists i, tail_index (Z.of_nat (length (sorted_samples xs))) c = Some i /\ sorted_samples xs !! Z.to_nat i = Some t).
Proof.
  intros Hxs Hall Hlen. destruct (latency_of_dists name xs Hxs Hall Hlen) as (Hd & Hp & Hn).
  destruct (dump_median xs Hall Hlen) as (m & Hm & Hmed & Hism).
  destruct (tail_latency_eq name xs Hxs Hall Hlen 8917127262193582) as (i1 & t1 & Hp1 & Hi1 & Hv1 & H1); [lia|].
  destruct (tail_latency_eq name xs Hxs Hall Hlen 8998192055486251) as (i2 & t2 & Hp2 & Hi2 & Hv2 & H2); [lia|].
  destruct (tail_latency_eq name xs Hxs Hall Hlen 9006298534815518) as (i3 & t3 & Hp3 & Hi3 & Hv3 & H3); [lia|].
  exists m, t1, t2, t3. split; [|do 2 (split; [done|]); split; [|split]].
  - apply (dump_run (latency_of name xs) _ [EQUALS] [summary_text name xs m]); try done.
    + by rewrite Hn.
    + by apply dump_summaries_eq.
    + rewrite Hn, Hp. cbn [take]. rewrite take_0, scale_eq by done.
      apply dump_hist_eq with (prev := None); [done..| |done|done]. by apply printing_sorted, latency_of_printing.
  - apply Sorted_merge_sort. intros x y. lia.
  - apply merge_sort_Permutation.
  - intros c t. rewrite !elem_of_cons, elem_of_nil. intros [[= -> ->]|[[= -> ->]|[[= -> ->]|[]]]]; eauto.
Qed.
(** Without samples there is nothing to print. *)
Lemma latency_dump_total name xs :
  Forall (fun x => 0 < x < 2 ^ 64) xs -> Z.of_nat (length xs) < 2 ^ 32 ->
  exists lines l', dmtr_dump_latency false false (latency_of name xs) = Ok (0, lines) l'.
Proof.
  intros Hall Hlen. destruct xs as [|x xs]; [by do 2 eexists|].
  destruct (latency_dump_eq name (x :: xs) ltac:(done) Hall Hlen) as (m & t1 & t2 & t3 & -> & _). by do 2 eexists.
Qed.

(** C32: printing the distribution of any samples recorded answers 0, throws
    nothing, writes nowhere outside its buffers, and prints exactly these lines.
    First the summary: the name, the least sample, the mean, the median, the
    largest, the number of samples and their total; the total, and the mean with
    it, is modulo 2^64, and the median is the least power of two [2 ^ m] such that
    half of the samples, rounded down, are below [2 ^ (m + 1)] (so 1 ns for a
    single sample).  Then three quantiles, each a sample at an index below their
    number in the sorted list, computed in floating point.  Then the histogram, in
    the order of the buckets: a line for each bucket that has samples, with its
    count and a bar, its share of the tallest bucket in a width of 50; between two
    of them the empty buckets, or one line of dots when there are more than two;
    nothing before the first or after the last.  The object is left as it was, but
    for the samples kept, the first million, now sorted. *)
Theorem latency_dump_correct name xs :
  xs <> [] -> Forall (fun x => 0 < x < 2 ^ 64) xs -> Z.of_nat (length xs) < 2 ^ 32 ->
  exists m t99 t999 t9999,
    dmtr_dump_latency false false (latency_of name xs) =
      Ok (0, summary_text name xs m :: tail_text t99 t999 t9999 :: hist_text xs None (used_buckets xs))
        (set_l_latencies (sorted_samples xs) (latency_of name xs)) /\
    (m < 64)%nat /\ is_median xs m /\
    Sorted Z.le (sorted_samples xs) /\ sorted_samples xs ≡ₚ take MAX_ITERATIONS xs /\
    (forall c t, (c, t) ∈ [(c99, t99); (c999, t999); (c9999, t9999)] ->
       exists i, tail_index (Z.of_nat (length (sorted_samples xs))) c = Some i /\ sorted_samples xs !! Z.to_nat i = Some t).
Proof. apply latency_dump_eq. Qed.

Lemma latency_dump_correct_witness :
  exists m t99 t999 t9999,
    dmtr_dump_latency false false (latency_of [108] [5; 1000; 6]) =
      Ok (0, summary_text [108] [5; 1000; 6] m :: tail_text t99 t999 t9999 ::
        [hist_line 2 2 (" " +:+ chars [61; 61]); dots_line; hist_line 9 1 (" " +:+ chars [61])]%string)
        (set_l_latencies [5; 6; 1000] (latency_of [108] [5; 1000; 6])).
Proof.
  destruct (latency_dump_correct [108] [5; 1000; 6]) as (m & t1 & t2 & t3 & H & _).
  - discriminate.
  - repeat constructor; lia.
  - reflexivity.
  - exists m, t1, t2, t3. exact H.
Defined.
