(* ===== verification/SpdkQueue.v ===== *)
(** * SPDK file queues: [spdk/spdk_queue.cc]

    A [spdk_queue] is a log on an NVMe namespace: a push appends its bytes to
    the log and a pop does nothing.  The last, partly filled, sector of the log
    is kept in memory ([partialBlock]) and written again by the next push.  The
    class's static members, shared by all queues, are in the world with the
    heap and the device.

    SPDK is not part of the source: the device is a state [D] with one
    operation per library call, and so are the command line and the file
    system that [init_spdk] looks at. *)
From Stdlib Require Import String.
From S2P Require Import Prelude Cmd Types Memory IoQueue UserThread MemoryQueue Queue MemoryVtable.
Open Scope cmd_scope.

(** The options that the code writes; a PCI address is domain, bus, device and
    function. *)
Record spdk_env_opts := mk_env_opts {
  o_name : string;
  o_mem_channel : Z;
  o_core_mask : string;
  o_pci_whitelist : list (Z * Z * Z * Z);
  o_env_context : option string
}.

(** The configuration file's nodes that are scalars. *)
Record spdk_config := mk_spdk_config {
  cf_transport : option string;
  cf_devAddr : option string;
  cf_namespaceId : option Z
}.

Class SpdkDevice (D : Type) := {
  (** the path given by [--config-path] or its default; [None]: [--help] *)
  po_config_path : list string -> D -> option string;
  sys_access_R_OK : string -> D -> Z;
  yaml_load : string -> D -> spdk_config;
  (** the defaults *)
  spdk_env_opts_init : spdk_env_opts;
  spdk_env_init : spdk_env_opts -> D -> Z * D;
  (** the transport address; the controllers that were found *)
  spdk_nvme_probe : string -> D -> Z * list Z * D;
  spdk_nvme_ctrlr_get_ns : Z -> Z -> D -> Z;
  spdk_nvme_ns_is_active : Z -> D -> bool;
  (** with the default options of the controller *)
  spdk_nvme_ctrlr_alloc_io_qpair : Z -> D -> Z * D;
  spdk_nvme_ns_get_size : Z -> D -> Z;
  spdk_nvme_ns_get_sector_size : Z -> D -> Z;
  (** memory the device can reach: size and alignment *)
  spdk_malloc : Z -> Z -> heap -> D -> Z * heap * D;
  spdk_free : Z -> heap -> D -> heap * D;
  (** namespace, queue pair, buffer, first block and number of blocks *)
  spdk_nvme_ns_cmd_write : Z -> Z -> Z -> Z -> Z -> heap -> D -> Z * D;
  (** queue pair and the number of completions to process at most *)
  spdk_nvme_qpair_process_completions : Z -> Z -> heap -> D -> Z * D
}.

(** The heap, the device and the static members. *)
Record sworld (D : Type) := mk_sworld {
  sw_heap : heap;
  sw_dev : D;
  our_spdk_init_flag : bool;
  sp_ns : Z;
  sp_qpair : Z;
  sp_namespaceId : Z;
  sp_namespaceSize : Z;
  sp_sectorSize : Z;
  sp_partialBlock : Z
}.
Arguments mk_sworld {D}.
Arguments sw_heap {D}.
Arguments sw_dev {D}.
Arguments our_spdk_init_flag {D}.
Arguments sp_ns {D}.
Arguments sp_qpair {D}.
Arguments sp_namespaceId {D}.
Arguments sp_namespaceSize {D}.
Arguments sp_sectorSize {D}.
Arguments sp_partialBlock {D}.

Section sworld.
Context {D : Type}.
Implicit Types (w : sworld D).
Definition set_sw_mem (h : heap) (d : D) w := mk_sworld h d (our_spdk_init_flag w) (sp_ns w) (sp_qpair w) (sp_namespaceId w) (sp_namespaceSize w) (sp_sectorSize w) (sp_partialBlock w).
Definition set_init_flag (b : bool) w := mk_sworld (sw_heap w) (sw_dev w) b (sp_ns w) (sp_qpair w) (sp_namespaceId w) (sp_namespaceSize w) (sp_sectorSize w) (sp_partialBlock w).
Definition set_ns (p : Z) w := mk_sworld (sw_heap w) (sw_dev w) (our_spdk_init_flag w) p (sp_qpair w) (sp_namespaceId w) (sp_namespaceSize w) (sp_sectorSize w) (sp_partialBlock w).
Definition set_qpair (p : Z) w := mk_sworld (sw_heap w) (sw_dev w) (our_spdk_init_flag w) (sp_ns w) p (sp_namespaceId w) (sp_namespaceSize w) (sp_sectorSize w) (sp_partialBlock w).
Definition set_namespaceId (n : Z) w := mk_sworld (sw_heap w) (sw_dev w) (our_spdk_init_flag w) (sp_ns w) (sp_qpair w) n (sp_namespaceSize w) (sp_sectorSize w) (sp_partialBlock w).
Definition set_namespaceSize (n : Z) w := mk_sworld (sw_heap w) (sw_dev w) (our_spdk_init_flag w) (sp_ns w) (sp_qpair w) (sp_namespaceId w) n (sp_sectorSize w) (sp_partialBlock w).
Definition set_sectorSize (n : Z) w := mk_sworld (sw_heap w) (sw_dev w) (our_spdk_init_flag w) (sp_ns w) (sp_qpair w) (sp_namespaceId w) (sp_namespaceSize w) n (sp_partialBlock w).
Definition set_partialBlock (p : Z) w := mk_sworld (sw_heap w) (sw_dev w) (our_spdk_init_flag w) (sp_ns w) (sp_qpair w) (sp_namespaceId w) (sp_namespaceSize w) (sp_sectorSize w) p.

(** The statics as the program starts. *)
Definition sworld_start (h : heap) (d : D) : sworld D := mk_sworld h d false 0 0 1 0 0 0.
End sworld.

(** ** Initialisation *)
Section init.
Context {D : Type} `{SD : SpdkDevice D}.
Abbreviation w := (sworld D).

Definition dev_op {A} (f : D -> A * D) : fn w A := fun w =>
  let '(a, d) := f (sw_dev w) in Ok a (set_sw_mem (sw_heap w) d w).
Definition world_heap {A} (m : fn heap A) : fn w A :=
  zoom sw_heap (fun h w => set_sw_mem h (sw_dev w) w) m.

Definition probeCb (cntrlr : Z) : bool := true.

(** A [void] function: the value returned is not used. *)
Definition attachCb (cntrlr : Z) : fn w Z := body (
  w <- get ;
  DMTR_TRUE 0 (sp_qpair w =? 0) ;;
  modify (fun w => set_ns (spdk_nvme_ctrlr_get_ns cntrlr (sp_namespaceId w) (sw_dev w)) w) ;;
  w <- get ;
  DMTR_TRUE 0 (negb (sp_ns w =? 0)) ;;
  DMTR_TRUE 0 (spdk_nvme_ns_is_active (sp_ns w) (sw_dev w)) ;;
  p <- call (dev_op (spdk_nvme_ctrlr_alloc_io_qpair cntrlr)) ;
  modify (set_qpair p) ;;
  w <- get ;
  DMTR_TRUE 0 (negb (sp_qpair w =? 0)) ;;
  modify (fun w => set_namespaceSize (u32 (spdk_nvme_ns_get_size (sp_ns w) (sw_dev w))) w) ;;
  w <- get ;
  DMTR_TRUE 0 (sp_namespaceSize w >? 0) ;;
  modify (fun w => set_sectorSize (u32 (spdk_nvme_ns_get_sector_size (sp_ns w) (sw_dev w))) w) ;;
  w <- get ;
  p <- call (world_heap (malloc (sp_sectorSize w))) ;
  modify (set_partialBlock p) ;;
  normal 0).

(** [spdk_nvme_probe] calls [probeCb] for each controller it finds and
    [attachCb] for those it accepts. *)
Fixpoint attach_all (ctrlrs : list Z) : fn w unit :=
  match ctrlrs with
  | [] => fret tt
  | c :: ctrlrs' => fbind (if probeCb c then attachCb c else fret 0) (fun _ => attach_all ctrlrs')
  end.

(** The address is a constant: the one in the configuration is not used. *)
Definition SPDK_TRADDR : string := "0000:12:00.0".
Definition demeter_opts (opts : spdk_env_opts) : spdk_env_opts := mk_env_opts "Demeter" 4 "0x4" (o_pci_whitelist opts) (o_env_context opts).
Definition init_spdk_config (config : spdk_config) (opts : spdk_env_opts) : fn w Z := body (
  modify (fun w => match cf_namespaceId config with Some n => set_namespaceId (i32 (u32 n)) w | None => w end) ;;
  rc <- call (dev_op (spdk_env_init (demeter_opts opts))) ;
  if rc <? 0 then return_ (-1)
  else
    ' (rc, ctrlrs) <- call (dev_op (spdk_nvme_probe SPDK_TRADDR)) ;
    call (attach_all ctrlrs) ;;
    if negb (rc =? 0) then return_ (-1)
    else modify (set_init_flag true) ;; normal 0).

(** [argv] is [None] for a null pointer. *)
Definition init_spdk (argc : Z) (argv : option (list string)) : fn w Z := body (
  DMTR_TRUE ERANGE (argc >=? 0) ;;
  (if argc >? 0 then DMTR_NOTNULL EINVAL argv else normal tt) ;;
  w <- get ;
  DMTR_TRUE EPERM (negb (our_spdk_init_flag w)) ;;
  match po_config_path (default [] argv) (sw_dev w) with
  | None => return_ 0
  | Some config_path =>
      if sys_access_R_OK config_path (sw_dev w) =? -1 then return_ ENOENT
      else
        r <- call (init_spdk_config (yaml_load config_path (sw_dev w)) spdk_env_opts_init) ;
        normal r
  end).
End init.

(** ** The queue *)

(** The control points of the push worker: [while (tq.empty())]; the loop in
    [file_push] that waits for the completion of the write, with the task's
    slot and the buffer.  The pop worker only has the first. *)
Inductive sq_push_k :=
| SqPushIdle
| SqWait (t buf : Z).
Inductive sq_pop_k := SqPopIdle.

Record spdk_queue := mk_spdk_queue {
  sq_base : io_queue;
  logOffset : Z;
  partialBlockUsage : Z;
  sq_push_thread : option (user_thread sq_push_k);
  sq_pop_thread : option (user_thread sq_pop_k)
}.
Definition set_sq_base (b : io_queue) (q : spdk_queue) := mk_spdk_queue b (logOffset q) (partialBlockUsage q) (sq_push_thread q) (sq_pop_thread q).
Definition set_logOffset (n : Z) (q : spdk_queue) := mk_spdk_queue (sq_base q) n (partialBlockUsage q) (sq_push_thread q) (sq_pop_thread q).
Definition set_partialBlockUsage (n : Z) (q : spdk_queue) := mk_spdk_queue (sq_base q) (logOffset q) n (sq_push_thread q) (sq_pop_thread q).
Definition set_sq_push_thread (th : option (user_thread sq_push_k)) (q : spdk_queue) := mk_spdk_queue (sq_base q) (logOffset q) (partialBlockUsage q) th (sq_pop_thread q).
Definition set_sq_pop_thread (th : option (user_thread sq_pop_k)) (q : spdk_queue) := mk_spdk_queue (sq_base q) (logOffset q) (partialBlockUsage q) (sq_push_thread q) th.

Definition spdk_queue_ctor (qd : Z) : spdk_queue := mk_spdk_queue (io_queue_ctor FILE_Q qd) 0 0 None None.

(** The objects of this library OS. *)
Inductive spdk_object :=
| SMemObj (q : memory_queue)
| SpdkObj (q : spdk_queue).
Definition as_smem (o : spdk_object) : option memory_queue := match o with SMemObj q => Some q | _ => None end.
Definition as_sq (o : spdk_object) : option spdk_queue := match o with SpdkObj q => Some q | _ => None end.

Section spdk_queue.
Context {D : Type} `{SD : SpdkDevice D}.
Abbreviation env := (qenv spdk_object (sworld D)).

Definition sq_get (self : Z) : stmt env spdk_queue := fun e =>
  match e_queues e !! self with
  | Some (SpdkObj q) => Ok (inl q) e
  | _ => Undef
  end.
Definition sq_modify (self : Z) (f : spdk_queue -> spdk_queue) : stmt env unit :=
  call (on_object as_sq SpdkObj self (fun q => Ok tt (f q))).
Definition sq_on_base {A} (self : Z) (m : fn io_queue A) : fn env A :=
  on_object as_sq SpdkObj self (zoom sq_base set_sq_base m).
Definition on_sworld {A} (m : fn (sworld D) A) : fn env A := zoom e_world set_e_world m.
Definition sq_task (t : Z) (q : spdk_queue) : task := slot_task t (sq_base q).

(** A call of the device that works on memory. *)
Definition dma {A} (f : heap -> D -> A * heap * D) : fn env A := on_sworld (fun w =>
  let '(a, h, d) := f (sw_heap w) (sw_dev w) in Ok a (set_sw_mem h d w)).
Definition dma_read {A} (f : heap -> D -> A * D) : fn env A :=
  dma (fun h d => let '(a, d') := f h d in (a, h, d')).
Definition memcpy (dst src n : Z) : fn env unit :=
  on_sworld (world_heap (fbind (load_bytes src n) (store_bytes dst))).

(** ** [file_push]

    [total_len] is 32 bits wide. *)
Fixpoint total_len_loop (n : Z) (segs : list dmtr_sgaseg) (total_len : Z) : option Z :=
  if n <=? 0 then Some total_len
  else match segs with
       | [] => None
       | s :: segs' => total_len_loop (n - 1) segs' (u32 (total_len + sgaseg_len s))
       end.
(** The copy of the segments to the buffer, from [p] on. *)
Fixpoint copy_segs (n : Z) (segs : list dmtr_sgaseg) (p : Z) : fn env unit :=
  if n <=? 0 then fret tt
  else match segs with
       | [] => undef
       | s :: segs' => fbind (memcpy p (sgaseg_buf s) (sgaseg_len s)) (fun _ => copy_segs (n - 1) segs' (p + sgaseg_len s))
       end.
(** [(total_len + partialBlockUsage - partial_block_size) / sectorSize +
     (partial_block_size > 0) ? 1 : 0]: the conditional has the lowest
    precedence. *)
Definition num_blocks_of (total_len used partial_block_size sectorSize : Z) : Z :=
  if u64 (u64 (u32 (total_len + used) - partial_block_size) / sectorSize + (if partial_block_size >? 0 then 1 else 0)) =? 0
  then 0 else 1.

(** [file_push] up to the loop that waits for the completion: the buffer, or an
    early return. *)
Definition file_push_begin (self : Z) (sga : dmtr_sgarray) : stmt env Z :=
  e <- get ;
  let w := e_world e in
  DMTR_TRUE EPERM (our_spdk_init_flag w) ;;
  total_len <- need (total_len_loop (sga_numsegs sga) (sga_segs sga) 0) ;
  q <- sq_get self ;
  let used := partialBlockUsage q in
  let sector := sp_sectorSize w in
  (* a division by zero is undefined *)
  (if sector =? 0 then undef else normal tt) ;;
  let partial_block_size := u32 (used + total_len) mod sector in
  let num_blocks := num_blocks_of total_len used partial_block_size sector in
  buf <- call (dma (spdk_malloc (u64 (num_blocks * sector)) 0x200)) ;
  (if negb (used =? 0) then call (memcpy buf (sp_partialBlock w) used) else normal tt) ;;
  call (copy_segs (sga_numsegs sga) (sga_segs sga) (if negb (used =? 0) then buf + used else buf)) ;;
  (if u32 (u32 (logOffset q * sector) + total_len) >? sp_namespaceSize w then return_ (- ENOSPC) else normal tt) ;;
  sq_modify self (set_partialBlockUsage (u32 partial_block_size)) ;;
  (if negb (partial_block_size =? 0)
   then call (memcpy (sp_partialBlock w) (buf + (num_blocks - 1) * sector) partial_block_size)
   else normal tt) ;;
  rc <- call (dma_read (spdk_nvme_ns_cmd_write (sp_ns w) (sp_qpair w) buf (logOffset q) num_blocks)) ;
  (if negb (rc =? 0) then return_ rc else normal tt) ;;
  sq_modify self (fun q => set_logOffset (u32 (logOffset q + num_blocks)) q) ;;
  (if negb (partial_block_size =? 0) then sq_modify self (fun q => set_logOffset (u32 (logOffset q - 1)) q)
   else normal tt) ;;
  normal buf.

(** ** The workers *)
Definition sq_push_finish (self t ret : Z) : stmt env (next sq_push_k) :=
  (if negb (ret =? 0) then DMTR_OK (sq_on_base self (on_slot t (task_complete ret)))
   else q <- sq_get self ;
        DMTR_OK (sq_on_base self (on_slot t (task_complete_sga 0 (my_sga_arg (sq_task t q)))))) ;;
  normal (Continue SqPushIdle).

Definition sq_push_step (self : Z) (k : sq_push_k) (tq : list Z) : fn env (list Z * next sq_push_k) :=
  match k with
  | SqPushIdle =>
      match tq with
      | [] => in_thread tq (normal (Yield SqPushIdle))
      | qt :: tq => in_thread tq (
          t <- DMTR_OK_out (sq_on_base self (get_task_ptr qt)) ;
          q <- sq_get self ;
          let arg := task_arg_sga (sq_task t q) in
          DMTR_TRUE EINVAL (match arg with Some _ => true | None => false end) ;;
          sga <- need arg ;
          len <- DMTR_OK_out (dmtr_sgalen (Some 0) (Some sga)) ;
          sgalen <- need len ;
          if sgalen =? 0 then
            DMTR_OK (sq_on_base self (on_slot t (task_complete ENOMSG))) ;;
            normal (Continue SqPushIdle)
          else
            r <- call (file_push_begin self sga) ;
            match r with
            | inl buf => normal (Continue (SqWait t buf))
            | inr ret => sq_push_finish self t ret
            end)
      end
  | SqWait t buf => in_thread tq (
      e <- get ;
      rc <- call (dma_read (spdk_nvme_qpair_process_completions (sp_qpair (e_world e)) 1)) ;
      if rc =? 0 then normal (Yield (SqWait t buf))
      else
        call (dma (fun h d => let '(h', d') := spdk_free buf h d in (tt, h', d'))) ;;
        sq_push_finish self t 0)
  end.

(** [file_pop] reads nothing and returns 0. *)
Definition file_pop (sga : dmtr_sgarray) : Z * dmtr_sgarray := (0, sga).
Definition sq_pop_step (self : Z) (k : sq_pop_k) (tq : list Z) : fn env (list Z * next sq_pop_k) :=
  match tq with
  | [] => in_thread tq (normal (Yield SqPopIdle))
  | qt :: tq => in_thread tq (
      t <- DMTR_OK_out (sq_on_base self (get_task_ptr qt)) ;
      let '(ret, sga) := file_pop sgarray_zero in
      if EAGAIN =? ret then normal (Yield SqPopIdle)
      else
        (if negb (ret =? 0) then DMTR_OK (sq_on_base self (on_slot t (task_complete ret)))
         else DMTR_OK (sq_on_base self (on_slot t (task_complete_sga 0 sga)))) ;;
        normal (Continue SqPopIdle))
  end.

(** ** The methods; [fuel] bounds the control points crossed in one service *)
Context (fuel : nat).

Definition sq_new_object (qd : Z) : fn (sworld D) (Z * option spdk_object) := body_out None (
  w <- get ;
  DMTR_TRUE EPERM (our_spdk_init_flag w) ;;
  normal (Some (SpdkObj (spdk_queue_ctor qd)))).

Definition sq_start_threads (self : Z) : fn env unit :=
  fbind (user_thread_ctor (sq_push_step self) fuel SqPushIdle) (fun th =>
  fbind (sq_modify self (set_sq_push_thread (Some th))) (fun _ =>
  fbind (user_thread_ctor (sq_pop_step self) fuel SqPopIdle) (fun th =>
  fbind (sq_modify self (set_sq_pop_thread (Some th))) (fun _ => fret tt)))).

Definition need_spdk : stmt env unit :=
  e <- get ;
  DMTR_TRUE EPERM (our_spdk_init_flag (e_world e)).
Definition sq_open (self : Z) (pathname : list Z) (flags : Z) : fn env Z := body (
  need_spdk ;;
  call (sq_start_threads self) ;;
  normal 0).
Definition sq_open2 (self : Z) (pathname : list Z) (flags mode : Z) : fn env Z := body (
  need_spdk ;;
  call (sq_start_threads self) ;;
  normal 0).
Definition sq_creat (self : Z) (pathname : list Z) (mode : Z) : fn env Z := body (
  need_spdk ;;
  call (sq_start_threads self) ;;
  normal 0).

Definition sq_service_push (self : Z) : fn env Z := body (
  q <- sq_get self ;
  th <- need (sq_push_thread q) ;
  ' (ret, th) <- call (service (sq_push_step self) fuel th) ;
  sq_modify self (set_sq_push_thread (Some th)) ;;
  normal ret).
Definition sq_service_pop (self : Z) : fn env Z := body (
  q <- sq_get self ;
  th <- need (sq_pop_thread q) ;
  ' (ret, th) <- call (service (sq_pop_step self) fuel th) ;
  sq_modify self (set_sq_pop_thread (Some th)) ;;
  normal ret).

Definition sq_push (self qt : Z) (sga : dmtr_sgarray) : fn env Z := body (
  need_spdk ;;
  q <- sq_get self ;
  DMTR_NOTNULL EINVAL (sq_push_thread q) ;;
  DMTR_OK (sq_on_base self (new_task_sga qt DMTR_OPC_PUSH sga)) ;;
  sq_modify self (fun q => set_sq_push_thread (th_enqueue qt <$> sq_push_thread q) q) ;;
  _ <- call (sq_service_push self) ;
  normal 0).
Definition sq_pop (self qt : Z) : fn env Z := body (
  need_spdk ;;
  q <- sq_get self ;
  DMTR_NOTNULL EINVAL (sq_pop_thread q) ;;
  DMTR_OK (sq_on_base self (new_task qt DMTR_OPC_POP)) ;;
  sq_modify self (fun q => set_sq_pop_thread (th_enqueue qt <$> sq_pop_thread q) q) ;;
  normal 0).

Definition sq_poll_service (self : Z) (op : dmtr_opcode) : stmt env Z :=
  match op with
  | DMTR_OPC_PUSH => call (sq_service_push self)
  | DMTR_OPC_POP => call (sq_service_pop self)
  | DMTR_OPC_CONNECT => normal 0
  | _ => return_ ENOTSUP
  end.
Definition sq_poll (self : Z) (qr_out : dmtr_qresult) (qt : Z) : fn env (Z * dmtr_qresult) :=
  fbind (sq_get self) (fun r => match r with
  | inr _ => undef
  | inl q =>
      match initialize_result (my_qd (sq_base q)) qt qr_out with
      | Ok err qr =>
          fbind (
            DMTR_OK (fret err) ;;
            need_spdk ;;
            t <- DMTR_OK_out (sq_on_base self (get_task_ptr qt)) ;
            q <- sq_get self ;
            ret <- sq_poll_service self (task_opcode (sq_task t q)) ;
            (if ret =? EAGAIN then normal tt
             else if ret =? 0 then DMTR_UNREACHABLE
             else DMTR_FAIL ret) ;;
            q <- sq_get self ;
            normal (task_poll qr (sq_task t q)))
          (fun r => match r with inl a => fret a | inr e => fret (e, qr) end)
      | _ => undef
      end
  end).

Definition sq_drop (self qt : Z) : fn env Z := sq_on_base self (io_queue_drop qt).

(** ** The vtable *)
Definition sq_vcall (self : Z) (c : vcall) : fn env Z :=
  match c with
  | VOpen p f => sq_open self p f
  | VOpen2 p f m => sq_open2 self p f m
  | VCreat p m => sq_creat self p m
  | VClose => io_queue_close
  | VPush qt sga => sq_push self qt sga
  | VPop qt => sq_pop self qt
  | VDrop qt => sq_drop self qt
  | _ => io_queue_unsupported
  end.

Definition sdispatch {A} (self : Z) (mem : fn memory_queue A) (sq : fn env A) : fn env A := fun e =>
  match e_queues e !! self with
  | None => Undef
  | Some (SMemObj _) => on_object as_smem SMemObj self mem e
  | Some (SpdkObj _) => sq e
  end.

Definition spdk_base (o : spdk_object) : io_queue := match o with SMemObj q => mq_base q | SpdkObj q => sq_base q end.
Definition set_spdk_base (b : io_queue) (o : spdk_object) : spdk_object :=
  match o with SMemObj q => SMemObj (set_mq_base b q) | SpdkObj q => SpdkObj (set_sq_base b q) end.

#[export] Instance spdk_vtable : Queue spdk_object (sworld D) := {|
  q_base := spdk_base;
  set_q_base := set_spdk_base;
  q_vcall p c := sdispatch p (mq_vcall c) (sq_vcall p c);
  q_getsockname p saddr size := sdispatch p (fret (ENOTSUP, None)) (fret (ENOTSUP, None));
  q_accept p qt new_qd := sdispatch p (fret (ENOTSUP, None)) (fret (ENOTSUP, None));
  q_poll p qr qt := sdispatch p (mq_poll qr qt) (sq_poll p qr qt);
  q_destroy _ := fret tt
|}.
End spdk_queue.
