(* ===== verification/SpdkLaws.v ===== *)
(** * SPDK queues keep the promises of the queue interface

    With these laws the theorems on the API and on the entry points
    ([IoQueueApi], [Wait], [Libos]) hold of the SPDK library OS. *)
From S2P Require Import Prelude Cmd Types Memory IoQueue UserThread MemoryQueue Queue MemoryVtable IoQueueApi Libos SpdkQueue.

Section laws.
Context {D : Type} `{SD : SpdkDevice D} (fuel : nat).
Abbreviation env := (qenv spdk_object (sworld D)).
Abbreviation shape := (same_shape (H := spdk_vtable fuel)).

Lemma as_sq_base (o : spdk_object) q : as_sq o = Some q -> spdk_base o = sq_base q.
Proof. by destruct o as [|q']; [|intros [= ->]]. Qed.
Lemma as_smem_base (o : spdk_object) q : as_smem o = Some q -> spdk_base o = mq_base q.
Proof. by destruct o as [q'|]; [intros [= ->]|]. Qed.

Lemma keeps_sq_get self : keeps shape (sq_get self).
Proof.
  intros e. unfold post, sq_get. destruct (e_queues e !! self) as [[|q]|]; first [done|apply (same_shape_refl (H := spdk_vtable fuel))].
Qed.
Lemma keeps_sq_modify self f : (forall q, sq_base (f q) = sq_base q) -> keeps shape (sq_modify self f).
Proof.
  intros Hf. apply keeps_call; [apply _|]. intros e.
  apply (on_object_shape (H := spdk_vtable fuel) _ _ sq_base); [apply as_sq_base|done|].
  intros q. unfold post, same_base. by rewrite Hf.
Qed.
Lemma keeps_sq_on_base {A} self (m : fn io_queue A) :
  (forall b, wlp m (fun _ b' => same_base b b') b) -> keeps shape (sq_on_base self m).
Proof.
  intros Hm e. apply (on_object_shape (H := spdk_vtable fuel) _ _ sq_base); [apply as_sq_base|done|].
  intros q. rewrite post_zoom. eapply post_mono; [apply Hm|done].
Qed.
Lemma keeps_on_sworld {A} (m : fn (sworld D) A) : keeps shape (on_sworld m).
Proof. intros e. unfold post, on_sworld, zoom. destruct (m _); first [done|apply (same_shape_world (H := spdk_vtable fuel))]. Qed.
End laws.

Ltac sq_keeps :=
  repeat first
  [ keeps_step
  | apply keeps_sq_get | apply keeps_sq_modify; done | apply keeps_on_sworld
  | apply keeps_sq_on_base; first [apply get_task_ptr_base | apply on_slot_base]
  | lazymatch goal with |- keeps _ (if ?x then _ else _) => destruct x end
  | lazymatch goal with |- keeps _ (match ?x with _ => _ end) => destruct x end ].

Section methods.
Context {D : Type} `{SD : SpdkDevice D} (fuel : nat).
Abbreviation env := (qenv spdk_object (sworld D)).
Abbreviation shape := (same_shape (H := spdk_vtable fuel)).

Lemma keeps_copy_segs n segs p : keeps shape (copy_segs n segs p).
Proof. revert n p. induction segs as [|s segs IH]; intros n p; cbn [copy_segs]; sq_keeps. apply IH. Qed.
Lemma keeps_file_push_begin self sga : keeps shape (file_push_begin self sga).
Proof. unfold file_push_begin. sq_keeps; apply keeps_copy_segs. Qed.
Lemma keeps_sq_push_finish self t ret : keeps shape (sq_push_finish self t ret).
Proof. unfold sq_push_finish. sq_keeps. Qed.
Lemma keeps_sq_push_step self k tq : keeps shape (sq_push_step self k tq).
Proof.
  destruct k; [destruct tq|]; unfold sq_push_step, in_thread; sq_keeps;
    try apply keeps_sq_push_finish; try apply keeps_file_push_begin.
  unfold dmtr_sgalen. sq_keeps.
Qed.
Lemma keeps_sq_pop_step self k tq : keeps shape (sq_pop_step self k tq).
Proof. destruct tq; unfold sq_pop_step, in_thread, file_pop; sq_keeps. Qed.
Lemma keeps_sq_start_threads self : keeps shape (sq_start_threads fuel self).
Proof.
  unfold sq_start_threads, user_thread_ctor. sq_keeps; apply keeps_run; try apply _;
    [apply keeps_sq_push_step|apply keeps_sq_pop_step].
Qed.
Lemma keeps_sq_service_push self : keeps shape (sq_service_push fuel self).
Proof. unfold sq_service_push. sq_keeps. apply keeps_service; [apply _|apply keeps_sq_push_step]. Qed.
Lemma keeps_sq_service_pop self : keeps shape (sq_service_pop fuel self).
Proof. unfold sq_service_pop. sq_keeps. apply keeps_service; [apply _|apply keeps_sq_pop_step]. Qed.
Lemma keeps_sq_cmd self c qt : keeps shape (sq_on_base self (run_cmd c qt)).
Proof. apply keeps_sq_on_base, run_cmd_base. Qed.
Lemma keeps_sq_push self qt sga : keeps shape (sq_push fuel self qt sga).
Proof.
  unfold sq_push, need_spdk. sq_keeps; [|apply keeps_sq_service_push].
  exact (keeps_sq_cmd self (CNewSga DMTR_OPC_PUSH sga) qt).
Qed.
Lemma keeps_sq_pop self qt : keeps shape (sq_pop self qt).
Proof. unfold sq_pop, need_spdk. sq_keeps. exact (keeps_sq_cmd self (CNew DMTR_OPC_POP) qt). Qed.
Lemma keeps_sq_poll self qr qt : keeps shape (sq_poll fuel self qr qt).
Proof.
  unfold sq_poll, need_spdk, sq_poll_service.
  sq_keeps; first [apply keeps_sq_service_push|apply keeps_sq_service_pop].
Qed.
Lemma keeps_sq_vcall self c : keeps shape (sq_vcall fuel self c).
Proof.
  destruct c; cbn [sq_vcall]; unfold io_queue_unsupported, io_queue_close;
    try (by keeps_step); [ | | |apply keeps_sq_push|apply keeps_sq_pop|exact (keeps_sq_cmd self CDrop qt)].
  all: unfold sq_open, sq_open2, sq_creat, need_spdk; sq_keeps; apply keeps_sq_start_threads.
Qed.

Lemma keeps_sdispatch {A} self (mem : fn memory_queue A) (sq : fn env A) :
  keeps same_mq_base mem -> keeps shape sq -> keeps shape (sdispatch self mem sq).
Proof.
  intros Hm Hs e. unfold post, sdispatch. destruct (e_queues e !! self) as [[q|q]|] eqn:Eq; [|apply Hs|done].
  apply (on_object_shape (H := spdk_vtable fuel) as_smem SMemObj mq_base); [apply as_smem_base|done|exact Hm].
Qed.

#[export] Instance spdk_laws : QueueLaws spdk_object (sworld D) (H := spdk_vtable fuel).
Proof.
  constructor.
  - by intros b [q|q].
  - intros p c e. apply keeps_sdispatch; [apply mq_vcall_keeps|apply keeps_sq_vcall].
  - intros p a n e. apply keeps_sdispatch; by keeps_step.
  - intros p qr qt e. apply keeps_sdispatch; [apply mq_poll_keeps|apply keeps_sq_poll].
  - intros p qt qd e. apply post_and; [apply keeps_sdispatch; by keeps_step|].
    unfold post, q_accept; cbn. unfold sdispatch, on_object. by destruct (e_queues e !! p) as [[q|q]|].
Qed.

(** ** The library OS *)
Definition sq_mem_ctor (qd : Z) : fn (sworld D) (Z * option spdk_object) :=
  fbind (mq_ctor qd) (fun r => fret (fst r, SMemObj <$> snd r)).
Definition spdk_library (argc : Z) (argv : option (list String.string)) : libos spdk_object (sworld D) :=
  spdk_libos sq_mem_ctor sq_new_object (init_spdk argc argv).

Lemma spdk_ctors_ok argc argv : ctors_ok (HQ := spdk_vtable fuel) (spdk_library argc argv).
Proof.
  split; [by vm_compute; repeat constructor; set_solver|].
  intros cid c Hin qd w. cbn in Hin. rewrite !elem_of_cons, elem_of_nil in Hin.
  destruct Hin as [[= _ ->]|[[= _ ->]|[]]]; unfold post.
  - unfold sq_mem_ctor, fbind. destruct (mq_ctor_eq qd w) as (q & -> & Hb). cbn. intros _ q' [= <-]. cbn. by rewrite Hb.
  - unfold sq_new_object, body_out, sbind, fbind, get, DMTR_TRUE. destruct (our_spdk_init_flag w); cbn; [|done].
    by intros _ q [= <-].
Qed.

(** Whatever a process does with the SPDK library OS, the API stays well
    formed. *)
Lemma spdk_process_ok argc argv w p :
  rtc (libos_step (HQ := spdk_vtable fuel) (spdk_library argc argv)) (NoApi w) p -> proc_ok (HQ := spdk_vtable fuel) p.
Proof. apply (libos_run_ok (HQ := spdk_vtable fuel)); [apply spdk_laws|apply spdk_ctors_ok]. Qed.
End methods.
