(* ===== verification/SpdkLog.v ===== *)
(** * The log of an SPDK file queue

    What [file_push] does on a device that behaves as NVMe documents, and what
    it does to a push that does not fit in the current sector. *)
From Stdlib Require Import String.
From S2P Require Import Prelude Cmd Types Memory IoQueue UserThread MemoryQueue Queue MemoryVtable Contents PosixWire SpdkQueue.

(** ** What the device promises

    A view of the device: the contents of its blocks, the write that was
    accepted and not completed (buffer and block), and the blocks of memory it
    has handed out. *)
Record nvme_view (D : Type) := mk_nvme_view {
  nv_block : D -> Z -> list Z;
  nv_pending : D -> option (Z * Z);
  nv_dma : D -> gmap Z Z
}.
Arguments mk_nvme_view {D}.
Arguments nv_block {D}.
Arguments nv_pending {D}.
Arguments nv_dma {D}.

(** The library, as documented, on a namespace [ns] of [sector]-byte blocks:
    memory is available, fresh, and released by [spdk_free]; a write of one
    block is accepted when none is outstanding; processing completions either
    finds nothing yet or finds that the block written holds what was stored in
    the buffer.  The library does not touch other memory. *)
Record nvme_spec {D} `{SD : SpdkDevice D} (V : nvme_view D) (ns qpair sector : Z) : Prop := {
  nv_malloc : forall align h d, exists p h' d',
    spdk_malloc sector align h d = (p, h', d') /\
    (forall x, p <= x < p + sector -> h_cells h !! x = None) /\ mapped h' p sector /\ same_outside p sector h h' /\
    nv_block V d' = nv_block V d /\ nv_pending V d' = nv_pending V d /\ nv_dma V d' = <[p := sector]> (nv_dma V d);
  nv_free : forall p n h d h' d', nv_dma V d !! p = Some n -> spdk_free p h d = (h', d') ->
    (forall x, x < p \/ p + n <= x -> h_cells h' !! x = h_cells h !! x) /\
    nv_block V d' = nv_block V d /\ nv_pending V d' = nv_pending V d;
  nv_write : forall buf lba h d, nv_pending V d = None -> nv_dma V d !! buf = Some sector -> exists d',
    spdk_nvme_ns_cmd_write ns qpair buf lba 1 h d = (0, d') /\
    nv_block V d' = nv_block V d /\ nv_pending V d' = Some (buf, lba) /\ nv_dma V d' = nv_dma V d;
  nv_process : forall buf lba h d, nv_pending V d = Some (buf, lba) -> exists rc d',
    spdk_nvme_qpair_process_completions qpair 1 h d = (rc, d') /\ nv_dma V d' = nv_dma V d /\
    (rc = 0 /\ nv_block V d' = nv_block V d /\ nv_pending V d' = nv_pending V d \/
     rc = 1 /\ nv_pending V d' = None /\ (forall b, b <> lba -> nv_block V d' b = nv_block V d b) /\
     forall bs i c, holds h buf bs -> len32 bs <= sector -> bs !! i = Some c -> nv_block V d' lba !! i = Some c)
}.

(** The bytes [L], stored in the blocks from the first. *)
Definition on_device (block : Z -> list Z) (sector : Z) (L : list Z) : Prop :=
  forall i b, L !! i = Some b -> block (Z.of_nat i / sector) !! Z.to_nat (Z.of_nat i mod sector) = Some b.

(** Completing the last, partly filled, block. *)
Lemma on_device_append block block' sector L data lba :
  0 < sector -> 0 <= lba -> on_device block sector L -> lba * sector <= len32 L -> len32 (L ++ data) <= (lba + 1) * sector ->
  (forall b, b <> lba -> block' b = block b) ->
  (forall i c, (drop (Z.to_nat (lba * sector)) L ++ data) !! i = Some c -> block' lba !! i = Some c) ->
  on_device block' sector (L ++ data).
Proof.
  intros Hs Hlba Hdev HL Hfit Hother Hnew i b Hb.
  pose proof (lookup_lt_Some _ _ _ Hb) as Hi. unfold len32 in *.
  destruct (decide (Z.of_nat i < lba * sector)) as [Hlt|Hge].
  - rewrite lookup_app_l in Hb by lia. rewrite Hother; [by apply Hdev|].
    enough (Z.of_nat i / sector < lba) by lia. apply Z.div_lt_upper_bound; lia.
  - assert (Hq : Z.of_nat i / sector = lba).
    { symmetry. apply Z.div_unique with (Z.of_nat i - lba * sector); lia. }
    rewrite Hq. apply Hnew.
    replace (Z.of_nat i mod sector) with (Z.of_nat i - lba * sector).
    2:{ rewrite Z.mod_eq, Hq by lia. lia. }
    rewrite <- drop_app_le by lia. rewrite lookup_drop. rewrite <- Hb. f_equal. lia.
Qed.

(** ** The log a queue represents *)
Section log.
Context {D : Type} `{SD : SpdkDevice D} (V : nvme_view D).
Abbreviation env := (qenv spdk_object (sworld D)).

Record log_ok (q : spdk_queue) (w : sworld D) (L : list Z) : Prop := {
  lg_init : our_spdk_init_flag w = true;
  lg_sector : 0 < sp_sectorSize w < 2 ^ 32;
  lg_size : 0 <= sp_namespaceSize w < 2 ^ 32;
  lg_offset : 0 <= logOffset q < 2 ^ 32;
  lg_usage : 0 <= partialBlockUsage q < sp_sectorSize w;
  lg_length : len32 L = logOffset q * sp_sectorSize w + partialBlockUsage q;
  lg_partial : holds (sw_heap w) (sp_partialBlock w) (drop (Z.to_nat (logOffset q * sp_sectorSize w)) L);
  lg_memory : mapped (sw_heap w) (sp_partialBlock w) (sp_sectorSize w);
  lg_device : on_device (nv_block V (sw_dev w)) (sp_sectorSize w) L;
  lg_idle : nv_pending V (sw_dev w) = None
}.

(** A push of the bytes [data], at [p], that fits in the current block and in
    the namespace. *)
Record push_fits (q : spdk_queue) (w : sworld D) (sga : dmtr_sgarray) (p : Z) (data : list Z) : Prop := {
  pf_numsegs : sga_numsegs sga = 1;
  pf_segs : sga_segs sga = [mk_sgaseg p (len32 data)];
  pf_data : 0 < len32 data;
  pf_holds : holds (sw_heap w) p data;
  pf_block : partialBlockUsage q + len32 data <= sp_sectorSize w;
  pf_space : logOffset q * sp_sectorSize w + len32 data <= sp_namespaceSize w
}.

Lemma total_len_eq sga p data :
  sga_numsegs sga = 1 -> sga_segs sga = [mk_sgaseg p (len32 data)] -> len32 data < 2 ^ 32 ->
  total_len_loop (sga_numsegs sga) (sga_segs sga) 0 = Some (len32 data).
Proof.
  intros -> -> Hl. cbn [total_len_loop sgaseg_len]. change (1 - 1 <=? 0) with true. change (1 <=? 0) with false. cbn iota.
  rewrite wrap_small; [done|]. unfold len32 in *. lia.
Qed.
(** One block is written, and only one, whatever the size of the push. *)
Lemma num_blocks_one n used sector :
  0 < sector < 2 ^ 32 -> 0 <= used -> 0 < n -> used + n < 2 ^ 32 ->
  num_blocks_of n used ((used + n) mod sector) sector = 1.
Proof.
  change (2 ^ 32) with 4294967296. intros Hs Hu Hn Hlt. unfold num_blocks_of.
  pose proof (Z.mod_pos_bound (used + n) sector). pose proof (Z.mod_le (used + n) sector).
  rewrite (wrap_small 32 (n + used)) by (change (2 ^ 32) with 4294967296; lia).
  rewrite (wrap_small 64 (n + used - _)) by (change (2 ^ 64) with 18446744073709551616; lia).
  replace (n + used - (used + n) mod sector) with (((used + n) / sector) * sector).
  2:{ rewrite Z.mod_eq by lia. lia. }
  rewrite Z.div_mul by lia. assert (0 <= (used + n) / sector) by (apply Z.div_pos; lia).
  assert ((used + n) / sector <= used + n) by (apply Z.div_le_upper_bound; nia).
  assert (Hc : 0 < (used + n) / sector + (if (used + n) mod sector >? 0 then 1 else 0) < 18446744073709551616).
  { destruct (_ >? 0) eqn:E; [lia|]. rewrite Z.gtb_ltb in E. zbool.
    assert ((used + n) mod sector = 0) as E0 by lia. rewrite Z.mod_eq in E0 by lia. nia. }
  rewrite wrap_small by (change (2 ^ 64) with 18446744073709551616; lia).
  by rewrite (proj2 (Z.eqb_neq _ 0)) by lia.
Qed.

Definition senv (self : Z) (q : spdk_queue) (w : sworld D) (qs : gmap Z spdk_object) : env :=
  mk_qenv (<[self := SpdkObj q]> qs) w.

Lemma post_sq_get bad self q w qs (Q : spdk_queue + Z -> env -> Prop) :
  Q (inl q) (senv self q w qs) -> post bad (sq_get self) Q (senv self q w qs).
Proof. intros HQ. unfold post, sq_get. cbn. by rewrite lookup_insert_eq. Qed.
Lemma post_sq_modify bad self f q w qs (Q : unit + Z -> env -> Prop) :
  Q (inl tt) (senv self (f q) w qs) -> post bad (sq_modify self f) Q (senv self q w qs).
Proof.
  intros HQ. unfold sq_modify. rewrite post_call. unfold post, on_object. cbn. rewrite lookup_insert_eq. cbn.
  unfold set_e_queues. cbn. rewrite insert_insert_eq. exact HQ.
Qed.
Lemma post_sq_on_base {A} bad self (m : fn io_queue A) a b q w qs (Q : A -> env -> Prop) :
  m (sq_base q) = Ok a b -> Q a (senv self (set_sq_base b q) w qs) -> post bad (sq_on_base self m) Q (senv self q w qs).
Proof.
  intros Hm HQ. unfold post, sq_on_base, on_object, zoom. cbn. rewrite lookup_insert_eq. cbn. rewrite Hm.
  unfold set_e_queues. cbn. rewrite insert_insert_eq. exact HQ.
Qed.
Lemma post_dma {A} bad (f : heap -> D -> A * heap * D) a h d self q w qs (Q : A -> env -> Prop) :
  f (sw_heap w) (sw_dev w) = (a, h, d) -> Q a (senv self q (set_sw_mem h d w) qs) -> post bad (dma f) Q (senv self q w qs).
Proof. intros Hf HQ. unfold post, dma, on_sworld, zoom. cbn. rewrite Hf. exact HQ. Qed.
Lemma post_dma_read {A} bad (f : heap -> D -> A * D) a d self q w qs (Q : A -> env -> Prop) :
  f (sw_heap w) (sw_dev w) = (a, d) -> Q a (senv self q (set_sw_mem (sw_heap w) d w) qs) ->
  post bad (dma_read f) Q (senv self q w qs).
Proof. intros Hf HQ. unfold dma_read. eapply post_dma; [by rewrite Hf|done]. Qed.
(** A copy that stays within the memory. *)
Lemma post_memcpy bad dst src bs self q w qs (Q : unit -> env -> Prop) :
  holds (sw_heap w) src bs -> mapped (sw_heap w) dst (len32 bs) ->
  (forall h, holds h dst bs -> same_outside dst (len32 bs) (sw_heap w) h ->
     Q tt (senv self q (set_sw_mem h (sw_dev w) w) qs)) ->
  post bad (memcpy dst src (len32 bs)) Q (senv self q w qs).
Proof.
  intros Hh Hm HQ. destruct (copy_bytes _ _ _ _ Hh Hm) as (h & E & Hh' & Hs).
  unfold post, memcpy, on_sworld, world_heap, zoom. cbn [e_world senv]. rewrite E. by apply HQ.
Qed.

(** ** [file_push] up to the wait *)
Definition tail (q : spdk_queue) (w : sworld D) (L : list Z) : list Z :=
  drop (Z.to_nat (logOffset q * sp_sectorSize w)) L.
Definition after_push (n sector : Z) (q : spdk_queue) : spdk_queue :=
  set_logOffset (logOffset q + (if partialBlockUsage q + n =? sector then 1 else 0))
    (set_partialBlockUsage ((partialBlockUsage q + n) mod sector) q).

(** The memory and the device when the write is under way. *)
Record written (q : spdk_queue) (w : sworld D) (L data : list Z) (buf : Z) (h : heap) (d : D) : Prop := {
  wr_pending : nv_pending V d = Some (buf, logOffset q);
  wr_blocks : nv_block V d = nv_block V (sw_dev w);
  wr_dma : nv_dma V d !! buf = Some (sp_sectorSize w);
  wr_fresh : forall x, buf <= x < buf + sp_sectorSize w -> h_cells (sw_heap w) !! x = None;
  wr_buffer : holds h buf (tail q w L ++ data);
  wr_partial : partialBlockUsage q + len32 data < sp_sectorSize w -> holds h (sp_partialBlock w) (tail q w L ++ data);
  wr_memory : mapped h (sp_partialBlock w) (sp_sectorSize w);
  wr_frame : forall x v, h_cells (sw_heap w) !! x = Some v ->
    x < sp_partialBlock w \/ sp_partialBlock w + sp_sectorSize w <= x -> h_cells h !! x = Some v
}.

Lemma len32_tail q w L : log_ok q w L -> len32 (tail q w L) = partialBlockUsage q.
Proof.
  intros [? ? ? ? ? HL ? ? ? ?]. unfold tail, len32 in *. rewrite length_drop.
  assert (0 <= logOffset q * sp_sectorSize w) by nia. lia.
Qed.
Lemma u32_succ_pred x : 0 <= x < 2 ^ 32 -> u32 (u32 (x + 1) - 1) = x.
Proof.
  intros Hx. unfold wrap. rewrite Zminus_mod_idemp_l. replace (x + 1 - 1) with x by lia. by apply Z.mod_small.
Qed.

(** The fresh buffer receives the tail of the log and the new bytes. *)
Lemma fill_buffer {A} self q w qs L data p buf h d sector (Q : A + Z -> env -> Prop) (k : stmt env A) :
  holds h (sp_partialBlock w) (tail q w L) -> len32 (tail q w L) = partialBlockUsage q ->
  holds h p data -> mapped h buf sector -> partialBlockUsage q + len32 data <= sector ->
  p + len32 data <= buf \/ buf + sector <= p ->
  (forall h', holds h' buf (tail q w L ++ data) -> same_outside buf sector h h' ->
     wp k Q (senv self q (set_sw_mem h' d w) qs)) ->
  wp ((if negb (partialBlockUsage q =? 0) then call (memcpy buf (sp_partialBlock w) (partialBlockUsage q)) else normal tt) ;;
      call (copy_segs 1 [mk_sgaseg p (len32 data)] (if negb (partialBlockUsage q =? 0) then buf + partialBlockUsage q else buf)) ;;
      k)%cmd Q (senv self q (set_sw_mem h d w) qs).
Proof.
  intros Ht Hlt Hp Hm Hfit Hd2 HQ.
  assert (H0 : 0 <= partialBlockUsage q) by (unfold len32 in Hlt; lia).
  assert (Hn : 0 <= len32 data) by (unfold len32; lia).
  rewrite post_sbind.
  assert (Hk : forall h1, holds h1 buf (tail q w L) -> same_outside buf (partialBlockUsage q) h h1 ->
    wp (call (copy_segs 1 [mk_sgaseg p (len32 data)] (buf + partialBlockUsage q)) ;; k)%cmd Q
       (senv self q (set_sw_mem h1 d w) qs)).
  { intros h1 Hh1 Hs1. rewrite post_sbind, post_call. cbn [copy_segs sgaseg_buf sgaseg_len].
    change (1 <=? 0) with false. cbn iota. rewrite post_fbind.
    apply post_memcpy; cbn [sw_heap set_sw_mem].
    - eapply holds_frame; [done|done|lia].
    - eapply mapped_frame; [|done]. intros x Hx. apply Hm. lia.
    - intros h2 Hh2 Hs2. change (1 - 1 <=? 0) with true. apply HQ.
      + apply holds_app.
        * eapply holds_frame; [done|done|lia].
        * by rewrite Hlt.
      + destruct Hs1 as [Hs1 Hs1'], Hs2 as [Hs2 Hs2']. split; [|by intros x Hx; apply Hs2', Hs1'].
        intros x Hx. cbn [sw_heap set_sw_mem] in Hs2. rewrite Hs2 by lia. apply Hs1. lia. }
  destruct (partialBlockUsage q =? 0) eqn:E; zbool; cbn [negb].
  - rewrite post_normal. rewrite E, Z.add_0_r in Hk. apply Hk.
    + assert (tail q w L = []) as ->; [|apply holds_nil]. apply length_zero_iff_nil. unfold len32 in Hlt. lia.
    + by split.
  - rewrite post_call, <- Hlt. apply post_memcpy; cbn [sw_heap set_sw_mem].
    + done.
    + intros x Hx. apply Hm. lia.
    + intros h1 Hh1 Hs1. rewrite Hlt in *. by apply Hk.
Qed.

(** What [file_push] compares with the namespace's size: where the push ends,
    if it starts with the block, in 32 bits. *)
Definition push_stop (q : spdk_queue) (w : sworld D) (n : Z) : Z := u32 (u32 (logOffset q * sp_sectorSize w) + n).
Lemma push_stop_eq q w n : push_stop q w n = (logOffset q * sp_sectorSize w + n) mod 2 ^ 32.
Proof. unfold push_stop, wrap. by rewrite Zplus_mod_idemp_l. Qed.
Lemma push_stop_small q w n :
  0 <= logOffset q * sp_sectorSize w -> 0 <= n -> logOffset q * sp_sectorSize w + n < 2 ^ 32 ->
  push_stop q w n = logOffset q * sp_sectorSize w + n.
Proof. intros. unfold push_stop. rewrite (wrap_small 32 (logOffset q * _)), wrap_small by lia. done. Qed.

(** [file_push] after the copy: the last, partly filled, block is saved and
    the write submitted. *)
Definition submit (self : Z) (q : spdk_queue) (w : sworld D) (n buf : Z) : stmt env Z :=
  let sector := sp_sectorSize w in
  let size := (partialBlockUsage q + n) mod sector in
  ((if u32 (u32 (logOffset q * sector) + n) >? sp_namespaceSize w then return_ (- ENOSPC) else normal tt) ;;
   sq_modify self (set_partialBlockUsage (u32 size)) ;;
   (if negb (size =? 0) then call (memcpy (sp_partialBlock w) (buf + (1 - 1) * sector) size) else normal tt) ;;
   rc <- call (dma_read (spdk_nvme_ns_cmd_write (sp_ns w) (sp_qpair w) buf (logOffset q) 1)) ;
   (if negb (rc =? 0) then return_ rc else normal tt) ;;
   sq_modify self (fun q => set_logOffset (u32 (logOffset q + 1)) q) ;;
   (if negb (size =? 0) then sq_modify self (fun q => set_logOffset (u32 (logOffset q - 1)) q) else normal tt) ;;
   normal buf)%cmd.

Lemma submit_ok self q w qs L data buf h d :
  nvme_spec V (sp_ns w) (sp_qpair w) (sp_sectorSize w) -> log_ok q w L ->
  0 < len32 data -> partialBlockUsage q + len32 data <= sp_sectorSize w ->
  push_stop q w (len32 data) <= sp_namespaceSize w -> logOffset q + 1 < 2 ^ 32 ->
  nv_pending V d = None -> nv_dma V d !! buf = Some (sp_sectorSize w) -> nv_block V d = nv_block V (sw_dev w) ->
  (forall x, buf <= x < buf + sp_sectorSize w -> h_cells (sw_heap w) !! x = None) ->
  holds h buf (tail q w L ++ data) -> same_outside buf (sp_sectorSize w) (sw_heap w) h ->
  wp (submit self q w (len32 data) buf) (fun r e' => exists h d,
      r = inl buf /\ e' = senv self (after_push (len32 data) (sp_sectorSize w) q) (set_sw_mem h d w) qs /\
      written q w L data buf h d) (senv self q (set_sw_mem h d w) qs).
Proof.
  intros Hspec Hlog Hn Hfit Hsp Hlo1 Hpend Hdma Hblk Hfresh Hbuf Hsame. pose proof (len32_tail _ _ _ Hlog) as Hlt. destruct Hlog.
  assert (Hkeep : forall x v, h_cells (sw_heap w) !! x = Some v -> h_cells h !! x = Some v).
  { intros x v Hx. destruct (decide (buf <= x < buf + sp_sectorSize w)) as [Hin|]; [rewrite Hfresh in Hx by done; done|].
    rewrite (proj1 Hsame) by lia. done. }
  assert (Hdis : sp_partialBlock w + sp_sectorSize w <= buf \/ buf + sp_sectorSize w <= sp_partialBlock w).
  { eapply fresh_disjoint_range; [lia..|exact Hfresh|exact lg_memory0]. }
  assert (Hmem : mapped h (sp_partialBlock w) (sp_sectorSize w)) by (eapply mapped_frame; done).
  unfold submit. fold (push_stop q w (len32 data)).
  assert (Hgt : (push_stop q w (len32 data) >? sp_namespaceSize w) = false).
  { destruct (_ >? _) eqn:E; [apply Z.gtb_lt in E; lia|done]. }
  rewrite Hgt. rewrite post_sbind, post_normal, post_sbind.
  destruct (decide (partialBlockUsage q + len32 data = sp_sectorSize w)) as [E|E].
  - rewrite E, Z.mod_same by lia. change (negb (0 =? 0)) with false. cbn iota. change (u32 0) with 0.
    apply post_sq_modify. rewrite post_sbind, post_normal, post_sbind, post_call.
    destruct (nv_write _ _ _ _ Hspec buf (logOffset q) h d Hpend Hdma) as (d2 & Hw & Hb2 & Hp2 & Hdma2).
    eapply post_dma_read; [exact Hw|]. change (negb (0 =? 0)) with false. rewrite post_sbind, post_normal, post_sbind.
    apply post_sq_modify. rewrite post_sbind, !post_normal. exists h, d2. split; [done|]. split.
    + unfold after_push. rewrite E, Z.eqb_refl, Z.mod_same by lia. cbn. by rewrite wrap_small by lia.
    + split; try done; [congruence|congruence|lia|]. intros x v Hx _. by apply Hkeep.
  - rewrite (Z.mod_small (_ + _)) by lia. rewrite (proj2 (Z.eqb_neq _ 0)) by lia. cbn [negb].
    rewrite wrap_small by lia. apply post_sq_modify. rewrite post_sbind, post_call.
    replace (buf + (1 - 1) * sp_sectorSize w) with buf by lia.
    assert (Hl : len32 (tail q w L ++ data) = partialBlockUsage q + len32 data) by (rewrite len32_app; lia).
    rewrite <- Hl. apply post_memcpy; [done|intros x Hx; apply Hmem; lia|]. intros h2 Hh2 Hs2.
    cbn [sw_heap sw_dev set_sw_mem] in *. rewrite Hl in *.
    rewrite post_sbind, post_call.
    destruct (nv_write _ _ _ _ Hspec buf (logOffset q) h2 d Hpend Hdma) as (d2 & Hw & Hb2 & Hp2 & Hdma2).
    eapply post_dma_read; [exact Hw|]. change (negb (0 =? 0)) with false. rewrite post_sbind, post_normal, post_sbind.
    apply post_sq_modify. rewrite post_sbind. apply post_sq_modify. rewrite post_normal. exists h2, d2. split; [done|]. split.
    + unfold after_push. rewrite (proj2 (Z.eqb_neq _ _) E), (Z.mod_small (_ + _)) by lia. cbn.
      rewrite u32_succ_pred by lia. by rewrite Z.add_0_r.
    + split; try done; [congruence|congruence| | |].
      * eapply holds_frame; [exact Hbuf|exact Hs2|lia].
      * eapply mapped_frame; done.
      * intros x v Hx Hout. rewrite (proj1 Hs2) by lia. by apply Hkeep.
Qed.


(** [file_push] allocates one block, whatever the size of the push. *)
Lemma file_push_begin_eq self q w qs L sga p data buf h d :
  log_ok q w L -> sga_numsegs sga = 1 -> sga_segs sga = [mk_sgaseg p (len32 data)] ->
  0 < len32 data -> partialBlockUsage q + len32 data < 2 ^ 32 ->
  spdk_malloc (sp_sectorSize w) 0x200 (sw_heap w) (sw_dev w) = (buf, h, d) ->
  file_push_begin self sga (senv self q w qs) =
  ((if negb (partialBlockUsage q =? 0) then call (memcpy buf (sp_partialBlock w) (partialBlockUsage q)) else normal tt) ;;
   call (copy_segs 1 [mk_sgaseg p (len32 data)] (if negb (partialBlockUsage q =? 0) then buf + partialBlockUsage q else buf)) ;;
   submit self q w (len32 data) buf)%cmd (senv self q (set_sw_mem h d w) qs).
Proof.
  intros [] Hn Hs Hd Hlt Hmal. unfold file_push_begin.
  rewrite (sbind_Ok get _ (senv self q w qs) _ (senv self q w qs)) by done. cbn zeta. cbn [e_world senv].
  rewrite lg_init0. erewrite sbind_Ok by reflexivity. rewrite (total_len_eq _ p data) by (done || lia).
  erewrite sbind_Ok by reflexivity.
  rewrite (sbind_Ok _ _ q _ (senv self q w qs)) by (unfold sq_get; cbn; by rewrite lookup_insert_eq).
  rewrite (proj2 (Z.eqb_neq (sp_sectorSize w) 0)) by lia. erewrite sbind_Ok by reflexivity.
  rewrite (wrap_small 32 (partialBlockUsage q + len32 data)) by lia. rewrite num_blocks_one by lia.
  rewrite Z.mul_1_l, (wrap_small 64) by (change (2 ^ 32) with 4294967296 in *; change (2 ^ 64) with 18446744073709551616; lia).
  rewrite (sbind_Ok _ _ buf _ (senv self q (set_sw_mem h d w) qs)); [by rewrite Hn, Hs|].
  unfold call, fbind, dma, on_sworld, zoom. cbn. by rewrite Hmal.
Qed.

(** What was in memory before a fresh block is there after it. *)
Lemma holds_fresh h h' buf n p bs :
  (forall x, buf <= x < buf + n -> h_cells h !! x = None) -> same_outside buf n h h' -> holds h p bs -> holds h' p bs.
Proof.
  intros Hf Hs Hh i b Hb. pose proof (Hh _ _ Hb) as Hc. rewrite (proj1 Hs); [done|].
  destruct (decide (buf <= p + Z.of_nat i < buf + n)) as [Hin|]; [|lia]. apply Hf in Hin. congruence.
Qed.

Lemma file_push_begin_ok self q w qs L sga p data :
  nvme_spec V (sp_ns w) (sp_qpair w) (sp_sectorSize w) -> log_ok q w L ->
  sga_numsegs sga = 1 -> sga_segs sga = [mk_sgaseg p (len32 data)] -> 0 < len32 data -> holds (sw_heap w) p data ->
  partialBlockUsage q + len32 data <= sp_sectorSize w ->
  push_stop q w (len32 data) <= sp_namespaceSize w -> logOffset q + 1 < 2 ^ 32 ->
  wp (file_push_begin self sga) (fun r e' => exists buf h d,
      r = inl buf /\ e' = senv self (after_push (len32 data) (sp_sectorSize w) q) (set_sw_mem h d w) qs /\
      written q w L data buf h d) (senv self q w qs).
Proof.
  intros Hspec Hlog Hn Hs Hd Hp Hfit Hsp Hlo1. pose proof (len32_tail _ _ _ Hlog) as Hlt. pose proof Hlog as Hlog'. destruct Hlog'.
  destruct (nv_malloc _ _ _ _ Hspec 0x200 (sw_heap w) (sw_dev w)) as (buf & h1 & d1 & Hmal & Hfresh & Hmap & Hs1 & Hb1 & Hp1 & Hdma1).
  unfold post. rewrite (file_push_begin_eq self q w qs L sga p data buf h1 d1) by (done || lia).
  apply (fill_buffer self q w qs L data p buf h1 d1 (sp_sectorSize w));
    [by eapply holds_fresh|exact Hlt|by eapply holds_fresh|exact Hmap|exact Hfit| |].
  { eapply fresh_disjoint_range; [lia|lia|exact Hfresh|]. intros x Hx. exact (holds_mapped _ _ _ _ Hp Hx). }
  intros h2 Hh2 Hs2. eapply post_mono; [refine (submit_ok self q w qs L data buf h2 d1 Hspec Hlog Hd Hfit Hsp Hlo1 _ _ Hb1 Hfresh Hh2 _)|].
  - by rewrite Hp1.
  - by rewrite Hdma1, lookup_insert_eq.
  - split; [|intros x Hx; by apply Hs2, Hs1]. intros x Hx. rewrite (proj1 Hs2), (proj1 Hs1) by done. done.
  - cbn. intros r e' (h & d & H). by exists buf, h, d.
Qed.

(** ** The log after the write *)
Lemma log_ok_after q w L data buf h d h' d' :
  log_ok q w L -> 0 < len32 data -> partialBlockUsage q + len32 data <= sp_sectorSize w ->
  logOffset q * sp_sectorSize w + len32 data <= sp_namespaceSize w -> written q w L data buf h d ->
  (forall x, x < buf \/ buf + sp_sectorSize w <= x -> h_cells h' !! x = h_cells h !! x) ->
  nv_pending V d' = None -> (forall b, b <> logOffset q -> nv_block V d' b = nv_block V d b) ->
  (forall bs i c, holds h buf bs -> len32 bs <= sp_sectorSize w -> bs !! i = Some c -> nv_block V d' (logOffset q) !! i = Some c) ->
  log_ok (after_push (len32 data) (sp_sectorSize w) q) (set_sw_mem h' d' w) (L ++ data).
Proof.
  intros Hlog Hn Hfit Hsp Hwr Hh' Hpend Hother Hnew. pose proof (len32_tail _ _ _ Hlog) as Hlt. destruct Hlog, Hwr.
  assert (Hlo : 0 <= logOffset q * sp_sectorSize w) by nia.
  assert (Hlo1 : logOffset q + 1 <= logOffset q * sp_sectorSize w + len32 data) by nia.
  assert (Hdis : sp_partialBlock w + sp_sectorSize w <= buf \/ buf + sp_sectorSize w <= sp_partialBlock w).
  { eapply fresh_disjoint_range; [lia..|exact wr_fresh0|exact lg_memory0]. }
  assert (Hlen : len32 (L ++ data) = logOffset q * sp_sectorSize w + (partialBlockUsage q + len32 data)) by (rewrite len32_app; lia).
  assert (Hmem : mapped h' (sp_partialBlock w) (sp_sectorSize w)).
  { intros x Hx. rewrite Hh' by lia. by apply wr_memory0. }
  assert (Hdev : on_device (nv_block V d') (sp_sectorSize w) (L ++ data)).
  { apply (on_device_append (nv_block V (sw_dev w)) _ _ _ _ (logOffset q)); try lia; try done.
    - intros b Hb. by rewrite Hother, wr_blocks0.
    - intros i c Hc. eapply Hnew; [exact wr_buffer0| |exact Hc]. rewrite len32_app. lia. }
  unfold after_push. destruct (partialBlockUsage q + len32 data =? sp_sectorSize w) eqn:E; zbool.
  - rewrite E, Z.mod_same by lia. split; cbn; try done; try lia.
    + rewrite drop_ge; [apply holds_nil|]. unfold len32 in *. lia.
  - rewrite (Z.mod_small (_ + _)), Z.add_0_r by lia. split; cbn; try done; try lia.
    rewrite drop_app_le by (unfold len32 in *; lia). intros i b Hb. rewrite Hh'.
    + apply wr_partial0; [lia|exact Hb].
    + pose proof (lookup_lt_Some _ _ _ Hb) as Hi. unfold tail in Hlt. unfold len32 in *. rewrite length_app in Hi. lia.
Qed.
End log.

(** ** The push worker *)
Section worker.
Context {D : Type} `{SD : SpdkDevice D} (V : nvme_view D).
Abbreviation env := (qenv spdk_object (sworld D)).
Context (self qt p : Z) (data L : list Z) (q : spdk_queue) (w : sworld D) (qs : gmap Z spdk_object).
Abbreviation t := (task_slot qt).
Abbreviation arg := (my_sga_arg (sq_task t q)).

(** The task [qt] is to push [data] to a log that holds [L]. *)
Record spush_ready : Prop := {
  sr_spec : nvme_spec V (sp_ns w) (sp_qpair w) (sp_sectorSize w);
  sr_log : log_ok V q w L;
  sr_fits : push_fits q w arg p data;
  sr_task : has_task qt (sq_base q) = true
}.
Context (Hr : spush_ready).

Abbreviation q1 := (after_push (len32 data) (sp_sectorSize w) q).
Definition push_waiting (buf : Z) (e : env) : Prop := exists h d,
  e = senv self q1 (set_sw_mem h d w) qs /\ written V q w L data buf h d.
(** The log holds the bytes, the task is completed with its array, and no other
    queue, task or memory changed. *)
Definition push_appended (e : env) : Prop := exists h d,
  let q' := set_sq_base (set_slot t (completed_task arg (sq_task t q)) (sq_base q)) q1 in
  e = senv self q' (set_sw_mem h d w) qs /\ log_ok V q' (e_world e) (L ++ data) /\
  forall x v, h_cells (sw_heap w) !! x = Some v ->
    x < sp_partialBlock w \/ sp_partialBlock w + sp_sectorSize w <= x -> h_cells h !! x = Some v.

Definition spush_invariant (k : sq_push_k) (tq : list Z) (e : env) : Prop :=
  match k with
  | SqPushIdle => tq = [qt] /\ e = senv self q w qs \/ tq = [] /\ push_appended e
  | SqWait t' buf => t' = t /\ tq = [] /\ push_waiting buf e
  end.
Definition spush_left (k : sq_push_k) (tq : list Z) (e : env) : nat :=
  match k with SqWait _ _ => 1 | SqPushIdle => match tq with [] => 0 | _ => 2 end end.
Definition spush_stops (th : user_thread sq_push_k) (e : env) : Prop := exists k,
  th = mk_user_thread EAGAIN [] (Some k) /\
  ((exists buf, k = SqWait t buf /\ push_waiting buf e) \/ k = SqPushIdle /\ push_appended e).

Lemma spush_start_step :
  wp (sq_push_step self SqPushIdle [qt]) (fun r e => exists buf, r = ([], Continue (SqWait t buf)) /\ push_waiting buf e)
    (senv self q w qs).
Proof.
  destruct Hr. pose proof sr_fits0 as [Hn Hs Hd Hp Hfit Hsp].
  assert (Hlo : 0 <= logOffset q * sp_sectorSize w /\ logOffset q + 1 <= logOffset q * sp_sectorSize w + len32 data).
  { destruct sr_log0. nia. }
  pose proof (lg_size _ _ _ _ sr_log0). pose proof (push_stop_small q w (len32 data)). pose proof (lg_sector _ _ _ _ sr_log0). pose proof (lg_usage _ _ _ _ sr_log0).
  unfold sq_push_step. rewrite post_in_thread, post_sbind, post_DMTR_OK_out.
  eapply post_sq_on_base; [by apply get_task_ptr_valid|]. cbn [fst snd]. change (0 =? 0) with true. cbn iota.
  replace (set_sq_base (sq_base q) q) with q by (by destruct q).
  rewrite post_sbind. apply post_sq_get. unfold task_arg_sga. rewrite Hn. change (0 =? 1) with false. cbn iota.
  rewrite post_sbind, post_DMTR_TRUE, post_sbind, post_need, post_sbind, post_DMTR_OK_out.
  eapply post_eq; [by apply (sgalen_one _ p data); [| |lia]|]. cbn [fst snd]. change (0 =? 0) with true. cbn iota.
  rewrite post_sbind, post_need, (proj2 (Z.eqb_neq (len32 data) 0)) by lia. rewrite post_sbind, post_call.
  eapply post_mono; [eapply file_push_begin_ok; (done || lia)|]. cbn beta. intros r e' (buf & h & d & -> & -> & Hw).
  rewrite post_normal. exists buf. split; [done|]. by exists h, d.
Qed.

Lemma spush_wait_step buf e :
  push_waiting buf e ->
  wp (sq_push_step self (SqWait t buf) []) (fun r e' =>
    r = ([], Yield (SqWait t buf)) /\ push_waiting buf e' \/ r = ([], Continue SqPushIdle) /\ push_appended e') e.
Proof.
  intros (h & d & -> & Hw). destruct Hr. pose proof sr_fits0 as [_ _ Hd _ Hfit Hsp].
  pose proof (lg_sector _ _ _ _ sr_log0) as Hsec. pose proof Hw as [].
  destruct (nv_process _ _ _ _ sr_spec0 buf (logOffset q) h d wr_pending0) as (rc & d2 & Hp & Hdma & Hcases).
  unfold sq_push_step. rewrite post_in_thread, post_sbind, post_get. cbn zeta. rewrite post_sbind, post_call.
  eapply post_dma_read; [exact Hp|]. destruct Hcases as [(-> & Hb & Hpend)|(-> & Hpend & Hother & Hnew)].
  - change (0 =? 0) with true. rewrite post_normal. left. split; [done|]. exists h, d2. split; [done|].
    split; try done; congruence.
  - change (1 =? 0) with false. cbn iota. rewrite post_sbind, post_call.
    destruct (spdk_free buf h d2) as [h3 d3] eqn:Ef.
    destruct (nv_free _ _ _ _ sr_spec0 buf (sp_sectorSize w) h d2 h3 d3) as (Hh3 & Hb3 & Hp3); [by rewrite Hdma|done|].
    eapply post_dma; [cbn [sw_heap sw_dev set_sw_mem]; by rewrite Ef|].
    unfold sq_push_finish. change (negb (0 =? 0)) with false. rewrite post_sbind, post_sbind. apply post_sq_get.
    rewrite post_DMTR_OK. eapply post_sq_on_base; [apply on_slot_complete_sga|]. change (0 =? 0) with true. cbn iota.
    rewrite post_normal. right. split; [done|]. exists h3, d3. split; [done|]. split.
    + cbn [e_world senv].
      assert (Hlog : log_ok V q1 (set_sw_mem h3 d3 w) (L ++ data)).
      { apply (log_ok_after V q w L data buf h d h3 d3); try done.
        - congruence.
        - intros b Hb. rewrite Hb3. by apply Hother.
        - intros bs i c. rewrite Hb3. apply Hnew. }
      by destruct Hlog.
    + intros x v Hx Hout. rewrite Hh3; [by apply wr_frame0|].
      destruct (decide (buf <= x < buf + sp_sectorSize w)) as [Hin|]; [|lia]. rewrite wr_fresh0 in Hx by done. done.
Qed.

Lemma service_spush fuel k tq e :
  spush_invariant k tq e -> (2 < fuel)%nat ->
  wp (service (sq_push_step self) fuel (mk_user_thread EAGAIN tq (Some k)))
    (fun '(ret, th) e' => ret = EAGAIN /\ spush_stops th e') e.
Proof.
  intros HI Hfuel. unfold service. cbn [th_coroutine th_error th_queue]. rewrite post_fbind.
  eapply post_mono; [apply (run_total _ spush_invariant spush_left spush_stops)|].
  - clear HI. intros k1 tq1 e1 HI. destruct k1 as [|t1 buf].
    + destruct HI as [[-> ->]|[-> Ha]].
      * eapply post_mono; [apply spush_start_step|]. intros r e2 (buf & -> & Hb). split; [done|]. cbn. lia.
      * exists SqPushIdle. split; [done|]. by right.
    + destruct HI as (-> & -> & Hb). eapply post_mono; [by apply spush_wait_step|].
      intros r e2 [[-> Hb2]|[-> Ha]].
      * exists (SqWait t buf). split; [done|]. left. by exists buf.
      * split; [by right|]. cbn. lia.
  - exact HI.
  - destruct k; [destruct tq|]; cbn; lia.
  - cbn. intros th e' (k' & -> & Hk). cbn. split; [done|]. by exists k'.
Qed.
End worker.

(** ** Properties *)
Section properties.
Context {D : Type} `{SD : SpdkDevice D} (V : nvme_view D).
Implicit Types (q : spdk_queue) (w : sworld D).

Lemma submit_nospace self q w n buf s :
  sp_namespaceSize w < push_stop q w n -> submit self q w n buf s = Ok (inr (- ENOSPC)) s.
Proof. intros Hn. unfold submit. fold (push_stop q w n). by rewrite (proj2 (Z.gtb_lt _ _)) by lia. Qed.

(** A fresh block does not disturb the log. *)
Lemma log_ok_fresh q w L buf h d :
  log_ok V q w L -> (forall x, buf <= x < buf + sp_sectorSize w -> h_cells (sw_heap w) !! x = None) ->
  same_outside buf (sp_sectorSize w) (sw_heap w) h ->
  nv_block V d = nv_block V (sw_dev w) -> nv_pending V d = nv_pending V (sw_dev w) ->
  log_ok V q (set_sw_mem h d w) L.
Proof.
  intros [] Hf Hs Hb Hp. split; cbn; try done; try congruence.
  - by eapply holds_fresh.
  - by eapply mapped_frame.
  - by rewrite Hb.
Qed.

(** The copy of a push that is too large for the buffer. *)
Lemma overrun self q w qs L p n buf h d (k : stmt (qenv spdk_object (sworld D)) Z) :
  log_ok V q w L -> holds h (sp_partialBlock w) (tail q w L) -> mapped h buf (sp_sectorSize w) -> 0 < n ->
  h_cells h !! (buf + (partialBlockUsage q + n - 1)) = None ->
  ((if negb (partialBlockUsage q =? 0) then call (memcpy buf (sp_partialBlock w) (partialBlockUsage q)) else normal tt) ;;
   call (copy_segs 1 [mk_sgaseg p n] (if negb (partialBlockUsage q =? 0) then buf + partialBlockUsage q else buf)) ;; k)%cmd
    (senv self q (set_sw_mem h d w) qs) = Undef.
Proof.
  intros Hlog Ht Hm Hn Hc. pose proof (len32_tail _ _ _ _ Hlog) as Htl. destruct Hlog.
  assert (Hcopy : forall h', h_cells h' !! (buf + partialBlockUsage q + (n - 1)) = None ->
    sbind (call (copy_segs 1 [mk_sgaseg p n] (buf + partialBlockUsage q))) (fun _ => k) (senv self q (set_sw_mem h' d w) qs) = Undef).
  { intros h' Hc'. unfold sbind, call, fbind. cbn [copy_segs sgaseg_buf sgaseg_len]. change (1 <=? 0) with false. cbn iota.
    unfold fbind at 1. unfold memcpy, on_sworld, world_heap, zoom. cbn [e_world senv sw_heap set_sw_mem].
    by rewrite copy_bytes_undef. }
  destruct (partialBlockUsage q =? 0) eqn:E; zbool; cbn [negb].
  - erewrite sbind_Ok by reflexivity. rewrite E, Z.add_0_r in Hcopy. apply Hcopy. rewrite <- Hc. f_equal. lia.
  - destruct (copy_bytes h (sp_partialBlock w) buf (tail q w L) Ht) as (h' & Hcp & _ & Hs).
    { intros x Hx. apply Hm. lia. }
    rewrite Htl in *. erewrite (sbind_Ok (call (memcpy _ _ _)) _ tt).
    2:{ unfold call, memcpy, on_sworld, world_heap, zoom. unfold fbind at 1. cbn [e_world senv sw_heap set_sw_mem]. by rewrite Hcp. }
    apply Hcopy. rewrite (proj1 Hs) by lia. rewrite <- Hc. f_equal. lia.
Qed.

(** C14: a push of one segment that fits in the current block appends its bytes
    to the log.
    With a device that behaves as documented, every service of the push worker
    that has the task, from its taking it or from the wait where an earlier
    service left it, ends: either the write has not completed and the worker
    is left waiting for it, or the device holds the old log followed by the new
    bytes, the queue's offsets and the saved block are again those of that log,
    and the task is completed with the array.  Memory outside the saved block
    keeps its contents. *)
Theorem spdk_push_appends self qt p data L q w qs fuel k tq e :
  spush_ready V qt p data L q w -> spush_invariant V self qt data L q w qs k tq e -> (2 < fuel)%nat ->
  wp (service (sq_push_step self) fuel (mk_user_thread EAGAIN tq (Some k)))
    (fun '(ret, th) e' => ret = EAGAIN /\ exists k', th = mk_user_thread EAGAIN [] (Some k') /\
       ((exists buf, k' = SqWait (task_slot qt) buf /\ push_waiting V self data L q w qs buf e') \/
        k' = SqPushIdle /\ push_appended V self qt data L q w qs e')) e.
Proof. intros Hr HI Hf. by apply (service_spush V self qt p data L q w qs Hr). Qed.

(** C15: the limits of [file_push], for an array of one segment.  A push that
    fits in the rest of the current block is refused with [-ENOSPC] exactly when
    the offset of the block plus the length of the push, computed in 32 bits,
    is larger than the size of the namespace: queue and log stay
    as they were, but the buffer is not released.  Otherwise it is accepted: the
    write of the block is under way and the queue's offsets have moved; that holds
    too when the sum wraps around, so a push whose end is at or past 2^32 is not
    refused, whatever the size of the namespace.  A push that does not fit in the
    rest of the current block still gets a buffer of a single block, and is
    undefined when the memory behind the buffer is not allocated. *)
Theorem spdk_push_limits self q w qs L sga p data :
  nvme_spec V (sp_ns w) (sp_qpair w) (sp_sectorSize w) -> log_ok V q w L ->
  sga_numsegs sga = 1 -> sga_segs sga = [mk_sgaseg p (len32 data)] -> holds (sw_heap w) p data ->
  0 < len32 data -> partialBlockUsage q + len32 data < 2 ^ 32 ->
  (partialBlockUsage q + len32 data <= sp_sectorSize w ->
   sp_namespaceSize w < (logOffset q * sp_sectorSize w + len32 data) mod 2 ^ 32 ->
   wp (file_push_begin self sga) (fun r e' => r = inr (- ENOSPC) /\ exists buf h d,
       e' = senv self q (set_sw_mem h d w) qs /\ log_ok V q (set_sw_mem h d w) L /\
       nv_dma V d = <[buf := sp_sectorSize w]> (nv_dma V (sw_dev w))) (senv self q w qs)) /\
  (partialBlockUsage q + len32 data <= sp_sectorSize w -> logOffset q + 1 < 2 ^ 32 ->
   (logOffset q * sp_sectorSize w + len32 data) mod 2 ^ 32 <= sp_namespaceSize w ->
   wp (file_push_begin self sga) (fun r e' => exists buf h d,
       r = inl buf /\ e' = senv self (after_push (len32 data) (sp_sectorSize w) q) (set_sw_mem h d w) qs /\
       written V q w L data buf h d) (senv self q w qs)) /\
  (sp_sectorSize w < partialBlockUsage q + len32 data ->
   (let '(buf, h, _) := spdk_malloc (sp_sectorSize w) 0x200 (sw_heap w) (sw_dev w) in
    h_cells h !! (buf + (partialBlockUsage q + len32 data - 1)) = None) ->
   file_push_begin self sga (senv self q w qs) = Undef).
Proof.
  intros Hspec Hlog Hn Hs Hp Hd Hlt. pose proof (len32_tail _ _ _ _ Hlog) as Htl. pose proof Hlog as Hlog'. destruct Hlog'.
  destruct (nv_malloc _ _ _ _ Hspec 0x200 (sw_heap w) (sw_dev w)) as (buf & h1 & d1 & Hmal & Hfresh & Hmap & Hs1 & Hb1 & Hp1 & Hdma1).
  pose proof (file_push_begin_eq V self q w qs L sga p data buf h1 d1 Hlog Hn Hs Hd Hlt Hmal) as Heq.
  rewrite <- push_stop_eq. split; [|split].
  - intros Hfit Hsize. unfold post. rewrite Heq.
    apply (fill_buffer self q w qs L data p buf h1 d1 (sp_sectorSize w));
      [by eapply holds_fresh|exact Htl|by eapply holds_fresh|exact Hmap|exact Hfit| |].
    { eapply fresh_disjoint_range; [lia|lia|exact Hfresh|]. intros x Hx. exact (holds_mapped _ _ _ _ Hp Hx). }
    intros h2 _ Hs2. unfold post. rewrite submit_nospace by done. split; [done|].
    exists buf, h2, d1. split; [done|]. split; [|done]. apply (log_ok_fresh q w L buf); try done.
    split; [|intros x Hx; by apply Hs2, Hs1]. intros x Hx. rewrite (proj1 Hs2), (proj1 Hs1) by done. done.
  - intros Hfit Hlo1 Hsize. by eapply file_push_begin_ok.
  - intros Hbig. rewrite Hmal. intros Hc. rewrite Heq.
    apply (overrun self q w qs L p (len32 data) buf h1 d1); try done. by eapply holds_fresh.
Qed.
End properties.

(** ** Initialisation *)
Section init.
Context {D : Type} `{SD : SpdkDevice D} (V : nvme_view D).
Implicit Types (w : sworld D).

(** The command line names a readable configuration file. *)
Record config_found (argc : Z) (argv : option (list String.string)) (config : spdk_config) w : Prop := {
  cg_argc : 0 <= argc;
  cg_argv : 0 < argc -> is_Some argv;
  cg_path : exists path, po_config_path (default [] argv) (sw_dev w) = Some path /\
    sys_access_R_OK path (sw_dev w) <> -1 /\ yaml_load path (sw_dev w) = config
}.
Definition configured (config : spdk_config) w : sworld D :=
  match cf_namespaceId config with Some n => set_namespaceId (i32 (u32 n)) w | None => w end.

Lemma init_spdk_eq argc argv config w :
  config_found argc argv config w -> our_spdk_init_flag w = false ->
  init_spdk argc argv w = init_spdk_config config spdk_env_opts_init w.
Proof.
  intros [H1 H2 (path & Hp & Ha & Hy)] Hf. unfold init_spdk, body, sbind, fbind, DMTR_TRUE, get.
  rewrite Z.geb_leb, (proj2 (Z.leb_le 0 argc)) by lia. cbn.
  assert (Hn : (if argc >? 0 then DMTR_NOTNULL EINVAL argv else normal tt) w = Ok (inl tt) w).
  { destruct (argc >? 0) eqn:E; [|done]. rewrite Z.gtb_ltb in E. zbool. by destruct (H2 E) as [? ->]. }
  unfold fbind. rewrite Hn, Hf. cbn. rewrite Hp, (proj2 (Z.eqb_neq _ _) Ha), Hy.
  unfold call, fbind, normal, fret. by destruct (init_spdk_config config spdk_env_opts_init w).
Qed.

(** A controller whose namespace can be used. *)
Record usable (c ns qpair : Z) (d d' : D) w : Prop := {
  us_ns : spdk_nvme_ctrlr_get_ns c (sp_namespaceId w) d = ns;
  us_ns_nonnull : ns <> 0;
  us_active : spdk_nvme_ns_is_active ns d = true;
  us_qpair : spdk_nvme_ctrlr_alloc_io_qpair c d = (qpair, d');
  us_qpair_nonnull : qpair <> 0;
  us_size : 0 < spdk_nvme_ns_get_size ns d' < 2 ^ 32;
  us_sector : 0 < spdk_nvme_ns_get_sector_size ns d' < 2 ^ 32
}.
Definition attached (ns qpair : Z) (d' : D) (p : Z) (h : heap) w : sworld D :=
  mk_sworld h d' (our_spdk_init_flag w) ns qpair (sp_namespaceId w)
    (spdk_nvme_ns_get_size ns d') (spdk_nvme_ns_get_sector_size ns d') p.

Lemma attachCb_eq c ns qpair d' w p h :
  sp_qpair w = 0 -> usable c ns qpair (sw_dev w) d' w ->
  malloc (spdk_nvme_ns_get_sector_size ns d') (sw_heap w) = Ok p h ->
  attachCb c w = Ok 0 (attached ns qpair d' p h w).
Proof.
  intros Hq [] Hm. apply wp_eq. unfold attachCb. rewrite post_body. post_simp. rewrite Hq, Z.eqb_refl. post_simp.
  cbn [sp_ns set_ns]. rewrite us_ns0. rewrite (proj2 (Z.eqb_neq ns 0)) by done. cbn [negb]. post_simp.
  cbn [sw_dev set_ns]. rewrite us_active0. post_simp.
  unfold post at 1, dev_op. cbn [sw_dev set_ns]. rewrite us_qpair0. post_simp.
  cbn [sp_qpair set_qpair]. rewrite (proj2 (Z.eqb_neq qpair 0)) by done. cbn [negb]. post_simp.
  cbn [sp_namespaceSize set_namespaceSize set_qpair set_sw_mem set_ns sp_ns sw_dev]. rewrite (wrap_small 32 (spdk_nvme_ns_get_size ns d')) by lia.
  rewrite (proj2 (Z.gtb_lt _ _)) by lia. post_simp.
  cbn [sp_sectorSize set_sectorSize set_namespaceSize set_qpair set_sw_mem set_ns sp_ns sw_dev]. rewrite (wrap_small 32) by lia.
  unfold world_heap. rewrite post_zoom. eapply post_eq; [exact Hm|]. by post_simp.
Qed.

Lemma init_config_eq opts config w d1 ctrlrs d2 w3 :
  spdk_env_init (demeter_opts opts) (sw_dev w) = (0, d1) -> spdk_nvme_probe SPDK_TRADDR d1 = (0, ctrlrs, d2) ->
  attach_all ctrlrs (set_sw_mem (sw_heap w) d2 (configured config w)) = Ok tt w3 ->
  init_spdk_config config opts w = Ok 0 (set_init_flag true w3).
Proof.
  intros He Hp Ha. assert (Hw : sw_dev (configured config w) = sw_dev w /\ sw_heap (configured config w) = sw_heap w).
  { unfold configured. by destruct (cf_namespaceId config). }
  destruct Hw as [Hd Hh]. apply wp_eq. unfold init_spdk_config. rewrite post_body. post_simp.
  change (match cf_namespaceId config with Some n => _ | None => w end) with (configured config w).
  unfold post at 1, dev_op. rewrite Hd, Hh. rewrite He. change (0 <? 0) with false. post_simp.
  unfold post at 1, dev_op. cbn [sw_dev sw_heap set_sw_mem]. rewrite Hp. post_simp.
  eapply post_eq; [exact Ha|]. change (negb (0 =? 0)) with false. post_simp. done.
Qed.

(** An empty log, once a controller is attached. *)
Lemma attached_log ns qpair d' w qd c d :
  usable c ns qpair d d' w -> h_oom (sw_heap w) (h_brk (sw_heap w)) (spdk_nvme_ns_get_sector_size ns d') = false ->
  nv_pending V d' = None -> exists p h,
    malloc (spdk_nvme_ns_get_sector_size ns d') (sw_heap w) = Ok p h /\
    log_ok V (spdk_queue_ctor qd) (set_init_flag true (attached ns qpair d' p h w)) [].
Proof.
  intros [] Hm Hp. rewrite (malloc_eq _ _ Hm). do 2 eexists. split; [done|].
  split; cbn; try done; try lia.
  intros x Hx. cbn. rewrite alloc_cells_lookup, decide_True by lia. by eexists.
Qed.

(** C16: initialisation.  It is refused once done.  With a configuration, an
    environment that starts and one controller whose namespace can be used, it
    leaves the namespace, the queue pair and a block of memory in place, and
    the log of a queue opened then is empty and ready for pushes.  When no
    controller is found it reports success as well, and the first push is
    undefined. *)
Theorem spdk_init_correct argc argv config w d1 ctrlrs d2 :
  config_found argc argv config w ->
  (our_spdk_init_flag w = true -> init_spdk argc argv w = Ok EPERM w) /\
  (our_spdk_init_flag w = false -> sp_qpair w = 0 -> spdk_env_init (demeter_opts spdk_env_opts_init) (sw_dev w) = (0, d1) ->
   spdk_nvme_probe SPDK_TRADDR d1 = (0, ctrlrs, d2) ->
   (forall c ns qpair d3, ctrlrs = [c] -> usable c ns qpair d2 d3 (configured config w) ->
      h_oom (sw_heap w) (h_brk (sw_heap w)) (spdk_nvme_ns_get_sector_size ns d3) = false -> nv_pending V d3 = None ->
      exists w', init_spdk argc argv w = Ok 0 w' /\ sp_ns w' = ns /\ sp_qpair w' = qpair /\
        sp_sectorSize w' = spdk_nvme_ns_get_sector_size ns d3 /\ sp_namespaceSize w' = spdk_nvme_ns_get_size ns d3 /\
        forall qd, log_ok V (spdk_queue_ctor qd) w' []) /\
   (ctrlrs = [] -> sp_sectorSize w = 0 ->
      exists w', init_spdk argc argv w = Ok 0 w' /\ our_spdk_init_flag w' = true /\
        forall self qd qs sga, file_push_begin self sga (senv self (spdk_queue_ctor qd) w' qs) = Undef)).
Proof.
  intros Hc. split.
  { intros Hf. destruct Hc as [H1 H2 _]. unfold init_spdk, body, sbind, fbind, DMTR_TRUE, get.
    rewrite Z.geb_leb, (proj2 (Z.leb_le 0 argc)) by lia. cbn.
    destruct (argc >? 0) eqn:E; [|unfold fbind; cbn; by rewrite Hf].
    rewrite Z.gtb_ltb in E. zbool. destruct (H2 E) as [a ->]. unfold fbind. cbn. by rewrite Hf. }
  intros Hf Hq He Hp. split.
  - intros c ns qpair d3 -> Hu Hm Hpend. set (w1 := set_sw_mem (sw_heap w) d2 (configured config w)).
    assert (Hu1 : usable c ns qpair (sw_dev w1) d3 w1) by (destruct Hu; by split).
    destruct (attached_log ns qpair d3 w1 0 c (sw_dev w1) Hu1 Hm Hpend) as (p & h & Hml & _).
    assert (Hq1 : sp_qpair w1 = 0) by (unfold w1, configured; by destruct (cf_namespaceId config)).
    exists (set_init_flag true (attached ns qpair d3 p h w1)). split; [|do 4 (split; [done|])].
    + rewrite (init_spdk_eq _ _ config) by done. eapply init_config_eq; [done|done|].
      change (fbind (attachCb c) (fun _ => fret tt) w1 = Ok tt (attached ns qpair d3 p h w1)).
      unfold fbind. by rewrite (attachCb_eq c ns qpair d3 w1 p h Hq1 Hu1 Hml).
    + intros qd. destruct (attached_log ns qpair d3 w1 qd c (sw_dev w1) Hu1 Hm Hpend) as (p' & h' & Hml' & Hl).
      rewrite Hml in Hml'. by injection Hml' as <- <-.
  - intros -> Hs. eexists. split; [rewrite (init_spdk_eq _ _ config) by done; by eapply init_config_eq|].
    split; [done|]. intros self qd qs sga. unfold file_push_begin.
    rewrite (sbind_Ok get _ (senv self _ _ qs) _ (senv self _ _ qs)) by done. cbn zeta. cbn [e_world senv our_spdk_init_flag set_init_flag].
    erewrite sbind_Ok by reflexivity. destruct (total_len_loop _ _ _) as [n|]; [|done]. erewrite sbind_Ok by reflexivity.
    rewrite (sbind_Ok _ _ (spdk_queue_ctor qd) _ (senv self (spdk_queue_ctor qd)
      (set_init_flag true (set_sw_mem (sw_heap w) d2 (configured config w))) qs)) by (unfold sq_get; cbn; by rewrite lookup_insert_eq).
    replace (sp_sectorSize _) with 0 by (cbn; rewrite <- Hs; unfold configured; by destruct (cf_namespaceId config)). done.
Qed.
End init.

(** ** A concrete device

    One controller with a namespace of eight blocks of eight bytes.  A write
    completes when completions are processed for the second time. *)
Record demo_nvme := mk_demo_nvme {
  dn_block : Z -> list Z;
  dn_pending : option (Z * Z);
  dn_dma : gmap Z Z;
  dn_ready : bool
}.
Definition highest (m : gmap Z (option Z)) : Z := foldr Z.max 0 (map_to_list m).*1.
Definition block_at (h : heap) (buf : Z) : list Z :=
  (fun i => match h_cells h !! (buf + Z.of_nat i) with Some (Some b) => b | _ => 0 end) <$> seq 0 8.
#[export] Instance demo_spdk : SpdkDevice demo_nvme := {|
  po_config_path args d := Some "./config.yaml"%string;
  sys_access_R_OK _ _ := 0;
  yaml_load _ _ := mk_spdk_config None None (Some 1);
  spdk_env_opts_init := mk_env_opts "" 0 "" [] None;
  spdk_env_init _ d := (0, d);
  spdk_nvme_probe _ d := (0, [1], d);
  spdk_nvme_ctrlr_get_ns c n _ := 100;
  spdk_nvme_ns_is_active _ _ := true;
  spdk_nvme_ctrlr_alloc_io_qpair _ d := (200, d);
  spdk_nvme_ns_get_size _ _ := 64;
  spdk_nvme_ns_get_sector_size _ _ := 8;
  spdk_malloc n _ h d :=
    let p := highest (h_cells h) + 1 in
    (p, set_h_cells (alloc_cells (Z.to_nat n) p (h_cells h)) h,
     mk_demo_nvme (dn_block d) (dn_pending d) (<[p := n]> (dn_dma d)) (dn_ready d));
  spdk_free p h d :=
    (set_h_cells (free_cells (Z.to_nat (default 0 (dn_dma d !! p))) p (h_cells h)) h,
     mk_demo_nvme (dn_block d) (dn_pending d) (delete p (dn_dma d)) (dn_ready d));
  spdk_nvme_ns_cmd_write _ _ buf lba _ _ d := (0, mk_demo_nvme (dn_block d) (Some (buf, lba)) (dn_dma d) false);
  spdk_nvme_qpair_process_completions _ _ h d :=
    match dn_pending d with
    | Some (buf, lba) =>
        if dn_ready d
        then (1, mk_demo_nvme (fun b => if b =? lba then block_at h buf else dn_block d b) None (dn_dma d) false)
        else (0, mk_demo_nvme (dn_block d) (dn_pending d) (dn_dma d) true)
    | None => (0, d)
    end
|}.
Definition demo_view : nvme_view demo_nvme := mk_nvme_view dn_block dn_pending dn_dma.

Lemma highest_le m x v : m !! x = Some v -> x <= highest m.
Proof.
  intros Hx. unfold highest. apply elem_of_map_to_list in Hx. apply (list_elem_of_fmap_2 fst) in Hx. cbn in Hx.
  induction (map_to_list m).*1 as [|y l IH]; [by apply elem_of_nil in Hx|]. cbn.
  apply elem_of_cons in Hx as [->|Hx]; [lia|]. specialize (IH Hx). lia.
Qed.
Lemma block_at_lookup h buf bs i c :
  holds h buf bs -> len32 bs <= 8 -> bs !! i = Some c -> block_at h buf !! i = Some c.
Proof.
  intros Hh Hl Hi. pose proof (lookup_lt_Some _ _ _ Hi). unfold len32 in Hl. unfold block_at.
  rewrite list_lookup_fmap, lookup_seq_lt by lia. cbn. by rewrite (Hh _ _ Hi).
Qed.

Lemma demo_spec : nvme_spec demo_view 100 200 8.
Proof.
  split.
  - intros align h d. do 3 eexists. split; [reflexivity|].
    assert (Hf : forall x, highest (h_cells h) + 1 <= x < highest (h_cells h) + 1 + 8 -> h_cells h !! x = None).
    { intros x Hx. destruct (h_cells h !! x) eqn:E; [|done]. apply highest_le in E. lia. }
    split; [exact Hf|]. split; [|split; [|done]].
    + intros x Hx. cbn -[alloc_cells]. rewrite alloc_cells_lookup, decide_True by lia. by eexists.
    + split; intros x Hx; cbn -[alloc_cells]; rewrite alloc_cells_lookup.
      * by rewrite decide_False by lia.
      * case_decide; [by eexists|done].
  - intros p n h d h' d' Hn [= <- <-]. cbn in Hn |- *. rewrite Hn. cbn. split; [|done].
    intros x Hx. rewrite free_cells_lookup, decide_False by lia. done.
  - intros buf lba h d _ _. eexists. by split.
  - intros buf lba h d Hp. cbn in Hp. cbn. rewrite Hp. destruct (dn_ready d).
    + do 2 eexists. split; [reflexivity|]. split; [done|]. right. split; [done|]. split; [done|]. split.
      * intros b Hb. cbn. by rewrite (proj2 (Z.eqb_neq _ _) Hb).
      * intros bs i c Hh Hl Hi. cbn. rewrite Z.eqb_refl. by eapply block_at_lookup.
    + do 2 eexists. split; [reflexivity|]. split; [done|]. left. by cbn.
Qed.

(** A log of eleven bytes: block 0 is full and block 1 has three bytes, which
    are also in memory, at 50. *)
Definition demo_slog : list Z := [1; 2; 3; 4; 5; 6; 7; 8; 9; 10; 11].
Definition demo_sdata : list Z := [21; 22; 23; 24; 25; 26].
Definition demo_sheap : heap :=
  let cells := alloc_cells 8 50 (alloc_cells 6 100 ∅) in
  let cells := default ∅ (store_cells [9; 10; 11] 50 cells) in
  mk_heap (default ∅ (store_cells demo_sdata 100 cells)) {[50 := 8; 100 := 6]} 200 (fun _ _ => false).
Definition demo_sdev : demo_nvme :=
  mk_demo_nvme (fun b => if b =? 0 then [1; 2; 3; 4; 5; 6; 7; 8] else [9; 10; 11; 0; 0; 0; 0; 0]) None ∅ false.
Definition demo_sworld (size : Z) : sworld demo_nvme := mk_sworld demo_sheap demo_sdev true 100 200 1 size 8 50.
Definition demo_sarray (n : Z) : dmtr_sgarray := mk_sgarray 0 1 [mk_sgaseg 100 n] sockaddr_zero.
Definition demo_squeue : spdk_queue :=
  mk_spdk_queue (set_slot (task_slot demo_qt) (mk_task true (mk_qresult DMTR_OPC_PUSH 3 demo_qt (qv_sga sgarray_zero)) EAGAIN (demo_sarray 4) 0)
    (io_queue_ctor FILE_Q 3)) 1 3 None None.

Lemma demo_data_holds n : holds demo_sheap 100 (take n demo_sdata).
Proof. apply holds_sub. apply (load_holds _ _ 6). by vm_compute. Qed.
Lemma demo_log_ok size : 0 <= size < 2 ^ 32 -> log_ok demo_view demo_squeue (demo_sworld size) demo_slog.
Proof.
  intros Hs. split; try done; try exact Hs.
  - apply (load_holds _ _ 3). by vm_compute.
  - intros x Hx. change (50 <= x < 50 + 8) in Hx.
    assert (x = 50 \/ x = 51 \/ x = 52 \/ x = 53 \/ x = 54 \/ x = 55 \/ x = 56 \/ x = 57) as Hx' by lia.
    destruct_or! Hx'; subst x; vm_compute; by eexists.
  - intros i b Hb. do 11 (destruct i as [|i]; [vm_compute in Hb |- *; congruence|]).
    apply lookup_lt_Some in Hb. cbn in Hb. lia.
Qed.

Lemma spdk_push_appends_witness :
  wp (service (sq_push_step 3) 3 (mk_user_thread EAGAIN [demo_qt] (Some SqPushIdle)))
    (fun '(ret, th) e => ret = EAGAIN /\
       wp (service (sq_push_step 3) 3 th) (fun '(ret, th) e => ret = EAGAIN /\ exists k, th = mk_user_thread EAGAIN [] (Some k) /\
         ((exists buf, k = SqWait (task_slot demo_qt) buf /\
             push_waiting demo_view 3 [21; 22; 23; 24] demo_slog demo_squeue (demo_sworld 64) ∅ buf e) \/
          k = SqPushIdle /\ push_appended demo_view 3 demo_qt [21; 22; 23; 24] demo_slog demo_squeue (demo_sworld 64) ∅ e)) e)
    (senv 3 demo_squeue (demo_sworld 64) ∅).
Proof.
  assert (Hr : spush_ready demo_view demo_qt 100 [21; 22; 23; 24] demo_slog demo_squeue (demo_sworld 64)).
  { split; [exact demo_spec|apply demo_log_ok; lia| |reflexivity].
    split; try reflexivity; [exact (demo_data_holds 4)|vm_compute; discriminate|vm_compute; discriminate]. }
  eapply post_mono.
  - eapply (spdk_push_appends demo_view 3 demo_qt 100 _ _ _ _ ∅ 3 SqPushIdle [demo_qt]); [exact Hr|left; split; reflexivity|lia].
  - intros [ret th] e (Hret & k & Hth & Hk). split; [exact Hret|]. rewrite Hth.
    eapply (spdk_push_appends demo_view 3 demo_qt 100 _ _ _ _ ∅ 3 k []); [exact Hr| |lia].
    destruct Hk as [(buf & Hk & Hw)|[Hk Ha]]; rewrite Hk; cbn; auto.
Defined.

Lemma spdk_push_limits_witness :
  wp (file_push_begin 3 (demo_sarray 4)) (fun r e => r = inr (- ENOSPC)) (senv 3 demo_squeue (demo_sworld 8) ∅) /\
  wp (file_push_begin 3 (demo_sarray 4)) (fun r e => exists buf, r = inl buf) (senv 3 demo_squeue (demo_sworld 12) ∅) /\
  file_push_begin 3 (demo_sarray 6) (senv 3 demo_squeue (demo_sworld 64) ∅) = Undef.
Proof.
  split; [|split].
  - eapply post_mono; [apply (proj1 (spdk_push_limits demo_view 3 demo_squeue (demo_sworld 8) ∅ demo_slog (demo_sarray 4) 100
      [21; 22; 23; 24] demo_spec (demo_log_ok 8 ltac:(lia)) eq_refl eq_refl (demo_data_holds 4) ltac:(vm_compute; reflexivity)
      ltac:(vm_compute; reflexivity))); vm_compute; first [reflexivity|discriminate]|].
    intros r e [H _]. exact H.
  - eapply post_mono; [apply (proj1 (proj2 (spdk_push_limits demo_view 3 demo_squeue (demo_sworld 12) ∅ demo_slog (demo_sarray 4) 100
      [21; 22; 23; 24] demo_spec (demo_log_ok 12 ltac:(lia)) eq_refl eq_refl (demo_data_holds 4) ltac:(vm_compute; reflexivity)
      ltac:(vm_compute; reflexivity)))); vm_compute; first [reflexivity|discriminate]|].
    intros r e (buf & h & d & H & _). exists buf. exact H.
  - apply (proj2 (proj2 (spdk_push_limits demo_view 3 demo_squeue (demo_sworld 64) ∅ demo_slog (demo_sarray 6) 100
      demo_sdata demo_spec (demo_log_ok 64 ltac:(lia)) eq_refl eq_refl (demo_data_holds 6) ltac:(vm_compute; reflexivity)
      ltac:(vm_compute; reflexivity)))); vm_compute; reflexivity.
Defined.

Lemma spdk_init_correct_witness :
  exists w', init_spdk 0 None (sworld_start demo_sheap demo_sdev) = Ok 0 w' /\
    forall qd, log_ok demo_view (spdk_queue_ctor qd) w' [].
Proof.
  assert (Hc : config_found 0 None (mk_spdk_config None None (Some 1)) (sworld_start demo_sheap demo_sdev)).
  { split; [lia|lia|]. exists "./config.yaml"%string. split; [reflexivity|]. split; [discriminate|reflexivity]. }
  destruct (spdk_init_correct demo_view 0 None _ _ demo_sdev [1] demo_sdev Hc) as [_ H].
  destruct (proj1 (H eq_refl eq_refl eq_refl eq_refl) 1 100 200 demo_sdev eq_refl) as (w' & Hi & _ & _ & _ & _ & Hl).
  - split; (reflexivity || discriminate || (split; reflexivity)).
  - reflexivity.
  - reflexivity.
  - exists w'. split; [exact Hi|exact Hl].
Defined.
