(* ===== verification/Combined.v ===== *)
(** * Queues that combine two libraries

    [spdk-dpdk/spdk_dpdk_queue.cc] and [spdk-rdma/spdk_rdma_queue.cc] are the
    same class twice, over different network queues: a queue is either a
    network queue or a file queue of another library, to which it forwards
    every call.  The two libraries are instances of [Queue]; their static
    members are two worlds that share the heap.

    The table of the API holds three kinds of objects: the library's own
    ([Plain]: memory queues, and the network queues that [accept] makes, which
    are not wrapped) and the wrappers, of which only one member pointer is
    set.  A pointer to a wrapped object has the descriptor of its wrapper. *)
From S2P Require Import Prelude Cmd Types Memory IoQueue Queue.
Open Scope cmd_scope.

(** The heap in a world. *)
Class HeapWorld (W : Type) := {
  heap_of : W -> heap;
  with_heap : heap -> W -> W;
  heap_of_with : forall h w, heap_of (with_heap h w) = h;
  with_heap_with : forall h h' w, with_heap h (with_heap h' w) = with_heap h w;
  with_heap_same : forall w, with_heap (heap_of w) w = w
}.

(** [our_init_flag] and the two libraries' worlds. *)
Record comb_world (NW FW : Type) := mk_comb_world { cw_init : bool; cw_net : NW; cw_file : FW }.
Arguments mk_comb_world {NW FW}.
Arguments cw_init {NW FW}.
Arguments cw_net {NW FW}.
Arguments cw_file {NW FW}.

(** A wrapped queue is [None] once it was deleted. *)
Inductive comb_object (NQ FQ : Type) :=
| Plain (o : NQ)
| NetPart (b : io_queue) (net_queue : option NQ)
| FilePart (b : io_queue) (file_queue : option FQ).
Arguments Plain {NQ FQ}.
Arguments NetPart {NQ FQ}.
Arguments FilePart {NQ FQ}.

Definition cid_num (c : category_id) : Z := match c with MEMORY_Q => 0 | NETWORK_Q => 1 | FILE_Q => 2 end.

Section combined.
Context {NQ NW FQ FW : Type} `{HN : Queue NQ NW} `{HF : Queue FQ FW} `{!HeapWorld NW} `{!HeapWorld FW}.
Abbreviation object := (comb_object NQ FQ).
Abbreviation world := (comb_world NW FW).
Abbreviation env := (qenv object world).

Definition comb_base (o : object) : io_queue := match o with Plain n => q_base n | NetPart b _ => b | FilePart b _ => b end.
Definition set_comb_base (b : io_queue) (o : object) : object :=
  match o with Plain n => Plain (set_q_base b n) | NetPart _ n => NetPart b n | FilePart _ f => FilePart b f end.

(** ** What each library sees: its objects, at their descriptors *)
Definition net_object (o : object) : option NQ := match o with Plain n => Some n | NetPart _ n => n | FilePart _ _ => None end.
Definition set_net_object (n : NQ) (o : object) : object :=
  match o with Plain _ => Plain n | NetPart b _ => NetPart b (Some n) | FilePart b f => FilePart b f end.
Definition file_object (o : object) : option FQ := match o with FilePart _ f => f | _ => None end.
Definition set_file_object (f : FQ) (o : object) : object := match o with FilePart b _ => FilePart b (Some f) | _ => o end.

Definition set_cw_init (b : bool) (w : world) : world := mk_comb_world b (cw_net w) (cw_file w).
Definition set_cw_net (n : NW) (w : world) : world := mk_comb_world (cw_init w) n (with_heap (heap_of n) (cw_file w)).
Definition set_cw_file (f : FW) (w : world) : world := mk_comb_world (cw_init w) (with_heap (heap_of f) (cw_net w)) f.

Definition update {Q} (set : Q -> object -> object) (m : gmap Z Q) (t : gmap Z object) : gmap Z object :=
  map_imap (fun p o => Some (match m !! p with Some q => set q o | None => o end)) t.
Definition net_env (e : env) : qenv NQ NW := mk_qenv (omap net_object (e_queues e)) (cw_net (e_world e)).
Definition put_net (v : qenv NQ NW) (e : env) : env :=
  mk_qenv (update set_net_object (e_queues v) (e_queues e)) (set_cw_net (e_world v) (e_world e)).
Definition file_env (e : env) : qenv FQ FW := mk_qenv (omap file_object (e_queues e)) (cw_file (e_world e)).
Definition put_file (v : qenv FQ FW) (e : env) : env :=
  mk_qenv (update set_file_object (e_queues v) (e_queues e)) (set_cw_file (e_world v) (e_world e)).

Definition on_net {A} (m : fn (qenv NQ NW) A) : fn env A := zoom net_env put_net m.
Definition on_file {A} (m : fn (qenv FQ FW) A) : fn env A := zoom file_env put_file m.

(** ** The methods *)
Definition need_init : stmt env unit := e <- get ; DMTR_TRUE EPERM (cw_init (e_world e)).
Definition cb_get (self : Z) : stmt env object := e <- get ; need (e_queues e !! self).
(** [my_cid] *)
Definition cb_cid (self : Z) : stmt env category_id := o <- cb_get self ; normal (my_cid (comb_base o)).
(** [net_queue] and [file_queue], to be dereferenced: only one of them was
    initialised, and it dangles after [close]. *)
Definition net_queue (self : Z) : stmt env unit :=
  o <- cb_get self ; match o with NetPart _ (Some _) => normal tt | _ => undef end.
Definition file_queue (self : Z) : stmt env unit :=
  o <- cb_get self ; match o with FilePart _ (Some _) => normal tt | _ => undef end.

(** [DMTR_TRUE(NETWORK_Q, my_cid)]: the error is the constant, the condition
    [my_cid]. *)
Definition need_net (self : Z) : stmt env unit :=
  need_init ;;
  cid <- cb_cid self ;
  DMTR_TRUE (cid_num NETWORK_Q) (negb (cid_num cid =? 0)) ;;
  net_queue self.
Definition need_file (self : Z) : stmt env unit :=
  need_init ;;
  cid <- cb_cid self ;
  DMTR_TRUE (cid_num FILE_Q) (negb (cid_num cid =? 0)) ;;
  file_queue self.

(** [socket], [listen], [bind], [connect] *)
Definition cb_net (self : Z) (c : vcall) : fn env Z := body (
  need_net self ;;
  ret <- call (on_net (q_vcall self c)) ;
  normal ret).
(** [open], [open2], [creat]: what the file queue answers is dropped. *)
Definition cb_file (self : Z) (c : vcall) : fn env Z := body (
  need_file self ;;
  _ <- call (on_file (q_vcall self c)) ;
  normal 0).
(** [push], [pop] *)
Definition cb_io (self : Z) (c : vcall) : fn env Z := body (
  need_init ;;
  cid <- cb_cid self ;
  if bool_decide (cid = NETWORK_Q) then
    net_queue self ;;
    ret <- call (on_net (q_vcall self c)) ;
    normal ret
  else
    file_queue self ;;
    ret <- call (on_file (q_vcall self c)) ;
    normal ret).
Definition cb_getsockname (self : Z) (saddr : bool) (size : option Z) : fn env (Z * option (list Z)) :=
  fbind (need_net self) (fun r => match r with
  | inl _ => on_net (q_getsockname self saddr size)
  | inr err => fret (err, None)
  end).
Definition cb_accept (self qt new_qd : Z) : fn env (Z * option object) :=
  fbind (need_net self) (fun r => match r with
  | inl _ => fbind (on_net (q_accept self qt new_qd)) (fun r => fret (fst r, Plain <$> snd r))
  | inr err => fret (err, None)
  end).
Definition cb_poll (self : Z) (qr_out : dmtr_qresult) (qt : Z) : fn env (Z * dmtr_qresult) :=
  fbind (need_init ;; cb_cid self) (fun r => match r with
  | inl cid =>
      if bool_decide (cid = NETWORK_Q)
      then fbind (net_queue self) (fun _ => on_net (q_poll self qr_out qt))
      else fbind (file_queue self) (fun _ => on_file (q_poll self qr_out qt))
  | inr err => fret (err, qr_out)
  end).

(** [delete net_queue], [delete file_queue] *)
Definition set_object (self : Z) (o : object) (e : env) : env := set_e_queues (<[self := o]> (e_queues e)) e.
Definition delete_net (self : Z) : fn env unit := fun e =>
  match e_queues e !! self with
  | Some (NetPart b (Some n)) =>
      zoom (fun e => cw_net (e_world e)) (fun w e => set_object self (NetPart b None) (set_e_world (set_cw_net w (e_world e)) e)) (q_destroy n) e
  | _ => Undef
  end.
Definition delete_file (self : Z) : fn env unit := fun e =>
  match e_queues e !! self with
  | Some (FilePart b (Some f)) =>
      zoom (fun e => cw_file (e_world e)) (fun w e => set_object self (FilePart b None) (set_e_world (set_cw_file w (e_world e)) e)) (q_destroy f) e
  | _ => Undef
  end.
Definition cb_close (self : Z) : fn env Z := body (
  cid <- cb_cid self ;
  if bool_decide (cid = NETWORK_Q) then
    net_queue self ;;
    ret <- call (on_net (q_vcall self VClose)) ;
    call (delete_net self) ;;
    normal ret
  else
    file_queue self ;;
    ret <- call (on_file (q_vcall self VClose)) ;
    call (delete_file self) ;;
    normal ret).

(** ** The vtable *)
Definition cb_vcall (self : Z) (c : vcall) : fn env Z :=
  match c with
  | VSocket _ _ _ | VListen _ | VBind _ _ | VConnect _ _ _ => cb_net self c
  | VOpen _ _ | VOpen2 _ _ _ | VCreat _ _ => cb_file self c
  | VPush _ _ | VPop _ => cb_io self c
  | VClose => cb_close self
  (* not overridden: the tasks of the wrapper itself *)
  | VDrop qt => on_object Some id self (zoom comb_base set_comb_base (io_queue_drop qt))
  end.
Definition cb_dispatch {A} (self : Z) (plain : fn (qenv NQ NW) A) (wrapped : fn env A) : fn env A := fun e =>
  match e_queues e !! self with
  | None => Undef
  | Some (Plain _) => on_net plain e
  | Some _ => wrapped e
  end.
(** The wrapper's destructor does not delete the wrapped queue. *)
Definition cb_destroy (o : object) : fn world unit :=
  match o with Plain n => zoom cw_net set_cw_net (q_destroy n) | _ => fret tt end.

#[export] Instance comb_vtable : Queue object world := {|
  q_base := comb_base;
  set_q_base := set_comb_base;
  q_vcall p c := cb_dispatch p (q_vcall p c) (cb_vcall p c);
  q_getsockname p saddr size := cb_dispatch p (q_getsockname p saddr size) (cb_getsockname p saddr size);
  q_accept p qt new_qd := cb_dispatch p (fbind (q_accept p qt new_qd) (fun r => fret (fst r, Plain <$> snd r))) (cb_accept p qt new_qd);
  q_poll p qr qt := cb_dispatch p (q_poll p qr qt) (cb_poll p qr qt);
  q_destroy := cb_destroy
|}.

(** ** Construction: [new_net_object], [new_file_object] *)
Definition cb_new_net (ctor : Z -> NQ) (qd : Z) : fn world (Z * option object) := body_out None (
  w <- get ;
  DMTR_TRUE EPERM (cw_init w) ;;
  normal (Some (NetPart (io_queue_ctor NETWORK_Q qd) (Some (ctor qd))))).
Definition cb_new_file (ctor : Z -> FQ) (qd : Z) : fn world (Z * option object) := body_out None (
  w <- get ;
  DMTR_TRUE EPERM (cw_init w) ;;
  normal (Some (FilePart (io_queue_ctor FILE_Q qd) (Some (ctor qd))))).
End combined.
