(* ===== verification/CombinedLaws.v ===== *)
(** * Combined queues: the promises of the interface, and the simulation

    From the laws of the two libraries, [QueueLaws] of the combined vtable, and
    the theorem that the events of a combined process project to events of each
    library, call by call and answer by answer. *)
From S2P Require Import Prelude Cmd Types Memory IoQueue MemoryVtable Queue Combined.

(** What can happen to queues: calls through the vtable and the API's own
    operations on the table, with their answers. *)
Inductive queue_event (Q : Type) :=
| EvCall (p : Z) (c : vcall) (r : Z)
| EvSockname (p : Z) (saddr : bool) (size : option Z) (r : Z * option (list Z))
| EvAccept (p qt new_qd : Z) (r : Z * option Q)
| EvPoll (p : Z) (qr : dmtr_qresult) (qt : Z) (r : Z * dmtr_qresult)
| EvToken (p : Z) (r : Z * Z)
| EvInsert (p : Z) (q : Q)
| EvDelete (p : Z).
Arguments EvCall {Q}.
Arguments EvSockname {Q}.
Arguments EvAccept {Q}.
Arguments EvPoll {Q}.
Arguments EvToken {Q}.
Arguments EvInsert {Q}.
Arguments EvDelete {Q}.

Inductive does {Q W} `{Queue Q W} (e : qenv Q W) : queue_event Q -> qenv Q W -> Prop :=
| DCall p c r e' : q_vcall p c e = Ok r e' -> does e (EvCall p c r) e'
| DSockname p a n r e' : q_getsockname p a n e = Ok r e' -> does e (EvSockname p a n r) e'
| DAccept p qt qd r e' : q_accept p qt qd e = Ok r e' -> does e (EvAccept p qt qd r) e'
| DPoll p qr qt r e' : q_poll p qr qt e = Ok r e' -> does e (EvPoll p qr qt r) e'
| DToken p r e' : on_queue p new_qtoken e = Ok r e' -> does e (EvToken p r) e'
| DInsert p q : e_queues e !! p = None -> does e (EvInsert p q) (set_e_queues (<[p := q]> (e_queues e)) e)
| DDelete p q w :
    e_queues e !! p = Some q -> q_destroy q (e_world e) = Ok tt w -> does e (EvDelete p) (mk_qenv (delete p (e_queues e)) w).

(** The events of a library that is not alone: others leave the heap [h], and
    an object leaks, which is not reached any more. *)
Inductive lib_event (Q : Type) :=
| Does (a : queue_event Q)
| Others (h : heap)
| Leaks (p : Z).
Arguments Does {Q}.
Arguments Others {Q}.
Arguments Leaks {Q}.
Inductive lib_does {Q W} `{Queue Q W} `{HeapWorld W} (e : qenv Q W) : lib_event Q -> qenv Q W -> Prop :=
| LDoes a e' : does e a e' -> lib_does e (Does a) e'
| LOthers h : lib_does e (Others h) (set_e_world (with_heap h (e_world e)) e)
| LLeaks p q : e_queues e !! p = Some q -> lib_does e (Leaks p) (set_e_queues (delete p (e_queues e)) e).
Inductive lib_runs {Q W} `{Queue Q W} `{HeapWorld W} : qenv Q W -> list (lib_event Q) -> qenv Q W -> Prop :=
| lr_nil e : lib_runs e [] e
| lr_cons e a e1 tr e' : lib_does e a e1 -> lib_runs e1 tr e' -> lib_runs e (a :: tr) e'.

Section runs.
Context {Q W : Type} `{Queue Q W} `{HeapWorld W}.
Implicit Types (e : qenv Q W).
Lemma lib_runs_app e tr e1 tr' e' : lib_runs e tr e1 -> lib_runs e1 tr' e' -> lib_runs e (tr ++ tr') e'.
Proof. induction 1 as [|e a e1' tr e1 Ha _ IH]; intros Hr; [done|]. eapply lr_cons; [exact Ha|by apply IH]. Qed.
Lemma lib_runs_one e a e' : lib_does e a e' -> lib_runs e [a] e'.
Proof. intros Ha. eapply lr_cons; [exact Ha|apply lr_nil]. Qed.
Lemma lib_runs_does e a e' : does e a e' -> lib_runs e [Does a] e'.
Proof. intros Ha. by apply lib_runs_one, LDoes. Qed.
Lemma lib_runs_others e w h : w = with_heap h (e_world e) -> lib_runs e [Others h] (set_e_world w e).
Proof. intros ->. apply lib_runs_one, LOthers. Qed.
End runs.

Section views.
Context {NQ NW FQ FW : Type} `{HN : Queue NQ NW} `{HF : Queue FQ FW} `{WN : HeapWorld NW} `{WF : HeapWorld FW}.
Abbreviation object := (comb_object NQ FQ).
Abbreviation world := (comb_world NW FW).
Abbreviation env := (qenv object world).
Implicit Types (e : env) (v : qenv NQ NW) (u : qenv FQ FW).

Lemma update_lookup {Q} (set : Q -> object -> object) m t p :
  update set m t !! p = (fun o => match m !! p with Some q => set q o | None => o end) <$> t !! p.
Proof. unfold update. rewrite map_lookup_imap. by destruct (t !! p). Qed.

Lemma net_put e v : same_shape (net_env e) v -> net_env (put_net v e) = v.
Proof.
  intros Hs. destruct v as [m w]. unfold net_env, put_net. cbn [e_queues e_world set_cw_net cw_net]. f_equal. apply map_eq. intros p.
  rewrite lookup_omap, update_lookup. specialize (Hs p). cbn [net_env e_queues] in Hs. rewrite lookup_omap in Hs.
  destruct (e_queues e !! p) as [[n|b [n|]|b f]|]; cbn in *; by destruct (m !! p).
Qed.
Lemma file_put e u : same_shape (file_env e) u -> file_env (put_file u e) = u.
Proof.
  intros Hs. destruct u as [m w]. unfold file_env, put_file. cbn [e_queues e_world set_cw_file cw_file]. f_equal. apply map_eq. intros p.
  rewrite lookup_omap, update_lookup. specialize (Hs p). cbn [file_env e_queues] in Hs. rewrite lookup_omap in Hs.
  destruct (e_queues e !! p) as [[n|b n|b [f|]]|]; cbn in *; by destruct (m !! p).
Qed.
(** A library writes to the other one's heap only. *)
Lemma file_put_net e v : file_env (put_net v e) = set_e_world (with_heap (heap_of (e_world v)) (cw_file (e_world e))) (file_env e).
Proof.
  unfold file_env, put_net, set_e_world. cbn [e_queues e_world set_cw_net cw_file]. f_equal. apply map_eq. intros p.
  rewrite !lookup_omap, update_lookup. by destruct (e_queues e !! p) as [[n|b n|b f]|]; cbn; [destruct (e_queues v !! p)..|].
Qed.
Lemma net_put_file e u : net_env (put_file u e) = set_e_world (with_heap (heap_of (e_world u)) (cw_net (e_world e))) (net_env e).
Proof.
  unfold net_env, put_file, set_e_world. cbn [e_queues e_world set_cw_file cw_net]. f_equal. apply map_eq. intros p.
  rewrite !lookup_omap, update_lookup. by destruct (e_queues e !! p) as [[n|b n|b f]|]; cbn; [destruct (e_queues u !! p)..|].
Qed.

Abbreviation shape := (same_shape (Q := object) (W := world) (H := comb_vtable)).
Lemma put_net_shape e v : same_shape (net_env e) v -> shape e (put_net v e).
Proof.
  intros Hs p. cbn [put_net e_queues]. rewrite update_lookup. specialize (Hs p). cbn [net_env e_queues] in Hs. rewrite lookup_omap in Hs.
  destruct (e_queues e !! p) as [[n|b [n|]|b f]|]; cbn in *; by destruct (e_queues v !! p).
Qed.
Lemma put_file_shape e u : same_shape (file_env e) u -> shape e (put_file u e).
Proof.
  intros Hs p. cbn [put_file e_queues]. rewrite update_lookup.
  destruct (e_queues e !! p) as [[n|b n|b f]|]; cbn in *; by destruct (e_queues u !! p).
Qed.
Lemma keeps_on_net {A} (m : fn (qenv NQ NW) A) : keeps same_shape m -> keeps shape (on_net m).
Proof.
  intros Hm e. unfold on_net. rewrite post_zoom. eapply post_mono; [apply Hm|]. cbv beta. intros a v. apply put_net_shape.
Qed.
Lemma keeps_on_file {A} (m : fn (qenv FQ FW) A) : keeps same_shape m -> keeps shape (on_file m).
Proof.
  intros Hm e. unfold on_file. rewrite post_zoom. eapply post_mono; [apply Hm|]. cbv beta. intros a u. apply put_file_shape.
Qed.
Lemma set_object_shape self o o' w e :
  e_queues e !! self = Some o -> comb_base o = comb_base o' -> shape e (set_object self o' (set_e_world w e)).
Proof.
  intros He Hb. unfold set_object. eapply (same_shape_trans (H := comb_vtable)); [apply (same_shape_world (H := comb_vtable) e w)|].
  eapply (same_shape_insert (H := comb_vtable)); [exact He|]. cbn. by rewrite Hb.
Qed.
Lemma keeps_delete_net self : keeps shape (delete_net self).
Proof.
  intros e. unfold post, delete_net, zoom. destruct (e_queues e !! self) as [[n|b [n|]|b f]|] eqn:E; try done.
  destruct (q_destroy n _); [|done..]. by eapply set_object_shape.
Qed.
Lemma keeps_delete_file self : keeps shape (delete_file self).
Proof.
  intros e. unfold post, delete_file, zoom. destruct (e_queues e !! self) as [[n|b n|b [f|]]|] eqn:E; try done.
  destruct (q_destroy f _); [|done..]. by eapply set_object_shape.
Qed.

End views.

Ltac cb_keeps :=
  repeat first
  [ keeps_step
  | apply keeps_on_net; intros ?; first [apply q_vcall_shape|apply q_getsockname_shape|apply q_poll_shape]
  | apply keeps_on_file; intros ?; first [apply q_vcall_shape|apply q_poll_shape]
  | apply keeps_delete_net | apply keeps_delete_file
  | lazymatch goal with |- keeps _ (if ?x then _ else _) => destruct x end
  | lazymatch goal with |- keeps _ (match ?x with _ => _ end) => destruct x end ].

Section laws.
Context {NQ NW FQ FW : Type} `{HN : Queue NQ NW} `{HF : Queue FQ FW} `{WN : HeapWorld NW} `{WF : HeapWorld FW}.
Context `{LN : !QueueLaws NQ NW} `{LF : !QueueLaws FQ FW}.
Abbreviation object := (comb_object NQ FQ).
Abbreviation world := (comb_world NW FW).
Abbreviation env := (qenv object world).
Implicit Types (e : env) (v : qenv NQ NW) (u : qenv FQ FW).
Abbreviation shape := (same_shape (Q := object) (W := world) (H := comb_vtable)).

Lemma keeps_need_net self : keeps shape (need_net self).
Proof. unfold need_net, need_init, cb_cid, net_queue, cb_get. cb_keeps. Qed.
Lemma keeps_cb_dispatch {A} self (plain : fn (qenv NQ NW) A) (wrapped : fn env A) :
  keeps same_shape plain -> keeps shape wrapped -> keeps shape (cb_dispatch self plain wrapped).
Proof.
  intros Hp Hw e. unfold post, cb_dispatch. destruct (e_queues e !! self) as [[n|b n|b f]|]; [|apply Hw..|done].
  by apply keeps_on_net.
Qed.
Lemma keeps_cb_vcall self c : keeps shape (cb_vcall self c).
Proof.
  destruct c; cbn [cb_vcall]; unfold cb_net, cb_file, cb_io, cb_close, need_net, need_file, need_init, cb_cid, net_queue, file_queue, cb_get; try by cb_keeps.
  intros e. apply (on_object_shape (Q := object) (H := comb_vtable) _ _ comb_base); [by intros q o [= ->]|done|].
  intros o. rewrite post_zoom. eapply post_mono; [exact (run_cmd_base CDrop qt (comb_base o))|].
  cbv beta. intros _ b Hb. by destruct o as [n|b' n|b' f]; cbn; rewrite ?q_base_set.
Qed.
Lemma keeps_cb_accept self qt qd : keeps shape (cb_accept self qt qd).
Proof.
  unfold cb_accept. keeps_step; [apply keeps_need_net|]. destruct a; cb_keeps. apply keeps_on_net. intros v.
  eapply post_mono; [apply q_accept_shape|]. by intros r v' [Hs _].
Qed.
Lemma on_net_accept self qt qd e : wlp (on_net (q_accept self qt qd)) (fun r _ => fst r = 0 ->
  exists q, snd r = Some q /\ my_qd (q_base q) = qd /\ my_qt_counter (q_base q) = 0) e.
Proof. unfold on_net. rewrite post_zoom. eapply post_mono; [apply q_accept_shape|]. cbv beta. tauto. Qed.

#[export] Instance comb_laws : QueueLaws object world (H := comb_vtable).
Proof.
  constructor.
  - intros b [n|b' n|b' f]; cbn; [apply q_base_set|done|done].
  - intros p c e. apply keeps_cb_dispatch; [intros v; apply q_vcall_shape|apply keeps_cb_vcall].
  - intros p a n e. apply keeps_cb_dispatch; [intros v; apply q_getsockname_shape|].
    unfold cb_getsockname. keeps_step; [apply keeps_need_net|]. destruct a0; cb_keeps.
  - intros p qr qt e. apply keeps_cb_dispatch; [intros v; apply q_poll_shape|].
    unfold cb_poll, need_init, cb_cid, net_queue, file_queue, cb_get. cb_keeps.
  - intros p qt qd e. apply post_and.
    + apply keeps_cb_dispatch; [|apply keeps_cb_accept]. keeps_step; [|by keeps_step]. intros v.
      eapply post_mono; [apply q_accept_shape|]. by intros r v' [Hs _].
    + cbn [q_accept comb_vtable]. unfold cb_dispatch. pose proof (on_net_accept p qt qd e) as Ha.
      assert (Hw : wlp (cb_accept p qt qd) (fun r _ => fst r = 0 -> exists q, snd r = Some q /\ my_qd (comb_base q) = qd /\ my_qt_counter (comb_base q) = 0) e).
      { unfold cb_accept. rewrite post_fbind. unfold post at 1.
        assert (Hn : wlp (need_net p) (fun r e' => e' = e /\ match r with inr err => err <> 0 | _ => True end) e).
        { unfold need_net, need_init, cb_cid, net_queue, cb_get. unfold post, sbind, fbind, get, DMTR_TRUE, need.
          destruct (cw_init _); [|done]. cbn. destruct (e_queues e !! p) as [o|] eqn:E; [|done]. cbn.
          destruct (negb _); [|done]. cbn. rewrite E. by destruct o as [n|b [n|]|b f]. }
        unfold post in Hn. destruct (need_net p e) as [[[]|err] e'| | |]; try done; destruct Hn as [-> He]; [|by intros ?].
        rewrite post_fbind. eapply post_mono; [exact Ha|]. cbv beta. intros [r o] e' Hr. cbn in *. intros H0.
        destruct (Hr H0) as (q & -> & H1 & H2). by exists (Plain q). }
      unfold post at 1. destruct (e_queues e !! p) as [[n|b n|b f]|]; [|exact Hw..|done].
      unfold post in Ha |- *. unfold on_net, zoom, fbind in *. destruct (q_accept p qt qd (net_env e)) as [[r o] v| | |]; try done.
      cbn in *. intros H0. destruct (Ha H0) as (q & -> & H1 & H2). by exists (Plain q).
Qed.

(** The table without the object at [p], as each library sees it. *)
Lemma net_delete e p (w : world) : net_env (mk_qenv (delete p (e_queues e)) w) = mk_qenv (delete p (e_queues (net_env e))) (cw_net w).
Proof. unfold net_env. cbn. by rewrite omap_delete. Qed.
Lemma file_delete e p (w : world) : file_env (mk_qenv (delete p (e_queues e)) w) = mk_qenv (delete p (e_queues (file_env e))) (cw_file w).
Proof. unfold file_env. cbn. by rewrite omap_delete. Qed.
Lemma omap_insert_None {A B} (f : A -> option B) (m : gmap Z A) p x : f x = None -> omap f (<[p := x]> m) = delete p (omap f m).
Proof. intros Hx. rewrite omap_insert. by rewrite Hx. Qed.
Lemma omap_insert_same {A B} (f : A -> option B) (m : gmap Z A) p x y : m !! p = Some y -> f x = f y -> omap f (<[p := x]> m) = omap f m.
Proof.
  intros Hm Hf. apply map_eq. intros i. rewrite !lookup_omap. destruct (decide (p = i)) as [<-|Hne].
  - rewrite lookup_insert_eq, Hm. exact Hf.
  - by rewrite lookup_insert_ne.
Qed.

End laws.

(** ** The simulation *)
Section simulation.
Context {NQ NW FQ FW : Type} `{HN : Queue NQ NW} `{HF : Queue FQ FW} `{WN : HeapWorld NW} `{WF : HeapWorld FW}.
Context `{LN : !QueueLaws NQ NW} `{LF : !QueueLaws FQ FW}.
Abbreviation object := (comb_object NQ FQ).
Abbreviation world := (comb_world NW FW).
Abbreviation env := (qenv object world).
Implicit Types (e : env).

(** What the constructors make: a wrapper's category is its kind. *)
Definition wf_object (o : object) : Prop :=
  match o with Plain _ => True | NetPart b _ => my_cid b = NETWORK_Q | FilePart b _ => my_cid b = FILE_Q end.
(** One heap, an initialised library, and such wrappers. *)
Record comb_ok e : Prop := {
  ok_heap : heap_of (cw_net (e_world e)) = heap_of (cw_file (e_world e));
  ok_init : cw_init (e_world e) = true;
  ok_objects : map_Forall (fun _ => wf_object) (e_queues e)
}.

(** *** The events of each library, from an event of the process *)
Definition plain_object (o : object) : option NQ := match o with Plain n => Some n | _ => None end.
Definition net_acts e (a : queue_event object) (e1 : env) : list (lib_event NQ) :=
  let others := [Others (heap_of (cw_net (e_world e1)))] in
  match a with
  | EvCall p c r =>
      match e_queues e !! p, c with
      | Some (Plain _), _ => [Does (EvCall p c r)]
      | Some (NetPart _ _), VDrop _ | Some (FilePart _ _), VDrop _ => []
      | Some (NetPart _ _), VClose => [Does (EvCall p VClose r); Does (EvDelete p)]
      | Some (NetPart _ _), _ => [Does (EvCall p c r)]
      | _, _ => others
      end
  | EvSockname p saddr size r => [Does (EvSockname p saddr size r)]
  | EvAccept p qt qd r => [Does (EvAccept p qt qd (fst r, snd r ≫= plain_object))]
  | EvPoll p qr qt r => match e_queues e !! p with Some (FilePart _ _) => others | _ => [Does (EvPoll p qr qt r)] end
  | EvToken p r => match e_queues e !! p with Some (Plain _) => [Does (EvToken p r)] | _ => [] end
  | EvInsert p o => match net_object o with Some n => [Does (EvInsert p n)] | None => [] end
  | EvDelete p =>
      match e_queues e !! p with
      | Some (Plain _) => [Does (EvDelete p)]
      | Some (NetPart _ (Some _)) => [Leaks p]
      | _ => []
      end
  end.
(** What the file queue answers to [open], [open2] and [creat], which its
    wrapper drops. *)
Definition open_answer e (p : Z) (c : vcall) : Z := match q_vcall p c (file_env e) with Ok r _ => r | _ => 0 end.
Definition file_acts e (a : queue_event object) (e1 : env) : list (lib_event FQ) :=
  let others := [Others (heap_of (cw_file (e_world e1)))] in
  match a with
  | EvCall p c r =>
      match e_queues e !! p, c with
      | Some (NetPart _ _), VDrop _ | Some (FilePart _ _), VDrop _ => []
      | Some (FilePart _ _), VClose => [Does (EvCall p VClose r); Does (EvDelete p)]
      | Some (FilePart _ _), VPush _ _ | Some (FilePart _ _), VPop _ => [Does (EvCall p c r)]
      | Some (FilePart _ _), _ => [Does (EvCall p c (open_answer e p c))]
      | _, _ => others
      end
  | EvSockname _ _ _ _ | EvAccept _ _ _ _ => others
  | EvPoll p qr qt r => match e_queues e !! p with Some (FilePart _ _) => [Does (EvPoll p qr qt r)] | _ => others end
  | EvToken _ _ => []
  | EvInsert p o => match file_object o with Some f => [Does (EvInsert p f)] | None => [] end
  | EvDelete p =>
      match e_queues e !! p with
      | Some (Plain _) => others
      | Some (FilePart _ (Some _)) => [Leaks p]
      | _ => []
      end
  end.
(** Objects come from the constructors. *)
Definition constructed (a : queue_event object) : Prop := match a with EvInsert _ o => wf_object o | _ => True end.

(** A run of the process, with the events of the two libraries. *)
Inductive comb_runs : env -> list (queue_event object) -> list (lib_event NQ) -> list (lib_event FQ) -> env -> Prop :=
| cr_nil e : comb_runs e [] [] [] e
| cr_cons e a e1 tr ntr ftr e' :
    does (H := comb_vtable) e a e1 -> constructed a -> comb_runs e1 tr ntr ftr e' ->
    comb_runs e (a :: tr) (net_acts e a e1 ++ ntr) (file_acts e a e1 ++ ftr) e'.

(** *** What the wrappers do *)
Lemma cid_net : bool_decide (NETWORK_Q = NETWORK_Q) = true. Proof. done. Qed.
Lemma cid_file : bool_decide (FILE_Q = NETWORK_Q) = false. Proof. done. Qed.
Ltac forward_steps Hp Hi Hc e := cbv beta iota;
  repeat (progress (rewrite ?Hi, ?Hp, ?Hc, ?cid_net, ?cid_file; cbn));
  try reflexivity; try (unfold fbind; first [by destruct (on_net _ e)|by destruct (on_file _ e)]).

(** A call on the wrapper of a network queue: one for files is undefined, and
    so is any but [drop] once the queue was deleted. *)
Definition net_forward (p : Z) (o : option NQ) (c : vcall) : fn env Z :=
  match o, c with
  | Some _, (VSocket _ _ _ | VListen _ | VBind _ _ | VConnect _ _ _ | VPush _ _ | VPop _) => on_net (q_vcall p c)
  | Some _, VClose => fbind (on_net (q_vcall p VClose)) (fun r => fbind (delete_net p) (fun _ => fret r))
  | _, _ => fun _ => Undef
  end.
Definition file_forward (p : Z) (o : option FQ) (c : vcall) : fn env Z :=
  match o, c with
  | Some _, (VPush _ _ | VPop _) => on_file (q_vcall p c)
  | Some _, (VOpen _ _ | VOpen2 _ _ _ | VCreat _ _) => fbind (on_file (q_vcall p c)) (fun _ => fret 0)
  | Some _, VClose => fbind (on_file (q_vcall p VClose)) (fun r => fbind (delete_file p) (fun _ => fret r))
  | _, _ => fun _ => Undef
  end.
Definition is_drop (c : vcall) : bool := match c with VDrop _ => true | _ => false end.

Lemma wrapper_net e p b o c :
  comb_ok e -> e_queues e !! p = Some (NetPart b o) -> is_drop c = false ->
  q_vcall (Queue := comb_vtable) p c e = net_forward p o c e.
Proof.
  intros [_ Hi Hobj] Hp Hd. pose proof (Hobj p _ Hp) as Hc. cbn in Hc. cbn [q_vcall comb_vtable]. unfold cb_dispatch. rewrite Hp.
  destruct c; try discriminate Hd; destruct o as [n|]; cbn [cb_vcall net_forward];
    unfold cb_net, cb_io, cb_file, cb_close, need_net, need_file, need_init, cb_cid, net_queue, file_queue, cb_get, body, sbind, fbind, get, need, DMTR_TRUE, call, normal, undef, fret;
    forward_steps Hp Hi Hc e.
  all: unfold on_net, zoom, fbind; destruct (q_vcall p VClose (net_env e)) as [r e1| | |]; cbn; [|done..].
  all: by destruct (delete_net p (put_net e1 e)).
Qed.
Lemma wrapper_file e p b o c :
  comb_ok e -> e_queues e !! p = Some (FilePart b o) -> is_drop c = false ->
  q_vcall (Queue := comb_vtable) p c e = file_forward p o c e.
Proof.
  intros [_ Hi Hobj] Hp Hd. pose proof (Hobj p _ Hp) as Hc. cbn in Hc. cbn [q_vcall comb_vtable]. unfold cb_dispatch. rewrite Hp.
  destruct c; try discriminate Hd; destruct o as [n|]; cbn [cb_vcall file_forward];
    unfold cb_net, cb_io, cb_file, cb_close, need_net, need_file, need_init, cb_cid, net_queue, file_queue, cb_get, body, sbind, fbind, get, need, DMTR_TRUE, call, normal, undef, fret;
    forward_steps Hp Hi Hc e.
  all: unfold on_file, zoom, fbind; destruct (q_vcall p VClose (file_env e)) as [r e1| | |]; cbn; [|done..].
  all: by destruct (delete_file p (put_file e1 e)).
Qed.
Definition net_poll (p : Z) (o : option NQ) (qr : dmtr_qresult) (qt : Z) : fn env (Z * dmtr_qresult) :=
  match o with Some _ => on_net (q_poll p qr qt) | None => fun _ => Undef end.
Definition file_poll (p : Z) (o : option FQ) (qr : dmtr_qresult) (qt : Z) : fn env (Z * dmtr_qresult) :=
  match o with Some _ => on_file (q_poll p qr qt) | None => fun _ => Undef end.
Lemma wrapper_net_poll e p b o qr qt :
  comb_ok e -> e_queues e !! p = Some (NetPart b o) -> q_poll (Queue := comb_vtable) p qr qt e = net_poll p o qr qt e.
Proof.
  intros [_ Hi Hobj] Hp. pose proof (Hobj p _ Hp) as Hc. cbn in Hc. cbn [q_poll comb_vtable]. unfold cb_dispatch. rewrite Hp.
  unfold cb_poll, need_init, cb_cid, net_queue, file_queue, cb_get, sbind, fbind, get, need, DMTR_TRUE, normal, undef, fret.
  destruct o as [n|]; cbn [net_poll]; forward_steps Hp Hi Hc e.
Qed.
Lemma wrapper_file_poll e p b o qr qt :
  comb_ok e -> e_queues e !! p = Some (FilePart b o) -> q_poll (Queue := comb_vtable) p qr qt e = file_poll p o qr qt e.
Proof.
  intros [_ Hi Hobj] Hp. pose proof (Hobj p _ Hp) as Hc. cbn in Hc. cbn [q_poll comb_vtable]. unfold cb_dispatch. rewrite Hp.
  unfold cb_poll, need_init, cb_cid, net_queue, file_queue, cb_get, sbind, fbind, get, need, DMTR_TRUE, normal, undef, fret.
  destruct o as [n|]; cbn [file_poll]; forward_steps Hp Hi Hc e.
Qed.
(** The calls a file queue does not have. *)
Lemma wrapper_need_net e p o :
  comb_ok e -> e_queues e !! p = Some o ->
  need_net p e = match o with Plain _ => need_net p e | NetPart _ (Some _) => Ok (inl tt) e | _ => Undef end.
Proof.
  intros [_ Hi Hobj] Hp. pose proof (Hobj p _ Hp) as Hc. cbn in Hc. destruct o as [n|b [n|]|b f]; [done|..];
    unfold need_net, need_init, cb_cid, net_queue, cb_get, sbind, fbind, get, need, DMTR_TRUE, normal, undef, fret; forward_steps Hp Hi Hc e.
Qed.

(** *** One step *)
Definition steps_to e (ntr : list (lib_event NQ)) (ftr : list (lib_event FQ)) e1 : Prop :=
  lib_runs (net_env e) ntr (net_env e1) /\ lib_runs (file_env e) ftr (file_env e1) /\ comb_ok e1.

Lemma map_Forall_update {Q} (set : Q -> object -> object) m (t : gmap Z object) :
  (forall q o, wf_object o -> wf_object (set q o)) -> map_Forall (fun _ => wf_object) t -> map_Forall (fun _ => wf_object) (update set m t).
Proof.
  intros Hset Ht p o. rewrite update_lookup. destruct (t !! p) as [o1|] eqn:E; [|done]. cbn. specialize (Ht p o1 E).
  intros [= <-]. destruct (m !! p); auto.
Qed.
Lemma comb_ok_put_net e v : comb_ok e -> comb_ok (put_net v e).
Proof.
  intros [_ Hi Ho]. constructor; cbn; [by rewrite heap_of_with|done|]. apply map_Forall_update; [|done]. by intros q [n|b n|b f].
Qed.
Lemma comb_ok_put_file e u : comb_ok e -> comb_ok (put_file u e).
Proof.
  intros [_ Hi Ho]. constructor; cbn; [by rewrite heap_of_with|done|]. apply map_Forall_update; [|done]. by intros q [n|b n|b f].
Qed.
Lemma on_net_steps {A} (m : fn (qenv NQ NW) A) e a e1 :
  comb_ok e -> keeps same_shape m -> on_net m e = Ok a e1 ->
  m (net_env e) = Ok a (net_env e1) /\
  forall ev, does (net_env e) ev (net_env e1) -> steps_to e [Does ev] [Others (heap_of (cw_file (e_world e1)))] e1.
Proof.
  intros Hok Hs. unfold on_net, zoom. specialize (Hs (net_env e)). unfold post in Hs.
  destruct (m (net_env e)) as [a' v| | |] eqn:E; try done. intros [= <- <-]. rewrite (net_put e v Hs). split; [done|].
  intros ev Hev. unfold steps_to. rewrite (net_put e v Hs), file_put_net. split; [by apply lib_runs_does|]. split; [|by apply comb_ok_put_net].
  apply lib_runs_others. cbn. by rewrite heap_of_with.
Qed.
Lemma on_file_steps {A} (m : fn (qenv FQ FW) A) e a e1 :
  comb_ok e -> keeps same_shape m -> on_file m e = Ok a e1 ->
  m (file_env e) = Ok a (file_env e1) /\
  forall ev, does (file_env e) ev (file_env e1) -> steps_to e [Others (heap_of (cw_net (e_world e1)))] [Does ev] e1.
Proof.
  intros Hok Hs. unfold on_file, zoom. specialize (Hs (file_env e)). unfold post in Hs.
  destruct (m (file_env e)) as [a' v| | |] eqn:E; try done. intros [= <- <-]. rewrite (file_put e v Hs). split; [done|].
  intros ev Hev. unfold steps_to. rewrite (file_put e v Hs), net_put_file. split; [|split; [by apply lib_runs_does|by apply comb_ok_put_file]].
  apply lib_runs_others. cbn. by rewrite heap_of_with.
Qed.

(** [close] on a wrapper: the call, then the wrapped queue is deleted. *)
Lemma delete_net_steps e p e1 :
  comb_ok e -> delete_net p e = Ok tt e1 -> steps_to e [Does (EvDelete p)] [Others (heap_of (cw_file (e_world e1)))] e1.
Proof.
  intros [_ Hi Hobj]. unfold delete_net, zoom. destruct (e_queues e !! p) as [[n|b [n|]|b f]|] eqn:E; try done.
  destruct (q_destroy n _) as [[] w| | |] eqn:Ed; try done. intros [= <-]. unfold steps_to. split; [|split].
  - apply lib_runs_does. unfold net_env at 2, set_object, set_e_world, set_e_queues. cbn. rewrite omap_insert_None by done.
    eapply (DDelete (net_env e)); [|exact Ed]. cbn. by rewrite lookup_omap, E.
  - unfold file_env at 2, set_object, set_e_world, set_e_queues. cbn. erewrite omap_insert_same by done.
    apply (lib_runs_others (file_env e)). cbn. by rewrite heap_of_with.
  - constructor; cbn; [by rewrite heap_of_with|done|]. apply map_Forall_insert_2; [|done]. apply (Hobj p _ E).
Qed.
Lemma delete_file_steps e p e1 :
  comb_ok e -> delete_file p e = Ok tt e1 -> steps_to e [Others (heap_of (cw_net (e_world e1)))] [Does (EvDelete p)] e1.
Proof.
  intros [_ Hi Hobj]. unfold delete_file, zoom. destruct (e_queues e !! p) as [[n|b n|b [f|]]|] eqn:E; try done.
  destruct (q_destroy f _) as [[] w| | |] eqn:Ed; try done. intros [= <-]. unfold steps_to. split; [|split].
  - unfold net_env at 2, set_object, set_e_world, set_e_queues. cbn. erewrite omap_insert_same by done.
    apply (lib_runs_others (net_env e)). cbn. by rewrite heap_of_with.
  - apply lib_runs_does. unfold file_env at 2, set_object, set_e_world, set_e_queues. cbn. rewrite omap_insert_None by done.
    eapply (DDelete (file_env e)); [|exact Ed]. cbn. by rewrite lookup_omap, E.
  - constructor; cbn; [by rewrite heap_of_with|done|]. apply map_Forall_insert_2; [|done]. apply (Hobj p _ E).
Qed.
(** Two writes to the heap are one. *)
Lemma others_twice {Q W} `{Queue Q W} `{HeapWorld W} (e e1 e2 : qenv Q W) h1 h2 :
  lib_runs e [Others h1] e1 -> lib_runs e1 [Others h2] e2 -> lib_runs e [Others h2] e2.
Proof.
  intros H1 H2. inversion H1 as [|? ? e1' ? ? Ha Hn]. subst. inversion Hn. subst. inversion Ha. subst.
  inversion H2 as [|? ? e2' ? ? Hb Hm]. subst. inversion Hm. subst. inversion Hb. subst.
  unfold set_e_world. cbn. rewrite with_heap_with. apply (lib_runs_one e), LOthers.
Qed.

Lemma keeps_vcall_net p c : keeps (S := qenv NQ NW) same_shape (q_vcall p c).
Proof. intros v. apply q_vcall_shape. Qed.
Lemma keeps_vcall_file p c : keeps (S := qenv FQ FW) same_shape (q_vcall p c).
Proof. intros u. apply q_vcall_shape. Qed.
Lemma keeps_accept_net p qt qd : keeps (S := qenv NQ NW) same_shape (q_accept p qt qd).
Proof. intros v. eapply post_mono; [apply q_accept_shape|]. by intros r v' [Hs _]. Qed.

Lemma net_close_steps e p r e1 :
  comb_ok e -> fbind (on_net (q_vcall p VClose)) (fun r => fbind (delete_net p) (fun _ => fret r)) e = Ok r e1 ->
  steps_to e [Does (EvCall p VClose r); Does (EvDelete p)] [Others (heap_of (cw_file (e_world e1)))] e1.
Proof.
  intros Hok Hc. unfold fbind in Hc. destruct (on_net _ e) as [r' e2| | |] eqn:E1; try done.
  destruct (delete_net p e2) as [[] e3| | |] eqn:E2; try done. injection Hc as <- <-.
  apply on_net_steps in E1 as [E1 H1]; [|done|apply keeps_vcall_net]. destruct (H1 _ (DCall _ _ _ _ _ E1)) as (N1 & F1 & Hok2).
  destruct (delete_net_steps _ _ _ Hok2 E2) as (N2 & F2 & Hok3). split; [exact (lib_runs_app _ _ _ _ _ N1 N2)|].
  split; [by eapply others_twice|done].
Qed.
Lemma file_close_steps e p r e1 :
  comb_ok e -> fbind (on_file (q_vcall p VClose)) (fun r => fbind (delete_file p) (fun _ => fret r)) e = Ok r e1 ->
  steps_to e [Others (heap_of (cw_net (e_world e1)))] [Does (EvCall p VClose r); Does (EvDelete p)] e1.
Proof.
  intros Hok Hc. unfold fbind in Hc. destruct (on_file _ e) as [r' e2| | |] eqn:E1; try done.
  destruct (delete_file p e2) as [[] e3| | |] eqn:E2; try done. injection Hc as <- <-.
  apply on_file_steps in E1 as [E1 H1]; [|done|apply keeps_vcall_file]. destruct (H1 _ (DCall _ _ _ _ _ E1)) as (N1 & F1 & Hok2).
  destruct (delete_file_steps _ _ _ Hok2 E2) as (N2 & F2 & Hok3). split; [by eapply others_twice|].
  split; [exact (lib_runs_app _ _ _ _ _ F1 F2)|done].
Qed.

Lemma net_call_steps e p c r e1 :
  comb_ok e -> on_net (q_vcall p c) e = Ok r e1 -> steps_to e [Does (EvCall p c r)] [Others (heap_of (cw_file (e_world e1)))] e1.
Proof. intros Hok Hc. apply on_net_steps in Hc as [Hc H]; [|done|apply keeps_vcall_net]. by apply H, DCall. Qed.
Lemma file_call_steps e p c r e1 :
  comb_ok e -> on_file (q_vcall p c) e = Ok r e1 -> steps_to e [Others (heap_of (cw_net (e_world e1)))] [Does (EvCall p c r)] e1.
Proof. intros Hok Hc. apply on_file_steps in Hc as [Hc H]; [|done|apply keeps_vcall_file]. by apply H, DCall. Qed.
Lemma file_open_steps e p c r e1 :
  comb_ok e -> fbind (on_file (q_vcall p c)) (fun _ => fret 0) e = Ok r e1 ->
  steps_to e [Others (heap_of (cw_net (e_world e1)))] [Does (EvCall p c (open_answer e p c))] e1.
Proof.
  intros Hok Hc. unfold fbind in Hc. destruct (on_file _ e) as [r' e2| | |] eqn:E1; try done. injection Hc as _ <-.
  apply on_file_steps in E1 as [E1 H1]; [|done|apply keeps_vcall_file]. unfold open_answer. rewrite E1. by apply H1, DCall.
Qed.
(** Only the base of a wrapper changes: the libraries see nothing. *)
Lemma base_steps e p o o' :
  comb_ok e -> e_queues e !! p = Some o -> net_object o = net_object o' -> file_object o = file_object o' -> wf_object o' ->
  steps_to e [] [] (set_e_queues (<[p := o']> (e_queues e)) e).
Proof.
  intros [Hh Hi Hobj] Hp Hn Hf Hw. unfold steps_to, net_env, file_env. cbn.
  rewrite (omap_insert_same net_object _ _ _ o), (omap_insert_same file_object _ _ _ o) by done.
  split; [apply lr_nil|]. split; [apply lr_nil|]. constructor; [done..|]. by apply map_Forall_insert_2.
Qed.

Lemma new_qtoken_cid q : wlp new_qtoken (fun _ q' => my_cid q' = my_cid q) q.
Proof.
  unfold new_qtoken. post_simp. destruct (negb _); post_simp; [|done]. destruct (ploop _ _ _) as [|[u|]]; post_simp; done.
Qed.

(** [drop], and the tokens of a wrapper, are the wrapper's own. *)
Lemma wrapper_base_steps {A} e p o (m : fn io_queue A) b r :
  comb_ok e -> e_queues e !! p = Some o -> (forall n, o <> Plain n) ->
  wlp m (fun _ q' => my_cid q' = my_cid (comb_base o)) (comb_base o) -> m (comb_base o) = Ok r b ->
  steps_to e [] [] (set_e_queues (<[p := set_comb_base b o]> (e_queues e)) e).
Proof.
  intros Hok Hp Hn Hm Hr. unfold post in Hm. rewrite Hr in Hm. pose proof (ok_objects _ Hok p o Hp) as Hw.
  destruct o as [n|b' n|b' f]; [by destruct (Hn n)|..]; eapply base_steps; try done; cbn in *; congruence.
Qed.
Lemma drop_cid qt q : wlp (io_queue_drop qt) (fun _ q' => my_cid q' = my_cid q) q.
Proof.
  unfold post. destruct (io_queue_drop qt q) as [r q'| | |] eqn:E; try done. by apply (run_cmd_frame CDrop) in E as (_ & H & _).
Qed.
Lemma wrapper_drop e p o qt r e1 :
  comb_ok e -> e_queues e !! p = Some o -> (forall n, o <> Plain n) ->
  cb_vcall p (VDrop qt) e = Ok r e1 -> steps_to e [] [] e1.
Proof.
  intros Hok Hp Hn. cbn [cb_vcall]. unfold on_object, zoom. rewrite Hp.
  destruct (io_queue_drop qt (comb_base o)) as [r' b| | |] eqn:E; try done. intros [= <- <-].
  eapply wrapper_base_steps; [done..|apply drop_cid|exact E].
Qed.

(** Only the library's own objects are destroyed; a wrapped one leaks. *)
Lemma delete_steps e p o w :
  comb_ok e -> e_queues e !! p = Some o -> q_destroy (Queue := comb_vtable) o (e_world e) = Ok tt w ->
  let e1 := mk_qenv (delete p (e_queues e)) w in steps_to e (net_acts e (EvDelete p) e1) (file_acts e (EvDelete p) e1) e1.
Proof.
  intros [Hh Hi Hobj] Hp Hd e1. unfold e1, steps_to. rewrite net_delete, file_delete. cbn [net_acts file_acts e_world]. rewrite Hp.
  cbn in Hd. unfold cb_destroy in Hd.
  assert (Hobj' : map_Forall (fun _ => wf_object) (delete p (e_queues e))) by (by apply map_Forall_delete).
  destruct o as [n|b o|b o].
  - unfold zoom in Hd. destruct (q_destroy n (cw_net (e_world e))) as [[] w'| | |] eqn:Ed; try done. injection Hd as <-. cbn. split; [|split].
    + apply lib_runs_does. eapply (DDelete (net_env e) p n); [|exact Ed]. cbn. by rewrite lookup_omap, Hp.
    + rewrite delete_id by (by rewrite lookup_omap, Hp). apply (lib_runs_others (file_env e)). cbn. by rewrite heap_of_with.
    + constructor; cbn; [by rewrite heap_of_with|done|done].
  - injection Hd as <-. cbn. rewrite (delete_id (omap file_object _)) by (by rewrite lookup_omap, Hp).
    split; [|split; [apply lr_nil|by constructor]]. destruct o as [n|].
    + apply lib_runs_one. eapply (LLeaks (net_env e) p n). cbn. by rewrite lookup_omap, Hp.
    + rewrite delete_id by (by rewrite lookup_omap, Hp). apply lr_nil.
  - injection Hd as <-. cbn. rewrite (delete_id (omap net_object _)) by (by rewrite lookup_omap, Hp).
    split; [apply lr_nil|]. split; [|by constructor]. destruct o as [f|].
    + apply lib_runs_one. eapply (LLeaks (file_env e) p f). cbn. by rewrite lookup_omap, Hp.
    + rewrite delete_id by (by rewrite lookup_omap, Hp). apply lr_nil.
Qed.

(** The two libraries at a step of the process. *)
Lemma step_simulates e a e1 :
  comb_ok e -> constructed a -> does (H := comb_vtable) e a e1 -> steps_to e (net_acts e a e1) (file_acts e a e1) e1.
Proof.
  intros Hok Hw Hstep. destruct Hstep as [p c r e1 Hc|p a n r e1 Hc|p qt qd r e1 Hc|p qr qt r e1 Hc|p r e1 Hc|p o Hp|p o w Hp Hd].
  - destruct (e_queues e !! p) as [o|] eqn:Hp; [|by cbn in Hc; unfold cb_dispatch in Hc; rewrite Hp in Hc].
    cbn [net_acts file_acts]. rewrite Hp. destruct o as [n|b o|b o].
    + cbn in Hc. unfold cb_dispatch in Hc. rewrite Hp in Hc. by apply net_call_steps.
    + destruct (is_drop c) eqn:Ed.
      * destruct c; try discriminate Ed. cbn [q_vcall comb_vtable] in Hc. unfold cb_dispatch in Hc. rewrite Hp in Hc. by eapply wrapper_drop.
      * rewrite (wrapper_net _ _ _ _ _ Hok Hp Ed) in Hc. destruct c, o; try discriminate; by first [apply net_call_steps|apply net_close_steps].
    + destruct (is_drop c) eqn:Ed.
      * destruct c; try discriminate Ed. cbn [q_vcall comb_vtable] in Hc. unfold cb_dispatch in Hc. rewrite Hp in Hc. by eapply wrapper_drop.
      * rewrite (wrapper_file _ _ _ _ _ Hok Hp Ed) in Hc.
        destruct c, o; try discriminate; first [by apply file_call_steps|by apply file_close_steps|by eapply file_open_steps].
  - cbn [net_acts file_acts]. assert (Hn : on_net (q_getsockname p a n) e = Ok r e1).
    { cbn in Hc. unfold cb_dispatch in Hc. destruct (e_queues e !! p) as [o|] eqn:Hp; [|done]. destruct o as [n'|b o|b o]; [exact Hc|..];
        unfold cb_getsockname, fbind in Hc; rewrite (wrapper_need_net _ _ _ Hok Hp) in Hc; [destruct o|]; done. }
    apply on_net_steps in Hn as [Hn H]; [|done|intros ?; apply q_getsockname_shape]. by apply H, DSockname.
  - cbn [net_acts file_acts]. assert (Hn : on_net (q_accept p qt qd) e = Ok (fst r, snd r ≫= plain_object) e1).
    { cbn in Hc. unfold cb_dispatch in Hc. destruct (e_queues e !! p) as [o|] eqn:Hp; [|done]. destruct o as [n'|b o|b o].
      - unfold on_net, zoom, fbind in *. destruct (q_accept p qt qd (net_env e)) as [[r' o'] v| | |]; try done. injection Hc as <- <-. by destruct o'.
      - unfold cb_accept in Hc. unfold fbind at 1 in Hc. rewrite (wrapper_need_net _ _ _ Hok Hp) in Hc. destruct o; [|done]. unfold fbind in Hc.
        destruct (on_net (q_accept p qt qd) e) as [[r' o'] v| | |]; try done. injection Hc as <- <-. by destruct o'.
      - unfold cb_accept in Hc. unfold fbind at 1 in Hc. by rewrite (wrapper_need_net _ _ _ Hok Hp) in Hc. }
    apply on_net_steps in Hn as [Hn H]; [|done|apply keeps_accept_net]. by apply H, DAccept.
  - cbn [net_acts file_acts]. destruct (e_queues e !! p) as [o|] eqn:Hp; [|by cbn in Hc; unfold cb_dispatch in Hc; rewrite Hp in Hc].
    destruct o as [n|b o|b o].
    + cbn in Hc. unfold cb_dispatch in Hc. rewrite Hp in Hc. apply on_net_steps in Hc as [Hc H]; [|done|intros ?; apply q_poll_shape]. by apply H, DPoll.
    + rewrite (wrapper_net_poll _ _ _ _ _ _ Hok Hp) in Hc. destruct o; [|done].
      apply on_net_steps in Hc as [Hc H]; [|done|intros ?; apply q_poll_shape]. by apply H, DPoll.
    + rewrite (wrapper_file_poll _ _ _ _ _ _ Hok Hp) in Hc. destruct o; [|done].
      apply on_file_steps in Hc as [Hc H]; [|done|intros ?; apply q_poll_shape]. by apply H, DPoll.
  - unfold on_queue in Hc. destruct (e_queues e !! p) as [o|] eqn:Hp; [|done]. cbn [net_acts file_acts]. rewrite Hp.
    change (q_base o) with (comb_base o) in Hc. change (set_q_base ?b o) with (set_comb_base b o) in Hc.
    destruct (new_qtoken (comb_base o)) as [t b| | |] eqn:En; try done. injection Hc as <- <-.
    destruct o as [n|b' n|b' f]; [|eapply wrapper_base_steps; [done..|apply new_qtoken_cid|exact En]..].
    pose proof Hok as [Hh Hi Hobj]. unfold steps_to, net_env, file_env. cbn [e_queues e_world set_e_queues]. rewrite !omap_insert. cbn [set_comb_base net_object file_object].
    rewrite (delete_id (omap file_object _)) by (by rewrite lookup_omap, Hp). split; [|split; [apply lr_nil|]].
    + apply lib_runs_does. apply (DToken (net_env e)). unfold on_queue. cbn. rewrite lookup_omap, Hp. cbn. cbn in En. by rewrite En.
    + constructor; [done..|]. by apply map_Forall_insert_2.
  - pose proof Hok as [Hh Hi Hobj]. cbn [net_acts file_acts constructed] in *. unfold steps_to, net_env, file_env. cbn [e_queues e_world set_e_queues]. rewrite !omap_insert.
    assert (Hn : e_queues (net_env e) !! p = None) by (cbn; by rewrite lookup_omap, Hp).
    assert (Hf : e_queues (file_env e) !! p = None) by (cbn; by rewrite lookup_omap, Hp).
    split; [|split].
    + destruct (net_object o) as [n|]; [by apply lib_runs_does, (DInsert (net_env e))|rewrite delete_id by done; apply lr_nil].
    + destruct (file_object o) as [f|]; [by apply lib_runs_does, (DInsert (file_env e))|rewrite delete_id by done; apply lr_nil].
    + constructor; [done..|]. by apply map_Forall_insert_2.
  - by eapply delete_steps.
Qed.

(** C21: a combined library is its two parts side by side.  Over any run of a
    process, calls through the vtable, tokens issued by the API and objects that
    come and go, what each library goes through is a run of that library alone,
    whose events are those of the process: a call on a queue of the network
    library, or on the wrapper of one, is that call in that library with that
    answer, and the same for the files ([net_acts], [file_acts]); the other
    library only finds what the call left in the heap, of which there is one.
    What differs is stated too: the answer of [open], [open2] and [creat] of a
    file queue is dropped; [close] deletes the wrapped queue; a wrapper's tokens
    and [drop] are its own and reach no library; and a wrapper that goes leaks
    the queue it wraps, if that was not closed.  And a call on a wrapper does not
    just answer like the wrapped queue when it answers: it is the call on the
    wrapped queue, stuck calls included. *)
Theorem combined_simulates e tr ntr ftr e' :
  comb_runs e tr ntr ftr e' -> comb_ok e ->
  lib_runs (net_env e) ntr (net_env e') /\ lib_runs (file_env e) ftr (file_env e') /\ comb_ok e' /\
  (forall p b o,
     (e_queues e' !! p = Some (NetPart b o) ->
        (forall c, is_drop c = false -> q_vcall (Queue := comb_vtable) p c e' = net_forward p o c e') /\
        (forall qr qt, q_poll (Queue := comb_vtable) p qr qt e' = net_poll p o qr qt e'))) /\
  (forall p b o,
     (e_queues e' !! p = Some (FilePart b o) ->
        (forall c, is_drop c = false -> q_vcall (Queue := comb_vtable) p c e' = file_forward p o c e') /\
        (forall qr qt, q_poll (Queue := comb_vtable) p qr qt e' = file_poll p o qr qt e'))).
Proof.
  intros Hrun Hok. assert (H : steps_to e ntr ftr e').
  { induction Hrun as [e|e a e1 tr ntr ftr e' Ha Hw _ IH]; [split; [apply lr_nil|split; [apply lr_nil|done]]|].
    destruct (step_simulates e a e1 Hok Hw Ha) as (N1 & F1 & Hok1). destruct (IH Hok1) as (N2 & F2 & Hok2).
    split; [by eapply lib_runs_app|]. split; [by eapply lib_runs_app|done]. }
  destruct H as (H1 & H2 & H3). split_and!; try done; intros p b o Hp; split.
  - intros c Hc. by eapply wrapper_net.
  - intros qr qt. by eapply wrapper_net_poll.
  - intros c Hc. by eapply wrapper_file.
  - intros qr qt. by eapply wrapper_file_poll.
Qed.
End simulation.
