(* ===== verification/SpdkDpdk.v ===== *)
(** * The SPDK and DPDK library OS: [spdk-dpdk/]

    The combined queues over [lwip_queue] and [spdk_queue], with the
    initialisation of both libraries from one configuration file. *)
From Stdlib Require Import String.
From S2P Require Import Prelude Cmd Types Memory IoQueue MemoryQueue MemoryVtable Queue IoQueueApi Libos LwipOs LwipQueue LwipLaws LwipArp LwipWire LwipIo SpdkQueue SpdkLaws SpdkLog Combined CombinedLaws.
Open Scope cmd_scope.

#[export] Instance lwip_heap {D} : HeapWorld (lworld D).
Proof. refine {| heap_of := lw_heap; with_heap h w := set_lw_mem h (lw_dev w) w |}; [done|done|by intros []]. Defined.
#[export] Instance spdk_heap {D} : HeapWorld (sworld D).
Proof. refine {| heap_of := sw_heap; with_heap h w := set_sw_mem h (sw_dev w) w |}; [done|done|by intros []]. Defined.

(** The environment variable, the command line and the files that
    [init_spdk_dpdk] looks at; one file configures both libraries. *)
Class SpdkDpdkEnv (D V : Type) := {
  getenv_SPDK_OFF : D -> V -> option string;
  sd_config_path : list string -> D -> V -> option string;
  sd_access_R_OK : string -> D -> V -> Z;
  sd_yaml_load : string -> D -> V -> spdk_config * lwip_config
}.

Section spdk_dpdk.
Context {D V : Type} `{DP : Dpdk D} `{SD : SpdkDevice V} `{SE : SpdkDpdkEnv D V} (fuel : nat).
Abbreviation object := (comb_object lwip_object spdk_object).
Abbreviation world := (comb_world (lworld D) (sworld V)).
Definition world_net {A} (m : fn (lworld D) A) : fn world A := zoom cw_net set_cw_net m.
Definition world_file {A} (m : fn (sworld V) A) : fn world A := zoom cw_file set_cw_file m.

#[export] Instance spdk_dpdk_vtable : Queue object world := comb_vtable (HN := lwip_vtable fuel) (HF := spdk_vtable fuel).

Definition spdk_dpdk_opts : spdk_env_opts :=
  let opts := spdk_env_opts_init in
  mk_env_opts (o_name opts) (o_mem_channel opts) (o_core_mask opts) [(0, 0x37, 0, 0)] (Some "--proc-type=auto"%string).

(** [argv] is [None] for a null pointer.  Without SPDK the answer of
    [init_dpdk] is dropped. *)
Definition init_spdk_dpdk (argc : Z) (argv : option (list string)) : fn world Z := body (
  DMTR_TRUE ERANGE (argc >=? 0) ;;
  (if argc >? 0 then DMTR_NOTNULL EINVAL argv else normal tt) ;;
  w <- get ;
  DMTR_TRUE EPERM (negb (cw_init w)) ;;
  let d := lw_dev (cw_net w) in
  let v := sw_dev (cw_file w) in
  match getenv_SPDK_OFF d v with
  | Some _ =>
      _ <- call (world_net (init_dpdk argc argv)) ;
      modify (set_cw_init true) ;;
      normal 0
  | None =>
      match sd_config_path (default [] argv) d v with
      | None => return_ 0
      | Some config_path =>
          if sd_access_R_OK config_path d v =? -1 then return_ ENOENT
          else
            let '(spdk, dpdk) := sd_yaml_load config_path d v in
            DMTR_OK (world_file (init_spdk_config spdk spdk_dpdk_opts)) ;;
            DMTR_OK (world_net (finish_dpdk_init dpdk)) ;;
            modify (set_cw_init true) ;;
            normal 0
      end
  end).

Definition sd_mem_ctor (qd : Z) : fn world (Z * option object) :=
  fbind (mq_ctor qd) (fun r => fret (fst r, (fun q => Plain (LMemObj q)) <$> snd r)).
Definition sd_new_net : Z -> fn world (Z * option object) := cb_new_net (fun qd => LwObj (lwip_queue_ctor qd)).
Definition sd_new_file : Z -> fn world (Z * option object) := cb_new_file (fun qd => SpdkObj (spdk_queue_ctor qd)).
Definition spdk_dpdk_library (argc : Z) (argv : option (list string)) : libos object world :=
  spdk_dpdk_libos sd_mem_ctor sd_new_net sd_new_file (init_spdk_dpdk argc argv).

#[export] Instance spdk_dpdk_laws : QueueLaws object world (H := spdk_dpdk_vtable).
Proof. apply comb_laws. Qed.

Lemma spdk_dpdk_ctors_ok argc argv : ctors_ok (HQ := spdk_dpdk_vtable) (spdk_dpdk_library argc argv).
Proof.
  split; [by vm_compute; repeat constructor; set_solver|].
  intros cid c Hin qd w. cbn in Hin. rewrite !elem_of_cons, elem_of_nil in Hin.
  destruct Hin as [[= _ ->]|[[= _ ->]|[[= _ ->]|[]]]]; unfold post.
  - unfold sd_mem_ctor, fbind. destruct (mq_ctor_eq qd w) as (q & -> & Hb). cbn. intros _ q' [= <-]. cbn. by rewrite Hb.
  - unfold sd_new_net, cb_new_net, body_out, sbind, fbind, get, DMTR_TRUE. destruct (cw_init w); cbn; [|done]. by intros _ q [= <-].
  - unfold sd_new_file, cb_new_file, body_out, sbind, fbind, get, DMTR_TRUE. destruct (cw_init w); cbn; [|done]. by intros _ q [= <-].
Qed.

(** Whatever a process does with this library OS, the API stays well formed. *)
Lemma spdk_dpdk_process_ok argc argv w p :
  rtc (libos_step (HQ := spdk_dpdk_vtable) (spdk_dpdk_library argc argv)) (NoApi w) p -> proc_ok (HQ := spdk_dpdk_vtable) p.
Proof. apply (libos_run_ok (HQ := spdk_dpdk_vtable)); [apply spdk_dpdk_laws|apply spdk_dpdk_ctors_ok]. Qed.
End spdk_dpdk.

(** ** An example: a network queue and a file queue of one process *)
Definition demo_comb : qenv (comb_object lwip_object spdk_object) (comb_world (lworld nic) (sworld demo_nvme)) :=
  mk_qenv (<[3 := NetPart (io_queue_ctor NETWORK_Q 3) (Some (LwObj demo_lwip))]>
             {[4 := FilePart (io_queue_ctor FILE_Q 4) (Some (SpdkObj (spdk_queue_ctor 4)))]})
    (mk_comb_world true demo_sender (with_heap (lw_heap demo_sender) (demo_sworld 64))).

Abbreviation demo_comb_vtable := (@comb_vtable lwip_object (lworld nic) spdk_object (sworld demo_nvme) (lwip_vtable 9) (spdk_vtable 9) lwip_heap spdk_heap).
Definition after {S A} (m : fn S A) (s : S) : S := match m s with Ok _ s' => s' | _ => s end.
(** The file is opened and something is sent on the network queue. *)
Definition demo_comb_open := after (q_vcall (Queue := demo_comb_vtable) 4 (VOpen [] 0)) demo_comb.
Definition demo_comb_sent := after (q_vcall (Queue := demo_comb_vtable) 3 (VPush demo_token demo_sga)) demo_comb_open.
Lemma demo_opens : q_vcall (Queue := demo_comb_vtable) 4 (VOpen [] 0) demo_comb = Ok 0 demo_comb_open.
Proof. vm_compute. reflexivity. Qed.
Lemma demo_sends : exists r, q_vcall (Queue := demo_comb_vtable) 3 (VPush demo_token demo_sga) demo_comb_open = Ok r demo_comb_sent /\ r = 0.
Proof.
  unfold demo_comb_sent, after.
  assert (H : match q_vcall (Queue := demo_comb_vtable) 3 (VPush demo_token demo_sga) demo_comb_open with Ok r _ => r = 0 | _ => False end)
    by (vm_compute; reflexivity).
  destruct (q_vcall _ _ demo_comb_open) as [r e'| | |]; [by exists r|done..].
Qed.

Lemma combined_simulates_witness : exists ntr ftr,
  lib_runs (H0 := lwip_heap) (H := lwip_vtable 9) (net_env demo_comb) ntr (net_env demo_comb_sent) /\
  lib_runs (H0 := spdk_heap) (H := spdk_vtable 9) (file_env demo_comb) ftr (file_env demo_comb_sent) /\ comb_ok demo_comb_sent /\
  (exists h r, ntr = [Others h; Does (EvCall 3 (VPush demo_token demo_sga) r)]) /\ exists r h, ftr = [Does (EvCall 4 (VOpen [] 0) r); Others h].
Proof.
  pose proof demo_opens as H1. destruct demo_sends as (r & H2 & _).
  edestruct (combined_simulates (HN := lwip_vtable 9) (HF := spdk_vtable 9) (LN := lwip_laws 9) (LF := spdk_laws 9) demo_comb)
    as (R1 & R2 & R3 & _).
  - eapply cr_cons; [eapply DCall; exact H1|exact I|]. eapply cr_cons; [eapply DCall; exact H2|exact I|apply cr_nil].
  - constructor; [reflexivity|reflexivity|]. repeat apply map_Forall_insert_2; [reflexivity|reflexivity|apply map_Forall_empty].
  - do 2 eexists. split; [exact R1|]. split; [exact R2|]. split; [exact R3|]. split; do 2 eexists; reflexivity.
Defined.
