(* ===== verification/SpdkRdma.v ===== *)
(** * The SPDK and RDMA library OS: [spdk-rdma/]

    The class of [Combined] a second time, over [rdma_queue] and [spdk_queue]:
    [spdk-rdma/spdk_rdma_queue.cc] differs from [spdk-dpdk] in its network
    queue, whose objects own a window that the constructor clears, and in its
    initialisation. *)
From Stdlib Require Import String.
From S2P Require Import Prelude Cmd Types Memory IoQueue MemoryQueue MemoryVtable Queue IoQueueApi Libos Router RdmaOs RdmaQueue RdmaLaws SpdkQueue SpdkLaws Combined CombinedLaws SpdkDpdk.
Open Scope cmd_scope.

#[export] Instance rdma_heap {R} : HeapWorld (rdworld R).
Proof. refine {| heap_of := rw_heap; with_heap h w := set_rw_mem h (rw_lib w) w |}; [done|done|by intros []]. Defined.

(** The environment variable, the command line and the files that
    [init_spdk_rdma] looks at. *)
Class SpdkRdmaEnv (R V : Type) := {
  sr_SPDK_OFF : R -> V -> option string;
  sr_config_path : list string -> R -> V -> option string;
  sr_access_R_OK : string -> R -> V -> Z;
  sr_yaml_load : string -> R -> V -> spdk_config
}.

Section spdk_rdma.
Context {R V : Type} `{CM : RdmaCm R} `{RV : RdmaVerbs R} `{SD : SpdkDevice V} `{SE : SpdkRdmaEnv R V} (fuel : nat).
#[local] Existing Instance spdk_heap.
Abbreviation object := (comb_object rdma_object spdk_object).
Abbreviation world := (comb_world (rdworld R) (sworld V)).
Abbreviation env := (qenv object world).
Definition sr_world_net {A} (m : fn (rdworld R) A) : fn world A := zoom cw_net set_cw_net m.
Definition sr_world_file {A} (m : fn (sworld V) A) : fn world A := zoom cw_file set_cw_file m.

(** ** The methods, from [socket] to [poll] *)
Definition sr_net : Z -> vcall -> fn env Z := cb_net (HN := rdma_vtable fuel).
Definition sr_getsockname : Z -> bool -> option Z -> fn env (Z * option (list Z)) := cb_getsockname (HN := rdma_vtable fuel).
Definition sr_accept : Z -> Z -> Z -> fn env (Z * option object) := cb_accept (HN := rdma_vtable fuel).
Definition sr_close : Z -> fn env Z := cb_close (HN := rdma_vtable fuel) (HF := spdk_vtable fuel).
Definition sr_file : Z -> vcall -> fn env Z := cb_file (HN := rdma_vtable fuel) (HF := spdk_vtable fuel).
Definition sr_io : Z -> vcall -> fn env Z := cb_io (HN := rdma_vtable fuel) (HF := spdk_vtable fuel).
Definition sr_poll : Z -> dmtr_qresult -> Z -> fn env (Z * dmtr_qresult) := cb_poll (HN := rdma_vtable fuel) (HF := spdk_vtable fuel).
#[export] Instance spdk_rdma_vtable : Queue object world := comb_vtable (HN := rdma_vtable fuel) (HF := spdk_vtable fuel).

(** What the vtable calls are the methods above. *)
Lemma sr_vcall self o c e :
  e_queues e !! self = Some o -> match o with Plain _ => False | _ => True end ->
  q_vcall (Queue := spdk_rdma_vtable) self c e =
    match c with
    | VSocket _ _ _ | VListen _ | VBind _ _ | VConnect _ _ _ => sr_net self c e
    | VOpen _ _ | VOpen2 _ _ _ | VCreat _ _ => sr_file self c e
    | VPush _ _ | VPop _ => sr_io self c e
    | VClose => sr_close self e
    | VDrop qt => on_object Some id self (zoom (comb_base (HN := rdma_vtable fuel)) (set_comb_base (HN := rdma_vtable fuel)) (io_queue_drop qt)) e
    end.
Proof. intros E Ho. unfold q_vcall, spdk_rdma_vtable, comb_vtable, cb_dispatch. rewrite E. destruct o; [done| |]; by destruct c. Qed.

(** ** Initialisation

    [argv] is [None] for a null pointer; the file is read whether SPDK is off
    or not. *)
Definition init_spdk_rdma (argc : Z) (argv : option (list string)) : fn world Z := body (
  DMTR_TRUE ERANGE (argc >=? 0) ;;
  (if argc >? 0 then DMTR_NOTNULL EINVAL argv else normal tt) ;;
  w <- get ;
  DMTR_TRUE EPERM (negb (cw_init w)) ;;
  let r := rw_lib (cw_net w) in
  let v := sw_dev (cw_file w) in
  match sr_config_path (default [] argv) r v with
  | None => return_ 0
  | Some config_path =>
      if sr_access_R_OK config_path r v =? -1 then return_ ENOENT
      else
        let config := sr_yaml_load config_path r v in
        (match sr_SPDK_OFF r v with
         | None => DMTR_OK (sr_world_file (init_spdk_config config spdk_env_opts_init))
         | Some _ => normal tt
         end) ;;
        DMTR_OK (sr_world_net init_rdma) ;;
        modify (set_cw_init true) ;;
        normal 0
  end).

(** ** Construction *)
Definition sr_mem_ctor (qd : Z) : fn world (Z * option object) :=
  fbind (mq_ctor qd) (fun r => fret (fst r, (fun q => Plain (RMemObj q)) <$> snd r)).
(** [new rdma_queue(qd)] clears the window of the new object. *)
Definition sr_new_net (qd : Z) : fn world (Z * option object) := body_out None (
  w <- get ;
  DMTR_TRUE EPERM (cw_init w) ;;
  call (sr_world_net (rd_do (window_write qd 0))) ;;
  normal (Some (NetPart (io_queue_ctor NETWORK_Q qd) (Some (RdObj (rdma_queue_ctor qd)))))).
Definition sr_new_file : Z -> fn world (Z * option object) := cb_new_file (fun qd => SpdkObj (spdk_queue_ctor qd)).
Definition spdk_rdma_library (argc : Z) (argv : option (list string)) : libos object world :=
  spdk_rdma_libos sr_mem_ctor sr_new_net sr_new_file (init_spdk_rdma argc argv).

#[export] Instance spdk_rdma_laws : QueueLaws object world (H := spdk_rdma_vtable).
Proof. apply comb_laws. Qed.

Lemma spdk_rdma_ctors_ok argc argv : ctors_ok (HQ := spdk_rdma_vtable) (spdk_rdma_library argc argv).
Proof.
  split; [by vm_compute; repeat constructor; set_solver|].
  intros cid c Hin qd w. cbn in Hin. rewrite !elem_of_cons, elem_of_nil in Hin.
  destruct Hin as [[= _ ->]|[[= _ ->]|[[= _ ->]|[]]]]; unfold post.
  - unfold sr_mem_ctor, fbind. destruct (mq_ctor_eq qd w) as (q & -> & Hb). cbn. intros _ q' [= <-]. cbn. by rewrite Hb.
  - unfold sr_new_net, body_out, sbind, fbind, get, DMTR_TRUE. destruct (cw_init w); cbn; [|done]. by intros _ q [= <-].
  - unfold sr_new_file, cb_new_file, body_out, sbind, fbind, get, DMTR_TRUE. destruct (cw_init w); cbn; [|done]. by intros _ q [= <-].
Qed.

(** Whatever a process does with this library OS, the API stays well formed. *)
Lemma spdk_rdma_process_ok argc argv w p :
  rtc (libos_step (HQ := spdk_rdma_vtable) (spdk_rdma_library argc argv)) (NoApi w) p -> proc_ok (HQ := spdk_rdma_vtable) p.
Proof. apply (libos_run_ok (HQ := spdk_rdma_vtable)); [apply spdk_rdma_laws|apply spdk_rdma_ctors_ok]. Qed.
End spdk_rdma.
