(* ===== verification/Echo.v ===== *)
(** * The echo applications as clients of the library: [apps/echo/]

    [common.hh] (options and the packet), [dmtr_tcp_server.cc],
    [dmtr_tcp_client.cc], [dmtr_udp_server.cc], [dmtr_udp_client.cc] and
    [dmtr_file_test.cc], over any library OS.  A program runs on the process,
    whose library it calls through the exported functions of [Libos], on the
    heap of that process, and on its own variables.  The probes compiled under
    [DMTR_PROFILE], the code under [DMTR_OPEN2] and [WAIT_FOR_ALL], which the
    files leave undefined, the signal handlers and what goes to the console are
    left out.

    An endless loop is run for a number of rounds.  The command line, the
    configuration file and [inet_pton] are parameters: they belong to other
    libraries.  So is the clock: the [n]-th reading is [clock n]. *)
From stdpp Require Import strings.
From S2P Require Import Prelude Cmd Types Memory Contents IoQueue Queue IoQueueApi Wait Libos PosixOs Latency LatencyDump.
Open Scope Z_scope.
Open Scope cmd_scope.

(** ** [common.hh]: the options *)
Record globals := mk_globals {
  port : Z;
  server_ip_addr : option (list Z);
  packet_size : Z;
  iterations : Z;
  clients : Z;
  file : option (list Z)
}.
Definition globals_init : globals := mk_globals 12345 None 64 10 1 None.
Definition FILL_CHAR : Z := 97.

(** What was given on the command line. *)
Record cmdline := mk_cmdline {
  c_help : bool;
  c_ip : option (list Z);
  c_port : option Z;
  c_size : option Z;
  c_iterations : option Z;
  c_clients : option Z;
  c_config_path : option (list Z);
  c_file : option (list Z)
}.
(** The nodes looked at, when they are scalars; a scalar that is not a 16-bit
    number is [Some None]: converting it throws. *)
Record config := mk_config {
  y_server_host : option (list Z);
  y_server_port : option (option Z);
  y_client_host : option (list Z);
  y_client_port : option (option Z)
}.

(** [vm]: an option with a default value is always in the map. *)
Definition vm_port (a : cmdline) : option Z := Some (default 12345 (c_port a)).
Definition vm_size (a : cmdline) : option Z := Some (default 64 (c_size a)).
Definition vm_iterations (a : cmdline) : option Z := Some (default 10 (c_iterations a)).
Definition vm_clients (a : cmdline) : option Z := Some (default 1 (c_clients a)).

Definition set_port (p : Z) (g : globals) : globals :=
  mk_globals p (server_ip_addr g) (packet_size g) (iterations g) (clients g) (file g).
Definition set_server_ip_addr (a : option (list Z)) (g : globals) : globals :=
  mk_globals (port g) a (packet_size g) (iterations g) (clients g) (file g).
Definition set_packet_size (n : Z) (g : globals) : globals :=
  mk_globals (port g) (server_ip_addr g) n (iterations g) (clients g) (file g).
Definition set_iterations (n : Z) (g : globals) : globals :=
  mk_globals (port g) (server_ip_addr g) (packet_size g) n (clients g) (file g).
Definition set_clients (n : Z) (g : globals) : globals :=
  mk_globals (port g) (server_ip_addr g) (packet_size g) (iterations g) n (file g).
Definition set_file (f : option (list Z)) (g : globals) : globals :=
  mk_globals (port g) (server_ip_addr g) (packet_size g) (iterations g) (clients g) f.

(** Assigning a global when there is a value. *)
Definition assign {A} (set : A -> globals -> globals) (v : option A) : stmt globals unit :=
  match v with Some v => modify (set v) | None => normal tt end.
(** [node.as<uint16_t>()] *)
Definition as_uint16 (node : option (option Z)) : stmt globals (option Z) :=
  match node with
  | None => normal None
  | Some None => panic
  | Some (Some v) => normal (Some v)
  end.

Definition DEFAULT_CONFIG : list Z := (fun c => Z.of_N (Ascii.N_of_ascii c)) <$> String.list_ascii_of_string "./config.yaml".
Definition LOCALHOST : list Z := (fun c => Z.of_N (Ascii.N_of_ascii c)) <$> String.list_ascii_of_string "127.0.0.1".

(** [load path]: [None] when the file cannot be read, [Some None] when
    [LoadFile] throws.  The value returned is false when the program has
    printed its options and exits. *)
Definition parse_args (load : list Z -> option (option config)) (server : bool) (a : cmdline) : fn globals bool :=
  fbind (
    (* [notify] *)
    assign set_port (vm_port a) ;;
    assign set_packet_size (vm_size a) ;;
    assign set_iterations (vm_iterations a) ;;
    assign set_clients (vm_clients a) ;;
    (if c_help a then return_ 0 else normal tt) ;;
    (if server then normal tt else modify (set_server_ip_addr (Some LOCALHOST))) ;;
    match load (default DEFAULT_CONFIG (c_config_path a)) with
    | None => normal tt
    | Some None => panic
    | Some (Some y) =>
        assign (fun h => set_server_ip_addr (Some h)) (if server then y_server_host y else y_client_host y) ;;
        p <- as_uint16 (if server then y_server_port y else y_client_port y) ;
        assign set_port p
    end ;;
    assign (fun h => set_server_ip_addr (Some h)) (c_ip a) ;;
    assign set_port (vm_port a) ;;
    assign set_iterations (vm_iterations a) ;;
    assign set_packet_size (vm_size a) ;;
    assign (fun f => set_file (Some f)) (c_file a))
  (fun r => match r with inl _ => fret true | inr _ => fret false end).

(** ** Programs *)
Definition O_LOG : Z := 1052738.           (* [O_RDWR | O_CREAT | O_SYNC] *)
Definition MODE_LOG : Z := 480.            (* [S_IRWXU | S_IRGRP] *)

Record app (P V : Type) := mk_app { a_proc : P; a_tick : nat; a_vars : V }.
Arguments mk_app {P V}.
Arguments a_proc {P V}.
Arguments a_tick {P V}.
Arguments a_vars {P V}.

Section programs.
Context {Q W : Type} `{HQ : Queue Q W} (lib : libos Q W).
Context (heap_of : W -> heap) (set_heap : heap -> W -> W).
Context (clock : nat -> Z) (inet_pton : list Z -> option Z) (fuel : nat).
Abbreviation proc := (process Q W).

Definition proc_world (p : proc) : W := match p with NoApi w => w | WithApi st => e_world (my_env st) end.
Definition set_proc_world (w : W) (p : proc) : proc :=
  match p with NoApi _ => NoApi w | WithApi st => WithApi (set_my_env (set_e_world w (my_env st)) st) end.
Definition proc_heap {A} (m : fn heap A) : fn proc A :=
  zoom (fun p => heap_of (proc_world p)) (fun h p => set_proc_world (set_heap h (proc_world p)) p) m.

Section vars.
Context {V : Type}.
Abbreviation app := (app proc V).
Definition set_a_proc (p : proc) (s : app) : app := mk_app p (a_tick s) (a_vars s).
Definition set_a_vars (v : V) (s : app) : app := mk_app (a_proc s) (a_tick s) v.
Definition on_proc {A} (m : fn proc A) : fn app A := zoom a_proc set_a_proc m.
Definition vars : stmt app V := gets a_vars.
Definition set_vars (f : V -> V) : stmt app unit := modify (fun s => set_a_vars (f (a_vars s)) s).
(** [boost::chrono::steady_clock::now()] *)
Definition now : stmt app Z := fun s => Ok (inl (clock (a_tick s))) (mk_app (a_proc s) (S (a_tick s)) (a_vars s)).

(** [DMTR_OK(f(...))] on the library, and with an output parameter. *)
Definition lib_ok (m : fn proc Z) : stmt app unit := DMTR_OK (on_proc m).
Definition lib_out (m : fn proc (Z * option Z)) : stmt app Z := v <- DMTR_OK_out (on_proc m) ; need v.
(** [assert] *)
Definition assert_true (b : bool) : stmt app unit := if b then normal tt else panic.

(** [generate_packet]: the packet is a string of [FILL_CHAR]. *)
Definition generate_packet (g : globals) : stmt app Z :=
  r <- call (on_proc (proc_heap (dmtr_malloc (Some 0) (packet_size g)))) ;
  p <- need (snd r) ;
  call (on_proc (proc_heap (store_bytes p (replicate (Z.to_nat (packet_size g)) FILL_CHAR)))) ;;
  call (on_proc (proc_heap (store_bytes (p + u32 (packet_size g - 1)) [0]))) ;;
  normal p.

Definition app_wait (qr_out : option dmtr_qresult) (qt : Z) : fn proc (Z * option dmtr_qresult) :=
  Wait.dmtr_wait (dmtr_poll lib) (dmtr_drop lib) fuel qr_out qt.
Definition app_wait_any (qr_out : option dmtr_qresult) (ready_offset : option Z) (qts : list Z) (num_qts : Z) :
    fn proc (Z * option dmtr_qresult * option Z) :=
  Wait.dmtr_wait_any (dmtr_poll lib) (dmtr_drop lib) fuel qr_out ready_offset qts num_qts.
(** [DMTR_OK(dmtr_wait(&qr, qt))] *)
Definition wait_ok (qr : dmtr_qresult) (qt : Z) : stmt app dmtr_qresult :=
  r <- DMTR_OK_out (on_proc (app_wait (Some qr) qt)) ;
  need r.

(** [qr_value.sga]: reading the union as an array when it holds one. *)
Definition sga_of (qr : dmtr_qresult) : option dmtr_sgarray :=
  match qr_value qr with qv_sga sga => Some sga | qv_ares _ _ => None end.

(** The address a server binds: [None] when it cannot be parsed. *)
Definition server_saddr (g : globals) : option sockaddr_in :=
  match server_ip_addr g with
  | None => Some (mk_sockaddr_in AF_INET (htons (port g)) INADDR_ANY 0)
  | Some s => match inet_pton s with
              | Some a => Some (mk_sockaddr_in AF_INET (htons (port g)) a 0)
              | None => None
              end
  end.
(** The address of a client: [boost::get] on [none] is undefined. *)
Definition client_saddr (g : globals) : stmt app sockaddr_in :=
  s <- need (server_ip_addr g) ;
  match inet_pton s with
  | Some a => normal (mk_sockaddr_in AF_INET (htons (port g)) a 0)
  | None => return_ (-1)
  end.
End vars.

(** [n] rounds of a loop that only returns. *)
Fixpoint rounds {S} (n : nat) (m : stmt S unit) : stmt S unit :=
  match n with
  | O => normal tt
  | Datatypes.S n' => m ;; rounds n' m
  end.

(** ** [dmtr_tcp_server.cc]

    [sv_popped] holds the arrays stored in [popped_buffers], whose other
    elements were never written. *)
Record server_vars := mk_server_vars {
  lqd : Z;
  sv_sent : Z;
  sv_recved : Z;
  tokens : list Z;
  push_tokens : list Z;
  popped_buffers : list (option dmtr_sgarray);
  sv_wait_out : dmtr_qresult;
  sv_idx : Z;
  sv_qtemp : Z
}.
Definition set_lqd (x : Z) (v : server_vars) : server_vars :=
  mk_server_vars x (sv_sent v) (sv_recved v) (tokens v) (push_tokens v) (popped_buffers v) (sv_wait_out v) (sv_idx v) (sv_qtemp v).
Definition set_sv_sent (x : Z) (v : server_vars) : server_vars :=
  mk_server_vars (lqd v) x (sv_recved v) (tokens v) (push_tokens v) (popped_buffers v) (sv_wait_out v) (sv_idx v) (sv_qtemp v).
Definition set_sv_recved (x : Z) (v : server_vars) : server_vars :=
  mk_server_vars (lqd v) (sv_sent v) x (tokens v) (push_tokens v) (popped_buffers v) (sv_wait_out v) (sv_idx v) (sv_qtemp v).
Definition set_tokens (x : list Z) (v : server_vars) : server_vars :=
  mk_server_vars (lqd v) (sv_sent v) (sv_recved v) x (push_tokens v) (popped_buffers v) (sv_wait_out v) (sv_idx v) (sv_qtemp v).
Definition set_push_tokens (x : list Z) (v : server_vars) : server_vars :=
  mk_server_vars (lqd v) (sv_sent v) (sv_recved v) (tokens v) x (popped_buffers v) (sv_wait_out v) (sv_idx v) (sv_qtemp v).
Definition set_popped_buffers (x : list (option dmtr_sgarray)) (v : server_vars) : server_vars :=
  mk_server_vars (lqd v) (sv_sent v) (sv_recved v) (tokens v) (push_tokens v) x (sv_wait_out v) (sv_idx v) (sv_qtemp v).
Definition set_sv_wait (out : dmtr_qresult) (i : Z) (v : server_vars) : server_vars :=
  mk_server_vars (lqd v) (sv_sent v) (sv_recved v) (tokens v) (push_tokens v) (popped_buffers v) out i (sv_qtemp v).
Definition set_sv_qtemp (x : Z) (v : server_vars) : server_vars :=
  mk_server_vars (lqd v) (sv_sent v) (sv_recved v) (tokens v) (push_tokens v) (popped_buffers v) (sv_wait_out v) (sv_idx v) x.

Definition ARRAY_SIZE : nat := 256.
(** [garbage] is what the stack holds where [wait_out] is. *)
Definition server_vars_init (garbage : dmtr_qresult) : server_vars :=
  mk_server_vars 0 0 0 [] (replicate ARRAY_SIZE 0) (replicate ARRAY_SIZE None) garbage 0 0.

Abbreviation server := (app proc server_vars).

(** Up to the loop. *)
Definition tcp_server_setup (saddr : sockaddr_in) : stmt server unit :=
  lib_ok (dmtr_init lib) ;;
  v <- vars ;
  qd <- lib_out (dmtr_socket lib (Some (lqd v)) AF_INET SOCK_STREAM 0) ;
  set_vars (set_lqd qd) ;;
  lib_ok (dmtr_bind lib qd (Some (saddr_bytes saddr)) 16) ;;
  lib_ok (dmtr_listen lib qd 10) ;;
  qt <- lib_out (dmtr_accept (Some (sv_qtemp v)) qd) ;
  set_vars (set_sv_qtemp qt) ;;
  set_vars (set_tokens [qt]).

(** A connection has been accepted. *)
Definition tcp_server_accepted : stmt server unit :=
  v <- vars ;
  DMTR_TRUE EINVAL (sv_idx v =? 0) ;;
  qt <- lib_out (dmtr_pop lib (Some (sv_qtemp v)) (ares_qd (qr_value (sv_wait_out v)))) ;
  set_vars (set_sv_qtemp qt) ;;
  set_vars (set_tokens (tokens v ++ [qt])) ;;
  t0 <- need (head (tokens v ++ [qt])) ;
  qt0 <- lib_out (dmtr_accept (Some t0) (lqd v)) ;
  set_vars (fun v => set_tokens (<[0%nat := qt0]> (tokens v)) v).

(** A message has arrived: an index past the arrays is undefined. *)
Definition tcp_server_echo : stmt server unit :=
  set_vars (fun v => set_sv_recved (u64 (sv_recved v + 1)) v) ;;
  v <- vars ;
  let i := Z.to_nat (sv_idx v) in
  push_token <- need (push_tokens v !! i) ;
  sga <- need (sga_of (sv_wait_out v)) ;
  (if negb (push_token =? 0) then
     lib_ok (dmtr_drop lib push_token) ;;
     old <- need (popped_buffers v !! i) ;
     old <- need old ;
     lib_ok (proc_heap (dmtr_sgafree (Some old))) ;;
     set_vars (set_popped_buffers (<[i := Some sga]> (popped_buffers v)))
   else normal tt) ;;
  set_vars (set_push_tokens (<[i := 0]> (push_tokens v))) ;;
  qt <- lib_out (dmtr_push lib (Some 0) (qr_qd (sv_wait_out v)) (Some sga)) ;
  set_vars (fun v => set_push_tokens (<[i := qt]> (push_tokens v)) v) ;;
  set_vars (fun v => set_sv_sent (u64 (sv_sent v + 1)) v) ;;
  t <- need (tokens v !! i) ;
  qt <- lib_out (dmtr_pop lib (Some t) (qr_qd (sv_wait_out v))) ;
  set_vars (fun v => set_tokens (<[i := qt]> (tokens v)) v).

(** The body of [while (1)]. *)
Definition tcp_server_round : stmt server unit :=
  v <- vars ;
  r <- call (on_proc (app_wait_any (Some (sv_wait_out v)) (Some (sv_idx v)) (tokens v) (Z.of_nat (length (tokens v))))) ;
  let '(status, out, idx) := r in
  out <- need out ;
  idx <- need idx ;
  set_vars (set_sv_wait out idx) ;;
  if status =? 0 then
    if qr_qd out =? lqd v then tcp_server_accepted else tcp_server_echo
  else
    assert_true ((status =? ECONNRESET) || (status =? ECONNABORTED)) ;;
    _ <- call (on_proc (dmtr_close lib (qr_qd out))) ;
    set_vars (fun v => set_tokens (delete (Z.to_nat idx) (tokens v)) v).

(** [main] after [parse_args]; the result is the exit code. *)
Definition tcp_server_main (g : globals) (n : nat) : stmt server unit :=
  match server_saddr g with
  | None => return_ (-1)
  | Some saddr => tcp_server_setup saddr ;; rounds n tcp_server_round
  end.

(** ** [dmtr_tcp_client.cc] *)
Record client_vars := mk_client_vars {
  cl_sent : Z;
  cl_recved : Z;
  cl_qd : Z;
  cl_sga : dmtr_sgarray;
  cl_latency : dmtr_latency_t;
  cl_iterations : Z;
  cl_push_tokens : list Z;
  cl_pop_tokens : list Z;
  start_times : list Z;
  cl_wait_out : dmtr_qresult
}.
Definition set_cl_counts (s r : Z) (v : client_vars) : client_vars :=
  mk_client_vars s r (cl_qd v) (cl_sga v) (cl_latency v) (cl_iterations v) (cl_push_tokens v) (cl_pop_tokens v) (start_times v) (cl_wait_out v).
Definition set_cl_qd (x : Z) (v : client_vars) : client_vars :=
  mk_client_vars (cl_sent v) (cl_recved v) x (cl_sga v) (cl_latency v) (cl_iterations v) (cl_push_tokens v) (cl_pop_tokens v) (start_times v) (cl_wait_out v).
Definition set_cl_sga (x : dmtr_sgarray) (v : client_vars) : client_vars :=
  mk_client_vars (cl_sent v) (cl_recved v) (cl_qd v) x (cl_latency v) (cl_iterations v) (cl_push_tokens v) (cl_pop_tokens v) (start_times v) (cl_wait_out v).
Definition set_cl_latency (x : dmtr_latency_t) (v : client_vars) : client_vars :=
  mk_client_vars (cl_sent v) (cl_recved v) (cl_qd v) (cl_sga v) x (cl_iterations v) (cl_push_tokens v) (cl_pop_tokens v) (start_times v) (cl_wait_out v).
Definition set_cl_iterations (x : Z) (v : client_vars) : client_vars :=
  mk_client_vars (cl_sent v) (cl_recved v) (cl_qd v) (cl_sga v) (cl_latency v) x (cl_push_tokens v) (cl_pop_tokens v) (start_times v) (cl_wait_out v).
Definition set_cl_push_tokens (x : list Z) (v : client_vars) : client_vars :=
  mk_client_vars (cl_sent v) (cl_recved v) (cl_qd v) (cl_sga v) (cl_latency v) (cl_iterations v) x (cl_pop_tokens v) (start_times v) (cl_wait_out v).
Definition set_cl_pop_tokens (x : list Z) (v : client_vars) : client_vars :=
  mk_client_vars (cl_sent v) (cl_recved v) (cl_qd v) (cl_sga v) (cl_latency v) (cl_iterations v) (cl_push_tokens v) x (start_times v) (cl_wait_out v).
Definition set_start_times (x : list Z) (v : client_vars) : client_vars :=
  mk_client_vars (cl_sent v) (cl_recved v) (cl_qd v) (cl_sga v) (cl_latency v) (cl_iterations v) (cl_push_tokens v) (cl_pop_tokens v) x (cl_wait_out v).
Definition set_cl_wait_out (x : dmtr_qresult) (v : client_vars) : client_vars :=
  mk_client_vars (cl_sent v) (cl_recved v) (cl_qd v) (cl_sga v) (cl_latency v) (cl_iterations v) (cl_push_tokens v) (cl_pop_tokens v) (start_times v) x.

Abbreviation client := (app proc client_vars).
Definition on_latency {A} (m : fn dmtr_latency_t A) : fn client A :=
  zoom (fun s => cl_latency (a_vars s)) (fun l s => set_a_vars (set_cl_latency l (a_vars s)) s) m.

(** [DMTR_OK(dmtr_record_latency(latency, dt.count()))] *)
Definition record_dt (dt : Z) : stmt client unit := DMTR_OK (on_latency (dmtr_record_latency false (u64 dt))).
Definition new_latency {V} (name : string) : stmt (app proc V) dmtr_latency_t :=
  r <- DMTR_OK_out (dmtr_new_latency (Some None) (Some ((fun c => Z.of_N (Ascii.N_of_ascii c)) <$> String.list_ascii_of_string name))) ;
  r <- need r ;
  need r.
(** An array of one segment, in place of the zeroes of [sga]. *)
Definition packet_sga (p len : Z) : dmtr_sgarray := mk_sgarray 0 1 [mk_sgaseg p len] sockaddr_zero.

Definition latency_none : dmtr_latency_t := mk_latency [] ∅ [] 0 [].
Definition client_vars_init (garbage : dmtr_qresult) : client_vars :=
  mk_client_vars 0 0 0 sgarray_zero latency_none 0 [] [] [] garbage.

(** The start of client [c]: a push and a pop, and the time. *)
Definition client_start : stmt client unit :=
  v <- vars ;
  qt <- lib_out (dmtr_push lib (Some 0) (cl_qd v) (Some (cl_sga v))) ;
  set_vars (fun v => set_cl_push_tokens (cl_push_tokens v ++ [qt]) v) ;;
  set_vars (fun v => set_cl_counts (u64 (cl_sent v + 1)) (cl_recved v) v) ;;
  qt <- lib_out (dmtr_pop lib (Some 0) (cl_qd v)) ;
  set_vars (fun v => set_cl_pop_tokens (cl_pop_tokens v ++ [qt]) v) ;;
  t <- now ;
  set_vars (fun v => set_start_times (start_times v ++ [t]) v).

Definition tcp_client_setup (g : globals) : stmt client unit :=
  lib_ok (dmtr_init lib) ;;
  l <- new_latency "end-to-end" ;
  set_vars (set_cl_latency l) ;;
  v <- vars ;
  qd <- lib_out (dmtr_socket lib (Some (cl_qd v)) AF_INET SOCK_STREAM 0) ;
  set_vars (set_cl_qd qd) ;;
  saddr <- client_saddr g ;
  q <- lib_out (dmtr_connect (Some 0) qd (Some (saddr_bytes saddr)) 16) ;
  _ <- wait_ok qresult_zero q ;
  p <- generate_packet g ;
  set_vars (set_cl_sga (packet_sga p (packet_size g))) ;;
  set_vars (set_cl_iterations (iterations g)) ;;
(* an array of no elements is undefined *)
  _ <- need (if clients g =? 0 then None else Some tt) ;
  rounds (Z.to_nat (clients g)) client_start.

(** The end of the loop's body: client [i] stops or starts again; the value is
    what [dmtr_wait_any] answered. *)
Definition tcp_client_again (n_clients : Z) (i : nat) (ret : Z) : stmt client Z :=
  v <- vars ;
  if cl_iterations v <? n_clients then
    set_vars (fun v => set_cl_pop_tokens (<[i := 0]> (cl_pop_tokens v)) v) ;;
    normal ret
  else
    qt <- lib_out (dmtr_push lib (Some 0) (cl_qd v) (Some (cl_sga v))) ;
    set_vars (fun v => set_cl_push_tokens (<[i := qt]> (cl_push_tokens v)) v) ;;
    set_vars (fun v => set_cl_counts (u64 (cl_sent v + 1)) (cl_recved v) v) ;;
    qt <- lib_out (dmtr_pop lib (Some 0) (cl_qd v)) ;
    set_vars (fun v => set_cl_pop_tokens (<[i := qt]> (cl_pop_tokens v)) v) ;;
    t <- now ;
    set_vars (fun v => set_start_times (<[i := t]> (start_times v)) v) ;;
    normal ret.

(** The body of the loop, up to its condition.  An element of an array outside
    it is undefined. *)
Definition tcp_client_round (n_clients : Z) : stmt client Z :=
  v <- vars ;
  r <- call (on_proc (app_wait_any (Some (cl_wait_out v)) (Some 0) (cl_pop_tokens v) (i32 n_clients))) ;
  let '(ret, out, idx) := r in
  out <- need out ;
  idx <- need idx ;
  let i := Z.to_nat idx in
  set_vars (set_cl_wait_out out) ;;
  t <- now ;
  t0 <- need (start_times v !! i) ;
  record_dt (t - t0) ;;
  set_vars (fun v => set_cl_counts (cl_sent v) (u64 (cl_recved v + 1)) v) ;;
  sga <- need (sga_of out) ;
  lib_ok (proc_heap (dmtr_sgafree (Some sga))) ;;
  set_vars (fun v => set_cl_iterations (u32 (cl_iterations v - 1)) v) ;;
  push_token <- need (cl_push_tokens v !! i) ;
  (if negb (push_token =? 0) then
     lib_ok (dmtr_drop lib push_token) ;;
     set_vars (fun v => set_cl_push_tokens (<[i := 0]> (cl_push_tokens v)) v)
   else normal tt) ;;
  tcp_client_again n_clients i ret.

(** [do { ... } while (iterations > 0 && ret == 0)] *)
Fixpoint tcp_client_loop (n : nat) (n_clients : Z) : stmt client unit :=
  match n with
  | O => fun _ => NoFuel
  | Datatypes.S n' =>
      ret <- tcp_client_round n_clients ;
      v <- vars ;
      if (cl_iterations v >? 0) && (ret =? 0) then tcp_client_loop n' n_clients else normal tt
  end.

(** What these calls answer is not looked at. *)
Definition finish : stmt client (list string) :=
  v <- vars ;
  _ <- call (on_proc (proc_heap (dmtr_sgafree (Some (cl_sga v))))) ;
  _ <- call (on_proc (dmtr_close lib (cl_qd v))) ;
  r <- call (on_latency (dmtr_dump_latency false false)) ;
  normal (snd r).

Definition tcp_client_main (g : globals) (n : nat) : stmt client (list string) :=
  tcp_client_setup g ;;
  tcp_client_loop n (clients g) ;;
  finish.

(** ** [dmtr_udp_server.cc] *)
Record udp_vars := mk_udp_vars { u_qd : Z; pop_latency : dmtr_latency_t; push_latency : dmtr_latency_t }.
Definition set_u_qd (x : Z) (v : udp_vars) : udp_vars := mk_udp_vars x (pop_latency v) (push_latency v).
Definition set_pop_latency (x : dmtr_latency_t) (v : udp_vars) : udp_vars := mk_udp_vars (u_qd v) x (push_latency v).
Definition set_push_latency (x : dmtr_latency_t) (v : udp_vars) : udp_vars := mk_udp_vars (u_qd v) (pop_latency v) x.
Definition udp_vars_init : udp_vars := mk_udp_vars 0 latency_none latency_none.

Abbreviation udp := (app proc udp_vars).
Definition on_pop_latency {A} (m : fn dmtr_latency_t A) : fn udp A :=
  zoom (fun s => pop_latency (a_vars s)) (fun l s => set_a_vars (set_pop_latency l (a_vars s)) s) m.
Definition on_push_latency {A} (m : fn dmtr_latency_t A) : fn udp A :=
  zoom (fun s => push_latency (a_vars s)) (fun l s => set_a_vars (set_push_latency l (a_vars s)) s) m.

(** The client the server is connected to: ["198.19.200.2"]. *)
Definition UDP_PEER : list Z := (fun c => Z.of_N (Ascii.N_of_ascii c)) <$> String.list_ascii_of_string "198.19.200.2".
Definition udp_server_setup (g : globals) : stmt udp unit :=
  match server_saddr g, inet_pton UDP_PEER with
  | Some saddr, Some peer =>
      lib_ok (dmtr_init lib) ;;
      l <- new_latency "pop" ;
      set_vars (set_pop_latency l) ;;
      l <- new_latency "push" ;
      set_vars (set_push_latency l) ;;
      qd <- lib_out (dmtr_socket lib (Some 0) AF_INET SOCK_DGRAM 0) ;
      set_vars (set_u_qd qd) ;;
      lib_ok (dmtr_bind lib qd (Some (saddr_bytes saddr)) 16) ;;
      qt <- lib_out (dmtr_connect (Some 0) qd (Some (saddr_bytes (mk_sockaddr_in AF_INET (htons 12345) peer 0))) 16) ;
      _ <- wait_ok qresult_zero qt ;
      normal tt
  | _, _ => return_ (-1)
  end.
Definition udp_server_round : stmt udp unit :=
  v <- vars ;
  t0 <- now ;
  qt <- lib_out (dmtr_pop lib (Some 0) (u_qd v)) ;
  qr <- wait_ok qresult_zero qt ;
  t <- now ;
  DMTR_OK (on_pop_latency (dmtr_record_latency false (u64 (t - t0)))) ;;
  assert_true (opcode_eqb DMTR_OPC_POP (qr_opcode qr)) ;;
  sga <- need (sga_of qr) ;
  assert_true (sga_numsegs sga =? 1) ;;
  t0 <- now ;
  qt <- lib_out (dmtr_push lib (Some qt) (u_qd v) (Some sga)) ;
  qr <- wait_ok qr qt ;
  t <- now ;
  DMTR_OK (on_push_latency (dmtr_record_latency false (u64 (t - t0)))) ;;
  sga <- need (sga_of qr) ;
  _ <- call (on_proc (proc_heap (dmtr_sgafree (Some sga)))) ;
  normal tt.
Definition udp_server_main (g : globals) (n : nat) : stmt udp unit :=
  udp_server_setup g ;; rounds n udp_server_round.

(** ** [dmtr_udp_client.cc], with [USE_CONNECT] *)
Record udp_client_vars := mk_udp_client_vars { uc_latency : dmtr_latency_t; uc_qr : dmtr_qresult }.
Definition set_uc_latency (x : dmtr_latency_t) (v : udp_client_vars) : udp_client_vars := mk_udp_client_vars x (uc_qr v).
Definition set_uc_qr (x : dmtr_qresult) (v : udp_client_vars) : udp_client_vars := mk_udp_client_vars (uc_latency v) x.
Definition udp_client_vars_init : udp_client_vars := mk_udp_client_vars latency_none qresult_zero.

Abbreviation udp_client := (app proc udp_client_vars).
Definition on_uc_latency {A} (m : fn dmtr_latency_t A) : fn udp_client A :=
  zoom (fun s => uc_latency (a_vars s)) (fun l s => set_a_vars (set_uc_latency l (a_vars s)) s) m.

(** One iteration; the result of the push is the outer [qr], that of the pop
    an inner one. *)
Definition udp_client_round (qd : Z) (sga : dmtr_sgarray) : stmt udp_client unit :=
  v <- vars ;
  t0 <- now ;
  qt <- lib_out (dmtr_push lib (Some 0) qd (Some sga)) ;
  qr <- wait_ok (uc_qr v) qt ;
  set_vars (set_uc_qr qr) ;;
  qt <- lib_out (dmtr_pop lib (Some qt) qd) ;
  qr <- wait_ok qresult_zero qt ;
  t <- now ;
  DMTR_OK (on_uc_latency (dmtr_record_latency false (u64 (t - t0)))) ;;
  assert_true (opcode_eqb DMTR_OPC_POP (qr_opcode qr)) ;;
  reply <- need (sga_of qr) ;
  assert_true (sga_numsegs reply =? 1) ;;
  seg <- need (head (sga_segs reply)) ;
  b <- call (on_proc (proc_heap (load_bytes (sgaseg_buf seg) 1))) ;
  assert_true (bool_decide (b = [FILL_CHAR])) ;;
  _ <- call (on_proc (proc_heap (dmtr_sgafree (Some reply)))) ;
  normal tt.
Definition udp_client_main (g : globals) : stmt udp_client (list string) :=
  lib_ok (dmtr_init lib) ;;
  l <- new_latency "end-to-end" ;
  set_vars (set_uc_latency l) ;;
  qd <- lib_out (dmtr_socket lib (Some 0) AF_INET SOCK_DGRAM 0) ;
  saddr <- client_saddr g ;
  p <- generate_packet g ;
  let sga := packet_sga p (packet_size g) in
  qt <- lib_out (dmtr_connect (Some 0) qd (Some (saddr_bytes saddr)) 16) ;
  qr <- wait_ok qresult_zero qt ;
  set_vars (set_uc_qr qr) ;;
  lib_ok (dmtr_bind lib qd (Some (saddr_bytes (mk_sockaddr_in AF_INET (htons 12345) 0 0))) 16) ;;
  rounds (Z.to_nat (iterations g)) (udp_client_round qd sga) ;;
  lines <- DMTR_OK_out (on_uc_latency (dmtr_dump_latency false false)) ;
  lib_ok (dmtr_close lib qd) ;;
  normal lines.

(** ** [dmtr_file_test.cc] *)
Abbreviation file_test := (app proc dmtr_latency_t).
Definition on_file_latency {A} (m : fn dmtr_latency_t A) : fn file_test A := zoom a_vars set_a_vars m.
Definition file_test_round (fqd : Z) (sga : dmtr_sgarray) : stmt file_test unit :=
  t0 <- now ;
  token <- lib_out (dmtr_push lib (Some 0) fqd (Some sga)) ;
  _ <- DMTR_OK_out (on_proc (app_wait None token)) ;
  t <- now ;
  DMTR_OK (on_file_latency (dmtr_record_latency false (u64 (t - t0)))).
Definition file_test_main (g : globals) : stmt file_test (list string) :=
  lib_ok (dmtr_init lib) ;;
  l <- new_latency "end-to-end" ;
  set_vars (fun _ => l) ;;
  assert_true (match file g with Some _ => true | None => false end) ;;
  path <- need (file g) ;
  fqd <- lib_out (dmtr_open2 (Some 0) path O_LOG MODE_LOG) ;
  p <- generate_packet g ;
  let sga := packet_sga p (packet_size g) in
  rounds (Z.to_nat (iterations g)) (file_test_round fqd sga) ;;
  lines <- DMTR_OK_out (on_file_latency (dmtr_dump_latency false false)) ;
  lib_ok (dmtr_close lib fqd) ;;
  normal lines.
End programs.
