(* ===== verification/EchoPosix.v ===== *)
(** * The TCP echo programs on the POSIX library OS

    [apps/echo/dmtr_tcp_server.cc] and [dmtr_tcp_client.cc] linked with
    [libos/posix]: from the bytes in the kernel's streams, through the queues,
    the tasks and the coroutines, to the variables of the programs and back. *)
From S2P Require Import Prelude Cmd Types Memory Contents IoQueue UserThread Queue IoQueueApi Wait PosixOs PosixQueue PosixLaws PosixWire PosixIo Libos PosixApi Latency LatencyDump Echo.
Open Scope cmd_scope.

(** The kernel side of a connection: a read delivers a piece of what has
    arrived and sends nothing, a write is taken whole, and the peer answers it
    with [answer]. *)
Record talks {OS} `{PosixOS OS} (fd : Z) (stream out : OS -> list Z) (answer : list Z -> list Z) : Prop := {
  tk_reads : reads_stream fd stream False;
  tk_quiet : forall len os, out (snd (sys_read fd len os)) = out os;
  tk_writes : forall bss os, exists errno os', sys_writev fd bss os = (len32 (concat bss), errno, os') /\
    out os' = out os ++ concat bss /\ stream os' = stream os ++ answer (concat bss)
}.

(** Reading and writing it opens and closes no descriptor. *)
Record leaves_open {OS} `{PosixOS OS} (fd : Z) (fds : OS -> gset Z) : Prop := {
  lo_read : forall len os, fds (snd (sys_read fd len os)) = fds os;
  lo_writev : forall bss os, fds (snd (sys_writev fd bss os)) = fds os
}.

(** The memory of [h0], further on. *)
Record same_memory (h0 h : heap) : Prop := {
  sm_cells : h_cells h = h_cells h0;
  sm_blocks : h_blocks h = h_blocks h0;
  sm_oom : h_oom h = h_oom h0;
  sm_brk : h_brk h0 <= h_brk h
}.
Lemma same_memory_refl h : same_memory h h.
Proof. by split. Qed.
Lemma same_memory_ok h0 h : heap_ok h0 -> same_memory h0 h -> heap_ok h.
Proof.
  intros (Ho & Hb & Hf) [C B O K]. split; [by rewrite O|]. split; [lia|].
  intros x Hx. rewrite C, B. apply Hf. lia.
Qed.
Lemma same_memory_holds h0 h p bs : same_memory h0 h -> holds h0 p bs -> holds h p bs.
Proof. intros [C _ _ _] Hh i b Hb. rewrite C. by apply Hh. Qed.

(** Freeing the array received gives back the memory there was before. *)
Lemma sgafree_received data sga h0 h1 h :
  heap_ok h0 -> same_memory h0 h1 -> received_sga data sga h -> allocated (sga_buf sga) (len32 (wire_payload [data])) h1 h ->
  exists h', dmtr_sgafree (Some sga) h = Ok 0 h' /\ same_memory h0 h'.
Proof.
  intros Hok Hs (Hbuf & _) Hal. pose proof (same_memory_ok _ _ Hok Hs) as (_ & _ & Hf). destruct Hs as [C B O K].
  eexists. split.
  - cbn [dmtr_sgafree]. rewrite (proj2 (Z.eqb_neq _ _)) by lia. unfold fbind.
    erewrite allocated_free; [done|done|exact Hf|exact Hal|]. unfold len32. lia.
  - split; cbn; [done..|]. pose proof (al_brk _ _ _ _ Hal). unfold len32 in *. lia.
Qed.

(** ** Running a program step by step *)
Lemma sbind_Undef {S A B} (m : stmt S A) (k : A -> stmt S B) s : m s = Undef -> sbind m k s = Undef.
Proof. unfold sbind, fbind. by intros ->. Qed.
Section steps.
Context {Q W : Type} `{HQ : Queue Q W} {V : Type}.
Implicit Types (s : app (process Q W) V).
Lemma call_on_proc {A} (m : fn (process Q W) A) a p s :
  m (a_proc s) = Ok a p -> call (on_proc m) s = Ok (inl a) (set_a_proc p s).
Proof. unfold call, on_proc, zoom, fbind. by intros ->. Qed.
Lemma lib_ok_eq (m : fn (process Q W) Z) p s :
  m (a_proc s) = Ok 0 p -> lib_ok m s = Ok (inl tt) (set_a_proc p s).
Proof. unfold lib_ok, DMTR_OK, on_proc, zoom, fbind. by intros ->. Qed.
Lemma lib_out_eq (m : fn (process Q W) (Z * option Z)) v p s :
  m (a_proc s) = Ok (0, Some v) p -> lib_out m s = Ok (inl v) (set_a_proc p s).
Proof. unfold lib_out, DMTR_OK_out, on_proc, zoom, sbind, fbind. by intros ->. Qed.
End steps.


(** The state after a step, with its fields. *)
Ltac tidy := cbn [set_a_proc set_a_vars a_proc a_tick a_vars lqd sv_sent sv_recved tokens push_tokens popped_buffers sv_wait_out
  sv_idx sv_qtemp set_sv_sent set_sv_recved set_tokens set_push_tokens set_sv_wait
  cl_sent cl_recved cl_qd cl_sga cl_latency cl_iterations cl_push_tokens cl_pop_tokens start_times cl_wait_out
  set_cl_counts set_cl_latency set_cl_iterations set_cl_push_tokens set_cl_pop_tokens set_start_times set_cl_wait_out qr_qd qr_value].
Ltac pure_step := erewrite sbind_Ok by reflexivity; tidy.
Ltac lib_step tac := erewrite sbind_Ok by tac; tidy.

Section echo.
Context {OS : Type} `{POS : PosixOS OS} (fuel : nat).
#[local] Existing Instance posix_vtable.
Abbreviation vt := (posix_vtable fuel).
Abbreviation api := (io_queue_api posix_object (pworld OS)).
Context (lib : libos posix_object (pworld OS)).
Context (clock : nat -> Z) (wait_fuel : nat) (Hwait : (0 < wait_fuel)%nat).
Implicit Types (st : api) (q : posix_queue).

Definition set_w_heap (h : heap) (w : pworld OS) : pworld OS := mk_pworld h (w_os w).
Abbreviation tok := mk_qtoken.
Abbreviation slot u := (u mod MAX_TASKS).

Context (qd fd : Z) (stream out : OS -> list Z) (answer : list Z -> list Z) (Htalk : talks fd stream out answer).

Lemma slot_next c : 0 <= c -> slot (c + 1) <> slot c.
Proof.
  intros Hc E. unfold MAX_TASKS in E. pose proof (Z.div_mod c 1024). pose proof (Z.div_mod (c + 1) 1024). lia.
Qed.

(** Running a command of the heap. *)
Lemma proc_heap_eq {A} (m : fn heap A) a h' q st :
  my_queues st !! qd = Some (PxObj q) -> m (st_heap st) = Ok a h' ->
  proc_heap w_heap set_w_heap m (WithApi st) = Ok a (WithApi (moved qd q h' (st_os st) st)).
Proof.
  intros Hq Hm. unfold proc_heap, zoom. cbn [proc_world]. unfold st_heap in Hm. rewrite Hm.
  unfold moved, set_my_env. do 3 f_equal. by rewrite insert_id.
Qed.

(** On a connection with nothing outstanding, a push of one segment and a
    pop: the message is written, and the next one is awaited. *)
Lemma send_and_await st c q p data sga o1 o2 :
  conn qd c [] q -> my_fd q = fd -> px_pop_thread q = idle PxPopIdle -> my_queues st !! qd = Some (PxObj q) ->
  c + 2 < UINT32_MAX -> 0 < len32 data < 2 ^ 32 - 4 -> (4 < fuel)%nat ->
  sga_numsegs sga = 1 -> sga_segs sga = [mk_sgaseg p (len32 data)] ->
  load_bytes p (len32 data) (st_heap st) = Ok data (st_heap st) ->
  exists os' q1 q2,
    dmtr_push (HQ := vt) lib (Some o1) qd (Some sga) (WithApi st) =
      Ok (0, Some (tok qd (c + 1))) (WithApi (moved qd q1 (st_heap st) os' st)) /\
    dmtr_pop (HQ := vt) lib (Some o2) qd (WithApi (moved qd q1 (st_heap st) os' st)) =
      Ok (0, Some (tok qd (c + 2))) (WithApi (moved qd q2 (st_heap st) os' st)) /\
    conn qd (c + 2) [slot (c + 2); slot (c + 1)] q2 /\ awaiting qd (c + 2) q2 /\ my_fd q2 = fd /\
    out os' = out (st_os st) ++ wire_message [data] /\ stream os' = stream (st_os st) ++ answer (wire_message [data]) /\
    os' = snd (sys_writev fd (wire_vectors data) (st_os st)).
Proof.
  intros Hc Hfd Hpop Hq Hn Hlen Hf Hnum Hsegs Hload. pose proof (co_pos _ _ _ _ Hc).
  destruct (tk_writes _ _ _ _ Htalk (wire_vectors data) (st_os st)) as (errno & os' & Hw & Hout & Hst).
  rewrite wire_vectors_concat in Hw, Hout, Hst. pose proof (f_equal snd Hw) as Hos. cbn [snd] in Hos. rewrite <- Hfd in Hw.
  destruct (conn_push fuel lib st qd c [] q p data sga o1 errno os') as [Hp Hc1]; try done; [lia|apply not_elem_of_nil|].
  set (q1 := pushed_queue qd c sga q) in *.
  destruct (conn_pop fuel lib (moved qd q1 (st_heap st) os' st) qd (c + 1) [slot (c + 1)] q1 o2) as (Hp2 & Hc2 & Haw2);
    try done; [apply lookup_insert_eq|lia|..].
  { rewrite list_elem_of_singleton. apply slot_next. lia. }
  rewrite moved_heap, moved_os, moved_moved in Hp2. replace (c + 1 + 1) with (c + 2) in * by lia.
  by exists os', q1, (popping_queue qd (c + 1) q1).
Qed.

(** ** The server *)
Abbreviation server := (app (process posix_object (pworld OS)) server_vars).
Abbreviation server_round := (tcp_server_round (HQ := vt) lib w_heap set_w_heap wait_fuel).

(** The connection at [qd], whose last operation is the pop [c], and whose
    peer has sent the message [data]. *)
Record has_arrived (data rest : list Z) (c : Z) (busy : list Z) q st : Prop := {
  ar_conn : conn qd c busy q;
  ar_busy : slot c ∈ busy;
  ar_await : awaiting qd c q;
  ar_fd : my_fd q = fd;
  ar_queue : my_queues st !! qd = Some (PxObj q);
  ar_heap : heap_ok (st_heap st);
  ar_data : 0 < len32 data < 2 ^ 31 - 4;
  ar_stream : stream (st_os st) = wire_message [data] ++ rest;
  ar_count : c + 2 < UINT32_MAX;
  ar_fuel : (length data + 22 < fuel)%nat
}.

(** The variables when the next token to look at is the [i]-th, the pop [c]. *)
Record server_waits (c : Z) (i : nat) (v : server_vars) : Prop := {
  sw_start : any_start (Some (sv_idx v)) (Z.of_nat (length (tokens v))) = Z.of_nat i;
  sw_idx : -1 <= sv_idx v;
  sw_token : tokens v !! i = Some (tok qd c);
  sw_listener : lqd v <> qd
}.

Lemma server_receives data rest c busy q st i v t :
  has_arrived data rest c busy q st -> server_waits c i v ->
  exists sga h' os' q', 
    server_round (mk_app (WithApi st) t v) =
      tcp_server_echo (HQ := vt) lib w_heap set_w_heap
        (mk_app (WithApi (moved qd q' h' os' st)) t
           (set_sv_wait (mk_qresult DMTR_OPC_POP qd (tok qd c) (qv_sga sga)) (Z.of_nat i) v)) /\
    conn qd c (filter (.≠ slot c) busy) q' /\ my_fd q' = fd /\ px_pop_thread q' = idle PxPopIdle /\
    received_sga data sga h' /\ stream os' = rest /\ out os' = out (st_os st) /\
    allocated (sga_buf sga) (len32 (wire_payload [data])) (st_heap st) h'.
Proof.
  intros [] []. assert (Hc : 0 <= c) by apply ar_conn0.
  destruct (conn_wait_any fuel lib st qd c busy q c stream (fun os => out os = out (st_os st)) data rest (sv_wait_out v)
    wait_fuel (sv_idx v) (tokens v)) as (sga & h' & os' & Hw & Hc' & Hsga & Hst & Hout & Hal); try done.
  - by apply ar_conn0.
  - rewrite ar_fd0. apply Htalk.
  - intros len os E. rewrite ar_fd0. by rewrite (tk_quiet _ _ _ _ Htalk).
  - by rewrite sw_start0, Nat2Z.id.
  - exists sga, h', os', (replied_queue qd c sga q). split.
    + unfold tcp_server_round. erewrite sbind_Ok by reflexivity. cbn [a_vars].
      erewrite sbind_Ok by (apply call_on_proc; exact Hw). cbn [need]. rewrite sw_start0.
      do 3 erewrite sbind_Ok by reflexivity. change (0 =? 0) with true. cbn [qr_qd].
      by rewrite (proj2 (Z.eqb_neq _ _)) by done.
    + by split_and!.
Qed.

(** Afterwards the echo is being sent and the next message is awaited. *)
Record echoed (data rest : list Z) (c : Z) (i : nat) st (v : server_vars) st' (v' : server_vars) : Prop := {
  ec_out : out (st_os st') = out (st_os st) ++ wire_message [data];
  ec_stream : stream (st_os st') = rest ++ answer (wire_message [data]);
  ec_queue : exists q', my_queues st' !! qd = Some (PxObj q') /\ my_fd q' = fd /\
    conn qd (c + 2) [slot (c + 2); slot (c + 1)] q' /\ awaiting qd (c + 2) q';
  ec_memory : exists p, allocated p (len32 (wire_payload [data])) (st_heap st) (st_heap st');
  ec_tokens : tokens v' = <[i := tok qd (c + 2)]> (tokens v);
  ec_push_tokens : push_tokens v' = <[i := tok qd (c + 1)]> (push_tokens v);
  ec_popped : popped_buffers v' = popped_buffers v;
  ec_sent : sv_sent v' = u64 (sv_sent v + 1);
  ec_recved : sv_recved v' = u64 (sv_recved v + 1)
}.

Lemma server_echoes data rest c q st i v t :
  has_arrived data rest c [slot c] q st -> server_waits c i v -> push_tokens v !! i = Some 0 ->
  exists st' v', server_round (mk_app (WithApi st) t v) = Ok (inl tt) (mk_app (WithApi st') t v') /\
    echoed data rest c i st v st' v'.
Proof.
  intros Ha Hw Hpt. destruct (server_receives data rest c _ q st i v t Ha Hw) as (sga & h' & os' & q' & -> & Hc & Hfd & Hpop & Hsga & Hst & Hout & Hal).
  rewrite filter_cons, decide_False in Hc by (intros H; by apply H). cbn in Hc.
  pose proof (ar_count _ _ _ _ _ _ Ha) as Hn. assert (Hc0 : 0 <= c) by apply (ar_conn _ _ _ _ _ _ Ha).
  destruct Hsga as (Hbuf & Hnum & Hsegs & Hload).
  destruct (send_and_await (moved qd q' h' os' st) c q' (sga_buf sga + 4) data sga 0 (tok qd c) Hc Hfd Hpop)
    as (os1 & q1 & q2 & Hpush & Hpop2 & Hc2 & Haw2 & Hfd2 & Hout1 & Hst1 & _); try done; [apply lookup_insert_eq|..].
  { pose proof (ar_data _ _ _ _ _ _ Ha). lia. }
  { pose proof (ar_fuel _ _ _ _ _ _ Ha). lia. }
  rewrite moved_heap, moved_os, !moved_moved in *. do 2 eexists. split.
  - unfold tcp_server_echo. do 2 pure_step. rewrite Nat2Z.id, Hpt. do 2 pure_step. change (negb (0 =? 0)) with false. cbn iota.
    do 2 pure_step. lib_step ltac:(apply lib_out_eq; exact Hpush). do 2 pure_step.
    lib_step ltac:(rewrite (sw_token _ _ _ Hw); reflexivity). lib_step ltac:(apply lib_out_eq; exact Hpop2). reflexivity.
  - split; cbn; try done.
    + by rewrite Hout1, Hout.
    + by rewrite Hst1, Hst.
    + by exists q2; rewrite lookup_insert_eq.
    + by eexists.
    + by rewrite list_insert_insert_eq.
Qed.

(** The second message of a connection. *)
Lemma server_second data rest c q st i v t :
  has_arrived data rest c [slot c; slot (c - 1)] q st -> server_waits c i v -> 1 <= c ->
  push_tokens v !! i = Some (tok qd (c - 1)) -> popped_buffers v !! i = Some None ->
  server_round (mk_app (WithApi st) t v) = Undef.
Proof.
  intros Ha Hw Hc1 Hpt Hpb. destruct (server_receives data rest c _ q st i v t Ha Hw) as (sga & h' & os' & q' & -> & Hc & _).
  pose proof (ar_count _ _ _ _ _ _ Ha) as Hn. pose proof (ar_conn _ _ _ _ _ _ Ha) as Hconn.
  destruct (conn_drop fuel lib (moved qd q' h' os' st) qd c _ q' (c - 1) Hc) as [Hd _]; [apply lookup_insert_eq|lia|].
  unfold tcp_server_echo. do 2 erewrite sbind_Ok by reflexivity. cbn [set_sv_recved set_sv_wait set_a_vars a_vars push_tokens sv_idx].
  rewrite Nat2Z.id, Hpt. do 2 erewrite sbind_Ok by reflexivity.
  rewrite (proj2 (Z.eqb_neq _ _)) by (apply tok_nonzero; [apply Hconn|lia]). cbn [negb].
  apply sbind_Undef. erewrite sbind_Ok by (apply lib_ok_eq; exact Hd).
  erewrite sbind_Ok by (cbn; rewrite Hpb; reflexivity). done.
Qed.

(** ** The client, of one connection *)
Abbreviation client := (app (process posix_object (pworld OS)) client_vars).
Abbreviation client_round := (tcp_client_round (HQ := vt) lib w_heap set_w_heap clock wait_fuel 1).

(** The packet is at [p] in the memory [h0]; the peer answers it with
    [reply]. *)
Context (h0 : heap) (p : Z) (packet reply : list Z).
Context (Hh0 : heap_ok h0) (Hpacket : holds h0 p packet) (Hlen : 0 < len32 packet < 2 ^ 31 - 4).
Context (Hreply : 0 < len32 reply < 2 ^ 31 - 4) (Hfuel : (length reply + 22 < fuel)%nat).
Context (Hanswer : answer (wire_message [packet]) = wire_message [reply]).
Context (name : list Z).
(** The other queues and the open descriptors of the process. *)
Context (fds : OS -> gset Z) (Hopen : leaves_open fd fds) (others : gmap Z posix_object) (opened : gset Z).
Definition held st : Prop := delete qd (my_queues st) = others /\ fds (st_os st) = opened.
Lemma held_moved q h os st : held st -> fds os = fds (st_os st) -> held (moved qd q h os st).
Proof. intros [Hr Ho] He. split; [|by rewrite moved_os, He]. rewrite <- Hr. apply delete_insert_eq. Qed.
Lemma held_written st os data : held st -> os = snd (sys_writev fd (wire_vectors data) (st_os st)) -> fds os = fds (st_os st).
Proof. intros _ ->. apply (lo_writev _ _ Hopen). Qed.

(** The samples are [xs], and the operations outstanding are the push [c - 1]
    and the pop [c]; the answer has arrived.  [k] iterations are left and the
    clock has been read [t] times. *)
Record client_ready (k c : Z) (xs : list Z) (sent recved : Z) q st (t : nat) (v : client_vars) : Prop := {
  cr_conn : conn qd c [slot c; slot (c - 1)] q;
  cr_await : awaiting qd c q;
  cr_fd : my_fd q = fd;
  cr_queue : my_queues st !! qd = Some (PxObj q);
  cr_memory : same_memory h0 (st_heap st);
  cr_stream : stream (st_os st) = wire_message [reply];
  cr_count : 1 <= c /\ c + 2 * k < UINT32_MAX;
  cr_vars : v = mk_client_vars (u64 sent) (u64 recved) qd (packet_sga p (len32 packet)) (latency_of name xs) k
    [tok qd (c - 1)] [tok qd c] [clock (pred t)] (cl_wait_out v);
  cr_left : 1 <= k < 2 ^ 32;
  cr_held : held st;
  cr_tick : (1 <= t)%nat
}.
(** The program when its last answer has been received. *)
Record client_done (xs : list Z) (sent recved : Z) st (v : client_vars) : Prop := {
  cd_queue : exists q, my_queues st !! qd = Some (PxObj q) /\ my_fd q = fd /\ px_pop_thread q = idle PxPopIdle;
  cd_held : held st;
  cd_memory : same_memory h0 (st_heap st);
  cd_stream : stream (st_os st) = [];
  cd_vars : exists out, v = mk_client_vars (u64 sent) (u64 recved) qd (packet_sga p (len32 packet)) (latency_of name xs) 0 [0] [0] out (cl_wait_out v)
}.

Definition sample (t : nat) (xs : list Z) : list Z :=
  let n := u64 (clock t - clock (pred t)) in if n =? 0 then xs else xs ++ [n].


Lemma u64_succ x : u64 (u64 x + 1) = u64 (x + 1).
Proof. unfold u64, wrap. by rewrite Zplus_mod_idemp_l. Qed.
Lemma record_dt_eq xs dt s :
  cl_latency (a_vars s) = latency_of name xs ->
  record_dt (Q := posix_object) (W := pworld OS) dt s =
    Ok (inl tt) (set_a_vars (set_cl_latency (latency_of name (if u64 dt =? 0 then xs else xs ++ [u64 dt])) (a_vars s)) s).
Proof.
  intros Hl. unfold record_dt, DMTR_OK, on_latency, zoom, fbind. rewrite Hl.
  by rewrite dmtr_record_latency_eq by (apply (wrap_range 64); lia).
Qed.

(** The answer is received, counted, timed and freed. *)
Lemma client_receives k c xs sent recved q st t v :
  client_ready k c xs sent recved q st t v ->
  exists h' os' q' out0,
    client_round (mk_app (WithApi st) t v) =
      tcp_client_again (HQ := vt) lib clock 1 0 0 (mk_app (WithApi (moved qd q' h' os' st)) (S t)
        (mk_client_vars (u64 sent) (u64 (recved + 1)) qd (packet_sga p (len32 packet)) (latency_of name (sample t xs)) (k - 1)
          [0] [tok qd c] [clock (pred t)] out0)) /\
    conn qd c [] q' /\ my_fd q' = fd /\ px_pop_thread q' = idle PxPopIdle /\
    same_memory h0 h' /\ stream os' = [] /\ out os' = out (st_os st) /\ fds os' = fds (st_os st).
Proof.
  intros []. destruct cr_count0 as [Hc Hck]. rewrite cr_vars0. set (out0 := cl_wait_out v).
  destruct (conn_wait_any fuel lib st qd c _ q c stream (fun os => out os = out (st_os st) /\ fds os = fds (st_os st)) reply [] out0
    wait_fuel 0 [tok qd c] cr_conn0 cr_await0 cr_queue0) as (sga & h1 & os1 & Hw & Hc1 & Hsga & Hst1 & [Hout1 Ho1] & Hal); try done.
  - lia.
  - by left.
  - by eapply same_memory_ok.
  - rewrite cr_fd0. apply Htalk.
  - intros len os [E F]. rewrite cr_fd0. by rewrite (tk_quiet _ _ _ _ Htalk), (lo_read _ _ Hopen).
  - by rewrite cr_stream0, app_nil_r.
  - set (q1 := replied_queue qd c sga q) in *.
    assert (Hq1 : forall h os, my_queues (moved qd q1 h os st) !! qd = Some (PxObj q1)) by (intros; apply lookup_insert_eq).
    destruct (sgafree_received reply sga h0 (st_heap st) h1) as (h2 & Hfree & Hm2); try done.
    pose proof (proc_heap_eq (dmtr_sgafree (Some sga)) 0 h2 q1 (moved qd q1 h1 os1 st) (Hq1 _ _) Hfree) as Hfree'.
    rewrite moved_os, moved_moved in Hfree'.
    destruct (conn_drop fuel lib (moved qd q1 h2 os1 st) qd c _ q1 (c - 1) Hc1) as [Hd Hc2]; [done|lia|].
    rewrite moved_heap, moved_os, moved_moved in Hd. set (q2 := dropped_queue (c - 1) q1) in *.
    exists h2, os1, q2. eexists. split; [|split_and!; try done].
    + unfold tcp_client_round. pure_step. lib_step ltac:(apply call_on_proc; exact Hw). cbn [need]. do 5 pure_step.
      lib_step ltac:(apply (record_dt_eq xs); reflexivity). cbn [need]. do 2 pure_step.
      lib_step ltac:(apply lib_ok_eq; exact Hfree'). do 2 pure_step.
      rewrite (proj2 (Z.eqb_neq _ _)) by (apply tok_nonzero; [apply cr_conn0|lia]). cbn [negb].
      erewrite sbind_Ok by (lib_step ltac:(apply lib_ok_eq; exact Hd); reflexivity). tidy.
      unfold sample. rewrite u64_succ, (wrap_small 32 (k - 1)) by (cbn in *; lia). reflexivity.
    + eapply conn_weaken; [exact Hc2|]. intros s [H1 [H2 Hs]%list_elem_of_filter]%list_elem_of_filter.
      by apply elem_of_cons in Hs as [|Hs%list_elem_of_singleton].
Qed.

(** It starts again: a push and a pop. *)
Lemma client_again k c xs sent recved q st t pt ts out0 :
  conn qd c [] q -> my_fd q = fd -> px_pop_thread q = idle PxPopIdle -> my_queues st !! qd = Some (PxObj q) ->
  same_memory h0 (st_heap st) -> held st -> stream (st_os st) = [] -> 1 <= k < 2 ^ 32 -> c + 2 + 2 * k < UINT32_MAX ->
  exists st' q' v', tcp_client_again (HQ := vt) lib clock 1 0 0 (mk_app (WithApi st) t
      (mk_client_vars (u64 sent) (u64 recved) qd (packet_sga p (len32 packet)) (latency_of name xs) k [pt] [tok qd c] [ts] out0)) =
    Ok (inl 0) (mk_app (WithApi st') (S t) v') /\
    client_ready k (c + 2) xs (sent + 1) recved q' st' (S t) v' /\ out (st_os st') = out (st_os st) ++ wire_message [packet].
Proof.
  intros Hc Hfd Hpop Hq Hm Hh Hst Hk Hck. pose proof (co_pos _ _ _ _ Hc) as Hc0.
  assert (Hl : load_bytes p (len32 packet) (st_heap st) = Ok packet (st_heap st)).
  { apply holds_load. by eapply same_memory_holds. }
  destruct (send_and_await st c q p packet (packet_sga p (len32 packet)) 0 0 Hc Hfd Hpop Hq)
    as (os1 & q1 & q2 & Hpush & Hpop2 & Hc2 & Haw2 & Hfd2 & Hout1 & Hst1 & Hos1); try done; [lia..|].
  exists (moved qd q2 (st_heap st) os1 st), q2. eexists. split; [|split; [|exact Hout1]].
  - unfold tcp_client_again. pure_step. rewrite (proj2 (Z.ltb_ge _ _)) by lia. lib_step ltac:(apply lib_out_eq; exact Hpush).
    do 2 pure_step. lib_step ltac:(apply lib_out_eq; exact Hpop2). do 3 pure_step. reflexivity.
  - split; rewrite ?moved_heap, ?moved_os; try done.
    + by replace (c + 2 - 1) with (c + 1) by lia.
    + apply lookup_insert_eq.
    + by rewrite Hst1, Hst, Hanswer.
    + lia.
    + rewrite u64_succ. by replace (c + 2 - 1) with (c + 1) by lia.
    + apply held_moved; [exact Hh|by eapply held_written].
    + lia.
Qed.

(** It starts. *)
Lemma client_start_ok k c l q st t garbage :
  conn qd c [] q -> my_fd q = fd -> px_pop_thread q = idle PxPopIdle -> my_queues st !! qd = Some (PxObj q) ->
  same_memory h0 (st_heap st) -> held st -> stream (st_os st) = [] -> 1 <= k < 2 ^ 32 -> c + 2 + 2 * k < UINT32_MAX -> l = latency_of name [] ->
  exists st' q' v', client_start (HQ := vt) lib clock (mk_app (WithApi st) t
      (mk_client_vars 0 0 qd (packet_sga p (len32 packet)) l k [] [] [] garbage)) =
    Ok (inl tt) (mk_app (WithApi st') (S t) v') /\
    client_ready k (c + 2) [] 1 0 q' st' (S t) v' /\ out (st_os st') = out (st_os st) ++ wire_message [packet].
Proof.
  intros Hc Hfd Hpop Hq Hm Hh Hst Hk Hck ->. pose proof (co_pos _ _ _ _ Hc) as Hc0.
  assert (Hl : load_bytes p (len32 packet) (st_heap st) = Ok packet (st_heap st)).
  { apply holds_load. by eapply same_memory_holds. }
  destruct (send_and_await st c q p packet (packet_sga p (len32 packet)) 0 0 Hc Hfd Hpop Hq)
    as (os1 & q1 & q2 & Hpush & Hpop2 & Hc2 & Haw2 & Hfd2 & Hout1 & Hst1 & Hos1); try done; [lia..|].
  exists (moved qd q2 (st_heap st) os1 st), q2. eexists. split; [|split; [|exact Hout1]].
  - unfold client_start. pure_step. lib_step ltac:(apply lib_out_eq; exact Hpush).
    do 2 pure_step. lib_step ltac:(apply lib_out_eq; exact Hpop2). do 2 pure_step. reflexivity.
  - split; rewrite ?moved_heap, ?moved_os; try done.
    + by replace (c + 2 - 1) with (c + 1) by lia.
    + apply lookup_insert_eq.
    + by rewrite Hst1, Hst, Hanswer.
    + lia.
    + by replace (c + 2 - 1) with (c + 1) by lia.
    + apply held_moved; [exact Hh|by eapply held_written].
    + lia.
Qed.

(** One round. *)
Lemma client_round_ok k c xs sent recved q st t v :
  client_ready k c xs sent recved q st t v ->
  exists st' v',
    (k = 1 /\ client_round (mk_app (WithApi st) t v) = Ok (inl 0) (mk_app (WithApi st') (S t) v') /\
     client_done (sample t xs) sent (recved + 1) st' v' /\ out (st_os st') = out (st_os st)) \/
    (1 < k /\ client_round (mk_app (WithApi st) t v) = Ok (inl 0) (mk_app (WithApi st') (S (S t)) v') /\
     (exists q', client_ready (k - 1) (c + 2) (sample t xs) (sent + 1) (recved + 1) q' st' (S (S t)) v') /\
     out (st_os st') = out (st_os st) ++ wire_message [packet]).
Proof.
  intros Hr. destruct (client_receives _ _ _ _ _ _ _ _ _ Hr) as (h' & os' & q' & out0 & -> & Hc & Hfd & Hpop & Hm & Hst & Hout & Ho).
  destruct Hr. destruct (decide (k = 1)) as [->|Hk].
  - exists (moved qd q' h' os' st). eexists. left. split; [done|]. split; [|split; [|exact Hout]].
    + unfold tcp_client_again. pure_step. change (1 - 1 <? 1) with true. cbn iota. pure_step. reflexivity.
    + split; [exists q'; split; [apply lookup_insert_eq|done]|by apply held_moved|done|done|]. by eexists.
  - destruct (client_again (k - 1) c (sample t xs) sent (recved + 1) q' (moved qd q' h' os' st) (S t) 0 (clock (pred t)) out0)
      as (st' & q2 & v' & -> & Hr' & Hout'); try done; [apply lookup_insert_eq|by apply held_moved|lia|lia|].
    exists st', v'. right. split; [lia|]. split; [done|]. split; [by exists q2|]. by rewrite Hout', moved_os, Hout.
Qed.

(** The loop. *)
Fixpoint samples (k : nat) (t : nat) (xs : list Z) : list Z :=
  match k with
  | O => xs
  | S k' => samples k' (S (S t)) (sample t xs)
  end.
Lemma client_loop_ok k n c xs sent recved q st t v :
  client_ready (Z.of_nat (S k)) c xs sent recved q st t v -> (k < n)%nat ->
  exists st' t' v', tcp_client_loop (HQ := vt) lib w_heap set_w_heap clock wait_fuel n 1 (mk_app (WithApi st) t v) =
      Ok (inl tt) (mk_app (WithApi st') t' v') /\
    client_done (samples (S k) t xs) (sent + Z.of_nat k) (recved + Z.of_nat (S k)) st' v' /\
    out (st_os st') = out (st_os st) ++ concat (replicate k (wire_message [packet])).
Proof.
  revert n c xs sent recved q st t v. induction k as [|k IH]; intros n c xs sent recved q st t v Hr Hn; (destruct n as [|n]; [lia|]);
    destruct (client_round_ok _ _ _ _ _ _ _ _ _ Hr) as (st1 & v1 & [(Hk & Hrun & Hr1 & Hout)|(Hk & Hrun & Hr1 & Hout)]); try lia.
  - exists st1, (S t), v1. split; [|split].
    + cbn [tcp_client_loop]. lib_step ltac:(exact Hrun). pure_step. destruct (cd_vars _ _ _ _ _ Hr1) as [ts Hv].
      pose proof (f_equal cl_iterations Hv) as ->. reflexivity.
    + by replace (sent + Z.of_nat 0) with sent by lia.
    + by rewrite Hout, app_nil_r.
  - destruct Hr1 as [q1 Hr1]. replace (Z.of_nat (S (S k)) - 1) with (Z.of_nat (S k)) in Hr1 by lia.
    destruct (IH n _ _ _ _ _ _ _ _ Hr1 ltac:(lia)) as (st' & t' & v' & Hloop & Hd & Hout').
    exists st', t', v'. split; [|split].
    + cbn [tcp_client_loop]. lib_step ltac:(exact Hrun). pure_step. pose proof (f_equal cl_iterations (cr_vars _ _ _ _ _ _ _ _ _ Hr1)) as ->. cbn [cl_iterations].
      rewrite (proj2 (Z.gtb_lt _ _)) by lia. exact Hloop.
    + replace (sent + Z.of_nat (S k)) with (sent + 1 + Z.of_nat k) by lia.
      by replace (recved + Z.of_nat (S (S k))) with (recved + 1 + Z.of_nat (S k)) by lia.
    + rewrite Hout', Hout. cbn [replicate concat]. by rewrite app_assoc.
Qed.

End echo.

(** ** Properties *)
Section properties.
Context {OS : Type} `{POS : PosixOS OS} (fuel : nat).
Context (lib : libos posix_object (pworld OS)) (wait_fuel : nat).
Abbreviation vt := (posix_vtable fuel).

(** C8: the echo server, from stream to stream.  On a connection that has only
    its pop outstanding, and that has not been echoed to before, one round of
    the server whose next token is that pop waits for the message, whatever the
    pieces it arrives in, writes exactly that message back, counts both, keeps
    the array received, and leaves the next pop in place of the token; what
    follows the message stays in the stream. *)
Theorem tcp_server_echoes qd fd (stream out : OS -> list Z) answer data rest c q st i v t :
  talks fd stream out answer -> (0 < wait_fuel)%nat ->
  has_arrived fuel qd fd stream data rest c [c mod MAX_TASKS] q st -> server_waits qd c i v -> push_tokens v !! i = Some 0 ->
  exists st' v', tcp_server_round (HQ := vt) lib w_heap set_w_heap wait_fuel (mk_app (WithApi st) t v) =
      Ok (inl tt) (mk_app (WithApi st') t v') /\
    echoed qd fd stream out answer data rest c i st v st' v'.
Proof. intros. by eapply server_echoes. Qed.

(** C36: the second message of a connection.  The server has kept the token of
    the echo before, drops it, and then frees the array it finds in
    [popped_buffers]: the array of the first message was never stored there, so
    what is freed was never written.  The behaviour is undefined. *)
Theorem tcp_server_second_message qd fd (stream out : OS -> list Z) answer data rest c q st i v t :
  talks fd stream out answer -> (0 < wait_fuel)%nat ->
  has_arrived fuel qd fd stream data rest c [c mod MAX_TASKS; (c - 1) mod MAX_TASKS] q st -> server_waits qd c i v -> 1 <= c ->
  push_tokens v !! i = Some (mk_qtoken qd (c - 1)) -> popped_buffers v !! i = Some None ->
  tcp_server_round (HQ := vt) lib w_heap set_w_heap wait_fuel (mk_app (WithApi st) t v) = Undef.
Proof. intros. by eapply server_second. Qed.

End properties.

(** ** Witnesses *)
Lemma demo_talks : talks 5 dk_in dk_out (fun _ => []).
Proof.
  split.
  - apply demo_reads.
  - done.
  - intros bss k. exists 0. eexists. split; [done|]. split; [done|]. by rewrite app_nil_r.
Qed.
Definition demo_echo {OS} (q : posix_queue) (h : heap) (os : OS) : io_queue_api posix_object (pworld OS) :=
  mk_io_queue_api 3 (mk_qenv {[3 := PxObj q]} (mk_pworld h os)) ∅.
Definition demo_result : dmtr_qresult := mk_qresult DMTR_OPC_INVALID 0 0 (qv_sga sgarray_zero).
Lemma demo_conn : conn 3 0 [] demo_connected.
Proof. by split. Qed.

Definition demo_popped : posix_queue := popping_queue 3 0 demo_connected.
Definition demo_second : posix_queue := popping_queue 3 1 (pushed_queue 3 0 demo_sga demo_connected).
Definition demo_server_vars (c push_token : Z) : server_vars :=
  mk_server_vars 2 0 0 [mk_qtoken 2 9; mk_qtoken 3 c] [0; push_token] [None; None] demo_result 0 0.

Lemma tcp_server_echoes_witness :
  let message := wire_message [demo_data] in
  let st := demo_echo demo_popped demo_heap (mk_demo_kernel (message ++ [1; 2]) []) in
  exists st' v', tcp_server_round (HQ := posix_vtable 100) posix_libos w_heap set_w_heap 1 (mk_app (WithApi st) 0 (demo_server_vars 1 0)) =
      Ok (inl tt) (mk_app (WithApi st') 0 v') /\
    dk_out (st_os st') = message /\ dk_in (st_os st') = [1; 2] /\ tokens v' = [mk_qtoken 2 9; mk_qtoken 3 3].
Proof.
  destruct (tcp_server_echoes (POS := demo_os) 100 posix_libos 1 3 5 dk_in dk_out (fun _ => []) demo_data [1; 2] 1 demo_popped
    (demo_echo demo_popped demo_heap (mk_demo_kernel (wire_message [demo_data] ++ [1; 2]) [])) 1 (demo_server_vars 1 0) 0)
    as (st' & v' & H & He).
  - exact demo_talks.
  - lia.
  - destruct (conn_pop 100 posix_libos (demo_echo demo_connected demo_heap (mk_demo_kernel [] [])) 3 0 [] demo_connected 0 demo_conn)
      as (_ & Hc & Ha); [reflexivity|reflexivity|reflexivity|apply not_elem_of_nil|].
    split; [exact Hc|left|exact Ha|reflexivity|reflexivity|apply demo_heap_ok|vm_compute; split; reflexivity|reflexivity|reflexivity|vm_compute; lia].
  - split; [reflexivity|discriminate|reflexivity|discriminate].
  - reflexivity.
  - exists st', v'. split; [exact H|]. split; [exact (ec_out _ _ _ _ _ _ _ _ _ _ _ _ _ He)|].
    split; [exact (ec_stream _ _ _ _ _ _ _ _ _ _ _ _ _ He)|]. exact (ec_tokens _ _ _ _ _ _ _ _ _ _ _ _ _ He).
Defined.

Lemma tcp_server_second_message_witness :
  let st := demo_echo demo_second demo_heap (mk_demo_kernel (wire_message [demo_data]) []) in
  tcp_server_round (HQ := posix_vtable 100) posix_libos w_heap set_w_heap 1
    (mk_app (WithApi st) 0 (demo_server_vars 2 (mk_qtoken 3 1))) = Undef.
Proof.
  apply (tcp_server_second_message (POS := demo_os) 100 posix_libos 1 3 5 dk_in dk_out (fun _ => []) demo_data [] 2 demo_second
    (demo_echo demo_second demo_heap (mk_demo_kernel (wire_message [demo_data]) [])) 1 (demo_server_vars 2 (mk_qtoken 3 1)) 0).
  - exact demo_talks.
  - lia.
  - destruct (conn_push 100 posix_libos (demo_echo demo_connected demo_heap (mk_demo_kernel [] [])) 3 0 [] demo_connected 100 demo_data demo_sga
      0 0 (mk_demo_kernel [] (wire_message [demo_data])) demo_conn) as [_ Hc]; try reflexivity; [apply not_elem_of_nil|vm_compute; split; reflexivity|lia|].
    destruct (conn_pop 100 posix_libos (demo_echo (pushed_queue 3 0 demo_sga demo_connected) demo_heap (mk_demo_kernel [] [])) 3 1 [1] _ 0 Hc)
      as (_ & Hc2 & Ha); try reflexivity; [intros [=]%list_elem_of_singleton|].
    split; [exact Hc2|left|exact Ha|reflexivity|reflexivity|apply demo_heap_ok|vm_compute; split; reflexivity|reflexivity|reflexivity|vm_compute; lia].
  - split; [reflexivity|discriminate|reflexivity|discriminate].
  - lia.
  - reflexivity.
  - reflexivity.
Defined.
