(* ===== verification/EchoMain.v ===== *)
(** * The TCP echo client, the whole program

    [apps/echo/dmtr_tcp_client.cc] with one connection on the POSIX library OS,
    from the start of [main] to the report of its latencies. *)
From stdpp Require Import strings.
From S2P Require Import Prelude Cmd Types Memory Contents IoQueue UserThread Queue IoQueueApi Wait PosixOs PosixQueue PosixLaws PosixWire PosixIo Libos PosixApi PosixDial Latency LatencyDump Echo EchoPosix.
Open Scope Z_scope.
Open Scope cmd_scope.

(** ** The packet *)
Definition packet_of (size : Z) : list Z := replicate (Z.to_nat (size - 1)) FILL_CHAR ++ [0].
Lemma packet_length size : 1 <= size -> len32 (packet_of size) = size.
Proof. intros. unfold len32, packet_of. rewrite length_app, length_replicate. cbn. lia. Qed.

Lemma packet_heap size h :
  heap_ok h -> 1 <= size < 2 ^ 32 ->
  exists h1 h2 h3, malloc size h = Ok (h_brk h) h1 /\ store_bytes (h_brk h) (replicate (Z.to_nat size) FILL_CHAR) h1 = Ok tt h2 /\
    store_bytes (h_brk h + u32 (size - 1)) [0] h2 = Ok tt h3 /\
    allocated (h_brk h) size h h3 /\ holds h3 (h_brk h) (packet_of size).
Proof.
  intros (Hoom & Hbrk & Hfr) Hs. pose proof (allocated_malloc h size) as Hal. cbv zeta in Hal. set (h1 := mk_heap _ _ _ _) in Hal.
  set (p := h_brk h) in *. set (n := Z.to_nat size).
  assert (Hlen : len32 (replicate n FILL_CHAR) = size) by (unfold len32; rewrite length_replicate; lia).
  destruct (store_mapped h1 p (replicate n FILL_CHAR)) as (h2 & Hst2 & Hh2 & Hout2).
  { intros x Hx. rewrite Hlen in Hx. cbn. rewrite alloc_cells_lookup, decide_True by lia. by eexists. }
  destruct (store_mapped h2 (p + (size - 1)) [0]) as (h3 & Hst3 & Hh3 & Hout3).
  { intros x Hx. change (len32 [0]) with 1 in Hx. eapply holds_mapped; [exact Hh2|]. rewrite Hlen. lia. }
  rewrite Hlen in Hout2. change (len32 [0]) with 1 in Hout3.
  exists h1, h2, h3. split; [by apply malloc_eq|]. split; [exact Hst2|]. split; [|split].
  - by rewrite wrap_small by lia.
  - destruct (store_bytes_rest _ _ _ _ Hst2) as [Hb2 Ho2]. destruct (store_bytes_rest _ _ _ _ Hst3) as [Hb3 Ho3].
    assert (Hbl : forall q bs a b, store_bytes q bs a = Ok tt b -> h_blocks b = h_blocks a).
    { intros q bs a b H. unfold store_bytes in H. destruct (store_cells _ _ _); [|done]. by injection H as <-. }
    assert (Hal2 : allocated p size h h2).
    { eapply (allocated_store p size h h1 h2 p size Hal); [|lia|lia|by eapply Hbl|done|done]. intros x Hx. apply (proj1 Hout2). lia. }
    eapply (allocated_store p size h h2 h3 (p + (size - 1)) 1 Hal2); [|lia|lia|by eapply Hbl|done|done].
    intros x Hx. apply (proj1 Hout3). lia.
  - unfold packet_of. apply holds_app.
    + assert (Hsub : holds h2 p (replicate (Z.to_nat (size - 1)) FILL_CHAR)).
      { replace n with (Z.to_nat (size - 1) + 1)%nat in Hh2 by (unfold n; lia). rewrite replicate_add in Hh2. by apply holds_app_l in Hh2. }
      eapply holds_frame; [exact Hsub|exact Hout3|]. unfold len32. rewrite length_replicate. lia.
    + unfold len32. rewrite length_replicate. replace (p + Z.of_nat (Z.to_nat (size - 1))) with (p + (size - 1)) by lia. exact Hh3.
Qed.

Lemma allocated_ok p n h0 h : heap_ok h0 -> 0 < n -> allocated p n h0 h -> heap_ok h.
Proof.
  intros (Ho & Hb & Hf) Hn Hal. split; [by rewrite (al_oom _ _ _ _ Hal)|]. split; [|by eapply allocated_fresh].
  pose proof (al_brk _ _ _ _ Hal). lia.
Qed.
Lemma length_saddr_bytes a : length (saddr_bytes a) = 16%nat.
Proof. done. Qed.

(** The samples are what [dmtr_record_latency] takes. *)
Lemma samples_range clock k t xs :
  Forall (fun x => 0 < x < 2 ^ 64) xs -> Forall (fun x => 0 < x < 2 ^ 64) (samples clock k t xs).
Proof.
  revert t xs. induction k as [|k IH]; intros t xs Hxs; [done|]. cbn [samples]. apply IH. unfold sample.
  pose proof (wrap_range 64 (clock t - clock (pred t)) ltac:(lia)) as Hr. fold (u64 (clock t - clock (pred t))) in Hr.
  destruct (_ =? 0) eqn:E; zbool; [done|]. apply Forall_app. split; [done|]. constructor; [lia|done].
Qed.
Lemma samples_length clock k t xs : (length (samples clock k t xs) <= k + length xs)%nat.
Proof.
  revert t xs. induction k as [|k IH]; intros t xs; [done|]. cbn [samples]. etransitivity; [apply IH|]. unfold sample.
  destruct (_ =? 0); rewrite ?length_app; cbn; lia.
Qed.

Section main.
Context {OS : Type} `{POS : PosixOS OS} (fuel : nat).
#[local] Existing Instance posix_vtable.
Abbreviation vt := (posix_vtable fuel).
Abbreviation lib := (posix_libos (OS := OS)).
Abbreviation api := (io_queue_api posix_object (pworld OS)).
Implicit Types (st : api) (q : posix_queue).
Abbreviation client := (app (process posix_object (pworld OS)) client_vars).
Context (clock : nat -> Z) (inet_pton : list Z -> option Z) (wait_fuel : nat) (Hwait : (0 < wait_fuel)%nat).
Context (fd : Z) (stream out : OS -> list Z) (answer : list Z -> list Z) (Htalk : talks fd stream out answer) (Hfd : 0 <= fd).
(** Neither what has arrived nor what was sent changes. *)
Definition same_traffic (os os' : OS) : Prop := stream os' = stream os /\ out os' = out os.
#[local] Instance same_traffic_preorder : PreOrder same_traffic.
Proof. split; [by split|]. intros a b c [H1 H2] [H3 H4]. split; congruence. Qed.
Context (g : globals) (server : list Z) (addr : Z) (reply : list Z).
Abbreviation saddr := (mk_sockaddr_in AF_INET (htons (port g)) addr 0).
Context (fds : OS -> gset Z) (Hdial : dials fd (saddr_bytes saddr) same_traffic fds) (Hopen : leaves_open fd fds).
(** The process holds one queue and one descriptor more. *)
Abbreviation holding os0 := (held 1 fds ∅ ({[fd]} ∪ fds os0)).
Context (Hclients : clients g = 1) (Hserver : server_ip_addr g = Some server) (Haddr : inet_pton server = Some addr).
Context (Hsize : 1 <= packet_size g < 2 ^ 31 - 4) (Hiter : 1 <= iterations g < 2 ^ 31 - 2).
Abbreviation packet := (packet_of (packet_size g)).
Context (Hreply : 0 < len32 reply < 2 ^ 31 - 4) (Hfuel : (length reply + 22 < fuel)%nat).
Context (Hanswer : answer (wire_message [packet]) = wire_message [reply]).
Context (h0 : heap) (Hh0 : heap_ok h0).

Definition latency_name : list Z := (fun c => Z.of_N (Ascii.N_of_ascii c)) <$> String.list_ascii_of_string "end-to-end".

Lemma generate_packet_eq q st t (v : client_vars) :
  my_queues st !! 1 = Some (PxObj q) -> heap_ok (st_heap st) ->
  exists h', generate_packet w_heap set_w_heap g (mk_app (WithApi st) t v) =
      Ok (inl (h_brk (st_heap st))) (mk_app (WithApi (moved 1 q h' (st_os st) st)) t v) /\
    allocated (h_brk (st_heap st)) (packet_size g) (st_heap st) h' /\ holds h' (h_brk (st_heap st)) packet.
Proof.
  intros Hq Hh. destruct (packet_heap (packet_size g) (st_heap st) Hh) as (h1 & h2 & h3 & Hm & Hs2 & Hs3 & Hal & Hp).
  { change (2 ^ 31) with 2147483648 in Hsize. change (2 ^ 32) with 4294967296. lia. }
  exists h3. split; [|done]. set (p := h_brk (st_heap st)) in *.
  assert (Hq1 : forall h os st', my_queues (moved 1 q h os st') !! 1 = Some (PxObj q)) by (intros; apply lookup_insert_eq).
  unfold generate_packet. erewrite sbind_Ok.
  2: { apply call_on_proc. eapply (proc_heap_eq 1 _ (0, Some p)); [exact Hq|]. cbn [dmtr_malloc]. unfold fbind. rewrite Hm. reflexivity. }
  cbn [snd]. erewrite sbind_Ok by reflexivity. erewrite sbind_Ok.
  2: { apply call_on_proc. eapply (proc_heap_eq 1); [apply Hq1|exact Hs2]. }
  erewrite sbind_Ok.
  2: { apply call_on_proc. eapply (proc_heap_eq 1); [apply Hq1|exact Hs3]. }
  unfold normal, fret, set_a_proc. cbn [a_tick a_vars]. by rewrite ?moved_os, !moved_moved.
Qed.

Lemma new_latency_eq {V} (s : app (process posix_object (pworld OS)) V) :
  new_latency "end-to-end" s = Ok (inl (latency_of latency_name [])) s.
Proof. reflexivity. Qed.
Lemma wait_ok_eq {V} (s : app (process posix_object (pworld OS)) V) qr qt r p :
  dmtr_wait (dmtr_poll (HQ := vt) lib) (dmtr_drop (HQ := vt) lib) wait_fuel (Some qr) qt (a_proc s) = Ok (0, Some r) p ->
  wait_ok (HQ := vt) lib wait_fuel qr qt s = Ok (inl r) (set_a_proc p s).
Proof. intros H. unfold wait_ok, DMTR_OK_out, app_wait, on_proc, zoom, sbind, fbind. by rewrite H. Qed.

(** From [main] to the start of the loop: the memory is that of the process with the peer's
    address and the packet. *)
Lemma client_setup_ok os0 garbage :
  stream os0 = [] -> fd ∉ fds os0 ->
  exists h1 h2 p q st v,
    tcp_client_setup (HQ := vt) lib w_heap set_w_heap clock inet_pton wait_fuel g
      (mk_app (NoApi (mk_pworld h0 os0)) 0 (client_vars_init garbage)) = Ok (inl tt) (mk_app (WithApi st) 1 v) /\
    allocated (h_brk h0) 16 h0 h1 /\ allocated p (packet_size g) h1 h2 /\ heap_ok h2 /\ holds h2 p packet /\
    client_ready clock 1 fd stream h2 p packet reply latency_name fds ∅ ({[fd]} ∪ fds os0) (iterations g) 3 [] 1 0 q st 1 v /\
    out (st_os st) = out os0 ++ wire_message [packet].
Proof.
  intros Hs0 Hnew. destruct (dmtr_socket_eq fuel ltac:(lia) fd _ same_traffic fds Hdial Hfd h0 os0 Hnew) as (os1 & Hsock & S1 & F1).
  destruct (dmtr_connect_eq fuel ltac:(lia) fd _ same_traffic fds Hdial Hfd h0 os1 Hh0 (length_saddr_bytes saddr) ltac:(set_solver))
    as (h1 & os2 & Hconn & Hal1 & S2 & F2).
  pose proof (dmtr_wait_eq fuel ltac:(lia) fd Hfd wait_fuel (h_brk h0) h1 os2 qresult_zero Hwait) as Hw.
  destruct (ready_conn fd Hfd (h_brk h0)) as (Hc & Hqfd & Hpop). set (q1 := ready_queue fd (h_brk h0)) in *.
  assert (Hh1 : heap_ok h1) by (eapply allocated_ok; [exact Hh0| |exact Hal1]; lia).
  destruct (generate_packet_eq q1 (one_queue 1 q1 h1 os2) 0
    (mk_client_vars 0 0 1 sgarray_zero (latency_of latency_name []) 0 [] [] [] garbage)) as (h2 & Hgen & Hal2 & Hp2); [done|done|].
  change (st_heap (one_queue 1 q1 h1 os2)) with h1 in *. change (st_os (one_queue 1 q1 h1 os2)) with os2 in Hgen.
  assert (Hh2 : heap_ok h2) by (eapply allocated_ok; [exact Hh1| |exact Hal2]; lia).
  set (p := h_brk h1) in *. assert (Hlen : len32 packet = packet_size g) by (apply packet_length; lia).
  destruct (client_start_ok fuel lib clock wait_fuel Hwait 1 fd stream out answer Htalk h2 p packet reply Hp2 ltac:(lia) Hfuel Hanswer
    latency_name fds Hopen ∅ ({[fd]} ∪ fds os0) (iterations g) 1 (latency_of latency_name []) q1 (moved 1 q1 h2 os2 (one_queue 1 q1 h1 os2)) 0%nat garbage)
    as (st & q & v & Hstart & Hr & Hout); try done.
  { apply held_moved; [|done]. split; [apply delete_singleton_eq|]. cbn. congruence. }
  { rewrite moved_os. destruct S2 as [-> _]. by destruct S1 as [-> _]. }
  { change (2 ^ 31) with 2147483648 in Hiter. change (2 ^ 32) with 4294967296. lia. }
  { change (2 ^ 31) with 2147483648 in Hiter. lia. }
  exists h1, h2, p, q, st, v. split; [|split_and!; try done].
  - unfold tcp_client_setup. lib_step ltac:(apply lib_ok_eq; apply posix_init_eq). lib_step ltac:(apply new_latency_eq).
    do 2 pure_step. lib_step ltac:(apply lib_out_eq; exact Hsock). pure_step.
    lib_step ltac:(unfold client_saddr; rewrite Hserver; erewrite sbind_Ok by reflexivity; rewrite Haddr; reflexivity).
    lib_step ltac:(apply lib_out_eq; exact Hconn). lib_step ltac:(apply wait_ok_eq; exact Hw).
    lib_step ltac:(exact Hgen). do 2 pure_step. rewrite Hclients. pure_step. change (Z.to_nat 1) with 1%nat. cbn [rounds].
    rewrite <- Hlen. lib_step ltac:(exact Hstart). reflexivity.
  - rewrite Hout, moved_os. destruct S2 as [_ ->]. by destruct S1 as [_ ->].
Qed.

(** [finish]: the packet is freed, the connection closed, and the report made. *)
Lemma finish_ok os0 h1 h2 p xs sent recved st t v :
  fd ∉ fds os0 -> allocated p (packet_size g) h1 h2 -> heap_ok h1 ->
  client_done 1 fd stream h2 p packet latency_name fds ∅ ({[fd]} ∪ fds os0) xs sent recved st v ->
  Forall (fun x => 0 < x < 2 ^ 64) xs -> Z.of_nat (length xs) < 2 ^ 32 ->
  exists lines l' st' v', finish (HQ := vt) lib w_heap set_w_heap (mk_app (WithApi st) t v) = Ok (inl lines) (mk_app (WithApi st') t v') /\
    dmtr_dump_latency false false (latency_of latency_name xs) = Ok (0, lines) l' /\
    h_blocks (st_heap st') = h_blocks h1 /\ h_cells (st_heap st') = h_cells h1 /\ out (st_os st') = out (st_os st) /\
    my_queues st' = ∅ /\ fds (st_os st') = fds os0 /\
    cl_sent v' = u64 sent /\ cl_recved v' = u64 recved.
Proof.
  intros Hnew Hal Hh1 [] Hxs Hlen. destruct cd_queue as (q & Hq & Hqfd & Hqp). destruct cd_held as [Hrest Hfds]. destruct cd_vars as [ts Hv].
  destruct (latency_dump_total latency_name xs Hxs Hlen) as (lines & l' & Hd).
  destruct Hh1 as (Ho & Hb & Hf). pose proof (al_brk _ _ _ _ Hal) as [Hp1 Hp2].
  assert (Hfree : dmtr_sgafree (Some (packet_sga p (len32 packet))) (st_heap st) =
    Ok 0 (mk_heap (h_cells h1) (h_blocks h1) (h_brk (st_heap st)) (h_oom h1))).
  { destruct cd_memory as [C B O K]. cbn. unfold fbind. erewrite (allocated_free p (packet_size g) h1).
    - reflexivity.
    - lia.
    - exact Hf.
    - split; [by rewrite C; apply Hal|by rewrite B; apply Hal|by rewrite O; apply Hal|lia].
    - lia. }
  pose proof (proc_heap_eq 1 _ _ _ _ _ Hq Hfree) as Hfree'. set (h3 := mk_heap _ _ _ _) in Hfree'.
  destruct (dmtr_close_eq fuel ltac:(lia) fd _ same_traffic fds Hdial Hfd q (moved 1 q h3 (st_os st) st)) as (st' & Hclose & Hh & [_ Hout] & Hqs & Hcl);
    [apply lookup_insert_eq|done|done|rewrite moved_os; set_solver|].
  rewrite moved_heap in Hh. rewrite moved_os in Hout, Hcl. unfold moved, my_queues in Hqs. cbn in Hqs. rewrite delete_insert_eq in Hqs. rewrite Hv.
  exists lines, l', st'. eexists.
  split; [|split; [exact Hd|split; [by rewrite Hh|split; [by rewrite Hh|split; [exact Hout|split; [by rewrite <- Hrest|split; [rewrite Hcl, Hfds; set_solver|]]]]]]].
  - unfold finish. pure_step. lib_step ltac:(apply call_on_proc; exact Hfree'). lib_step ltac:(apply call_on_proc; exact Hclose).
    lib_step ltac:(unfold call, on_latency, zoom, fbind; cbn [a_vars cl_latency set_a_proc]; rewrite Hd; reflexivity). reflexivity.
  - done.
Qed.

Lemma client_main_ok n os0 garbage :
  stream os0 = [] -> fd ∉ fds os0 -> iterations g <= Z.of_nat n ->
  exists lines l' st' t' v',
    tcp_client_main (HQ := vt) lib w_heap set_w_heap clock inet_pton wait_fuel g n
      (mk_app (NoApi (mk_pworld h0 os0)) 0 (client_vars_init garbage)) = Ok (inl lines) (mk_app (WithApi st') t' v') /\
    dmtr_dump_latency false false (latency_of latency_name (samples clock (Z.to_nat (iterations g)) 1 [])) = Ok (0, lines) l' /\
    out (st_os st') = out os0 ++ concat (replicate (Z.to_nat (iterations g)) (wire_message [packet])) /\
    cl_sent v' = iterations g /\ cl_recved v' = iterations g /\ my_queues st' = ∅ /\ fds (st_os st') = fds os0 /\
    h_blocks (st_heap st') = <[h_brk h0 := 16]> (h_blocks h0) /\
    (forall x, ~ (h_brk h0 <= x < h_brk h0 + 16) -> h_cells (st_heap st') !! x = h_cells h0 !! x).
Proof.
  intros Hs0 Hnew Hn. pose proof Hsize as Hsz. pose proof Hiter as Hit. change (2 ^ 31) with 2147483648 in Hsz, Hit.
  destruct (client_setup_ok os0 garbage Hs0 Hnew) as (h1 & h2 & p & q & st & v & Hsetup & Hal1 & Hal2 & Hh2 & Hp & Hr & Hout).
  assert (Hh1 : heap_ok h1) by (eapply allocated_ok; [exact Hh0| |exact Hal1]; lia).
  assert (Hlen : len32 packet = packet_size g) by (apply packet_length; lia).
  destruct (Z.to_nat (iterations g)) as [|k] eqn:Ek; [lia|]. assert (Hk : iterations g = Z.of_nat (S k)) by lia.
  rewrite Hk in Hr. rewrite Hk.
  destruct (client_loop_ok fuel lib clock wait_fuel Hwait 1 fd stream out answer Htalk h2 p packet reply Hh2 Hp ltac:(rewrite Hlen; change (2 ^ 31) with 2147483648; lia) Hreply Hfuel Hanswer
    latency_name fds Hopen ∅ ({[fd]} ∪ fds os0) k n _ _ _ _ _ _ _ _ Hr ltac:(lia)) as (st2 & t2 & v2 & Hloop & Hd & Hout2).
  destruct (finish_ok os0 h1 h2 p _ _ _ st2 t2 v2 Hnew Hal2 Hh1 Hd) as (lines & l' & st3 & v3 & Hfin & Hdump & Hbl & Hce & Hout3 & Hqs & Hcl & Hse & Hre).
  { by apply samples_range. }
  { pose proof (samples_length clock (S k) 1 []) as H. change (2 ^ 32) with 4294967296. cbn [length] in H. lia. }
  exists lines, l', st3, t2, v3. split; [|split; [exact Hdump|split; [|split; [|split; [|split; [exact Hqs|split; [exact Hcl|split]]]]]]].
  - unfold tcp_client_main. rewrite Hclients. erewrite sbind_Ok by exact Hsetup. erewrite sbind_Ok by exact Hloop. exact Hfin.
  - rewrite Hout3, Hout2, Hout. cbn [replicate concat]. by rewrite app_assoc.
  - rewrite Hse. rewrite wrap_small; [lia|]. change (2 ^ 64) with 18446744073709551616. lia.
  - rewrite Hre. rewrite wrap_small; [lia|]. change (2 ^ 64) with 18446744073709551616. lia.
  - rewrite Hbl. apply Hal1.
  - intros x Hx. rewrite Hce. by apply Hal1.
Qed.
End main.

(** ** The property *)
Section properties.
Context {OS : Type} `{POS : PosixOS OS} (fuel : nat).
Abbreviation lib := (posix_libos (OS := OS)).

(** C6: the echo client, the whole program, for one connection on the POSIX
    library OS: from a process without a library, any number of iterations
    below the limit of the token counter, any size of the packet, and any peer
    that answers the packet with a message of its own, under a kernel whose
    calls succeed, whose reads deliver pieces of any size and which takes every
    write whole.  The connection is made to the address of the server's name
    and port.  The program ends with the report of the latencies it measured.
    It sends the packet once per iteration and nothing else, receives as many
    answers, counts both, and reports the samples of the clock's readings
    around each.  Everything is released: no queue is left, the descriptors
    open are those from before, and of the memory it allocated only the sixteen
    bytes of the peer's address are left.  One unit of fuel per iteration and
    one visit of each wait suffice. *)
Theorem tcp_client_main_correct clock inet_pton wait_fuel fd (stream out : OS -> list Z) fds answer g server addr reply h0 n os0 garbage :
  (0 < wait_fuel)%nat -> 0 <= fd -> talks fd stream out answer -> leaves_open fd fds ->
  dials fd (saddr_bytes (mk_sockaddr_in AF_INET (htons (port g)) addr 0)) (same_traffic stream out) fds ->
  clients g = 1 -> server_ip_addr g = Some server -> inet_pton server = Some addr ->
  1 <= packet_size g < 2 ^ 31 - 4 -> 1 <= iterations g < 2 ^ 31 - 2 ->
  0 < len32 reply < 2 ^ 31 - 4 -> (length reply + 22 < fuel)%nat ->
  answer (wire_message [packet_of (packet_size g)]) = wire_message [reply] ->
  heap_ok h0 -> stream os0 = [] -> fd ∉ fds os0 -> iterations g <= Z.of_nat n ->
  exists lines l' st' t' v',
    tcp_client_main (HQ := posix_vtable fuel) lib w_heap set_w_heap clock inet_pton wait_fuel g n
      (mk_app (NoApi (mk_pworld h0 os0)) 0 (client_vars_init garbage)) = Ok (inl lines) (mk_app (WithApi st') t' v') /\
    dmtr_dump_latency false false (latency_of latency_name (samples clock (Z.to_nat (iterations g)) 1 [])) = Ok (0, lines) l' /\
    out (st_os st') = out os0 ++ concat (replicate (Z.to_nat (iterations g)) (wire_message [packet_of (packet_size g)])) /\
    cl_sent v' = iterations g /\ cl_recved v' = iterations g /\ my_queues st' = ∅ /\ fds (st_os st') = fds os0 /\
    h_blocks (st_heap st') = <[h_brk h0 := 16]> (h_blocks h0) /\
    (forall x, ~ (h_brk h0 <= x < h_brk h0 + 16) -> h_cells (st_heap st') !! x = h_cells h0 !! x).
Proof. intros. by eapply client_main_ok. Qed.
End properties.

(** ** Witness

    A kernel that delivers to the connection what it writes, five bytes at a
    time, and that makes the calls on 5 while it is open. *)
Record echo_kernel := mk_echo_kernel { ek_in : list Z; ek_out : list Z; ek_open : bool }.
Definition ek_fds (k : echo_kernel) : gset Z := if ek_open k then {[5]} else ∅.
Definition ek_call (ok : bool) (k : echo_kernel) : Z * Z * echo_kernel := if ok then (0, 0, k) else (-1, 9, k).
#[export] Instance echo_os : PosixOS echo_kernel := {|
  sys_socket _ _ _ k := (5, 0, mk_echo_kernel (ek_in k) (ek_out k) true);
  sys_getsockname _ _ k := (0, 0, [], k);
  sys_setsockopt _ _ _ _ k := ek_call (ek_open k) k;
  sys_bind _ _ _ k := (0, 0, k);
  sys_listen _ _ k := (0, 0, k);
  sys_accept4 _ _ k := (6, 0, mk_sockaddr_in 2 7 1 0, k);
  sys_connect _ addr _ k := ek_call (ek_open k && bool_decide (addr = Some (saddr_bytes (mk_sockaddr_in AF_INET (htons 7) 1 0)))) k;
  sys_open _ _ _ k := (5, 0, k);
  sys_creat _ _ k := (5, 0, k);
  sys_close _ k := (if ek_open k then 0 else -1, 9, mk_echo_kernel (ek_in k) (ek_out k) false);
  sys_fcntl _ _ _ k := ek_call (ek_open k) k;
  sys_read _ len k :=
    let n := Z.to_nat (Z.min len 5) in
    (len32 (take n (ek_in k)), 0, take n (ek_in k), mk_echo_kernel (skipn n (ek_in k)) (ek_out k) (ek_open k));
  sys_writev _ bss k := (len32 (concat bss), 0, mk_echo_kernel (ek_in k ++ concat bss) (ek_out k ++ concat bss) (ek_open k))
|}.
Lemma echo_talks : talks 5 ek_in ek_out (fun m => m).
Proof.
  split.
  - intros len k Hlen Hs. right. cbn [sys_read echo_os ek_in]. split; [done|]. split; [|by rewrite take_drop].
    unfold len32. rewrite length_take. destruct (ek_in k); [done|]. cbn [length]. lia.
  - done.
  - intros bss k. exists 0. eexists. done.
Qed.
Lemma echo_leaves_open : leaves_open 5 ek_fds.
Proof. by split. Qed.
Definition demo_globals : globals := mk_globals 7 (Some [49]) 8 3 1 None.
Lemma echo_dials : dials 5 (saddr_bytes (mk_sockaddr_in AF_INET (htons (port demo_globals)) 1 0)) (same_traffic ek_in ek_out) ek_fds.
Proof.
  split; unfold ek_fds.
  2-5: intros; (match goal with os : echo_kernel |- _ => destruct os as [i o []] end); [|set_solver]; repeat eexists; try done.
  - intros [i o []] Hnew; [set_solver|]. do 2 eexists. split; [reflexivity|]. split; [done|]. cbn. set_solver.
Qed.
Definition demo_clock (n : nat) : Z := Z.of_nat n * 10.

Lemma tcp_client_main_correct_witness :
  let message := wire_message [packet_of 8] in
  exists lines l' st' t' v',
    tcp_client_main (HQ := posix_vtable 100) posix_libos w_heap set_w_heap demo_clock (fun _ => Some 1) 1 demo_globals 3
      (mk_app (NoApi (mk_pworld demo_heap (mk_echo_kernel [] [] false))) 0 (client_vars_init demo_result)) =
      Ok (inl lines) (mk_app (WithApi st') t' v') /\
    dmtr_dump_latency false false (latency_of latency_name [10; 10; 10]) = Ok (0, lines) l' /\
    my_queues st' = ∅ /\ ek_fds (st_os st') = ∅ /\
    ek_out (st_os st') = message ++ message ++ message /\ cl_sent v' = 3 /\ cl_recved v' = 3.
Proof.
  destruct (tcp_client_main_correct (POS := echo_os) 100 demo_clock (fun _ => Some 1) 1 5 ek_in ek_out ek_fds (fun m => m) demo_globals
    [49] 1 (packet_of 8) demo_heap 3 (mk_echo_kernel [] [] false) demo_result) as (lines & l' & st' & t' & v' & H & Hd & Hout & Hs & Hr & Hq & Hf & _);
    [lia|lia|exact echo_talks|exact echo_leaves_open|exact echo_dials|reflexivity|reflexivity|reflexivity|..].
  1-3: vm_compute; split; first [discriminate|reflexivity].
  - vm_compute. lia.
  - reflexivity.
  - apply demo_heap_ok.
  - reflexivity.
  - apply not_elem_of_empty.
  - vm_compute. discriminate.
  - exists lines, l', st', t', v'. split; [exact H|]. split; [exact Hd|]. split; [exact Hq|]. split; [exact Hf|]. split; [rewrite Hout; reflexivity|]. split; [exact Hs|exact Hr].
Defined.
