(* ===== verification/EchoServe.v ===== *)
(** * The TCP echo server, from its start to its first echo

    [apps/echo/dmtr_tcp_server.cc] on the POSIX library OS: the socket, the
    wait for a peer, and the peer's first message. *)
From S2P Require Import Prelude Cmd Types Memory Contents IoQueue UserThread Queue IoQueueApi Wait PosixOs PosixQueue PosixLaws PosixWire PosixConn PosixIo Libos PosixApi PosixDial PosixServe Echo EchoPosix.
Open Scope cmd_scope.

Section server.
Context {OS : Type} `{POS : PosixOS OS} (fuel : nat) (Hfuel : (4 < fuel)%nat).
#[local] Existing Instance posix_vtable.
Abbreviation vt := (posix_vtable fuel).
Abbreviation lib := (posix_libos (OS := OS)).
Abbreviation tok := mk_qtoken.
Abbreviation slot u := (u mod MAX_TASKS).
Context (inet_pton : list Z -> option Z) (wait_fuel : nat).
Context (lfd fd : Z) (saddr peer : sockaddr_in) (fresh bound before : nat -> OS -> Prop) (after : OS -> Prop).
Context (Hs : serves lfd fd (saddr_bytes saddr) peer fresh bound before after) (Hlfd : 0 <= lfd) (Hfd : 0 <= fd).
Abbreviation server := (app (process posix_object (pworld OS)) server_vars).
Abbreviation api := (io_queue_api posix_object (pworld OS)).
Implicit Types (q : posix_queue) (st : api).

(** The process that listens: the queue 1 waits for the peer of the queue 2. *)
Record listens (h : heap) (n : nat) st q : Prop := {
  ls_counter : my_qd_counter st = 2;
  ls_listener : my_queues st !! 1 = Some (PxObj q) /\ listener 1 lfd 1 [slot 1] q /\ accepting 1 1 2 q;
  ls_new : my_queues st !! 2 = Some (PxObj (posix_queue_ctor 2 NETWORK_Q));
  ls_heap : st_heap st = h;
  ls_before : before n (st_os st)
}.
Definition listening_vars (garbage : dmtr_qresult) : server_vars :=
  mk_server_vars 1 0 0 [tok 1 1] (replicate ARRAY_SIZE 0) (replicate ARRAY_SIZE None) garbage 0 (tok 1 1).

Lemma setup_ok h n os t garbage :
  fresh n os -> exists st q,
    tcp_server_setup (HQ := vt) lib saddr (mk_app (NoApi (mk_pworld h os)) t (server_vars_init garbage)) =
      Ok (inl tt) (mk_app (WithApi st) t (listening_vars garbage)) /\ listens h n st q.
Proof.
  intros Hb. destruct (se_socket _ _ _ _ _ _ _ _ Hs n os Hb) as (e1 & os1 & H1 & B1).
  destruct (se_setsockopt _ _ _ _ _ _ _ _ Hs IPPROTO_TCP TCP_NODELAY n os1 B1) as (e2 & os2 & H2 & B2).
  pose proof (dmtr_socket_calls fuel ltac:(lia) lfd Hlfd h os e1 os1 e2 os2 H1 H2) as Hsock.
  set (st1 := one_queue 1 (socket_queue lfd) h os2) in *.
  destruct (serve_bind fuel lib Hfuel lfd fd _ peer fresh bound before after Hs Hlfd st1 1 (socket_queue lfd) n) as (os3 & Hbind & B3); try done.
  set (st2 := moved 1 (socket_queue lfd) (st_heap st1) os3 st1) in *.
  destruct (serve_listen fuel lib Hfuel lfd fd _ peer fresh bound before after Hs Hlfd st2 1 (socket_queue lfd) n 10) as (os4 & Hlisten & B4); try done.
  set (q := listening_queue (socket_queue lfd)) in *. set (st3 := moved 1 q (st_heap st2) os4 st2) in *.
  assert (Hl : listener 1 lfd 0 [] q) by (split; done || by vm_compute).
  destruct (accepting_listener 1 lfd 0 [] 2 q Hl) as [Hl1 Ha1]; [done..|].
  assert (Hq3 : my_queues st3 !! 1 = Some (PxObj q)) by apply lookup_insert_eq.
  pose proof (listener_accept fuel st3 1 lfd 0 [] q 0 Hl eq_refl Hq3 ltac:(lia) (not_elem_of_nil _) ltac:(cbn; lia)) as Hacc.
  exists (accept_issued 1 0 q st3), (accepting_queue 1 0 2 q). split.
  - unfold tcp_server_setup. lib_step ltac:(apply lib_ok_eq; apply posix_init_eq). pure_step.
    lib_step ltac:(apply lib_out_eq; exact Hsock). pure_step. lib_step ltac:(apply lib_ok_eq; exact Hbind).
    lib_step ltac:(apply lib_ok_eq; exact Hlisten). lib_step ltac:(apply lib_out_eq; exact Hacc). pure_step. reflexivity.
  - by split.
Qed.

(** The first round: the peer comes after [k] attempts; a pop of the
    connection and another accept are outstanding. *)
Record connected_server (h : heap) st q q1 : Prop := {
  cs_conn : conn 2 1 [slot 1] q /\ awaiting 2 1 q /\ my_fd q = fd /\ my_queues st !! 2 = Some (PxObj q);
  cs_listener : my_queues st !! 1 = Some (PxObj q1) /\ listener 1 lfd 2 [slot 2] q1 /\ accepting 1 2 3 q1;
  cs_heap : st_heap st = h;
  cs_after : after (st_os st)
}.
Definition accepted_result : dmtr_qresult := mk_qresult DMTR_OPC_ACCEPT 1 (tok 1 1) (qv_ares 2 peer).
Definition connected_vars : server_vars :=
  mk_server_vars 1 0 0 [tok 1 2; tok 2 1] (replicate ARRAY_SIZE 0) (replicate ARRAY_SIZE None) accepted_result 0 (tok 2 1).
Abbreviation server_round := (tcp_server_round (HQ := vt) lib w_heap set_w_heap wait_fuel).

Lemma first_round_ok h k st q t garbage :
  listens h k st q -> (k < wait_fuel)%nat ->
  exists st' q' q1', server_round (mk_app (WithApi st) t (listening_vars garbage)) = Ok (inl tt) (mk_app (WithApi st') t connected_vars) /\
    connected_server h st' q' q1'.
Proof.
  intros [Hcnt (Hq & Hl & Ha) Hnew Hheap Hb] Hk.
  destruct (listener_wait fuel lib Hfuel k wait_fuel st 1 lfd 1 [slot 1] 1 2 fd _ peer q fresh bound before after garbage 0 Hs Hl Ha) as (os' & Hw & Haft);
    try done.
  set (st1 := served 1 1 2 fd peer q os' st) in *. set (nq := accepted_queue fd (posix_queue_ctor 2 NETWORK_Q)).
  destruct (served_listener 1 lfd 1 [slot 1] 1 2 peer q Hl) as [Hl1 Hth1]. set (q1 := dropped_queue 1 (served_queue 1 2 peer q)) in *.
  change (filter (.≠ slot 1) [slot 1]) with ([] : list Z) in Hl1.
  assert (Hc : conn 2 0 [] nq) by by split.
  assert (Hnq : my_queues st1 !! 2 = Some (PxObj nq)).
  { unfold st1, served, moved, my_queues. cbn. rewrite lookup_insert_ne by done. apply lookup_insert_eq. }
  destruct (conn_pop fuel lib st1 2 0 [] nq (tok 1 1) Hc eq_refl Hnq ltac:(done) (not_elem_of_nil _)) as (Hpop & Hc1 & Haw).
  set (nq1 := popping_queue 2 0 nq) in *. set (st2 := moved 2 nq1 (st_heap st1) (st_os st1) st1) in *.
  assert (Hq1 : my_queues st2 !! 1 = Some (PxObj q1)).
  { unfold st2, moved, my_queues. cbn. rewrite lookup_insert_ne by done. apply lookup_insert_eq. }
  assert (Hcnt2 : my_qd_counter st2 = 2) by exact Hcnt.
  pose proof (listener_accept fuel st2 1 lfd 1 [] q1 (tok 1 1) Hl1 Hth1 Hq1 ltac:(done) (not_elem_of_nil _) ltac:(rewrite Hcnt2; done)) as Hacc.
  destruct (accepting_listener 1 lfd 1 [] 3 q1 Hl1) as [Hl2 Ha2]; [done..|].
  set (st3 := accept_issued 1 1 q1 st2) in *.
  exists st3, nq1, (accepting_queue 1 1 3 q1). split.
  - unfold tcp_server_round. pure_step. lib_step ltac:(apply call_on_proc; exact Hw). cbn [need].
    do 3 pure_step. change (0 =? 0) with true. change (1 =? lqd _) with true. cbn iota.
    unfold tcp_server_accepted, listening_vars. tidy. do 2 pure_step. cbn [ares_qd].
    lib_step ltac:(apply lib_out_eq; exact Hpop). do 3 pure_step. lib_step ltac:(apply lib_out_eq; exact Hacc). reflexivity.
  - split.
    + split; [exact Hc1|]. split; [exact Haw|]. split; [done|]. unfold st3, accept_issued, my_queues. rewrite Hcnt2. cbn.
      rewrite !lookup_insert_ne by done. apply lookup_insert_eq.
    + split; [|by split]. unfold st3, accept_issued, my_queues. rewrite Hcnt2. cbn. rewrite lookup_insert_ne by done. apply lookup_insert_eq.
    + exact Hheap.
    + exact Haft.
Qed.

(** From [main] to the first echo. *)
Lemma server_main_ok g (stream out : OS -> list Z) answer data rest o0 h k os t garbage :
  server_saddr inet_pton g = Some saddr -> fresh k os -> (k < wait_fuel)%nat ->
  talks fd stream out answer -> (forall os, after os -> stream os = wire_message [data] ++ rest /\ out os = o0) ->
  heap_ok h -> 0 < len32 data < 2 ^ 31 - 4 -> (length data + 22 < fuel)%nat ->
  exists st' v',
    tcp_server_main (HQ := vt) lib w_heap set_w_heap inet_pton wait_fuel g 2 (mk_app (NoApi (mk_pworld h os)) t (server_vars_init garbage)) =
      Ok (inl tt) (mk_app (WithApi st') t v') /\
    out (st_os st') = o0 ++ wire_message [data] /\ stream (st_os st') = rest ++ answer (wire_message [data]) /\
    (exists p, allocated p (len32 (wire_payload [data])) h (st_heap st')) /\
    (exists q, my_queues st' !! 2 = Some (PxObj q) /\ my_fd q = fd /\ awaiting 2 3 q) /\
    tokens v' = [tok 1 2; tok 2 3] /\ sv_recved v' = 1 /\ sv_sent v' = 1.
Proof.
  intros Hg Hb Hk Htalk Haft Hh Hlen Hf.
  destruct (setup_ok h k os t garbage Hb) as (st1 & q1 & Hsetup & Hlis).
  destruct (first_round_ok h k st1 q1 t garbage Hlis Hk) as (st2 & q & q2 & Hr1 & [(Hc & Haw & Hqfd & Hq) Hl2 Hheap Ha2]).
  destruct (Haft _ Ha2) as [Hst Hout].
  destruct (server_echoes fuel lib wait_fuel ltac:(lia) 2 fd stream out answer Htalk data rest 1 q st2 1 connected_vars t) as (st' & v' & Hr2 & He).
  - split; try done; [by left|by rewrite Hheap].
  - by split.
  - done.
  - exists st', v'. split.
    + unfold tcp_server_main. rewrite Hg. erewrite sbind_Ok by exact Hsetup. cbn [rounds].
      erewrite sbind_Ok by exact Hr1. erewrite sbind_Ok by exact Hr2. reflexivity.
    + destruct He. rewrite Hheap in ec_memory. rewrite Hout in ec_out. split_and!; try done.
      destruct ec_queue as (q' & ? & ? & _ & ?). by exists q'.
Qed.
End server.

(** ** The property *)
Section properties.
Context {OS : Type} `{POS : PosixOS OS} (fuel : nat).
Abbreviation lib := (posix_libos (OS := OS)).

(** C7: the echo server, from [main] to its first echo, on the POSIX library OS:
    from a process without a library, with any address of the program's to
    bind, a peer that connects after any number of attempts to accept it and
    sends the message of [data], under a kernel that lets the server listen only
    on a socket bound to that address and accept only on one that listens, whose
    other calls succeed, whose reads deliver pieces of any size and which takes
    a write whole.  Two rounds of the loop accept the peer into the queue 2 and
    write exactly its message back to it; both are counted, the next
    connection and the peer's next message are awaited, what followed the
    message is still in the stream, and the memory is that of the process with
    one block more, the array received, which the program keeps.  One visit of
    a wait more than the attempts that find nobody suffices. *)
Theorem tcp_server_main_correct inet_pton wait_fuel lfd fd peer fresh bound before after (stream out : OS -> list Z) answer g saddr data rest o0 h k os t garbage :
  serves lfd fd (saddr_bytes saddr) peer fresh bound before after -> talks fd stream out answer -> 0 <= lfd -> 0 <= fd ->
  (forall os, after os -> stream os = wire_message [data] ++ rest /\ out os = o0) ->
  server_saddr inet_pton g = Some saddr -> fresh k os -> (k < wait_fuel)%nat ->
  heap_ok h -> 0 < len32 data < 2 ^ 31 - 4 -> (length data + 22 < fuel)%nat ->
  exists st' v',
    tcp_server_main (HQ := posix_vtable fuel) lib w_heap set_w_heap inet_pton wait_fuel g 2
      (mk_app (NoApi (mk_pworld h os)) t (server_vars_init garbage)) = Ok (inl tt) (mk_app (WithApi st') t v') /\
    out (st_os st') = o0 ++ wire_message [data] /\ stream (st_os st') = rest ++ answer (wire_message [data]) /\
    (exists p, allocated p (len32 (wire_payload [data])) h (st_heap st')) /\
    (exists q, my_queues st' !! 2 = Some (PxObj q) /\ my_fd q = fd /\ awaiting 2 3 q) /\
    tokens v' = [mk_qtoken 1 2; mk_qtoken 2 3] /\ sv_recved v' = 1 /\ sv_sent v' = 1.
Proof. intros. eapply server_main_ok; (eassumption || lia). Qed.
End properties.

(** ** Witness

    A kernel whose peer connects when it has been looked for a number of times,
    and that delivers three bytes at a time.  The stage is 0 before the socket is
    bound, 1 before it listens, then 2; a socket is bound to one address only. *)
Definition door_addr : sockaddr_in := mk_sockaddr_in AF_INET (htons 12345) INADDR_ANY 0.
Record door_kernel := mk_door_kernel { dr_stage : nat; dr_away : nat; dr_in : list Z; dr_out : list Z }.
Definition door_moves (ok : bool) (stage : nat) (k : door_kernel) : Z * Z * door_kernel :=
  if ok then (0, 0, mk_door_kernel stage (dr_away k) (dr_in k) (dr_out k)) else (-1, 22, k).
Definition door_peer : sockaddr_in := mk_sockaddr_in AF_INET 7 1 0.
#[export] Instance door_os : PosixOS door_kernel := {|
  sys_socket _ _ _ k := (5, 0, k);
  sys_getsockname _ _ k := (0, 0, [], k);
  sys_setsockopt _ _ _ _ k := (0, 0, k);
  sys_bind _ addr _ k := door_moves (bool_decide (addr = Some (saddr_bytes door_addr)) && (dr_stage k =? 0)%nat) 1 k;
  sys_listen _ _ k := door_moves (dr_stage k =? 1)%nat 2 k;
  sys_accept4 _ _ k :=
    if negb (dr_stage k =? 2)%nat then (-1, 22, sockaddr_zero, k)
    else match dr_away k with
         | O => (6, 0, door_peer, k)
         | S n => (-1, EAGAIN, sockaddr_zero, mk_door_kernel 2 n (dr_in k) (dr_out k))
         end;
  sys_connect _ _ _ k := (0, 0, k);
  sys_open _ _ _ k := (5, 0, k);
  sys_creat _ _ k := (5, 0, k);
  sys_close _ k := (0, 0, k);
  sys_fcntl _ _ _ k := (0, 0, k);
  sys_read _ len k :=
    let n := Z.to_nat (Z.min len 3) in
    (len32 (take n (dr_in k)), 0, take n (dr_in k), mk_door_kernel (dr_stage k) (dr_away k) (skipn n (dr_in k)) (dr_out k));
  sys_writev _ bss k := (len32 (concat bss), 0, mk_door_kernel (dr_stage k) (dr_away k) (dr_in k) (dr_out k ++ concat bss))
|}.
Lemma door_talks : talks 6 dr_in dr_out (fun _ => []).
Proof.
  split.
  - intros len k Hlen Hs. right. cbn [sys_read door_os dr_in]. split; [done|]. split; [|by rewrite take_drop].
    unfold len32. rewrite length_take. destruct (dr_in k); [done|]. cbn [length]. lia.
  - done.
  - intros bss k. exists 0. eexists. split; [done|]. split; [done|]. by rewrite app_nil_r.
Qed.
Lemma door_serves i o :
  serves 5 6 (saddr_bytes door_addr) door_peer (fun n k => k = mk_door_kernel 0 n i o) (fun n k => k = mk_door_kernel 1 n i o)
    (fun n k => k = mk_door_kernel 2 n i o) (fun k => k = mk_door_kernel 2 0 i o).
Proof.
  split.
  1-5: intros; subst; repeat eexists; done.
  - intros n os ->. by do 2 eexists.
  - intros os ->. do 3 eexists. split; [done|]. split; [|done]. by repeat eexists.
Qed.

Lemma tcp_server_main_correct_witness :
  let message := wire_message [demo_data] in
  exists st' v', tcp_server_main (HQ := posix_vtable 100) posix_libos w_heap set_w_heap (fun _ => None) 3 globals_init 2
      (mk_app (NoApi (mk_pworld demo_heap (mk_door_kernel 0 2 (message ++ [1; 2]) []))) 0 (server_vars_init demo_result)) =
      Ok (inl tt) (mk_app (WithApi st') 0 v') /\
    dr_out (st_os st') = message /\ dr_in (st_os st') = [1; 2] /\ tokens v' = [mk_qtoken 1 2; mk_qtoken 2 3].
Proof.
  destruct (tcp_server_main_correct (POS := door_os) 100 (fun _ => None) 3 5 6 door_peer _ _ _ _ dr_in dr_out (fun _ => []) globals_init
    door_addr demo_data [1; 2] [] demo_heap 2 (mk_door_kernel 0 2 (wire_message [demo_data] ++ [1; 2]) [])
    0 demo_result (door_serves (wire_message [demo_data] ++ [1; 2]) []) door_talks) as (st' & v' & H & Hout & Hin & _ & _ & Ht & _).
  - lia.
  - lia.
  - intros os ->. split; reflexivity.
  - reflexivity.
  - reflexivity.
  - lia.
  - apply demo_heap_ok.
  - vm_compute. split; reflexivity.
  - vm_compute. lia.
  - exists st', v'. split; [exact H|]. split; [exact Hout|]. split; [exact Hin|exact Ht].
Defined.
