(* ===== verification/RawEcho.v ===== *)
(** * The echo programs on plain sockets

    [apps/echo/posix_tcp_server.cc] and [posix_tcp_client.cc], built as
    [posix-server] and [posix-client]: the baselines the library is measured
    against.  They call the kernel themselves and share the options, the packet
    and the latency reports with the programs of [Echo].  The signal handlers
    and what goes to the console are left out.

    [exit(-1)] is [return -1]: both only occur in [main].  The loops that may
    run on have fuel. *)
From stdpp Require Import strings.
From S2P Require Import Prelude Cmd Types Memory Contents PosixOs PosixWire PosixDial Latency LatencyDump Echo EchoPosix EchoMain.
Open Scope Z_scope.
Open Scope cmd_scope.

(** ** The system calls the library does not make

    An event is what was asked for or has happened, and the descriptor it was
    registered with ([data.fd]). *)
Class RawOS (OS : Type) := {
  sys_write : Z -> list Z -> OS -> Z * Z * OS;
  sys_accept : Z -> OS -> Z * Z * OS;
  sys_epoll_create1 : Z -> OS -> Z * Z * OS;
  (** instance, operation, descriptor, event *)
  sys_epoll_ctl : Z -> Z -> Z -> Z * Z -> OS -> Z * Z * OS;
  (** instance, room, timeout: the events written *)
  sys_epoll_wait : Z -> Z -> Z -> OS -> Z * Z * list (Z * Z) * OS
}.
Definition EPOLLIN : Z := 1.
Definition EPOLLET : Z := 2147483648.
Definition EPOLL_CTL_ADD : Z := 1.
Definition EPOLL_CTL_DEL : Z := 2.

Section raw.
Context {OS : Type} `{POS : PosixOS OS} `{ROS : RawOS OS}.
Context (clock : nat -> Z) (inet_pton : list Z -> option Z) (fuel : nat) (g : globals).

Section raw_vars.
Context {V : Type}.
Abbreviation raw := (app (pworld OS) V).
Definition raw_sys {A} (f : OS -> A * OS) : stmt raw A := fun s =>
  let w := a_proc s in
  let r := f (w_os w) in
  Ok (inl (fst r)) (mk_app (mk_pworld (w_heap w) (snd r)) (a_tick s) (a_vars s)).
Definition raw_heap {A} (m : fn heap A) : fn raw A :=
  zoom (fun s => w_heap (a_proc s)) (fun h s => mk_app (mk_pworld h (w_os (a_proc s))) (a_tick s) (a_vars s)) m.
Definition raw_set (f : V -> V) : stmt raw unit := modify (fun s => mk_app (a_proc s) (a_tick s) (f (a_vars s))).
Definition raw_now : stmt raw Z := fun s => Ok (inl (clock (a_tick s))) (mk_app (a_proc s) (S (a_tick s)) (a_vars s)).
Definition raw_new_latency (name : string) : stmt raw dmtr_latency_t :=
  r <- DMTR_OK_out (dmtr_new_latency (Some None) (Some ((fun c => Z.of_N (Ascii.N_of_ascii c)) <$> String.list_ascii_of_string name))) ;
  r <- need r ;
  need r.
(** [DMTR_OK(f(...))] on a system call *)
Definition raw_ok (f : OS -> Z * Z * OS) : stmt raw unit :=
  r <- raw_sys f ;
  if fst r =? 0 then normal tt else return_ (fst r).
End raw_vars.

(** ** [posix_tcp_server.cc] *)
Record raw_server_vars := mk_raw_server_vars {
  rs_lfd : Z;
  rs_epoll_fd : Z;
  rs_ffd : Z;
  rs_pop : dmtr_latency_t;
  rs_push : dmtr_latency_t;
  rs_e2e : dmtr_latency_t;
  rs_file_log : dmtr_latency_t
}.
Definition set_rs_fds (lfd epoll_fd ffd : Z) (v : raw_server_vars) : raw_server_vars :=
  mk_raw_server_vars lfd epoll_fd ffd (rs_pop v) (rs_push v) (rs_e2e v) (rs_file_log v).
Definition set_rs_pop (l : dmtr_latency_t) (v : raw_server_vars) : raw_server_vars :=
  mk_raw_server_vars (rs_lfd v) (rs_epoll_fd v) (rs_ffd v) l (rs_push v) (rs_e2e v) (rs_file_log v).
Definition set_rs_push (l : dmtr_latency_t) (v : raw_server_vars) : raw_server_vars :=
  mk_raw_server_vars (rs_lfd v) (rs_epoll_fd v) (rs_ffd v) (rs_pop v) l (rs_e2e v) (rs_file_log v).
Definition set_rs_e2e (l : dmtr_latency_t) (v : raw_server_vars) : raw_server_vars :=
  mk_raw_server_vars (rs_lfd v) (rs_epoll_fd v) (rs_ffd v) (rs_pop v) (rs_push v) l (rs_file_log v).
Definition set_rs_file_log (l : dmtr_latency_t) (v : raw_server_vars) : raw_server_vars :=
  mk_raw_server_vars (rs_lfd v) (rs_epoll_fd v) (rs_ffd v) (rs_pop v) (rs_push v) (rs_e2e v) l.
Definition raw_server_vars_init : raw_server_vars := mk_raw_server_vars 0 0 0 latency_none latency_none latency_none latency_none.

Abbreviation server := (app (pworld OS) raw_server_vars).
(** [DMTR_OK(dmtr_record_latency(latency, dt.count()))] *)
Definition rs_record (get : raw_server_vars -> dmtr_latency_t) (set : dmtr_latency_t -> raw_server_vars -> raw_server_vars) (dt : Z) :
    stmt server unit :=
  DMTR_OK (zoom (fun s => get (a_vars s)) (fun l s => mk_app (a_proc s) (a_tick s) (set l (a_vars s))) (dmtr_record_latency false (u64 dt))).

Definition process_read (fd buf : Z) : fn server Z := body (
  t0 <- raw_now ;
  ' (ret, errno, bs) <- raw_sys (sys_read fd (packet_size g)) ;
  call (raw_heap (store_bytes buf (take (Z.to_nat ret) bs))) ;;
  t1 <- raw_now ;
  rs_record rs_pop set_rs_pop (t1 - t0) ;;
  normal (i32 ret)).

(** Writing what was read to the log file. *)
Fixpoint raw_log_loop (n : nat) (ffd buf read_ret total : Z) : stmt server unit :=
  match n with
  | O => fun _ => NoFuel
  | Datatypes.S n' =>
      bs <- call (raw_heap (load_bytes (buf + total) (read_ret - total))) ;
      ' (written, errno) <- raw_sys (sys_write ffd bs) ;
      if written <? 0 then return_ written
      else if total + written <? read_ret then raw_log_loop n' ffd buf read_ret (total + written) else normal tt
  end.

(** Writing it back.  The [continue] after an error goes on with the condition
    of this loop. *)
Fixpoint raw_echo_loop (n : nat) (fd ev buf read_ret total : Z) : stmt server unit :=
  match n with
  | O => fun _ => NoFuel
  | Datatypes.S n' =>
      bs <- call (raw_heap (load_bytes (buf + total) (read_ret - total))) ;
      ' (write_ret, errno) <- raw_sys (sys_write fd bs) ;
      total <- (if write_ret <? 0 then
                  call (raw_heap (free buf)) ;;
                  v <- gets a_vars ;
                  raw_ok (sys_epoll_ctl (rs_epoll_fd v) EPOLL_CTL_DEL fd (ev, fd)) ;;
                  raw_sys (sys_close fd) ;;
                  normal total
                else normal (total + write_ret)) ;
      if total <? read_ret then raw_echo_loop n' fd ev buf read_ret total else normal tt
  end.

(** An event of a connection. *)
Definition raw_server_ready (ev fd : Z) : stmt server unit :=
  buf <- call (raw_heap (malloc (packet_size g))) ;
  read_ret <- call (process_read fd buf) ;
  if read_ret <? 0 then
    call (raw_heap (free buf)) ;;
    v <- gets a_vars ;
    raw_ok (sys_epoll_ctl (rs_epoll_fd v) EPOLL_CTL_DEL fd (ev, fd)) ;;
    raw_sys (sys_close fd) ;;
    normal tt
  else if read_ret =? 0 then normal tt
  else
    v <- gets a_vars ;
    (if negb (0 =? rs_ffd v) then
       t0 <- raw_now ;
       raw_log_loop fuel (rs_ffd v) buf read_ret 0 ;;
       t1 <- raw_now ;
       rs_record rs_file_log set_rs_file_log (t1 - t0)
     else normal tt) ;;
    t0 <- raw_now ;
    raw_echo_loop fuel fd ev buf read_ret 0 ;;
    t1 <- raw_now ;
    rs_record rs_push set_rs_push (t1 - t0) ;;
    rs_record rs_e2e set_rs_e2e (t1 - t0) ;;
    call (raw_heap (free buf)).

(** An event of the listening socket. *)
Definition raw_server_accept : stmt server unit :=
  v <- gets a_vars ;
  ' (newfd, errno) <- raw_sys (sys_accept (rs_lfd v)) ;
  raw_ok (sys_fcntl newfd F_SETFL O_NONBLOCK) ;;
  ' (r, errno) <- raw_sys (sys_setsockopt newfd IPPROTO_TCP TCP_NODELAY 1) ;
  (if r <? 0 then return_ (-1) else normal tt) ;;
  raw_ok (sys_epoll_ctl (rs_epoll_fd v) EPOLL_CTL_ADD newfd (Z.lor EPOLLIN EPOLLET, newfd)).

(** The events in turn; the kernel writes those it counts. *)
Fixpoint raw_server_events (n : nat) (events : list (Z * Z)) : stmt server unit :=
  match n with
  | O => normal tt
  | Datatypes.S n' =>
      match events with
      | [] => undef
      | (ev, fd) :: events' =>
          v <- gets a_vars ;
          (if fd =? rs_lfd v then raw_server_accept else raw_server_ready ev fd) ;;
          raw_server_events n' events'
      end
  end.
Definition raw_server_round : stmt server unit :=
  v <- gets a_vars ;
  ' (event_count, errno, events) <- raw_sys (sys_epoll_wait (rs_epoll_fd v) 10 (-1)) ;
  raw_server_events (Z.to_nat event_count) events.

Definition raw_server_setup (saddr : sockaddr_in) : stmt server unit :=
  l <- raw_new_latency "server pop" ; raw_set (set_rs_pop l) ;;
  l <- raw_new_latency "server push" ; raw_set (set_rs_push l) ;;
  l <- raw_new_latency "server end-to-end" ; raw_set (set_rs_e2e l) ;;
  l <- raw_new_latency "file log server" ; raw_set (set_rs_file_log l) ;;
  ' (lfd, errno) <- raw_sys (sys_socket AF_INET SOCK_STREAM 0) ;
  raw_set (set_rs_fds lfd 0 0) ;;
  raw_ok (sys_fcntl lfd F_SETFL O_NONBLOCK) ;;
  ' (r, errno) <- raw_sys (sys_setsockopt lfd IPPROTO_TCP TCP_NODELAY 1) ;
  (if r <? 0 then return_ (-1) else normal tt) ;;
  raw_ok (sys_bind lfd (Some (saddr_bytes saddr)) 16) ;;
  raw_sys (sys_listen lfd 3) ;;
  ' (epoll_fd, errno) <- raw_sys (sys_epoll_create1 0) ;
  raw_set (set_rs_fds lfd epoll_fd 0) ;;
  raw_ok (sys_epoll_ctl epoll_fd EPOLL_CTL_ADD lfd (EPOLLIN, lfd)) ;;
  match file g with
  | None => normal tt
  | Some path =>
      ' (ffd, errno) <- raw_sys (sys_open path O_LOG (Some MODE_LOG)) ;
      raw_set (set_rs_fds lfd epoll_fd ffd)
  end.
Definition raw_server_main (n : nat) : stmt server unit :=
  match server_saddr inet_pton g with
  | None => return_ (-1)
  | Some saddr => raw_server_setup saddr ;; rounds n raw_server_round
  end.

(** ** [posix_tcp_client.cc]: the buffer is on the stack *)
Record raw_client_vars := mk_raw_client_vars {
  rc_fd : Z;
  rc_buf : list Z;
  rc_latency : dmtr_latency_t
}.
Definition set_rc_fd (fd : Z) (v : raw_client_vars) : raw_client_vars := mk_raw_client_vars fd (rc_buf v) (rc_latency v).
Definition set_rc_buf (b : list Z) (v : raw_client_vars) : raw_client_vars := mk_raw_client_vars (rc_fd v) b (rc_latency v).
Definition set_rc_latency (l : dmtr_latency_t) (v : raw_client_vars) : raw_client_vars := mk_raw_client_vars (rc_fd v) (rc_buf v) l.
Definition raw_client_vars_init : raw_client_vars := mk_raw_client_vars 0 [] latency_none.

Abbreviation client := (app (pworld OS) raw_client_vars).
Abbreviation size := (packet_size g).
(** Bytes written to an array at an index. *)
Definition buf_write (at_ : Z) (bs buf : list Z) : list Z :=
  take (Z.to_nat at_) buf ++ bs ++ drop (Z.to_nat at_ + length bs) buf.

Fixpoint raw_write_loop (n : nat) (bytes_written : Z) : stmt client unit :=
  match n with
  | O => fun _ => NoFuel
  | Datatypes.S n' =>
      if bytes_written <? i32 size then
        v <- gets a_vars ;
        let bs := take (Z.to_nat (size - bytes_written)) (drop (Z.to_nat bytes_written) (rc_buf v)) in
        ' (res, errno) <- raw_sys (sys_write (rc_fd v) bs) ;
        let ret := i32 res in
        if ret <? 0 then return_ (-1) else raw_write_loop n' (bytes_written + ret)
      else normal tt
  end.
Fixpoint raw_read_loop (n : nat) (bytes_read : Z) : stmt client unit :=
  match n with
  | O => fun _ => NoFuel
  | Datatypes.S n' =>
      if bytes_read <? i32 size then
        v <- gets a_vars ;
        ' (res, errno, bs) <- raw_sys (sys_read (rc_fd v) (size - bytes_read)) ;
        let ret := i32 res in
        raw_set (set_rc_buf (buf_write bytes_read (take (Z.to_nat ret) bs) (rc_buf v))) ;;
        if ret <? 0 then return_ (-1) else raw_read_loop n' (bytes_read + ret)
      else normal tt
  end.
(** [buf[packet_size - 1] = 0] *)
Definition raw_terminate : stmt client unit :=
  raw_set (fun v => set_rc_buf (<[Z.to_nat (u32 (size - 1)) := 0]> (rc_buf v)) v).
Definition rc_record (dt : Z) : stmt client unit :=
  DMTR_OK (zoom (fun s => rc_latency (a_vars s)) (fun l s => mk_app (a_proc s) (a_tick s) (set_rc_latency l (a_vars s)))
    (dmtr_record_latency false (u64 dt))).
Definition raw_client_round : stmt client unit :=
  t0 <- raw_now ;
  rounds (Z.to_nat (clients g)) (raw_write_loop fuel 0) ;;
  rounds (Z.to_nat (clients g)) (raw_read_loop fuel 0) ;;
  t1 <- raw_now ;
  rc_record (t1 - t0) ;;
  raw_terminate.

Definition raw_client_setup : stmt client unit :=
  s <- need (server_ip_addr g) ;
  match inet_pton s with
  | None => return_ (-1)
  | Some a =>
      let saddr := mk_sockaddr_in AF_INET (htons (port g)) a 0 in
      l <- raw_new_latency "end-to-end" ;
      raw_set (set_rc_latency l) ;;
      ' (fd, errno) <- raw_sys (sys_socket AF_INET SOCK_STREAM 0) ;
      raw_set (set_rc_fd fd) ;;
      ' (r, errno) <- raw_sys (sys_setsockopt fd IPPROTO_TCP TCP_NODELAY 1) ;
      (if r <? 0 then return_ (-1) else normal tt) ;;
      raw_ok (sys_connect fd (Some (saddr_bytes saddr)) 16) ;;
(* an array of no bytes is undefined *)
      _ <- need (if size =? 0 then None else Some tt) ;
      raw_set (set_rc_buf (replicate (Z.to_nat size) FILL_CHAR)) ;;
      raw_terminate
  end.
Definition raw_client_finish : stmt client (list string) :=
  v <- gets a_vars ;
  raw_sys (sys_close (rc_fd v)) ;;
  DMTR_OK_out (zoom (fun s => rc_latency (a_vars s)) (fun l s => mk_app (a_proc s) (a_tick s) (set_rc_latency l (a_vars s)))
    (dmtr_dump_latency false false)).
Definition raw_client_main : stmt client (list string) :=
  raw_client_setup ;;
  rounds (Z.to_nat (iterations g)) raw_client_round ;;
  raw_client_finish.
End raw.

(** ** Steps *)
Section steps.
Context {OS V : Type}.
Implicit Types s : app (pworld OS) V.
Definition with_os (os : OS) s : app (pworld OS) V := mk_app (mk_pworld (w_heap (a_proc s)) os) (a_tick s) (a_vars s).
Definition with_heap (h : heap) s : app (pworld OS) V := mk_app (mk_pworld h (w_os (a_proc s))) (a_tick s) (a_vars s).
Definition with_vars (v : V) s : app (pworld OS) V := mk_app (a_proc s) (a_tick s) v.
Definition with_tick (t : nat) s : app (pworld OS) V := mk_app (a_proc s) t (a_vars s).
Lemma raw_sys_eq {A} (f : OS -> A * OS) a os' s : f (w_os (a_proc s)) = (a, os') -> raw_sys f s = Ok (inl a) (with_os os' s).
Proof. intros E. unfold raw_sys. cbn. by rewrite E. Qed.
Lemma raw_ok_eq (f : OS -> Z * Z * OS) e os' s : f (w_os (a_proc s)) = (0, e, os') -> raw_ok f s = Ok (inl tt) (with_os os' s).
Proof. intros E. unfold raw_ok. erewrite sbind_Ok by (by apply raw_sys_eq). done. Qed.
Lemma raw_heap_eq {A} (m : fn heap A) a h' s :
  m (w_heap (a_proc s)) = Ok a h' -> call (raw_heap m) s = Ok (inl a) (with_heap h' s).
Proof. intros E. unfold call, raw_heap, zoom, fbind. by rewrite E. Qed.
End steps.

(** The kernel delivers to the connection [fd] what is written to it; reads
    and writes may be short. *)
Record echoes_back {OS} `{PosixOS OS} `{RawOS OS} (fd : Z) (stream out : OS -> list Z) : Prop := {
  eb_write : forall bs os, bs <> [] -> exists n errno os', sys_write fd bs os = (n, errno, os') /\ 0 < n <= len32 bs /\
    out os' = out os ++ take (Z.to_nat n) bs /\ stream os' = stream os ++ take (Z.to_nat n) bs;
  eb_read : forall len os, 0 < len -> stream os <> [] -> exists n errno os',
    sys_read fd len os = (n, errno, take (Z.to_nat n) (stream os), os') /\ 0 < n <= Z.min len (len32 (stream os)) /\
    stream os' = drop (Z.to_nat n) (stream os) /\ out os' = out os
}.

Section client.
Context {OS : Type} `{POS : PosixOS OS} `{ROS : RawOS OS}.
Context (clock : nat -> Z) (inet_pton : list Z -> option Z) (fuel : nat) (g : globals).
Context (fd : Z) (stream out : OS -> list Z) (Hecho : echoes_back fd stream out).
Abbreviation size := (packet_size g).
Abbreviation n0 := (Z.to_nat size).
Context (Hsize : 1 <= size < 2 ^ 31) (Hfuel : (n0 < fuel)%nat).
Implicit Types s : app (pworld OS) raw_client_vars.

Lemma size_i32 : i32 size = size.
Proof. apply swrap_small; [lia|]. change (2 ^ (32 - 1)) with (2 ^ 31). lia. Qed.
Lemma count_i32 n : 0 < n <= size -> i32 n = n.
Proof. intros. apply swrap_small; [lia|]. change (2 ^ (32 - 1)) with (2 ^ 31). lia. Qed.

(** The rest of the packet is written, in pieces. *)
Lemma raw_write_ok n k s :
  rc_fd (a_vars s) = fd -> length (rc_buf (a_vars s)) = n0 -> (k <= n0)%nat -> (n0 - k < n)%nat ->
  exists os', raw_write_loop g n (Z.of_nat k) s = Ok (inl tt) (with_os os' s) /\
    out os' = out (w_os (a_proc s)) ++ drop k (rc_buf (a_vars s)) /\ stream os' = stream (w_os (a_proc s)) ++ drop k (rc_buf (a_vars s)).
Proof.
  intros Hfd Hlen. revert k s Hfd Hlen. induction n as [|n IH]; intros k s Hfd Hlen Hk Hn; [lia|]. cbn [raw_write_loop]. rewrite size_i32.
  destruct (Z.of_nat k <? size) eqn:E; zbool.
  - erewrite sbind_Ok by reflexivity. rewrite Nat2Z.id, Hfd. set (rest := drop k (rc_buf (a_vars s))).
    assert (Hrest : length rest = (n0 - k)%nat) by (unfold rest; rewrite length_drop; lia).
    rewrite take_ge by lia. destruct (eb_write _ _ _ Hecho rest (w_os (a_proc s))) as (m & e & os1 & Hw & Hm & Ho & Hs).
    { intros E'. rewrite E' in Hrest. cbn in Hrest. lia. }
    unfold len32 in Hm. erewrite sbind_Ok by (apply raw_sys_eq; exact Hw). cbv beta iota zeta. rewrite count_i32 by lia.
    rewrite (proj2 (Z.ltb_ge _ _)) by lia. replace (Z.of_nat k + m) with (Z.of_nat (k + Z.to_nat m)) by lia.
    destruct (IH (k + Z.to_nat m)%nat (with_os os1 s)) as (os2 & H2 & Ho2 & Hs2); [done|done|lia|lia|].
    exists os2. split; [by rewrite H2|]. cbn [with_os a_proc w_os a_vars] in Ho2, Hs2.
    rewrite Ho2, Hs2, Ho, Hs, <- !app_assoc, <- drop_drop. fold rest. by rewrite take_drop.
  - exists (w_os (a_proc s)). split; [by destruct s as [[]]|]. rewrite drop_ge by lia. by rewrite !app_nil_r.
Qed.

(** The rest of a packet is read, in pieces. *)
Lemma raw_read_ok n k packet rest s :
  rc_fd (a_vars s) = fd -> length packet = n0 -> (k <= n0)%nat -> (n0 - k < n)%nat ->
  length (rc_buf (a_vars s)) = n0 -> take k (rc_buf (a_vars s)) = take k packet -> stream (w_os (a_proc s)) = drop k packet ++ rest ->
  exists os', raw_read_loop g n (Z.of_nat k) s = Ok (inl tt) (with_vars (set_rc_buf packet (a_vars s)) (with_os os' s)) /\
    out os' = out (w_os (a_proc s)) /\ stream os' = rest.
Proof.
  intros Hfd Hlen. revert k s Hfd. induction n as [|n IH]; intros k s Hfd Hk Hn Hbuf Hpre Hst; [lia|]. cbn [raw_read_loop]. rewrite size_i32.
  destruct (Z.of_nat k <? size) eqn:E; zbool.
  - erewrite sbind_Ok by reflexivity. rewrite Hfd. set (os := w_os (a_proc s)) in *.
    assert (Hrest : length (drop k packet) = (n0 - k)%nat) by (rewrite length_drop; lia).
    assert (Hmin : (n0 - k <= length (stream os))%nat) by (rewrite Hst, length_app; lia).
    destruct (eb_read _ _ _ Hecho (size - Z.of_nat k) os) as (m & e & os1 & Hr & Hm & Hs & Ho); [lia|intros E'; rewrite E' in Hmin; cbn in Hmin; lia|].
    unfold len32 in Hm. erewrite sbind_Ok by (apply raw_sys_eq; exact Hr). cbv beta iota zeta. rewrite count_i32 by lia.
    rewrite (proj2 (Z.ltb_ge m 0)) by lia. erewrite sbind_Ok by reflexivity.
    rewrite take_take, Nat.min_id. replace (Z.of_nat k + m) with (Z.of_nat (k + Z.to_nat m)) by lia.
    assert (Htk : take (Z.to_nat m) (stream os) = take (Z.to_nat m) (drop k packet)) by (rewrite Hst, take_app_le by lia; done).
    set (buf := buf_write (Z.of_nat k) (take (Z.to_nat m) (stream os)) (rc_buf (a_vars s))).
    assert (Hb1 : take (k + Z.to_nat m) buf = take (k + Z.to_nat m) packet).
    { unfold buf, buf_write. rewrite Nat2Z.id, Hpre, Htk, app_assoc, take_app_le; cycle 1.
      { rewrite length_app, !length_take, Hrest. lia. }
      rewrite take_take_drop. apply take_ge. rewrite length_take. lia. }
    assert (Hb2 : length buf = n0).
    { unfold buf, buf_write. rewrite Nat2Z.id, Htk, !length_app, length_drop, !length_take, Hrest. lia. }
    set (s1 := mk_app _ _ _).
    destruct (IH (k + Z.to_nat m)%nat s1) as (os2 & H2 & Ho2 & Hs2); [done|lia|lia|done|done| |].
    { cbn. rewrite Hs, Hst, drop_app_le by lia. by rewrite drop_drop. }
    exists os2. split; [by rewrite H2|]. split; [by rewrite Ho2|done].
  - assert (k = n0) as -> by lia. rewrite !take_ge in Hpre by lia. rewrite drop_ge in Hst by lia.
    exists (w_os (a_proc s)). split; [|done]. rewrite <- Hpre. by destruct s as [[] ? []].
Qed.

Abbreviation packet := (packet_of size).
Lemma length_packet : length packet = n0.
Proof. pose proof (packet_length size ltac:(lia)) as H. unfold len32 in H. lia. Qed.
Lemma terminate_packet : <[Z.to_nat (u32 (size - 1)) := 0]> packet = packet.
Proof.
  change (2 ^ 31) with 2147483648 in Hsize. rewrite wrap_small by (change (2 ^ 32) with 4294967296; lia).
  apply list_insert_id. unfold packet_of. rewrite lookup_app_r by (rewrite length_replicate; lia). by rewrite length_replicate, Nat.sub_diag.
Qed.
Lemma terminate_fill : <[Z.to_nat (u32 (size - 1)) := 0]> (replicate n0 FILL_CHAR) = packet.
Proof.
  change (2 ^ 31) with 2147483648 in Hsize. rewrite wrap_small by (change (2 ^ 32) with 4294967296; lia).
  replace n0 with (Z.to_nat (size - 1) + 1)%nat by lia. rewrite replicate_add. unfold packet_of.
  rewrite insert_app_r_alt by (rewrite length_replicate; lia). by rewrite length_replicate, Nat.sub_diag.
Qed.

Lemma raw_writes_ok c s :
  rc_fd (a_vars s) = fd -> rc_buf (a_vars s) = packet ->
  exists os', rounds c (raw_write_loop g fuel 0) s = Ok (inl tt) (with_os os' s) /\
    out os' = out (w_os (a_proc s)) ++ concat (replicate c packet) /\
    stream os' = stream (w_os (a_proc s)) ++ concat (replicate c packet).
Proof.
  revert s. induction c as [|c IH]; intros s Hfd Hb.
  - exists (w_os (a_proc s)). rewrite !app_nil_r. split; [by destruct s as [[]]|done].
  - destruct (raw_write_ok fuel 0 s Hfd ltac:(rewrite Hb; apply length_packet) ltac:(lia) ltac:(lia)) as (os1 & H1 & Ho & Hs).
    destruct (IH (with_os os1 s) Hfd Hb) as (os2 & H2 & Ho2 & Hs2). cbn [rounds]. erewrite sbind_Ok by exact H1. rewrite H2.
    exists os2. cbn [with_os a_proc w_os] in Ho2, Hs2. rewrite Ho2, Hs2, Ho, Hs, Hb, <- !app_assoc. done.
Qed.
Lemma raw_reads_ok c rest s :
  rc_fd (a_vars s) = fd -> rc_buf (a_vars s) = packet -> stream (w_os (a_proc s)) = concat (replicate c packet) ++ rest ->
  exists os', rounds c (raw_read_loop g fuel 0) s = Ok (inl tt) (with_os os' s) /\
    out os' = out (w_os (a_proc s)) /\ stream os' = rest.
Proof.
  revert s. induction c as [|c IH]; intros s Hfd Hb Hs.
  - exists (w_os (a_proc s)). split; [by destruct s as [[]]|done].
  - cbn [replicate concat] in Hs. rewrite <- app_assoc in Hs.
    destruct (raw_read_ok fuel 0 packet (concat (replicate c packet) ++ rest) s Hfd length_packet ltac:(lia) ltac:(lia)
      ltac:(rewrite Hb; apply length_packet) eq_refl Hs) as (os1 & H1 & Ho & Hs1).
    assert (Hv : set_rc_buf packet (a_vars s) = a_vars s) by (rewrite <- Hb; by destruct (a_vars s)).
    destruct (IH (with_os os1 s) Hfd Hb Hs1) as (os2 & H2 & Ho2 & Hs2). cbn [rounds]. erewrite sbind_Ok by exact H1.
    rewrite Hv. change (with_vars (a_vars s) (with_os os1 s)) with (with_os os1 s). rewrite H2.
    exists os2. split; [done|]. split; [by rewrite Ho2|done].
Qed.

(** One iteration, and all of them. *)
Lemma raw_round_ok name xs h os t :
  stream os = [] ->
  exists os', raw_client_round clock fuel g (mk_app (mk_pworld h os) t (mk_raw_client_vars fd packet (latency_of name xs))) =
      Ok (inl tt) (mk_app (mk_pworld h os') (S (S t)) (mk_raw_client_vars fd packet (latency_of name (sample clock (S t) xs)))) /\
    out os' = out os ++ concat (replicate (Z.to_nat (clients g)) packet) /\ stream os' = [].
Proof.
  intros Hs. unfold raw_client_round. erewrite sbind_Ok by reflexivity. cbn [a_proc a_tick a_vars]. set (s1 := mk_app _ _ _).
  destruct (raw_writes_ok (Z.to_nat (clients g)) s1 eq_refl eq_refl) as (os1 & H1 & Ho1 & Hs1).
  destruct (raw_reads_ok (Z.to_nat (clients g)) [] (with_os os1 s1) eq_refl eq_refl) as (os2 & H2 & Ho2 & Hs2).
  { change (stream os1 = concat (replicate (Z.to_nat (clients g)) packet) ++ []). rewrite Hs1. cbn. by rewrite Hs, app_nil_r. }
  erewrite sbind_Ok by exact H1. erewrite sbind_Ok by exact H2. erewrite sbind_Ok by reflexivity.
  erewrite sbind_Ok.
  2: { unfold rc_record, DMTR_OK, zoom, fbind. cbn [a_vars rc_latency with_os s1]. rewrite dmtr_record_latency_eq by (apply wrap_range; lia); reflexivity. }
  unfold raw_terminate, raw_set, modify. cbn [a_vars with_os s1 rc_buf set_rc_latency set_rc_buf a_proc a_tick rc_fd rc_latency w_heap w_os].
  rewrite terminate_packet. exists os2. split; [done|]. split; [|done]. rewrite Ho2. cbn [with_os a_proc w_os]. exact Ho1.
Qed.
Lemma raw_rounds_ok name k xs h os t :
  stream os = [] ->
  exists os', rounds k (raw_client_round clock fuel g) (mk_app (mk_pworld h os) t (mk_raw_client_vars fd packet (latency_of name xs))) =
      Ok (inl tt) (mk_app (mk_pworld h os') (k + k + t) (mk_raw_client_vars fd packet (latency_of name (samples clock k (S t) xs)))) /\
    out os' = out os ++ concat (replicate (k * Z.to_nat (clients g)) packet) /\ stream os' = [].
Proof.
  revert xs os t. induction k as [|k IH]; intros xs os t Hs.
  - exists os. cbn. by rewrite app_nil_r.
  - destruct (raw_round_ok name xs h os t Hs) as (os1 & H1 & Ho1 & Hs1). destruct (IH (sample clock (S t) xs) os1 (S (S t)) Hs1) as (os2 & H2 & Ho2 & Hs2).
    exists os2. cbn [rounds samples]. erewrite sbind_Ok by exact H1. rewrite H2.
    replace (k + k + S (S t))%nat with (S k + S k + t)%nat by lia. split; [done|]. split; [|done].
    rewrite Ho2, Ho1, <- app_assoc. f_equal. cbn [Nat.mul]. by rewrite replicate_add, concat_app.
Qed.

(** The kernel makes the calls that open and close the connection; what has
    arrived and what was sent is none of their business. *)
Record opens (seen : OS -> OS -> Prop) : Prop := {
  op_socket : forall os, exists errno os', sys_socket AF_INET SOCK_STREAM 0 os = (fd, errno, os') /\ seen os os';
  op_setsockopt : forall os, exists errno os', sys_setsockopt fd IPPROTO_TCP TCP_NODELAY 1 os = (0, errno, os') /\ seen os os';
  op_connect : forall addr os, exists errno os', sys_connect fd (Some addr) 16 os = (0, errno, os') /\ seen os os';
  op_close : forall os, exists errno os', sys_close fd os = (0, errno, os') /\ seen os os'
}.

(** The whole client. *)
Lemma raw_client_main_ok h server addr os0 :
  opens (same_traffic stream out) -> 0 <= fd -> server_ip_addr g = Some server -> inet_pton server = Some addr ->
  iterations g < 2 ^ 32 -> stream os0 = [] ->
  exists lines l' t' v' os',
    raw_client_main clock inet_pton fuel g (mk_app (mk_pworld h os0) 0 raw_client_vars_init) = Ok (inl lines) (mk_app (mk_pworld h os') t' v') /\
    dmtr_dump_latency false false (latency_of latency_name (samples clock (Z.to_nat (iterations g)) 1 [])) = Ok (0, lines) l' /\
    out os' = out os0 ++ concat (replicate (Z.to_nat (iterations g) * Z.to_nat (clients g)) packet) /\ stream os' = [].
Proof.
  intros Hd Hfd Hserver Haddr Hit Hs0. destruct (op_socket _ Hd os0) as (e1 & os1 & H1 & S1 & O1).
  destruct (op_setsockopt _ Hd os1) as (e2 & os2 & H2 & S2 & O2).
  set (saddr := mk_sockaddr_in AF_INET (htons (port g)) addr 0).
  destruct (op_connect _ Hd (saddr_bytes saddr) os2) as (e3 & os3 & H3 & S3 & O3).
  assert (Hs3 : stream os3 = []) by congruence.
  destruct (raw_rounds_ok latency_name (Z.to_nat (iterations g)) [] h os3 0 Hs3) as (os4 & H4 & O4 & S4).
  destruct (op_close _ Hd os4) as (e5 & os5 & H5 & S5 & O5).
  destruct (latency_dump_total latency_name (samples clock (Z.to_nat (iterations g)) 1 [])) as (lines & l' & Hdump).
  { by apply samples_range. }
  { pose proof (samples_length clock (Z.to_nat (iterations g)) 1 []) as H. change (2 ^ 32) with 4294967296 in *. cbn [length] in H. lia. }
  exists lines, l'. do 2 eexists. exists os5. split; [|split; [exact Hdump|split; [|congruence]]].
  - unfold raw_client_main. erewrite sbind_Ok.
    2: { unfold raw_client_setup. rewrite Hserver. erewrite sbind_Ok by reflexivity. rewrite Haddr. fold saddr. do 2 erewrite sbind_Ok by reflexivity.
      erewrite sbind_Ok by (apply raw_sys_eq; exact H1). cbv beta iota. erewrite sbind_Ok by reflexivity.
      erewrite sbind_Ok by (apply raw_sys_eq; exact H2). cbv beta iota. change (0 <? 0) with false. erewrite sbind_Ok by reflexivity.
      erewrite sbind_Ok by (eapply raw_ok_eq; exact H3). rewrite (proj2 (Z.eqb_neq size 0)) by lia. erewrite sbind_Ok by reflexivity.
      erewrite sbind_Ok by reflexivity. unfold raw_terminate, raw_set, modify. cbn. rewrite terminate_fill. reflexivity. }
    erewrite sbind_Ok by exact H4. unfold raw_client_finish. erewrite sbind_Ok by reflexivity.
    erewrite sbind_Ok by (apply raw_sys_eq; exact H5). unfold DMTR_OK_out, zoom, fbind. cbn [with_os a_vars rc_latency]. rewrite Hdump. reflexivity.
  - by rewrite O5, O4, O3, O2, O1.
Qed.
End client.

(** ** The server *)

(** Writes to the connection and to the log file append to what they hold. *)
Record raw_sinks {OS} `{RawOS OS} (fd ffd : Z) (out log : OS -> list Z) : Prop := {
  rk_write : forall bs os, bs <> [] -> exists n errno os', sys_write fd bs os = (n, errno, os') /\ 0 < n <= len32 bs /\
    out os' = out os ++ take (Z.to_nat n) bs /\ log os' = log os;
  rk_log : ffd <> 0 -> forall bs os, bs <> [] -> exists n errno os', sys_write ffd bs os = (n, errno, os') /\ 0 < n <= len32 bs /\
    log os' = log os ++ take (Z.to_nat n) bs /\ out os' = out os
}.

Section server.
Context {OS : Type} `{POS : PosixOS OS} `{ROS : RawOS OS}.
Context (clock : nat -> Z) (fuel : nat) (g : globals).
Implicit Types s : app (pworld OS) raw_server_vars.

Lemma load_rest h buf data k :
  holds h buf data -> (k < length data)%nat ->
  load_bytes (buf + Z.of_nat k) (len32 data - Z.of_nat k) h = Ok (drop k data) h.
Proof.
  intros Hh Hk. apply holds_load_n; [|unfold len32; rewrite length_drop; lia].
  rewrite <- (take_drop k data) in Hh. apply holds_app_r in Hh. unfold len32 in Hh. rewrite length_take in Hh.
  by replace (Z.of_nat (k `min` length data)) with (Z.of_nat k) in Hh by lia.
Qed.
Lemma drop_some k (data : list Z) : (k < length data)%nat -> drop k data <> [].
Proof. intros Hk E. apply (f_equal length) in E. rewrite length_drop in E. cbn in E. lia. Qed.

Section sinks.
Context (fd ffd : Z) (out log : OS -> list Z) (Hsinks : raw_sinks fd ffd out log).

Lemma raw_echo_ok n ev buf data k s :
  holds (w_heap (a_proc s)) buf data -> (k < length data)%nat -> (length data - k <= n)%nat ->
  exists os', raw_echo_loop n fd ev buf (len32 data) (Z.of_nat k) s = Ok (inl tt) (with_os os' s) /\
    out os' = out (w_os (a_proc s)) ++ drop k data /\ log os' = log (w_os (a_proc s)).
Proof.
  revert k s. induction n as [|n IH]; intros k s Hh Hk Hn; [lia|]. cbn [raw_echo_loop].
  erewrite sbind_Ok by (apply raw_heap_eq; by apply load_rest). 
  destruct (rk_write _ _ _ _ Hsinks (drop k data) (w_os (a_proc s)) (drop_some k data Hk)) as (m & e & os1 & Hw & Hm & Ho & Hl).
  unfold len32 in Hm. rewrite length_drop in Hm. erewrite sbind_Ok by (apply raw_sys_eq; exact Hw). cbv beta iota.
  rewrite (proj2 (Z.ltb_ge m 0)) by lia. erewrite sbind_Ok by reflexivity.
  replace (Z.of_nat k + m) with (Z.of_nat (k + Z.to_nat m)) by lia. set (s1 := with_os os1 _).
  destruct (Z.of_nat (k + Z.to_nat m) <? len32 data) eqn:E; zbool; unfold len32 in E.
  - destruct (IH (k + Z.to_nat m)%nat s1) as (os2 & H2 & Ho2 & Hl2); [done|lia|lia|]. exists os2. split; [by rewrite H2|].
    cbn in Ho2, Hl2. rewrite Ho2, Hl2, Ho, <- app_assoc, <- drop_drop, take_drop. done.
  - exists os1. split; [by destruct s as [[]]|]. split; [|done]. rewrite Ho, take_ge; [done|]. rewrite length_drop. lia.
Qed.
Lemma raw_log_ok n buf data k s :
  ffd <> 0 -> holds (w_heap (a_proc s)) buf data -> (k < length data)%nat -> (length data - k <= n)%nat ->
  exists os', raw_log_loop n ffd buf (len32 data) (Z.of_nat k) s = Ok (inl tt) (with_os os' s) /\
    log os' = log (w_os (a_proc s)) ++ drop k data /\ out os' = out (w_os (a_proc s)).
Proof.
  intros Hffd. revert k s. induction n as [|n IH]; intros k s Hh Hk Hn; [lia|]. cbn [raw_log_loop].
  erewrite sbind_Ok by (apply raw_heap_eq; by apply load_rest).
  destruct (rk_log _ _ _ _ Hsinks Hffd (drop k data) (w_os (a_proc s)) (drop_some k data Hk)) as (m & e & os1 & Hw & Hm & Ho & Hl).
  unfold len32 in Hm. rewrite length_drop in Hm. erewrite sbind_Ok by (apply raw_sys_eq; exact Hw). cbv beta iota.
  rewrite (proj2 (Z.ltb_ge m 0)) by lia.
  replace (Z.of_nat k + m) with (Z.of_nat (k + Z.to_nat m)) by lia. set (s1 := with_os os1 _).
  destruct (Z.of_nat (k + Z.to_nat m) <? len32 data) eqn:E; zbool; unfold len32 in E.
  - destruct (IH (k + Z.to_nat m)%nat s1) as (os2 & H2 & Ho2 & Hl2); [done|lia|lia|]. exists os2. split; [by rewrite H2|].
    cbn in Ho2, Hl2. rewrite Ho2, Hl2, Ho, <- app_assoc, <- drop_drop, take_drop. done.
  - exists os1. split; [by destruct s as [[]]|]. split; [|done]. rewrite Ho, take_ge; [done|]. rewrite length_drop. lia.
Qed.

(** One more reading in a distribution. *)
Definition lat_add (dt : Z) (xs : list Z) : list Z := if u64 dt =? 0 then xs else xs ++ [u64 dt].
Lemma rs_record_eq get set dt name xs s :
  get (a_vars s) = latency_of name xs ->
  rs_record get set dt s = Ok (inl tt) (with_vars (set (latency_of name (lat_add dt xs)) (a_vars s)) s).
Proof.
  intros E. unfold rs_record, DMTR_OK, zoom, fbind. rewrite E, dmtr_record_latency_eq by (apply wrap_range; lia). reflexivity.
Qed.

Lemma process_read_eq h os t v buf n e bs os1 h2 name xs :
  sys_read fd (packet_size g) os = (n, e, bs, os1) -> -1 <= n < 2 ^ 31 -> store_bytes buf (take (Z.to_nat n) bs) h = Ok tt h2 ->
  rs_pop v = latency_of name xs ->
  process_read clock g fd buf (mk_app (mk_pworld h os) t v) =
    Ok n (mk_app (mk_pworld h2 os1) (S (S t)) (set_rs_pop (latency_of name (lat_add (clock (S t) - clock t) xs)) v)).
Proof.
  intros Hr Hn Hst Hl. unfold process_read, body, fbind. erewrite sbind_Ok by reflexivity.
  erewrite sbind_Ok by (apply raw_sys_eq; exact Hr). cbv beta iota. erewrite sbind_Ok by (apply raw_heap_eq; exact Hst).
  erewrite sbind_Ok by reflexivity. erewrite sbind_Ok by (eapply rs_record_eq; exact Hl).
  unfold normal, fret. cbn. rewrite swrap_small by (change (2 ^ (32 - 1)) with (2 ^ 31); lia). reflexivity.
Qed.

(** What the buffer of an event holds once it was read into. *)
Lemma event_buffer h data :
  heap_ok h -> len32 data <= packet_size g -> exists h1 h2,
    malloc (packet_size g) h = Ok (h_brk h) h1 /\ store_bytes (h_brk h) data h1 = Ok tt h2 /\
    holds h2 (h_brk h) data /\ allocated (h_brk h) (packet_size g) h h2.
Proof.
  intros (Hoom & Hbrk & Hfr) Hlen. pose proof (allocated_malloc h (packet_size g)) as Hal. cbv zeta in Hal. set (h1 := mk_heap _ _ _ _) in Hal.
  destruct (store_mapped h1 (h_brk h) data) as (h2 & Hst & Hh2 & Hout).
  { intros x Hx. cbn. rewrite alloc_cells_lookup, decide_True by lia. by eexists. }
  exists h1, h2. split; [by apply malloc_eq|]. split; [done|]. split; [done|].
  destruct (store_bytes_rest _ _ _ _ Hst) as [Hb2 Ho2]. assert (0 <= len32 data) by (unfold len32; lia).
  eapply allocated_store; [exact Hal| |reflexivity|by apply Zplus_le_compat_l| |done|done].
  - intros x Hx. apply (proj1 Hout). lia.
  - unfold store_bytes in Hst. destruct (store_cells _ _ _); [|done]. by injection Hst as <-.
Qed.

(** The event of a connection that has bytes to read. *)
Lemma raw_server_ready_ok h os os1 t v ev data e pn pxs un uxs en exs fn fxs :
  heap_ok h -> (length data <= fuel)%nat -> packet_size g < 2 ^ 31 -> 0 < len32 data <= packet_size g ->
  sys_read fd (packet_size g) os = (len32 data, e, data, os1) -> out os1 = out os -> log os1 = log os -> rs_ffd v = ffd ->
  rs_pop v = latency_of pn pxs -> rs_push v = latency_of un uxs -> rs_e2e v = latency_of en exs -> rs_file_log v = latency_of fn fxs ->
  exists h' os' t' v', raw_server_ready clock fuel g ev fd (mk_app (mk_pworld h os) t v) = Ok (inl tt) (mk_app (mk_pworld h' os') (S (S t')) v') /\
    out os' = out os ++ data /\ log os' = log os ++ (if 0 =? ffd then [] else data) /\
    h_cells h' = h_cells h /\ h_blocks h' = h_blocks h /\ rs_ffd v' = ffd /\
    rs_pop v' = latency_of pn (lat_add (clock (S t) - clock t) pxs) /\
    rs_push v' = latency_of un (lat_add (clock (S t') - clock t') uxs) /\ rs_e2e v' = latency_of en (lat_add (clock (S t') - clock t') exs).
Proof.
  intros Hh Hfuel Hsz Hlen Hr Ho1 Hl1 Hffd Hp Hu He Hf. destruct (event_buffer h data Hh ltac:(lia)) as (h1 & h2 & Hm & Hst & Hh2 & Hal).
  destruct Hh as (Hoom & Hbrk & Hfr). set (buf := h_brk h) in *. assert (Hk : (0 < length data)%nat) by (unfold len32 in Hlen; lia).
  set (v1 := set_rs_pop (latency_of pn (lat_add (clock (S t) - clock t) pxs)) v).
  assert (Hlog : exists os2 t2 v2, (forall m : stmt (app (pworld OS) raw_server_vars) unit,
      ((if negb (0 =? ffd) then
          t0 <- raw_now clock ; raw_log_loop fuel ffd buf (len32 data) 0 ;; t1 <- raw_now clock ; rs_record rs_file_log set_rs_file_log (t1 - t0)
        else normal tt) ;; m) (mk_app (mk_pworld h2 os1) (S (S t)) v1) = m (mk_app (mk_pworld h2 os2) t2 v2)) /\
      out os2 = out os /\ log os2 = log os ++ (if 0 =? ffd then [] else data) /\ rs_ffd v2 = ffd /\
      rs_pop v2 = rs_pop v1 /\ rs_push v2 = rs_push v /\ rs_e2e v2 = rs_e2e v).
  { destruct (0 =? ffd) eqn:E; zbool; cbn [negb].
    - exists os1, (S (S t)), v1. split; [by intros m|]. rewrite app_nil_r. done.
    - set (s1 := mk_app (mk_pworld h2 os1) (S (S (S t))) v1).
      destruct (raw_log_ok fuel buf data 0 s1 ltac:(lia) Hh2 Hk ltac:(lia)) as (os2 & H2 & Hl2 & Ho2).
      change (log os2 = log os1 ++ data) in Hl2. change (out os2 = out os1) in Ho2. do 3 eexists. split; [|split; [rewrite Ho2; exact Ho1|split; [by rewrite Hl2, Hl1|]]].
      + intros m. erewrite sbind_Ok; [reflexivity|]. erewrite sbind_Ok by reflexivity. erewrite sbind_Ok by exact H2.
        erewrite sbind_Ok by reflexivity. erewrite rs_record_eq by exact Hf. reflexivity.
      + done. }
  destruct Hlog as (os2 & t2 & v2 & Hlog & Ho2 & Hl2 & Hffd2 & Hp2 & Hu2 & He2).
  set (s2 := mk_app (mk_pworld h2 os2) (S t2) v2).
  destruct (raw_echo_ok fuel ev buf data 0 s2 Hh2 Hk ltac:(lia)) as (os3 & H3 & Ho3 & Hl3).
  change (out os3 = out os2 ++ data) in Ho3. change (log os3 = log os2) in Hl3.
  do 2 eexists. exists t2. eexists. split; [|split; [by rewrite Ho3, Ho2|split; [by rewrite Hl3|]]].
  - unfold raw_server_ready. erewrite sbind_Ok by (apply raw_heap_eq; exact Hm).
    erewrite sbind_Ok.
    2: { unfold call, fbind. unfold with_heap. cbn [a_proc a_tick a_vars w_os]. erewrite process_read_eq; [reflexivity|exact Hr|unfold len32 in *; lia| |exact Hp].
      unfold len32. rewrite Nat2Z.id, take_ge by done. exact Hst. }
    rewrite (proj2 (Z.ltb_ge (len32 data) 0)), (proj2 (Z.eqb_neq (len32 data) 0)) by lia.
    erewrite sbind_Ok by reflexivity. cbn [a_vars]. change (rs_ffd (set_rs_pop _ v)) with (rs_ffd v). rewrite Hffd. rewrite Hlog.
    erewrite sbind_Ok by reflexivity. erewrite sbind_Ok by exact H3. erewrite sbind_Ok by reflexivity.
    erewrite sbind_Ok by (eapply rs_record_eq; cbn; rewrite Hu2; exact Hu).
    erewrite sbind_Ok by (eapply rs_record_eq; cbn; rewrite He2; exact He).
    eapply raw_heap_eq. cbn [with_os with_vars a_proc w_heap s2]. eapply (allocated_free buf (packet_size g) h h2); [done|exact Hfr|exact Hal|lia].
  - cbn. by rewrite Hp2.
Qed.
End sinks.


(** A connection whose peer has closed it is readable: nothing is read, and
    the buffer stays. *)
Lemma raw_server_eof_ok h os os1 t v ev fd e pn pxs :
  heap_ok h -> 0 <= packet_size g -> sys_read fd (packet_size g) os = (0, e, [], os1) -> rs_pop v = latency_of pn pxs ->
  exists h' v', raw_server_ready clock fuel g ev fd (mk_app (mk_pworld h os) t v) = Ok (inl tt) (mk_app (mk_pworld h' os1) (S (S t)) v') /\
    allocated (h_brk h) (packet_size g) h h'.
Proof.
  intros Hh Hsz Hr Hp. destruct (event_buffer h [] Hh ltac:(done)) as (h1 & h2 & Hm & Hst & _ & Hal). exists h2. eexists. split; [|exact Hal].
  unfold raw_server_ready. erewrite sbind_Ok by (apply raw_heap_eq; exact Hm). erewrite sbind_Ok.
  2: { unfold call, fbind, with_heap. cbn [a_proc a_tick a_vars w_os]. erewrite process_read_eq; [reflexivity|exact Hr|done|exact Hst|exact Hp]. }
  reflexivity.
Qed.
(** An error of [read]: the buffer is freed, the descriptor deregistered and
    closed. *)
Lemma raw_server_gone_ok h os os1 os2 os3 t v ev fd e e2 e3 pn pxs :
  heap_ok h -> 0 <= packet_size g -> sys_read fd (packet_size g) os = (-1, e, [], os1) -> rs_pop v = latency_of pn pxs ->
  sys_epoll_ctl (rs_epoll_fd v) EPOLL_CTL_DEL fd (ev, fd) os1 = (0, e2, os2) -> sys_close fd os2 = (0, e3, os3) ->
  exists h' v', raw_server_ready clock fuel g ev fd (mk_app (mk_pworld h os) t v) = Ok (inl tt) (mk_app (mk_pworld h' os3) (S (S t)) v') /\
    h_cells h' = h_cells h /\ h_blocks h' = h_blocks h.
Proof.
  intros Hh Hsz Hr Hp Hctl Hcl. destruct (event_buffer h [] Hh ltac:(done)) as (h1 & h2 & Hm & Hst & _ & Hal).
  destruct Hh as (Hoom & Hbrk & Hfr). do 2 eexists. split.
  - unfold raw_server_ready. erewrite sbind_Ok by (apply raw_heap_eq; exact Hm). erewrite sbind_Ok.
    2: { unfold call, fbind, with_heap. cbn [a_proc a_tick a_vars w_os]. erewrite process_read_eq; [reflexivity|exact Hr|done|exact Hst|exact Hp]. }
    change (-1 <? 0) with true. cbn iota. erewrite sbind_Ok by (apply raw_heap_eq; by eapply (allocated_free (h_brk h) (packet_size g) h h2)).
    erewrite sbind_Ok by reflexivity. erewrite sbind_Ok by (eapply raw_ok_eq; exact Hctl).
    erewrite sbind_Ok by (apply raw_sys_eq; exact Hcl). reflexivity.
  - done.
Qed.

(** An error of [write]: the loop goes on with a buffer that is free. *)
Lemma raw_server_write_error_ok h os os1 os2 os3 t v ev fd data e e1 e2 n pn pxs :
  heap_ok h -> (1 < fuel)%nat -> packet_size g < 2 ^ 31 -> 0 < len32 data <= packet_size g ->
  sys_read fd (packet_size g) os = (len32 data, e, data, os1) -> rs_pop v = latency_of pn pxs -> rs_ffd v = 0 ->
  sys_write fd data os1 = (n, e1, os2) -> n < 0 -> sys_epoll_ctl (rs_epoll_fd v) EPOLL_CTL_DEL fd (ev, fd) os2 = (0, e2, os3) ->
  raw_server_ready clock fuel g ev fd (mk_app (mk_pworld h os) t v) = Undef.
Proof.
  intros Hh Hfuel Hsz Hlen Hr Hp Hffd Hw Hn Hctl. destruct (event_buffer h data Hh ltac:(lia)) as (h1 & h2 & Hm & Hst & Hh2 & Hal).
  destruct Hh as (Hoom & Hbrk & Hfr). unfold raw_server_ready. erewrite sbind_Ok by (apply raw_heap_eq; exact Hm).
  erewrite sbind_Ok.
  2: { unfold call, fbind, with_heap. cbn [a_proc a_tick a_vars w_os]. erewrite process_read_eq; [reflexivity|exact Hr|unfold len32 in *; lia| |exact Hp].
    unfold len32. rewrite Nat2Z.id, take_ge by done. exact Hst. }
  rewrite (proj2 (Z.ltb_ge (len32 data) 0)), (proj2 (Z.eqb_neq (len32 data) 0)) by lia.
  erewrite sbind_Ok by reflexivity. cbn [a_vars]. change (rs_ffd (set_rs_pop _ v)) with (rs_ffd v). rewrite Hffd.
  change (negb (0 =? 0)) with false. cbn iota. do 2 erewrite sbind_Ok by reflexivity.
  unfold sbind at 1, fbind at 1. destruct fuel as [|[|n']]; [lia..|]. cbn [raw_echo_loop].
  assert (Hk : (0 < length data)%nat) by (unfold len32 in Hlen; lia).
  pose proof (load_rest h2 (h_brk h) data 0 Hh2 Hk) as Hload. change (Z.of_nat 0) with 0 in Hload. rewrite drop_0 in Hload.
  erewrite sbind_Ok by (apply raw_heap_eq; exact Hload). erewrite sbind_Ok by (apply raw_sys_eq; exact Hw). cbv beta iota.
  rewrite (proj2 (Z.ltb_lt n 0)) by lia. erewrite sbind_Ok.
  2: { erewrite sbind_Ok by (apply raw_heap_eq; by eapply (allocated_free (h_brk h) (packet_size g) h h2); [done|exact Hfr|exact Hal|lia]).
    erewrite sbind_Ok by reflexivity. erewrite sbind_Ok by (eapply raw_ok_eq; exact Hctl). erewrite sbind_Ok by reflexivity. reflexivity. }
  rewrite (proj2 (Z.ltb_lt 0 (len32 data))) by lia. unfold sbind at 1, fbind at 1.
  assert (Hbad : forall os' cells, load_bytes (h_brk h + 0) (len32 data - 0) (mk_heap (h_cells h) cells (h_brk h2) os') = Undef).
  { intros os' cells. unfold load_bytes. destruct (load_cells _ _ _) as [bs|] eqn:E; [|done]. apply load_cells_Some in E as [El E].
    destruct (lookup_lt_is_Some_2 bs 0 ltac:(lia)) as [b Hb]. apply E in Hb. cbn in Hb.
    destruct (Hfr (h_brk h + 0 + Z.of_nat 0)) as [Hno _]; [lia|]. cbn in Hno. congruence. }
  unfold call, raw_heap, zoom, fbind. cbn [with_heap with_os a_proc w_heap]. by rewrite Hbad.
Qed.
End server.

(** ** The properties *)
Section raw_properties.
Context {OS : Type} `{POS : PosixOS OS} `{ROS : RawOS OS}.

(** C33: the client on plain sockets, the whole program, for any number of
    iterations and of clients and any size of the packet, under a kernel that
    delivers what is written and whose reads and writes may be short.  It
    writes the packet once per iteration and client and nothing else, reads
    everything back, and ends with the report of one sample per iteration; its
    memory is what it was.  A read or write loop needs one unit of fuel per
    byte. *)
Theorem raw_client_main_correct clock inet_pton fuel g fd (stream out : OS -> list Z) h server addr os0 :
  echoes_back fd stream out -> opens fd (same_traffic stream out) -> 0 <= fd ->
  1 <= packet_size g < 2 ^ 31 -> (Z.to_nat (packet_size g) < fuel)%nat ->
  server_ip_addr g = Some server -> inet_pton server = Some addr -> iterations g < 2 ^ 32 -> stream os0 = [] ->
  exists lines l' t' v' os',
    raw_client_main clock inet_pton fuel g (mk_app (mk_pworld h os0) 0 raw_client_vars_init) = Ok (inl lines) (mk_app (mk_pworld h os') t' v') /\
    dmtr_dump_latency false false (latency_of latency_name (samples clock (Z.to_nat (iterations g)) 1 [])) = Ok (0, lines) l' /\
    out os' = out os0 ++ concat (replicate (Z.to_nat (iterations g) * Z.to_nat (clients g)) (packet_of (packet_size g))) /\ stream os' = [].
Proof. intros. by eapply raw_client_main_ok. Qed.

(** The client never ends when the peer closes the connection before it has
    answered: [read] returns 0 from then on, and the loop adds it to what it
    counts, for as long as it runs. *)
Theorem raw_client_spins g fd (closed : OS -> Prop) n k h t v os :
  (forall len os, closed os -> exists errno os', sys_read fd len os = (0, errno, [], os') /\ closed os') ->
  rc_fd v = fd -> 0 <= k < packet_size g -> packet_size g < 2 ^ 31 -> closed os ->
  raw_read_loop g n k (mk_app (mk_pworld h os) t v) = NoFuel.
Proof.
  intros Hcl Hfd Hk Hsz. revert v os Hfd. induction n as [|n IH]; intros v os Hfd Hos; [done|]. cbn [raw_read_loop].
  rewrite swrap_small by (change (2 ^ (32 - 1)) with (2 ^ 31); lia). rewrite (proj2 (Z.ltb_lt k _)) by lia.
  erewrite sbind_Ok by reflexivity. cbn [a_vars]. rewrite Hfd. destruct (Hcl (packet_size g - k) os Hos) as (e & os' & Hr & Hos').
  erewrite sbind_Ok by (apply raw_sys_eq; exact Hr). cbv beta iota zeta. change (i32 0) with 0. change (0 <? 0) with false. cbn iota.
  erewrite sbind_Ok by reflexivity. rewrite Z.add_0_r. by apply IH.
Qed.

(** C34: an event of a connection of the server on plain sockets, when bytes have
    arrived: they are written back to the connection, all of them and nothing
    else, and to the log file when there is one, under a kernel whose writes may
    be short.  The buffer is freed: the memory is that before.  The time of the
    read and that of the writes are recorded, the second in two distributions. *)
Theorem raw_server_echoes clock fuel g fd ffd (out log : OS -> list Z) h os os1 t v ev data e pn pxs un uxs en exs fn fxs :
  raw_sinks fd ffd out log -> heap_ok h -> (length data <= fuel)%nat -> packet_size g < 2 ^ 31 -> 0 < len32 data <= packet_size g ->
  sys_read fd (packet_size g) os = (len32 data, e, data, os1) -> out os1 = out os -> log os1 = log os -> rs_ffd v = ffd ->
  rs_pop v = latency_of pn pxs -> rs_push v = latency_of un uxs -> rs_e2e v = latency_of en exs -> rs_file_log v = latency_of fn fxs ->
  exists h' os' t' v', raw_server_ready clock fuel g ev fd (mk_app (mk_pworld h os) t v) = Ok (inl tt) (mk_app (mk_pworld h' os') (S (S t')) v') /\
    out os' = out os ++ data /\ log os' = log os ++ (if 0 =? ffd then [] else data) /\
    h_cells h' = h_cells h /\ h_blocks h' = h_blocks h /\ rs_ffd v' = ffd /\
    rs_pop v' = latency_of pn (lat_add (clock (S t) - clock t) pxs) /\
    rs_push v' = latency_of un (lat_add (clock (S t') - clock t') uxs) /\ rs_e2e v' = latency_of en (lat_add (clock (S t') - clock t') exs).
Proof. intros. by eapply raw_server_ready_ok. Qed.

(** When a write to the connection fails, the server frees the buffer,
    closes the connection, and means to go on with the next event; the
    [continue] belongs to the loop of the write, which writes from the freed
    buffer again: the behaviour is undefined. *)
Theorem raw_server_write_error clock fuel g fd h (os os1 os2 os3 : OS) t v ev data e e1 e2 n pn pxs :
  heap_ok h -> (1 < fuel)%nat -> packet_size g < 2 ^ 31 -> 0 < len32 data <= packet_size g ->
  sys_read fd (packet_size g) os = (len32 data, e, data, os1) -> rs_pop v = latency_of pn pxs -> rs_ffd v = 0 ->
  sys_write fd data os1 = (n, e1, os2) -> n < 0 -> sys_epoll_ctl (rs_epoll_fd v) EPOLL_CTL_DEL fd (ev, fd) os2 = (0, e2, os3) ->
  raw_server_ready clock fuel g ev fd (mk_app (mk_pworld h os) t v) = Undef.
Proof. intros. by eapply raw_server_write_error_ok. Qed.
End raw_properties.

(** ** Witnesses

    A kernel with one connection, which delivers what is written to it, and a
    log file 9: reads of at most five bytes, writes of at most three. *)
Record raw_kernel := mk_raw_kernel { rw_in : list Z; rw_out : list Z; rw_log : list Z }.
#[export] Instance raw_kernel_posix : PosixOS raw_kernel := {|
  sys_socket _ _ _ k := (5, 0, k);
  sys_getsockname _ _ k := (0, 0, [], k);
  sys_setsockopt _ _ _ _ k := (0, 0, k);
  sys_bind _ _ _ k := (0, 0, k);
  sys_listen _ _ k := (0, 0, k);
  sys_accept4 _ _ k := (6, 0, mk_sockaddr_in 2 7 1 0, k);
  sys_connect _ _ _ k := (0, 0, k);
  sys_open _ _ _ k := (9, 0, k);
  sys_creat _ _ k := (9, 0, k);
  sys_close _ k := (0, 0, k);
  sys_fcntl _ _ _ k := (0, 0, k);
  sys_read _ len k :=
    let n := Z.to_nat (Z.min len 5) in
    (len32 (take n (rw_in k)), 0, take n (rw_in k), mk_raw_kernel (skipn n (rw_in k)) (rw_out k) (rw_log k));
  sys_writev _ bss k := (len32 (concat bss), 0, k)
|}.
Definition raw_kernel_os (broken : bool) : RawOS raw_kernel := {|
  sys_write fd bs k :=
    let w := take 3 bs in
    if broken then (-1, 104, k)
    else (len32 w, 0, if fd =? 9 then mk_raw_kernel (rw_in k) (rw_out k) (rw_log k ++ w) else mk_raw_kernel (rw_in k ++ w) (rw_out k ++ w) (rw_log k));
  sys_accept _ k := (5, 0, k);
  sys_epoll_create1 _ k := (7, 0, k);
  sys_epoll_ctl _ _ _ _ k := (0, 0, k);
  sys_epoll_wait _ _ _ k := (1, 0, [(EPOLLIN, 5)], k)
|}.
Lemma raw_kernel_write (bs : list Z) :
  bs <> [] -> 0 < len32 (take 3 bs) <= len32 bs /\ take (Z.to_nat (len32 (take 3 bs))) bs = take 3 bs.
Proof.
  intros Hbs. unfold len32. rewrite Nat2Z.id, length_take. split; [destruct bs; [done|cbn [length]; lia]|].
  destruct (decide (3 <= length bs)%nat); [by rewrite Nat.min_l by lia|]. rewrite Nat.min_r, !take_ge by lia. done.
Qed.
Lemma raw_kernel_echoes : echoes_back (H0 := raw_kernel_os false) 5 rw_in rw_out.
Proof.
  split.
  - intros bs os Hbs. destruct (raw_kernel_write bs Hbs) as [Hn Ht]. do 3 eexists. split; [reflexivity|]. split; [exact Hn|]. by rewrite Ht.
  - intros len os Hlen Hs. cbn [sys_read raw_kernel_posix]. set (n := Z.to_nat (Z.min len 5)). do 3 eexists. split; [|split].
    + f_equal. f_equal. unfold len32. rewrite Nat2Z.id, length_take.
      destruct (decide (n <= length (rw_in os))%nat); [by rewrite Nat.min_l by lia|]. rewrite Nat.min_r, !take_ge by lia. done.
    + unfold len32. rewrite length_take. destruct (rw_in os); [done|]. cbn [length] in *. lia.
    + cbn. unfold len32. rewrite Nat2Z.id, length_take. split; [|done].
      destruct (decide (n <= length (rw_in os))%nat); [by rewrite Nat.min_l by lia|]. rewrite Nat.min_r, !drop_ge by lia. done.
Qed.
Lemma raw_kernel_dials : opens 5 (same_traffic rw_in rw_out).
Proof. split; intros; repeat eexists; done. Qed.
Lemma raw_kernel_sinks : raw_sinks (H := raw_kernel_os false) 5 9 rw_out rw_log.
Proof.
  split.
  - intros bs os Hbs. destruct (raw_kernel_write bs Hbs) as [Hn Ht]. do 3 eexists. split; [reflexivity|]. split; [exact Hn|]. by rewrite Ht.
  - intros _ bs os Hbs. destruct (raw_kernel_write bs Hbs) as [Hn Ht]. do 3 eexists. split; [reflexivity|]. split; [exact Hn|]. by rewrite Ht.
Qed.
Definition raw_globals : globals := mk_globals 7 (Some [49]) 8 3 2 None.
Definition raw_demo_vars (ffd : Z) : raw_server_vars :=
  mk_raw_server_vars 4 7 ffd (latency_of [1] []) (latency_of [2] []) (latency_of [3] []) (latency_of [4] []).

Lemma raw_client_main_correct_witness :
  let packet := packet_of 8 in
  exists lines l' t' v' os',
    raw_client_main (ROS := raw_kernel_os false) demo_clock (fun _ => Some 1) 9 raw_globals
      (mk_app (mk_pworld demo_heap (mk_raw_kernel [] [] [])) 0 raw_client_vars_init) = Ok (inl lines) (mk_app (mk_pworld demo_heap os') t' v') /\
    dmtr_dump_latency false false (latency_of latency_name [10; 10; 10]) = Ok (0, lines) l' /\
    rw_out os' = packet ++ packet ++ packet ++ packet ++ packet ++ packet.
Proof.
  destruct (raw_client_main_correct (ROS := raw_kernel_os false) demo_clock (fun _ => Some 1) 9 raw_globals 5 rw_in rw_out demo_heap [49] 1
    (mk_raw_kernel [] [] [])) as (lines & l' & t' & v' & os' & H & Hd & Hout & _);
    [exact raw_kernel_echoes|exact raw_kernel_dials|lia| | |reflexivity|reflexivity|reflexivity|reflexivity|].
  - vm_compute. split; [discriminate|reflexivity].
  - vm_compute. lia.
  - exists lines, l', t', v', os'. split; [exact H|]. split; [exact Hd|]. rewrite Hout. reflexivity.
Defined.

Lemma raw_client_spins_witness :
  raw_read_loop raw_globals 1000 2 (mk_app (mk_pworld demo_heap (mk_raw_kernel [] [] [])) 0 (mk_raw_client_vars 5 (packet_of 8) latency_none)) = NoFuel.
Proof.
  apply (raw_client_spins (POS := raw_kernel_posix) raw_globals 5 (fun os => rw_in os = [])).
  - intros len os E. cbn. rewrite E. destruct (Z.to_nat (Z.min len 5)); do 2 eexists; done.
  - reflexivity.
  - vm_compute. split; [discriminate|reflexivity].
  - reflexivity.
  - reflexivity.
Defined.

Lemma raw_server_echoes_witness :
  exists h' os' t' v',
    raw_server_ready (ROS := raw_kernel_os false) demo_clock 4 raw_globals EPOLLIN 5
      (mk_app (mk_pworld demo_heap (mk_raw_kernel [1; 2; 3; 4] [] [])) 0 (raw_demo_vars 9)) = Ok (inl tt) (mk_app (mk_pworld h' os') t' v') /\
    rw_out os' = [1; 2; 3; 4] /\ rw_log os' = [1; 2; 3; 4] /\ h_blocks h' = h_blocks demo_heap /\ rs_pop v' = latency_of [1] [10].
Proof.
  destruct (raw_server_echoes (ROS := raw_kernel_os false) demo_clock 4 raw_globals 5 9 rw_out rw_log demo_heap (mk_raw_kernel [1; 2; 3; 4] [] [])
    (mk_raw_kernel [] [] []) 0 (raw_demo_vars 9) EPOLLIN [1; 2; 3; 4] 0 [1] [] [2] [] [3] [] [4] [])
    as (h' & os' & t' & v' & H & Ho & Hl & _ & Hb & _ & Hp & _);
    [exact raw_kernel_sinks|exact demo_heap_ok|cbn; lia|reflexivity| |reflexivity..|].
  - vm_compute. split; [reflexivity|discriminate].
  - exists h', os', (S (S t')), v'. split; [exact H|]. split; [exact Ho|]. split; [exact Hl|]. split; [exact Hb|exact Hp].
Defined.

Lemma raw_server_write_error_witness :
  raw_server_ready (ROS := raw_kernel_os true) demo_clock 4 raw_globals EPOLLIN 5
    (mk_app (mk_pworld demo_heap (mk_raw_kernel [1; 2; 3; 4] [] [])) 0 (raw_demo_vars 0)) = Undef.
Proof.
  eapply (raw_server_write_error (ROS := raw_kernel_os true) demo_clock 4 raw_globals 5 demo_heap (mk_raw_kernel [1; 2; 3; 4] [] [])
    (mk_raw_kernel [] [] []) (mk_raw_kernel [] [] []) (mk_raw_kernel [] [] []) 0 (raw_demo_vars 0) EPOLLIN [1; 2; 3; 4] 0 104 0 (-1) [1] []);
    [exact demo_heap_ok|lia|reflexivity| |reflexivity|reflexivity|reflexivity|reflexivity|lia|reflexivity].
  vm_compute. split; [reflexivity|discriminate].
Defined.
