(* ===== verification/DpdkEcho.v ===== *)
(** * The UDP echo programs over DPDK

    [apps/echo/dpdk_common.cpp] and [.h], [dpdk_udp_echo_server.cpp] and
    [dpdk_udp_echo_client.cpp]: a small datagram layer and two programs that call
    DPDK themselves, from before the library had its own.  No build file names
    them any more, and the header with the [Latency_*] probes is gone; the
    probes and the debug prints are left out.

    DPDK is that of [LwipOs]; [rte_exit] ends the process as a panic does, and
    so does [assert].  The checksum is the loop of [Checksum].  A pointer to an
    address structure is an address of the heap, where the local variables that
    are passed by pointer live too. *)
From Stdlib Require Import String.
From S2P Require Import Prelude Cmd Types Memory Contents IoQueue Checksum LwipOs LwipPacket.
Open Scope Z_scope.
Open Scope cmd_scope.

(** ** [dpdk_common.h] *)
Definition PKTNUM : nat := 10000.
Definition BUFSIZE : Z := 10.
Record sgelem := mk_sgelem { se_buf : Z; se_len : Z; se_addr : Z }.
Record sgarray := mk_dpdk_sgarray { num_bufs : Z; bufs : list sgelem; sg_addr : sockaddr_in }.
Definition sgarray_init : sgarray := mk_dpdk_sgarray 0 (replicate 10 (mk_sgelem 0 0 0)) sockaddr_zero.
(** [copy]: the loop from element [i] on, [n] elements being left. *)
Fixpoint sg_copy_loop (n : nat) (from to : list sgelem) (len : Z) : option (list sgelem * Z) :=
  match n, from, to with
  | O, _, _ => Some (to, len)
  | S n', e :: from', e' :: to' =>
      match sg_copy_loop n' from' to' (u64 (len + se_len e)) with
      | Some (to', len) => Some (mk_sgelem (se_buf e) (se_len e) (se_addr e') :: to', len)
      | None => None
      end
  | S _, _, _ => None
  end.
Definition sg_copy (sga self : sgarray) : option (sgarray * Z) :=
  match sg_copy_loop (Z.to_nat (num_bufs sga)) (bufs sga) (bufs self) 0 with
  | Some (to, len) => Some (mk_dpdk_sgarray (num_bufs sga) to (sg_addr self), len)
  | None => None
  end.

(** ** [dpdk_common.cpp] *)
Definition ip_config : list (list Z * Z) :=
  [([0x24; 0x8a; 0x07; 0x50; 0x95; 0x08], 0x040c0c0c); ([0x24; 0x8a; 0x07; 0x50; 0x93; 0xe0], 0x050c0c0c)].
Definition MAX_PKTS : Z := 64.
Definition echo_ip_to_mac (ip : Z) : list Z :=
  match List.find (fun e => ip =? e.2) ip_config with Some e => e.1 | None => ether_broadcast end.
Definition echo_mac_to_ip (mac : list Z) : Z :=
  match List.find (fun e => rte_is_same_ether_addr mac e.1) ip_config with Some e => e.2 | None => 0 end.

(** The configuration of a port; [rss_hf] is made of constants that differ
    between versions of DPDK. *)
Record echo_eth_conf := mk_echo_eth_conf { ee_max_rx_pkt_len : Z; ee_rx_mq_mode : Z; ee_rss_hf : Z; ee_tx_mq_mode : Z }.
Class OldDpdk (D : Type) := {
  e_eth_dev_configure : Z -> Z -> Z -> echo_eth_conf -> D -> Z * D;
  e_rss_hf : Z
}.
Definition ETH_MQ_RX_RSS : Z := 1.
Definition RTE_FC_NONE : Z := 0.

(** The heap, the device and the globals. [bound_addr] is its port and its
    address, the only fields that are read. *)
Record dworld (D : Type) := mk_dworld {
  dw_heap : heap;
  dw_dev : D;
  dw_port_id : Z;
  dw_mbuf_pool : Z;
  is_bound_ : bool;
  bound_port : Z;
  bound_ip : Z;
  has_default_peer : bool;
  default_peer_addr : Z;
  pkt_buffer : list Z;
  num_packets : Z;
  pkt_idx : Z;
  next_port : Z
}.
Arguments mk_dworld {D}.
Arguments dw_heap {D}.
Arguments dw_dev {D}.
Arguments dw_port_id {D}.
Arguments dw_mbuf_pool {D}.
Arguments is_bound_ {D}.
Arguments bound_port {D}.
Arguments bound_ip {D}.
Arguments has_default_peer {D}.
Arguments default_peer_addr {D}.
Arguments pkt_buffer {D}.
Arguments num_packets {D}.
Arguments pkt_idx {D}.
Arguments next_port {D}.

Section dpdk_echo.
Context {D : Type} `{DP : Dpdk D} `{OD : OldDpdk D}.
Abbreviation W := (dworld D).
Implicit Types w : W.
Definition set_dw_mem (h : heap) (d : D) w : W := mk_dworld h d (dw_port_id w) (dw_mbuf_pool w) (is_bound_ w) (bound_port w) (bound_ip w) (has_default_peer w) (default_peer_addr w) (pkt_buffer w) (num_packets w) (pkt_idx w) (next_port w).
Definition set_dw_port_id (p : Z) w : W := mk_dworld (dw_heap w) (dw_dev w) p (dw_mbuf_pool w) (is_bound_ w) (bound_port w) (bound_ip w) (has_default_peer w) (default_peer_addr w) (pkt_buffer w) (num_packets w) (pkt_idx w) (next_port w).
Definition set_dw_mbuf_pool (p : Z) w : W := mk_dworld (dw_heap w) (dw_dev w) (dw_port_id w) p (is_bound_ w) (bound_port w) (bound_ip w) (has_default_peer w) (default_peer_addr w) (pkt_buffer w) (num_packets w) (pkt_idx w) (next_port w).
Definition set_bound (b : bool) (port ip : Z) w : W := mk_dworld (dw_heap w) (dw_dev w) (dw_port_id w) (dw_mbuf_pool w) b port ip (has_default_peer w) (default_peer_addr w) (pkt_buffer w) (num_packets w) (pkt_idx w) (next_port w).
Definition set_default_peer (b : bool) (p : Z) w : W := mk_dworld (dw_heap w) (dw_dev w) (dw_port_id w) (dw_mbuf_pool w) (is_bound_ w) (bound_port w) (bound_ip w) b p (pkt_buffer w) (num_packets w) (pkt_idx w) (next_port w).
Definition set_packets (buf : list Z) (n i : Z) w : W := mk_dworld (dw_heap w) (dw_dev w) (dw_port_id w) (dw_mbuf_pool w) (is_bound_ w) (bound_port w) (bound_ip w) (has_default_peer w) (default_peer_addr w) buf n i (next_port w).
Definition set_next_port (p : Z) w : W := mk_dworld (dw_heap w) (dw_dev w) (dw_port_id w) (dw_mbuf_pool w) (is_bound_ w) (bound_port w) (bound_ip w) (has_default_peer w) (default_peer_addr w) (pkt_buffer w) (num_packets w) (pkt_idx w) p.
Definition dworld_start (h : heap) (d : D) : W := mk_dworld h d 0 0 false 0 0 false 0 [] 0 0 1024.

Definition edev {A} (f : D -> A * D) : stmt W A := fun w =>
  let '(a, d) := f (dw_dev w) in Ok (inl a) (set_dw_mem (dw_heap w) d w).
Definition edev_do (f : D -> D) : stmt W unit := edev (fun d => (tt, f d)).
Definition edev_mem {A} (f : heap -> D -> A * heap * D) : stmt W A := fun w =>
  let '(a, h, d) := f (dw_heap w) (dw_dev w) in Ok (inl a) (set_dw_mem h d w).
Definition eheap {A} (m : fn heap A) : stmt W A := call (zoom dw_heap (fun h w => set_dw_mem h (dw_dev w) w) m).
Definition eput (p : Z) (bs : list Z) : stmt W unit := eheap (store_bytes p bs).
Definition efetch (p n : Z) : stmt W (list Z) := eheap (load_bytes p n).
Definition eassert (b : bool) : stmt W unit := if b then normal tt else panic.
(** [rte_memcpy]: bytes that were never written are copied as they are. *)
Fixpoint copy_cells (n : nat) (dst src : Z) (h : heap) : option heap :=
  match n with
  | O => Some h
  | S n' =>
      match h_cells h !! src, h_cells h !! dst with
      | Some v, Some _ => copy_cells n' (dst + 1) (src + 1) (set_h_cells (<[dst := v]> (h_cells h)) h)
      | _, _ => None
      end
  end.
Definition ememcpy (dst src n : Z) : stmt W unit := eheap (fun h =>
  match copy_cells (Z.to_nat n) dst src h with Some h' => Ok tt h' | None => Undef end).

Definition echo_ip_sum (hdr : list Z) (hdr_len : Z) : stmt W Z :=
  sum <- need (ip_sum_loop hdr hdr_len 0) ;
  match ip_fold_loop ip_fold_fuel sum with
  | None => fun _ => NoFuel
  | Some sum => normal (u16 (Z.lnot sum))
  end.

(** *** Initialisation *)

(** One pass over the ports from [portid] on, [n] being left: whether all are
    up.  A shift by 32 or more is undefined. *)
Fixpoint link_pass (n : nat) (portid port_mask : Z) (print_flag : bool) : stmt W bool :=
  match n with
  | O => normal true
  | S n' =>
      bit <- need (if portid <? 32 then Some (Z.shiftl 1 portid) else None) ;
      if Z.land port_mask bit =? 0 then link_pass n' (portid + 1) port_mask print_flag
      else
        link <- edev (d_eth_link_get_nowait portid) ;
        if print_flag then link_pass n' (portid + 1) port_mask print_flag
        else if link_status link =? 0 then normal false
        else link_pass n' (portid + 1) port_mask print_flag
  end.
Definition MAX_CHECK_TIME : nat := 90.
(** The loop on [count], [n] visits being left. *)
Fixpoint link_check_loop (n : nat) (port_num port_mask : Z) (print_flag : bool) : stmt W unit :=
  match n with
  | O => normal tt
  | S n' =>
      all_ports_up <- link_pass (Z.to_nat port_num) 0 port_mask print_flag ;
      if print_flag then normal tt
      else
        (if all_ports_up then normal tt else edev_do (d_delay_ms 100)) ;;
        let count := (MAX_CHECK_TIME + 1 - n)%nat in
        link_check_loop n' port_num port_mask (all_ports_up || (count =? MAX_CHECK_TIME - 1)%nat)
  end.
Definition check_all_ports_link_status (port_num port_mask : Z) : stmt W unit :=
  link_check_loop (MAX_CHECK_TIME + 1) port_num port_mask false.

Definition port_init (port mbuf_pool : Z) : fn W Z := body (
  let port_conf := mk_echo_eth_conf RTE_ETHER_MAX_LEN ETH_MQ_RX_RSS e_rss_hf ETH_MQ_TX_NONE in
  let rx_conf := mk_rxconf 0 0 0 32 in
  let tx_conf := mk_txconf 0 0 0 in
  w <- get ;
  if port >=? d_eth_dev_count_avail (dw_dev w) then return_ (-1)
  else
    retval <- edev (e_eth_dev_configure port 1 1 port_conf) ;
    if negb (retval =? 0) then return_ retval
    else
      edev_do (d_eth_dev_info_get port) ;;
      w <- get ;
      retval <- edev (d_eth_rx_queue_setup port 0 128 (d_eth_dev_socket_id port (dw_dev w)) rx_conf mbuf_pool) ;
      if retval <? 0 then return_ retval
      else
        w <- get ;
        retval <- edev (d_eth_tx_queue_setup port 0 512 (d_eth_dev_socket_id port (dw_dev w)) tx_conf) ;
        if retval <? 0 then return_ retval
        else
          retval <- edev (d_eth_dev_start port) ;
          if retval <? 0 then return_ retval
          else
            retval <- edev (fun d => let '(ret, fc, d) := d_eth_dev_flow_ctrl_get port d in (ret, d)) ;
            if negb (retval =? 0) then return_ retval
            else
              retval <- edev (d_eth_dev_flow_ctrl_set port (mk_fc_conf RTE_FC_NONE)) ;
              if negb (retval =? 0) then return_ retval else normal 0).

Fixpoint init_ports (ports : list Z) (mbuf_pool : Z) : stmt W unit :=
  match ports with
  | [] => normal tt
  | portid :: ports' =>
      modify (set_dw_port_id portid) ;;
      ret <- call (port_init portid mbuf_pool) ;
      (if negb (ret =? 0) then panic else normal tt) ;;
      init_ports ports' mbuf_pool
  end.
Definition dpdk_init (argv : list string) : fn W Z := body (
  ' (ret, errno) <- edev (d_eal_init argv) ;
  (if ret <? 0 then panic else normal tt) ;;
  w <- get ;
  let nb_ports := d_eth_dev_count_avail (dw_dev w) in
  (if nb_ports <=? 0 then panic else normal tt) ;;
  ' (mbuf_pool, errno) <- edev (d_pktmbuf_pool_create "MBUF_POOL" (NUM_MBUFS * nb_ports) MBUF_CACHE_SIZE 0 RTE_MBUF_DEFAULT_BUF_SIZE (d_socket_id (dw_dev w))) ;
  modify (set_dw_mbuf_pool mbuf_pool) ;;
  (if mbuf_pool =? 0 then panic else normal tt) ;;
  init_ports (seqZ 0 nb_ports) mbuf_pool ;;
  check_all_ports_link_status (wrap 8 nb_ports) 0xFFFFFFFF ;;
  normal 0).

(** *** Addresses *)

(** [dpdk_bind(addr, size)]; [addr] is the address of a [sockaddr_in]. *)
Definition dpdk_bind (addr size : Z) : fn W Z := body (
  eassert (size =? sizeof_sockaddr_in) ;;
  bs <- efetch (addr + 2) 2 ;
  let sin_port := u16_of_bytes bs in
  bs <- efetch (addr + 4) 4 ;
  let s_addr := u32_of_bytes bs in
  sin_port <- (if sin_port =? 0 then
                 w <- get ;
                 modify (set_next_port (if next_port w + 1 >? 65535 then 1024 else next_port w + 1)) ;;
                 normal (htons (u16 (next_port w)))
               else normal sin_port) ;
  s_addr <- (if s_addr =? 0 then
               w <- get ;
               normal (echo_mac_to_ip (d_eth_macaddr_get (dw_port_id w) (dw_dev w)))
             else normal s_addr) ;
  modify (set_bound true sin_port s_addr) ;;
  normal 0).
(** [dpdk_bind()]: the structure is never freed. *)
Definition dpdk_bind_any : fn W Z := body (
  addr <- eheap (malloc sizeof_sockaddr_in) ;
  eput (addr + 2) (u16_bytes 0) ;;
  eput (addr + 4) (u32_bytes 0) ;;
  ret <- call (dpdk_bind addr sizeof_sockaddr_in) ;
  return_ ret).
Definition dpdk_connect (saddr size : Z) : fn W Z := body (
  modify (set_default_peer true saddr) ;;
  normal 0).
Definition dpdk_close : fn W Z := body (
  modify (set_default_peer false 0) ;;
  normal 0).

(** *** Sending

    The lengths in the headers are not in network order. *)
Definition echo_ip_hdr_bytes (src_ip dst_ip checksum : Z) : list Z :=
  [IP_VHL_DEF; 0] ++ u16_bytes 28 ++ u16_bytes 0 ++ u16_bytes 0 ++ [IP_DEFTTL; IPPROTO_UDP] ++
  u16_bytes checksum ++ u32_bytes src_ip ++ u32_bytes dst_ip.
(** The loop over the segments from [i] on; one byte of the number and of each
    length is written, into a field of eight. *)
Fixpoint echo_put_segs (n : nat) (segs : list sgelem) (ptr pkt_len data_len : Z) : stmt W (Z * Z) :=
  match n with
  | O => normal (pkt_len, data_len)
  | S n' =>
      match segs with
      | [] => undef
      | e :: segs' =>
          eput ptr [wrap 8 (se_len e)] ;;
          ememcpy (ptr + 8) (se_buf e) (se_len e) ;;
          echo_put_segs n' segs' (ptr + 8 + se_len e) (u16 (pkt_len + se_len e + 8)) (u32 (data_len + se_len e))
      end
  end.
Definition echo_put_headers (eth_hdr saddr : Z) : stmt W unit :=
  w <- get ;
  eput (eth_hdr + 6) (d_eth_macaddr_get (dw_port_id w) (dw_dev w)) ;;
  bs <- efetch (saddr + 4) 4 ;
  let dst_ip := u32_of_bytes bs in
  eput eth_hdr (echo_ip_to_mac dst_ip) ;;
  eput (eth_hdr + 12) (u16_bytes (htons RTE_ETHER_TYPE_IPV4)) ;;
  let ip_hdr := eth_hdr + sizeof_ether_hdr in
  eput ip_hdr (echo_ip_hdr_bytes (bound_ip w) dst_ip 0) ;;
  hdr <- efetch ip_hdr sizeof_ipv4_hdr ;
  checksum <- echo_ip_sum (words_of_bytes hdr) sizeof_ipv4_hdr ;
  eput (ip_hdr + 10) (u16_bytes checksum) ;;
  bs <- efetch (saddr + 2) 2 ;
  eput (ip_hdr + sizeof_ipv4_hdr) (u16_bytes (bound_port w) ++ u16_bytes (u16_of_bytes bs) ++ u16_bytes sizeof_udp_hdr ++ u16_bytes 0).
Definition dpdk_sendto (sga : sgarray) (addr : Z) : fn W Z := body (
  w <- get ;
  (if is_bound_ w then normal tt else _ <- call dpdk_bind_any ; normal tt) ;;
  w <- get ;
  let saddr := if has_default_peer w then default_peer_addr w else addr in
  pkt <- edev_mem (d_pktmbuf_alloc (dw_mbuf_pool w)) ;
  eassert (negb (pkt =? 0)) ;;
  w <- get ;
  let eth_hdr := d_pktmbuf_mtod pkt (dw_dev w) in
  echo_put_headers eth_hdr saddr ;;
  let ptr := eth_hdr + sizeof_ether_hdr + sizeof_ipv4_hdr + sizeof_udp_hdr in
  eput ptr [wrap 8 (num_bufs sga)] ;;
  ' (pkt_len, data_len) <- echo_put_segs (Z.to_nat (num_bufs sga)) (bufs sga) (ptr + 8) 50 0 ;
  edev_do (d_mbuf_set_len pkt pkt_len pkt_len 1) ;;
  w <- get ;
  ret <- edev_mem (d_eth_tx_burst (dw_port_id w) 0 [pkt]) ;
  eassert (ret =? 1) ;;
  normal data_len).

(** *** Receiving *)
Definition u64_of_bytes (bs : list Z) : Z := u32_of_bytes (take 4 bs) + 2 ^ 32 * u32_of_bytes (drop 4 bs).
(** The loop over the segments from [i] on. *)
Fixpoint echo_get_segs (n : nat) (i : nat) (ptr data_len : Z) (segs : list sgelem) : stmt W (list sgelem * Z) :=
  match n with
  | O => normal (segs, data_len)
  | S n' =>
      bs <- efetch ptr 8 ;
      let len := u64_of_bytes bs in
      e <- need (segs !! i) ;
      buf <- eheap (malloc len) ;
      ememcpy buf (ptr + 8) len ;;
      echo_get_segs n' (S i) (ptr + 8 + len) (swrap 64 (data_len + len)) (<[i := mk_sgelem buf len (se_addr e)]> segs)
  end.
(** The packet [m]: it is freed only when it is for this host. *)
Definition echo_take_packet (m : Z) (sga : sgarray) (saddr : Z) : stmt W (Z * sgarray) :=
  w <- get ;
  let eth_hdr := d_pktmbuf_mtod m (dw_dev w) in
  bs <- efetch (eth_hdr + 12) 2 ;
  if negb (ntohs (u16_of_bytes bs) =? RTE_ETHER_TYPE_IPV4) then normal (0, sga)
  else
    let ip_hdr := eth_hdr + sizeof_ether_hdr in
    ip_type <- efetch (ip_hdr + 9) 1 ;
    bs <- efetch (ip_hdr + 16) 4 ;
    if is_bound_ w && negb (u32_of_bytes bs =? bound_ip w) then normal (0, sga)
    else if negb (bool_decide (ip_type = [IPPROTO_UDP])) then normal (0, sga)
    else
      let udp_hdr := ip_hdr + sizeof_ipv4_hdr in
      bs <- efetch (udp_hdr + 2) 2 ;
      if is_bound_ w && negb (u16_of_bytes bs =? bound_port w) then normal (0, sga)
      else
        let ptr := udp_hdr + sizeof_udp_hdr in
        bs <- efetch ptr 8 ;
        let n := i32 (u64_of_bytes bs) in
        ' (segs, data_len) <- echo_get_segs (Z.to_nat n) 0 (ptr + 8) 0 (bufs sga) ;
        (if negb (saddr =? 0) then
           eput saddr (repeat 0 16) ;;
           eput saddr (u16_bytes AF_INET) ;;
           bs <- efetch udp_hdr 2 ;
           eput (saddr + 2) bs ;;
           bs <- efetch (ip_hdr + 12) 4 ;
           eput (saddr + 4) bs
         else normal tt) ;;
        edev_mem (fun h d => let '(h, d) := d_pktmbuf_free m h d in (tt, h, d)) ;;
        normal (data_len, mk_dpdk_sgarray n segs (sg_addr sga)).
(** The result and the array; an index outside [pkt_buffer] is undefined. *)
Definition dpdk_recvfrom (sga : sgarray) (saddr : Z) : stmt W (Z * sgarray) :=
  w <- get ;
  (if num_packets w =? 0 then
     pkts <- edev_mem (d_eth_rx_burst (dw_port_id w) 0 MAX_PKTS) ;
     modify (set_packets pkts (Z.of_nat (List.length pkts)) 0)
   else normal tt) ;;
  w <- get ;
  if num_packets w =? 0 then normal (0, sga)
  else
    eassert (num_packets w =? 1) ;;
    m <- need (pkt_buffer w !! Z.to_nat (pkt_idx w)) ;
    modify (set_packets (pkt_buffer w) (num_packets w - 1) (pkt_idx w + 1)) ;;
    echo_take_packet m sga saddr.

(** ** The programs

    [argv] is what [main] was given; [while (f(...) == 0);] has fuel.  A local
    variable whose address is taken is a block of the heap. *)
Definition DPDK_ARGV : list string := [""; "-c"; "0x1"; "-n"; "4"; "--proc-type=auto"]%string.
Definition echo_start (argv : list string) : stmt W unit :=
  _ <- call (dpdk_init (if (List.length argv =? 1)%nat then DPDK_ARGV else argv)) ;
  normal tt.
Fixpoint send_loop (n : nat) (sga : sgarray) (addr : Z) : stmt W unit :=
  match n with
  | O => fun _ => NoFuel
  | S n' => ret <- call (dpdk_sendto sga addr) ; if ret =? 0 then send_loop n' sga addr else normal tt
  end.
Fixpoint recv_loop (n : nat) (sga : sgarray) (addr : Z) : stmt W sgarray :=
  match n with
  | O => fun _ => NoFuel
  | S n' => ' (ret, sga) <- dpdk_recvfrom sga addr ; if ret =? 0 then recv_loop n' sga addr else normal sga
  end.
Definition free_first (sga : sgarray) : stmt W unit :=
  e <- need (head (bufs sga)) ;
  eheap (free (se_buf e)).
(** A [sockaddr_in] of the program, with the fields it assigns. *)
Definition echo_server_addr : stmt W Z :=
  addr <- eheap (malloc sizeof_sockaddr_in) ;
  eput addr (u16_bytes AF_INET ++ u16_bytes (htons 12345) ++ u32_bytes 0x040c0c0c) ;;
  normal addr.

Fixpoint echo_server_rounds (k n : nat) (sga : sgarray) (peer : Z) : stmt W unit :=
  match k with
  | O => normal tt
  | S k' =>
      sga <- recv_loop n sga peer ;
      send_loop n sga peer ;;
      free_first sga ;;
      echo_server_rounds k' n sga peer
  end.
Definition udp_echo_server (argv : list string) (n : nat) : fn W Z := body (
  echo_start argv ;;
  peer <- eheap (malloc sizeof_sockaddr_in) ;
  addr <- echo_server_addr ;
  _ <- call (dpdk_bind addr sizeof_sockaddr_in) ;
  echo_server_rounds PKTNUM n sgarray_init peer ;;
  _ <- call dpdk_close ;
  normal 0).

Fixpoint echo_client_rounds (k n : nat) (sga res : sgarray) (server : Z) : stmt W unit :=
  match k with
  | O => normal tt
  | S k' =>
      send_loop n sga server ;;
      res <- recv_loop n res server ;
      free_first res ;;
      echo_client_rounds k' n sga res server
  end.
Definition udp_echo_client (argv : list string) (n : nat) : fn W Z := body (
  echo_start argv ;;
  msg <- eheap (malloc BUFSIZE) ;
  eput msg [104; 105; 0] ;;
  let sga := mk_dpdk_sgarray 1 (<[0%nat := mk_sgelem msg BUFSIZE 0]> (bufs sgarray_init)) sockaddr_zero in
  server <- echo_server_addr ;
  echo_client_rounds PKTNUM n sga sgarray_init server ;;
  normal 0).
End dpdk_echo.
