(* ===== verification/DpdkEchoWire.v ===== *)
(** * The datagrams of the echo programs over DPDK

    The frame [dpdk_sendto] gives to the card for an array of one segment, byte
    by byte, and what [dpdk_recvfrom] makes of it at the other end: of the eight
    bytes of a length the sender writes one, the receiver reads all of them. *)
From S2P Require Import Prelude Cmd Types Memory Contents IoQueue Checksum LwipOs LwipPacket LwipArp LwipWire PosixWire DpdkEcho.
Open Scope Z_scope.
Open Scope cmd_scope.

(** ** The format

    The lengths in the headers are those of the headers, in host order.  The
    sender writes one byte of each eight-byte field of the payload: the other
    seven, [z1] and [z2], are what the packet's memory held. *)
Definition field8 (b : Z) (z : list Z) : list Z := b :: z.
Definition echo_payload (z1 z2 data : list Z) : list Z := field8 1 z1 ++ field8 (wrap 8 (len32 data)) z2 ++ data.
Definition echo_frame (d_mac s_mac : list Z) (src dst : sockaddr_in) (z1 z2 data : list Z) : list Z :=
  eth_header d_mac s_mac ++ ip_header 7168 (sin_addr src) (sin_addr dst) ++
  udp_hdr_bytes (sin_port src) (sin_port dst) 2048 ++ echo_payload z1 z2 data.
Definition stale (z : list Z) : Prop := length z = 7%nat /\ Forall (fun b => 0 <= b < 256) z.

Section echo_wire.
Context {D : Type} `{DP : Dpdk D}.
Abbreviation W := (dworld D).
Abbreviation at_mem h d w := (set_dw_mem h d w).
Implicit Types (w : W) (h : heap) (d : D).

(** ** Reading and writing the memory *)
Lemma post_eheap bad {A} (m : fn heap A) a h h' d w (Q : A + Z -> W -> Prop) :
  m h = Ok a h' -> Q (inl a) (at_mem h' d w) -> post bad (eheap m) Q (at_mem h d w).
Proof. intros E HQ. unfold eheap. rewrite post_call. unfold post, zoom. cbn [dw_heap set_dw_mem]. by rewrite E. Qed.
Lemma post_eput bad p bs h d w (Q : unit + Z -> W -> Prop) :
  mapped h p (len32 bs) ->
  (forall h', holds h' p bs -> same_outside p (len32 bs) h h' -> h_brk h' = h_brk h -> Q (inl tt) (at_mem h' d w)) ->
  post bad (eput p bs) Q (at_mem h d w).
Proof.
  intros Hm HQ. destruct (store_mapped _ _ _ Hm) as (h' & E & Hh & Hs). eapply post_eheap; [exact E|].
  apply HQ; [done|done|]. by apply store_bytes_rest in E as [? _].
Qed.
Lemma post_efetch bad p n bs h d w (Q : list Z + Z -> W -> Prop) :
  holds h p bs -> len32 bs = n -> Q (inl bs) (at_mem h d w) -> post bad (efetch p n) Q (at_mem h d w).
Proof. intros Hh Hn. apply post_eheap. by apply holds_load_n. Qed.

(** [rte_memcpy] between blocks apart. *)
Lemma copy_cells_spec h dst src data :
  holds h src data -> mapped h dst (len32 data) -> src + len32 data <= dst \/ dst + len32 data <= src ->
  exists h', copy_cells (length data) dst src h = Some h' /\ holds h' dst data /\ same_outside dst (len32 data) h h' /\ h' = set_h_cells (h_cells h') h.
Proof.
  revert h dst src. induction data as [|b data IH]; intros h dst src Hs Hm Hd.
  { exists h. split; [done|]. split; [apply holds_nil|]. split; [apply same_outside_refl|by destruct h]. }
  assert (El : len32 (b :: data) = 1 + len32 data) by (unfold len32; cbn [length]; lia). assert (0 <= len32 data) by (unfold len32; lia).
  pose proof (Hs 0%nat b eq_refl) as Hb. rewrite Z.add_0_r in Hb. destruct (Hm dst ltac:(lia)) as [v Hv].
  set (h1 := set_h_cells (<[dst := Some b]> (h_cells h)) h).
  assert (H1 : same_outside dst 1 h h1).
  { split; intros x Hx; cbn.
    - rewrite lookup_insert_ne by lia. done.
    - destruct (decide (x = dst)) as [->|]; [rewrite lookup_insert_eq; by eexists|by rewrite lookup_insert_ne by done]. }
  assert (Hs1 : holds h (src + 1) data).
  { intros i c Hc. rewrite <- (Hs (S i) c Hc). f_equal. lia. }
  destruct (IH h1 (dst + 1) (src + 1)) as (h' & Hc & Hh & Ho & Hk).
  { eapply holds_frame; [exact Hs1|exact H1|lia]. }
  { intros x Hx. apply (proj2 H1), Hm. lia. }
  { lia. }
  exists h'. cbn [length copy_cells]. rewrite Hb, Hv. split; [exact Hc|]. split; [|split; [|by rewrite Hk]].
  - change (b :: data) with ([b] ++ data). apply holds_app; [|exact Hh].
    eapply holds_frame; [|exact Ho|change (len32 [b]) with 1; lia]. intros [|i] c Hi; [|done]. injection Hi as <-. cbn. rewrite Z.add_0_r. apply lookup_insert_eq.
  - eapply same_outside_trans; [eapply same_outside_sub; [exact H1|lia|lia]|eapply same_outside_sub; [exact Ho|lia|lia]].
Qed.
Lemma post_ememcpy bad dst src n data h d w (Q : unit + Z -> W -> Prop) :
  len32 data = n -> holds h src data -> mapped h dst n -> src + n <= dst \/ dst + n <= src ->
  (forall h', holds h' dst data -> same_outside dst n h h' -> h' = set_h_cells (h_cells h') h -> Q (inl tt) (at_mem h' d w)) ->
  post bad (ememcpy dst src n) Q (at_mem h d w).
Proof.
  intros <- Hh Hm Hd HQ. destruct (copy_cells_spec h dst src data Hh Hm Hd) as (h' & Hc & Hh' & Ho & Hk).
  eapply post_eheap; [unfold len32; rewrite Nat2Z.id, Hc; reflexivity|by apply HQ].
Qed.
Lemma echo_ip_sum_eq hdr n c w : ip_sum (Some hdr) n tt = Ok (0, Some c) tt -> echo_ip_sum hdr n w = Ok (inl c) w.
Proof.
  unfold ip_sum, echo_ip_sum, body_out, sbind, fbind, DMTR_NOTNULL, DMTR_TRUE, need, normal, fret.
  destruct (ip_sum_loop _ _ _) as [s1|]; [|done]. destruct (ip_fold_loop _ _) as [s2|]; [|done]. by intros [= ->].
Qed.
Lemma post_echo_ip_sum bad n src dst w (Q : Z + Z -> W -> Prop) :
  Q (inl (ip_checksum n src dst)) w -> post bad (echo_ip_sum (words_of_bytes (ip_hdr_bytes n src dst)) sizeof_ipv4_hdr) Q w.
Proof. intros HQ. eapply post_eq; [apply echo_ip_sum_eq, ip_sum_hdr|exact HQ]. Qed.

(** ** Sending *)
Definition saddr_at h p (a : sockaddr_in) : Prop := holds h (p + 2) (u16_bytes (sin_port a)) /\ holds h (p + 4) (u32_bytes (sin_addr a)).

Lemma length_echo_mac ip : length (echo_ip_to_mac ip) = 6%nat.
Proof. unfold echo_ip_to_mac. cbn. by repeat destruct (_ =? _). Qed.

(** The address structure and the headers do not share memory. *)
Lemma post_put_headers bad e p src dst s_mac h d w (Q : unit + Z -> W -> Prop) :
  saddr_at h p dst -> saddr_ok dst -> p + 8 <= e \/ e + 42 <= p -> mapped h e 42 ->
  bound_port w = sin_port src -> bound_ip w = sin_addr src -> d_eth_macaddr_get (dw_port_id w) d = s_mac -> length s_mac = 6%nat ->
  (forall h', holds h' e (eth_header (echo_ip_to_mac (sin_addr dst)) s_mac ++ ip_header 7168 (sin_addr src) (sin_addr dst) ++
     udp_hdr_bytes (sin_port src) (sin_port dst) 2048) -> same_outside e 42 h h' -> h_brk h' = h_brk h -> Q (inl tt) (at_mem h' d w)) ->
  post bad (echo_put_headers e p) Q (at_mem h d w).
Proof.
  intros [Hp Ha] [Rp Ra] Hdis Hm Ebp Ebi Emac Lmac HQ. unfold echo_put_headers, sizeof_ether_hdr, sizeof_ipv4_hdr, sizeof_udp_hdr.
  rewrite post_sbind, post_get. cbn [dw_port_id dw_dev set_dw_mem bound_ip bound_port]. rewrite Emac.
  pose proof (length_echo_mac (sin_addr dst)) as Ld.
  assert (Lm : len32 s_mac = 6) by (unfold len32; lia). assert (Ldm : len32 (echo_ip_to_mac (sin_addr dst)) = 6) by (unfold len32; lia).
  assert (Sub : forall k n h1, 0 <= k -> k + n <= 42 -> mapped h1 e 42 -> mapped h1 (e + k) n) by (intros k n h1 ? ? H x Hx; apply H; lia).
  assert (Fr : forall h1 h2 k n, mapped h1 e 42 -> same_outside (e + k) n h1 h2 -> mapped h2 e 42) by (intros; by eapply mapped_frame).
  rewrite post_sbind. apply post_eput; rewrite Lm; [by apply Sub|]. intros h1 Hh1 S1 B1.
  rewrite post_sbind. eapply post_efetch; [eapply holds_frame; [exact Ha|exact S1|change (len32 (u32_bytes _)) with 4; lia]|done|].
  cbv zeta. rewrite u32_of_bytes_bytes by exact Ra.
  rewrite post_sbind. apply post_eput; rewrite Ldm; [rewrite <- (Z.add_0_r e); apply Sub; [lia|lia|by eapply Fr]|]. intros h2 Hh2 S2 B2.
  assert (M2 : mapped h2 e 42) by (rewrite <- (Z.add_0_r e) in S2; eapply Fr; [eapply Fr; [exact Hm|exact S1]|exact S2]).
  rewrite post_sbind. apply post_eput; change (len32 (u16_bytes _)) with 2; [by apply Sub|]. intros h3 Hh3 S3 B3.
  assert (M3 : mapped h3 e 42) by (eapply Fr; [exact M2|exact S3]).
  change (echo_ip_hdr_bytes (bound_ip w) (sin_addr dst) 0) with (ip_hdr_bytes 7168 (bound_ip w) (sin_addr dst)). rewrite Ebi, Ebp.
  rewrite post_sbind. apply post_eput; [by apply Sub|]. intros h4 Hh4 S4 B4. change (len32 (ip_hdr_bytes _ _ _)) with 20 in S4.
  assert (M4 : mapped h4 e 42) by (eapply Fr; [exact M3|exact S4]).
  rewrite post_sbind. eapply post_efetch; [exact Hh4|done|]. rewrite post_sbind. apply post_echo_ip_sum.
  rewrite post_sbind. apply post_eput; change (len32 (u16_bytes _)) with 2; [rewrite <- Z.add_assoc; by apply Sub|]. intros h5 Hh5 S5 B5.
  rewrite <- Z.add_assoc in S5. assert (M5 : mapped h5 e 42) by (eapply Fr; [exact M4|exact S5]).
  rewrite post_sbind. apply (post_efetch _ _ _ (u16_bytes (sin_port dst))); [|done|].
  { repeat (eapply holds_frame; [|eassumption|change (len32 (u16_bytes _)) with 2; lia]). exact Hp. }
  rewrite u16_of_bytes_bytes by exact Rp. 
  apply post_eput; [rewrite <- Z.add_assoc; by apply Sub|]. intros h6 Hh6 S6 B6. rewrite <- Z.add_assoc in S6.
  change (len32 (u16_bytes _ ++ _)) with 8 in S6. change (14 + 20) with 34 in *. change (14 + 10) with 24 in *. apply HQ.
  - apply holds_app; [|rewrite len32_eth by done; apply holds_app; [|rewrite len32_ip]].
    + unfold eth_header. apply holds_app; [|rewrite Ldm; apply holds_app; [|rewrite Lm]].
      * repeat (eapply holds_frame; [|eassumption|rewrite Ldm; lia]). exact Hh2.
      * repeat (eapply holds_frame; [|eassumption|rewrite Lm; lia]). exact Hh1.
      * rewrite <- Z.add_assoc. repeat (eapply holds_frame; [|eassumption|change (len32 (u16_bytes _)) with 2; lia]). exact Hh3.
    + unfold ip_header. rewrite ip_hdr_split in Hh4. apply holds_app; [|rewrite len32_prefix; apply holds_app].
      * repeat (eapply holds_frame; [|eassumption|rewrite len32_prefix; lia]). by apply holds_app_l in Hh4.
      * eapply holds_frame; [exact Hh5|exact S6|change (len32 (u16_bytes _)) with 2; lia].
      * apply holds_app_r, holds_app_r in Hh4. rewrite len32_prefix in Hh4. change (len32 (u16_bytes _)) with 2 in *.
        repeat (eapply holds_frame; [|eassumption|change (len32 (ip_addrs _ _)) with 8; lia]). exact Hh4.
    + replace (e + 14 + 20) with (e + 34) by lia. replace (e + 34) with (e + 14 + 20) by lia. exact Hh6.
  - repeat (eapply same_outside_trans; [eapply same_outside_sub; [eassumption|lia|lia]|]). apply same_outside_refl.
  - congruence.
Qed.

Lemma len32_field8 b z : length z = 7%nat -> len32 (field8 b z) = 8.
Proof. intros E. unfold len32, field8. cbn [length]. lia. Qed.
(** One byte of a field. *)
Lemma post_put_field bad p b z h d w (Q : unit + Z -> W -> Prop) :
  holds h (p + 1) z -> mapped h p 1 ->
  (forall h', holds h' p (field8 b z) -> same_outside p 1 h h' -> Q (inl tt) (at_mem h' d w)) ->
  post bad (eput p [b]) Q (at_mem h d w).
Proof.
  intros Hz Hm HQ. apply post_eput; [exact Hm|]. change (len32 [_]) with 1. intros h' Hh' S' _. apply HQ; [|exact S'].
  change (field8 b z) with ([b] ++ z). apply holds_app; [exact Hh'|]. eapply holds_frame; [exact Hz|exact S'|]. change (len32 [b]) with 1. lia.
Qed.
Lemma post_put_segment bad p buf data z a segs h d w (Q : Z * Z + Z -> W -> Prop) :
  holds h buf data -> mapped h p (8 + len32 data) -> holds h (p + 1) z -> length z = 7%nat ->
  buf + len32 data <= p \/ p + 8 + len32 data <= buf -> 58 + len32 data < 65536 ->
  (forall h', holds h' p (field8 (wrap 8 (len32 data)) z ++ data) -> same_outside p (8 + len32 data) h h' ->
    Q (inl (58 + len32 data, len32 data)) (at_mem h' d w)) ->
  post bad (echo_put_segs 1 (mk_sgelem buf (len32 data) a :: segs) p 50 0) Q (at_mem h d w).
Proof.
  intros Hd Hm Hz Lz Hdis Hlt HQ. pose proof (len32_field8 (wrap 8 (len32 data)) z Lz) as Lf. assert (0 <= len32 data) by (unfold len32; lia). cbn [echo_put_segs se_len se_buf].
  rewrite post_sbind. apply (post_put_field _ _ _ z); [exact Hz|intros x Hx; apply Hm; lia|]. intros h1 Hh1 S1.
  rewrite post_sbind. eapply post_ememcpy with (data := data);
    [done|eapply holds_frame; [exact Hd|exact S1|lia]|eapply mapped_frame; [|exact S1]; intros x Hx; apply Hm; lia|lia|].
  intros h2 Hh2 S2 _. rewrite post_normal, (wrap_small 16), (wrap_small 32) by (change (2 ^ 32) with 4294967296; lia).
  replace (50 + len32 data + 8) with (58 + len32 data) by lia. apply HQ.
  - apply holds_app; [eapply holds_frame; [exact Hh1|exact S2|lia]|by rewrite Lf].
  - eapply same_outside_trans; [eapply same_outside_sub; [exact S1|lia|lia]|eapply same_outside_sub; [exact S2|lia|lia]].
Qed.
(** An array of one segment on a host bound to [src], for the address [dst]
    stored at [p], and a card that gives out a packet whose two length fields
    hold [z1] and [z2] after their first bytes, and takes it. *)
Record echo_sends w (src dst : sockaddr_in) (p buf : Z) (data s_mac z1 z2 : list Z) (pkt room : Z) (h1 : heap) (d1 d3 : D) : Prop := {
  es_bound : is_bound_ w = true;
  es_peer : has_default_peer w = false;
  es_port : bound_port w = sin_port src;
  es_ip : bound_ip w = sin_addr src;
  es_dst : saddr_at (dw_heap w) p dst;
  es_ok : saddr_ok dst;
  es_data : holds (dw_heap w) buf data;
  es_len : 0 < len32 data /\ 58 + len32 data <= room /\ 58 + len32 data < 65536;
  es_given : mbuf_given (dw_port_id w) (dw_mbuf_pool w) room s_mac (dw_heap w) (dw_dev w) pkt h1 d1;
  es_stale1 : stale z1 /\ holds h1 (d_pktmbuf_mtod pkt d1 + 43) z1;
  es_stale2 : stale z2 /\ holds h1 (d_pktmbuf_mtod pkt d1 + 51) z2;
  es_tx : forall h, holds h (d_pktmbuf_mtod pkt d1) (echo_frame (echo_ip_to_mac (sin_addr dst)) s_mac src dst z1 z2 data) ->
    d_eth_tx_burst (dw_port_id w) 0 [pkt] h (d_mbuf_set_len pkt (58 + len32 data) (58 + len32 data) 1 d1) = (1, h, d3)
}.

Lemma dpdk_sendto_eq w src dst p buf data s_mac z1 z2 pkt room h1 d1 d3 sga :
  echo_sends w src dst p buf data s_mac z1 z2 pkt room h1 d1 d3 ->
  num_bufs sga = 1 -> se_buf <$> head (bufs sga) = Some buf -> se_len <$> head (bufs sga) = Some (len32 data) ->
  exists h', dpdk_sendto sga p w = Ok (len32 data) (at_mem h' d3 w) /\
    holds h' (d_pktmbuf_mtod pkt d1) (echo_frame (echo_ip_to_mac (sin_addr dst)) s_mac src dst z1 z2 data).
Proof.
  intros [Hb Hpeer Hbp Hbi [Hp2 Hp4] Hok Hd (Hpos & Hfit & Hlt) [Ha Hpkt Hroom Hfresh Hkeeps _ Hmac Lmac] [[Lz1 _] Hz1] [[Lz2 _] Hz2] Htx] Hn Hbuf Hlen.
  assert (Hwp : wp (dpdk_sendto sga p) (fun r w' => r = len32 data /\ exists h', w' = at_mem h' d3 w /\
    holds h' (d_pktmbuf_mtod pkt d1) (echo_frame (echo_ip_to_mac (sin_addr dst)) s_mac src dst z1 z2 data)) w); cycle 1.
  { apply wp_Ok in Hwp as (r & w' & E & -> & h' & -> & Hh'). by exists h'. }
  set (e := d_pktmbuf_mtod pkt d1) in *. destruct (bufs sga) as [|[b l a] segs] eqn:Esegs; [done|]. injection Hbuf as ->. injection Hlen as ->.
  assert (Hpd : p + 8 <= e \/ e + 42 <= p).
  { destruct (fresh_disjoint_range (dw_heap w) e room (p + 2) 6); [lia|lia|exact Hfresh| |lia|lia].
    intros x Hx. destruct (decide (x < p + 4)); [eapply holds_mapped; [exact Hp2|change (len32 (u16_bytes _)) with 2; lia]|
      eapply holds_mapped; [exact Hp4|change (len32 (u32_bytes _)) with 4; lia]]. }
  assert (Hdd : buf + len32 data <= e \/ e + room <= buf).
  { eapply fresh_disjoint_range; [lia|lia|exact Hfresh|]. intros x Hx. exact (holds_mapped _ _ _ _ Hd Hx). }
  assert (Kp : forall a bs, holds (dw_heap w) a bs -> holds h1 a bs) by (intros ? ? H i c Hc; by apply Hkeeps, H).
  assert (Msub : forall k n h, 0 <= k -> k + n <= room -> mapped h e room -> mapped h (e + k) n) by (intros k n h ? ? H x Hx; apply H; lia).
  unfold dpdk_sendto, sizeof_ether_hdr, sizeof_ipv4_hdr, sizeof_udp_hdr. rewrite post_body, post_sbind, post_get, Hb, post_sbind, post_normal.
  rewrite post_sbind, post_get, Hpeer. cbv zeta. rewrite post_sbind. unfold post at 1, edev_mem. rewrite Ha. cbv iota beta.
  rewrite post_sbind, (proj2 (Z.eqb_neq pkt 0)) by done. cbn [eassert negb]. rewrite post_normal.
  rewrite post_sbind, post_get. cbn [dw_dev set_dw_mem]. fold e. rewrite post_sbind.
  eapply (post_put_headers _ _ _ src dst s_mac); [split; by apply Kp|exact Hok|exact Hpd|rewrite <- (Z.add_0_r e); apply Msub; [lia|lia|exact Hroom]|
    exact Hbp|exact Hbi|exact Hmac|exact Lmac|].
  intros h2 Hh2 S2 _. assert (M2 : mapped h2 e room) by (eapply mapped_frame; [exact Hroom|exact S2]).
  replace (e + 14 + 20 + 8) with (e + 42) by lia. rewrite Hn, Esegs. change (Z.to_nat 1) with 1%nat. change (wrap 8 1) with 1.
  assert (Lz : len32 z1 = 7 /\ len32 z2 = 7) by (unfold len32; lia). destruct Lz as [Lz1' Lz2'].
  assert (Za : holds h2 (e + 43) z1) by (eapply holds_frame; [exact Hz1|exact S2|lia]).
  assert (Zb : holds h2 (e + 51) z2) by (eapply holds_frame; [exact Hz2|exact S2|lia]).
  replace (e + 43) with (e + 42 + 1) in Za by lia. replace (e + 51) with (e + 50 + 1) in Zb by lia.
  rewrite post_sbind. apply (post_put_field _ _ _ z1); [exact Za|apply Msub; [lia|lia|exact M2]|]. intros h3 Hh3 S3.
  assert (M3 : mapped h3 e room) by (eapply mapped_frame; [exact M2|exact S3]). replace (e + 42 + 8) with (e + 50) by lia.
  rewrite post_sbind. apply post_put_segment with (z := z2); [| |eapply holds_frame; [exact Zb|exact S3|lia]|exact Lz2|lia|lia|].
  { eapply holds_frame; [eapply holds_frame; [by apply Kp|exact S2|lia]|exact S3|lia]. }
  { apply Msub; [lia|lia|exact M3]. }
  intros h4 Hh4 S4.
  assert (Hfr : holds h4 e (echo_frame (echo_ip_to_mac (sin_addr dst)) s_mac src dst z1 z2 data)).
  { assert (Lh : len32 (eth_header (echo_ip_to_mac (sin_addr dst)) s_mac ++ ip_header 7168 (sin_addr src) (sin_addr dst) ++
      udp_hdr_bytes (sin_port src) (sin_port dst) 2048) = 42) by (rewrite !len32_app, len32_eth, len32_ip, len32_udp by (done || apply length_echo_mac); lia).
    unfold echo_frame, echo_payload. rewrite 2!app_assoc, <- (app_assoc (eth_header _ _)). apply holds_app; [|rewrite Lh; apply holds_app].
    - eapply holds_frame; [eapply holds_frame; [exact Hh2|exact S3|]|exact S4|]; rewrite Lh; lia.
    - eapply holds_frame; [exact Hh3|exact S4|]. rewrite len32_field8 by done. lia.
    - rewrite len32_field8 by done. replace (e + 42 + 8) with (e + 50) by lia. exact Hh4. }
  rewrite post_sbind. unfold post at 1, edev_do, edev. cbn [dw_dev dw_heap set_dw_mem]. rewrite post_sbind, post_get, post_sbind.
  unfold post at 1, edev_mem. cbn [dw_dev dw_heap set_dw_mem dw_port_id]. rewrite (Htx _ Hfr). cbv iota beta. rewrite post_sbind.
  change (1 =? 1) with true. cbn [eassert]. rewrite !post_normal. split; [lia|]. by exists h4.
Qed.

(** ** Receiving *)
Lemma u32_bytes_range bs : Forall (fun b => 0 <= b < 256) bs -> 0 <= u32_of_bytes bs < 2 ^ 32.
Proof.
  intros H. destruct bs as [|b0 [|b1 [|b2 [|b3 [|]]]]]; rewrite ?Forall_cons in H; cbn [u32_of_bytes]; lia.
Qed.
Lemma wrap8_range n : 0 <= wrap 8 n < 256.
Proof. apply (wrap_range 8). lia. Qed.

Lemma post_emalloc bad n h d w (Q : Z + Z -> W -> Prop) :
  heap_ok h -> 0 <= n ->
  (forall h', allocated (h_brk h) n h h' -> mapped h' (h_brk h) n -> Q (inl (h_brk h)) (at_mem h' d w)) ->
  post bad (eheap (malloc n)) Q (at_mem h d w).
Proof.
  intros (Hoom & Hbrk & Hfr) Hn HQ. eapply post_eheap; [by apply malloc_eq|]. apply HQ; [apply allocated_malloc|].
  intros x Hx. cbn. rewrite alloc_cells_lookup, decide_True by lia. by eexists.
Qed.

(** The length the receiver reads. *)
Definition read_length (data z : list Z) : Z := u64_of_bytes (field8 (wrap 8 (len32 data)) z).
Lemma u64_stale b z : 0 <= b < 256 -> stale z -> 0 <= u64_of_bytes (field8 b z) < 2 ^ 64.
Proof.
  intros Hb [_ Hz]. assert (H : Forall (fun b => 0 <= b < 256) (field8 b z)) by (by apply Forall_cons).
  pose proof (u32_bytes_range (take 4 (field8 b z)) (Forall_take _ _ _ H)). pose proof (u32_bytes_range (drop 4 (field8 b z)) (Forall_drop _ _ _ H)).
  unfold u64_of_bytes. change (2 ^ 64) with (2 ^ 32 * 2 ^ 32). nia.
Qed.
(** The low byte is the sender's: a stale field of zeros leaves it alone. *)
Lemma read_length_zeros data : read_length data (repeat 0 7) = len32 data mod 256.
Proof. unfold read_length, field8, u64_of_bytes, wrap. cbn [take drop repeat u32_of_bytes]. change (2 ^ 8) with 256. lia. Qed.
Lemma read_length_low data z : stale z -> read_length data z mod 256 = len32 data mod 256.
Proof.
  intros [Lz _]. destruct z as [|b1 [|b2 [|b3 [|b4 [|b5 [|b6 [|b7 [|]]]]]]]]; try discriminate Lz.
  unfold read_length, field8, u64_of_bytes, wrap. cbn [take drop u32_of_bytes].
  set (k := b1 + 2 ^ 8 * b2 + 2 ^ 16 * b3 + 2 ^ 24 * (b4 + 2 ^ 8 * b5 + 2 ^ 16 * b6 + 2 ^ 24 * b7)).
  match goal with |- ?x mod _ = _ => replace x with (len32 data mod 256 + k * 256) by (unfold k; change (2 ^ 8) with 256; ring) end.
  by rewrite Z_mod_plus_full, Zmod_mod.
Qed.
Lemma read_count z : take 3 z = [0; 0; 0] -> i32 (u64_of_bytes (field8 1 z)) = 1.
Proof.
  intros Ez. rewrite <- (take_drop 3 z), Ez. unfold field8, u64_of_bytes. change (drop 4 (1 :: [0; 0; 0] ++ drop 3 z)) with (drop 3 z).
  change (u32_of_bytes (take 4 (1 :: [0; 0; 0] ++ drop 3 z))) with 1. unfold i32, swrap, wrap. change (2 ^ (32 - 1)) with 2147483648.
  rewrite (Z.mul_comm (2 ^ 32)), <- Z.add_assoc, (Z.add_comm _ 2147483648), Z.add_assoc, Z_mod_plus_full. reflexivity.
Qed.
(** The loop on the one segment: as many bytes as its length says are copied. *)
Lemma post_get_segment bad p b z bytes e segs h d w (Q : list sgelem * Z + Z -> W -> Prop) :
  let n := u64_of_bytes (field8 b z) in
  0 <= n < 2 ^ 63 -> stale z -> heap_ok h -> holds h p (field8 b z) -> holds h (p + 8) bytes -> len32 bytes = n -> head segs = Some e ->
  (forall h', allocated (h_brk h) n h h' -> holds h' (h_brk h) bytes ->
    Q (inl (mk_sgelem (h_brk h) n (se_addr e) :: tail segs, n)) (at_mem h' d w)) ->
  post bad (echo_get_segs 1 0 p 0 segs) Q (at_mem h d w).
Proof.
  intros n Hn [Lz _] Hh Hf Hsrc Lsrc He HQ. destruct segs as [|e' segs]; [done|]. injection He as ->.
  cbn [echo_get_segs]. rewrite post_sbind. eapply post_efetch; [exact Hf|by apply len32_field8|]. fold n. cbv zeta. rewrite post_sbind, post_need. cbn [lookup list_lookup].
  rewrite post_sbind. apply post_emalloc; [exact Hh|lia|]. intros h1 Hal Hm. destruct Hh as (Hoom & Hbrk & Hfr).
  assert (Hdis : p + 8 + n <= h_brk h \/ h_brk h + n <= p + 8).
  { destruct (decide (n = 0)); [lia|]. eapply (fresh_disjoint_range h); [| |intros x Hx; apply Hfr; lia|intros x Hx; eapply holds_mapped; [exact Hsrc|]]; lia. }
  rewrite post_sbind. apply post_ememcpy with (data := bytes); [exact Lsrc|by eapply allocated_holds|exact Hm|exact Hdis|]. intros h2 Hh2 S2 B2.
  rewrite post_normal. cbn [insert list_insert tail]. rewrite swrap_small by (change (2 ^ (64 - 1)) with (2 ^ 63); lia).
  apply HQ; [|exact Hh2]. eapply allocated_store; [exact Hal| |reflexivity|reflexivity|by rewrite B2..].
  intros x Hx. apply (proj1 S2). lia.
Qed.

(** Writing the address of the sender to [p]. *)
Definition put_src (p udp_hdr ip_hdr : Z) : stmt W unit :=
  eput p (repeat 0 16) ;;
  eput p (u16_bytes AF_INET) ;;
  bs <- efetch udp_hdr 2 ;
  eput (p + 2) bs ;;
  bs <- efetch (ip_hdr + 12) 4 ;
  eput (p + 4) bs.
Lemma post_put_src bad p u i (src : sockaddr_in) h d w (Q : unit + Z -> W -> Prop) :
  mapped h p 16 -> holds h u (u16_bytes (sin_port src)) -> holds h (i + 12) (u32_bytes (sin_addr src)) ->
  u + 2 <= p \/ p + 16 <= u -> i + 16 <= p \/ p + 16 <= i + 12 ->
  (forall h', saddr_at h' p src -> same_outside p 16 h h' -> Q (inl tt) (at_mem h' d w)) ->
  post bad (put_src p u i) Q (at_mem h d w).
Proof.
  intros Hm Hu Hi Du Di HQ. unfold put_src. rewrite post_sbind. apply post_eput; [exact Hm|]. intros h1 _ S1 _. change (len32 (repeat 0 16)) with 16 in S1.
  assert (Sub : forall h k n, mapped h p 16 -> 0 <= k -> k + n <= 16 -> mapped h (p + k) n) by (intros h' k n H ? ? x Hx; apply H; lia).
  assert (M1 : mapped h1 p 16) by (eapply mapped_frame; [exact Hm|exact S1]).
  rewrite post_sbind. apply post_eput; [rewrite <- (Z.add_0_r p); apply Sub; [exact M1|lia|change (len32 (u16_bytes _)) with 2; lia]|].
  intros h2 _ S2 _. change (len32 (u16_bytes _)) with 2 in S2. assert (M2 : mapped h2 p 16) by (eapply mapped_frame; [exact M1|exact S2]).
  rewrite post_sbind. eapply post_efetch; [eapply holds_frame; [eapply holds_frame; [exact Hu|exact S1|]|exact S2|]; change (len32 (u16_bytes _)) with 2; lia|done|].
  rewrite post_sbind. apply post_eput; change (len32 (u16_bytes _)) with 2; [apply Sub; [exact M2|lia|lia]|]. intros h3 Hh3 S3 _.
  assert (M3 : mapped h3 p 16) by (eapply mapped_frame; [exact M2|exact S3]).
  rewrite post_sbind. eapply post_efetch;
    [eapply holds_frame; [eapply holds_frame; [eapply holds_frame; [exact Hi|exact S1|]|exact S2|]|exact S3|]; change (len32 (u32_bytes _)) with 4; lia|done|].
  apply post_eput; change (len32 (u32_bytes _)) with 4; [apply Sub; [exact M3|lia|lia]|]. intros h4 Hh4 S4 _. apply HQ.
  - split; [eapply holds_frame; [exact Hh3|exact S4|change (len32 (u16_bytes _)) with 2; lia]|exact Hh4].
  - repeat (eapply same_outside_trans; [eapply same_outside_sub; [eassumption|lia|lia]|]). apply same_outside_refl.
Qed.

(** A packet of memory that holds a frame for this host, with [after] behind it.
    The stale bytes of the number of segments say one, those of the length do
    not go past the memory of the packet. *)
Record echo_packet w (src dst : sockaddr_in) (d_mac s_mac z1 z2 data after : list Z) (m : Z) (h1 : heap) (d1 : D) : Prop := {
  ep_heap : heap_ok h1;
  ep_frame : holds h1 (d_pktmbuf_mtod m d1) (echo_frame d_mac s_mac src dst z1 z2 data ++ after);
  ep_stale : stale z1 /\ stale z2;
  ep_count : take 3 z1 = [0; 0; 0];
  ep_length : read_length data z2 <= len32 (data ++ after) < 2 ^ 63;
  ep_macs : length d_mac = 6%nat /\ length s_mac = 6%nat;
  ep_src : saddr_ok src;
  ep_dst : saddr_ok dst;
  ep_bound : is_bound_ w = true -> bound_ip w = sin_addr dst /\ bound_port w = sin_port dst;
  ep_free : forall h, exists h' d', d_pktmbuf_free m h d1 = (h', d') /\
    (forall x, ~ (d_pktmbuf_mtod m d1 <= x < d_pktmbuf_mtod m d1 + (58 + len32 (data ++ after))) -> h_cells h' !! x = h_cells h !! x)
}.

Lemma post_take_packet bad w src dst d_mac s_mac z1 z2 data after m h1 d1 sga p e (Q : Z * sgarray + Z -> W -> Prop) :
  echo_packet w src dst d_mac s_mac z1 z2 data after m h1 d1 -> head (bufs sga) = Some e ->
  p <> 0 -> mapped h1 p 16 -> p + 16 <= d_pktmbuf_mtod m d1 \/ d_pktmbuf_mtod m d1 + 58 + len32 (data ++ after) <= p ->
  let n := read_length data z2 in
  (forall h' d', holds h' (h_brk h1) (take (Z.to_nat n) (data ++ after)) -> saddr_at h' p src ->
    Q (inl (n, mk_dpdk_sgarray 1 (mk_sgelem (h_brk h1) n (se_addr e) :: tail (bufs sga)) (sg_addr sga))) (at_mem h' d' w)) ->
  post bad (echo_take_packet m sga p) Q (at_mem h1 d1 w).
Proof.
  intros [Hh1 Hf0 [Hz1 Hz2] Hcount [Hle Hlt] [Hld Hls] [Rsp Rsa] [Rdp Rda] Hbnd Hfree] He Hp Hm Hdis n HQ. set (E := d_pktmbuf_mtod m d1) in *.
  pose proof (holds_app_l _ _ _ _ Hf0) as Hf. destruct (header_parts _ _ _ _ _ _ _ _ _ _ _ Hf Hld Hls) as (_ & Fty & Fpr & Fsip & Fdip & Fsp & Fdp & Fpl).
  pose proof (u64_stale _ z2 (wrap8_range (len32 data)) Hz2) as Hn. fold (read_length data z2) in Hn. fold n in Hn, Hle.
  assert (Lfr : len32 (echo_frame d_mac s_mac src dst z1 z2 data) = 58 + len32 data)
    by (destruct Hz1, Hz2; unfold echo_frame, echo_payload; rewrite !len32_app, len32_eth, len32_ip, len32_udp, !len32_field8 by done; lia).
  pose proof (holds_app_r _ _ _ _ Hf0) as Haft. rewrite Lfr in Haft.
  assert (Hb1 : is_bound_ w && negb (sin_addr dst =? bound_ip w) = false /\ is_bound_ w && negb (sin_port dst =? bound_port w) = false).
  { destruct (is_bound_ w); [|done]. destruct Hbnd as [-> ->]; [done|]. by rewrite !Z.eqb_refl. }
  destruct Hb1 as [Hb1 Hb2]. unfold echo_take_packet, sizeof_ether_hdr, sizeof_ipv4_hdr, sizeof_udp_hdr. rewrite post_sbind, post_get. cbn [dw_dev set_dw_mem]. fold E. cbv zeta.
  rewrite post_sbind. eapply post_efetch; [exact Fty|done|]. rewrite u16_of_bytes_bytes by apply htons_range. rewrite ntohs_htons by (unfold RTE_ETHER_TYPE_IPV4; lia).
  change (negb (RTE_ETHER_TYPE_IPV4 =? RTE_ETHER_TYPE_IPV4)) with false. cbn iota.
  rewrite post_sbind. eapply post_efetch; [exact Fpr|done|]. rewrite post_sbind. eapply post_efetch; [exact Fdip|done|].
  rewrite u32_of_bytes_bytes by done. cbn [is_bound_ bound_ip bound_port set_dw_mem]. rewrite Hb1. rewrite bool_decide_true by done. cbn [negb].
  rewrite post_sbind. eapply post_efetch; [exact Fdp|done|]. rewrite u16_of_bytes_bytes by done. rewrite Hb2.
  unfold echo_payload in Fpl. pose proof (holds_app_l _ _ _ _ Fpl) as Fn. apply holds_app_r in Fpl. rewrite len32_field8 in Fpl by apply Hz1.
  pose proof (holds_app_l _ _ _ _ Fpl) as Fl. apply holds_app_r in Fpl. rewrite len32_field8 in Fpl by apply Hz2.
  assert (Hda : holds h1 (E + 14 + 20 + 8 + 8 + 8) (data ++ after)).
  { apply holds_app; [|replace (E + 14 + 20 + 8 + 8 + 8 + len32 data) with (E + (58 + len32 data)) by lia; exact Haft].
    exact Fpl. }
  assert (Hlen : len32 (take (Z.to_nat n) (data ++ after)) = n) by (unfold len32 in *; rewrite length_take; lia).
  assert (Hby : holds h1 (E + 14 + 20 + 8 + 8 + 8) (take (Z.to_nat n) (data ++ after))).
  { rewrite <- (take_drop (Z.to_nat n) (data ++ after)) in Hda. by apply holds_app_l in Hda. }
  rewrite post_sbind. eapply post_efetch; [exact Fn|apply len32_field8, Hz1|]. rewrite (read_count _ Hcount). change (Z.to_nat 1) with 1%nat.
  rewrite post_sbind. eapply post_get_segment with (bytes := take (Z.to_nat n) (data ++ after)); [split; [apply Hn|]; unfold read_length in *; lia|exact Hz2|exact Hh1|exact Fl|exact Hby|exact Hlen|exact He|].
  fold (read_length data z2). fold n. intros h2 Hal Hh2. cbv iota beta.
  destruct Hh1 as (Hoom & Hbrk & Hfr). pose proof (fun x H => proj1 (Hfr x H)) as Hfresh.
  assert (Hbuf : forall q k, 0 < k -> (forall x, q <= x < q + k -> is_Some (h_cells h1 !! x)) -> n = 0 \/ q + k <= h_brk h1 \/ h_brk h1 + n <= q).
  { intros q k Hk Hq. destruct (decide (n = 0)); [by left|right]. eapply (fresh_disjoint_range h1); [lia|lia| |exact Hq]. intros x Hx. apply Hfresh. lia. }
  assert (M2 : mapped h2 p 16).
  { intros x Hx. rewrite (al_cells _ _ _ _ Hal); [by apply Hm|]. destruct (Hbuf p 16); [lia|exact Hm|lia|lia]. }
  rewrite post_sbind, (proj2 (Z.eqb_neq p 0)) by done. cbn [negb].
  eapply (post_put_src _ p (E + 14 + 20) (E + 14) src); [exact M2|by eapply allocated_holds|by eapply allocated_holds|lia|lia|].
  intros h3 [Hs2 Hs4] S3. destruct (Hfree h3) as (h4 & d4 & Hfr4 & S4). rewrite post_sbind. unfold post at 1, edev_mem. cbn [dw_heap dw_dev set_dw_mem]. rewrite Hfr4.
  cbv iota beta. rewrite post_normal. apply HQ.
  - destruct (decide (n = 0)) as [E0|Hne]; [rewrite E0; apply holds_nil|].
    assert (Hd3 : holds h3 (h_brk h1) (take (Z.to_nat n) (data ++ after))).
    { eapply holds_frame; [exact Hh2|exact S3|]. rewrite Hlen. destruct (Hbuf p 16); [lia|exact Hm|lia|lia]. }
    intros i b Hb. rewrite S4; [by apply Hd3|]. apply lookup_lt_Some in Hb. unfold len32 in Hlen.
    destruct (Hbuf E (58 + len32 (data ++ after))); [lia| |lia|lia]. intros x Hx. eapply holds_mapped; [exact Hf0|].
    rewrite len32_app, Lfr. rewrite len32_app in Hx. lia.
  - split; [intros i b Hb; rewrite S4; [by apply Hs2|]|intros i b Hb; rewrite S4; [by apply Hs4|]]; apply lookup_lt_Some in Hb;
      [change (length (u16_bytes _)) with 2%nat in Hb|change (length (u32_bytes _)) with 4%nat in Hb]; lia.
Qed.

(** The card has one packet. *)
Lemma dpdk_recvfrom_eq w src dst d_mac s_mac z1 z2 data after m h1 d1 sga p e :
  num_packets w = 0 -> d_eth_rx_burst (dw_port_id w) 0 MAX_PKTS (dw_heap w) (dw_dev w) = ([m], h1, d1) ->
  echo_packet w src dst d_mac s_mac z1 z2 data after m h1 d1 -> head (bufs sga) = Some e ->
  p <> 0 -> mapped h1 p 16 -> p + 16 <= d_pktmbuf_mtod m d1 \/ d_pktmbuf_mtod m d1 + 58 + len32 (data ++ after) <= p ->
  let n := read_length data z2 in
  exists w', dpdk_recvfrom sga p w =
      Ok (inl (n, mk_dpdk_sgarray 1 (mk_sgelem (h_brk h1) n (se_addr e) :: tail (bufs sga)) (sg_addr sga))) w' /\
    holds (dw_heap w') (h_brk h1) (take (Z.to_nat n) (data ++ after)) /\ saddr_at (dw_heap w') p src /\ num_packets w' = 0.
Proof.
  intros Hnum Hrx Hpk He Hp Hm Hdis n.
  assert (Hwp : wp (dpdk_recvfrom sga p) (fun r w' => r = inl (n, mk_dpdk_sgarray 1 (mk_sgelem (h_brk h1) n (se_addr e) :: tail (bufs sga)) (sg_addr sga)) /\
    holds (dw_heap w') (h_brk h1) (take (Z.to_nat n) (data ++ after)) /\ saddr_at (dw_heap w') p src /\ num_packets w' = 0) w); cycle 1.
  { apply wp_Ok in Hwp as (r & w' & E & -> & ? & ? & ?). by exists w'. }
  unfold dpdk_recvfrom. rewrite post_sbind, post_get, Hnum. change (0 =? 0) with true. cbn iota.
  rewrite post_sbind, post_sbind. unfold post at 1, edev_mem. rewrite Hrx. cbv iota beta. rewrite post_modify.
  cbn [List.length]. rewrite post_sbind, post_get. cbn [num_packets set_packets set_dw_mem]. change (Z.of_nat 1 =? 0) with false. cbn iota.
  change (Z.of_nat 1 =? 1) with true. cbn [eassert]. rewrite post_sbind, post_normal, post_sbind, post_need. cbn [pkt_buffer pkt_idx set_packets]. change ([m] !! Z.to_nat 0) with (Some m). cbv iota beta.
  rewrite post_sbind, post_modify. match goal with |- post _ _ _ ?x => change x with (at_mem h1 d1 (set_packets [m] 0 1 w)) end.
  eapply post_take_packet; [|exact He|exact Hp|exact Hm|exact Hdis|].
  - destruct Hpk as [H1 H2 H3 H4 H5 H6 H7 H8 H9 H10]. by split.
  - intros h' d' Hd Hs. done.
Qed.
End echo_wire.

(** ** The property *)

(** C35: a datagram of one segment between two hosts of the echo programs, in a
    packet of the card whose memory may have been used before.  [dpdk_sendto]
    gives the card the frame of the bytes, with a valid header checksum, and
    reports all of them as sent; it writes one byte of the eight of each length
    field, the others, [z1] and [z2], are what the packet held.  On the host the
    frame is for, when the stale bytes of the number of segments leave it one
    and the length read does not pass the memory of the packet, [dpdk_recvfrom]
    returns an array of as many bytes as the eight bytes of the length say, from
    the message on and past its end if they are more, in a block of its own,
    with the sender's address, and frees the packet.  That length is the
    message's modulo 256 only; it is [len mod 256] when the stale bytes are
    zero, so that a message arrives whole when it is shorter than 256 bytes and
    the packet was clean. *)
Theorem echo_datagram {D} `{DP : Dpdk D} (ws wr : dworld D) src dst p buf data s_mac z1 z2 pkt room h1 d1 d3 sga after m h2 d2 res q e :
  echo_sends ws src dst p buf data s_mac z1 z2 pkt room h1 d1 d3 ->
  num_bufs sga = 1 -> se_buf <$> head (bufs sga) = Some buf -> se_len <$> head (bufs sga) = Some (len32 data) ->
  num_packets wr = 0 -> d_eth_rx_burst (dw_port_id wr) 0 MAX_PKTS (dw_heap wr) (dw_dev wr) = ([m], h2, d2) ->
  echo_packet wr src dst (echo_ip_to_mac (sin_addr dst)) s_mac z1 z2 data after m h2 d2 -> head (bufs res) = Some e ->
  q <> 0 -> mapped h2 q 16 -> q + 16 <= d_pktmbuf_mtod m d2 \/ d_pktmbuf_mtod m d2 + 58 + len32 (data ++ after) <= q ->
  let n := u64_of_bytes (len32 data mod 256 :: z2) in
  (exists h', dpdk_sendto sga p ws = Ok (len32 data) (set_dw_mem h' d3 ws) /\
    holds h' (d_pktmbuf_mtod pkt d1) (echo_frame (echo_ip_to_mac (sin_addr dst)) s_mac src dst z1 z2 data)) /\
  ip_sum (Some (words_of_bytes (ip_header 7168 (sin_addr src) (sin_addr dst)))) sizeof_ipv4_hdr tt = Ok (0, Some 0) tt /\
  (exists wr', dpdk_recvfrom res q wr =
      Ok (inl (n, mk_dpdk_sgarray 1 (mk_sgelem (h_brk h2) n (se_addr e) :: tail (bufs res)) (sg_addr res))) wr' /\
    holds (dw_heap wr') (h_brk h2) (take (Z.to_nat n) (data ++ after)) /\ saddr_at (dw_heap wr') q src) /\
  n mod 256 = len32 data mod 256 /\ (z2 = repeat 0 7 -> n = len32 data mod 256).
Proof.
  intros Hs Hn Hb Hl Hnum Hrx Hpk He Hq Hm Hdis n. split; [by eapply dpdk_sendto_eq|]. split; [apply ip_header_checks|].
  destruct (dpdk_recvfrom_eq wr src dst (echo_ip_to_mac (sin_addr dst)) s_mac z1 z2 data after m h2 d2 res q e) as (wr' & H & Hd & Ha & _); [done..|].
  split; [by exists wr'|]. split; [apply (read_length_low data z2), (proj1 (es_stale2 _ _ _ _ _ _ _ _ _ _ _ _ _ _ Hs))|].
  intros ->. apply (read_length_zeros data).
Qed.

(** ** Witness

    A card whose packets hold nines after the number of segments, and the byte 1
    in the length: of a message of three bytes 259 arrive, with what follows it
    in the packet. *)
Definition stale_count : list Z := [0; 0; 0; 9; 9; 9; 9].
Definition stale_length : list Z := [1; 0; 0; 0; 0; 0; 0].
Definition used_packet : list Z := repeat 5 43 ++ stale_count ++ [5] ++ stale_length ++ repeat 5 454.
Definition old_nic : Dpdk (list Z) := {|
  dpdk_config_path _ _ := None;
  dpdk_access_R_OK _ _ := 0;
  dpdk_yaml_load _ _ := mk_lwip_config None None None;
  inet_pton _ := None;
  d_eal_init _ d := (0, 0, d);
  d_eth_dev_count_avail _ := 1;
  d_eth_devs _ := [0];
  d_socket_id _ := 0;
  d_pktmbuf_pool_create _ _ _ _ _ _ d := (1, 0, d);
  d_eth_dev_is_valid_port p _ := p =? 0;
  d_eth_dev_set_mtu _ _ d := (0, d);
  d_eth_dev_get_mtu _ d := (0, d);
  d_eth_dev_info_get _ d := d;
  d_eth_dev_configure _ _ _ _ d := (0, d);
  d_eth_dev_socket_id _ _ := 0;
  d_eth_rx_queue_setup _ _ _ _ _ _ d := (0, d);
  d_eth_tx_queue_setup _ _ _ _ _ d := (0, d);
  d_eth_dev_start _ d := (0, d);
  d_eth_promiscuous_enable _ d := d;
  d_eth_dev_flow_ctrl_get _ d := (0, mk_fc_conf 0, d);
  d_eth_dev_flow_ctrl_set _ _ d := (0, d);
  d_eth_link_get_nowait _ d := (mk_link 10000 1 1, d);
  d_delay_ms _ d := d;
  d_eth_macaddr_get _ _ := nic_mac;
  d_eth_rx_burst _ _ n h d := (take (Z.to_nat n) d, h, drop (Z.to_nat n) d);
  d_eth_tx_burst _ _ pkts h d := (Z.of_nat (List.length pkts), h, d);
  d_pktmbuf_alloc _ h d :=
    match store_bytes (h_brk h) used_packet (mk_heap (alloc_cells 512 (h_brk h) (h_cells h)) (h_blocks h) (h_brk h + 512) (h_oom h)) with
    | Ok _ h' => (h_brk h, h', d)
    | _ => (0, h, d)
    end;
  d_pktmbuf_free _ h d := (h, d);
  d_pktmbuf_mtod p _ := p;
  d_mbuf_set_len _ _ _ _ d := d;
  uninitialised d := ((sockaddr_zero, sockaddr_zero, sgarray_zero), d)
|}.

Definition echo_src : sockaddr_in := mk_sockaddr_in 2 (htons 7000) 0x040c0c0c 0.
Definition echo_dst : sockaddr_in := mk_sockaddr_in 2 (htons 7001) 0x050c0c0c 0.
Definition echo_data : list Z := [1; 2; 3].
Definition stored (p : Z) (bs : list Z) (h : heap) : heap := match store_bytes p bs h with Ok _ h' => h' | _ => h end.
(** The bytes at 16, the receiver's address at 300. *)
Definition echo_heap : heap :=
  stored 302 (u16_bytes (sin_port echo_dst) ++ u32_bytes (sin_addr echo_dst))
    (stored 16 echo_data (mk_heap (alloc_cells 400 16 ∅) ∅ 4096 (fun _ _ => false))).
Definition echo_mbuf_heap : heap := match d_pktmbuf_alloc (Dpdk := old_nic) 1 echo_heap [] with (_, h, _) => h end.
Definition echo_ws : dworld (list Z) := set_bound true (sin_port echo_src) (sin_addr echo_src) (dworld_start echo_heap []).
(** The receiver: the frame is at 4096, an address structure at 300. *)
Definition echo_rx_heap : heap :=
  stored 4096 (echo_frame (echo_ip_to_mac (sin_addr echo_dst)) nic_mac echo_src echo_dst stale_count stale_length echo_data ++ repeat 5 451)
    (mk_heap (alloc_cells 400 16 (alloc_cells 512 4096 ∅)) ∅ 8192 (fun _ _ => false)).
Definition echo_wr : dworld (list Z) := set_bound true (sin_port echo_dst) (sin_addr echo_dst) (dworld_start echo_rx_heap [4096]).

Lemma cells_hold h p bs : load_cells (length bs) p (h_cells h) = Some bs -> holds h p bs.
Proof. intros E. apply load_cells_Some in E as [_ E]. exact E. Qed.
Lemma range_check (P : Z -> Prop) `{!forall x, Decision (P x)} a n :
  forallb (fun x => bool_decide (P x)) (seqZ a n) = true -> forall x, a <= x < a + n -> P x.
Proof. intros Hall x Hx. rewrite forallb_forall in Hall. eapply bool_decide_eq_true, Hall, list_elem_of_In, elem_of_seqZ. lia. Qed.
Lemma heap_ok_check m brk :
  0 < brk -> bool_decide (map_Forall (fun x _ => x < brk) m) = true -> heap_ok (mk_heap m ∅ brk (fun _ _ => false)).
Proof.
  intros Hb H%bool_decide_eq_true. split; [done|]. split; [done|]. intros x Hx. cbn in *. split; [|apply lookup_empty].
  destruct (m !! x) eqn:E; [|done]. apply H in E. lia.
Qed.

Lemma stale_demo2 : stale stale_count.
Proof. split; [reflexivity|]. unfold stale_count, stale_length. rewrite !Forall_cons. repeat split; lia || apply Forall_nil_2. Qed.
Lemma stale_demo3 : stale stale_length.
Proof. split; [reflexivity|]. unfold stale_count, stale_length. rewrite !Forall_cons. repeat split; lia || apply Forall_nil_2. Qed.
Lemma echo_sends_demo : echo_sends (DP := old_nic) echo_ws echo_src echo_dst 300 16 echo_data nic_mac stale_count stale_length 4096 512 echo_mbuf_heap [] [].
Proof.
  split; try reflexivity.
  - split; apply cells_hold; vm_compute; reflexivity.
  - vm_compute. repeat split; congruence.
  - apply cells_hold. vm_compute. reflexivity.
  - vm_compute. repeat split; congruence.
  - split; try reflexivity.
    + done.
    + intros x Hx. change (d_pktmbuf_mtod 4096 []) with 4096 in Hx. revert x Hx. apply (range_check (fun x => is_Some (h_cells echo_mbuf_heap !! x))). vm_compute. reflexivity.
    + change (d_pktmbuf_mtod 4096 []) with 4096. apply (range_check (fun x => h_cells echo_heap !! x = None)). vm_compute. reflexivity.
    + change (map_Forall (fun x v => h_cells echo_mbuf_heap !! x = Some v) (h_cells echo_heap)). eapply bool_decide_eq_true. vm_compute. reflexivity.
  - split; [exact stale_demo2|]. apply cells_hold. vm_compute. reflexivity.
  - split; [exact stale_demo3|]. apply cells_hold. vm_compute. reflexivity.
Qed.
Lemma echo_packet_demo :
  echo_packet (DP := old_nic) echo_wr echo_src echo_dst (echo_ip_to_mac (sin_addr echo_dst)) nic_mac stale_count stale_length echo_data (repeat 5 451) 4096 echo_rx_heap [].
Proof.
  split; try reflexivity.
  - change (heap_ok (mk_heap (h_cells echo_rx_heap) ∅ 8192 (fun _ _ => false))). apply heap_ok_check; [lia|]. vm_compute. reflexivity.
  - apply cells_hold. vm_compute. reflexivity.
  - split; [exact stale_demo2|exact stale_demo3].
  - vm_compute. split; [discriminate|reflexivity].
  - done.
  - vm_compute. repeat split; congruence.
  - vm_compute. repeat split; congruence.
  - done.
  - intros h. by exists h, [].
Qed.

Lemma echo_datagram_witness :
  let msg := mk_dpdk_sgarray 1 [mk_sgelem 16 3 0] sockaddr_zero in
  (exists h', dpdk_sendto (DP := old_nic) msg 300 echo_ws = Ok 3 (set_dw_mem h' [] echo_ws)) /\
  exists wr' segs, dpdk_recvfrom (DP := old_nic) sgarray_init 300 echo_wr = Ok (inl (259, mk_dpdk_sgarray 1 (mk_sgelem 8192 259 0 :: segs) sockaddr_zero)) wr' /\
    holds (dw_heap wr') 8192 (1 :: 2 :: 3 :: repeat 5 256).
Proof.
  destruct (echo_datagram (DP := old_nic) echo_ws echo_wr echo_src echo_dst 300 16 echo_data nic_mac stale_count stale_length 4096 512 echo_mbuf_heap [] []
    (mk_dpdk_sgarray 1 [mk_sgelem 16 3 0] sockaddr_zero) (repeat 5 451) 4096 echo_rx_heap [] sgarray_init 300 (mk_sgelem 0 0 0)) as ((h' & Hs & _) & _ & (wr' & Hr & Hd & _) & _);
    [exact echo_sends_demo|reflexivity|reflexivity|reflexivity|reflexivity|reflexivity|exact echo_packet_demo|reflexivity|lia| |vm_compute; by left|].
  - intros x. apply (range_check (fun x => is_Some (h_cells echo_rx_heap !! x))). vm_compute. reflexivity.
  - split; [by exists h'|]. eexists wr', _. split; [exact Hr|exact Hd].
Defined.
